(* ===== verification/_CoqProject ===== *)
-Q . S2P
Prelude.v
Bof.v
Hwr.v
Driver.v
HwrRhino.v
Bkexecd.v
Exec.v
ProcBorph.v
RhinoRegs.v
ElfDef.v
Mkbof.v
Showbof.v
EndToEnd.v
Examples.v
GpmcTest.v
ExamplesGpmc.v
Bits.v
HwEcc.v
NandEcc.v
Xnand.v
Bch.v
BchGf.v
BchField.v
BchPoly.v
BchBerlekamp.v
BchSyn.v
BchGen.v
BchDecode.v
BchPage.v
ExamplesBch.v
Fat.v
Mmc.v
XBoot.v
ExamplesMmc.v
ExamplesBoot.v
I2cTools.v
ExamplesI2c.v
Printf.v
Serial.v
Console.v
ExamplesConsole.v
Clocks.v
ExamplesClocks.v
Gpio.v
Spi.v
UBoot.v
I2cUBoot.v
UBootApps.v
ExamplesUBoot.v
PowerTools.v
Monitor.v
ExamplesPower.v
Mtd.v
MtdOps.v
BoardFlash.v
ExamplesFlash.v
