(* ===== verification/Prelude.v ===== *)
(** * RHINO platform software

A verification of the software of the RHINO board (an AM3517 ARM processor next to a
Spartan-6 FPGA): the boot loader that brings up the processor, the BORPH extension of
Linux that runs FPGA designs as processes, and the host tools that build and show
executable files for it.

** The program and its parts

- A BOF file ([src/borph/include/linux/bof.h]) is an ELF program together with an FPGA
  bitstream and a table of named registers.  [mkbof] builds one on the host,
  [showbof] prints one.
- Executing a BOF file enters [load_bof_binary] ([src/borph/fs/binfmt_bof.c]), which
  queues it for the kernel thread of [src/borph/kernel/bkexecd.c].  The thread reads
  the file, reserves an FPGA through the registry of [src/borph/kernel/hwr/common.c]
  and has the driver of [src/borph/kernel/hwr/hwrtype_rhino.c] send the bitstream over
  SPI.  Then the ELF part starts as the process.
- The process finds its registers as files ([src/borph/fs/proc/proc_borph.c]), whose
  reads and writes go through the registry to the driver and to the bus.  When it
  exits, [src/borph/kernel/borph.c] gives everything back.
- Before all that, the boot loader ([src/x-loader/]) sets up pins, clocks and memory,
  loads U-Boot from NAND flash or from an SD card with a FAT file system and jumps to
  it, with messages on the serial port.
- U-Boot ([src/u-boot/]) sets up the memory bus with the windows of the FPGA, the pins
  and the I2C buses, and runs test programs for the board
  ([src/u-boot/examples/standalone/]).
- Linux keeps the flash in partitions ([src/borph/drivers/mtd/mtdpart.c]) by the table of
  the board ([src/borph/arch/arm/mach-omap2/board-rhino.c]), over the blocks from which
  the boot loader and U-Boot load the next stage.
- An example design for the FPGA ([src/examples/gpmc_test/]) puts registers on the bus.
- On the running system, the utilities of [src/utils/util/] read sensors, program the
  fan controller over the I2C bus, and switch lamps, rails and mezzanine cards through
  the GPIO files of Linux.

** Files

- [Prelude]: results with C faults, the state-and-fault monad with its notation and
  rules, machine integers, little-endian bytes, lists and their lemmas, tactics and
  hint databases.
- [Bof]: [bof.h] and [hbyteorder.h]; records, byte images, byte swaps.
- [Hwr]: [common.c] and [kernel_read] of [fs/exec.c]; the kernel state that the BORPH
  parts share ([kstate]), registration, reservation and reference counts.
- [Driver]: the class [HwrDriver], what a driver promises to the loader and to the
  register files.  [HwrRhino] proves it of the RHINO driver; the theorems of
  [Bkexecd], [Exec] and [ProcBorph] hold for every driver that keeps it.
- [HwrRhino]: [hwrtype_rhino.c]; module init and cleanup, configuration, bus access.
- [Bkexecd]: [borph_load_hw] of [bkexecd.c] and [borph_exit_fpga] of [borph.c].
- [Exec]: [get_args], [run_execq] and [load_bof_binary], and the hand-over between
  the two threads as a step relation ([hand_step]).
- [ProcBorph]: [proc_borph.c]; [RhinoRegs] is its composition with the RHINO driver.
- [ElfDef], [Mkbof], [Showbof]: [elf_def.h], [mkbof.c], [showbof.c].
- [EndToEnd]: the composition from [mkbof] to the configured FPGA.
- [GpmcTest]: the clocked process of [gpmc_test.vhd] and its registers, as the FPGA
  behind [RhinoRegs].
- [Bits]: lemmas on bits and bit counts.
- [HwEcc]: the ECC routines of [src/x-loader/board/rhino/rhino.c]; [NandEcc]:
  [src/x-loader/lib/ecc.c].
- [Xnand]: [src/x-loader/drivers/k9f1g08r0a.c].  The chip and the ECC engine are the
  class [Flash] with the laws [FlashLaws].
- [Bch]: [src/x-loader/lib/omap_bch_decoder.c].  [BchGf] and [BchField] have its field,
  [BchPoly] and [BchBerlekamp] the correctness of Berlekamp's algorithm, [BchSyn] the
  syndromes, [BchGen] the remainders of the engine and [BchDecode] the decoder as a
  whole.  [BchPage]: [src/x-loader/lib/omap_bch.c] and the loop of [nand_read_page].
- [Fat]: [src/x-loader/fs/fat/fat.c].  The disk is the class [BlockDevice] with the
  laws [DiskLaws].
- [Mmc]: [src/x-loader/cpu/omap3/mmc.c].  The controller is the class [MmcHost]; the
  laws of a slot with an SD card are [SdSlot].  [mmc_bread] is an instance of
  [BlockDevice] and obeys [DiskLaws].
- [XBoot]: [nand_init], [get_mem_type] and [mmc_boot] of [rhino.c] and [start_armboot]
  of [src/x-loader/lib/board.c], composed from the three above.
- [Printf]: [vsprintf] of [src/x-loader/lib/printf.c]; [Serial]: [ns16550.c] and
  [serial.c] of [src/x-loader/drivers/] and [serial_printf].  The port is the class
  [Ns16550] with the laws [Ns16550Laws].  [Console]: the messages of the boot, from the
  lines of [XBoot] to the bytes on the wire.
- [Clocks]: [s_init] of [src/x-loader/board/rhino/rhino.c] with the tables of
  [platform.S].  Registers are the class [Mmio] with the laws [MmioLaws].
- [Gpio]: [gpio.c] of U-Boot and the x-loader, [rhino_leds.c], [rhino_psu_enable.c] and
  the pins of [misc_init_r]; the banks obey [GpioLaws].
- [Spi]: [omap3_spi.c], [rhino_fpga_prog.c] and [rhino_rtc_test.c]; the controller obeys
  [SpiLaws].
- [UBoot]: [board_init] and the pin table of [src/u-boot/board/rhino/], [gpmc_init] of
  [mem.c].
- [I2cUBoot]: [omap24xx_i2c.c]; the controller is the class [I2cPort] with the laws
  [I2cLaws], the chips are [I2cTarget].
- [UBootApps]: [rhino_gpmc_test.c], [rhino_fmc_control.c] and [rhino_system_monitor.c],
  over [Gpio] and [I2cUBoot].
- [I2cTools]: [i2c.c], [ina219.c], [max1668.c], [tc654.c] and [rhino_fan.c] of
  [src/utils/util/].  The device file is the class [I2cBus]; a bus with chips that
  have registers is [RegisterBus].
- [PowerTools]: [rhino_led.c], [rhino_pwr.c] and [rhino_fmc.c].  The system calls on
  files are the class [SysFiles]; the GPIO files of Linux are [SysGpio].
- [Monitor]: [rhino_mon.c] over [RegisterBus].
- [Mtd]: [mtdpart.c] with the registration of [mtdcore.c]; the flash is the class
  [Flash] of that file.  [MtdOps]: what the methods of a partition do to the bytes of a
  flash ([FlashOk]).  [BoardFlash]: the table of [board-rhino.c] and the places where the
  boot stages look.
- [Examples] and the files whose names start with it: executable systems (a driver with
  a device, a card with a volume, a flash chip, a serial port, a chip with clocks, buses
  with chips, a kernel with GPIO files) that meet the hypotheses of the theorems, and
  the theorems applied to them.

** How the code is modelled

A C function that changes state is a function of the monad [M S A], which returns a
value and a state or a fault: a NULL or freed pointer used, an array left, a thread
asleep for ever ([Blocked]), an endless empty loop ([Hang]), a failed assertion of the
kernel ([Bug]).  Integers are [Z] cut to
their width by [u8], [u16], [u32], [s32] where the code can leave it.  Memory
allocation outcomes are a script in the state and live objects are counted, so that
leaks are visible.  Hardware, the SPI core, the schedule of its completions and the
outcomes of library calls are parameters: arguments, section variables or classes.
What their documentation promises is a law of the class or a named hypothesis, and the
example files show that each can be met.  Printing is a list of lines in the state,
except where the serial port itself is modelled.  Delays are left out where nothing in
the model depends on time; the clock measurement of [Clocks] counts time.

A loop whose end is not bounded by its data takes fuel and ends in [OutOfFuel] without
it.  The theorems that such a loop returns say how much is enough: the number of polls
that the laws of the device allow, the number of sectors of a directory, the length of
a cluster chain, the number of parts of a bitstream, the bound that the code itself
counts to ([LDELAY] in [Clocks], the polls of [I2cUBoot]).  Loops that really do not
end are theorems too ([fpga_prog_never_returns], [transfer_truncated_runs_on],
[nand_read_page_hangs]); [rhino_mon] takes the number of rounds to look at.

** What the theorems show

- Composition: what [mkbof] packs is what the FPGA and the register directory get
  ([exec_mkbof_file]); what is written to a register is read back
  ([ioreg_write_read]); U-Boot is loaded from flash despite bad blocks and one inverted
  bit in each block ([start_armboot_loads_nand]) and from a card, from power-on of the
  card to the jump ([start_armboot_loads_mmc]); the lines of the boot are the bytes on
  the serial port ([boot_console]); the windows of the memory bus that U-Boot sets up
  are those in which the Linux driver looks for the FPGA ([board_init_windows]); what a
  process writes to the registers of the example design comes back from the design
  ([gateware_ioreg]); the partitions of Linux agree with the places where the boot
  stages look, and no request through them changes the boot loaders
  ([rhino_flash_protected]).
- Setup: every pin, timing field and clock has its value after [s_init]
  ([s_init_sets_up]), and the clocks run at the rates the drivers assume
  ([s_init_clocks]).
- Flash: a partition table is laid out without gap or overlap
  ([add_mtd_partitions_layout]) and taken away without trace
  ([add_del_mtd_partitions]); what is written through a partition is read back and the
  others do not notice ([partition_roundtrip]).
- Round trips: load and exit, register and unregister, init and cleanup, the symbol
  file, [mkbof] and [showbof].
- Refinement: the FAT reader implements a map from names to contents
  ([file_fat_read_refines]) and its cache the table on disk
  ([get_fatent_refines_table]); I2C transfers implement a map from chips and registers
  to contents despite the cached slave address ([i2c_transfers_refine]), and the fan
  tool sets exactly what its options name ([rhino_fan_programs]); U-Boot's I2C driver
  ([i2c_transfers]) and SPI driver ([spi_transfers]) implement messages to chips from
  register accesses; the card tool implements a list of pin levels ([fmc_switches]).
- Types are preserved on arbitrary disks ([do_fat_read_typed]).
- Tools and programs: what they drive, in which order, and what they print
  ([gpio_driver], [rails_switched], [lamps_follow], [monitor_table], [pin_programs],
  [gpmc_test_finds], [fmc_control_moves], [system_monitor_moves]).
- Resources and errors: exclusive reservation, balanced mutexes and counts, and loads
  that are undone when something is refused.
- Threads: safety and progress of the hand-over in every interleaving, and the
  wake-up it can lose.
- Arithmetic: the error correcting codes, among them the BCH decoder, which restores a
  page ([bch_corrects_page]) except for error patterns that are a theorem as well
  ([decode_bch_misses]), card size and clock divisor on 32 bits,
  number conversion and its inverse ([number_layout]), argument copying.
- Defects of the code, each as a theorem about the faithful model: a configuration
  that blocks or does not end, a leaked device, a kept mutex, a misread number,
  uncorrectable bits taken for correctable ones, an error taken for success, a program
  that waits for ever, a bus number without effect ([bus_number_ignored]), misread
  registers ([monitor_row_prints]), pins set to the wrong function ([uboot_pads]), a
  pin shared by two cards ([power_good_shared]), a page corrected too often
  ([bch_read_page_spoils]), an erase that leaves its partition
  ([erase_leaves_partition]), partitions over each other ([out_of_reach_restarts],
  [add_partition_covers], [next_block_wraps]).

** Not modelled

- The rest of Linux and U-Boot, which the parts above only call.
- The assembly start of the boot loader.
- Code that the RHINO configuration leaves out: OneNAND, the other flash
  drivers, the parts of [fat.c] under [#if 0].  The BCH codes are left out of that
  configuration too, but modelled.
- Methods of a partition that only pass the call on, and the parsers of partition
  tables on the command line.
- [power_measure.c] of [src/utils/], which does not compile.
- The tables of platform devices of [board-rhino.c] other than the flash, and the sound
  support.
- The static tables of proc entries and inodes, the signal handling of the daemon
  thread, the registration of the modules. *)
From stdpp Require Import base list gmap strings.
From Stdlib Require Import ZArith Lia.

#[global] Open Scope Z_scope.
#[global] Unset Printing Records.
#[global] Set Warnings "-clear-no-such-hyp".

(** ** Faults and results

    A C execution either returns or runs into one of these faults.  [Blocked]
    is a thread that sleeps with nobody left to wake it; [Hang] is an endless empty
    loop the source ends up in; [Bug] is a [BUG_ON] that fires; [OutOfFuel] is the
    bound of an executable loop, and every theorem that a loop returns shows
    that its fuel suffices. *)
Inductive fault : Type :=
| NullDeref
| OutOfBounds
| UseAfterFree
| DivByZero
| Blocked
| Hang
| Bug
| OutOfFuel.

#[export] Instance fault_eq_dec : EqDecision fault.
Proof. solve_decision. Defined.

Inductive res (A : Type) : Type :=
| Ok (a : A)
| Fault (f : fault).
Arguments Ok {A} _.
Arguments Fault {A} _.

(** ** The state-and-fault monad of the C models *)
Definition M (S A : Type) : Type := S -> res (A * S).

Definition mret {S A} (a : A) : M S A := fun s => Ok (a, s).

Definition mbind {S A B} (m : M S A) (k : A -> M S B) : M S B :=
  fun s => match m s with
           | Ok (a, s') => k a s'
           | Fault f => Fault f
           end.

Definition mfault {S A} (f : fault) : M S A := fun _ => Fault f.
Definition mget {S} : M S S := fun s => Ok (s, s).
Definition mput {S} (s : S) : M S unit := fun _ => Ok (tt, s).
Definition mgets {S A} (f : S -> A) : M S A := fun s => Ok (f s, s).
Definition mmodify {S} (f : S -> S) : M S unit := fun s => Ok (tt, f s).

Declare Scope c_scope.
Delimit Scope c_scope with c.

Notation "'let!' x := m 'in' k" := (mbind m (fun x => k))
  (at level 10, x pattern, m at level 100, k at level 200) : c_scope.
Notation "'do!' m 'in' k" := (mbind m (fun _ => k))
  (at level 10, m at level 100, k at level 200) : c_scope.

#[global] Open Scope c_scope.

(** Dereferencing a pointer that may be NULL. *)
Definition deref {S A} (p : option A) : M S A :=
  match p with
  | Some a => mret a
  | None => mfault NullDeref
  end.

(** [m] runs from [s] to the value [a] in the state [s']. *)
Definition runs {S A} (m : M S A) (s : S) (a : A) (s' : S) : Prop :=
  m s = Ok (a, s').

Lemma runs_ret {S A} (a : A) (s : S) : runs (mret a) s a s.
Proof. reflexivity. Qed.

Lemma runs_bind {S A B} (m : M S A) (k : A -> M S B) s a s1 b s2 :
  runs m s a s1 -> runs (k a) s1 b s2 -> runs (mbind m k) s b s2.
Proof. unfold runs, mbind. intros -> ?. done. Qed.

Lemma runs_eq {S A} (m : M S A) s a s1 s2 : runs m s a s1 -> s1 = s2 -> runs m s a s2.
Proof. by intros H <-. Qed.

Lemma mbind_run {S A B} (m : M S A) (k : A -> M S B) s a s1 :
  runs m s a s1 -> mbind m k s = k a s1.
Proof. unfold runs, mbind. by intros ->. Qed.

Lemma runs_bind_inv {S A B} (m : M S A) (k : A -> M S B) s b s2 :
  runs (mbind m k) s b s2 ->
  exists a s1, runs m s a s1 /\ runs (k a) s1 b s2.
Proof.
  unfold runs, mbind. destruct (m s) as [[a s1]|f] eqn:E; [|discriminate].
  intros H. by exists a, s1.
Qed.

Lemma runs_gets {S A} (f : S -> A) s : runs (mgets f) s (f s) s.
Proof. reflexivity. Qed.

Lemma runs_modify {S} (f : S -> S) s : runs (mmodify f) s tt (f s).
Proof. reflexivity. Qed.

(** A program on a part of the state. *)
Definition mzoom {S T A} (get : S -> T) (put : T -> S -> S) (m : M T A) : M S A := fun s =>
  match m (get s) with Ok (a, t) => Ok (a, put t s) | Fault f => Fault f end.

Lemma runs_zoom {S T A} (get : S -> T) (put : T -> S -> S) (m : M T A) s a t :
  runs m (get s) a t -> runs (mzoom get put m) s a (put t s).
Proof. unfold runs, mzoom. by intros ->. Qed.

Lemma runs_zoom_inv {S T A} (get : S -> T) (put : T -> S -> S) (m : M T A) s a s' :
  runs (mzoom get put m) s a s' -> exists t, runs m (get s) a t /\ s' = put t s.
Proof. unfold runs, mzoom. destruct (m (get s)) as [[b t]|]; [|done]. intros [= <- <-]. by exists t. Qed.

(** ** Triples *)

(** Whenever the program returns from a state in [P], result and state are in [Q]. *)
Definition ensures {S A} (P : S -> Prop) (m : M S A) (Q : A -> S -> Prop) : Prop :=
  forall s a s', P s -> runs m s a s' -> Q a s'.

Section ensures.
Context {S : Type}.

Lemma ens_ret {A} (P : S -> Prop) (a : A) (Q : A -> S -> Prop) : (forall s, P s -> Q a s) -> ensures P (mret a) Q.
Proof. intros HQ s x s' Hs [= <- <-]. by apply HQ. Qed.

Lemma ens_bind {A B} (P : S -> Prop) (m : M S A) (Q : A -> S -> Prop) (k : A -> M S B) R :
  ensures P m Q -> (forall a, ensures (Q a) (k a) R) -> ensures P (mbind m k) R.
Proof.
  intros Hm Hk s b s2 Hs Hr. apply runs_bind_inv in Hr as (a & s1 & H1 & H2). exact (Hk a s1 b s2 (Hm s a s1 Hs H1) H2).
Qed.

Lemma ens_fault {A} (P : S -> Prop) f (Q : A -> S -> Prop) : ensures P (mfault f) Q.
Proof. intros s a s' _ Hr. discriminate Hr. Qed.

Lemma ens_gets {A} (P : S -> Prop) (f : S -> A) (X : A -> Prop) :
  (forall s, P s -> X (f s)) -> ensures P (mgets f) (fun a s => X a /\ P s).
Proof. intros Hf s a s' Hs [= <- <-]. split; [by apply Hf|done]. Qed.

Lemma ens_modify (P : S -> Prop) (f : S -> S) (Q : S -> Prop) :
  (forall s, P s -> Q (f s)) -> ensures P (mmodify f) (fun _ => Q).
Proof. intros Hf s a s' Hs [= <- <-]. by apply Hf. Qed.

Lemma ens_pure {A} (X : Prop) (P : S -> Prop) (m : M S A) Q : (X -> ensures P m Q) -> ensures (fun s => X /\ P s) m Q.
Proof. intros Hm s a s' [Hx Hs]. by apply Hm. Qed.

Lemma ens_conseq {A} (P P' : S -> Prop) (m : M S A) (Q Q' : A -> S -> Prop) :
  ensures P m Q -> (forall s, P' s -> P s) -> (forall a s, Q a s -> Q' a s) -> ensures P' m Q'.
Proof. intros Hm Hp Hq s a s' Hs Hr. apply Hq. by apply (Hm s a s' (Hp s Hs)). Qed.
End ensures.

(** From a state in [P] the program returns, with a result and a state in [Q]. *)
Definition tot {S A} (P : S -> Prop) (m : M S A) (Q : A -> S -> Prop) : Prop :=
  forall s, P s -> exists a s', runs m s a s' /\ Q a s'.

Section tot.
Context {S : Type}.

Lemma tot_ret {A} (P : S -> Prop) (a : A) (Q : A -> S -> Prop) : (forall s, P s -> Q a s) -> tot P (mret a) Q.
Proof. intros HQ s Hs. exists a, s. split; [apply runs_ret|by apply HQ]. Qed.

Lemma tot_bind {A B} (P : S -> Prop) (m : M S A) (Q : A -> S -> Prop) (k : A -> M S B) R :
  tot P m Q -> (forall a, tot (Q a) (k a) R) -> tot P (mbind m k) R.
Proof.
  intros Hm Hk s Hs. destruct (Hm s Hs) as (a & s1 & Hr & Ha). destruct (Hk a s1 Ha) as (b & s2 & Hr2 & Hb).
  exists b, s2. split; [by eapply runs_bind|done].
Qed.

Lemma tot_conseq {A} (P P' : S -> Prop) (m : M S A) (Q Q' : A -> S -> Prop) :
  tot P m Q -> (forall s, P' s -> P s) -> (forall a s, Q a s -> Q' a s) -> tot P' m Q'.
Proof. intros Hm Hp Hq s Hs. destruct (Hm s (Hp s Hs)) as (a & s' & Hr & Ha). exists a, s'. auto. Qed.

Lemma tot_pure {A} (X : Prop) (P : S -> Prop) (m : M S A) Q : (X -> tot P m Q) -> tot (fun s => X /\ P s) m Q.
Proof. intros Hm s [Hx Hs]. by apply Hm. Qed.

(** The same, where the first result is known. *)
Lemma tot_bind_eq {A B} (P P' : S -> Prop) (m : M S A) a (k : A -> M S B) R :
  tot P m (fun x s => x = a /\ P' s) -> tot P' (k a) R -> tot P (mbind m k) R.
Proof. intros Hm Hk. eapply tot_bind; [exact Hm|]. intros x. apply tot_pure. by intros ->. Qed.

Lemma tot_gets {A} (P : S -> Prop) (f : S -> A) a : (forall s, P s -> f s = a) -> tot P (mgets f) (fun x s => x = a /\ P s).
Proof. intros Hf s Hs. exists (f s), s. split; [apply runs_gets|]. by rewrite (Hf s Hs). Qed.

Lemma tot_modify (P Q : S -> Prop) (f : S -> S) : (forall s, P s -> Q (f s)) -> tot P (mmodify f) (fun _ => Q).
Proof. intros Hf s Hs. exists tt, (f s). split; [apply runs_modify|by apply Hf]. Qed.
End tot.

(** ** Frames

[keeps R m]: whenever [m] returns, the states before and after are related by
[R].  A view [v] of the state that [m] never changes is [unchanged v m]. *)
Definition keeps {S A} (R : S -> S -> Prop) (m : M S A) : Prop :=
  forall s a s', runs m s a s' -> R s s'.

Definition same {S X} (v : S -> X) (s s' : S) : Prop := v s' = v s.
Abbreviation unchanged v := (keeps (same v)).

#[export] Instance same_preorder {S X} (v : S -> X) : PreOrder (same v).
Proof. split; [done|]. intros s1 s2 s3 H1 H2. unfold same in *. congruence. Qed.

Section frames.
Context {S : Type} (R : S -> S -> Prop) `{!PreOrder R}.

Lemma keeps_ret {A} (a : A) : keeps R (mret a).
Proof. intros s b s' H. injection H as _ <-. reflexivity. Qed.

Lemma keeps_fault {A} f : keeps R (@mfault S A f).
Proof. intros s b s' H. discriminate. Qed.

Lemma keeps_gets {A} (f : S -> A) : keeps R (mgets f).
Proof. intros s b s' H. injection H as _ <-. reflexivity. Qed.

Lemma keeps_modify (f : S -> S) : (forall s, R s (f s)) -> keeps R (mmodify f).
Proof. intros Hf s b s' H. injection H as _ <-. apply Hf. Qed.

Lemma keeps_bind {A B} (m : M S A) (k : A -> M S B) :
  keeps R m -> (forall a, keeps R (k a)) -> keeps R (mbind m k).
Proof.
  intros Hm Hk s b s' H. apply runs_bind_inv in H. destruct H as (a & s1 & H1 & H2).
  etransitivity; [by eapply Hm|]. by eapply Hk.
Qed.

Lemma keeps_deref {A} (p : option A) : keeps R (deref p).
Proof. destruct p; [apply keeps_ret|apply keeps_fault]. Qed.
End frames.

Create HintDb keeps.
#[export] Hint Resolve keeps_ret keeps_fault keeps_gets keeps_deref : keeps.

(** Walks through a computation, leaving the primitive steps that need a reason
of their own. *)
Ltac keeps_step :=
  match goal with
  | |- keeps _ (mbind _ _) => apply keeps_bind; [apply _| |intros]
  | |- keeps _ (if ?b then _ else _) => destruct b
  | |- keeps _ (match ?x with _ => _ end) => destruct x
  | |- keeps _ (let '(_, _) := ?x in _) => destruct x
  | |- keeps _ (let x := _ in _) => intro
  | |- keeps _ (mmodify _) => apply keeps_modify; [try (intros; reflexivity)]
  | |- keeps _ _ => solve [eauto with keeps typeclass_instances]
  end.
Ltac keeps_tac := repeat keeps_step.

(** ** Machine integers

    A [w]-bit unsigned C object is a [Z] in [0, 2^w); conversion wraps. *)
Definition wrapu (w x : Z) : Z := x mod 2 ^ w.
Definition wraps (w x : Z) : Z :=
  let y := x mod 2 ^ w in if y <? 2 ^ (w - 1) then y else y - 2 ^ w.

Abbreviation u8 := (wrapu 8).
Abbreviation u16 := (wrapu 16).
Abbreviation u32 := (wrapu 32).
Abbreviation u64 := (wrapu 64).
Abbreviation s8 := (wraps 8).
Abbreviation s16 := (wraps 16).
Abbreviation s32 := (wraps 32).
Abbreviation s64 := (wraps 64).

(** C's [~] at width [w]. *)
Definition lnotu (w x : Z) : Z := wrapu w (Z.lnot x).

Definition b2z (b : bool) : Z := if b then 1 else 0.

(** A C condition: any non-zero value is true. *)
Definition truthy (x : Z) : bool := negb (x =? 0).

Definition is_uint (w x : Z) : Prop := 0 <= x < 2 ^ w.
Definition is_byte (x : Z) : Prop := 0 <= x < 256.

#[export] Instance is_byte_dec x : Decision (is_byte x).
Proof. unfold is_byte. apply _. Defined.

Lemma wrapu_small w x : 0 <= x < 2 ^ w -> wrapu w x = x.
Proof. apply Z.mod_small. Qed.

Lemma wrapu_range w x : 0 <= w -> 0 <= wrapu w x < 2 ^ w.
Proof. intros. apply Z.mod_pos_bound. apply Z.pow_pos_nonneg; lia. Qed.

Lemma wraps_wrapu w x : wraps w (wrapu w x) = wraps w x.
Proof. unfold wraps, wrapu. by rewrite Zmod_mod. Qed.

Lemma wraps_range w x : 0 < w -> - 2 ^ (w - 1) <= wraps w x < 2 ^ (w - 1).
Proof.
  intros Hw. unfold wraps. assert (2 ^ w = 2 * 2 ^ (w - 1)) as E by (rewrite <- Z.pow_succ_r by lia; f_equal; lia).
  assert (0 < 2 ^ (w - 1)) as Hp by (apply Z.pow_pos_nonneg; lia). pose proof (Z.mod_pos_bound x (2 ^ w) ltac:(lia)).
  cbv zeta. destruct (Z.ltb_spec (x mod 2 ^ w) (2 ^ (w - 1))); lia.
Qed.

Lemma wrapu_wraps v w x : 0 <= v <= w -> wrapu v (wraps w x) = wrapu v x.
Proof.
  intros Hv. unfold wrapu, wraps. cbv zeta.
  assert (2 ^ w = 2 ^ (w - v) * 2 ^ v) as E by (rewrite <- Z.pow_add_r by lia; f_equal; lia).
  assert (0 < 2 ^ v) as Hp by (apply Z.pow_pos_nonneg; lia). assert (0 < 2 ^ (w - v)) as Hq by (apply Z.pow_pos_nonneg; lia).
  rewrite E. assert (x mod (2 ^ (w - v) * 2 ^ v) = x + (- (x / (2 ^ (w - v) * 2 ^ v)) * 2 ^ (w - v)) * 2 ^ v) as Em
    by (rewrite Z.mod_eq by lia; lia).
  destruct (_ <? _); rewrite Em; [apply Z.mod_add; lia|].
  set (k := x / _). replace (x + - k * 2 ^ (w - v) * 2 ^ v - 2 ^ (w - v) * 2 ^ v) with (x + (- k * 2 ^ (w - v) - 2 ^ (w - v)) * 2 ^ v) by lia.
  apply Z.mod_add. lia.
Qed.

Lemma wraps_small w x :
  0 < w -> - 2 ^ (w - 1) <= x < 2 ^ (w - 1) -> wraps w x = x.
Proof.
  intros Hw Hx. unfold wraps.
  assert (2 ^ w = 2 * 2 ^ (w - 1)) as E.
  { replace w with (Z.succ (w - 1)) at 1 by lia. rewrite Z.pow_succ_r by lia. lia. }
  destruct (Z_lt_le_dec x 0).
  - rewrite <- (Z_mod_plus_full x 1 (2 ^ w)), Z.mod_small by lia.
    destruct (Z.ltb_spec (x + 1 * 2 ^ w) (2 ^ (w - 1))); lia.
  - rewrite Z.mod_small by lia.
    destruct (Z.ltb_spec x (2 ^ (w - 1))); lia.
Qed.

(** ** Bit operations *)
Lemma testbit_high x n i : 0 <= x < 2 ^ n -> 0 <= n <= i -> Z.testbit x i = false.
Proof.
  intros Hx Hi. rewrite <- (Z.mod_small x (2 ^ n)) by lia.
  apply Z.mod_pow2_bits_high. lia.
Qed.

(** Or-ing a value below [2^n] into a value shifted left by [n] adds it. *)
Lemma lor_shiftl_add k b n :
  0 <= n -> 0 <= b < 2 ^ n -> Z.lor (Z.shiftl k n) b = k * 2 ^ n + b.
Proof.
  intros Hn Hb.
  assert (Z.land (Z.shiftl k n) b = 0) as H0.
  { apply Z.bits_inj'. intros i Hi. rewrite Z.land_spec, Z.bits_0.
    destruct (Z_lt_le_dec i n).
    - by rewrite Z.shiftl_spec_low.
    - rewrite (testbit_high b n i) by lia. apply andb_false_r. }
  rewrite <- Z.lxor_lor by done. rewrite <- Z.add_nocarry_lxor by done.
  by rewrite Z.shiftl_mul_pow2.
Qed.

Lemma lor_mul_add k b n :
  0 <= n -> 0 <= b < 2 ^ n -> Z.lor (k * 2 ^ n) b = k * 2 ^ n + b.
Proof. intros. by rewrite <- lor_shiftl_add, Z.shiftl_mul_pow2. Qed.

Lemma land_ones_mod x n : 0 <= n -> Z.land x (2 ^ n - 1) = x mod 2 ^ n.
Proof. intros. rewrite <- Z.land_ones by done. by rewrite Z.ones_equiv, Z.sub_1_r. Qed.

(** ** Little-endian memory images *)
Fixpoint le_bytes (n : nat) (z : Z) : list Z :=
  match n with
  | O => []
  | S n => z mod 256 :: le_bytes n (z / 256)
  end.

Fixpoint le_val (bs : list Z) : Z :=
  match bs with
  | [] => 0
  | b :: bs => b + 256 * le_val bs
  end.

Lemma length_le_bytes n z : length (le_bytes n z) = n.
Proof. revert z. induction n; intros; simpl; auto. Qed.

Lemma le_bytes_bytes n z : Forall is_byte (le_bytes n z).
Proof.
  revert z. induction n as [|n IH]; intros; simpl; constructor; auto.
  apply Z.mod_pos_bound. lia.
Qed.

Lemma le_val_bytes n z : le_val (le_bytes n z) = z mod 2 ^ (8 * Z.of_nat n).
Proof.
  revert z. induction n as [|n IH]; intros z.
  - by rewrite Z.mod_1_r.
  - cbn [le_bytes le_val]. rewrite IH.
    replace (8 * Z.of_nat (S n)) with (8 + 8 * Z.of_nat n) by lia.
    rewrite Z.pow_add_r by lia. change (2 ^ 8) with 256.
    rewrite Z.rem_mul_r; [done|lia|]. apply Z.pow_pos_nonneg; lia.
Qed.

Lemma le_val_bytes_id n z :
  0 <= z < 2 ^ (8 * Z.of_nat n) -> le_val (le_bytes n z) = z.
Proof. intros. rewrite le_val_bytes. by apply Z.mod_small. Qed.

Lemma le_val_range bs :
  Forall is_byte bs -> 0 <= le_val bs < 2 ^ (8 * Z.of_nat (length bs)).
Proof.
  induction 1 as [|b bs Hb _ IH]; [simpl; lia|].
  cbn [le_val length].
  replace (8 * Z.of_nat (S (length bs))) with (8 + 8 * Z.of_nat (length bs)) by lia.
  rewrite Z.pow_add_r by lia. change (2 ^ 8) with 256. unfold is_byte in Hb. nia.
Qed.

Lemma le_bytes_val bs :
  Forall is_byte bs -> le_bytes (length bs) (le_val bs) = bs.
Proof.
  induction 1 as [|b bs Hb Hbs IH]; [done|].
  cbn [le_bytes le_val length]. unfold is_byte in Hb.
  rewrite (Z.mul_comm 256), Z_mod_plus_full, Z.mod_small by lia.
  rewrite Z.div_add, Z.div_small by lia. by rewrite Z.add_0_l, IH.
Qed.

#[global] Arguments le_bytes : simpl never.

(** ** Byte buffers

    [slice off n l] is the [n] bytes of [l] at [off]; [overlay new old] writes
    [new] at the start of the buffer [old]. *)
Definition slice (off n : Z) (l : list Z) : list Z :=
  take (Z.to_nat n) (drop (Z.to_nat off) l).

Definition overlay (new old : list Z) : list Z :=
  new ++ drop (length new) old.

Definition zlen {A} (l : list A) : Z := Z.of_nat (length l).

(** The [n]-byte little-endian field at offset [off]. *)
Definition field (off n : Z) (l : list Z) : Z := le_val (slice off n l).

Lemma zlen_nonneg {A} (l : list A) : 0 <= zlen l.
Proof. unfold zlen. lia. Qed.

Lemma zlen_app {A} (l1 l2 : list A) : zlen (l1 ++ l2) = zlen l1 + zlen l2.
Proof. unfold zlen. rewrite length_app. lia. Qed.

Lemma zlen_nil {A} : zlen (@nil A) = 0.
Proof. done. Qed.

Lemma zlen_0_inv {A} (l : list A) : zlen l = 0 -> l = [].
Proof. unfold zlen. destruct l; [done|cbn [length]; lia]. Qed.

Lemma zlen_cons {A} (x : A) l : zlen (x :: l) = 1 + zlen l.
Proof. unfold zlen. simpl. lia. Qed.

Lemma zlen_le_bytes n z : zlen (le_bytes n z) = Z.of_nat n.
Proof. unfold zlen. by rewrite length_le_bytes. Qed.

Lemma zlen_replicate {A} n (x : A) : zlen (replicate n x) = Z.of_nat n.
Proof. unfold zlen. by rewrite length_replicate. Qed.

Lemma zlen_fmap {A B} (f : A -> B) l : zlen (f <$> l) = zlen l.
Proof. unfold zlen. by rewrite length_fmap. Qed.

Lemma zlen_rev {A} (l : list A) : zlen (rev l) = zlen l.
Proof. unfold zlen. by rewrite length_rev. Qed.

Lemma slice_app_l off n l1 l2 :
  0 <= off -> 0 <= n -> off + n <= zlen l1 -> slice off n (l1 ++ l2) = slice off n l1.
Proof.
  unfold slice, zlen. intros.
  rewrite drop_app_le by lia. rewrite take_app_le; [done|].
  rewrite length_drop. lia.
Qed.

Lemma slice_app_r off n l1 l2 :
  zlen l1 <= off -> slice off n (l1 ++ l2) = slice (off - zlen l1) n l2.
Proof.
  unfold slice, zlen. intros. rewrite drop_app_ge by lia.
  f_equal. f_equal. lia.
Qed.

Lemma slice_all n l : zlen l <= n -> slice 0 n l = l.
Proof.
  unfold slice, zlen. intros. change (Z.to_nat 0) with 0%nat.
  rewrite drop_0, take_ge; [done|lia].
Qed.

Lemma slice_exact l1 l2 l3 off n :
  off = zlen l1 -> n = zlen l2 -> slice off n (l1 ++ l2 ++ l3) = l2.
Proof.
  intros -> ->. rewrite slice_app_r by lia. rewrite Z.sub_diag.
  rewrite slice_app_l by (pose proof (zlen_nonneg l2); lia).
  apply slice_all. lia.
Qed.

Lemma slice_exact_end l1 l2 off n : off = zlen l1 -> n = zlen l2 -> slice off n (l1 ++ l2) = l2.
Proof.
  intros Ho Hn. rewrite <- (app_nil_r (l1 ++ l2)), <- app_assoc. by apply slice_exact.
Qed.

Lemma zlen_slice off n l :
  0 <= off -> 0 <= n -> off + n <= zlen l -> zlen (slice off n l) = n.
Proof.
  unfold slice, zlen. intros. rewrite length_take, length_drop. lia.
Qed.

Lemma zlen_slice_le off n l : 0 <= n -> zlen (slice off n l) <= n.
Proof. unfold slice, zlen. intros. rewrite length_take. lia. Qed.

Lemma slice_slice a n b m l :
  0 <= a -> 0 <= b -> 0 <= m -> b + m <= n ->
  slice b m (slice a n l) = slice (a + b) m l.
Proof.
  unfold slice. intros.
  rewrite skipn_firstn_comm, firstn_firstn, drop_drop.
  replace (Z.to_nat (a + b)) with (Z.to_nat a + Z.to_nat b)%nat by lia.
  f_equal. lia.
Qed.

Lemma split_at {A} (l : list A) n :
  0 <= n <= zlen l -> exists l1 l2, l = l1 ++ l2 /\ zlen l1 = n.
Proof.
  intros Hn. exists (take (Z.to_nat n) l), (drop (Z.to_nat n) l). rewrite take_drop. split; [done|].
  unfold zlen in *. rewrite length_take. lia.
Qed.

Lemma slice_0_app n l1 l2 :
  zlen l1 <= n -> slice 0 n (l1 ++ l2) = l1 ++ slice 0 (n - zlen l1) l2.
Proof.
  intros Hn. unfold slice, zlen in *. change (Z.to_nat 0) with 0%nat. rewrite !drop_0, take_app.
  rewrite take_ge by lia. do 2 f_equal. lia.
Qed.

Lemma overlay_full new old : zlen old <= zlen new -> overlay new old = new.
Proof.
  unfold overlay, zlen. intros. rewrite drop_ge by lia. by rewrite app_nil_r.
Qed.

Lemma zlen_overlay new old : zlen new <= zlen old -> zlen (overlay new old) = zlen old.
Proof.
  unfold overlay, zlen. intros. rewrite length_app, length_drop. lia.
Qed.

(** ** C strings *)

(** The bytes up to, not including, the first NUL; [None] when there is none
    (the scan would leave the object). *)
Fixpoint cstr (l : list Z) : option (list Z) :=
  match l with
  | [] => None
  | 0 :: _ => Some []
  | c :: l => cons c <$> cstr l
  end.

Definition no_nul (l : list Z) : Prop := Forall (fun c => c <> 0) l.

Lemma cstr_app name rest : no_nul name -> cstr (name ++ 0 :: rest) = Some name.
Proof.
  induction 1 as [|c l Hc _ IH]; [done|]. simpl. rewrite IH. by destruct c.
Qed.

(** ** Maps *)

Lemma alter_alter_ext {V} (f g h : V -> V) (k : Z) (m : gmap Z V) :
  (forall v, m !! k = Some v -> f (g v) = h v) -> alter f k (alter g k m) = alter h k m.
Proof. intros Hf. rewrite alter_alter_eq. by apply alter_ext. Qed.

(** ** Automation *)
Create HintDb rhino.
Create Rewrite HintDb zlen.
#[export] Hint Resolve zlen_nonneg wrapu_range le_bytes_bytes runs_ret runs_gets
  runs_modify : rhino.
#[export] Hint Rewrite @zlen_app @zlen_cons @zlen_nil zlen_le_bytes @zlen_replicate @zlen_fmap @zlen_rev : zlen.

(** Turns boolean integer tests in the context and goal into propositions. *)
Ltac zb :=
  repeat match goal with
  | H : (_ && _)%bool = true |- _ => apply andb_true_iff in H; destruct H
  | H : (_ || _)%bool = false |- _ => apply orb_false_iff in H; destruct H
  | H : negb _ = true |- _ => apply negb_true_iff in H
  | H : negb _ = false |- _ => apply negb_false_iff in H
  | H : (_ =? _) = true |- _ => apply Z.eqb_eq in H
  | H : (_ =? _) = false |- _ => apply Z.eqb_neq in H
  | H : (_ <? _) = true |- _ => apply Z.ltb_lt in H
  | H : (_ <? _) = false |- _ => apply Z.ltb_ge in H
  | H : (_ <=? _) = true |- _ => apply Z.leb_le in H
  | H : (_ <=? _) = false |- _ => apply Z.leb_gt in H
  end.

(** Case split on the first boolean integer test of the goal. *)
Ltac zcase :=
  match goal with
  | |- context [?a =? ?b] => destruct (Z.eqb_spec a b)
  | |- context [?a <? ?b] => destruct (Z.ltb_spec a b)
  | |- context [?a <=? ?b] => destruct (Z.leb_spec a b)
  end.

(** Splits a [runs] of a bind in the context into its two parts. *)
Ltac runs_inv :=
  repeat match goal with
  | H : runs (mbind _ _) _ _ _ |- _ =>
      let a := fresh "v" in let s := fresh "st" in
      apply runs_bind_inv in H; destruct H as (a & s & ? & H)
  end.
