(* ===== verification/Bof.v ===== *)
(** * The BORPH object file (BOF) format

    Data layout of [src/borph/include/linux/bof.h]: the three structures as
    records, and the byte images the C structures have on the little-endian
    ARM kernel and on the little-endian build host (natural alignment, no
    padding: 52, 28 and 12 bytes).  Also the byte swaps of
    [src/borph/tools/borph/include/hbyteorder.h]. *)
From stdpp Require Import base list.
From S2P Require Import Prelude.
From Stdlib Require Import ZArith Lia.

(** ** bof.h constants *)
Definition BI_ENDIAN : Z := 5.
Definition BOFDATA2LSB : Z := 1.
Definition BOFDATA2MSB : Z := 2.

Definition BM_BEE2 : Z := 2.
Definition BM_ROACH : Z := 3.
Definition BM_NETFPGA : Z := 4.
Definition BM_RHINO : Z := 5.
Definition BM_MOLERAD : Z := 6.

Definition HAC_BEE2FPGA : Z := 1.
Definition HAC_PRMOD : Z := 2.
Definition HAC_ROACHV5 : Z := 3.
Definition HAC_NETFPGA : Z := 4.
Definition HAC_RHINO : Z := 5.
Definition HAC_MOLERAD : Z := 6.

Definition HFG_PLACED : Z := 1.

Definition IORM_READ : Z := 1.
Definition IORM_WRITE : Z := 2.
Definition IORM_PIPE : Z := 4.

Definition EM_ARM : Z := 40.

(** ** The structures *)
Record bofhdr : Type := Bofhdr {
  ident : list Z;
  b_version : Z;
  b_machine : Z;
  b_elfmachine : Z;
  b_numchip : Z;
  b_elfoff : Z;
  b_hwoff : Z;
  load_err : Z;
  b_ekver : Z;
  bof_pad : list Z
}.

Record hwr_addr : Type := HwrAddr {
  class : Z;
  addr : Z
}.

Record hwrhdr : Type := Hwrhdr {
  flag : Z;
  haddr : hwr_addr;
  pl_off : Z;
  pl_len : Z;
  nr_symbol : Z;
  strtab_off : Z;
  next_hwr : Z
}.

Record bofioreg : Type := Bofioreg {
  ior_name : Z;
  ior_mode : Z;
  ior_loc : Z;
  ior_len : Z
}.

#[export] Instance hwr_addr_eq_dec : EqDecision hwr_addr.
Proof. solve_decision. Defined.

Definition sizeof_bofhdr : Z := 52.
Definition sizeof_hwrhdr : Z := 28.
Definition sizeof_bofioreg : Z := 12.
Definition sizeof_Elf32_Ehdr : Z := 52.

(** ** Memory images *)
Definition enc_bofhdr (h : bofhdr) : list Z :=
  ident h ++ le_bytes 4 (b_version h) ++ le_bytes 2 (b_machine h)
  ++ le_bytes 2 (b_elfmachine h) ++ le_bytes 4 (b_numchip h)
  ++ le_bytes 4 (b_elfoff h) ++ le_bytes 4 (b_hwoff h) ++ le_bytes 4 (load_err h)
  ++ le_bytes 4 (b_ekver h) ++ concat (le_bytes 4 <$> bof_pad h).

Definition dec_bofhdr (bs : list Z) : bofhdr := {|
  ident := slice 0 16 bs;
  b_version := field 16 4 bs;
  b_machine := field 20 2 bs;
  b_elfmachine := field 22 2 bs;
  b_numchip := field 24 4 bs;
  b_elfoff := field 28 4 bs;
  b_hwoff := field 32 4 bs;
  load_err := s32 (field 36 4 bs);
  b_ekver := field 40 4 bs;
  bof_pad := [field 44 4 bs; field 48 4 bs]
|}.

Definition enc_hwrhdr (h : hwrhdr) : list Z :=
  le_bytes 4 (flag h) ++ le_bytes 2 (class (haddr h)) ++ le_bytes 2 (addr (haddr h))
  ++ le_bytes 4 (pl_off h) ++ le_bytes 4 (pl_len h) ++ le_bytes 4 (nr_symbol h)
  ++ le_bytes 4 (strtab_off h) ++ le_bytes 4 (next_hwr h).

Definition dec_hwrhdr (bs : list Z) : hwrhdr := {|
  flag := field 0 4 bs;
  haddr := HwrAddr (field 4 2 bs) (field 6 2 bs);
  pl_off := field 8 4 bs;
  pl_len := field 12 4 bs;
  nr_symbol := field 16 4 bs;
  strtab_off := field 20 4 bs;
  next_hwr := field 24 4 bs
|}.

Definition enc_bofioreg (r : bofioreg) : list Z :=
  le_bytes 2 (ior_name r) ++ le_bytes 2 (ior_mode r)
  ++ le_bytes 4 (ior_loc r) ++ le_bytes 4 (ior_len r).

Definition dec_bofioreg (bs : list Z) : bofioreg := {|
  ior_name := field 0 2 bs;
  ior_mode := field 2 2 bs;
  ior_loc := field 4 4 bs;
  ior_len := field 8 4 bs
|}.

(** ** Well-formed structures: every member in the range of its C type *)
Definition wf_bofhdr (h : bofhdr) : Prop :=
  length (ident h) = 16%nat /\ is_uint 32 (b_version h) /\ is_uint 16 (b_machine h)
  /\ is_uint 16 (b_elfmachine h) /\ is_uint 32 (b_numchip h) /\ is_uint 32 (b_elfoff h)
  /\ is_uint 32 (b_hwoff h) /\ - 2 ^ 31 <= load_err h < 2 ^ 31 /\ is_uint 32 (b_ekver h)
  /\ length (bof_pad h) = 2%nat /\ Forall (is_uint 32) (bof_pad h).

Definition wf_hwrhdr (h : hwrhdr) : Prop :=
  is_uint 32 (flag h) /\ is_uint 16 (class (haddr h)) /\ is_uint 16 (addr (haddr h))
  /\ is_uint 32 (pl_off h) /\ is_uint 32 (pl_len h) /\ is_uint 32 (nr_symbol h)
  /\ is_uint 32 (strtab_off h) /\ is_uint 32 (next_hwr h).

Definition wf_bofioreg (r : bofioreg) : Prop :=
  is_uint 16 (ior_name r) /\ is_uint 16 (ior_mode r)
  /\ is_uint 32 (ior_loc r) /\ is_uint 32 (ior_len r).

(** ** Byte swaps of hbyteorder.h *)
Fixpoint swap_loop (n : nat) (sh val tmp : Z) : Z :=
  match n with
  | O => tmp
  | S n => swap_loop n (sh - 8) (Z.shiftr val 8)
             (Z.lor tmp (Z.shiftl (Z.land val 255) sh))
  end.

Definition swap_byte32 (val : Z) : Z := u32 (swap_loop 4 24 val 0).
Definition swap_byte16 (val : Z) : Z := u16 (swap_loop 2 8 val 0).

(** ** Sizes *)
Lemma zlen_enc_hwrhdr h : zlen (enc_hwrhdr h) = sizeof_hwrhdr.
Proof. unfold enc_hwrhdr. autorewrite with zlen. done. Qed.

Lemma zlen_enc_bofioreg r : zlen (enc_bofioreg r) = sizeof_bofioreg.
Proof. unfold enc_bofioreg. autorewrite with zlen. done. Qed.

Lemma zlen_enc_bofhdr h :
  length (ident h) = 16%nat -> length (bof_pad h) = 2%nat ->
  zlen (enc_bofhdr h) = sizeof_bofhdr.
Proof.
  intros Hi Hp. destruct h as [id v m em nc eo ho le ek pad]; simpl in *.
  destruct pad as [|p0 [|p1 [|]]]; simpl in Hp; try discriminate.
  unfold enc_bofhdr, ident, bof_pad. simpl fmap. simpl concat.
  autorewrite with zlen. unfold zlen. rewrite Hi. done.
Qed.

(** ** Reading a field back from an image that is a concatenation *)
Lemma field_here n z rest :
  0 <= z < 2 ^ (8 * Z.of_nat n) -> field 0 (Z.of_nat n) (le_bytes n z ++ rest) = z.
Proof.
  intros Hz. unfold field. rewrite slice_app_l by (rewrite ?zlen_le_bytes; lia).
  rewrite slice_all by (rewrite zlen_le_bytes; lia). by apply le_val_bytes_id.
Qed.

Lemma field_skip off n l rest :
  zlen l <= off -> field off n (l ++ rest) = field (off - zlen l) n rest.
Proof. intros. unfold field. by rewrite slice_app_r. Qed.

Lemma field_end n z :
  0 <= z < 2 ^ (8 * Z.of_nat n) -> field 0 (Z.of_nat n) (le_bytes n z) = z.
Proof. intros. rewrite <- (app_nil_r (le_bytes n z)). by apply field_here. Qed.

(** Evaluates [field off n] of a concatenation of little-endian images. *)
Ltac read_field :=
  repeat (rewrite field_skip by (autorewrite with zlen; lia));
  autorewrite with zlen;
  match goal with
  | |- field ?o ?n (le_bytes ?k ?z ++ _) = _ =>
      refine (field_here k z _ _)
  | |- field ?o ?n (le_bytes ?k ?z) = _ =>
      refine (field_end k z _)
  end.

Lemma dec_enc_hwrhdr h rest : wf_hwrhdr h -> dec_hwrhdr (enc_hwrhdr h ++ rest) = h.
Proof.
  destruct h as [f [c a] po pn ns so nh]. intros Hwf. unfold wf_hwrhdr, is_uint in Hwf. simpl in Hwf.
  destruct Hwf as (?&?&?&?&?&?&?&?). unfold dec_hwrhdr, enc_hwrhdr.
  cbn [flag haddr class addr pl_off pl_len nr_symbol strtab_off next_hwr]. rewrite <- !app_assoc.
  f_equal; [|f_equal|..]; read_field; simpl; lia.
Qed.

Lemma dec_enc_bofioreg r rest : wf_bofioreg r -> dec_bofioreg (enc_bofioreg r ++ rest) = r.
Proof.
  destruct r as [n m l len]. intros Hwf. unfold wf_bofioreg, is_uint in Hwf. simpl in Hwf.
  destruct Hwf as (?&?&?&?). unfold dec_bofioreg, enc_bofioreg.
  cbn [ior_name ior_mode ior_loc ior_len]. rewrite <- !app_assoc.
  f_equal; read_field; simpl; lia.
Qed.

Lemma wraps_wrap_id z : - 2 ^ 31 <= z < 2 ^ 31 -> s32 (z mod 2 ^ 32) = z.
Proof.
  intros. unfold wraps. rewrite Z.mod_mod by lia. fold (s32 z). by apply wraps_small.
Qed.

Lemma field_here_mod n z rest :
  field 0 (Z.of_nat n) (le_bytes n z ++ rest) = z mod 2 ^ (8 * Z.of_nat n).
Proof.
  unfold field. rewrite slice_app_l by (rewrite ?zlen_le_bytes; lia).
  rewrite slice_all by (rewrite zlen_le_bytes; lia). apply le_val_bytes.
Qed.

Lemma dec_enc_bofhdr h rest : wf_bofhdr h -> dec_bofhdr (enc_bofhdr h ++ rest) = h.
Proof.
  destruct h as [id v m em nc eo ho le ek pad]. intros Hwf. unfold wf_bofhdr, is_uint in Hwf. simpl in Hwf.
  destruct Hwf as (Hid&?&?&?&?&?&?&?&?&Hp&HF).
  destruct pad as [|p0 [|p1 [|]]]; simpl in Hp; try discriminate.
  apply Forall_cons in HF as [? HF]. apply Forall_cons in HF as [? _].
  assert (zlen id = 16) as Lid by (unfold zlen; lia).
  unfold dec_bofhdr, enc_bofhdr.
  cbn [ident b_version b_machine b_elfmachine b_numchip b_elfoff b_hwoff load_err b_ekver
       bof_pad fmap list_fmap concat]. rewrite app_nil_r, <- !app_assoc.
  f_equal.
  - rewrite slice_app_l by lia. apply slice_all. lia.
  - rewrite field_skip by lia. rewrite Lid. read_field; simpl; lia.
  - rewrite field_skip by lia. rewrite Lid. read_field; simpl; lia.
  - rewrite field_skip by lia. rewrite Lid. read_field; simpl; lia.
  - rewrite field_skip by lia. rewrite Lid. read_field; simpl; lia.
  - rewrite field_skip by lia. rewrite Lid. read_field; simpl; lia.
  - rewrite field_skip by lia. rewrite Lid. read_field; simpl; lia.
  - rewrite field_skip by lia. rewrite Lid.
    repeat (rewrite field_skip by (autorewrite with zlen; lia)).
    autorewrite with zlen.
    change (s32 (field 0 (Z.of_nat 4) (le_bytes 4 le ++ le_bytes 4 ek ++ le_bytes 4 p0
              ++ le_bytes 4 p1 ++ rest)) = le).
    rewrite field_here_mod. by apply wraps_wrap_id.
  - rewrite field_skip by lia. rewrite Lid. read_field; simpl; lia.
  - rewrite !(field_skip _ _ id) by lia. rewrite Lid.
    f_equal; [|f_equal]; read_field; simpl; lia.
Qed.

#[export] Hint Rewrite zlen_enc_hwrhdr zlen_enc_bofioreg : zlen.

(** ** The byte swaps are involutions *)
Lemma lor_shift_byte k b sh :
  0 <= sh -> is_byte b ->
  Z.lor (k * 2 ^ (sh + 8)) (Z.shiftl b sh) = (k * 256 + b) * 2 ^ sh.
Proof.
  intros Hs Hb. unfold is_byte in Hb. rewrite Z.pow_add_r, Z.mul_assoc by lia.
  rewrite (Z.mul_comm k), <- Z.mul_assoc, (Z.mul_comm (2 ^ sh)), <- Z.shiftl_mul_pow2 by lia.
  rewrite <- Z.shiftl_lor, (lor_mul_add k b 8) by lia.
  by rewrite Z.shiftl_mul_pow2.
Qed.

Lemma swap_loop_step n sh b v k :
  8 <= sh + 8 -> is_byte b ->
  swap_loop (S n) sh (b + 256 * v) (k * 2 ^ (sh + 8))
  = swap_loop n (sh - 8) v ((k * 256 + b) * 2 ^ (sh - 8 + 8)).
Proof.
  intros Hs Hb. cbn [swap_loop]. unfold is_byte in Hb.
  change 255 with (2 ^ 8 - 1). rewrite land_ones_mod, Z.shiftr_div_pow2 by lia.
  change (2 ^ 8) with 256.
  rewrite (Z.mul_comm 256), Z_mod_plus_full, Z.div_add, Z.div_small, Z.mod_small by lia.
  rewrite lor_shift_byte by (unfold is_byte; lia).
  f_equal. f_equal. f_equal. lia.
Qed.

(** [swap_byte32] reverses the four bytes of its argument. *)
Lemma swap_byte32_rev bs :
  length bs = 4%nat -> Forall is_byte bs -> swap_byte32 (le_val bs) = le_val (reverse bs).
Proof.
  intros HL HF. destruct bs as [|a [|b [|c [|d [|]]]]]; try discriminate HL.
  apply Forall_cons in HF as [Ha HF]. apply Forall_cons in HF as [Hb HF].
  apply Forall_cons in HF as [Hc HF]. apply Forall_cons in HF as [Hd _].
  unfold swap_byte32, reverse. cbn [rev_append le_val].
  replace (swap_loop 4 24 _ 0) with
    (swap_loop 4 24 (a + 256 * (b + 256 * (c + 256 * (d + 256 * 0)))) (0 * 2 ^ (24 + 8)))
    by done.
  rewrite !swap_loop_step by (done || lia). cbn [swap_loop].
  unfold is_byte in *. rewrite wrapu_small; simpl; lia.
Qed.

Lemma swap_byte16_rev bs :
  length bs = 2%nat -> Forall is_byte bs -> swap_byte16 (le_val bs) = le_val (reverse bs).
Proof.
  intros HL HF. destruct bs as [|a [|b [|]]]; try discriminate HL.
  apply Forall_cons in HF as [Ha HF]. apply Forall_cons in HF as [Hb _].
  unfold swap_byte16, reverse. cbn [rev_append le_val].
  replace (swap_loop 2 8 _ 0) with
    (swap_loop 2 8 (a + 256 * (b + 256 * 0)) (0 * 2 ^ (8 + 8))) by done.
  rewrite !swap_loop_step by (done || lia). cbn [swap_loop].
  unfold is_byte in *. rewrite wrapu_small; simpl; lia.
Qed.

Lemma swap_byte32_involutive x : is_uint 32 x -> swap_byte32 (swap_byte32 x) = x.
Proof.
  intros Hx. rewrite <- (le_val_bytes_id 4 x) by done.
  rewrite (swap_byte32_rev (le_bytes 4 x)) by auto using length_le_bytes with rhino.
  rewrite swap_byte32_rev, reverse_involutive;
    rewrite ?length_reverse, ?Forall_reverse; auto using length_le_bytes with rhino.
Qed.

Lemma swap_byte16_involutive x : is_uint 16 x -> swap_byte16 (swap_byte16 x) = x.
Proof.
  intros Hx. rewrite <- (le_val_bytes_id 2 x) by done.
  rewrite (swap_byte16_rev (le_bytes 2 x)) by auto using length_le_bytes with rhino.
  rewrite swap_byte16_rev, reverse_involutive;
    rewrite ?length_reverse, ?Forall_reverse; auto using length_le_bytes with rhino.
Qed.
