(* ===== verification/Hwr.v ===== *)
(** * Hardware regions: the registry of [src/borph/kernel/hwr/common.c]

    The kernel state shared by the BORPH components, the interface a hardware
    region driver implements ([struct hwr_operations] of
    [src/borph/include/linux/borph.h]) and the generic operations that
    dispatch to it: registration, reference counts, reservation. *)
From stdpp Require Import base list gmap strings.
From S2P Require Import Prelude Bof.
From Stdlib Require Import ZArith Lia.

(** ** Files

    A file as [kernel_read] (fs/exec.c) sees it: its contents, and the error,
    if any, the file system returns for a read of [n] bytes at [off]. *)
Record file : Type := File {
  f_data : list Z;
  f_err : Z -> Z -> option Z
}.

Definition EINVAL : Z := 22.
Definition EIO : Z := 5.
Definition ENOEXEC : Z := 8.
Definition ENOMEM : Z := 12.
Definition EFAULT : Z := 14.
Definition EBUSY : Z := 16.
Definition ENOENT : Z := 2.
Definition ESPIPE : Z := 29.

(** The return value and the bytes stored at the start of the caller's buffer.
    A count with the sign bit set is refused; a read at or past the end of the
    file returns 0. *)
Definition kernel_read (f : file) (off n : Z) : Z * list Z :=
  if 2 ^ 31 <=? n then (- EINVAL, [])
  else match f_err f off n with
       | Some e => (e, [])
       | None => let d := slice off n (f_data f) in (zlen d, d)
       end.

(** Errors are negative, as the kernel's convention has it. *)
Definition file_ok (f : file) : Prop :=
  forall off n e, f_err f off n = Some e -> - 4096 < e < 0.

(** ** borph.h *)
Definition MAX_HWRTYPES : Z := 16.
Definition PAGE_SIZE : Z := 4096.

Record phyhwr : Type := Phyhwr {
  ph_hwraddr : hwr_addr;
  ph_count : Z;
  ph_active : Z;
  ph_task : option Z
}.

Record hwrtype : Type := Hwrtype {
  ht_name : string;
  ht_type : Z;
  ht_count : Z;
  ht_num_devs : Z;
  ht_ops : option Z
}.

Record hwr_iobuf : Type := HwrIobuf {
  io_location : Z;
  io_offset : Z;
  io_size : Z;
  io_data : list Z
}.

Record borph_hw_region : Type := HwRegion {
  reg_addr : hwr_addr;
  reg_strtab : list Z
}.

(** [io_name] is the pointer [strtab + name]: the string table and the offset
    into it. *)
Record borph_ioreg : Type := Ioreg {
  io_strtab : list Z;
  io_name : Z;
  io_mode : Z;
  io_loc : Z;
  io_len : Z;
  io_hwraddr : hwr_addr
}.

Record borph_info : Type := BorphInfo {
  bi_hw_region : list borph_hw_region;
  bi_ioreg : list borph_ioreg;
  bi_ioreg_mode : Z;
  bi_status : Z
}.

(** ** Kernel state

    - [k_alloc]: the outcomes of the next allocations (an exhausted list means
      success), so that a theorem over all states covers every failure;
    - [k_live]: number of live slab objects;
    - [k_junk]: what a fresh [phyhwr] contains before it is initialised;
    - [k_htheap], [k_hwrtypes]: the [struct hwrtype] objects by address, and the
      pointer table [hwrtypes] ([None] is NULL);
    - [k_phyhwrs]: the table [phyhwrs]; a present entry is the array of devices;
    - [k_iobufs]: the [struct hwr_iobuf] objects by address;
    - [k_infos]: [task_struct.borph_info] of every task that has one;
    - [k_drv]: the state of the hardware region driver. *)
Record kstate (D : Type) : Type := KState {
  k_alloc : list bool;
  k_live : Z;
  k_junk : phyhwr;
  k_htheap : gmap Z hwrtype;
  k_hwrtypes : gmap Z Z;
  k_phyhwrs : gmap Z (list phyhwr);
  k_iobufs : gmap Z hwr_iobuf;
  k_infos : gmap Z borph_info;
  k_drv : D
}.
Arguments KState {D} _ _ _ _ _ _ _ _ _.
Arguments k_alloc {D} _.
Arguments k_live {D} _.
Arguments k_junk {D} _.
Arguments k_htheap {D} _.
Arguments k_hwrtypes {D} _.
Arguments k_phyhwrs {D} _.
Arguments k_iobufs {D} _.
Arguments k_infos {D} _.
Arguments k_drv {D} _.

Section setters.
Context {D : Type}.
Implicit Type s : kstate D.

Definition set_alloc (v : list bool) s : kstate D :=
  KState v (k_live s) (k_junk s) (k_htheap s) (k_hwrtypes s) (k_phyhwrs s)
    (k_iobufs s) (k_infos s) (k_drv s).
Definition set_live (v : Z) s : kstate D :=
  KState (k_alloc s) v (k_junk s) (k_htheap s) (k_hwrtypes s) (k_phyhwrs s)
    (k_iobufs s) (k_infos s) (k_drv s).
Definition set_htheap (v : gmap Z hwrtype) s : kstate D :=
  KState (k_alloc s) (k_live s) (k_junk s) v (k_hwrtypes s) (k_phyhwrs s)
    (k_iobufs s) (k_infos s) (k_drv s).
Definition set_hwrtypes (v : gmap Z Z) s : kstate D :=
  KState (k_alloc s) (k_live s) (k_junk s) (k_htheap s) v (k_phyhwrs s)
    (k_iobufs s) (k_infos s) (k_drv s).
Definition set_phyhwrs (v : gmap Z (list phyhwr)) s : kstate D :=
  KState (k_alloc s) (k_live s) (k_junk s) (k_htheap s) (k_hwrtypes s) v
    (k_iobufs s) (k_infos s) (k_drv s).
Definition set_iobufs (v : gmap Z hwr_iobuf) s : kstate D :=
  KState (k_alloc s) (k_live s) (k_junk s) (k_htheap s) (k_hwrtypes s) (k_phyhwrs s)
    v (k_infos s) (k_drv s).
Definition set_infos (v : gmap Z borph_info) s : kstate D :=
  KState (k_alloc s) (k_live s) (k_junk s) (k_htheap s) (k_hwrtypes s) (k_phyhwrs s)
    (k_iobufs s) v (k_drv s).
Definition set_drv (v : D) s : kstate D :=
  KState (k_alloc s) (k_live s) (k_junk s) (k_htheap s) (k_hwrtypes s) (k_phyhwrs s)
    (k_iobufs s) (k_infos s) v.
End setters.

(** States are equal when their components are. *)
Lemma kstate_eq {D} (s1 s2 : kstate D) :
  k_alloc s1 = k_alloc s2 -> k_live s1 = k_live s2 -> k_junk s1 = k_junk s2 ->
  k_htheap s1 = k_htheap s2 -> k_hwrtypes s1 = k_hwrtypes s2 ->
  k_phyhwrs s1 = k_phyhwrs s2 -> k_iobufs s1 = k_iobufs s2 -> k_infos s1 = k_infos s2 ->
  k_drv s1 = k_drv s2 -> s1 = s2.
Proof. destruct s1, s2. simpl. congruence. Qed.

(** A pointer to a [struct phyhwr]: [phyhwrs[class][index]]. *)
Record phyref : Type := Phyref { pr_class : Z; pr_index : Z }.

(** ** The driver interface: [struct hwr_operations]

    Members the callers test against NULL are options. *)
Record hwr_operations (D : Type) : Type := HwrOperations {
  op_configure : option (hwr_addr -> file -> Z -> Z -> M (kstate D) Z);
  op_unconfigure : option (hwr_addr -> M (kstate D) Z);
  op_reserve_hwr : hwr_addr -> M (kstate D) (option phyref);
  op_release_hwr : hwr_addr -> M (kstate D) unit;
  op_get_iobuf : option (M (kstate D) (option Z));
  op_put_iobuf : option (Z -> M (kstate D) Z);
  op_send_iobuf : option (Z -> M (kstate D) Z);
  op_recv_iobuf : option (Z -> M (kstate D) Z)
}.
Arguments HwrOperations {D} _ _ _ _ _ _ _ _.
Arguments op_configure {D} _.
Arguments op_unconfigure {D} _.
Arguments op_reserve_hwr {D} _.
Arguments op_release_hwr {D} _.
Arguments op_get_iobuf {D} _.
Arguments op_put_iobuf {D} _.
Arguments op_send_iobuf {D} _.
Arguments op_recv_iobuf {D} _.

(** [atomic_t] arithmetic. *)
Definition atomic_inc (c : Z) : Z := s32 (c + 1).
Definition atomic_dec (c : Z) : Z := s32 (c - 1).

Lemma atomic_inc_small c : - 2 ^ 31 <= c < 2 ^ 31 - 1 -> atomic_inc c = c + 1.
Proof. intros. apply wraps_small; lia. Qed.

Lemma atomic_dec_small c : - 2 ^ 31 < c < 2 ^ 31 -> atomic_dec c = c - 1.
Proof. intros. apply wraps_small; lia. Qed.

Lemma atomic_dec_inc c : - 2 ^ 31 <= c < 2 ^ 31 - 1 -> atomic_dec (atomic_inc c) = c.
Proof. intros. rewrite atomic_inc_small, atomic_dec_small; lia. Qed.

Section hwr.
Context {D : Type}.
Abbreviation K := (M (kstate D)).

(** What an operations pointer points to. *)
Variable ops_at : Z -> hwr_operations D.

Definition kmalloc : K bool := fun s =>
  match k_alloc s with
  | [] => Ok (true, set_live (k_live s + 1) s)
  | b :: r => Ok (b, set_alloc r (set_live (k_live s + b2z b) s))
  end.

Definition kfree : K unit := mmodify (fun s => set_live (k_live s - 1) s).

(** [hwrtypes[i]], an array of [MAX_HWRTYPES] pointers. *)
Definition hwrtypes_at (i : Z) : K (option Z) :=
  if (0 <=? i) && (i <? MAX_HWRTYPES)
  then mgets (fun s => k_hwrtypes s !! i)
  else mfault OutOfBounds.

Definition ht_load (p : Z) : K hwrtype :=
  let! h := mgets (fun s => k_htheap s !! p) in deref h.

Definition ht_update (p : Z) (f : hwrtype -> hwrtype) : K unit :=
  mmodify (fun s => set_htheap (alter f p (k_htheap s)) s).

Definition ht_set_count (c : Z) (h : hwrtype) : hwrtype :=
  Hwrtype (ht_name h) (ht_type h) c (ht_num_devs h) (ht_ops h).

(** Reading and writing [phyhwrs[class][index]]. *)
Definition phy_load (r : phyref) : K phyhwr :=
  let! arr := mgets (fun s => k_phyhwrs s !! pr_class r) in
  let! devs := deref arr in
  match devs !! Z.to_nat (pr_index r) with
  | Some d => mret d
  | None => mfault OutOfBounds
  end.

Definition phy_store (r : phyref) (d : phyhwr) : K unit :=
  mmodify (fun s =>
    set_phyhwrs (alter (fun devs => <[Z.to_nat (pr_index r) := d]> devs)
                       (pr_class r) (k_phyhwrs s)) s).

Definition ph_set_count (c : Z) (d : phyhwr) : phyhwr :=
  Phyhwr (ph_hwraddr d) c (ph_active d) (ph_task d).
Definition ph_set_active (a : Z) (d : phyhwr) : phyhwr :=
  Phyhwr (ph_hwraddr d) (ph_count d) a (ph_task d).
Definition ph_set_task (t : option Z) (d : phyhwr) : phyhwr :=
  Phyhwr (ph_hwraddr d) (ph_count d) (ph_active d) t.

Definition phy_update (r : phyref) (f : phyhwr -> phyhwr) : K unit :=
  let! d := phy_load r in phy_store r (f d).

(** Reading and writing an I/O buffer object. *)
Definition iobuf_load (p : Z) : K hwr_iobuf :=
  let! b := mgets (fun s => k_iobufs s !! p) in deref b.

Definition iobuf_store (p : Z) (b : hwr_iobuf) : K unit :=
  mmodify (fun s => set_iobufs (<[p := b]> (k_iobufs s)) s).

(** ** Operations tables *)
Definition get_hwrops (a : hwr_addr) : K (option Z) :=
  if MAX_HWRTYPES <=? class a then mret None
  else
    let! p := hwrtypes_at (class a) in
    match p with
    | None => mret None
    | Some p =>
        do! ht_update p (fun h => ht_set_count (atomic_inc (ht_count h)) h) in
        let! h := ht_load p in
        mret (ht_ops h)
    end.

Definition put_hwrops (a : hwr_addr) : K unit :=
  if MAX_HWRTYPES <=? class a then mret tt
  else
    let! p := hwrtypes_at (class a) in
    match p with
    | None => mret tt
    | Some p => ht_update p (fun h => ht_set_count (atomic_dec (ht_count h)) h)
    end.

Definition reserve_hwr (a : hwr_addr) : K (option phyref) :=
  let! ops := get_hwrops a in
  match ops with
  | None => mret None
  | Some o =>
      let! ret := op_reserve_hwr (ops_at o) a in
      do! put_hwrops a in
      mret ret
  end.

Definition release_hwr (a : hwr_addr) : K unit :=
  let! ops := get_hwrops a in
  match ops with
  | None => mret tt
  | Some o =>
      do! op_release_hwr (ops_at o) a in
      put_hwrops a
  end.

(** The [*_iobuf] wrappers call the member without testing it. *)
Definition get_iobuf (a : hwr_addr) : K (option Z) :=
  let! ops := get_hwrops a in
  match ops with
  | None => mret None
  | Some o =>
      let! f := deref (op_get_iobuf (ops_at o)) in
      let! ret := f in
      do! put_hwrops a in
      mret ret
  end.

Definition put_iobuf (a : hwr_addr) (iobuf : Z) : K Z :=
  let! ops := get_hwrops a in
  match ops with
  | None => mret 0
  | Some o =>
      let! f := deref (op_put_iobuf (ops_at o)) in
      let! ret := f iobuf in
      do! put_hwrops a in
      mret ret
  end.

Definition send_iobuf (a : hwr_addr) (iobuf : Z) : K Z :=
  let! ops := get_hwrops a in
  match ops with
  | None => mret 0
  | Some o =>
      let! f := deref (op_send_iobuf (ops_at o)) in
      let! ret := f iobuf in
      do! put_hwrops a in
      mret ret
  end.

Definition recv_iobuf (a : hwr_addr) (iobuf : Z) : K Z :=
  let! ops := get_hwrops a in
  match ops with
  | None => mret 0
  | Some o =>
      let! f := deref (op_recv_iobuf (ops_at o)) in
      let! ret := f iobuf in
      do! put_hwrops a in
      mret ret
  end.

(** ** Device reference counts *)
Definition get_hwr (a : hwr_addr) : K (option phyref) :=
  if MAX_HWRTYPES <=? class a then mret None
  else
    let! p := hwrtypes_at (class a) in
    match p with
    | None => mret None
    | Some p =>
        let! h := ht_load p in
        if ht_num_devs h <=? addr a then mret None
        else
          let r := Phyref (class a) (addr a) in
          do! phy_update r (fun d => ph_set_count (atomic_inc (ph_count d)) d) in
          mret (Some r)
    end.

(** [atomic_dec_and_test], then the release of the last reference. *)
Definition drop_ref (d : phyhwr) : phyhwr :=
  let c := atomic_dec (ph_count d) in
  if c =? 0 then ph_set_count (-1) (ph_set_task None d) else ph_set_count c d.

Definition put_hwr (a : hwr_addr) : K unit :=
  if MAX_HWRTYPES <=? class a then mret tt
  else
    let! p := hwrtypes_at (class a) in
    match p with
    | None => mret tt
    | Some p =>
        let! h := ht_load p in
        if ht_num_devs h <=? addr a then mret tt
        else phy_update (Phyref (class a) (addr a)) drop_ref
    end.

Definition hwr_inuse (a : hwr_addr) : K Z :=
  let! r := get_hwr a in
  let! r := deref r in
  let! d := phy_load r in
  do! put_hwr a in
  mret (b2z (0 <? ph_active d)).

Definition hwr_activate (a : hwr_addr) : K unit :=
  let! r := get_hwr a in
  match r with
  | None => mret tt
  | Some r => do! phy_update r (ph_set_active 1) in put_hwr a
  end.

Definition hwr_deactivate (a : hwr_addr) : K unit :=
  let! r := get_hwr a in
  match r with
  | None => mret tt
  | Some r => do! phy_update r (ph_set_active 0) in put_hwr a
  end.

(** ** Registration *)

(** The loop that allocates one [phyhwr] per device into an array that was
    allocated for a single pointer: [Some devs] on success, [None] when an
    allocation failed (label [nomem_free]: the devices so far and the array
    are freed). *)
Fixpoint alloc_devs (n : nat) (devs : list phyhwr) : K (option (list phyhwr)) :=
  match n with
  | O => mret (Some devs)
  | S n =>
      let! ok := kmalloc in
      if 1 <=? zlen devs then mfault OutOfBounds
      else if ok then
        let! j := mgets k_junk in alloc_devs n (devs ++ [j])
      else
        do! mmodify (fun s => set_live (k_live s - zlen devs - 1) s) in mret None
  end.

Definition register_hwrtype (ht : Z) : K Z :=
  let! h := ht_load ht in
  let t := ht_type h in
  if MAX_HWRTYPES <? t then mret (-1)
  else
    let! ct := hwrtypes_at t in
    match ct with
    | Some _ => mret (-1)
    | None =>
        let publish : K Z :=
          do! mmodify (fun s => set_hwrtypes (<[t := ht]> (k_hwrtypes s)) s) in
          do! ht_update ht (fun h => ht_set_count (atomic_inc (ht_count h)) h) in
          mret 0 in
        let! arr := mgets (fun s => k_phyhwrs s !! t) in
        match arr with
        | Some _ => publish
        | None =>
            let! ok := kmalloc in
            if negb ok then mret (-1)
            else
              let! devs := alloc_devs (Z.to_nat (ht_num_devs h)) [] in
              match devs with
              | None => mret (-1)
              | Some devs =>
                  do! mmodify (fun s => set_phyhwrs (<[t := devs]> (k_phyhwrs s)) s) in
                  publish
              end
        end
    end.

Definition unregister_hwrtype (ht : Z) : K Z :=
  let! h := ht_load ht in
  let t := ht_type h in
  let! ct := hwrtypes_at t in
  match ct with
  | None => mret (-1)
  | Some p =>
      let! c := ht_load p in
      if negb (ht_type c =? t) then mret (-1)
      else
        do! ht_update ht (fun h => ht_set_count (atomic_dec (ht_count h)) h) in
        let! h := ht_load ht in
        if negb (ht_count h =? 0) then mret (-1)
        else
          do! mmodify (fun s => set_hwrtypes (delete t (k_hwrtypes s)) s) in
          let! arr := mgets (fun s => k_phyhwrs s !! t) in
          match arr with
          | None => mret 0
          | Some devs =>
              if zlen devs <? ht_num_devs h then mfault OutOfBounds
              else
                do! mmodify (fun s =>
                  set_phyhwrs (delete t (k_phyhwrs s))
                    (set_live (k_live s - ht_num_devs h - 1) s)) in
                mret 0
          end
  end.

Definition hwr_init : K unit :=
  mmodify (fun s => set_phyhwrs ∅ (set_hwrtypes ∅ s)).
End hwr.

(** ** Device and type views of the state *)
Section views.
Context {D : Type}.
Implicit Type s : kstate D.

Lemma runs_kmalloc s :
  k_alloc s = [] -> runs kmalloc s true (set_live (k_live s + 1) s).
Proof. intros H. unfold runs, kmalloc. by rewrite H. Qed.

Definition dev_is s (c i : Z) (d : phyhwr) : Prop :=
  exists devs, k_phyhwrs s !! c = Some devs /\ devs !! Z.to_nat i = Some d.

Definition dev_upd (c i : Z) (d : phyhwr) s : kstate D :=
  set_phyhwrs (alter (fun devs => <[Z.to_nat i := d]> devs) c (k_phyhwrs s)) s.

(** Class [c] is registered with the [hwrtype] object [h] at address [p]. *)
Definition registered s (c p : Z) (h : hwrtype) : Prop :=
  0 <= c < MAX_HWRTYPES /\ k_hwrtypes s !! c = Some p /\ k_htheap s !! p = Some h.

Lemma dev_is_upd s c i d d' : dev_is s c i d -> dev_is (dev_upd c i d' s) c i d'.
Proof.
  intros (devs & Hc & Hi). exists (<[Z.to_nat i := d']> devs). simpl.
  rewrite lookup_alter_eq, Hc. split; [done|].
  apply list_lookup_insert_eq. by eapply lookup_lt_Some.
Qed.

Lemma dev_upd_upd s c i d d' : dev_upd c i d' (dev_upd c i d s) = dev_upd c i d' s.
Proof.
  unfold dev_upd, set_phyhwrs. simpl. f_equal.
  apply alter_alter_ext. intros devs _. apply list_insert_insert_eq.
Qed.

Lemma dev_upd_id s c i d : dev_is s c i d -> dev_upd c i d s = s.
Proof.
  intros (devs & Hc & Hi). destruct s. unfold dev_upd, set_phyhwrs. simpl in *. f_equal.
  apply alter_id. intros l Hl. simplify_eq. by apply list_insert_id.
Qed.

Lemma dev_is_upd_ne s c i c' i' d d' :
  (c <> c' \/ Z.to_nat i <> Z.to_nat i') ->
  dev_is (dev_upd c i d s) c' i' d' <-> dev_is s c' i' d'.
Proof.
  intros Hne. unfold dev_is, dev_upd. simpl.
  destruct (decide (c = c')) as [<-|]; [|by rewrite lookup_alter_ne].
  destruct Hne as [|Hi]; [done|]. rewrite lookup_alter_eq.
  split; intros (devs & Hc & Hd).
  - destruct (k_phyhwrs s !! c) as [l|]; simplify_eq/=.
    exists l. split; [done|]. by rewrite list_lookup_insert_ne in Hd by done.
  - rewrite Hc. exists (<[Z.to_nat i := d]> devs). split; [done|].
    by rewrite list_lookup_insert_ne.
Qed.

Lemma dev_is_det s c i d d' : dev_is s c i d -> dev_is s c i d' -> d = d'.
Proof. intros (l & Hl & Hd) (l' & Hl' & Hd'). congruence. Qed.

Lemma runs_phy_load s c i d :
  dev_is s c i d -> runs (phy_load (Phyref c i)) s d s.
Proof.
  intros (devs & Hc & Hi). unfold runs, phy_load, mbind, mgets. simpl.
  rewrite Hc. simpl. by rewrite Hi.
Qed.

Lemma runs_phy_update s c i d f :
  dev_is s c i d -> runs (phy_update (Phyref c i) f) s tt (dev_upd c i (f d) s).
Proof. intros Hd. eapply runs_bind; [by apply runs_phy_load|]. done. Qed.

Lemma runs_hwrtypes_at s c :
  0 <= c < MAX_HWRTYPES -> runs (hwrtypes_at c) s (k_hwrtypes s !! c) s.
Proof.
  intros Hc. unfold hwrtypes_at.
  rewrite (proj2 (Z.leb_le 0 c)), (proj2 (Z.ltb_lt c _)) by lia. done.
Qed.

Lemma runs_iobuf_load s p b : k_iobufs s !! p = Some b -> runs (iobuf_load p) s b s.
Proof. intros H. unfold runs, iobuf_load, mbind, mgets. by rewrite H. Qed.

Lemma runs_ht_load s p h : k_htheap s !! p = Some h -> runs (ht_load p) s h s.
Proof. intros Hp. unfold runs, ht_load, mbind, mgets. by rewrite Hp. Qed.

(** The state after one use-count change of the type object at [p]. *)
Definition ht_upd (p : Z) (f : Z -> Z) s : kstate D :=
  set_htheap (alter (fun h => ht_set_count (f (ht_count h)) h) p (k_htheap s)) s.

Lemma runs_get_hwrops s a p h :
  registered s (class a) p h ->
  runs (get_hwrops a) s (ht_ops h) (ht_upd p atomic_inc s).
Proof.
  intros (Hc & Hp & Hh). unfold get_hwrops.
  rewrite (proj2 (Z.leb_gt _ _)) by lia.
  eapply runs_bind; [by apply runs_hwrtypes_at|]. rewrite Hp.
  eapply runs_bind; [apply runs_modify|].
  eapply runs_bind; [apply runs_ht_load; simpl; by rewrite lookup_alter_eq, Hh|].
  done.
Qed.

Lemma runs_put_hwrops s a p h :
  registered s (class a) p h ->
  runs (put_hwrops a) s tt (ht_upd p atomic_dec s).
Proof.
  intros (Hc & Hp & Hh). unfold put_hwrops.
  rewrite (proj2 (Z.leb_gt _ _)) by lia.
  eapply runs_bind; [by apply runs_hwrtypes_at|]. by rewrite Hp.
Qed.

Lemma runs_get_hwrops_none s a :
  (MAX_HWRTYPES <= class a \/ 0 <= class a /\ k_hwrtypes s !! class a = None) ->
  runs (get_hwrops a) s None s /\ runs (put_hwrops a) s tt s.
Proof.
  intros Hc. unfold get_hwrops, put_hwrops.
  destruct (Z.leb_spec MAX_HWRTYPES (class a)); [done|].
  destruct Hc as [|[Hc Hn]]; [lia|].
  split; (eapply runs_bind; [by apply runs_hwrtypes_at|]); by rewrite Hn.
Qed.

(** A use count that is taken and given back is unchanged. *)
Lemma ht_upd_balanced s p h :
  k_htheap s !! p = Some h -> - 2 ^ 31 <= ht_count h < 2 ^ 31 - 1 ->
  ht_upd p atomic_dec (ht_upd p atomic_inc s) = s.
Proof.
  intros Hp Hr. destruct s. unfold ht_upd, set_htheap. simpl in *. f_equal.
  rewrite (alter_alter_ext _ _ id); [by apply alter_id|].
  intros h' Hh'. rewrite Hp in Hh'. simplify_eq. unfold ht_set_count. destruct h'.
  cbn [ht_name ht_type ht_count ht_num_devs ht_ops] in *. by rewrite atomic_dec_inc.
Qed.

Lemma registered_ht_upd s c p h f :
  registered s c p h ->
  registered (ht_upd p f s) c p (ht_set_count (f (ht_count h)) h).
Proof.
  intros (Hc & Hp & Hh). split; [done|]. split; [done|]. simpl.
  by rewrite lookup_alter_eq, Hh.
Qed.
End views.

#[export] Hint Resolve runs_get_hwrops runs_put_hwrops runs_phy_load runs_phy_update
  runs_hwrtypes_at runs_ht_load registered_ht_upd : rhino.

Section refcount.
Context {D : Type}.
Implicit Type s : kstate D.

(** The preconditions of a device access: the class is registered, the index
    is a device of it and the array holds a device there. *)
Definition dev_ready s (a : hwr_addr) (p : Z) (h : hwrtype) (d : phyhwr) : Prop :=
  registered s (class a) p h /\ addr a < ht_num_devs h
  /\ dev_is s (class a) (addr a) d.

Lemma runs_get_hwr s a p h d :
  dev_ready s a p h d ->
  runs (get_hwr a) s (Some (Phyref (class a) (addr a)))
    (dev_upd (class a) (addr a) (ph_set_count (atomic_inc (ph_count d)) d) s).
Proof.
  intros ((Hc & Hp & Hh) & Ha & Hd). unfold get_hwr.
  rewrite (proj2 (Z.leb_gt _ _)) by lia.
  eapply runs_bind; [by apply runs_hwrtypes_at|]. rewrite Hp.
  eapply runs_bind; [by apply runs_ht_load|].
  rewrite (proj2 (Z.leb_gt _ _)) by lia.
  eapply runs_bind; [by apply runs_phy_update|]. done.
Qed.

Lemma runs_put_hwr s a p h d :
  dev_ready s a p h d ->
  runs (put_hwr a) s tt (dev_upd (class a) (addr a) (drop_ref d) s).
Proof.
  intros ((Hc & Hp & Hh) & Ha & Hd). unfold put_hwr.
  rewrite (proj2 (Z.leb_gt _ _)) by lia.
  eapply runs_bind; [by apply runs_hwrtypes_at|]. rewrite Hp.
  eapply runs_bind; [by apply runs_ht_load|].
  rewrite (proj2 (Z.leb_gt _ _)) by lia. by apply runs_phy_update.
Qed.

Lemma dev_ready_upd s a p h d d' :
  dev_ready s a p h d ->
  dev_ready (dev_upd (class a) (addr a) d' s) a p h d'.
Proof.
  intros (Hr & Ha & Hd). split; [done|]. split; [done|]. by eapply dev_is_upd.
Qed.

(** A count that a balanced get/put leaves alone: free, or held. *)
Definition stable_count (c : Z) : Prop := c = -1 \/ 1 <= c < 2 ^ 31 - 1.

Lemma drop_inc d :
  stable_count (ph_count d) ->
  drop_ref (ph_set_count (atomic_inc (ph_count d)) d) = d.
Proof.
  intros Hc. unfold drop_ref, stable_count in *.
  destruct d as [a c act t]. cbn [ph_count ph_set_count ph_hwraddr ph_active ph_task] in *.
  rewrite atomic_dec_inc by lia. destruct (Z.eqb_spec c 0); [lia|done].
Qed.

Lemma drop_inc_active d v :
  stable_count (ph_count d) ->
  drop_ref (ph_set_active v (ph_set_count (atomic_inc (ph_count d)) d))
  = ph_set_active v d.
Proof. intros Hc. apply (drop_inc (ph_set_active v d)). done. Qed.

(** Setting the active mark between a get and a put changes nothing else. *)
Lemma runs_mark_active s a p h d v :
  dev_ready s a p h d -> stable_count (ph_count d) ->
  runs (let! r := get_hwr a in
        match r with
        | None => mret tt
        | Some r => do! phy_update r (ph_set_active v) in put_hwr a
        end) s tt (dev_upd (class a) (addr a) (ph_set_active v d) s).
Proof.
  intros Hd Hc. eapply runs_bind; [by eapply runs_get_hwr|]. simpl.
  set (d1 := ph_set_count (atomic_inc (ph_count d)) d).
  pose proof (dev_ready_upd s a p h d d1 Hd) as Hd1.
  eapply runs_bind; [eapply runs_phy_update, Hd1|].
  pose proof (dev_ready_upd _ a p h d1 (ph_set_active v d1) Hd1) as Hd2.
  pose proof (runs_put_hwr _ _ _ _ _ Hd2) as Hp.
  unfold d1 in *. rewrite drop_inc_active, !dev_upd_upd in Hp by done.
  by rewrite dev_upd_upd.
Qed.

(** Activation and deactivation of a free or held device change its active
    mark and nothing else. *)
Lemma runs_hwr_activate s a p h d :
  dev_ready s a p h d -> stable_count (ph_count d) ->
  runs (hwr_activate a) s tt (dev_upd (class a) (addr a) (ph_set_active 1 d) s).
Proof. apply runs_mark_active. Qed.

Lemma runs_hwr_deactivate s a p h d :
  dev_ready s a p h d -> stable_count (ph_count d) ->
  runs (hwr_deactivate a) s tt (dev_upd (class a) (addr a) (ph_set_active 0 d) s).
Proof. apply runs_mark_active. Qed.

(** [hwr_inuse] on a free or held device only reads the active mark. *)
Lemma runs_hwr_inuse s a p h d :
  dev_ready s a p h d -> stable_count (ph_count d) ->
  runs (hwr_inuse a) s (b2z (0 <? ph_active d)) s.
Proof.
  intros Hd Hc. unfold hwr_inuse. eapply runs_bind; [by eapply runs_get_hwr|].
  eapply runs_bind; [done|].
  pose proof (dev_ready_upd s a p h d (ph_set_count (atomic_inc (ph_count d)) d) Hd) as Hd1.
  eapply runs_bind; [eapply runs_phy_load, Hd1|].
  pose proof (runs_put_hwr _ _ _ _ _ Hd1) as Hp.
  rewrite drop_inc, dev_upd_upd, (dev_upd_id s _ _ d) in Hp by (done || apply Hd).
  eapply runs_bind; [exact Hp|]. done.
Qed.
End refcount.

(** ** Registration *)
Section registration.
Context {D : Type}.
Implicit Type s : kstate D.

(** A type object that can be registered: its class is in the table, free, and
    it has at most the one device the array is allocated for. *)
Definition registrable s (p : Z) (h : hwrtype) : Prop :=
  k_htheap s !! p = Some h /\ 0 <= ht_type h < MAX_HWRTYPES
  /\ k_hwrtypes s !! ht_type h = None /\ k_phyhwrs s !! ht_type h = None
  /\ ht_num_devs h = 1.

(** The two allocations of a registration, and what each outcome leads to. *)
Lemma register_cases s p h :
  registrable s p h ->
  (exists r, register_hwrtype p s = Ok (-1, set_alloc r s)) \/
  (exists r, register_hwrtype p s = Ok (0,
     ht_upd p atomic_inc
       (set_hwrtypes (<[ht_type h := p]> (k_hwrtypes s))
         (set_phyhwrs (<[ht_type h := [k_junk s]]> (k_phyhwrs s))
           (set_alloc r (set_live (k_live s + 2) s)))))).
Proof.
  intros (Hp & Hc & Hn & Hy & Hd). destruct s as [al lv jk hh ht ph io inf dr].
  simpl in *. unfold register_hwrtype, ht_load, mbind, mgets. simpl. rewrite Hp. simpl.
  destruct (Z.ltb_spec MAX_HWRTYPES (ht_type h)); [lia|].
  unfold hwrtypes_at. rewrite (proj2 (Z.leb_le 0 _)), (proj2 (Z.ltb_lt _ _)) by lia.
  cbn -[insert]. rewrite Hn. cbn -[insert]. rewrite Hy, Hd.
  unfold ht_upd, set_htheap, mbind. cbn -[insert].
  replace (lv + 2) with (lv + 1 + 1) by lia.
  destruct al as [|[] [|[] al]]; cbn -[insert];
    [right; exists [] | right; exists [] | right; exists al | left; exists al
    | left; exists [] | left; exists (true :: al) | left; exists (false :: al)];
    unfold mret, set_live, set_alloc; cbn -[insert];
    first [reflexivity | do 3 f_equal; lia
          | simpl; unfold set_live, set_alloc, zlen; simpl; do 3 f_equal; lia].
Qed.

Lemma runs_unregister s p h devs :
  registered s (ht_type h) p h -> ht_count h = 1 ->
  k_phyhwrs s !! ht_type h = Some devs -> zlen devs = ht_num_devs h ->
  runs (unregister_hwrtype p) s 0
    (set_phyhwrs (delete (ht_type h) (k_phyhwrs s))
      (set_live (k_live s - ht_num_devs h - 1)
        (set_hwrtypes (delete (ht_type h) (k_hwrtypes s)) (ht_upd p atomic_dec s)))).
Proof.
  intros (Hc & Hp & Hh) H1 Hy Hz. unfold unregister_hwrtype.
  eapply runs_bind; [by apply runs_ht_load|].
  eapply runs_bind; [by apply runs_hwrtypes_at|]. rewrite Hp.
  eapply runs_bind; [by apply runs_ht_load|]. rewrite Z.eqb_refl.
  eapply runs_bind; [apply runs_modify|].
  eapply runs_bind; [apply runs_ht_load; simpl; by rewrite lookup_alter_eq, Hh|].
  cbn [ht_set_count ht_count ht_num_devs ht_type]. rewrite H1. simpl negb.
  eapply runs_bind; [apply runs_modify|].
  eapply runs_bind; [apply runs_gets|]. simpl. rewrite Hy.
  rewrite (proj2 (Z.ltb_ge _ _)) by lia.
  eapply runs_bind; [apply runs_modify|]. done.
Qed.

(** The published state. *)
Definition published s (p : Z) (h : hwrtype) : kstate D :=
  ht_upd p atomic_inc
    (set_hwrtypes (<[ht_type h := p]> (k_hwrtypes s))
      (set_phyhwrs (<[ht_type h := [k_junk s]]> (k_phyhwrs s))
        (set_live (k_live s + 2) s))).

Lemma runs_register s p h :
  registrable s p h -> k_alloc s = [] -> runs (register_hwrtype p) s 0 (published s p h).
Proof.
  intros Hr Ha. destruct (register_cases s p h Hr) as [[r E]|[r E]];
    destruct Hr as (Hp & Hc & Hn & Hy & Hd); destruct s as [al lv jk hh ht ph io inf dr];
    simpl in *; subst al; revert E;
    unfold runs, register_hwrtype, ht_load, hwrtypes_at, mbind, mgets; simpl;
    rewrite Hp; simpl; (destruct (Z.ltb_spec MAX_HWRTYPES (ht_type h)); [lia|]);
    rewrite (proj2 (Z.leb_le 0 _)), (proj2 (Z.ltb_lt _ _)) by lia;
    simpl; rewrite Hn; simpl; rewrite Hy, Hd; [discriminate|].
  intros _. unfold published. simpl. replace (lv + 2) with (lv + 1 + 1) by lia. done.
Qed.

Lemma published_registered s p h :
  registrable s p h -> ht_count h = 0 ->
  registered (published s p h) (ht_type h) p (ht_set_count 1 h)
  /\ k_phyhwrs (published s p h) !! ht_type h = Some [k_junk s].
Proof.
  intros (Hp & Hc & Hn & Hy & Hd) H0. split.
  - replace 1 with (atomic_inc (ht_count h)) by by rewrite H0.
    apply registered_ht_upd. split; [done|]. simpl. by rewrite lookup_insert_eq.
  - simpl. by rewrite lookup_insert_eq.
Qed.

(** Registering a hardware region type that has one device publishes it
    with a use count of one and one device record, and unregistering it
    afterwards gives back exactly the state before the registration: the
    tables, the use count and the number of live allocations. *)
Lemma register_unregister_roundtrip s p h :
  registrable s p h -> ht_count h = 0 -> k_alloc s = [] ->
  exists s1,
    runs (register_hwrtype p) s 0 s1
    /\ registered s1 (ht_type h) p (ht_set_count 1 h)
    /\ dev_is s1 (ht_type h) 0 (k_junk s)
    /\ runs (unregister_hwrtype p) s1 0 s.
Proof.
  intros Hr H0 Ha. exists (published s p h).
  destruct (published_registered s p h Hr H0) as [Hreg Hdev].
  split; [by apply runs_register|]. split; [done|].
  split; [by exists [k_junk s]|]. pose proof Hr as (Hp & Hc & Hn & Hy & Hd).
  pose proof (runs_unregister _ p (ht_set_count 1 h) _ Hreg eq_refl Hdev) as Hu.
  cbn [ht_num_devs ht_set_count ht_type] in Hu. rewrite Hd in Hu. specialize (Hu eq_refl).
  refine (eq_trans Hu _). do 2 f_equal.
  transitivity (set_phyhwrs (delete (ht_type h) (<[ht_type h:=[k_junk s]]> (k_phyhwrs s)))
          (set_live (k_live s + 2 - 1 - 1)
           (set_hwrtypes (delete (ht_type h) (<[ht_type h:=p]> (k_hwrtypes s)))
           (ht_upd p atomic_dec (ht_upd p atomic_inc s))))); [done|].
  rewrite (ht_upd_balanced s p h), !delete_insert_id by (done || lia).
  destruct s. unfold set_phyhwrs, set_live, set_hwrtypes. simpl. f_equal. lia.
Qed.

(** Whatever the outcomes of its allocations, a registration either
    publishes the type or returns -1 with the tables, the use count and the
    number of live allocations as they were. *)
Lemma register_hwrtype_total s p h :
  registrable s p h ->
  exists v s1, runs (register_hwrtype p) s v s1 /\ 
    (v = 0 /\ k_hwrtypes s1 !! ht_type h = Some p
       /\ k_phyhwrs s1 !! ht_type h = Some [k_junk s]
     \/ v = -1 /\ k_hwrtypes s1 = k_hwrtypes s /\ k_phyhwrs s1 = k_phyhwrs s
       /\ k_htheap s1 = k_htheap s /\ k_live s1 = k_live s).
Proof.
  intros Hr. destruct (register_cases s p h Hr) as [[r E]|[r E]].
  - exists (-1), (set_alloc r s). split; [exact E|]. by right.
  - eexists 0, _. split; [exact E|]. left. simpl. by rewrite !lookup_insert_eq.
Qed.

(** [register_hwrtype] guards its class with [>] and sizes the device
    array for one pointer: a class equal to [MAX_HWRTYPES], and a type with
    two or more devices, take it out of bounds. *)
Lemma register_hwrtype_out_of_bounds s p h :
  k_htheap s !! p = Some h -> k_alloc s = [] ->
  ht_type h = MAX_HWRTYPES \/
    (0 <= ht_type h < MAX_HWRTYPES /\ k_hwrtypes s !! ht_type h = None
     /\ k_phyhwrs s !! ht_type h = None /\ 2 <= ht_num_devs h) ->
  register_hwrtype p s = Fault OutOfBounds.
Proof.
  intros Hp Ha Hc. destruct s as [al lv jk hh ht ph io inf dr]. simpl in *. subst al.
  unfold register_hwrtype, ht_load, hwrtypes_at, mbind, mgets. simpl. rewrite Hp. simpl.
  destruct (Z.ltb_spec MAX_HWRTYPES (ht_type h)); [lia|].
  destruct Hc as [->|(Hc & Hn & Hy & Hd)]; [done|].
  rewrite (proj2 (Z.leb_le 0 _)), (proj2 (Z.ltb_lt _ _)) by lia.
  simpl. rewrite Hn. simpl. rewrite Hy. simpl.
  replace (Z.to_nat (ht_num_devs h)) with (S (S (Z.to_nat (ht_num_devs h - 2)))) by lia.
  done.
Qed.
End registration.

(** ** Interleaved references

    Threads that look at a device ([hwr_inuse], [hwr_activate], ...) bracket
    the access with [get_hwr]/[put_hwr].  A trace is the order in which the
    atomic count operations of all threads take effect. *)
Inductive ref_op : Type := RGet | RPut.

Definition ref_step (d : phyhwr) (o : ref_op) : phyhwr :=
  match o with
  | RGet => ph_set_count (atomic_inc (ph_count d)) d
  | RPut => drop_ref d
  end.

Definition ref_run (ops : list ref_op) (d : phyhwr) : phyhwr := foldl ref_step d ops.

(** [nested n ops]: with [n] references outstanding, no put of [ops] comes
    before its get and all are given back at the end. *)
Fixpoint nested (n : nat) (ops : list ref_op) : bool :=
  match ops with
  | [] => (n =? 0)%nat
  | RGet :: ops => nested (S n) ops
  | RPut :: ops => match n with O => false | S n => nested n ops end
  end.

Lemma ref_run_held_gen ops n d c :
  nested n ops = true -> 1 <= c -> c + Z.of_nat n + zlen ops < 2 ^ 31 - 1 ->
  ph_count d = c + Z.of_nat n -> ref_run ops d = ph_set_count c d.
Proof.
  revert n d. induction ops as [|[] ops IH]; intros n d Hn Hc Hb Hd; simpl in Hn.
  - apply Nat.eqb_eq in Hn as ->. destruct d. unfold ph_set_count. simpl in *.
    f_equal. lia.
  - rewrite zlen_cons in Hb. unfold ref_run in *. simpl.
    rewrite (IH (S n)); [done|done|done|lia|].
    simpl. rewrite atomic_inc_small; pose proof (zlen_nonneg ops); lia.
  - destruct n as [|n]; [done|]. rewrite zlen_cons in Hb. pose proof (zlen_nonneg ops).
    unfold ref_run in *. simpl. unfold drop_ref.
    rewrite atomic_dec_small by lia. rewrite (proj2 (Z.eqb_neq _ _)) by lia.
    rewrite (IH n); [done|done|done|lia|]. simpl. lia.
Qed.

(** On a device that somebody holds, every interleaving of bracketed
    references gives the device back as it was: the holder keeps it. *)
Lemma ref_run_held ops d :
  nested 0 ops = true -> 1 <= ph_count d -> ph_count d + zlen ops < 2 ^ 31 - 1 ->
  ref_run ops d = d.
Proof.
  intros Hn Hc Hb. rewrite (ref_run_held_gen ops 0 d (ph_count d)) by (done || lia).
  by destruct d.
Qed.

(** On a free device (count -1) two overlapping references are not neutral:
    the inner put takes the count from 1 to 0 and resets it to -1, the outer
    one then takes it to -2. *)
Lemma ref_run_free_overlap d :
  ph_count d = -1 ->
  ph_count (ref_run [RGet; RPut] d) = -1 /\ ph_count (ref_run [RGet; RGet; RPut; RPut] d) = -2.
Proof. destruct d as [a c act t]. simpl. intros ->. done. Qed.
