(* ===== verification/Driver.v ===== *)
(** * What a hardware region driver promises

The loader ([Bkexecd]) and the register files ([ProcBorph]) call a driver only
through [struct hwr_operations].  [HwrDriver] states what they rely on; the
theorems about them are proved against it, and [HwrRhino] discharges it for the
RHINO driver. *)
From stdpp Require Import base list gmap strings.
From S2P Require Import Prelude Bof Hwr.
From Stdlib Require Import ZArith Lia.

(** Everything outside the driver and the allocator. *)
Definition outer {D} (s : kstate D) :=
  (k_junk s, k_htheap s, k_hwrtypes s, k_phyhwrs s, k_iobufs s, k_infos s).

(** The state after a reservation attempt on device [d], and its answer. *)
Definition reserved {D} (a : hwr_addr) (d : phyhwr) (s : kstate D) : kstate D :=
  if ph_count d =? -1 then dev_upd (class a) (addr a) (ph_set_count 1 d) s else s.

Definition reserve_answer (a : hwr_addr) (d : phyhwr) : option phyref :=
  if ph_count d =? -1 then Some (Phyref (class a) (addr a)) else None.

(** A driver for the single device of class [cls]. *)
Class HwrDriver {D} (ops : hwr_operations D) (cls : Z) : Prop := {
  driver_reserve s a d :
    class a = cls -> addr a = 0 -> dev_is s (class a) (addr a) d ->
    stable_count (ph_count d) ->
    runs (op_reserve_hwr ops a) s (reserve_answer a d) (reserved a d s);
  driver_release s a d :
    class a = cls -> addr a = 0 -> dev_is s (class a) (addr a) d ->
    runs (op_release_hwr ops a) s tt (dev_upd (class a) (addr a) (drop_ref d) s);
  driver_reserve_range s a :
    class a = cls -> 1 <= addr a -> runs (op_reserve_hwr ops a) s None s;
  driver_configure cfg a f offset len :
    op_configure ops = Some cfg -> unchanged outer (cfg a f offset len);
  driver_unconfigure unc s a :
    op_unconfigure ops = Some unc ->
    exists d, runs (unc a) s 0 (set_drv d s)
}.

Section driver.
Context {D : Type} (ops_at : Z -> hwr_operations D).
Implicit Type s : kstate D.

(** The class of [a] is served by a driver that keeps its promises. *)
Definition served s (a : hwr_addr) (p : Z) (h : hwrtype) (o : Z) (d : phyhwr) : Prop :=
  registered s (class a) p h /\ ht_ops h = Some o /\ HwrDriver (ops_at o) (class a)
  /\ - 2 ^ 31 <= ht_count h < 2 ^ 31 - 1 /\ addr a = 0 /\ dev_is s (class a) (addr a) d.

Lemma served_dev_upd s a p h o d d' :
  served s a p h o d -> served (dev_upd (class a) (addr a) d' s) a p h o d'.
Proof.
  intros (Hr & Ho & Hd & Hc & Ha & Hv). do 5 (split; [done|]). by eapply dev_is_upd.
Qed.

(** A driver call between [get_hwrops] and [put_hwrops] that runs in any state
which differs in the use count only. *)
Lemma runs_between s a p h o {A} (m : M (kstate D) A) (r : A) (f : kstate D -> kstate D) :
  registered s (class a) p h -> ht_ops h = Some o -> - 2 ^ 31 <= ht_count h < 2 ^ 31 - 1 ->
  runs m (ht_upd p atomic_inc s) r (f (ht_upd p atomic_inc s)) ->
  (forall g s, f (ht_upd p g s) = ht_upd p g (f s)) ->
  k_htheap (f s) = k_htheap s -> k_hwrtypes (f s) = k_hwrtypes s ->
  runs (let! ops := get_hwrops a in
        match ops with
        | None => mfault NullDeref
        | Some _ => let! ret := m in do! put_hwrops a in mret ret
        end) s r (f s).
Proof.
  intros Hr Ho Hc Hm Hcomm Hh Ht. eapply runs_bind; [by apply runs_get_hwrops|].
  rewrite Ho. eapply runs_bind; [exact Hm|]. rewrite Hcomm.
  destruct Hr as (Hcl & Hp & Hhp). eapply runs_bind.
  - eapply runs_put_hwrops. apply (registered_ht_upd (f s) (class a) p h atomic_inc).
    split; [done|]. by rewrite Ht, Hh.
  - unfold runs, mret. do 2 f_equal. apply (ht_upd_balanced (f s) p h); [by rewrite Hh|done].
Qed.

Lemma runs_reserve_hwr s a p h o d :
  served s a p h o d -> stable_count (ph_count d) ->
  runs (reserve_hwr ops_at a) s (reserve_answer a d) (reserved a d s).
Proof.
  intros (Hr & Ho & Hd & Hc & Ha & Hv) Hs.
  pose proof (runs_between s a p h o (op_reserve_hwr (ops_at o) a) (reserve_answer a d)
    (reserved a d) Hr Ho Hc) as H.
  unfold runs, reserve_hwr, mbind in *. rewrite (runs_get_hwrops s a p h Hr) in *.
  rewrite Ho in *. apply H.
  - by apply driver_reserve.
  - intros g s'. unfold reserved. by destruct (_ =? _).
  - unfold reserved. by destruct (_ =? _).
  - unfold reserved. by destruct (_ =? _).
Qed.

Lemma runs_release_hwr s a p h o d :
  served s a p h o d ->
  runs (release_hwr ops_at a) s tt (dev_upd (class a) (addr a) (drop_ref d) s).
Proof.
  intros (Hr & Ho & Hd & Hc & Ha & Hv).
  pose proof (runs_between s a p h o (op_release_hwr (ops_at o) a) tt
    (dev_upd (class a) (addr a) (drop_ref d)) Hr Ho Hc) as H.
  unfold runs, release_hwr, mbind in *. rewrite (runs_get_hwrops s a p h Hr) in *.
  rewrite Ho in *. pose proof (driver_release (ht_upd p atomic_inc s) a d eq_refl Ha Hv) as E.
  rewrite E in *. unfold runs in E. rewrite <- H by done.
  by destruct (put_hwrops a _) as [[[] ?]|].
Qed.

End driver.
