(* ===== verification/HwrRhino.v ===== *)
(** * The RHINO hardware region driver: [src/borph/kernel/hwr/hwrtype_rhino.c]

    Serial configuration of the Spartan-6 over SPI, register access over the
    GPMC bus, device reservation, module init and cleanup.  The FPGA, the SPI
    core and the memory map are parameters of the model: the value of an input
    pin at each poll, the status of each SPI message and the moments at which
    the completions run, the halfword the FPGA presents on the bus, and the
    answers of the resource manager. *)
From stdpp Require Import base list gmap strings.
From S2P Require Import Prelude Bof Hwr Driver.
From Stdlib Require Import ZArith Lia.

(** ** Pins, waits and windows *)
Definition PROG_B : Z := 126.
Definition INIT_B : Z := 127.
Definition INIT_B_DIR : Z := 129.
Definition DONE : Z := 128.
Definition CFG_INITB_WAIT : Z := 4000000.
Definition CFG_DONE_WAIT : Z := 100000.
Definition FPGA_VCCINT : Z := 99.
Definition FPGA_VCCO_AUX : Z := 100.
Definition FPGA_VCCMGT : Z := 101.
Definition FPGA_CS0_BASE : Z := 0x08000000.
Definition FPGA_CS1_BASE : Z := 0x10000000.
Definition FPGA_CS2_BASE : Z := 0x18000000.
Definition FPGA_CS3_BASE : Z := 0x20000000.
Definition FPGA_CS4_BASE : Z := 0x28000000.
Definition FPGA_CS5_BASE : Z := 0x38000000.
Definition SZ_128M : Z := 0x08000000.

(** What the driver does to the outside, in order. *)
Inductive event : Type :=
| GpioOut (gpio value : Z)
| GpioDirIn (gpio : Z)
| SpiSend (data : list Z) (status : Z).

(** A queued configuration segment: its data and its [last] flag. *)
Record config_transfer_part : Type := Ctp {
  ctp_data : list Z;
  ctp_last : bool
}.

(** [rhino_fpga_map_t]: the base and the mapping of each chip select; 0 is NULL. *)
Record fpga_map : Type := FpgaMap {
  cs_base : list Z;
  cs_virtual : list Z
}.

(** ** Driver state

    [r_sem] is the count of [rhino_mutex]; [r_sig], whether a signal interrupts
    a sleeping [down_interruptible]; [r_spi], whether [rhino_fpga] is set;
    [r_parts], [config_transfer_parts]; [r_done], the count of the completion
    [configuration_data_sent]; [r_pend], the messages the SPI core has queued,
    oldest first; [r_nmsg], [r_nchk] and [r_polls] count finished messages,
    loop check points and pin reads; [r_log], the events, newest first;
    [r_iobuf] the static I/O buffer pointer; [r_page], [r_cache], [r_spidrv]
    whether the page, the slab cache and the SPI driver are there; [r_bus] the
    bus map; [r_regions] and [r_maps] the memory regions and mappings held;
    [r_writes] the halfword writes on the bus, newest first. *)
Record rhino : Type := Rhino {
  r_sem : Z;
  r_sig : bool;
  r_spi : bool;
  r_parts : Z;
  r_done : Z;
  r_pend : list config_transfer_part;
  r_nmsg : nat;
  r_nchk : nat;
  r_polls : nat;
  r_log : list event;
  r_iobuf : option Z;
  r_page : bool;
  r_cache : bool;
  r_spidrv : bool;
  r_bus : option fpga_map;
  r_regions : list Z;
  r_maps : list Z;
  r_writes : list (Z * Z)
}.

Definition with_r_sem (v : Z) (s : rhino) : rhino :=
  Rhino v (r_sig s) (r_spi s) (r_parts s) (r_done s) (r_pend s) (r_nmsg s) (r_nchk s)
    (r_polls s) (r_log s) (r_iobuf s) (r_page s) (r_cache s) (r_spidrv s) (r_bus s)
    (r_regions s) (r_maps s) (r_writes s).
Definition with_r_sig (v : bool) (s : rhino) : rhino :=
  Rhino (r_sem s) v (r_spi s) (r_parts s) (r_done s) (r_pend s) (r_nmsg s) (r_nchk s)
    (r_polls s) (r_log s) (r_iobuf s) (r_page s) (r_cache s) (r_spidrv s) (r_bus s)
    (r_regions s) (r_maps s) (r_writes s).
Definition with_r_spi (v : bool) (s : rhino) : rhino :=
  Rhino (r_sem s) (r_sig s) v (r_parts s) (r_done s) (r_pend s) (r_nmsg s) (r_nchk s)
    (r_polls s) (r_log s) (r_iobuf s) (r_page s) (r_cache s) (r_spidrv s) (r_bus s)
    (r_regions s) (r_maps s) (r_writes s).
Definition with_r_parts (v : Z) (s : rhino) : rhino :=
  Rhino (r_sem s) (r_sig s) (r_spi s) v (r_done s) (r_pend s) (r_nmsg s) (r_nchk s)
    (r_polls s) (r_log s) (r_iobuf s) (r_page s) (r_cache s) (r_spidrv s) (r_bus s)
    (r_regions s) (r_maps s) (r_writes s).
Definition with_r_done (v : Z) (s : rhino) : rhino :=
  Rhino (r_sem s) (r_sig s) (r_spi s) (r_parts s) v (r_pend s) (r_nmsg s) (r_nchk s)
    (r_polls s) (r_log s) (r_iobuf s) (r_page s) (r_cache s) (r_spidrv s) (r_bus s)
    (r_regions s) (r_maps s) (r_writes s).
Definition with_r_pend (v : list config_transfer_part) (s : rhino) : rhino :=
  Rhino (r_sem s) (r_sig s) (r_spi s) (r_parts s) (r_done s) v (r_nmsg s) (r_nchk s)
    (r_polls s) (r_log s) (r_iobuf s) (r_page s) (r_cache s) (r_spidrv s) (r_bus s)
    (r_regions s) (r_maps s) (r_writes s).
Definition with_r_nmsg (v : nat) (s : rhino) : rhino :=
  Rhino (r_sem s) (r_sig s) (r_spi s) (r_parts s) (r_done s) (r_pend s) v (r_nchk s)
    (r_polls s) (r_log s) (r_iobuf s) (r_page s) (r_cache s) (r_spidrv s) (r_bus s)
    (r_regions s) (r_maps s) (r_writes s).
Definition with_r_nchk (v : nat) (s : rhino) : rhino :=
  Rhino (r_sem s) (r_sig s) (r_spi s) (r_parts s) (r_done s) (r_pend s) (r_nmsg s) v
    (r_polls s) (r_log s) (r_iobuf s) (r_page s) (r_cache s) (r_spidrv s) (r_bus s)
    (r_regions s) (r_maps s) (r_writes s).
Definition with_r_polls (v : nat) (s : rhino) : rhino :=
  Rhino (r_sem s) (r_sig s) (r_spi s) (r_parts s) (r_done s) (r_pend s) (r_nmsg s)
    (r_nchk s) v (r_log s) (r_iobuf s) (r_page s) (r_cache s) (r_spidrv s) (r_bus s)
    (r_regions s) (r_maps s) (r_writes s).
Definition with_r_log (v : list event) (s : rhino) : rhino :=
  Rhino (r_sem s) (r_sig s) (r_spi s) (r_parts s) (r_done s) (r_pend s) (r_nmsg s)
    (r_nchk s) (r_polls s) v (r_iobuf s) (r_page s) (r_cache s) (r_spidrv s) (r_bus s)
    (r_regions s) (r_maps s) (r_writes s).
Definition with_r_iobuf (v : option Z) (s : rhino) : rhino :=
  Rhino (r_sem s) (r_sig s) (r_spi s) (r_parts s) (r_done s) (r_pend s) (r_nmsg s)
    (r_nchk s) (r_polls s) (r_log s) v (r_page s) (r_cache s) (r_spidrv s) (r_bus s)
    (r_regions s) (r_maps s) (r_writes s).
Definition with_r_page (v : bool) (s : rhino) : rhino :=
  Rhino (r_sem s) (r_sig s) (r_spi s) (r_parts s) (r_done s) (r_pend s) (r_nmsg s)
    (r_nchk s) (r_polls s) (r_log s) (r_iobuf s) v (r_cache s) (r_spidrv s) (r_bus s)
    (r_regions s) (r_maps s) (r_writes s).
Definition with_r_cache (v : bool) (s : rhino) : rhino :=
  Rhino (r_sem s) (r_sig s) (r_spi s) (r_parts s) (r_done s) (r_pend s) (r_nmsg s)
    (r_nchk s) (r_polls s) (r_log s) (r_iobuf s) (r_page s) v (r_spidrv s) (r_bus s)
    (r_regions s) (r_maps s) (r_writes s).
Definition with_r_spidrv (v : bool) (s : rhino) : rhino :=
  Rhino (r_sem s) (r_sig s) (r_spi s) (r_parts s) (r_done s) (r_pend s) (r_nmsg s)
    (r_nchk s) (r_polls s) (r_log s) (r_iobuf s) (r_page s) (r_cache s) v (r_bus s)
    (r_regions s) (r_maps s) (r_writes s).
Definition with_r_bus (v : option fpga_map) (s : rhino) : rhino :=
  Rhino (r_sem s) (r_sig s) (r_spi s) (r_parts s) (r_done s) (r_pend s) (r_nmsg s)
    (r_nchk s) (r_polls s) (r_log s) (r_iobuf s) (r_page s) (r_cache s) (r_spidrv s) v
    (r_regions s) (r_maps s) (r_writes s).
Definition with_r_regions (v : list Z) (s : rhino) : rhino :=
  Rhino (r_sem s) (r_sig s) (r_spi s) (r_parts s) (r_done s) (r_pend s) (r_nmsg s)
    (r_nchk s) (r_polls s) (r_log s) (r_iobuf s) (r_page s) (r_cache s) (r_spidrv s)
    (r_bus s) v (r_maps s) (r_writes s).
Definition with_r_maps (v : list Z) (s : rhino) : rhino :=
  Rhino (r_sem s) (r_sig s) (r_spi s) (r_parts s) (r_done s) (r_pend s) (r_nmsg s)
    (r_nchk s) (r_polls s) (r_log s) (r_iobuf s) (r_page s) (r_cache s) (r_spidrv s)
    (r_bus s) (r_regions s) v (r_writes s).
Definition with_r_writes (v : list (Z * Z)) (s : rhino) : rhino :=
  Rhino (r_sem s) (r_sig s) (r_spi s) (r_parts s) (r_done s) (r_pend s) (r_nmsg s)
    (r_nchk s) (r_polls s) (r_log s) (r_iobuf s) (r_page s) (r_cache s) (r_spidrv s)
    (r_bus s) (r_regions s) (r_maps s) v.

Abbreviation RK := (M (kstate rhino)).

Definition drv {A} (f : rhino -> A) : RK A := mgets (fun s => f (k_drv s)).
Definition drv_mod (f : rhino -> rhino) : RK unit :=
  mmodify (fun s => set_drv (f (k_drv s)) s).
Definition log_event (e : event) : RK unit :=
  drv_mod (fun r => with_r_log (e :: r_log r) r).

(** [gpio_direction_output] and [gpio_set_value] drive the pin. *)
Definition gpio_direction_output (g v : Z) : RK unit := log_event (GpioOut g v).
Definition gpio_set_value (g v : Z) : RK unit := log_event (GpioOut g v).
Definition gpio_direction_input (g : Z) : RK unit := log_event (GpioDirIn g).

Definition rhino_set_fpga_psu (enable : Z) : RK unit :=
  do! gpio_direction_output FPGA_VCCINT enable in
  do! gpio_direction_output FPGA_VCCO_AUX enable in
  gpio_direction_output FPGA_VCCMGT enable.

(** [down_interruptible]: 0 when the semaphore is taken, an error when a signal
    arrives first.  A sleeper that no signal reaches stays asleep. *)
Definition down_interruptible : RK Z :=
  let! c := drv r_sem in
  if 0 <? c then do! drv_mod (with_r_sem (c - 1)) in mret 0
  else
    let! sig := drv r_sig in
    if sig then mret (-4) else mfault Blocked.

Definition up : RK unit := drv_mod (fun r => with_r_sem (r_sem r + 1) r).

(** ** Address mapping *)
Definition cs_index (reg_loc : Z) : option nat :=
  let inside base := (base <=? reg_loc) && (reg_loc <? base + SZ_128M) in
  if inside FPGA_CS0_BASE then Some 0%nat
  else if inside FPGA_CS1_BASE then Some 1%nat
  else if inside FPGA_CS2_BASE then Some 2%nat
  else if inside FPGA_CS3_BASE then Some 3%nat
  else if inside FPGA_CS4_BASE then Some 4%nat
  else if inside FPGA_CS5_BASE then Some 5%nat
  else None.

Definition cs_bases : list Z :=
  [FPGA_CS0_BASE; FPGA_CS1_BASE; FPGA_CS2_BASE; FPGA_CS3_BASE; FPGA_CS4_BASE;
   FPGA_CS5_BASE].

Definition get_mapped_location (reg_loc : Z) : RK Z :=
  match cs_index reg_loc with
  | None => mret reg_loc
  | Some i =>
      let! bus := drv r_bus in
      let! m := deref bus in
      mret (u32 (default 0 (cs_virtual m !! i) + (reg_loc - default 0 (cs_bases !! i))))
  end.

Section rhino.
(** The outside world. *)
Variable pin : Z -> nat -> bool.
Variable spi_status : nat -> Z.
Variable spi_sched : nat -> nat.
Variable fpga_read : list (Z * Z) -> Z -> Z.
Variable mem_region : Z -> bool.
Variable ioremap : Z -> Z.

Definition gpio_get_value (g : Z) : RK bool :=
  let! t := drv r_polls in
  do! drv_mod (with_r_polls (S t)) in
  mret (pin g t).

(** ** Register access *)
(** The halfword of the buffer at byte [2 * i]. *)
Definition halfword (data : list Z) (i : Z) : RK Z :=
  if 2 * i + 2 <=? zlen data then mret (field (2 * i) 2 data) else mfault OutOfBounds.

Fixpoint send_loop (n : nat) (i dst : Z) (data : list Z) : RK unit :=
  match n with
  | O => mret tt
  | S n =>
      let! w := halfword data i in
      do! drv_mod (fun r => with_r_writes ((dst, w) :: r_writes r) r) in
      send_loop n (i + 1) (u32 (dst + 2)) data
  end.

Definition rhino_send_iobuf (p : Z) : RK Z :=
  let! b := iobuf_load p in
  let count := io_size b / 2 in
  let! loc := get_mapped_location (io_location b) in
  do! send_loop (Z.to_nat count) 0 (u32 (loc + io_offset b)) (io_data b) in
  mret (count * 2).

Fixpoint recv_loop (n : nat) (i src : Z) (data : list Z) : RK (list Z) :=
  match n with
  | O => mret data
  | S n =>
      let! w := drv (fun r => u16 (fpga_read (r_writes r) src)) in
      if 2 * i + 2 <=? zlen data then
        recv_loop n (i + 1) (u32 (src + 2))
          (take (Z.to_nat (2 * i)) data ++ le_bytes 2 w ++ drop (Z.to_nat (2 * i + 2)) data)
      else mfault OutOfBounds
  end.

Definition rhino_recv_iobuf (p : Z) : RK Z :=
  let! b := iobuf_load p in
  let count := io_size b / 2 in
  let! loc := get_mapped_location (io_location b) in
  let! d := recv_loop (Z.to_nat count) 0 (u32 (loc + io_offset b)) (io_data b) in
  do! iobuf_store p (HwrIobuf (io_location b) (io_offset b) (io_size b) d) in
  mret (count * 2).

Definition rhino_get_iobuf : RK (option Z) :=
  let! e := down_interruptible in
  if truthy e then mret None
  else
    let! io := drv r_iobuf in
    let! p := deref io in
    let! b := iobuf_load p in
    do! iobuf_store p (HwrIobuf (io_location b) (io_offset b) (PAGE_SIZE - 12) (io_data b)) in
    mret (Some p).

Definition rhino_put_iobuf (p : Z) : RK Z := do! up in mret 0.

(** ** Configuration

The SPI core takes the queued messages in order.  Finishing one releases the
page and the part and runs the completion callback.  The callback reads
[ctp->last] after the part went back to the slab cache; the model reads the
value the part had. *)
Definition spi_transfer_completed (c : config_transfer_part) (status : Z) : RK unit :=
  do! kfree in
  do! kfree in
  do! (if status =? 0
       then drv_mod (fun r => with_r_parts (atomic_dec (r_parts r)) r)
       else drv_mod (with_r_parts (-1))) in
  if ctp_last c || truthy status
  then drv_mod (fun r => with_r_done (r_done r + 1) r)
  else mret tt.

Definition spi_finish (c : config_transfer_part) : RK unit :=
  let! n := drv r_nmsg in
  do! drv_mod (with_r_nmsg (S n)) in
  do! log_event (SpiSend (ctp_data c) (spi_status n)) in
  spi_transfer_completed c (spi_status n).

(** At most [n] of the queued messages finish. *)
Fixpoint spi_run (n : nat) : RK unit :=
  match n with
  | O => mret tt
  | S n =>
      let! q := drv r_pend in
      match q with
      | [] => mret tt
      | c :: q => do! drv_mod (with_r_pend q) in do! spi_finish c in spi_run n
      end
  end.

(** The SPI core runs between two accesses of the configuring thread to the
data it shares with the callback. *)
Definition spi_progress : RK unit :=
  let! n := drv r_nchk in
  do! drv_mod (with_r_nchk (S n)) in
  spi_run (spi_sched n).

Fixpoint wait_loop (q : list config_transfer_part) : RK unit :=
  let! d := drv r_done in
  if 0 <? d then drv_mod (with_r_done (d - 1))
  else match q with
       | [] => mfault Blocked
       | c :: q => do! drv_mod (with_r_pend q) in do! spi_finish c in wait_loop q
       end.

Definition wait_for_completion : RK unit :=
  do! spi_progress in
  let! q := drv r_pend in wait_loop q.

(** [setup_config_transport_part] and [spi_async]: the message is queued. *)
Definition spi_async (c : config_transfer_part) : RK unit :=
  drv_mod (fun r => with_r_pend (r_pend r ++ [c]) r).

(** [kernel_read] into the page; a NULL page faults once there is a byte to
copy. *)
Definition read_page (page : bool) (f : file) (offset count : Z) : Z * list Z :=
  let '(n, d) := kernel_read f offset count in
  if page || (n <=? 0) then (n, d) else (- EFAULT, []).

(** Leaving the transfer loop: normally, or by [goto out_free_mutex]. *)
Inductive xfer : Type := XferDone (retval : Z) | XferOut (retval : Z).

Fixpoint transfer (fuel : nat) (f : file) (offset len retval : Z) : RK xfer :=
  if len <=? 0 then mret (XferDone retval)
  else match fuel with
  | O => mfault OutOfFuel
  | S fuel =>
      let! ctp := kmalloc in
      if negb ctp then mfault NullDeref
      else
        let! page := kmalloc in
        let '(retval, d) := read_page page f offset (Z.min PAGE_SIZE len) in
        if retval <? 0 then
          do! (if page then kfree else mret tt) in
          do! kfree in
          mret (XferOut retval)
        else
          let count := retval in
          do! spi_progress in
          let! p := drv r_parts in
          do! drv_mod (with_r_parts (atomic_inc p)) in
          if atomic_inc p =? 0 then mret (XferOut retval)
          else
            do! spi_async (Ctp d (count <? PAGE_SIZE)) in
            transfer fuel f (u32 (offset + count)) (u32 (len - count)) retval
  end.

(** Polls the pin at most [n] times; whether it was seen at the wanted level. *)
Fixpoint wait_pin (want : bool) (g : Z) (n : nat) : RK bool :=
  match n with
  | O => mret false
  | S n =>
      let! v := gpio_get_value g in
      if eqb v want then mret true else wait_pin want g n
  end.

(** The [DONE] loop leaves in its first iteration on either level. *)
Definition check_done : RK bool := gpio_get_value DONE.

(** From the start of the transfer to the end: the data, the CRC check, the
startup check. *)
Definition load_bitstream (f : file) (offset len : Z) : RK Z :=
  do! drv_mod (with_r_parts 0) in
  let! x := transfer (S (Z.to_nat len)) f offset len (- EIO) in
  match x with
  | XferOut retval => do! up in mret retval
  | XferDone retval =>
      do! wait_for_completion in
      let! crc := gpio_get_value INIT_B in
      if negb crc then do! up in mret retval
      else
        do! gpio_direction_input DONE in
        let! done := check_done in
        if negb done then do! up in mret retval
        else do! up in mret 0
  end.

Definition rhino_configure (a : hwr_addr) (f : file) (offset len : Z) : RK Z :=
  if truthy (addr a) then mret (- EIO)
  else
    let! spi := drv r_spi in
    if negb spi then mret (- EIO)
    else
      let! e := down_interruptible in
      if truthy e then mret (- EIO)
      else
        do! rhino_set_fpga_psu 1 in
        do! gpio_direction_output PROG_B 1 in
        do! gpio_set_value PROG_B 0 in
        do! gpio_direction_input INIT_B in
        do! wait_pin false INIT_B (Z.to_nat (CFG_INITB_WAIT + 1)) in
        do! gpio_set_value PROG_B 1 in
        do! gpio_direction_input INIT_B in
        let! ready := wait_pin true INIT_B (Z.to_nat (CFG_INITB_WAIT + 1)) in
        if negb ready then do! up in mret (- EIO)
        else load_bitstream f offset len.

Definition rhino_unconfigure (a : hwr_addr) : RK Z :=
  do! rhino_set_fpga_psu 0 in mret 0.

(** ** Reservation *)
Definition rhino_reserve_hwr (a : hwr_addr) : RK (option phyref) :=
  if negb (class a =? HAC_RHINO) then mret None
  else if 1 <=? addr a then mret None
  else
    let r := Phyref (class a) (addr a) in
    do! phy_update r (fun d => ph_set_count (atomic_inc (ph_count d)) d) in
    let! d := phy_load r in
    if negb (ph_count d =? 0) then
      do! phy_update r (fun d => ph_set_count (atomic_dec (ph_count d)) d) in
      mret None
    else
      do! phy_update r (fun d => ph_set_count (atomic_inc (ph_count d)) d) in
      mret (Some r).

Definition rhino_release_hwr (a : hwr_addr) : RK unit :=
  if negb (class a =? HAC_RHINO) then mret tt
  else if 1 <=? addr a then mret tt
  else phy_update (Phyref (class a) (addr a)) drop_ref.

Definition rhino_hwr_operations : hwr_operations rhino :=
  HwrOperations (Some rhino_configure) (Some rhino_unconfigure) rhino_reserve_hwr
    rhino_release_hwr (Some rhino_get_iobuf) (Some rhino_put_iobuf)
    (Some rhino_send_iobuf) (Some rhino_recv_iobuf).

(** The static object, at the address [ht] of the caller; [ops] is the address
of the operations table. *)
Definition hwrtype_rhino (ops : Z) : hwrtype := Hwrtype "rhino" HAC_RHINO 0 1 (Some ops).

(** ** Module init and cleanup *)

(** [spi_setup] answers [setup]. *)
Definition fpga_probe (setup : Z) : RK Z :=
  if setup <? 0 then mret setup
  else
    let! ok := kmalloc in
    do! drv_mod (with_r_spi ok) in
    mret (if ok then setup else - ENOMEM).

(** Registering the driver probes the SPI device, when there is one; removing it
runs [fpga_remove], which keeps [rhino_fpga]. *)
Definition spi_register_driver (dev : option Z) : RK unit :=
  do! drv_mod (with_r_spidrv true) in
  match dev with
  | None => mret tt
  | Some setup => let! _ := fpga_probe setup in mret tt
  end.

Definition spi_unregister_driver : RK unit := drv_mod (with_r_spidrv false).

(** [release_rhino_gmpc(p, q)] for chip select [i]. *)
Definition release_rhino_gmpc (i : nat) (m : fpga_map) : RK fpga_map :=
  let v := default 0 (cs_virtual m !! i) in
  let b := default 0 (cs_base m !! i) in
  do! (if truthy v then drv_mod (fun r => with_r_maps (filter (fun x => x <> v) (r_maps r)) r)
       else mret tt) in
  do! (if truthy b then drv_mod (fun r => with_r_regions (filter (fun x => x <> b) (r_regions r)) r)
       else mret tt) in
  mret (FpgaMap (<[i := 0]> (cs_base m)) (<[i := 0]> (cs_virtual m))).

Definition release_bus : RK unit :=
  let! bus := drv r_bus in
  match bus with
  | None => mret tt
  | Some m =>
      let! m := release_rhino_gmpc 0 m in
      let! m := release_rhino_gmpc 1 m in
      let! m := release_rhino_gmpc 2 m in
      do! kfree in
      drv_mod (with_r_bus None)
  end.

Definition free_iobuf : RK unit :=
  let! io := drv r_iobuf in
  match io with
  | None => mret tt
  | Some p =>
      do! mmodify (fun s => set_iobufs (delete p (k_iobufs s)) s) in
      do! kfree in
      drv_mod (with_r_iobuf None)
  end.

Definition free_rhino_page : RK unit :=
  let! page := drv r_page in
  if page then do! kfree in drv_mod (with_r_page false) else mret tt.

Definition destroy_cache : RK unit :=
  let! cache := drv r_cache in
  if cache then drv_mod (with_r_cache false) else mret tt.

Definition hwrtype_rhino_cleanup (ht : Z) : RK unit :=
  do! release_bus in
  do! free_iobuf in
  do! free_rhino_page in
  do! destroy_cache in
  do! spi_unregister_driver in
  let! _ := unregister_hwrtype ht in
  mret tt.

(** [map_rhino_gmpc(p, q)] for chip select [i]: whether both steps succeeded. *)
Definition map_rhino_gmpc (i : nat) : RK bool :=
  let base := default 0 (cs_bases !! i) in
  if negb (mem_region base) then mret false
  else
    let v := ioremap base in
    let! bus := drv r_bus in
    let! m := deref bus in
    do! drv_mod (fun r =>
      with_r_bus (Some (FpgaMap (<[i := base]> (cs_base m)) (<[i := v]> (cs_virtual m))))
        (with_r_maps (if truthy v then v :: r_maps r else r_maps r)
          (with_r_regions (base :: r_regions r) r))) in
    mret (truthy v).

Definition NO_MAP : fpga_map := FpgaMap (replicate 6 0) (replicate 6 0).

(** [junk] is what the fresh page and buffer hold, [buf] the buffer's address,
[dev] the SPI device on the bus.  [__get_free_page] and [KMEM_CACHE] are not
tested by the code. *)
Definition hwrtype_rhino_init (ht buf : Z) (junk : hwr_iobuf) (dev : option Z) : RK Z :=
  do! drv_mod (with_r_spi false) in
  let! retval := register_hwrtype ht in
  if retval <? 0 then mret retval
  else
    do! phy_update (Phyref HAC_RHINO 0) (ph_set_count (-1)) in
    let! page := kmalloc in
    do! drv_mod (with_r_page page) in
    let! io := kmalloc in
    if negb io then do! drv_mod (with_r_iobuf None) in mret (- ENOMEM)
    else
      do! drv_mod (with_r_iobuf (Some buf)) in
      do! iobuf_store buf
        (HwrIobuf (io_location junk) (io_offset junk) (PAGE_SIZE - 12) (io_data junk)) in
      let! bus := kmalloc in
      if negb bus then
        do! (if page then kfree else mret tt) in
        do! drv_mod (with_r_page false) in
        do! kfree in
        do! mmodify (fun s => set_iobufs (delete buf (k_iobufs s)) s) in
        do! drv_mod (fun r => with_r_bus None (with_r_iobuf None r)) in
        mret (- ENOMEM)
      else
        do! drv_mod (with_r_bus (Some NO_MAP)) in
        let! ok := map_rhino_gmpc 0 in
        if negb ok then do! hwrtype_rhino_cleanup ht in mret (- ENOMEM)
        else
          let! ok := map_rhino_gmpc 1 in
          if negb ok then do! hwrtype_rhino_cleanup ht in mret (- ENOMEM)
          else
            let! ok := map_rhino_gmpc 2 in
            if negb ok then do! hwrtype_rhino_cleanup ht in mret (- ENOMEM)
            else
              do! drv_mod (with_r_cache true) in
              do! spi_register_driver dev in
              do! gpio_direction_output INIT_B_DIR 0 in
              mret retval.
End rhino.

(** ** What each part of the driver leaves alone *)
Section frame.
Context (pin : Z -> nat -> bool) (spi_status : nat -> Z) (spi_sched : nat -> nat).
Context {X : Type} (v : kstate rhino -> X).

(** A view of the state that neither the allocator nor the configuration
bookkeeping enters. *)
Class ConfigView : Prop := {
  view_alloc l s : v (set_alloc l s) = v s;
  view_live n s : v (set_live n s) = v s;
  view_parts n s : v (set_drv (with_r_parts n (k_drv s)) s) = v s;
  view_done n s : v (set_drv (with_r_done n (k_drv s)) s) = v s;
  view_pend n s : v (set_drv (with_r_pend n (k_drv s)) s) = v s;
  view_nmsg n s : v (set_drv (with_r_nmsg n (k_drv s)) s) = v s;
  view_nchk n s : v (set_drv (with_r_nchk n (k_drv s)) s) = v s;
  view_polls n s : v (set_drv (with_r_polls n (k_drv s)) s) = v s;
  view_log n s : v (set_drv (with_r_log n (k_drv s)) s) = v s
}.
Context `{HV : !ConfigView}.

Lemma unchanged_kfree : unchanged v (@kfree rhino).
Proof. apply keeps_modify. intros s. apply view_live. Qed.

Lemma unchanged_kmalloc : unchanged v (@kmalloc rhino).
Proof.
  intros s a s' Hr. unfold runs, kmalloc in Hr. unfold same.
  destruct (k_alloc s); injection Hr as _ <-; by rewrite ?view_alloc, view_live.
Qed.

Lemma unchanged_log_event e : unchanged v (log_event e).
Proof. apply keeps_modify. intros s. apply view_log. Qed.

Lemma unchanged_gpio_get_value g : unchanged v (gpio_get_value pin g).
Proof. unfold gpio_get_value. keeps_tac. apply keeps_modify. intros s. apply view_polls. Qed.

Lemma unchanged_wait_pin want g n : unchanged v (wait_pin pin want g n).
Proof.
  induction n; simpl; keeps_tac. apply unchanged_gpio_get_value.
Qed.

Lemma unchanged_spi_finish c : unchanged v (spi_finish spi_status c).
Proof.
  unfold spi_finish, spi_transfer_completed.
  keeps_tac; try apply unchanged_kfree; try apply unchanged_log_event;
    apply keeps_modify; intros s;
    first [apply view_nmsg | apply view_parts | apply view_done].
Qed.

Lemma unchanged_spi_run n : unchanged v (spi_run spi_status n).
Proof.
  induction n; simpl; keeps_tac; try apply unchanged_spi_finish; [].
  apply keeps_modify. intros s. apply view_pend.
Qed.

Lemma unchanged_spi_progress : unchanged v (spi_progress spi_status spi_sched).
Proof.
  unfold spi_progress. keeps_tac; [|apply unchanged_spi_run].
  apply keeps_modify. intros s. apply view_nchk.
Qed.

Lemma unchanged_wait_loop q : unchanged v (wait_loop spi_status q).
Proof.
  induction q; simpl; keeps_tac; try apply unchanged_spi_finish;
    apply keeps_modify; intros s; first [apply view_done | apply view_pend].
Qed.

Lemma unchanged_wait_for_completion :
  unchanged v (wait_for_completion spi_status spi_sched).
Proof.
  unfold wait_for_completion. keeps_tac;
    [apply unchanged_spi_progress | apply unchanged_wait_loop].
Qed.

Lemma unchanged_transfer fuel f offset len retval :
  unchanged v (transfer spi_status spi_sched fuel f offset len retval).
Proof.
  revert offset len retval. induction fuel; intros; simpl; keeps_tac;
    try apply unchanged_kmalloc; try apply unchanged_kfree;
    try apply unchanged_spi_progress;
    apply keeps_modify; intros s; first [apply view_parts | apply view_pend].
Qed.

Lemma unchanged_rhino_set_fpga_psu e : unchanged v (rhino_set_fpga_psu e).
Proof. unfold rhino_set_fpga_psu. keeps_tac; apply unchanged_log_event. Qed.

End frame.

#[export] Hint Resolve unchanged_kfree unchanged_kmalloc unchanged_log_event
  unchanged_gpio_get_value unchanged_wait_pin unchanged_wait_for_completion
  unchanged_transfer unchanged_rhino_set_fpga_psu : keeps.

Definition sem (s : kstate rhino) : Z := r_sem (k_drv s).

#[export] Instance outer_view : ConfigView (@outer rhino).
Proof. split; reflexivity. Qed.

#[export] Instance sem_view : ConfigView sem.
Proof. split; reflexivity. Qed.

(** A computation that gives the semaphore back: its count grows by one. *)
Definition gives (s s' : kstate rhino) : Prop := sem s' = sem s + 1.

Lemma gives_bind {A B} (m : M (kstate rhino) A) (k : A -> M (kstate rhino) B) :
  unchanged sem m -> (forall a, keeps gives (k a)) -> keeps gives (mbind m k).
Proof.
  intros Hm Hk s b s' H. apply runs_bind_inv in H. destruct H as (a & s1 & H1 & H2).
  unfold gives. erewrite (Hk _ _ _ _ H2). f_equal. exact (Hm _ _ _ H1).
Qed.

Lemma gives_up {A} (a : A) : keeps gives (do! up in mret a).
Proof. intros s b s' H. injection H as _ <-. reflexivity. Qed.

Lemma unchanged_outer_drv_mod f : unchanged outer (drv_mod f).
Proof. apply keeps_modify. done. Qed.
Lemma unchanged_outer_drv {A} (f : rhino -> A) : unchanged outer (drv f).
Proof. apply keeps_gets, _. Qed.
#[export] Hint Resolve unchanged_outer_drv_mod unchanged_outer_drv : keeps.

Lemma down_interruptible_inv s e s' :
  runs down_interruptible s e s' ->
  (e = 0 /\ 0 < sem s /\ s' = set_drv (with_r_sem (sem s - 1) (k_drv s)) s)
  \/ (truthy e = true /\ s' = s).
Proof.
  intros H. unfold runs, down_interruptible, mbind, drv, mgets in H. cbn in H.
  destruct (Z.ltb_spec 0 (r_sem (k_drv s))).
  - left. injection H as <- <-. done.
  - right. destruct (r_sig (k_drv s)); [|discriminate]. by injection H as <- <-.
Qed.

Lemma runs_down s :
  0 < sem s -> runs down_interruptible s 0 (set_drv (with_r_sem (sem s - 1) (k_drv s)) s).
Proof.
  intros H. unfold runs, down_interruptible, mbind, drv, mgets. cbn.
  unfold sem in *. by rewrite (proj2 (Z.ltb_lt _ _)).
Qed.

Ltac gives_step :=
  first
    [ apply gives_up
    | apply gives_bind;
      [solve [unfold gpio_direction_output, gpio_set_value, gpio_direction_input, check_done;
              eauto with keeps typeclass_instances] | intros]
    | keeps_step ].

Section mutex.
Context (pin : Z -> nat -> bool) (spi_status : nat -> Z) (spi_sched : nat -> nat).

Lemma unchanged_sem_parts n : unchanged sem (drv_mod (with_r_parts n)).
Proof. apply keeps_modify. done. Qed.
Hint Resolve unchanged_sem_parts : keeps.

(** C39. The configuration mutex is balanced: whatever the file, the FPGA, the
allocator and the SPI core do, when [rhino_configure] returns the semaphore
[rhino_mutex] has the count it had before the call. *)
Theorem rhino_configure_mutex_balanced a f offset len s r s' :
  rhino_configure pin spi_status spi_sched a f offset len s = Ok (r, s') ->
  sem s' = sem s.
Proof.
  unfold rhino_configure. destruct (truthy (addr a)); [by intros [= _ <-]|].
  intros H. apply runs_bind_inv in H. destruct H as (spi & s0 & [= _ <-] & H).
  destruct (negb spi); [by injection H as _ <-|].
  apply runs_bind_inv in H. destruct H as (e & s1 & H1 & H2).
  apply down_interruptible_inv in H1. destruct H1 as [(-> & _ & ->)|[He ->]];
    [|rewrite He in H2; by injection H2 as _ <-].
  change (truthy 0) with false in H2. cbv iota in H2.
  enough (gives (set_drv (with_r_sem (sem s - 1) (k_drv s)) s) s') as E
    by (unfold gives in E; rewrite E; unfold sem; simpl; lia).
  revert H2. generalize (set_drv (with_r_sem (sem s - 1) (k_drv s)) s). intros s1.
  match goal with |- runs ?m _ _ _ -> _ => enough (keeps gives m) as K by apply K end.
  clear. unfold load_bitstream. repeat gives_step.
Qed.
End mutex.

(** ** What reaches the FPGA *)
Definition wire_event (e : event) : list Z :=
  match e with SpiSend d _ => d | _ => [] end.

(** The bytes sent so far, oldest first; the log is newest first. *)
Definition wire (log : list event) : list Z := concat (wire_event <$> reverse log).

Definition queued (q : list config_transfer_part) : list Z := concat (ctp_data <$> q).

Lemma wire_app l1 l2 : wire (l1 ++ l2) = wire l2 ++ wire l1.
Proof. unfold wire. by rewrite reverse_app, fmap_app, concat_app. Qed.

Lemma wire_cons e l : wire (e :: l) = wire l ++ wire_event e.
Proof.
  change (e :: l) with ([e] ++ l). rewrite wire_app. f_equal. unfold wire. simpl.
  apply app_nil_r.
Qed.

Lemma queued_app q1 q2 : queued (q1 ++ q2) = queued q1 ++ queued q2.
Proof. unfold queued. by rewrite fmap_app, concat_app. Qed.

#[global] Arguments wire : simpl never.
#[global] Arguments queued : simpl never.

Lemma queued_cons c q : queued (c :: q) = ctp_data c ++ queued q.
Proof. done. Qed.

Definition plain (q : list config_transfer_part) : Prop :=
  Forall (fun c => ctp_last c = false) q.

(** The driver and allocator state without what a transfer changes. *)
Definition still (s : kstate rhino) : kstate rhino :=
  set_live 0 (set_drv (with_r_parts 0 (with_r_done 0 (with_r_pend [] (with_r_nmsg 0%nat
    (with_r_nchk 0%nat (with_r_log [] (k_drv s))))))) s).

Section transfer.
Context (spi_status : nat -> Z) (spi_sched : nat -> nat).
Hypothesis status_ok : forall n, spi_status n = 0.

(** A transfer under way: the bytes [w] are sent or queued, [base] objects are
live besides the two of each queued part, no queued part is the last one. *)
Record flying (w : list Z) (base : Z) (s : kstate rhino) : Prop := {
  fl_plain : plain (r_pend (k_drv s));
  fl_done : r_done (k_drv s) = 0;
  fl_parts : r_parts (k_drv s) = zlen (r_pend (k_drv s));
  fl_wire : wire (r_log (k_drv s)) ++ queued (r_pend (k_drv s)) = w;
  fl_live : k_live s = base + 2 * zlen (r_pend (k_drv s))
}.

(** The state once the first queued part, which is not the last, has been sent. *)
Definition sent (c : config_transfer_part) (q : list config_transfer_part)
    (s : kstate rhino) : kstate rhino :=
  let r := k_drv s in
  set_live (k_live s - 1 - 1) (set_drv
    (with_r_parts (atomic_dec (r_parts r)) (with_r_log (SpiSend (ctp_data c) 0 :: r_log r)
      (with_r_nmsg (S (r_nmsg r)) (with_r_pend q r)))) s).

Lemma finish_plain c q s :
  ctp_last c = false ->
  (do! drv_mod (with_r_pend q) in spi_finish spi_status c) s = Ok (tt, sent c q s).
Proof.
  intros Hc. unfold spi_finish, spi_transfer_completed, mbind, drv, drv_mod, mgets. cbn.
  rewrite status_ok. cbn. by rewrite Hc.
Qed.

Lemma finish_last c q s :
  ctp_last c = true ->
  (do! drv_mod (with_r_pend q) in spi_finish spi_status c) s
  = Ok (tt, set_drv (with_r_done (r_done (k_drv s) + 1) (k_drv (sent c q s))) (sent c q s)).
Proof.
  intros Hc. unfold spi_finish, spi_transfer_completed, mbind, drv, drv_mod, mgets. cbn.
  rewrite status_ok. cbn. by rewrite Hc.
Qed.

Lemma flying_sent w base c q s :
  r_pend (k_drv s) = c :: q -> zlen (r_pend (k_drv s)) < 2 ^ 31 ->
  flying w base s -> flying w base (sent c q s) /\ still (sent c q s) = still s.
Proof.
  intros Hq Hn [Hp Hd Hs Hw Hl]. split; [|done]. rewrite Hq in *.
  inversion Hp; subst. rewrite zlen_cons in *. pose proof (zlen_nonneg q).
  split; cbn; try done.
  - rewrite Hs, atomic_dec_small; lia.
  - by rewrite wire_cons, <- app_assoc.
  - lia.
Qed.

Lemma flying_spi_run w base n s :
  zlen (r_pend (k_drv s)) < 2 ^ 31 -> flying w base s ->
  exists s', spi_run spi_status n s = Ok (tt, s') /\ flying w base s'
    /\ still s' = still s /\ zlen (r_pend (k_drv s')) <= zlen (r_pend (k_drv s)).
Proof.
  revert s. induction n as [|n IH]; intros s Hn Hf; simpl; [by exists s|].
  unfold mbind at 1, drv, mgets. destruct (r_pend (k_drv s)) as [|c q] eqn:Hq.
  { exists s. rewrite Hq. done. }
  assert (ctp_last c = false) as Hc by (destruct Hf as [Hp]; rewrite Hq in Hp; by inversion Hp).
  pose proof (finish_plain c q s Hc) as E. unfold mbind in E |- *.
  destruct (drv_mod (with_r_pend q) s) as [[[] s1]|]; [|done]. rewrite E.
  rewrite <- Hq in Hn. destruct (flying_sent w base c q s Hq Hn Hf) as [Hf1 Hs1].
  rewrite Hq, zlen_cons in Hn.
  destruct (IH (sent c q s)) as (s' & E' & Hf' & Hs' & Hz'); [cbn; lia|done|].
  exists s'. rewrite zlen_cons. cbn in Hz'. split_and!; [done|done|congruence|lia].
Qed.

Lemma flying_spi_progress w base s :
  zlen (r_pend (k_drv s)) < 2 ^ 31 -> flying w base s ->
  exists s', spi_progress spi_status spi_sched s = Ok (tt, s') /\ flying w base s'
    /\ still s' = still s /\ zlen (r_pend (k_drv s')) <= zlen (r_pend (k_drv s)).
Proof.
  intros Hn Hf. unfold spi_progress, mbind, drv, drv_mod, mgets, mmodify.
  apply (flying_spi_run w base (spi_sched (r_nchk (k_drv s)))
           (set_drv (with_r_nchk (S (r_nchk (k_drv s))) (k_drv s)) s)); [done|].
  destruct Hf. by split.
Qed.

(** The file holds the [len] bytes at [off] and the file system delivers them. *)
Record readable (f : file) (off len : Z) : Prop := {
  rd_err : forall o n, f_err f o n = None;
  rd_off : 0 <= off;
  rd_len : 0 <= len;
  rd_end : off + len <= zlen (f_data f);
  rd_max : zlen (f_data f) < 2 ^ 31 - 1
}.

Lemma kernel_read_full f off n :
  readable f off n -> kernel_read f off n = (n, slice off n (f_data f)).
Proof.
  intros [He Ho Hl Hn Hm]. unfold kernel_read. rewrite (proj2 (Z.leb_gt _ _)) by lia.
  rewrite He. by rewrite zlen_slice.
Qed.

(** A queued part has joined the transfer. *)
Definition queue_part (c : config_transfer_part) (s : kstate rhino) : kstate rhino :=
  set_drv (with_r_pend (r_pend (k_drv s) ++ [c])
    (with_r_parts (atomic_inc (r_parts (k_drv s))) (k_drv s))) s.

Lemma transfer_step w base fuel f off len ret s :
  readable f off len -> 0 < len -> k_alloc s = [] ->
  zlen (r_pend (k_drv s)) < 2 ^ 31 - 1 -> flying w base s ->
  let n := Z.min PAGE_SIZE len in
  exists s1,
    transfer spi_status spi_sched (S fuel) f off len ret s
    = transfer spi_status spi_sched fuel f (off + n) (len - n) n
        (queue_part (Ctp (slice off n (f_data f)) (n <? PAGE_SIZE)) s1)
    /\ flying w (base + 2) s1 /\ still s1 = still s
    /\ zlen (r_pend (k_drv s1)) <= zlen (r_pend (k_drv s)).
Proof.
  intros Hr Hlen Hal Hq Hf n. assert (0 < n <= 4096 /\ n <= len) as Hn.
  { unfold n, PAGE_SIZE. lia. }
  destruct Hr as [He Ho Hl Hend Hm].
  assert (flying w (base + 2) (set_live (k_live s + 1 + 1) s)) as Hf0.
  { destruct Hf. split; cbn; try done. lia. }
  edestruct flying_spi_progress as (s1 & E1 & Hf1 & Hs1 & Hz1); [|exact Hf0|]; [cbn; lia|].
  exists s1. split; [|done].
  cbn [transfer]. rewrite (proj2 (Z.leb_gt _ _)) by lia.
  unfold mbind at 1, kmalloc. rewrite Hal. cbn [negb].
  unfold mbind at 1. cbn [k_alloc set_live]. rewrite Hal.
  fold n. unfold read_page. rewrite (kernel_read_full f off n) by (split; auto; lia).
  cbn [orb]. rewrite (proj2 (Z.ltb_ge _ _)) by lia.
  change (set_live _ (set_live _ s)) with (set_live (k_live s + 1 + 1) s).
  unfold mbind at 1. rewrite E1.
  unfold mbind at 1, drv, mgets. unfold mbind at 1, drv_mod, mmodify.
  pose proof (zlen_nonneg (r_pend (k_drv s1))). cbn [set_live k_drv] in Hz1.
  rewrite (fl_parts _ _ _ Hf1), atomic_inc_small by lia.
  rewrite (proj2 (Z.eqb_neq _ 0)) by lia.
  unfold mbind, spi_async, drv_mod, mmodify, queue_part.
  rewrite (fl_parts _ _ _ Hf1), atomic_inc_small by lia.
  by rewrite !wrapu_small by lia.
Qed.

(** Every byte is queued and the last part is at the end of the queue. *)
Record landing (w : list Z) (base : Z) (s : kstate rhino) : Prop := {
  la_pend : exists q c, r_pend (k_drv s) = q ++ [c] /\ plain q /\ ctp_last c = true;
  la_done : r_done (k_drv s) = 0;
  la_parts : r_parts (k_drv s) = zlen (r_pend (k_drv s));
  la_wire : wire (r_log (k_drv s)) ++ queued (r_pend (k_drv s)) = w;
  la_live : k_live s = base + 2 * zlen (r_pend (k_drv s))
}.

Lemma still_queue_part c s : still (queue_part c s) = still s.
Proof. done. Qed.

Lemma zlen_queue_part c s :
  zlen (r_pend (k_drv (queue_part c s))) = zlen (r_pend (k_drv s)) + 1.
Proof. cbn. rewrite zlen_app. done. Qed.

Lemma queue_more w base d s :
  zlen (r_pend (k_drv s)) < 2 ^ 31 - 1 -> flying w (base + 2) s ->
  flying (w ++ d) base (queue_part (Ctp d false) s)
  /\ landing (w ++ d) base (queue_part (Ctp d true) s).
Proof.
  intros Hn [Hp Hd Hs Hw Hl]. pose proof (zlen_nonneg (r_pend (k_drv s))).
  split; split; rewrite ?zlen_queue_part; cbn; try done; try lia.
  - apply Forall_app. split; [done|]. by constructor.
  - rewrite Hs, atomic_inc_small; lia.
  - rewrite queued_app, app_assoc, Hw. unfold queued. cbn. by rewrite app_nil_r.
  - eauto.
  - rewrite Hs, atomic_inc_small; lia.
  - rewrite queued_app, app_assoc, Hw. unfold queued. cbn. by rewrite app_nil_r.
Qed.

(** The size of the last part, which is what [kernel_read] returned last. *)
Definition last_part (len ret : Z) : Z :=
  if len =? 0 then ret else if len mod PAGE_SIZE =? 0 then PAGE_SIZE else len mod PAGE_SIZE.

Lemma slice_split off n len l :
  0 <= off -> 0 <= n <= len -> slice off n l ++ slice (off + n) (len - n) l = slice off len l.
Proof.
  intros. unfold slice. replace (Z.to_nat (off + n)) with (Z.to_nat off + Z.to_nat n)%nat by lia.
  rewrite <- drop_drop. replace (Z.to_nat len) with (Z.to_nat n + Z.to_nat (len - n))%nat by lia.
  by rewrite take_take_drop.
Qed.

Lemma readable_shrink f off len n :
  readable f off len -> 0 <= n <= len -> readable f (off + n) (len - n).
Proof. intros [? ? ? ? ?] ?. split; auto; lia. Qed.

(** The whole loop: all bytes are sent or queued, and the last part is marked
exactly when the length is not a multiple of the page size. *)
Lemma transfer_ok fuel f off len ret w base s :
  readable f off len -> k_alloc s = [] -> len < Z.of_nat fuel ->
  zlen (r_pend (k_drv s)) + len < 2 ^ 31 - 1 -> flying w base s ->
  exists s',
    transfer spi_status spi_sched fuel f off len ret s = Ok (XferDone (last_part len ret), s')
    /\ still s' = still s /\ zlen (r_pend (k_drv s')) <= zlen (r_pend (k_drv s)) + len
    /\ if len mod PAGE_SIZE =? 0
       then flying (w ++ slice off len (f_data f)) base s'
       else landing (w ++ slice off len (f_data f)) base s'.
Proof.
  revert off len ret w s. induction fuel as [|fuel IH]; intros off len ret w s Hr Hal Hfu Hz Hf;
    pose proof (rd_len _ _ _ Hr) as Hlen; [lia|].
  destruct (Z.eqb_spec len 0) as [->|Hpos].
  { exists s. split; [done|]. split; [done|]. split; [lia|]. unfold slice.
    by rewrite take_0, app_nil_r. }
  destruct (transfer_step w base fuel f off len ret s) as (s1 & -> & Hf1 & Hs1 & Hz1);
    [done|lia|done|lia|done|].
  set (n := Z.min PAGE_SIZE len) in *. set (d := slice off n (f_data f)).
  assert (0 < n <= 4096 /\ n <= len) as Hn by (unfold n, PAGE_SIZE; lia).
  destruct (queue_more w base d s1) as [Hmore Hlast]; [lia|done|].
  destruct (Z.ltb_spec n PAGE_SIZE) as [Hshort|Hfull].
  - assert (n = len) as Hnl by (unfold n in *; lia).
    exists (queue_part (Ctp d true) s1). rewrite Hnl, Z.sub_diag.
    assert (len mod PAGE_SIZE = len) as Hmod by (apply Z.mod_small; lia).
    unfold last_part. rewrite Hmod, (proj2 (Z.eqb_neq len 0)) by lia.
    split; [by destruct fuel|]. rewrite still_queue_part, zlen_queue_part.
    split; [done|]. split; [lia|].
    by replace (slice off len (f_data f)) with d by (unfold d; by rewrite Hnl).
  - assert (n = PAGE_SIZE) as Hnp by (unfold n in *; lia).
    pose proof (still_queue_part (Ctp d false) s1) as Hsq.
    pose proof (zlen_queue_part (Ctp d false) s1) as Hzq.
    destruct (IH (off + n) (len - n) n (w ++ d) (queue_part (Ctp d false) s1))
      as (s' & -> & Hs' & Hz' & Hend);
      [by apply readable_shrink; [|lia] | | lia | lia | done |].
    { apply (f_equal k_alloc) in Hs1. cbn in Hs1. cbn. congruence. }
    exists s'. assert ((len - n) mod PAGE_SIZE = len mod PAGE_SIZE) as Hmod.
    { rewrite Hnp. rewrite <- (Z_mod_plus_full (len - PAGE_SIZE) 1). f_equal. lia. }
    rewrite Hmod in Hend. unfold d in Hend.
    rewrite <- app_assoc, slice_split in Hend by (destruct Hr; lia).
    split; [|split; [congruence|split; [lia|done]]].
    do 3 f_equal. unfold last_part. rewrite Hmod.
    rewrite (proj2 (Z.eqb_neq len 0)) by lia.
    destruct (Z.eqb_spec (len - n) 0) as [E|]; [|done].
    replace len with PAGE_SIZE by lia. by rewrite Hnp.
Qed.

(** Every byte is sent; [n] counts the completion. *)
Record landed (n : Z) (w : list Z) (base : Z) (s : kstate rhino) : Prop := {
  ld_pend : r_pend (k_drv s) = [];
  ld_done : r_done (k_drv s) = n;
  ld_parts : r_parts (k_drv s) = 0;
  ld_wire : wire (r_log (k_drv s)) = w;
  ld_live : k_live s = base
}.

(** One message of a landing queue finishes. *)
Lemma landing_step w base c q s :
  landing w base s -> r_pend (k_drv s) = c :: q -> zlen (c :: q) < 2 ^ 31 ->
  exists s', (do! drv_mod (with_r_pend q) in spi_finish spi_status c) s = Ok (tt, s')
    /\ still s' = still s /\ r_pend (k_drv s') = q
    /\ (landing w base s' /\ q <> [] \/ landed 1 w base s').
Proof.
  intros [(p & e & Hp & Hpl & He) Hd Hs Hw Hl] Hq Hz. rewrite Hq in *.
  rewrite zlen_cons in *. pose proof (zlen_nonneg q).
  assert (atomic_dec (r_parts (k_drv s)) = zlen q) as Ha
    by (rewrite Hs, atomic_dec_small; lia).
  destruct p as [|c' p]; simplify_eq/=.
  - eexists. split; [by apply finish_last|]. split; [done|]. split; [done|]. right.
    split; cbn; try done; [lia| |unfold zlen in *; simpl in *; lia].
    by rewrite wire_cons, queued_cons, app_nil_r.
  - inversion Hpl; subst. eexists. split; [by apply finish_plain|].
    split; [done|]. split; [done|]. left. split; [|by destruct p].
    split; cbn; try done; [eauto| |lia].
    by rewrite wire_cons, queued_cons, app_assoc.
Qed.

Lemma landing_spi_run w base n s :
  landing w base s -> zlen (r_pend (k_drv s)) < 2 ^ 31 ->
  exists s', spi_run spi_status n s = Ok (tt, s') /\ still s' = still s
    /\ zlen (r_pend (k_drv s')) < 2 ^ 31
    /\ (landing w base s' \/ landed 1 w base s').
Proof.
  revert s. induction n as [|n IH]; intros s Hf Hn; simpl; [exists s; auto|].
  unfold mbind at 1, drv, mgets. destruct (r_pend (k_drv s)) as [|c q] eqn:Hq.
  { destruct Hf as [(p & e & Hp & _)]. rewrite Hq in Hp. by destruct p. }
  destruct (landing_step w base c q s Hf Hq Hn) as (s1 & E & Hs1 & Hq1 & Hc).
  unfold mbind in E |- *. destruct (drv_mod (with_r_pend q) s) as [[[] s0]|]; [|done].
  rewrite E. rewrite zlen_cons in Hn. destruct Hc as [[Hc _]|Hc].
  - destruct (IH s1 Hc) as (s' & E' & Hs' & H'); [rewrite Hq1; lia|].
    exists s'. split; [done|]. split; [congruence|done].
  - exists s1. destruct n; simpl; unfold mbind, drv, mgets;
      rewrite ?(ld_pend _ _ _ _ Hc); split_and!; auto; done.
Qed.

Lemma wait_loop_landing w base q s :
  landing w base s -> r_pend (k_drv s) = q -> zlen q < 2 ^ 31 ->
  exists s', wait_loop spi_status q s = Ok (tt, s') /\ still s' = still s
    /\ landed 0 w base s'.
Proof.
  revert s. induction q as [|c q IH]; intros s Hf Hq Hn.
  { destruct Hf as [(p & e & Hp & _)]. rewrite Hq in Hp. by destruct p. }
  simpl. unfold mbind at 1, drv, mgets. rewrite (la_done _ _ _ Hf). simpl.
  destruct (landing_step w base c q s Hf Hq Hn) as (s1 & E & Hs1 & Hq1 & Hc).
  unfold mbind in E |- *. destruct (drv_mod (with_r_pend q) s) as [[[] s0]|]; [|done].
  rewrite E. rewrite zlen_cons in Hn. destruct Hc as [[Hc _]|Hc].
  - destruct (IH s1 Hc Hq1) as (s' & E' & Hs' & H'); [lia|].
    exists s'. split; [done|]. split; [congruence|done].
  - exists (set_drv (with_r_done 0 (k_drv s1)) s1).
    rewrite (ld_pend _ _ _ _ Hc) in Hq1. subst q. simpl.
    unfold mbind, drv, mgets. rewrite (ld_done _ _ _ _ Hc).
    split; [done|]. split; [done|]. destruct Hc. by split.
Qed.

Lemma wait_landing w base s :
  landing w base s -> zlen (r_pend (k_drv s)) < 2 ^ 31 ->
  exists s', wait_for_completion spi_status spi_sched s = Ok (tt, s') /\ still s' = still s
    /\ landed 0 w base s'.
Proof.
  intros Hf Hn. unfold wait_for_completion, spi_progress, mbind, drv, drv_mod, mgets, mmodify.
  set (s0 := set_drv (with_r_nchk (S (r_nchk (k_drv s))) (k_drv s)) s).
  assert (landing w base s0) as Hf0 by (destruct Hf; by split).
  destruct (landing_spi_run w base (spi_sched (r_nchk (k_drv s))) s0 Hf0 Hn)
    as (s1 & -> & Hs1 & Hn1 & [Hc|Hc]).
  - destruct (wait_loop_landing w base _ s1 Hc eq_refl Hn1) as (s' & -> & Hs' & Hl).
    exists s'. split; [done|]. split; [by rewrite Hs', Hs1|done].
  - exists (set_drv (with_r_done 0 (k_drv s1)) s1). rewrite (ld_pend _ _ _ _ Hc). simpl.
    unfold mbind, drv, mgets. rewrite (ld_done _ _ _ _ Hc).
    split; [done|]. split; [exact Hs1|]. destruct Hc. by split.
Qed.

(** Without a part marked last nobody signals the waiting thread. *)
Lemma wait_loop_flying w base q s :
  flying w base s -> r_pend (k_drv s) = q -> zlen q < 2 ^ 31 ->
  wait_loop spi_status q s = Fault Blocked.
Proof.
  revert s. induction q as [|c q IH]; intros s Hf Hq Hn; simpl;
    unfold mbind at 1, drv, mgets; rewrite (fl_done _ _ _ Hf); [done|]; simpl.
  assert (ctp_last c = false) as Hc by (destruct Hf as [Hp]; rewrite Hq in Hp; by inversion Hp).
  pose proof (finish_plain c q s Hc) as E. unfold mbind in E |- *.
  destruct (drv_mod (with_r_pend q) s) as [[[] s1]|]; [|done]. rewrite E.
  rewrite <- Hq in Hn. destruct (flying_sent w base c q s Hq Hn Hf) as [Hf1 Hs1].
  rewrite Hq, zlen_cons in Hn. apply IH; [done|done|lia].
Qed.

Lemma wait_flying w base s :
  flying w base s -> zlen (r_pend (k_drv s)) < 2 ^ 31 ->
  wait_for_completion spi_status spi_sched s = Fault Blocked.
Proof.
  intros Hf Hn. destruct (flying_spi_progress w base s Hn Hf) as (s1 & E & Hf1 & _ & Hz).
  unfold wait_for_completion, mbind, drv, mgets. rewrite E.
  eapply wait_loop_flying; [done|done|lia].
Qed.
End transfer.

(** ** Configuration as a whole *)
Section configure.
Context (pin : Z -> nat -> bool) (spi_status : nat -> Z) (spi_sched : nat -> nat).

(** Polling a pin: whether it is seen at the wanted level within [n] reads from
read number [t] on, and the number of the next read. *)
Fixpoint poll (want : bool) (g : Z) (n t : nat) : bool * nat :=
  match n with
  | O => (false, t)
  | S n => if eqb (pin g t) want then (true, S t) else poll want g n (S t)
  end.

Definition after_polls (t : nat) (s : kstate rhino) : kstate rhino :=
  set_drv (with_r_polls t (k_drv s)) s.

Lemma wait_pin_poll want g n s :
  wait_pin pin want g n s
  = let '(b, t) := poll want g n (r_polls (k_drv s)) in Ok (b, after_polls t s).
Proof.
  revert s. induction n as [|n IH]; intros s; simpl.
  - by destruct s as [? ? ? ? ? ? ? ? []].
  - unfold mbind, gpio_get_value, drv, drv_mod, mgets, mbind, mmodify, mret.
    destruct (eqb (pin g (r_polls (k_drv s))) want); [done|]. rewrite IH. simpl.
    by destruct (poll want g n (S (r_polls (k_drv s)))).
Qed.

Definition INITB_POLLS : nat := Z.to_nat (CFG_INITB_WAIT + 1).

(** Whether the FPGA asks for data after the [PROG_B] pulse, and the number of
the next pin read. *)
Definition fpga_ready (t : nat) : bool * nat :=
  poll true INIT_B INITB_POLLS (poll false INIT_B INITB_POLLS t).2.

(** The pin activity of the reset, newest first. *)
Definition reset_events : list event :=
  [GpioDirIn INIT_B; GpioOut PROG_B 1; GpioDirIn INIT_B; GpioOut PROG_B 0;
   GpioOut PROG_B 1; GpioOut FPGA_VCCMGT 1; GpioOut FPGA_VCCO_AUX 1; GpioOut FPGA_VCCINT 1].

(** The state once the FPGA has been reset: the mutex is held. *)
Definition reset_done (t : nat) (s : kstate rhino) : kstate rhino :=
  set_drv (with_r_polls t (with_r_log (reset_events ++ r_log (k_drv s))
    (with_r_sem (sem s - 1) (k_drv s)))) s.

Lemma configure_reset a f offset len s :
  addr a = 0 -> r_spi (k_drv s) = true -> 0 < sem s ->
  rhino_configure pin spi_status spi_sched a f offset len s
  = let '(ready, t) := fpga_ready (r_polls (k_drv s)) in
    if ready then load_bitstream pin spi_status spi_sched f offset len (reset_done t s)
    else (do! up in mret (- EIO)) (reset_done t s).
Proof.
  intros Ha Hspi Hsem. unfold rhino_configure. rewrite Ha. cbn [truthy Z.eqb negb].
  unfold mbind at 1, drv, mgets. rewrite Hspi. cbn [negb].
  unfold mbind at 1. rewrite (runs_down s Hsem). cbn [truthy Z.eqb negb].
  unfold rhino_set_fpga_psu, gpio_direction_output, gpio_set_value, gpio_direction_input,
    log_event, drv_mod, mmodify.
  unfold fpga_ready. change (Z.to_nat (CFG_INITB_WAIT + 1)) with INITB_POLLS.
  unfold mbind. rewrite wait_pin_poll. cbn [k_drv set_drv r_polls with_r_log with_r_sem].
  destruct (poll false INIT_B INITB_POLLS (r_polls (k_drv s))) as [b1 t1].
  rewrite wait_pin_poll. cbn [k_drv set_drv r_polls with_r_log with_r_sem with_r_polls
    after_polls snd].
  by destruct (poll true INIT_B INITB_POLLS t1) as [[] t2].
Qed.

(** Nothing of an earlier configuration is left over. *)
Record idle (s : kstate rhino) : Prop := {
  id_pend : r_pend (k_drv s) = [];
  id_done : r_done (k_drv s) = 0
}.

(** What the driver needs to be able to load a bitstream. *)
Record loadable (a : hwr_addr) (f : file) (offset len : Z) (s : kstate rhino) : Prop := {
  lo_addr : addr a = 0;
  lo_spi : r_spi (k_drv s) = true;
  lo_sem : 0 < sem s;
  lo_alloc : k_alloc s = [];
  lo_idle : idle s;
  lo_file : readable f offset len
}.

Lemma reset_flying t s :
  idle s -> flying (wire (r_log (k_drv s))) (k_live s)
    (set_drv (with_r_parts 0 (k_drv (reset_done t s))) (reset_done t s)).
Proof.
  intros [Hp Hd]. split; cbn; rewrite ?Hp; try done.
  - apply Forall_nil_2.
  - rewrite app_nil_r. by rewrite !wire_cons, !app_nil_r.
  - by destruct (k_live s).
Qed.

Hypothesis status_ok : forall n, spi_status n = 0.

(** The result once every byte is on the wire. *)
Definition startup (t : nat) (short : Z) : Z :=
  if pin INIT_B t && pin DONE (S t) then 0 else short.

Lemma load_bitstream_ends f offset len t s :
  idle s -> k_alloc s = [] -> readable f offset len -> len mod PAGE_SIZE <> 0 ->
  exists s',
    load_bitstream pin spi_status spi_sched f offset len (reset_done t s)
    = Ok (startup t (len mod PAGE_SIZE), s')
    /\ wire (r_log (k_drv s')) = wire (r_log (k_drv s)) ++ slice offset len (f_data f)
    /\ idle s' /\ k_live s' = k_live s /\ k_alloc s' = [] /\ outer s' = outer s
    /\ sem s' = sem s.
Proof.
  intros Hid Hal Hr Hm. pose proof Hr as [_ Ho Hl He Hmx].
  pose proof (reset_flying t s Hid) as Hf0. destruct Hid as [Hp Hd].
  assert (zlen (r_pend (k_drv s)) = 0) as Hz by (by rewrite Hp).
  destruct (transfer_ok spi_status spi_sched status_ok (S (Z.to_nat len)) f offset len (- EIO)
    (wire (r_log (k_drv s))) (k_live s)
    (set_drv (with_r_parts 0 (k_drv (reset_done t s))) (reset_done t s)) Hr Hal)
    as (s1 & E1 & Hs1 & Hz1 & Hf1); [lia|cbn [k_drv set_drv r_pend with_r_parts reset_done with_r_polls with_r_log with_r_sem]; lia|done|].
  cbn [k_drv set_drv r_pend with_r_parts reset_done with_r_polls with_r_log with_r_sem] in Hz1.
  rewrite (proj2 (Z.eqb_neq _ 0)) in Hf1 by done.
  destruct (wait_landing spi_status spi_sched status_ok _ _ s1 Hf1)
    as (s2 & E2 & Hs2 & [Lp Ld Lq Lw Ll]); [lia|].
  assert (r_polls (k_drv s2) = t) as Ht
    by (rewrite Hs1 in Hs2; by apply (f_equal (fun s => r_polls (k_drv s))) in Hs2).
  assert (last_part len (- EIO) = len mod PAGE_SIZE) as Hlast.
  { unfold last_part. rewrite (proj2 (Z.eqb_neq _ 0)), (proj2 (Z.eqb_neq (_ mod _) 0));
      [done|done|]. by intros ->. }
  rewrite Hlast in E1. rewrite Hs1 in Hs2.
  pose proof (f_equal outer Hs2) as Ho2. pose proof (f_equal k_alloc Hs2) as Ha2.
  cbn in Ha2. rewrite Hal in Ha2. pose proof (f_equal sem Hs2) as Hse2.
  unfold sem in Hse2. cbn in Hse2.
  unfold load_bitstream, startup. unfold mbind at 1, drv_mod, mmodify.
  unfold mbind at 1. rewrite E1. unfold mbind at 1. rewrite E2.
  unfold gpio_get_value, check_done, gpio_get_value, gpio_direction_input, log_event, up,
    mbind, drv, drv_mod, mgets, mmodify, mret.
  cbn. rewrite Ht. destruct (pin INIT_B t); cbn; [destruct (pin DONE (S t)); cbn|];
    (eexists; split; [reflexivity|]; split_and!;
     [cbn; rewrite ?wire_cons, ?app_nil_r; exact Lw | by split | exact Ll | exact Ha2 | exact Ho2
     | unfold sem in *; cbn; lia]).
Qed.


(** When the length is a multiple of the page size no part is marked as the
last one: every byte reaches the FPGA's queue, but the configuring thread waits
for a completion nobody will signal, with the mutex held. *)
Lemma rhino_configure_page_multiple_blocks a f offset len s t :
  loadable a f offset len s -> len mod PAGE_SIZE = 0 ->
  fpga_ready (r_polls (k_drv s)) = (true, t) ->
  rhino_configure pin spi_status spi_sched a f offset len s = Fault Blocked.
Proof.
  intros [Ha Hspi Hsem Hal Hid Hr] Hm Hready. pose proof Hr as [_ Ho Hl He Hmx].
  rewrite configure_reset, Hready by done. unfold load_bitstream, drv_mod, mmodify.
  pose proof (reset_flying t s Hid) as Hf0. destruct Hid as [Hp Hd].
  assert (zlen (r_pend (k_drv s)) = 0) as Hz by (by rewrite Hp).
  unfold mbind at 1.
  set (s0 := set_drv (with_r_parts 0 (k_drv (reset_done t s))) (reset_done t s)) in *.
  destruct (transfer_ok spi_status spi_sched status_ok (S (Z.to_nat len)) f offset len (- EIO)
    _ _ s0 Hr Hal (ltac:(lia)) (ltac:(unfold s0; cbn [k_drv set_drv r_pend with_r_parts
      reset_done with_r_polls with_r_log with_r_sem]; lia)) Hf0) as (s1 & E1 & Hs1 & Hz1 & Hf1).
  change (r_pend (k_drv s0)) with (r_pend (k_drv s)) in Hz1.
  rewrite Hm in Hf1. unfold mbind at 1. rewrite E1. unfold mbind at 1.
  erewrite (wait_flying spi_status spi_sched status_ok _ _ s1 Hf1); [done|lia].
Qed.

(** When the FPGA does not raise [INIT_B] within the wait after the [PROG_B]
pulse, configuration fails with [-EIO] and not one byte of data is sent. *)
Lemma rhino_configure_not_ready a f offset len s t :
  addr a = 0 -> r_spi (k_drv s) = true -> 0 < sem s ->
  fpga_ready (r_polls (k_drv s)) = (false, t) ->
  exists s',
    rhino_configure pin spi_status spi_sched a f offset len s = Ok (- EIO, s')
    /\ wire (r_log (k_drv s')) = wire (r_log (k_drv s)) /\ sem s' = sem s
    /\ k_live s' = k_live s /\ outer s' = outer s.
Proof.
  intros Ha Hspi Hsem Hready. rewrite configure_reset, Hready by done.
  eexists. split; [reflexivity|]. cbn. split_and!; try done.
  - by rewrite !wire_cons, !app_nil_r.
  - unfold sem. cbn. unfold sem. lia.
Qed.
End configure.

(** ** A truncated bitstream *)
Section truncated.
Context (spi_status : nat -> Z) (spi_sched : nat -> nat).
Hypothesis status_ok : forall n, spi_status n = 0.

Definition counted (s : kstate rhino) : Prop :=
  r_parts (k_drv s) = zlen (r_pend (k_drv s)) /\ zlen (r_pend (k_drv s)) < 2 ^ 31 - 1.

Lemma counted_spi_run n s :
  counted s ->
  exists s', spi_run spi_status n s = Ok (tt, s') /\ counted s' /\ k_alloc s' = k_alloc s
    /\ zlen (r_pend (k_drv s')) <= zlen (r_pend (k_drv s)).
Proof.
  revert s. induction n as [|n IH]; intros s [Hc Hz]; simpl; [by exists s|].
  unfold mbind at 1, drv, mgets. destruct (r_pend (k_drv s)) as [|c q] eqn:Hq.
  { exists s. unfold counted. by rewrite Hq. }
  rewrite zlen_cons in *. pose proof (zlen_nonneg q).
  assert (exists s1, (do! drv_mod (with_r_pend q) in spi_finish spi_status c) s = Ok (tt, s1)
    /\ counted s1 /\ k_alloc s1 = k_alloc s /\ r_pend (k_drv s1) = q)
    as (s1 & E & Hc1 & Ha1 & Hq1).
  { assert (atomic_dec (r_parts (k_drv s)) = zlen q) by (rewrite Hc, atomic_dec_small; lia).
    destruct (ctp_last c) eqn:Hl;
      (eexists; split; [first [by apply finish_last | by apply finish_plain]|]);
      unfold counted; cbn; repeat split; try done; lia. }
  unfold mbind in E |- *. destruct (drv_mod (with_r_pend q) s) as [[[] s0]|]; [|done].
  rewrite E. destruct (IH s1 Hc1) as (s' & E' & Hc' & Ha' & Hz'). rewrite Hq1 in Hz'.
  exists s'. split_and!; [done|done|congruence|lia].
Qed.

(** A bitstream whose header promises more bytes than the file holds is
loaded forever: from the end of the file on, every read returns 0, an empty
message is queued and the remaining length stays positive, so the transfer loop
is still running after any number of iterations the part counter can hold. *)
Lemma transfer_truncated_runs_on fuel f offset len ret s :
  (forall o n, f_err f o n = None) -> zlen (f_data f) <= offset < 2 ^ 32 ->
  0 < len < 2 ^ 32 -> k_alloc s = [] -> r_parts (k_drv s) = zlen (r_pend (k_drv s)) ->
  zlen (r_pend (k_drv s)) + Z.of_nat fuel < 2 ^ 31 - 1 ->
  transfer spi_status spi_sched fuel f offset len ret s = Fault OutOfFuel.
Proof.
  intros He Ho Hl. revert ret s. induction fuel as [|fuel IH]; intros ret s Ha Hp Hz;
    cbn [transfer]; rewrite (proj2 (Z.leb_gt _ _)) by lia; [done|].
  unfold mbind at 1, kmalloc. rewrite Ha. cbn [negb].
  unfold mbind at 1. cbn [k_alloc set_live]. rewrite Ha. unfold read_page, kernel_read.
  rewrite (proj2 (Z.leb_gt _ _)) by (unfold PAGE_SIZE; lia). rewrite He.
  assert (slice offset (Z.min PAGE_SIZE len) (f_data f) = []) as ->.
  { unfold slice. rewrite drop_ge by (unfold zlen in *; lia). by rewrite take_nil. }
  change (zlen (@nil Z)) with 0. cbn [orb]. change (0 <? 0) with false. cbv iota.
  change (set_live _ (set_live _ s)) with (set_live (k_live s + 1 + 1) s).
  unfold mbind at 1, spi_progress. unfold mbind at 1, drv, mgets.
  unfold mbind at 1, drv_mod, mmodify. cbn [k_drv set_live].
  edestruct (counted_spi_run (spi_sched (r_nchk (k_drv s)))) as (s1 & -> & [Hc1 Hz1] & Ha1 & Hq1);
    [split; cbn; [done|lia]|]. cbn in Ha1, Hq1.
  unfold mbind at 1, drv_mod, mmodify. unfold mbind at 1.
  pose proof (zlen_nonneg (r_pend (k_drv s1))).
  rewrite Hc1, atomic_inc_small by lia. rewrite (proj2 (Z.eqb_neq _ 0)) by lia.
  unfold mbind, spi_async, drv_mod, mmodify.
  rewrite Z.add_0_r, Z.sub_0_r, !wrapu_small by (unfold zlen in *; lia).
  apply IH; cbn; rewrite ?zlen_app, ?zlen_cons, ?zlen_nil; [congruence|lia|lia].
Qed.
End truncated.

(** ** Reservation *)
Section reservation.
Implicit Type s : kstate rhino.

Definition rhino_at (a : hwr_addr) : Prop := class a = HAC_RHINO /\ addr a = 0.

(** A free device is reserved for the caller, a device in use is refused and
left as it was. *)
Lemma runs_rhino_reserve s a d :
  rhino_at a -> dev_is s (class a) (addr a) d -> stable_count (ph_count d) ->
  runs (rhino_reserve_hwr a) s (reserve_answer a d) (reserved a d s).
Proof.
  intros [Hc Ha] Hd Hs. unfold rhino_reserve_hwr, reserve_answer, reserved.
  rewrite Hc, Z.eqb_refl, <- Hc. cbn [negb].
  rewrite (proj2 (Z.leb_gt _ _)) by lia.
  eapply runs_bind; [by eapply runs_phy_update|].
  set (d1 := ph_set_count (atomic_inc (ph_count d)) d).
  pose proof (dev_is_upd s _ _ d d1 Hd) as Hd1.
  eapply runs_bind; [by eapply runs_phy_load|].
  assert (ph_count d1 = ph_count d + 1) as Hd1c.
  { unfold d1. cbn. rewrite atomic_inc_small; [done|]. destruct Hs; lia. }
  destruct (Z.eqb_spec (ph_count d) (-1)) as [E|E].
  - rewrite Hd1c, E. eapply runs_bind; [by eapply runs_phy_update|].
    rewrite dev_upd_upd. unfold d1. cbn [ph_set_count ph_count]. rewrite E.
    by destruct d.
  - rewrite Hd1c, (proj2 (Z.eqb_neq _ 0)) by (destruct Hs; lia). cbn [negb].
    eapply runs_bind; [by eapply runs_phy_update|]. unfold runs, mret. do 2 f_equal.
    rewrite dev_upd_upd. replace (ph_set_count _ d1) with d; [by apply dev_upd_id|].
    unfold d1. cbn. rewrite atomic_dec_inc by (destruct Hs; lia). by destruct d.
Qed.

Lemma runs_rhino_release s a d :
  rhino_at a -> dev_is s (class a) (addr a) d ->
  runs (rhino_release_hwr a) s tt (dev_upd (class a) (addr a) (drop_ref d) s).
Proof.
  intros [Hc Ha] Hd. unfold rhino_release_hwr. rewrite Hc, Z.eqb_refl, <- Hc. cbn [negb].
  rewrite (proj2 (Z.leb_gt _ _)) by lia. by apply runs_phy_update.
Qed.
End reservation.

Lemma unchanged_outer_configure pin st sched a f offset len :
  unchanged outer (rhino_configure pin st sched a f offset len).
Proof.
  unfold rhino_configure, load_bitstream, down_interruptible, gpio_direction_output,
    gpio_set_value, gpio_direction_input, check_done, up.
  keeps_tac.
Qed.

(** The RHINO driver keeps the promises of [HwrDriver]. *)
#[export] Instance rhino_driver pin st sched fr :
  HwrDriver (rhino_hwr_operations pin st sched fr) HAC_RHINO.
Proof.
  split; cbn.
  - intros. by apply runs_rhino_reserve.
  - intros. by apply runs_rhino_release.
  - intros s a Hc Ha. unfold rhino_reserve_hwr. rewrite Hc. cbn [negb Z.eqb].
    by rewrite (proj2 (Z.leb_le _ _)).
  - intros cfg a f offset len [= <-]. apply unchanged_outer_configure.
  - intros unc s a [= <-]. by eexists.
Qed.

(** ** Register access

[mapped m loc] is where the bus map [m] puts the register at [loc]. *)
Definition mapped (m : fpga_map) (loc : Z) : Z :=
  match cs_index loc with
  | None => loc
  | Some i => u32 (default 0 (cs_virtual m !! i) + (loc - default 0 (cs_bases !! i)))
  end.

Lemma runs_get_mapped_location s m loc :
  r_bus (k_drv s) = Some m -> runs (get_mapped_location loc) s (mapped m loc) s.
Proof.
  intros Hb. unfold runs, get_mapped_location, mapped, mbind, drv, mgets.
  destruct (cs_index loc); [|done]. by rewrite Hb.
Qed.

(** The halfword last written at an address. *)
Fixpoint bus_memory (w : list (Z * Z)) (a : Z) : option Z :=
  match w with
  | [] => None
  | (b, v) :: w => if a =? b then Some v else bus_memory w a
  end.

Section registers.
Context (fpga_read : list (Z * Z) -> Z -> Z).

(** The halfwords of [data] from the [i]th on, written from [dst] on after [w]. *)
Fixpoint pushed (n : nat) (i dst : Z) (data : list Z) (w : list (Z * Z)) : list (Z * Z) :=
  match n with
  | O => w
  | S n => pushed n (i + 1) (dst + 2) data ((dst, field (2 * i) 2 data) :: w)
  end.

Lemma send_loop_ok n i dst data s :
  0 <= i -> 2 * (i + Z.of_nat n) <= zlen data -> 0 <= dst -> dst + 2 * Z.of_nat n < 2 ^ 32 ->
  exists w, send_loop n i dst data s = Ok (tt, set_drv (with_r_writes w (k_drv s)) s)
    /\ w = pushed n i dst data (r_writes (k_drv s))
    /\ (forall k, 0 <= k < Z.of_nat n ->
         bus_memory w (dst + 2 * k) = Some (field (2 * (i + k)) 2 data))
    /\ (forall a, a < dst -> bus_memory w a = bus_memory (r_writes (k_drv s)) a).
Proof.
  revert i dst s. induction n as [|n IH]; intros i dst s Hi Hz Hd Hw.
  { exists (r_writes (k_drv s)). split; [by destruct s as [? ? ? ? ? ? ? ? []]|].
    split; [done|]. split; [lia|done]. }
  cbn [send_loop]. unfold mbind, halfword. rewrite (proj2 (Z.leb_le _ _)) by lia.
  unfold mret, drv_mod, mmodify. rewrite wrapu_small by lia.
  match goal with |- context [send_loop n _ _ _ ?st] =>
    destruct (IH (i + 1) (dst + 2) st) as (w & -> & Hw' & Hk & Ha); try lia end.
  exists w. split; [done|]. split; [exact Hw'|]. split.
  - intros k Hk0. destruct (decide (k = 0)) as [->|].
    + rewrite Ha by lia. cbn. by rewrite !Z.add_0_r, Z.eqb_refl.
    + specialize (Hk (k - 1) (ltac:(lia))).
      replace (dst + 2 + 2 * (k - 1)) with (dst + 2 * k) in Hk by lia.
      by replace (i + 1 + (k - 1)) with (i + k) in Hk by lia.
  - intros a Hlt. rewrite Ha by lia. cbn. by rewrite (proj2 (Z.eqb_neq _ _)) by lia.
Qed.

Lemma recv_loop_ok n i src data d0 s :
  0 <= i -> 2 * (i + Z.of_nat n) <= zlen data -> 2 * (i + Z.of_nat n) <= zlen d0 ->
  Forall is_byte d0 -> 0 <= src -> src + 2 * Z.of_nat n < 2 ^ 32 ->
  (forall k, 0 <= k < Z.of_nat n ->
    fpga_read (r_writes (k_drv s)) (src + 2 * k) = field (2 * (i + k)) 2 d0) ->
  recv_loop fpga_read n i src data s
  = Ok (take (Z.to_nat (2 * i)) data ++ slice (2 * i) (2 * Z.of_nat n) d0
        ++ drop (Z.to_nat (2 * (i + Z.of_nat n))) data, s).
Proof.
  intros Hi0. revert i src data Hi0. induction n as [|n IH];
    intros i src data Hi Hz Hz0 Hb Hs Hw Hr.
  { unfold slice. rewrite Z.mul_0_r, take_0, Z.add_0_r. simpl. by rewrite take_drop. }
  cbn [recv_loop]. unfold mbind at 1, drv, mgets. rewrite (proj2 (Z.leb_le _ _)) by lia.
  assert (zlen (slice (2 * i) 2 d0) = 2) as Hl by (apply zlen_slice; lia).
  assert (le_bytes 2 (u16 (fpga_read (r_writes (k_drv s)) src)) = slice (2 * i) 2 d0) as ->.
  { specialize (Hr 0 (ltac:(lia))). rewrite !Z.add_0_r in Hr. rewrite Hr. unfold field.
    assert (Forall is_byte (slice (2 * i) 2 d0)) as Hbs by (by apply Forall_take, Forall_drop).
    assert (length (slice (2 * i) 2 d0) = 2%nat) as Hl2 by (unfold zlen in Hl; lia).
    pose proof (le_val_range _ Hbs) as Hrg. rewrite Hl2 in Hrg.
    rewrite wrapu_small by exact Hrg. rewrite <- Hl2 at 1. by apply le_bytes_val. }
  rewrite wrapu_small by lia.
  assert (zlen (take (Z.to_nat (2 * i)) data) = 2 * i) as Ht
    by (unfold zlen in *; rewrite length_take; lia).
  rewrite IH; [|lia| | |done|lia|lia|].
  - do 2 f_equal. rewrite <- (slice_split (2 * i) 2 (2 * Z.of_nat (S n)) d0) by lia.
    rewrite !(app_assoc _ (slice _ _ _)).
    rewrite take_app_length' by (rewrite length_app; unfold zlen in *; lia).
    rewrite drop_app_ge by (rewrite length_app; unfold zlen in *; lia).
    rewrite drop_drop, length_app, <- !app_assoc. repeat f_equal; unfold zlen in *; lia.
  - autorewrite with zlen. rewrite Ht, Hl. unfold zlen in *. rewrite length_drop. lia.
  - lia.
  - intros k Hk. specialize (Hr (k + 1) (ltac:(lia))).
    replace (src + 2 + 2 * k) with (src + 2 * (k + 1)) by lia.
    by replace (i + 1 + k) with (i + (k + 1)) by lia.
Qed.

Definition bus_range (m : fpga_map) (b : hwr_iobuf) (n : Z) : Prop :=
  u32 (mapped m (io_location b) + io_offset b) + n < 2 ^ 32.

Lemma runs_rhino_send s m p b n :
  r_bus (k_drv s) = Some m -> k_iobufs s !! p = Some b -> io_size b = 2 * n -> 0 <= n ->
  2 * n <= zlen (io_data b) -> bus_range m b (2 * n) ->
  exists w, runs (rhino_send_iobuf p) s (2 * n) (set_drv (with_r_writes w (k_drv s)) s)
    /\ w = pushed (Z.to_nat n) 0 (u32 (mapped m (io_location b) + io_offset b)) (io_data b) (r_writes (k_drv s))
    /\ forall k, 0 <= k < n ->
       bus_memory w (u32 (mapped m (io_location b) + io_offset b) + 2 * k)
       = Some (field (2 * k) 2 (io_data b)).
Proof.
  intros Hbus Hb Hs Hn Hz Hrg. unfold bus_range in Hrg.
  set (dst := u32 (mapped m (io_location b) + io_offset b)) in *.
  assert (0 <= dst) by (apply wrapu_range; lia).
  assert (2 * n / 2 = n) as Hdiv by (rewrite Z.mul_comm; apply Z.div_mul; lia).
  destruct (send_loop_ok (Z.to_nat n) 0 dst (io_data b) s) as (w & E & Ew & Hk & _); try lia.
  exists w. split; [|split; [exact Ew | intros k Hk0; apply Hk; lia]].
  unfold rhino_send_iobuf. eapply runs_bind; [by apply runs_iobuf_load|].
  rewrite Hs, Hdiv. eapply runs_bind; [by apply runs_get_mapped_location|].
  eapply runs_bind; [exact E|]. unfold runs, mret. do 2 f_equal. lia.
Qed.

Lemma runs_rhino_recv s m p b n d0 :
  r_bus (k_drv s) = Some m -> k_iobufs s !! p = Some b -> io_size b = 2 * n -> 0 <= n ->
  2 * n <= zlen (io_data b) -> 2 * n <= zlen d0 -> Forall is_byte d0 -> bus_range m b (2 * n) ->
  (forall k, 0 <= k < n ->
    fpga_read (r_writes (k_drv s)) (u32 (mapped m (io_location b) + io_offset b) + 2 * k)
    = field (2 * k) 2 d0) ->
  runs (rhino_recv_iobuf fpga_read p) s (2 * n)
    (set_iobufs (<[p := HwrIobuf (io_location b) (io_offset b) (2 * n)
      (slice 0 (2 * n) d0 ++ drop (Z.to_nat (2 * n)) (io_data b))]> (k_iobufs s)) s).
Proof.
  intros Hbus Hb Hs Hn Hz Hz0 Hbd Hrg Hrd. unfold bus_range in Hrg.
  set (src := u32 (mapped m (io_location b) + io_offset b)) in *.
  assert (0 <= src) by (apply wrapu_range; lia).
  assert (Z.of_nat (Z.to_nat n) = n) as Hnn by lia.
  assert (2 * n / 2 = n) as Hdiv by (rewrite Z.mul_comm; apply Z.div_mul; lia).
  unfold rhino_recv_iobuf. eapply runs_bind; [by apply runs_iobuf_load|].
  rewrite Hs, Hdiv. eapply runs_bind; [by apply runs_get_mapped_location|]. fold src.
  eapply runs_bind.
  - apply (recv_loop_ok (Z.to_nat n) 0 src (io_data b) d0); try lia; [done|].
    intros k Hk0. apply Hrd. lia.
  - rewrite Hnn, Z.mul_0_r, Z.add_0_l, (Z.mul_comm n 2). done.
Qed.

Lemma pushed_ext n i dst data data' w :
  (forall k, i <= k < i + Z.of_nat n -> field (2 * k) 2 data = field (2 * k) 2 data') -> pushed n i dst data w = pushed n i dst data' w.
Proof.
  revert i dst w. induction n as [|n IH]; intros i dst w H; [done|]. cbn [pushed]. rewrite (H i) by lia.
  apply IH. intros k Hk. apply H. lia.
Qed.

(** On an FPGA whose registers hold what was written, sending a buffer and
receiving into another one with the same location, offset and even size
transfers the bytes: both calls report [size], and the receiving buffer starts
with the bytes sent and is otherwise unchanged. *)
Lemma rhino_iobuf_roundtrip s m p1 p2 b1 b2 n :
  (forall w a v, bus_memory w a = Some v -> fpga_read w a = v) ->
  r_bus (k_drv s) = Some m ->
  k_iobufs s !! p1 = Some b1 -> k_iobufs s !! p2 = Some b2 ->
  io_location b1 = io_location b2 -> io_offset b1 = io_offset b2 ->
  io_size b1 = 2 * n -> io_size b2 = 2 * n ->
  0 <= n -> 2 * n <= zlen (io_data b1) -> 2 * n <= zlen (io_data b2) ->
  Forall is_byte (io_data b1) -> bus_range m b1 (2 * n) ->
  exists s1 s2,
    runs (rhino_send_iobuf p1) s (2 * n) s1
    /\ runs (rhino_recv_iobuf fpga_read p2) s1 (2 * n) s2
    /\ k_iobufs s2 !! p2 = Some (HwrIobuf (io_location b2) (io_offset b2) (io_size b2)
         (slice 0 (2 * n) (io_data b1) ++ drop (Z.to_nat (2 * n)) (io_data b2))).
Proof.
  intros Hmem Hbus H1 H2 Hloc Hoff Hs1 Hs2 Hn Hz1 Hz2 Hb Hrg.
  destruct (runs_rhino_send s m p1 b1 n) as (w & E & _ & Hk); try done.
  exists (set_drv (with_r_writes w (k_drv s)) s). eexists. split; [exact E|]. split.
  - apply (runs_rhino_recv _ m p2 b2 n (io_data b1)); try done.
    + unfold bus_range in *. by rewrite <- Hloc, <- Hoff.
    + intros k Hk0. rewrite <- Hloc, <- Hoff. apply Hmem, Hk, Hk0.
  - cbn [set_iobufs k_iobufs]. by rewrite lookup_insert_eq, Hs2.
Qed.
End registers.

(** ** Module init and cleanup *)
Section module.
Context (mem_region : Z -> bool) (ioremap : Z -> Z).
Implicit Type s : kstate rhino.

Definition without (v : Z) (l : list Z) : list Z :=
  if truthy v then filter (fun x => x <> v) l else l.

Lemma runs_release_rhino_gmpc i m s :
  runs (release_rhino_gmpc i m) s
    (FpgaMap (<[i := 0]> (cs_base m)) (<[i := 0]> (cs_virtual m)))
    (set_drv (with_r_maps (without (default 0 (cs_virtual m !! i)) (r_maps (k_drv s)))
      (with_r_regions (without (default 0 (cs_base m !! i)) (r_regions (k_drv s)))
        (k_drv s))) s).
Proof.
  unfold runs, release_rhino_gmpc, without, mbind, drv_mod, mmodify, mret.
  destruct (truthy (default 0 (cs_virtual m !! i))), (truthy (default 0 (cs_base m !! i)));
    by destruct s as [? ? ? ? ? ? ? ? []].
Qed.

(** Nothing of the driver is allocated or mapped. *)
Record clean (r : rhino) : Prop := {
  cl_iobuf : r_iobuf r = None;
  cl_page : r_page r = false;
  cl_cache : r_cache r = false;
  cl_bus : r_bus r = None;
  cl_regions : r_regions r = [];
  cl_maps : r_maps r = []
}.

(** The first three entries of [l] account for every element of [held]. *)
Definition accounted (l held : list Z) : Prop :=
  forall x, x ∈ held -> x <> 0 /\ exists i : nat, (i < 3)%nat /\ l !! i = Some x.

(** [s1] is [s] with the driver's memory allocated, the type registered and the
map [m] in place; [extra] objects more are live. *)
Record booted s (ht buf : Z) (h : hwrtype) (iob : hwr_iobuf) (m : fpga_map) (extra : Z) s1 :
  Prop := {
  bt_alloc : k_alloc s1 = [];
  bt_live : k_live s1 = k_live s + 5 + extra;
  bt_outer : outer s1 = (k_junk s, alter (fun h => ht_set_count (atomic_inc (ht_count h)) h)
      ht (k_htheap s), <[ht_type h := ht]> (k_hwrtypes s),
      <[ht_type h := [ph_set_count (-1) (k_junk s)]]> (k_phyhwrs s),
      <[buf := iob]> (k_iobufs s), k_infos s);
  bt_iobuf : r_iobuf (k_drv s1) = Some buf;
  bt_page : r_page (k_drv s1) = true;
  bt_bus : r_bus (k_drv s1) = Some m;
  bt_len : length (cs_base m) = 6%nat /\ length (cs_virtual m) = 6%nat;
  bt_regions : accounted (cs_base m) (r_regions (k_drv s1));
  bt_maps : accounted (cs_virtual m) (r_maps (k_drv s1))
}.

Lemma elem_of_without x v l : x ∈ without v l <-> x ∈ l /\ (v = 0 \/ x <> v).
Proof.
  unfold without, truthy. destruct (Z.eqb_spec v 0) as [->|]; simpl; [naive_solver|].
  rewrite list_elem_of_filter. naive_solver.
Qed.

Lemma without_accounted l held :
  length l = 6%nat -> accounted l held ->
  without (default 0 (l !! 2%nat)) (without (default 0 (l !! 1%nat))
    (without (default 0 (l !! 0%nat)) held)) = [].
Proof.
  intros Hlen Ha. apply elem_of_nil_inv. intros x. rewrite !elem_of_without.
  intros (((Hx & H0) & H1) & H2). destruct (Ha x Hx) as (Hnz & i & Hi & Hl).
  destruct i as [|[|[|]]]; [| | |lia]; rewrite Hl in *; naive_solver.
Qed.


Lemma runs_release_bus s m :
  r_bus (k_drv s) = Some m -> length (cs_base m) = 6%nat -> length (cs_virtual m) = 6%nat ->
  accounted (cs_base m) (r_regions (k_drv s)) -> accounted (cs_virtual m) (r_maps (k_drv s)) ->
  runs release_bus s tt (set_live (k_live s - 1)
    (set_drv (with_r_bus None (with_r_maps [] (with_r_regions [] (k_drv s)))) s)).
Proof.
  intros Hb Hn Hv Hr Hm. unfold release_bus. eapply runs_bind; [apply runs_gets|]. rewrite Hb.
  eapply runs_bind; [apply runs_release_rhino_gmpc|].
  eapply runs_bind; [apply runs_release_rhino_gmpc|].
  eapply runs_bind; [apply runs_release_rhino_gmpc|].
  eapply runs_bind; [apply runs_modify|]. cbn [cs_base cs_virtual].
  rewrite !list_lookup_insert_ne by done.
  unfold runs, drv_mod, mmodify. cbn [k_drv k_live set_drv set_live r_maps r_regions with_r_maps
    with_r_regions].
  by rewrite !without_accounted.
Qed.

Lemma runs_free_iobuf s p :
  r_iobuf (k_drv s) = Some p ->
  runs free_iobuf s tt (set_iobufs (delete p (k_iobufs s)) (set_live (k_live s - 1)
    (set_drv (with_r_iobuf None (k_drv s)) s))).
Proof. intros H. unfold runs, free_iobuf, mbind, drv, mgets. by rewrite H. Qed.

Lemma runs_free_rhino_page s :
  r_page (k_drv s) = true ->
  runs free_rhino_page s tt
    (set_live (k_live s - 1) (set_drv (with_r_page false (k_drv s)) s)).
Proof. intros H. unfold runs, free_rhino_page, mbind, drv, mgets. by rewrite H. Qed.

Lemma runs_destroy_cache s :
  runs destroy_cache s tt (set_drv (with_r_cache false (k_drv s)) s).
Proof.
  unfold runs, destroy_cache, mbind, drv, mgets.
  destruct (r_cache (k_drv s)) eqn:E; [done|].
  destruct s as [? ? ? ? ? ? ? ? []]. cbn in E. by subst.
Qed.

(** Cleanup of a booted driver gives everything back but the [extra] objects. *)
Lemma cleanup_booted s ht buf h iob m extra s1 :
  registrable s ht h -> ht_count h = 0 -> k_iobufs s !! buf = None ->
  booted s ht buf h iob m extra s1 ->
  exists s2, runs (hwrtype_rhino_cleanup ht) s1 tt s2
    /\ outer s2 = outer s /\ clean (k_drv s2) /\ k_live s2 = k_live s + extra.
Proof.
  intros (Hp & Hc & Hn & Hy & Hd) H0 Hio [Ba Bl Bo Bi Bp Bb [Bn Bv] Br Bm].
  destruct s1 as [al lv jk hh ht1 ph io inf r]. unfold outer in Bo.
  cbn [k_junk k_htheap k_hwrtypes k_phyhwrs k_iobufs k_infos k_drv k_alloc k_live] in *.
  injection Bo as -> -> -> -> -> ->. eexists. split.
  - unfold hwrtype_rhino_cleanup. eapply runs_bind; [by eapply runs_release_bus|].
    eapply runs_bind; [by eapply runs_free_iobuf|].
    eapply runs_bind; [by eapply runs_free_rhino_page|].
    eapply runs_bind; [by eapply runs_destroy_cache|].
    eapply runs_bind; [apply runs_modify|]. eapply runs_bind; [|apply runs_ret].
    apply (runs_unregister _ ht (ht_set_count 1 h) [ph_set_count (-1) (k_junk s)]); cbn.
    + split; [done|]. cbn -[insert alter]. rewrite lookup_insert_eq, lookup_alter_eq, Hp.
      cbn. by rewrite H0.
    + done.
    + by rewrite lookup_insert_eq.
    + by rewrite Hd.
  - cbn -[insert alter]. rewrite !delete_insert_id by done. split_and!.
    + unfold outer. cbn -[insert alter].
      pose proof (f_equal k_htheap (ht_upd_balanced s ht h Hp (ltac:(lia)))) as E.
      cbn -[insert alter] in E. by rewrite E.
    + by split.
    + lia.
Qed.

Lemma accounted_insert l held i x :
  length l = 6%nat -> (i < 3)%nat -> x <> 0 -> accounted l held ->
  l !! i = Some 0 -> accounted (<[i := x]> l) (x :: held).
Proof.
  intros Hl Hi Hx Ha Hli y Hy. apply elem_of_cons in Hy. destruct Hy as [->|Hy].
  - split; [done|]. exists i. split; [done|]. apply list_lookup_insert_eq. lia.
  - destruct (Ha y Hy) as (Hnz & j & Hj & Hlj). split; [done|]. exists j. split; [done|].
    rewrite list_lookup_insert_ne; [done|]. intros <-. congruence.
Qed.

(** Mapping chip select [i] keeps the bookkeeping, whether it succeeds or not. *)
Lemma map_step s ht buf h iob m s1 i :
  booted s ht buf h iob m 0 s1 -> (i < 3)%nat ->
  cs_base m !! i = Some 0 -> cs_virtual m !! i = Some 0 ->
  let base := default 0 (cs_bases !! i) in
  exists m2 s2,
    runs (map_rhino_gmpc mem_region ioremap i) s1
      (mem_region base && truthy (ioremap base)) s2
    /\ booted s ht buf h iob m2 0 s2 /\ r_spi (k_drv s2) = r_spi (k_drv s1)
    /\ (mem_region base && truthy (ioremap base) = true ->
        m2 = FpgaMap (<[i := base]> (cs_base m)) (<[i := ioremap base]> (cs_virtual m))).
Proof.
  intros [Ba Bl Bo Bi Bp Bb [Bn Bv] Br Bm] Hi Hbi Hvi base.
  unfold runs, map_rhino_gmpc. fold base. destruct (mem_region base); cbn [negb andb].
  2: { exists m, s1. split; [done|]. split; [by split|]. by split. }
  unfold mbind, drv, mgets. rewrite Bb. cbn [deref]. unfold mret, drv_mod, mmodify.
  eexists _, _. split; [reflexivity|]. split; [|by split].
  split; cbn [k_alloc k_live set_drv outer k_drv with_r_bus with_r_maps with_r_regions r_iobuf
    r_page r_bus r_maps r_regions cs_base cs_virtual]; try done.
  - by rewrite !length_insert.
  - apply accounted_insert; try done. unfold base. by destruct i as [|[|[|]]]; [| | |lia].
  - unfold truthy. destruct (Z.eqb_spec (ioremap base) 0) as [E|E]; cbn [negb].
    + rewrite E. by rewrite list_insert_id.
    + by apply accounted_insert.
Qed.

(** Whether chip selects 0 to 2 can be mapped. *)
Definition can_map : bool :=
  forallb (fun b => mem_region b && truthy (ioremap b)) (take 3 cs_bases).

Definition iobuf_init (junk : hwr_iobuf) : hwr_iobuf :=
  HwrIobuf (io_location junk) (io_offset junk) (PAGE_SIZE - 12) (io_data junk).

(** Init up to the bus map. *)
Lemma init_memory s ht buf junk dev ops :
  registrable s ht (hwrtype_rhino ops) -> k_alloc s = [] -> clean (k_drv s) ->
  exists s1, booted s ht buf (hwrtype_rhino ops) (iobuf_init junk) NO_MAP 0 s1
    /\ r_spi (k_drv s1) = false
    /\ hwrtype_rhino_init mem_region ioremap ht buf junk dev s
    = (let! ok := map_rhino_gmpc mem_region ioremap 0 in
       if negb ok then do! hwrtype_rhino_cleanup ht in mret (- ENOMEM)
       else let! ok := map_rhino_gmpc mem_region ioremap 1 in
            if negb ok then do! hwrtype_rhino_cleanup ht in mret (- ENOMEM)
            else let! ok := map_rhino_gmpc mem_region ioremap 2 in
                 if negb ok then do! hwrtype_rhino_cleanup ht in mret (- ENOMEM)
                 else do! drv_mod (with_r_cache true) in
                      do! spi_register_driver dev in
                      do! gpio_direction_output INIT_B_DIR 0 in
                      mret 0) s1.
Proof.
  intros Hr Ha [Ci Cp Cc Cb Cr Cm]. set (h := hwrtype_rhino ops) in *.
  set (s0 := set_drv (with_r_spi false (k_drv s)) s).
  assert (registrable s0 ht h) as Hr0 by exact Hr.
  assert (dev_is (published s0 ht h) HAC_RHINO 0 (k_junk s)) as Hd.
  { exists [k_junk s]. split; [|done]. cbn -[insert]. by rewrite lookup_insert_eq. }
  set (s1 := dev_upd HAC_RHINO 0 (ph_set_count (-1) (k_junk s)) (published s0 ht h)).
  exists (set_drv (with_r_bus (Some NO_MAP) (with_r_iobuf (Some buf) (with_r_page true (k_drv s0))))
    (set_live (k_live s + 2 + 1 + 1 + 1)
      (set_iobufs (<[buf := iobuf_init junk]> (k_iobufs s)) s1))).
  split; [|split; [done|]].
  - split; cbn -[insert alter]; try done; [lia| |by rewrite Cr; intros ? ?%elem_of_nil
      |by rewrite Cm; intros ? ?%elem_of_nil].
    unfold outer. cbn -[insert alter]. by rewrite alter_insert_eq.
  - unfold hwrtype_rhino_init. erewrite mbind_run by apply runs_modify. fold s0.
    rewrite (mbind_run _ _ _ _ _ (runs_register s0 ht h Hr0 Ha)). cbn [Z.ltb Z.compare].
    rewrite (mbind_run _ _ _ _ _ (runs_phy_update _ _ _ _ _ Hd)). fold s1.
    erewrite mbind_run by by apply runs_kmalloc. erewrite mbind_run by apply runs_modify.
    erewrite mbind_run by by apply runs_kmalloc. cbn [negb].
    erewrite mbind_run by apply runs_modify. erewrite mbind_run by apply runs_modify.
    erewrite mbind_run by by apply runs_kmalloc. cbn [negb].
    erewrite mbind_run by apply runs_modify. reflexivity.
Qed.

(** One [map_rhino_gmpc] of init with its error exit. *)
Lemma map_stage s ht buf h iob m s1 i (k : M (kstate rhino) Z) :
  registrable s ht h -> ht_count h = 0 -> k_iobufs s !! buf = None ->
  booted s ht buf h iob m 0 s1 -> (i < 3)%nat ->
  cs_base m !! i = Some 0 -> cs_virtual m !! i = Some 0 ->
  let base := default 0 (cs_bases !! i) in
  let stage := (let! ok := map_rhino_gmpc mem_region ioremap i in
                if negb ok then do! hwrtype_rhino_cleanup ht in mret (- ENOMEM) else k) in
  if mem_region base && truthy (ioremap base)
  then exists s2, stage s1 = k s2 /\ r_spi (k_drv s2) = r_spi (k_drv s1)
    /\ booted s ht buf h iob
         (FpgaMap (<[i := base]> (cs_base m)) (<[i := ioremap base]> (cs_virtual m))) 0 s2
  else exists s2, runs stage s1 (- ENOMEM) s2 /\ outer s2 = outer s /\ clean (k_drv s2)
    /\ k_live s2 = k_live s.
Proof.
  intros Hr H0 Hio B Hi Hbi Hvi base stage.
  destruct (map_step _ _ _ _ _ _ _ i B Hi Hbi Hvi) as (m2 & s2 & H2 & B2 & Hs2 & Hm2).
  fold base in H2, Hm2. unfold stage, runs.
  destruct (mem_region base && truthy (ioremap base)).
  - rewrite (mbind_run _ _ _ _ _ H2), Hm2 in * by done. by exists s2.
  - rewrite (mbind_run _ _ _ _ _ H2). cbn [negb].
    destruct (cleanup_booted _ _ _ _ _ _ _ _ Hr H0 Hio B2) as (s4 & H4 & Ho & Hc & Hl).
    exists s4. rewrite (mbind_run _ _ _ _ _ H4). split; [done|]. split; [done|]. split; [done|lia].
Qed.

Lemma init_finish s ht buf h iob m s1 dev :
  booted s ht buf h iob m 0 s1 -> r_spi (k_drv s1) = false ->
  exists s2,
    runs (do! drv_mod (with_r_cache true) in
          do! spi_register_driver dev in
          do! gpio_direction_output INIT_B_DIR 0 in
          mret 0) s1 0 s2
    /\ booted s ht buf h iob m (b2z (r_spi (k_drv s2))) s2.
Proof.
  intros [Ba Bl Bo Bi Bp Bb Bn Br Bm] Hs. unfold runs.
  erewrite mbind_run by apply runs_modify. unfold spi_register_driver, fpga_probe.
  destruct dev as [setup|]; [destruct (Z.ltb_spec setup 0)|].
  1, 3: (eexists; split; [reflexivity|]; cbn; rewrite Hs; by split).
  eexists. split.
  { eapply runs_bind; [|eapply runs_bind; [apply runs_modify|apply runs_ret]].
    eapply runs_bind; [apply runs_modify|]. eapply runs_bind; [|apply runs_ret].
    eapply runs_bind; [by apply runs_kmalloc|].
    eapply runs_bind; [apply runs_modify|apply runs_ret]. }
  split; cbn; try done. lia.
Qed.

(** Runs the [map_stage] at the head of the goal: the failing branch is closed,
the other one goes on with the next state. *)
Ltac run_stage i B Hr Hio s2 Hs2 B2 :=
  match goal with
  | |- context [(let! ok := map_rhino_gmpc _ _ i in if negb ok then _ else ?k) _] =>
      let Hst := fresh in
      pose proof (map_stage _ _ _ _ _ _ _ i k Hr eq_refl Hio B (ltac:(lia)) eq_refl eq_refl)
        as Hst;
      cbn [cs_bases lookup list_lookup default from_option id] in Hst;
      match type of Hst with
      | if ?b then _ else _ => destruct b; cbn [andb]; [|exact Hst]
      end;
      destruct Hst as (s2 & -> & Hs2 & B2)
  end.

(** The driver's module init registers the RHINO type, with its one device
free, and maps chip selects 0, 1 and 2; when a window cannot be reserved or
mapped it undoes everything and returns [-ENOMEM].  Cleanup after a successful
init undoes everything too, except that the SPI device record a probe
allocated is never freed. *)
Theorem rhino_init_cleanup s ht buf junk dev ops :
  registrable s ht (hwrtype_rhino ops) -> k_alloc s = [] -> clean (k_drv s) ->
  k_iobufs s !! buf = None ->
  exists s1,
    runs (hwrtype_rhino_init mem_region ioremap ht buf junk dev) s
      (if can_map then 0 else - ENOMEM) s1
    /\ if can_map then
         registered s1 HAC_RHINO ht (ht_set_count 1 (hwrtype_rhino ops))
         /\ dev_is s1 HAC_RHINO 0 (ph_set_count (-1) (k_junk s))
         /\ r_bus (k_drv s1) = Some (FpgaMap (take 3 cs_bases ++ [0; 0; 0])
              ((ioremap <$> take 3 cs_bases) ++ [0; 0; 0]))
         /\ exists s2, runs (hwrtype_rhino_cleanup ht) s1 tt s2
              /\ outer s2 = outer s /\ clean (k_drv s2)
              /\ k_live s2 = k_live s + b2z (r_spi (k_drv s1))
       else outer s1 = outer s /\ clean (k_drv s1) /\ k_live s1 = k_live s.
Proof.
  intros Hr Ha Hcl Hio.
  destruct (init_memory s ht buf junk dev ops Hr Ha Hcl) as (s1 & B1 & Hs1 & E).
  unfold runs. rewrite E. clear E. unfold can_map. cbn [forallb take cs_bases].
  run_stage 0%nat B1 Hr Hio s2 Hs2 B2. run_stage 1%nat B2 Hr Hio s3 Hs3 B3.
  run_stage 2%nat B3 Hr Hio s4 Hs4 B4.
  destruct (init_finish _ _ _ _ _ _ _ dev B4) as (s5 & -> & B5); [congruence|].
  exists s5. split; [done|]. pose proof B5 as [_ _ Bo _ _ Bb _ _ _]. unfold outer in Bo.
  injection Bo as _ Bh Bt By _ _. pose proof Hr as (Hp & _). split_and!.
  - split; [done|]. rewrite Bt, Bh. by rewrite lookup_insert_eq, lookup_alter_eq, Hp.
  - eexists. rewrite By, lookup_insert_eq. done.
  - rewrite Bb. done.
  - eapply cleanup_booted; [exact Hr|done|exact Hio|exact B5].
Qed.
End module.
