(* ===== verification/Bkexecd.v ===== *)
(** * The BOF loader: [src/borph/kernel/bkexecd.c] and [src/borph/kernel/borph.c]

[borph_load_hw] configures the FPGAs of a BOF file and builds the process's
[borph_info]; [borph_exit_fpga] takes it down.  The daemon that calls the one and the
binary format handler that queues files for it are in [Exec]. *)
From stdpp Require Import base list gmap strings.
From S2P Require Import Prelude Bof Hwr Driver.
From Stdlib Require Import ZArith Lia.

(** [struct linux_binprm]: the first bytes of the file and the file itself. *)
Record linux_binprm : Type := Binprm {
  bp_buf : list Z;
  bp_file : file
}.

Definition BINPRM_BUF_SIZE : Z := 128.

(** How a step of the loader ends: it goes on, or jumps to [out_delregion]. *)
Inductive outcome (A : Type) : Type := Next (a : A) | Out (retval : Z).
Arguments Next {A} _.
Arguments Out {A} _.

Definition bi_set_region (l : list borph_hw_region) (b : borph_info) : borph_info :=
  BorphInfo l (bi_ioreg b) (bi_ioreg_mode b) (bi_status b).
Definition bi_set_ioreg (l : list borph_ioreg) (b : borph_info) : borph_info :=
  BorphInfo (bi_hw_region b) l (bi_ioreg_mode b) (bi_status b).
Definition bi_set_ioreg_mode (m : Z) (b : borph_info) : borph_info :=
  BorphInfo (bi_hw_region b) (bi_ioreg b) m (bi_status b).
Definition bi_set_status (v : Z) (b : borph_info) : borph_info :=
  BorphInfo (bi_hw_region b) (bi_ioreg b) (bi_ioreg_mode b) v.

Section loader.
Context {D : Type}.
Abbreviation K := (M (kstate D)).
Variable ops_at : Z -> hwr_operations D.

Definition info_mod (t : Z) (f : borph_info -> borph_info) : K unit :=
  mmodify (fun s => set_infos (alter f t (k_infos s)) s).

(** ** borph.c *)

(** Unlinks and frees the registers, first to last. *)
Fixpoint free_ioregs (t : Z) (l : list borph_ioreg) : K unit :=
  match l with
  | [] => mret tt
  | _ :: l => do! info_mod t (bi_set_ioreg l) in do! kfree in free_ioregs t l
  end.

(** The driver's [unconfigure] member, if any, between [get_hwrops] and
[put_hwrops]. *)
Definition unconfigure_region (a : hwr_addr) : K unit :=
  let! hwrops := get_hwrops a in
  do! match hwrops with
      | Some o => match op_unconfigure (ops_at o) with
                  | Some unconfigure => let! _ := unconfigure a in mret tt
                  | None => mret tt
                  end
      | None => mret tt
      end in
  put_hwrops a.

Fixpoint exit_regions (t : Z) (l : list borph_hw_region) : K unit :=
  match l with
  | [] => mret tt
  | region :: l =>
      let a := reg_addr region in
      do! kfree in
      do! hwr_deactivate a in
      do! unconfigure_region a in
      do! release_hwr ops_at a in
      do! info_mod t (bi_set_region l) in
      do! kfree in
      exit_regions t l
  end.

Definition borph_exit_fpga (t : Z) : K unit :=
  let! bi := mgets (fun s => k_infos s !! t) in
  match bi with
  | None => mret tt
  | Some bi =>
      do! free_ioregs t (bi_ioreg bi) in
      do! exit_regions t (bi_hw_region bi) in
      do! kfree in
      mmodify (fun s => set_infos (delete t (k_infos s)) s)
  end.

(** ** bkexecd.c *)
Definition HAC_TYPE : Z := HAC_RHINO.

(** [bpr_nextfree] writes the address it found into the header: the answer and
the address. *)
Fixpoint nextfree_loop (n : nat) (i : Z) (a : hwr_addr) : K (option phyref * hwr_addr) :=
  match n with
  | O => mret (None, a)
  | S n =>
      let a := HwrAddr (class a) i in
      let! r := reserve_hwr ops_at a in
      match r with
      | Some r => mret (Some r, a)
      | None => nextfree_loop n (i + 1) a
      end
  end.

Definition bpr_nextfree (a : hwr_addr) : K (option phyref * hwr_addr) :=
  if negb (class a =? HAC_TYPE) then mret (None, a) else nextfree_loop 4 0 a.

(** The register loop; [ibuf] is the stack variable [bof_ioreg], which a short
read leaves partly as it was. *)
Fixpoint load_ioregs (n : nat) (t : Z) (f : file) (strtab : list Z) (a : hwr_addr)
    (cur_foff : Z) (ibuf : list Z) : K (outcome Z) :=
  match n with
  | O => mret (Next cur_foff)
  | S n =>
      let! reg := kmalloc in
      let '(retval, d) := kernel_read f cur_foff sizeof_bofioreg in
      if retval <? 0 then mret (Out retval)
      else if negb reg then mfault NullDeref
      else
        let ibuf := overlay d ibuf in
        let r := dec_bofioreg ibuf in
        do! info_mod t (fun bi => bi_set_ioreg
          (Ioreg strtab (ior_name r) (ior_mode r) (ior_loc r) (ior_len r) a :: bi_ioreg bi) bi) in
        load_ioregs n t f strtab a (u32 (cur_foff + sizeof_bofioreg)) ibuf
  end.

(** One hardware region, from the reservation to the activation; [h] is its
header and [cur_foff] the offset behind it; the result carries what the driver's
[configure] returned.  [heap] and [ibuf] are what the
string table buffer and the register header hold before they are read. *)
Definition load_region (t : Z) (f : file) (h : hwrhdr) (cur_foff : Z)
    (heap ibuf : list Z) : K (outcome Z) :=
  let! (hwr, a) :=
    (if truthy (Z.land (flag h) HFG_PLACED)
     then let! r := reserve_hwr ops_at (haddr h) in mret (r, haddr h)
     else bpr_nextfree (haddr h)) in
  match hwr with
  | None => mret (Out (- EBUSY))
  | Some hwr =>
      do! phy_update hwr (ph_set_task (Some t)) in
      let strtab_foff := u32 (cur_foff + nr_symbol h * sizeof_bofioreg) in
      let strtab_len := u32 (pl_off h - strtab_off h) in
      if negb (truthy strtab_len) && truthy (nr_symbol h) then mret (Out (- ENOEXEC))
      else
        let! ok := kmalloc in
        if negb ok then mret (Out (- ENOEXEC))
        else
          let '(retval, d) := kernel_read f strtab_foff strtab_len in
          if retval <? 0 then mret (Out retval)
          else
            let strtab := overlay d (slice 0 strtab_len heap) in
            let! region := kmalloc in
            if negb region then mfault NullDeref
            else
              do! info_mod t (fun bi =>
                bi_set_region (HwRegion a strtab :: bi_hw_region bi) bi) in
              let! r := load_ioregs (Z.to_nat (nr_symbol h)) t f strtab a cur_foff ibuf in
              match r with
              | Out retval => mret (Out retval)
              | Next _ =>
                  let! hwrops := get_hwrops a in
                  match (o ← hwrops; op_configure (ops_at o)) with
                  | None => mret (Out (- ENOEXEC))
                  | Some configure =>
                      let! retval := configure a f (pl_off h) (pl_len h) in
                      do! put_hwrops a in
                      if retval <? 0 then mret (Out retval)
                      else do! hwr_activate a in mret (Next retval)
                  end
              end
  end.

(** The region loop; [hbuf] is the stack variable [hwrhdr]. *)
Fixpoint load_regions (n : nat) (t : Z) (f : file) (cur_foff retval : Z)
    (hbuf heap ibuf : list Z) : K (outcome unit) :=
  match n with
  | O => mret (Next tt)
  | S n =>
      if cur_foff =? 0 then mret (Out retval)
      else
        let '(retval, d) := kernel_read f cur_foff sizeof_hwrhdr in
        if retval <? 0 then mret (Out retval)
        else
          let hbuf := overlay d hbuf in
          let h := dec_hwrhdr hbuf in
          let! r := load_region t f h (u32 (cur_foff + sizeof_hwrhdr)) heap ibuf in
          match r with
          | Out retval => mret (Out retval)
          | Next retval => load_regions n t f (next_hwr h) retval hbuf heap ibuf
          end
  end.

Definition borph_load_hw (t : Z) (bprm : linux_binprm) (hbuf heap ibuf : list Z) : K Z :=
  let! ok := kmalloc in
  if negb ok then mfault NullDeref
  else
    do! mmodify (fun s => set_infos (<[t := BorphInfo [] [] 1 0]> (k_infos s)) s) in
    let h := dec_bofhdr (bp_buf bprm) in
    let! r := load_regions (Z.to_nat (b_numchip h)) t (bp_file bprm) (b_hwoff h) (- EIO)
                hbuf heap ibuf in
    match r with
    | Next _ =>
        do! info_mod t (fun bi => bi_set_status (Z.lor (bi_status bi) 1) bi) in
        mret 0
    | Out retval => do! borph_exit_fpga t in mret retval
    end.
End loader.

(** ** One region of a well-formed file *)

(** The register record the loader builds from a symbol of the file. *)
Definition mk_ioreg (strtab : list Z) (a : hwr_addr) (r : bofioreg) : borph_ioreg :=
  Ioreg strtab (ior_name r) (ior_mode r) (ior_loc r) (ior_len r) a.

(** The region header [h], the symbols [regs] and the string table [strtab] lie
one after the other at [off] in the file. *)
Record region_image (f : file) (off : Z) (h : hwrhdr) (regs : list bofioreg)
    (strtab : list Z) : Prop := {
  ri_err : forall o n, f_err f o n = None;
  ri_off : 0 < off;
  ri_data : slice off (sizeof_hwrhdr + sizeof_bofioreg * zlen regs + zlen strtab) (f_data f)
            = enc_hwrhdr h ++ concat (enc_bofioreg <$> regs) ++ strtab;
  ri_max : zlen (f_data f) < 2 ^ 31;
  ri_hdr : wf_hwrhdr h;
  ri_regs : Forall wf_bofioreg regs;
  ri_nsym : nr_symbol h = zlen regs;
  ri_strtab : u32 (pl_off h - strtab_off h) = zlen strtab;
  ri_names : strtab = [] -> regs = []
}.

Lemma zlen_enc_regs regs :
  zlen (concat (enc_bofioreg <$> regs)) = sizeof_bofioreg * zlen regs.
Proof.
  induction regs as [|r regs IH]; [done|]. cbn [fmap list_fmap concat].
  rewrite zlen_app, IH, zlen_enc_bofioreg, zlen_cons. lia.
Qed.

(** A slice that is known contains its parts. *)
Lemma slice_part off n l1 l2 l3 (l : list Z) :
  0 <= off -> slice off n l = l1 ++ l2 ++ l3 -> zlen l1 + zlen l2 + zlen l3 = n ->
  slice (off + zlen l1) (zlen l2) l = l2 /\ (0 < n -> off + n <= zlen l).
Proof.
  intros Ho Hs Hn. pose proof (zlen_nonneg l1). pose proof (zlen_nonneg l2).
  pose proof (zlen_nonneg l3). split.
  - rewrite <- (slice_slice off n) by lia. rewrite Hs. by apply slice_exact.
  - apply (f_equal zlen) in Hs. rewrite !zlen_app in Hs. unfold slice, zlen in *.
    rewrite length_take, length_drop in Hs. lia.
Qed.

Lemma region_image_bound f off h regs strtab :
  region_image f off h regs strtab ->
  off + sizeof_hwrhdr + sizeof_bofioreg * zlen regs + zlen strtab <= zlen (f_data f).
Proof.
  intros [He Ho Hd Hm _ _ _ _ _].
  destruct (slice_part _ _ [] _ _ _ (Z.lt_le_incl _ _ Ho) (Hd : _ = [] ++ _)) as [_ E].
  - rewrite zlen_app, zlen_enc_hwrhdr, zlen_enc_regs, zlen_nil. lia.
  - pose proof (zlen_nonneg regs). pose proof (zlen_nonneg strtab).
    unfold sizeof_hwrhdr, sizeof_bofioreg in *. lia.
Qed.

Lemma kernel_read_slice f off n d :
  (forall o n, f_err f o n = None) -> 0 <= n < 2 ^ 31 -> slice off n (f_data f) = d ->
  zlen d = n -> kernel_read f off n = (n, d).
Proof.
  intros He Hn Hd Hz. unfold kernel_read. rewrite (proj2 (Z.leb_gt _ _)) by lia.
  rewrite He, Hd. by rewrite Hz.
Qed.

Lemma region_read_hdr f off h regs strtab :
  region_image f off h regs strtab ->
  kernel_read f off sizeof_hwrhdr = (sizeof_hwrhdr, enc_hwrhdr h).
Proof.
  intros [He Ho Hd Hm _ _ _ _ _].
  apply kernel_read_slice; [done|done| |apply zlen_enc_hwrhdr].
  destruct (slice_part _ _ [] _ _ _ (Z.lt_le_incl _ _ Ho) (Hd : _ = [] ++ _)) as [E _].
  - rewrite zlen_app, zlen_enc_hwrhdr, zlen_enc_regs, zlen_nil. lia.
  - by rewrite zlen_nil, Z.add_0_r, zlen_enc_hwrhdr in E.
Qed.

Lemma region_read_strtab f off h regs strtab :
  region_image f off h regs strtab ->
  kernel_read f (off + sizeof_hwrhdr + zlen regs * sizeof_bofioreg) (zlen strtab)
  = (zlen strtab, strtab).
Proof.
  intros H. pose proof (region_image_bound _ _ _ _ _ H) as Hb.
  destruct H as [He Ho Hd Hm _ _ _ _ _]. pose proof (zlen_nonneg strtab).
  pose proof (zlen_nonneg regs).
  apply kernel_read_slice; [done|unfold sizeof_hwrhdr, sizeof_bofioreg in *; lia| |done].
  rewrite app_assoc in Hd. set (l1 := _ ++ concat _) in Hd.
  replace (l1 ++ strtab) with (l1 ++ strtab ++ []) in Hd by (by rewrite app_nil_r).
  destruct (slice_part _ _ _ _ _ _ (Z.lt_le_incl _ _ Ho) Hd) as [E _]; unfold l1 in *.
  - rewrite zlen_app, zlen_enc_hwrhdr, zlen_enc_regs, zlen_nil. lia.
  - rewrite zlen_app, zlen_enc_hwrhdr, zlen_enc_regs in E.
    by rewrite <- Z.add_assoc, (Z.mul_comm (zlen regs)).
Qed.

Lemma region_read_reg f off h r1 r r2 strtab :
  region_image f off h (r1 ++ r :: r2) strtab ->
  kernel_read f (off + sizeof_hwrhdr + zlen r1 * sizeof_bofioreg) sizeof_bofioreg
  = (sizeof_bofioreg, enc_bofioreg r).
Proof.
  intros [He Ho Hd Hm _ _ _ _ _].
  apply kernel_read_slice; [done|done| |apply zlen_enc_bofioreg].
  rewrite fmap_app, concat_app in Hd. cbn [fmap list_fmap concat] in Hd.
  rewrite <- !app_assoc, (app_assoc (enc_hwrhdr h)) in Hd.
  destruct (slice_part _ _ _ _ _ _ (Z.lt_le_incl _ _ Ho) Hd) as [E _].
  - rewrite !zlen_app, zlen_enc_hwrhdr, zlen_enc_bofioreg, zlen_cons.
    rewrite !zlen_enc_regs. lia.
  - rewrite zlen_app, zlen_enc_hwrhdr, zlen_enc_regs, zlen_enc_bofioreg in E.
    by rewrite <- Z.add_assoc, (Z.mul_comm (zlen r1)).
Qed.

Section load.
Context {D : Type} (ops_at : Z -> hwr_operations D).
Implicit Type s : kstate D.

(** The state with the registers [l] linked in front of the task's list. *)
Definition add_ioregs (t : Z) (l : list borph_ioreg) s : kstate D :=
  set_live (k_live s + zlen l)
    (set_infos (alter (fun bi => bi_set_ioreg (l ++ bi_ioreg bi) bi) t (k_infos s)) s).

Lemma add_ioregs_add t l1 l2 s : add_ioregs t l1 (add_ioregs t l2 s) = add_ioregs t (l1 ++ l2) s.
Proof.
  unfold add_ioregs, set_live, set_infos. cbn. f_equal.
  - rewrite zlen_app. lia.
  - apply alter_alter_ext. intros bi _. unfold bi_set_ioreg. cbn. by rewrite app_assoc.
Qed.

Lemma load_ioregs_ok t f off h r1 regs strtab st a ibuf s :
  region_image f off h (r1 ++ regs) strtab -> k_alloc s = [] -> zlen ibuf = sizeof_bofioreg ->
  exists cur,
    runs (load_ioregs (length regs) t f st a
            (off + sizeof_hwrhdr + zlen r1 * sizeof_bofioreg) ibuf) s (Next cur)
      (add_ioregs t (reverse (mk_ioreg st a <$> regs)) s).
Proof.
  revert r1 ibuf s. induction regs as [|r regs IH]; intros r1 ibuf s Hr Ha Hi; cbn [load_ioregs length].
  { eexists. unfold runs, mret, add_ioregs. do 2 f_equal. destruct s.
    unfold set_live, set_infos. cbn. rewrite Z.add_0_r. f_equal. symmetry. apply alter_id.
    by intros [] _. }
  pose proof (region_read_reg _ _ _ _ _ _ _ Hr) as E.
  pose proof (region_image_bound _ _ _ _ _ Hr) as Hb.
  assert (wf_bofioreg r) as Hw.
  { pose proof (ri_regs _ _ _ _ _ Hr) as Hf. apply Forall_app in Hf as [_ Hf]. by inversion Hf. }
  destruct Hr as [He Ho Hd Hm H5 H6 H7 H8 H9] eqn:Er. clear Er.
  rewrite zlen_app, zlen_cons in Hb. pose proof (zlen_nonneg r1). pose proof (zlen_nonneg regs).
  pose proof (zlen_nonneg strtab). unfold sizeof_hwrhdr, sizeof_bofioreg in *.
  destruct (IH (r1 ++ [r]) (enc_bofioreg r) (add_ioregs t [mk_ioreg st a r] s)) as [cur Hcur].
  { by rewrite <- app_assoc. }
  { done. }
  { apply zlen_enc_bofioreg. }
  exists cur. eapply runs_bind; [by apply runs_kmalloc|]. rewrite E. cbn [Z.ltb Z.compare negb].
  rewrite overlay_full by (rewrite zlen_enc_bofioreg; unfold sizeof_bofioreg; lia).
  rewrite <- (app_nil_r (enc_bofioreg r)), dec_enc_bofioreg by done. rewrite app_nil_r.
  eapply runs_bind; [apply runs_modify|]. rewrite wrapu_small by lia.
  replace (off + 28 + zlen r1 * 12 + 12) with (off + 28 + zlen (r1 ++ [r]) * 12)
    by (rewrite zlen_app; unfold zlen; simpl; lia).
  cbn [fmap list_fmap]. rewrite reverse_cons, <- add_ioregs_add. exact Hcur.
Qed.

(** ** Placement *)
Definition placed (h : hwrhdr) : bool := truthy (Z.land (flag h) HFG_PLACED).

(** The device a header asks for. *)
Definition target (h : hwrhdr) : hwr_addr :=
  if placed h then haddr h else HwrAddr (class (haddr h)) 0.

Definition place (h : hwrhdr) : M (kstate D) (option phyref * hwr_addr) :=
  if truthy (Z.land (flag h) HFG_PLACED)
  then let! r := reserve_hwr ops_at (haddr h) in mret (r, haddr h)
  else bpr_nextfree ops_at (haddr h).

Definition placeable s (h : hwrhdr) (p : Z) (ht : hwrtype) (o : Z) (d : phyhwr) : Prop :=
  served ops_at s (target h) p ht o d /\ class (haddr h) = HAC_TYPE.

Lemma runs_place s h p ht o d :
  placeable s h p ht o d -> ph_count d = -1 ->
  runs (place h) s (Some (Phyref (class (target h)) (addr (target h))), target h)
    (dev_upd (class (target h)) (addr (target h)) (ph_set_count 1 d) s).
Proof.
  intros [Hs Hc] Hd. pose proof (runs_reserve_hwr ops_at s _ p ht o d Hs (or_introl Hd)) as H.
  unfold reserve_answer, reserved in H. rewrite Hd in H. cbn [Z.eqb Pos.eqb] in H.
  unfold place, target, placed in *. destruct (truthy _).
  - eapply runs_bind; [exact H|]. done.
  - unfold bpr_nextfree. rewrite (proj2 (Z.eqb_eq _ _) Hc). cbn [negb nextfree_loop].
    eapply runs_bind; [exact H|]. done.
Qed.

(** A busy device: no reservation, and nothing changes. *)
Lemma runs_place_busy s h p ht o d :
  placeable s h p ht o d -> 1 <= ph_count d < 2 ^ 31 - 1 ->
  exists a, runs (place h) s (None, a) s.
Proof.
  intros [Hs Hc] Hd. pose proof (runs_reserve_hwr ops_at s _ p ht o d Hs (or_intror Hd)) as H.
  unfold reserve_answer, reserved in H. rewrite (proj2 (Z.eqb_neq _ _)) in H by lia.
  unfold place, target, placed in *. destruct (truthy _).
  - eexists. eapply runs_bind; [exact H|]. done.
  - unfold bpr_nextfree. rewrite (proj2 (Z.eqb_eq _ _) Hc). cbn [negb nextfree_loop].
    destruct Hs as (Hr & Ho & Hdr & Hct & _).
    assert (forall i, 1 <= i ->
      runs (reserve_hwr ops_at (HwrAddr (class (haddr h)) i)) s None s) as Hi.
    { intros i Hi. pose proof (runs_between s (HwrAddr (class (haddr h)) i) p ht o
        (op_reserve_hwr (ops_at o) (HwrAddr (class (haddr h)) i)) None id Hr Ho Hct) as E.
      unfold runs, reserve_hwr, mbind in *.
      rewrite (runs_get_hwrops s (HwrAddr (class (haddr h)) i) p ht Hr) in *. rewrite Ho in *.
      apply E; try done. by apply driver_reserve_range. }
    eexists. eapply runs_bind; [exact H|]. cbn [Z.add Pos.add class].
    eapply runs_bind; [apply Hi; lia|]. eapply runs_bind; [apply Hi; lia|].
    eapply runs_bind; [apply Hi; lia|]. done.
Qed.

(** The state before the driver's [configure] is called. *)
Definition with_region (t : Z) (a : hwr_addr) (strtab : list Z) s : kstate D :=
  set_live (k_live s + 1 + 1) (set_infos
    (alter (fun bi => bi_set_region (HwRegion a strtab :: bi_hw_region bi) bi) t (k_infos s)) s).

Definition prepared (t : Z) (h : hwrhdr) (regs : list bofioreg) (strtab : list Z) (d : phyhwr)
    s : kstate D :=
  add_ioregs t (reverse (mk_ioreg strtab (target h) <$> regs))
    (with_region t (target h) strtab
      (dev_upd (class (target h)) (addr (target h)) (ph_set_task (Some t) (ph_set_count 1 d)) s)).

(** What is left of [load_region] from there. *)
Definition configure_region (f : file) (h : hwrhdr) (a : hwr_addr) : M (kstate D) (outcome Z) :=
  let! hwrops := get_hwrops a in
  match (o ← hwrops; op_configure (ops_at o)) with
  | None => mret (Out (- ENOEXEC))
  | Some configure =>
      let! retval := configure a f (pl_off h) (pl_len h) in
      do! put_hwrops a in
      if retval <? 0 then mret (Out retval)
      else do! hwr_activate a in mret (Next retval)
  end.

Lemma load_region_prepared t f off h regs strtab heap ibuf p ht o d s :
  region_image f off h regs strtab -> placeable s h p ht o d -> ph_count d = -1 ->
  k_alloc s = [] -> zlen ibuf = sizeof_bofioreg ->
  load_region ops_at t f h (u32 (off + sizeof_hwrhdr)) heap ibuf s
  = configure_region f h (target h) (prepared t h regs strtab d s).
Proof.
  intros Hr Hp Hd Ha Hi. pose proof Hp as [Hs _].
  pose proof (region_image_bound _ _ _ _ _ Hr) as Hb.
  pose proof (region_read_strtab _ _ _ _ _ Hr) as Est.
  pose proof Hr as [He Ho _ Hm Hwf _ Hns Hst Hnm].
  pose proof (zlen_nonneg regs). pose proof (zlen_nonneg strtab).
  unfold load_region. fold (place h). rewrite (mbind_run _ _ _ _ _ (runs_place s h p ht o d Hp Hd)).
  pose proof (served_dev_upd ops_at s _ p ht o d (ph_set_count 1 d) Hs) as (_ & _ & _ & _ & _ & Hv).
  rewrite (mbind_run _ _ _ _ _ (runs_phy_update _ _ _ _ _ Hv)), dev_upd_upd.
  unfold sizeof_hwrhdr, sizeof_bofioreg in *. rewrite (wrapu_small 32 (off + 28)) by lia.
  rewrite Hst, Hns, wrapu_small by lia.
  assert (negb (truthy (zlen strtab)) && truthy (zlen regs) = false) as ->.
  { unfold truthy. destruct strtab; [by rewrite Hnm|]. rewrite zlen_cons.
    by rewrite (proj2 (Z.eqb_neq _ 0)) by (pose proof (zlen_nonneg strtab); lia). }
  erewrite mbind_run by by apply runs_kmalloc. cbn [negb]. rewrite Est.
  rewrite (proj2 (Z.ltb_ge _ _)) by lia.
  rewrite overlay_full by (etransitivity; [apply zlen_slice_le; lia|lia]).
  erewrite mbind_run by by apply runs_kmalloc. cbn [negb].
  erewrite mbind_run by apply runs_modify.
  destruct (load_ioregs_ok t f off h [] regs strtab strtab (target h) ibuf
    (with_region t (target h) strtab (dev_upd (class (target h)) (addr (target h))
       (ph_set_task (Some t) (ph_set_count 1 d)) s)) Hr Ha Hi) as [cur Hcur].
  rewrite (zlen_nil (A:=bofioreg)), Z.mul_0_l, Z.add_0_r in Hcur. unfold zlen. rewrite Nat2Z.id.
  erewrite mbind_run by exact Hcur. done.
Qed.

(** ** Taking a process's hardware down *)
Lemma delete_alter_same {V} (f : V -> V) (k : Z) (m : gmap Z V) :
  delete k (alter f k m) = delete k m.
Proof.
  apply map_eq. intros i. destruct (decide (i = k)) as [->|].
  - by rewrite !lookup_delete_eq.
  - by rewrite !lookup_delete_ne, lookup_alter_ne.
Qed.

Lemma runs_free_ioregs t l s :
  exists i, runs (free_ioregs t l) s tt (set_live (k_live s - zlen l) (set_infos i s))
    /\ delete t i = delete t (k_infos s).
Proof.
  revert s. induction l as [|r l IH]; intros s; cbn [free_ioregs].
  { exists (k_infos s). split; [|done]. destruct s. unfold runs, mret, set_live, set_infos. cbn.
    by rewrite Z.sub_0_r. }
  destruct (IH (set_live (k_live s - 1)
    (set_infos (alter (bi_set_ioreg l) t (k_infos s)) s))) as (i & Hi & Hd).
  exists i. split; [|by rewrite Hd; cbn; rewrite delete_alter_same].
  eapply runs_bind; [apply runs_modify|]. eapply runs_bind; [apply runs_modify|].
  rewrite zlen_cons. replace (k_live s - (1 + zlen l)) with (k_live s - 1 - zlen l) by lia.
  exact Hi.
Qed.

(** A device that is free, inactive and without owner, otherwise as [d]. *)
Definition freed (d : phyhwr) : phyhwr := Phyhwr (ph_hwraddr d) (-1) 0 None.

(** The driver can be asked to unconfigure. *)
Definition can_unconfigure (o : Z) : Prop := is_Some (op_unconfigure (ops_at o)).

Lemma runs_unconfigure s a p ht o :
  registered s (class a) p ht -> ht_ops ht = Some o -> HwrDriver (ops_at o) (class a) ->
  - 2 ^ 31 <= ht_count ht < 2 ^ 31 - 1 -> can_unconfigure o ->
  exists dr, runs (unconfigure_region ops_at a) s tt (set_drv dr s).
Proof.
  intros Hr Ho Hd Hc [unc Hu].
  destruct (driver_unconfigure unc (ht_upd p atomic_inc s) a Hu) as [dr Hdr].
  exists dr. eapply runs_bind; [by apply runs_get_hwrops|]. rewrite Ho, Hu.
  eapply runs_bind; [eapply runs_bind; [exact Hdr|done]|].
  pose proof Hr as (_ & _ & Hh).
  pose proof (runs_put_hwrops (set_drv dr (ht_upd p atomic_inc s)) a p
    (ht_set_count (atomic_inc (ht_count ht)) ht)) as E.
  assert (ht_upd p atomic_dec (set_drv dr (ht_upd p atomic_inc s)) = set_drv dr s) as Eq.
  { transitivity (set_drv dr (ht_upd p atomic_dec (ht_upd p atomic_inc s))); [done|].
    by rewrite (ht_upd_balanced s p ht). }
  rewrite Eq in E. apply E. exact (registered_ht_upd s _ p ht atomic_inc Hr).
Qed.

Lemma served_set_drv s a p ht o d dr :
  served ops_at s a p ht o d -> served ops_at (set_drv dr s) a p ht o d.
Proof. done. Qed.

(** [borph_exit_fpga] of a process that holds one device gives back the device
and every object the process owns. *)
Lemma runs_exit t s a strtab l m st p ht o d :
  k_infos s !! t = Some (BorphInfo [HwRegion a strtab] l m st) ->
  served ops_at s a p ht o d -> 0 < ht_num_devs ht -> can_unconfigure o -> ph_count d = 1 ->
  exists dr, runs (borph_exit_fpga ops_at t) s tt
    (set_drv dr (set_live (k_live s - 3 - zlen l) (set_infos (delete t (k_infos s))
      (dev_upd (class a) (addr a) (freed d) s)))).
Proof.
  intros Hi Hs Hn Hu Hd. destruct (runs_free_ioregs t l s) as (i & Hf & Hdel).
  set (s1 := set_live (k_live s - zlen l - 1) (set_infos i s)).
  assert (served ops_at s1 a p ht o d) as Hs1 by exact Hs.
  set (s2 := dev_upd (class a) (addr a) (ph_set_active 0 d) s1).
  pose proof (served_dev_upd ops_at s1 a p ht o d (ph_set_active 0 d) Hs1 : served ops_at s2 _ _ _ _ _) as Hs2.
  destruct Hs2 as (Hr & Ho & Hdr & Hc & Ha & Hv) eqn:E2. clear E2.
  destruct (runs_unconfigure s2 a p ht o Hr Ho Hdr Hc Hu) as [dr Hun].
  exists dr. unfold borph_exit_fpga. eapply runs_bind; [apply runs_gets|]. rewrite Hi.
  cbn [bi_ioreg bi_hw_region]. eapply runs_bind; [exact Hf|]. eapply runs_eq.
  { eapply runs_bind; [|eapply runs_bind; [apply runs_modify|apply runs_modify]].
    cbn [exit_regions reg_addr]. eapply runs_bind; [apply runs_modify|].
    eapply runs_bind.
    { apply (runs_hwr_deactivate s1 a p ht d); [|right; lia].
      destruct Hs1 as (? & ? & ? & ? & ? & ?). split; [done|]. split; [lia|done]. }
    eapply runs_bind; [exact Hun|].
    eapply runs_bind; [by apply (runs_release_hwr ops_at _ a p ht o (ph_set_active 0 d))|].
    eapply runs_bind; [apply runs_modify|]. eapply runs_bind; [apply runs_modify|].
    apply runs_ret. }
  assert (drop_ref (ph_set_active 0 d) = freed d) as ->.
  { destruct d as [da dc dac dt]. cbn in Hd. by subst dc. }
  unfold s2, s1. rewrite <- Hdel, <- (delete_alter_same (bi_set_region []) t i).
  pose proof (dev_upd_upd (set_live (k_live s - zlen l - 1) (set_infos i s)) (class a) (addr a)
    (ph_set_active 0 d) (freed d)) as E.
  apply (f_equal k_phyhwrs) in E.
  apply kstate_eq; try reflexivity; [cbn; lia|exact E].
Qed.

(** ** Loading a file *)

(** The driver's [configure] returns [r] on the payload of [h], whatever the
rest of the kernel looks like, frees what it allocates and leaves a driver state
in [P]. *)
Definition configures (P : D -> Prop) s (f : file) (h : hwrhdr) (o r : Z) : Prop :=
  exists cfg, op_configure (ops_at o) = Some cfg
    /\ forall s1, k_drv s1 = k_drv s -> k_alloc s1 = [] ->
       exists s2, runs (cfg (target h) f (pl_off h) (pl_len h)) s1 r s2
         /\ k_live s2 = k_live s1 /\ k_alloc s2 = [] /\ P (k_drv s2).

Lemma outer_set_drv s1 s2 :
  outer s2 = outer s1 -> k_live s2 = k_live s1 -> k_alloc s2 = k_alloc s1 ->
  s2 = set_drv (k_drv s2) s1.
Proof.
  intros Ho Hl Ha. unfold outer in Ho. injection Ho as ? ? ? ? ? ?.
  by apply kstate_eq.
Qed.

Lemma configure_region_ok P s0 s f h o r p ht d :
  served ops_at s (target h) p ht o d -> 0 < ht_num_devs ht -> stable_count (ph_count d) ->
  configures P s0 f h o r -> k_drv s = k_drv s0 -> k_alloc s = [] ->
  exists dr, P dr
    /\ runs (configure_region f h (target h)) s
      (if r <? 0 then Out r else Next r)
      (set_drv dr (if r <? 0 then s
        else dev_upd (class (target h)) (addr (target h)) (ph_set_active 1 d) s)).
Proof.
  intros (Hr & Ho & Hdr & Hc & Ha & Hv) Hn Hst (cfg & Hcfg & Hrun) Hd Hal.
  destruct (Hrun (ht_upd p atomic_inc s)) as (s2 & H2 & Hl2 & Ha2 & HP); [done|done|].
  pose proof (driver_configure cfg (target h) f (pl_off h) (pl_len h) Hcfg _ _ _ H2) as Ho2.
  apply outer_set_drv in Ho2; [|done|by rewrite Ha2]. exists (k_drv s2). split; [done|].
  assert (registered (set_drv (k_drv s2) s) (class (target h)) p ht) as Hr2 by exact Hr.
  unfold configure_region. eapply runs_bind; [by apply runs_get_hwrops|].
  rewrite Ho. cbn [base.mbind option_bind]. rewrite Hcfg. eapply runs_bind; [exact H2|].
  assert (runs (put_hwrops (target h)) s2 tt (set_drv (k_drv s2) s)) as Hput.
  { rewrite Ho2. cbn [k_drv set_drv]. eapply runs_eq.
    - eapply runs_put_hwrops. exact (registered_ht_upd s _ p ht atomic_inc Hr).
    - transitivity (set_drv (k_drv s2) (ht_upd p atomic_dec (ht_upd p atomic_inc s))); [done|].
      destruct Hr as (_ & _ & Hh). by rewrite (ht_upd_balanced s p ht). }
  eapply runs_bind; [exact Hput|]. destruct (Z.ltb_spec r 0); [done|].
  eapply runs_bind; [|apply runs_ret].
  apply (runs_hwr_activate (set_drv (k_drv s2) s) (target h) p ht d); [|done].
  split; [done|]. split; [lia|done].
Qed.

(** What the loader and the file have to offer for the first region of a load to
go through: a well-formed region, a free device, enough memory. *)
Record load_ready (t : Z) (bprm : linux_binprm) (h : hwrhdr) (regs : list bofioreg)
    (strtab : list Z) (p : Z) (ht : hwrtype) (o : Z) (d : phyhwr) s : Prop := {
  lr_image : region_image (bp_file bprm) (b_hwoff (dec_bofhdr (bp_buf bprm))) h regs strtab;
  lr_place : placeable s h p ht o d;
  lr_free : ph_count d = -1;
  lr_devs : 0 < ht_num_devs ht;
  lr_unconf : can_unconfigure o;
  lr_alloc : k_alloc s = []
}.

(** The state after a successful load: [loaded_info] is the new task's
[borph_info]. *)
Definition loaded_info (h : hwrhdr) (regs : list bofioreg) (strtab : list Z) (status : Z) :
  borph_info :=
  BorphInfo [HwRegion (target h) strtab] (reverse (mk_ioreg strtab (target h) <$> regs)) 1 status.

(** The first round of the region loop, up to [configure]. *)
Lemma load_regions_first n t bprm h regs strtab p ht o d s hbuf heap ibuf :
  load_ready t bprm h regs strtab p ht o d s -> zlen hbuf = sizeof_hwrhdr ->
  zlen ibuf = sizeof_bofioreg ->
  load_regions ops_at (S n) t (bp_file bprm) (b_hwoff (dec_bofhdr (bp_buf bprm))) (- EIO)
    hbuf heap ibuf s
  = (let! r := configure_region (bp_file bprm) h (target h) in
     match r with
     | Out retval => mret (Out retval)
     | Next retval => load_regions ops_at n t (bp_file bprm) (next_hwr h) retval
                        (enc_hwrhdr h) heap ibuf
     end) (prepared t h regs strtab d s).
Proof.
  intros [Hi Hp Hd Hn Hu Ha] Hh Hib. pose proof Hi as [_ Hoff _ _ Hwf _ _ _ _].
  cbn [load_regions]. rewrite (proj2 (Z.eqb_neq _ 0)) by lia.
  rewrite (region_read_hdr _ _ _ _ _ Hi). change (sizeof_hwrhdr <? 0) with false.
  rewrite overlay_full by (rewrite zlen_enc_hwrhdr; lia).
  assert (dec_hwrhdr (enc_hwrhdr h) = h) as ->
    by (rewrite <- (app_nil_r (enc_hwrhdr h)); by apply dec_enc_hwrhdr).
  cbv iota. unfold mbind at 1. rewrite (load_region_prepared t _ _ h regs strtab heap ibuf p ht o d s)
    by done.
  unfold mbind. by destruct (configure_region _ _ _ _) as [[[] ?]|].
Qed.

(** The state in which [borph_load_hw] calls the region loop. *)
Definition with_info (t : Z) s : kstate D :=
  set_infos (<[t := BorphInfo [] [] 1 0]> (k_infos s)) (set_live (k_live s + 1) s).

Lemma prepared_infos t h regs strtab d s :
  k_infos (prepared t h regs strtab d (with_info t s))
  = <[t := loaded_info h regs strtab 0]> (k_infos s).
Proof.
  cbn. rewrite !alter_insert_eq. unfold loaded_info, bi_set_ioreg, bi_set_region. cbn.
  by rewrite app_nil_r.
Qed.

Lemma prepared_served t h regs strtab p ht o d s :
  served ops_at s (target h) p ht o d ->
  served ops_at (prepared t h regs strtab d (with_info t s)) (target h) p ht o
    (ph_set_task (Some t) (ph_set_count 1 d)).
Proof. apply (served_dev_upd ops_at s (target h) p ht o d). Qed.

Lemma prepared_live t h regs strtab d s :
  k_live (prepared t h regs strtab d (with_info t s)) = k_live s + 3 + zlen regs.
Proof.
  cbn. unfold zlen. rewrite length_reverse, length_fmap. lia.
Qed.

(** [borph_load_hw] from the first [configure] on. *)
Definition load_rest (n : nat) (t : Z) (bprm : linux_binprm) (h : hwrhdr) (heap ibuf : list Z) :
  M (kstate D) Z :=
  let! r := configure_region (bp_file bprm) h (target h) in
  let! r := match r with
            | Out retval => mret (Out retval)
            | Next retval => load_regions ops_at n t (bp_file bprm) (next_hwr h) retval
                               (enc_hwrhdr h) heap ibuf
            end in
  match r with
  | Next _ =>
      do! info_mod t (fun bi => bi_set_status (Z.lor (bi_status bi) 1) bi) in mret 0
  | Out retval => do! borph_exit_fpga ops_at t in mret retval
  end.

Lemma load_hw_first n t bprm h regs strtab p ht o d s hbuf heap ibuf :
  load_ready t bprm h regs strtab p ht o d s ->
  b_numchip (dec_bofhdr (bp_buf bprm)) = Z.of_nat (S n) ->
  zlen hbuf = sizeof_hwrhdr -> zlen ibuf = sizeof_bofioreg ->
  borph_load_hw ops_at t bprm hbuf heap ibuf s
  = load_rest n t bprm h heap ibuf (prepared t h regs strtab d (with_info t s)).
Proof.
  intros Hl Hnc Hh Hi. pose proof Hl as [Him Hp Hd Hn Hu Ha].
  assert (load_ready t bprm h regs strtab p ht o d (with_info t s)) as Hl1 by by split.
  unfold borph_load_hw. erewrite mbind_run by by apply runs_kmalloc. cbn [negb].
  erewrite mbind_run by apply runs_modify. rewrite Hnc, Nat2Z.id. unfold mbind at 1.
  change (set_infos _ _) with (with_info t s).
  rewrite (load_regions_first n t bprm h regs strtab p ht o d (with_info t s)) by done.
  unfold load_rest, mbind. by destruct (configure_region _ _ _ _) as [[[] ?]|].
Qed.

(** The owner's view of the reserved device. *)
Definition owned (t : Z) (d : phyhwr) : phyhwr := ph_set_task (Some t) (ph_set_count 1 d).

(** The driver's answer [r], and the state it leaves. *)
Lemma load_configured P t bprm h regs strtab p ht o d r s :
  load_ready t bprm h regs strtab p ht o d s -> configures P s (bp_file bprm) h o r ->
  exists dr, P dr /\ runs (configure_region (bp_file bprm) h (target h))
    (prepared t h regs strtab d (with_info t s)) (if r <? 0 then Out r else Next r)
    (set_drv dr (if r <? 0 then prepared t h regs strtab d (with_info t s)
      else dev_upd (class (target h)) (addr (target h)) (ph_set_active 1 (owned t d))
             (prepared t h regs strtab d (with_info t s)))).
Proof.
  intros [Him [Hs Hcl] Hd Hn Hu Ha] Hcf.
  pose proof (prepared_served t h regs strtab p ht o d s Hs) as Hs1.
  apply (configure_region_ok P s _ (bp_file bprm) h o r p ht (owned t d) Hs1 Hn); try done.
  right. cbn. lia.
Qed.

(** Taking down the hardware of a state that a load has prepared. *)
Lemma exit_prepared t h regs strtab p ht o d v dr s :
  placeable s h p ht o d -> 0 < ht_num_devs ht -> can_unconfigure o ->
  exists dr2, runs (borph_exit_fpga ops_at t)
    (set_drv dr (dev_upd (class (target h)) (addr (target h)) (ph_set_active v (owned t d))
      (prepared t h regs strtab d (with_info t s)))) tt
    (set_drv dr2 (set_infos (delete t (k_infos s))
      (dev_upd (class (target h)) (addr (target h)) (freed d) s))).
Proof.
  intros [Hs Hcl] Hn Hu. pose proof (prepared_served t h regs strtab p ht o d s Hs) as Hs1.
  set (sp := prepared t h regs strtab d (with_info t s)) in *.
  set (s1 := set_drv dr (dev_upd (class (target h)) (addr (target h))
    (ph_set_active v (owned t d)) sp)).
  destruct (runs_exit t s1 (target h) strtab
    (reverse (mk_ioreg strtab (target h) <$> regs)) 1 0 p ht o (ph_set_active v (owned t d)))
    as [dr2 Hex]; [|by eapply served_set_drv, served_dev_upd|done..|].
  { change (k_infos sp !! t = Some (loaded_info h regs strtab 0)).
    unfold sp. by rewrite prepared_infos, lookup_insert_eq. }
  exists dr2. eapply runs_eq; [exact Hex|]. apply kstate_eq; try reflexivity.
  - change (k_live sp - 3 - zlen (reverse (mk_ioreg strtab (target h) <$> regs)) = k_live s).
    unfold sp. rewrite prepared_live. unfold zlen. rewrite length_reverse, length_fmap. lia.
  - pose proof (dev_upd_upd sp (class (target h)) (addr (target h))
      (ph_set_active v (owned t d)) (freed d)) as E.
    pose proof (dev_upd_upd s (class (target h)) (addr (target h)) (owned t d) (freed d)) as E2.
    exact (eq_trans (f_equal k_phyhwrs E) (f_equal k_phyhwrs E2)).
  - change (delete t (k_infos sp) = delete t (k_infos s)). unfold sp.
    by rewrite prepared_infos, delete_insert_eq.
Qed.

(** Loading a one-region BOF file on a free device whose driver accepts the
bitstream succeeds: the device is reserved, active and owned by the task, and
the task's register list is exactly the symbol table of the file (in reverse
order), each register with its name offset, mode, location, length and device;
the only objects allocated are the info, the region with its string table and
the registers.  Nothing else of the kernel changes but the driver's own state,
which is one [configure] leaves. *)
Lemma load_hw_ok P t bprm h regs strtab p ht o d r s hbuf heap ibuf :
  load_ready t bprm h regs strtab p ht o d s -> b_numchip (dec_bofhdr (bp_buf bprm)) = 1 ->
  configures P s (bp_file bprm) h o r -> 0 <= r ->
  zlen hbuf = sizeof_hwrhdr -> zlen ibuf = sizeof_bofioreg ->
  exists dr, P dr /\ runs (borph_load_hw ops_at t bprm hbuf heap ibuf) s 0
    (set_drv dr (set_live (k_live s + 3 + zlen regs)
      (set_infos (<[t := loaded_info h regs strtab 1]> (k_infos s))
        (dev_upd (class (target h)) (addr (target h))
          (Phyhwr (ph_hwraddr d) 1 1 (Some t)) s)))).
Proof.
  intros Hl Hnc Hcf Hr Hh Hi. destruct (load_configured P _ _ _ _ _ _ _ _ _ r _ Hl Hcf) as (dr & HP & Hrun).
  rewrite (proj2 (Z.ltb_ge _ _)) in Hrun by lia. exists dr. split; [done|]. unfold runs.
  rewrite (load_hw_first 0 t bprm h regs strtab p ht o d s) by done.
  eapply runs_eq.
  { eapply runs_bind; [exact Hrun|]. eapply runs_bind; [done|]. cbv iota.
    eapply runs_bind; [apply runs_modify|apply runs_ret]. }
  apply kstate_eq; try reflexivity.
  - exact (prepared_live t h regs strtab d s).
  - pose proof (dev_upd_upd s (class (target h)) (addr (target h)) (owned t d)
      (ph_set_active 1 (owned t d))) as E.
    exact (f_equal k_phyhwrs E).
  - change (alter (fun bi => bi_set_status (Z.lor (bi_status bi) 1) bi) t
      (k_infos (prepared t h regs strtab d (with_info t s)))
      = <[t := loaded_info h regs strtab 1]> (k_infos s)).
    by rewrite prepared_infos, alter_insert_eq.
Qed.

(** C21. When the driver refuses the bitstream the load fails with the driver's
error and is undone: no object stays allocated, the task has no [borph_info],
and the device is free and inactive again. *)
Theorem borph_load_hw_refused P t bprm h regs strtab p ht o d r s hbuf heap ibuf :
  load_ready t bprm h regs strtab p ht o d s ->
  0 < b_numchip (dec_bofhdr (bp_buf bprm)) ->
  configures P s (bp_file bprm) h o r -> r < 0 ->
  zlen hbuf = sizeof_hwrhdr -> zlen ibuf = sizeof_bofioreg ->
  exists dr, runs (borph_load_hw ops_at t bprm hbuf heap ibuf) s r
    (set_drv dr (set_infos (delete t (k_infos s))
      (dev_upd (class (target h)) (addr (target h)) (freed d) s))).
Proof.
  intros Hl Hnc Hcf Hr Hh Hi. destruct (load_configured P _ _ _ _ _ _ _ _ _ r _ Hl Hcf) as (dr & HP & Hrun).
  rewrite (proj2 (Z.ltb_lt _ _)) in Hrun by lia. pose proof Hl as [Him Hp Hd Hn Hu Ha].
  destruct (exit_prepared t h regs strtab p ht o d (ph_active d) dr s Hp Hn Hu) as [dr2 Hex].
  exists dr2. unfold runs.
  rewrite (load_hw_first (Z.to_nat (b_numchip (dec_bofhdr (bp_buf bprm)) - 1))
    t bprm h regs strtab p ht o d s) by (done || lia).
  assert (dev_upd (class (target h)) (addr (target h)) (ph_set_active (ph_active d) (owned t d))
    (prepared t h regs strtab d (with_info t s)) = prepared t h regs strtab d (with_info t s)) as E.
  { destruct Hp as [Hs _]. apply dev_upd_id.
    apply (prepared_served t h regs strtab p ht o d s Hs). }
  rewrite E in Hex. eapply runs_bind; [exact Hrun|]. eapply runs_bind; [done|]. cbv iota.
  eapply runs_bind; [exact Hex|apply runs_ret].
Qed.

(** C3. When a process with loaded hardware exits, [borph_exit_fpga] undoes the
load: every object is freed, the task has no [borph_info] and the device is
free, inactive and without owner, so it can be reserved again. *)
Theorem borph_load_exit_roundtrip P t bprm h regs strtab p ht o d r s hbuf heap ibuf :
  load_ready t bprm h regs strtab p ht o d s -> b_numchip (dec_bofhdr (bp_buf bprm)) = 1 ->
  configures P s (bp_file bprm) h o r -> 0 <= r ->
  zlen hbuf = sizeof_hwrhdr -> zlen ibuf = sizeof_bofioreg ->
  exists dr, runs (let! e := borph_load_hw ops_at t bprm hbuf heap ibuf in
                   do! borph_exit_fpga ops_at t in mret e) s 0
    (set_drv dr (set_infos (delete t (k_infos s))
      (dev_upd (class (target h)) (addr (target h)) (freed d) s))).
Proof.
  intros Hl Hnc Hcf Hr Hh Hi. destruct (load_configured P _ _ _ _ _ _ _ _ _ r _ Hl Hcf) as (dr & HP & Hrun).
  rewrite (proj2 (Z.ltb_ge _ _)) in Hrun by lia. pose proof Hl as [Him [Hs Hcl] Hd Hn Hu Ha].
  pose proof (prepared_served t h regs strtab p ht o d s Hs) as Hs1.
  set (sp := prepared t h regs strtab d (with_info t s)) in *.
  set (f := fun bi => bi_set_status (Z.lor (bi_status bi) 1) bi).
  set (s1 := set_infos (alter f t (k_infos sp)) (set_drv dr (dev_upd (class (target h))
    (addr (target h)) (ph_set_active 1 (owned t d)) sp))).
  assert (served ops_at s1 (target h) p ht o (ph_set_active 1 (owned t d))) as Hs2
    by (exact (served_dev_upd _ _ _ _ _ _ _ _ Hs1)).
  destruct (runs_exit t s1 (target h) strtab
    (reverse (mk_ioreg strtab (target h) <$> regs)) 1 1 p ht o (ph_set_active 1 (owned t d)))
    as [dr2 Hex]; [|done..|].
  { change (alter f t (k_infos sp) !! t = Some (loaded_info h regs strtab 1)).
    unfold sp. by rewrite prepared_infos, alter_insert_eq, lookup_insert_eq. }
  exists dr2. eapply runs_bind.
  { unfold runs. rewrite (load_hw_first 0 t bprm h regs strtab p ht o d s) by done.
    eapply runs_bind; [exact Hrun|]. eapply runs_bind; [done|]. cbv iota.
    eapply runs_bind; [apply runs_modify|apply runs_ret]. }
  eapply runs_bind; [|apply runs_ret]. eapply runs_eq; [exact Hex|].
  apply kstate_eq; try reflexivity.
  - change (k_live sp - 3 - zlen (reverse (mk_ioreg strtab (target h) <$> regs)) = k_live s).
    unfold sp. rewrite prepared_live. unfold zlen. rewrite length_reverse, length_fmap. lia.
  - pose proof (dev_upd_upd sp (class (target h)) (addr (target h))
      (ph_set_active 1 (owned t d)) (freed d)) as E.
    pose proof (dev_upd_upd s (class (target h)) (addr (target h)) (owned t d) (freed d)) as E2.
    exact (eq_trans (f_equal k_phyhwrs E) (f_equal k_phyhwrs E2)).
  - change (delete t (alter f t (k_infos sp)) = delete t (k_infos s)). unfold sp.
    by rewrite delete_alter_same, prepared_infos, delete_insert_eq.
Qed.

(** A file whose header announces a further region where the chain of region
headers ends is torn down, and yet [borph_load_hw] does not report an error: it
returns what the last [configure] returned, which is not negative. *)
Lemma borph_load_hw_dangling_next P t bprm h regs strtab p ht o d r s hbuf heap ibuf :
  load_ready t bprm h regs strtab p ht o d s ->
  2 <= b_numchip (dec_bofhdr (bp_buf bprm)) -> next_hwr h = 0 ->
  configures P s (bp_file bprm) h o r -> 0 <= r ->
  zlen hbuf = sizeof_hwrhdr -> zlen ibuf = sizeof_bofioreg ->
  exists dr, runs (borph_load_hw ops_at t bprm hbuf heap ibuf) s r
    (set_drv dr (set_infos (delete t (k_infos s))
      (dev_upd (class (target h)) (addr (target h)) (freed d) s))).
Proof.
  intros Hl Hnc Hnx Hcf Hr Hh Hi.
  destruct (load_configured P _ _ _ _ _ _ _ _ _ r _ Hl Hcf) as (dr & HP & Hrun).
  rewrite (proj2 (Z.ltb_ge _ _)) in Hrun by lia. pose proof Hl as [Him Hp Hd Hn Hu Ha].
  destruct (exit_prepared t h regs strtab p ht o d 1 dr s Hp Hn Hu) as [dr2 Hex].
  exists dr2. unfold runs.
  rewrite (load_hw_first (S (Z.to_nat (b_numchip (dec_bofhdr (bp_buf bprm)) - 2)))
    t bprm h regs strtab p ht o d s) by (done || lia).
  eapply runs_bind; [exact Hrun|]. cbv iota. rewrite Hnx. eapply runs_bind; [done|].
  cbv iota. eapply runs_bind; [exact Hex|apply runs_ret].
Qed.

(** ** Failures before the region is linked *)

(** The file's first region header is [h]. *)
Record header_at (bprm : linux_binprm) (h : hwrhdr) : Prop := {
  ha_numchip : 0 < b_numchip (dec_bofhdr (bp_buf bprm));
  ha_off : b_hwoff (dec_bofhdr (bp_buf bprm)) <> 0;
  ha_read : kernel_read (bp_file bprm) (b_hwoff (dec_bofhdr (bp_buf bprm))) sizeof_hwrhdr
            = (sizeof_hwrhdr, enc_hwrhdr h);
  ha_wf : wf_hwrhdr h
}.

(** A region that fails before it is linked leaves what it did to the devices
and the heap: only the task's empty info is taken back. *)
Lemma load_hw_early t bprm h e s s1 hbuf heap ibuf :
  header_at bprm h -> k_alloc s = [] -> zlen hbuf = sizeof_hwrhdr ->
  runs (load_region ops_at t (bp_file bprm) h
    (u32 (b_hwoff (dec_bofhdr (bp_buf bprm)) + sizeof_hwrhdr)) heap ibuf) (with_info t s)
    (Out e) s1 ->
  k_infos s1 = k_infos (with_info t s) ->
  runs (borph_load_hw ops_at t bprm hbuf heap ibuf) s e
    (set_infos (delete t (k_infos s)) (set_live (k_live s1 - 1) s1)).
Proof.
  intros [Hn Ho Hrd Hwf] Ha Hh Hr Hi. unfold borph_load_hw.
  eapply runs_bind; [by apply runs_kmalloc|]. cbn [negb]. eapply runs_bind; [apply runs_modify|].
  replace (Z.to_nat (b_numchip (dec_bofhdr (bp_buf bprm))))
    with (S (Z.to_nat (b_numchip (dec_bofhdr (bp_buf bprm)) - 1))) by lia.
  cbn [load_regions]. rewrite (proj2 (Z.eqb_neq _ 0)), Hrd by done.
  change (sizeof_hwrhdr <? 0) with false. rewrite overlay_full by (rewrite zlen_enc_hwrhdr; lia).
  assert (dec_hwrhdr (enc_hwrhdr h) = h) as ->
    by (rewrite <- (app_nil_r (enc_hwrhdr h)); by apply dec_enc_hwrhdr).
  eapply runs_bind; [cbv iota; eapply runs_bind; [exact Hr|done]|]. cbv iota.
  eapply runs_bind; [|apply runs_ret]. unfold borph_exit_fpga.
  eapply runs_bind; [apply runs_gets|]. rewrite Hi. cbn [with_info k_infos set_infos].
  rewrite lookup_insert_eq. eapply runs_bind; [done|]. eapply runs_bind; [done|].
  eapply runs_eq; [eapply runs_bind; apply runs_modify|].
  apply kstate_eq; try reflexivity. cbn -[delete insert]. rewrite Hi. cbn -[delete insert].
  apply delete_insert_eq.
Qed.

(** A file for a device that another process holds is refused with [-EBUSY];
the holder's device, every allocation and every other process's info are left
exactly as they were. *)
Lemma borph_load_hw_busy t bprm h p ht o d s hbuf heap ibuf :
  header_at bprm h -> placeable s h p ht o d -> 1 <= ph_count d < 2 ^ 31 - 1 ->
  k_alloc s = [] -> zlen hbuf = sizeof_hwrhdr ->
  runs (borph_load_hw ops_at t bprm hbuf heap ibuf) s (- EBUSY)
    (set_infos (delete t (k_infos s)) s).
Proof.
  intros Hh Hp Hc Ha Hb.
  assert (placeable (with_info t s) h p ht o d) as Hp1 by exact Hp.
  destruct (runs_place_busy _ _ _ _ _ _ Hp1 Hc) as [a Hpl].
  eapply runs_eq; [eapply (load_hw_early t bprm h (- EBUSY) s (with_info t s)); try done|].
  - unfold load_region. fold (place h). eapply runs_bind; [exact Hpl|]. done.
  - apply kstate_eq; try reflexivity. cbn. lia.
Qed.

(** A region with symbols and an empty string table is refused with
[-ENOEXEC], but the device it was given stays reserved in the name of the task:
nothing records the reservation, so nothing will ever release it, and every
later load finds the device busy. *)
Lemma borph_load_hw_leaks_device t bprm h p ht o d s hbuf heap ibuf :
  header_at bprm h -> placeable s h p ht o d -> ph_count d = -1 ->
  u32 (pl_off h - strtab_off h) = 0 -> 0 < nr_symbol h ->
  k_alloc s = [] -> zlen hbuf = sizeof_hwrhdr ->
  runs (borph_load_hw ops_at t bprm hbuf heap ibuf) s (- ENOEXEC)
    (set_infos (delete t (k_infos s))
      (dev_upd (class (target h)) (addr (target h)) (owned t d) s)).
Proof.
  intros Hh Hp Hc Hst Hns Ha Hb.
  assert (placeable (with_info t s) h p ht o d) as Hp1 by exact Hp.
  pose proof (runs_place _ _ _ _ _ _ Hp1 Hc) as Hpl. destruct Hp1 as [Hs1 _].
  pose proof (served_dev_upd ops_at _ _ p ht o d (ph_set_count 1 d) Hs1)
    as (_ & _ & _ & _ & _ & Hv).
  eapply runs_eq; [eapply (load_hw_early t bprm h (- ENOEXEC) s
    (dev_upd (class (target h)) (addr (target h)) (owned t d) (with_info t s))); try done|].
  - unfold load_region. fold (place h). eapply runs_bind; [exact Hpl|].
    eapply runs_bind; [by eapply runs_phy_update|]. rewrite Hst, dev_upd_upd.
    unfold truthy. by rewrite (proj2 (Z.eqb_neq (nr_symbol h) 0)) by lia.
  - apply kstate_eq; try reflexivity. cbn. lia.
Qed.
End load.
