(* ===== verification/Exec.v ===== *)
(** * Executing a BOF file: [src/borph/fs/binfmt_bof.c] and the daemon loop of
      [src/borph/kernel/bkexecd.c]

[load_bof_binary] checks the header, queues the file for the daemon, sleeps
until the daemon has configured the hardware, and hands the embedded ELF image
to the other binary formats.  The second half models the hand-over between the
two threads as a step relation. *)
From stdpp Require Import base list gmap strings.
From S2P Require Import Prelude Bof Hwr Driver Bkexecd.
From Stdlib Require Import ZArith Lia.

(** ** Copying the argument strings: [get_args]

[mem] is the memory of the new process at the argument area.  The inner loop
copies up to [n] bytes of a page, the outer one goes from page to page. *)
Fixpoint copy_page (mem : Z -> Z) (n : nat) (p argc : Z) (acc : list Z) : list Z * Z * Z :=
  match n with
  | O => (acc, p, argc)
  | S n =>
      if argc =? 0 then (acc, p, argc)
      else
        let c := mem p in
        copy_page mem n (p + 1) (if c =? 0 then argc - 1 else argc) (acc ++ [c])
  end.

Fixpoint get_args_loop (fuel : nat) (mem : Z -> Z) (size p argc : Z) (acc : list Z) :
  res (list Z) :=
  if (argc =? 0) || (size <=? zlen acc) then Ok acc
  else match fuel with
  | O => Fault OutOfFuel
  | S fuel =>
      let len := PAGE_SIZE - p mod PAGE_SIZE in
      let len := if size <? zlen acc + len then size - zlen acc else len in
      let '(acc, p, argc) := copy_page mem (Z.to_nat len) p argc acc in
      get_args_loop fuel mem size p argc acc
  end.

(** The bytes written to the buffer; its length is the value returned. *)
Definition get_args (mem : Z -> Z) (p argc size : Z) : res (list Z) :=
  get_args_loop (Z.to_nat size) mem size p argc [].

(** The same without pages: the bytes at [p], up to and including the [argc]-th
NUL, at most [n] of them. *)
Fixpoint arg_bytes (mem : Z -> Z) (n : nat) (p argc : Z) : list Z :=
  match n with
  | O => []
  | S n =>
      if argc =? 0 then []
      else mem p :: arg_bytes mem n (p + 1) (if mem p =? 0 then argc - 1 else argc)
  end.

(** ** Bytes in the middle of a buffer *)
Definition patch (off : Z) (new l : list Z) : list Z :=
  take (Z.to_nat off) l ++ new ++ drop (Z.to_nat (off + zlen new)) l.

(** [bhdr->load_err = e] in the binprm buffer. *)
Definition set_load_err (e : Z) (bp : linux_binprm) : linux_binprm :=
  Binprm (patch 36 (le_bytes 4 (u32 e)) (bp_buf bp)) (bp_file bp).

(** ** State of the loader's threads

The queue holds the binprm's address and the task of each item; [x_woken] the
tasks the daemon has woken, newest first. *)
Record xstate (D : Type) : Type := XState {
  x_k : kstate D;
  x_queue : list (Z * Z);
  x_bprm : gmap Z linux_binprm;
  x_woken : list Z
}.
Arguments XState {D} _ _ _ _.
Arguments x_k {D} _.
Arguments x_queue {D} _.
Arguments x_bprm {D} _.
Arguments x_woken {D} _.

Section exec.
Context {D : Type} (ops_at : Z -> hwr_operations D).
(** What is on the daemon's stack and in fresh heap memory. *)
Context (hbuf heap ibuf : list Z).
(** The rest of the kernel's binary formats. *)
Context (search_binary_handler : linux_binprm -> Z).
Abbreviation X := (M (xstate D)).

Definition on_kernel {A} (m : M (kstate D) A) : X A := fun x =>
  match m (x_k x) with
  | Ok (a, k) => Ok (a, XState k (x_queue x) (x_bprm x) (x_woken x))
  | Fault f => Fault f
  end.

Definition bprm_load (p : Z) : X linux_binprm :=
  let! b := mgets (fun x => x_bprm x !! p) in deref b.
Definition bprm_store (p : Z) (b : linux_binprm) : X unit :=
  mmodify (fun x => XState (x_k x) (x_queue x) (<[p := b]> (x_bprm x)) (x_woken x)).

(** One round of [run_execq]: the first item is unlinked, loaded, its result
stored, its task woken and the item freed. *)
Definition execq_round (p t : Z) : X unit :=
  do! mmodify (fun x => XState (x_k x) (tail (x_queue x)) (x_bprm x) (x_woken x)) in
  let! b := bprm_load p in
  let! retval := on_kernel (borph_load_hw ops_at t b hbuf heap ibuf) in
  let! b := bprm_load p in
  do! bprm_store p (set_load_err retval b) in
  do! mmodify (fun x => XState (x_k x) (x_queue x) (x_bprm x) (t :: x_woken x)) in
  on_kernel kfree.

Fixpoint run_execq (n : nat) : X unit :=
  match n with
  | O => mret tt
  | S n =>
      let! q := mgets x_queue in
      match q with
      | [] => mret tt
      | (p, t) :: _ => do! execq_round p t in run_execq n
      end
  end.

Definition bof_has_fpga (h : bofhdr) : bool := 0 <? b_numchip h.

Definition bof_magic (h : bofhdr) : bool :=
  bool_decide (take 4 (ident h) = [0x19; 66; 79; 70]).

(** The daemon's run while the caller sleeps; without a wake-up the caller
sleeps on. *)
Definition sleep_till_loaded (t : Z) : X unit :=
  let! q := mgets x_queue in
  do! run_execq (length q) in
  let! w := mgets x_woken in
  if bool_decide (t ∈ w) then mret tt else mfault Blocked.

Definition load_bof_binary (t p : Z) : X Z :=
  let! b := bprm_load p in
  let h := dec_bofhdr (bp_buf b) in
  if negb (bof_magic h) then mret (- ENOEXEC)
  else if negb (b_machine h =? BM_RHINO) || negb (b_elfmachine h =? EM_ARM)
  then mret (- ENOEXEC)
  else if negb (b_version h =? 6) then mret (- ENOEXEC)
  else
    do! (if bof_has_fpga h then
           let! ok := on_kernel kmalloc in
           if negb ok then mfault NullDeref
           else
             do! mmodify (fun x =>
               XState (x_k x) (x_queue x ++ [(p, t)]) (x_bprm x) (x_woken x)) in
             sleep_till_loaded t
         else mret tt) in
    let! b := bprm_load p in
    if truthy (load_err (dec_bofhdr (bp_buf b))) then mret (load_err (dec_bofhdr (bp_buf b)))
    else
      let '(retval, d) := kernel_read (bp_file b) (b_elfoff h) BINPRM_BUF_SIZE in
      if retval <? 0 then mret (- ENOEXEC)
      else
        let b := Binprm (overlay d (bp_buf b)) (bp_file b) in
        do! bprm_store p b in
        mret (search_binary_handler b).
End exec.

(** ** Argument copying is independent of the pages *)
Lemma arg_bytes_none mem n p : arg_bytes mem n p 0 = [].
Proof. by destruct n. Qed.

(** The number of NULs still wanted after [n] bytes. *)
Fixpoint args_left (mem : Z -> Z) (n : nat) (p argc : Z) : Z :=
  match n with
  | O => argc
  | S n => if argc =? 0 then 0
           else args_left mem n (p + 1) (if mem p =? 0 then argc - 1 else argc)
  end.

Lemma copy_page_spec mem n p argc acc :
  copy_page mem n p argc acc
  = (acc ++ arg_bytes mem n p argc, p + zlen (arg_bytes mem n p argc), args_left mem n p argc).
Proof.
  revert p argc acc. induction n as [|n IH]; intros p argc acc; cbn.
  - by rewrite app_nil_r, Z.add_0_r.
  - destruct (Z.eqb_spec argc 0) as [->|]; [by rewrite app_nil_r, Z.add_0_r|].
    rewrite IH, zlen_cons, <- app_assoc. cbn. do 2 f_equal. lia.
Qed.

Lemma arg_bytes_split mem n m p argc :
  arg_bytes mem (n + m) p argc
  = arg_bytes mem n p argc
    ++ arg_bytes mem m (p + zlen (arg_bytes mem n p argc)) (args_left mem n p argc).
Proof.
  revert p argc. induction n as [|n IH]; intros p argc; cbn.
  - by rewrite Z.add_0_r.
  - destruct (Z.eqb_spec argc 0) as [->|]; [by rewrite arg_bytes_none|].
    rewrite IH, zlen_cons. cbn. do 3 f_equal. lia.
Qed.

Lemma arg_bytes_length mem n p argc : (length (arg_bytes mem n p argc) <= n)%nat.
Proof.
  revert p argc. induction n as [|n IH]; intros p argc; cbn; [lia|].
  destruct (argc =? 0); cbn; [lia|]. specialize (IH (p + 1) (if mem p =? 0 then argc - 1 else argc)).
  lia.
Qed.

(** A short copy means that every string has been seen. *)
Lemma arg_bytes_short mem n p argc :
  (length (arg_bytes mem n p argc) < n)%nat -> args_left mem n p argc = 0.
Proof.
  revert p argc. induction n as [|n IH]; intros p argc; cbn; [lia|].
  destruct (argc =? 0); cbn; [done|]. intros H. apply IH. lia.
Qed.

Lemma get_args_loop_spec fuel mem size p argc acc :
  size - zlen acc <= Z.of_nat fuel ->
  get_args_loop fuel mem size p argc acc
  = Ok (acc ++ arg_bytes mem (Z.to_nat (size - zlen acc)) p argc).
Proof.
  revert p argc acc. induction fuel as [|fuel IH]; intros p argc acc Hf; cbn [get_args_loop];
    (destruct (Z.eqb_spec argc 0) as [->|Ha]; cbn [orb];
       [by rewrite arg_bytes_none, app_nil_r|]);
    (destruct (Z.leb_spec size (zlen acc)) as [Hs|Hs];
       [by replace (Z.to_nat (size - zlen acc)) with 0%nat by lia; cbn; rewrite app_nil_r|]);
    [lia|].
  pose proof (Z.mod_pos_bound p PAGE_SIZE (ltac:(done))) as Hm.
  set (len := if size <? zlen acc + (PAGE_SIZE - p mod PAGE_SIZE) then size - zlen acc
              else PAGE_SIZE - p mod PAGE_SIZE).
  assert (0 < len <= size - zlen acc) as Hlen
    by (unfold len; destruct (Z.ltb_spec size (zlen acc + (PAGE_SIZE - p mod PAGE_SIZE))); lia).
  rewrite copy_page_spec. set (n := Z.to_nat len). set (bs := arg_bytes mem n p argc).
  assert (1 <= zlen bs <= len) as Hbs.
  { pose proof (arg_bytes_length mem n p argc) as Hl. fold bs in Hl. unfold zlen. split; [|lia].
    unfold bs. destruct n as [|n'] eqn:En; [lia|]. cbn. destruct (Z.eqb_spec argc 0); [done|].
    cbn. lia. }
  rewrite IH by (rewrite zlen_app; lia). rewrite <- app_assoc, zlen_app. do 2 f_equal.
  replace (Z.to_nat (size - zlen acc)) with (n + Z.to_nat (size - zlen acc - len))%nat by lia.
  rewrite arg_bytes_split. fold bs. f_equal.
  destruct (decide (zlen bs = len)) as [E|E].
  - f_equal. lia.
  - assert (args_left mem n p argc = 0) as ->
      by (apply arg_bytes_short; fold bs; unfold zlen in *; lia).
    by rewrite !arg_bytes_none.
Qed.


(** ** The binary format handler *)
Lemma field_patch off n v l :
  0 <= off -> off + Z.of_nat n <= zlen l -> 0 <= v < 2 ^ (8 * Z.of_nat n) ->
  field off (Z.of_nat n) (patch off (le_bytes n v) l) = v.
Proof.
  intros Ho Hl Hv. unfold field, patch.
  rewrite (slice_exact (take (Z.to_nat off) l) (le_bytes n v)).
  - by apply le_val_bytes_id.
  - unfold zlen in *. rewrite length_take. lia.
  - by rewrite zlen_le_bytes.
Qed.

Lemma s32_u32 e : - 2 ^ 31 <= e < 2 ^ 31 -> s32 (u32 e) = e.
Proof.
  intros He. unfold wraps, wrapu. rewrite Z.mod_mod by lia. change (wraps 32 e = e).
  apply wraps_small; lia.
Qed.

Lemma load_err_set e bp :
  - 2 ^ 31 <= e < 2 ^ 31 -> sizeof_bofhdr <= zlen (bp_buf bp) ->
  load_err (dec_bofhdr (bp_buf (set_load_err e bp))) = e.
Proof.
  intros He Hl. unfold sizeof_bofhdr in Hl. cbn [load_err dec_bofhdr set_load_err bp_buf].
  rewrite (field_patch 36 4) by (try apply wrapu_range; lia). by apply s32_u32.
Qed.

Section exec_theorems.
Context {D : Type} (ops_at : Z -> hwr_operations D) (hbuf heap ibuf : list Z).
Context (search_binary_handler : linux_binprm -> Z).
Abbreviation load_bof := (load_bof_binary ops_at hbuf heap ibuf search_binary_handler).
Implicit Type x : xstate D.

(** A header this kernel runs. *)
Definition accepted (h : bofhdr) : bool :=
  bof_magic h && (b_machine h =? BM_RHINO) && (b_elfmachine h =? EM_ARM) && (b_version h =? 6).

(** A file whose magic, machine, ELF machine or version is not the one this
kernel runs is refused with [-ENOEXEC] and nothing at all happens, so that the
other binary formats can be tried. *)
Lemma load_bof_binary_refuses t p b x :
  x_bprm x !! p = Some b -> accepted (dec_bofhdr (bp_buf b)) = false ->
  load_bof t p x = Ok (- ENOEXEC, x).
Proof.
  intros Hp Ha. unfold load_bof_binary, bprm_load, mbind, mgets. rewrite Hp. cbn [deref].
  unfold mret. unfold accepted in Ha. set (h := dec_bofhdr (bp_buf b)) in *.
  destruct (bof_magic h), (b_machine h =? BM_RHINO), (b_elfmachine h =? EM_ARM),
    (b_version h =? 6); cbn in *; done.
Qed.

(** The state after the daemon has served the caller's item. *)
Definition after_load (t p e : Z) (b : linux_binprm) (k : kstate D) x : xstate D :=
  XState (set_live (k_live k - 1) k) [] (<[p := set_load_err e b]> (x_bprm x)) (t :: x_woken x).

(** Executing an accepted BOF file with hardware, with nobody else waiting for the
daemon: the daemon serves the caller's item and frees it, and the caller goes on
with its result. *)
Lemma load_bof_run t p b x e k :
  x_bprm x !! p = Some b -> accepted (dec_bofhdr (bp_buf b)) = true ->
  0 < b_numchip (dec_bofhdr (bp_buf b)) -> sizeof_bofhdr <= zlen (bp_buf b) ->
  x_queue x = [] -> k_alloc (x_k x) = [] ->
  runs (borph_load_hw ops_at t b hbuf heap ibuf) (set_live (k_live (x_k x) + 1) (x_k x)) e k ->
  - 2 ^ 31 <= e < 2 ^ 31 ->
  load_bof t p x
  = if e =? 0 then
      let '(n, elf) := kernel_read (bp_file b) (b_elfoff (dec_bofhdr (bp_buf b)))
                         BINPRM_BUF_SIZE in
      let b' := Binprm (overlay elf (bp_buf (set_load_err e b))) (bp_file b) in
      if n <? 0 then Ok (- ENOEXEC, after_load t p e b k x)
      else Ok (search_binary_handler b',
               XState (set_live (k_live k - 1) k) [] (<[p := b']> (x_bprm x)) (t :: x_woken x))
    else Ok (e, after_load t p e b k x).
Proof.
  intros Hp Ha Hn Hl Hq Hal Hrun He.
  unfold load_bof_binary. unfold mbind at 1, bprm_load at 1, mbind at 1, mgets at 1.
  rewrite Hp. cbn [deref]. unfold mret at 1. set (h := dec_bofhdr (bp_buf b)) in *.
  unfold accepted in Ha. apply andb_true_iff in Ha as [[[-> ->]%andb_true_iff ->]%andb_true_iff ->].
  cbn [negb orb]. unfold bof_has_fpga. rewrite (proj2 (Z.ltb_lt _ _)) by lia.
  assert ((let! ok := on_kernel kmalloc in
           if negb ok then mfault NullDeref
           else do! mmodify (fun x =>
                  XState (x_k x) (x_queue x ++ [(p, t)]) (x_bprm x) (x_woken x)) in
                sleep_till_loaded ops_at hbuf heap ibuf t) x
          = Ok (tt, after_load t p e b k x)) as E.
  { unfold mbind at 1, on_kernel at 1. rewrite (runs_kmalloc _ Hal). cbn [negb].
    unfold mbind at 1, mmodify at 1, sleep_till_loaded. cbn [x_queue x_k x_bprm x_woken].
    rewrite Hq. cbn [app]. unfold mbind at 1, mgets at 1. cbn [length x_queue run_execq].
    unfold execq_round, bprm_load, bprm_store, on_kernel, mbind, mgets, mmodify.
    cbn [x_queue x_k x_bprm x_woken tail].
    rewrite Hp. cbn [deref]. unfold mret. cbn [x_queue x_k x_bprm x_woken].
    rewrite Hrun. cbn [x_queue x_k x_bprm x_woken]. rewrite Hp. cbn.
    by rewrite bool_decide_eq_true_2 by set_solver. }
  unfold mbind at 1. rewrite E. unfold mbind at 1, bprm_load, mbind at 1, mgets.
  cbn [after_load x_bprm]. rewrite lookup_insert_eq. cbn [deref]. unfold mret at 1.
  rewrite load_err_set by done. unfold truthy.
  destruct (Z.eqb_spec e 0) as [->|]; cbn [negb]; [|done].
  cbn [set_load_err bp_file]. destruct (kernel_read _ _ _) as [n elf].
  destruct (n <? 0); [done|]. unfold mbind, bprm_store, mmodify, mret, after_load.
  cbn [x_k x_queue x_bprm x_woken]. by rewrite insert_insert_eq.
Qed.

(** When the daemon cannot configure the hardware of an accepted BOF file, the
error it got travels back through the binprm buffer and is what the executing
process gets: the program is not started, the queue item is freed, and the
caller has been woken. *)
Lemma load_bof_binary_reports t p b x e k :
  x_bprm x !! p = Some b -> accepted (dec_bofhdr (bp_buf b)) = true ->
  0 < b_numchip (dec_bofhdr (bp_buf b)) -> sizeof_bofhdr <= zlen (bp_buf b) ->
  x_queue x = [] -> k_alloc (x_k x) = [] ->
  runs (borph_load_hw ops_at t b hbuf heap ibuf) (set_live (k_live (x_k x) + 1) (x_k x)) e k ->
  - 2 ^ 31 <= e < 0 ->
  load_bof t p x = Ok (e, after_load t p e b k x).
Proof.
  intros Hp Ha Hn Hl Hq Hal Hr He. rewrite (load_bof_run t p b x e k) by (done || lia).
  by rewrite (proj2 (Z.eqb_neq e 0)) by lia.
Qed.
End exec_theorems.

(** ** The hand-over between the executing thread and the daemon

One executing thread and the daemon, each at a point of its code, with their
task states; [h_item] is the queued item, [h_onq] whether the daemon is on the
wait queue [more_exec], [h_loaded] whether [borph_load_hw] has returned. *)
Inductive exec_pc : Type :=
| EQueue      (* list_add_tail *)
| EWakeUp     (* wake_up(&more_exec) *)
| ESetState   (* set_current_state(TASK_INTERRUPTIBLE) *)
| ESchedule   (* schedule() *)
| EResumed.   (* behind schedule() *)

Inductive daemon_pc : Type :=
| DSetState   (* set_current_state(TASK_INTERRUPTIBLE) *)
| DAddWait    (* add_wait_queue *)
| DTest       (* list_empty, first test *)
| DSchedule   (* schedule() *)
| DAwake      (* __set_current_state(TASK_RUNNING); remove_wait_queue *)
| DTest2      (* list_empty, second test and the loop of run_execq *)
| DLoad       (* borph_load_hw *)
| DWake.      (* wake_up_process *)

Inductive task_state : Type := TRunning | TInterruptible.

Record handover : Type := Handover {
  h_exec : exec_pc;
  h_est : task_state;
  h_daemon : daemon_pc;
  h_dst : task_state;
  h_onq : bool;
  h_item : bool;
  h_loaded : bool
}.

Inductive hand_step : handover -> handover -> Prop :=
| HQueue es d ds q i l :
    hand_step (Handover EQueue es d ds q i l) (Handover EWakeUp es d ds q true l)
| HWakeUp es d ds q i l :
    hand_step (Handover EWakeUp es d ds q i l)
      (Handover ESetState es d (if q then TRunning else ds) q i l)
| HSetState es d ds q i l :
    hand_step (Handover ESetState es d ds q i l) (Handover ESchedule TInterruptible d ds q i l)
| HResume d ds q i l :
    hand_step (Handover ESchedule TRunning d ds q i l) (Handover EResumed TRunning d ds q i l)
| DSet e es ds q i l :
    hand_step (Handover e es DSetState ds q i l) (Handover e es DAddWait TInterruptible q i l)
| DAdd e es ds q i l :
    hand_step (Handover e es DAddWait ds q i l) (Handover e es DTest ds true i l)
| DEmpty e es ds q l :
    hand_step (Handover e es DTest ds q false l) (Handover e es DSchedule ds q false l)
| DWork e es ds q l :
    hand_step (Handover e es DTest ds q true l) (Handover e es DAwake ds q true l)
| DResume e es q i l :
    hand_step (Handover e es DSchedule TRunning q i l) (Handover e es DAwake TRunning q i l)
| DUp e es ds q i l :
    hand_step (Handover e es DAwake ds q i l) (Handover e es DTest2 TRunning false i l)
| DNothing e es ds q l :
    hand_step (Handover e es DTest2 ds q false l) (Handover e es DSetState ds q false l)
| DTake e es ds q l :
    hand_step (Handover e es DTest2 ds q true l) (Handover e es DLoad ds q false l)
| DLoaded e es ds q i l :
    hand_step (Handover e es DLoad ds q i l) (Handover e es DWake ds q i true)
| DWakes e es ds q i l :
    hand_step (Handover e es DWake ds q i l) (Handover e TRunning DTest2 ds q i l).

(** The daemon waits for work, the thread is about to queue its item. *)
Definition hand_init : handover := Handover EQueue TRunning DSchedule TInterruptible true false false.

Definition hand_reachable (h : handover) : Prop := rtc hand_step hand_init h.

(** Nobody can move. *)
Definition hand_stuck (h : handover) : Prop := forall h', ~ hand_step h h'.

(** The invariant: a queued item that the daemon has not taken is known to a
daemon that is awake or will be woken, and nobody is told "loaded" early. *)
Definition hand_ok (h : handover) : bool :=
  match h with
  | Handover e es d ds q i l =>
      (* the daemon's own state *)
      match d with
      | DSetState => negb q
      | DAddWait => negb q && match ds with TInterruptible => true | _ => false end
      | DTest | DSchedule => q
      | DAwake => true
      | DTest2 | DLoad | DWake => negb q && match ds with TRunning => true | _ => false end
      end
      && (* the thread's progress against the daemon's *)
      match e with
      | EQueue => negb i && negb l && match es with TRunning => true | _ => false end
                  && match d with DLoad | DWake => false | _ => true end
      | EWakeUp | ESetState | ESchedule | EResumed =>
          (i && negb l && match d with DLoad | DWake => false | _ => true end)
          || (negb i && negb l && match d with DLoad => true | _ => false end)
          || (negb i && l && match d with DLoad => false | _ => true end)
      end
      && match e, d, ds with
         | (ESetState | ESchedule | EResumed), DSchedule, TInterruptible => negb i
         | _, _, _ => true
         end
      && match e, es with
         | ESchedule, TRunning => l
         | EResumed, _ => l
         | _, _ => true
         end
  end.

Lemma hand_ok_step h h' : hand_step h h' -> hand_ok h = true -> hand_ok h' = true.
Proof.
  destruct 1; repeat match goal with
  | x : exec_pc |- _ => destruct x
  | x : daemon_pc |- _ => destruct x
  | x : task_state |- _ => destruct x
  | x : bool |- _ => destruct x
  end; cbn; congruence.
Qed.

Lemma hand_ok_reachable h : hand_reachable h -> hand_ok h = true.
Proof.
  unfold hand_reachable. assert (hand_ok hand_init = true) as H0 by done. revert H0.
  generalize hand_init. intros h0 H0 Hr. revert H0.
  induction Hr as [|x y z Hs _ IH]; [done|]. intros Hx. by eapply IH, hand_ok_step.
Qed.


(** C14. As long as the hardware is not loaded, somebody can move: an item that has
been queued is never forgotten by the daemon. *)
Theorem handover_progress h :
  hand_reachable h -> h_loaded h = false -> exists h', hand_step h h'.
Proof.
  intros Hr Hl. pose proof (hand_ok_reachable h Hr) as Ho. destruct h as [e es d ds q i l].
  cbn in Hl. subst l.
  destruct d; [eexists; apply DSet | eexists; apply DAdd
    | destruct i; eexists; [apply DWork | apply DEmpty] | | eexists; apply DUp
    | destruct i; eexists; [apply DTake | apply DNothing] | eexists; apply DLoaded
    | eexists; apply DWakes].
  destruct ds; [eexists; apply DResume|].
  destruct e; [eexists; apply HQueue | eexists; apply HWakeUp | eexists; apply HSetState | |];
    destruct es, q, i; cbn in Ho; congruence.
Qed.

(** The wake-up can be lost: when the daemon finishes before the executing
thread has set its state, the thread goes to sleep after its only wake-up.  The
hardware is loaded, both threads sleep, and nobody can ever move again. *)
Theorem handover_lost_wakeup :
  exists h, hand_reachable h /\ h_loaded h = true /\ h_exec h = ESchedule /\ hand_stuck h.
Proof.
  exists (Handover ESchedule TInterruptible DSchedule TInterruptible true false true).
  split; [|split; [done|split; [done|]]].
  - unfold hand_reachable, hand_init.
    eapply rtc_l; [apply HQueue|]. eapply rtc_l; [apply HWakeUp|].
    eapply rtc_l; [apply DResume|]. eapply rtc_l; [apply DUp|]. eapply rtc_l; [apply DTake|].
    eapply rtc_l; [apply DLoaded|]. eapply rtc_l; [apply DWakes|].
    eapply rtc_l; [apply DNothing|]. eapply rtc_l; [apply DSet|]. eapply rtc_l; [apply DAdd|].
    eapply rtc_l; [apply DEmpty|]. eapply rtc_l; [apply HSetState|]. apply rtc_refl.
  - intros h' Hs. inversion Hs.
Qed.
