(* ===== verification/ProcBorph.v ===== *)
(** * The register files: [src/borph/fs/proc/proc_borph.c]

[/proc/<pid>/hw]: the register files of a hardware process in raw and ASCII
mode, their directory, and the status, mode and region files. *)
From stdpp Require Import base list gmap strings.
From S2P Require Import Prelude Bof Hwr Driver Bkexecd.
From Stdlib Require Import ZArith Lia.

(** ** Number formats *)
Definition hex_digit (m : Z) : Z := if 10 <=? m then m + 55 else m + 48.

(** The [do] loop of [to_ascii]: [cbuf] is the text behind position [j], built
from the low digit on; at most 8 rounds as [val] has 32 bits. *)
Fixpoint ascii_loop (n : nat) (val : Z) (cbuf : list Z) : list Z :=
  match n with
  | O => cbuf
  | S n =>
      let cbuf := hex_digit (Z.land val 15) :: cbuf in
      let val := Z.shiftr val 4 in
      if truthy val then ascii_loop n val cbuf else cbuf
  end.

(** The value returned and the first 9 bytes of the buffer. *)
Definition to_ascii (buf : list Z) (length_ : Z) : Z * list Z :=
  if negb (length_ =? 4) then (- EINVAL, take 9 buf)
  else
    let digits := ascii_loop 8 (field 0 4 buf) [] in
    (9, replicate (8 - length digits) 48 ++ digits ++ [10]).

Definition is_digit (c : Z) : bool := (48 <=? c) && (c <=? 57).

(** One character of each base; [None] is the [goto out] of the binary loop. *)
Definition hex_char (num c : Z) : Z :=
  if c =? 10 then num
  else
    let num := s32 (num * 16) in
    if (97 <=? c) && (c <=? 102) then s32 (num + (c - 97))
    else if (65 <=? c) && (c <=? 70) then s32 (num + (c - 65))
    else if is_digit c then s32 (num + (c - 48))
    else num.

Definition bin_char (num c : Z) : option Z :=
  if c =? 10 then Some num
  else if (48 <=? c) && (c <=? 49) then Some (s32 (s32 (num * 2) + (c - 48)))
  else None.

Definition dec_char (num c : Z) : Z :=
  if is_digit c then s32 (s32 (num * 10) + (c - 48)) else num.

(** [cnt] characters of [buf] from index [i] on; the loops read them whether or
not they were supplied, and beyond the buffer they fault. *)
Fixpoint hex_loop (buf : list Z) (n : nat) (i : nat) (num : Z) : res Z :=
  match n with
  | O => Ok num
  | S n => match buf !! i with
           | None => Fault OutOfBounds
           | Some c => hex_loop buf n (S i) (hex_char num c)
           end
  end.

Fixpoint bin_loop (buf : list Z) (n : nat) (i : nat) (num : Z) : res Z :=
  match n with
  | O => Ok num
  | S n => match buf !! i with
           | None => Fault OutOfBounds
           | Some c => match bin_char num c with
                       | None => Ok (- EINVAL)
                       | Some num => bin_loop buf n (S i) num
                       end
           end
  end.

Fixpoint dec_loop (buf : list Z) (n : nat) (i : nat) (num : Z) : res Z :=
  match n with
  | O => Ok num
  | S n => match buf !! i with
           | None => Fault OutOfBounds
           | Some c => dec_loop buf n (S i) (dec_char num c)
           end
  end.

Definition convert_input (buf : list Z) (cnt : Z) : res Z :=
  match buf with
  | [] => Fault OutOfBounds
  | c :: _ =>
      if c =? 120 then
        if cnt <? 2 then Ok (- EINVAL) else hex_loop buf (Z.to_nat cnt) 1 0
      else if c =? 98 then
        if cnt <? 2 then Ok (- EINVAL) else bin_loop buf (Z.to_nat cnt) 1 0
      else dec_loop buf (Z.to_nat cnt) 0 0
  end.

Definition NUMTMPBUF : Z := 12.

(** ** State: the kernel and the usage counts of the live tasks *)
Record pstate (D : Type) : Type := PState {
  p_k : kstate D;
  p_use : gmap Z Z
}.
Arguments PState {D} _ _.
Arguments p_k {D} _.
Arguments p_use {D} _.

(** An open register file: [PROC_I(inode)->data], the task of the inode, the
position, and whether the call works on the file's own position. *)
Record reg_file : Type := RegFile {
  rf_reg : option borph_ioreg;
  rf_task : Z;
  rf_pos : Z;
  rf_own : bool
}.

Definition is_pipe (reg : borph_ioreg) : bool := truthy (Z.land (io_mode reg) IORM_PIPE).

(** [offsetof(struct hwr_iobuf, data)] on the 32-bit kernel. *)
Definition IOBUF_HDR : Z := 12.

Section proc.
Context {D : Type} (ops_at : Z -> hwr_operations D).
(** What is on the stack in [tmpbuf]. *)
Context (stack : list Z).
Abbreviation P := (M (pstate D)).

Definition on_k {A} (m : M (kstate D) A) : P A := fun x =>
  match m (p_k x) with
  | Ok (a, k) => Ok (a, PState k (p_use x))
  | Fault f => Fault f
  end.

(** [get_proc_task] takes a reference to the task if it still exists. *)
Definition get_proc_task (t : Z) : P bool :=
  let! n := mgets (fun x => p_use x !! t) in
  match n with
  | None => mret false
  | Some n => do! mmodify (fun x => PState (p_k x) (<[t := n + 1]> (p_use x))) in mret true
  end.

Definition put_task_struct (t : Z) : P unit :=
  mmodify (fun x => PState (p_k x) (alter (fun n => n - 1) t (p_use x))).

Definition borph_info_of (t : Z) : P (option borph_info) :=
  mgets (fun x => k_infos (p_k x) !! t).

(** ** Reading a register *)

(** From [get_iobuf] to [put_iobuf]: the return value, the bytes copied to the
user, and the new position. *)
Definition read_iobuf (ops : hwr_operations D) (reg : borph_ioreg) (mode fcount pos : Z) :
  P (Z * list Z * Z) :=
  match op_get_iobuf ops, op_recv_iobuf ops, op_put_iobuf ops with
  | Some get_iobuf, Some recv_iobuf, Some put_iobuf =>
      let! io := on_k get_iobuf in
      match io with
      | None => mret (0, [], pos)
      | Some io =>
          let! b := on_k (iobuf_load io) in
          do! on_k (iobuf_store io (HwrIobuf (io_loc reg) (u32 pos)
            (if truthy mode then fcount else Z.shiftr fcount 1) (io_data b))) in
          let! retval := on_k (recv_iobuf io) in
          let! r :=
            (if retval <? 0 then mret (retval, [], pos)
             else
               let! b := on_k (iobuf_load io) in
               let! (retval, data) :=
                 (if mode =? 0 then
                    let '(r, text) := to_ascii (io_data b) retval in
                    let data := overlay text (io_data b) in
                    do! on_k (iobuf_store io
                      (HwrIobuf (io_location b) (io_offset b) (io_size b) data)) in
                    mret (r, data)
                  else mret (retval, io_data b)) in
               if retval <? 0 then mret (retval, [], pos)
               else mret (retval, slice 0 retval data, if is_pipe reg then 0 else pos + retval)) in
          let! _ := on_k (put_iobuf io) in
          mret r
      end
  | _, _, _ => mret (0, [], pos)
  end.

(** The cap to one buffer, and the operations table. *)
Definition read_capped (reg : borph_ioreg) (mode fcount pos : Z) : P (Z * list Z * Z) :=
  let fcount := if PAGE_SIZE - IOBUF_HDR <? fcount then PAGE_SIZE - IOBUF_HDR else fcount in
  let! hwrops := on_k (get_hwrops (io_hwraddr reg)) in
  match hwrops with
  | None => mret (0, [], pos)
  | Some o =>
      let! r := read_iobuf (ops_at o) reg mode fcount pos in
      do! on_k (put_hwrops (io_hwraddr reg)) in
      mret r
  end.

Definition ioreg_reg_read (rf : reg_file) (fcount : Z) : P (Z * list Z * Z) :=
  let pos := rf_pos rf in
  match rf_reg rf with
  | None => mret (0, [], pos)
  | Some reg =>
      if is_pipe reg && negb (rf_own rf) then mret (- ESPIPE, [], pos)
      else
        let! task := get_proc_task (rf_task rf) in
        if negb task then mret (0, [], pos)
        else
          let! bi := borph_info_of (rf_task rf) in
          let! r :=
            match bi with
            | None => mret (0, [], pos)
            | Some bi =>
                let regblen := if bi_ioreg_mode bi =? 0 then s32 (io_len reg * 2)
                               else s32 (io_len reg) in
                if regblen <? pos + fcount then
                  if regblen <=? pos then mret (0, [], pos)
                  else read_capped reg (bi_ioreg_mode bi) (u32 (regblen - pos)) pos
                else read_capped reg (bi_ioreg_mode bi) fcount pos
            end in
          do! put_task_struct (rf_task rf) in
          mret r
  end.

(** ** Writing a register

[ubuf] is what the user's buffer holds: [copy_from_user] fails when it is asked
for more. *)
Definition copy_from_user (ubuf : list Z) (n : Z) : option (list Z) :=
  if (0 <=? n) && (n <=? zlen ubuf) then Some (slice 0 n ubuf) else None.

(** A buffer pointer, or [ERR_PTR(e)]. *)
Definition cp_result : Type := Z + Z.

Definition ioreg_reg_cp_udata_ascii (ubuf : list Z) (fcount pos : Z)
    (get_iobuf : M (kstate D) (option Z)) : P cp_result :=
  if negb (pos =? 0) then mret (inr (- ESPIPE))
  else if NUMTMPBUF <? fcount then mret (inr (- EINVAL))
  else match copy_from_user ubuf fcount with
  | None => mret (inr (- EFAULT))
  | Some d =>
      match convert_input (overlay d stack) fcount with
      | Fault f => mfault f
      | Ok num =>
          if num <? 0 then mret (inr (- EINVAL))
          else
            let! io := on_k get_iobuf in
            match io with
            | None => mret (inr (- EINVAL))
            | Some io =>
                let! b := on_k (iobuf_load io) in
                if io_size b <? fcount then mret (inr (- EINVAL))
                else
                  do! on_k (iobuf_store io (HwrIobuf (io_location b) (io_offset b) 4
                    (overlay (le_bytes 4 num) (io_data b)))) in
                  mret (inl io)
            end
      end
  end.

Definition ioreg_reg_cp_udata_raw (reg : borph_ioreg) (ubuf : list Z) (fcount pos : Z)
    (get_iobuf : M (kstate D) (option Z)) : P cp_result :=
  let datacnt := Z.min fcount (s32 (io_len reg) - pos) in
  let datacnt := Z.min datacnt PAGE_SIZE in
  let! io := on_k get_iobuf in
  match io with
  | None => mret (inr (- EINVAL))
  | Some io =>
      let! b := on_k (iobuf_load io) in
      if io_size b =? 0 then mret (inr (- EINVAL))
      else
        let datacnt := Z.min datacnt (io_size b) in
        match copy_from_user ubuf datacnt with
        | None => mret (inr (- EFAULT))
        | Some d =>
            do! on_k (iobuf_store io (HwrIobuf (io_location b) (io_offset b) datacnt
              (overlay d (io_data b)))) in
            mret (inl io)
        end
  end.

(** From the copy to [put_iobuf]; a failed copy leaves without it. *)
Definition write_iobuf (ops : hwr_operations D) (reg : borph_ioreg) (mode : Z) (ubuf : list Z)
    (fcount pos : Z) : P (Z * Z) :=
  match op_get_iobuf ops, op_send_iobuf ops, op_put_iobuf ops with
  | Some get_iobuf, Some send_iobuf, Some put_iobuf =>
      let! io := (if mode =? 1 then ioreg_reg_cp_udata_raw reg ubuf fcount pos get_iobuf
                  else ioreg_reg_cp_udata_ascii ubuf fcount pos get_iobuf) in
      match io with
      | inr _ => mret (- EINVAL, pos)
      | inl io =>
          let! b := on_k (iobuf_load io) in
          do! on_k (iobuf_store io (HwrIobuf (io_loc reg) (u32 pos) (io_size b) (io_data b))) in
          let! retval := on_k (send_iobuf io) in
          let! _ := on_k (put_iobuf io) in
          mret (retval, if retval <=? 0 then pos else if is_pipe reg then 0 else pos + retval)
      end
  | _, _, _ => mret (- EINVAL, pos)
  end.

(** The return value and the new position. *)
Definition ioreg_reg_write (rf : reg_file) (ubuf : list Z) (fcount : Z) : P (Z * Z) :=
  let pos := rf_pos rf in
  match rf_reg rf with
  | None => mret (- EINVAL, pos)
  | Some reg =>
      if is_pipe reg && negb (rf_own rf) then mret (- ESPIPE, pos)
      else if io_len reg <=? pos then mret (fcount, pos)
      else
        let! task := get_proc_task (rf_task rf) in
        if negb task then mret (- EINVAL, pos)
        else
          let! bi := borph_info_of (rf_task rf) in
          let! r :=
            match bi with
            | None => mret (- EINVAL, pos)
            | Some bi =>
                let! hwrops := on_k (get_hwrops (io_hwraddr reg)) in
                match hwrops with
                | None => mret (- EINVAL, pos)
                | Some o =>
                    let! r := write_iobuf (ops_at o) reg (bi_ioreg_mode bi) ubuf fcount pos in
                    do! on_k (put_hwrops (io_hwraddr reg)) in
                    mret r
                end
            end in
          do! put_task_struct (rf_task rf) in
          mret r
  end.

(** ** Seeking: the return value and the new position *)
Definition ioreg_reg_lseek (rf : reg_file) (off whence : Z) : Z * Z :=
  match rf_reg rf with
  | None => (- EINVAL, rf_pos rf)
  | Some reg =>
      if is_pipe reg then (- ESPIPE, rf_pos rf)
      else
        match (if whence =? 0 then Some off
               else if whence =? 1 then Some (rf_pos rf + off)
               else if whence =? 2 then Some (io_len reg + off)
               else None) with
        | None => (- EINVAL, rf_pos rf)
        | Some newpos => if newpos <? 0 then (- EINVAL, rf_pos rf) else (newpos, newpos)
        end
  end.

(** ** The register directory *)
Definition S_IFIFO : Z := 0x1000.
Definition S_IFREG : Z := 0x8000.
Definition S_IRUGO : Z := 0x124.
Definition S_IWUGO : Z := 0x92.

(** The mode and size of a register's inode. *)
Definition proc_ioreg_instantiate (reg : borph_ioreg) : Z * Z :=
  let m := if is_pipe reg then S_IFIFO else S_IFREG in
  let m := Z.lor m (if truthy (Z.land (io_mode reg) IORM_READ) then S_IRUGO else 0) in
  let m := Z.lor m (if truthy (Z.land (io_mode reg) IORM_WRITE) then S_IWUGO else 0) in
  (m, io_len reg).

(** [reg->name]: the string at its offset in the string table. *)
Definition reg_name (reg : borph_ioreg) : res (list Z) :=
  if zlen (io_strtab reg) <=? io_name reg then Fault OutOfBounds
  else match cstr (drop (Z.to_nat (io_name reg)) (io_strtab reg)) with
       | Some n => Ok n
       | None => Fault OutOfBounds
       end.

(** [list_for_each_entry] with [strlen] and [memcmp]. *)
Fixpoint find_ioreg (name : list Z) (l : list borph_ioreg) : res (option borph_ioreg) :=
  match l with
  | [] => Ok None
  | reg :: l =>
      match reg_name reg with
      | Fault f => Fault f
      | Ok n => if bool_decide (n = name) then Ok (Some reg) else find_ioreg name l
      end
  end.

(** An error, or the register whose inode is made. *)
Definition proc_ioreg_lookup (t : Z) (name : list Z) : P (borph_ioreg + Z) :=
  let! task := get_proc_task t in
  if negb task then mret (inr (- EINVAL))
  else
    let! bi := borph_info_of t in
    let! r :=
      match bi with
      | None => mret (inr (- EINVAL))
      | Some bi =>
          match find_ioreg name (bi_ioreg bi) with
          | Fault f => mfault f
          | Ok None => mret (inr (- ENOENT))
          | Ok (Some reg) => mret (inl reg)
          end
      end in
    do! put_task_struct t in
    mret r.

(** ** Listing the directory

[filldir] takes entries while it has [room]; [proc_fill_cache] passes its
refusal on.  The return value, the new position and the names delivered. *)
Definition DOT : list Z := [46].

Fixpoint fill_regs (room : nat) (l : list (list Z)) (fpos : Z) (out : list (list Z))
    {struct l} : Z * Z * list (list Z) :=
  match l with
  | [] => (1, fpos, out)
  | n :: l => match room with
              | O => (0, fpos, out)
              | S room => fill_regs room l (fpos + 1) (out ++ [n])
              end
  end.

Fixpoint skip_regs (i pos : Z) (l : list (list Z)) : list (list Z) :=
  match l with
  | [] => []
  | n :: l => if pos <=? i then n :: skip_regs (i + 1) pos l else skip_regs (i + 1) pos l
  end.

(** [names] is [None] for a process without hardware. *)
Definition readdir_default (room : nat) (pos fpos : Z) (names : option (list (list Z)))
    (out : list (list Z)) : Z * Z * list (list Z) :=
  match names with
  | None => (1, fpos, out)
  | Some names => fill_regs room (skip_regs 2 pos names) fpos out
  end.

Definition proc_ioreg_readdir (room : nat) (pos : Z) (names : option (list (list Z))) :
  Z * Z * list (list Z) :=
  if pos =? 0 then
    match room with
    | O => (0, pos, [])
    | S O => (0, pos + 1, [DOT])
    | S (S room) => readdir_default room pos (pos + 2) names [DOT; DOT ++ DOT]
    end
  else if pos =? 1 then
    match room with
    | O => (0, pos, [])
    | S room => readdir_default room pos (pos + 1) names [DOT ++ DOT]
    end
  else readdir_default room pos pos names [].

(** ** The files [status], [ioreg_mode] and [hwregion]

The text of a file, and the return value. *)
Definition lower (c : Z) : Z := if (65 <=? c) && (c <=? 70) then c + 32 else c.

(** [snprintf(buffer, 5, "%04x", v)] stores the first four digits. *)
Definition hex4 (v : Z) : list Z :=
  let d := lower <$> ascii_loop 8 v [] in
  take 4 (replicate (4 - length d) 48 ++ d).

Definition proc_status_read (bi : option borph_info) : Z * list Z :=
  match bi with
  | None => (- EINVAL, [])
  | Some bi => (5, hex4 (u32 (bi_status bi)) ++ [10])
  end.

(** The task is dereferenced untested, and its reference is not given back. *)
Definition status_write (t fcount : Z) : P Z :=
  let! task := get_proc_task t in
  if negb task then mfault NullDeref
  else
    let! bi := borph_info_of t in
    mret (match bi with Some _ => fcount | None => - EINVAL end).

Definition proc_ioregmode_read (bi : option borph_info) : Z * list Z :=
  match bi with
  | None => (- EINVAL, [])
  | Some bi => (2, [u8 (48 + bi_ioreg_mode bi); 10])
  end.

Definition ioregmode_write (t : Z) (ubuf : list Z) (fcount : Z) : P Z :=
  let! task := get_proc_task t in
  if negb task then mfault NullDeref
  else
    let! bi := borph_info_of t in
    match bi with
    | None => mret (- EINVAL)
    | Some _ =>
        if truthy fcount then
          match copy_from_user ubuf 1 with
          | Some [c] =>
              if (c <? 48) || (57 <? c) then mret (- EINVAL)
              else do! on_k (info_mod t (bi_set_ioreg_mode (c - 48))) in mret fcount
          | _ => mret (- EFAULT)
          end
        else mret fcount
    end.

(** "HW Region 0\n Address: 0x" *)
Definition region_text (a : Z) : list Z :=
  [72; 87; 32; 82; 101; 103; 105; 111; 110; 32; 48; 10; 32; 65; 100; 100; 114; 101; 115; 115;
   58; 32; 48; 120] ++ ascii_loop 8 a [] ++ [10].

(** Each region's text goes to the start of the buffer, over the one before. *)
Definition proc_hwregion_read (bi : option borph_info) : Z * list Z :=
  match bi with
  | None => (- EINVAL, [])
  | Some bi =>
      foldl (fun _ region => let text := region_text (addr (reg_addr region)) in
                             (zlen text, text))
        (0, []) (bi_hw_region bi)
  end.
End proc.

(** ** Number formats *)
Definition digit_value (c : Z) : Z := if 65 <=? c then c - 55 else c - 48.

(** The number a text of hexadecimal digits stands for. *)
Fixpoint hex_value (l : list Z) : Z :=
  match l with
  | [] => 0
  | c :: l => digit_value c * 16 ^ zlen l + hex_value l
  end.

Definition is_hex (c : Z) : bool := is_digit c || ((65 <=? c) && (c <=? 70)).

Lemma digit_value_hex m : 0 <= m < 16 -> digit_value (hex_digit m) = m /\ is_hex (hex_digit m) = true.
Proof.
  intros Hm. unfold digit_value, hex_digit, is_hex, is_digit.
  destruct (Z.leb_spec 10 m); split.
  - destruct (Z.leb_spec 65 (m + 55)); lia.
  - rewrite (proj2 (Z.leb_le 65 _)), (proj2 (Z.leb_le (m + 55) 70)) by lia. by rewrite orb_true_r.
  - destruct (Z.leb_spec 65 (m + 48)); lia.
  - by rewrite (proj2 (Z.leb_le 48 _)), (proj2 (Z.leb_le (m + 48) 57)) by lia.
Qed.

Lemma ascii_loop_spec n v acc :
  0 <= v < 16 ^ Z.of_nat n -> (0 < n)%nat -> Forall (fun c => is_hex c = true) acc ->
  hex_value (ascii_loop n v acc) = v * 16 ^ zlen acc + hex_value acc
  /\ (length (ascii_loop n v acc) <= n + length acc)%nat
  /\ Forall (fun c => is_hex c = true) (ascii_loop n v acc).
Proof.
  revert v acc. induction n as [|n IH]; intros v acc Hv Hn Hacc; [lia|]. cbn [ascii_loop].
  change 15 with (2 ^ 4 - 1). rewrite land_ones_mod, Z.shiftr_div_pow2 by lia. change (2 ^ 4) with 16.
  pose proof (Z.mod_pos_bound v 16 (ltac:(lia))) as Hm. pose proof (Z.div_mod v 16 (ltac:(lia))).
  destruct (digit_value_hex (v mod 16) Hm) as [Hd Hh].
  set (acc1 := hex_digit (v mod 16) :: acc).
  assert (Forall (fun c => is_hex c = true) acc1) as Hacc1 by (by constructor).
  assert (hex_value acc1 = v mod 16 * 16 ^ zlen acc + hex_value acc) as E1
    by (unfold acc1; cbn [hex_value]; by rewrite Hd).
  assert (zlen acc1 = zlen acc + 1) as E2 by (unfold acc1; rewrite zlen_cons; lia).
  pose proof (zlen_nonneg acc).
  unfold truthy. destruct (Z.eqb_spec (v / 16) 0) as [E|E]; cbn [negb].
  - split; [rewrite E1; f_equal; f_equal; lia|]. split; [unfold acc1; simpl; lia|done].
  - replace (Z.of_nat (S n)) with (1 + Z.of_nat n) in Hv by lia.
    rewrite Z.pow_add_r in Hv by lia. change (16 ^ 1) with 16 in Hv.
    assert (0 <= v / 16) by (apply Z.div_pos; lia).
    assert (v / 16 < 16 ^ Z.of_nat n) by (apply Z.div_lt_upper_bound; lia).
    destruct n as [|n']; [change (16 ^ Z.of_nat 0) with 1 in *; lia|].
    destruct (IH (v / 16) acc1) as (Hval & Hlen & Hall); [lia|lia|done|].
    split; [|split; [unfold acc1 in Hlen |- *; simpl in Hlen |- *; lia|done]].
    rewrite Hval, E1, E2, Z.pow_add_r by lia. nia.
Qed.

Lemma hex_value_pad k l : hex_value (replicate k 48 ++ l) = hex_value l.
Proof. induction k as [|k IH]; [done|]. cbn. rewrite IH. done. Qed.

(** [to_ascii] of a 4-byte word gives eight upper-case hexadecimal digits and
a newline, and the digits stand for the word; any other length is refused. *)
Lemma to_ascii_correct buf n :
  Forall is_byte buf -> 4 <= zlen buf ->
  if n =? 4 then
    exists text, to_ascii buf n = (9, text ++ [10]) /\ length text = 8%nat
      /\ Forall (fun c => is_hex c = true) text /\ hex_value text = field 0 4 buf
  else fst (to_ascii buf n) = - EINVAL.
Proof.
  intros Hb Hl. unfold to_ascii. destruct (n =? 4); cbn [negb]; [|done].
  assert (0 <= field 0 4 buf < 16 ^ Z.of_nat 8) as Hv.
  { unfold field. pose proof (le_val_range (slice 0 4 buf)) as Hr.
    assert (length (slice 0 4 buf) = 4%nat) as Hl4
      by (pose proof (zlen_slice 0 4 buf); unfold zlen in *; lia).
    rewrite Hl4 in Hr. apply Hr. by apply Forall_take, Forall_drop. }
  destruct (ascii_loop_spec 8 (field 0 4 buf) [] Hv (ltac:(lia)) (Forall_nil_2 _))
    as (Hval & Hlen & Hall).
  generalize dependent (ascii_loop 8 (field 0 4 buf) []). intros text Hval Hlen Hall.
  rewrite Nat.add_0_r in Hlen. exists (replicate (8 - length text) 48 ++ text).
  rewrite <- app_assoc. split; [done|]. split; [|split].
  - rewrite length_app, length_replicate. lia.
  - apply Forall_app. split; [|done]. by apply Forall_replicate.
  - rewrite hex_value_pad, Hval. change (zlen (@nil Z)) with 0. cbn [hex_value]. lia.
Qed.

(** The value of a text of decimal digits. *)
Definition dec_value (l : list Z) : Z := foldl (fun a c => a * 10 + (c - 48)) 0 l.

Lemma dec_value_snoc l c : dec_value (l ++ [c]) = dec_value l * 10 + (c - 48).
Proof. unfold dec_value. by rewrite foldl_app. Qed.

Lemma dec_loop_fold buf n i num :
  (i + n <= length buf)%nat ->
  dec_loop buf n i num = Ok (foldl dec_char num (take n (drop i buf))).
Proof.
  revert i num. induction n as [|n IH]; intros i num Hl; [done|]. cbn [dec_loop].
  destruct (lookup_lt_is_Some_2 buf i) as [c Hc]; [lia|]. rewrite Hc, (drop_S _ c i) by done.
  cbn [take foldl]. by rewrite IH by lia.
Qed.

Lemma hex_loop_fold buf n i num :
  (i + n <= length buf)%nat ->
  hex_loop buf n i num = Ok (foldl hex_char num (take n (drop i buf))).
Proof.
  revert i num. induction n as [|n IH]; intros i num Hl; [done|]. cbn [hex_loop].
  destruct (lookup_lt_is_Some_2 buf i) as [c Hc]; [lia|]. rewrite Hc, (drop_S _ c i) by done.
  cbn [take foldl]. by rewrite IH by lia.
Qed.

Lemma is_digit_range c : is_digit c = true -> 48 <= c <= 57.
Proof. unfold is_digit. intros H. zb. lia. Qed.

Lemma filter_snoc (p : Z -> bool) l c :
  List.filter p (l ++ [c]) = List.filter p l ++ (if p c then [c] else []).
Proof. rewrite List.filter_app. cbn. by destruct (p c). Qed.

Lemma dec_value_nonneg l : 0 <= dec_value (List.filter is_digit l).
Proof.
  induction l as [|c l IH] using rev_ind; [done|]. rewrite filter_snoc.
  destruct (is_digit c) eqn:E; [|by rewrite app_nil_r].
  rewrite dec_value_snoc. apply is_digit_range in E. lia.
Qed.

Lemma dec_fold_value l :
  dec_value (List.filter is_digit l) < 2 ^ 31 ->
  foldl dec_char 0 l = dec_value (List.filter is_digit l).
Proof.
  induction l as [|c l IH] using rev_ind; intros Hb; [done|]. rewrite filter_snoc in *.
  rewrite foldl_app. cbn [foldl]. pose proof (dec_value_nonneg l). unfold dec_char at 1.
  destruct (is_digit c) eqn:E; [|rewrite app_nil_r in *; auto].
  rewrite dec_value_snoc in *. apply is_digit_range in E. rewrite IH by lia.
  rewrite (wraps_small 32 (_ * 10)) by lia. rewrite wraps_small by lia. lia.
Qed.

(** A decimal input is converted to its value: characters that are no digits
(a newline, say) are skipped, as the code's comment promises, as long as the
value fits an [int]. *)
Lemma convert_input_decimal c buf cnt :
  c <> 120 -> c <> 98 -> 0 <= cnt <= zlen (c :: buf) ->
  dec_value (List.filter is_digit (slice 0 cnt (c :: buf))) < 2 ^ 31 ->
  convert_input (c :: buf) cnt
  = Ok (dec_value (List.filter is_digit (slice 0 cnt (c :: buf)))).
Proof.
  intros Hx Hb Hc Hv. unfold convert_input.
  rewrite (proj2 (Z.eqb_neq c 120)), (proj2 (Z.eqb_neq c 98)) by done.
  rewrite dec_loop_fold by (unfold zlen in Hc; lia). f_equal. exact (dec_fold_value _ Hv).
Qed.

(** What the hexadecimal loop makes of a digit: the letters count from 0. *)
Definition seen_digit (c : Z) : Z :=
  if 97 <=? c then c - 97 else if 65 <=? c then c - 65 else c - 48.

Definition is_hex_input (c : Z) : bool :=
  is_digit c || ((65 <=? c) && (c <=? 70)) || ((97 <=? c) && (c <=? 102)).

Definition seen_value (l : list Z) : Z := foldl (fun a c => a * 16 + seen_digit c) 0 l.

Lemma hex_char_seen num c :
  is_hex_input c = true -> 0 <= num -> num * 16 + 16 < 2 ^ 31 ->
  hex_char num c = num * 16 + seen_digit c /\ 0 <= seen_digit c < 16.
Proof.
  intros Hc Hn Hb. unfold hex_char, seen_digit. unfold is_hex_input in Hc.
  assert (c <> 10) as H10 by (intros ->; discriminate).
  rewrite (proj2 (Z.eqb_neq c 10)) by done.
  rewrite (wraps_small 32 (num * 16)) by lia. unfold is_digit in *.
  destruct (Z.leb_spec 97 c), (Z.leb_spec c 102), (Z.leb_spec 65 c), (Z.leb_spec c 70),
    (Z.leb_spec 48 c), (Z.leb_spec c 57); cbn in *; try discriminate; try lia;
    rewrite wraps_small by lia; lia.
Qed.

Lemma seen_value_snoc l c : seen_value (l ++ [c]) = seen_value l * 16 + seen_digit c.
Proof. unfold seen_value. by rewrite foldl_app. Qed.

Lemma hex_fold_seen l :
  forallb is_hex_input l = true ->
  0 <= seen_value l
  /\ (seen_value l * 16 < 2 ^ 31 - 16 -> foldl hex_char 0 l = seen_value l).
Proof.
  induction l as [|c l IH] using rev_ind; intros Hl; [done|].
  rewrite forallb_app in Hl. apply andb_true_iff in Hl as [Hl Hc]. cbn in Hc.
  rewrite andb_true_r in Hc. destruct (IH Hl) as [Hp Hv].
  destruct (hex_char_seen 0 c Hc) as [_ Hd]; [lia|lia|].
  rewrite seen_value_snoc. split; [lia|]. intros Hb.
  rewrite foldl_app, Hv by lia. cbn [foldl]. apply hex_char_seen; [done|lia|lia].
Qed.

(** A hexadecimal input is converted wrongly.  The loop consumes as many
characters as the whole input has, prefix included, so it goes one byte too far,
and it shifts for every character but a newline: after [x<digits>] and a newline
a following NUL byte multiplies the number by 16.  The digits [a] to [f] count
as 0 to 5. *)
Lemma convert_input_hex_scaled ds rest :
  forallb is_hex_input ds = true -> seen_value ds * 16 < 2 ^ 31 - 16 ->
  convert_input (120 :: ds ++ 10 :: 0 :: rest) (zlen ds + 2) = Ok (16 * seen_value ds).
Proof.
  intros Hd Hb. destruct (hex_fold_seen ds Hd) as [Hp Hv]. unfold convert_input.
  pose proof (zlen_nonneg ds). rewrite Z.eqb_refl, (proj2 (Z.ltb_ge _ _)) by lia.
  assert (Z.to_nat (zlen ds + 2) = length (ds ++ [10; 0])) as ->
    by (rewrite length_app; unfold zlen; simpl; lia).
  rewrite hex_loop_fold by (rewrite !length_app; simpl; rewrite length_app; simpl; lia).
  replace (drop 1 (120 :: ds ++ 10 :: 0 :: rest)) with ((ds ++ [10; 0]) ++ rest)
    by (simpl; by rewrite <- app_assoc).
  rewrite take_app_length, foldl_app, Hv by done.
  cbn. rewrite wraps_small by lia. f_equal. lia.
Qed.

(** With a hexadecimal input of the full twelve characters the conversion
reads behind its buffer. *)
Lemma convert_input_overreads c l :
  length l = 11%nat -> c = 120 -> convert_input (c :: l) NUMTMPBUF = Fault OutOfBounds.
Proof.
  intros Hl ->. unfold convert_input. cbn [Z.eqb Pos.eqb Z.ltb Z.compare NUMTMPBUF].
  do 12 (destruct l as [|? l]; [discriminate || done|]). done.
Qed.

(** ** The directory *)
Lemma fill_regs_spec room l fpos out :
  fill_regs room l fpos out
  = (b2z (zlen l <=? Z.of_nat room), fpos + zlen (take room l), out ++ take room l).
Proof.
  revert room fpos out. induction l as [|n l IH]; intros room fpos out; cbn [fill_regs].
  - rewrite take_nil, app_nil_r. change (zlen (@nil (list Z))) with 0.
    by rewrite Z.add_0_r, (proj2 (Z.leb_le 0 _)) by lia.
  - destruct room as [|room].
    + rewrite take_0, app_nil_r, zlen_cons. change (zlen (@nil (list Z))) with 0.
      rewrite Z.add_0_r. by rewrite (proj2 (Z.leb_gt _ _)) by (pose proof (zlen_nonneg l); lia).
    + rewrite IH. cbn [take]. rewrite !zlen_cons, <- app_assoc. cbn [app].
      f_equal; f_equal; [f_equal|lia].
      destruct (Z.leb_spec (zlen l) (Z.of_nat room)),
          (Z.leb_spec (1 + zlen l) (Z.of_nat (S room))); lia || done.
Qed.

Lemma skip_regs_drop i pos l : i <= pos -> skip_regs i pos l = drop (Z.to_nat (pos - i)) l.
Proof.
  revert i. induction l as [|n l IH]; intros i Hi; cbn [skip_regs]; [by rewrite drop_nil|].
  destruct (Z.leb_spec pos i).
  - replace (Z.to_nat (pos - i)) with 0%nat by lia. rewrite drop_0. f_equal.
    clear IH Hi. revert i H. induction l as [|m l IH]; intros i H; cbn; [done|].
    rewrite (proj2 (Z.leb_le _ _)) by lia. f_equal. apply IH. lia.
  - rewrite IH by lia. replace (Z.to_nat (pos - i)) with (S (Z.to_nat (pos - (i + 1)))) by lia.
    done.
Qed.

Lemma skip_regs_all i pos l : pos <= i -> skip_regs i pos l = l.
Proof.
  revert i. induction l as [|n l IH]; intros i Hi; cbn; [done|].
  rewrite (proj2 (Z.leb_le _ _)) by lia. by rewrite IH by lia.
Qed.

(** Reading the register directory from any position delivers the next entries
of the listing [. .. <registers>], as many as the caller has room for, moves the
position behind them, and says so when the listing is complete: reading on
delivers every entry exactly once. *)
Lemma proc_ioreg_readdir_chunk room pos names :
  let rest := drop (Z.to_nat pos) (DOT :: (DOT ++ DOT) :: names) in
  0 <= pos -> (0 < room)%nat ->
  proc_ioreg_readdir room pos (Some names)
  = (b2z ((2 <=? pos + Z.of_nat room) && (zlen rest <=? Z.of_nat room)),
     pos + zlen (take room rest), take room rest).
Proof.
  intros rest Hp Hr. unfold proc_ioreg_readdir, rest.
  destruct (Z.eqb_spec pos 0) as [->|H0]; [|destruct (Z.eqb_spec pos 1) as [->|H1]].
  - destruct room as [|[|room]]; [lia|done|]. cbn [readdir_default].
    rewrite skip_regs_all, fill_regs_spec by lia.
    change (drop (Z.to_nat 0) (DOT :: (DOT ++ DOT) :: names)) with (DOT :: (DOT ++ DOT) :: names).
    change (take (S (S room)) (?a :: ?b :: ?l)) with (a :: b :: take room l).
    rewrite !zlen_cons. f_equal; f_equal; [f_equal|lia].
    destruct (Z.leb_spec 2 (0 + Z.of_nat (S (S room)))); [|lia]. cbn [andb].
      destruct (Z.leb_spec (zlen names) (Z.of_nat room)),
        (Z.leb_spec (1 + (1 + zlen names)) (Z.of_nat (S (S room)))); lia || done.
  - destruct room as [|room]; [lia|]. cbn [readdir_default].
    rewrite skip_regs_all, fill_regs_spec by lia.
    change (drop (Z.to_nat 1) (DOT :: (DOT ++ DOT) :: names)) with ((DOT ++ DOT) :: names).
    cbn [take]. rewrite !zlen_cons. f_equal; f_equal; [f_equal|lia].
    destruct (Z.leb_spec 2 (1 + Z.of_nat (S room))); [|lia]. cbn [andb].
      destruct (Z.leb_spec (zlen names) (Z.of_nat room)),
        (Z.leb_spec (1 + zlen names) (Z.of_nat (S room))); lia || done.
  - cbn [readdir_default]. rewrite skip_regs_drop, fill_regs_spec by lia.
    rewrite (proj2 (Z.leb_le 2 _)) by lia. cbn [andb app].
    replace (Z.to_nat pos) with (S (S (Z.to_nat (pos - 2)))) by lia. done.
Qed.
