(* ===== verification/RhinoRegs.v ===== *)
(** * Register files on the RHINO driver

The register files of [ProcBorph] on top of the driver of [HwrRhino]: what a
process writes to a register it reads back, and what a failed write leaves
behind. *)
From stdpp Require Import base list gmap strings.
From S2P Require Import Prelude Bof Hwr Driver HwrRhino Bkexecd ProcBorph.
From Stdlib Require Import ZArith Lia.

Section regs.
Context (ops_at : Z -> hwr_operations rhino) (stack : list Z).
Context (pin : Z -> nat -> bool) (spi_status : nat -> Z) (spi_sched : nat -> nat).
Context (fpga_read : list (Z * Z) -> Z -> Z).
Abbreviation P := (M (pstate rhino)).

Lemma runs_on_k {A} (m : M (kstate rhino) A) k a k' u :
  runs m k a k' -> runs (on_k m) (PState k u) a (PState k' u).
Proof. intros H. unfold runs, on_k. cbn. by rewrite H. Qed.

Definition IOBUF_SIZE : Z := PAGE_SIZE - 12.

(** A buffer whose data area is the page behind its header. *)
Definition page_iobuf (b : hwr_iobuf) : Prop :=
  zlen (io_data b) = IOBUF_SIZE /\ Forall is_byte (io_data b).

(** The kernel with the buffer [b] at the driver's static address, [n] permits
and the bus writes [w]. *)
Definition with_io (io : Z) (b : hwr_iobuf) (n : Z) (w : list (Z * Z)) (s : kstate rhino) :
  kstate rhino :=
  set_iobufs (<[io := b]> (k_iobufs s))
    (set_drv (with_r_sem n (with_r_writes w (k_drv s))) s).

Lemma with_io_with_io io b1 b2 n1 n2 w1 w2 s :
  with_io io b2 n2 w2 (with_io io b1 n1 w1 s) = with_io io b2 n2 w2 s.
Proof. apply kstate_eq; try reflexivity. cbn -[insert]. apply insert_insert_eq. Qed.

Lemma runs_rhino_get_iobuf io b n w s :
  0 < n -> r_iobuf (k_drv s) = Some io ->
  runs rhino_get_iobuf (with_io io b n w s) (Some io)
    (with_io io (HwrIobuf (io_location b) (io_offset b) IOBUF_SIZE (io_data b)) (n - 1) w s).
Proof.
  intros Hn Hio. unfold rhino_get_iobuf. eapply runs_bind; [by apply runs_down|].
  cbn [truthy Z.eqb negb]. eapply runs_bind; [apply runs_gets|]. cbn -[insert]. rewrite Hio.
  eapply runs_bind; [done|].
  eapply runs_bind; [apply runs_iobuf_load; cbn -[insert]; by rewrite lookup_insert_eq|].
  eapply runs_bind; [apply runs_modify|]. unfold runs, mret. do 2 f_equal.
  apply kstate_eq; try reflexivity. cbn -[insert]. apply insert_insert_eq.
Qed.

Lemma runs_iobuf_store_io io b b' n w s :
  runs (iobuf_store io b') (with_io io b n w s) tt (with_io io b' n w s).
Proof.
  unfold runs, iobuf_store, mmodify. do 2 f_equal. apply kstate_eq; try reflexivity.
  cbn -[insert]. apply insert_insert_eq.
Qed.

Lemma runs_iobuf_load_io io b n w s :
  runs (iobuf_load io) (with_io io b n w s) b (with_io io b n w s).
Proof. apply runs_iobuf_load. cbn -[insert]. by rewrite lookup_insert_eq. Qed.

Lemma runs_put_io io b n w s :
  runs (rhino_put_iobuf io) (with_io io b n w s) 0 (with_io io b (n + 1) w s).
Proof. done. Qed.

(** The RHINO driver is up and reaches the first [2 * n] bytes of the register. *)
Record reg_up (reg : borph_ioreg) (o : Z) (io : Z) (m : fpga_map) (n : Z) (r : rhino) : Prop := {
  ru_driver : ops_at o = rhino_hwr_operations pin spi_status spi_sched fpga_read;
  ru_iobuf : r_iobuf r = Some io;
  ru_bus : r_bus r = Some m;
  ru_pipe : is_pipe reg = false;
  ru_len : 2 * n <= io_len reg < 2 ^ 31;
  ru_size : 0 < 2 * n <= IOBUF_SIZE;
  ru_range : u32 (mapped m (io_loc reg)) + 2 * n < 2 ^ 32
}.

(** Writing the bytes [d] at position 0, between [get_hwrops] and
[put_hwrops]. *)
Lemma write_iobuf_ok reg o io m n d b c w s :
  reg_up reg o io m n (k_drv s) -> page_iobuf b -> zlen d = 2 * n -> 0 < c ->
  Forall is_byte d ->
  exists w' b', page_iobuf b'
    /\ w' = pushed (Z.to_nat n) 0 (u32 (mapped m (io_loc reg))) d w
    /\ (forall k, 0 <= k < n ->
         bus_memory w' (u32 (mapped m (io_loc reg)) + 2 * k) = Some (field (2 * k) 2 d))
    /\ forall u, runs (write_iobuf stack (ops_at o) reg 1 d (2 * n) 0)
         (PState (with_io io b c w s) u) (2 * n, 2 * n) (PState (with_io io b' c w' s) u).
Proof.
  intros [Hd Hio Hbus Hpi Hlen Hsz Hrg] [Hbz Hbb] Hz Hc Hdb.
  set (b1 := HwrIobuf (io_location b) (io_offset b) IOBUF_SIZE (io_data b)).
  set (b2 := HwrIobuf (io_location b) (io_offset b) (2 * n) (overlay d (io_data b))).
  set (b3 := HwrIobuf (io_loc reg) (u32 0) (2 * n) (overlay d (io_data b))).
  assert (zlen (overlay d (io_data b)) = IOBUF_SIZE) as Hov by (rewrite zlen_overlay; lia).
  destruct (runs_rhino_send (with_io io b3 (c - 1) w s) m io b3 n) as (w' & Hsend & Hw' & Hmem).
  { done. } { cbn -[insert]. by rewrite lookup_insert_eq. } { done. } { lia. }
  { cbn. lia. } { unfold bus_range. cbn. rewrite Z.add_0_r. exact Hrg. }
  exists w', b3. split; [|split; [|split]].
  - split; [exact Hov|]. apply Forall_app. split; [done|]. by apply Forall_drop.
  - cbn [io_location io_offset io_data b3] in Hw'. rewrite Z.add_0_r in Hw'. rewrite Hw'. cbn [r_writes k_drv with_io set_iobufs set_drv].
    apply pushed_ext. intros k Hk. unfold field, overlay. by rewrite slice_app_l by lia.
  - intros k Hk. specialize (Hmem k Hk). cbn [io_location io_offset io_data b3] in Hmem.
    rewrite Z.add_0_r in Hmem. rewrite Hmem. unfold field, overlay.
    by rewrite slice_app_l by lia.
  - intros u. unfold write_iobuf. rewrite Hd. cbn [rhino_hwr_operations op_get_iobuf op_send_iobuf
      op_put_iobuf Z.eqb Pos.eqb].
    eapply runs_bind.
    { unfold ioreg_reg_cp_udata_raw. eapply runs_bind;
        [by apply runs_on_k, runs_rhino_get_iobuf|]. cbv iota.
      eapply runs_bind; [apply runs_on_k, runs_iobuf_load_io|].
      cbn [io_size]. change (IOBUF_SIZE =? 0) with false. cbv iota.
      assert (Z.min (Z.min (Z.min (2 * n) (s32 (io_len reg) - 0)) PAGE_SIZE) IOBUF_SIZE = 2 * n)
        as -> by (rewrite wraps_small by lia; unfold IOBUF_SIZE, PAGE_SIZE in *; lia).
      unfold copy_from_user. rewrite (proj2 (Z.leb_le 0 _)), (proj2 (Z.leb_le _ (zlen d))) by lia.
      cbn [andb]. rewrite slice_all by lia.
      eapply runs_bind; [apply runs_on_k, runs_iobuf_store_io|]. apply runs_ret. }
    cbv iota. eapply runs_bind; [apply runs_on_k, runs_iobuf_load_io|].
    eapply runs_bind; [apply runs_on_k, runs_iobuf_store_io|]. cbn [io_size io_data].
    eapply runs_bind; [apply runs_on_k; exact Hsend|].
    eapply runs_bind.
    { apply runs_on_k. change (set_drv _ (with_io io b3 (c - 1) w s))
        with (with_io io b3 (c - 1) w' s). apply runs_put_io. }
    rewrite (proj2 (Z.leb_gt _ 0)), Hpi by lia. unfold runs, mret.
    replace (c - 1 + 1) with c by lia. done.
Qed.

(** Reading [2 * n] bytes at position 0 when the FPGA presents [d]. *)
Lemma runs_read_iobuf reg o io m n d b c w s u :
  reg_up reg o io m n (k_drv s) -> page_iobuf b -> zlen d = 2 * n -> 0 < c ->
  Forall is_byte d ->
  (forall k, 0 <= k < n ->
     fpga_read w (u32 (mapped m (io_loc reg)) + 2 * k) = field (2 * k) 2 d) ->
  exists b',
    runs (read_iobuf (ops_at o) reg 1 (2 * n) 0) (PState (with_io io b c w s) u)
      (2 * n, d, 2 * n) (PState (with_io io b' c w s) u).
Proof.
  intros [Hd Hio Hbus Hpi Hlen Hsz Hrg] [Hbz Hbb] Hz Hc Hdb Hrd.
  set (b3 := HwrIobuf (io_loc reg) (u32 0) (2 * n) (io_data b)).
  set (data := slice 0 (2 * n) d ++ drop (Z.to_nat (2 * n)) (io_data b)).
  assert (runs (rhino_recv_iobuf fpga_read io) (with_io io b3 (c - 1) w s) (2 * n)
    (with_io io (HwrIobuf (io_loc reg) (u32 0) (2 * n) data) (c - 1) w s)) as Hrecv.
  { eapply runs_eq.
    - apply (runs_rhino_recv fpga_read _ m io b3 n d); try done; try (cbn; lia).
      + cbn -[insert]. by rewrite lookup_insert_eq.
      + unfold bus_range. cbn. rewrite Z.add_0_r. exact Hrg.
      + intros k Hk. cbn [io_location io_offset b3]. rewrite Z.add_0_r. by apply Hrd.
    - apply kstate_eq; try reflexivity. cbn -[insert]. apply insert_insert_eq. }
  eexists. unfold read_iobuf. rewrite Hd.
  cbn [rhino_hwr_operations op_get_iobuf op_recv_iobuf op_put_iobuf].
  eapply runs_bind; [by apply runs_on_k, runs_rhino_get_iobuf|]. cbv iota.
  eapply runs_bind; [apply runs_on_k, runs_iobuf_load_io|].
  eapply runs_bind; [apply runs_on_k, runs_iobuf_store_io|]. cbn [truthy Z.eqb negb io_data].
  eapply runs_bind; [apply runs_on_k; exact Hrecv|].
  eapply runs_bind.
  { rewrite (proj2 (Z.ltb_ge _ _)) by lia.
    eapply runs_bind; [apply runs_on_k, runs_iobuf_load_io|]. cbn [Z.eqb io_data].
    eapply runs_bind; [apply runs_ret|]. cbv beta iota.
    rewrite (proj2 (Z.ltb_ge _ _)), Hpi by lia.
    apply runs_ret. }
  eapply runs_bind; [apply runs_on_k, runs_put_io|]. unfold runs, mret.
  replace (c - 1 + 1) with c by lia. do 4 f_equal.
  unfold data. rewrite (slice_all (2 * n) d) by lia. rewrite slice_app_l by lia. by apply slice_all; lia.
Qed.

Lemma with_io_id io b s :
  k_iobufs s !! io = Some b -> with_io io b (sem s) (r_writes (k_drv s)) s = s.
Proof.
  intros Hb. apply kstate_eq; try reflexivity.
  - cbn -[insert]. by apply insert_id.
  - cbn. unfold sem. by destruct (k_drv s).
Qed.

(** Everything a register access needs. *)
Record reg_ready (rf : reg_file) (reg : borph_ioreg) (bi : borph_info) (p : Z) (h : hwrtype)
    (o io : Z) (m : fpga_map) (n : Z) (b : hwr_iobuf) (x : pstate rhino) : Prop := {
  rr_file : rf_reg rf = Some reg;
  rr_pos : rf_pos rf = 0;
  rr_task : is_Some (p_use x !! rf_task rf);
  rr_info : k_infos (p_k x) !! rf_task rf = Some bi;
  rr_mode : bi_ioreg_mode bi = 1;
  rr_reg : registered (p_k x) (class (io_hwraddr reg)) p h;
  rr_ops : ht_ops h = Some o;
  rr_count : - 2 ^ 31 <= ht_count h < 2 ^ 31 - 1;
  rr_up : reg_up reg o io m n (k_drv (p_k x));
  rr_sem : 0 < sem (p_k x);
  rr_buf : k_iobufs (p_k x) !! io = Some b;
  rr_page : page_iobuf b
}.

Lemma put_get_task t v (u : gmap Z Z) :
  u !! t = Some v -> alter (fun n => n - 1) t (<[t := v + 1]> u) = u.
Proof.
  intros Hu. rewrite alter_insert_eq. replace (v + 1 - 1) with v by lia. by apply insert_id.
Qed.

(** The state after accesses that moved bytes through the static buffer. *)
Definition after_io (io : Z) (b : hwr_iobuf) (w : list (Z * Z)) (x : pstate rhino) : pstate rhino :=
  PState (with_io io b (sem (p_k x)) w (p_k x)) (p_use x).

(** The part of a write around the buffer: the task's usage count and the
driver's use count are taken and given back. *)
Lemma runs_write_around rf reg bi p h o io m n b d x r s' :
  reg_ready rf reg bi p h o io m n b x ->
  k_hwrtypes s' = k_hwrtypes (p_k x) -> k_htheap s' = k_htheap (p_k x) ->
  (forall u, runs (write_iobuf stack (ops_at o) reg 1 d (2 * n) 0)
    (PState (ht_upd p atomic_inc (p_k x)) u) r (PState (ht_upd p atomic_inc s') u)) ->
  runs (ioreg_reg_write ops_at stack rf d (2 * n)) x r (PState s' (p_use x)).
Proof.
  intros [Hf Hp [v Ht] Hi Hm Hr Ho Hc Hup Hs Hb Hpg] Hty Hhp Hrun. destruct x as [s u]. cbn in *.
  unfold ioreg_reg_write. rewrite Hf, Hp.
  pose proof Hup as [_ _ _ Hpi Hlen Hsz _]. rewrite Hpi. cbn [andb].
  rewrite (proj2 (Z.leb_gt _ 0)) by lia.
  eapply runs_bind; [unfold runs, get_proc_task, mbind, mgets; cbn; rewrite Ht; reflexivity|].
  cbn [negb]. eapply runs_bind; [apply runs_gets|]. cbn [p_k]. rewrite Hi. eapply runs_bind.
  - rewrite Hm. eapply runs_bind; [by apply runs_on_k, runs_get_hwrops|]. rewrite Ho.
    eapply runs_bind; [apply Hrun|]. eapply runs_bind; [|apply runs_ret]. apply runs_on_k.
    eapply runs_put_hwrops. apply (registered_ht_upd s' _ p h atomic_inc).
    destruct Hr as (? & ? & ?). split; [done|]. by rewrite Hty, Hhp.
  - eapply runs_bind; [apply runs_modify|]. unfold runs, mret. cbn [p_k p_use].
    rewrite put_get_task by done. destruct Hr as (_ & _ & Hh).
    by rewrite (ht_upd_balanced s' p h) by (done || by rewrite Hhp).
Qed.

Lemma runs_ioreg_write rf reg bi p h o io m n b d x :
  reg_ready rf reg bi p h o io m n b x -> zlen d = 2 * n -> Forall is_byte d ->
  exists w b', runs (ioreg_reg_write ops_at stack rf d (2 * n)) x (2 * n, 2 * n) (after_io io b' w x)
    /\ page_iobuf b' /\ w = pushed (Z.to_nat n) 0 (u32 (mapped m (io_loc reg))) d (r_writes (k_drv (p_k x)))
    /\ forall k, 0 <= k < n ->
         bus_memory w (u32 (mapped m (io_loc reg)) + 2 * k) = Some (field (2 * k) 2 d).
Proof.
  intros Hrr Hz Hd. pose proof Hrr as [_ _ _ _ _ _ _ _ Hup Hs Hb Hpg].
  destruct (write_iobuf_ok reg o io m n d b (sem (p_k x)) (r_writes (k_drv (p_k x)))
    (ht_upd p atomic_inc (p_k x)) Hup Hpg Hz Hs Hd) as (w & b' & Hpg' & Hw & Hmem & Hrun).
  exists w, b'. split; [|done]. eapply runs_write_around; [exact Hrr|done|done|].
  intros u. specialize (Hrun u). rewrite <- (with_io_id io b (p_k x) Hb) at 1. exact Hrun.
Qed.

Lemma runs_ioreg_read rf reg bi p h o io m n b d x :
  reg_ready rf reg bi p h o io m n b x -> zlen d = 2 * n -> Forall is_byte d ->
  (forall k, 0 <= k < n ->
     fpga_read (r_writes (k_drv (p_k x))) (u32 (mapped m (io_loc reg)) + 2 * k)
     = field (2 * k) 2 d) ->
  exists b', runs (ioreg_reg_read ops_at rf (2 * n)) x (2 * n, d, 2 * n)
    (after_io io b' (r_writes (k_drv (p_k x))) x).
Proof.
  intros [Hf Hp [v Ht] Hi Hm Hr Ho Hc Hup Hs Hb Hpg] Hz Hd Hrd. destruct x as [s u]. cbn in *.
  destruct (runs_read_iobuf reg o io m n d b (sem s) (r_writes (k_drv s))
    (ht_upd p atomic_inc s) (<[rf_task rf := v + 1]> u) Hup Hpg Hz Hs Hd Hrd)
    as (b' & Hrun).
  exists b'. unfold ioreg_reg_read. rewrite Hf, Hp.
  pose proof Hup as [_ _ _ Hpi Hlen Hsz _]. rewrite Hpi. cbn [andb].
  eapply runs_bind; [unfold runs, get_proc_task, mbind, mgets; cbn; rewrite Ht; reflexivity|].
  cbn [negb]. eapply runs_bind; [apply runs_gets|]. cbn [p_k]. rewrite Hi. eapply runs_bind.
  - rewrite Hm. cbn [Z.eqb]. rewrite wraps_small by lia. rewrite (proj2 (Z.ltb_ge _ _)) by lia.
    unfold read_capped. rewrite (proj2 (Z.ltb_ge _ _)) by (unfold IOBUF_HDR, IOBUF_SIZE in *; lia).
    eapply runs_bind; [by apply runs_on_k, runs_get_hwrops|]. rewrite Ho.
    eapply runs_bind.
    + rewrite <- (with_io_id io b s Hb) at 1. exact Hrun.
    + eapply runs_bind; [|apply runs_ret]. apply runs_on_k. eapply runs_put_hwrops.
      exact (registered_ht_upd s _ p h atomic_inc Hr).
  - eapply runs_bind; [apply runs_modify|]. unfold runs, mret, after_io. cbn [p_k p_use].
    rewrite put_get_task by done. do 3 f_equal. destruct Hr as (_ & _ & Hh).
    pose proof (ht_upd_balanced s p h Hh Hc) as E. apply (f_equal k_htheap) in E.
    apply kstate_eq; try reflexivity. exact E.
Qed.

(** C4. On the RHINO driver and an FPGA whose registers hold what was written, the
bytes a process writes to a register file (raw mode, from the start of the
register, an even number of bytes that fits one buffer) are the bytes it reads
back; both calls report the full count and move the position behind the bytes;
the buffer's mutex, the driver's use count and the task's usage count are
balanced. *)
Theorem ioreg_write_read rf reg bi p h o io m n b d x :
  (forall w a v, bus_memory w a = Some v -> fpga_read w a = v) ->
  reg_ready rf reg bi p h o io m n b x -> zlen d = 2 * n -> Forall is_byte d ->
  exists w b1 b2,
    runs (ioreg_reg_write ops_at stack rf d (2 * n)) x (2 * n, 2 * n) (after_io io b1 w x)
    /\ runs (ioreg_reg_read ops_at rf (2 * n)) (after_io io b1 w x) (2 * n, d, 2 * n)
         (after_io io b2 w x).
Proof.
  intros Hmem Hrr Hz Hd.
  destruct (runs_ioreg_write rf reg bi p h o io m n b d x Hrr Hz Hd) as (w & b1 & Hw & Hpg & _ & Hk).
  assert (reg_ready rf reg bi p h o io m n b1 (after_io io b1 w x)) as Hrr1.
  { destruct Hrr as [Hf Hp Ht Hi Hm Hr Ho Hc [] Hs Hb _].
    split; try done. cbn -[insert]. by rewrite lookup_insert_eq. }
  destruct (runs_ioreg_read rf reg bi p h o io m n b1 d _ Hrr1 Hz Hd) as [b2 Hr].
  { intros k Hk0. apply Hmem. by apply Hk. }
  exists w, b1, b2. split; [exact Hw|]. eapply runs_eq; [exact Hr|].
  unfold after_io. cbn [p_k p_use]. f_equal. apply with_io_with_io.
Qed.

(** ** A write that fails to copy *)
Lemma runs_write_fault reg o io m n b w s u :
  reg_up reg o io m n (k_drv s) ->
  runs (write_iobuf stack (ops_at o) reg 1 [] (2 * n) 0) (PState (with_io io b 1 w s) u)
    (- EINVAL, 0)
    (PState (with_io io (HwrIobuf (io_location b) (io_offset b) IOBUF_SIZE (io_data b)) 0 w s) u).
Proof.
  intros [Hd Hio Hbus Hpi Hlen Hsz Hrg]. unfold write_iobuf. rewrite Hd.
  cbn [rhino_hwr_operations op_get_iobuf op_send_iobuf op_put_iobuf Z.eqb Pos.eqb].
  apply runs_bind with (a := inr (- EFAULT)) (s1 :=
    PState (with_io io (HwrIobuf (io_location b) (io_offset b) IOBUF_SIZE (io_data b)) 0 w s) u);
    [|apply runs_ret].
  unfold ioreg_reg_cp_udata_raw. eapply runs_bind; [by apply runs_on_k, runs_rhino_get_iobuf|].
  cbv iota. eapply runs_bind; [apply runs_on_k, runs_iobuf_load_io|].
  cbn [io_size]. change (IOBUF_SIZE =? 0) with false. cbv iota. unfold copy_from_user.
  rewrite (proj2 (Z.leb_gt _ (zlen (@nil Z)))).
  - rewrite andb_false_r. apply runs_ret.
  - rewrite wraps_small by lia. change (zlen (@nil Z)) with 0.
    unfold IOBUF_SIZE, PAGE_SIZE in *. lia.
Qed.

(** A raw write whose user buffer cannot be read fails, but does not give the
static buffer back: the driver's mutex stays taken, so the next access to any
register of the device sleeps forever (when no signal ends the sleep). *)
Lemma ioreg_write_fault_blocks rf reg bi p h o io m n b x :
  reg_ready rf reg bi p h o io m n b x -> sem (p_k x) = 1 -> r_sig (k_drv (p_k x)) = false ->
  exists x1,
    runs (ioreg_reg_write ops_at stack rf [] (2 * n)) x (- EINVAL, 0) x1
    /\ ioreg_reg_read ops_at rf (2 * n) x1 = Fault Blocked.
Proof.
  intros Hrr H1 Hsig. pose proof Hrr as [Hf Hp [v Ht] Hi Hm Hr Ho Hc Hup Hs Hb Hpg].
  pose proof Hup as [Hd Hio Hbus Hpi Hlen Hsz Hrg].
  set (b1 := HwrIobuf (io_location b) (io_offset b) IOBUF_SIZE (io_data b)).
  set (s1 := with_io io b1 0 (r_writes (k_drv (p_k x))) (p_k x)).
  exists (PState s1 (p_use x)). split.
  - eapply runs_write_around; [exact Hrr|done|done|]. intros u.
    rewrite <- (with_io_id io b (p_k x) Hb) at 1. rewrite H1.
    exact (runs_write_fault reg o io m n b _ (ht_upd p atomic_inc (p_k x)) u Hup).
  - unfold ioreg_reg_read. rewrite Hf, Hp, Hpi. cbn [andb].
    erewrite mbind_run by (unfold runs, get_proc_task, mbind, mgets; cbn; rewrite Ht; reflexivity).
    cbn [negb]. erewrite mbind_run by apply runs_gets. cbn [p_k].
    change (k_infos s1) with (k_infos (p_k x)).
    rewrite Hi, Hm. cbn [Z.eqb]. rewrite wraps_small by lia.
    rewrite (proj2 (Z.ltb_ge _ _)) by lia. unfold read_capped.
    unfold mbind at 1. assert (registered s1 (class (io_hwraddr reg)) p h) as Hr1 by exact Hr.
    erewrite mbind_run by by apply runs_on_k, runs_get_hwrops. rewrite Ho.
    unfold mbind at 1, read_iobuf. rewrite Hd.
    cbn [rhino_hwr_operations op_get_iobuf op_recv_iobuf op_put_iobuf].
    unfold mbind at 1, on_k, rhino_get_iobuf. unfold mbind at 1, down_interruptible.
    unfold mbind at 1, drv, mgets. cbn -[insert]. unfold mbind. cbn -[insert]. by rewrite Hsig.
Qed.
End regs.
