(* ===== verification/ElfDef.v ===== *)
(** * The built-in ELF images of mkbof

The byte arrays of [src/borph/tools/borph/include/elf_def.h]: the programs that
do nothing but sleep, which mkbof embeds when no ELF file is given. *)
From stdpp Require Import base list.
From Stdlib Require Import ZArith.
Open Scope Z_scope.

Definition default_arm_elf_bin : list Z := [
  127; 69; 76; 70; 1; 1; 1; 0; 0; 0; 0; 0; 0; 0; 0; 0; 2; 0; 40; 0; 1; 0; 0; 0;
  84; 131; 0; 0; 52; 0; 0; 0; 52; 7; 0; 0; 2; 0; 0; 5; 52; 0; 32; 0; 8; 0; 40; 0;
  27; 0; 26; 0; 1; 0; 0; 112; 136; 4; 0; 0; 136; 132; 0; 0; 136; 132; 0; 0; 72; 0; 0; 0;
  72; 0; 0; 0; 4; 0; 0; 0; 4; 0; 0; 0; 6; 0; 0; 0; 52; 0; 0; 0; 52; 128; 0; 0;
  52; 128; 0; 0; 0; 1; 0; 0; 0; 1; 0; 0; 5; 0; 0; 0; 4; 0; 0; 0; 3; 0; 0; 0;
  52; 1; 0; 0; 52; 129; 0; 0; 52; 129; 0; 0; 19; 0; 0; 0; 19; 0; 0; 0; 4; 0; 0; 0;
  1; 0; 0; 0; 1; 0; 0; 0; 0; 0; 0; 0; 0; 128; 0; 0; 0; 128; 0; 0; 212; 4; 0; 0;
  212; 4; 0; 0; 5; 0; 0; 0; 0; 128; 0; 0; 1; 0; 0; 0; 212; 4; 0; 0; 212; 4; 1; 0;
  212; 4; 1; 0; 36; 1; 0; 0; 40; 1; 0; 0; 6; 0; 0; 0; 0; 128; 0; 0; 2; 0; 0; 0;
  224; 4; 0; 0; 224; 4; 1; 0; 224; 4; 1; 0; 240; 0; 0; 0; 240; 0; 0; 0; 6; 0; 0; 0;
  4; 0; 0; 0; 4; 0; 0; 0; 72; 1; 0; 0; 72; 129; 0; 0; 72; 129; 0; 0; 32; 0; 0; 0;
  32; 0; 0; 0; 4; 0; 0; 0; 4; 0; 0; 0; 81; 229; 116; 100; 0; 0; 0; 0; 0; 0; 0; 0;
  0; 0; 0; 0; 0; 0; 0; 0; 0; 0; 0; 0; 6; 0; 0; 0; 4; 0; 0; 0; 47; 108; 105; 98;
  47; 108; 100; 45; 108; 105; 110; 117; 120; 46; 115; 111; 46; 51; 0; 0; 4; 0; 0; 0; 16; 0; 0; 0;
  1; 0; 0; 0; 71; 78; 85; 0; 0; 0; 0; 0; 2; 0; 0; 0; 6; 0; 0; 0; 14; 0; 0; 0;
  3; 0; 0; 0; 7; 0; 0; 0; 6; 0; 0; 0; 3; 0; 0; 0; 1; 0; 0; 0; 0; 0; 0; 0;
  0; 0; 0; 0; 0; 0; 0; 0; 2; 0; 0; 0; 0; 0; 0; 0; 4; 0; 0; 0; 5; 0; 0; 0;
  0; 0; 0; 0; 0; 0; 0; 0; 0; 0; 0; 0; 0; 0; 0; 0; 83; 0; 0; 0; 36; 131; 0; 0;
  0; 0; 0; 0; 18; 0; 0; 0; 95; 0; 0; 0; 48; 131; 0; 0; 0; 0; 0; 0; 18; 0; 0; 0;
  15; 0; 0; 0; 0; 0; 0; 0; 0; 0; 0; 0; 18; 0; 0; 0; 38; 0; 0; 0; 0; 0; 0; 0;
  0; 0; 0; 0; 32; 0; 0; 0; 53; 0; 0; 0; 0; 0; 0; 0; 0; 0; 0; 0; 32; 0; 0; 0;
  89; 0; 0; 0; 72; 131; 0; 0; 0; 0; 0; 0; 18; 0; 0; 0; 0; 108; 105; 98; 103; 99; 99; 95;
  115; 46; 115; 111; 46; 49; 0; 95; 95; 97; 101; 97; 98; 105; 95; 117; 110; 119; 105; 110; 100; 95; 99; 112;
  112; 95; 112; 114; 48; 0; 95; 95; 103; 109; 111; 110; 95; 115; 116; 97; 114; 116; 95; 95; 0; 95; 74; 118;
  95; 82; 101; 103; 105; 115; 116; 101; 114; 67; 108; 97; 115; 115; 101; 115; 0; 108; 105; 98; 99; 46; 115; 111;
  46; 54; 0; 97; 98; 111; 114; 116; 0; 115; 108; 101; 101; 112; 0; 95; 95; 108; 105; 98; 99; 95; 115; 116;
  97; 114; 116; 95; 109; 97; 105; 110; 0; 71; 67; 67; 95; 51; 46; 53; 0; 71; 76; 73; 66; 67; 95; 50;
  46; 52; 0; 0; 0; 0; 2; 0; 2; 0; 3; 0; 0; 0; 0; 0; 2; 0; 0; 0; 1; 0; 1; 0;
  1; 0; 0; 0; 16; 0; 0; 0; 32; 0; 0; 0; 85; 38; 121; 11; 0; 0; 3; 0; 113; 0; 0; 0;
  0; 0; 0; 0; 1; 0; 1; 0; 73; 0; 0; 0; 16; 0; 0; 0; 0; 0; 0; 0; 20; 105; 105; 13;
  0; 0; 2; 0; 121; 0; 0; 0; 0; 0; 0; 0; 236; 5; 1; 0; 21; 4; 0; 0; 220; 5; 1; 0;
  22; 1; 0; 0; 224; 5; 1; 0; 22; 2; 0; 0; 228; 5; 1; 0; 22; 4; 0; 0; 232; 5; 1; 0;
  22; 6; 0; 0; 16; 64; 45; 233; 31; 0; 0; 235; 16; 128; 189; 232; 4; 224; 45; 229; 4; 224; 159; 229;
  14; 224; 143; 224; 8; 240; 190; 229; 176; 130; 0; 0; 0; 198; 143; 226; 8; 202; 140; 226; 176; 242; 188; 229;
  0; 198; 143; 226; 8; 202; 140; 226; 168; 242; 188; 229; 0; 198; 143; 226; 8; 202; 140; 226; 160; 242; 188; 229;
  0; 198; 143; 226; 8; 202; 140; 226; 152; 242; 188; 229; 36; 192; 159; 229; 0; 176; 160; 227; 4; 16; 157; 228;
  13; 32; 160; 225; 4; 32; 45; 229; 4; 0; 45; 229; 16; 0; 159; 229; 16; 48; 159; 229; 4; 192; 45; 229;
  236; 255; 255; 235; 232; 255; 255; 235; 12; 132; 0; 0; 252; 131; 0; 0; 16; 132; 0; 0; 20; 48; 159; 229;
  20; 32; 159; 229; 3; 48; 143; 224; 2; 16; 147; 231; 0; 0; 81; 227; 30; 255; 47; 1; 228; 255; 255; 234;
  52; 130; 0; 0; 28; 0; 0; 0; 16; 32; 159; 229; 0; 48; 210; 229; 0; 0; 83; 227; 1; 48; 160; 3;
  0; 48; 194; 5; 30; 255; 47; 225; 248; 5; 1; 0; 32; 0; 159; 229; 16; 64; 45; 233; 0; 48; 144; 229;
  0; 0; 83; 227; 16; 128; 189; 8; 16; 48; 159; 229; 0; 0; 83; 227; 16; 128; 189; 8; 51; 255; 47; 225;
  16; 128; 189; 232; 220; 4; 1; 0; 0; 0; 0; 0; 16; 64; 45; 233; 208; 255; 255; 235; 207; 255; 255; 235;
  252; 255; 255; 234; 30; 255; 47; 225; 240; 71; 45; 233; 1; 128; 160; 225; 2; 112; 160; 225; 0; 160; 160; 225;
  183; 255; 255; 235; 68; 16; 159; 229; 68; 48; 159; 229; 68; 32; 159; 229; 3; 48; 97; 224; 2; 32; 143; 224;
  67; 81; 176; 225; 1; 32; 130; 224; 240; 135; 189; 8; 2; 96; 160; 225; 0; 64; 160; 227; 10; 0; 160; 225;
  8; 16; 160; 225; 7; 32; 160; 225; 15; 224; 160; 225; 4; 241; 150; 231; 1; 64; 132; 226; 5; 0; 84; 225;
  247; 255; 255; 58; 240; 135; 189; 232; 4; 255; 255; 255; 8; 255; 255; 255; 148; 129; 0; 0; 16; 64; 45; 233;
  16; 128; 189; 232; 1; 0; 2; 0; 120; 123; 255; 127; 176; 176; 176; 128; 128; 254; 255; 127; 1; 0; 0; 0;
  244; 254; 255; 127; 176; 176; 176; 128; 44; 255; 255; 127; 176; 176; 168; 128; 100; 255; 255; 127; 176; 176; 176; 128;
  96; 255; 255; 127; 176; 176; 174; 128; 196; 255; 255; 127; 1; 0; 0; 0; 64; 123; 255; 127; 176; 176; 176; 128;
  188; 255; 255; 127; 1; 0; 0; 0; 0; 0; 0; 0; 204; 131; 0; 0; 176; 131; 0; 0; 0; 0; 0; 0;
  1; 0; 0; 0; 1; 0; 0; 0; 1; 0; 0; 0; 73; 0; 0; 0; 12; 0; 0; 0; 4; 131; 0; 0;
  13; 0; 0; 0; 124; 132; 0; 0; 25; 0; 0; 0; 212; 4; 1; 0; 27; 0; 0; 0; 4; 0; 0; 0;
  26; 0; 0; 0; 216; 4; 1; 0; 28; 0; 0; 0; 4; 0; 0; 0; 4; 0; 0; 0; 104; 129; 0; 0;
  5; 0; 0; 0; 8; 130; 0; 0; 6; 0; 0; 0; 152; 129; 0; 0; 10; 0; 0; 0; 131; 0; 0; 0;
  11; 0; 0; 0; 16; 0; 0; 0; 21; 0; 0; 0; 0; 0; 0; 0; 3; 0; 0; 0; 208; 5; 1; 0;
  2; 0; 0; 0; 32; 0; 0; 0; 20; 0; 0; 0; 17; 0; 0; 0; 23; 0; 0; 0; 228; 130; 0; 0;
  17; 0; 0; 0; 220; 130; 0; 0; 18; 0; 0; 0; 8; 0; 0; 0; 19; 0; 0; 0; 8; 0; 0; 0;
  254; 255; 255; 111; 156; 130; 0; 0; 255; 255; 255; 111; 2; 0; 0; 0; 240; 255; 255; 111; 140; 130; 0; 0;
  0; 0; 0; 0; 0; 0; 0; 0; 0; 0; 0; 0; 0; 0; 0; 0; 0; 0; 0; 0; 0; 0; 0; 0;
  0; 0; 0; 0; 0; 0; 0; 0; 0; 0; 0; 0; 0; 0; 0; 0; 0; 0; 0; 0; 0; 0; 0; 0;
  224; 4; 1; 0; 0; 0; 0; 0; 0; 0; 0; 0; 16; 131; 0; 0; 16; 131; 0; 0; 16; 131; 0; 0;
  16; 131; 0; 0; 0; 0; 0; 0; 0; 0; 0; 0; 0; 0; 0; 0; 65; 44; 0; 0; 0; 97; 101; 97;
  98; 105; 0; 1; 34; 0; 0; 0; 5; 65; 82; 77; 49; 48; 84; 68; 77; 73; 0; 6; 3; 8; 1; 9;
  1; 18; 4; 20; 1; 21; 1; 23; 3; 24; 1; 26; 2; 0; 71; 67; 67; 58; 32; 40; 83; 111; 117; 114;
  99; 101; 114; 121; 32; 71; 43; 43; 32; 76; 105; 116; 101; 32; 50; 48; 48; 57; 113; 49; 45; 50; 48; 51;
  41; 32; 52; 46; 51; 46; 51; 0; 0; 46; 115; 104; 115; 116; 114; 116; 97; 98; 0; 46; 105; 110; 116; 101;
  114; 112; 0; 46; 110; 111; 116; 101; 46; 65; 66; 73; 45; 116; 97; 103; 0; 46; 104; 97; 115; 104; 0; 46;
  100; 121; 110; 115; 121; 109; 0; 46; 100; 121; 110; 115; 116; 114; 0; 46; 103; 110; 117; 46; 118; 101; 114; 115;
  105; 111; 110; 0; 46; 103; 110; 117; 46; 118; 101; 114; 115; 105; 111; 110; 95; 114; 0; 46; 114; 101; 108; 46;
  100; 121; 110; 0; 46; 114; 101; 108; 46; 112; 108; 116; 0; 46; 105; 110; 105; 116; 0; 46; 116; 101; 120; 116;
  0; 46; 102; 105; 110; 105; 0; 46; 114; 111; 100; 97; 116; 97; 0; 46; 65; 82; 77; 46; 101; 120; 105; 100;
  120; 0; 46; 101; 104; 95; 102; 114; 97; 109; 101; 0; 46; 105; 110; 105; 116; 95; 97; 114; 114; 97; 121; 0;
  46; 102; 105; 110; 105; 95; 97; 114; 114; 97; 121; 0; 46; 106; 99; 114; 0; 46; 100; 121; 110; 97; 109; 105;
  99; 0; 46; 103; 111; 116; 0; 46; 100; 97; 116; 97; 0; 46; 98; 115; 115; 0; 46; 65; 82; 77; 46; 97;
  116; 116; 114; 105; 98; 117; 116; 101; 115; 0; 46; 99; 111; 109; 109; 101; 110; 116; 0; 0; 0; 0; 0; 0;
  0; 0; 0; 0; 0; 0; 0; 0; 0; 0; 0; 0; 0; 0; 0; 0; 0; 0; 0; 0; 0; 0; 0; 0;
  0; 0; 0; 0; 0; 0; 0; 0; 0; 0; 0; 0; 11; 0; 0; 0; 1; 0; 0; 0; 2; 0; 0; 0;
  52; 129; 0; 0; 52; 1; 0; 0; 19; 0; 0; 0; 0; 0; 0; 0; 0; 0; 0; 0; 1; 0; 0; 0;
  0; 0; 0; 0; 19; 0; 0; 0; 7; 0; 0; 0; 2; 0; 0; 0; 72; 129; 0; 0; 72; 1; 0; 0;
  32; 0; 0; 0; 0; 0; 0; 0; 0; 0; 0; 0; 4; 0; 0; 0; 0; 0; 0; 0; 33; 0; 0; 0;
  5; 0; 0; 0; 2; 0; 0; 0; 104; 129; 0; 0; 104; 1; 0; 0; 48; 0; 0; 0; 4; 0; 0; 0;
  0; 0; 0; 0; 4; 0; 0; 0; 4; 0; 0; 0; 39; 0; 0; 0; 11; 0; 0; 0; 2; 0; 0; 0;
  152; 129; 0; 0; 152; 1; 0; 0; 112; 0; 0; 0; 5; 0; 0; 0; 1; 0; 0; 0; 4; 0; 0; 0;
  16; 0; 0; 0; 47; 0; 0; 0; 3; 0; 0; 0; 2; 0; 0; 0; 8; 130; 0; 0; 8; 2; 0; 0;
  131; 0; 0; 0; 0; 0; 0; 0; 0; 0; 0; 0; 1; 0; 0; 0; 0; 0; 0; 0; 55; 0; 0; 0;
  255; 255; 255; 111; 2; 0; 0; 0; 140; 130; 0; 0; 140; 2; 0; 0; 14; 0; 0; 0; 4; 0; 0; 0;
  0; 0; 0; 0; 2; 0; 0; 0; 2; 0; 0; 0; 68; 0; 0; 0; 254; 255; 255; 111; 2; 0; 0; 0;
  156; 130; 0; 0; 156; 2; 0; 0; 64; 0; 0; 0; 5; 0; 0; 0; 2; 0; 0; 0; 4; 0; 0; 0;
  0; 0; 0; 0; 83; 0; 0; 0; 9; 0; 0; 0; 2; 0; 0; 0; 220; 130; 0; 0; 220; 2; 0; 0;
  8; 0; 0; 0; 4; 0; 0; 0; 0; 0; 0; 0; 4; 0; 0; 0; 8; 0; 0; 0; 92; 0; 0; 0;
  9; 0; 0; 0; 2; 0; 0; 0; 228; 130; 0; 0; 228; 2; 0; 0; 32; 0; 0; 0; 4; 0; 0; 0;
  11; 0; 0; 0; 4; 0; 0; 0; 8; 0; 0; 0; 101; 0; 0; 0; 1; 0; 0; 0; 6; 0; 0; 0;
  4; 131; 0; 0; 4; 3; 0; 0; 12; 0; 0; 0; 0; 0; 0; 0; 0; 0; 0; 0; 4; 0; 0; 0;
  0; 0; 0; 0; 96; 0; 0; 0; 1; 0; 0; 0; 6; 0; 0; 0; 16; 131; 0; 0; 16; 3; 0; 0;
  68; 0; 0; 0; 0; 0; 0; 0; 0; 0; 0; 0; 4; 0; 0; 0; 4; 0; 0; 0; 107; 0; 0; 0;
  1; 0; 0; 0; 6; 0; 0; 0; 84; 131; 0; 0; 84; 3; 0; 0; 40; 1; 0; 0; 0; 0; 0; 0;
  0; 0; 0; 0; 4; 0; 0; 0; 0; 0; 0; 0; 113; 0; 0; 0; 1; 0; 0; 0; 6; 0; 0; 0;
  124; 132; 0; 0; 124; 4; 0; 0; 8; 0; 0; 0; 0; 0; 0; 0; 0; 0; 0; 0; 4; 0; 0; 0;
  0; 0; 0; 0; 119; 0; 0; 0; 1; 0; 0; 0; 18; 0; 0; 0; 132; 132; 0; 0; 132; 4; 0; 0;
  4; 0; 0; 0; 0; 0; 0; 0; 0; 0; 0; 0; 4; 0; 0; 0; 4; 0; 0; 0; 127; 0; 0; 0;
  1; 0; 0; 112; 130; 0; 0; 0; 136; 132; 0; 0; 136; 4; 0; 0; 72; 0; 0; 0; 12; 0; 0; 0;
  0; 0; 0; 0; 4; 0; 0; 0; 0; 0; 0; 0; 138; 0; 0; 0; 1; 0; 0; 0; 2; 0; 0; 0;
  208; 132; 0; 0; 208; 4; 0; 0; 4; 0; 0; 0; 0; 0; 0; 0; 0; 0; 0; 0; 4; 0; 0; 0;
  0; 0; 0; 0; 148; 0; 0; 0; 14; 0; 0; 0; 3; 0; 0; 0; 212; 4; 1; 0; 212; 4; 0; 0;
  4; 0; 0; 0; 0; 0; 0; 0; 0; 0; 0; 0; 4; 0; 0; 0; 0; 0; 0; 0; 160; 0; 0; 0;
  15; 0; 0; 0; 3; 0; 0; 0; 216; 4; 1; 0; 216; 4; 0; 0; 4; 0; 0; 0; 0; 0; 0; 0;
  0; 0; 0; 0; 4; 0; 0; 0; 0; 0; 0; 0; 172; 0; 0; 0; 1; 0; 0; 0; 3; 0; 0; 0;
  220; 4; 1; 0; 220; 4; 0; 0; 4; 0; 0; 0; 0; 0; 0; 0; 0; 0; 0; 0; 4; 0; 0; 0;
  0; 0; 0; 0; 177; 0; 0; 0; 6; 0; 0; 0; 3; 0; 0; 0; 224; 4; 1; 0; 224; 4; 0; 0;
  240; 0; 0; 0; 5; 0; 0; 0; 0; 0; 0; 0; 4; 0; 0; 0; 8; 0; 0; 0; 186; 0; 0; 0;
  1; 0; 0; 0; 3; 0; 0; 0; 208; 5; 1; 0; 208; 5; 0; 0; 32; 0; 0; 0; 0; 0; 0; 0;
  0; 0; 0; 0; 4; 0; 0; 0; 4; 0; 0; 0; 191; 0; 0; 0; 1; 0; 0; 0; 3; 0; 0; 0;
  240; 5; 1; 0; 240; 5; 0; 0; 8; 0; 0; 0; 0; 0; 0; 0; 0; 0; 0; 0; 4; 0; 0; 0;
  0; 0; 0; 0; 197; 0; 0; 0; 8; 0; 0; 0; 3; 0; 0; 0; 248; 5; 1; 0; 248; 5; 0; 0;
  4; 0; 0; 0; 0; 0; 0; 0; 0; 0; 0; 0; 1; 0; 0; 0; 0; 0; 0; 0; 202; 0; 0; 0;
  3; 0; 0; 112; 0; 0; 0; 0; 0; 0; 0; 0; 248; 5; 0; 0; 45; 0; 0; 0; 0; 0; 0; 0;
  0; 0; 0; 0; 1; 0; 0; 0; 0; 0; 0; 0; 218; 0; 0; 0; 1; 0; 0; 0; 0; 0; 0; 0;
  0; 0; 0; 0; 37; 6; 0; 0; 43; 0; 0; 0; 0; 0; 0; 0; 0; 0; 0; 0; 1; 0; 0; 0;
  0; 0; 0; 0; 1; 0; 0; 0; 3; 0; 0; 0; 0; 0; 0; 0; 0; 0; 0; 0; 80; 6; 0; 0;
  227; 0; 0; 0; 0; 0; 0; 0; 0; 0; 0; 0; 1; 0; 0; 0; 0; 0; 0; 0; 1; 0; 0; 0;
  16; 131; 0; 0; 0; 0; 0; 0; 0; 0; 11; 0; 4; 0; 0; 0; 32; 131; 0; 0; 0; 0; 0; 0;
  0; 0; 11; 0; 1; 0; 0; 0; 36; 131; 0; 0; 0; 0; 0; 0; 0; 0; 11; 0; 0; 36; 97; 0;
  36; 100; 0
].

Definition default_x86_elf_bin : list Z := [
  127; 69; 76; 70; 1; 1; 1; 0; 0; 0; 0; 0; 0; 0; 0; 0; 2; 0; 3; 0; 1; 0; 0; 0;
  16; 131; 4; 8; 52; 0; 0; 0; 220; 17; 0; 0; 0; 0; 0; 0; 52; 0; 32; 0; 8; 0; 40; 0;
  27; 0; 26; 0; 6; 0; 0; 0; 52; 0; 0; 0; 52; 128; 4; 8; 52; 128; 4; 8; 0; 1; 0; 0;
  0; 1; 0; 0; 5; 0; 0; 0; 4; 0; 0; 0; 3; 0; 0; 0; 52; 1; 0; 0; 52; 129; 4; 8;
  52; 129; 4; 8; 19; 0; 0; 0; 19; 0; 0; 0; 4; 0; 0; 0; 1; 0; 0; 0; 1; 0; 0; 0;
  0; 0; 0; 0; 0; 128; 4; 8; 0; 128; 4; 8; 180; 4; 0; 0; 180; 4; 0; 0; 5; 0; 0; 0;
  0; 16; 0; 0; 1; 0; 0; 0; 12; 15; 0; 0; 12; 159; 4; 8; 12; 159; 4; 8; 8; 1; 0; 0;
  16; 1; 0; 0; 6; 0; 0; 0; 0; 16; 0; 0; 2; 0; 0; 0; 32; 15; 0; 0; 32; 159; 4; 8;
  32; 159; 4; 8; 208; 0; 0; 0; 208; 0; 0; 0; 6; 0; 0; 0; 4; 0; 0; 0; 4; 0; 0; 0;
  72; 1; 0; 0; 72; 129; 4; 8; 72; 129; 4; 8; 32; 0; 0; 0; 32; 0; 0; 0; 4; 0; 0; 0;
  4; 0; 0; 0; 81; 229; 116; 100; 0; 0; 0; 0; 0; 0; 0; 0; 0; 0; 0; 0; 0; 0; 0; 0;
  0; 0; 0; 0; 6; 0; 0; 0; 4; 0; 0; 0; 82; 229; 116; 100; 12; 15; 0; 0; 12; 159; 4; 8;
  12; 159; 4; 8; 244; 0; 0; 0; 244; 0; 0; 0; 4; 0; 0; 0; 1; 0; 0; 0; 47; 108; 105; 98;
  47; 108; 100; 45; 108; 105; 110; 117; 120; 46; 115; 111; 46; 50; 0; 0; 4; 0; 0; 0; 16; 0; 0; 0;
  1; 0; 0; 0; 71; 78; 85; 0; 0; 0; 0; 0; 2; 0; 0; 0; 6; 0; 0; 0; 15; 0; 0; 0;
  3; 0; 0; 0; 5; 0; 0; 0; 3; 0; 0; 0; 2; 0; 0; 0; 4; 0; 0; 0; 0; 0; 0; 0;
  0; 0; 0; 0; 0; 0; 0; 0; 1; 0; 0; 0; 0; 0; 0; 0; 2; 0; 0; 0; 4; 0; 0; 0;
  1; 0; 0; 0; 5; 0; 0; 0; 0; 32; 0; 32; 0; 0; 0; 0; 4; 0; 0; 0; 173; 75; 227; 192;
  0; 0; 0; 0; 0; 0; 0; 0; 0; 0; 0; 0; 0; 0; 0; 0; 1; 0; 0; 0; 0; 0; 0; 0;
  0; 0; 0; 0; 32; 0; 0; 0; 47; 0; 0; 0; 0; 0; 0; 0; 0; 0; 0; 0; 18; 0; 0; 0;
  41; 0; 0; 0; 0; 0; 0; 0; 0; 0; 0; 0; 18; 0; 0; 0; 26; 0; 0; 0; 172; 132; 4; 8;
  4; 0; 0; 0; 17; 0; 15; 0; 0; 95; 95; 103; 109; 111; 110; 95; 115; 116; 97; 114; 116; 95; 95; 0;
  108; 105; 98; 99; 46; 115; 111; 46; 54; 0; 95; 73; 79; 95; 115; 116; 100; 105; 110; 95; 117; 115; 101; 100;
  0; 115; 108; 101; 101; 112; 0; 95; 95; 108; 105; 98; 99; 95; 115; 116; 97; 114; 116; 95; 109; 97; 105; 110;
  0; 71; 76; 73; 66; 67; 95; 50; 46; 48; 0; 0; 0; 0; 0; 0; 2; 0; 2; 0; 1; 0; 0; 0;
  1; 0; 1; 0; 16; 0; 0; 0; 16; 0; 0; 0; 0; 0; 0; 0; 16; 105; 105; 13; 0; 0; 2; 0;
  65; 0; 0; 0; 0; 0; 0; 0; 240; 159; 4; 8; 6; 1; 0; 0; 0; 160; 4; 8; 7; 1; 0; 0;
  4; 160; 4; 8; 7; 2; 0; 0; 8; 160; 4; 8; 7; 3; 0; 0; 85; 137; 229; 83; 131; 236; 4; 232;
  0; 0; 0; 0; 91; 129; 195; 80; 29; 0; 0; 139; 147; 252; 255; 255; 255; 133; 210; 116; 5; 232; 30; 0;
  0; 0; 232; 225; 0; 0; 0; 232; 156; 1; 0; 0; 88; 91; 201; 195; 255; 53; 248; 159; 4; 8; 255; 37;
  252; 159; 4; 8; 0; 0; 0; 0; 255; 37; 0; 160; 4; 8; 104; 0; 0; 0; 0; 233; 224; 255; 255; 255;
  255; 37; 4; 160; 4; 8; 104; 8; 0; 0; 0; 233; 208; 255; 255; 255; 255; 37; 8; 160; 4; 8; 104; 16;
  0; 0; 0; 233; 192; 255; 255; 255; 0; 0; 0; 0; 0; 0; 0; 0; 49; 237; 94; 137; 225; 131; 228; 240;
  80; 84; 82; 104; 240; 131; 4; 8; 104; 0; 132; 4; 8; 81; 86; 104; 208; 131; 4; 8; 232; 183; 255; 255;
  255; 244; 144; 144; 144; 144; 144; 144; 144; 144; 144; 144; 144; 144; 144; 144; 85; 137; 229; 83; 131; 236; 4; 128;
  61; 20; 160; 4; 8; 0; 117; 64; 139; 21; 24; 160; 4; 8; 184; 24; 159; 4; 8; 45; 20; 159; 4; 8;
  193; 248; 2; 141; 88; 255; 57; 218; 115; 31; 141; 182; 0; 0; 0; 0; 141; 66; 1; 163; 24; 160; 4; 8;
  255; 20; 133; 20; 159; 4; 8; 139; 21; 24; 160; 4; 8; 57; 218; 114; 231; 198; 5; 20; 160; 4; 8; 1;
  131; 196; 4; 91; 93; 195; 141; 118; 0; 141; 188; 39; 0; 0; 0; 0; 85; 137; 229; 131; 236; 8; 161; 28;
  159; 4; 8; 133; 192; 116; 18; 184; 0; 0; 0; 0; 133; 192; 116; 9; 199; 4; 36; 28; 159; 4; 8; 255;
  208; 201; 195; 144; 144; 144; 144; 144; 144; 144; 144; 144; 144; 144; 144; 144; 141; 76; 36; 4; 131; 228; 240; 255;
  113; 252; 85; 137; 229; 81; 131; 236; 4; 141; 180; 38; 0; 0; 0; 0; 232; 11; 255; 255; 255; 235; 249; 144;
  85; 137; 229; 93; 195; 141; 116; 38; 0; 141; 188; 39; 0; 0; 0; 0; 85; 137; 229; 87; 86; 83; 232; 79;
  0; 0; 0; 129; 195; 233; 27; 0; 0; 131; 236; 12; 232; 127; 254; 255; 255; 141; 187; 24; 255; 255; 255; 141;
  131; 24; 255; 255; 255; 41; 199; 193; 255; 2; 133; 255; 116; 36; 49; 246; 139; 69; 16; 137; 68; 36; 8; 139;
  69; 12; 137; 68; 36; 4; 139; 69; 8; 137; 4; 36; 255; 148; 179; 24; 255; 255; 255; 131; 198; 1; 57; 254;
  114; 222; 131; 196; 12; 91; 94; 95; 93; 195; 139; 28; 36; 195; 144; 144; 85; 137; 229; 83; 131; 236; 4; 161;
  12; 159; 4; 8; 131; 248; 255; 116; 19; 187; 12; 159; 4; 8; 102; 144; 131; 235; 4; 255; 208; 139; 3; 131;
  248; 255; 117; 244; 131; 196; 4; 91; 93; 195; 144; 144; 85; 137; 229; 83; 131; 236; 4; 232; 0; 0; 0; 0;
  91; 129; 195; 92; 27; 0; 0; 232; 156; 254; 255; 255; 89; 91; 201; 195; 3; 0; 0; 0; 1; 0; 2; 0;
  0; 0; 0; 0; 0; 0; 0; 0; 0; 0; 0; 0; 0; 0; 0; 0; 0; 0; 0; 0; 0; 0; 0; 0;
  0; 0; 0; 0; 0; 0; 0; 0; 0; 0; 0; 0; 0; 0; 0; 0; 0; 0; 0; 0; 0; 0; 0; 0;
  0; 0; 0; 0; 0; 0; 0; 0; 0; 0; 0; 0; 0; 0; 0; 0; 0; 0; 0; 0; 0; 0; 0; 0;
  0; 0; 0; 0; 0; 0; 0; 0; 0; 0; 0; 0; 0; 0; 0; 0; 0; 0; 0; 0; 0; 0; 0; 0;
  0; 0; 0; 0; 0; 0; 0; 0; 0; 0; 0; 0; 0; 0; 0; 0; 0; 0; 0; 0; 0; 0; 0; 0;
  0; 0; 0; 0; 0; 0; 0; 0; 0; 0; 0; 0; 0; 0; 0; 0; 0; 0; 0; 0; 0; 0; 0; 0;
  0; 0; 0; 0; 0; 0; 0; 0; 0; 0; 0; 0; 0; 0; 0; 0; 0; 0; 0; 0; 0; 0; 0; 0;
  0; 0; 0; 0; 0; 0; 0; 0; 0; 0; 0; 0; 0; 0; 0; 0; 0; 0; 0; 0; 0; 0; 0; 0;
  0; 0; 0; 0; 0; 0; 0; 0; 0; 0; 0; 0; 0; 0; 0; 0; 0; 0; 0; 0; 0; 0; 0; 0;
  0; 0; 0; 0; 0; 0; 0; 0; 0; 0; 0; 0; 0; 0; 0; 0; 0; 0; 0; 0; 0; 0; 0; 0;
  0; 0; 0; 0; 0; 0; 0; 0; 0; 0; 0; 0; 0; 0; 0; 0; 0; 0; 0; 0; 0; 0; 0; 0;
  0; 0; 0; 0; 0; 0; 0; 0; 0; 0; 0; 0; 0; 0; 0; 0; 0; 0; 0; 0; 0; 0; 0; 0;
  0; 0; 0; 0; 0; 0; 0; 0; 0; 0; 0; 0; 0; 0; 0; 0; 0; 0; 0; 0; 0; 0; 0; 0;
  0; 0; 0; 0; 0; 0; 0; 0; 0; 0; 0; 0; 0; 0; 0; 0; 0; 0; 0; 0; 0; 0; 0; 0;
  0; 0; 0; 0; 0; 0; 0; 0; 0; 0; 0; 0; 0; 0; 0; 0; 0; 0; 0; 0; 0; 0; 0; 0;
  0; 0; 0; 0; 0; 0; 0; 0; 0; 0; 0; 0; 0; 0; 0; 0; 0; 0; 0; 0; 0; 0; 0; 0;
  0; 0; 0; 0; 0; 0; 0; 0; 0; 0; 0; 0; 0; 0; 0; 0; 0; 0; 0; 0; 0; 0; 0; 0;
  0; 0; 0; 0; 0; 0; 0; 0; 0; 0; 0; 0; 0; 0; 0; 0; 0; 0; 0; 0; 0; 0; 0; 0;
  0; 0; 0; 0; 0; 0; 0; 0; 0; 0; 0; 0; 0; 0; 0; 0; 0; 0; 0; 0; 0; 0; 0; 0;
  0; 0; 0; 0; 0; 0; 0; 0; 0; 0; 0; 0; 0; 0; 0; 0; 0; 0; 0; 0; 0; 0; 0; 0;
  0; 0; 0; 0; 0; 0; 0; 0; 0; 0; 0; 0; 0; 0; 0; 0; 0; 0; 0; 0; 0; 0; 0; 0;
  0; 0; 0; 0; 0; 0; 0; 0; 0; 0; 0; 0; 0; 0; 0; 0; 0; 0; 0; 0; 0; 0; 0; 0;
  0; 0; 0; 0; 0; 0; 0; 0; 0; 0; 0; 0; 0; 0; 0; 0; 0; 0; 0; 0; 0; 0; 0; 0;
  0; 0; 0; 0; 0; 0; 0; 0; 0; 0; 0; 0; 0; 0; 0; 0; 0; 0; 0; 0; 0; 0; 0; 0;
  0; 0; 0; 0; 0; 0; 0; 0; 0; 0; 0; 0; 0; 0; 0; 0; 0; 0; 0; 0; 0; 0; 0; 0;
  0; 0; 0; 0; 0; 0; 0; 0; 0; 0; 0; 0; 0; 0; 0; 0; 0; 0; 0; 0; 0; 0; 0; 0;
  0; 0; 0; 0; 0; 0; 0; 0; 0; 0; 0; 0; 0; 0; 0; 0; 0; 0; 0; 0; 0; 0; 0; 0;
  0; 0; 0; 0; 0; 0; 0; 0; 0; 0; 0; 0; 0; 0; 0; 0; 0; 0; 0; 0; 0; 0; 0; 0;
  0; 0; 0; 0; 0; 0; 0; 0; 0; 0; 0; 0; 0; 0; 0; 0; 0; 0; 0; 0; 0; 0; 0; 0;
  0; 0; 0; 0; 0; 0; 0; 0; 0; 0; 0; 0; 0; 0; 0; 0; 0; 0; 0; 0; 0; 0; 0; 0;
  0; 0; 0; 0; 0; 0; 0; 0; 0; 0; 0; 0; 0; 0; 0; 0; 0; 0; 0; 0; 0; 0; 0; 0;
  0; 0; 0; 0; 0; 0; 0; 0; 0; 0; 0; 0; 0; 0; 0; 0; 0; 0; 0; 0; 0; 0; 0; 0;
  0; 0; 0; 0; 0; 0; 0; 0; 0; 0; 0; 0; 0; 0; 0; 0; 0; 0; 0; 0; 0; 0; 0; 0;
  0; 0; 0; 0; 0; 0; 0; 0; 0; 0; 0; 0; 0; 0; 0; 0; 0; 0; 0; 0; 0; 0; 0; 0;
  0; 0; 0; 0; 0; 0; 0; 0; 0; 0; 0; 0; 0; 0; 0; 0; 0; 0; 0; 0; 0; 0; 0; 0;
  0; 0; 0; 0; 0; 0; 0; 0; 0; 0; 0; 0; 0; 0; 0; 0; 0; 0; 0; 0; 0; 0; 0; 0;
  0; 0; 0; 0; 0; 0; 0; 0; 0; 0; 0; 0; 0; 0; 0; 0; 0; 0; 0; 0; 0; 0; 0; 0;
  0; 0; 0; 0; 0; 0; 0; 0; 0; 0; 0; 0; 0; 0; 0; 0; 0; 0; 0; 0; 0; 0; 0; 0;
  0; 0; 0; 0; 0; 0; 0; 0; 0; 0; 0; 0; 0; 0; 0; 0; 0; 0; 0; 0; 0; 0; 0; 0;
  0; 0; 0; 0; 0; 0; 0; 0; 0; 0; 0; 0; 0; 0; 0; 0; 0; 0; 0; 0; 0; 0; 0; 0;
  0; 0; 0; 0; 0; 0; 0; 0; 0; 0; 0; 0; 0; 0; 0; 0; 0; 0; 0; 0; 0; 0; 0; 0;
  0; 0; 0; 0; 0; 0; 0; 0; 0; 0; 0; 0; 0; 0; 0; 0; 0; 0; 0; 0; 0; 0; 0; 0;
  0; 0; 0; 0; 0; 0; 0; 0; 0; 0; 0; 0; 0; 0; 0; 0; 0; 0; 0; 0; 0; 0; 0; 0;
  0; 0; 0; 0; 0; 0; 0; 0; 0; 0; 0; 0; 0; 0; 0; 0; 0; 0; 0; 0; 0; 0; 0; 0;
  0; 0; 0; 0; 0; 0; 0; 0; 0; 0; 0; 0; 0; 0; 0; 0; 0; 0; 0; 0; 0; 0; 0; 0;
  0; 0; 0; 0; 0; 0; 0; 0; 0; 0; 0; 0; 0; 0; 0; 0; 0; 0; 0; 0; 0; 0; 0; 0;
  0; 0; 0; 0; 0; 0; 0; 0; 0; 0; 0; 0; 0; 0; 0; 0; 0; 0; 0; 0; 0; 0; 0; 0;
  0; 0; 0; 0; 0; 0; 0; 0; 0; 0; 0; 0; 0; 0; 0; 0; 0; 0; 0; 0; 0; 0; 0; 0;
  0; 0; 0; 0; 0; 0; 0; 0; 0; 0; 0; 0; 0; 0; 0; 0; 0; 0; 0; 0; 0; 0; 0; 0;
  0; 0; 0; 0; 0; 0; 0; 0; 0; 0; 0; 0; 0; 0; 0; 0; 0; 0; 0; 0; 0; 0; 0; 0;
  0; 0; 0; 0; 0; 0; 0; 0; 0; 0; 0; 0; 0; 0; 0; 0; 0; 0; 0; 0; 0; 0; 0; 0;
  0; 0; 0; 0; 0; 0; 0; 0; 0; 0; 0; 0; 0; 0; 0; 0; 0; 0; 0; 0; 0; 0; 0; 0;
  0; 0; 0; 0; 0; 0; 0; 0; 0; 0; 0; 0; 0; 0; 0; 0; 0; 0; 0; 0; 0; 0; 0; 0;
  0; 0; 0; 0; 0; 0; 0; 0; 0; 0; 0; 0; 0; 0; 0; 0; 0; 0; 0; 0; 0; 0; 0; 0;
  0; 0; 0; 0; 0; 0; 0; 0; 0; 0; 0; 0; 0; 0; 0; 0; 0; 0; 0; 0; 0; 0; 0; 0;
  0; 0; 0; 0; 0; 0; 0; 0; 0; 0; 0; 0; 0; 0; 0; 0; 0; 0; 0; 0; 0; 0; 0; 0;
  0; 0; 0; 0; 0; 0; 0; 0; 0; 0; 0; 0; 0; 0; 0; 0; 0; 0; 0; 0; 0; 0; 0; 0;
  0; 0; 0; 0; 0; 0; 0; 0; 0; 0; 0; 0; 0; 0; 0; 0; 0; 0; 0; 0; 0; 0; 0; 0;
  0; 0; 0; 0; 0; 0; 0; 0; 0; 0; 0; 0; 0; 0; 0; 0; 0; 0; 0; 0; 0; 0; 0; 0;
  0; 0; 0; 0; 0; 0; 0; 0; 0; 0; 0; 0; 0; 0; 0; 0; 0; 0; 0; 0; 0; 0; 0; 0;
  0; 0; 0; 0; 0; 0; 0; 0; 0; 0; 0; 0; 0; 0; 0; 0; 0; 0; 0; 0; 0; 0; 0; 0;
  0; 0; 0; 0; 0; 0; 0; 0; 0; 0; 0; 0; 0; 0; 0; 0; 0; 0; 0; 0; 0; 0; 0; 0;
  0; 0; 0; 0; 0; 0; 0; 0; 0; 0; 0; 0; 0; 0; 0; 0; 0; 0; 0; 0; 0; 0; 0; 0;
  0; 0; 0; 0; 0; 0; 0; 0; 0; 0; 0; 0; 0; 0; 0; 0; 0; 0; 0; 0; 0; 0; 0; 0;
  0; 0; 0; 0; 0; 0; 0; 0; 0; 0; 0; 0; 0; 0; 0; 0; 0; 0; 0; 0; 0; 0; 0; 0;
  0; 0; 0; 0; 0; 0; 0; 0; 0; 0; 0; 0; 0; 0; 0; 0; 0; 0; 0; 0; 0; 0; 0; 0;
  0; 0; 0; 0; 0; 0; 0; 0; 0; 0; 0; 0; 0; 0; 0; 0; 0; 0; 0; 0; 0; 0; 0; 0;
  0; 0; 0; 0; 0; 0; 0; 0; 0; 0; 0; 0; 0; 0; 0; 0; 0; 0; 0; 0; 0; 0; 0; 0;
  0; 0; 0; 0; 0; 0; 0; 0; 0; 0; 0; 0; 0; 0; 0; 0; 0; 0; 0; 0; 0; 0; 0; 0;
  0; 0; 0; 0; 0; 0; 0; 0; 0; 0; 0; 0; 0; 0; 0; 0; 0; 0; 0; 0; 0; 0; 0; 0;
  0; 0; 0; 0; 0; 0; 0; 0; 0; 0; 0; 0; 0; 0; 0; 0; 0; 0; 0; 0; 0; 0; 0; 0;
  0; 0; 0; 0; 0; 0; 0; 0; 0; 0; 0; 0; 0; 0; 0; 0; 0; 0; 0; 0; 0; 0; 0; 0;
  0; 0; 0; 0; 0; 0; 0; 0; 0; 0; 0; 0; 0; 0; 0; 0; 0; 0; 0; 0; 0; 0; 0; 0;
  0; 0; 0; 0; 0; 0; 0; 0; 0; 0; 0; 0; 0; 0; 0; 0; 0; 0; 0; 0; 0; 0; 0; 0;
  0; 0; 0; 0; 0; 0; 0; 0; 0; 0; 0; 0; 0; 0; 0; 0; 0; 0; 0; 0; 0; 0; 0; 0;
  0; 0; 0; 0; 0; 0; 0; 0; 0; 0; 0; 0; 0; 0; 0; 0; 0; 0; 0; 0; 0; 0; 0; 0;
  0; 0; 0; 0; 0; 0; 0; 0; 0; 0; 0; 0; 0; 0; 0; 0; 0; 0; 0; 0; 0; 0; 0; 0;
  0; 0; 0; 0; 0; 0; 0; 0; 0; 0; 0; 0; 0; 0; 0; 0; 0; 0; 0; 0; 0; 0; 0; 0;
  0; 0; 0; 0; 0; 0; 0; 0; 0; 0; 0; 0; 0; 0; 0; 0; 0; 0; 0; 0; 0; 0; 0; 0;
  0; 0; 0; 0; 0; 0; 0; 0; 0; 0; 0; 0; 0; 0; 0; 0; 0; 0; 0; 0; 0; 0; 0; 0;
  0; 0; 0; 0; 0; 0; 0; 0; 0; 0; 0; 0; 0; 0; 0; 0; 0; 0; 0; 0; 0; 0; 0; 0;
  0; 0; 0; 0; 0; 0; 0; 0; 0; 0; 0; 0; 0; 0; 0; 0; 0; 0; 0; 0; 0; 0; 0; 0;
  0; 0; 0; 0; 0; 0; 0; 0; 0; 0; 0; 0; 0; 0; 0; 0; 0; 0; 0; 0; 0; 0; 0; 0;
  0; 0; 0; 0; 0; 0; 0; 0; 0; 0; 0; 0; 0; 0; 0; 0; 0; 0; 0; 0; 0; 0; 0; 0;
  0; 0; 0; 0; 0; 0; 0; 0; 0; 0; 0; 0; 0; 0; 0; 0; 0; 0; 0; 0; 0; 0; 0; 0;
  0; 0; 0; 0; 0; 0; 0; 0; 0; 0; 0; 0; 0; 0; 0; 0; 0; 0; 0; 0; 0; 0; 0; 0;
  0; 0; 0; 0; 0; 0; 0; 0; 0; 0; 0; 0; 0; 0; 0; 0; 0; 0; 0; 0; 0; 0; 0; 0;
  0; 0; 0; 0; 0; 0; 0; 0; 0; 0; 0; 0; 0; 0; 0; 0; 0; 0; 0; 0; 0; 0; 0; 0;
  0; 0; 0; 0; 0; 0; 0; 0; 0; 0; 0; 0; 0; 0; 0; 0; 0; 0; 0; 0; 0; 0; 0; 0;
  0; 0; 0; 0; 0; 0; 0; 0; 0; 0; 0; 0; 0; 0; 0; 0; 0; 0; 0; 0; 0; 0; 0; 0;
  0; 0; 0; 0; 0; 0; 0; 0; 0; 0; 0; 0; 0; 0; 0; 0; 0; 0; 0; 0; 0; 0; 0; 0;
  0; 0; 0; 0; 0; 0; 0; 0; 0; 0; 0; 0; 0; 0; 0; 0; 0; 0; 0; 0; 0; 0; 0; 0;
  0; 0; 0; 0; 0; 0; 0; 0; 0; 0; 0; 0; 0; 0; 0; 0; 0; 0; 0; 0; 0; 0; 0; 0;
  0; 0; 0; 0; 0; 0; 0; 0; 0; 0; 0; 0; 0; 0; 0; 0; 0; 0; 0; 0; 0; 0; 0; 0;
  0; 0; 0; 0; 0; 0; 0; 0; 0; 0; 0; 0; 0; 0; 0; 0; 0; 0; 0; 0; 0; 0; 0; 0;
  0; 0; 0; 0; 0; 0; 0; 0; 0; 0; 0; 0; 0; 0; 0; 0; 0; 0; 0; 0; 0; 0; 0; 0;
  0; 0; 0; 0; 0; 0; 0; 0; 0; 0; 0; 0; 0; 0; 0; 0; 0; 0; 0; 0; 0; 0; 0; 0;
  0; 0; 0; 0; 0; 0; 0; 0; 0; 0; 0; 0; 0; 0; 0; 0; 0; 0; 0; 0; 0; 0; 0; 0;
  0; 0; 0; 0; 0; 0; 0; 0; 0; 0; 0; 0; 0; 0; 0; 0; 0; 0; 0; 0; 0; 0; 0; 0;
  0; 0; 0; 0; 0; 0; 0; 0; 0; 0; 0; 0; 0; 0; 0; 0; 0; 0; 0; 0; 0; 0; 0; 0;
  0; 0; 0; 0; 0; 0; 0; 0; 0; 0; 0; 0; 0; 0; 0; 0; 0; 0; 0; 0; 0; 0; 0; 0;
  0; 0; 0; 0; 0; 0; 0; 0; 0; 0; 0; 0; 0; 0; 0; 0; 0; 0; 0; 0; 0; 0; 0; 0;
  0; 0; 0; 0; 0; 0; 0; 0; 0; 0; 0; 0; 0; 0; 0; 0; 0; 0; 0; 0; 0; 0; 0; 0;
  0; 0; 0; 0; 0; 0; 0; 0; 0; 0; 0; 0; 0; 0; 0; 0; 0; 0; 0; 0; 0; 0; 0; 0;
  0; 0; 0; 0; 0; 0; 0; 0; 0; 0; 0; 0; 0; 0; 0; 0; 0; 0; 0; 0; 0; 0; 0; 0;
  0; 0; 0; 0; 0; 0; 0; 0; 0; 0; 0; 0; 0; 0; 0; 0; 0; 0; 0; 0; 0; 0; 0; 0;
  0; 0; 0; 0; 0; 0; 0; 0; 0; 0; 0; 0; 0; 0; 0; 0; 0; 0; 0; 0; 0; 0; 0; 0;
  0; 0; 0; 0; 0; 0; 0; 0; 0; 0; 0; 0; 0; 0; 0; 0; 0; 0; 0; 0; 0; 0; 0; 0;
  0; 0; 0; 0; 0; 0; 0; 0; 0; 0; 0; 0; 0; 0; 0; 0; 0; 0; 0; 0; 0; 0; 0; 0;
  0; 0; 0; 0; 0; 0; 0; 0; 0; 0; 0; 0; 0; 0; 0; 0; 0; 0; 0; 0; 0; 0; 0; 0;
  0; 0; 0; 0; 0; 0; 0; 0; 0; 0; 0; 0; 255; 255; 255; 255; 0; 0; 0; 0; 255; 255; 255; 255;
  0; 0; 0; 0; 0; 0; 0; 0; 1; 0; 0; 0; 16; 0; 0; 0; 12; 0; 0; 0; 152; 130; 4; 8;
  13; 0; 0; 0; 140; 132; 4; 8; 4; 0; 0; 0; 104; 129; 4; 8; 245; 254; 255; 111; 144; 129; 4; 8;
  5; 0; 0; 0; 0; 130; 4; 8; 6; 0; 0; 0; 176; 129; 4; 8; 10; 0; 0; 0; 75; 0; 0; 0;
  11; 0; 0; 0; 16; 0; 0; 0; 21; 0; 0; 0; 0; 0; 0; 0; 3; 0; 0; 0; 244; 159; 4; 8;
  2; 0; 0; 0; 24; 0; 0; 0; 20; 0; 0; 0; 17; 0; 0; 0; 23; 0; 0; 0; 128; 130; 4; 8;
  17; 0; 0; 0; 120; 130; 4; 8; 18; 0; 0; 0; 8; 0; 0; 0; 19; 0; 0; 0; 8; 0; 0; 0;
  254; 255; 255; 111; 88; 130; 4; 8; 255; 255; 255; 111; 1; 0; 0; 0; 240; 255; 255; 111; 76; 130; 4; 8;
  0; 0; 0; 0; 0; 0; 0; 0; 0; 0; 0; 0; 0; 0; 0; 0; 0; 0; 0; 0; 0; 0; 0; 0;
  0; 0; 0; 0; 0; 0; 0; 0; 0; 0; 0; 0; 0; 0; 0; 0; 0; 0; 0; 0; 0; 0; 0; 0;
  0; 0; 0; 0; 32; 159; 4; 8; 0; 0; 0; 0; 0; 0; 0; 0; 222; 130; 4; 8; 238; 130; 4; 8;
  254; 130; 4; 8; 0; 0; 0; 0; 0; 0; 0; 0; 0; 71; 67; 67; 58; 32; 40; 85; 98; 117; 110; 116;
  117; 32; 52; 46; 51; 46; 51; 45; 53; 117; 98; 117; 110; 116; 117; 52; 41; 32; 52; 46; 51; 46; 51; 0;
  0; 71; 67; 67; 58; 32; 40; 85; 98; 117; 110; 116; 117; 32; 52; 46; 51; 46; 51; 45; 53; 117; 98; 117;
  110; 116; 117; 52; 41; 32; 52; 46; 51; 46; 51; 0; 0; 71; 67; 67; 58; 32; 40; 85; 98; 117; 110; 116;
  117; 32; 52; 46; 51; 46; 51; 45; 53; 117; 98; 117; 110; 116; 117; 52; 41; 32; 52; 46; 51; 46; 51; 0;
  0; 71; 67; 67; 58; 32; 40; 85; 98; 117; 110; 116; 117; 32; 52; 46; 51; 46; 51; 45; 53; 117; 98; 117;
  110; 116; 117; 52; 41; 32; 52; 46; 51; 46; 51; 0; 0; 71; 67; 67; 58; 32; 40; 85; 98; 117; 110; 116;
  117; 32; 52; 46; 51; 46; 51; 45; 53; 117; 98; 117; 110; 116; 117; 52; 41; 32; 52; 46; 51; 46; 51; 0;
  0; 71; 67; 67; 58; 32; 40; 85; 98; 117; 110; 116; 117; 32; 52; 46; 51; 46; 51; 45; 53; 117; 98; 117;
  110; 116; 117; 52; 41; 32; 52; 46; 51; 46; 51; 0; 0; 71; 67; 67; 58; 32; 40; 85; 98; 117; 110; 116;
  117; 32; 52; 46; 51; 46; 51; 45; 53; 117; 98; 117; 110; 116; 117; 52; 41; 32; 52; 46; 51; 46; 51; 0;
  0; 46; 115; 104; 115; 116; 114; 116; 97; 98; 0; 46; 105; 110; 116; 101; 114; 112; 0; 46; 110; 111; 116; 101;
  46; 65; 66; 73; 45; 116; 97; 103; 0; 46; 103; 110; 117; 46; 104; 97; 115; 104; 0; 46; 100; 121; 110; 115;
  121; 109; 0; 46; 100; 121; 110; 115; 116; 114; 0; 46; 103; 110; 117; 46; 118; 101; 114; 115; 105; 111; 110; 0;
  46; 103; 110; 117; 46; 118; 101; 114; 115; 105; 111; 110; 95; 114; 0; 46; 114; 101; 108; 46; 100; 121; 110; 0;
  46; 114; 101; 108; 46; 112; 108; 116; 0; 46; 105; 110; 105; 116; 0; 46; 116; 101; 120; 116; 0; 46; 102; 105;
  110; 105; 0; 46; 114; 111; 100; 97; 116; 97; 0; 46; 101; 104; 95; 102; 114; 97; 109; 101; 0; 46; 99; 116;
  111; 114; 115; 0; 46; 100; 116; 111; 114; 115; 0; 46; 106; 99; 114; 0; 46; 100; 121; 110; 97; 109; 105; 99;
  0; 46; 103; 111; 116; 0; 46; 103; 111; 116; 46; 112; 108; 116; 0; 46; 100; 97; 116; 97; 0; 46; 98; 115;
  115; 0; 46; 99; 111; 109; 109; 101; 110; 116; 0; 0; 0; 0; 0; 0; 0; 0; 0; 0; 0; 0; 0; 0;
  0; 0; 0; 0; 0; 0; 0; 0; 0; 0; 0; 0; 0; 0; 0; 0; 0; 0; 0; 0; 0; 0; 0; 0;
  0; 0; 0; 0; 11; 0; 0; 0; 1; 0; 0; 0; 2; 0; 0; 0; 52; 129; 4; 8; 52; 1; 0; 0;
  19; 0; 0; 0; 0; 0; 0; 0; 0; 0; 0; 0; 1; 0; 0; 0; 0; 0; 0; 0; 19; 0; 0; 0;
  7; 0; 0; 0; 2; 0; 0; 0; 72; 129; 4; 8; 72; 1; 0; 0; 32; 0; 0; 0; 0; 0; 0; 0;
  0; 0; 0; 0; 4; 0; 0; 0; 0; 0; 0; 0; 37; 0; 0; 0; 5; 0; 0; 0; 2; 0; 0; 0;
  104; 129; 4; 8; 104; 1; 0; 0; 40; 0; 0; 0; 5; 0; 0; 0; 0; 0; 0; 0; 4; 0; 0; 0;
  4; 0; 0; 0; 33; 0; 0; 0; 246; 255; 255; 111; 2; 0; 0; 0; 144; 129; 4; 8; 144; 1; 0; 0;
  32; 0; 0; 0; 5; 0; 0; 0; 0; 0; 0; 0; 4; 0; 0; 0; 4; 0; 0; 0; 43; 0; 0; 0;
  11; 0; 0; 0; 2; 0; 0; 0; 176; 129; 4; 8; 176; 1; 0; 0; 80; 0; 0; 0; 6; 0; 0; 0;
  1; 0; 0; 0; 4; 0; 0; 0; 16; 0; 0; 0; 51; 0; 0; 0; 3; 0; 0; 0; 2; 0; 0; 0;
  0; 130; 4; 8; 0; 2; 0; 0; 75; 0; 0; 0; 0; 0; 0; 0; 0; 0; 0; 0; 1; 0; 0; 0;
  0; 0; 0; 0; 59; 0; 0; 0; 255; 255; 255; 111; 2; 0; 0; 0; 76; 130; 4; 8; 76; 2; 0; 0;
  10; 0; 0; 0; 5; 0; 0; 0; 0; 0; 0; 0; 2; 0; 0; 0; 2; 0; 0; 0; 72; 0; 0; 0;
  254; 255; 255; 111; 2; 0; 0; 0; 88; 130; 4; 8; 88; 2; 0; 0; 32; 0; 0; 0; 6; 0; 0; 0;
  1; 0; 0; 0; 4; 0; 0; 0; 0; 0; 0; 0; 87; 0; 0; 0; 9; 0; 0; 0; 2; 0; 0; 0;
  120; 130; 4; 8; 120; 2; 0; 0; 8; 0; 0; 0; 5; 0; 0; 0; 0; 0; 0; 0; 4; 0; 0; 0;
  8; 0; 0; 0; 96; 0; 0; 0; 9; 0; 0; 0; 2; 0; 0; 0; 128; 130; 4; 8; 128; 2; 0; 0;
  24; 0; 0; 0; 5; 0; 0; 0; 12; 0; 0; 0; 4; 0; 0; 0; 8; 0; 0; 0; 105; 0; 0; 0;
  1; 0; 0; 0; 6; 0; 0; 0; 152; 130; 4; 8; 152; 2; 0; 0; 48; 0; 0; 0; 0; 0; 0; 0;
  0; 0; 0; 0; 4; 0; 0; 0; 0; 0; 0; 0; 100; 0; 0; 0; 1; 0; 0; 0; 6; 0; 0; 0;
  200; 130; 4; 8; 200; 2; 0; 0; 64; 0; 0; 0; 0; 0; 0; 0; 0; 0; 0; 0; 4; 0; 0; 0;
  4; 0; 0; 0; 111; 0; 0; 0; 1; 0; 0; 0; 6; 0; 0; 0; 16; 131; 4; 8; 16; 3; 0; 0;
  124; 1; 0; 0; 0; 0; 0; 0; 0; 0; 0; 0; 16; 0; 0; 0; 0; 0; 0; 0; 117; 0; 0; 0;
  1; 0; 0; 0; 6; 0; 0; 0; 140; 132; 4; 8; 140; 4; 0; 0; 28; 0; 0; 0; 0; 0; 0; 0;
  0; 0; 0; 0; 4; 0; 0; 0; 0; 0; 0; 0; 123; 0; 0; 0; 1; 0; 0; 0; 2; 0; 0; 0;
  168; 132; 4; 8; 168; 4; 0; 0; 8; 0; 0; 0; 0; 0; 0; 0; 0; 0; 0; 0; 4; 0; 0; 0;
  0; 0; 0; 0; 131; 0; 0; 0; 1; 0; 0; 0; 2; 0; 0; 0; 176; 132; 4; 8; 176; 4; 0; 0;
  4; 0; 0; 0; 0; 0; 0; 0; 0; 0; 0; 0; 4; 0; 0; 0; 0; 0; 0; 0; 141; 0; 0; 0;
  1; 0; 0; 0; 3; 0; 0; 0; 12; 159; 4; 8; 12; 15; 0; 0; 8; 0; 0; 0; 0; 0; 0; 0;
  0; 0; 0; 0; 4; 0; 0; 0; 0; 0; 0; 0; 148; 0; 0; 0; 1; 0; 0; 0; 3; 0; 0; 0;
  20; 159; 4; 8; 20; 15; 0; 0; 8; 0; 0; 0; 0; 0; 0; 0; 0; 0; 0; 0; 4; 0; 0; 0;
  0; 0; 0; 0; 155; 0; 0; 0; 1; 0; 0; 0; 3; 0; 0; 0; 28; 159; 4; 8; 28; 15; 0; 0;
  4; 0; 0; 0; 0; 0; 0; 0; 0; 0; 0; 0; 4; 0; 0; 0; 0; 0; 0; 0; 160; 0; 0; 0;
  6; 0; 0; 0; 3; 0; 0; 0; 32; 159; 4; 8; 32; 15; 0; 0; 208; 0; 0; 0; 6; 0; 0; 0;
  0; 0; 0; 0; 4; 0; 0; 0; 8; 0; 0; 0; 169; 0; 0; 0; 1; 0; 0; 0; 3; 0; 0; 0;
  240; 159; 4; 8; 240; 15; 0; 0; 4; 0; 0; 0; 0; 0; 0; 0; 0; 0; 0; 0; 4; 0; 0; 0;
  4; 0; 0; 0; 174; 0; 0; 0; 1; 0; 0; 0; 3; 0; 0; 0; 244; 159; 4; 8; 244; 15; 0; 0;
  24; 0; 0; 0; 0; 0; 0; 0; 0; 0; 0; 0; 4; 0; 0; 0; 4; 0; 0; 0; 183; 0; 0; 0;
  1; 0; 0; 0; 3; 0; 0; 0; 12; 160; 4; 8; 12; 16; 0; 0; 8; 0; 0; 0; 0; 0; 0; 0;
  0; 0; 0; 0; 4; 0; 0; 0; 0; 0; 0; 0; 189; 0; 0; 0; 8; 0; 0; 0; 3; 0; 0; 0;
  20; 160; 4; 8; 20; 16; 0; 0; 8; 0; 0; 0; 0; 0; 0; 0; 0; 0; 0; 0; 4; 0; 0; 0;
  0; 0; 0; 0; 194; 0; 0; 0; 1; 0; 0; 0; 0; 0; 0; 0; 0; 0; 0; 0; 20; 16; 0; 0;
  252; 0; 0; 0; 0; 0; 0; 0; 0; 0; 0; 0; 1; 0; 0; 0; 0; 0; 0; 0; 1; 0; 0; 0;
  3; 0; 0; 0; 0; 0; 0; 0; 0; 0; 0; 0; 16; 17; 0; 0; 203; 0; 0; 0; 0; 0; 0; 0;
  0; 0; 0; 0; 1; 0; 0; 0; 0; 0; 0; 0
].

Definition default_ppc_elf_bin : list Z := [
  127; 69; 76; 70; 1; 2; 1; 0; 0; 0; 0; 0; 0; 0; 0; 0; 0; 2; 0; 20; 0; 0; 0; 1;
  16; 0; 3; 164; 0; 0; 0; 52; 0; 0; 11; 120; 0; 0; 0; 0; 0; 52; 0; 32; 0; 7; 0; 40;
  0; 29; 0; 28; 0; 0; 0; 6; 0; 0; 0; 52; 16; 0; 0; 52; 16; 0; 0; 52; 0; 0; 0; 224;
  0; 0; 0; 224; 0; 0; 0; 5; 0; 0; 0; 4; 0; 0; 0; 3; 0; 0; 1; 52; 16; 0; 1; 52;
  16; 0; 1; 52; 0; 0; 0; 13; 0; 0; 0; 13; 0; 0; 0; 4; 0; 0; 0; 1; 0; 0; 0; 1;
  0; 0; 0; 0; 16; 0; 0; 0; 16; 0; 0; 0; 0; 0; 8; 252; 0; 0; 8; 252; 0; 0; 0; 5;
  0; 1; 0; 0; 0; 0; 0; 1; 0; 0; 8; 252; 16; 1; 8; 252; 16; 1; 8; 252; 0; 0; 1; 32;
  0; 0; 1; 144; 0; 0; 0; 7; 0; 1; 0; 0; 0; 0; 0; 2; 0; 0; 9; 28; 16; 1; 9; 28;
  16; 1; 9; 28; 0; 0; 0; 200; 0; 0; 0; 200; 0; 0; 0; 6; 0; 0; 0; 4; 0; 0; 0; 4;
  0; 0; 1; 68; 16; 0; 1; 68; 16; 0; 1; 68; 0; 0; 0; 32; 0; 0; 0; 32; 0; 0; 0; 4;
  0; 0; 0; 4; 100; 116; 229; 81; 0; 0; 0; 0; 0; 0; 0; 0; 0; 0; 0; 0; 0; 0; 0; 0;
  0; 0; 0; 0; 0; 0; 0; 7; 0; 0; 0; 4; 0; 0; 0; 0; 0; 0; 0; 0; 0; 0; 0; 0;
  0; 0; 0; 0; 0; 0; 0; 0; 0; 0; 0; 0; 0; 0; 0; 0; 0; 0; 0; 0; 47; 108; 105; 98;
  47; 108; 100; 46; 115; 111; 46; 49; 0; 0; 0; 0; 0; 0; 0; 4; 0; 0; 0; 16; 0; 0; 0; 1;
  71; 78; 85; 0; 0; 0; 0; 0; 0; 0; 0; 2; 0; 0; 0; 4; 0; 0; 0; 3; 0; 0; 0; 3;
  0; 0; 0; 10; 0; 0; 0; 9; 0; 0; 0; 6; 0; 0; 0; 7; 0; 0; 0; 0; 0; 0; 0; 0;
  0; 0; 0; 1; 0; 0; 0; 2; 0; 0; 0; 0; 0; 0; 0; 3; 0; 0; 0; 4; 0; 0; 0; 5;
  0; 0; 0; 0; 0; 0; 0; 8; 0; 0; 0; 0; 0; 0; 0; 0; 0; 0; 0; 0; 0; 0; 0; 0;
  0; 0; 0; 85; 16; 1; 8; 252; 0; 0; 0; 0; 16; 0; 255; 241; 0; 0; 0; 46; 16; 1; 10; 100;
  0; 0; 0; 108; 18; 0; 0; 0; 0; 0; 0; 102; 16; 1; 8; 252; 0; 0; 0; 0; 16; 0; 255; 241;
  0; 0; 0; 67; 16; 1; 10; 108; 0; 0; 1; 176; 18; 0; 0; 0; 0; 0; 0; 121; 16; 1; 8; 252;
  0; 0; 0; 0; 16; 0; 255; 241; 0; 0; 0; 138; 16; 1; 8; 252; 0; 0; 0; 0; 16; 0; 255; 241;
  0; 0; 0; 52; 16; 0; 8; 248; 0; 0; 0; 4; 17; 0; 0; 13; 0; 0; 0; 1; 0; 0; 0; 0;
  0; 0; 0; 0; 32; 0; 0; 0; 0; 0; 0; 21; 0; 0; 0; 0; 0; 0; 0; 0; 32; 0; 0; 0;
  0; 95; 74; 118; 95; 82; 101; 103; 105; 115; 116; 101; 114; 67; 108; 97; 115; 115; 101; 115; 0; 95; 95; 103;
  109; 111; 110; 95; 115; 116; 97; 114; 116; 95; 95; 0; 108; 105; 98; 99; 46; 115; 111; 46; 54; 0; 112; 97;
  117; 115; 101; 0; 95; 73; 79; 95; 115; 116; 100; 105; 110; 95; 117; 115; 101; 100; 0; 95; 95; 108; 105; 98;
  99; 95; 115; 116; 97; 114; 116; 95; 109; 97; 105; 110; 0; 95; 95; 102; 105; 110; 105; 95; 97; 114; 114; 97;
  121; 95; 101; 110; 100; 0; 95; 95; 102; 105; 110; 105; 95; 97; 114; 114; 97; 121; 95; 115; 116; 97; 114; 116;
  0; 95; 95; 105; 110; 105; 116; 95; 97; 114; 114; 97; 121; 95; 101; 110; 100; 0; 95; 95; 105; 110; 105; 116;
  95; 97; 114; 114; 97; 121; 95; 115; 116; 97; 114; 116; 0; 71; 76; 73; 66; 67; 95; 50; 46; 48; 0; 0;
  0; 0; 0; 1; 0; 2; 0; 1; 0; 2; 0; 1; 0; 1; 0; 1; 0; 0; 0; 0; 0; 1; 0; 1;
  0; 0; 0; 36; 0; 0; 0; 16; 0; 0; 0; 0; 13; 105; 105; 16; 0; 0; 0; 2; 0; 0; 0; 157;
  0; 0; 0; 0; 16; 1; 10; 8; 0; 0; 1; 20; 0; 0; 0; 0; 16; 1; 10; 12; 0; 0; 3; 20;
  0; 0; 0; 0; 16; 1; 10; 16; 0; 0; 5; 20; 0; 0; 0; 0; 16; 1; 10; 20; 0; 0; 6; 20;
  0; 0; 0; 0; 16; 1; 10; 24; 0; 0; 9; 20; 0; 0; 0; 0; 16; 1; 10; 100; 0; 0; 2; 21;
  0; 0; 0; 0; 16; 1; 10; 108; 0; 0; 4; 21; 0; 0; 0; 0; 16; 1; 10; 116; 0; 0; 8; 21;
  0; 0; 0; 0; 148; 33; 255; 240; 124; 8; 2; 166; 144; 1; 0; 20; 72; 0; 0; 65; 72; 0; 1; 45;
  72; 0; 4; 189; 128; 1; 0; 20; 124; 8; 3; 166; 56; 33; 0; 16; 78; 128; 0; 32; 124; 41; 11; 120;
  84; 33; 0; 54; 56; 0; 0; 0; 148; 33; 255; 240; 124; 8; 3; 166; 144; 1; 0; 0; 61; 0; 16; 0;
  133; 168; 8; 232; 72; 1; 6; 168; 148; 33; 255; 240; 124; 8; 2; 166; 147; 193; 0; 8; 144; 1; 0; 20;
  72; 1; 6; 33; 127; 200; 2; 166; 128; 30; 0; 28; 47; 128; 0; 0; 65; 158; 0; 12; 124; 8; 3; 166;
  78; 128; 0; 33; 128; 1; 0; 20; 124; 8; 3; 166; 131; 193; 0; 8; 56; 33; 0; 16; 78; 128; 0; 32;
  0; 1; 132; 240; 148; 33; 255; 240; 124; 8; 2; 166; 66; 159; 0; 5; 147; 193; 0; 8; 127; 200; 2; 166;
  144; 1; 0; 20; 128; 30; 255; 240; 147; 225; 0; 12; 127; 192; 242; 20; 129; 94; 128; 0; 136; 10; 0; 0;
  47; 128; 0; 0; 64; 158; 0; 68; 131; 254; 128; 4; 129; 63; 0; 0; 129; 105; 0; 0; 47; 139; 0; 0;
  65; 158; 0; 40; 56; 9; 0; 4; 125; 104; 3; 166; 144; 31; 0; 0; 78; 128; 0; 33; 129; 63; 0; 0;
  129; 105; 0; 0; 47; 139; 0; 0; 64; 158; 255; 228; 129; 94; 128; 0; 56; 0; 0; 1; 152; 10; 0; 0;
  128; 1; 0; 20; 131; 193; 0; 8; 131; 225; 0; 12; 124; 8; 3; 166; 56; 33; 0; 16; 78; 128; 0; 32;
  124; 8; 2; 166; 148; 33; 255; 240; 144; 1; 0; 20; 128; 1; 0; 20; 56; 33; 0; 16; 124; 8; 3; 166;
  78; 128; 0; 32; 0; 1; 132; 68; 148; 33; 255; 240; 124; 8; 2; 166; 66; 159; 0; 5; 147; 193; 0; 8;
  127; 200; 2; 166; 144; 1; 0; 20; 128; 30; 255; 240; 127; 192; 242; 20; 128; 126; 128; 8; 128; 3; 0; 0;
  47; 128; 0; 0; 65; 158; 0; 20; 128; 30; 128; 12; 47; 128; 0; 0; 65; 158; 0; 8; 72; 1; 5; 129;
  128; 1; 0; 20; 131; 193; 0; 8; 124; 8; 3; 166; 56; 33; 0; 16; 78; 128; 0; 32; 124; 8; 2; 166;
  148; 33; 255; 240; 144; 1; 0; 20; 128; 1; 0; 20; 56; 33; 0; 16; 124; 8; 3; 166; 78; 128; 0; 32;
  148; 33; 255; 240; 124; 8; 2; 166; 147; 225; 0; 12; 144; 1; 0; 20; 124; 63; 11; 120; 72; 1; 5; 41;
  56; 0; 0; 0; 124; 3; 3; 120; 129; 97; 0; 0; 128; 11; 0; 4; 124; 8; 3; 166; 131; 235; 255; 252;
  125; 97; 91; 120; 78; 128; 0; 32; 148; 33; 255; 224; 124; 8; 2; 166; 147; 129; 0; 16; 147; 161; 0; 20;
  147; 193; 0; 24; 147; 225; 0; 28; 144; 1; 0; 36; 72; 1; 4; 125; 127; 200; 2; 166; 75; 255; 253; 249;
  128; 30; 0; 20; 129; 62; 0; 24; 124; 9; 0; 80; 59; 224; 0; 0; 84; 9; 240; 191; 65; 130; 0; 48;
  131; 158; 0; 24; 128; 30; 0; 20; 124; 28; 0; 80; 124; 29; 22; 112; 87; 224; 16; 58; 124; 28; 0; 46;
  124; 9; 3; 166; 78; 128; 4; 33; 59; 255; 0; 1; 127; 159; 232; 64; 65; 156; 255; 232; 128; 1; 0; 36;
  124; 8; 3; 166; 131; 129; 0; 16; 131; 161; 0; 20; 131; 193; 0; 24; 131; 225; 0; 28; 56; 33; 0; 32;
  78; 128; 0; 32; 148; 33; 255; 224; 124; 8; 2; 166; 147; 161; 0; 20; 147; 193; 0; 24; 147; 225; 0; 28;
  144; 1; 0; 36; 72; 1; 3; 245; 127; 200; 2; 166; 128; 30; 0; 12; 129; 62; 0; 16; 127; 233; 0; 80;
  127; 255; 22; 112; 47; 159; 0; 0; 59; 255; 255; 255; 65; 158; 0; 36; 125; 61; 75; 120; 87; 224; 16; 58;
  124; 29; 0; 46; 124; 9; 3; 166; 78; 128; 4; 33; 47; 159; 0; 0; 59; 255; 255; 255; 64; 158; 255; 232;
  72; 0; 2; 129; 128; 1; 0; 36; 124; 8; 3; 166; 131; 161; 0; 20; 131; 193; 0; 24; 131; 225; 0; 28;
  56; 33; 0; 32; 78; 128; 0; 32; 217; 203; 255; 112; 217; 235; 255; 120; 218; 11; 255; 128; 218; 43; 255; 136;
  218; 75; 255; 144; 218; 107; 255; 152; 218; 139; 255; 160; 218; 171; 255; 168; 218; 203; 255; 176; 218; 235; 255; 184;
  219; 11; 255; 192; 219; 43; 255; 200; 219; 75; 255; 208; 219; 107; 255; 216; 219; 139; 255; 224; 219; 171; 255; 232;
  219; 203; 255; 240; 219; 235; 255; 248; 78; 128; 0; 32; 145; 203; 255; 184; 145; 235; 255; 188; 146; 11; 255; 192;
  146; 43; 255; 196; 146; 75; 255; 200; 146; 107; 255; 204; 146; 139; 255; 208; 146; 171; 255; 212; 146; 203; 255; 216;
  146; 235; 255; 220; 147; 11; 255; 224; 147; 43; 255; 228; 147; 75; 255; 232; 147; 107; 255; 236; 147; 139; 255; 240;
  147; 171; 255; 244; 147; 203; 255; 248; 147; 235; 255; 252; 78; 128; 0; 32; 201; 203; 255; 112; 201; 235; 255; 120;
  202; 11; 255; 128; 202; 43; 255; 136; 202; 75; 255; 144; 202; 107; 255; 152; 202; 139; 255; 160; 202; 171; 255; 168;
  202; 203; 255; 176; 202; 235; 255; 184; 203; 11; 255; 192; 203; 43; 255; 200; 203; 75; 255; 208; 203; 107; 255; 216;
  203; 139; 255; 224; 203; 171; 255; 232; 203; 203; 255; 240; 203; 235; 255; 248; 78; 128; 0; 32; 129; 203; 255; 184;
  129; 235; 255; 188; 130; 11; 255; 192; 130; 43; 255; 196; 130; 75; 255; 200; 130; 107; 255; 204; 130; 139; 255; 208;
  130; 171; 255; 212; 130; 203; 255; 216; 130; 235; 255; 220; 131; 11; 255; 224; 131; 43; 255; 228; 131; 75; 255; 232;
  131; 107; 255; 236; 131; 139; 255; 240; 131; 171; 255; 244; 131; 203; 255; 248; 131; 235; 255; 252; 78; 128; 0; 32;
  201; 203; 255; 112; 201; 235; 255; 120; 202; 11; 255; 128; 202; 43; 255; 136; 202; 75; 255; 144; 202; 107; 255; 152;
  202; 139; 255; 160; 202; 171; 255; 168; 202; 203; 255; 176; 202; 235; 255; 184; 203; 11; 255; 192; 203; 43; 255; 200;
  203; 75; 255; 208; 203; 107; 255; 216; 203; 139; 255; 224; 203; 171; 255; 232; 203; 203; 255; 240; 128; 11; 0; 4;
  203; 235; 255; 248; 124; 8; 3; 166; 125; 97; 91; 120; 78; 128; 0; 32; 129; 203; 255; 184; 129; 235; 255; 188;
  130; 11; 255; 192; 130; 43; 255; 196; 130; 75; 255; 200; 130; 107; 255; 204; 130; 139; 255; 208; 130; 171; 255; 212;
  130; 203; 255; 216; 130; 235; 255; 220; 131; 11; 255; 224; 131; 43; 255; 228; 131; 75; 255; 232; 131; 107; 255; 236;
  131; 139; 255; 240; 131; 171; 255; 244; 131; 203; 255; 248; 128; 11; 0; 4; 131; 235; 255; 252; 124; 8; 3; 166;
  125; 97; 91; 120; 78; 128; 0; 32; 0; 1; 128; 192; 148; 33; 255; 240; 124; 8; 2; 166; 66; 159; 0; 5;
  147; 193; 0; 8; 127; 200; 2; 166; 144; 1; 0; 20; 128; 30; 255; 240; 147; 225; 0; 12; 127; 192; 242; 20;
  129; 62; 128; 0; 128; 9; 255; 252; 59; 233; 255; 252; 72; 0; 0; 16; 124; 8; 3; 166; 78; 128; 0; 33;
  132; 31; 255; 252; 47; 128; 255; 255; 64; 158; 255; 240; 128; 1; 0; 20; 131; 193; 0; 8; 131; 225; 0; 12;
  124; 8; 3; 166; 56; 33; 0; 16; 78; 128; 0; 32; 124; 8; 2; 166; 148; 33; 255; 240; 144; 1; 0; 20;
  128; 1; 0; 20; 56; 33; 0; 16; 124; 8; 3; 166; 78; 128; 0; 32; 148; 33; 255; 240; 124; 8; 2; 166;
  144; 1; 0; 20; 75; 255; 251; 57; 128; 1; 0; 20; 124; 8; 3; 166; 56; 33; 0; 16; 78; 128; 0; 32;
  16; 1; 138; 28; 16; 0; 5; 40; 16; 0; 5; 96; 16; 0; 5; 236; 0; 2; 0; 1; 0; 0; 0; 0;
  16; 1; 9; 240; 0; 0; 0; 0; 16; 1; 10; 136; 16; 1; 9; 0; 16; 1; 9; 244; 0; 0; 0; 0;
  16; 1; 9; 232; 0; 0; 0; 1; 0; 0; 0; 36; 0; 0; 0; 12; 16; 0; 3; 124; 0; 0; 0; 13;
  16; 0; 8; 200; 0; 0; 0; 4; 16; 0; 1; 100; 0; 0; 0; 5; 16; 0; 2; 64; 0; 0; 0; 6;
  16; 0; 1; 160; 0; 0; 0; 10; 0; 0; 0; 167; 0; 0; 0; 11; 0; 0; 0; 16; 0; 0; 0; 21;
  0; 0; 0; 0; 0; 0; 0; 3; 16; 1; 10; 28; 0; 0; 0; 2; 0; 0; 0; 36; 0; 0; 0; 20;
  0; 0; 0; 7; 0; 0; 0; 23; 16; 0; 3; 88; 0; 0; 0; 7; 16; 0; 3; 28; 0; 0; 0; 8;
  0; 0; 0; 96; 0; 0; 0; 9; 0; 0; 0; 12; 111; 255; 255; 254; 16; 0; 2; 252; 111; 255; 255; 255;
  0; 0; 0; 1; 111; 255; 255; 240; 16; 0; 2; 232; 0; 0; 0; 0; 0; 0; 0; 0; 0; 0; 0; 0;
  0; 0; 0; 0; 0; 0; 0; 0; 0; 0; 0; 0; 0; 0; 0; 0; 0; 0; 0; 0; 0; 0; 0; 0;
  0; 0; 0; 0; 0; 0; 0; 0; 0; 0; 0; 0; 255; 255; 255; 255; 0; 0; 0; 0; 255; 255; 255; 255;
  0; 0; 0; 0; 0; 0; 0; 0; 78; 128; 0; 33; 16; 1; 9; 28; 0; 0; 0; 0; 0; 0; 0; 0;
  0; 0; 0; 0; 0; 0; 0; 0; 0; 0; 0; 0; 0; 0; 0; 0; 0; 0; 0; 0; 0; 71; 67; 67;
  58; 32; 40; 71; 78; 85; 41; 32; 51; 46; 52; 46; 52; 0; 0; 71; 67; 67; 58; 32; 40; 71; 78; 85;
  41; 32; 51; 46; 52; 46; 52; 0; 0; 71; 67; 67; 58; 32; 40; 71; 78; 85; 41; 32; 51; 46; 52; 46;
  52; 0; 0; 71; 67; 67; 58; 32; 40; 71; 78; 85; 41; 32; 51; 46; 52; 46; 52; 0; 0; 71; 67; 67;
  58; 32; 40; 71; 78; 85; 41; 32; 51; 46; 52; 46; 52; 0; 0; 71; 67; 67; 58; 32; 40; 71; 78; 85;
  41; 32; 51; 46; 52; 46; 52; 0; 0; 71; 67; 67; 58; 32; 40; 71; 78; 85; 41; 32; 51; 46; 52; 46;
  52; 0; 0; 46; 115; 104; 115; 116; 114; 116; 97; 98; 0; 46; 105; 110; 116; 101; 114; 112; 0; 46; 110; 111;
  116; 101; 46; 65; 66; 73; 45; 116; 97; 103; 0; 46; 104; 97; 115; 104; 0; 46; 100; 121; 110; 115; 121; 109;
  0; 46; 100; 121; 110; 115; 116; 114; 0; 46; 103; 110; 117; 46; 118; 101; 114; 115; 105; 111; 110; 0; 46; 103;
  110; 117; 46; 118; 101; 114; 115; 105; 111; 110; 95; 114; 0; 46; 114; 101; 108; 97; 46; 100; 121; 110; 0; 46;
  114; 101; 108; 97; 46; 112; 108; 116; 0; 46; 105; 110; 105; 116; 0; 46; 116; 101; 120; 116; 0; 46; 102; 105;
  110; 105; 0; 46; 114; 111; 100; 97; 116; 97; 0; 46; 115; 100; 97; 116; 97; 50; 0; 46; 100; 97; 116; 97;
  0; 46; 101; 104; 95; 102; 114; 97; 109; 101; 0; 46; 103; 111; 116; 50; 0; 46; 100; 121; 110; 97; 109; 105;
  99; 0; 46; 99; 116; 111; 114; 115; 0; 46; 100; 116; 111; 114; 115; 0; 46; 106; 99; 114; 0; 46; 103; 111;
  116; 0; 46; 115; 100; 97; 116; 97; 0; 46; 115; 98; 115; 115; 0; 46; 98; 115; 115; 0; 46; 99; 111; 109;
  109; 101; 110; 116; 0; 0; 0; 0; 0; 0; 0; 0; 0; 0; 0; 0; 0; 0; 0; 0; 0; 0; 0; 0;
  0; 0; 0; 0; 0; 0; 0; 0; 0; 0; 0; 0; 0; 0; 0; 0; 0; 0; 0; 0; 0; 0; 0; 0;
  0; 0; 0; 11; 0; 0; 0; 1; 0; 0; 0; 2; 16; 0; 1; 52; 0; 0; 1; 52; 0; 0; 0; 13;
  0; 0; 0; 0; 0; 0; 0; 0; 0; 0; 0; 1; 0; 0; 0; 0; 0; 0; 0; 19; 0; 0; 0; 7;
  0; 0; 0; 2; 16; 0; 1; 68; 0; 0; 1; 68; 0; 0; 0; 32; 0; 0; 0; 0; 0; 0; 0; 0;
  0; 0; 0; 4; 0; 0; 0; 0; 0; 0; 0; 33; 0; 0; 0; 5; 0; 0; 0; 2; 16; 0; 1; 100;
  0; 0; 1; 100; 0; 0; 0; 60; 0; 0; 0; 4; 0; 0; 0; 0; 0; 0; 0; 4; 0; 0; 0; 4;
  0; 0; 0; 39; 0; 0; 0; 11; 0; 0; 0; 2; 16; 0; 1; 160; 0; 0; 1; 160; 0; 0; 0; 160;
  0; 0; 0; 5; 0; 0; 0; 1; 0; 0; 0; 4; 0; 0; 0; 16; 0; 0; 0; 47; 0; 0; 0; 3;
  0; 0; 0; 2; 16; 0; 2; 64; 0; 0; 2; 64; 0; 0; 0; 167; 0; 0; 0; 0; 0; 0; 0; 0;
  0; 0; 0; 1; 0; 0; 0; 0; 0; 0; 0; 55; 111; 255; 255; 255; 0; 0; 0; 2; 16; 0; 2; 232;
  0; 0; 2; 232; 0; 0; 0; 20; 0; 0; 0; 4; 0; 0; 0; 0; 0; 0; 0; 2; 0; 0; 0; 2;
  0; 0; 0; 68; 111; 255; 255; 254; 0; 0; 0; 2; 16; 0; 2; 252; 0; 0; 2; 252; 0; 0; 0; 32;
  0; 0; 0; 5; 0; 0; 0; 1; 0; 0; 0; 4; 0; 0; 0; 0; 0; 0; 0; 83; 0; 0; 0; 4;
  0; 0; 0; 2; 16; 0; 3; 28; 0; 0; 3; 28; 0; 0; 0; 60; 0; 0; 0; 4; 0; 0; 0; 0;
  0; 0; 0; 4; 0; 0; 0; 12; 0; 0; 0; 93; 0; 0; 0; 4; 0; 0; 0; 2; 16; 0; 3; 88;
  0; 0; 3; 88; 0; 0; 0; 36; 0; 0; 0; 4; 0; 0; 0; 25; 0; 0; 0; 4; 0; 0; 0; 12;
  0; 0; 0; 103; 0; 0; 0; 1; 0; 0; 0; 6; 16; 0; 3; 124; 0; 0; 3; 124; 0; 0; 0; 40;
  0; 0; 0; 0; 0; 0; 0; 0; 0; 0; 0; 4; 0; 0; 0; 0; 0; 0; 0; 109; 0; 0; 0; 1;
  0; 0; 0; 6; 16; 0; 3; 164; 0; 0; 3; 164; 0; 0; 5; 36; 0; 0; 0; 0; 0; 0; 0; 0;
  0; 0; 0; 4; 0; 0; 0; 0; 0; 0; 0; 115; 0; 0; 0; 1; 0; 0; 0; 6; 16; 0; 8; 200;
  0; 0; 8; 200; 0; 0; 0; 32; 0; 0; 0; 0; 0; 0; 0; 0; 0; 0; 0; 4; 0; 0; 0; 0;
  0; 0; 0; 121; 0; 0; 0; 1; 0; 0; 0; 2; 16; 0; 8; 232; 0; 0; 8; 232; 0; 0; 0; 20;
  0; 0; 0; 0; 0; 0; 0; 0; 0; 0; 0; 4; 0; 0; 0; 0; 0; 0; 0; 129; 0; 0; 0; 1;
  0; 0; 0; 2; 16; 0; 8; 252; 0; 0; 8; 252; 0; 0; 0; 0; 0; 0; 0; 0; 0; 0; 0; 0;
  0; 0; 0; 4; 0; 0; 0; 0; 0; 0; 0; 137; 0; 0; 0; 1; 0; 0; 0; 3; 16; 1; 8; 252;
  0; 0; 8; 252; 0; 0; 0; 8; 0; 0; 0; 0; 0; 0; 0; 0; 0; 0; 0; 4; 0; 0; 0; 0;
  0; 0; 0; 143; 0; 0; 0; 1; 0; 0; 0; 2; 16; 1; 9; 4; 0; 0; 9; 4; 0; 0; 0; 4;
  0; 0; 0; 0; 0; 0; 0; 0; 0; 0; 0; 4; 0; 0; 0; 0; 0; 0; 0; 153; 0; 0; 0; 1;
  0; 0; 0; 3; 16; 1; 9; 8; 0; 0; 9; 8; 0; 0; 0; 20; 0; 0; 0; 0; 0; 0; 0; 0;
  0; 0; 0; 1; 0; 0; 0; 0; 0; 0; 0; 159; 0; 0; 0; 6; 0; 0; 0; 3; 16; 1; 9; 28;
  0; 0; 9; 28; 0; 0; 0; 200; 0; 0; 0; 5; 0; 0; 0; 0; 0; 0; 0; 4; 0; 0; 0; 8;
  0; 0; 0; 168; 0; 0; 0; 1; 0; 0; 0; 3; 16; 1; 9; 228; 0; 0; 9; 228; 0; 0; 0; 8;
  0; 0; 0; 0; 0; 0; 0; 0; 0; 0; 0; 4; 0; 0; 0; 0; 0; 0; 0; 175; 0; 0; 0; 1;
  0; 0; 0; 3; 16; 1; 9; 236; 0; 0; 9; 236; 0; 0; 0; 8; 0; 0; 0; 0; 0; 0; 0; 0;
  0; 0; 0; 4; 0; 0; 0; 0; 0; 0; 0; 182; 0; 0; 0; 1; 0; 0; 0; 3; 16; 1; 9; 244;
  0; 0; 9; 244; 0; 0; 0; 4; 0; 0; 0; 0; 0; 0; 0; 0; 0; 0; 0; 4; 0; 0; 0; 0;
  0; 0; 0; 187; 0; 0; 0; 1; 0; 0; 0; 7; 16; 1; 9; 248; 0; 0; 9; 248; 0; 0; 0; 36;
  0; 0; 0; 0; 0; 0; 0; 0; 0; 0; 0; 4; 0; 0; 0; 4; 0; 0; 0; 192; 0; 0; 0; 1;
  0; 0; 0; 3; 16; 1; 10; 28; 0; 0; 10; 28; 0; 0; 0; 0; 0; 0; 0; 0; 0; 0; 0; 0;
  0; 0; 0; 4; 0; 0; 0; 0; 0; 0; 0; 199; 0; 0; 0; 8; 0; 0; 0; 3; 16; 1; 10; 28;
  0; 0; 10; 28; 0; 0; 0; 0; 0; 0; 0; 0; 0; 0; 0; 0; 0; 0; 0; 1; 0; 0; 0; 0;
  0; 0; 0; 98; 0; 0; 0; 8; 0; 0; 0; 7; 16; 1; 10; 28; 0; 0; 10; 28; 0; 0; 0; 108;
  0; 0; 0; 0; 0; 0; 0; 0; 0; 0; 0; 4; 0; 0; 0; 0; 0; 0; 0; 205; 0; 0; 0; 8;
  0; 0; 0; 3; 16; 1; 10; 136; 0; 0; 10; 28; 0; 0; 0; 4; 0; 0; 0; 0; 0; 0; 0; 0;
  0; 0; 0; 1; 0; 0; 0; 0; 0; 0; 0; 210; 0; 0; 0; 1; 0; 0; 0; 0; 0; 0; 0; 0;
  0; 0; 10; 28; 0; 0; 0; 126; 0; 0; 0; 0; 0; 0; 0; 0; 0; 0; 0; 1; 0; 0; 0; 0;
  0; 0; 0; 1; 0; 0; 0; 3; 0; 0; 0; 0; 0; 0; 0; 0; 0; 0; 10; 154; 0; 0; 0; 219;
  0; 0; 0; 0; 0; 0; 0; 0; 0; 0; 0; 1; 0; 0; 0; 0
].
