(* ===== verification/Mkbof.v ===== *)
(** * Building BOF files: [src/borph/tools/borph/mkbof.c]

The host tool that packs an ELF image, a symbol file and an FPGA bitstream into
a BOF file.  The model runs on a little-endian host; the file system is a map
from names to contents, and the output file is not one of the inputs. *)
From stdpp Require Import base list gmap.
From S2P Require Import Prelude Bof ElfDef.
From Stdlib Require Import ZArith Lia.

Definition ELFDATA2LSB : Z := 1.
Definition ELFDATA2MSB : Z := 2.
Definition EI_DATA : Z := 5.
Definition BLOCK_SIZE : Z := 512.
Definition SYMTAB_SIZE : Z := 1024.

(** [struct symbol]; the name is the text before the NUL. *)
Record symbol : Type := Symbol {
  sy_name : list Z;
  sy_mode : Z;
  sy_loc : Z;
  sy_len : Z
}.

(** ** Byte order *)
Definition FixEndian_bofhdr (h : bofhdr) (oendian : Z) : bofhdr :=
  if oendian =? ELFDATA2LSB then h
  else if oendian =? ELFDATA2MSB then
    Bofhdr (ident h) (swap_byte32 (b_version h)) (swap_byte16 (b_machine h)) (b_elfmachine h)
      (swap_byte32 (b_numchip h)) (swap_byte32 (b_elfoff h)) (swap_byte32 (b_hwoff h))
      (load_err h) (swap_byte32 (b_ekver h)) (bof_pad h)
  else h.

Definition FixEndian_hwrhdr (h : hwrhdr) (oendian : Z) : hwrhdr :=
  if oendian =? ELFDATA2LSB then h
  else if oendian =? ELFDATA2MSB then
    Hwrhdr (swap_byte32 (flag h))
      (HwrAddr (swap_byte16 (class (haddr h))) (swap_byte16 (addr (haddr h))))
      (swap_byte32 (pl_off h)) (swap_byte32 (pl_len h)) (swap_byte32 (nr_symbol h))
      (swap_byte32 (strtab_off h)) (swap_byte32 (next_hwr h))
  else h.

Definition FixEndian_ioreg (r : bofioreg) (oendian : Z) : bofioreg :=
  if oendian =? ELFDATA2LSB then r
  else if oendian =? ELFDATA2MSB then
    Bofioreg (swap_byte16 (ior_name r)) (swap_byte16 (ior_mode r)) (swap_byte32 (ior_loc r))
      (swap_byte32 (ior_len r))
  else r.

(** ** The C library: lines and [sscanf] *)
Definition is_space (c : Z) : bool := (c =? 32) || ((9 <=? c) && (c <=? 13)).

(** [fgets(block, BLOCK_SIZE, f)]: up to 511 bytes, through the first newline;
the line and the rest. *)
Fixpoint fgets (n : nat) (l : list Z) : list Z * list Z :=
  match n, l with
  | O, _ => ([], l)
  | _, [] => ([], [])
  | S n, c :: l =>
      if c =? 10 then ([c], l)
      else let '(line, rest) := fgets n l in (c :: line, rest)
  end.

(** The text of a buffer, as [strlen] and [sscanf] see it. *)
Fixpoint ctext (l : list Z) : list Z :=
  match l with
  | [] => []
  | c :: l => if c =? 0 then [] else c :: ctext l
  end.

Fixpoint skip_ws (l : list Z) : list Z :=
  match l with
  | c :: l' => if is_space c then skip_ws l' else l
  | [] => []
  end.

(** ["%s"]: a word and the rest. *)
Fixpoint scan_word (l : list Z) : list Z * list Z :=
  match l with
  | [] => ([], [])
  | c :: l' => if is_space c then ([], l)
               else let '(w, rest) := scan_word l' in (c :: w, rest)
  end.

Definition hex_val (c : Z) : option Z :=
  if (48 <=? c) && (c <=? 57) then Some (c - 48)
  else if (97 <=? c) && (c <=? 102) then Some (c - 87)
  else if (65 <=? c) && (c <=? 70) then Some (c - 55)
  else None.

(** The digits at the front: how many, their value, the rest. *)
Fixpoint scan_digits (l : list Z) (n : nat) (v : Z) : nat * Z * list Z :=
  match l with
  | [] => (n, v, [])
  | c :: l' => match hex_val c with
               | Some d => scan_digits l' (S n) (v * 16 + d)
               | None => (n, v, l)
               end
  end.

Definition skip_0x (l : list Z) : list Z :=
  match l with
  | a :: c :: l' => if (a =? 48) && ((c =? 120) || (c =? 88)) then l' else l
  | _ => l
  end.

(** ["%x"] on an optional sign and ["0x"]; the conversion saturates at the width
of [unsigned long] and the store keeps 32 bits. *)
Definition scan_hex (l : list Z) : option (Z * list Z) :=
  let l := skip_ws l in
  let '(neg, l) := match l with
                   | c :: l' => if c =? 45 then (true, l') else if c =? 43 then (false, l') else (false, l)
                   | [] => (false, [])
                   end in
  let '(n, v, rest) := scan_digits (skip_0x l) 0 0 in
  match n with
  | O => None
  | _ => let v := if 2 ^ 64 <=? v then 2 ^ 64 - 1 else if neg then - v else v in
         Some (u32 v, rest)
  end.

(** [sscanf(block, "%s %x %x %x\n", ...)]: the symbol when all four match.  A name
that does not fit its array is stored over what follows it. *)
Definition scan_symbol (block : list Z) : res (option symbol) :=
  match scan_word (skip_ws (ctext block)) with
  | ([], _) => Ok None
  | (name, l) =>
      if 255 <? zlen name then Fault OutOfBounds
      else Ok (m ← scan_hex l; let '(mode, l) := m in
               p ← scan_hex l; let '(loc, l) := p in
               q ← scan_hex l; let '(len, _) := q in
               Some (Symbol name mode loc len))
  end.

(** ** The symbol file: the return code, the symbols and [strtab_size] *)
Fixpoint read_symbols (fuel : nat) (f : list Z) (syms : list symbol) (strtab_size : Z) :
  res (Z * list symbol * Z) :=
  match f with
  | [] => Ok (0, syms, strtab_size)
  | _ =>
      match fuel with
      | O => Fault OutOfFuel
      | S fuel =>
          let '(block, rest) := fgets (Z.to_nat (BLOCK_SIZE - 1)) f in
          match last (ctext block) with
          | None => Fault OutOfBounds
          | Some c =>
              if negb (c =? 10) then Ok (1, syms, strtab_size)
              else if SYMTAB_SIZE <=? zlen syms then Fault OutOfBounds
              else match scan_symbol block with
              | Fault e => Fault e
              | Ok None => Ok (2, syms, strtab_size)
              | Ok (Some sym) =>
                  let syms := syms ++ [sym] in
                  let strtab_size := u32 (strtab_size + zlen (sy_name sym) + 1) in
                  if SYMTAB_SIZE <? zlen syms then Ok (2, syms, strtab_size)
                  else read_symbols fuel rest syms strtab_size
              end
          end
      end
  end.

Definition ReadSymbolFile (f : list Z) : res (Z * list symbol * Z) :=
  read_symbols (length f) f [] 0.

(** ** The tables *)
Fixpoint WriteSymtab (syms : list symbol) (strtab_off : Z) : list Z :=
  match syms with
  | [] => []
  | s :: syms =>
      enc_bofioreg (FixEndian_ioreg
        (Bofioreg strtab_off (u16 (sy_mode s)) (sy_loc s) (sy_len s)) ELFDATA2LSB)
      ++ WriteSymtab syms (u16 (strtab_off + zlen (sy_name s) + 1))
  end.

Definition WriteStrtab (syms : list symbol) : list Z :=
  concat ((fun s => sy_name s ++ [0]) <$> syms).

(** Copies in blocks of [BLOCK_SIZE]. *)
Fixpoint copy_remain_file (fuel : nat) (from : list Z) : res (list Z) :=
  match from with
  | [] => Ok []
  | _ =>
      match fuel with
      | O => Fault OutOfFuel
      | S fuel =>
          match copy_remain_file fuel (drop (Z.to_nat BLOCK_SIZE) from) with
          | Ok out => Ok (take (Z.to_nat BLOCK_SIZE) from ++ out)
          | Fault e => Fault e
          end
      end
  end.

(** ** The headers *)
Definition machine_of (cls : Z) : Z :=
  if cls =? HAC_NETFPGA then BM_NETFPGA
  else if cls =? HAC_ROACHV5 then BM_ROACH
  else if cls =? HAC_RHINO then BM_RHINO
  else if cls =? HAC_MOLERAD then BM_MOLERAD
  else BM_BEE2.

Definition make_bofhdr (cls : Z) (ehdr : list Z) (elf_size : Z) : bofhdr :=
  FixEndian_bofhdr
    (Bofhdr ([0x19; 66; 79; 70; 0] ++ [field EI_DATA 1 ehdr] ++ replicate 10 0) 6
       (machine_of cls) (field 18 2 ehdr) 1 (u32 elf_size)
       (u32 (elf_size + sizeof_Elf32_Ehdr)) 0 0xe001 [0xA5368120; 0xA5368121])
    ELFDATA2LSB.

(** [-p] and [-n] have no option letter: [s_placed] and [s_noconfig] stay 0. *)
Definition make_hwrhdr (cls numsym strtab_size elf_size bitfile_size : Z) : hwrhdr :=
  let strtab_off := u32 (elf_size + sizeof_Elf32_Ehdr + sizeof_hwrhdr + numsym * sizeof_bofioreg) in
  FixEndian_hwrhdr
    (Hwrhdr 0 (HwrAddr (u16 cls) 0) (u32 (strtab_off + strtab_size)) (u32 bitfile_size)
       (u32 numsym) strtab_off 0)
    ELFDATA2LSB.

(** ** Command line *)
Record options : Type := Options {
  o_bofname : list Z;
  o_elfname : option (list Z);
  o_bitname : option (list Z);
  o_symname : option (list Z);
  o_class : Z;
  o_verbose : bool
}.

Definition default_options : options := Options [] None None None HAC_RHINO false.

Fixpoint scan_decimal (l : list Z) (v : Z) : Z :=
  match l with
  | c :: l => if (48 <=? c) && (c <=? 57) then scan_decimal l (v * 10 + (c - 48)) else v
  | [] => v
  end.

(** [atoi], which goes through a 64-bit [long]. *)
Definition atoi (l : list Z) : Z :=
  let v := match skip_ws l with
           | c :: l' => if c =? 45 then - scan_decimal l' 0
                        else if c =? 43 then scan_decimal l' 0
                        else scan_decimal (c :: l') 0
           | [] => 0
           end in
  s32 (Z.max (- 2 ^ 63) (Z.min v (2 ^ 63 - 1))).

(** The option loop; [None] is [UsageExit]. *)
Fixpoint parse_args (args : list (list Z)) (o : options) : res (option options) :=
  match args with
  | [] => Ok (Some o)
  | (45 :: opt) :: args' =>
      let letter := default 0 (head opt) in
      if letter =? 118 then
        parse_args args' (Options (o_bofname o) (o_elfname o) (o_bitname o) (o_symname o) (o_class o) true)
      else if negb ((letter =? 111) || (letter =? 101) || (letter =? 115) || (letter =? 116)) then Ok None
      else match args' with
      | [] => Ok None
      | v :: args'' =>
          if letter =? 111 then
            if 255 <? zlen v then Fault OutOfBounds
            else parse_args args'' (Options v (o_elfname o) (o_bitname o) (o_symname o) (o_class o) (o_verbose o))
          else if letter =? 101 then
            parse_args args'' (Options (o_bofname o) (Some v) (o_bitname o) (o_symname o) (o_class o) (o_verbose o))
          else if letter =? 115 then
            parse_args args'' (Options (o_bofname o) (o_elfname o) (o_bitname o) (Some v) (o_class o) (o_verbose o))
          else
            parse_args args'' (Options (o_bofname o) (o_elfname o) (o_bitname o) (o_symname o) (u32 (atoi v)) (o_verbose o))
      end
  | v :: args' =>
      parse_args args' (Options (o_bofname o) (o_elfname o) (Some v) (o_symname o) (o_class o) (o_verbose o))
  end.

Definition dot_bof : list Z := [46; 98; 111; 102].
Definition null_text : list Z := [40; 110; 117; 108; 108; 41].

(** The output name: [-o], or the bit file's name with [".bof"] appended. *)
Definition bof_name (o : options) : res (list Z) :=
  match o_bofname o with
  | [] => let n := default null_text (o_bitname o) ++ dot_bof in
          if 255 <? zlen n then Fault OutOfBounds else Ok n
  | n => Ok n
  end.

(** ** Opening the files *)
Definition files : Type := gmap (list Z) (list Z).

(** The temporary file; a class without a built-in image leaves it empty, since
the count that says so is unsigned. *)
Definition GenerateElfFile (cls : Z) : list Z :=
  if cls =? HAC_NETFPGA then default_x86_elf_bin
  else if (cls =? HAC_RHINO) || (cls =? HAC_MOLERAD) then default_arm_elf_bin
  else if cls =? HAC_ROACHV5 then default_ppc_elf_bin
  else [].

(** What [Initialize] leaves open: class, ELF, bit and symbol contents, and the
name of the emptied output.  [inl] is the process's exit code. *)
Definition Initialize (writable : list Z -> bool) (argv : list (list Z)) (fs : files) :
  res (Z + Z * list Z * list Z * list Z * list Z) :=
  if zlen argv <? 4 then Ok (inl 1)
  else match parse_args (tail argv) default_options with
  | Fault e => Fault e
  | Ok None => Ok (inl 1)
  | Ok (Some o) =>
      match bof_name o with
      | Fault e => Fault e
      | Ok bof =>
          match (match o_elfname o with
                 | None => Some (GenerateElfFile (o_class o))
                 | Some n => fs !! n
                 end) with
          | None => Ok (inl 1)
          | Some elf =>
              match o_bitname o with
              | None => Fault NullDeref
              | Some n =>
                  match fs !! n with
                  | None => Ok (inl 1)
                  | Some bit =>
                      match o_symname o with
                      | None => Fault NullDeref
                      | Some n =>
                          match fs !! n with
                          | None => Ok (inl 1)
                          | Some sym =>
                              if writable bof then Ok (inr (o_class o, elf, bit, sym, bof))
                              else Ok (inl 1)
                          end
                      end
                  end
              end
          end
      end
  end.

(** ** [main] after [Initialize]: the exit code and what the output file holds *)
Definition write_bof (cls : Z) (elf bit sym : list Z) : res (Z * list Z) :=
  if zlen elf <? sizeof_Elf32_Ehdr then Ok (1, [])
  else
    let ehdr := slice 0 sizeof_Elf32_Ehdr elf in
    match ReadSymbolFile sym with
    | Fault e => Fault e
    | Ok (rc, syms, strtab_size) =>
        if truthy rc then Ok (1, [])
        else match copy_remain_file (length elf) (drop (Z.to_nat sizeof_Elf32_Ehdr) elf),
                   copy_remain_file (length bit) bit with
        | Ok rest, Ok payload =>
            Ok (0, enc_bofhdr (make_bofhdr cls ehdr (zlen elf)) ++ rest ++ ehdr
                   ++ enc_hwrhdr (make_hwrhdr cls (zlen syms) strtab_size (zlen elf) (zlen bit))
                   ++ WriteSymtab syms 0 ++ WriteStrtab syms ++ payload)
        | _, _ => Fault OutOfFuel
        end
    end.

Definition main (writable : list Z -> bool) (argv : list (list Z)) (fs : files) :
  res (Z * files) :=
  match Initialize writable argv fs with
  | Fault e => Fault e
  | Ok (inl rc) => Ok (rc, fs)
  | Ok (inr (cls, elf, bit, sym, bof)) =>
      match write_bof cls elf bit sym with
      | Fault e => Fault e
      | Ok (rc, out) => Ok (rc, <[bof := out]> fs)
      end
  end.

(** * Properties *)
Lemma copy_remain_file_all fuel l :
  (length l <= fuel)%nat -> copy_remain_file fuel l = Ok l.
Proof.
  revert l. induction fuel as [|fuel IH]; intros [|c l] Hl; cbn [copy_remain_file]; try done.
  { cbn in Hl. lia. }
  assert (Z.to_nat BLOCK_SIZE = 512%nat) as E by done.
  rewrite IH by (rewrite length_drop; cbn [length] in *; lia). by rewrite take_drop.
Qed.

(** ** The symbol file *)
Definition good_symbol (s : symbol) : Prop :=
  sy_name s <> [] /\ no_nul (sy_name s) /\ Forall (fun c => is_space c = false) (sy_name s)
  /\ zlen (sy_name s) <= 255
  /\ is_uint 32 (sy_mode s) /\ is_uint 32 (sy_loc s) /\ is_uint 32 (sy_len s).

Lemma ctext_no_nul l : no_nul (ctext l).
Proof.
  induction l as [|c l IH]; simpl; [by apply Forall_nil|].
  destruct (Z.eqb_spec c 0); [by apply Forall_nil|by apply Forall_cons].
Qed.

Lemma ctext_id l : no_nul l -> ctext l = l.
Proof.
  induction 1 as [|c l Hc H IH]; simpl; [done|]. by rewrite (proj2 (Z.eqb_neq _ _)), IH.
Qed.

Lemma skip_ws_no_nul l : no_nul l -> no_nul (skip_ws l).
Proof.
  induction 1 as [|c l Hc H IH]; simpl; [by apply Forall_nil|].
  destruct (is_space c); [done|by apply Forall_cons].
Qed.

Lemma scan_word_good l w rest :
  no_nul l -> scan_word l = (w, rest) ->
  no_nul w /\ Forall (fun c => is_space c = false) w /\ no_nul rest.
Proof.
  intros H. revert w rest. induction H as [|c l Hc H IH]; intros w rest E; simpl in E.
  { simplify_eq. by repeat split; apply Forall_nil. }
  destruct (is_space c) eqn:Es.
  { simplify_eq. repeat split; [apply Forall_nil_2..|by apply Forall_cons]. }
  destruct (scan_word l) as [w' r']. simplify_eq. destruct (IH w' rest eq_refl) as (? & ? & ?).
  by repeat split; try apply Forall_cons.
Qed.

Lemma scan_hex_range l v rest : scan_hex l = Some (v, rest) -> is_uint 32 v.
Proof.
  unfold scan_hex. destruct (match skip_ws l with [] => _ | _ => _ end) as [neg l1].
  destruct (scan_digits _ 0 0) as [[[|n] v'] r']; [done|]. intros [= <- _].
  by apply wrapu_range.
Qed.

Lemma scan_symbol_good block s : scan_symbol block = Ok (Some s) -> good_symbol s.
Proof.
  unfold scan_symbol. destruct (scan_word _) as [w r] eqn:Ew.
  apply scan_word_good in Ew as (H1 & H2 & _); [|apply skip_ws_no_nul, ctext_no_nul].
  destruct w as [|c w]; [done|]. destruct (Z.ltb_spec 255 (zlen (c :: w))); [done|].
  intros [= E]. apply bind_Some in E as ([mode r1] & E1 & E).
  apply bind_Some in E as ([loc r2] & E2 & E). apply bind_Some in E as ([len r3] & E3 & [= <-]).
  apply scan_hex_range in E1, E2, E3. by repeat split; try apply E1; try apply E2; try apply E3.
Qed.

Lemma zlen_WriteStrtab_snoc syms s :
  zlen (WriteStrtab (syms ++ [s])) = zlen (WriteStrtab syms) + zlen (sy_name s) + 1.
Proof.
  unfold WriteStrtab. rewrite fmap_app, concat_app, zlen_app. cbn [fmap list_fmap concat].
  rewrite app_nil_r, zlen_app. change (zlen [0]) with 1. lia.
Qed.

Lemma zlen_WriteStrtab_cons s syms :
  zlen (WriteStrtab (s :: syms)) = zlen (sy_name s) + 1 + zlen (WriteStrtab syms).
Proof.
  unfold WriteStrtab. cbn [fmap list_fmap concat]. rewrite !zlen_app. by change (zlen [0]) with 1.
Qed.

Lemma zlen_WriteStrtab_le syms :
  Forall good_symbol syms -> zlen (WriteStrtab syms) <= 256 * zlen syms.
Proof.
  induction 1 as [|s syms (_ & _ & _ & Hs & _) H IH]; [done|].
  rewrite zlen_WriteStrtab_cons, zlen_cons. lia.
Qed.

(** What the scan guarantees of the symbols it has taken. *)
Definition scanned (syms : list symbol) (strtab_size : Z) : Prop :=
  Forall good_symbol syms /\ strtab_size = zlen (WriteStrtab syms) /\ zlen syms <= SYMTAB_SIZE.

Lemma read_symbols_scanned fuel f syms st syms' st' :
  scanned syms st -> read_symbols fuel f syms st = Ok (0, syms', st') -> scanned syms' st'.
Proof.
  revert f syms st. induction fuel as [|fuel IH]; intros [|c f] syms st Hs E; cbn [read_symbols] in E;
    try (by simplify_eq).
  destruct (fgets _ (c :: f)) as [block rest]. destruct (last (ctext block)) as [e|]; [|done].
  destruct (e =? 10); cbn [negb] in E; [|done].
  destruct (Z.leb_spec SYMTAB_SIZE (zlen syms)) as [|Hn]; [done|].
  destruct (scan_symbol block) as [[s|]|] eqn:Ex; [|done..]. apply scan_symbol_good in Ex.
  destruct (SYMTAB_SIZE <? zlen (syms ++ [s])); [done|]. apply IH in E; [done|].
  destruct Hs as (Hg & -> & _). assert (Forall good_symbol (syms ++ [s])) as Hg'
    by (apply Forall_app; auto).
  pose proof (zlen_WriteStrtab_le _ Hg'). split; [done|].
  rewrite zlen_WriteStrtab_snoc in *. rewrite zlen_app in *. change (zlen [s]) with 1 in *.
  pose proof (zlen_nonneg (WriteStrtab syms)). pose proof (zlen_nonneg (sy_name s)).
  unfold SYMTAB_SIZE in *. split; [apply wrapu_small; lia|lia].
Qed.

(** *** Reading back a written symbol file *)
Fixpoint text_val (ds : list Z) (v : Z) : option Z :=
  match ds with
  | [] => Some v
  | c :: ds => d ← hex_val c; text_val ds (v * 16 + d)
  end.

(** [ds] is a hexadecimal numeral of [v], of at most eight digits, with or without
["0x"] in front. *)
Definition hex_text (ds : list Z) (v : Z) : Prop :=
  exists pre digits, ds = pre ++ digits /\ (pre = [] \/ pre = [48; 120] \/ pre = [48; 88])
    /\ digits <> [] /\ zlen digits <= 8 /\ text_val digits 0 = Some v /\ is_uint 32 v.

(** Blanks and tabs between the columns. *)
Definition gap (l : list Z) : Prop := l <> [] /\ Forall (fun c => c = 32 \/ c = 9) l.

Definition symbol_line (s : symbol) (line : list Z) : Prop :=
  zlen line < BLOCK_SIZE /\ exists g1 g2 g3 dm dl dn, gap g1 /\ gap g2 /\ gap g3
    /\ hex_text dm (sy_mode s) /\ hex_text dl (sy_loc s) /\ hex_text dn (sy_len s)
    /\ line = (sy_name s ++ g1 ++ dm ++ g2 ++ dl ++ g3 ++ dn) ++ [10].

Lemma hex_val_char c d : hex_val c = Some d -> c <> 0 /\ c <> 10 /\ is_space c = false
  /\ c <> 45 /\ c <> 43 /\ c <> 120 /\ c <> 88.
Proof.
  unfold hex_val, is_space. intros H.
  assert (48 <= c <= 57 \/ 97 <= c <= 102 \/ 65 <= c <= 70) as Hc.
  { destruct ((48 <=? c) && (c <=? 57)) eqn:E1; [|destruct ((97 <=? c) && (c <=? 102)) eqn:E2;
      [|destruct ((65 <=? c) && (c <=? 70)) eqn:E3; [|done]]];
      match goal with E : _ = true |- _ => apply andb_true_iff in E as [?%Z.leb_le ?%Z.leb_le] end;
      lia. }
  repeat split; lia.
Qed.

Lemma text_val_chars ds v v' : text_val ds v = Some v' -> Forall (fun c => is_Some (hex_val c)) ds.
Proof.
  revert v. induction ds as [|c ds IH]; intros v H; [by apply Forall_nil|].
  cbn [text_val] in H. apply bind_Some in H as (d & Hd & H). apply Forall_cons. eauto.
Qed.

Lemma scan_digits_text ds c rest n v v' :
  text_val ds v = Some v' -> hex_val c = None ->
  scan_digits (ds ++ c :: rest) n v = ((n + length ds)%nat, v', c :: rest).
Proof.
  intros H Hc. revert n v H. induction ds as [|e ds IH]; intros n v H; cbn [app scan_digits length].
  { rewrite Hc. cbn in H. simplify_eq. by rewrite Nat.add_0_r. }
  cbn [text_val] in H. apply bind_Some in H as (d & Hd & H). rewrite Hd, (IH _ _ H).
  by rewrite Nat.add_succ_r.
Qed.

Lemma skip_ws_app g l : Forall (fun c => is_space c = true) g -> skip_ws (g ++ l) = skip_ws l.
Proof. induction 1 as [|c g Hc H IH]; cbn [app skip_ws]; [done|]. by rewrite Hc. Qed.

Lemma skip_ws_stop c l : is_space c = false -> skip_ws (c :: l) = c :: l.
Proof. cbn. by intros ->. Qed.

Lemma gap_space g : gap g -> Forall (fun c => is_space c = true) g.
Proof. intros [_ H]. eapply Forall_impl; [exact H|]. by intros c [-> | ->]. Qed.

Lemma gap_first g : gap g -> exists c r, g = c :: r /\ is_space c = true.
Proof.
  intros Hg. pose proof (gap_space g Hg) as Hs. destruct Hg as [Hn _]. destruct g as [|c r]; [done|].
  apply Forall_cons in Hs as [Hs _]. eauto.
Qed.

(** Digits behind an optional prefix. *)
Lemma skip_0x_text ds c rest v :
  hex_text ds v -> is_space c = true ->
  exists digits, skip_0x (ds ++ c :: rest) = digits ++ c :: rest /\ digits <> []
    /\ text_val digits 0 = Some v.
Proof.
  intros (pre & digits & -> & Hpre & Hne & _ & Hv & _) Hc. exists digits. split; [|done].
  pose proof (text_val_chars _ _ _ Hv) as Hf. destruct Hpre as [-> | [-> | ->]]; try done.
  destruct digits as [|e ds]; [done|]. unfold skip_0x. destruct ds as [|g ds]; cbn [app].
  - unfold is_space in Hc. by rewrite (proj2 (Z.eqb_neq c 120)), (proj2 (Z.eqb_neq c 88)), andb_false_r by lia.
  - inversion Hf as [|? ? _ Hds]; subst. inversion Hds as [|? ? [d' Hg] _]; subst.
    apply hex_val_char in Hg as (_ & _ & _ & _ & _ & ? & ?).
    by rewrite (proj2 (Z.eqb_neq g 120)), (proj2 (Z.eqb_neq g 88)), andb_false_r.
Qed.

Lemma hex_text_chars ds v (P : Z -> Prop) :
  hex_text ds v -> P 48 -> P 120 -> P 88 -> (forall c d, hex_val c = Some d -> P c) -> Forall P ds.
Proof.
  intros (pre & digits & -> & Hpre & _ & _ & Hv & _) H1 H2 H3 HP. apply Forall_app. split.
  - destruct Hpre as [-> | [-> | ->]]; by repeat constructor.
  - eapply Forall_impl; [by eapply text_val_chars|]. intros c [d Hd]. eauto.
Qed.

Lemma hex_text_first ds v :
  hex_text ds v -> exists e l, ds = e :: l /\ is_space e = false /\ e <> 45 /\ e <> 43.
Proof.
  intros Hd. pose proof (hex_text_chars ds v (fun e => is_space e = false /\ e <> 45 /\ e <> 43) Hd) as Hf.
  destruct Hd as (pre & digits & E & _ & Hne & _). destruct ds as [|e l].
  { by destruct pre, digits. }
  exists e, l. split; [done|]. specialize (Hf ltac:(done) ltac:(done) ltac:(done)).
  apply Forall_cons in Hf as [Hf _]; [done|]. intros c d Hc. apply hex_val_char in Hc. naive_solver.
Qed.

Lemma scan_hex_text g ds v c rest :
  gap g -> hex_text ds v -> is_space c = true ->
  scan_hex (g ++ ds ++ c :: rest) = Some (v, c :: rest).
Proof.
  intros Hg Hd Hc. assert (hex_val c = None) as Hn.
  { destruct (hex_val c) eqn:E; [|done]. apply hex_val_char in E as (_ & _ & E & _). congruence. }
  destruct (skip_0x_text ds c rest v Hd Hc) as (digits & E0 & Hne & Hv).
  destruct (hex_text_first ds v Hd) as (e & l & -> & He & He1 & He2).
  pose proof (scan_digits_text digits c rest 0 0 v Hv Hn) as Es.
  unfold scan_hex. rewrite skip_ws_app by by apply gap_space. cbn [app] in *. rewrite skip_ws_stop by done.
  rewrite (proj2 (Z.eqb_neq e 45)), (proj2 (Z.eqb_neq e 43)) by done. rewrite E0, Es.
  destruct digits as [|d0 digits]; [done|]. cbn [length Nat.add].
  destruct Hd as (_ & _ & _ & _ & _ & _ & _ & [Hu1 Hu2]).
  rewrite (proj2 (Z.leb_gt _ _)) by lia. by rewrite (wrapu_small 32).
Qed.

Lemma scan_word_name name c rest :
  Forall (fun c => is_space c = false) name -> is_space c = true ->
  scan_word (name ++ c :: rest) = (name, c :: rest).
Proof.
  intros H Hc. induction H as [|e name He H IH]; cbn [app scan_word]; [by rewrite Hc|].
  by rewrite He, IH.
Qed.

Lemma fgets_line n l rest :
  Forall (fun c => c <> 10) l -> (length l < n)%nat -> fgets n (l ++ 10 :: rest) = (l ++ [10], rest).
Proof.
  intros H. revert n. induction H as [|c l Hc H IH]; intros [|n] Hn; cbn [app fgets length] in *; try lia.
  - done.
  - rewrite (proj2 (Z.eqb_neq _ _)) by done. by rewrite IH by lia.
Qed.

(** The characters of a line, its length and its symbol. *)
Lemma symbol_line_scan s line :
  good_symbol s -> symbol_line s line ->
  exists l, line = l ++ [10] /\ Forall (fun c => c <> 10) l /\ no_nul l /\ zlen l <= 510
    /\ scan_symbol line = Ok (Some s).
Proof.
  intros (Hne & Hnn & Hsp & Hlen & _) (Hll & g1 & g2 & g3 & dm & dl & dn & Hg1 & Hg2 & Hg3 & Hm & Hl & Hn & ->).
  set (l := sy_name s ++ g1 ++ dm ++ g2 ++ dl ++ g3 ++ dn) in *.
  assert (Forall (fun c => c <> 10 /\ c <> 0) l) as Hc.
  { assert (forall c d, hex_val c = Some d -> c <> 10 /\ c <> 0) as HP
      by (intros c d H; apply hex_val_char in H; naive_solver).
    assert (forall g, gap g -> Forall (fun c => c <> 10 /\ c <> 0) g) as HG
      by (intros g [_ H]; eapply Forall_impl; [exact H|]; by intros c [-> | ->]).
    unfold l. repeat (apply Forall_app; split); eauto using hex_text_chars.
    apply Forall_forall. intros x Hx. split; [|exact (proj1 (Forall_forall _ _) Hnn _ Hx)].
    intros ->. by pose proof (proj1 (Forall_forall _ _) Hsp _ Hx). }
  exists l. split; [done|]. split; [by eapply Forall_impl; [exact Hc|naive_solver]|].
  assert (no_nul l) as Hnul by (eapply Forall_impl; [exact Hc|naive_solver]).
  split; [done|]. rewrite zlen_app in Hll. change (zlen [10]) with 1 in Hll. unfold BLOCK_SIZE in Hll.
  split; [lia|].
  unfold scan_symbol. rewrite ctext_id by (apply Forall_app; split; [done|by repeat constructor]).
  unfold l. rewrite <- !app_assoc.
  assert (forall rest, skip_ws (sy_name s ++ rest) = sy_name s ++ rest) as Hsk.
  { intros rest. destruct (sy_name s); [done|]. inversion Hsp; subst. by apply skip_ws_stop. }
  assert (exists c r, g1 = c :: r /\ is_space c = true) as (c1 & r1 & E1 & Hc1) by by apply gap_first.
  assert (exists c r, g2 = c :: r /\ is_space c = true) as (c2 & r2 & E2 & Hc2) by by apply gap_first.
  assert (exists c r, g3 = c :: r /\ is_space c = true) as (c3 & r3 & E3 & Hc3) by by apply gap_first.
  rewrite Hsk, E1. cbn [app]. rewrite scan_word_name by done. destruct (sy_name s) as [|c w] eqn:Ew; [done|].
  rewrite (proj2 (Z.ltb_ge 255 _)) by lia. rewrite (app_comm_cons r1), <- E1, E2. cbn [app].
  rewrite (scan_hex_text g1 dm _ _ _ Hg1 Hm) by done. cbn [base.mbind option_bind].
  rewrite (app_comm_cons r2), <- E2, E3. cbn [app]. rewrite (scan_hex_text g2 dl _ _ _ Hg2 Hl) by done.
  cbn [base.mbind option_bind]. rewrite (app_comm_cons r3), <- E3.
  rewrite (scan_hex_text g3 dn _ _ _ Hg3 Hn) by done.
  cbn [base.mbind option_bind]. rewrite <- Ew. by destruct s.
Qed.

Lemma scanned_snoc syms s :
  scanned syms (zlen (WriteStrtab syms)) -> good_symbol s -> zlen syms < SYMTAB_SIZE ->
  u32 (zlen (WriteStrtab syms) + zlen (sy_name s) + 1) = zlen (WriteStrtab (syms ++ [s]))
  /\ scanned (syms ++ [s]) (zlen (WriteStrtab (syms ++ [s]))).
Proof.
  intros (Hg & _ & Hz) Hs Hn.
  assert (Forall good_symbol (syms ++ [s])) as Hg' by (apply Forall_app; auto).
  pose proof (zlen_WriteStrtab_le _ Hg') as Hle. pose proof (zlen_nonneg (WriteStrtab (syms ++ [s]))).
  assert (zlen (syms ++ [s]) <= SYMTAB_SIZE) as Hz' by (rewrite zlen_app; change (zlen [s]) with 1; lia).
  split; [|done]. rewrite <- zlen_WriteStrtab_snoc. apply wrapu_small.
  unfold SYMTAB_SIZE in *. lia.
Qed.

Lemma read_symbols_lines fuel syms lines acc :
  Forall good_symbol syms -> Forall2 symbol_line syms lines ->
  scanned acc (zlen (WriteStrtab acc)) -> zlen acc + zlen syms <= SYMTAB_SIZE ->
  (length (concat lines) <= fuel)%nat ->
  read_symbols fuel (concat lines) acc (zlen (WriteStrtab acc))
  = Ok (0, acc ++ syms, zlen (WriteStrtab (acc ++ syms))).
Proof.
  intros Hg Hl. revert fuel acc. induction Hl as [|s line syms lines Hs Hl IH]; intros fuel acc Ha Hn Hf.
  { rewrite app_nil_r. by destruct fuel. }
  apply Forall_cons in Hg as [Hgs Hg]. specialize (IH Hg).
  destruct (symbol_line_scan s line Hgs Hs) as (l & -> & H10 & Hnn & Hlen & Hsc).
  rewrite zlen_cons in Hn. pose proof (zlen_nonneg syms).
  assert (exists c f, concat ((l ++ [10]) :: lines) = c :: f) as (c & f & Ec)
    by (cbn [concat]; destruct l; cbn; eauto).
  destruct fuel as [|fuel]; [rewrite Ec in Hf; cbn in Hf; lia|].
  cbn [concat] in *. rewrite length_app in Hf. cbn [read_symbols]. rewrite Ec. rewrite <- Ec, <- app_assoc. cbn [app].
  assert (Z.to_nat (BLOCK_SIZE - 1) = 511%nat) as -> by done.
  rewrite fgets_line by (done || (unfold zlen in Hlen; lia)).
  rewrite ctext_id, last_snoc by (apply Forall_app; split; [done|by repeat constructor]).
  cbn [Z.eqb Pos.eqb negb]. rewrite (proj2 (Z.leb_gt SYMTAB_SIZE _)) by lia. rewrite Hsc.
  destruct (scanned_snoc acc s Ha Hgs) as [-> Ha']; [lia|].
  rewrite (proj2 (Z.ltb_ge SYMTAB_SIZE _)) by apply Ha'.
  rewrite (IH fuel (acc ++ [s]) Ha').
  - by rewrite <- app_assoc.
  - rewrite zlen_app. change (zlen [s]) with 1. lia.
  - rewrite length_app in Hf. cbn in Hf. lia.
Qed.

(** C22. mkbof reads a well-formed symbol file completely and exactly: from one
line per symbol, each a name and three hexadecimal numerals, it gets precisely
these symbols in their order, and the size their string table will have. *)
Theorem ReadSymbolFile_roundtrip syms lines :
  Forall good_symbol syms -> Forall2 symbol_line syms lines -> zlen syms <= SYMTAB_SIZE ->
  ReadSymbolFile (concat lines) = Ok (0, syms, zlen (WriteStrtab syms)).
Proof.
  intros Hg Hl Hn. apply (read_symbols_lines _ syms lines []); done.
Qed.

(** ** The output file *)
Fixpoint regs_of (syms : list symbol) (off : Z) : list bofioreg :=
  match syms with
  | [] => []
  | s :: syms => Bofioreg off (u16 (sy_mode s)) (sy_loc s) (sy_len s)
                 :: regs_of syms (u16 (off + zlen (sy_name s) + 1))
  end.

Lemma WriteSymtab_regs syms off : WriteSymtab syms off = concat (enc_bofioreg <$> regs_of syms off).
Proof.
  revert off. induction syms as [|s syms IH]; intros off; [done|].
  cbn [WriteSymtab regs_of fmap list_fmap concat]. by rewrite IH.
Qed.

Lemma zlen_regs_of syms off : zlen (regs_of syms off) = zlen syms.
Proof.
  revert off. induction syms as [|s syms IH]; intros off; [done|]. cbn [regs_of].
  by rewrite !zlen_cons, IH.
Qed.

Lemma regs_of_wf syms off :
  Forall good_symbol syms -> is_uint 16 off -> Forall wf_bofioreg (regs_of syms off).
Proof.
  intros H. revert off. induction H as [|s syms (_ & _ & _ & _ & Hm & Hl & Hn) H IH]; intros off Ho;
    cbn [regs_of]; [by apply Forall_nil|].
  apply Forall_cons. split; [|apply IH; by apply wrapu_range].
  repeat split; cbn; try apply Ho; try apply Hl; try apply Hn; by apply (wrapu_range 16).
Qed.

(** Symbol [s] as register [r] of a region with string table [strtab]. *)
Definition exported (strtab : list Z) (s : symbol) (r : bofioreg) : Prop :=
  ior_name r < zlen strtab
  /\ cstr (drop (Z.to_nat (ior_name r)) strtab) = Some (sy_name s)
  /\ ior_mode r = u16 (sy_mode s) /\ ior_loc r = sy_loc s /\ ior_len r = sy_len s.

Lemma regs_of_exported pre syms :
  Forall good_symbol syms -> zlen (pre ++ WriteStrtab syms) <= 2 ^ 16 ->
  Forall2 (exported (pre ++ WriteStrtab syms)) syms (regs_of syms (u16 (zlen pre))).
Proof.
  intros H. revert pre. induction H as [|s syms (Hne & Hnn & _) H IH]; intros pre Hz;
    cbn [regs_of]; [by apply Forall2_nil|].
  pose proof (zlen_nonneg pre). pose proof (zlen_nonneg (sy_name s)).
  rewrite zlen_app, zlen_WriteStrtab_cons in Hz. pose proof (zlen_nonneg (WriteStrtab syms)).
  assert (pre ++ WriteStrtab (s :: syms) = (pre ++ sy_name s ++ [0]) ++ WriteStrtab syms) as E
    by (unfold WriteStrtab; cbn [fmap list_fmap concat]; by rewrite <- !app_assoc).
  apply Forall2_cons. rewrite (wrapu_small 16 (zlen pre)) by lia. split.
  - unfold exported. cbn [ior_name ior_mode ior_loc ior_len]. repeat split; try done.
    + rewrite zlen_app, zlen_WriteStrtab_cons. lia.
    + unfold zlen. rewrite Nat2Z.id, drop_app_length.
      unfold WriteStrtab. cbn [fmap list_fmap concat]. rewrite <- app_assoc. by apply cstr_app.
  - rewrite E. specialize (IH (pre ++ sy_name s ++ [0])).
    assert (zlen (pre ++ sy_name s ++ [0]) = zlen pre + zlen (sy_name s) + 1) as Ez
      by (rewrite !zlen_app; change (zlen [0]) with 1; lia).
    rewrite Ez in IH. apply IH. rewrite zlen_app, Ez. lia.
Qed.

(** The bytes mkbof writes, by parts. *)
Definition image (cls : Z) (elf bit : list Z) (syms : list symbol) : list Z :=
  let ehdr := slice 0 sizeof_Elf32_Ehdr elf in
  enc_bofhdr (make_bofhdr cls ehdr (zlen elf)) ++ drop (Z.to_nat sizeof_Elf32_Ehdr) elf ++ ehdr
  ++ enc_hwrhdr (make_hwrhdr cls (zlen syms) (zlen (WriteStrtab syms)) (zlen elf) (zlen bit))
  ++ concat (enc_bofioreg <$> regs_of syms 0) ++ WriteStrtab syms ++ bit.

Lemma write_bof_image cls elf bit sym syms :
  sizeof_Elf32_Ehdr <= zlen elf -> ReadSymbolFile sym = Ok (0, syms, zlen (WriteStrtab syms)) ->
  write_bof cls elf bit sym = Ok (0, image cls elf bit syms).
Proof.
  intros He Hs. unfold write_bof. rewrite (proj2 (Z.ltb_ge _ _)), Hs by done.
  cbn [truthy Z.eqb negb].
  rewrite !copy_remain_file_all by (rewrite ?length_drop; lia).
  unfold image. by rewrite WriteSymtab_regs.
Qed.

Section layout.
Context (cls : Z) (elf bit : list Z) (syms : list symbol).
Hypothesis elf_header : sizeof_Elf32_Ehdr <= zlen elf.

Let hdr := make_bofhdr cls (slice 0 sizeof_Elf32_Ehdr elf) (zlen elf).
Let reg := make_hwrhdr cls (zlen syms) (zlen (WriteStrtab syms)) (zlen elf) (zlen bit).

Lemma zlen_bofhdr_image : zlen (enc_bofhdr hdr) = sizeof_bofhdr.
Proof. by apply zlen_enc_bofhdr. Qed.

Lemma zlen_elf_header : zlen (slice 0 sizeof_Elf32_Ehdr elf) = sizeof_Elf32_Ehdr.
Proof. by apply zlen_slice. Qed.

Lemma zlen_elf_body : zlen (drop (Z.to_nat sizeof_Elf32_Ehdr) elf) = zlen elf - sizeof_Elf32_Ehdr.
Proof. unfold zlen, sizeof_Elf32_Ehdr in *. rewrite length_drop. lia. Qed.

Lemma zlen_regs_image : zlen (concat (enc_bofioreg <$> regs_of syms 0)) = sizeof_bofioreg * zlen syms.
Proof.
  rewrite <- (zlen_regs_of syms 0). induction (regs_of syms 0) as [|r rs IH]; [done|].
  cbn [fmap list_fmap concat]. rewrite zlen_app, IH, zlen_enc_bofioreg, zlen_cons. lia.
Qed.

Lemma zlen_image : zlen (image cls elf bit syms)
  = zlen elf + sizeof_Elf32_Ehdr + sizeof_hwrhdr + sizeof_bofioreg * zlen syms
    + zlen (WriteStrtab syms) + zlen bit.
Proof.
  unfold image. fold hdr reg. rewrite !zlen_app, zlen_bofhdr_image, zlen_elf_header, zlen_elf_body,
    zlen_regs_image, zlen_enc_hwrhdr. unfold sizeof_bofhdr, sizeof_Elf32_Ehdr. lia.
Qed.

Lemma image_body :
  slice sizeof_Elf32_Ehdr (zlen elf - sizeof_Elf32_Ehdr) (image cls elf bit syms)
  = drop (Z.to_nat sizeof_Elf32_Ehdr) elf.
Proof. apply slice_exact; [symmetry; apply zlen_bofhdr_image|by rewrite zlen_elf_body]. Qed.

Lemma image_elf_header :
  slice (zlen elf) sizeof_Elf32_Ehdr (image cls elf bit syms) = slice 0 sizeof_Elf32_Ehdr elf.
Proof.
  unfold image. rewrite app_assoc. apply slice_exact; [|by rewrite zlen_elf_header].
  fold hdr. rewrite zlen_app, zlen_bofhdr_image, zlen_elf_body.
  unfold sizeof_bofhdr, sizeof_Elf32_Ehdr. lia.
Qed.

Lemma image_region :
  slice (zlen elf + sizeof_Elf32_Ehdr)
    (sizeof_hwrhdr + sizeof_bofioreg * zlen syms + zlen (WriteStrtab syms)) (image cls elf bit syms)
  = enc_hwrhdr reg ++ concat (enc_bofioreg <$> regs_of syms 0) ++ WriteStrtab syms.
Proof.
  unfold image. fold hdr reg. rewrite !app_assoc, <- (app_assoc _ _ (WriteStrtab syms)).
  rewrite <- (app_assoc _ (enc_hwrhdr reg)). rewrite <- (app_assoc _ _ bit).
  apply slice_exact.
  - rewrite !zlen_app, zlen_bofhdr_image, zlen_elf_header, zlen_elf_body.
    unfold sizeof_bofhdr, sizeof_Elf32_Ehdr. lia.
  - rewrite !zlen_app, zlen_regs_image, zlen_enc_hwrhdr. lia.
Qed.

Hypothesis fits : zlen (image cls elf bit syms) < 2 ^ 31.

Lemma make_hwrhdr_fields :
  pl_off reg = zlen elf + sizeof_Elf32_Ehdr + sizeof_hwrhdr + sizeof_bofioreg * zlen syms
               + zlen (WriteStrtab syms)
  /\ pl_len reg = zlen bit /\ nr_symbol reg = zlen syms
  /\ strtab_off reg = zlen elf + sizeof_Elf32_Ehdr + sizeof_hwrhdr + sizeof_bofioreg * zlen syms.
Proof.
  pose proof fits as Hf. rewrite zlen_image in Hf. pose proof (zlen_nonneg elf). pose proof (zlen_nonneg syms).
  pose proof (zlen_nonneg (WriteStrtab syms)). pose proof (zlen_nonneg bit).
  unfold reg, make_hwrhdr, FixEndian_hwrhdr. cbn [Z.eqb Pos.eqb ELFDATA2LSB pl_off pl_len nr_symbol strtab_off].
  unfold sizeof_Elf32_Ehdr, sizeof_hwrhdr, sizeof_bofioreg in *.
  rewrite (wrapu_small 32 (zlen elf + 52 + 28 + zlen syms * 12)) by lia.
  rewrite !(wrapu_small 32) by lia. repeat split; lia.
Qed.

Lemma image_payload : slice (pl_off reg) (pl_len reg) (image cls elf bit syms) = bit.
Proof.
  destruct make_hwrhdr_fields as (-> & -> & _ & _). unfold image. fold hdr reg.
  rewrite !app_assoc. apply slice_exact_end; [|done].
  rewrite !zlen_app, zlen_bofhdr_image, zlen_elf_header, zlen_elf_body, zlen_regs_image, zlen_enc_hwrhdr.
  unfold sizeof_bofhdr, sizeof_Elf32_Ehdr. lia.
Qed.

Lemma make_hwrhdr_wf : wf_hwrhdr reg.
Proof. repeat split; cbn; try done; by apply (wrapu_range 16) || by apply (wrapu_range 32). Qed.

Lemma make_bofhdr_wf : Forall is_byte elf -> wf_bofhdr hdr.
Proof.
  intros Hb. assert (Forall is_byte (slice 18 2 (slice 0 sizeof_Elf32_Ehdr elf))) as Hm
    by (apply Forall_take, Forall_drop, Forall_take, Forall_drop, Hb).
  apply le_val_range in Hm. unfold field.
  assert (length (slice 18 2 (slice 0 sizeof_Elf32_Ehdr elf)) = 2%nat) as El.
  { apply Nat2Z.inj. fold (zlen (slice 18 2 (slice 0 sizeof_Elf32_Ehdr elf))).
    apply zlen_slice; rewrite ?zlen_elf_header; unfold sizeof_Elf32_Ehdr; lia. }
  rewrite El in Hm. unfold hdr. repeat split; cbn -[field slice]; try done;
    try (by apply (wrapu_range 32)); try apply Hm.
  - unfold machine_of. repeat case_match; done.
  - unfold machine_of. repeat case_match; done.
  - by repeat constructor.
Qed.
End layout.
