(* ===== verification/Showbof.v ===== *)
(** * Showing BOF files: [src/borph/tools/borph/showbof.c]

What showbof prints is a list of lines, each with the values the format string
gets; the run ends by returning, by [exit] or by an access outside a buffer.
The host is little-endian with pages of 4096 bytes and a signed [char]. *)
From stdpp Require Import base list strings.
From S2P Require Import Prelude Bof ElfDef Mkbof.
From Stdlib Require Import ZArith Lia.

Definition machine_names : list string := ["UNKNOWN"; EmptyString; "BEE2"; "ROACH"; "NETFPGA"; "RHINO"].
Definition elfmachine_names : list string := [
  "EM_NONE"; "EM_M32"; "EM_SPARC"; "EM_386"; "EM_68K"; "EM_88K";
  "EM_INVAL6"; "EM_860"; "EM_MIPS"; "EM_S370"; "EM_MIPS_RS3_LE"; "EM_INVAL11";
  "EM_INVAL12"; "EM_INVAL13"; "EM_INVAL14"; "EM_PARISC"; "EM_INVAL16"; "EM_VPP500";
  "EM_SPARC32PLUS"; "EM_960"; "EM_PPC"; "EM_PPC64"; "EM_S390"; "EM_INVAL23";
  "EM_INVAL24"; "EM_INVAL25"; "EM_INVAL26"; "EM_INVAL27"; "EM_INVAL28"; "EM_INVAL29";
  "EM_INVAL30"; "EM_INVAL31"; "EM_INVAL32"; "EM_INVAL33"; "EM_INVAL34"; "EM_INVAL35";
  "EM_V800"; "EM_FR20"; "EM_RH32"; "EM_RCE"; "EM_ARM"; "EM_FAKE_ALPHA";
  "EM_SH"; "EM_SPARCV9"; "EM_TRICORE"; "EM_ARC"; "EM_H8_300"; "EM_H8_300H";
  "EM_H8S"; "EM_H8_500"; "EM_IA_64"; "EM_MIPS_X"; "EM_COLDFIRE"; "EM_68HC12";
  "EM_MMA"; "EM_PCP"; "EM_NCPU"; "EM_NDR1"; "EM_STARCORE"; "EM_ME16";
  "EM_ST100"; "EM_TINYJ"; "EM_X86_64"; "EM_PDSP"; "EM_INVAL64"; "EM_INVAL65";
  "EM_FX66"; "EM_ST9PLUS"; "EM_ST7"; "EM_68HC16"; "EM_68HC11"; "EM_68HC08";
  "EM_68HC05"; "EM_SVX"; "EM_ST19"; "EM_VAX"; "EM_CRIS"; "EM_JAVELIN";
  "EM_FIREPATH"; "EM_ZSP"; "EM_MMIX"; "EM_HUANY"; "EM_PRISM"; "EM_AVR";
  "EM_FR30"; "EM_D10V"; "EM_D30V"; "EM_V850"; "EM_M32R"; "EM_MN10300";
  "EM_MN10200"; "EM_PJ"; "EM_OPENRISC"; "EM_ARC_A5"; "EM_XTENSA"
]%string.

Definition MachineName (m : Z) : string :=
  if m <? 4 then nth (Z.to_nat m) machine_names EmptyString else nth 0 machine_names EmptyString.

Definition ElfMachineName (m : Z) : string :=
  if m <? 95 then nth (Z.to_nat m) elfmachine_names EmptyString
  else nth 0 elfmachine_names EmptyString.

(** ** Output *)
Inductive line : Type :=
| LineOpenError
| LineParseError
| LineNotBof
| LineUnknownEndian (e : Z)
| LineHeader (ident : list Z) (version : Z) (machine elfmachine : string) (numchip elfoff hwoff : Z)
| LineNoHwr
| LineHwr (i : Z)
| LineRegion (placed : bool) (cls : string + Z) (addr pl_off pl_len nr_symbol strtab_off next_hwr : Z)
| LineNoSymbol
| LineError (where_ : string)
| LineSymbol (i : Z) (name : list Z) (mode loc len : Z)
| LinePayload
| LineNoInfo
| LineInfo (tag : string) (text : list Z).

Inductive stop : Type :=
| Exit (code : Z)
| Crash (f : fault).

(** A computation that prints. *)
Definition P (A : Type) : Type := list line * (A + stop).

Definition pret {A} (a : A) : P A := ([], inl a).
Definition print (l : line) : P unit := ([l], inl tt).
Definition pstop {A} (s : stop) : P A := ([], inr s).
Definition pbind {A B} (m : P A) (k : A -> P B) : P B :=
  match m with
  | (out, inl a) => let '(out', r) := k a in (out ++ out', r)
  | (out, inr s) => (out, inr s)
  end.

Declare Scope show_scope.
Notation "x <~ m ; k" := (pbind m (fun x => k)) (at level 100, m at next level, right associativity) : show_scope.
Notation "m ;; k" := (pbind m (fun _ => k)) (at level 100, right associativity) : show_scope.
Open Scope show_scope.

Definition die {A} (l : line) : P A := print l ;; pstop (Exit 1).

(** ** Reading the file *)

(** [fseek] and [fread] of one item of [n] bytes. *)
Definition fread_at (data : list Z) (off n : Z) : option (list Z) :=
  let d := slice off n data in if zlen d <? n then None else Some d.

(** [printf("%s", buf + off)]. *)
Definition c_string (buf : list Z) (off : Z) : P (list Z) :=
  if (off <? 0) || (zlen buf <=? off) then pstop (Crash OutOfBounds)
  else match cstr (drop (Z.to_nat off) buf) with
       | Some s => pret s
       | None => pstop (Crash OutOfBounds)
       end.

(** ** Byte order *)
Definition fix16 (fendian n : Z) : Z := if fendian =? BOFDATA2LSB then n else swap_byte16 n.
Definition fix32 (fendian n : Z) : Z := if fendian =? BOFDATA2LSB then n else swap_byte32 n.

(** The byte order is one of the two known ones from the check in [main] on. *)
Definition FixEndian_bofhdr (h : bofhdr) (fendian : Z) : bofhdr :=
  Bofhdr (ident h) (fix32 fendian (b_version h)) (fix16 fendian (b_machine h))
    (fix16 fendian (b_elfmachine h)) (fix32 fendian (b_numchip h)) (fix32 fendian (b_elfoff h))
    (fix32 fendian (b_hwoff h)) (load_err h) (b_ekver h) (bof_pad h).

Definition FixEndian_hwrhdr (h : hwrhdr) (fendian : Z) : hwrhdr :=
  Hwrhdr (fix32 fendian (flag h))
    (HwrAddr (fix16 fendian (class (haddr h))) (fix16 fendian (addr (haddr h))))
    (fix32 fendian (pl_off h)) (fix32 fendian (pl_len h)) (fix32 fendian (nr_symbol h))
    (fix32 fendian (strtab_off h)) (fix32 fendian (next_hwr h)).

Definition FixEndian_ioreg (r : bofioreg) (fendian : Z) : bofioreg :=
  Bofioreg (fix16 fendian (ior_name r)) (fix16 fendian (ior_mode r)) (fix32 fendian (ior_loc r))
    (fix32 fendian (ior_len r)).

(** ** Printing *)
Definition PrintBOFHeader (h : bofhdr) : P unit :=
  print (LineHeader (ident h) (b_version h) (MachineName (b_machine h))
    (ElfMachineName (b_elfmachine h)) (b_numchip h) (b_elfoff h) (b_hwoff h)).

(** The class by name, or by number when it is unknown. *)
Definition SprintHWRAddr (a : hwr_addr) : string + Z :=
  if class a =? HAC_BEE2FPGA then inl "BEE2FPGA"%string
  else if class a =? HAC_PRMOD then inl "PRMOD"%string
  else if class a =? HAC_ROACHV5 then inl "ROACHV5"%string
  else if class a =? HAC_NETFPGA then inl "NETFPGA"%string
  else if class a =? HAC_RHINO then inl "RHINO"%string
  else if class a =? HAC_MOLERAD then inl "MoleRAD"%string
  else inr (class a).

Section show.
Variable data : list Z.
Variable fendian : Z.

(** [n] registers from file position [off] on. *)
Fixpoint print_symbols (n : nat) (i off : Z) (strtab : list Z) : P unit :=
  match n with
  | O => pret tt
  | S n =>
      match fread_at data off sizeof_bofioreg with
      | None => die (LineError "ioreg")
      | Some bs =>
          let r := FixEndian_ioreg (dec_bofioreg bs) fendian in
          name <~ c_string strtab (ior_name r) ;
          print (LineSymbol i name (ior_mode r) (ior_loc r) (ior_len r)) ;;
          print_symbols n (i + 1) (off + sizeof_bofioreg) strtab
      end
  end.

Definition PrintSymbols (hwr_foff : Z) (h : hwrhdr) : P unit :=
  if nr_symbol h =? 0 then print LineNoSymbol
  else
    let strtab_foff := u32 (hwr_foff + sizeof_hwrhdr + nr_symbol h * sizeof_bofioreg) in
    let strtab_len := u32 (pl_off h - strtab_off h) in
    if strtab_len <=? 0 then die (LineError "strtab_len")
    else match fread_at data strtab_foff strtab_len with
    | None => die (LineError "strtab")
    | Some strtab => print_symbols (Z.to_nat (nr_symbol h)) 0 (hwr_foff + sizeof_hwrhdr) strtab
    end.

Definition PrintHWRHdr (hwr_foff : Z) (h : hwrhdr) : P unit :=
  print (LineRegion (truthy (Z.land (flag h) HFG_PLACED)) (SprintHWRAddr (haddr h)) (addr (haddr h))
    (pl_off h) (pl_len h) (nr_symbol h) (strtab_off h) (next_hwr h)) ;;
  PrintSymbols hwr_foff h.

(** *** The bitstream's own header *)
Definition pagesize : Z := 4096.

(** The mapped page; past the end of the file it reads as zeros, and a page with
nothing of the file in it cannot be read at all. *)
Definition mapped_page (pl_foff : Z) : list Z :=
  let d := slice (pl_foff / pagesize * pagesize) pagesize data in
  match d with
  | [] => []
  | _ => d ++ replicate (Z.to_nat (pagesize - zlen d)) 0
  end.

(** [memchr(m + p, 'a', n)]. *)
Fixpoint memchr_a (m : list Z) (p : Z) (n : nat) : P (option Z) :=
  match n with
  | O => pret None
  | S n => match m !! Z.to_nat p with
           | None => pstop (Crash OutOfBounds)
           | Some c => if c =? 97 then pret (Some p) else memchr_a m (p + 1) n
           end
  end.

(** One field: its text, and the start of the next field. *)
Definition info_field (m : list Z) (tag : string) (p : Z) : P Z :=
  text <~ c_string m (p + 3) ;
  print (LineInfo tag text) ;;
  (if p + 2 <? 0 then pstop (Crash OutOfBounds)
   else match m !! Z.to_nat (p + 2) with
        | None => pstop (Crash OutOfBounds)
        | Some n => pret (p + (s8 n + 3))
        end).

Definition PrintHWRPayload (hwr_foff : Z) (h : hwrhdr) : P unit :=
  print LinePayload ;;
  let pl_foff := u32 (hwr_foff + sizeof_hwrhdr + nr_symbol h * sizeof_bofioreg
                      + u32 (pl_off h - strtab_off h)) in
  let m := mapped_page pl_foff in
  a <~ memchr_a m (pl_foff mod pagesize) 200 ;
  match a with
  | None => print LineNoInfo
  | Some p =>
      p <~ info_field m "Filename" p ;
      p <~ info_field m "Device" p ;
      p <~ info_field m "Date" p ;
      p <~ info_field m "Time" p ;
      pret tt
  end.

Fixpoint print_regions (n : nat) (i hwr_foff : Z) : P unit :=
  match n with
  | O => pret tt
  | S n =>
      print (LineHwr i) ;;
      match fread_at data hwr_foff sizeof_hwrhdr with
      | None => die (LineError "hwrhdr")
      | Some bs =>
          let h := FixEndian_hwrhdr (dec_hwrhdr bs) fendian in
          PrintHWRHdr hwr_foff h ;;
          PrintHWRPayload hwr_foff h ;;
          print_regions n (i + 1)
            (u32 (hwr_foff + sizeof_hwrhdr + nr_symbol h * sizeof_bofioreg
                  + u32 (pl_off h - strtab_off h) + pl_len h))
      end
  end.

Definition PrintHWR (bhdr : bofhdr) : P unit :=
  if b_numchip bhdr =? 0 then print LineNoHwr
  else print_regions (Z.to_nat (b_numchip bhdr)) 0 (b_hwoff bhdr).
End show.

(** [main] on the named file; a file that cannot be opened is read all the same. *)
Definition main (f : option (list Z)) : P Z :=
  match f with
  | None => print LineOpenError ;; pstop (Crash NullDeref)
  | Some data =>
      match fread_at data 0 sizeof_bofhdr with
      | None => print LineParseError ;; pret 1
      | Some bs =>
          let bhdr := dec_bofhdr bs in
          if negb (bool_decide (take 4 (ident bhdr) = [0x19; 66; 79; 70]))
          then print LineNotBof ;; pret 1
          else
            let fendian := nth (Z.to_nat BI_ENDIAN) (ident bhdr) 0 in
            if negb (fendian =? BOFDATA2LSB) && negb (fendian =? BOFDATA2MSB)
            then print (LineUnknownEndian fendian) ;; pret 1
            else
              let bhdr := FixEndian_bofhdr bhdr fendian in
              PrintBOFHeader bhdr ;;
              PrintHWR data fendian bhdr ;;
              pret 0
      end
  end.

(** * Properties *)
Lemma fread_at_exact pre d post off n :
  off = zlen pre -> n = zlen d -> fread_at (pre ++ d ++ post) off n = Some d.
Proof.
  intros Ho Hn. unfold fread_at. rewrite (slice_exact pre d post) by done.
  by rewrite (proj2 (Z.ltb_ge _ _)) by lia.
Qed.

Lemma pbind_ok {A B} out (a : A) (k : A -> P B) : pbind (out, inl a) k = (out ++ (k a).1, (k a).2).
Proof. unfold pbind. by destruct (k a). Qed.

(** What has been printed stays printed. *)
Lemma pbind_prefix {A B} out r (k : A -> P B) :
  exists rest q, pbind (out, r) k = (out ++ rest, q).
Proof.
  destruct r as [a|s]; unfold pbind; [destruct (k a); by do 2 eexists|].
  exists [], (inr s). by rewrite app_nil_r.
Qed.

Lemma payload_first data off h :
  exists rest r, PrintHWRPayload data off h = (LinePayload :: rest, r).
Proof. unfold PrintHWRPayload, print. rewrite pbind_ok. by do 2 eexists. Qed.

(** A region whose header and symbols can be read. *)
Lemma region_first data e n i off bs out :
  fread_at data off sizeof_hwrhdr = Some bs ->
  PrintHWRHdr data e off (FixEndian_hwrhdr (dec_hwrhdr bs) e) = (out, inl tt) ->
  exists rest r, print_regions data e (S n) i off = (LineHwr i :: out ++ LinePayload :: rest, r).
Proof.
  intros Hr Hh. cbn [print_regions]. rewrite Hr, Hh.
  destruct (payload_first data off (FixEndian_hwrhdr (dec_hwrhdr bs) e)) as (p & rp & ->).
  unfold print. rewrite !pbind_ok.
  match goal with |- context [pbind (LinePayload :: p, rp) ?k] =>
    destruct (pbind_prefix (LinePayload :: p) rp k) as (rest & q & ->) end.
  exists (p ++ rest), q. reflexivity.
Qed.

Fixpoint symbol_lines (i : Z) (syms : list symbol) : list line :=
  match syms with
  | [] => []
  | s :: syms => LineSymbol i (sy_name s) (u16 (sy_mode s)) (sy_loc s) (sy_len s)
                 :: symbol_lines (i + 1) syms
  end.

Lemma FixEndian_ioreg_lsb r : FixEndian_ioreg r BOFDATA2LSB = r.
Proof. by destruct r. Qed.

Lemma FixEndian_hwrhdr_lsb h : FixEndian_hwrhdr h BOFDATA2LSB = h.
Proof. by destruct h as [? [] ? ? ? ? ?]. Qed.

Lemma FixEndian_bofhdr_lsb h : FixEndian_bofhdr h BOFDATA2LSB = h.
Proof. by destruct h. Qed.

Lemma print_symbols_exported pre syms rs post strtab i :
  Forall2 (exported strtab) syms rs -> Forall wf_bofioreg rs ->
  print_symbols (pre ++ concat (enc_bofioreg <$> rs) ++ post) BOFDATA2LSB (length rs) i
    (zlen pre) strtab = (symbol_lines i syms, inl tt).
Proof.
  intros H. revert pre i. induction H as [|s r syms rs (Hn & Hc & Hm & Hl & Hz) H IH]; intros pre i Hw;
    [done|].
  apply Forall_cons in Hw as [Hr Hw]. cbn [length print_symbols fmap list_fmap concat].
  rewrite <- app_assoc, fread_at_exact by (by rewrite ?zlen_enc_bofioreg).
  assert (dec_bofioreg (enc_bofioreg r) = r) as ->
    by (rewrite <- (app_nil_r (enc_bofioreg r)); by apply dec_enc_bofioreg).
  rewrite FixEndian_ioreg_lsb. unfold c_string.
  rewrite (proj2 (Z.ltb_ge (ior_name r) 0)) by apply Hr.
  rewrite (proj2 (Z.leb_gt _ (ior_name r))), Hc by done. cbn [orb].
  rewrite (app_assoc pre). replace (zlen pre + sizeof_bofioreg) with (zlen (pre ++ enc_bofioreg r))
    by (by rewrite zlen_app, zlen_enc_bofioreg).
  cbn [pbind pret print app symbol_lines]. rewrite (IH _ _ Hw). by rewrite Hm, Hl, Hz.
Qed.

Section mkbof.
Context (cls : Z) (elf bit : list Z) (syms : list symbol).

(** What mkbof needs for a file that fits. *)
Record mkbof_fits : Prop := {
  mf_elf : sizeof_Elf32_Ehdr <= zlen elf;
  mf_bytes : Forall is_byte elf;
  mf_good : Forall good_symbol syms;
  mf_strtab : zlen (WriteStrtab syms) <= 2 ^ 16;
  mf_size : zlen (image cls elf bit syms) < 2 ^ 31
}.
Hypothesis Hf : mkbof_fits.

Let hdr := make_bofhdr cls (slice 0 sizeof_Elf32_Ehdr elf) (zlen elf).
Let reg := make_hwrhdr cls (zlen syms) (zlen (WriteStrtab syms)) (zlen elf) (zlen bit).

Lemma image_first :
  fread_at (image cls elf bit syms) 0 sizeof_bofhdr = Some (enc_bofhdr hdr) /\
  dec_bofhdr (enc_bofhdr hdr) = hdr.
Proof.
  destruct Hf as [He Hb _ _ _]. split.
  - apply (fread_at_exact []); [done|]. symmetry. by apply zlen_enc_bofhdr.
  - rewrite <- (app_nil_r (enc_bofhdr hdr)). apply dec_enc_bofhdr. by apply make_bofhdr_wf.
Qed.

Lemma image_endian : field EI_DATA 1 elf = nth 5 (ident hdr) 0.
Proof.
  destruct Hf as [He _ _ _ _]. cbn [hdr make_bofhdr Mkbof.FixEndian_bofhdr Z.eqb Pos.eqb ELFDATA2LSB ident nth app].
  unfold field. by rewrite slice_slice.
Qed.

(** The parts of the file before and after the symbol table. *)
Lemma image_split : exists pre post,
  image cls elf bit syms = pre ++ concat (enc_bofioreg <$> regs_of syms 0) ++ WriteStrtab syms ++ post
  /\ zlen pre = zlen elf + sizeof_Elf32_Ehdr + sizeof_hwrhdr.
Proof.
  exists (enc_bofhdr hdr ++ drop (Z.to_nat sizeof_Elf32_Ehdr) elf ++ slice 0 sizeof_Elf32_Ehdr elf
          ++ enc_hwrhdr reg), bit. split.
  - unfold image. fold hdr reg. by rewrite <- !app_assoc.
  - destruct Hf as [He _ _ _ _]. rewrite !zlen_app, zlen_enc_hwrhdr, zlen_elf_header, zlen_elf_body by done.
    unfold hdr. rewrite zlen_bofhdr_image. unfold sizeof_bofhdr, sizeof_Elf32_Ehdr. lia.
Qed.

Lemma show_region_header :
  fread_at (image cls elf bit syms) (b_hwoff hdr) sizeof_hwrhdr = Some (enc_hwrhdr reg)
  /\ dec_hwrhdr (enc_hwrhdr reg) = reg.
Proof.
  destruct Hf as [He _ _ _ Hz]. pose proof (zlen_image cls elf bit syms He) as Ez.
  pose proof (zlen_nonneg syms). pose proof (zlen_nonneg bit). pose proof (zlen_nonneg (WriteStrtab syms)).
  unfold sizeof_Elf32_Ehdr, sizeof_hwrhdr, sizeof_bofioreg in *. split.
  - change (b_hwoff hdr) with (u32 (zlen elf + 52)). rewrite wrapu_small by lia.
    unfold image. fold hdr reg.
    rewrite (app_assoc (enc_bofhdr hdr)), (app_assoc (enc_bofhdr hdr ++ _)). apply fread_at_exact.
    + rewrite !zlen_app, zlen_elf_header, zlen_elf_body by done. unfold hdr. rewrite zlen_bofhdr_image.
      unfold sizeof_bofhdr, sizeof_Elf32_Ehdr. lia.
    + by rewrite zlen_enc_hwrhdr.
  - rewrite <- (app_nil_r (enc_hwrhdr reg)). apply dec_enc_hwrhdr. by apply make_hwrhdr_wf.
Qed.

(** The symbols of the first region are printed. *)
Lemma show_symbols :
  PrintSymbols (image cls elf bit syms) BOFDATA2LSB (b_hwoff hdr) reg
  = (match syms with [] => [LineNoSymbol] | _ => symbol_lines 0 syms end, inl tt).
Proof.
  destruct Hf as [He Hb Hg Hst Hz].
  destruct (make_hwrhdr_fields cls elf bit syms He Hz) as (E1 & E2 & E3 & E4). fold reg in E1, E2, E3, E4.
  destruct image_split as (pre & post & Ei & Ep). pose proof (zlen_image cls elf bit syms He) as Ez.
  pose proof (zlen_nonneg syms). pose proof (zlen_nonneg bit). pose proof (zlen_nonneg (WriteStrtab syms)).
  assert (b_hwoff hdr = zlen elf + sizeof_Elf32_Ehdr) as ->.
  { apply wrapu_small. unfold sizeof_Elf32_Ehdr, sizeof_hwrhdr, sizeof_bofioreg in *. lia. }
  unfold PrintSymbols. rewrite E3. destruct (Z.eqb_spec (zlen syms) 0) as [E|E].
  { destruct syms as [|s l]; [done|]. rewrite zlen_cons in E. pose proof (zlen_nonneg l). lia. }
  assert (0 < zlen (WriteStrtab syms)) as Hpos.
  { destruct syms as [|s l]; [done|]. rewrite zlen_WriteStrtab_cons.
    pose proof (zlen_nonneg (sy_name s)). pose proof (zlen_nonneg (WriteStrtab l)). lia. }
  rewrite E1, E4, Z.add_simpl_l, (wrapu_small 32 (zlen (WriteStrtab syms))) by lia.
  rewrite (proj2 (Z.leb_gt _ 0)) by lia.
  unfold sizeof_Elf32_Ehdr, sizeof_hwrhdr, sizeof_bofioreg in *. rewrite wrapu_small by lia.
  rewrite Ei, app_assoc. rewrite fread_at_exact;
    [|rewrite zlen_app, zlen_regs_image; unfold sizeof_bofioreg; lia|done].
  rewrite <- app_assoc, <- Ep, <- (zlen_regs_of syms 0). unfold zlen at 1. rewrite Nat2Z.id.
  rewrite (print_symbols_exported pre syms); [by destruct syms| |by apply regs_of_wf].
  by apply (regs_of_exported [] syms Hg).
Qed.
(** The run up to the payload of the first region, for the byte order [e] the file
is marked with. *)
Lemma show_header e :
  field EI_DATA 1 elf = e -> e = BOFDATA2LSB \/ e = BOFDATA2MSB ->
  main (Some (image cls elf bit syms))
  = (PrintBOFHeader (FixEndian_bofhdr hdr e) ;;
     PrintHWR (image cls elf bit syms) e (FixEndian_bofhdr hdr e) ;; pret 0).
Proof.
  intros He Hv. unfold main. destruct image_first as [-> ->]. cbn [negb].
  change (take 4 (ident hdr)) with [25; 66; 79; 70]. rewrite bool_decide_eq_true_2 by done.
  change (Z.to_nat BI_ENDIAN) with 5%nat. rewrite <- image_endian, He. cbn [negb].
  by destruct Hv as [-> | ->].
Qed.

(** C37. showbof reads back what mkbof has written, for a little-endian ELF file:
it prints the header with the ELF file's size as the offset of the ELF header,
one region with the class, the payload offset and the length of the bitstream,
and then exactly the symbols of the symbol file, in order, each with its name,
mode, location and length. *)
Theorem showbof_mkbof :
  field EI_DATA 1 elf = ELFDATA2LSB ->
  exists rest r,
    main (Some (image cls elf bit syms))
    = ([LineHeader (ident hdr) 6 (MachineName (machine_of cls)) (ElfMachineName (field 18 2 elf)) 1
          (zlen elf) (zlen elf + sizeof_Elf32_Ehdr);
        LineHwr 0;
        LineRegion false (SprintHWRAddr (HwrAddr (u16 cls) 0)) 0
          (zlen (image cls elf bit syms) - zlen bit) (zlen bit) (zlen syms)
          (zlen (image cls elf bit syms) - zlen bit - zlen (WriteStrtab syms)) 0]
       ++ (match syms with [] => [LineNoSymbol] | _ => symbol_lines 0 syms end)
       ++ LinePayload :: rest, r).
Proof.
  intros Hl. rewrite (show_header ELFDATA2LSB Hl (or_introl eq_refl)).
  change ELFDATA2LSB with BOFDATA2LSB. rewrite FixEndian_bofhdr_lsb.
  pose proof Hf as [He Hb Hg Hst Hz].
  destruct (make_hwrhdr_fields cls elf bit syms He Hz) as (E1 & E2 & E3 & E4). fold reg in E1, E2, E3, E4.
  pose proof (zlen_image cls elf bit syms He) as Ez. pose proof (zlen_nonneg syms).
  pose proof (zlen_nonneg bit). pose proof (zlen_nonneg (WriteStrtab syms)).
  assert (b_elfoff hdr = zlen elf /\ b_hwoff hdr = zlen elf + sizeof_Elf32_Ehdr) as [E5 E6].
  { unfold sizeof_Elf32_Ehdr, sizeof_hwrhdr, sizeof_bofioreg in *.
    split; apply wrapu_small; lia. }
  assert (b_elfmachine hdr = field 18 2 elf) as E7.
  { change (field 18 2 (slice 0 sizeof_Elf32_Ehdr elf) = field 18 2 elf). unfold field.
    by rewrite slice_slice. }
  destruct show_region_header as [Er Ed]. pose proof show_symbols as Es.
  destruct (region_first (image cls elf bit syms) BOFDATA2LSB 0 0 (b_hwoff hdr) _
    (LineRegion false (SprintHWRAddr (HwrAddr (u16 cls) 0)) 0 (pl_off reg) (pl_len reg) (nr_symbol reg)
       (strtab_off reg) 0 :: match syms with [] => [LineNoSymbol] | _ => symbol_lines 0 syms end) Er)
    as (rest & r & E).
  { rewrite Ed, FixEndian_hwrhdr_lsb. unfold PrintHWRHdr. rewrite Es. reflexivity. }
  rewrite E1, E2, E3, E4 in E. unfold PrintHWR. change (b_numchip hdr =? 0) with false.
  change (Z.to_nat (b_numchip hdr)) with 1%nat. rewrite E. unfold PrintBOFHeader, print.
  rewrite pbind_ok, E5, E6, E7.
  match goal with |- context [pbind (?o, r) ?k] =>
    destruct (pbind_prefix o r k) as (rest' & q' & ->) end.
  rewrite Ez, Z.add_simpl_r, Z.add_simpl_r. exists (rest ++ rest'), q'.
  cbn [fst snd app]. rewrite <- !app_assoc. reflexivity.
Qed.

(** A big-endian ELF file marks the BOF file as big-endian although mkbof
always writes the headers in little-endian order, so showbof misreads every
number of it: version 6 is shown as 0x06000000, the one region as 0x01000000
regions. *)
Lemma showbof_misreads_big_endian :
  field EI_DATA 1 elf = ELFDATA2MSB ->
  exists id m em eo ho rest r,
    main (Some (image cls elf bit syms))
    = (LineHeader id 0x06000000 m em 0x01000000 eo ho :: LineHwr 0 :: rest, r).
Proof.
  intros Hl. rewrite (show_header ELFDATA2MSB Hl (or_intror eq_refl)).
  assert (b_numchip (FixEndian_bofhdr hdr ELFDATA2MSB) = Z.succ 0x00ffffff) as En by done.
  unfold PrintHWR. rewrite En, Z2Nat.inj_succ by done. generalize (Z.to_nat 0x00ffffff). intros n.
  change (Z.succ 0x00ffffff =? 0) with false. cbn [print_regions]. unfold PrintBOFHeader, print. rewrite pbind_ok.
  match goal with |- context [pbind ([LineHwr 0], ?r) ?k] =>
    destruct (pbind_prefix [LineHwr 0] r k) as (rest & q & ->) end.
  match goal with |- context [pbind ([LineHwr 0] ++ ?o, ?r) ?k] =>
    destruct (pbind_prefix ([LineHwr 0] ++ o) r k) as (rest' & q' & ->) end.
  cbn [fst snd app]. change (b_version (FixEndian_bofhdr hdr ELFDATA2MSB)) with 0x06000000.
  rewrite En. do 7 eexists. reflexivity.
Qed.
End mkbof.
