(* ===== verification/EndToEnd.v ===== *)
(** * From mkbof to a running FPGA

The host tool ([Mkbof]), the binary format handler and the daemon ([Exec]), the
loader ([Bkexecd]), the RHINO driver ([HwrRhino]) and the register directory
([ProcBorph]) composed: what mkbof packs is what the FPGA gets. *)
From stdpp Require Import base list gmap.
From S2P Require Import Prelude Bof Hwr Driver HwrRhino Bkexecd Exec ProcBorph ElfDef Mkbof.
From Stdlib Require Import ZArith Lia.

(** A file the file system reads without errors. *)
Definition stored (data : list Z) : file := File data (fun _ _ => None).

(** The binprm that [exec] prepares for it. *)
Definition exec_binprm (data : list Z) : linux_binprm :=
  Binprm (slice 0 BINPRM_BUF_SIZE data) (stored data).

(** Inputs mkbof packs for this platform: an ARM ELF file, a readable symbol
file whose names fit the 16-bit offsets, a bitstream the driver can finish. *)
Record packable (elf bit sym : list Z) (syms : list symbol) : Prop := {
  pk_elf : sizeof_Elf32_Ehdr <= zlen elf;
  pk_bytes : Forall is_byte elf;
  pk_arm : field 18 2 elf = EM_ARM;
  pk_syms : ReadSymbolFile sym = Ok (0, syms, zlen (WriteStrtab syms));
  pk_strtab : zlen (WriteStrtab syms) <= 2 ^ 16;
  pk_size : zlen (image HAC_RHINO elf bit syms) < 2 ^ 31 - 1;
  pk_bit : zlen bit mod PAGE_SIZE <> 0
}.

Definition rhino_addr : hwr_addr := HwrAddr HAC_RHINO 0.

Section image.
Context (elf bit sym : list Z) (syms : list symbol).
Hypothesis Hpk : packable elf bit sym syms.

Let out := image HAC_RHINO elf bit syms.
Let hdr := make_bofhdr HAC_RHINO (slice 0 sizeof_Elf32_Ehdr elf) (zlen elf).
Let reg := make_hwrhdr HAC_RHINO (zlen syms) (zlen (WriteStrtab syms)) (zlen elf) (zlen bit).

Lemma packed_good : Forall good_symbol syms.
Proof.
  destruct Hpk as [_ _ _ Hs _ _ _]. unfold ReadSymbolFile in Hs.
  apply (read_symbols_scanned _ _ [] 0) in Hs as [? _]; [done|].
  split; [by apply Forall_nil|done].
Qed.

Lemma packed_sizes :
  52 <= zlen elf /\ 0 <= zlen syms /\ 0 <= zlen (WriteStrtab syms) /\ 0 <= zlen bit
  /\ zlen out = zlen elf + 80 + 12 * zlen syms + zlen (WriteStrtab syms) + zlen bit
  /\ zlen out < 2 ^ 31 - 1.
Proof.
  destruct Hpk as [He _ _ _ _ Hz _]. split_and!; try apply zlen_nonneg; try done.
  unfold out. rewrite zlen_image by done. unfold sizeof_Elf32_Ehdr, sizeof_hwrhdr, sizeof_bofioreg. lia.
Qed.

Lemma packed_bofhdr : dec_bofhdr (bp_buf (exec_binprm out)) = hdr.
Proof.
  cbn [bp_buf exec_binprm].
  destruct packed_sizes as (He & ? & ? & ? & Hz & _). destruct Hpk as [Hel Hb _ _ _ _ _].
  assert (slice 0 BINPRM_BUF_SIZE out
          = enc_bofhdr hdr ++ slice sizeof_bofhdr (BINPRM_BUF_SIZE - sizeof_bofhdr) out) as ->.
  { rewrite <- (slice_split 0 sizeof_bofhdr BINPRM_BUF_SIZE) by done. f_equal. }
  apply dec_enc_bofhdr. by apply make_bofhdr_wf.
Qed.

Lemma packed_fields :
  accepted hdr = true /\ b_numchip hdr = 1 /\ b_elfoff hdr = zlen elf
  /\ b_hwoff hdr = zlen elf + sizeof_Elf32_Ehdr.
Proof.
  destruct packed_sizes as (He & ? & ? & ? & Hz & Hm). destruct Hpk as [Hel _ Harm _ _ _ _].
  assert (b_elfmachine hdr = EM_ARM) as Ea.
  { change (field 18 2 (slice 0 sizeof_Elf32_Ehdr elf) = EM_ARM). rewrite <- Harm. unfold field.
    by rewrite slice_slice. }
  unfold accepted. rewrite Ea. split; [done|]. split; [done|].
  split; apply wrapu_small; unfold sizeof_Elf32_Ehdr; lia.
Qed.

Lemma packed_region :
  region_image (stored out) (b_hwoff hdr) reg (regs_of syms 0) (WriteStrtab syms).
Proof.
  destruct packed_sizes as (He & ? & ? & ? & Hz & Hm). destruct packed_fields as (_ & _ & _ & ->).
  destruct Hpk as [Hel _ _ _ Hst Hsz _].
  assert (zlen (image HAC_RHINO elf bit syms) < 2 ^ 31) as Hf by lia.
  destruct (make_hwrhdr_fields HAC_RHINO elf bit syms Hel Hf) as (E1 & E2 & E3 & E4).
  fold reg in E1, E2, E3, E4. split.
  - done.
  - unfold sizeof_Elf32_Ehdr. lia.
  - rewrite zlen_regs_of. by apply image_region.
  - cbn [f_data stored]. lia.
  - by apply make_hwrhdr_wf.
  - apply regs_of_wf; [apply packed_good|done].
  - by rewrite zlen_regs_of.
  - rewrite E1, E4. rewrite Z.add_simpl_l. apply wrapu_small. lia.
  - intros E. destruct syms as [|s l]; [done|]. apply (f_equal zlen) in E.
    rewrite zlen_WriteStrtab_cons in E. change (zlen (@nil Z)) with 0 in E.
    pose proof (zlen_nonneg (sy_name s)). pose proof (zlen_nonneg (WriteStrtab l)). lia.
Qed.

Lemma packed_exported : Forall2 (exported (WriteStrtab syms)) syms (regs_of syms 0).
Proof.
  destruct Hpk as [_ _ _ _ Hst _ _]. exact (regs_of_exported [] syms packed_good Hst).
Qed.

Lemma packed_readable : readable (stored out) (pl_off reg) (pl_len reg).
Proof.
  destruct packed_sizes as (He & ? & ? & ? & Hz & Hm). destruct Hpk as [Hel _ _ _ _ Hsz _].
  assert (zlen (image HAC_RHINO elf bit syms) < 2 ^ 31) as Hf by lia.
  destruct (make_hwrhdr_fields HAC_RHINO elf bit syms Hel Hf) as (E1 & E2 & _ & _).
  fold reg in E1, E2. rewrite E1, E2. unfold sizeof_Elf32_Ehdr, sizeof_hwrhdr, sizeof_bofioreg.
  split; cbn [f_data f_err stored]; try done; lia.
Qed.

Lemma packed_payload : slice (pl_off reg) (pl_len reg) out = bit.
Proof.
  destruct packed_sizes as (_ & _ & _ & _ & _ & Hm). destruct Hpk as [Hel _ _ _ _ _ _].
  apply image_payload; [done|]. unfold out in Hm. lia.
Qed.

(** The start of what the handler reads at [b_elfoff]. *)
Lemma packed_elf b :
  exists d, kernel_read (stored out) (b_elfoff hdr) BINPRM_BUF_SIZE = (zlen d, d)
    /\ slice 0 sizeof_Elf32_Ehdr (overlay d b) = slice 0 sizeof_Elf32_Ehdr elf.
Proof.
  destruct packed_fields as (_ & _ & -> & _). destruct packed_sizes as (He & ? & ? & ? & Hz & _).
  destruct Hpk as [Hel _ _ _ _ _ _].
  exists (slice (zlen elf) BINPRM_BUF_SIZE out). split; [done|]. unfold overlay.
  rewrite <- (slice_split (zlen elf) sizeof_Elf32_Ehdr BINPRM_BUF_SIZE) by (done || lia).
  unfold out. rewrite image_elf_header, <- !app_assoc by done.
  rewrite slice_app_l by (rewrite ?zlen_elf_header; done).
  apply slice_all. by rewrite zlen_elf_header.
Qed.
End image.

(** ** Looking up a register *)
Definition register_of (a : hwr_addr) (s : symbol) (r : borph_ioreg) : Prop :=
  reg_name r = Ok (sy_name s) /\ io_mode r = u16 (sy_mode s) /\ io_loc r = sy_loc s
  /\ io_len r = sy_len s /\ io_hwraddr r = a.

Lemma exported_register strtab a s r :
  exported strtab s r -> register_of a s (mk_ioreg strtab a r).
Proof.
  intros (Hn & Hc & ? & ? & ?). split; [|done]. unfold reg_name.
  cbn [mk_ioreg io_strtab io_name]. by rewrite (proj2 (Z.leb_gt _ _)), Hc by lia.
Qed.

Lemma find_ioreg_register a syms regs s :
  Forall2 (register_of a) syms regs -> NoDup (sy_name <$> syms) -> s ∈ syms ->
  exists r, find_ioreg (sy_name s) regs = Ok (Some r) /\ register_of a s r.
Proof.
  induction 1 as [|s0 r0 syms regs Hr H IH]; cbn [fmap list_fmap find_ioreg]; intros Hnd Hs.
  { by apply elem_of_nil in Hs. }
  apply NoDup_cons in Hnd as [Hni Hnd]. pose proof Hr as [En _]. rewrite En.
  apply elem_of_cons in Hs as [->|Hs].
  - rewrite bool_decide_eq_true_2 by done. eauto.
  - rewrite bool_decide_eq_false_2; [by apply IH|]. intros E. apply Hni. rewrite E.
    by apply list_elem_of_fmap_2.
Qed.

(** ** The machine the file is executed on *)
Section system.
Context (pin : Z -> nat -> bool) (spi_status : nat -> Z) (spi_sched : nat -> nat).
Context (fpga_read : list (Z * Z) -> Z -> Z).
Context (ops_at : Z -> hwr_operations rhino) (hbuf heap ibuf : list Z).
Context (search_binary_handler : linux_binprm -> Z).
Hypothesis status_ok : forall n, spi_status n = 0.

(** The RHINO driver is registered at [p] with operations [o], its FPGA [d] is
free, the SPI device has been probed, nothing of an earlier configuration is
left, and the FPGA will follow the configuration protocol. *)
Record rhino_ready (p : Z) (ht : hwrtype) (o : Z) (d : phyhwr) (t : nat) (s : kstate rhino) :
  Prop := {
  rr_ops : ops_at o = rhino_hwr_operations pin spi_status spi_sched fpga_read;
  rr_reg : registered s HAC_RHINO p ht;
  rr_ht : ht_ops ht = Some o;
  rr_count : - 2 ^ 31 <= ht_count ht < 2 ^ 31 - 1;
  rr_devs : 0 < ht_num_devs ht;
  rr_dev : dev_is s HAC_RHINO 0 d;
  rr_free : ph_count d = -1;
  rr_alloc : k_alloc s = [];
  rr_spi : r_spi (k_drv s) = true;
  rr_sem : 0 < r_sem (k_drv s);
  rr_pend : r_pend (k_drv s) = [];
  rr_done : r_done (k_drv s) = 0;
  rr_init : fpga_ready pin (r_polls (k_drv s)) = (true, t);
  rr_crc : pin INIT_B t = true;
  rr_startup : pin DONE (S t) = true
}.

Lemma ready_served p ht o d t s :
  rhino_ready p ht o d t s -> served ops_at s rhino_addr p ht o d.
Proof.
  intros [Ho Hr Hh Hc _ Hd _ _ _ _ _ _ _ _ _]. split; [done|]. split; [done|].
  split; [rewrite Ho; apply _|]. done.
Qed.

(** The driver sends the payload and reports success. *)
Lemma ready_configures p ht o d t s f h :
  rhino_ready p ht o d t s -> target h = rhino_addr -> readable f (pl_off h) (pl_len h) ->
  pl_len h mod PAGE_SIZE <> 0 ->
  configures ops_at (fun dr => wire (r_log dr)
    = wire (r_log (k_drv s)) ++ slice (pl_off h) (pl_len h) (f_data f)) s f h o 0.
Proof.
  intros [Ho Hr Hh Hc _ Hd _ _ Hspi Hsem Hpe Hdo Hin Hcrc Hst] Ht Hrd Hm.
  eexists. split; [by rewrite Ho|]. intros s1 Hd1 Ha1. rewrite Ht. cbn [op_configure].
  unfold runs. rewrite configure_reset; [|done|by rewrite Hd1|unfold sem; by rewrite Hd1].
  rewrite Hd1, Hin.
  destruct (load_bitstream_ends pin spi_status spi_sched status_ok f (pl_off h) (pl_len h) t s1)
    as (s2 & E & Hw & _ & Hl & Ha & _ & _); try done; [split; by rewrite Hd1|].
  exists s2. rewrite E. unfold startup. rewrite Hcrc, Hst. rewrite Hd1 in Hw. done.
Qed.

Lemma runs_load_packed elf bit sym syms p ht o d t task s :
  packable elf bit sym syms -> rhino_ready p ht o d t s ->
  zlen hbuf = sizeof_hwrhdr -> zlen ibuf = sizeof_bofioreg ->
  exists dr, wire (r_log dr) = wire (r_log (k_drv s)) ++ bit
    /\ runs (borph_load_hw ops_at task (exec_binprm (image HAC_RHINO elf bit syms)) hbuf heap ibuf)
         s 0
         (set_drv dr (set_live (k_live s + 3 + zlen (regs_of syms 0))
           (set_infos (<[task := BorphInfo [HwRegion rhino_addr (WriteStrtab syms)]
               (reverse (mk_ioreg (WriteStrtab syms) rhino_addr <$> regs_of syms 0)) 1 1]> (k_infos s))
             (dev_upd HAC_RHINO 0 (Phyhwr (ph_hwraddr d) 1 1 (Some task)) s)))).
Proof.
  intros Hpk Hrr Hh Hi. set (out := image HAC_RHINO elf bit syms).
  set (reg := make_hwrhdr HAC_RHINO (zlen syms) (zlen (WriteStrtab syms)) (zlen elf) (zlen bit)).
  pose proof (ready_served p ht o d t s Hrr) as Hs.
  pose proof Hrr as [Ho _ _ _ Hn _ Hf Ha _ _ _ _ _ _ _].
  pose proof (packed_bofhdr elf bit sym syms Hpk) as Eh. fold out in Eh.
  destruct (packed_fields elf bit sym syms Hpk) as (_ & Hnc & _ & _). rewrite <- Eh in Hnc.
  assert (load_ready ops_at task (exec_binprm out) reg (regs_of syms 0) (WriteStrtab syms) p ht o d s)
    as Hl.
  { split; [rewrite Eh; by eapply packed_region|by split|done|done| |done].
    unfold can_unconfigure. rewrite Ho. by eexists. }
  assert (configures ops_at (fun dr => wire (r_log dr) = wire (r_log (k_drv s)) ++ bit) s
            (bp_file (exec_binprm out)) reg o 0) as Hc.
  { assert (pl_len reg mod PAGE_SIZE <> 0) as Hm.
    { destruct (make_hwrhdr_fields HAC_RHINO elf bit syms) as (_ & E2 & _ & _);
        [apply Hpk|pose proof (pk_size _ _ _ _ Hpk); lia|].
      fold reg in E2. rewrite E2. apply Hpk. }
    pose proof (ready_configures p ht o d t s (stored out) reg Hrr eq_refl
      (packed_readable elf bit sym syms Hpk) Hm) as Hc.
    pose proof (packed_payload elf bit sym syms Hpk) as Epl. fold out reg in Epl.
    cbn [f_data stored] in Hc. by rewrite Epl in Hc. }
  exact (load_hw_ok ops_at _ task (exec_binprm out) reg (regs_of syms 0) (WriteStrtab syms)
    p ht o d 0 s hbuf heap ibuf Hl Hnc Hc (Z.le_refl 0) Hh Hi).
Qed.

End system.
