(* ===== verification/Examples.v ===== *)
(** * Concrete runs

The properties of the other files applied to one small system: a RHINO with its
driver registered, a BOF file made from the built-in ARM program, one register
and a three-byte bitstream.  They show that the hypotheses can be met. *)
From stdpp Require Import base list gmap strings.
From S2P Require Import Prelude Bof Hwr Driver HwrRhino Bkexecd Exec ProcBorph RhinoRegs.
From S2P Require Import ElfDef Mkbof Showbof EndToEnd.
From Stdlib Require Import ZArith Lia.

(** ** The system *)
Definition ex_dev : phyhwr := Phyhwr rhino_addr (-1) 0 None.
Definition ex_ht : hwrtype := Hwrtype "rhino" HAC_RHINO 1 1 (Some 7).

(** The FPGA pulls [INIT_B] low for one read, then follows the protocol. *)
Definition ex_pin (g : Z) (t : nat) : bool := if g =? INIT_B then negb (t =? 0)%nat else true.
Definition ex_status (n : nat) : Z := 0.
Definition ex_sched (n : nat) : nat := n.
Definition ex_read (w : list (Z * Z)) (a : Z) : Z := default 0 (bus_memory w a).

Definition ex_ops_with (pin : Z -> nat -> bool) : hwr_operations rhino :=
  rhino_hwr_operations pin ex_status ex_sched ex_read.
Definition ex_ops (o : Z) : hwr_operations rhino := ex_ops_with ex_pin.

Definition ex_bus : fpga_map :=
  FpgaMap (take 3 cs_bases ++ [0; 0; 0]) [0xc8000000; 0xd0000000; 0xd8000000; 0; 0; 0].
Definition ex_rhino : rhino :=
  Rhino 1 false true 0 0 [] 0 0 0 [] (Some 50) true true true (Some ex_bus) [] [] [].

Definition ex_kernel (d : phyhwr) (r : rhino) : kstate rhino :=
  KState [] 0 ex_dev {[30 := ex_ht]} {[HAC_RHINO := 30]} {[HAC_RHINO := [d]]}
    {[50 := HwrIobuf 0 0 0 (replicate (Z.to_nat IOBUF_SIZE) 0)]} ∅ r.
Definition ex_state : kstate rhino := ex_kernel ex_dev ex_rhino.

Lemma ex_registered d r : registered (ex_kernel d r) HAC_RHINO 30 ex_ht.
Proof. done. Qed.

Lemma ex_dev_is d r : dev_is (ex_kernel d r) HAC_RHINO 0 d.
Proof. by exists [d]. Qed.

Lemma ex_served d r : served ex_ops (ex_kernel d r) rhino_addr 30 ex_ht 7 d.
Proof. split; [done|]. split; [done|]. split; [apply _|]. split; [done|]. split; [done|]. apply ex_dev_is. Qed.

(** ** Registration *)
Definition ex_fresh (h : hwrtype) (al : list bool) : kstate unit :=
  KState al 0 ex_dev {[30 := h]} ∅ ∅ ∅ ∅ tt.

Lemma register_unregister_roundtrip_witness :
  exists s1, runs (register_hwrtype 30) (ex_fresh (hwrtype_rhino 7) []) 0 s1
    /\ registered s1 HAC_RHINO 30 (ht_set_count 1 (hwrtype_rhino 7))
    /\ dev_is s1 HAC_RHINO 0 ex_dev
    /\ runs (unregister_hwrtype 30) s1 0 (ex_fresh (hwrtype_rhino 7) []).
Proof.
  apply (register_unregister_roundtrip (ex_fresh (hwrtype_rhino 7) []) 30 (hwrtype_rhino 7));
    [split_and!; done|done|done].
Defined.

Lemma register_hwrtype_total_witness :
  exists v s1, runs (register_hwrtype 30) (ex_fresh (hwrtype_rhino 7) [true; false]) v s1
    /\ (v = 0 /\ k_hwrtypes s1 !! HAC_RHINO = Some 30
        /\ k_phyhwrs s1 !! HAC_RHINO = Some [ex_dev]
        \/ v = -1 /\ k_hwrtypes s1 = ∅ /\ k_phyhwrs s1 = ∅
           /\ k_htheap s1 = {[30 := hwrtype_rhino 7]} /\ k_live s1 = 0).
Proof.
  apply (register_hwrtype_total (ex_fresh (hwrtype_rhino 7) [true; false]) 30 (hwrtype_rhino 7)).
  split_and!; done.
Defined.

Lemma register_hwrtype_out_of_bounds_witness :
  register_hwrtype 30 (ex_fresh (Hwrtype "two" HAC_RHINO 0 2 None) []) = Fault OutOfBounds.
Proof.
  apply (register_hwrtype_out_of_bounds _ 30 (Hwrtype "two" HAC_RHINO 0 2 None)); [done|done|].
  right. split_and!; done.
Defined.

Lemma ref_run_held_witness :
  ref_run [RGet; RGet; RPut; RGet; RPut; RPut] (ph_set_count 1 ex_dev) = ph_set_count 1 ex_dev.
Proof. apply ref_run_held; done. Defined.

Lemma ref_run_free_overlap_witness :
  ph_count (ref_run [RGet; RPut] ex_dev) = -1
  /\ ph_count (ref_run [RGet; RGet; RPut; RPut] ex_dev) = -2.
Proof. apply ref_run_free_overlap. reflexivity. Defined.


(** ** The RHINO driver *)
Lemma INITB_POLLS_S : INITB_POLLS = S (Z.to_nat CFG_INITB_WAIT).
Proof. unfold INITB_POLLS. by rewrite Z.add_1_r, Z2Nat.inj_succ. Qed.

Lemma ex_ready : fpga_ready ex_pin 0 = (true, 2%nat).
Proof. unfold fpga_ready. by rewrite INITB_POLLS_S. Qed.

(** A file of 16 KiB with a bitstream of [n] bytes at offset 100. *)
Definition ex_file : file := stored (replicate (Z.to_nat 16384) 90).

Lemma ex_loadable n : 0 <= n <= 8192 -> loadable rhino_addr ex_file 100 n ex_state.
Proof.
  intros Hn. split; try done. split; try done; [lia|].
  cbn [f_data ex_file stored]. unfold zlen. rewrite length_replicate. lia.
Qed.

Lemma ex_configure :
  exists s', rhino_configure ex_pin ex_status ex_sched rhino_addr ex_file 100 5000 ex_state = Ok (0, s').
Proof.
  rewrite configure_reset by done. change (r_polls (k_drv ex_state)) with 0%nat. rewrite ex_ready.
  destruct (load_bitstream_ends ex_pin ex_status ex_sched (fun _ => eq_refl) ex_file 100 5000 2 ex_state)
    as (s' & E & _); [done|done|by apply (ex_loadable 5000)|done|]. by exists s'.
Qed.

Lemma rhino_configure_mutex_balanced_witness :
  exists r s', rhino_configure ex_pin ex_status ex_sched rhino_addr ex_file 100 5000 ex_state = Ok (r, s')
    /\ sem s' = 1.
Proof.
  destruct ex_configure as [s' E]. exists 0, s'. split; [exact E|].
  exact (rhino_configure_mutex_balanced ex_pin ex_status ex_sched rhino_addr ex_file 100 5000
    ex_state 0 s' E).
Defined.


Lemma rhino_configure_page_multiple_blocks_witness :
  rhino_configure ex_pin ex_status ex_sched rhino_addr ex_file 100 8192 ex_state = Fault Blocked.
Proof.
  apply (rhino_configure_page_multiple_blocks ex_pin ex_status ex_sched (fun _ => eq_refl)
    rhino_addr ex_file 100 8192 ex_state 2); [by apply ex_loadable|done|exact ex_ready].
Defined.

(** An FPGA without power: every pin reads low. *)
Definition dead_pin (g : Z) (t : nat) : bool := false.

Lemma dead_poll n t : poll dead_pin true INIT_B n t = (false, (n + t)%nat).
Proof. revert t. induction n as [|n IH]; intros t; cbn; [done|]. rewrite IH. f_equal. lia. Qed.

Lemma dead_ready : fpga_ready dead_pin 0 = (false, (INITB_POLLS + 1)%nat).
Proof. unfold fpga_ready. rewrite dead_poll. by rewrite INITB_POLLS_S. Qed.

Lemma rhino_configure_not_ready_witness :
  exists s',
    rhino_configure dead_pin ex_status ex_sched rhino_addr ex_file 100 5000 ex_state = Ok (- EIO, s')
    /\ wire (r_log (k_drv s')) = [] /\ sem s' = 1 /\ k_live s' = 0 /\ outer s' = outer ex_state.
Proof.
  apply (rhino_configure_not_ready dead_pin ex_status ex_sched rhino_addr ex_file 100 5000 ex_state
    (INITB_POLLS + 1)); [done|done|done|exact dead_ready].
Defined.

Lemma transfer_truncated_runs_on_witness :
  transfer ex_status ex_sched 1000 (stored [1; 2; 3]) 3 40 0 ex_state = Fault OutOfFuel.
Proof.
  apply (transfer_truncated_runs_on ex_status ex_sched (fun _ => eq_refl) 1000 (stored [1; 2; 3]) 3 40 0
    ex_state); try done; cbn; lia.
Defined.

Definition ex_buf (data : list Z) : hwr_iobuf := HwrIobuf FPGA_CS0_BASE 4 4 data.
Definition ex_iobufs : kstate rhino :=
  set_iobufs {[50 := ex_buf [1; 2; 3; 4]; 51 := ex_buf [9; 9; 9; 9; 9]]} ex_state.

Lemma rhino_iobuf_roundtrip_witness :
  exists s1 s2,
    runs (rhino_send_iobuf 50) ex_iobufs 4 s1 /\ runs (rhino_recv_iobuf ex_read 51) s1 4 s2
    /\ k_iobufs s2 !! 51 = Some (ex_buf [1; 2; 3; 4; 9]).
Proof.
  apply (rhino_iobuf_roundtrip ex_read ex_iobufs ex_bus 50 51 (ex_buf [1; 2; 3; 4])
    (ex_buf [9; 9; 9; 9; 9]) 2); try done.
  - intros w a v E. unfold ex_read. by rewrite E.
  - by repeat constructor.
Defined.

Definition ex_boot : kstate rhino :=
  KState [] 0 ex_dev {[30 := hwrtype_rhino 7]} ∅ ∅ ∅ ∅
    (Rhino 1 false false 0 0 [] 0 0 0 [] None false false false None [] [] []).

Lemma rhino_init_cleanup_witness :
  exists s1,
    runs (hwrtype_rhino_init (fun _ => true) (fun b => b + 0xc0000000) 30 50 (ex_buf []) (Some 0))
      ex_boot 0 s1
    /\ registered s1 HAC_RHINO 30 (ht_set_count 1 (hwrtype_rhino 7))
    /\ dev_is s1 HAC_RHINO 0 ex_dev
    /\ r_bus (k_drv s1) = Some ex_bus
    /\ exists s2, runs (hwrtype_rhino_cleanup 30) s1 tt s2
         /\ outer s2 = outer ex_boot /\ clean (k_drv s2)
         /\ k_live s2 = 0 + b2z (r_spi (k_drv s1)).
Proof.
  apply (rhino_init_cleanup (fun _ => true) (fun b => b + 0xc0000000) ex_boot 30 50 (ex_buf []) (Some 0) 7);
    [split_and!; done|done|done|done].
Defined.

(** ** A BOF file *)
Definition ex_sym : symbol := Symbol [108; 101; 100] 3 0x08000010 4.
(** "led 3 8000010 4\n" *)
Definition ex_symfile : list Z :=
  [108; 101; 100; 32; 51; 32; 56; 48; 48; 48; 48; 49; 48; 32; 52; 10].
Definition ex_bit : list Z := [170; 85; 195].
Definition ex_bof : list Z := image HAC_RHINO default_arm_elf_bin ex_bit [ex_sym].

Definition byteb (c : Z) : bool := (0 <=? c) && (c <? 256).

Lemma bytes_dec l : forallb byteb l = true -> Forall is_byte l.
Proof.
  induction l as [|c l IH]; cbn; intros H; [by apply Forall_nil|].
  apply andb_true_iff in H as [Hc Hl]. apply Forall_cons. split; [|by apply IH].
  unfold byteb in Hc. unfold is_byte. lia.
Qed.

Lemma ex_packable : packable default_arm_elf_bin ex_bit ex_symfile [ex_sym].
Proof. split; try done. by apply bytes_dec; vm_compute. Qed.

Lemma ex_write_bof : write_bof HAC_RHINO default_arm_elf_bin ex_bit ex_symfile = Ok (0, ex_bof).
Proof. by apply write_bof_image; [apply ex_packable|]. Qed.

(** *** The example of the repository

[src/examples/gpmc_test/bin/gpmc_test_top.sym], line by line, and its symbols. *)
Definition gpmc_lines : list (list Z) := [
  [86; 69; 82; 83; 73; 79; 78; 32; 49; 32; 32; 48; 120; 48; 56; 48; 48; 48; 48; 48; 48; 32; 48;
  120; 48; 50; 10];
  [114; 101; 103; 95; 108; 101; 100; 32; 51; 32; 32; 48; 120; 48; 56; 56; 48; 48; 48; 48; 48;
  32; 48; 120; 48; 50; 10];
  [114; 101; 103; 95; 102; 109; 99; 32; 51; 32; 32; 48; 120; 48; 57; 48; 48; 48; 48; 48; 48; 32;
  48; 120; 48; 50; 10];
  [114; 101; 103; 95; 102; 105; 108; 101; 32; 51; 32; 48; 120; 48; 57; 56; 48; 48; 48; 48; 48;
  32; 48; 120; 55; 102; 10];
  [114; 101; 103; 95; 119; 111; 114; 100; 32; 51; 32; 48; 120; 48; 65; 48; 48; 48; 48; 48; 48;
  32; 48; 120; 48; 52; 10]
].

Definition gpmc_syms : list symbol := [
  Symbol [86; 69; 82; 83; 73; 79; 78] 1 134217728 2;
  Symbol [114; 101; 103; 95; 108; 101; 100] 3 142606336 2;
  Symbol [114; 101; 103; 95; 102; 109; 99] 3 150994944 2;
  Symbol [114; 101; 103; 95; 102; 105; 108; 101] 3 159383552 127;
  Symbol [114; 101; 103; 95; 119; 111; 114; 100] 3 167772160 4
].

(** The columns of a concrete line. *)
Ltac gap_tac := split; [done|repeat (apply Forall_cons; split; [first [by left|by right]|]); apply Forall_nil_2].
Ltac hex_tac :=
  match goal with
  | |- hex_text (48 :: 120 :: ?ds) _ => exists [48; 120], ds
  | |- hex_text ?ds _ => exists [], ds
  end; split_and!; try done; auto.
Ltac line_tac g1 g2 g3 d1 d2 d3 :=
  split; [done|]; exists g1, g2, g3, d1, d2, d3;
  split_and!; [gap_tac|gap_tac|gap_tac|hex_tac|hex_tac|hex_tac|done].

Lemma ReadSymbolFile_roundtrip_witness :
  ReadSymbolFile (concat gpmc_lines) = Ok (0, gpmc_syms, 42).
Proof.
  apply (ReadSymbolFile_roundtrip gpmc_syms gpmc_lines).
  - by repeat constructor.
  - repeat (apply Forall2_cons; split); [..|by apply Forall2_nil].
    + line_tac [32] [32; 32] [32] [49] [48; 120; 48; 56; 48; 48; 48; 48; 48; 48] [48; 120; 48; 50].
    + line_tac [32] [32; 32] [32] [51] [48; 120; 48; 56; 56; 48; 48; 48; 48; 48] [48; 120; 48; 50].
    + line_tac [32] [32; 32] [32] [51] [48; 120; 48; 57; 48; 48; 48; 48; 48; 48] [48; 120; 48; 50].
    + line_tac [32] [32] [32] [51] [48; 120; 48; 57; 56; 48; 48; 48; 48; 48] [48; 120; 55; 102].
    + line_tac [32] [32] [32] [51] [48; 120; 48; 65; 48; 48; 48; 48; 48; 48] [48; 120; 48; 52].
  - done.
Defined.

(** The headers and tables of [src/examples/gpmc_test/bin/gpmc_test.bof], which was
made from this symbol file, the built-in ARM program and a bitstream of 4220212
bytes: what the shipped file has at its start and at offset 3031. *)
Example gpmc_test_bof :
  enc_bofhdr (make_bofhdr HAC_RHINO (slice 0 sizeof_Elf32_Ehdr default_arm_elf_bin)
    (zlen default_arm_elf_bin))
  = [25; 66; 79; 70; 0; 1; 0; 0; 0; 0; 0; 0; 0; 0; 0; 0; 6; 0; 0; 0; 5; 0; 40; 0; 1; 0;
     0; 0; 163; 11; 0; 0; 215; 11; 0; 0; 0; 0; 0; 0; 1; 224; 0; 0; 32; 129; 54; 165; 33; 129; 54; 165]
  /\ enc_hwrhdr (make_hwrhdr HAC_RHINO (zlen gpmc_syms) (zlen (WriteStrtab gpmc_syms))
       (zlen default_arm_elf_bin) 4220212)
     ++ WriteSymtab gpmc_syms 0 ++ WriteStrtab gpmc_syms
  = [
     0; 0; 0; 0; 5; 0; 0; 0; 89; 12; 0; 0; 52; 101; 64; 0; 5; 0; 0; 0; 47; 12; 0; 0; 0; 0; 0; 0;
     0; 0; 1; 0; 0; 0; 0; 8; 2; 0; 0; 0; 8; 0; 3; 0; 0; 0; 128; 8; 2; 0; 0; 0; 16; 0; 3; 0; 0;
     0; 0; 9; 2; 0; 0; 0; 24; 0; 3; 0; 0; 0; 128; 9; 127; 0; 0; 0; 33; 0; 3; 0; 0; 0; 0; 10; 4;
     0; 0; 0; 86; 69; 82; 83; 73; 79; 78; 0; 114; 101; 103; 95; 108; 101; 100; 0; 114; 101; 103;
     95; 102; 109; 99; 0; 114; 101; 103; 95; 102; 105; 108; 101; 0; 114; 101; 103; 95; 119; 111;
     114; 100; 0].
Proof. split; vm_compute; reflexivity. Qed.

Lemma ex_fits : mkbof_fits HAC_RHINO default_arm_elf_bin ex_bit [ex_sym].
Proof. split; try done; [by apply bytes_dec; vm_compute|by repeat constructor]. Qed.

Lemma showbof_mkbof_witness :
  exists rest r,
    Showbof.main (Some ex_bof)
    = ([LineHeader ([25; 66; 79; 70; 0; 1] ++ replicate 10 0) 6 "UNKNOWN" "EM_ARM" 1 2979 3031;
        LineHwr 0; LineRegion false (inl "RHINO"%string) 0 3075 3 1 3071 0]
       ++ [LineSymbol 0 [108; 101; 100] 3 0x08000010 4] ++ LinePayload :: rest, r).
Proof. apply (showbof_mkbof HAC_RHINO default_arm_elf_bin ex_bit [ex_sym] ex_fits). reflexivity. Defined.

(** A ROACH file gets the built-in PowerPC program. *)
Lemma ex_ppc_fits : mkbof_fits HAC_ROACHV5 (GenerateElfFile HAC_ROACHV5) ex_bit [ex_sym].
Proof. split; try done; [by apply bytes_dec; vm_compute|by repeat constructor]. Qed.

Lemma showbof_misreads_big_endian_witness :
  exists id m em eo ho rest r,
    Showbof.main (Some (image HAC_ROACHV5 (GenerateElfFile HAC_ROACHV5) ex_bit [ex_sym]))
    = (LineHeader id 0x06000000 m em 0x01000000 eo ho :: LineHwr 0 :: rest, r).
Proof. apply (showbof_misreads_big_endian _ _ _ _ ex_ppc_fits). reflexivity. Defined.

(** ** Executing it *)
Definition ex_zeros (n : Z) : list Z := replicate (Z.to_nat n) 0.
Definition ex_hbuf : list Z := ex_zeros sizeof_hwrhdr.
Definition ex_ibuf : list Z := ex_zeros sizeof_bofioreg.
Definition ex_handler (b : linux_binprm) : Z := 0.

Lemma ex_rhino_ready : rhino_ready ex_pin ex_status ex_sched ex_read ex_ops 30 ex_ht 7 ex_dev 2 ex_state.
Proof. split; first [apply ex_dev_is | exact ex_ready | done]. Qed.

Definition ex_exec (d : phyhwr) (r : rhino) (b : linux_binprm) : xstate rhino :=
  XState (ex_kernel d r) [] {[1 := b]} [].


(** ** Loads that fail *)
Definition ex_reg : hwrhdr := make_hwrhdr HAC_RHINO 1 (zlen (WriteStrtab [ex_sym])) 2979 3.
Definition ex_regs : list bofioreg := regs_of [ex_sym] 0.
Definition ex_binprm : linux_binprm := exec_binprm ex_bof.

(** A load of the file whose header in memory is [h]. *)
Definition ex_header (numchip hwoff : Z) : bofhdr :=
  Bofhdr ([25; 66; 79; 70; 0; 1] ++ replicate 10 0) 6 BM_RHINO EM_ARM numchip 2979 hwoff 0 0xe001 [0; 0].
Definition ex_binprm_of (numchip hwoff : Z) (data : list Z) : linux_binprm :=
  Binprm (enc_bofhdr (ex_header numchip hwoff) ++ ex_zeros 76) (stored data).

Lemma ex_load_ready d r numchip :
  0 <= numchip < 2 ^ 32 -> ph_count d = -1 ->
  load_ready ex_ops 100 (ex_binprm_of numchip 3031 ex_bof) ex_reg ex_regs (WriteStrtab [ex_sym])
    30 ex_ht 7 d (ex_kernel d r).
Proof.
  intros Hn Hd. assert (dec_bofhdr (bp_buf (ex_binprm_of numchip 3031 ex_bof)) = ex_header numchip 3031) as E.
  { apply dec_enc_bofhdr. repeat split; try done; try apply Hn. by repeat constructor. }
  split; [rewrite E|split; [apply ex_served|done]|done|done|by eexists|done].
  exact (packed_region _ _ _ _ ex_packable).
Qed.

Lemma ex_numchip numchip : 0 <= numchip < 2 ^ 32 ->
  b_numchip (dec_bofhdr (bp_buf (ex_binprm_of numchip 3031 ex_bof))) = numchip.
Proof.
  intros Hn. cbn [bp_buf ex_binprm_of]. rewrite dec_enc_bofhdr; [done|].
  repeat split; try done; try apply Hn. by repeat constructor.
Qed.

(** The driver without its SPI device. *)
Definition ex_no_spi : rhino := with_r_spi false ex_rhino.

Lemma ex_refuses :
  configures ex_ops (fun _ => True) (ex_kernel ex_dev ex_no_spi) (stored ex_bof) ex_reg 7 (- EIO).
Proof.
  eexists. split; [done|]. intros s1 Hd Ha. exists s1. split; [|done].
  unfold runs. cbn [op_configure ex_ops ex_ops_with rhino_hwr_operations].
  unfold rhino_configure. change (truthy (addr (target ex_reg))) with false. cbv iota.
  unfold mbind at 1, drv, mgets. cbv beta iota. by rewrite Hd.
Qed.

Lemma ex_accepts :
  configures ex_ops (fun dr => wire (r_log dr) = [] ++ slice 3075 3 ex_bof) ex_state (stored ex_bof) ex_reg 7 0.
Proof.
  apply (ready_configures ex_pin ex_status ex_sched ex_read ex_ops (fun _ => eq_refl) 30 ex_ht 7 ex_dev 2
    ex_state (stored ex_bof) ex_reg ex_rhino_ready eq_refl (packed_readable _ _ _ _ ex_packable)).
  done.
Qed.

Lemma borph_load_hw_refused_witness :
  exists dr, runs (borph_load_hw ex_ops 100 (ex_binprm_of 1 3031 ex_bof) ex_hbuf [] ex_ibuf)
    (ex_kernel ex_dev ex_no_spi) (- EIO)
    (set_drv dr (set_infos ∅ (dev_upd HAC_RHINO 0 ex_dev (ex_kernel ex_dev ex_no_spi)))).
Proof.
  exact (borph_load_hw_refused ex_ops (fun _ => True) 100 (ex_binprm_of 1 3031 ex_bof) ex_reg ex_regs
    (WriteStrtab [ex_sym]) 30 ex_ht 7 ex_dev (- EIO) (ex_kernel ex_dev ex_no_spi) ex_hbuf [] ex_ibuf
    (ex_load_ready ex_dev ex_no_spi 1 ltac:(lia) eq_refl)
    ltac:(rewrite ex_numchip; lia) ex_refuses ltac:(done) eq_refl eq_refl).
Defined.

Lemma borph_load_exit_roundtrip_witness :
  exists dr, runs (let! e := borph_load_hw ex_ops 100 (ex_binprm_of 1 3031 ex_bof) ex_hbuf [] ex_ibuf in
                   do! borph_exit_fpga ex_ops 100 in mret e) ex_state 0
    (set_drv dr (set_infos ∅ (dev_upd HAC_RHINO 0 ex_dev ex_state))).
Proof.
  exact (borph_load_exit_roundtrip ex_ops _ 100 (ex_binprm_of 1 3031 ex_bof) ex_reg ex_regs
    (WriteStrtab [ex_sym]) 30 ex_ht 7 ex_dev 0 ex_state ex_hbuf [] ex_ibuf
    (ex_load_ready ex_dev ex_rhino 1 ltac:(lia) eq_refl) (ex_numchip 1 ltac:(lia)) ex_accepts
    (Z.le_refl 0) eq_refl eq_refl).
Defined.

Lemma borph_load_hw_dangling_next_witness :
  exists dr, runs (borph_load_hw ex_ops 100 (ex_binprm_of 2 3031 ex_bof) ex_hbuf [] ex_ibuf) ex_state 0
    (set_drv dr (set_infos ∅ (dev_upd HAC_RHINO 0 ex_dev ex_state))).
Proof.
  exact (borph_load_hw_dangling_next ex_ops _ 100 (ex_binprm_of 2 3031 ex_bof) ex_reg ex_regs
    (WriteStrtab [ex_sym]) 30 ex_ht 7 ex_dev 0 ex_state ex_hbuf [] ex_ibuf
    (ex_load_ready ex_dev ex_rhino 2 ltac:(lia) eq_refl) ltac:(rewrite ex_numchip; lia) eq_refl ex_accepts
    (Z.le_refl 0) eq_refl eq_refl).
Defined.

Lemma ex_header_at :
  header_at (ex_binprm_of 1 3031 ex_bof) ex_reg.
Proof.
  pose proof (lr_image _ _ _ _ _ _ _ _ _ _ _ (ex_load_ready ex_dev ex_rhino 1 ltac:(lia) eq_refl)) as Hi.
  split; [by rewrite ex_numchip|pose proof (ri_off _ _ _ _ _ Hi); lia|by eapply region_read_hdr|apply Hi].
Qed.

Lemma borph_load_hw_busy_witness :
  runs (borph_load_hw ex_ops 100 (ex_binprm_of 1 3031 ex_bof) ex_hbuf [] ex_ibuf)
    (ex_kernel (Phyhwr rhino_addr 1 1 (Some 99)) ex_rhino) (- EBUSY)
    (set_infos ∅ (ex_kernel (Phyhwr rhino_addr 1 1 (Some 99)) ex_rhino)).
Proof.
  exact (borph_load_hw_busy ex_ops 100 (ex_binprm_of 1 3031 ex_bof) ex_reg 30 ex_ht 7
    (Phyhwr rhino_addr 1 1 (Some 99)) (ex_kernel (Phyhwr rhino_addr 1 1 (Some 99)) ex_rhino)
    ex_hbuf [] ex_ibuf ex_header_at (conj (ex_served _ _) eq_refl) ltac:(cbn; lia) eq_refl eq_refl).
Defined.

(** One symbol and no string table. *)
Definition ex_nameless : hwrhdr := Hwrhdr 0 rhino_addr 100 0 1 100 0.
Definition ex_nameless_bof : list Z := ex_zeros 52 ++ enc_hwrhdr ex_nameless.

Lemma borph_load_hw_leaks_device_witness :
  runs (borph_load_hw ex_ops 100 (ex_binprm_of 1 52 ex_nameless_bof) ex_hbuf [] ex_ibuf) ex_state (- ENOEXEC)
    (set_infos ∅ (dev_upd HAC_RHINO 0 (Phyhwr rhino_addr 1 0 (Some 100)) ex_state)).
Proof.
  assert (header_at (ex_binprm_of 1 52 ex_nameless_bof) ex_nameless) as Hh by (by repeat split).
  exact (borph_load_hw_leaks_device ex_ops 100 (ex_binprm_of 1 52 ex_nameless_bof) ex_nameless 30 ex_ht 7
    ex_dev ex_state ex_hbuf [] ex_ibuf Hh (conj (ex_served _ _) eq_refl) eq_refl eq_refl eq_refl eq_refl eq_refl).
Defined.

(** ** The binary format handler *)
Definition ex_shell_script : linux_binprm := Binprm ([35; 33] ++ ex_zeros 126) (stored [35; 33]).

Lemma load_bof_binary_refuses_witness :
  load_bof_binary ex_ops ex_hbuf [] ex_ibuf ex_handler 100 1 (ex_exec ex_dev ex_rhino ex_shell_script)
  = Ok (- ENOEXEC, ex_exec ex_dev ex_rhino ex_shell_script).
Proof.
  apply (load_bof_binary_refuses ex_ops ex_hbuf [] ex_ibuf ex_handler 100 1 ex_shell_script); reflexivity.
Defined.

Lemma load_bof_binary_reports_witness :
  load_bof_binary ex_ops ex_hbuf [] ex_ibuf ex_handler 100 1
    (ex_exec ex_dev ex_rhino (ex_binprm_of 1 0 []))
  = Ok (- EIO, after_load 100 1 (- EIO) (ex_binprm_of 1 0 [])
                 (set_live 1 (set_infos ∅ ex_state)) (ex_exec ex_dev ex_rhino (ex_binprm_of 1 0 []))).
Proof.
  apply (load_bof_binary_reports ex_ops ex_hbuf [] ex_ibuf ex_handler 100 1 (ex_binprm_of 1 0 [])
    (ex_exec ex_dev ex_rhino (ex_binprm_of 1 0 [])) (- EIO)); try reflexivity; done.
Defined.


Lemma handover_progress_witness : exists h', hand_step hand_init h'.
Proof. apply handover_progress; [apply rtc_refl|reflexivity]. Defined.

(** ** The register files *)
Lemma to_ascii_correct_witness :
  exists text, to_ascii [0xef; 0xbe; 0xad; 0xde] 4 = (9, text ++ [10]) /\ length text = 8%nat
    /\ Forall (fun c => is_hex c = true) text /\ hex_value text = 0xdeadbeef.
Proof. apply (to_ascii_correct [0xef; 0xbe; 0xad; 0xde] 4); [by apply bytes_dec|done]. Defined.

(** "123\n" *)
Lemma convert_input_decimal_witness : convert_input [49; 50; 51; 10] 4 = Ok 123.
Proof. apply (convert_input_decimal 49 [50; 51; 10] 4); done. Defined.

(** "x1f\n" gives 0x150, not 0x1f. *)
Lemma convert_input_hex_scaled_witness : convert_input [120; 49; 102; 10; 0; 0] 4 = Ok 0x150.
Proof. apply (convert_input_hex_scaled [49; 102] [0]); done. Defined.

Lemma convert_input_overreads_witness :
  convert_input (120 :: replicate 11 49) NUMTMPBUF = Fault OutOfBounds.
Proof. apply (convert_input_overreads 120 (replicate 11 49)); reflexivity. Defined.

Lemma proc_ioreg_readdir_chunk_witness :
  proc_ioreg_readdir 2 1 (Some [[108; 101; 100]; [107]])
  = (0, 3, [DOT ++ DOT; [108; 101; 100]]).
Proof. apply (proc_ioreg_readdir_chunk 2 1 [[108; 101; 100]; [107]]); [done|lia]. Defined.

Definition ex_ioreg : borph_ioreg := Ioreg (WriteStrtab [ex_sym]) 0 3 0x08000010 4 rhino_addr.
Definition ex_info : borph_info := BorphInfo [] [ex_ioreg] 1 1.
Definition ex_regfile : reg_file := RegFile (Some ex_ioreg) 100 0 true.
Definition ex_iobuf : hwr_iobuf := HwrIobuf 0 0 0 (replicate (Z.to_nat IOBUF_SIZE) 0).
Definition ex_proc : pstate rhino := PState (set_infos {[100 := ex_info]} ex_state) {[100 := 1]}.

Lemma ex_reg_ready :
  reg_ready ex_ops ex_pin ex_status ex_sched ex_read ex_regfile ex_ioreg ex_info 30 ex_ht 7 50 ex_bus 2
    ex_iobuf ex_proc.
Proof.
  split; try done.
  split; [done|]. apply bytes_dec. by vm_compute.
Qed.

Lemma ioreg_write_read_witness :
  exists w b1 b2,
    runs (ioreg_reg_write ex_ops [] ex_regfile [1; 2; 3; 4] 4) ex_proc (4, 4) (after_io 50 b1 w ex_proc)
    /\ runs (ioreg_reg_read ex_ops ex_regfile 4) (after_io 50 b1 w ex_proc) (4, [1; 2; 3; 4], 4)
         (after_io 50 b2 w ex_proc).
Proof.
  apply (ioreg_write_read ex_ops [] ex_pin ex_status ex_sched ex_read ex_regfile ex_ioreg ex_info 30 ex_ht 7
    50 ex_bus 2 ex_iobuf [1; 2; 3; 4] ex_proc); [|exact ex_reg_ready|done|by apply bytes_dec].
  intros w a v E. unfold ex_read. by rewrite E.
Defined.

Lemma ioreg_write_fault_blocks_witness :
  exists x1,
    runs (ioreg_reg_write ex_ops [] ex_regfile [] 4) ex_proc (- EINVAL, 0) x1
    /\ ioreg_reg_read ex_ops ex_regfile 4 x1 = Fault Blocked.
Proof.
  apply (ioreg_write_fault_blocks ex_ops [] ex_pin ex_status ex_sched ex_read ex_regfile ex_ioreg ex_info 30
    ex_ht 7 50 ex_bus 2 ex_iobuf ex_proc); [exact ex_reg_ready|done|done].
Defined.
