(* ===== verification/GpmcTest.v ===== *)
(** * The register design of the GPMC example

[src/examples/gpmc_test/src/vhdl/gpmc_test.vhd]: the clocked process that answers the
processor's bus, and the registers behind it.  The design is then put where [RhinoRegs]
has an arbitrary FPGA: what a process writes to the register files of the example comes
back from the registers of the design.

A bus access is the address phase and one or more clocks of data phase, as the memory
controller drives them; it selects a halfword by the address in its window. *)
From stdpp Require Import base list gmap strings.
From S2P Require Import Prelude Bof Hwr Driver HwrRhino Bkexecd ProcBorph RhinoRegs.
From Stdlib Require Import ZArith Lia.

(** ** The design *)
Record design := Design {
  gpmc_address : Z;
  gpmc_data_o : Z;
  led_reg : Z;
  fmc0_la_o : Z;
  reg_bank : list Z;
  word32_reg : list Z
}.
(** The pins the process looks at. *)
Record pins := Pins { gpmc_n_cs : Z; gpmc_n_adv_ale : bool; gpmc_n_oe : bool; gpmc_n_we : bool; gpmc_a : Z; gpmc_d : Z }.

Definition ID_VERSION : Z := 0x5101.
Definition reg_bank_address (s : design) : Z := Z.land (Z.shiftr (gpmc_address s) 22) 15.
Definition reg_file_address (s : design) : nat := Z.to_nat (Z.land (gpmc_address s) 63).

Definition set_address (v : Z) (s : design) : design := Design v (gpmc_data_o s) (led_reg s) (fmc0_la_o s) (reg_bank s) (word32_reg s).
Definition set_data_o (v : Z) (s : design) : design := Design (gpmc_address s) v (led_reg s) (fmc0_la_o s) (reg_bank s) (word32_reg s).
Definition set_led (v : Z) (s : design) : design := Design (gpmc_address s) (gpmc_data_o s) v (fmc0_la_o s) (reg_bank s) (word32_reg s).
Definition set_fmc (v : Z) (s : design) : design := Design (gpmc_address s) (gpmc_data_o s) (led_reg s) v (reg_bank s) (word32_reg s).
Definition set_bank (v : list Z) (s : design) : design := Design (gpmc_address s) (gpmc_data_o s) (led_reg s) (fmc0_la_o s) v (word32_reg s).
Definition set_word32 (v : list Z) (s : design) : design := Design (gpmc_address s) (gpmc_data_o s) (led_reg s) (fmc0_la_o s) (reg_bank s) v.

(** [l(i) <= v]: an index outside the array is an error. *)
Definition assign (l : list Z) (i : nat) (v : Z) : option (list Z) := if (i <? length l)%nat then Some (<[i := v]> l) else None.

(** The read multiplexer; [fmc] is the sampled input of the FMC connector. *)
Definition read_mux (fmc : Z) (s : design) : option Z :=
  let b := reg_bank_address s in
  if b =? 0 then Some ID_VERSION
  else if b =? 1 then Some (led_reg s)
  else if b =? 2 then Some fmc
  else if b =? 3 then reg_bank s !! reg_file_address s
  else if b =? 4 then word32_reg s !! reg_file_address s
  else Some 0.
Definition write_mux (v : Z) (s : design) : option design :=
  let b := reg_bank_address s in
  if b =? 1 then Some (set_led v s)
  else if b =? 2 then Some (set_fmc v s)
  else if b =? 3 then (fun l => set_bank l s) <$> assign (reg_bank s) (reg_file_address s) v
  else if b =? 4 then (fun l => set_word32 l s) <$> assign (word32_reg s) (reg_file_address s) v
  else Some s.

(** A rising edge of the bus clock. *)
Definition clock (fmc : Z) (s : design) (p : pins) : option design :=
  if gpmc_n_cs p =? 0x7F then Some s
  else if negb (gpmc_n_adv_ale p) then Some (set_address (Z.lor (Z.shiftl (gpmc_a p) 16) (gpmc_d p)) s)
  else if negb (gpmc_n_oe p) then (fun v => set_data_o v s) <$> read_mux fmc s
  else if negb (gpmc_n_we p) then write_mux (gpmc_d p) s
  else Some s.
Definition clocks (fmc : Z) (s : design) (ps : list pins) : option design := foldl (fun o p => o ≫= fun s => clock fmc s p) (Some s) ps.

(** ** Bus accesses of the processor: chip select [cs], [S k] clocks of data phase *)
Section bus.
Context (fmc cs : Z) (k : nat).
Definition address_phase (a : Z) : pins := Pins cs false true true (Z.shiftr a 16) (Z.land a 0xFFFF).
Definition bus_write (s : design) (a v : Z) : option design :=
  clocks fmc s (address_phase a :: replicate (S k) (Pins cs true true false 0 v)).
(** The value is what the design drives in the last clock. *)
Definition bus_read (s : design) (a : Z) : option (Z * design) :=
  (fun s => (gpmc_data_o s, s)) <$> clocks fmc s (address_phase a :: replicate (S k) (Pins cs true false true 0 0)).
End bus.

(** ** The registers as an array of the selected bank *)
Definition bank_of (b : Z) (s : design) : list Z :=
  if b =? 0 then [ID_VERSION] else if b =? 1 then [led_reg s] else if b =? 3 then reg_bank s else if b =? 4 then word32_reg s else [].
(** The halfword address of register [i] of bank [b]. *)
Definition halfword_at (b : Z) (i : nat) : Z := b * 2 ^ 22 + Z.of_nat i.

Lemma address_fields s b i : 0 <= b < 16 -> (i < 64)%nat ->
  reg_bank_address (set_address (halfword_at b i) s) = b /\ reg_file_address (set_address (halfword_at b i) s) = i.
Proof.
  intros Hb Hi. unfold reg_bank_address, reg_file_address, halfword_at. cbn [gpmc_address set_address].
  change 15 with (2 ^ 4 - 1). change 63 with (2 ^ 6 - 1). rewrite !land_ones_mod, Z.shiftr_div_pow2 by lia. split.
  - rewrite Z.div_add_l, (Z.div_small (Z.of_nat i)), Z.add_0_r by lia. by apply Z.mod_small.
  - replace (b * 2 ^ 22 + Z.of_nat i) with (Z.of_nat i + (b * 2 ^ 16) * 2 ^ 6) by lia. rewrite Z.mod_add, Z.mod_small by lia. lia.
Qed.

Section accesses.
Context (fmc cs : Z) (k : nat) (Hcs : cs <> 0x7F).

Lemma address_join a : 0 <= a -> Z.lor (Z.shiftl (Z.shiftr a 16) 16) (Z.land a 0xFFFF) = a.
Proof.
  intros Ha. change 0xFFFF with (Z.ones 16). apply Z.bits_inj'. intros i Hi. rewrite Z.lor_spec, Z.land_spec, Z.testbit_ones_nonneg by lia.
  rewrite Z.shiftl_spec by lia. destruct (Z.ltb_spec i 16).
  - rewrite Z.testbit_neg_r by lia. by rewrite andb_true_r.
  - rewrite Z.shiftr_spec, andb_false_r, orb_false_r by lia. f_equal. lia.
Qed.
Lemma clocks_cons s p ps : clocks fmc s (p :: ps) = clock fmc s p ≫= fun s => clocks fmc s ps.
Proof.
  unfold clocks. cbn [foldl]. change (Some s ≫= fun s => clock fmc s p) with (clock fmc s p).
  destruct (clock fmc s p) as [s'|]; [done|]. cbn. induction ps as [|q ps IH]; [done | exact IH].
Qed.
Lemma clock_address s a : 0 <= a -> clock fmc s (address_phase cs a) = Some (set_address a s).
Proof. intros Ha. unfold clock, address_phase. cbn. rewrite (proj2 (Z.eqb_neq _ _) Hcs), address_join by done. done. Qed.
Lemma clocks_settled s s' p n : clock fmc s p = Some s' -> clock fmc s' p = Some s' -> clocks fmc s (replicate (S n) p) = Some s'.
Proof.
  intros H1 H2. cbn [replicate]. rewrite clocks_cons, H1. cbn. induction n as [|n IH]; [done|]. cbn [replicate]. by rewrite clocks_cons, H2.
Qed.

(** Writing register [i] of a bank with registers. *)
Lemma bus_write_ok s b i v : b = 1 \/ b = 3 \/ b = 4 -> (i < length (bank_of b s))%nat -> (length (bank_of b s) <= 64)%nat ->
  exists s', bus_write fmc cs k s (halfword_at b i) v = Some s' /\ bank_of b s' = <[i := v]> (bank_of b s).
Proof.
  intros Hb Hi H64. unfold bus_write. rewrite clocks_cons, clock_address by (unfold halfword_at; lia). cbn [base.mbind option_bind].
  set (s1 := set_address (halfword_at b i) s).
  destruct (address_fields s b i ltac:(lia) ltac:(lia)) as [E1 E2]. fold s1 in E1, E2.
  assert (exists s', write_mux v s1 = Some s' /\ write_mux v s' = Some s' /\ bank_of b s' = <[i := v]> (bank_of b s)) as (s' & W1 & W2 & Hs').
  { unfold write_mux. rewrite E1, E2. destruct Hb as [-> | [-> | ->]]; cbn [Z.eqb Pos.eqb bank_of] in *.
    - exists (set_led v s1). cbn [length] in Hi. replace i with 0%nat by lia.
      change (reg_bank_address (set_led v s1)) with (reg_bank_address s1). rewrite E1. done.
    - change (reg_bank s1) with (reg_bank s). unfold assign. rewrite (proj2 (Nat.ltb_lt _ _)) by lia. exists (set_bank (<[i:=v]> (reg_bank s)) s1).
      change (reg_bank_address (set_bank ?l s1)) with (reg_bank_address s1). change (reg_file_address (set_bank ?l s1)) with (reg_file_address s1).
      rewrite E1, E2. cbn [reg_bank set_bank Z.eqb Pos.eqb fmap option_fmap option_map].
      rewrite length_insert, (proj2 (Nat.ltb_lt _ _)), list_insert_insert_eq by lia. done.
    - change (word32_reg s1) with (word32_reg s). unfold assign. rewrite (proj2 (Nat.ltb_lt _ _)) by lia. exists (set_word32 (<[i:=v]> (word32_reg s)) s1).
      change (reg_bank_address (set_word32 ?l s1)) with (reg_bank_address s1). change (reg_file_address (set_word32 ?l s1)) with (reg_file_address s1).
      rewrite E1, E2. cbn [word32_reg set_word32 Z.eqb Pos.eqb fmap option_fmap option_map].
      rewrite length_insert, (proj2 (Nat.ltb_lt _ _)), list_insert_insert_eq by lia. done. }
  exists s'. split; [|exact Hs']. apply clocks_settled; unfold clock; cbn; rewrite (proj2 (Z.eqb_neq _ _) Hcs); done.
Qed.

(** Reading register [i] of a bank. *)
Lemma bus_read_ok s b i v : b = 0 \/ b = 1 \/ b = 3 \/ b = 4 -> bank_of b s !! i = Some v -> (length (bank_of b s) <= 64)%nat ->
  exists s', bus_read fmc cs k s (halfword_at b i) = Some (v, s').
Proof.
  intros Hb Hv H64. pose proof (lookup_lt_Some _ _ _ Hv) as Hi. unfold bus_read. rewrite clocks_cons, clock_address by (unfold halfword_at; lia). cbn [base.mbind option_bind].
  set (s1 := set_address (halfword_at b i) s).
  destruct (address_fields s b i ltac:(lia) ltac:(lia)) as [E1 E2]. fold s1 in E1, E2.
  assert (forall s2, s2 = s1 \/ s2 = set_data_o v s1 -> read_mux fmc s2 = Some v) as Hr.
  { intros s2 H2. assert (reg_bank_address s2 = b /\ reg_file_address s2 = i) as [F1 F2] by (by destruct H2 as [-> | ->]).
    unfold read_mux. rewrite F1, F2. destruct Hb as [-> | [-> | [-> | ->]]]; cbn [Z.eqb Pos.eqb bank_of] in *;
      destruct H2 as [-> | ->]; try exact Hv; cbn [length] in Hi; replace i with 0%nat in Hv by lia; exact Hv. }
  rewrite (clocks_settled s1 (set_data_o v s1)).
  - eexists. reflexivity.
  - unfold clock. cbn. rewrite (proj2 (Z.eqb_neq _ _) Hcs), Hr by (by left). done.
  - unfold clock. cbn. rewrite (proj2 (Z.eqb_neq _ _) Hcs), Hr by (by right). done.
Qed.
End accesses.

(** ** The design behind the driver

The kernel's mapping of the first window is at [v0]; the FPGA sees every access of the
driver, in order. *)
Section gateware.
Context (fmc cs : Z) (k : nat) (Hcs : cs <> 0x7F) (v0 : Z) (s0 : design).

Definition word_of (a : Z) : Z := ((a - v0) / 2) mod 2 ^ 26.
(** The design after the writes [w], newest first. *)
Definition replay (w : list (Z * Z)) : option design := foldr (fun av o => o ≫= fun s => bus_write fmc cs k s (word_of av.1) av.2) (Some s0) w.
(** What a read of the address [a] then gives. *)
Definition gateware (w : list (Z * Z)) (a : Z) : Z :=
  match replay w with
  | Some s => match bus_read fmc cs k s (word_of a) with Some (v, _) => v | None => 0 end
  | None => 0
  end.

(** The address of register [i] of bank [b]. *)
Definition address_at (b : Z) (i : Z) : Z := v0 + 0x800000 * b + 2 * i.
Lemma word_of_at b i : 0 <= b < 16 -> (i < 64)%nat -> word_of (address_at b (Z.of_nat i)) = halfword_at b i.
Proof.
  intros Hb Hi. unfold word_of, address_at, halfword_at. replace (v0 + 0x800000 * b + 2 * Z.of_nat i - v0) with ((b * 2 ^ 22 + Z.of_nat i) * 2) by lia.
  rewrite Z.div_mul by lia. apply Z.mod_small. lia.
Qed.

(** A run of halfwords written to a bank. *)
Lemma replay_pushed n i b d w s : b = 1 \/ b = 3 \/ b = 4 -> replay w = Some s ->
  (i + n <= length (bank_of b s))%nat -> (length (bank_of b s) <= 64)%nat ->
  exists s', replay (pushed n (Z.of_nat i) (address_at b (Z.of_nat i)) d w) = Some s' /\ length (bank_of b s') = length (bank_of b s) /\
    (forall j, (j < i)%nat -> bank_of b s' !! j = bank_of b s !! j) /\
    (forall j, (i <= j < i + n)%nat -> bank_of b s' !! j = Some (field (2 * Z.of_nat j) 2 d)).
Proof.
  intros Hb. revert i w s. induction n as [|n IH]; intros i w s Hw Hn H64; [exists s; split_and!; [done .. | lia]|]. cbn [pushed].
  destruct (bus_write_ok fmc cs k Hcs s b i (field (2 * Z.of_nat i) 2 d) Hb ltac:(lia) H64) as (s1 & E1 & Hs1).
  destruct (IH (S i) ((address_at b (Z.of_nat i), field (2 * Z.of_nat i) 2 d) :: w) s1) as (s2 & E2 & L2 & B2 & F2).
  - cbn [replay foldr]. fold (replay w). rewrite Hw. cbn. rewrite word_of_at by lia. exact E1.
  - rewrite Hs1, length_insert. lia.
  - by rewrite Hs1, length_insert.
  - exists s2. replace (address_at b (Z.of_nat i) + 2) with (address_at b (Z.of_nat (S i))) by (unfold address_at; lia).
    replace (Z.of_nat i + 1) with (Z.of_nat (S i)) by lia. rewrite Hs1, length_insert in L2. split_and!; [exact E2 | exact L2 | |].
    + intros j Hj. rewrite B2, Hs1 by lia. by rewrite list_lookup_insert_ne by lia.
    + intros j Hj. destruct (decide (j = i)) as [->|Hne]; [|apply F2; lia].
      rewrite B2, Hs1 by lia. by rewrite list_lookup_insert_eq by lia.
Qed.

Lemma gateware_reads w s b i v : b = 0 \/ b = 1 \/ b = 3 \/ b = 4 -> replay w = Some s -> bank_of b s !! i = Some v -> (length (bank_of b s) <= 64)%nat ->
  gateware w (address_at b (Z.of_nat i)) = v.
Proof.
  intros Hb Hw Hv H64. pose proof (lookup_lt_Some _ _ _ Hv). unfold gateware. rewrite Hw, word_of_at by lia.
  by destruct (bus_read_ok fmc cs k Hcs s b i v Hb Hv H64) as (s' & ->).
Qed.
End gateware.

(** ** The register files of the example *)
Section files.
Context (ops_at : Z -> hwr_operations rhino) (stack : list Z).
Context (pin : Z -> nat -> bool) (spi_status : nat -> Z) (spi_sched : nat -> nat).
Context (fmc cs : Z) (k : nat) (v0 : Z) (s0 : design).

(** The first window, and what the symbol file says of the bank [b]. *)
Definition location_at (b : Z) : Z := FPGA_CS0_BASE + 0x800000 * b.
Lemma mapped_at m b : 0 <= b < 16 -> cs_virtual m !! 0%nat = Some v0 -> 0 <= v0 < 2 ^ 32 - 2 ^ 27 -> u32 (mapped m (location_at b)) = address_at v0 b 0.
Proof.
  intros Hb Hm Hv. unfold mapped, location_at, cs_index, address_at, FPGA_CS0_BASE, SZ_128M.
  rewrite (proj2 (Z.leb_le _ _)), (proj2 (Z.ltb_lt _ _)) by lia. cbn [andb default from_option lookup list_lookup cs_bases id]. rewrite Hm.
  change (default 0 (Some v0)) with v0. unfold FPGA_CS0_BASE. do 2 rewrite wrapu_small by (rewrite ?wrapu_small; lia). lia.
Qed.

(** C5. The register files of the GPMC example on its design: [2 * n] bytes that a process
writes to the file of the LED register, of the register file or of the 32 bit register
(banks 1, 3 and 4) come back from the FPGA when it reads the file, with any earlier writes
to the FPGA and for any number of clocks of a bus access; and the file of the version
register (bank 0) reads 0x5101. *)
Theorem gateware_ioreg rf reg bi p h o io m n b b0 d x s :
  cs <> 0x7F -> cs_virtual m !! 0%nat = Some v0 -> 0 <= v0 < 2 ^ 32 - 2 ^ 27 ->
  io_loc reg = location_at b -> replay fmc cs k v0 s0 (r_writes (k_drv (p_k x))) = Some s ->
  reg_ready ops_at pin spi_status spi_sched (gateware fmc cs k v0 s0) rf reg bi p h o io m n b0 x ->
  n <= Z.of_nat (length (bank_of b s)) <= 64 ->
  (b = 1 \/ b = 3 \/ b = 4 -> zlen d = 2 * n -> Forall is_byte d ->
   exists w b1 b2,
     runs (ioreg_reg_write ops_at stack rf d (2 * n)) x (2 * n, 2 * n) (after_io io b1 w x)
     /\ runs (ioreg_reg_read ops_at rf (2 * n)) (after_io io b1 w x) (2 * n, d, 2 * n) (after_io io b2 w x))
  /\ (b = 0 -> n = 1 -> exists b1,
       runs (ioreg_reg_read ops_at rf 2) x (2, [0x01; 0x51], 2) (after_io io b1 (r_writes (k_drv (p_k x))) x)).
Proof.
  intros Hcs Hm Hv Hloc Hrep Hrr Hlen.
  assert (forall b', b = b' -> 0 <= b' < 16 -> u32 (mapped m (io_loc reg)) = address_at v0 b 0) as Haddr
    by (intros b' <- Hb; rewrite Hloc; by apply mapped_at).
  split.
  - intros Hb Hz Hd.
    destruct (runs_ioreg_write ops_at stack pin spi_status spi_sched _ rf reg bi p h o io m n b0 d x Hrr Hz Hd) as (w & b1 & Hw & Hpg & Ew & _).
    rewrite (Haddr b eq_refl ltac:(lia)) in Ew.
    destruct (replay_pushed fmc cs k Hcs v0 s0 (Z.to_nat n) 0 b d _ s Hb Hrep ltac:(lia) ltac:(lia)) as (s' & Es & Hl & _ & Hf).
    change (Z.of_nat 0) with 0 in Es. rewrite <- Ew in Es.
    assert (reg_ready ops_at pin spi_status spi_sched (gateware fmc cs k v0 s0) rf reg bi p h o io m n b1 (after_io io b1 w x)) as Hrr1.
    { destruct Hrr as [Hf' Hp Ht Hi Hm' Hr Ho Hc [] Hs Hb' _]. split; try done. cbn -[insert]. by rewrite lookup_insert_eq. }
    destruct (runs_ioreg_read ops_at pin spi_status spi_sched _ rf reg bi p h o io m n b1 d _ Hrr1 Hz Hd) as [b2 Hr].
    { intros j Hj. rewrite (Haddr b eq_refl ltac:(lia)). change (r_writes (k_drv (p_k (after_io io b1 w x)))) with w.
      replace (address_at v0 b 0 + 2 * j) with (address_at v0 b (Z.of_nat (Z.to_nat j))) by (unfold address_at; lia).
      apply (gateware_reads fmc cs k Hcs v0 s0 w s'); [tauto | exact Es | | lia].
      rewrite Hf by lia. by rewrite Z2Nat.id by lia. }
    exists w, b1, b2. split; [exact Hw|]. eapply runs_eq; [exact Hr|]. unfold after_io. cbn [p_k p_use]. f_equal. apply with_io_with_io.
  - intros Hb Hn. subst n. apply (runs_ioreg_read ops_at pin spi_status spi_sched _ rf reg bi p h o io m 1 b0 [0x01; 0x51] x Hrr);
      [done | repeat constructor; lia |]. intros j Hj. rewrite (Haddr b eq_refl ltac:(lia)).
    replace (address_at v0 b 0 + 2 * j) with (address_at v0 b (Z.of_nat (Z.to_nat j))) by (unfold address_at; lia).
    rewrite (gateware_reads fmc cs k Hcs v0 s0 _ s b (Z.to_nat j) ID_VERSION); [| tauto | exact Hrep | | lia].
    + replace j with 0 by lia. reflexivity.
    + rewrite Hb. by replace (Z.to_nat j) with 0%nat by lia.
Qed.
End files.
