(* ===== verification/ExamplesGpmc.v ===== *)
(** * The GPMC example on the small system of [Examples] *)
From stdpp Require Import base list gmap strings.
From S2P Require Import Prelude Bof Hwr Driver HwrRhino Bkexecd ProcBorph RhinoRegs EndToEnd Examples GpmcTest.
From Stdlib Require Import ZArith Lia.

(** The design after power up, with zeros in the register file. *)
Definition ex_design : design := Design 0 0 0xAA55 0 (replicate 64 0) [0x5555; 0x5555].
Definition ex_gateware : list (Z * Z) -> Z -> Z := gateware 0 0x7E 3 0xc8000000 ex_design.
Definition ex_gops (o : Z) : hwr_operations rhino := rhino_hwr_operations ex_pin ex_status ex_sched ex_gateware.

(** The line reg_file of the symbol file: 127 bytes. *)
Definition ex_reg_file : borph_ioreg := Ioreg [114; 0] 0 3 0x09800000 0x7f rhino_addr.
Definition ex_file_info : borph_info := BorphInfo [] [ex_reg_file] 1 1.
Definition ex_file : reg_file := RegFile (Some ex_reg_file) 100 0 true.
Definition ex_file_proc : pstate rhino := PState (set_infos {[100 := ex_file_info]} ex_state) {[100 := 1]}.

Lemma ex_file_ready :
  reg_ready ex_gops ex_pin ex_status ex_sched ex_gateware ex_file ex_reg_file ex_file_info 30 ex_ht 7 50 ex_bus 2 ex_iobuf ex_file_proc.
Proof.
  split; try done.
  split; [done|]. apply bytes_dec. by vm_compute.
Qed.

Lemma gateware_ioreg_witness :
  exists w b1 b2,
    runs (ioreg_reg_write ex_gops [] ex_file [1; 2; 3; 4] 4) ex_file_proc (4, 4) (after_io 50 b1 w ex_file_proc)
    /\ runs (ioreg_reg_read ex_gops ex_file 4) (after_io 50 b1 w ex_file_proc) (4, [1; 2; 3; 4], 4) (after_io 50 b2 w ex_file_proc).
Proof.
  apply (gateware_ioreg ex_gops [] ex_pin ex_status ex_sched 0 0x7E 3 0xc8000000 ex_design ex_file ex_reg_file ex_file_info 30 ex_ht 7 50 ex_bus
    2 3 ex_iobuf [1; 2; 3; 4] ex_file_proc ex_design); [lia | done | lia | done | done | exact ex_file_ready | vm_compute; split; discriminate | tauto | done | by apply bytes_dec].
Defined.
