(* ===== verification/Bits.v ===== *)
(** * Bits, parities and bit counts

Lemmas on single bits and fields of machine integers shared by the error
correcting codes: fields of equal width, exclusive-or sums over positions, and
the number of set bits. *)
From stdpp Require Import base list sets.
From S2P Require Import Prelude.
From Stdlib Require Import ZArith Lia.

(** ** Finite case checks *)
Definition zrange (n : nat) : list Z := Z.of_nat <$> seq 0 n.

(** The [n] integers from [j] on. *)
Fixpoint zseq (j : Z) (n : nat) : list Z :=
  match n with
  | O => []
  | S n => j :: zseq (j + 1) n
  end.

Lemma elem_of_zseq i j n : i ∈ zseq j n <-> j <= i < j + Z.of_nat n.
Proof.
  revert j. induction n as [|n IH]; intros j; cbn [zseq].
  - rewrite elem_of_nil. lia.
  - rewrite elem_of_cons, IH. lia.
Qed.

Lemma NoDup_zseq j n : NoDup (zseq j n).
Proof.
  revert j. induction n as [|n IH]; intros j; cbn [zseq]; constructor; [|apply IH].
  rewrite elem_of_zseq. lia.
Qed.

Lemma forallb_zrange n (P : Z -> bool) x :
  forallb P (zrange n) = true -> 0 <= x < Z.of_nat n -> P x = true.
Proof.
  intros H Hx. apply (proj1 (forallb_forall P (zrange n)) H), in_map_iff.
  exists (Z.to_nat x). rewrite Z2Nat.id by lia. split; [done|]. apply in_seq. lia.
Qed.

(** ** Single bits *)
Lemma truthy_land_pow2 x n : 0 <= n -> truthy (Z.land x (2 ^ n)) = Z.testbit x n.
Proof.
  intros Hn. unfold truthy. destruct (Z.testbit x n) eqn:E.
  - destruct (Z.eqb_spec (Z.land x (2 ^ n)) 0) as [H|]; [|done].
    apply (f_equal (fun z => Z.testbit z n)) in H.
    rewrite Z.land_spec, Z.pow2_bits_true, E, Z.bits_0 in H by done. done.
  - rewrite (proj2 (Z.eqb_eq _ 0)); [done|]. apply Z.bits_inj'. intros k Hk.
    rewrite Z.land_spec, Z.bits_0, Z.pow2_bits_eqb by done.
    destruct (Z.eqb_spec n k) as [->|]; [by rewrite E|by rewrite andb_false_r].
Qed.

Lemma lnotu_testbit w x k :
  0 <= w -> 0 <= k -> Z.testbit (lnotu w x) k = (k <? w) && negb (Z.testbit x k).
Proof.
  intros Hw Hk. unfold lnotu, wrapu. destruct (Z.ltb_spec k w).
  - rewrite Z.mod_pow2_bits_low by lia. by rewrite Z.lnot_spec.
  - by rewrite Z.mod_pow2_bits_high by lia.
Qed.

Lemma lnotu_lxor w x y :
  0 <= w -> Z.lxor (lnotu w x) (lnotu w y) = wrapu w (Z.lxor x y).
Proof.
  intros Hw. apply Z.bits_inj'. intros k Hk. rewrite Z.lxor_spec, !lnotu_testbit by done.
  unfold wrapu. destruct (Z.ltb_spec k w).
  - rewrite Z.mod_pow2_bits_low by lia. rewrite Z.lxor_spec.
    by destruct (Z.testbit x k), (Z.testbit y k).
  - by rewrite Z.mod_pow2_bits_high by lia.
Qed.

Lemma range_of_bits n x : 0 <= n -> (forall i, n <= i -> Z.testbit x i = false) -> 0 <= x < 2 ^ n.
Proof.
  intros Hn H. assert (x mod 2 ^ n = x) as <-.
  { apply Z.bits_inj'. intros i Hi. destruct (Z_lt_le_dec i n).
    - by rewrite Z.mod_pow2_bits_low.
    - by rewrite Z.mod_pow2_bits_high, H by lia. }
  apply Z.mod_pos_bound. lia.
Qed.

Lemma lxor_range n x y : 0 <= n -> 0 <= x < 2 ^ n -> 0 <= y < 2 ^ n -> 0 <= Z.lxor x y < 2 ^ n.
Proof.
  intros Hn Hx Hy. apply range_of_bits; [done|]. intros i Hi.
  by rewrite Z.lxor_spec, (testbit_high x n), (testbit_high y n) by lia.
Qed.

Lemma land_range n x y : 0 <= n -> 0 <= x < 2 ^ n -> 0 <= Z.land x y < 2 ^ n.
Proof.
  intros Hn Hx. apply range_of_bits; [done|]. intros i Hi.
  by rewrite Z.land_spec, (testbit_high x n) by lia.
Qed.

Lemma lor_range n x y : 0 <= n -> 0 <= x < 2 ^ n -> 0 <= y < 2 ^ n -> 0 <= Z.lor x y < 2 ^ n.
Proof.
  intros Hn Hx Hy. apply range_of_bits; [done|]. intros i Hi.
  by rewrite Z.lor_spec, (testbit_high x n), (testbit_high y n) by lia.
Qed.

Lemma land_lxor_distr x y z : Z.land (Z.lxor x y) z = Z.lxor (Z.land x z) (Z.land y z).
Proof.
  apply Z.bits_inj'. intros i Hi. rewrite !Z.land_spec, !Z.lxor_spec, !Z.land_spec.
  by destruct (Z.testbit x i), (Z.testbit y i), (Z.testbit z i).
Qed.

(** ** Exclusive-or sums: the words of the positions whose bit is set *)
Fixpoint xor_sum (f : Z -> bool) (w : Z -> Z) (l : list Z) : Z :=
  match l with
  | [] => 0
  | i :: l => Z.lxor (if f i then w i else 0) (xor_sum f w l)
  end.

Lemma xor_sum_xorb f g w l :
  xor_sum (fun i => xorb (f i) (g i)) w l = Z.lxor (xor_sum f w l) (xor_sum g w l).
Proof.
  induction l as [|i l IH]; cbn [xor_sum]; [done|]. rewrite IH. apply Z.bits_inj'. intros k _.
  rewrite !Z.lxor_spec. destruct (f i), (g i); cbn; rewrite ?Z.bits_0;
    destruct (Z.testbit (w i) k), (Z.testbit (xor_sum f w l) k), (Z.testbit (xor_sum g w l) k); done.
Qed.

Lemma xor_sum_none f w l : (forall i, i ∈ l -> f i = false) -> xor_sum f w l = 0.
Proof.
  induction l as [|i l IH]; cbn [xor_sum]; intros H; [done|].
  rewrite (H i), IH by set_solver. done.
Qed.

Lemma xor_sum_one a w l : NoDup l -> a ∈ l -> xor_sum (fun i => i =? a) w l = w a.
Proof.
  induction 1 as [|i l Hi Hn IH]; cbn [xor_sum]; intros Ha; [set_solver|].
  apply elem_of_cons in Ha as [->|Ha].
  - rewrite Z.eqb_refl, xor_sum_none; [by rewrite Z.lxor_0_r|].
    intros j Hj. apply Z.eqb_neq. by intros ->.
  - rewrite (proj2 (Z.eqb_neq i a)) by (by intros ->). rewrite Z.lxor_0_l. by apply IH.
Qed.

Lemma xor_sum_ext f g w l : (forall i, i ∈ l -> f i = g i) -> xor_sum f w l = xor_sum g w l.
Proof.
  induction l as [|i l IH]; cbn [xor_sum]; intros H; [done|].
  rewrite (H i), IH by set_solver. done.
Qed.

(** ** Fields of equal width: [pk k [f0; f1; ...]] is [f0 + f1 * 2^k + ...] *)
Fixpoint pk (k : Z) (fs : list Z) : Z :=
  match fs with
  | [] => 0
  | f :: fs => f + 2 ^ k * pk k fs
  end.

Definition field_range (k : Z) (fs : list Z) : Prop := Forall (fun f => 0 <= f < 2 ^ k) fs.

Lemma pk_nonneg k fs : 0 <= k -> field_range k fs -> 0 <= pk k fs.
Proof.
  intros Hk. induction 1 as [|f fs Hf H IH]; cbn [pk]; [lia|].
  pose proof (Z.pow_nonneg 2 k ltac:(lia)). nia.
Qed.

Lemma testbit_split k f g i :
  0 <= k -> 0 <= f < 2 ^ k -> 0 <= i ->
  Z.testbit (f + 2 ^ k * g) i = if i <? k then Z.testbit f i else Z.testbit g (i - k).
Proof.
  intros Hk Hf Hi. rewrite Z.add_comm, Z.mul_comm, <- lor_mul_add by lia.
  rewrite Z.lor_spec, <- Z.shiftl_mul_pow2 by lia. destruct (Z.ltb_spec i k).
  - by rewrite Z.shiftl_spec_low.
  - rewrite Z.shiftl_spec by lia. rewrite (testbit_high f k i) by lia. apply orb_false_r.
Qed.

Lemma land_split k f g u v :
  0 <= k -> 0 <= f < 2 ^ k -> 0 <= u < 2 ^ k ->
  Z.land (f + 2 ^ k * g) (u + 2 ^ k * v) = Z.land f u + 2 ^ k * Z.land g v.
Proof.
  intros Hk Hf Hu. pose proof (land_range k f u Hk Hf) as Hl.
  apply Z.bits_inj'. intros i Hi. rewrite Z.land_spec, !testbit_split by done.
  destruct (i <? k); by rewrite Z.land_spec.
Qed.

Lemma shiftr_pk k f fs :
  0 <= k -> 0 <= f < 2 ^ k -> Z.shiftr (pk k (f :: fs)) k = pk k fs.
Proof.
  intros Hk Hf. cbn [pk]. rewrite Z.shiftr_div_pow2 by done.
  rewrite Z.mul_comm, Z.div_add by lia. rewrite Z.div_small by lia. lia.
Qed.

(** Bitwise operations work field by field. *)
Lemma lor_split k f g u v :
  0 <= k -> 0 <= f < 2 ^ k -> 0 <= u < 2 ^ k ->
  Z.lor (f + 2 ^ k * g) (u + 2 ^ k * v) = Z.lor f u + 2 ^ k * Z.lor g v.
Proof.
  intros Hk Hf Hu. pose proof (lor_range k f u Hk Hf Hu) as Hl.
  apply Z.bits_inj'. intros i Hi. rewrite Z.lor_spec, !testbit_split by done.
  destruct (i <? k); by rewrite Z.lor_spec.
Qed.

Fixpoint zip_land (fs gs : list Z) : list Z :=
  match fs, gs with
  | f :: fs, g :: gs => Z.land f g :: zip_land fs gs
  | _, _ => []
  end.

Fixpoint zip_lor (fs gs : list Z) : list Z :=
  match fs, gs with
  | f :: fs, g :: gs => Z.lor f g :: zip_lor fs gs
  | [], gs => gs
  | fs, [] => fs
  end.

Lemma land_pk k fs gs :
  0 <= k -> field_range k fs -> field_range k gs -> Z.land (pk k fs) (pk k gs) = pk k (zip_land fs gs).
Proof.
  intros Hk Hf. revert gs. induction Hf as [|f fs Hf H IH]; intros [|g gs] Hg; cbn [pk zip_land];
    rewrite ?Z.land_0_l, ?Z.land_0_r; try done.
  apply Forall_cons in Hg as [Hg0 Hg]. by rewrite land_split, IH.
Qed.

Lemma lor_pk k fs gs :
  0 <= k -> field_range k fs -> field_range k gs -> Z.lor (pk k fs) (pk k gs) = pk k (zip_lor fs gs).
Proof.
  intros Hk Hf. revert gs. induction Hf as [|f fs Hf H IH]; intros [|g gs] Hg; cbn [pk zip_lor];
    rewrite ?Z.lor_0_l, ?Z.lor_0_r; try done.
  apply Forall_cons in Hg as [Hg0 Hg]. by rewrite lor_split, IH.
Qed.

Lemma shiftl_pk k n fs :
  0 <= k -> Z.shiftl (pk k fs) (k * Z.of_nat n) = pk k (replicate n 0 ++ fs).
Proof.
  intros Hk. rewrite Z.shiftl_mul_pow2 by lia. induction n as [|n IH].
  { cbn [replicate app]. rewrite Z.mul_0_r. lia. }
  cbn [replicate app pk]. rewrite <- IH. replace (k * Z.of_nat (S n)) with (k + k * Z.of_nat n) by lia.
  rewrite Z.pow_add_r by lia. lia.
Qed.

Lemma shiftr_pk_drop k n fs :
  0 <= k -> field_range k fs -> Z.shiftr (pk k fs) (k * Z.of_nat n) = pk k (drop n fs).
Proof.
  intros Hk Hf. revert fs Hf. induction n as [|n IH]; intros fs Hf.
  { by rewrite Z.mul_0_r, Z.shiftr_0_r, drop_0. }
  replace (k * Z.of_nat (S n)) with (k + k * Z.of_nat n) by lia. rewrite <- Z.shiftr_shiftr by lia.
  destruct fs as [|f fs]; [by rewrite !Z.shiftr_0_l|]. apply Forall_cons in Hf as [Hf0 Hf].
  rewrite shiftr_pk by done. by apply IH.
Qed.

(** The fields of a word. *)
Fixpoint fields_of (k : Z) (n : nat) (x : Z) : list Z :=
  match n with
  | O => []
  | S n => x mod 2 ^ k :: fields_of k n (x / 2 ^ k)
  end.

Lemma fields_of_range k n x : 0 <= k -> field_range k (fields_of k n x).
Proof.
  intros Hk. revert x. induction n as [|n IH]; intros x; cbn [fields_of]; [by apply Forall_nil|].
  apply Forall_cons. split; [|apply IH]. apply Z.mod_pos_bound. lia.
Qed.

Lemma pk_fields_of k n x : 0 <= k -> 0 <= x < 2 ^ (k * Z.of_nat n) -> pk k (fields_of k n x) = x.
Proof.
  intros Hk. revert x. induction n as [|n IH]; intros x Hx; cbn [fields_of pk].
  { rewrite Z.mul_0_r in Hx. cbn in Hx. lia. }
  replace (k * Z.of_nat (S n)) with (k + k * Z.of_nat n) in Hx by lia.
  rewrite Z.pow_add_r in Hx by lia. pose proof (Z.pow_pos_nonneg 2 k ltac:(lia) Hk).
  rewrite IH; [pose proof (Z.div_mod x (2 ^ k) ltac:(lia)); lia|].
  split; [apply Z.div_pos; lia|]. apply Z.div_lt_upper_bound; lia.
Qed.

(** [n] pairs of a full and an empty field. *)
Fixpoint alternate (k : Z) (n : nat) : list Z :=
  match n with
  | O => []
  | S n => (2 ^ k - 1) :: 0 :: alternate k n
  end.

Fixpoint pair_sums (fs : list Z) : list Z :=
  match fs with
  | a :: b :: fs => (a + b) :: pair_sums fs
  | _ => []
  end.

Lemma land_above k x y :
  0 <= k -> Z.land x (0 + 2 ^ k * y) = 2 ^ k * Z.land (Z.shiftr x k) y.
Proof.
  intros Hk. pose proof (Z.pow_pos_nonneg 2 k ltac:(lia) Hk) as Hp.
  rewrite (Z.div_mod x (2 ^ k)) at 1 by lia. rewrite Z.add_comm, land_split by
    (try lia; apply Z.mod_pos_bound; lia).
  by rewrite Z.land_0_r, Z.shiftr_div_pow2.
Qed.

(** One step of a bit count: neighbouring fields are added. *)
Lemma add_neighbours k n fs :
  0 < k -> field_range k fs -> length fs = (2 * n)%nat ->
  Z.land (pk k fs) (pk k (alternate k n)) + Z.land (Z.shiftr (pk k fs) k) (pk k (alternate k n))
  = pk (2 * k) (pair_sums fs).
Proof.
  intros Hk. revert fs. induction n as [|n IH]; intros fs Hf Hl.
  { destruct fs; [|done]. cbn. by rewrite Z.shiftr_0_l. }
  destruct fs as [|a [|b fs]]; cbn [length] in Hl; try lia.
  apply Forall_cons in Hf as [Ha Hf]. apply Forall_cons in Hf as [Hb Hf].
  rewrite shiftr_pk by (done || lia). cbn [alternate pair_sums pk].
  pose proof (Z.pow_pos_nonneg 2 k ltac:(lia) ltac:(lia)) as Hp.
  rewrite !(land_split k), land_above by lia. rewrite !land_ones_mod, Z.land_0_r by lia.
  rewrite (Z.mod_small a), (Z.mod_small b), <- IH by (done || lia).
  replace (2 * k) with (k + k) by lia. rewrite Z.pow_add_r by lia. ring.
Qed.

Lemma pair_sums_range k fs :
  0 < k -> field_range k fs -> field_range (2 * k) (pair_sums fs).
Proof.
  intros Hk. assert (2 * 2 ^ k <= 2 ^ (2 * k)) as Hp.
  { rewrite <- Z.pow_succ_r by lia. apply Z.pow_le_mono_r; lia. }
  revert fs. fix IH 1. intros [|a [|b fs]] H; cbn [pair_sums]; try by apply Forall_nil.
  apply Forall_cons in H as [Ha H]. apply Forall_cons in H as [Hb H].
  apply Forall_cons. split; [lia|]. by apply IH.
Qed.

Lemma length_pair_sums n fs : length fs = (2 * n)%nat -> length (pair_sums fs) = n.
Proof.
  revert fs. induction n as [|n IH]; intros [|a [|b fs]] H; cbn [length pair_sums] in *; try lia.
  rewrite IH; lia.
Qed.

Definition total (fs : list Z) : Z := foldr Z.add 0 fs.

Lemma total_pair_sums n fs : length fs = (2 * n)%nat -> total (pair_sums fs) = total fs.
Proof.
  revert fs. induction n as [|n IH]; intros [|a [|b fs]] H; cbn [length pair_sums] in *; try (done || lia).
  unfold total in *. cbn [foldr]. rewrite IH by lia. lia.
Qed.

(** ** Bits of a word, lowest first *)
Fixpoint bits_of (n : nat) (x : Z) : list Z :=
  match n with
  | O => []
  | S n => Z.b2z (Z.odd x) :: bits_of n (Z.div2 x)
  end.

Definition popcount (n : nat) (x : Z) : Z := total (bits_of n x).

Lemma length_bits_of n x : length (bits_of n x) = n.
Proof. revert x. induction n as [|n IH]; intros x; cbn; [done|]. by rewrite IH. Qed.

Lemma bits_of_range n x : field_range 1 (bits_of n x).
Proof.
  revert x. induction n as [|n IH]; intros x; cbn [bits_of]; [by apply Forall_nil|].
  apply Forall_cons. split; [|apply IH]. by destruct (Z.odd x).
Qed.

Lemma pk_bits_of n x : 0 <= x < 2 ^ Z.of_nat n -> pk 1 (bits_of n x) = x.
Proof.
  revert x. induction n as [|n IH]; intros x Hx; cbn [bits_of pk]; [cbn in Hx; lia|].
  rewrite Nat2Z.inj_succ, Z.pow_succ_r in Hx by lia. rewrite IH.
  - rewrite Z.div2_div. pose proof (Z.div_mod x 2 ltac:(lia)) as E. rewrite Zmod_odd in E.
    destruct (Z.odd x); cbn [Z.b2z]; change (2 ^ 1) with 2; lia.
  - rewrite Z.div2_div. split; [apply Z.div_pos; lia|]. apply Z.div_lt_upper_bound; lia.
Qed.

(** The parity of the number of set bits adds up. *)
Lemma popcount_odd_lxor n x y :
  Z.odd (popcount n (Z.lxor x y)) = xorb (Z.odd (popcount n x)) (Z.odd (popcount n y)).
Proof.
  revert x y. induction n as [|n IH]; intros x y; [done|]. unfold popcount, total in *. cbn [bits_of foldr].
  rewrite !Z.odd_add. rewrite !Z.div2_spec, Z.shiftr_lxor, <- !Z.div2_spec, IH.
  rewrite <- !Z.bit0_odd, Z.lxor_spec, !Z.bit0_odd.
  assert (forall b, Z.odd (Z.b2z b) = b) as Hb by by intros [].
  rewrite !Hb. by destruct (Z.odd x), (Z.odd y), (Z.odd (foldr _ _ (bits_of n (Z.div2 x)))),
    (Z.odd (foldr _ _ (bits_of n (Z.div2 y)))).
Qed.

Lemma popcount_nonneg n x : 0 <= popcount n x <= Z.of_nat n.
Proof.
  revert x. induction n as [|n IH]; intros x; [done|]. unfold popcount, total in *. cbn [bits_of foldr].
  specialize (IH (Z.div2 x)). destruct (Z.odd x); cbn [Z.b2z]; lia.
Qed.

(** Adding a higher part. *)
Lemma bits_of_app n m x : bits_of (n + m) x = bits_of n x ++ bits_of m (Z.shiftr x (Z.of_nat n)).
Proof.
  revert x. induction n as [|n IH]; intros x; cbn [bits_of Nat.add app]; [by rewrite Z.shiftr_0_r|].
  f_equal. rewrite IH. f_equal. f_equal. rewrite Z.div2_spec, Z.shiftr_shiftr by lia. f_equal. lia.
Qed.

Lemma total_app l1 l2 : total (l1 ++ l2) = total l1 + total l2.
Proof. unfold total. induction l1 as [|x l1 IH]; cbn [app foldr]; [done|]. rewrite IH. lia. Qed.

Lemma popcount_add n m x :
  popcount (n + m) x = popcount n x + popcount m (Z.shiftr x (Z.of_nat n)).
Proof. unfold popcount. by rewrite bits_of_app, total_app. Qed.

(** Only the bits below [n] count. *)
Lemma bits_of_mod n k x :
  (Z.of_nat n <= k) -> bits_of n (x mod 2 ^ k) = bits_of n x.
Proof.
  revert k x. induction n as [|n IH]; intros k x Hk; [done|]. cbn [bits_of].
  rewrite <- !Z.bit0_odd, Z.mod_pow2_bits_low by lia. f_equal.
  replace k with (1 + (k - 1)) by lia.
  rewrite !Z.div2_div, Z.pow_add_r, Z.rem_mul_r by lia.
  rewrite (Z.add_comm (x mod 2 ^ 1)), Z.mul_comm, Z.div_add_l by lia.
  rewrite (Z.div_small (x mod 2 ^ 1)) by (apply Z.mod_pos_bound; lia).
  rewrite Z.add_0_r, IH by lia. done.
Qed.

Lemma popcount_zero n : popcount n 0 = 0.
Proof. unfold popcount, total. induction n as [|n IH]; cbn; [done|]. exact IH. Qed.

(** Complementing the low [n] bits. *)
Lemma popcount_lnot n x : popcount n (lnotu (Z.of_nat n) x) = Z.of_nat n - popcount n x.
Proof.
  unfold lnotu, wrapu, popcount. rewrite bits_of_mod by lia. revert x.
  induction n as [|n IH]; intros x; [done|]. unfold total in *. cbn [bits_of foldr].
  rewrite <- !Z.bit0_odd, Z.lnot_spec by lia.
  assert (Z.div2 (Z.lnot x) = Z.lnot (Z.div2 x)) as ->
    by (rewrite !Z.div2_spec; symmetry; by apply Z.lnot_shiftr).
  rewrite IH. destruct (Z.testbit x 0); cbn [Z.b2z negb]; lia.
Qed.
