(* ===== verification/HwEcc.v ===== *)
(** * The hardware error correcting code of the boot loader

The 24-bit Hamming code over 512-byte blocks that the memory controller computes
and [src/x-loader/board/rhino/rhino.c] checks: [gen_true_ecc], [hweight32],
[omap_correct_data_hw_ecc] and the loop of [omap_calculate_hw_ecc].  The controller itself is
hardware: [block_ecc] is what its manual says a result register holds. *)
From stdpp Require Import base list sets.
From S2P Require Import Prelude Bits.
From Stdlib Require Import ZArith Lia.

Definition ECC_BLOCK : Z := 512.

(** ** The code of rhino.c *)
Definition hweight32 (w : Z) : Z :=
  let res := u32 (Z.land w 0x55555555 + Z.land (Z.shiftr w 1) 0x55555555) in
  let res := u32 (Z.land res 0x33333333 + Z.land (Z.shiftr res 2) 0x33333333) in
  let res := u32 (Z.land res 0x0F0F0F0F + Z.land (Z.shiftr res 4) 0x0F0F0F0F) in
  let res := u32 (Z.land res 0x00FF00FF + Z.land (Z.shiftr res 8) 0x00FF00FF) in
  u32 (Z.land res 0x0000FFFF + Z.land (Z.shiftr res 16) 0x0000FFFF).

(** [ecc_buf] is the three bytes at a position of a longer buffer. *)
Definition ecc_byte (ecc_buf : list Z) (i : nat) : Z := nth i ecc_buf 0.

Definition gen_true_ecc (ecc_buf : list Z) : Z :=
  Z.lor (Z.lor (Z.lor (ecc_byte ecc_buf 0) (Z.shiftl (ecc_byte ecc_buf 1) 16))
          (Z.shiftl (Z.land (ecc_byte ecc_buf 2) 0xF0) 20))
        (Z.shiftl (Z.land (ecc_byte ecc_buf 2) 0x0F) 8).

(** [dat[byte] ^= 1 << bit]; a byte index of 9 bits is below 512. *)
Definition flip_bit (dat : list Z) (byte : Z) (bit : Z) : list Z :=
  alter (fun b => u8 (Z.lxor b (Z.shiftl 1 bit))) (Z.to_nat byte) dat.

(** The result and the data. *)
Definition omap_correct_data_hw_ecc (dat read_ecc calc_ecc : list Z) : Z * list Z :=
  let orig_ecc := gen_true_ecc read_ecc in
  let new_ecc := gen_true_ecc calc_ecc in
  let res := Z.lxor orig_ecc new_ecc in
  if truthy res then
    let hm := hweight32 res in
    if hm =? 12 then
      let parity_bits := u16 (Z.shiftr res 16) in
      let bit := Z.land parity_bits 0x7 in
      let byte := Z.land (Z.shiftr parity_bits 3) 0x1FF in
      (0, flip_bit dat byte bit)
    else if hm =? 1 then (2, dat)
    else if (orig_ecc =? 0x0FFF0FFF) && (new_ecc =? 0) then (0, dat)
    else (-1, dat)
  else (0, dat).

(** The bytes of one result register. *)
Definition ecc_code_of (val : Z) : list Z :=
  [Z.land val 0xFF; Z.land (Z.shiftr val 16) 0xFF;
   Z.lor (Z.land (Z.shiftr val 8) 0x0F) (Z.land (Z.shiftr val 20) 0xF0)].

(** The loop of [omap_calculate_hw_ecc]: [steps] result registers from the [i]th on. *)
Fixpoint calculate_loop (ecc_result : nat -> Z) (steps i : nat) : list Z :=
  match steps with
  | O => []
  | S steps => ecc_code_of (ecc_result i) ++ calculate_loop ecc_result steps (S i)
  end.

(** ** What the controller computes

Bit [a] of a block is bit [a mod 8] of byte [a / 8].  The odd parities (high
half) are the exclusive or of the addresses of the set bits, the even parities
(low half) that of their complements. *)
Definition block_bit (dat : list Z) (a : Z) : bool :=
  Z.testbit (nth (Z.to_nat (a / 8)) dat 0) (a mod 8).

Definition parity_word (a : Z) : Z := Z.lor (Z.shiftl a 16) (lnotu 12 a).

Definition block_ecc (dat : list Z) : Z := xor_sum (block_bit dat) parity_word (zrange 4096).

(** * Properties *)

(** ** Counting bits *)
Lemma wrap_pk k fs :
  0 < k -> field_range k fs -> k * zlen fs = 32 -> u32 (pk k fs) = pk k fs.
Proof.
  intros Hk Hf Hl. apply wrapu_small. split; [apply pk_nonneg; (done || lia)|].
  assert (pk k fs < 2 ^ (k * zlen fs)) as H; [|by rewrite Hl in H].
  clear Hl. induction Hf as [|f fs Hf H IH].
  { change (zlen (@nil Z)) with 0. rewrite Z.mul_0_r. cbn. lia. }
  cbn [pk]. rewrite zlen_cons.
  replace (k * (1 + zlen fs)) with (k + k * zlen fs) by lia. pose proof (zlen_nonneg fs).
  rewrite Z.pow_add_r by lia. pose proof (Z.pow_pos_nonneg 2 k ltac:(lia) ltac:(lia)). nia.
Qed.

(** One line of [hweight32]. *)
Lemma hweight_step k n fs :
  0 < k -> field_range k fs -> length fs = (2 * n)%nat -> k * Z.of_nat (2 * n) = 32 ->
  u32 (Z.land (pk k fs) (pk k (alternate k n))
       + Z.land (Z.shiftr (pk k fs) k) (pk k (alternate k n)))
  = pk (2 * k) (pair_sums fs).
Proof.
  intros Hk Hf Hl Hn. rewrite add_neighbours by done. apply wrap_pk; [lia|by apply pair_sums_range|].
  unfold zlen. rewrite (length_pair_sums n) by done. lia.
Qed.

(** The bit-twiddling count is the number of set bits of the 32-bit word. *)
Lemma hweight32_popcount w : 0 <= w < 2 ^ 32 -> hweight32 w = popcount 32 w.
Proof.
  intros Hw. set (f0 := bits_of 32 w). assert (length f0 = 32%nat) as L0 by apply length_bits_of.
  assert (field_range 1 f0) as R0 by apply bits_of_range.
  pose proof (length_pair_sums 16 f0 L0) as L1. pose proof (pair_sums_range 1 f0 ltac:(lia) R0) as R1.
  pose proof (length_pair_sums 8 _ L1) as L2. pose proof (pair_sums_range 2 _ ltac:(lia) R1) as R2.
  pose proof (length_pair_sums 4 _ L2) as L3. pose proof (pair_sums_range 4 _ ltac:(lia) R2) as R3.
  pose proof (length_pair_sums 2 _ L3) as L4. pose proof (pair_sums_range 8 _ ltac:(lia) R3) as R4.
  pose proof (length_pair_sums 1 _ L4) as L5.
  assert (w = pk 1 f0) as Ew by (symmetry; by apply pk_bits_of).
  unfold popcount. fold f0. clearbody f0. subst w. unfold hweight32. cbv zeta.
  change 0x55555555 with (pk 1 (alternate 1 16)). change 0x33333333 with (pk 2 (alternate 2 8)).
  change 0x0F0F0F0F with (pk 4 (alternate 4 4)). change 0x00FF00FF with (pk 8 (alternate 8 2)).
  change 0x0000FFFF with (pk 16 (alternate 16 1)).
  rewrite (hweight_step 1 16) by done. change (2 * 1) with 2. rewrite (hweight_step 2 8) by done.
  change (2 * 2) with 4. rewrite (hweight_step 4 4) by done. change (2 * 4) with 8.
  rewrite (hweight_step 8 2) by done. change (2 * 8) with 16. rewrite (hweight_step 16 1) by done.
  rewrite <- (total_pair_sums 16 f0 L0), <- (total_pair_sums 8 _ L1),
    <- (total_pair_sums 4 _ L2), <- (total_pair_sums 2 _ L3), <- (total_pair_sums 1 _ L4).
  destruct (pair_sums (pair_sums (pair_sums (pair_sums (pair_sums f0))))) as [|s [|]]; done.
Qed.

(** ** The code words *)

(** Only the 24 parity bits. *)
Definition masked (v : Z) : Prop := Z.land v 0x0FFF0FFF = v.

Lemma masked_testbit v i :
  masked v -> 0 <= i -> Z.testbit v i = Z.testbit v i && ((i <? 12) || (16 <=? i) && (i <? 28)).
Proof.
  intros Hm Hi. assert (Z.testbit v i && Z.testbit 0x0FFF0FFF i = Z.testbit v i) as <-
    by (rewrite <- Z.land_spec; by rewrite Hm).
  assert (Z.testbit 0x0FFF0FFF i = ((i <? 12) || (16 <=? i) && (i <? 28))) as ->;
    [|by destruct (Z.testbit v i), (_ || _)].
  destruct (Z_lt_le_dec i 32) as [H|H].
  - assert (forallb (fun i => Bool.eqb (Z.testbit 0x0FFF0FFF i) ((i <? 12) || (16 <=? i) && (i <? 28)))
      (zrange 32) = true) as Hall by done.
    by apply eqb_prop, (forallb_zrange 32 _ i Hall).
  - rewrite (testbit_high _ 32) by lia. lia.
Qed.

Lemma masked_range v : masked v -> 0 <= v < 2 ^ 32.
Proof.
  intros Hm. apply range_of_bits; [done|]. intros i Hi. rewrite masked_testbit by (done || lia).
  destruct (Z.ltb_spec i 12), (Z.ltb_spec i 28); lia.
Qed.

Lemma masked_lxor v w : masked v -> masked w -> masked (Z.lxor v w).
Proof. unfold masked. intros Hv Hw. by rewrite land_lxor_distr, Hv, Hw. Qed.

Lemma masked_of_bits v :
  (forall i, 0 <= i -> Z.testbit v i = true -> i < 12 \/ 16 <= i < 28) -> masked v.
Proof.
  intros H. apply Z.bits_inj'. intros i Hi. rewrite Z.land_spec.
  destruct (Z.testbit v i) eqn:E; [|done]. destruct (H i Hi E).
  - assert (forallb (Z.testbit 0x0FFF0FFF) (zrange 12) = true) as Hall by done.
    by apply (forallb_zrange 12 _ i Hall).
  - assert (forallb (fun i => Z.testbit 0x0FFF0FFF (16 + i)) (zrange 12) = true) as Hall by done.
    pose proof (forallb_zrange 12 _ (i - 16) Hall ltac:(lia)) as H1. cbv beta in H1.
    by replace (16 + (i - 16)) with i in H1 by lia.
Qed.

Lemma parity_word_testbit a i :
  0 <= a < 4096 -> 0 <= i ->
  Z.testbit (parity_word a) i
  = if i <? 16 then (i <? 12) && negb (Z.testbit a i) else Z.testbit a (i - 16).
Proof.
  intros Ha Hi. unfold parity_word. rewrite Z.lor_spec, lnotu_testbit by lia.
  destruct (Z.ltb_spec i 16).
  - by rewrite Z.shiftl_spec_low.
  - rewrite Z.shiftl_spec by lia. rewrite (proj2 (Z.ltb_ge i 12)) by lia. apply orb_false_r.
Qed.

Lemma masked_parity_word a : 0 <= a < 4096 -> masked (parity_word a).
Proof.
  intros Ha. apply masked_of_bits. intros i Hi. rewrite parity_word_testbit by done.
  destruct (Z.ltb_spec i 16), (Z.ltb_spec i 12); cbn [andb]; try (done || lia).
  intros E. right. destruct (Z_lt_le_dec (i - 16) 12); [lia|]. by rewrite (testbit_high a 12) in E by lia.
Qed.

Lemma masked_xor_sum f l : Forall (fun a => 0 <= a < 4096) l -> masked (xor_sum f parity_word l).
Proof.
  induction 1 as [|a l Ha H IH]; [done|]. cbn [xor_sum]. apply masked_lxor; [|done].
  destruct (f a); [by apply masked_parity_word|done].
Qed.

Lemma masked_block_ecc dat : masked (block_ecc dat).
Proof.
  apply masked_xor_sum, Forall_forall. intros a Ha. unfold zrange in Ha.
  apply list_elem_of_fmap in Ha as (n & -> & Hn). apply elem_of_seq in Hn. lia.
Qed.

(** ** Packing into three bytes and back *)
Lemma land_nibble n : 0 <= n < 2 ^ 4 -> Z.land n 15 = n.
Proof. intros Hn. change 15 with (2 ^ 4 - 1). rewrite land_ones_mod by done. by apply Z.mod_small. Qed.

Ltac nibbles :=
  done || (repeat (apply Forall_cons; split; [assumption || done|]); by apply Forall_nil).

Lemma masked_nibbles v :
  masked v ->
  exists n0 n1 n2 n4 n5 n6,
    v = pk 4 [n0; n1; n2; 0; n4; n5; n6] /\ field_range 4 [n0; n1; n2; n4; n5; n6].
Proof.
  intros Hm. pose proof (masked_range v Hm) as Hr.
  pose proof (fields_of_range 4 8 v ltac:(lia)) as Hf. pose proof (pk_fields_of 4 8 v ltac:(lia) Hr) as Ev.
  destruct (fields_of 4 8 v) as [|n0 [|n1 [|n2 [|n3 [|n4 [|n5 [|n6 [|n7 [|? ?]]]]]]]]] eqn:E; try done.
  repeat (apply Forall_cons in Hf as [? Hf]).
  unfold masked in Hm. rewrite <- Ev in Hm.
  change 0x0FFF0FFF with (pk 4 [15; 15; 15; 0; 15; 15; 15; 0]) in Hm.
  rewrite land_pk in Hm by nibbles.
  cbn [zip_land] in Hm. rewrite !land_nibble, !Z.land_0_r in Hm by done.
  exists n0, n1, n2, n4, n5, n6. split; [|repeat (apply Forall_cons; split; [eassumption|]); by apply Forall_nil].
  cbn [pk] in *. lia.
Qed.

Lemma gen_true_ecc_code v : masked v -> gen_true_ecc (ecc_code_of v) = v.
Proof.
  intros Hm. destruct (masked_nibbles v Hm) as (n0 & n1 & n2 & n4 & n5 & n6 & -> & Hf).
  repeat (apply Forall_cons in Hf as [? Hf]).
  unfold ecc_code_of. change 0xFF with (pk 4 [15; 15]). change 0x0F with (pk 4 [15]).
  change 0xF0 with (pk 4 [0; 15]).
  change 16 with (4 * Z.of_nat 4). change 8 with (4 * Z.of_nat 2). change 20 with (4 * Z.of_nat 5).
  rewrite !shiftr_pk_drop by nibbles. cbn [drop].
  rewrite !land_pk by nibbles. cbn [zip_land]. rewrite !land_nibble, !Z.land_0_r by done.
  rewrite !lor_pk by nibbles. cbn [zip_lor]. rewrite !Z.lor_0_r.
  unfold gen_true_ecc, ecc_byte. cbn [nth].
  change 0x0F with (pk 4 [15]). change 0xF0 with (pk 4 [0; 15]).
  change 16 with (4 * Z.of_nat 4). change 8 with (4 * Z.of_nat 2). change 20 with (4 * Z.of_nat 5).
  rewrite !land_pk by nibbles. cbn [zip_land]. rewrite !land_nibble, !Z.land_0_r by done.
  rewrite !shiftl_pk by done. cbn [replicate app].
  do 3 (rewrite lor_pk by nibbles; cbn [zip_lor]; rewrite ?Z.lor_0_r, ?Z.lor_0_l). reflexivity.
Qed.

(** ** The code is linear *)

(** The block with bit [a] inverted. *)
Definition flip (dat : list Z) (a : Z) : list Z := flip_bit dat (a / 8) (a mod 8).

Definition is_block (dat : list Z) : Prop := zlen dat = ECC_BLOCK /\ Forall is_byte dat.

Lemma length_flip dat a : length (flip dat a) = length dat.
Proof. apply length_alter. Qed.

Lemma flip_byte_testbit b k i :
  0 <= i < 8 -> 0 <= k -> Z.testbit (u8 (Z.lxor b (Z.shiftl 1 k))) i = xorb (Z.testbit b i) (i =? k).
Proof.
  intros Hi Hk. unfold u8, wrapu. rewrite Z.mod_pow2_bits_low, Z.lxor_spec by lia. f_equal.
  rewrite Z.shiftl_1_l, Z.pow2_bits_eqb by done. apply Z.eqb_sym.
Qed.

Lemma nth_alter_ne (f : Z -> Z) i j l d : i <> j -> nth j (alter f i l) d = nth j l d.
Proof.
  intros H. rewrite !nth_lookup. by rewrite list_lookup_alter_ne.
Qed.

Lemma nth_alter_eq (f : Z -> Z) i l d : (i < length l)%nat -> nth i (alter f i l) d = f (nth i l d).
Proof.
  intros H. rewrite !nth_lookup, list_lookup_alter_eq.
  destruct (lookup_lt_is_Some_2 l i H) as [x ->]. done.
Qed.

Lemma block_bit_flip dat a b :
  zlen dat = ECC_BLOCK -> 0 <= a < 4096 -> 0 <= b < 4096 ->
  block_bit (flip dat a) b = xorb (block_bit dat b) (b =? a).
Proof.
  unfold zlen, ECC_BLOCK, block_bit, flip, flip_bit. intros Hl Ha Hb.
  pose proof (Z.mod_pos_bound a 8 ltac:(lia)). pose proof (Z.mod_pos_bound b 8 ltac:(lia)).
  pose proof (Z.div_mod a 8 ltac:(lia)). pose proof (Z.div_mod b 8 ltac:(lia)).
  destruct (decide (a / 8 = b / 8)) as [E|E].
  - rewrite <- E, nth_alter_eq by lia. rewrite flip_byte_testbit by lia. f_equal.
    destruct (Z.eqb_spec (b mod 8) (a mod 8)), (Z.eqb_spec b a); lia.
  - rewrite nth_alter_ne by lia. destruct (Z.eqb_spec b a); [lia|]. by rewrite xorb_false_r.
Qed.

Lemma elem_of_zrange n i : i ∈ zrange n <-> 0 <= i < Z.of_nat n.
Proof.
  unfold zrange. rewrite list_elem_of_fmap. split.
  - intros (k & -> & Hk). apply elem_of_seq in Hk. lia.
  - intros Hi. exists (Z.to_nat i). rewrite elem_of_seq. lia.
Qed.

Lemma NoDup_zrange n : NoDup (zrange n).
Proof. apply NoDup_fmap; [|apply NoDup_seq]. intros x y. lia. Qed.

Lemma block_ecc_flip dat a :
  zlen dat = ECC_BLOCK -> 0 <= a < 4096 ->
  block_ecc (flip dat a) = Z.lxor (block_ecc dat) (parity_word a).
Proof.
  intros Hl Ha. unfold block_ecc.
  rewrite (xor_sum_ext _ (fun b => xorb (block_bit dat b) (b =? a))).
  - rewrite xor_sum_xorb, xor_sum_one; [done|apply NoDup_zrange|]. apply elem_of_zrange. lia.
  - intros b Hb. apply elem_of_zrange in Hb. apply block_bit_flip; (done || lia).
Qed.

Lemma flip_byte_twice b k : is_byte b -> 0 <= k < 8 ->
  u8 (Z.lxor (u8 (Z.lxor b (Z.shiftl 1 k))) (Z.shiftl 1 k)) = b.
Proof.
  unfold is_byte, u8, wrapu. intros Hb Hk. apply Z.bits_inj'. intros i Hi.
  destruct (Z_lt_le_dec i 8).
  - rewrite Z.mod_pow2_bits_low, Z.lxor_spec, Z.mod_pow2_bits_low, Z.lxor_spec by lia.
    by destruct (Z.testbit b i), (Z.testbit (Z.shiftl 1 k) i).
  - by rewrite Z.mod_pow2_bits_high, (testbit_high b 8) by lia.
Qed.

Lemma flip_flip dat a : Forall is_byte dat -> 0 <= a -> flip (flip dat a) a = dat.
Proof.
  intros Hb Ha. unfold flip, flip_bit. rewrite list_alter_alter_eq. apply list_eq. intros i.
  destruct (decide (Z.to_nat (a / 8) = i)) as [<-|Hi]; [|by rewrite list_lookup_alter_ne].
  rewrite list_lookup_alter_eq. destruct (dat !! _) as [b|] eqn:E; [|done]. cbn. f_equal.
  apply flip_byte_twice; [by apply (Forall_lookup_1 _ _ _ _ Hb E)|].
  apply Z.mod_pos_bound. lia.
Qed.

(** ** Decoding *)

(** The two halves of the difference of two codes. *)
Lemma popcount_small n m x : 0 <= x < 2 ^ Z.of_nat n -> popcount (n + m) x = popcount n x.
Proof.
  intros Hx. rewrite popcount_add, Z.shiftr_div_pow2, Z.div_small by lia.
  rewrite popcount_zero. lia.
Qed.

Lemma high_half h l : 0 <= l < 2 ^ 16 -> Z.shiftr (h * 2 ^ 16 + l) 16 = h.
Proof.
  intros Hl. rewrite Z.shiftr_div_pow2, Z.add_comm, Z.div_add, Z.div_small by lia. lia.
Qed.

Lemma popcount_halves h l :
  0 <= h < 4096 -> 0 <= l < 4096 ->
  popcount 32 (Z.lor (Z.shiftl h 16) l) = popcount 12 h + popcount 12 l.
Proof.
  intros Hh Hl. rewrite lor_shiftl_add by lia.
  change 32%nat with (16 + 16)%nat. rewrite popcount_add. change (Z.of_nat 16) with 16.
  rewrite high_half by lia.
  unfold popcount at 1. rewrite <- (bits_of_mod 16 16) by lia.
  assert ((h * 2 ^ 16 + l) mod 2 ^ 16 = l) as -> by (rewrite Z.add_comm, Z_mod_plus_full, Z.mod_small; lia).
  fold (popcount 16 l).
  change 16%nat with (12 + 4)%nat. rewrite !popcount_small by lia. lia.
Qed.

Definition stored_code (dat : list Z) : list Z := ecc_code_of (block_ecc dat).

(** The outcome in terms of the two code words. *)
Lemma correct_of_codes dat o n :
  masked o -> masked n ->
  omap_correct_data_hw_ecc dat (ecc_code_of o) (ecc_code_of n)
  = let res := Z.lxor o n in
    if truthy res then
      if popcount 32 res =? 12 then
        (0, flip_bit dat (Z.land (Z.shiftr (u16 (Z.shiftr res 16)) 3) 0x1FF) (Z.land (u16 (Z.shiftr res 16)) 0x7))
      else if popcount 32 res =? 1 then (2, dat)
      else if (o =? 0x0FFF0FFF) && (n =? 0) then (0, dat)
      else (-1, dat)
    else (0, dat).
Proof.
  intros Ho Hn. unfold omap_correct_data_hw_ecc. rewrite !gen_true_ecc_code by done. cbv zeta.
  rewrite hweight32_popcount; [done|]. by apply masked_range, masked_lxor.
Qed.

(** The address in the high half names the byte and the bit. *)
Lemma decode_address dat h l :
  0 <= h < 4096 -> 0 <= l < 4096 ->
  let p := u16 (Z.shiftr (Z.lor (Z.shiftl h 16) l) 16) in
  flip_bit dat (Z.land (Z.shiftr p 3) 0x1FF) (Z.land p 0x7) = flip dat h.
Proof.
  intros Hh Hl. cbv zeta. rewrite lor_shiftl_add by lia.
  rewrite high_half by lia.
  rewrite wrapu_small by lia. unfold flip. f_equal.
  - change 0x1FF with (2 ^ 9 - 1). rewrite land_ones_mod, Z.shiftr_div_pow2 by done.
    apply Z.mod_small. split; [apply Z.div_pos; lia|apply Z.div_lt_upper_bound; lia].
  - change 7 with (2 ^ 3 - 1). by rewrite land_ones_mod.
Qed.

Lemma lnotu_range w x : 0 <= w -> 0 <= lnotu w x < 2 ^ w.
Proof. intros Hw. apply Z.mod_pos_bound. lia. Qed.

Lemma weight_parity_word a : 0 <= a < 4096 -> popcount 32 (parity_word a) = 12.
Proof.
  intros Ha. unfold parity_word. rewrite popcount_halves by (done || apply (lnotu_range 12); lia).
  rewrite (popcount_lnot 12). lia.
Qed.

(** Two inverted bits differ in both halves by the difference of the addresses. *)
Lemma lxor_parity_word a b :
  0 <= a < 4096 -> 0 <= b < 4096 ->
  Z.lxor (parity_word a) (parity_word b) = Z.lor (Z.shiftl (Z.lxor a b) 16) (Z.lxor a b).
Proof.
  intros Ha Hb. apply Z.bits_inj'. intros i Hi.
  rewrite Z.lxor_spec, !parity_word_testbit, Z.lor_spec by done.
  destruct (Z.ltb_spec i 16).
  - rewrite Z.shiftl_spec_low, Z.lxor_spec by done. destruct (Z.ltb_spec i 12).
    + by destruct (Z.testbit a i), (Z.testbit b i).
    + by rewrite (testbit_high a 12), (testbit_high b 12) by lia.
  - rewrite Z.shiftl_spec, !Z.lxor_spec by done.
    rewrite (testbit_high a 12 i), (testbit_high b 12 i) by lia. by rewrite orb_false_r.
Qed.

Lemma truthy_weight n x : popcount n x <> 0 -> truthy x = true.
Proof.
  intros H. unfold truthy. destruct (Z.eqb_spec x 0) as [->|]; [|done]. by rewrite popcount_zero in H.
Qed.

(** One inverted bit of a block is put right. *)
Lemma hw_ecc_corrects_one_bit dat a :
  is_block dat -> 0 <= a < 4096 ->
  omap_correct_data_hw_ecc (flip dat a) (stored_code dat) (stored_code (flip dat a)) = (0, dat).
Proof.
  intros [Hl Hb] Ha. unfold stored_code.
  rewrite correct_of_codes by apply masked_block_ecc. cbv zeta. rewrite block_ecc_flip by done.
  rewrite <- Z.lxor_assoc, Z.lxor_nilpotent, Z.lxor_0_l, weight_parity_word by done.
  rewrite (truthy_weight 32) by (rewrite weight_parity_word; done).
  cbn [Z.eqb Pos.eqb]. unfold parity_word. rewrite decode_address by (done || apply (lnotu_range 12); lia).
  rewrite flip_flip by (done || lia). done.
Qed.

Lemma hw_ecc_clean dat : omap_correct_data_hw_ecc dat (stored_code dat) (stored_code dat) = (0, dat).
Proof.
  unfold stored_code. rewrite correct_of_codes by apply masked_block_ecc. cbv zeta.
  by rewrite Z.lxor_nilpotent.
Qed.

(** The difference of the codes after two inverted bits. *)
Lemma two_bit_difference dat a b :
  zlen dat = ECC_BLOCK -> 0 <= a < 4096 -> 0 <= b < 4096 ->
  Z.lxor (block_ecc dat) (block_ecc (flip (flip dat a) b))
  = Z.lor (Z.shiftl (Z.lxor a b) 16) (Z.lxor a b).
Proof.
  intros Hl Ha Hb. rewrite block_ecc_flip; [|by unfold zlen; rewrite length_flip|done].
  rewrite block_ecc_flip by done.
  rewrite Z.lxor_assoc, <- Z.lxor_assoc, Z.lxor_nilpotent, Z.lxor_0_l. by apply lxor_parity_word.
Qed.

Lemma weight_difference a b :
  0 <= a < 4096 -> 0 <= b < 4096 ->
  popcount 32 (Z.lor (Z.shiftl (Z.lxor a b) 16) (Z.lxor a b)) = 2 * popcount 12 (Z.lxor a b).
Proof.
  intros Ha Hb. pose proof (lxor_range 12 a b ltac:(lia) Ha Hb).
  rewrite popcount_halves by done. lia.
Qed.

Lemma popcount_pos n x : 0 < x < 2 ^ Z.of_nat n -> 0 < popcount n x.
Proof.
  intros Hx. pose proof (popcount_nonneg n x) as Hp. destruct (Z.eq_dec (popcount n x) 0) as [E|]; [|lia].
  exfalso. assert (forall fs, field_range 1 fs -> total fs = 0 -> pk 1 fs = 0) as H.
  { induction 1 as [|f fs Hf H IH]; [done|]. unfold total in *. cbn [foldr pk]. intros Ht.
    assert (0 <= foldr Z.add 0 fs) by (clear -H; induction H; cbn; lia).
    rewrite IH; lia. }
  pose proof (H _ (bits_of_range n x) E) as Hk. rewrite pk_bits_of in Hk; lia.
Qed.

(** What the code does about two inverted bits.  With [a] and [b] two
different bit addresses of a block, the outcome depends on the number of
positions in which the addresses differ: unless it is six, or the stored code
looks like an erased page, the damage is reported (-1) and the buffer left alone. *)
Lemma hw_ecc_detects_two_bits dat a b :
  is_block dat -> 0 <= a < 4096 -> 0 <= b < 4096 -> a <> b ->
  popcount 12 (Z.lxor a b) <> 6 -> block_ecc dat <> 0x0FFF0FFF ->
  omap_correct_data_hw_ecc (flip (flip dat a) b) (stored_code dat) (stored_code (flip (flip dat a) b))
  = (-1, flip (flip dat a) b).
Proof.
  intros [Hl Hb] Ha Hb' Hab Hne Her. unfold stored_code.
  rewrite correct_of_codes by apply masked_block_ecc. cbv zeta.
  rewrite two_bit_difference, weight_difference by done.
  assert (0 < popcount 12 (Z.lxor a b)) as Hp.
  { apply popcount_pos. pose proof (lxor_range 12 a b ltac:(lia) Ha Hb').
    pose proof (Z.lxor_eq a b). change (Z.of_nat 12) with 12. lia. }
  rewrite (truthy_weight 32) by (rewrite weight_difference by done; lia).
  rewrite (proj2 (Z.eqb_neq _ 12)), (proj2 (Z.eqb_neq _ 1)) by lia.
  by rewrite (proj2 (Z.eqb_neq (block_ecc dat) _)).
Qed.

(** Two inverted bits whose addresses differ in exactly six positions pass for
one.  The difference of the codes has the weight of a single error, so
[omap_correct_data_hw_ecc] reports success and inverts a third bit, the one
addressed by the difference of the two. *)
Lemma hw_ecc_miscorrects_two_bits dat a b :
  is_block dat -> 0 <= a < 4096 -> 0 <= b < 4096 -> popcount 12 (Z.lxor a b) = 6 ->
  omap_correct_data_hw_ecc (flip (flip dat a) b) (stored_code dat) (stored_code (flip (flip dat a) b))
  = (0, flip (flip (flip dat a) b) (Z.lxor a b)).
Proof.
  intros [Hl Hb] Ha Hb' Hp. unfold stored_code.
  rewrite correct_of_codes by apply masked_block_ecc. cbv zeta.
  rewrite two_bit_difference, weight_difference, Hp by done.
  rewrite (truthy_weight 32) by (rewrite weight_difference by done; lia).
  change (2 * 6 =? 12) with true. cbv match.
  pose proof (lxor_range 12 a b ltac:(lia) Ha Hb'). by rewrite decode_address.
Qed.

(** An inverted bit of the stored code leaves the data alone. *)
Lemma hw_ecc_code_bit dat o :
  masked o -> popcount 32 (Z.lxor o (block_ecc dat)) = 1 ->
  omap_correct_data_hw_ecc dat (ecc_code_of o) (stored_code dat) = (2, dat).
Proof.
  intros Ho Hp. unfold stored_code. rewrite correct_of_codes by (done || apply masked_block_ecc).
  cbv zeta. by rewrite (truthy_weight 32), Hp by (rewrite Hp; lia).
Qed.

(** ** Blocks that can be read

A block [b] that reads as [b'] with the code [c]: intact, with one inverted data
bit, or with one inverted bit of the code. *)
Inductive readable (b : list Z) : list Z -> list Z -> Prop :=
| readable_clean : readable b b (stored_code b)
| readable_data a : 0 <= a < 4096 -> readable b (flip b a) (stored_code b)
| readable_code o :
    masked o -> popcount 32 (Z.lxor o (block_ecc b)) = 1 -> readable b b (ecc_code_of o).

(** The decoder looks at the first three bytes of the codes only, and a
correction stays within the block. *)
Lemma correct_in_buffer b rest c c' n n' :
  zlen b = ECC_BLOCK -> length c = 3%nat -> length n = 3%nat ->
  omap_correct_data_hw_ecc (b ++ rest) (c ++ c') (n ++ n')
  = let '(r, b') := omap_correct_data_hw_ecc b c n in (r, b' ++ rest).
Proof.
  unfold zlen, ECC_BLOCK. intros Hl Hc Hn.
  destruct c as [|c0 [|c1 [|c2 [|]]]]; try discriminate.
  destruct n as [|n0 [|n1 [|n2 [|]]]]; try discriminate.
  unfold omap_correct_data_hw_ecc. cbv zeta.
  change (gen_true_ecc ([c0; c1; c2] ++ c')) with (gen_true_ecc [c0; c1; c2]).
  change (gen_true_ecc ([n0; n1; n2] ++ n')) with (gen_true_ecc [n0; n1; n2]).
  destruct (truthy _); [|done]. destruct (_ =? 12).
  - f_equal. unfold flip_bit. apply alter_app_l.
    pose proof (land_range 9 0x1FF (Z.shiftr (u16 (Z.shiftr (Z.lxor (gen_true_ecc [c0; c1; c2])
      (gen_true_ecc [n0; n1; n2])) 16)) 3) ltac:(lia) ltac:(lia)) as Hr.
    rewrite Z.land_comm in Hr. change (2 ^ 9) with 512 in Hr. lia.
  - destruct (_ =? 1); [done|]. by destruct (_ && _).
Qed.

Lemma correct_readable b b' c rest c' n' :
  is_block b -> readable b b' c ->
  exists r, omap_correct_data_hw_ecc (b' ++ rest) (c ++ c') (stored_code b' ++ n') = (r, b ++ rest) /\ r <> -1.
Proof.
  intros [Hl Hb] Hr. destruct Hr as [|a Ha|o Ho Hp].
  - exists 0. rewrite correct_in_buffer, hw_ecc_clean by done. done.
  - exists 0. rewrite correct_in_buffer, hw_ecc_corrects_one_bit; try done.
    unfold zlen in *. by rewrite length_flip.
  - exists 2. rewrite correct_in_buffer, hw_ecc_code_bit by done. done.
Qed.

Lemma length_readable b b' c : readable b b' c -> length b' = length b.
Proof. destruct 1; [done|apply length_flip|done]. Qed.
