(* ===== verification/NandEcc.v ===== *)
(** * The software error correcting code of the boot loader

[src/x-loader/lib/ecc.c]: the 22-bit Hamming code over 256-byte blocks, in the
two versions of [nand_calculate_ecc] (with and without [NAND_LEGACY]) and the
decoder [nand_correct_data]. *)
From stdpp Require Import base list sets.
From S2P Require Import Prelude Bits HwEcc.
From Stdlib Require Import ZArith Lia.

Definition nand_ecc_precalc_table : list Z :=
  [0x00; 0x55; 0x56; 0x03; 0x59; 0x0c; 0x0f; 0x5a; 0x5a; 0x0f; 0x0c; 0x59; 0x03; 0x56; 0x55; 0x00;
   0x65; 0x30; 0x33; 0x66; 0x3c; 0x69; 0x6a; 0x3f; 0x3f; 0x6a; 0x69; 0x3c; 0x66; 0x33; 0x30; 0x65;
   0x66; 0x33; 0x30; 0x65; 0x3f; 0x6a; 0x69; 0x3c; 0x3c; 0x69; 0x6a; 0x3f; 0x65; 0x30; 0x33; 0x66;
   0x03; 0x56; 0x55; 0x00; 0x5a; 0x0f; 0x0c; 0x59; 0x59; 0x0c; 0x0f; 0x5a; 0x00; 0x55; 0x56; 0x03;
   0x69; 0x3c; 0x3f; 0x6a; 0x30; 0x65; 0x66; 0x33; 0x33; 0x66; 0x65; 0x30; 0x6a; 0x3f; 0x3c; 0x69;
   0x0c; 0x59; 0x5a; 0x0f; 0x55; 0x00; 0x03; 0x56; 0x56; 0x03; 0x00; 0x55; 0x0f; 0x5a; 0x59; 0x0c;
   0x0f; 0x5a; 0x59; 0x0c; 0x56; 0x03; 0x00; 0x55; 0x55; 0x00; 0x03; 0x56; 0x0c; 0x59; 0x5a; 0x0f;
   0x6a; 0x3f; 0x3c; 0x69; 0x33; 0x66; 0x65; 0x30; 0x30; 0x65; 0x66; 0x33; 0x69; 0x3c; 0x3f; 0x6a;
   0x6a; 0x3f; 0x3c; 0x69; 0x33; 0x66; 0x65; 0x30; 0x30; 0x65; 0x66; 0x33; 0x69; 0x3c; 0x3f; 0x6a;
   0x0f; 0x5a; 0x59; 0x0c; 0x56; 0x03; 0x00; 0x55; 0x55; 0x00; 0x03; 0x56; 0x0c; 0x59; 0x5a; 0x0f;
   0x0c; 0x59; 0x5a; 0x0f; 0x55; 0x00; 0x03; 0x56; 0x56; 0x03; 0x00; 0x55; 0x0f; 0x5a; 0x59; 0x0c;
   0x69; 0x3c; 0x3f; 0x6a; 0x30; 0x65; 0x66; 0x33; 0x33; 0x66; 0x65; 0x30; 0x6a; 0x3f; 0x3c; 0x69;
   0x03; 0x56; 0x55; 0x00; 0x5a; 0x0f; 0x0c; 0x59; 0x59; 0x0c; 0x0f; 0x5a; 0x00; 0x55; 0x56; 0x03;
   0x66; 0x33; 0x30; 0x65; 0x3f; 0x6a; 0x69; 0x3c; 0x3c; 0x69; 0x6a; 0x3f; 0x65; 0x30; 0x33; 0x66;
   0x65; 0x30; 0x33; 0x66; 0x3c; 0x69; 0x6a; 0x3f; 0x3f; 0x6a; 0x69; 0x3c; 0x66; 0x33; 0x30; 0x65;
   0x00; 0x55; 0x56; 0x03; 0x59; 0x0c; 0x0f; 0x5a; 0x5a; 0x0f; 0x0c; 0x59; 0x03; 0x56; 0x55; 0x00].

Definition column_parity (b : Z) : Z := nth (Z.to_nat b) nand_ecc_precalc_table 0.

(** ** Encoding *)

(** Four rounds of one of the two loops: [a] walks down [reg2] and [reg3], [b] down
the result. *)
Fixpoint trans_loop (n : nat) (reg2 reg3 a b tmp : Z) : Z * Z :=
  match n with
  | O => (tmp, a)
  | S n =>
    let tmp := if truthy (Z.land reg3 a) then Z.lor tmp b else tmp in
    let b := Z.shiftr b 1 in
    let tmp := if truthy (Z.land reg2 a) then Z.lor tmp b else tmp in
    let b := Z.shiftr b 1 in
    trans_loop n reg2 reg3 (Z.shiftr a 1) b tmp
  end.

Definition nand_trans_result (reg2 reg3 : Z) : Z * Z :=
  let '(tmp1, a) := trans_loop 4 reg2 reg3 0x80 0x80 0 in
  let '(tmp2, a) := trans_loop 4 reg2 reg3 a 0x80 0 in
  (tmp1, tmp2).

(** The three bytes from the registers. *)
Definition final_code (reg1 reg2 reg3 : Z) : list Z :=
  let '(e0, e1) := nand_trans_result reg2 reg3 in
  [lnotu 8 e0; lnotu 8 e1; u8 (Z.lor (Z.shiftl (Z.lnot reg1) 2) 0x03)].

Fixpoint legacy_loop (n : nat) (dat : list Z) (j reg1 reg3 : Z) : Z * Z :=
  match n with
  | O => (reg1, reg3)
  | S n =>
    let idx := column_parity (nth (Z.to_nat j) dat 0) in
    let reg1 := Z.lxor reg1 idx in
    let reg3 := if truthy (Z.land idx 0x40) then Z.lxor reg3 (u8 j) else reg3 in
    legacy_loop n dat (j + 1) reg1 reg3
  end.

Definition nand_calculate_ecc_legacy (dat : list Z) : list Z :=
  let '(reg1, reg3) := legacy_loop 256 dat 0 0 0 in
  final_code reg1 (if truthy (Z.land reg1 0x40) then lnotu 8 reg3 else reg3) reg3.

Fixpoint column_loop (n : nat) (dat : list Z) (j reg1 reg2 reg3 : Z) : Z * Z * Z :=
  match n with
  | O => (reg1, reg2, reg3)
  | S n =>
    let idx := column_parity (nth (Z.to_nat j) dat 0) in
    let reg1 := Z.lxor reg1 (Z.land idx 0x3f) in
    if truthy (Z.land idx 0x40) then
      column_loop n dat (j + 1) reg1 (u8 (Z.lxor reg2 (Z.lnot (u8 j)))) (Z.lxor reg3 (u8 j))
    else column_loop n dat (j + 1) reg1 reg2 reg3
  end.

Definition nand_calculate_ecc (dat : list Z) : list Z :=
  let '(reg1, reg2, reg3) := column_loop 256 dat 0 0 0 0 in
  final_code reg1 reg2 reg3.

(** ** Decoding *)

(** Every second bit of [d] from bit 7 down, collected from [a] down. *)
Fixpoint gather_loop (n : nat) (d c a add : Z) : Z * Z :=
  match n with
  | O => (add, a)
  | S n =>
    let add := if truthy (Z.land d c) then Z.lor add a else add in
    gather_loop n d (Z.shiftr c 2) (Z.shiftr a 1) add
  end.

(** [while (d) ...]; a byte is used up after eight rounds. *)
Fixpoint count_loop (fuel : nat) (d i : Z) : res Z :=
  match fuel with
  | O => if truthy d then Fault OutOfFuel else Ok i
  | S fuel => if truthy d then count_loop fuel (Z.shiftr d 1) (if truthy (Z.land d 0x01) then u8 (i + 1) else i)
              else Ok i
  end.

Definition count3 (d1 d2 d3 : Z) : res Z :=
  match count_loop 8 d1 0 with
  | Ok i => match count_loop 8 d2 i with
            | Ok i => count_loop 8 d3 i
            | Fault f => Fault f
            end
  | Fault f => Fault f
  end.

(** The result, the data and the stored code. *)
Definition nand_correct_data (dat read_ecc calc_ecc : list Z) : res (Z * list Z * list Z) :=
  let d1 := Z.lxor (nth 0 calc_ecc 0) (nth 0 read_ecc 0) in
  let d2 := Z.lxor (nth 1 calc_ecc 0) (nth 1 read_ecc 0) in
  let d3 := Z.lxor (nth 2 calc_ecc 0) (nth 2 read_ecc 0) in
  if Z.lor (Z.lor d1 d2) d3 =? 0 then Ok (0, dat, read_ecc)
  else
    let a := Z.land (Z.lxor d1 (Z.shiftr d1 1)) 0x55 in
    let b := Z.land (Z.lxor d2 (Z.shiftr d2 1)) 0x55 in
    let c := Z.land (Z.lxor d3 (Z.shiftr d3 1)) 0x54 in
    if (a =? 0x55) && (b =? 0x55) && (c =? 0x54) then
      let '(add, a) := gather_loop 4 d1 0x80 0x80 0 in
      let '(add, a) := gather_loop 4 d2 0x80 a add in
      let '(bit, _) := gather_loop 3 d3 0x80 0x04 0 in
      Ok (1, alter (fun a => u8 (Z.lxor a (Z.shiftl 1 bit))) (Z.to_nat add) dat, read_ecc)
    else
      match count3 d1 d2 d3 with
      | Ok i =>
        if i =? 1 then Ok (2, dat, [nth 0 calc_ecc 0; nth 1 calc_ecc 0; nth 2 calc_ecc 0] ++ drop 3 read_ecc)
        else Ok (-1, dat, read_ecc)
      | Fault f => Fault f
      end.

(** * Properties *)

(** ** The registers as exclusive-or sums *)
Fixpoint xfold (f : Z -> Z) (l : list Z) : Z :=
  match l with
  | [] => 0
  | i :: l => Z.lxor (f i) (xfold f l)
  end.

Lemma xfold_ext f g l : (forall i, i ∈ l -> f i = g i) -> xfold f l = xfold g l.
Proof.
  induction l as [|i l IH]; intros H; cbn [xfold]; [done|]. rewrite (H i), IH by set_solver. done.
Qed.

(** Changing one summand by [d] changes the sum by [d]. *)
Lemma xfold_change f g l a d :
  NoDup l -> a ∈ l -> (forall i, i ∈ l -> i <> a -> g i = f i) -> g a = Z.lxor (f a) d ->
  xfold g l = Z.lxor (xfold f l) d.
Proof.
  induction 1 as [|i l Hi Hn IH]; intros Ha Hg Hd; [set_solver|]. cbn [xfold].
  destruct (decide (i = a)) as [->|Hne].
  - rewrite Hd, (xfold_ext g f); [|intros k Hk; apply Hg; set_solver].
    rewrite !Z.lxor_assoc. f_equal. apply Z.lxor_comm.
  - rewrite (Hg i), IH by set_solver. by rewrite Z.lxor_assoc.
Qed.

Lemma xfold_byte f l : (forall i, i ∈ l -> 0 <= f i < 2 ^ 8) -> 0 <= xfold f l < 2 ^ 8.
Proof.
  induction l as [|i l IH]; intros H; cbn [xfold]; [lia|].
  apply lxor_range; [lia|apply H; set_solver|apply IH; set_solver].
Qed.

Section sums.
Context (dat : list Z).

Definition parity_at (j : Z) : Z := column_parity (nth (Z.to_nat j) dat 0).
Definition sum1 (j : Z) : Z := Z.land (parity_at j) 0x3f.
Definition sum2 (j : Z) : Z := if truthy (Z.land (parity_at j) 0x40) then lnotu 8 j else 0.
Definition sum3 (j : Z) : Z := if truthy (Z.land (parity_at j) 0x40) then j else 0.

Lemma u8_lxor_lnot x j : 0 <= x < 2 ^ 8 -> u8 (Z.lxor x (Z.lnot j)) = Z.lxor x (lnotu 8 j).
Proof.
  intros Hx. apply Z.bits_inj'. intros i Hi. unfold wrapu. destruct (Z_lt_le_dec i 8).
  - rewrite Z.mod_pow2_bits_low, !Z.lxor_spec, lnotu_testbit, Z.lnot_spec by lia.
    by rewrite (proj2 (Z.ltb_lt i 8)).
  - rewrite Z.mod_pow2_bits_high, Z.lxor_spec, lnotu_testbit, (testbit_high x 8) by lia.
    by rewrite (proj2 (Z.ltb_ge i 8)).
Qed.

Lemma column_loop_sums n j r1 r2 r3 :
  0 <= j -> j + Z.of_nat n <= 256 -> 0 <= r2 < 2 ^ 8 ->
  column_loop n dat j r1 r2 r3
  = (Z.lxor r1 (xfold sum1 (zseq j n)), Z.lxor r2 (xfold sum2 (zseq j n)), Z.lxor r3 (xfold sum3 (zseq j n))).
Proof.
  revert j r1 r2 r3. induction n as [|n IH]; intros j r1 r2 r3 Hj Hn Hr; cbn [column_loop zseq xfold].
  { by rewrite !Z.lxor_0_r. }
  cbv zeta. fold (parity_at j). fold (sum1 j). unfold sum2 at 1, sum3 at 1.
  rewrite (wrapu_small 8 j) by lia. destruct (truthy (Z.land (parity_at j) 0x40)).
  - rewrite u8_lxor_lnot by done. rewrite IH by (try apply lxor_range; try done; try lia; apply wrapu_range; lia).
    by rewrite <- !Z.lxor_assoc.
  - rewrite IH by (done || lia). rewrite !Z.lxor_0_l. by rewrite <- !Z.lxor_assoc.
Qed.
End sums.

(** ** The table is linear *)
Definition bit_flip (b k : Z) : Z := u8 (Z.lxor b (Z.shiftl 1 k)).

Lemma column_parity_flip b k :
  is_byte b -> 0 <= k < 8 -> column_parity (bit_flip b k) = Z.lxor (column_parity b) (column_parity (2 ^ k)).
Proof.
  intros Hb Hk. assert (forallb (fun b => forallb (fun k =>
    column_parity (bit_flip b k) =? Z.lxor (column_parity b) (column_parity (2 ^ k))) (zrange 8)) (zrange 256) = true)
    as Hall by (vm_compute; reflexivity).
  apply Z.eqb_eq. apply (forallb_zrange 8 _ k (forallb_zrange 256 _ b Hall Hb) Hk).
Qed.

(** ** Interleaving is linear *)
Definition pick_bit (r2 r3 off p : Z) : bool :=
  if Z.odd p then Z.testbit r3 (off + p / 2) else Z.testbit r2 (off + p / 2).

Lemma lor_if (c : bool) tmp b : (if c then Z.lor tmp b else tmp) = Z.lor tmp (if c then b else 0).
Proof. destruct c; [done|]. by rewrite Z.lor_0_r. Qed.

Lemma nand_trans_result_sum r2 r3 :
  nand_trans_result r2 r3
  = (xor_sum (pick_bit r2 r3 4) (Z.pow 2) (zrange 8), xor_sum (pick_bit r2 r3 0) (Z.pow 2) (zrange 8)).
Proof.
  unfold nand_trans_result. cbn [trans_loop]. rewrite !lor_if.
  change (Z.shiftr 128 1) with (2 ^ 6). change (Z.shiftr (2 ^ 6) 1) with (2 ^ 5).
  change (Z.shiftr (2 ^ 5) 1) with (2 ^ 4). change (Z.shiftr (2 ^ 4) 1) with (2 ^ 3).
  change (Z.shiftr (2 ^ 3) 1) with (2 ^ 2). change (Z.shiftr (2 ^ 2) 1) with (2 ^ 1).
  change (Z.shiftr (2 ^ 1) 1) with (2 ^ 0). change 128 with (2 ^ 7).
  rewrite !truthy_land_pow2 by done.
  unfold pick_bit. generalize (Z.testbit r2) (Z.testbit r3). intros f g.
  change (zrange 8) with [0; 1; 2; 3; 4; 5; 6; 7]. cbn [xor_sum Z.odd].
  repeat match goal with |- context [?h (?x + ?y / 2)] =>
    let z := eval vm_compute in (x + y / 2) in change (h (x + y / 2)) with (h z) end.
  f_equal.
  - by destruct (f 4), (f 5), (f 6), (f 7), (g 4), (g 5), (g 6), (g 7).
  - by destruct (f 0), (f 1), (f 2), (f 3), (g 0), (g 1), (g 2), (g 3).
Qed.

Lemma xor_sum_pick_lxor r2 r3 x2 x3 off :
  xor_sum (pick_bit (Z.lxor r2 x2) (Z.lxor r3 x3) off) (Z.pow 2) (zrange 8)
  = Z.lxor (xor_sum (pick_bit r2 r3 off) (Z.pow 2) (zrange 8)) (xor_sum (pick_bit x2 x3 off) (Z.pow 2) (zrange 8)).
Proof.
  rewrite <- xor_sum_xorb. apply xor_sum_ext. intros p _. unfold pick_bit. destruct (Z.odd p); apply Z.lxor_spec.
Qed.

Lemma xor_sum_byte f : 0 <= xor_sum f (Z.pow 2) (zrange 8) < 2 ^ 8.
Proof.
  assert (forall l, (forall p, p ∈ l -> 0 <= p < 8) -> 0 <= xor_sum f (Z.pow 2) l < 2 ^ 8) as H.
  - induction l as [|p l IH]; intros Hl; cbn [xor_sum]; [lia|].
    apply lxor_range; [lia| |apply IH; set_solver]. specialize (Hl p). destruct (f p); [|lia].
    assert (0 <= p < 8) by (apply Hl; set_solver). split; [lia|]. apply Z.pow_lt_mono_r; lia.
  - apply H. intros p Hp. apply elem_of_zrange in Hp. lia.
Qed.

(** ** The code of a changed block *)

(** What inverting bit [k] of byte [j] does to the three bytes. *)
Definition delta (a : Z) : Z * Z * Z :=
  let '(t1, t2) := nand_trans_result (lnotu 8 (a / 8)) (a / 8) in
  (t1, t2, u8 (Z.shiftl (Z.land (column_parity (2 ^ (a mod 8))) 0x3f) 2)).

Definition xor3 (code : list Z) (d : Z * Z * Z) : list Z :=
  let '(t1, t2, t3) := d in
  [Z.lxor (nth 0 code 0) t1; Z.lxor (nth 1 code 0) t2; Z.lxor (nth 2 code 0) t3].

Lemma lnotu_lxor_r x y : 0 <= y < 2 ^ 8 -> lnotu 8 (Z.lxor x y) = Z.lxor (lnotu 8 x) y.
Proof.
  intros Hy. apply Z.bits_inj'. intros i Hi. rewrite Z.lxor_spec, !lnotu_testbit, Z.lxor_spec by done.
  destruct (Z.ltb_spec i 8); [by destruct (Z.testbit x i), (Z.testbit y i)|].
  by rewrite (testbit_high y 8) by lia.
Qed.

Lemma third_byte_lxor r x :
  u8 (Z.lor (Z.shiftl (Z.lnot (Z.lxor r x)) 2) 3) = Z.lxor (u8 (Z.lor (Z.shiftl (Z.lnot r) 2) 3)) (u8 (Z.shiftl x 2)).
Proof.
  apply Z.bits_inj'. intros i Hi. unfold wrapu. destruct (Z_lt_le_dec i 8).
  - rewrite Z.lxor_spec, !Z.mod_pow2_bits_low, !Z.lor_spec by lia. destruct (Z_lt_le_dec i 2).
    + rewrite !Z.shiftl_spec_low by done. by destruct (Z.testbit 3 i).
    + rewrite !Z.shiftl_spec, !Z.lnot_spec, Z.lxor_spec, (testbit_high 3 2) by lia.
      by destruct (Z.testbit r (i - 2)), (Z.testbit x (i - 2)).
  - by rewrite Z.lxor_spec, !Z.mod_pow2_bits_high by lia.
Qed.

Lemma final_code_lxor r1 r2 r3 x1 x2 x3 :
  final_code (Z.lxor r1 x1) (Z.lxor r2 x2) (Z.lxor r3 x3)
  = xor3 (final_code r1 r2 r3) (nand_trans_result x2 x3, u8 (Z.shiftl x1 2)).
Proof.
  unfold final_code. rewrite !nand_trans_result_sum, !xor_sum_pick_lxor.
  rewrite !lnotu_lxor_r by apply xor_sum_byte. by rewrite third_byte_lxor.
Qed.

Lemma nand_calculate_ecc_sums dat :
  nand_calculate_ecc dat
  = final_code (xfold (sum1 dat) (zseq 0 256)) (xfold (sum2 dat) (zseq 0 256)) (xfold (sum3 dat) (zseq 0 256)).
Proof.
  unfold nand_calculate_ecc. rewrite column_loop_sums by lia. by rewrite !Z.lxor_0_l.
Qed.

Definition is_ecc_block (dat : list Z) : Prop := zlen dat = 256 /\ Forall is_byte dat.

Lemma parity_at_flip dat a j :
  is_ecc_block dat -> 0 <= a < 2048 -> 0 <= j ->
  parity_at (flip dat a) j
  = if j =? a / 8 then Z.lxor (parity_at dat j) (column_parity (2 ^ (a mod 8))) else parity_at dat j.
Proof.
  intros [Hl Hb] Ha Hj. unfold parity_at, flip, flip_bit. unfold zlen in Hl.
  pose proof (Z.div_lt_upper_bound a 8 256 ltac:(lia) ltac:(lia)). pose proof (Z.div_pos a 8 ltac:(lia) ltac:(lia)).
  pose proof (Z.mod_pos_bound a 8 ltac:(lia)).
  destruct (Z.eqb_spec j (a / 8)) as [->|Hne].
  - rewrite nth_alter_eq by lia. apply column_parity_flip; [|done].
    apply (Forall_nth is_byte 0 dat); [done|lia].
  - by rewrite nth_alter_ne by lia.
Qed.

(** One set bit has odd parity. *)
Lemma single_bit_parity k : 0 <= k < 8 -> Z.testbit (column_parity (2 ^ k)) 6 = true.
Proof. intros Hk. by apply (forallb_zrange 8 (fun k => Z.testbit (column_parity (2 ^ k)) 6) k). Qed.

Lemma toggle (b : bool) x : (if xorb b true then x else 0) = Z.lxor (if b then x else 0) x.
Proof. destruct b; [symmetry; apply Z.lxor_nilpotent|symmetry; apply Z.lxor_0_l]. Qed.

Lemma nand_calculate_ecc_flip dat a :
  is_ecc_block dat -> 0 <= a < 2048 ->
  nand_calculate_ecc (flip dat a) = xor3 (nand_calculate_ecc dat) (delta a).
Proof.
  intros Hd Ha. rewrite !nand_calculate_ecc_sums. unfold delta.
  pose proof (Z.div_lt_upper_bound a 8 256 ltac:(lia) ltac:(lia)). pose proof (Z.div_pos a 8 ltac:(lia) ltac:(lia)).
  pose proof (single_bit_parity (a mod 8) (Z.mod_pos_bound a 8 ltac:(lia))) as Hs.
  assert (a / 8 ∈ zseq 0 256) as Hin by (apply elem_of_zseq; lia).
  assert (forall j, j ∈ zseq 0 256 -> j <> a / 8 -> parity_at (flip dat a) j = parity_at dat j) as Hne.
  { intros j Hj Hja. apply elem_of_zseq in Hj. rewrite parity_at_flip by (done || lia).
    by rewrite (proj2 (Z.eqb_neq _ _)). }
  assert (parity_at (flip dat a) (a / 8) = Z.lxor (parity_at dat (a / 8)) (column_parity (2 ^ (a mod 8)))) as He
    by (by rewrite parity_at_flip, Z.eqb_refl by done).
  rewrite (xfold_change (sum1 dat) (sum1 (flip dat a)) _ (a / 8) (Z.land (column_parity (2 ^ (a mod 8))) 0x3f)).
  - rewrite (xfold_change (sum2 dat) (sum2 (flip dat a)) _ (a / 8) (lnotu 8 (a / 8))).
    + rewrite (xfold_change (sum3 dat) (sum3 (flip dat a)) _ (a / 8) (a / 8)).
      * rewrite final_code_lxor. by destruct (nand_trans_result _ _).
      * apply NoDup_zseq.
      * done.
      * intros j Hj Hja. unfold sum3. by rewrite Hne.
      * unfold sum3. rewrite He. change 0x40 with (2 ^ 6). rewrite !truthy_land_pow2, Z.lxor_spec, Hs by done.
        apply toggle.
    + apply NoDup_zseq.
    + done.
    + intros j Hj Hja. unfold sum2. by rewrite Hne.
    + unfold sum2. rewrite He. change 0x40 with (2 ^ 6). rewrite !truthy_land_pow2, Z.lxor_spec, Hs by done.
      apply toggle.
  - apply NoDup_zseq.
  - done.
  - intros j Hj Hja. unfold sum1. by rewrite Hne.
  - unfold sum1. by rewrite He, land_lxor_distr.
Qed.

(** ** Decoding *)
Lemma count_loop_popcount n d i :
  0 <= d < 2 ^ Z.of_nat n -> 0 <= i -> i + Z.of_nat n < 256 -> count_loop n d i = Ok (i + popcount n d).
Proof.
  revert d i. induction n as [|n IH]; intros d i Hd Hi Hn; cbn [count_loop].
  { replace d with 0 by (cbn in Hd; lia). unfold popcount, total. cbn. by rewrite Z.add_0_r. }
  unfold truthy at 1. destruct (Z.eqb_spec d 0) as [->|Hne]; cbn [negb].
  { rewrite popcount_zero. by rewrite Z.add_0_r. }
  rewrite Nat2Z.inj_succ, Z.pow_succ_r in Hd by lia. change 1 with (2 ^ 0) at 2. rewrite truthy_land_pow2, Z.bit0_odd by done.
  rewrite <- Z.div2_spec. unfold popcount, total in *. cbn [bits_of foldr].
  rewrite IH; [|rewrite Z.div2_div; split; [apply Z.div_pos; lia|apply Z.div_lt_upper_bound; lia]|destruct (Z.odd d)..].
  - f_equal. destruct (Z.odd d); cbn [Z.b2z]; rewrite ?wrapu_small by lia; lia.
  - rewrite wrapu_small by lia. lia.
  - done.
  - rewrite wrapu_small by lia. lia.
  - lia.
Qed.

Definition weight3 (d : Z * Z * Z) : Z :=
  let '(d1, d2, d3) := d in popcount 8 d1 + popcount 8 d2 + popcount 8 d3.

Definition bytes3 (d : Z * Z * Z) : Prop := let '(d1, d2, d3) := d in is_byte d1 /\ is_byte d2 /\ is_byte d3.

Lemma count3_weight d1 d2 d3 : bytes3 (d1, d2, d3) -> count3 d1 d2 d3 = Ok (weight3 (d1, d2, d3)).
Proof.
  unfold bytes3, is_byte, count3, weight3. intros (H1 & H2 & H3).
  pose proof (popcount_nonneg 8 d1). pose proof (popcount_nonneg 8 d2).
  change 256 with (2 ^ Z.of_nat 8) in H1, H2, H3. change (Z.of_nat 8) with 8 in *.
  do 3 (rewrite count_loop_popcount by (done || lia); cbv match). by rewrite Z.add_0_l.
Qed.

(** The pairs of bits of the difference that differ. *)
Definition pairs (d : Z * Z * Z) : Z * Z * Z :=
  let '(d1, d2, d3) := d in
  (Z.land (Z.lxor d1 (Z.shiftr d1 1)) 0x55, Z.land (Z.lxor d2 (Z.shiftr d2 1)) 0x55,
   Z.land (Z.lxor d3 (Z.shiftr d3 1)) 0x54).

(** The byte and the bit a difference points at. *)
Definition address (d : Z * Z * Z) : Z * Z :=
  let '(d1, d2, d3) := d in
  let '(add, a) := gather_loop 4 d1 0x80 0x80 0 in
  (fst (gather_loop 4 d2 0x80 a add), fst (gather_loop 3 d3 0x80 0x04 0)).

Definition lxor3 (d e : Z * Z * Z) : Z * Z * Z :=
  let '(d1, d2, d3) := d in let '(e1, e2, e3) := e in (Z.lxor d1 e1, Z.lxor d2 e2, Z.lxor d3 e3).

(** The outcome in terms of the difference of the codes. *)
Lemma correct_of_difference dat read d :
  bytes3 d ->
  nand_correct_data dat read (xor3 read d)
  = if decide (d = (0, 0, 0)) then Ok (0, dat, read)
    else if decide (pairs d = (0x55, 0x55, 0x54)) then
      Ok (1, flip_bit dat (fst (address d)) (snd (address d)), read)
    else if weight3 d =? 1 then Ok (2, dat, xor3 read d ++ drop 3 read)
    else Ok (-1, dat, read).
Proof.
  destruct d as [[d1 d2] d3]. intros Hb. unfold nand_correct_data, xor3. cbn [nth].
  assert (forall r t, Z.lxor (Z.lxor r t) r = t) as E.
  { intros r t. by rewrite Z.lxor_comm, <- Z.lxor_assoc, Z.lxor_nilpotent, Z.lxor_0_l. }
  rewrite !E, count3_weight by done. destruct (decide _) as [Hd|Hd].
  { injection Hd as -> -> ->. done. }
  destruct (Z.eqb_spec (Z.lor (Z.lor d1 d2) d3) 0) as [Hz|_].
  { exfalso. apply Hd. apply Z.lor_eq_0_iff in Hz as [Hz ->]. by apply Z.lor_eq_0_iff in Hz as [-> ->]. }
  unfold pairs, address. destruct (decide _) as [Hp|Hp].
  - injection Hp as Ha Hb' Hc. rewrite Ha, Hb', Hc. cbn [Z.eqb Pos.eqb andb].
    destruct (gather_loop 4 d1 _ _ _) as [add a]. destruct (gather_loop 4 d2 _ _ _), (gather_loop 3 d3 _ _ _). done.
  - destruct (Z.eqb_spec (Z.land (Z.lxor d1 (Z.shiftr d1 1)) 0x55) 0x55) as [Ha|]; [|done].
    destruct (Z.eqb_spec (Z.land (Z.lxor d2 (Z.shiftr d2 1)) 0x55) 0x55) as [Hb'|]; [|done].
    destruct (Z.eqb_spec (Z.land (Z.lxor d3 (Z.shiftr d3 1)) 0x54) 0x54) as [Hc|]; [|done].
    exfalso. apply Hp. by rewrite Ha, Hb', Hc.
Qed.

(** Every single inverted bit leaves a difference that names it. *)
Definition names (a : Z) : bool :=
  let '(d1, d2, d3) := delta a in
  bool_decide (bytes3 (d1, d2, d3)) && bool_decide (pairs (d1, d2, d3) = (0x55, 0x55, 0x54))
  && bool_decide (address (d1, d2, d3) = (a / 8, a mod 8)) && Z.odd (weight3 (d1, d2, d3)).

Lemma names_all a : 0 <= a < 2048 -> names a = true.
Proof.
  intros Ha. assert (forallb names (zrange 2048) = true) as Hall by (vm_compute; reflexivity).
  exact (forallb_zrange 2048 _ a Hall Ha).
Qed.

Lemma delta_spec a :
  0 <= a < 2048 ->
  bytes3 (delta a) /\ pairs (delta a) = (0x55, 0x55, 0x54) /\ address (delta a) = (a / 8, a mod 8)
  /\ Z.odd (weight3 (delta a)) = true.
Proof.
  intros Ha. pose proof (names_all a Ha) as Hn. unfold names in Hn. destruct (delta a) as [[d1 d2] d3].
  apply andb_prop in Hn as [Hn Ho]. apply andb_prop in Hn as [Hn Hd]. apply andb_prop in Hn as [Hb Hp].
  split_and!; [by apply bool_decide_eq_true in Hb|by apply bool_decide_eq_true in Hp
    |by apply bool_decide_eq_true in Hd|done].
Qed.

Lemma pairs_lxor3 d e : pairs (lxor3 d e) = lxor3 (pairs d) (pairs e).
Proof.
  destruct d as [[d1 d2] d3], e as [[e1 e2] e3]. unfold pairs, lxor3.
  assert (forall x y m, Z.land (Z.lxor (Z.lxor x y) (Z.shiftr (Z.lxor x y) 1)) m
    = Z.lxor (Z.land (Z.lxor x (Z.shiftr x 1)) m) (Z.land (Z.lxor y (Z.shiftr y 1)) m)) as E.
  { intros x y m. rewrite <- land_lxor_distr, Z.shiftr_lxor. f_equal. apply Z.bits_inj'. intros i _.
    rewrite !Z.lxor_spec. by destruct (Z.testbit x i), (Z.testbit y i), (Z.testbit (Z.shiftr x 1) i), (Z.testbit (Z.shiftr y 1) i). }
  by rewrite !E.
Qed.

Lemma odd_weight_lxor3 d e : Z.odd (weight3 (lxor3 d e)) = xorb (Z.odd (weight3 d)) (Z.odd (weight3 e)).
Proof.
  destruct d as [[d1 d2] d3], e as [[e1 e2] e3]. unfold weight3, lxor3. rewrite !Z.odd_add, !popcount_odd_lxor.
  by destruct (Z.odd (popcount 8 d1)), (Z.odd (popcount 8 d2)), (Z.odd (popcount 8 d3)),
    (Z.odd (popcount 8 e1)), (Z.odd (popcount 8 e2)), (Z.odd (popcount 8 e3)).
Qed.

Lemma bytes3_lxor3 d e : bytes3 d -> bytes3 e -> bytes3 (lxor3 d e).
Proof.
  destruct d as [[d1 d2] d3], e as [[e1 e2] e3]. unfold bytes3, lxor3, is_byte. change 256 with (2 ^ 8).
  intros (? & ? & ?) (? & ? & ?). split; [|split]; by apply lxor_range.
Qed.

Lemma xor3_xor3 code d e : xor3 (xor3 code d) e = xor3 code (lxor3 d e).
Proof.
  destruct d as [[d1 d2] d3], e as [[e1 e2] e3]. unfold xor3, lxor3. cbn [nth]. by rewrite !Z.lxor_assoc.
Qed.

Lemma lxor3_zero d e : lxor3 d e = (0, 0, 0) -> d = e.
Proof.
  destruct d as [[d1 d2] d3], e as [[e1 e2] e3]. unfold lxor3. intros [= H1 H2 H3].
  apply Z.lxor_eq in H1, H2, H3. congruence.
Qed.

Lemma is_ecc_block_flip dat a : is_ecc_block dat -> is_ecc_block (flip dat a).
Proof.
  intros [Hl Hb]. split; [unfold zlen in *; by rewrite length_flip|].
  apply Forall_alter; [done|]. intros x _ _. apply (wrapu_range 8). lia.
Qed.

(** C33. The software code corrects one bit and detects two.  For a 256-byte block
and its stored code: when one bit of the block has been inverted,
[nand_correct_data] returns 1 and the buffer holds the original block again; when
two different bits have been inverted it returns -1 and changes nothing. *)
Theorem nand_ecc_one_and_two_bits dat a b :
  is_ecc_block dat -> 0 <= a < 2048 -> 0 <= b < 2048 -> a <> b ->
  let code := nand_calculate_ecc dat in
  nand_correct_data (flip dat a) code (nand_calculate_ecc (flip dat a)) = Ok (1, dat, code) /\
  nand_correct_data (flip (flip dat a) b) code (nand_calculate_ecc (flip (flip dat a) b))
  = Ok (-1, flip (flip dat a) b, code).
Proof.
  intros Hd Ha Hb Hab code. unfold code.
  destruct (delta_spec a Ha) as (Ba & Pa & Aa & Oa). destruct (delta_spec b Hb) as (Bb & Pb & Ab & Ob). split.
  - rewrite nand_calculate_ecc_flip, correct_of_difference by assumption.
    destruct (decide (delta a = (0, 0, 0))) as [E|_]; [by rewrite E in Pa|].
    rewrite decide_True by done. rewrite Aa. cbn [fst snd]. do 3 f_equal.
    apply (flip_flip dat a); [apply Hd|lia].
  - rewrite !nand_calculate_ecc_flip by (assumption || by apply is_ecc_block_flip).
    rewrite xor3_xor3, correct_of_difference by by apply bytes3_lxor3.
    rewrite decide_False by (intros E%lxor3_zero; rewrite E, Ab in Aa; injection Aa as E1 E2; 
      pose proof (Z.div_mod a 8 ltac:(lia)); pose proof (Z.div_mod b 8 ltac:(lia)); lia).
    rewrite decide_False by by rewrite pairs_lxor3, Pa, Pb.
    destruct (Z.eqb_spec (weight3 (lxor3 (delta a) (delta b))) 1) as [E|]; [|done].
    pose proof (odd_weight_lxor3 (delta a) (delta b)) as Ho. by rewrite E, Oa, Ob in Ho.
Qed.

(** Bit [q] of the three bytes of a code. *)
Definition code_bit (q : Z) : Z * Z * Z :=
  (if q <? 8 then 2 ^ q else 0, if (8 <=? q) && (q <? 16) then 2 ^ (q - 8) else 0,
   if 16 <=? q then 2 ^ (q - 16) else 0).

#[local] Instance bytes3_dec d : Decision (bytes3 d).
Proof. destruct d as [[d1 d2] d3]. unfold bytes3. apply _. Defined.

Definition code_bit_ok (q : Z) : bool :=
  bool_decide (bytes3 (code_bit q)) && bool_decide (code_bit q <> (0, 0, 0))
  && bool_decide (pairs (code_bit q) <> (0x55, 0x55, 0x54)) && (weight3 (code_bit q) =? 1).

(** An inverted bit of the stored code is recognised as such and repaired. *)
Lemma nand_ecc_code_bit dat q :
  0 <= q < 24 ->
  let code := nand_calculate_ecc dat in
  nand_correct_data dat (xor3 code (code_bit q)) (xor3 (xor3 code (code_bit q)) (code_bit q)) = Ok (2, dat, code).
Proof.
  intros Hq code.
  assert (code_bit_ok q = true) as Hd
    by (apply (forallb_zrange 24 code_bit_ok q); [vm_compute; reflexivity|exact Hq]).
  unfold code_bit_ok in Hd. generalize dependent (code_bit q). intros d Hd.
  apply andb_prop in Hd as [Hd Hw]. apply andb_prop in Hd as [Hd Hp]. apply andb_prop in Hd as [Hb Hz].
  apply bool_decide_eq_true in Hb, Hz, Hp. rewrite correct_of_difference by assumption.
  rewrite !decide_False, Hw by assumption. do 2 f_equal. rewrite xor3_xor3.
  destruct d as [[d1 d2] d3]. unfold lxor3. rewrite !Z.lxor_nilpotent. unfold xor3. cbn [nth drop app].
  rewrite !Z.lxor_0_r. unfold code, nand_calculate_ecc. destruct (column_loop _ _ _ _ _ _) as [[r1 r2] r3].
  unfold final_code. by destruct (nand_trans_result r2 r3).
Qed.

(** ** The two versions *)
Lemma legacy_loop_sums dat n j r1 r3 :
  0 <= j -> j + Z.of_nat n <= 256 ->
  legacy_loop n dat j r1 r3 = (Z.lxor r1 (xfold (parity_at dat) (zseq j n)), Z.lxor r3 (xfold (sum3 dat) (zseq j n))).
Proof.
  revert j r1 r3. induction n as [|n IH]; intros j r1 r3 Hj Hn; cbn [legacy_loop zseq xfold].
  { by rewrite !Z.lxor_0_r. }
  fold (parity_at dat j). unfold sum3 at 1. rewrite IH, (wrapu_small 8 j) by lia.
  destruct (truthy _); rewrite ?Z.lxor_0_l; by rewrite <- !Z.lxor_assoc.
Qed.

Lemma xfold_land f m l : Z.land (xfold f l) m = xfold (fun i => Z.land (f i) m) l.
Proof. induction l as [|i l IH]; cbn [xfold]; [done|]. by rewrite land_lxor_distr, IH. Qed.

(** The complemented sum follows from the plain one and the total parity. *)
Lemma sum2_from_sum3 dat l :
  xfold (sum2 dat) l
  = if Z.testbit (xfold (parity_at dat) l) 6 then lnotu 8 (xfold (sum3 dat) l) else u8 (xfold (sum3 dat) l).
Proof.
  induction l as [|i l IH]; cbn [xfold]; [done|]. rewrite IH, Z.lxor_spec.
  generalize (xfold (sum3 dat) l), (Z.testbit (xfold (parity_at dat) l) 6). intros x q.
  unfold sum2, sum3. change 0x40 with (2 ^ 6). rewrite truthy_land_pow2 by done.
  generalize (Z.testbit (parity_at dat i) 6). intros p. apply Z.bits_inj'. intros k Hk.
  assert (forall x, Z.testbit (u8 x) k = (k <? 8) && Z.testbit x k) as Hu.
  { intros y. unfold wrapu. destruct (Z.ltb_spec k 8); [by rewrite Z.mod_pow2_bits_low by lia|].
    by rewrite Z.mod_pow2_bits_high by lia. }
  destruct p, q; cbn [xorb]; rewrite Z.lxor_spec, ?lnotu_testbit, ?Hu, ?Z.lxor_spec, ?Z.bits_0 by done;
    by destruct (k <? 8), (Z.testbit i k), (Z.testbit x k).
Qed.

Lemma third_byte_low r : u8 (Z.lor (Z.shiftl (Z.lnot (Z.land r 0x3f)) 2) 3) = u8 (Z.lor (Z.shiftl (Z.lnot r) 2) 3).
Proof.
  apply Z.bits_inj'. intros i Hi. unfold wrapu. destruct (Z_lt_le_dec i 8).
  - rewrite !Z.mod_pow2_bits_low, !Z.lor_spec by lia. f_equal. destruct (Z_lt_le_dec i 2).
    + by rewrite !Z.shiftl_spec_low.
    + rewrite !Z.shiftl_spec, !Z.lnot_spec, Z.land_spec by lia.
      assert (Z.testbit 0x3f (i - 2) = true) as ->; [|by rewrite andb_true_r].
      apply (forallb_zrange 6 (Z.testbit 0x3f) (i - 2)); [reflexivity|lia].
  - by rewrite !Z.mod_pow2_bits_high by lia.
Qed.

(** The two versions of [nand_calculate_ecc] are the same function: with and
without [NAND_LEGACY] the code of every block is equal, although the source says
the calculation is different. *)
Lemma nand_calculate_ecc_versions dat : nand_calculate_ecc_legacy dat = nand_calculate_ecc dat.
Proof.
  rewrite nand_calculate_ecc_sums. unfold nand_calculate_ecc_legacy. rewrite legacy_loop_sums by lia.
  rewrite !Z.lxor_0_l. change 0x40 with (2 ^ 6). rewrite truthy_land_pow2 by done.
  rewrite (sum2_from_sum3 dat (zseq 0 256)). change (sum1 dat) with (fun j => Z.land (parity_at dat j) 0x3f).
  rewrite <- xfold_land, (wrapu_small 8).
  - unfold final_code. by rewrite third_byte_low.
  - apply xfold_byte. intros j Hj. apply elem_of_zseq in Hj. unfold sum3. destruct (truthy _); lia.
Qed.
