(* ===== verification/Xnand.v ===== *)
(** * Booting from NAND flash

[src/x-loader/drivers/k9f1g08r0a.c] (commands, addresses, pages, spare areas and
blocks of the flash), the hardware ECC switches of
[src/x-loader/board/rhino/rhino.c], and the NAND loop of [start_armboot] in
[src/x-loader/lib/board.c], as configured for the RHINO board
([src/x-loader/include/configs/rhino.h]: 16-bit bus, hardware ECC).

The flash chip and the memory controller are hardware.  They are the [Flash]
class: what a data read and a register read return as a function of everything
the processor has done on the bus so far; [FlashLaws] is what their manuals say
of a page read and of the ECC engine. *)
From stdpp Require Import base list.
From S2P Require Import Prelude Bits HwEcc.
From Stdlib Require Import ZArith Lia.

(** ** Constants *)
Definition NAND_CMD_READ0 : Z := 0.
Definition NAND_CMD_STATUS : Z := 0x70.
Definition NAND_CMD_READID : Z := 0x90.
Definition NAND_CMD_RESET : Z := 0xff.
Definition NAND_CMD_READSTART : Z := 0x30.
Definition ADDR_COLUMN : Z := 1.
Definition ADDR_PAGE : Z := 2.
Definition ADDR_COLUMN_PAGE : Z := Z.lor ADDR_COLUMN ADDR_PAGE.
Definition ADDR_OOB : Z := Z.lor 0x4 ADDR_COLUMN_PAGE.
Definition PAGE_SIZE : Z := 2048.
Definition OOB_SIZE : Z := 64.
Definition MAX_NUM_PAGES : nat := 64.
Definition ECC_SIZE : Z := 512.
Definition ECC_STEPS : nat := 4.
Definition ecc_pos : list nat := [2; 3; 4; 5; 6; 7; 8; 9; 10; 11; 12; 13]%nat.
Definition chipsize : Z := Z.shiftl 256 20.
Definition bus_width : Z := 16.
Definition MT29F1G_MFR : Z := 0x2c.
Definition MT29F1G_ID : Z := 0xa1.
Definition MT29F2G_ID : Z := 0xba.
Definition MT29F2G16AA_ID : Z := 0xca.
Definition MT29F4G_ID : Z := 0xbc.
Definition HYNIX4GiB_MFR : Z := 0xAD.
Definition HYNIX4GiB_ID : Z := 0xBC.
Definition K9F1G08R0A_ID : Z := 0xa1.
Definition CPU_OMAP34XX : Z := 0x3400.
Definition CPU_AM35XX : Z := 0x3500.
Definition CPU_OMAP36XX : Z := 0x3600.
Definition CFG_LOADADDR : Z := 0x80008000.
Definition NAND_UBOOT_START : Z := 0x0080000.
Definition NAND_UBOOT_END : Z := 0x0240000.
Definition NAND_BLOCK_SIZE : Z := 0x20000.
Definition OMAP34XX_GPMC_BASE : Z := 0x6E000000.
Definition GPMC_ECC_CONFIG : Z := OMAP34XX_GPMC_BASE + 0x1F4.
Definition GPMC_ECC_CONTROL : Z := OMAP34XX_GPMC_BASE + 0x1F8.
Definition GPMC_ECC_SIZE_CONFIG : Z := OMAP34XX_GPMC_BASE + 0x1FC.
Definition GPMC_ECC1_RESULT : Z := OMAP34XX_GPMC_BASE + 0x200.
Definition ECCCLEAR : Z := Z.shiftl 1 8.
Definition ECCRESULTREG1 : Z := Z.shiftl 1 0.
Definition ECCSIZE512BYTE : Z := 0xFF.
Definition ECCSIZE1 : Z := Z.shiftl ECCSIZE512BYTE 22.
Definition ECCSIZE0 : Z := Z.shiftl ECCSIZE512BYTE 12.
Definition ECCSIZE0SEL : Z := Z.shiftl 0 0.

(** ** The hardware *)

(** What the processor does on the bus of the flash and of the controller. *)
Inductive bus_event : Type :=
| WrCommand (d : Z)
| WrAddress (d : Z)
| RdData
| WrReg (a v : Z).

(** A data read and a register read, after a history of events. *)
Class Flash : Type := {
  nand_data : list bus_event -> Z;
  gpmc_read : list bus_event -> Z -> Z;
}.

(** The bytes the processor reads from the flash during [es], after [h]. *)
Fixpoint data_read `{Flash} (h es : list bus_event) : list Z :=
  match es with
  | [] => []
  | RdData :: es => le_bytes 2 (nand_data h) ++ data_read (h ++ [RdData]) es
  | e :: es => data_read (h ++ [e]) es
  end.

(** A page read command for word [col] of page [row]. *)
Definition read_cycles (col row : Z) : list bus_event :=
  [WrCommand NAND_CMD_READ0; WrAddress (col mod 256); WrAddress (col / 256);
   WrAddress (row mod 256); WrAddress (row / 256 mod 256); WrAddress (row / 65536);
   WrCommand NAND_CMD_READSTART].

(** Clear the results, select 512-byte blocks, enable for chip select 0, 16 bits. *)
Definition ecc_start : list bus_event :=
  [WrReg GPMC_ECC_CONTROL 0x101; WrReg GPMC_ECC_SIZE_CONFIG 0x3FCFF000; WrReg GPMC_ECC_CONFIG 0x81].

Definition is_reg_write (e : bus_event) : bool :=
  match e with WrReg _ _ => true | _ => false end.

(** [flash row] is what page [row] reads as: its data and its spare area.  The
pages of the 256 MB chip have 17-bit numbers and 1056 words. *)
Class FlashLaws `{Flash} (flash : Z -> list Z) : Prop := {
  page_read h row col k :
    0 <= row < 2 ^ 17 -> 0 <= col -> col + Z.of_nat k < 1056 ->
    nand_data (h ++ read_cycles col row ++ replicate k RdData) = field (2 * (col + Z.of_nat k)) 2 (flash row);
  ecc_engine h es i :
    forallb (fun e => negb (is_reg_write e)) es = true -> 0 <= i < 9 ->
    512 * (i + 1) <= zlen (data_read (h ++ ecc_start) es) ->
    gpmc_read (h ++ ecc_start ++ es) (GPMC_ECC1_RESULT + 4 * i)
    = block_ecc (slice (512 * i) 512 (data_read (h ++ ecc_start) es));
}.

(** ** The state of the boot loader *)
Record xstate : Type := mk_xstate {
  bus : list bus_event;          (* everything done on the bus, oldest first *)
  dram : list Z;                 (* memory from CFG_LOADADDR on *)
  is_ddr_166M : Z;
}.

Definition emit (e : bus_event) : M xstate unit :=
  mmodify (fun s => mk_xstate (bus s ++ [e]) (dram s) (is_ddr_166M s)).

Definition set_dram (d : list Z) : M xstate unit :=
  mmodify (fun s => mk_xstate (bus s) d (is_ddr_166M s)).

Definition set_is_ddr_166M (v : Z) : M xstate unit :=
  mmodify (fun s => mk_xstate (bus s) (dram s) v).

Definition offset_of (p : Z) : nat := Z.to_nat (p - CFG_LOADADDR).

(** A 16-bit store through a pointer. *)
Definition store16 (p v : Z) : M xstate unit :=
  let! d := mgets dram in
  if (CFG_LOADADDR <=? p) && (p + 2 <=? CFG_LOADADDR + zlen d) then
    set_dram (take (offset_of p) d ++ le_bytes 2 v ++ drop (offset_of p + 2) d)
  else mfault OutOfBounds.

Section driver.
Context `{Flash}.

(** ** Commands and addresses *)
Definition WRITE_NAND_COMMAND (d : Z) : M xstate unit := emit (WrCommand (u16 d)).
Definition WRITE_NAND_ADDRESS (d : Z) : M xstate unit := emit (WrAddress (u16 d)).

Definition READ_NAND : M xstate Z :=
  let! h := mgets bus in
  do! emit RdData in
  mret (u16 (nand_data h)).

Definition raw_writel (v a : Z) : M xstate unit := emit (WrReg a (u32 v)).
Definition raw_readl (a : Z) : M xstate Z := mgets (fun s => u32 (gpmc_read (bus s) a)).

(** Waits for the ready bit of the status. *)
Fixpoint wait_ready (fuel : nat) : M xstate unit :=
  match fuel with
  | O => mfault OutOfFuel
  | S fuel =>
    let! ret_val := READ_NAND in
    if Z.land (u8 ret_val) 0x40 =? 0x40 then mret tt else wait_ready fuel
  end.

Definition NanD_Command (fuel : nat) (command : Z) : M xstate Z :=
  do! WRITE_NAND_COMMAND command in
  if command =? NAND_CMD_RESET then
    do! WRITE_NAND_COMMAND NAND_CMD_STATUS in
    do! wait_ready fuel in
    mret 0
  else mret 0.

Definition column_cycles (numbytes ofs : Z) : M xstate unit :=
  let col := u16 ofs in
  do! WRITE_NAND_ADDRESS (u8 (Z.land col 0xff)) in
  let u := u8 (Z.land (Z.shiftr col 8) 0x07) in
  let u := if numbytes =? ADDR_OOB
           then u8 (Z.lor u (if bus_width =? 16 then Z.shiftl 1 2 else Z.shiftl 1 3)) else u in
  WRITE_NAND_ADDRESS u.

Definition page_cycles (ofs : Z) : M xstate unit :=
  do! WRITE_NAND_ADDRESS (u8 (Z.land (Z.shiftr ofs 11) 0xff)) in
  do! WRITE_NAND_ADDRESS (u8 (Z.land (Z.shiftr ofs 19) 0xff)) in
  if Z.shiftl 128 20 <? chipsize then
    WRITE_NAND_ADDRESS (u8 (Z.land (Z.shiftr ofs 27) 0xff))
  else mret tt.

Definition NanD_Address (numbytes ofs : Z) : M xstate Z :=
  do! if (numbytes =? ADDR_COLUMN) || (numbytes =? ADDR_COLUMN_PAGE) || (numbytes =? ADDR_OOB)
      then column_cycles numbytes ofs else mret tt in
  do! if (numbytes =? ADDR_PAGE) || (numbytes =? ADDR_COLUMN_PAGE) || (numbytes =? ADDR_OOB)
      then page_cycles ofs else mret tt in
  mret 0.

(** ** Identification *)

(** The identification register is read, but every value is an AM35xx. *)
Definition is_cpu_family : M xstate Z := mret CPU_AM35XX.

Definition nand_chip (fuel : nat) : M xstate Z :=
  let! r := NanD_Command fuel NAND_CMD_RESET in
  if truthy r then mret 1 else
  let! r := NanD_Command fuel NAND_CMD_READID in
  if truthy r then mret 1 else
  do! NanD_Address ADDR_COLUMN 0 in
  let! mfr := READ_NAND in
  let! id := READ_NAND in
  if mfr =? HYNIX4GiB_MFR then
    do! set_is_ddr_166M 0 in
    let! family := is_cpu_family in
    if family =? CPU_OMAP36XX then mret (b2z (negb (id =? HYNIX4GiB_ID)))
    else mret (b2z (negb (id =? K9F1G08R0A_ID)))
  else if mfr =? MT29F1G_MFR then
    do! set_is_ddr_166M 1 in
    let! family := is_cpu_family in
    if (family =? CPU_OMAP34XX) || (family =? CPU_AM35XX) || (family =? CPU_OMAP36XX) then
      mret (b2z (negb ((id =? MT29F1G_ID) || (id =? MT29F2G16AA_ID) || (id =? MT29F2G_ID)
                       || (id =? MT29F4G_ID))))
    else mret (b2z (negb (id =? K9F1G08R0A_ID)))
  else
    do! set_is_ddr_166M 1 in
    mret (b2z (negb (id =? K9F1G08R0A_ID))).

(** ** The ECC engine *)
Definition omap_enable_hw_ecc : M xstate unit :=
  let dev_width := 1 in
  let cs := 0 in
  do! raw_writel (Z.lor ECCCLEAR ECCRESULTREG1) GPMC_ECC_CONTROL in
  do! raw_writel (Z.lor (Z.lor ECCSIZE1 ECCSIZE0) ECCSIZE0SEL) GPMC_ECC_SIZE_CONFIG in
  let val := Z.lor (Z.lor (Z.shiftl dev_width 7) (Z.shiftl cs 1)) 0x1 in
  raw_writel val GPMC_ECC_CONFIG.

Definition omap_calculate_hw_ecc (steps : nat) : M xstate (list Z) :=
  let! ecc_code := mgets (fun s =>
    calculate_loop (fun i => u32 (gpmc_read (bus s) (GPMC_ECC1_RESULT + 4 * Z.of_nat i))) steps 0) in
  do! raw_writel 0x000 GPMC_ECC_CONFIG in
  mret ecc_code.

(** ** Pages, spare areas and blocks *)

(** [*p++ = READ_NAND(...)] into memory, and into a local array. *)
Fixpoint read_to_dram (len : nat) (p : Z) : M xstate unit :=
  match len with
  | O => mret tt
  | S len =>
    let! v := READ_NAND in
    do! store16 p v in
    read_to_dram len (p + 2)
  end.

Fixpoint read_to_array (len : nat) : M xstate (list Z) :=
  match len with
  | O => mret []
  | S len =>
    let! v := READ_NAND in
    let! rest := read_to_array len in
    mret (le_bytes 2 v ++ rest)
  end.

(** The words of [n] bytes on this bus. *)
Definition words (n : Z) : nat := Z.to_nat (if bus_width =? 16 then Z.shiftr n 1 else n).

(** One block after the other; a block that cannot be corrected stops the board. *)
Fixpoint correct_loop (steps : nat) (buf : Z) (ecc_code ecc_calc : list Z) : M xstate Z :=
  match steps with
  | O => mret 0
  | S steps =>
    let! d := mgets dram in
    let '(r, dat) := omap_correct_data_hw_ecc (drop (offset_of buf) d) ecc_code ecc_calc in
    do! set_dram (take (offset_of buf) d ++ dat) in
    if r =? -1 then mfault Hang
    else correct_loop steps (buf + ECC_SIZE) (drop 3 ecc_code) (drop 3 ecc_calc)
  end.

Definition nand_read_page (buf page_addr : Z) : M xstate Z :=
  do! omap_enable_hw_ecc in
  do! NanD_Command 0 NAND_CMD_READ0 in
  do! NanD_Address ADDR_COLUMN_PAGE page_addr in
  do! NanD_Command 0 NAND_CMD_READSTART in
  do! read_to_dram (words PAGE_SIZE) buf in
  let! oob_buf := read_to_array (words OOB_SIZE) in
  let ecc_code := (fun pos => nth pos oob_buf 0) <$> ecc_pos in
  let! ecc_calc := omap_calculate_hw_ecc ECC_STEPS in
  correct_loop ECC_STEPS buf ecc_code ecc_calc.

Definition nand_read_oob (page_addr : Z) : M xstate (Z * list Z) :=
  do! NanD_Command 0 NAND_CMD_READ0 in
  do! NanD_Address ADDR_OOB page_addr in
  do! NanD_Command 0 NAND_CMD_READSTART in
  let! buf := read_to_array (words OOB_SIZE) in
  mret (0, buf).

Fixpoint read_pages (n : nat) (buf page_addr : Z) : M xstate Z :=
  match n with
  | O => mret 0
  | S n =>
    let! r := nand_read_page buf page_addr in
    if truthy r then mret 1 else read_pages n (buf + PAGE_SIZE) (page_addr + PAGE_SIZE)
  end.

Definition nand_read_block (buf block_addr : Z) : M xstate Z :=
  let! (r, oob_buf) := nand_read_oob block_addr in
  if truthy r || negb (Z.land (field 0 2 oob_buf) 0xff =? 0xff) then mret 1
  else read_pages MAX_NUM_PAGES buf block_addr.

(** ** The NAND part of [start_armboot] *)

(** The loop over the U-Boot partition; the result is the pointer behind the image. *)
Fixpoint nand_boot_loop (fuel : nat) (buf i : Z) : M xstate Z :=
  match fuel with
  | O => mfault OutOfFuel
  | S fuel =>
    if i <? NAND_UBOOT_END then
      let! r := nand_read_block buf i in
      nand_boot_loop fuel (if truthy r then buf else buf + NAND_BLOCK_SIZE) (i + NAND_BLOCK_SIZE)
    else mret buf
  end.
End driver.

(** * Properties *)
Section correctness.
Context `{Flash}.

Abbreviation step s es d := (mk_xstate (bus s ++ es) d (is_ddr_166M s)).

(** ** Streams of words *)

(** After [h], the next data reads return the words of [bs]. *)
Definition streams (h : list bus_event) (bs : list Z) : Prop :=
  forall k, 2 * Z.of_nat k + 2 <= zlen bs -> nand_data (h ++ replicate k RdData) = field (2 * Z.of_nat k) 2 bs.

Lemma streams_cons h b0 b1 bs :
  streams h (b0 :: b1 :: bs) -> nand_data h = le_val [b0; b1] /\ streams (h ++ [RdData]) bs.
Proof.
  intros Hs. split.
  - specialize (Hs 0%nat). cbn [replicate] in Hs. rewrite app_nil_r in Hs. rewrite Hs; [done|].
    rewrite !zlen_cons. pose proof (zlen_nonneg bs). lia.
  - intros k Hk. specialize (Hs (S k)). rewrite <- app_assoc. change ([RdData] ++ replicate k RdData) with (replicate (S k) RdData).
    rewrite Hs by (rewrite !zlen_cons; lia).
    unfold field, slice. do 2 f_equal. replace (Z.to_nat (2 * Z.of_nat (S k))) with (S (S (Z.to_nat (2 * Z.of_nat k)))) by lia.
    done.
Qed.

Lemma streams_app h n l1 l2 :
  streams h (l1 ++ l2) -> zlen l1 = 2 * Z.of_nat n -> streams h l1 /\ streams (h ++ replicate n RdData) l2.
Proof.
  intros Hs Hl. split; intros k Hk; specialize (zlen_nonneg l2); intros Hl2.
  - rewrite Hs by (rewrite zlen_app; lia). unfold field. by rewrite slice_app_l by lia.
  - rewrite <- app_assoc, <- replicate_add, Hs by (rewrite zlen_app; lia). unfold field.
    rewrite slice_app_r by lia. do 2 f_equal. lia.
Qed.

Lemma word_range b0 b1 : is_byte b0 -> is_byte b1 -> 0 <= le_val [b0; b1] < 2 ^ 16.
Proof. intros H0 H1. apply (le_val_range [b0; b1]). by rewrite !Forall_cons. Qed.

Lemma word_of_bytes b0 b1 : is_byte b0 -> is_byte b1 -> le_bytes 2 (le_val [b0; b1]) = [b0; b1].
Proof. intros H0 H1. apply (le_bytes_val [b0; b1]). by rewrite !Forall_cons. Qed.

Lemma two_bytes n (bs : list Z) :
  zlen bs = 2 * Z.of_nat (S n) -> exists b0 b1 bs', bs = b0 :: b1 :: bs' /\ zlen bs' = 2 * Z.of_nat n.
Proof.
  unfold zlen. destruct bs as [|b0 [|b1 bs']]; cbn [length]; intros Hl; [lia|lia|].
  exists b0, b1, bs'. split; [done|]. lia.
Qed.

Lemma read_to_array_runs n bs s :
  streams (bus s) bs -> zlen bs = 2 * Z.of_nat n -> Forall is_byte bs ->
  runs (read_to_array n) s bs (step s (replicate n RdData) (dram s)).
Proof.
  revert bs s. induction n as [|n IH]; intros bs s Hs Hl Hb.
  { apply zlen_0_inv in Hl. subst bs. destruct s. cbn. by rewrite app_nil_r. }
  destruct (two_bytes n bs Hl) as (b0 & b1 & bs' & -> & Hl').
  destruct (streams_cons _ _ _ _ Hs) as [H0 Hs']. apply Forall_cons in Hb as [Hb0 Hb].
  apply Forall_cons in Hb as [Hb1 Hb]. cbn [read_to_array].
  eapply runs_bind; [reflexivity|]. cbv beta. eapply runs_bind; [by apply IH|].
  cbv beta. rewrite H0, wrapu_small, word_of_bytes by (done || by apply word_range).
  cbn. by rewrite <- app_assoc.
Qed.

(** The bytes on their way through the ECC engine. *)
Lemma data_read_streams n bs h :
  streams h bs -> zlen bs = 2 * Z.of_nat n -> Forall is_byte bs ->
  data_read h (replicate n RdData) = bs.
Proof.
  revert bs h. induction n as [|n IH]; intros bs h Hs Hl Hb.
  { by apply zlen_0_inv in Hl. }
  destruct (two_bytes n bs Hl) as (b0 & b1 & bs' & -> & Hl').
  destruct (streams_cons _ _ _ _ Hs) as [H0 Hs']. apply Forall_cons in Hb as [Hb0 Hb].
  apply Forall_cons in Hb as [Hb1 Hb]. cbn [replicate data_read]. rewrite (IH bs') by done.
  by rewrite H0, word_of_bytes.
Qed.

(** A store replaces two bytes of the memory. *)
Lemma store16_runs p v s pre o0 o1 post :
  dram s = pre ++ o0 :: o1 :: post -> p = CFG_LOADADDR + zlen pre ->
  runs (store16 p v) s tt (step s [] (pre ++ le_bytes 2 v ++ post)).
Proof.
  intros Hd Hp. unfold store16. eapply runs_bind; [apply runs_gets|]. cbv beta. rewrite Hd.
  rewrite zlen_app, !zlen_cons. pose proof (zlen_nonneg post). pose proof (zlen_nonneg pre).
  rewrite (proj2 (Z.leb_le _ _)), (proj2 (Z.leb_le _ _)) by lia. cbn [andb].
  unfold offset_of. replace (Z.to_nat (p - CFG_LOADADDR)) with (length pre) by (unfold zlen in Hp; lia).
  rewrite take_app_length, <- drop_drop, drop_app_length. destruct s; cbn. by rewrite app_nil_r.
Qed.

Lemma read_to_dram_runs n bs s p pre old post :
  streams (bus s) bs -> zlen bs = 2 * Z.of_nat n -> Forall is_byte bs ->
  dram s = pre ++ old ++ post -> zlen old = zlen bs -> p = CFG_LOADADDR + zlen pre ->
  runs (read_to_dram n p) s tt (step s (replicate n RdData) (pre ++ bs ++ post)).
Proof.
  revert bs s p pre old. induction n as [|n IH]; intros bs s p pre old Hs Hl Hb Hd Ho Hp.
  { rewrite Hl in Ho. apply zlen_0_inv in Hl as ->. apply zlen_0_inv in Ho as ->.
    destruct s. cbn in Hd |- *. by rewrite Hd, app_nil_r. }
  destruct (two_bytes n bs Hl) as (b0 & b1 & bs' & -> & Hl').
  rewrite Hl in Ho. destruct (two_bytes n old Ho) as (o0 & o1 & old' & -> & Ho').
  destruct (streams_cons _ _ _ _ Hs) as [H0 Hs']. apply Forall_cons in Hb as [Hb0 Hb].
  apply Forall_cons in Hb as [Hb1 Hb]. cbn [read_to_dram].
  eapply runs_bind; [reflexivity|]. cbv beta. rewrite H0, wrapu_small by by apply word_range.
  eapply runs_bind; [by apply (store16_runs _ _ _ pre o0 o1 (old' ++ post))|]. cbv beta. rewrite word_of_bytes by done.
  eapply runs_eq; [apply (IH bs' _ _ (pre ++ [b0; b1]) old'); try done|].
  - cbn [bus]. by rewrite app_nil_r.
  - cbn [dram]. by rewrite <- app_assoc.
  - lia.
  - rewrite zlen_app, !zlen_cons, zlen_nil. lia.
  - cbn [bus is_ddr_166M]. rewrite app_nil_r, <- !app_assoc. done.
Qed.

(** ** What the address cycles say *)
Lemma byte_of x n : 0 <= n -> 0 <= x -> u16 (u8 (Z.land (Z.shiftr x n) 0xff)) = x / 2 ^ n mod 256.
Proof.
  intros Hn Hx. change 0xff with (2 ^ 8 - 1). rewrite land_ones_mod, Z.shiftr_div_pow2 by done.
  pose proof (Z.mod_pos_bound (x / 2 ^ n) (2 ^ 8) ltac:(done)).
  rewrite (wrapu_small 8) by done. apply wrapu_small. change (2 ^ 8) with 256 in *. lia.
Qed.

Lemma column_zero row n m : 0 <= n -> n + m <= 11 -> 0 <= m ->
  Z.land (Z.shiftr (u16 (2048 * row)) n) (2 ^ m - 1) = 0.
Proof.
  intros Hn Hm Hm0. rewrite land_ones_mod, Z.shiftr_div_pow2 by lia.
  assert (u16 (2048 * row) = 2 ^ (n + m) * (2 ^ (11 - n - m) * (row mod 32))) as ->.
  { rewrite Z.mul_assoc, <- Z.pow_add_r by lia. replace (n + m + (11 - n - m)) with 11 by lia.
    unfold wrapu. change (2 ^ 16) with (2048 * 32). by rewrite Z.mul_mod_distr_l. }
  rewrite Z.pow_add_r, <- Z.mul_assoc, Z.mul_comm, Z.div_mul by lia.
  rewrite Z.mul_comm. apply Z.mod_mul. lia.
Qed.

Lemma page_cycles_runs row s :
  0 <= row < 2 ^ 17 ->
  runs (page_cycles (2048 * row)) s tt
    (step s [WrAddress (row mod 256); WrAddress (row / 256 mod 256); WrAddress (row / 65536)] (dram s)).
Proof.
  intros Hr. unfold page_cycles. change (Z.shiftl 128 20 <? chipsize) with true. cbv match.
  assert (2048 * row / 2 ^ 11 = row) as E1 by (rewrite Z.mul_comm; by apply Z.div_mul).
  assert (2048 * row / 2 ^ 19 = row / 256) as E2.
  { change (2 ^ 19) with (2048 * 256). apply Z.div_mul_cancel_l; lia. }
  assert (2048 * row / 2 ^ 27 = row / 65536) as E3.
  { change (2 ^ 27) with (2048 * 65536). apply Z.div_mul_cancel_l; lia. }
  eapply runs_bind; [reflexivity|]. cbv beta. eapply runs_bind; [reflexivity|]. cbv beta.
  unfold WRITE_NAND_ADDRESS. rewrite !byte_of, E1, E2, E3 by lia.
  rewrite (Z.mod_small (row / 65536)).
  - unfold emit, runs, mmodify. cbn. by rewrite <- !app_assoc.
  - split; [apply Z.div_pos; lia|]. apply Z.div_lt_upper_bound; lia.
Qed.

(** The column is the start of the page, or of its spare area. *)
Lemma column_cycles_runs (oob : bool) row s :
  runs (column_cycles (if oob then ADDR_OOB else ADDR_COLUMN_PAGE) (2048 * row)) s tt
    (step s [WrAddress 0; WrAddress (if oob then 4 else 0)] (dram s)).
Proof.
  unfold column_cycles. cbv zeta.
  pose proof (column_zero row 0 8 ltac:(lia) ltac:(lia) ltac:(lia)) as H0. rewrite Z.shiftr_0_r in H0.
  pose proof (column_zero row 8 3 ltac:(lia) ltac:(lia) ltac:(lia)) as H8.
  change (2 ^ 8 - 1) with 0xff in H0. change (2 ^ 3 - 1) with 7 in H8. rewrite H0, H8.
  eapply runs_bind; [reflexivity|]. cbv beta.
  destruct oob; unfold WRITE_NAND_ADDRESS, emit, runs, mmodify; cbn; by rewrite <- app_assoc.
Qed.

(** The command and address cycles of a page read, before [k]. *)
Lemma issue_read_run {A} (oob : bool) row s (k : M xstate A) :
  0 <= row < 2 ^ 17 ->
  (do! NanD_Command 0 NAND_CMD_READ0 in
   do! NanD_Address (if oob then ADDR_OOB else ADDR_COLUMN_PAGE) (2048 * row) in
   do! NanD_Command 0 NAND_CMD_READSTART in k) s
  = k (step s (read_cycles (if oob then 1024 else 0) row) (dram s)).
Proof.
  intros Hr. erewrite mbind_run by reflexivity. cbv beta. erewrite mbind_run.
  2:{ unfold NanD_Address.
    assert (forall n, (n =? ADDR_OOB) || (n =? ADDR_COLUMN_PAGE) = true ->
      (n =? ADDR_COLUMN) || (n =? ADDR_COLUMN_PAGE) || (n =? ADDR_OOB) = true
      /\ (n =? ADDR_PAGE) || (n =? ADDR_COLUMN_PAGE) || (n =? ADDR_OOB) = true) as Hn by lia.
    destruct (Hn (if oob then ADDR_OOB else ADDR_COLUMN_PAGE)) as [-> ->]; [by destruct oob|].
    eapply runs_bind; [apply (column_cycles_runs _ row)|]. cbv beta.
    eapply runs_bind; [by apply page_cycles_runs|]. apply runs_ret. }
  cbv beta. erewrite mbind_run by reflexivity. cbv beta.
  cbn [bus dram is_ddr_166M]. rewrite <- !app_assoc. by destruct oob.
Qed.

(** ** Pages *)
Context (flash : Z -> list Z) `{!FlashLaws flash}.

Lemma page_streams h row col bs :
  0 <= row < 2 ^ 17 -> 0 <= col -> 2 * col + zlen bs <= 2112 ->
  bs = slice (2 * col) (zlen bs) (flash row) -> streams (h ++ read_cycles col row) bs.
Proof.
  intros Hr Hc Hl Hbs k Hk. rewrite <- app_assoc, page_read by lia. unfold field. f_equal.
  rewrite Hbs, slice_slice by lia. f_equal. lia.
Qed.

(** Page [row] holds the four blocks [blocks]: each reads with at most one
inverted bit in the data or in the code kept in the spare area. *)
Definition page_holds (row : Z) (blocks : list (list Z)) : Prop :=
  length blocks = 4%nat /\ Forall is_block blocks /\ Forall is_byte (flash row) /\
  exists blocks' oob codes,
    flash row = concat blocks' ++ oob /\ zlen oob = OOB_SIZE /\
    (fun pos => nth pos oob 0) <$> ecc_pos = concat codes /\
    Forall3 readable blocks blocks' codes.

Lemma zlen_blocks blocks : Forall is_block blocks -> zlen (concat blocks) = 512 * zlen blocks.
Proof.
  induction 1 as [|b bs [Hb _] Hf IH]; [done|]. cbn [concat]. rewrite zlen_app, zlen_cons, IH, Hb.
  unfold ECC_BLOCK. lia.
Qed.

Lemma zlen_readable blocks blocks' codes :
  Forall3 readable blocks blocks' codes -> zlen (concat blocks') = zlen (concat blocks).
Proof.
  induction 1 as [|b b' c bs bs' cs Hr Hf IH]; [done|]. cbn [concat]. rewrite !zlen_app, IH.
  unfold zlen. by rewrite (length_readable _ _ _ Hr).
Qed.

Lemma correct_loop_runs blocks blocks' codes s buf pre post n' :
  Forall3 readable blocks blocks' codes -> Forall is_block blocks ->
  dram s = pre ++ concat blocks' ++ post -> buf = CFG_LOADADDR + zlen pre ->
  runs (correct_loop (length blocks) buf (concat codes) (concat (stored_code <$> blocks') ++ n')) s 0
    (step s [] (pre ++ concat blocks ++ post)).
Proof.
  intros Hr. revert s buf pre. induction Hr as [|b b' c bs bs' cs Hr Hf IH]; intros s buf pre Hb Hd Hbuf.
  { cbn. rewrite app_nil_r. by destruct s; cbn in *; subst. }
  apply Forall_cons in Hb as [Hb0 Hb]. cbn [correct_loop length concat fmap list_fmap].
  eapply runs_bind; [apply runs_gets|]. cbv beta. rewrite Hd.
  assert (offset_of buf = length pre) as -> by (unfold offset_of, zlen in *; lia).
  cbn [concat]. rewrite drop_app_length, take_app_length, <- !app_assoc.
  destruct (correct_readable b b' c (concat bs' ++ post) (concat cs) (concat (stored_code <$> bs') ++ n') Hb0 Hr)
    as (r & -> & Hne).
  eapply runs_bind; [reflexivity|]. cbv beta. rewrite (proj2 (Z.eqb_neq r (-1))) by done.
  assert (drop 3 (c ++ concat cs) = concat cs) as -> by (destruct Hr; done).
  eapply runs_eq; [apply (IH _ _ (pre ++ b)); [done| |]|].
  - cbn [dram]. by rewrite <- !app_assoc.
  - rewrite zlen_app. destruct Hb0 as [-> _]. unfold ECC_SIZE, ECC_BLOCK. lia.
  - cbn [bus is_ddr_166M]. by rewrite <- !app_assoc.
Qed.

(** ** The ECC engine during a page read *)
Lemma data_read_app h es1 es2 : data_read h (es1 ++ es2) = data_read h es1 ++ data_read (h ++ es1) es2.
Proof.
  revert h. induction es1 as [|e es1 IH]; intros h; cbn [app data_read]; [by rewrite app_nil_r|].
  destruct e; rewrite IH, <- ?app_assoc; done.
Qed.

Lemma reads_no_reg_write n : forallb (fun e => negb (is_reg_write e)) (replicate n RdData) = true.
Proof. induction n as [|n IH]; [done|exact IH]. Qed.

Lemma calculate_loop_codes f blocks j :
  (forall i b, blocks !! i = Some b -> f (j + i)%nat = block_ecc b) ->
  calculate_loop f (length blocks) j = concat (stored_code <$> blocks).
Proof.
  revert j. induction blocks as [|b bs IH]; intros j Hf; [done|].
  cbn [length calculate_loop fmap list_fmap concat]. rewrite (IH (S j)).
  - specialize (Hf 0%nat b eq_refl). rewrite Nat.add_0_r in Hf. by rewrite Hf.
  - intros i b' Hi. rewrite <- (Hf (S i) b' Hi). f_equal. lia.
Qed.

Lemma slice_block blocks i b rest :
  Forall (fun b => zlen b = 512) blocks -> blocks !! i = Some b ->
  slice (512 * Z.of_nat i) 512 (concat blocks ++ rest) = b.
Proof.
  intros Hf. revert i. induction Hf as [|b' bs Hb Hf IH]; intros [|i] Hi; cbn [concat]; try done.
  - injection Hi as ->. rewrite <- app_assoc. apply (slice_exact []); by rewrite ?zlen_nil.
  - rewrite <- app_assoc, slice_app_r by lia. rewrite <- (IH i Hi). f_equal. lia.
Qed.

Lemma omap_enable_hw_ecc_runs s : runs omap_enable_hw_ecc s tt (step s ecc_start (dram s)).
Proof.
  unfold omap_enable_hw_ecc. cbv zeta. do 2 (eapply runs_bind; [reflexivity|]; cbv beta).
  unfold raw_writel, emit, runs, mmodify. cbn [bus dram is_ddr_166M]. by rewrite <- !app_assoc.
Qed.

Lemma zlen_four (bs : list (list Z)) :
  length bs = ECC_STEPS -> Forall (fun b => zlen b = 512) bs -> zlen (concat bs) = 2048.
Proof.
  intros Hl Hz. destruct bs as [|b0 [|b1 [|b2 [|b3 [|]]]]]; try discriminate. rewrite !Forall_cons in Hz.
  cbn [concat]. rewrite !zlen_app, zlen_nil. lia.
Qed.

(** After a whole page and its spare area have been read, the registers hold the
codes of the four blocks as they were read. *)
Lemma omap_calculate_hw_ecc_runs s h row blocks' oob :
  0 <= row < 2 ^ 17 -> flash row = concat blocks' ++ oob -> Forall is_byte (flash row) ->
  zlen oob = OOB_SIZE -> length blocks' = ECC_STEPS -> Forall (fun b => zlen b = 512) blocks' ->
  bus s = h ++ ecc_start ++ read_cycles 0 row ++ replicate 1056 RdData ->
  runs (omap_calculate_hw_ecc ECC_STEPS) s (concat (stored_code <$> blocks'))
    (step s [WrReg GPMC_ECC_CONFIG 0] (dram s)).
Proof.
  intros Hr Hf Hb Ho Hl Hz Hs. unfold omap_calculate_hw_ecc.
  pose proof (zlen_four blocks' Hl Hz) as Hc.
  assert (data_read (h ++ ecc_start) (read_cycles 0 row ++ replicate 1056 RdData) = flash row) as Hd.
  { rewrite data_read_app. apply data_read_streams; [|rewrite Hf, zlen_app, Hc, Ho; done|done].
    apply page_streams; try done; rewrite Hf, zlen_app, Hc, Ho; [done|]. by rewrite slice_all by (rewrite zlen_app; lia). }
  eapply runs_bind; [apply runs_gets|]. cbv beta.
  rewrite <- Hl, (calculate_loop_codes _ blocks'); [reflexivity|]. intros i b Hi.
  pose proof (lookup_lt_Some _ _ _ Hi) as Hi4. rewrite Hl in Hi4. unfold ECC_STEPS in Hi4.
  rewrite Hs, ecc_engine; rewrite ?Hd; [|rewrite forallb_app, reads_no_reg_write; done|lia|].
  - rewrite Hf, (slice_block _ _ b) by done. apply wrapu_small, masked_range, masked_block_ecc.
  - rewrite Hf, zlen_app, Hc, Ho. unfold OOB_SIZE. lia.
Qed.

(** A page as it comes off the flash: the code of each block in the spare area,
and what the engine computed, go to the correction loop. *)
Lemma nand_read_page_upto row blocks' oob s buf pre old post :
  0 <= row < 2 ^ 17 -> flash row = concat blocks' ++ oob -> Forall is_byte (flash row) ->
  zlen oob = OOB_SIZE -> length blocks' = ECC_STEPS -> Forall (fun b => zlen b = 512) blocks' ->
  dram s = pre ++ old ++ post -> zlen old = PAGE_SIZE -> buf = CFG_LOADADDR + zlen pre ->
  exists es, nand_read_page buf (2048 * row) s
    = correct_loop ECC_STEPS buf ((fun pos => nth pos oob 0) <$> ecc_pos) (concat (stored_code <$> blocks'))
        (step s es (pre ++ concat blocks' ++ post)).
Proof.
  intros Hr Er Hf Ho Hl Hz Hd Hold Hbuf.
  pose proof (zlen_four blocks' Hl Hz) as Hc.
  pose proof Hf as Hfb. rewrite Er in Hfb. apply Forall_app in Hfb as [Hfb Hfo].
  assert (streams (bus s ++ ecc_start ++ read_cycles 0 row) (concat blocks' ++ oob)) as Hst.
  { rewrite app_assoc. apply page_streams; try done; rewrite zlen_app, Hc, Ho; [done|].
    rewrite Er. by rewrite slice_all by (rewrite zlen_app, Hc, Ho; done). }
  destruct (streams_app _ 1024 _ _ Hst Hc) as [Hs1 Hs2].
  eexists. unfold nand_read_page. erewrite mbind_run by apply omap_enable_hw_ecc_runs. cbv beta.
  rewrite (issue_read_run false) by done. cbn [bus dram is_ddr_166M]. rewrite <- app_assoc.
  erewrite mbind_run.
  2:{ apply (read_to_dram_runs 1024 (concat blocks') _ _ pre old post); try done; rewrite ?Hold; by rewrite ?Hc. }
  cbv beta. erewrite mbind_run by by apply (read_to_array_runs 32 oob). cbv beta zeta.
  cbn [bus dram is_ddr_166M]. rewrite <- !app_assoc.
  erewrite mbind_run by by apply (omap_calculate_hw_ecc_runs _ (bus s) row blocks' oob).
  cbv beta. cbn [bus dram is_ddr_166M]. rewrite <- !app_assoc. reflexivity.
Qed.

Lemma readable_lengths blocks blocks' codes :
  Forall3 readable blocks blocks' codes -> Forall is_block blocks -> Forall (fun b => zlen b = 512) blocks'.
Proof.
  induction 1 as [|b b' c bs bs' cs Hr Hf IH]; intros Hb; [by apply Forall_nil|].
  apply Forall_cons in Hb as [[Hb0 _] Hb]. apply Forall_cons. split; [|by apply IH].
  unfold zlen in *. by rewrite (length_readable _ _ _ Hr).
Qed.

Lemma nand_read_page_runs row blocks s buf pre old post :
  0 <= row < 2 ^ 17 -> page_holds row blocks ->
  dram s = pre ++ old ++ post -> zlen old = PAGE_SIZE -> buf = CFG_LOADADDR + zlen pre ->
  exists es, runs (nand_read_page buf (2048 * row)) s 0 (step s es (pre ++ concat blocks ++ post)).
Proof.
  intros Hr (Hl & Hb & Hf & blocks' & oob & codes & Er & Ho & Ec & H3) Hd Hold Hbuf.
  destruct (nand_read_page_upto row blocks' oob s buf pre old post) as (es & E); try done.
  { rewrite <- (Forall3_length_lm _ _ _ _ H3). exact Hl. }
  { by apply (readable_lengths blocks _ codes). }
  exists es. unfold runs. rewrite E, Ec, <- (app_nil_r (concat (stored_code <$> blocks'))).
  change ECC_STEPS with 4%nat. rewrite <- Hl.
  eapply runs_eq; [by apply (correct_loop_runs _ _ _ _ _ pre post [] H3)|].
  cbn [bus is_ddr_166M]. by rewrite app_nil_r.
Qed.

Lemma nand_read_oob_runs row s data oob :
  0 <= row < 2 ^ 17 -> flash row = data ++ oob -> zlen data = PAGE_SIZE -> zlen oob = OOB_SIZE ->
  Forall is_byte oob ->
  runs (nand_read_oob (2048 * row)) s (0, oob) (step s (read_cycles 1024 row ++ replicate 32 RdData) (dram s)).
Proof.
  intros Hr Hf Hd Ho Hb. unfold nand_read_oob, runs. rewrite (issue_read_run true) by done.
  eapply runs_bind.
  - apply (read_to_array_runs 32 oob); try done. cbn [bus]. apply page_streams; try done; rewrite Ho; [done|].
    rewrite Hf. symmetry. by apply slice_exact_end.
  - unfold runs, mret. cbn [bus dram is_ddr_166M]. by rewrite <- app_assoc.
Qed.

(** ** Blocks *)
Lemma read_pages_runs pages row s buf pre old post :
  0 <= row -> row + zlen pages <= 2 ^ 17 ->
  (forall i p, pages !! i = Some p -> page_holds (row + Z.of_nat i) p) ->
  dram s = pre ++ old ++ post -> zlen old = PAGE_SIZE * zlen pages -> buf = CFG_LOADADDR + zlen pre ->
  exists es, runs (read_pages (length pages) buf (2048 * row)) s 0
    (step s es (pre ++ concat (@concat Z <$> pages) ++ post)).
Proof.
  revert row s buf pre old. induction pages as [|p pages IH]; intros row s buf pre old Hr0 Hr Hp Hd Ho Hbuf.
  { exists []. apply zlen_0_inv in Ho as ->. destruct s. cbn in Hd |- *. by rewrite app_nil_r, Hd. }
  rewrite zlen_cons in Hr, Ho. pose proof (zlen_nonneg pages). unfold PAGE_SIZE in Ho.
  destruct (split_at old 2048) as (o1 & o2 & -> & Ho1); [lia|]. rewrite zlen_app in Ho.
  pose proof (Hp 0%nat p eq_refl) as Hp0. rewrite Z.add_0_r in Hp0. rewrite <- app_assoc in Hd.
  destruct (nand_read_page_runs row p s buf pre o1 (o2 ++ post)) as (es & Hrun); try done; [lia|].
  destruct Hp0 as (Hl & Hb & _). pose proof (zlen_blocks p Hb) as Hz. unfold zlen in Hz at 2. rewrite Hl in Hz.
  destruct (IH (row + 1) (step s es (pre ++ concat p ++ o2 ++ post)) (buf + PAGE_SIZE) (pre ++ concat p) o2)
    as (es' & Hrun'); try lia.
  - intros i q Hq. specialize (Hp (S i) q Hq). by replace (row + 1 + Z.of_nat i) with (row + Z.of_nat (S i)) by lia.
  - cbn [dram]. by rewrite <- app_assoc.
  - unfold PAGE_SIZE. lia.
  - rewrite zlen_app. unfold PAGE_SIZE. lia.
  - exists (es ++ es'). cbn [read_pages length]. eapply runs_bind; [exact Hrun|]. cbv beta.
    change (truthy 0) with false. cbv match. replace (2048 * row + PAGE_SIZE) with (2048 * (row + 1)) by (unfold PAGE_SIZE; lia).
    eapply runs_eq; [exact Hrun'|]. cbn [bus is_ddr_166M fmap list_fmap concat]. by rewrite <- !app_assoc.
Qed.

Lemma zlen_pages row pages :
  (forall i p, pages !! i = Some p -> page_holds (row + Z.of_nat i) p) ->
  zlen (concat (@concat Z <$> pages)) = PAGE_SIZE * zlen pages.
Proof.
  revert row. induction pages as [|p pages IH]; intros row Hp; [done|].
  cbn [fmap list_fmap concat]. rewrite zlen_app, zlen_cons, (IH (row + 1)).
  - destruct (Hp 0%nat p eq_refl) as (Hl & Hb & _). rewrite zlen_blocks by done.
    assert (zlen p = 4) as -> by (unfold zlen; by rewrite Hl). unfold PAGE_SIZE. lia.
  - intros i q Hq. specialize (Hp (S i) q Hq). by replace (row + 1 + Z.of_nat i) with (row + Z.of_nat (S i)) by lia.
Qed.

(** The state of an erase block: marked bad, or good with the data of its pages. *)
Inductive block_state : Type :=
| BadBlock
| GoodBlock (pages : list (list (list Z))).

Definition block_image (b : block_state) : list Z :=
  match b with
  | BadBlock => []
  | GoodBlock pages => concat (@concat Z <$> pages)
  end.

(** The bad block mark is the first byte of the spare area of the first page. *)
Definition block_holds (row : Z) (b : block_state) : Prop :=
  Forall is_byte (flash row) /\ zlen (flash row) = PAGE_SIZE + OOB_SIZE /\
  match b with
  | BadBlock => nth 2048 (flash row) 0 <> 0xff
  | GoodBlock pages =>
      nth 2048 (flash row) 0 = 0xff /\ length pages = MAX_NUM_PAGES /\
      forall i p, pages !! i = Some p -> page_holds (row + Z.of_nat i) p
  end.

Lemma low_byte o0 o1 rest : is_byte o0 -> is_byte o1 -> Z.land (field 0 2 (o0 :: o1 :: rest)) 0xff = o0.
Proof.
  unfold is_byte. intros H0 H1. change 0xff with (2 ^ 8 - 1). rewrite land_ones_mod by done.
  change (field 0 2 (o0 :: o1 :: rest)) with (o0 + 256 * (o1 + 256 * 0)).
  change (2 ^ 8) with 256. rewrite Z.mul_comm, Z_mod_plus_full. apply Z.mod_small. lia.
Qed.

(** The spare area of the first page, with its mark. *)
Lemma first_page_oob row :
  Forall is_byte (flash row) -> zlen (flash row) = PAGE_SIZE + OOB_SIZE ->
  exists data o0 o1 oob, flash row = data ++ o0 :: o1 :: oob /\ zlen data = PAGE_SIZE /\
    zlen (o0 :: o1 :: oob) = OOB_SIZE /\ Forall is_byte (o0 :: o1 :: oob) /\ nth 2048 (flash row) 0 = o0.
Proof.
  intros Hb Hl. destruct (split_at (flash row) PAGE_SIZE) as (data & oob & E & Hd).
  { rewrite Hl. unfold PAGE_SIZE, OOB_SIZE. lia. }
  rewrite E in *. rewrite zlen_app, Hd in Hl. apply Forall_app in Hb as [_ Hb].
  destruct oob as [|o0 [|o1 oob]]; [done|done|]. exists data, o0, o1, oob.
  split_and!; try done; [lia|]. rewrite app_nth2; unfold zlen, PAGE_SIZE in Hd; [|lia].
  by replace (2048 - length data)%nat with 0%nat by lia.
Qed.

Lemma nand_read_block_runs row b s buf pre old post :
  0 <= row -> row + 64 <= 2 ^ 17 -> block_holds row b ->
  dram s = pre ++ old ++ post -> zlen old = zlen (block_image b) -> buf = CFG_LOADADDR + zlen pre ->
  exists es, runs (nand_read_block buf (2048 * row)) s (match b with BadBlock => 1 | _ => 0 end)
    (step s es (pre ++ block_image b ++ post)).
Proof.
  intros Hr0 Hr (Hb & Hl & Hst) Hd Ho Hbuf.
  destruct (first_page_oob row Hb Hl) as (data & o0 & o1 & oob & E & Hdl & Hol & Hob & En).
  rewrite En in Hst. unfold nand_read_block.
  pose proof (nand_read_oob_runs row s data _ ltac:(lia) E Hdl Hol Hob) as Hoob.
  apply Forall_cons in Hob as [Hb0 Hob]. apply Forall_cons in Hob as [Hb1 _].
  destruct b as [|pages]; cbn [block_image] in *.
  - rewrite zlen_nil in Ho. apply zlen_0_inv in Ho as ->. eexists. eapply runs_bind; [exact Hoob|]. cbv beta match.
    rewrite low_byte by done. rewrite (proj2 (Z.eqb_neq o0 _)) by done. rewrite Hd. apply runs_ret.
  - destruct Hst as (-> & Hlp & Hp).
    set (s1 := step s (read_cycles 1024 row ++ replicate 32 RdData) (dram s)) in *.
    assert (zlen pages = 64) as Hz by (unfold zlen; by rewrite Hlp).
    destruct (read_pages_runs pages row s1 buf pre old post) as (es & Hrun); try done; [lia| |].
    { by rewrite Ho, (zlen_pages row). }
    rewrite Hlp in Hrun. eexists. eapply runs_bind; [exact Hoob|]. cbv beta match.
    rewrite low_byte by done. eapply runs_eq; [exact Hrun|].
    cbn [s1 bus is_ddr_166M]. by rewrite <- app_assoc.
Qed.

(** ** The partition *)
Definition image (bs : list block_state) : list Z := concat (block_image <$> bs).

Lemma zlen_block_image row b :
  block_holds row b -> zlen (block_image b) = match b with BadBlock => 0 | _ => NAND_BLOCK_SIZE end.
Proof.
  intros (_ & _ & Hst). destruct b as [|pages]; [done|]. destruct Hst as (_ & Hlp & Hp).
  cbn [block_image]. rewrite (zlen_pages row) by done. unfold zlen. by rewrite Hlp.
Qed.

Lemma nand_boot_loop_runs bs row s buf pre old post :
  0 <= row -> 2048 * (row + 64 * zlen bs) = NAND_UBOOT_END ->
  (forall i b, bs !! i = Some b -> block_holds (row + 64 * Z.of_nat i) b) ->
  dram s = pre ++ old ++ post -> zlen old = zlen (image bs) -> buf = CFG_LOADADDR + zlen pre ->
  exists es, runs (nand_boot_loop (S (length bs)) buf (2048 * row)) s (buf + zlen (image bs))
    (step s es (pre ++ image bs ++ post)).
Proof.
  revert row s buf pre old. induction bs as [|b bs IH]; intros row s buf pre old Hr0 Hend Hb Hd Ho Hbuf.
  { exists []. apply zlen_0_inv in Ho as ->. cbn [length nand_boot_loop].
    change (zlen []) with 0 in Hend. rewrite <- Hend, Z.mul_0_r, (proj2 (Z.ltb_ge _ _)) by lia.
    destruct s. cbn in Hd |- *. by rewrite app_nil_r, Hd, Z.add_0_r. }
  rewrite zlen_cons in Hend. pose proof (zlen_nonneg bs) as Hnn. unfold NAND_UBOOT_END in Hend.
  pose proof (Hb 0%nat b eq_refl) as Hb0. rewrite Z.mul_0_r, Z.add_0_r in Hb0.
  cbn [image fmap list_fmap concat] in Ho. fold (image bs) in Ho. rewrite zlen_app in Ho.
  destruct (split_at old (zlen (block_image b))) as (o1 & o2 & -> & Ho1).
  { rewrite Ho. pose proof (zlen_nonneg (block_image b)). pose proof (zlen_nonneg (image bs)). lia. }
  rewrite zlen_app in Ho. rewrite <- app_assoc in Hd.
  destruct (nand_read_block_runs row b s buf pre o1 (o2 ++ post)) as (es & Hrun); try done; [lia|].
  pose proof (zlen_block_image row b Hb0) as Hz.
  destruct (IH (row + 64) (step s es (pre ++ block_image b ++ o2 ++ post)) (buf + zlen (block_image b))
    (pre ++ block_image b) o2) as (es' & Hrun'); try (unfold NAND_UBOOT_END; lia).
  - intros i q Hq. specialize (Hb (S i) q Hq). by replace (row + 64 + 64 * Z.of_nat i) with (row + 64 * Z.of_nat (S i)) by lia.
  - cbn [dram]. by rewrite <- app_assoc.
  - rewrite zlen_app. lia.
  - exists (es ++ es'). cbn [length]. unfold nand_boot_loop; fold nand_boot_loop.
    rewrite (proj2 (Z.ltb_lt _ _)) by (unfold NAND_UBOOT_END; lia).
    eapply runs_bind; [exact Hrun|]. cbv beta.
    replace (2048 * row + NAND_BLOCK_SIZE) with (2048 * (row + 64)) by (unfold NAND_BLOCK_SIZE; lia).
    replace (if truthy _ then buf else _) with (buf + zlen (block_image b)) by (rewrite Hz; destruct b; cbn; lia).
    cbn [image fmap list_fmap concat]. fold (image bs). rewrite zlen_app, Z.add_assoc.
    eapply runs_eq; [exact Hrun'|]. cbn [bus is_ddr_166M]. by rewrite <- !app_assoc.
Qed.

Lemma zlen_image_le row bs :
  (forall i b, bs !! i = Some b -> block_holds (row + 64 * Z.of_nat i) b) -> zlen (image bs) <= NAND_BLOCK_SIZE * zlen bs.
Proof.
  revert row. induction bs as [|b bs IH]; intros row Hb; [done|]. unfold image in *. cbn [fmap list_fmap concat].
  rewrite zlen_app, zlen_cons. pose proof (zlen_block_image _ b (Hb 0%nat b eq_refl)) as Hz.
  assert (zlen (block_image b) <= NAND_BLOCK_SIZE) by (rewrite Hz; by destruct b).
  specialize (IH (row + 64)). cut (zlen (concat (block_image <$> bs)) <= NAND_BLOCK_SIZE * zlen bs); [unfold NAND_BLOCK_SIZE in *; lia|].
  apply IH. intros i q Hq. specialize (Hb (S i) q Hq). by replace (row + 64 + 64 * Z.of_nat i) with (row + 64 * Z.of_nat (S i)) by lia.
Qed.

(** ** Uncorrectable blocks *)
Lemma correct_loop_hangs good good' codes bad bad' c r s buf pre post codes' calcs' k :
  Forall3 readable good good' codes -> Forall is_block good ->
  zlen bad' = ECC_BLOCK -> length c = 3%nat -> omap_correct_data_hw_ecc bad' c (stored_code bad') = (-1, r) ->
  dram s = pre ++ concat (good' ++ bad' :: bad) ++ post -> buf = CFG_LOADADDR + zlen pre ->
  correct_loop (length good + S k) buf (concat (codes ++ c :: codes'))
    (concat (stored_code <$> (good' ++ bad' :: calcs'))) s = Fault Hang.
Proof.
  intros Hr Hb Hz Hc Hbad. revert s buf pre Hb.
  induction Hr as [|b b' c0 bs bs' cs Hr Hf IH]; intros s buf pre Hb Hd Hbuf.
  - cbn [length Nat.add correct_loop app fmap list_fmap concat]. erewrite mbind_run by apply runs_gets. cbv beta.
    cbn [app concat] in Hd. rewrite Hd.
    assert (offset_of buf = length pre) as -> by (unfold offset_of, zlen in *; lia).
    rewrite drop_app_length, take_app_length, <- app_assoc, correct_in_buffer, Hbad by done. reflexivity.
  - apply Forall_cons in Hb as [Hb0 Hb]. cbn [length Nat.add correct_loop app fmap list_fmap concat].
    erewrite mbind_run by apply runs_gets. cbv beta. cbn [app concat] in Hd. rewrite Hd.
    assert (offset_of buf = length pre) as -> by (unfold offset_of, zlen in *; lia).
    rewrite drop_app_length, take_app_length, <- !app_assoc.
    edestruct (correct_readable b b' c0) as (r0 & -> & Hne); [done|done|].
    erewrite mbind_run by reflexivity. cbv beta. rewrite (proj2 (Z.eqb_neq r0 (-1))) by done.
    assert (drop 3 (c0 ++ concat (cs ++ c :: codes')) = concat (cs ++ c :: codes')) as -> by (destruct Hr; done).
    apply (IH _ _ (pre ++ b)); [done| |].
    + cbn [dram]. by rewrite <- !app_assoc.
    + rewrite zlen_app. destruct Hb0 as [-> _]. unfold ECC_SIZE, ECC_BLOCK. lia.
Qed.

(** A block with two inverted bits stops the board.  When the first block of a
page that cannot be corrected has two inverted bits whose addresses do not differ
in exactly six positions, [nand_read_page] never returns: it ends in its endless
loop, so the caller that would skip the block never sees a failure. *)
Lemma nand_read_page_hangs row good good' codes b a1 a2 rest codes' oob s buf pre old post :
  0 <= row < 2 ^ 17 -> zlen oob = OOB_SIZE -> Forall is_byte (flash row) ->
  flash row = concat (good' ++ flip (flip b a1) a2 :: rest) ++ oob ->
  length (good' ++ flip (flip b a1) a2 :: rest) = ECC_STEPS -> Forall (fun b => zlen b = 512) rest ->
  (fun pos => nth pos oob 0) <$> ecc_pos = concat (codes ++ stored_code b :: codes') ->
  Forall3 readable good good' codes -> Forall is_block good -> is_block b ->
  0 <= a1 < 4096 -> 0 <= a2 < 4096 -> a1 <> a2 -> popcount 12 (Z.lxor a1 a2) <> 6 ->
  block_ecc b <> 0x0FFF0FFF ->
  dram s = pre ++ old ++ post -> zlen old = PAGE_SIZE -> buf = CFG_LOADADDR + zlen pre ->
  nand_read_page buf (2048 * row) s = Fault Hang.
Proof.
  intros Hr Ho Hf Er Hl Hrest Ec H3 Hg Hb Ha1 Ha2 Hne Hp He Hd Hold Hbuf.
  assert (zlen (flip (flip b a1) a2) = 512) as Hz.
  { unfold zlen. rewrite !length_flip. exact (proj1 Hb). }
  destruct (nand_read_page_upto row _ oob s buf pre old post Hr Er Hf Ho Hl) as (es & E); try done.
  { apply Forall_app. split; [by apply (readable_lengths good _ codes)|]. by apply Forall_cons. }
  rewrite E, Ec. rewrite length_app, <- (Forall3_length_lm _ _ _ _ H3) in Hl. cbn [length] in Hl. rewrite <- Hl.
  eapply (correct_loop_hangs good good' codes rest); try done. by apply hw_ecc_detects_two_bits.
Qed.
End correctness.
