(* ===== verification/Bch.v ===== *)
(** * The BCH decoder of the boot loader

[src/x-loader/lib/omap_bch_decoder.c]: arithmetic in the field of 2^13 elements, the
syndromes, Berlekamp's algorithm for the error locator polynomial, and the search for
its roots.  All numbers are unsigned; none gets longer than 14 bits, except the
locations, which are cut to 32.  An access outside an array is [None]. *)
From Stdlib Require Import ZArith List Bool Lia.
Import ListNotations.
Open Scope Z_scope.

Definition mm : nat := 13.
Definition kk_shorten : Z := 4096.
Definition nn : nat := 8191.
Definition PPP : Z := 0x201B.
Definition P : Z := 0x001B.
Definition POLY : nat := 12.

(** * The code *)

(** [((a >> k) & 1) == 1] *)
Definition bit (a : Z) (k : nat) : bool := Z.land (Z.shiftr a (Z.of_nat k)) 1 =? 1.

(** One round of the multiplication, on [R] and [R1]. *)
Definition mpy_step (a b : Z) (s : Z * Z) (k : nat) : Z * Z :=
  let '(R, R1) := s in
  let R := Z.land (Z.shiftl R 1) 0x1FFE in
  let R := if R1 =? 1 then Z.lxor R P else R in
  let R := if bit a (POLY - k) then Z.lxor R b else R in
  (R, if (k <? POLY)%nat then Z.land (Z.shiftr R (Z.of_nat POLY)) 1 else R1).
Definition mpy_mod_gf (a b : Z) : Z := fst (fold_left (mpy_step a b) (seq 0 mm) (0, 0)).

(** Arrays. *)
Definition get (l : list Z) (i : nat) : option Z := nth_error l i.
Fixpoint put (l : list Z) (i : nat) (v : Z) : option (list Z) :=
  match l, i with
  | [], _ => None
  | _ :: l, O => Some (v :: l)
  | x :: l, S i => option_map (cons x) (put l i v)
  end.
Definition obind {A B} (m : option A) (k : A -> option B) : option B := match m with Some a => k a | None => None end.
Notation "'let?' x ':=' m 'in' k" := (obind m (fun x => k)) 
  (at level 10, x pattern, m at level 100, k at level 200).

(** ** The search for roots *)

(** [gammas[k]] times the powers of the inverse of alpha, from [alpha] on. *)
Fixpoint chien_mul (alpha : Z) (gammas : list Z) {struct gammas} : list Z :=
  match gammas with
  | [] => []
  | g :: gammas => mpy_mod_gf g alpha :: chien_mul (mpy_mod_gf alpha (Z.shiftr PPP 1)) gammas
  end.

Definition ecc_bits (select_4_8 : Z) : Z := if select_4_8 =? 0 then 52 else 104.

Definition location_of (select_4_8 i : Z) : Z :=
  let b := Z.lor (Z.land (i - 1) (Z.lnot 7)) (7 - Z.land (i - 1) 7) in
  (kk_shorten - (b - 2 * ecc_bits select_4_8) - 1) mod 2 ^ 32.

(** The loop over [i], for [n] more rounds. *)
Fixpoint chien_loop (n : nat) (select_4_8 err_nums i count : Z) (gammas location : list Z) {struct n} : option (Z * list Z) :=
  match n with
  | O => Some (count, location)
  | S n =>
    if count <? err_nums then
      let elp_sum := fold_left Z.lxor gammas 1 in
      let gammas := chien_mul (Z.shiftr PPP 1) gammas in
      if (elp_sum =? 0) && ((select_4_8 =? 0) || (select_4_8 =? 1)) && (2 * ecc_bits select_4_8 <=? i) then
        let? location := put location (Z.to_nat count) (location_of select_4_8 i) in
        chien_loop n select_4_8 err_nums (i + 1) (count + 1) gammas location
      else chien_loop n select_4_8 err_nums (i + 1) count gammas location
    else Some (count, location)
  end.
Definition chien (select_4_8 err_nums : Z) (err location : list Z) : option (Z * list Z) :=
  let? (count, location) := chien_loop nn select_4_8 err_nums 1 0 err location in
  Some (if negb (count =? err_nums) then -1 else count, location).

(** ** Berlekamp's algorithm *)

(** Step 0: the discrepancy. *)
Fixpoint discrepancy (gammas synd : list Z) (iteration : nat) (loops : list nat) (d : Z) {struct loops} : option Z :=
  match loops with
  | [] => Some d
  | loop :: loops =>
    let? g := get gammas loop in
    if (iteration <? loop)%nat then None else
    let? s := get synd (iteration - loop) in
    discrepancy gammas synd iteration loops (Z.lxor d (mpy_mod_gf g s))
  end.

(** Step 1: one round of the inversion, on [v], [u], [ss], [invd], [e] and [sign]. *)
Definition inv_step (s : Z * Z * Z * Z * Z * Z) : Z * Z * Z * Z * Z * Z :=
  let '(v, u, ss, invd, e, sign) := s in
  let C1 := Z.land (Z.shiftr v 13) 1 in
  let C2 := Z.land C1 sign in
  let sign := Z.lxor sign (Z.lxor C2 (if e =? 0 then 1 else 0)) in
  let '(v', ss') := if C1 =? 1 then (Z.lxor v u, Z.lxor ss invd) else (v, ss) in
  let v' := Z.land (Z.shiftl v' 1) 0x3FFF in
  let '(u, invd, e) := if C2 =? 1 then (v, ss, - e) else (u, invd, e) in
  (v', u, ss', Z.shiftr invd 1, e - 1, sign).
Definition inverse (d : Z) : Z :=
  let '(_, _, _, invd, _, _) := Nat.iter (2 * POLY + 1) inv_step (Z.shiftl d 1, PPP, 0x2000, 0, -1, 1) in invd.

(** Steps 2 and 3 for the coefficients from [loop] to [iteration + 1], of which [n] are
left.  In the first case ([2 * LL < iteration + 1]) [D] takes the old polynomial; in the
second the code falls through to step 3 as well, except at the last coefficient, and [D]
takes the new one. *)
Fixpoint update (n loop : nat) (iteration LL : nat) (d invd : Z) (gammas D : list Z) {struct n} : option (list Z * list Z * nat) :=
  match n with
  | O => Some (gammas, D, LL)
  | S n =>
    let? dl := get D loop in
    let? g := get gammas loop in
    let next_gamma := Z.lxor g (mpy_mod_gf d dl) in
    let swap := (2 * LL <? iteration + 1)%nat in
    let last := (loop =? iteration + 1)%nat in
    let? gammas := if swap then Some gammas else put gammas loop next_gamma in
    if negb swap && last then Some (gammas, D, LL) else
    let? g := get gammas loop in
    let? D := put D loop (mpy_mod_gf g invd) in
    let? gammas := put gammas loop next_gamma in
    if last then Some (gammas, D, (iteration - LL + 1)%nat)
    else update n (S loop) iteration LL d invd gammas D
  end.

(** Step 4 *)
Definition shift (D : list Z) : list Z := 0 :: firstn 15 D.

(** One round of the [while] loop. *)
Definition berlekamp_step (synd : list Z) (iteration : nat) (s : list Z * list Z * nat) : option (list Z * list Z * nat) :=
  let '(gammas, D, LL) := s in
  let? d := discrepancy gammas synd iteration (seq 0 (LL + 1)) 0 in
  let? (gammas, D, LL) :=
    if d =? 0 then Some (gammas, D, LL)
    else update (iteration + 2) 0 iteration LL d (inverse d) gammas D in
  Some (gammas, shift D, LL).

(** The [while] loop, with [n] iterations left of [(select_4_8 + 1) * 8]. *)
Fixpoint berlekamp_loop (n : nat) (t : nat) (synd : list Z) (iteration : nat) (s : list Z * list Z * nat) {struct n} : option (list Z * list Z * nat) :=
  match n with
  | O => Some s
  | S n =>
    if (snd s <=? t)%nat then
      let? s := berlekamp_step synd iteration s in
      berlekamp_loop n t synd (S iteration) s
    else Some s
  end.

(** Both answers of [berlekamp]: the number of errors and [err]. *)
Definition berlekamp (select_4_8 : nat) (synd : list Z) : option (nat * list Z) :=
  let? (gammas, _, LL) :=
    berlekamp_loop ((select_4_8 + 1) * 2 * 4) ((select_4_8 + 1) * 4) synd 0
      (1 :: repeat 0 15, 0 :: 1 :: repeat 0 14, 0%nat) in
  Some (LL, firstn 8 (skipn 1 gammas)).

(** ** The syndromes *)

(** One step of the shift register: times alpha. *)
Definition lfsr (x : Z) : Z :=
  let alpha_bit := Z.land (Z.shiftr x (Z.of_nat POLY)) 1 in
  let x := Z.land (Z.shiftl x 1) 0x1FFF in
  if alpha_bit =? 1 then Z.lxor x P else x.

(** [(ecc[ecc_pos/8] >> (7 - ecc_pos%8)) & 1] *)
Definition ecc_bit (ecc : list Z) (ecc_pos : nat) : option Z :=
  let? b := get ecc (ecc_pos / 8) in
  Some (Z.land (Z.shiftr b (7 - Z.of_nat (ecc_pos mod 8))) 1).

Fixpoint syn_start (t : nat) (R_bit : Z) (syn : list Z) {struct t} : list Z :=
  match t, syn with S t, _ :: s :: syn => R_bit :: s :: syn_start t R_bit syn | _, _ => syn end.

(** The inner loop, from [k] on, over [syn[2*k]] and [pow_alpha[k]]. *)
Fixpoint syn_round (t k : nat) (R_bit : Z) (syn pow_alpha : list Z) {struct t} : list Z * list Z :=
  match t, syn, pow_alpha with
  | S t, s0 :: s1 :: syn, p :: pow_alpha =>
    let '(syn, pow_alpha) := syn_round t (S k) R_bit syn pow_alpha in
    ((if R_bit =? 1 then Z.lxor s0 p else s0) :: s1 :: syn, Nat.iter (2 * k + 1) lfsr p :: pow_alpha)
  | _, _, _ => (syn, pow_alpha)
  end.

(** The [while] loop, over the [n] positions from [ecc_min + n - 1] down. *)
Fixpoint syn_loop (n t : nat) (ecc : list Z) (ecc_min : nat) (syn pow_alpha : list Z) {struct n} : option (list Z) :=
  match n with
  | O => Some syn
  | S n =>
    let? R_bit := ecc_bit ecc (ecc_min + n) in
    let '(syn, pow_alpha) := syn_round t 0 R_bit syn pow_alpha in
    syn_loop n t ecc ecc_min syn pow_alpha
  end.

(** Step 2: the even syndromes, as squares. *)
Fixpoint syn_squares (ks : list nat) (syn : list Z) {struct ks} : option (list Z) :=
  match ks with
  | [] => Some syn
  | k :: ks =>
    let? s := get syn k in
    let? syn := put syn (2 * k + 1) (mpy_mod_gf s s) in
    syn_squares ks syn
  end.

Definition pow_alpha0 : list Z := [0x0002; 0x0008; 0x0020; 0x0080; 0x0200; 0x0800; 0x001B; 0x006C].

Definition syndrome (select_4_8 : nat) (ecc syn : list Z) : option (list Z) :=
  let '(t, ecc_pos, ecc_min) := match select_4_8 with O => (4, 55, 4)%nat | _ => (8, 103, 0)%nat end in
  let? R_bit := ecc_bit ecc ecc_pos in
  let syn := syn_start t R_bit syn in
  let? syn := syn_loop (ecc_pos - ecc_min) t ecc ecc_min syn pow_alpha0 in
  syn_squares (seq 0 t) syn.

(** ** The decoder: its answer and [err_loc] *)
Definition decode_bch (select_4_8 : nat) (ecc err_loc : list Z) : option (Z * list Z) :=
  let? syn := syndrome select_4_8 ecc (repeat 0 16) in
  let? (no_of_err, err_poly) := berlekamp select_4_8 syn in
  if (no_of_err <=? Nat.shiftl 4 select_4_8)%nat
  then chien (Z.of_nat select_4_8) (Z.of_nat no_of_err) err_poly err_loc
  else Some (Z.of_nat no_of_err, err_loc).

(** * Arrays *)
Notation at_ l i := (nth i l 0).

Lemma get_at l i : (i < length l)%nat -> get l i = Some (at_ l i).
Proof. intros Hi. unfold get. now apply nth_error_nth'. Qed.

Lemma put_at l i v : (i < length l)%nat -> exists l', put l i v = Some l' /\ length l' = length l /\
  forall j, at_ l' j = if (j =? i)%nat then v else at_ l j.
Proof.
  revert i. induction l as [|x l IH]; intros i Hi; cbn [length] in Hi; [lia|].
  destruct i as [|i]; cbn [put].
  - eexists. split; [reflexivity|]. split; [reflexivity|]. intros [|j]; reflexivity.
  - destruct (IH i) as (l' & E & Hl & Hn); [lia|]. rewrite E. eexists. split; [reflexivity|].
    cbn [length]. split; [lia|]. intros [|j]; [reflexivity|]. cbn [nth Nat.eqb]. apply Hn.
Qed.

Lemma discrepancy_some gammas synd n loops d :
  (forall i, In i loops -> i < length gammas /\ i <= n)%nat -> (n < length synd)%nat ->
  discrepancy gammas synd n loops d =
    Some (fold_left Z.lxor (map (fun i => mpy_mod_gf (at_ gammas i) (at_ synd (n - i))) loops) d).
Proof.
  intros H Hn. revert d. induction loops as [|i loops IH]; intros d; [reflexivity|]. cbn [discrepancy map fold_left].
  destruct (H i (or_introl eq_refl)) as [H1 H2]. rewrite (get_at gammas) by exact H1. cbn [obind].
  replace (n <? i)%nat with false by (symmetry; apply Nat.ltb_ge; exact H2).
  rewrite get_at by lia. cbn [obind]. apply IH. intros j Hj. apply H. now right.
Qed.

(** One round of steps 2 and 3. *)
Lemma update_step m loop n LL d invd g D :
  length g = 16%nat -> length D = 16%nat -> (loop <= n + 1)%nat -> (n <= 14)%nat ->
  exists g' D', update (S m) loop n LL d invd g D =
      (if (loop =? n + 1)%nat then Some (g', D', if (2 * LL <? n + 1)%nat then (n - LL + 1)%nat else LL)
       else update m (S loop) n LL d invd g' D') /\
    length g' = 16%nat /\ length D' = 16%nat /\
    (forall j, at_ g' j = if (j =? loop)%nat then Z.lxor (at_ g loop) (mpy_mod_gf d (at_ D loop)) else at_ g j) /\
    (forall j, j <> loop -> at_ D' j = at_ D j) /\
    ((2 * LL < n + 1)%nat -> at_ D' loop = mpy_mod_gf (at_ g loop) invd).
Proof.
  intros Hg HD Hl Hn. cbn [update]. rewrite !get_at by lia. cbn [obind].
  set (ng := Z.lxor _ _).
  destruct (put_at g loop ng) as (g1 & E1 & L1 & H1); [lia|].
  destruct (put_at g1 loop ng) as (g2 & E2 & L2 & H2); [lia|].
  assert (Hg2 : forall j, at_ g2 j = if (j =? loop)%nat then ng else at_ g j).
  { intros j. rewrite H2, H1. now destruct (j =? loop)%nat. }
  destruct (Nat.ltb_spec (2 * LL) (n + 1)) as [Hs|Hs]; cbn [negb andb obind].
  - rewrite get_at by lia. cbn [obind].
    destruct (put_at D loop (mpy_mod_gf (at_ g loop) invd)) as (D1 & E3 & L3 & H3); [lia|].
    rewrite E3. cbn [obind]. rewrite E1. cbn [obind]. exists g1, D1. split; [reflexivity|].
    split; [lia|]. split; [lia|]. split; [exact H1|]. split; [intros j Hj|intros _]; rewrite H3.
    + now replace (j =? loop)%nat with false by (symmetry; apply Nat.eqb_neq; exact Hj).
    + now rewrite Nat.eqb_refl.
  - rewrite E1. cbn [obind]. destruct (loop =? n + 1)%nat.
    + exists g1, D. split; [reflexivity|]. split; [lia|]. split; [lia|]. split; [exact H1|]. split; [reflexivity | lia].
    + rewrite get_at by lia. cbn [obind].
      destruct (put_at D loop (mpy_mod_gf (at_ g1 loop) invd)) as (D1 & E3 & L3 & H3); [lia|].
      rewrite E3. cbn [obind]. rewrite E2. cbn [obind]. exists g2, D1. split; [reflexivity|].
      split; [lia|]. split; [lia|]. split; [exact Hg2|]. split; [|lia]. intros j Hj. rewrite H3.
      now replace (j =? loop)%nat with false by (symmetry; apply Nat.eqb_neq; exact Hj).
Qed.

#[local] Ltac only_at loop n j :=
  destruct (Nat.leb_spec loop j), (Nat.leb_spec (S loop) j), (Nat.leb_spec j (n + 1)), (Nat.eqb_spec j loop);
  cbn [andb]; try lia; try subst j; auto.

(** The loop of steps 2 and 3 from [loop] on. *)
Lemma update_loop m loop n LL d invd g D :
  length g = 16%nat -> length D = 16%nat -> (n <= 14)%nat -> (loop + S m = n + 2)%nat ->
  exists g' D', update (S m) loop n LL d invd g D =
      Some (g', D', if (2 * LL <? n + 1)%nat then (n - LL + 1)%nat else LL) /\
    length g' = 16%nat /\ length D' = 16%nat /\
    (forall j, at_ g' j = if (loop <=? j)%nat && (j <=? n + 1)%nat then Z.lxor (at_ g j) (mpy_mod_gf d (at_ D j)) else at_ g j) /\
    ((2 * LL < n + 1)%nat -> forall j, at_ D' j = if (loop <=? j)%nat && (j <=? n + 1)%nat then mpy_mod_gf (at_ g j) invd else at_ D j).
Proof.
  revert loop g D. induction m as [|m IH]; intros loop g D Hg HD Hn Hl.
  - destruct (update_step 0 loop n LL d invd g D) as (g1 & D1 & E & L1 & L2 & H1 & H2 & H3); try lia.
    rewrite E, (proj2 (Nat.eqb_eq _ _)) by lia. exists g1, D1. split; [reflexivity|]. repeat split; try assumption.
    + intros j. rewrite H1. only_at loop n j.
    + intros Hs j. only_at loop n j.
  - destruct (update_step (S m) loop n LL d invd g D) as (g1 & D1 & E & L1 & L2 & H1 & H2 & H3); try lia.
    rewrite E, (proj2 (Nat.eqb_neq _ _)) by lia.
    destruct (IH (S loop) g1 D1) as (g2 & D2 & E2 & L3 & L4 & H4 & H5); try lia.
    rewrite E2. exists g2, D2. split; [reflexivity|]. repeat split; try assumption.
    + intros j. rewrite H4, H1. only_at loop n j. now rewrite H2 by lia.
    + intros Hs j. rewrite (H5 Hs), H1. only_at loop n j.
Qed.

Lemma update_all n LL d invd g D : length g = 16%nat -> length D = 16%nat -> (n <= 14)%nat ->
  exists g' D', update (n + 2) 0 n LL d invd g D = Some (g', D', if (2 * LL <? n + 1)%nat then (n - LL + 1)%nat else LL) /\
    length g' = 16%nat /\ length D' = 16%nat /\
    (forall j, (j < S (S n))%nat -> at_ g' j = Z.lxor (at_ g j) (mpy_mod_gf d (at_ D j))) /\
    (forall j, (S (S n) <= j)%nat -> at_ g' j = at_ g j) /\
    ((2 * LL < n + 1)%nat -> (forall j, (j < S (S n))%nat -> at_ D' j = mpy_mod_gf (at_ g j) invd) /\
                             (forall j, (S (S n) <= j)%nat -> at_ D' j = at_ D j)).
Proof.
  intros Hg HD Hn. replace (n + 2)%nat with (S (S n)) by lia.
  destruct (update_loop (S n) 0 n LL d invd g D) as (g' & D' & E & L1 & L2 & H1 & H2); try lia.
  assert (Hlt : forall j, (j < S (S n))%nat -> (0 <=? j)%nat && (j <=? n + 1)%nat = true)
    by (intros j Hj; apply andb_true_iff; rewrite !Nat.leb_le; lia).
  assert (Hge : forall j, (S (S n) <= j)%nat -> (0 <=? j)%nat && (j <=? n + 1)%nat = false)
    by (intros j Hj; apply andb_false_iff; rewrite !Nat.leb_gt; lia).
  exists g', D'. repeat (split; [assumption|]). split; [|split; [|intros Hs; split]]; intros j Hj;
    rewrite ?H1, ?H2 by exact Hs; rewrite ?Hlt, ?Hge by exact Hj; reflexivity.
Qed.

Lemma shift_at D j : length D = 16%nat -> (j < 16)%nat -> at_ (shift D) j = match j with O => 0 | S j => at_ D j end.
Proof.
  intros HD Hj. unfold shift. destruct j as [|j]; [reflexivity|]. cbn [nth].
  rewrite <- (firstn_skipn 15 D) at 2. rewrite app_nth1; [reflexivity|]. rewrite length_firstn. lia.
Qed.
Lemma shift_length D : length D = 16%nat -> length (shift D) = 16%nat.
Proof. intros HD. unfold shift. cbn [length]. rewrite length_firstn. lia. Qed.
