(* ===== verification/BchGf.v ===== *)
(** * The field of 2^13 elements behind the BCH decoder

What [Bch.mpy_mod_gf] computes is linear in both arguments, so that its laws need a check
on the powers of two only; the shift register is multiplication by alpha, and the
inversion is checked on all 8191 elements. *)
From Stdlib Require Import ZArith List Bool Lia.
From S2P Require Import Bch.
Import ListNotations.
Open Scope Z_scope.

(** The elements: 13 bits. *)
Definition gf (x : Z) : Prop := 0 <= x < 2 ^ 13.

(** ** Exclusive or *)
Ltac bitblast := apply Z.bits_inj'; intros i Hi; rewrite ?Z.lxor_spec, ?Z.land_spec, ?Z.lxor_spec, ?Z.testbit_0_l;
  repeat match goal with |- context [Z.testbit ?a ?j] => destruct (Z.testbit a j) end; reflexivity.

Lemma lxor_swap a b c d : Z.lxor (Z.lxor a b) (Z.lxor c d) = Z.lxor (Z.lxor a c) (Z.lxor b d).
Proof. bitblast. Qed.
Lemma land_lxor a b m : Z.land (Z.lxor a b) m = Z.lxor (Z.land a m) (Z.land b m).
Proof. bitblast. Qed.

Lemma bit_spec a k : bit a k = Z.testbit a (Z.of_nat k).
Proof.
  unfold bit. change 1 with (Z.ones 1) at 1. rewrite Z.land_ones, Z.shiftr_div_pow2, <- Z.testbit_spec' by lia.
  destruct (Z.testbit a _); reflexivity.
Qed.
Lemma bit_lxor a b k : bit (Z.lxor a b) k = xorb (bit a k) (bit b k).
Proof. rewrite !bit_spec. apply Z.lxor_spec. Qed.
Lemma if_lxor (c : bool) x y : (if c then Z.lxor x y else x) = Z.lxor x (if c then y else 0).
Proof. destruct c; [reflexivity | now rewrite Z.lxor_0_r]. Qed.

(** A sum of linear conditions. *)
Lemma if_xorb (c d : bool) y : (if xorb c d then y else 0) = Z.lxor (if c then y else 0) (if d then y else 0).
Proof. destruct c, d; cbn [xorb]; now rewrite ?Z.lxor_nilpotent, ?Z.lxor_0_r, ?Z.lxor_0_l. Qed.
Lemma if_lxor2 (c : bool) y z : (if c then Z.lxor y z else 0) = Z.lxor (if c then y else 0) (if c then z else 0).
Proof. destruct c; reflexivity. Qed.

(** ** The round of the multiplication as a linear map: [R1] is bit 12 of [R] *)
Definition mstep (a b R : Z) (k : nat) : Z :=
  Z.lxor (Z.lxor (Z.land (Z.shiftl R 1) 0x1FFE) (if bit R POLY then P else 0)) (if bit a (POLY - k) then b else 0).

Lemma mpy_step_eq a b R R1 k : (R1 =? 1) = bit R POLY ->
  fst (mpy_step a b (R, R1) k) = mstep a b R k /\
  ((k < POLY)%nat -> (snd (mpy_step a b (R, R1) k) =? 1) = bit (mstep a b R k) POLY).
Proof.
  intros H. unfold mpy_step. rewrite H, !if_lxor. unfold mstep. cbn [fst snd]. split; [reflexivity|].
  intros Hk. apply Nat.ltb_lt in Hk. rewrite Hk. reflexivity.
Qed.

Lemma mpy_fold a b ks R R1 : (R1 =? 1) = bit R POLY -> (forall k, In k ks -> (k < POLY)%nat) ->
  exists R1', fold_left (mpy_step a b) ks (R, R1) = (fold_left (mstep a b) ks R, R1') /\
    (R1' =? 1) = bit (fold_left (mstep a b) ks R) POLY.
Proof.
  revert R R1. induction ks as [|k ks IH]; intros R R1 H Hk; cbn [fold_left]; [eauto|].
  destruct (mpy_step_eq a b R R1 k H) as [E1 E2]. specialize (E2 (Hk k (or_introl eq_refl))).
  destruct (mpy_step a b (R, R1) k) as [R' R1']; cbn [fst snd] in *; subst R'.
  apply IH; [exact E2|]. intros j Hj. apply Hk. now right.
Qed.

Lemma mpy_eq a b : mpy_mod_gf a b = fold_left (mstep a b) (seq 0 mm) 0.
Proof.
  unfold mpy_mod_gf. change (seq 0 mm) with (seq 0 12 ++ [12%nat]). rewrite !fold_left_app.
  destruct (mpy_fold a b (seq 0 12) 0 0 eq_refl) as (R1 & E & HR); [intros k; rewrite in_seq; unfold POLY; lia|].
  rewrite E. cbn [fold_left]. apply mpy_step_eq, HR.
Qed.

(** ** Linearity *)
Lemma mstep_lin_l a a' b R R' k : mstep (Z.lxor a a') b (Z.lxor R R') k = Z.lxor (mstep a b R k) (mstep a' b R' k).
Proof.
  unfold mstep. rewrite Z.shiftl_lxor, land_lxor, !bit_lxor, !if_xorb.
  rewrite (lxor_swap (Z.land _ _)), (lxor_swap (Z.lxor (Z.land _ _) _)). reflexivity.
Qed.
Lemma mstep_lin_r a b b' R R' k : mstep a (Z.lxor b b') (Z.lxor R R') k = Z.lxor (mstep a b R k) (mstep a b' R' k).
Proof.
  unfold mstep. rewrite Z.shiftl_lxor, land_lxor, !bit_lxor, !if_xorb, if_lxor2.
  rewrite (lxor_swap (Z.land _ _)), (lxor_swap (Z.lxor (Z.land _ _) _)). reflexivity.
Qed.

Lemma mpy_lxor_l a a' b : mpy_mod_gf (Z.lxor a a') b = Z.lxor (mpy_mod_gf a b) (mpy_mod_gf a' b).
Proof.
  rewrite !mpy_eq. change 0 with (Z.lxor 0 0) at 1. generalize 0 at 1 3 as R. generalize 0 as R'. generalize (seq 0 mm) as ks.
  induction ks as [|k ks IH]; intros R' R; cbn [fold_left]; [reflexivity|]. rewrite mstep_lin_l. apply IH.
Qed.
Lemma mpy_lxor_r a b b' : mpy_mod_gf a (Z.lxor b b') = Z.lxor (mpy_mod_gf a b) (mpy_mod_gf a b').
Proof.
  rewrite !mpy_eq. change 0 with (Z.lxor 0 0) at 1. generalize 0 at 1 3 as R. generalize 0 as R'. generalize (seq 0 mm) as ks.
  induction ks as [|k ks IH]; intros R' R; cbn [fold_left]; [reflexivity|]. rewrite mstep_lin_r. apply IH.
Qed.
Lemma mpy_0_l b : mpy_mod_gf 0 b = 0.
Proof. generalize (mpy_lxor_l 0 0 b). rewrite Z.lxor_0_r, Z.lxor_nilpotent. tauto. Qed.
Lemma mpy_0_r a : mpy_mod_gf a 0 = 0.
Proof. generalize (mpy_lxor_r a 0 0). rewrite Z.lxor_0_r, Z.lxor_nilpotent. tauto. Qed.

(** ** Linear maps that agree on the powers of two agree *)
Definition additive (f : Z -> Z) : Prop := forall a b, f (Z.lxor a b) = Z.lxor (f a) (f b).

Lemma additive_0 f : additive f -> f 0 = 0.
Proof. intros H. generalize (H 0 0). rewrite Z.lxor_0_r, Z.lxor_nilpotent. tauto. Qed.

Lemma split_top n a : 0 <= n -> 0 <= a < 2 ^ (n + 1) ->
  a = Z.lxor (a mod 2 ^ n) (if Z.testbit a n then 2 ^ n else 0).
Proof.
  intros Hn Ha. apply Z.bits_inj'. intros i Hi. rewrite Z.lxor_spec.
  destruct (Z.ltb_spec i n) as [Hl|Hl].
  - rewrite Z.mod_pow2_bits_low by lia. destruct (Z.testbit a n);
      rewrite ?Z.pow2_bits_false, ?Z.testbit_0_l by lia; now rewrite xorb_false_r.
  - rewrite Z.mod_pow2_bits_high by lia. cbn [xorb].
    destruct (Z.eq_dec i n) as [->|Hne].
    + destruct (Z.testbit a n); rewrite ?Z.pow2_bits_true, ?Z.testbit_0_l by lia; reflexivity.
    + replace (Z.testbit a i) with false; [destruct (Z.testbit a n); rewrite ?Z.pow2_bits_false, ?Z.testbit_0_l by lia; reflexivity|].
      symmetry. rewrite <- (Z.mod_small a (2 ^ (n + 1))) by lia. apply Z.mod_pow2_bits_high. lia.
Qed.

Lemma additive_ext f g n : additive f -> additive g ->
  (forall i, (i < n)%nat -> f (2 ^ Z.of_nat i) = g (2 ^ Z.of_nat i)) ->
  forall a, 0 <= a < 2 ^ Z.of_nat n -> f a = g a.
Proof.
  intros Hf Hg. induction n as [|n IH]; intros He a Ha.
  - replace a with 0 by lia. now rewrite !additive_0.
  - rewrite Nat2Z.inj_succ, <- Z.add_1_r in Ha. rewrite (split_top (Z.of_nat n) a) by lia. rewrite Hf, Hg. f_equal.
    + apply IH; [intros; apply He; lia|]. apply Z.mod_pos_bound. lia.
    + destruct (Z.testbit a _); [apply He; lia | now rewrite !additive_0].
Qed.

Lemma additive_mpy_l b : additive (fun a => mpy_mod_gf a b).
Proof. intros a a'. apply mpy_lxor_l. Qed.
Lemma additive_mpy_r a : additive (mpy_mod_gf a).
Proof. intros b b'. apply mpy_lxor_r. Qed.
Lemma additive_comp f g : additive f -> additive g -> additive (fun x => f (g x)).
Proof. intros Hf Hg a b. rewrite Hg. apply Hf. Qed.

(** ** The laws of the field *)
Definition basis : list Z := map (fun i => 2 ^ Z.of_nat i) (seq 0 13).
Lemma basis_In i : (i < 13)%nat -> In (2 ^ Z.of_nat i) basis.
Proof. intros Hi. apply in_map_iff. exists i. split; [reflexivity|]. apply in_seq. lia. Qed.

Lemma basis_comm : forallb (fun a => forallb (fun b => mpy_mod_gf a b =? mpy_mod_gf b a) basis) basis = true.
Proof. vm_compute. reflexivity. Qed.
Lemma basis_assoc : forallb (fun a => forallb (fun b => forallb (fun c =>
  mpy_mod_gf a (mpy_mod_gf b c) =? mpy_mod_gf (mpy_mod_gf a b) c) basis) basis) basis = true.
Proof. vm_compute. reflexivity. Qed.
Lemma basis_one : forallb (fun a => mpy_mod_gf 1 a =? a) basis = true.
Proof. vm_compute. reflexivity. Qed.

Lemma forallb_In {A} (f : A -> bool) l a : forallb f l = true -> In a l -> f a = true.
Proof. intros H. rewrite forallb_forall in H. apply H. Qed.

Lemma mpy_comm a b : gf a -> gf b -> mpy_mod_gf a b = mpy_mod_gf b a.
Proof.
  intros Ha Hb. apply (additive_ext (fun a => mpy_mod_gf a b) (mpy_mod_gf b) 13); try exact Ha;
    [apply additive_mpy_l | apply additive_mpy_r |]. intros i Hi.
  apply (additive_ext (mpy_mod_gf (2 ^ Z.of_nat i)) (fun b => mpy_mod_gf b (2 ^ Z.of_nat i)) 13); try exact Hb;
    [apply additive_mpy_r | apply additive_mpy_l |]. intros j Hj.
  apply Z.eqb_eq. exact (forallb_In _ _ _ (forallb_In _ _ _ basis_comm (basis_In i Hi)) (basis_In j Hj)).
Qed.

Lemma mpy_assoc a b c : gf a -> gf b -> gf c -> mpy_mod_gf a (mpy_mod_gf b c) = mpy_mod_gf (mpy_mod_gf a b) c.
Proof.
  intros Ha Hb Hc.
  apply (additive_ext (fun a => mpy_mod_gf a (mpy_mod_gf b c)) (fun a => mpy_mod_gf (mpy_mod_gf a b) c) 13); try exact Ha;
    [apply additive_mpy_l | apply (additive_comp (fun x => mpy_mod_gf x c)); apply additive_mpy_l|]. intros i Hi.
  apply (additive_ext (fun b => mpy_mod_gf (2 ^ Z.of_nat i) (mpy_mod_gf b c)) (fun b => mpy_mod_gf (mpy_mod_gf (2 ^ Z.of_nat i) b) c) 13); try exact Hb;
    [apply (additive_comp (mpy_mod_gf _) (fun x => mpy_mod_gf x c)); [apply additive_mpy_r | apply additive_mpy_l]
    |apply (additive_comp (fun x => mpy_mod_gf x c)); [apply additive_mpy_l | apply additive_mpy_r] |]. intros j Hj.
  apply (additive_ext (fun c => mpy_mod_gf (2 ^ Z.of_nat i) (mpy_mod_gf (2 ^ Z.of_nat j) c)) (mpy_mod_gf (mpy_mod_gf (2 ^ Z.of_nat i) (2 ^ Z.of_nat j))) 13); try exact Hc;
    [apply additive_comp; apply additive_mpy_r | apply additive_mpy_r|]. intros k Hk.
  apply Z.eqb_eq. exact (forallb_In _ _ _ (forallb_In _ _ _ (forallb_In _ _ _ basis_assoc (basis_In i Hi)) (basis_In j Hj)) (basis_In k Hk)).
Qed.

Lemma mpy_1_l a : gf a -> mpy_mod_gf 1 a = a.
Proof.
  intros Ha. apply (additive_ext (mpy_mod_gf 1) (fun a => a) 13); try exact Ha; [apply additive_mpy_r | intros ? ?; reflexivity|].
  intros i Hi. apply Z.eqb_eq. exact (forallb_In _ _ _ basis_one (basis_In i Hi)).
Qed.

(** ** Range *)
Lemma gf_bits a : gf a <-> 0 <= a /\ forall i, 13 <= i -> Z.testbit a i = false.
Proof.
  split.
  - intros [H0 H1]. split; [exact H0|]. intros i Hi. rewrite <- (Z.mod_small a (2 ^ 13)) by (unfold gf; lia).
    apply Z.mod_pow2_bits_high. lia.
  - intros [H0 H1]. replace a with (a mod 2 ^ 13); [apply Z.mod_pos_bound; lia|].
    apply Z.bits_inj'. intros i Hi. destruct (Z.ltb_spec i 13).
    + now rewrite Z.mod_pow2_bits_low by lia.
    + rewrite Z.mod_pow2_bits_high by lia. now rewrite H1.
Qed.
Lemma gf_lxor a b : gf a -> gf b -> gf (Z.lxor a b).
Proof.
  rewrite !gf_bits. intros [Ha Ha'] [Hb Hb']. split; [now apply Z.lxor_nonneg|].
  intros i Hi. now rewrite Z.lxor_spec, Ha', Hb'.
Qed.
Lemma gf_land a m : gf m -> gf (Z.land a m).
Proof.
  rewrite !gf_bits. intros [Ha Ha']. split; [apply Z.land_nonneg; lia|].
  intros i Hi. rewrite Z.land_spec, Ha' by lia. apply andb_false_r.
Qed.
Lemma gf_mpy a b : gf b -> gf (mpy_mod_gf a b).
Proof.
  intros Hb. rewrite mpy_eq. assert (H0 : gf 0) by (unfold gf; lia). revert H0. generalize 0 as R. generalize (seq 0 mm) as ks.
  induction ks as [|k ks IH]; intros R HR; cbn [fold_left]; [exact HR|].
  apply IH. unfold mstep. apply gf_lxor; [apply gf_lxor|].
  - apply gf_land. unfold gf. lia.
  - destruct (bit R POLY); unfold gf, P; lia.
  - destruct (bit a _); [exact Hb | unfold gf; lia].
Qed.

(** ** Inverses *)
Fixpoint zfrom (n : nat) (z : Z) {struct n} : list Z := match n with O => [] | S n => z :: zfrom n (Z.succ z) end.
Lemma zfrom_In n z a : z <= a < z + Z.of_nat n -> In a (zfrom n z).
Proof.
  revert z. induction n as [|n IH]; intros z Ha; [lia|]. cbn [zfrom]. destruct (Z.eq_dec z a) as [->|Hne]; [now left|].
  right. apply IH. lia.
Qed.
Definition elements : list Z := zfrom (Z.to_nat 8191) 1.
Lemma elements_In a : gf a -> a <> 0 -> In a elements.
Proof. unfold gf. intros Ha H0. apply zfrom_In. rewrite Z2Nat.id; lia. Qed.
Lemma inverse_all : forallb (fun d => let i := inverse d in (mpy_mod_gf i d =? 1) && (0 <=? i) && (i <? 8192)) elements = true.
Proof. vm_compute. reflexivity. Qed.
Lemma mpy_inverse d : gf d -> d <> 0 -> mpy_mod_gf (inverse d) d = 1 /\ gf (inverse d).
Proof.
  intros Hd H0. generalize (forallb_In _ _ _ inverse_all (elements_In d Hd H0)).
  cbn zeta. rewrite !andb_true_iff, Z.eqb_eq, Z.leb_le, Z.ltb_lt. unfold gf. lia.
Qed.

(** ** The powers of alpha *)
Definition alpha_pow (n : nat) : Z := Nat.iter n lfsr 1.

Lemma lfsr_lxor : additive lfsr.
Proof.
  intros a b. unfold lfsr. change (Z.land (Z.shiftr ?x (Z.of_nat POLY)) 1 =? 1) with (bit x POLY).
  rewrite !if_lxor, bit_lxor, Z.shiftl_lxor, land_lxor, if_xorb. apply lxor_swap.
Qed.
Lemma basis_lfsr : forallb (fun a => lfsr a =? mpy_mod_gf 2 a) basis = true.
Proof. vm_compute. reflexivity. Qed.
Lemma lfsr_mpy a : gf a -> lfsr a = mpy_mod_gf 2 a.
Proof.
  intros Ha. apply (additive_ext lfsr (mpy_mod_gf 2) 13); try exact Ha; [exact lfsr_lxor | apply additive_mpy_r|].
  intros i Hi. apply Z.eqb_eq. exact (forallb_In _ _ _ basis_lfsr (basis_In i Hi)).
Qed.
Lemma gf_1 : gf 1. Proof. unfold gf. lia. Qed.
Lemma gf_2 : gf 2. Proof. unfold gf. lia. Qed.
Lemma gf_iter_lfsr n a : gf a -> gf (Nat.iter n lfsr a).
Proof. intros Ha. induction n as [|n IH]; cbn [Nat.iter]; [exact Ha|]. change (gf (lfsr (Nat.iter n lfsr a))). rewrite lfsr_mpy by exact IH. now apply gf_mpy. Qed.
Lemma gf_alpha n : gf (alpha_pow n).
Proof. apply gf_iter_lfsr, gf_1. Qed.
Lemma alpha_S n : alpha_pow (S n) = mpy_mod_gf 2 (alpha_pow n).
Proof. apply lfsr_mpy, gf_alpha. Qed.
Lemma alpha_add m n : alpha_pow (m + n) = mpy_mod_gf (alpha_pow m) (alpha_pow n).
Proof.
  induction m as [|m IH]; [symmetry; apply mpy_1_l, gf_alpha|].
  change (S m + n)%nat with (S (m + n)). rewrite !alpha_S, IH. apply mpy_assoc; [apply gf_2 | apply gf_alpha ..].
Qed.

Fixpoint no_one (n : nat) (x : Z) {struct n} : bool := match n with O => true | S n => negb (x =? 1) && no_one n (lfsr x) end.
Lemma no_one_spec n x : no_one n x = true -> forall i, (i < n)%nat -> Nat.iter i lfsr x <> 1.
Proof.
  revert x. induction n as [|n IH]; intros x H i Hi; [lia|]. cbn [no_one] in H. apply andb_true_iff in H as [H1 H2].
  destruct i as [|i]; [intros E; cbn in E; subst x; discriminate H1|].
  rewrite Nat.iter_succ_r. apply IH; [exact H2 | lia].
Qed.
Lemma alpha_order : no_one (Z.to_nat 8190) 2 = true.
Proof. vm_compute. reflexivity. Qed.
Lemma alpha_period : alpha_pow (Z.to_nat 8191) = 1.
Proof. vm_compute. reflexivity. Qed.
Lemma alpha_ne_1 n : (0 < n)%nat -> Z.of_nat n < 8191 -> alpha_pow n <> 1.
Proof.
  intros H0 Hn. destruct n as [|n]; [lia|]. unfold alpha_pow. rewrite Nat.iter_succ_r.
  apply (no_one_spec _ _ alpha_order). lia.
Qed.

(** ** Powers, sums of powers *)
Definition zpow (z : Z) (n : nat) : Z := Nat.iter n (mpy_mod_gf z) 1.
Definition beta : Z := Z.shiftr PPP 1.
Definition zsum (l : list Z) : Z := fold_left Z.lxor l 0.

(** The power sums of the locators of the positions [ps]. *)
Definition power_sum (ps : list nat) (j : nat) : Z := zsum (map (fun p => zpow (zpow 2 p) j) ps).

Lemma zpow_0 z : zpow z 0 = 1. Proof. reflexivity. Qed.
Lemma zpow_S z n : zpow z (S n) = mpy_mod_gf z (zpow z n). Proof. reflexivity. Qed.
Lemma gf_zpow z n : gf z -> gf (zpow z n).
Proof. intros Hz. unfold zpow. induction n as [|n IH]; [apply gf_1 | apply gf_mpy, IH]. Qed.
Lemma alpha_zpow n : alpha_pow n = zpow 2 n.
Proof. induction n as [|n IH]; [reflexivity|]. rewrite alpha_S, IH. reflexivity. Qed.
Lemma gf_beta : gf beta. Proof. unfold gf, beta, PPP. cbn. lia. Qed.
Lemma mpy_beta : mpy_mod_gf beta 2 = 1. Proof. vm_compute. reflexivity. Qed.
Lemma nn_Z : Z.of_nat nn = 8191. Proof. vm_compute. reflexivity. Qed.
Lemma zpow_ne_1 n : (0 < n)%nat -> (n < nn)%nat -> zpow 2 n <> 1.
Proof. intros H0 Hn. rewrite <- alpha_zpow. apply alpha_ne_1; [exact H0|]. generalize nn_Z. lia. Qed.
Lemma zsum_app l l' : zsum (l ++ l') = Z.lxor (zsum l) (zsum l').
Proof.
  unfold zsum. rewrite fold_left_app. generalize (fold_left Z.lxor l 0) as a. intros a.
  rewrite <- (Z.lxor_0_r a) at 1. generalize 0 as z. induction l' as [|x l' IH]; intros z; cbn [fold_left]; [reflexivity|].
  rewrite Z.lxor_assoc. apply IH.
Qed.
Lemma zsum_cons x l : zsum (x :: l) = Z.lxor x (zsum l).
Proof. exact (zsum_app [x] l). Qed.

Lemma zpow_add z a b : gf z -> zpow z (a + b) = mpy_mod_gf (zpow z a) (zpow z b).
Proof.
  intros Hz. induction a as [|a IH]; cbn [Nat.add]; [symmetry; apply mpy_1_l, gf_zpow, Hz|].
  rewrite !zpow_S, IH. apply mpy_assoc; [exact Hz | apply gf_zpow, Hz ..].
Qed.
Lemma zpow_zpow z a b : gf z -> zpow (zpow z a) b = zpow z (a * b).
Proof.
  intros Hz. induction b as [|b IH]; [now rewrite Nat.mul_0_r|].
  now rewrite zpow_S, IH, Nat.mul_succ_r, Nat.add_comm, zpow_add.
Qed.
