(* ===== verification/BchField.v ===== *)
(** * The field of 2^13 elements in MathComp

The numbers of 13 bits with exclusive or and [Bch.mpy_mod_gf] are a MathComp field
([gfe]), by the laws of [BchGf]; going between the two. *)
From Stdlib Require Import ZArith List Lia.
From HB Require Import structures.
From mathcomp Require Import boot order algebra.
From S2P Require Import Bch BchGf.
Set Implicit Arguments. Unset Strict Implicit. Unset Printing Implicit Defensive.
Import GRing.Theory.
#[local] Opaque mpy_mod_gf inverse Z.lxor.

Lemma Z_eqbP : Equality.axiom Z.eqb.
Proof. by move=> x y; apply: (iffP idP) => [/Z.eqb_eq | /Z.eqb_eq]. Qed.
HB.instance Definition _ := hasDecEq.Build Z Z_eqbP.

Definition in_gf (z : Z) : bool := Z.leb Z0 z && Z.ltb z (Z.pow (Zpos 2) (Zpos 13)).
Record gfe := Gfe { gfv : Z; gfP : in_gf gfv }.
HB.instance Definition _ := [isSub for gfv].
HB.instance Definition _ := [Equality of gfe by <:].

Lemma gf_gfv (x : gfe) : gf (gfv x).
Proof. case: x => z /=; rewrite /in_gf => /andP [/Z.leb_le H1 /Z.ltb_lt H2]; rewrite /gf; lia. Qed.
Lemma in_gfP z : gf z -> in_gf z.
Proof. rewrite /gf /in_gf => -[H1 H2]; apply/andP; split; [apply/Z.leb_le | apply/Z.ltb_lt]; lia. Qed.

Definition gfe0 : gfe := Gfe (erefl : in_gf Z0).
Definition of_gf z (H : gf z) : gfe := Gfe (in_gfP H).
Definition to_gfe (z : Z) : gfe := insubd gfe0 z.
Lemma to_gfeK z : gf z -> gfv (to_gfe z) = z.
Proof. by move=> H; rewrite /to_gfe val_insubd in_gfP. Qed.
Lemma gfvK : cancel gfv to_gfe.
Proof. by move=> x; apply: val_inj; rewrite /= to_gfeK //; apply: gf_gfv. Qed.

Lemma to_natK : cancel (fun x : gfe => Z.to_nat (gfv x)) (fun n => to_gfe (Z.of_nat n)).
Proof. by move=> x; rewrite Z2Nat.id ?gfvK //; case: (gf_gfv x). Qed.
HB.instance Definition _ := Choice.copy gfe (can_type to_natK).

Definition gfe_add (x y : gfe) : gfe := of_gf (gf_lxor _ _ (gf_gfv x) (gf_gfv y)).
Definition gfe_mul (x y : gfe) : gfe := of_gf (gf_mpy (gfv x) _ (gf_gfv y)).
Definition gfe1 : gfe := of_gf gf_1.

Lemma gfe_addA : associative gfe_add.
Proof. by move=> x y z; apply: val_inj; rewrite /= Z.lxor_assoc. Qed.
Lemma gfe_addC : commutative gfe_add.
Proof. by move=> x y; apply: val_inj; rewrite /= Z.lxor_comm. Qed.
Lemma gfe_add0 : left_id gfe0 gfe_add.
Proof. by move=> x; apply: val_inj; apply: Z.lxor_0_l. Qed.
Lemma gfe_addN : left_inverse gfe0 id gfe_add.
Proof. by move=> x; apply: val_inj; apply: Z.lxor_nilpotent. Qed.
HB.instance Definition _ := GRing.isZmodule.Build gfe gfe_addA gfe_addC gfe_add0 gfe_addN.

Lemma gfe_mulA : associative gfe_mul.
Proof. by move=> x y z; apply: val_inj; rewrite /= mpy_assoc //; apply: gf_gfv. Qed.
Lemma gfe_mulC : commutative gfe_mul.
Proof. by move=> x y; apply: val_inj; rewrite /= mpy_comm //; apply: gf_gfv. Qed.
Lemma gfe_mul1 : left_id gfe1 gfe_mul.
Proof. by move=> x; apply: val_inj; apply: mpy_1_l; apply: gf_gfv. Qed.
Lemma gfe_mulD : left_distributive gfe_mul gfe_add.
Proof. by move=> x y z; apply: val_inj; rewrite /= mpy_lxor_l. Qed.
Lemma gfe_1_neq_0 : gfe1 != gfe0.
Proof. by []. Qed.
HB.instance Definition _ := GRing.Zmodule_isComNzRing.Build gfe gfe_mulA gfe_mulC gfe_mul1 gfe_mulD gfe_1_neq_0.

Definition gfe_inv (x : gfe) : gfe := if x == gfe0 then gfe0 else to_gfe (inverse (gfv x)).
Lemma gfe_mulV (x : gfe) : x != 0%R -> gfe_mul (gfe_inv x) x = gfe1.
Proof.
move=> Hx; rewrite /gfe_inv (negbTE Hx); apply: val_inj => /=.
have Hv : gfv x <> Z0 by move=> E; case/eqP: Hx; apply: val_inj.
by case: (mpy_inverse _ (gf_gfv x) Hv) => E Hg; rewrite to_gfeK.
Qed.
Lemma gfe_inv0 : gfe_inv 0%R = 0%R.
Proof. by rewrite /gfe_inv eqxx. Qed.
HB.instance Definition _ := GRing.ComNzRing_isField.Build gfe gfe_mulV gfe_inv0.
