(* ===== verification/BchPoly.v ===== *)
(** * Berlekamp's algorithm on polynomials

Over any field of characteristic two: the error locator polynomial of a set of errors,
the equation between it and the power sums, the invariant of the algorithm with the
update of [src/x-loader/lib/omap_bch_decoder.c], and that it ends with the locator. *)
From HB Require Import structures.
From mathcomp Require Import boot order algebra.
Set Implicit Arguments. Unset Strict Implicit. Unset Printing Implicit Defensive.
Import GRing.Theory.
Local Open Scope ring_scope.

Section Poly.
Variable F : fieldType.
Hypothesis char2 : forall x : F, x + x = 0.
Implicit Types (p q A C D : {poly F}) (xs : seq F).

(** [low n p]: the coefficients of [p] below [n] are zero. *)
Definition low n p : Prop := forall i, (i < n)%N -> p`_i = 0.

Lemma low0 n : low n 0.
Proof. by move=> i _; rewrite coef0. Qed.
Lemma lowD n p q : low n p -> low n q -> low n (p + q).
Proof. by move=> Hp Hq i Hi; rewrite coefD Hp ?Hq ?addr0. Qed.
Lemma lowZ n (a : F) p : low n p -> low n (a *: p).
Proof. by move=> Hp i Hi; rewrite coefZ Hp ?mulr0. Qed.
Lemma lowM n p q : low n p -> low n (p * q).
Proof.
move=> Hp i Hi; rewrite coefM big1 // => j _.
by rewrite Hp ?mul0r //; apply: leq_ltn_trans Hi; rewrite -ltnS.
Qed.
Lemma lowS n p : low n p -> p`_n = 0 -> low n.+1 p.
Proof. by move=> Hp Hn i; rewrite ltnS leq_eqVlt => /orP [/eqP -> | /Hp]. Qed.
Lemma lowXX n p : low n p -> low n.+2 ('X * ('X * p)).
Proof. by move=> Hp [|[|i]] Hi; rewrite !coefXM //=; apply: Hp. Qed.

Lemma low_sub n m p : (m <= n)%N -> low n p -> low m p.
Proof. by move=> Hm Hp i Hi; apply: Hp; apply: leq_trans Hm. Qed.

(** The coefficient at the order. *)
Lemma lowM_coef n p q : low n p -> (p * q)`_n = p`_n * q`_0.
Proof.
move=> Hp; rewrite coefM big_ord_recr /= subnn big1 ?add0r // => j _.
by rewrite Hp ?mul0r.
Qed.
Lemma low_unM n p q : q`_0 = 1 -> low n (p * q) -> low n p.
Proof.
move=> Hq; elim: n => // n IH H.
have Hl : low n p by apply: IH => i Hi; apply: H; apply: ltnW.
by apply: lowS => //; rewrite -[p`_n]mulr1 -Hq -lowM_coef ?H.
Qed.

Lemma size_XM p : (size ('X * p)%R <= (size p).+1)%N.
Proof. by apply: leq_trans (size_polyMleq _ _) _; rewrite size_polyX. Qed.

(** ** In characteristic two a derivative has only even powers *)
Lemma mulr2n_0 (x : F) n : ~~ odd n -> x *+ n = 0.
Proof.
move=> Hn; rewrite -[n]odd_double_half (negbTE Hn) add0n -muln2 mulrnA mulr2n.
exact: char2.
Qed.
Lemma oppr_id (x : F) : - x = x.
Proof. by apply/esym/eqP; rewrite -addr_eq0 char2. Qed.
Lemma deriv_odd p n : odd n -> p^`()`_n = 0.
Proof. by move=> Hn; rewrite coef_deriv mulr2n_0 //= negbK. Qed.
Lemma low_odd p n : odd n -> low n p^`() -> low n.+1 p^`().
Proof. by move=> Hn Hp; apply: lowS => //; apply: deriv_odd. Qed.
Lemma polyD2 p : p + p = 0.
Proof. by apply/polyP => i; rewrite coefD char2 coef0. Qed.
Lemma derivX2M p : ('X * ('X * p))^`() = 'X * ('X * p^`()).
Proof.
by rewrite !derivM derivX !mul1r mulrDr addrA polyD2 add0r.
Qed.

(** ** The error locator polynomial *)
Definition locator xs : {poly F} := \prod_(x <- xs) (1 + x *: 'X).
Definition syndromes N xs : {poly F} := \poly_(j < N) \sum_(x <- xs) x ^+ j.+1.

Lemma locator0 xs : (locator xs)`_0 = 1.
Proof.
rewrite -horner_coef0 horner_prod big1 // => x _.
by rewrite hornerD hornerZ hornerX hornerC mulr0 addr0.
Qed.
Lemma size_factor (x : F) : (size (1 + x *: 'X : {poly F})%R <= 2)%N.
Proof.
apply: leq_trans (size_polyD _ _) _; rewrite geq_max size_poly1 /=.
by apply: leq_trans (size_scale_leq _ _) _; rewrite size_polyX.
Qed.
Lemma size_locator xs : (size (locator xs) <= (size xs).+1)%N.
Proof.
elim: xs => [|x xs IH]; rewrite /locator ?big_nil ?size_poly1 // big_cons -/(locator xs).
apply: leq_trans (size_polyMleq _ _) _.
by rewrite -subn1 leq_subLR; apply: leq_add (size_factor x) IH.
Qed.

(** Newton's identities: [locator * syndromes] is the derivative of the locator, below [N]. *)
Lemma geometric N (x : F) : low N ((1 + x *: 'X) * (\poly_(j < N) x ^+ j.+1) - x%:P).
Proof.
move=> i Hi; rewrite coefB coefC mulrDl mul1r coefD -scalerAl coefZ coefXM !coef_poly Hi.
case: i Hi => [|i] Hi /=; first by rewrite mulr0 addr0 expr1 subrr.
by rewrite (ltnW Hi) -exprS char2 subr0.
Qed.
Lemma newton N xs : low N (locator xs * syndromes N xs - (locator xs)^`()).
Proof.
elim: xs => [|x xs IH].
  rewrite /locator big_nil mul1r derivC subr0 /syndromes => i Hi.
  by rewrite coef_poly Hi big_nil.
have -> : syndromes N (x :: xs) = \poly_(j < N) x ^+ j.+1 + syndromes N xs.
  by apply/polyP => i; rewrite coefD !coef_poly; case: ifP => _; rewrite ?addr0 // big_cons.
rewrite /locator big_cons -/(locator xs) derivM derivD derivC add0r derivZ derivX mulrDr alg_polyC.
have -> : forall a l s1 s2 dl c : {poly F},
    a * l * s1 + a * l * s2 - (c * l + a * dl) = (a * s1 - c) * l + a * (l * s2 - dl).
  by move=> a l s1 s2 dl c; rewrite mulrBl mulrBr opprD !mulrA (mulrAC a l s1) addrACA.
apply: lowD; first by apply: lowM; apply: geometric.
by rewrite mulrC; apply: lowM.
Qed.

Lemma root_locator xs x : x != 0 -> root (locator xs) x^-1 = (x \in xs).
Proof.
move=> Hx; rewrite /root /locator horner_prod prodf_seq_eq0.
apply/hasP/idP => [[y Hy] | Hin].
  rewrite hornerD hornerZ hornerX hornerC /= addr_eq0 oppr_id => /eqP E.
  suff -> : x = y by [].
  by rewrite -[x]mul1r E -mulrA mulVf ?mulr1.
by exists x => //; rewrite /= hornerD hornerZ hornerX hornerC mulfV // char2 eqxx.
Qed.

Lemma simple_root xs x : uniq xs -> x != 0 -> x \in xs -> (locator xs)^`().[x^-1] != 0.
Proof.
move=> Hu Hx Hin; have Hp : perm_eq xs (x :: rem x xs) by apply: perm_to_rem.
rewrite /locator (perm_big _ Hp) big_cons -/(locator (rem x xs)) derivM hornerD !hornerM.
rewrite derivD derivC add0r derivZ derivX alg_polyC hornerC hornerD hornerZ hornerX hornerC mulfV // char2 mul0r addr0.
by rewrite mulf_neq0 // -/(root _ _) root_locator // mem_rem_uniq // inE eqxx.
Qed.

(** ** Discrepancies

[(C * locator)'] begins where [C]'s discrepancies do. *)
Section Machine.
Variables (xs : seq F) (N : nat) (s : nat -> F).
Hypothesis s_eq : forall j, (j < N)%N -> s j = \sum_(x <- xs) x ^+ j.+1.
Let nu := size xs.
Definition key C : {poly F} := (C * locator xs)^`().

Lemma keyD C D : key (C + D) = key C + key D.
Proof. by rewrite /key mulrDl derivD. Qed.
Lemma keyZ (a : F) C : key (a *: C) = a *: key C.
Proof. by rewrite /key -scalerAl derivZ. Qed.
Lemma keyXX C : key ('X * ('X * C)) = 'X * ('X * key C).
Proof. by rewrite /key -!mulrA derivX2M. Qed.

Definition disc C L n : F := \sum_(i < L.+1) C`_i * s (n - i).

Lemma disc_coef C L n : (size C <= L.+1)%N -> (L <= n < N)%N ->
  disc C L n = (C * syndromes N xs)`_n.
Proof.
move=> HC /andP [HL Hn]; rewrite coefM /disc.
rewrite (big_ord_widen n.+1 (fun i => C`_i * s (n - i))) // big_mkcond /=.
apply: eq_bigr => i _; have Hi : (n - i < N)%N by apply: leq_ltn_trans (leq_subr _ _) Hn.
rewrite coef_poly Hi s_eq //; case: ltnP => // Hl.
by rewrite nth_default ?mul0r //; apply: leq_trans HC Hl.
Qed.

Lemma disc_key C L n : (size C <= L.+1)%N -> (L <= n < N)%N -> low n (key C) ->
  disc C L n = (key C)`_n.
Proof.
move=> HC /[dup] HLn /andP [HL Hn] Hlow; rewrite (disc_coef HC HLn).
have E : key C = (C^`() + C * syndromes N xs) * locator xs - C * (locator xs * syndromes N xs - (locator xs)^`()).
  rewrite /key derivM mulrDl mulrBr opprB -!addrA; congr (_ + _).
  by rewrite addrCA -mulrA (mulrC (syndromes _ _)) subrr addr0.
have Hr : low N (C * (locator xs * syndromes N xs - (locator xs)^`())) by rewrite mulrC; apply: lowM; apply: newton.
have E' : key C + C * (locator xs * syndromes N xs - (locator xs)^`()) = (C^`() + C * syndromes N xs) * locator xs.
  by rewrite E subrK.
have Hp : low n ((C^`() + C * syndromes N xs) * locator xs).
  by rewrite -E'; apply: lowD => // i Hi; apply: Hr; apply: ltn_trans Hn.
have Hl := low_unM (locator0 xs) Hp.
have -> : (key C)`_n = ((C^`() + C * syndromes N xs) * locator xs)`_n.
  by rewrite -E' coefD Hr // addr0.
rewrite (lowM_coef _ Hl) locator0 mulr1 coefD coef_deriv.
case Ho : (odd n); first by rewrite mulr2n_0 ?add0r //= Ho.
by rewrite (nth_default _ (leq_trans HC _)) ?mul0rn ?add0r.
Qed.

(** ** The invariant of the loop *)
Record invariant n C D L (stale : bool) : Prop := Invariant {
  inv_C0 : C`_0 = 1;
  inv_size : (size C <= L.+1)%N;
  inv_Ln : (L <= n)%N;
  inv_Lnu : (L <= nu)%N;
  inv_low : low n (key C);
  inv_D : ~~ stale -> (size D + L <= n.+2)%N /\ D`_0 = 0 /\
    exists E, [/\ D = (if odd n then 'X * E else E),
                  low (n - odd n) (key E) & (key E)`_(n - odd n) = 1] }.

Lemma invariant0 : invariant 0 1 'X 0 false.
Proof.
split=> //; rewrite ?coefC ?size_poly1 // => _; rewrite size_polyX coefX; split=> //; split=> //.
exists 'X; split=> //; rewrite /key derivM derivX mul1r coefD locator0 coefXM addr0 //.
Qed.

Lemma inv_disc n C D L st : invariant n C D L st -> (n < N)%N -> disc C L n = (key C)`_n.
Proof. by case=> _ Hs HL _ Hl _ Hn; apply: disc_key => //; rewrite HL. Qed.
Lemma inv_odd n C D L st : invariant n C D L st -> (n < N)%N -> odd n -> disc C L n = 0.
Proof.
case=> _ Hs HL _ Hl _ Hn Ho; rewrite disc_key ?HL //.
exact: deriv_odd.
Qed.

(** A discrepancy bounds the number of errors. *)
Lemma disc_bound n C D L st : invariant n C D L st -> (n < N)%N -> disc C L n != 0 -> (n < nu + L)%N.
Proof.
case=> _ Hs HL _ Hl _ Hn; rewrite disc_key ?HL //; apply: contraR; rewrite -leqNgt => Hle.
rewrite coef_deriv (nth_default _ (leq_trans (size_polyMleq _ _) _)) ?mul0rn //.
rewrite -subn1 leq_subLR add1n; apply: leq_trans (leq_add Hs (size_locator xs)) _.
by rewrite addSn addnS !ltnS addnC.
Qed.

Lemma inv_quiet n C D L st : invariant n C D L st -> (n < N)%N -> disc C L n = 0 ->
  invariant n.+1 C ('X * D) L st.
Proof.
case=> H0 Hs HL Hnu Hl HD Hn Hd; split=> //; first exact: leqW.
  by apply: lowS => //; rewrite -(disc_key Hs) ?HL ?Hn.
case/HD => HsD [_ [E [ED HE1 HE2]]]; rewrite coefXM; split; first by rewrite (leq_trans (leq_add (size_XM D) (leqnn L))).
split=> //=.
case Ho : (odd n) ED HE1 HE2 => /= ED HE1 HE2; last by exists D; rewrite subn1 /= ED -[n in low n]subn0 -[n in _`_n]subn0.
exists ('X * ('X * E)); rewrite ED keyXX subn0; case: n Ho HE1 HE2 {Hn Hd Hl HL HD HsD} => // n _; rewrite subn1 /= => HE1 HE2.
by split=> //; [apply: lowXX | rewrite !coefXM].
Qed.

(** The two ways to take a correction. *)
Section Correction.
Variables (n L : nat) (C D : {poly F}).
Hypotheses (Hinv : invariant n C D L false) (HnN : (n < N)%N) (Hd : disc C L n != 0).
Let d := disc C L n.
Let C1 := C + d *: D.

Lemma corr_even : odd n = false.
Proof. by apply: contraNF Hd => Ho; apply/eqP; apply: (inv_odd Hinv). Qed.
Lemma corr_D : [/\ (size D + L <= n.+2)%N, D`_0 = 0, low n (key D) & (key D)`_n = 1].
Proof.
by case: (inv_D Hinv isT) => Hs [H0 [E []]]; rewrite corr_even subn0 => ED; rewrite -ED.
Qed.
Lemma corr_low : low n.+2 (key C1).
Proof.
have [_ _ Hl1 Hl2] := corr_D; have Hs := inv_size Hinv; have HL := inv_Ln Hinv; have Hl := inv_low Hinv.
have H1 : low n.+1 (key C1).
  apply: lowS; rewrite keyD keyZ; first by apply: lowD => //; apply: lowZ.
  by rewrite coefD coefZ Hl2 mulr1 /d (disc_key Hs) ?HL ?HnN ?char2.
by apply: low_odd => //=; rewrite corr_even.
Qed.
Lemma corr_0 : C1`_0 = 1.
Proof. by have [_ H0 _ _] := corr_D; rewrite coefD coefZ H0 mulr0 addr0 (inv_C0 Hinv). Qed.
Lemma corr_size m : (L <= m)%N -> (n < m + L)%N -> (size C1 <= m.+1)%N.
Proof.
have [HD _ _ _] := corr_D; move=> HLm Hnm.
rewrite (leq_trans (size_polyD _ _)) // geq_max (leq_trans (inv_size Hinv)) //=.
rewrite (leq_trans (size_scale_leq _ _)) // -(leq_add2r L) (leq_trans HD) //.
Qed.

(** The length changes and [D] takes the old polynomial. *)
Lemma inv_swap : (2 * L < n.+1)%N -> invariant n.+1 C1 ('X * (d^-1 *: C)) (n.+1 - L) false.
Proof.
rewrite mul2n -addnn => HL2; have HL := inv_Ln Hinv.
have Hb := disc_bound Hinv HnN Hd; split; first exact: corr_0.
- by apply: corr_size; rewrite ?subnK ?(leqW HL) // leq_subRL ?(leqW HL) // ltnW.
- exact: leq_subr.
- by rewrite leq_subLR addnC.
- by apply: low_sub corr_low.
move=> _; rewrite coefXM; split; last split=> //.
  rewrite (leq_trans (leq_add (size_XM _) (leqnn _))) // addSn ltnS.
  rewrite (leq_trans (leq_add (size_scale_leq _ _) (leqnn _))) //.
  by rewrite (leq_trans (leq_add (inv_size Hinv) (leqnn _))) // addSn subnKC // leqW.
exists (d^-1 *: C); rewrite /= corr_even subn1 /= keyZ; split=> //; first by apply: lowZ; exact: (inv_low Hinv).
by rewrite coefZ /d -(inv_disc Hinv HnN) mulVf.
Qed.

(** The length stays; whatever [D] is from then on. *)
Lemma inv_stay D' : (n.+1 <= 2 * L)%N -> invariant n.+1 C1 D' L true.
Proof.
rewrite mul2n -addnn => HL2; split=> //; first exact: corr_0.
- exact: corr_size.
- exact: leqW (inv_Ln Hinv).
- exact: inv_Lnu Hinv.
- by apply: low_sub corr_low.
Qed.
End Correction.

(** ** The end *)
Lemma inv_final C D L st : (2 * nu <= N)%N -> invariant N C D L st -> key C = 0.
Proof.
move=> HN [_ Hs _ Hnu Hl _]; apply/polyP => i; rewrite coef0.
case: (ltnP i N) => [/Hl // | Hi].
rewrite coef_deriv (nth_default _ (leq_trans (size_polyMleq _ _) _)) ?mul0rn //.
rewrite -subn1 leq_subLR add1n; apply: leq_trans (leq_add Hs (size_locator xs)) _.
rewrite addSn addnS !ltnS; apply: leq_trans (leq_trans HN Hi).
by rewrite mul2n -addnn leq_add2r.
Qed.

Lemma final_root C x : key C = 0 -> uniq xs -> x != 0 -> x \in xs -> root C x^-1.
Proof.
move=> HC Hu Hx Hin; have : (key C).[x^-1] = 0 by rewrite HC horner0.
have Hr : root (locator xs) x^-1 by rewrite root_locator.
rewrite /key derivM hornerD !hornerM (rootP Hr) mulr0 add0r => /eqP.
by rewrite mulf_eq0 (negbTE (simple_root Hu Hx Hin)) orbF.
Qed.

Lemma inv_roots C D L st : (2 * nu <= N)%N -> uniq xs -> 0 \notin xs -> invariant N C D L st ->
  L = nu /\ forall x, x != 0 -> root C x^-1 = (x \in xs).
Proof.
move=> HN Hu H0 Hi; have HC := inv_final HN Hi.
have Hne x : x \in xs -> x != 0 by apply: contraTneq => ->.
have Hall : all (root C) (map GRing.inv xs).
  by apply/allP => _ /mapP [x Hx ->]; apply: final_root => //; apply: Hne.
have Huniq : uniq (map GRing.inv xs) by rewrite map_inj_uniq //; apply: invr_inj.
have HC0 : C != 0 by apply: contraTneq (oner_neq0 F) => E; rewrite -(inv_C0 Hi) E coef0 eqxx.
have HL : L = nu.
  apply/eqP; rewrite eqn_leq (inv_Lnu Hi) /= -ltnS; apply: leq_trans (inv_size Hi).
  by have := max_poly_roots HC0 Hall Huniq; rewrite size_map.
split=> // x Hx; apply/idP/idP => [Hr | Hin]; last exact: final_root.
apply: contraT => Hn; suff: (nu.+1 < size C)%N by rewrite ltnNge -HL (inv_size Hi).
have := @max_poly_roots _ C (x^-1 :: map GRing.inv xs) HC0; rewrite /= Hr Hall Huniq size_map; apply=> //.
by rewrite andbT; apply: contra Hn => /mapP [y Hy /invr_inj ->].
Qed.

End Machine.
End Poly.
