(* ===== verification/BchBerlekamp.v ===== *)
(** * Berlekamp's algorithm on the arrays of the decoder

The arrays of [Bch.berlekamp_step] as polynomials over the field of [BchField]: a step
on the arrays is a step of [BchPoly].  What the decoder needs is stated at the end in
terms of numbers and lists ([BM_start], [BM_step], [BM_L], [BM_end]). *)
From Stdlib Require Import ZArith List Lia.
From HB Require Import structures.
From mathcomp Require Import boot order algebra.
From S2P Require Import Bch BchGf BchField BchPoly.
Set Implicit Arguments. Unset Strict Implicit. Unset Printing Implicit Defensive.
Import GRing.Theory.
#[local] Opaque mpy_mod_gf inverse Z.lxor nn.
Local Open Scope ring_scope.

Lemma even_odd n : Nat.even n = ~~ odd n.
Proof. by elim: n => // n IH; rewrite Nat.even_succ -Nat.negb_even IH. Qed.
Lemma ltb_ltn m n : Nat.ltb m n = (m < n)%N.
Proof. by apply/idP/idP => [/Nat.ltb_lt/ltP | H] //; apply/Nat.ltb_lt/ltP. Qed.

Lemma gfe_char2 (x : gfe) : x + x = 0.
Proof. by apply: val_inj; apply: Z.lxor_nilpotent. Qed.
Lemma gfvD (x y : gfe) : gfv (x + y) = Z.lxor (gfv x) (gfv y).
Proof. by []. Qed.
Lemma gfvM (x y : gfe) : gfv (x * y) = mpy_mod_gf (gfv x) (gfv y).
Proof. by []. Qed.
Lemma gfvV (x : gfe) : x != 0 -> gfv x^-1 = inverse (gfv x).
Proof.
move=> Hx; have Hv : gfv x <> Z0 by move=> E; case/eqP: Hx; apply: val_inj.
have -> : x^-1 = gfe_inv x by [].
rewrite /gfe_inv; case: eqP => [E | _]; first by case/eqP: Hx.
by rewrite to_gfeK //; case: (mpy_inverse _ (gf_gfv x) Hv).
Qed.
Lemma gfv_eq0 (x : gfe) : (x == 0) = Z.eqb (gfv x) Z0.
Proof. by []. Qed.

Lemma fold_sum m (f : nat -> Z) (h : nat -> gfe) : (forall i, (i < m)%N -> f i = gfv (h i)) ->
  fold_left Z.lxor (List.map f (List.seq 0 m)) Z0 = gfv (\sum_(i < m) h i).
Proof.
elim: m => [|m IH] H; first by rewrite big_ord0.
rewrite seq_S map_app fold_left_app IH; first by move=> i Hi; apply: H; apply: ltnW.
by rewrite big_ord_recr gfvD /= -H.
Qed.

Section Loop.
Variables (xs : seq gfe) (N : nat) (synd : list Z).
Hypotheses (HN : (N <= 16)%N) (Hsynd : length synd = 16) .
Let s j : gfe := to_gfe (at_ synd j).
Hypothesis Hgf : forall j, (j < N)%N -> gf (at_ synd j).
Hypothesis s_eq : forall j, (j < N)%N -> s j = \sum_(x <- xs) x ^+ j.+1.

Definition holds (l : list Z) (p : {poly gfe}) : Prop := forall i, (i < 16)%N -> gfv p`_i = at_ l i.

Record bm n (st : list Z * list Z * nat) (stale : bool) : Prop := Bm {
  bm_g : length st.1.1 = 16; bm_D : length st.1.2 = 16;
  bm_poly : exists C D, [/\ invariant xs n C D st.2 stale, holds st.1.1 C & ~~ stale -> holds st.1.2 D] }.

Lemma bm_disc n (C : {poly gfe}) L g : (size C <= L.+1)%N -> (L <= n < N)%N -> length g = 16 -> holds g C ->
  discrepancy g synd n (List.seq 0 (L + 1)) Z0 = Some (gfv (disc s C L n)).
Proof.
move=> Hs /andP [HL Hn] Hg HC; have Hn16 := leq_trans Hn HN.
have H1 i : List.In i (List.seq 0 (L + 1)) -> (i < length g)%coq_nat /\ (i <= n)%coq_nat.
  move=> /in_seq [_ /ltP]; rewrite plusE add0n addn1 ltnS => Hi; rewrite Hg; split; last by apply/leP; apply: leq_trans HL.
  by apply/ltP; apply: leq_ltn_trans Hi (leq_ltn_trans HL Hn16).
have H2 : (n < length synd)%coq_nat by rewrite Hsynd; apply/ltP.
rewrite (discrepancy_some _ _ _ _ _ H1 H2).
congr Some; rewrite addn1; apply: (fold_sum (h := fun i => C`_i * s (n - i))) => i; rewrite ltnS => Hi.
have Hni : (n - i < N)%N by apply: leq_ltn_trans (leq_subr _ _) Hn.
by rewrite gfvM HC ?(leq_ltn_trans Hi (leq_ltn_trans HL Hn16)) // to_gfeK //; apply: Hgf.
Qed.
Lemma holds_shift D l : length l = 16 -> holds l D -> holds (shift l) ('X * D).
Proof.
move=> Hl HD i Hi; rewrite shift_at //; first by apply/ltP.
by rewrite coefXM; case: i Hi => //= i Hi; apply: HD; apply: ltnW.
Qed.

Lemma holds0 l (p : {poly gfe}) i : holds l p -> (size p <= i)%N -> (i < 16)%N -> at_ l i = Z0.
Proof. by move=> Hl Hp Hi; rewrite -Hl // nth_default. Qed.

(** The new polynomials, coefficient by coefficient. *)
Lemma holds_sum n g D (C E : {poly gfe}) (d : gfe) g' : (size C <= n.+2)%N -> (size E <= n.+2)%N ->
  holds g C -> holds D E ->
  (forall j, (j < n.+2)%coq_nat -> at_ g' j = Z.lxor (at_ g j) (mpy_mod_gf (gfv d) (at_ D j))) ->
  (forall j, (n.+2 <= j)%coq_nat -> at_ g' j = at_ g j) ->
  holds g' (C + d *: E).
Proof.
move=> HC HE Hg HD H1 H2 i Hi; rewrite coefD coefZ gfvD gfvM.
case: (ltnP i n.+2) => Hin; first by rewrite H1 ?Hg ?HD //; apply/ltP.
have -> : at_ g' i = at_ g i by apply: H2; apply/leP.
by rewrite -Hg // (nth_default _ (leq_trans HE Hin)) mpy_0_r Z.lxor_0_r.
Qed.
Lemma holds_scale n g D (C E : {poly gfe}) (d : gfe) D' : (size C <= n.+2)%N -> (size E <= n.+2)%N -> d != 0 ->
  holds g C -> holds D E ->
  (forall j, (j < n.+2)%coq_nat -> at_ D' j = mpy_mod_gf (at_ g j) (inverse (gfv d))) ->
  (forall j, (n.+2 <= j)%coq_nat -> at_ D' j = at_ D j) ->
  holds D' (d^-1 *: C).
Proof.
move=> HC HE Hd Hg HD H1 H2 i Hi; rewrite coefZ mulrC.
case: (ltnP i n.+2) => Hin; first by rewrite H1 -?Hg -?gfvV // ?gfvM //; apply/ltP.
have -> : at_ D' i = at_ D i by apply: H2; apply/leP.
by rewrite -HD // (nth_default _ (leq_trans HC Hin)) (nth_default _ (leq_trans HE Hin)) mul0r.
Qed.

(** A correction. *)
Lemma bm_correct n g D L C E : length g = 16 -> length D = 16 -> invariant xs n C E L false -> holds g C -> holds D E ->
  (n < N)%N -> disc s C L n != 0 -> let d := gfv (disc s C L n) in
  exists g' D', update (n + 2) 0 n L d (inverse d) g D = Some (g', D', if (2 * L < n.+1)%N then (n.+1 - L)%N else L)
          /\ bm n.+1 (g', shift D', if (2 * L < n.+1)%N then (n.+1 - L)%N else L) (~~ (2 * L < n.+1)%N).
Proof.
move=> Hg HD Hi HC HE Hn Hd /=; have HL := inv_Ln Hi.
have Ho := corr_even gfe_char2 s_eq Hi Hn Hd; have [HsE _ _ _] := corr_D gfe_char2 s_eq Hi Hn Hd.
have Hn14 : (n <= 14)%coq_nat.
  by apply/leP; rewrite -ltnS ltn_neqAle -ltnS (leq_trans Hn HN) andbT; apply: contraFN Ho => /eqP ->.
have [g' [D' [-> [L1 [L2 [H1 [H2 H3]]]]]]] := update_all n L (gfv (disc s C L n)) (inverse (gfv (disc s C L n))) g D Hg HD Hn14.
have HsC : (size C <= n.+2)%N by apply: leq_trans (inv_size Hi) _; rewrite ltnS leqW.
have {}HsE : (size E <= n.+2)%N by apply: leq_trans HsE; apply: leq_addr.
have Hg' := holds_sum HsC HsE HC HE H1 H2.
have -> : Nat.ltb (2 * L) (n + 1) = (2 * L < n.+1)%N by rewrite ltb_ltn addn1.
have -> : Nat.add (Nat.sub n L) 1 = (n.+1 - L)%N by rewrite -[LHS]/(n - L + 1)%N addn1 subSn.
exists g', D'; split=> //; apply: Bm; [exact: L1 | exact: shift_length |].
case: (ltnP (2 * L) n.+1) => HL2; last first.
  exists (C + disc s C L n *: E), 0; split=> //.
  exact: (inv_stay gfe_char2 s_eq Hi Hn Hd).
exists (C + disc s C L n *: E), ('X * ((disc s C L n)^-1 *: C)); split=> //.
  exact: (inv_swap gfe_char2 s_eq Hi Hn Hd).
have HL2' : (2 * L < n + 1)%coq_nat by apply/ltP; rewrite addn1.
have [H4 H5] := H3 HL2'; move=> _; apply: holds_shift => //.
exact: (holds_scale HsC HsE Hd HC HE H4 H5).
Qed.

(** One iteration, with the next [stale]. *)
Lemma bm_step n g D L stale : bm n (g, D, L) stale -> (n < N)%N -> exists d : Z,
  [/\ discrepancy g synd n (List.seq 0 (L + 1)) Z0 = Some d,
      (L <= n)%N, (d <> Z0 -> ~~ odd n /\ (n < size xs + L)%N),
      d = Z0 -> bm n.+1 (g, shift D, L) stale &
      d <> Z0 -> stale = false ->
        exists g' D', update (n + 2) 0 n L d (inverse d) g D = Some (g', D', if (2 * L < n.+1)%N then (n.+1 - L)%N else L)
          /\ bm n.+1 (g', shift D', if (2 * L < n.+1)%N then (n.+1 - L)%N else L) (~~ (2 * L < n.+1)%N)].
Proof.
case=> /= Hg HD [C [E [Hi HC HE]]] Hn; have HL := inv_Ln Hi.
exists (gfv (disc s C L n)); rewrite (bm_disc (inv_size Hi)) ?HL //.
have Hne : gfv (disc s C L n) <> Z0 -> disc s C L n != 0 by move=> H; apply/eqP => E0; rewrite E0 in H.
split=> //.
- move=> /Hne Hd; split; last exact: (disc_bound gfe_char2 s_eq Hi).
  by apply: contra Hd => Ho; apply/eqP; apply: (inv_odd gfe_char2 s_eq Hi).
- move=> E0; have Ed : disc s C L n = 0 by apply: val_inj.
  apply: Bm; [exact: Hg | exact: shift_length |]; exists C, ('X * E).
  by split=> // [|Hs]; [apply: (inv_quiet gfe_char2 s_eq Hi) | apply: holds_shift HD (HE Hs)].
move=> /Hne Hd Hst; subst stale; have {}HE := HE isT; exact: (bm_correct Hg HD Hi HC HE Hn Hd).
Qed.

Lemma bm_start : bm 0 (Zpos 1 :: List.repeat Z0 15, Z0 :: Zpos 1 :: List.repeat Z0 14, 0%N) false.
Proof.
apply: Bm => //; exists 1, 'X; split; first exact: invariant0.
- by move=> i Hi; rewrite coef1; do 16 case: i Hi => [|i] Hi //.
- by move=> _ i Hi; rewrite coefX; do 16 case: i Hi => [|i] Hi //.
Qed.

(** After the last iteration the length is the number of errors, and the roots are the
inverses of their locators. *)
Lemma bm_end g D L stale : (2 * size xs <= N)%N -> uniq xs -> 0 \notin xs -> (size xs <= 8)%N -> bm N (g, D, L) stale ->
  L = size xs /\ at_ g 0 = Zpos 1 /\ (forall i, (i < 16)%N -> gf (at_ g i)) /\
  forall x, x != 0 -> (\sum_(i < 9) to_gfe (at_ g i) * x^-1 ^+ i == 0) = (x \in xs).
Proof.
move=> H2 Hu H0 H8 [/= Hg HD [C [E [Hi HC _]]]].
have [HL Hr] := inv_roots gfe_char2 H2 Hu H0 Hi; split=> //; split; first by rewrite -HC // (inv_C0 Hi).
have Hs : (size C <= 9)%N by apply: leq_trans (inv_size Hi) _; rewrite HL ltnS.
split=> [i Hi16 | x Hx]; first by rewrite -HC //; apply: gf_gfv.
rewrite -Hr // /root (horner_coef_wide _ Hs); congr (_ == _).
by apply: eq_bigr => i _; rewrite -HC ?gfvK //; apply: leq_trans (ltn_ord i) _.
Qed.
End Loop.
Lemma gfv_exp z n : gf z -> gfv (to_gfe z ^+ n) = zpow z n.
Proof. by move=> Hz; elim: n => [|n IH] //; rewrite exprS gfvM IH to_gfeK. Qed.

#[local] Opaque zpow.

Definition locator_of (p : nat) : gfe := to_gfe (zpow (Zpos 2) p).
Definition locators (ps : list nat) : seq gfe := List.map locator_of ps.

Lemma locator_exp p : locator_of p = to_gfe (Zpos 2) ^+ p.
Proof. by rewrite /locator_of -gfv_exp ?gfvK //; apply: gf_2. Qed.
Lemma gfv_locator p : gfv (locator_of p) = zpow (Zpos 2) p.
Proof. by rewrite to_gfeK //; apply: gf_zpow; apply: gf_2. Qed.
Lemma beta_alpha : to_gfe beta * to_gfe (Zpos 2) = 1.
Proof. by apply: val_inj; rewrite [LHS]gfvM (to_gfeK gf_beta) (to_gfeK gf_2) mpy_beta. Qed.
Lemma alpha_neq0 : to_gfe (Zpos 2) != 0.
Proof. by apply: contraTneq (oner_neq0 gfe) => E; rewrite -beta_alpha E mulr0 eqxx. Qed.
Lemma locator_neq0 p : locator_of p != 0.
Proof. by rewrite locator_exp expf_neq0 // alpha_neq0. Qed.
Lemma locatorV p : (locator_of p)^-1 = to_gfe beta ^+ p.
Proof.
by rewrite locator_exp -exprVn; congr (_ ^+ _); apply: (mulIf alpha_neq0); rewrite mulVf ?beta_alpha // alpha_neq0.
Qed.

Lemma gfv_sum (l : list nat) (f : nat -> gfe) : gfv (\sum_(p <- l) f p) = zsum (List.map (fun p => gfv (f p)) l).
Proof. by elim: l => [|p l IH]; rewrite ?big_nil // big_cons gfvD IH [RHS]zsum_cons. Qed.
Lemma power_sum_eq ps j : gfv (\sum_(x <- locators ps) x ^+ j) = power_sum ps j.
Proof.
rewrite [locators ps]/(map locator_of ps) big_map gfv_sum; congr zsum; apply: List.map_ext => p.
by rewrite gfv_exp //; apply: gf_zpow; apply: gf_2.
Qed.
Lemma power_sum_sqr ps j : mpy_mod_gf (power_sum ps j) (power_sum ps j) = power_sum ps (2 * j)%coq_nat.
Proof.
rewrite -!power_sum_eq -gfvM; congr gfv; rewrite multE mulnC; elim: (locators ps) => [|x l IH]; first by rewrite !big_nil mul0r.
rewrite !big_cons mulrDl !mulrDr IH addrA -(addrA (_ * _)) (mulrC (\sum_(_ <- _) _)) gfe_char2 addr0 exprM.
by rewrite expr2.
Qed.

(** ** The loop on the error positions [ps] *)
Section Decoder.
Variables (ps : list nat) (N : nat) (synd : list Z).
Hypotheses (HN : (N <= 16)%coq_nat) (Hlen : length synd = 16).
Hypothesis Hsynd : forall j, (j < N)%coq_nat -> at_ synd j = power_sum ps (S j).

Definition BM (n : nat) (st : list Z * list Z * nat) (stale : bool) : Prop := bm (locators ps) n st stale.

Lemma gf_power_sum j : gf (power_sum ps j).
Proof. by rewrite -power_sum_eq; apply: gf_gfv. Qed.
Lemma synd_gf j : (j < N)%N -> gf (at_ synd j).
Proof. by move=> /ltP Hj; rewrite Hsynd //; apply: gf_power_sum. Qed.
Lemma synd_sum j : (j < N)%N -> to_gfe (at_ synd j) = \sum_(x <- locators ps) x ^+ j.+1.
Proof. by move=> /ltP Hj; rewrite Hsynd // -power_sum_eq gfvK. Qed.
Lemma size_locators : size (locators ps) = length ps.
Proof. exact: length_map. Qed.

Lemma BM_start : BM 0 (Zpos 1 :: List.repeat Z0 15, Z0 :: Zpos 1 :: List.repeat Z0 14, 0%N) false.
Proof. exact: bm_start. Qed.

Lemma BM_L n g D L stale : BM n (g, D, L) stale -> (L <= length ps)%coq_nat /\ length g = 16.
Proof. by case=> /= Hg _ [C [E [Hi _ _]]]; split=> //; apply/leP; rewrite -size_locators (inv_Lnu Hi). Qed.

Lemma BM_step n g D L stale : BM n (g, D, L) stale -> (n < N)%coq_nat -> exists d : Z,
  discrepancy g synd n (List.seq 0 (L + 1)%coq_nat) Z0 = Some d /\ (L <= n)%coq_nat /\
  (d <> Z0 -> Nat.even n = true /\ (n < length ps + L)%coq_nat) /\
  (d = Z0 -> BM (S n) (g, shift D, L) stale) /\
  (d <> Z0 -> stale = false ->
     exists g' D', update (n + 2)%coq_nat 0 n L d (inverse d) g D = Some (g', D', if Nat.ltb (2 * L)%coq_nat (S n) then Nat.sub (S n) L else L)
       /\ BM (S n) (g', shift D', if Nat.ltb (2 * L)%coq_nat (S n) then Nat.sub (S n) L else L) (negb (Nat.ltb (2 * L)%coq_nat (S n)))).
Proof.
move=> H /ltP Hn; have HN' : (N <= 16)%N by apply/leP.
have [d [H1 H2 H3 H4 H5]] := bm_step HN' Hlen synd_gf synd_sum H Hn; exists d.
split; first exact: H1; split; first by apply/leP.
split=> [/H3 [He Hb] |]; first by rewrite size_locators in Hb; rewrite even_odd; split; last by apply/ltP.
by split; [exact: H4 | rewrite ltb_ltn; exact: H5].
Qed.

Hypotheses (Hnodup : List.NoDup ps) (Hpos : forall p, List.In p ps -> (p < nn)%coq_nat).

Lemma locator_le p q : (p <= q)%N -> (q < nn)%coq_nat -> locator_of p = locator_of q -> p = q.
Proof.
move=> Hpq Hq E; apply/eqP; rewrite eqn_leq Hpq /= -subn_eq0 -leqn0 leqNgt; apply/negP => /ltP H0.
have Hlt : (q - p < nn)%coq_nat by apply: Nat.le_lt_trans Hq; apply/leP; apply: leq_subr.
case: (zpow_ne_1 _ H0 Hlt); rewrite -(gfv_exp _ gf_2).
suff -> : to_gfe (Zpos 2) ^+ (q - p) = 1 by [].
apply: (mulIf (expf_neq0 p alpha_neq0)); rewrite -exprD subnK // mul1r -!locator_exp.
by rewrite E.
Qed.
Lemma locator_inj p q : (p < nn)%coq_nat -> (q < nn)%coq_nat -> locator_of p = locator_of q -> p = q.
Proof. by move=> Hp Hq E; case/orP: (leq_total p q) => H; [|symmetry]; apply: locator_le. Qed.

Lemma mem_locators (l : list nat) p : (forall q, List.In q l -> (q < nn)%coq_nat) -> (p < nn)%coq_nat ->
  (locator_of p \in locators l) <-> List.In p l.
Proof.
move=> Hl Hp; elim: l Hl => [|q l IH] Hl; first by split.
rewrite /= inE; split=> [/orP [/eqP E | Hin] | [-> | Hin]].
- by left; symmetry; apply: locator_inj => //; apply: Hl; left.
- by right; apply/IH => // r Hr; apply: Hl; right.
- by rewrite eqxx.
- by apply/orP; right; apply/IH => // r Hr; apply: Hl; right.
Qed.
Lemma uniq_locators : uniq (locators ps).
Proof.
elim: ps Hnodup Hpos => //= p l IH Hn Hl; inversion Hn as [|? ? H1 H2]; subst.
have -> : uniq (locators l) by apply: IH => // q Hq; apply: Hl; right.
rewrite andbT.
apply/negP => /(mem_locators (fun q Hq => Hl q (or_intror Hq)) (Hl p (or_introl erefl))).
exact: H1.
Qed.
Lemma locators_neq0 : 0 \notin locators ps.
Proof. by elim: ps => //= p l IH; rewrite inE negb_or IH eq_sym locator_neq0. Qed.

Lemma evaluate g p : (forall i, (i < 16)%N -> gf (at_ g i)) ->
  zsum (List.map (fun i => mpy_mod_gf (at_ g i) (zpow (zpow beta p) i)) (List.seq 0 9)) =
  gfv (\sum_(i < 9) to_gfe (at_ g i) * (locator_of p)^-1 ^+ i).
Proof.
move=> Hg; apply: (fold_sum (h := fun i => to_gfe (at_ g i) * (locator_of p)^-1 ^+ i)) => i Hi.
have Hb : gf (zpow beta p) by apply: gf_zpow; apply: gf_beta.
have Hgi : gf (at_ g i) by apply: Hg; apply: leq_trans Hi _.
by rewrite gfvM (to_gfeK Hgi) locatorV -(gfv_exp _ Hb) -(gfv_exp _ gf_beta) gfvK.
Qed.

Lemma BM_end g D L stale : (2 * length ps <= N)%coq_nat -> BM N (g, D, L) stale ->
  L = length ps /\ at_ g 0 = Zpos 1 /\ (forall i, (i < 16)%coq_nat -> gf (at_ g i)) /\
  forall p, (p < nn)%coq_nat ->
    zsum (List.map (fun i => mpy_mod_gf (at_ g i) (zpow (zpow beta p) i)) (List.seq 0 9)) = Z0 <-> List.In p ps.
Proof.
move=> /leP H2 H; have H8 : (length ps <= 8)%N.
  by move/leP: HN => HN'; rewrite -(leq_pmul2l (isT : 0 < 2)%N); apply: leq_trans H2 HN'.
rewrite -size_locators in H2 H8 *.
have [-> [H0 [Hg Hr]]] := bm_end H2 uniq_locators locators_neq0 H8 H; split; first by []; split; first exact: H0.
split; first by move=> i /ltP; apply: Hg.
move=> p Hp; rewrite -(mem_locators Hpos Hp) -(Hr _ (locator_neq0 p)) (evaluate _ Hg).
by split=> [E | /eqP ->]; first by apply/eqP; apply: val_inj.
Qed.
End Decoder.
