(* ===== verification/BchSyn.v ===== *)
(** * The syndromes of the remainder the engine leaves

[Bch.syndrome] evaluates the remainder at the powers of alpha: the odd ones by a running
power in a shift register, the even ones by squaring. *)
From Stdlib Require Import ZArith List Bool Lia.
From S2P Require Import Bch BchGf BchBerlekamp.
Import ListNotations.
Open Scope Z_scope.
#[local] Opaque mpy_mod_gf inverse Z.lxor zpow nn.

Definition errors_max (sel : nat) : nat := match sel with O => 4 | _ => 8 end.
Definition ecc_top (sel : nat) : nat := match sel with O => 55 | _ => 103 end.
Definition ecc_low (sel : nat) : nat := match sel with O => 4 | _ => 0 end.

(** The coefficient of [x^i] of the remainder: the bits run from the last byte up. *)
Definition ecc_coef (sel : nat) (ecc : list Z) (i : nat) : Z :=
  Z.land (Z.shiftr (at_ ecc ((ecc_top sel - i) / 8)) (7 - Z.of_nat ((ecc_top sel - i) mod 8))) 1.
(** Its value at [alpha^j]. *)
Definition ecc_value (sel : nat) (ecc : list Z) (j : nat) : Z :=
  zsum (map (fun i => if ecc_coef sel ecc i =? 1 then zpow (zpow 2 i) j else 0) (seq 0 (S (ecc_top sel - ecc_low sel)))).

Lemma iter_lfsr n e : Nat.iter n lfsr (zpow 2 e) = zpow 2 (n + e).
Proof. rewrite <- !alpha_zpow. unfold alpha_pow. symmetry. apply Nat.iter_add. Qed.

(** One bit. *)
Lemma syn_round_ok t k R syn pow : (2 * t <= length syn)%nat -> (t <= length pow)%nat ->
  let '(syn', pow') := syn_round t k R syn pow in
  length syn' = length syn /\ length pow' = length pow /\
  forall i, (i < t)%nat ->
    at_ syn' (2 * i) = Z.lxor (at_ syn (2 * i)) (if R =? 1 then at_ pow i else 0) /\
    at_ pow' i = Nat.iter (2 * (k + i) + 1) lfsr (at_ pow i).
Proof.
  revert k syn pow. induction t as [|t IH]; intros k syn pow Hs Hp; cbn [syn_round].
  - split; [reflexivity|]. split; [reflexivity | lia].
  - destruct syn as [|s0 [|s1 syn]]; cbn [length] in Hs; try lia. destruct pow as [|p pow]; cbn [length] in Hp; [lia|].
    specialize (IH (S k) syn pow ltac:(lia) ltac:(lia)). destruct (syn_round t (S k) R syn pow) as [syn' pow'].
    destruct IH as (L1 & L2 & IH). cbn [length]. split; [lia|]. split; [lia|]. intros [|i] Hi.
    + rewrite Nat.add_0_r. cbn [Nat.mul nth]. split; [|reflexivity]. destruct (R =? 1); [reflexivity | now rewrite Z.lxor_0_r].
    + replace (2 * S i)%nat with (S (S (2 * i))) by lia. cbn [nth]. destruct (IH i ltac:(lia)) as [H1 H2].
      split; [exact H1|]. rewrite H2. f_equal. lia.
Qed.

Lemma syn_start_ok t R syn : (2 * t <= length syn)%nat -> length (syn_start t R syn) = length syn /\
  forall i, (i < t)%nat -> at_ (syn_start t R syn) (2 * i) = R.
Proof.
  revert syn. induction t as [|t IH]; intros syn Hs; cbn [syn_start]; [split; [reflexivity | lia]|].
  destruct syn as [|s0 [|s1 syn]]; cbn [length] in Hs; try lia. destruct (IH syn ltac:(lia)) as [L1 IH'].
  cbn [length]. split; [lia|]. intros [|i] Hi; [reflexivity|].
  replace (2 * S i)%nat with (S (S (2 * i))) by lia. cbn [nth]. apply IH'. lia.
Qed.

Lemma ecc_bit_ok sel ecc i : (length ecc = (ecc_top sel + 1) / 8)%nat -> (i <= ecc_top sel)%nat ->
  ecc_bit ecc (ecc_top sel - i) = Some (ecc_coef sel ecc i).
Proof.
  intros Hl Hi. unfold ecc_bit. rewrite get_at; [reflexivity|]. rewrite Hl.
  apply Nat.Div0.div_lt_upper_bound.
  destruct sel; unfold ecc_top in *; [change ((55 + 1) / 8)%nat with 7%nat | change ((103 + 1) / 8)%nat with 13%nat]; lia.
Qed.

(** The loop over the bits. *)
Section Bits.
Variables (sel : nat) (ecc : list Z).
Hypothesis Hecc : (length ecc = (ecc_top sel + 1) / 8)%nat.
Let t := errors_max sel.
Let term (k i : nat) : Z := if ecc_coef sel ecc i =? 1 then zpow 2 ((2 * k + 1) * i) else 0.

Lemma term_snoc k i : zsum (map (term k) (seq 0 (S i))) = Z.lxor (zsum (map (term k) (seq 0 i))) (term k i).
Proof. rewrite seq_S, map_app, zsum_app. cbn [Nat.add map]. rewrite zsum_cons. cbn. now rewrite Z.lxor_0_r. Qed.

Lemma syn_loop_ok n i syn pow : (i + n = S (ecc_top sel - ecc_low sel))%nat ->
  length syn = 16%nat -> length pow = 8%nat ->
  (forall k, (k < t)%nat -> at_ syn (2 * k) = zsum (map (term k) (seq 0 i)) /\ at_ pow k = zpow 2 ((2 * k + 1) * i)) ->
  exists syn', syn_loop n t ecc (ecc_low sel) syn pow = Some syn' /\ length syn' = 16%nat /\
    forall k, (k < t)%nat -> at_ syn' (2 * k) = zsum (map (term k) (seq 0 (i + n))).
Proof.
  assert (Ht : (t <= 8)%nat) by (unfold t; destruct sel; cbn; lia).
  assert (Hlow : (ecc_low sel < ecc_top sel)%nat) by (destruct sel; cbn; lia).
  revert i syn pow. induction n as [|n IH]; intros i syn pow Hi Hs Hp H; cbn [syn_loop].
  - exists syn. split; [reflexivity|]. split; [exact Hs|]. intros k Hk. rewrite Nat.add_0_r. now apply H.
  - replace (ecc_low sel + n)%nat with (ecc_top sel - i)%nat by lia. rewrite ecc_bit_ok by (exact Hecc || lia). cbn [obind].
    generalize (syn_round_ok t 0 (ecc_coef sel ecc i) syn pow ltac:(lia) ltac:(lia)).
    destruct (syn_round t 0 _ syn pow) as [syn1 pow1]. intros (L1 & L2 & Hr).
    replace (i + S n)%nat with (S i + n)%nat by lia. apply (IH (S i) syn1 pow1); try lia.
    intros k Hk. destruct (H k Hk) as [H1 H2]. destruct (Hr k Hk) as [R1 R2]. rewrite term_snoc, R1, H1, R2, H2, iter_lfsr.
    split; [reflexivity|]. f_equal. lia.
Qed.
End Bits.

(** The squares: [P j] is what entry [j] must become. *)
Lemma syn_squares_ok (P : nat -> Z) t n k syn : (k + n = t)%nat -> (t <= 8)%nat -> length syn = 16%nat ->
  (forall j, mpy_mod_gf (P j) (P j) = P (2 * j + 1)%nat) ->
  (forall i, (i < t)%nat -> at_ syn (2 * i) = P (2 * i)%nat) ->
  (forall i, (i < k)%nat -> at_ syn (2 * i + 1) = P (2 * i + 1)%nat) ->
  exists syn', syn_squares (seq k n) syn = Some syn' /\ length syn' = 16%nat /\ forall j, (j < 2 * t)%nat -> at_ syn' j = P j.
Proof.
  intros Hk Ht Hs HP. revert k syn Hk Hs. induction n as [|n IH]; intros k syn Hk Hs He Ho; cbn [seq syn_squares].
  - exists syn. split; [reflexivity|]. split; [exact Hs|]. intros j Hj.
    destruct (Nat.Even_or_Odd j) as [[i ->]|[i ->]]; [apply He | apply Ho]; lia.
  - rewrite get_at by lia. cbn [obind]. destruct (put_at syn (2 * k + 1) (mpy_mod_gf (at_ syn k) (at_ syn k))) as (syn1 & E & L1 & H1); [lia|].
    rewrite E. cbn [obind].
    assert (Hsk : at_ syn k = P k) by (destruct (Nat.Even_or_Odd k) as [[i ->]|[i ->]]; [apply He | apply Ho]; lia).
    apply IH; try lia; intros i Hi; rewrite H1.
    + replace (2 * i =? 2 * k + 1)%nat with false by (symmetry; apply Nat.eqb_neq; lia). now apply He.
    + destruct (Nat.eqb_spec (2 * i + 1) (2 * k + 1)) as [Ei|Ei].
      * replace i with k by lia. now rewrite Hsk, HP.
      * apply Ho. lia.
Qed.

Lemma syndrome_eq sel ecc syn : syndrome sel ecc syn =
  let? R_bit := ecc_bit ecc (ecc_top sel) in
  let? syn := syn_loop (ecc_top sel - ecc_low sel) (errors_max sel) ecc (ecc_low sel) (syn_start (errors_max sel) R_bit syn) pow_alpha0 in
  syn_squares (seq 0 (errors_max sel)) syn.
Proof. destruct sel; reflexivity. Qed.

Lemma pow_alpha0_ok k : (k < 8)%nat -> at_ pow_alpha0 k = zpow 2 (2 * k + 1).
Proof. intros Hk. do 8 (destruct k as [|k]; [vm_compute; reflexivity|]). lia. Qed.

Lemma first_bit sel ecc k : ecc_coef sel ecc 0 =
  zsum (map (fun i => if ecc_coef sel ecc i =? 1 then zpow 2 ((2 * k + 1) * i) else 0) (seq 0 1)).
Proof.
  cbn [seq map]. rewrite zsum_cons, Nat.mul_0_r, zpow_0. cbn [zsum fold_left]. rewrite Z.lxor_0_r.
  unfold ecc_coef. set (v := Z.land _ 1). assert (Hv : v = 0 \/ v = 1).
  { unfold v. change (Z.land ?x 1) with (Z.land x (Z.ones 1)). rewrite Z.land_ones by lia. change (2 ^ 1) with 2.
    match goal with |- ?x mod 2 = 0 \/ _ => generalize (Z.mod_pos_bound x 2 ltac:(lia)) end. lia. }
  destruct Hv as [-> | ->]; reflexivity.
Qed.

(** The syndromes of a remainder that agrees with the error positions [ps] at the odd powers. *)
Lemma syndrome_ok sel ecc ps : (sel <= 1)%nat -> (length ecc = (ecc_top sel + 1) / 8)%nat ->
  (forall k, (k < errors_max sel)%nat -> ecc_value sel ecc (2 * k + 1) = power_sum ps (2 * k + 1)) ->
  exists syn, syndrome sel ecc (repeat 0 16) = Some syn /\ length syn = 16%nat /\
    forall j, (j < (sel + 1) * 8)%nat -> at_ syn j = power_sum ps (S j).
Proof.
  intros Hsel Hecc Hv. rewrite syndrome_eq.
  generalize (ecc_bit_ok sel ecc 0 Hecc ltac:(lia)). rewrite Nat.sub_0_r. intros ->. cbn [obind].
  assert (Ht : (errors_max sel <= 8 /\ (sel + 1) * 8 = 2 * errors_max sel)%nat) by (destruct sel as [|[|?]]; cbn; lia).
  destruct (syn_start_ok (errors_max sel) (ecc_coef sel ecc 0) (repeat 0 16)) as [L0 H0]; [cbn; lia|].
  destruct (syn_loop_ok sel ecc Hecc (ecc_top sel - ecc_low sel) 1 (syn_start (errors_max sel) (ecc_coef sel ecc 0) (repeat 0 16)) pow_alpha0)
    as (syn1 & -> & L1 & H1); [lia | exact L0 | reflexivity | |].
  { intros k Hk. rewrite H0 by exact Hk. split; [exact (first_bit sel ecc k)|].
    rewrite Nat.mul_1_r. apply pow_alpha0_ok. lia. }
  cbn [obind]. destruct (syn_squares_ok (fun j => power_sum ps (S j)) (errors_max sel) (errors_max sel) 0 syn1) as (syn2 & -> & L2 & H2);
    try lia; [| |exists syn2; split; [reflexivity|]; split; [exact L2|]; intros j Hj; apply H2; lia].
  - intros j. rewrite power_sum_sqr. f_equal. lia.
  - intros k Hk. rewrite H1 by exact Hk. replace (S (2 * k)) with (2 * k + 1)%nat by lia. rewrite <- Hv by exact Hk.
    unfold ecc_value. f_equal. apply map_ext. intros i. rewrite zpow_zpow by apply gf_2. now rewrite (Nat.mul_comm i).
Qed.
