(* ===== verification/BchGen.v ===== *)
(** * What the BCH engine leaves

The engine divides by the product of the minimal polynomials of the odd powers of alpha:
polynomials over the field of two elements are numbers, bit [i] the coefficient of [x^i]. *)
From Stdlib Require Import ZArith List Bool Lia.
From S2P Require Import Bch BchGf BchBerlekamp BchSyn.
Import ListNotations.
Open Scope Z_scope.

Definition degree (sel : nat) : nat := match sel with O => 52 | _ => 104 end.
Definition generator (sel : nat) : Z :=
  match sel with O => 0x14523043ab86ab | _ => 0x115f914e07b0c138741c5c4fb23 end.

(** The remainder of [x^p], by [p] multiplications by [x], and of the polynomial with errors
at the positions [ps]. *)
Definition times_x (sel : nat) (r : Z) : Z :=
  let r := Z.shiftl r 1 in if Z.testbit r (Z.of_nat (degree sel)) then Z.lxor r (generator sel) else r.
Definition x_power (sel p : nat) : Z := Nat.iter p (times_x sel) 1.
Definition remainder (sel : nat) (ps : list nat) : Z := fold_right (fun p r => Z.lxor (x_power sel p) r) 0 ps.

(** Its bytes as the registers give them, the highest coefficients first. *)
Definition ecc_bytes (sel : nat) (r : Z) : list Z :=
  map (fun b => Z.land (Z.shiftr r (Z.of_nat (8 * (ecc_top sel / 8 - b)))) 0xFF) (seq 0 ((ecc_top sel + 1) / 8)).

(** The value of a polynomial. *)
Definition value (sel : nat) (e x : Z) : Z :=
  zsum (map (fun i => if Z.testbit e (Z.of_nat i) then zpow x i else 0) (seq 0 (S (degree sel)))).
Fixpoint horner (bits : list bool) (x : Z) {struct bits} : Z :=
  match bits with [] => 0 | b :: bits => Z.lxor (if b then 1 else 0) (mpy_mod_gf x (horner bits x)) end.

Lemma generator_horner : forallb (fun sel => forallb (fun k =>
  horner (map (fun i => Z.testbit (generator sel) (Z.of_nat i)) (seq 0 (S (degree sel)))) (zpow 2 (2 * k + 1)) =? 0) (seq 0 (errors_max sel))) [0; 1]%nat = true.
Proof. vm_compute. reflexivity. Qed.

#[local] Opaque mpy_mod_gf inverse Z.lxor zpow nn.

Lemma zsum_lxor {A} (f g : A -> Z) l : zsum (map (fun i => Z.lxor (f i) (g i)) l) = Z.lxor (zsum (map f l)) (zsum (map g l)).
Proof. induction l as [|x l IH]; [reflexivity|]. cbn [map]. rewrite !zsum_cons, IH. apply lxor_swap. Qed.
Lemma zsum_zero {A} (f : A -> Z) l : (forall x, In x l -> f x = 0) -> zsum (map f l) = 0.
Proof.
  induction l as [|x l IH]; intros H; [reflexivity|]. cbn [map]. rewrite zsum_cons, H by now left.
  rewrite Z.lxor_0_l. apply IH. intros y Hy. apply H. now right.
Qed.
Lemma zsum_single (f : nat -> Z) k m n : (m <= k < m + n)%nat -> (forall i, i <> k -> f i = 0) -> zsum (map f (seq m n)) = f k.
Proof.
  revert m. induction n as [|n IH]; intros m Hk H; [lia|]. cbn [seq map]. rewrite zsum_cons.
  destruct (Nat.eq_dec m k) as [->|Hne].
  - rewrite zsum_zero; [apply Z.lxor_0_r|]. intros i Hi. apply in_seq in Hi. apply H. lia.
  - rewrite H, Z.lxor_0_l by exact Hne. apply IH; [lia | exact H].
Qed.

Lemma zsum_mpy x l : mpy_mod_gf x (zsum l) = zsum (map (mpy_mod_gf x) l).
Proof. induction l as [|y l IH]; [apply mpy_0_r|]. cbn [map]. now rewrite !zsum_cons, mpy_lxor_r, IH. Qed.

Lemma value_horner (f : nat -> bool) n x :
  zsum (map (fun i => if f i then zpow x i else 0) (seq 0 n)) = horner (map f (seq 0 n)) x.
Proof.
  revert f. induction n as [|n IH]; intros f; [reflexivity|]. cbn [seq map horner]. rewrite zsum_cons, zpow_0, <- seq_shift, !map_map.
  f_equal. rewrite <- (IH (fun i => f (S i))), zsum_mpy, map_map. f_equal. apply map_ext. intros i.
  destruct (f (S i)); [apply zpow_S | symmetry; apply mpy_0_r].
Qed.

Lemma value_lxor sel x : additive (fun e => value sel e x).
Proof.
  intros a b. unfold value. rewrite <- zsum_lxor. f_equal. apply map_ext. intros i. rewrite Z.lxor_spec.
  apply if_xorb.
Qed.
Lemma value_pow2 sel k x : (k <= degree sel)%nat -> value sel (2 ^ Z.of_nat k) x = zpow x k.
Proof.
  intros Hk. unfold value. rewrite (zsum_single _ k) by (lia || (intros i Hi; now rewrite Z.pow2_bits_false by lia)).
  now rewrite Z.pow2_bits_true by lia.
Qed.
Lemma value_double sel r x : 0 <= r < 2 ^ Z.of_nat (degree sel) -> value sel (Z.shiftl r 1) x = mpy_mod_gf x (value sel r x).
Proof.
  revert r. apply (additive_ext (fun r => value sel (Z.shiftl r 1) x) (fun r => mpy_mod_gf x (value sel r x))).
  - intros a b. rewrite Z.shiftl_lxor. apply value_lxor.
  - apply additive_comp; [apply additive_mpy_r | apply value_lxor].
  - intros i Hi. rewrite Z.shiftl_mul_pow2, <- Z.pow_add_r by lia. replace (Z.of_nat i + 1) with (Z.of_nat (S i)) by lia.
    rewrite !value_pow2 by lia. apply zpow_S.
Qed.

(** ** The remainder of the errors *)
Lemma generator_ok sel : (sel <= 1)%nat ->
  0 <= generator sel < 2 ^ Z.of_nat (S (degree sel)) /\ Z.testbit (generator sel) (Z.of_nat (degree sel)) = true /\
  (forall k, (k < errors_max sel)%nat -> value sel (generator sel) (zpow 2 (2 * k + 1)) = 0).
Proof.
  intros Hsel. split; [|split].
  - destruct sel as [|[|?]]; [vm_compute; split; [discriminate | reflexivity] .. | lia].
  - destruct sel as [|[|?]]; [reflexivity .. | lia].
  - intros k Hk. generalize (forallb_In _ _ sel generator_horner). intros H.
    assert (Hin : In sel [0; 1]%nat) by (destruct sel as [|[|?]]; [now left | right; now left | lia]).
    unfold value. rewrite value_horner. apply Z.eqb_eq. apply (forallb_In _ _ k (H Hin)). apply in_seq. lia.
Qed.

Lemma bits_range n e : 0 <= e -> (forall i, n <= i -> Z.testbit e i = false) -> 0 <= n -> e < 2 ^ n.
Proof.
  intros He H Hn. replace e with (e mod 2 ^ n); [apply Z.mod_pos_bound; lia|]. apply Z.bits_inj'. intros i Hi.
  destruct (Z.ltb_spec i n); [now rewrite Z.mod_pow2_bits_low by lia | now rewrite Z.mod_pow2_bits_high, H by lia].
Qed.
Lemma range_bits n e i : 0 <= e < 2 ^ n -> 0 <= n <= i -> Z.testbit e i = false.
Proof. intros He Hn. rewrite <- (Z.mod_small e (2 ^ n)) by lia. apply Z.mod_pow2_bits_high. lia. Qed.

Lemma times_x_range sel r : (sel <= 1)%nat -> 0 <= r < 2 ^ Z.of_nat (degree sel) -> 0 <= times_x sel r < 2 ^ Z.of_nat (degree sel).
Proof.
  intros Hsel Hr. destruct (generator_ok sel Hsel) as (Hg & Ht & _). unfold times_x.
  assert (H1 : 0 <= Z.shiftl r 1 < 2 ^ Z.of_nat (S (degree sel)))
    by (rewrite Z.shiftl_mul_pow2, Nat2Z.inj_succ, Z.pow_succ_r by lia; lia).
  destruct (Z.testbit (Z.shiftl r 1) (Z.of_nat (degree sel))) eqn:Et.
  - assert (H0 : 0 <= Z.lxor (Z.shiftl r 1) (generator sel)) by (apply Z.lxor_nonneg; split; intros _; lia).
    split; [exact H0|]. apply bits_range; [exact H0 | | lia]. intros i Hi. rewrite Z.lxor_spec.
    destruct (Z.eq_dec i (Z.of_nat (degree sel))) as [->|Hne]; [now rewrite Et, Ht|].
    now rewrite !(range_bits (Z.of_nat (S (degree sel)))) by (assumption || lia).
  - split; [lia|]. apply bits_range; [lia | | lia]. intros i Hi.
    destruct (Z.eq_dec i (Z.of_nat (degree sel))) as [->|Hne]; [exact Et|]. apply (range_bits (Z.of_nat (S (degree sel)))); [exact H1 | lia].
Qed.
Lemma x_power_range sel p : (sel <= 1)%nat -> 0 <= x_power sel p < 2 ^ Z.of_nat (degree sel).
Proof.
  intros Hsel. induction p as [|p IH]; [destruct sel; vm_compute; split; [discriminate | reflexivity | discriminate | reflexivity]|].
  now apply times_x_range.
Qed.
Lemma remainder_range sel ps : (sel <= 1)%nat -> 0 <= remainder sel ps < 2 ^ Z.of_nat (degree sel).
Proof.
  intros Hsel. induction ps as [|p ps IH]; cbn [remainder fold_right]; [split; [lia | apply Z.pow_pos_nonneg; lia]|].
  fold (remainder sel ps). generalize (x_power_range sel p Hsel). intros Hp.
  assert (H0 : 0 <= Z.lxor (x_power sel p) (remainder sel ps)) by (apply Z.lxor_nonneg; split; intros _; lia).
  split; [exact H0|]. apply bits_range; [exact H0 | | lia]. intros i Hi.
  now rewrite Z.lxor_spec, !(range_bits (Z.of_nat (degree sel))) by (assumption || lia).
Qed.

Lemma value_x_power sel p x : (sel <= 1)%nat -> value sel (generator sel) x = 0 -> value sel (x_power sel p) x = zpow x p.
Proof.
  intros Hsel H0. induction p as [|p IH]; [apply (value_pow2 sel 0); lia|].
  change (x_power sel (S p)) with (times_x sel (x_power sel p)). unfold times_x.
  rewrite zpow_S, <- IH, <- value_double by (now apply x_power_range).
  destruct (Z.testbit _ _); [|reflexivity]. rewrite value_lxor, H0. apply Z.lxor_0_r.
Qed.
Lemma value_remainder sel ps x : (sel <= 1)%nat -> value sel (generator sel) x = 0 -> value sel (remainder sel ps) x = zsum (map (zpow x) ps).
Proof.
  intros Hsel H0. induction ps as [|p ps IH]; cbn [remainder fold_right map].
  - now rewrite (additive_0 (fun e => value sel e x)) by apply value_lxor.
  - fold (remainder sel ps). rewrite value_lxor, zsum_cons, IH. f_equal. now apply value_x_power.
Qed.

(** The coefficients back from the bytes. *)
Lemma ecc_coef_bytes sel r i : (sel <= 1)%nat -> (i < degree sel)%nat ->
  (ecc_coef sel (ecc_bytes sel r) i =? 1) = Z.testbit r (Z.of_nat i).
Proof.
  intros Hsel Hi. unfold ecc_coef, ecc_bytes.
  assert (Htop : exists q, ecc_top sel = (8 * q + 7)%nat /\ ((ecc_top sel + 1) / 8 = S q)%nat /\ (ecc_top sel / 8 = q)%nat /\ (i <= ecc_top sel)%nat)
    by (destruct sel; [exists 6%nat | exists 12%nat]; repeat split; cbn in *; lia).
  destruct Htop as (q & E & E1 & E2 & Hle). rewrite E1, E2. set (pos := (ecc_top sel - i)%nat).
  assert (Hq : (pos / 8 < S q)%nat) by (apply Nat.Div0.div_lt_upper_bound; unfold pos; lia).
  set (f := fun b => Z.land (Z.shiftr r (Z.of_nat (8 * (q - b)))) 0xFF).
  rewrite (nth_indep _ 0 (f 0%nat)) by (now rewrite length_map, length_seq).
  rewrite map_nth, seq_nth by exact Hq. unfold f. cbn [Nat.add].
  generalize (Nat.div_mod_eq pos 8) (Nat.mod_upper_bound pos 8 ltac:(lia)). intros Hdm Hm.
  change (Z.land ?x 1) with (Z.land x (Z.ones 1)). rewrite Z.land_ones, Z.shiftr_div_pow2, <- Z.testbit_spec' by lia.
  change 0xFF with (Z.ones 8). rewrite Z.land_spec, Z.ones_spec_low, andb_true_r, Z.shiftr_spec by lia.
  replace (7 - Z.of_nat (pos mod 8) + Z.of_nat (8 * (q - pos / 8))) with (Z.of_nat i) by (unfold pos in *; lia).
  now destruct (Z.testbit r (Z.of_nat i)).
Qed.

Lemma remainder_value sel ps k : (sel <= 1)%nat -> (k < errors_max sel)%nat ->
  ecc_value sel (ecc_bytes sel (remainder sel ps)) (2 * k + 1) = power_sum ps (2 * k + 1).
Proof.
  intros Hsel Hk. destruct (generator_ok sel Hsel) as (_ & _ & H0). generalize (remainder_range sel ps Hsel). intros Hr.
  unfold ecc_value. replace (S (ecc_top sel - ecc_low sel)) with (degree sel) by (destruct sel as [|[|?]]; cbn; lia).
  transitivity (value sel (remainder sel ps) (zpow 2 (2 * k + 1))).
  - unfold value. rewrite seq_S, map_app, zsum_app. cbn [map Nat.add]. rewrite (range_bits (Z.of_nat (degree sel)) _ _ Hr) by lia.
    change (zsum [0]) with 0. rewrite Z.lxor_0_r. f_equal. apply map_ext_in. intros i Hi. apply in_seq in Hi.
    rewrite ecc_coef_bytes by (exact Hsel || lia). now rewrite !zpow_zpow, Nat.mul_comm by apply gf_2.
  - rewrite value_remainder by (exact Hsel || now apply H0). unfold power_sum. f_equal. apply map_ext. intros p.
    now rewrite !zpow_zpow, Nat.mul_comm by apply gf_2.
Qed.
