(* ===== verification/BchDecode.v ===== *)
(** * The BCH decoder finds the errors

[Bch.decode_bch] on syndromes that are the power sums of at most [t] locators: the
algorithm ends with their polynomial when its run is [regular], which up to three
errors and four with a sum of locators other than zero always give, and the search
writes the location of each. *)
From Stdlib Require Import ZArith List Bool Lia Sorted.
From S2P Require Import Bch BchGf BchBerlekamp BchSyn.
Import ListNotations.
Open Scope Z_scope.
#[local] Opaque mpy_mod_gf inverse Z.lxor zpow nn.

(** No correction follows one that kept the length: [stale] is set by such a correction. *)
Fixpoint settles (n : nat) (synd : list Z) (iteration : nat) (s : list Z * list Z * nat) (stale : bool) {struct n} : bool :=
  match n with
  | O => true
  | S n =>
    match discrepancy (fst (fst s)) synd iteration (seq 0 (snd s + 1)) 0, berlekamp_step synd iteration s with
    | Some d, Some s' =>
      if d =? 0 then settles n synd (S iteration) s' stale
      else negb stale && settles n synd (S iteration) s' (negb (2 * snd s <? S iteration)%nat)
    | _, _ => false
    end
  end.

Definition start : list Z * list Z * nat := (1 :: repeat 0 15, 0 :: 1 :: repeat 0 14, 0%nat).

Lemma some_inj (a b : Z) : Some a = Some b -> a = b.
Proof. congruence. Qed.

Section Loop.
Variables (ps : list nat) (N : nat) (synd : list Z).
Hypotheses (HN : (N <= 16)%nat) (Hlen : length synd = 16%nat).
Hypothesis Hsynd : forall j, (j < N)%nat -> at_ synd j = power_sum ps (S j).

(** One round of the loop. *)
Lemma step_ok n s stale : BM ps n s stale -> (n < N)%nat ->
  exists d, discrepancy (fst (fst s)) synd n (seq 0 (snd s + 1)) 0 = Some d /\ (snd s <= n)%nat /\
    (d <> 0 -> Nat.even n = true /\ (n < length ps + snd s)%nat) /\
    (d = 0 -> exists s', berlekamp_step synd n s = Some s' /\ snd s' = snd s /\ BM ps (S n) s' stale) /\
    (d <> 0 -> stale = false -> exists s', berlekamp_step synd n s = Some s' /\
       snd s' = (if (2 * snd s <? S n)%nat then S n - snd s else snd s)%nat /\ BM ps (S n) s' (negb (2 * snd s <? S n)%nat)).
Proof.
  destruct s as [[g D] L]. intros HB Hn. cbn [fst snd].
  destruct (BM_step HN Hlen Hsynd HB Hn) as (d & E & HL & Hb & H0 & H1).
  exists d. split; [exact E|]. split; [exact HL|]. split; [exact Hb|]. unfold berlekamp_step. rewrite E. cbn [obind]. split.
  - intros Hd. rewrite Hd. cbn [Z.eqb obind]. eexists. split; [reflexivity|]. split; [reflexivity | exact (H0 Hd)].
  - intros Hd Hs. destruct (H1 Hd Hs) as (g' & D' & Eu & HB').
    rewrite (proj2 (Z.eqb_neq d 0) Hd), Eu. cbn [obind]. eexists. split; [reflexivity|]. split; [reflexivity | exact HB'].
Qed.

Lemma loop_ok t k n s stale : (length ps <= t)%nat -> BM ps n s stale -> (n + k = N)%nat -> settles k synd n s stale = true ->
  exists s' stale', berlekamp_loop k t synd n s = Some s' /\ BM ps N s' stale'.
Proof.
  intros Ht. revert n s stale. induction k as [|k IH]; intros n s stale HB Hk Hs.
  - replace n with N in HB by lia. exists s, stale. split; [reflexivity | exact HB].
  - destruct (step_ok n s stale HB) as (d & Ed & HL & _ & H0 & H1); [lia|]. cbn [settles] in Hs. rewrite Ed in Hs.
    cbn [berlekamp_loop]. destruct s as [[g D] L]. destruct (BM_L HB) as [HLp _]. cbn [snd] in *.
    rewrite (proj2 (Nat.leb_le L t)) by lia. destruct (Z.eqb_spec d 0) as [Hd|Hd].
    + destruct (H0 Hd) as (s' & Es & _ & HB'). rewrite Es in *. cbn [obind]. apply (IH _ _ stale HB'); [lia | exact Hs].
    + destruct stale; [destruct (berlekamp_step synd n (g, D, L)); discriminate Hs|].
      destruct (H1 Hd eq_refl) as (s' & Es & _ & HB'). rewrite Es in *. cbn [obind]. cbn [negb andb] in Hs.
      apply (IH _ _ _ HB'); [lia | exact Hs].
Qed.

(** Up to three errors, and four when the first syndrome is not zero: [k] is 1 then. *)
Definition rounded (n : nat) : nat := if Nat.even n then n else S n.
Definition spaced (k n L : nat) (stale : bool) : Prop :=
  (k <= L /\ (L <= k \/ L + k < rounded n) /\ (stale = true -> L + k + 2 < rounded n))%nat.

Lemma rounded_even n : Nat.even n = true -> rounded n = n /\ rounded (S n) = S (S n).
Proof. intros H. unfold rounded. now rewrite H, Nat.even_succ, <- Nat.negb_even, H. Qed.
Lemma rounded_S n : (rounded n <= rounded (S n))%nat.
Proof. unfold rounded. rewrite Nat.even_succ, <- Nat.negb_even. destruct (Nat.even n); cbn; lia. Qed.

Lemma settles_few c m n s stale : (c <= 1)%nat -> (length ps <= 3 + c)%nat -> BM ps n s stale -> (n + m = N)%nat -> (0 < n)%nat ->
  spaced c n (snd s) stale -> settles m synd n s stale = true.
Proof.
  intros Hc1 Hc. revert n s stale. induction m as [|m IH]; intros n s stale HB Hk Hn (S1 & S2 & S3); [reflexivity|].
  destruct (step_ok n s stale HB) as (d & Ed & HL & Hb & H0 & H1); [lia|]. cbn [settles]. rewrite Ed.
  generalize (rounded_S n). intros Hr. destruct (Z.eqb_spec d 0) as [Hd|Hd].
  - destruct (H0 Hd) as (s' & -> & Es & HB'). apply IH; try lia; [exact HB'|].
    rewrite Es. repeat split; try lia. intros Hst. specialize (S3 Hst). lia.
  - destruct (Hb Hd) as [He Hnu]. destruct (rounded_even n He) as [R1 R2].
    destruct stale; [specialize (S3 eq_refl); lia|].
    destruct (H1 Hd eq_refl) as (s' & -> & Es & HB'). cbn [negb andb]. apply IH; try lia; [exact HB'|].
    assert (2 <= n)%nat by (destruct n as [|[|n]]; [lia | discriminate He | lia]).
    rewrite Es. unfold spaced. rewrite R2. destruct (Nat.ltb_spec (2 * snd s) (S n)); cbn [negb]; repeat split; try lia; discriminate.
Qed.

Lemma settles_start m : (0 < m)%nat -> m = N ->
  (length ps <= 3)%nat \/ (length ps <= 4)%nat /\ at_ synd 0 <> 0 -> settles m synd 0 start false = true.
Proof.
  intros Hm HmN Hc. destruct m as [|m]; [lia|].
  destruct (step_ok 0 start false) as (d & Ed & HL & Hb & H0 & H1); [apply BM_start | lia|].
  assert (Hd : d = at_ synd 0).
  { revert Ed. rewrite discrepancy_some; [|intros i Hi; cbn in *; lia | lia]. intros E. rewrite <- (some_inj _ _ E).
    cbn [start fst snd seq map fold_left Nat.add Nat.sub nth]. rewrite mpy_1_l; [apply Z.lxor_0_l|].
    rewrite Hsynd by lia. apply gf_power_sum. }
  cbn [settles]. rewrite Ed. destruct (Z.eqb_spec d 0) as [E0|E0].
  - destruct (H0 E0) as (s' & -> & Es & HB'). apply (settles_few 0); try lia; [exact HB'|]. rewrite Es. unfold spaced, rounded. cbn. lia.
  - destruct (H1 E0 eq_refl) as (s' & -> & Es & HB'). cbn [negb andb]. apply (settles_few 1); try lia; [exact HB'|].
    rewrite Es. unfold spaced, rounded. cbn. repeat split; try lia; discriminate.
Qed.
End Loop.

(** [berlekamp] on the syndromes of the positions [ps]: their number, and a polynomial
whose roots are their inverses. *)
Section Berlekamp.
Variables (sel : nat) (ps : list nat) (synd : list Z).
Hypotheses (Hsel : (sel <= 1)%nat) (Hlen : length synd = 16%nat).
Hypothesis Hsynd : forall j, (j < (sel + 1) * 8)%nat -> at_ synd j = power_sum ps (S j).
Hypotheses (Hnodup : NoDup ps) (Hpos : forall p, In p ps -> (p < nn)%nat) (Hnum : (length ps <= (sel + 1) * 4)%nat).
Hypothesis Hsettles : settles ((sel + 1) * 8) synd 0 start false = true.

Lemma berlekamp_ok : exists err, berlekamp sel synd = Some (length ps, err) /\ length err = 8%nat /\
  (forall k, gf (at_ err k)) /\
  forall p, (p < nn)%nat ->
    fold_left Z.lxor (map (fun k => mpy_mod_gf (at_ err k) (zpow (zpow beta p) (S k))) (seq 0 8)) 1 = 0 <-> In p ps.
Proof.
  assert (HN : ((sel + 1) * 8 <= 16)%nat) by lia.
  destruct (loop_ok ps _ synd HN Hlen Hsynd ((sel + 1) * 4) ((sel + 1) * 8) 0 start false Hnum (BM_start ps) eq_refl Hsettles)
    as ([[g D] L] & stale & E & HB).
  assert (H2 : (2 * length ps <= (sel + 1) * 8)%nat) by lia.
  destruct (BM_end HN Hnodup Hpos H2 HB) as (HL & H0 & Hgf & Hr). destruct (BM_L HB) as [_ Hg].
  unfold berlekamp. replace ((sel + 1) * 2 * 4)%nat with ((sel + 1) * 8)%nat by lia.
  fold start. rewrite E. cbn [obind]. rewrite HL. eexists. split; [reflexivity|].
  do 16 (destruct g as [|? g]; [discriminate Hg|]). destruct g; [|discriminate Hg].
  cbn [at_ nth] in H0. subst z. cbn [firstn skipn]. split; [reflexivity|]. split.
  - intros k. destruct (Nat.ltb_spec k 8) as [Hk|Hk]; [|].
    { generalize (Hgf (S k) ltac:(lia)). do 8 (destruct k as [|k]; [exact (fun H => H)|]). lia. }
    rewrite nth_overflow by exact Hk. unfold gf. lia.
  - intros p Hp. rewrite <- (Hr p Hp). unfold zsum. cbn [seq map fold_left nth].
    now rewrite zpow_0, (mpy_1_l 1 gf_1), Z.lxor_0_l.
Qed.
End Berlekamp.

(** ** The search for roots *)
Lemma chien_mul_ok (e : nat -> Z) m j c : (forall k, gf (e k)) ->
  chien_mul (zpow beta (S j)) (map (fun k => mpy_mod_gf (e k) (zpow (zpow beta m) (S k))) (seq j c)) =
  map (fun k => mpy_mod_gf (e k) (zpow (zpow beta (S m)) (S k))) (seq j c).
Proof.
  intros He. revert j. induction c as [|c IH]; intros j; cbn [seq map chien_mul]; [reflexivity|].
  fold beta. rewrite (mpy_comm _ beta), <- zpow_S, IH by (apply gf_beta || apply gf_zpow, gf_beta). f_equal.
  rewrite <- mpy_assoc, !zpow_zpow, <- zpow_add by (apply He || apply gf_beta || apply gf_zpow; try apply gf_zpow; apply gf_beta).
  do 2 f_equal. lia.
Qed.

Definition member (ps : list nat) (p : nat) : bool := existsb (Nat.eqb p) ps.
Lemma member_In ps p : member ps p = true <-> In p ps.
Proof.
  unfold member. rewrite existsb_exists. split.
  - intros (q & Hq & E). apply Nat.eqb_eq in E. now subst q.
  - intros H. exists p. split; [exact H | apply Nat.eqb_refl].
Qed.

(** The positions the search reports: the code's [i >= 2 * ecc_bits] with [p = i - 1]. *)
Definition in_data (sel p : nat) : bool := 2 * ecc_bits (Z.of_nat sel) <=? Z.of_nat p + 1.
Definition location (sel p : nat) : Z := location_of (Z.of_nat sel) (Z.of_nat p + 1).

(** [vs] written to an array from [c] on. *)
Definition fill (l : list Z) (c : nat) (vs : list Z) : list Z := firstn c l ++ vs ++ skipn (c + length vs) l.
Lemma put_fill l c v vs l' : (c + S (length vs) <= length l)%nat -> put l c v = Some l' -> fill l' (S c) vs = fill l c (v :: vs).
Proof.
  unfold fill. revert c l'. induction l as [|x l IH]; intros c l' Hc E; cbn [length] in Hc; [lia|].
  destruct c as [|c]; cbn [put] in E.
  - injection E as <-. reflexivity.
  - destruct (put l c v) as [l2|] eqn:E2; [|discriminate E]. injection E as <-.
    cbn [firstn app Nat.add skipn]. f_equal. apply (IH c); [lia | exact E2].
Qed.
Lemma fill_nil l c : fill l c [] = l.
Proof. unfold fill. cbn [length app]. rewrite Nat.add_0_r. apply firstn_skipn. Qed.

Lemma map_at (l : list Z) : map (fun k => at_ l k) (seq 0 (length l)) = l.
Proof. induction l as [|x l IH]; [reflexivity|]. cbn [length seq map nth]. f_equal. now rewrite <- seq_shift, map_map. Qed.

Section Chien.
Variables (sel : nat) (ps : list nat) (err : list Z).
Hypotheses (Hsel : (sel <= 1)%nat) (Hlen : length err = 8%nat) (Hgf : forall k, gf (at_ err k)).
Hypothesis Hroots : forall p, (p < nn)%nat ->
  fold_left Z.lxor (map (fun k => mpy_mod_gf (at_ err k) (zpow (zpow beta p) (S k))) (seq 0 8)) 1 = 0 <-> In p ps.

Let gammas (m : nat) : list Z := map (fun k => mpy_mod_gf (at_ err k) (zpow (zpow beta m) (S k))) (seq 0 8).
Definition found (m n : nat) : list nat := filter (fun p => member ps p && in_data sel p) (seq m n).

Lemma hit m : (m < nn)%nat ->
  (fold_left Z.lxor (gammas m) 1 =? 0) && ((Z.of_nat sel =? 0) || (Z.of_nat sel =? 1)) && (2 * ecc_bits (Z.of_nat sel) <=? Z.of_nat m + 1) =
  member ps m && in_data sel m.
Proof.
  intros Hm. replace ((Z.of_nat sel =? 0) || (Z.of_nat sel =? 1)) with true; [rewrite andb_true_r|].
  - unfold in_data. f_equal. apply eq_true_iff_eq. rewrite member_In, Z.eqb_eq. exact (Hroots m Hm).
  - destruct sel as [|[|?]]; [reflexivity ..|lia].
Qed.

Lemma gammas_next m : chien_mul (Z.shiftr PPP 1) (gammas m) = gammas (S m).
Proof. replace (Z.shiftr PPP 1) with (zpow beta 1) by (vm_compute; reflexivity). now apply chien_mul_ok. Qed.

Lemma chien_loop_ok n m c loc : (m + n = nn)%nat -> (c + length (found m n) <= length ps <= length loc)%nat ->
  chien_loop n (Z.of_nat sel) (Z.of_nat (length ps)) (Z.of_nat m + 1) (Z.of_nat c) (gammas m) loc =
  Some (Z.of_nat (c + length (found m n)), fill loc c (map (location sel) (found m n))).
Proof.
  revert m c loc. induction n as [|n IH]; intros m c loc Hm Hc; cbn [chien_loop].
  - cbn. now rewrite fill_nil, Nat.add_0_r.
  - destruct (Z.ltb_spec (Z.of_nat c) (Z.of_nat (length ps))) as [Hl|Hl].
    2: { assert (E : found m (S n) = []) by (apply length_zero_iff_nil; lia). rewrite E. cbn [map length].
         now rewrite fill_nil, Nat.add_0_r. }
    rewrite hit, gammas_next by lia. replace (Z.of_nat m + 1 + 1) with (Z.of_nat (S m) + 1) by lia.
    unfold found in *. cbn [seq filter] in *. destruct (member ps m && in_data sel m).
    + cbn [length] in Hc. destruct (put_at loc (Z.to_nat (Z.of_nat c)) (location sel m)) as (loc' & E & Hl' & _); [lia|].
      change (location_of (Z.of_nat sel) (Z.of_nat m + 1)) with (location sel m). rewrite E. cbn [obind map].
      replace (Z.of_nat c + 1) with (Z.of_nat (S c)) by lia. rewrite Nat2Z.id in E.
      rewrite IH by lia. cbn [length]. rewrite <- (put_fill loc c _ _ loc') by (rewrite ?length_map; lia || exact E).
      do 3 f_equal. lia.
    + apply IH; lia.
Qed.

Lemma gammas_0 : gammas 0 = err.
Proof.
  unfold gammas. rewrite (map_ext _ (fun k => at_ err k)).
  - rewrite <- Hlen. apply map_at.
  - intros k. rewrite zpow_zpow, mpy_comm by (apply gf_beta || apply Hgf || apply gf_zpow, gf_beta). apply mpy_1_l, Hgf.
Qed.

(** The reported positions are at most the errors. *)
Lemma found_length : (length (found 0 nn) <= length ps)%nat.
Proof.
  apply NoDup_incl_length; [apply NoDup_filter, seq_NoDup|]. intros p Hp. apply filter_In in Hp as [_ Hp].
  apply andb_true_iff in Hp as [Hp _]. now apply member_In.
Qed.

Lemma chien_ok loc : (length ps <= length loc)%nat ->
  chien (Z.of_nat sel) (Z.of_nat (length ps)) err loc =
  Some (if (length (found 0 nn) =? length ps)%nat then Z.of_nat (length ps) else -1, fill loc 0 (map (location sel) (found 0 nn))).
Proof.
  intros Hl. unfold chien. generalize found_length. intros Hf.
  assert (Hc : (0 + length (found 0 nn) <= length ps <= length loc)%nat) by lia.
  generalize (chien_loop_ok nn 0 0 loc eq_refl Hc). rewrite gammas_0. change (Z.of_nat 0 + 1) with 1. change (Z.of_nat 0) with 0.
  intros E. rewrite E. cbn [obind Nat.add]. destruct (Nat.eqb_spec (length (found 0 nn)) (length ps)) as [E'|E'].
  - now rewrite E', Z.eqb_refl.
  - now rewrite (proj2 (Z.eqb_neq _ _)) by lia.
Qed.
End Chien.
(** ** The whole decoder *)

(** The members of an ascending list, in ascending order. *)
Lemma filter_member ps m n : StronglySorted lt ps -> (forall p, In p ps -> (m <= p < m + n)%nat) ->
  filter (member ps) (seq m n) = ps.
Proof.
  revert m ps. induction n as [|n IH]; intros m ps Hs Hp; cbn [seq filter].
  - destruct ps as [|p ps]; [reflexivity|]. generalize (Hp p (or_introl eq_refl)). lia.
  - destruct ps as [|p ps]; [clear; induction (seq (S m) n); auto|]. inversion Hs as [|? ? Hs' Hall]; subst.
    rewrite Forall_forall in Hall. destruct (Nat.eq_dec p m) as [->|Hne].
    + replace (member (m :: ps) m) with true by (cbn; now rewrite Nat.eqb_refl). f_equal.
      rewrite (filter_ext_in _ (member ps)).
      * apply IH; [exact Hs'|]. intros q Hq. specialize (Hall q Hq). specialize (Hp q (or_intror Hq)). lia.
      * intros q Hq. apply in_seq in Hq. cbn. now replace (q =? m)%nat with false by (symmetry; apply Nat.eqb_neq; lia).
    + assert (Hm : (m < p)%nat) by (specialize (Hp p (or_introl eq_refl)); lia).
      replace (member (p :: ps) m) with false.
      * apply IH; [exact Hs|]. intros q Hq. generalize (Hp q Hq). destruct Hq as [<-|Hq]; [|specialize (Hall q Hq)]; lia.
      * symmetry. apply not_true_is_false. rewrite member_In. intros [E|Hq]; [|specialize (Hall m Hq)]; lia.
Qed.

Lemma sorted_NoDup (ps : list nat) : StronglySorted lt ps -> NoDup ps.
Proof.
  induction 1 as [|p ps _ IH Hall]; constructor; [|exact IH]. rewrite Forall_forall in Hall. intros Hin.
  specialize (Hall p Hin). lia.
Qed.

Lemma filter_full {A} (f : A -> bool) l : (length (filter f l) =? length l)%nat = forallb f l.
Proof.
  induction l as [|x l IH]; [reflexivity|]. cbn [filter forallb length]. destruct (f x); [exact IH|].
  apply Nat.eqb_neq. generalize (filter_length_le f l). lia.
Qed.

(** Whether a correction in [berlekamp] ever follows one that kept the length. *)
Definition regular (sel : nat) (ecc : list Z) : bool :=
  match syndrome sel ecc (repeat 0 16) with
  | Some syn => settles ((sel + 1) * 8) syn 0 start false
  | None => false
  end.

Lemma decode_ok sel ecc ps err_loc :
  (sel <= 1)%nat -> (length ecc = (ecc_top sel + 1) / 8)%nat -> length err_loc = 8%nat ->
  StronglySorted lt ps -> (forall p, In p ps -> (p < nn)%nat) -> (length ps <= errors_max sel)%nat ->
  (forall k, (k < errors_max sel)%nat -> ecc_value sel ecc (2 * k + 1) = power_sum ps (2 * k + 1)) ->
  (length ps <= 3)%nat \/ (length ps = 4%nat /\ power_sum ps 1 <> 0) \/ regular sel ecc = true ->
  decode_bch sel ecc err_loc =
    Some (if forallb (in_data sel) ps then Z.of_nat (length ps) else -1, fill err_loc 0 (map (location sel) (filter (in_data sel) ps))).
Proof.
  intros Hsel Hecc Hloc Hs Hp Hn Hv Hgood.
  assert (Ht : (errors_max sel = (sel + 1) * 4 /\ errors_max sel <= 8 /\ Nat.shiftl 4 sel = errors_max sel)%nat)
    by (clear - Hsel; destruct sel as [|[|?]]; cbn; lia).
  destruct (syndrome_ok sel ecc ps Hsel Hecc Hv) as (syn & E & Hlen & Hsyn).
  assert (Hset : settles ((sel + 1) * 8) syn 0 start false = true).
  { destruct Hgood as [H|[H|H]]; [| |unfold regular in H; now rewrite E in H];
      apply (settles_start ps ((sel + 1) * 8) syn); try lia; try exact Hlen; try exact Hsyn.
    right. rewrite Hsyn by lia. split; [lia | apply H]. }
  unfold decode_bch. rewrite E. cbn [obind].
  destruct (berlekamp_ok sel ps syn Hsel Hlen Hsyn (sorted_NoDup ps Hs) Hp ltac:(lia) Hset) as (err & -> & He & Hg & Hr). cbn [obind].
  rewrite (proj2 (Nat.leb_le _ _)) by lia.
  rewrite (chien_ok sel ps err Hsel He Hg Hr) by lia.
  replace (found sel ps 0 nn) with (filter (in_data sel) ps); [now rewrite filter_full|].
  unfold found. rewrite <- (filter_member ps 0 nn Hs) at 1 by (intros p Hin; specialize (Hp p Hin); lia).
  clear. induction (seq 0 nn) as [|x l IH]; [reflexivity|]. cbn [filter].
  destruct (member ps x); cbn [andb filter]; [destruct (in_data sel x)|]; now rewrite <- IH.
Qed.
