(* ===== verification/BchPage.v ===== *)
(** * Correcting a page with the BCH codes

[src/x-loader/lib/omap_bch.c]: reading the engine's results, correcting the four sectors of
a page with what [Bch.decode_bch] finds, and switching the engine on; and the part of
[nand_read_page] in [src/x-loader/drivers/k9f1g08r0a.c] that calls it when the driver is
built for 4 or 8 bit correction.  The registers of the memory controller are a function
from addresses to words; the engine's contract is [engine]: for each sector they hold the
remainder of the error polynomial. *)
From stdpp Require Import base list.
From S2P Require Import Prelude Bits HwEcc Bch BchGf BchSyn BchGen BchDecode.
From Stdlib Require Import ZArith Lia Sorted.

Definition GPMC_BASE : Z := 0x6E000000.
Definition GPMC_ECC_CONFIG : Z := GPMC_BASE + 0x1F4.
Definition GPMC_ECC_CONTROL : Z := GPMC_BASE + 0x1F8.
Definition GPMC_ECC_SIZE_CONFIG : Z := GPMC_BASE + 0x1FC.
Definition GPMC_ECC_BCH_RESULT_0 : Z := 0x240.
Definition NAND_ECC_READ : Z := 0.
Definition NAND_ECC_WRITE : Z := 1.

(** The memory from the page on, the buffer for the calculated codes, the array of
locations (which nothing initialises) and the locations printed so far. *)
Record page := Page { dat : list Z; calc_ecc : list Z; err_loc : list Z; printed : list Z }.

(** ** The code *)
Section code.
Context (regs : Z -> Z).

Definition bch8_code (i : Z) : list Z :=
  let reg := GPMC_BASE + GPMC_ECC_BCH_RESULT_0 + 0x10 * i in
  let val1 := regs reg in
  let val2 := regs (reg + 4) in
  let val3 := regs (reg + 8) in
  let val4 := regs (reg + 12) in
  [Z.land val4 0xFF;
   Z.land (Z.shiftr val3 24) 0xFF; Z.land (Z.shiftr val3 16) 0xFF; Z.land (Z.shiftr val3 8) 0xFF; Z.land val3 0xFF;
   Z.land (Z.shiftr val2 24) 0xFF; Z.land (Z.shiftr val2 16) 0xFF; Z.land (Z.shiftr val2 8) 0xFF; Z.land val2 0xFF;
   Z.land (Z.shiftr val1 24) 0xFF; Z.land (Z.shiftr val1 16) 0xFF; Z.land (Z.shiftr val1 8) 0xFF; Z.land val1 0xFF].

Definition bch4_code (i : Z) : list Z :=
  let reg := GPMC_BASE + GPMC_ECC_BCH_RESULT_0 + 0x10 * i in
  let val1 := regs reg in
  let val2 := regs (reg + 4) in
  [Z.land (Z.shiftr val2 16) 0xFF; Z.land (Z.shiftr val2 8) 0xFF; Z.land val2 0xFF;
   Z.land (Z.shiftr val1 24) 0xFF; Z.land (Z.shiftr val1 16) 0xFF; Z.land (Z.shiftr val1 8) 0xFF; Z.land val1 0xFF].

(** [*ecc_code++ = ...] over a buffer. *)
Definition store_codes (codes ecc_code : list Z) : res (list Z) :=
  if (length codes <=? length ecc_code)%nat then Ok (codes ++ drop (length codes) ecc_code) else Fault OutOfBounds.
Definition omap_calculate_ecc_bch8 (ecc_code : list Z) : res (list Z) := store_codes (concat (bch8_code <$> [0; 1; 2; 3])) ecc_code.
Definition omap_calculate_ecc_bch4 (ecc_code : list Z) : res (list Z) := store_codes (concat (bch4_code <$> [0; 1; 2; 3])) ecc_code.

(** Whether one of the first [n] bytes is not [v]. *)
Fixpoint differs (n : nat) (l : list Z) (v : Z) : res bool :=
  match n with
  | O => Ok false
  | S n => match l with [] => Fault OutOfBounds | x :: l => if x =? v then differs n l v else Ok true end
  end.
Definition lift {A} (r : res A) : M page A := fun s => match r with Ok a => Ok (a, s) | Fault f => Fault f end.

(** The loop over the locations, from [j] on, in the sector at [base]. *)
Fixpoint flip_loop (n j : nat) (base : Z) : M page unit :=
  match n with
  | O => mret tt
  | S n =>
    let! s := mget in
    match err_loc s !! j with
    | None => mfault OutOfBounds
    | Some e =>
      do! (if e <? 4096 then
             let k := base + Z.shiftr e 3 in
             if k <? zlen (dat s)
             then mput (Page (flip_bit (dat s) k (Z.land e 7)) (calc_ecc s) (err_loc s) (printed s ++ [e]))
             else mfault OutOfBounds
           else mput (Page (dat s) (calc_ecc s) (err_loc s) (printed s ++ [e]))) in
      flip_loop n (S j) base
    end
  end.

Definition decode (mode eccsize : nat) (code : list Z) : M page Z := fun s =>
  match decode_bch mode (take eccsize code) (err_loc s) with
  | Some (count, locs) => Ok (count, Page (dat s) (calc_ecc s) locs (printed s))
  | None => Fault OutOfBounds
  end.

(** The loop over the sectors: [n] left, at [base] in the memory and [off] in the codes. *)
Fixpoint sector_loop (n mode eccsize : nat) (base : Z) (off : nat) (read_ecc : list Z) (corrected : Z) : M page Z :=
  match n with
  | O => mret corrected
  | S n =>
    let! calc := mgets (fun s => drop off (calc_ecc s)) in
    let! flag := lift (differs eccsize calc 0) in
    let! flag := (if flag then lift (differs eccsize (drop off read_ecc) 0xFF) else mret false) in
    let! corrected := (if flag then
        let! count := decode mode eccsize calc in
        do! flip_loop (Z.to_nat count) 0 base in
        mret (corrected + count)
      else mret corrected) in
    sector_loop n mode eccsize (base + 512) (off + eccsize) read_ecc corrected
  end.

Definition omap_correct_data_bch (correct_bits : Z) (buf : Z) (read_ecc : list Z) : M page Z :=
  let eccsize := if correct_bits =? 8 then 13%nat else 7%nat in
  let mode := if correct_bits =? 8 then 1%nat else 0%nat in
  if correct_bits =? 4 then
    let! s := mget in
    let! calc := lift (omap_calculate_ecc_bch4 (calc_ecc s)) in
    do! mput (Page (dat s) calc (err_loc s) (printed s)) in
    sector_loop 4 mode eccsize buf 0 read_ecc 0
  else if correct_bits =? 8 then
    let! s := mget in
    let! calc := lift (omap_calculate_ecc_bch8 (calc_ecc s)) in
    do! mput (Page (dat s) calc (err_loc s) (printed s)) in
    sector_loop 4 mode eccsize buf 0 read_ecc 0
  else mret (-1).
Definition omap_correct_data_bch4 (buf : Z) (read_ecc : list Z) : M page Z := omap_correct_data_bch 4 buf read_ecc.
Definition omap_correct_data_bch8 (buf : Z) (read_ecc : list Z) : M page Z := omap_correct_data_bch 8 buf read_ecc.

(** The loop of [nand_read_page], built for BCH: [ECC_STEPS] is [ECC_BYTES], so it runs once
per byte of code, [ECC_SIZE] = 256 bytes further each time.  A failure prints the page and
never returns. *)
Fixpoint read_page_loop (n : nat) (correct_bits buf : Z) (ecc_code : list Z) : M page unit :=
  match n with
  | O => mret tt
  | S n =>
    let! r := (if correct_bits =? 4 then omap_correct_data_bch4 buf ecc_code else omap_correct_data_bch8 buf ecc_code) in
    if r =? -1 then mfault Hang else read_page_loop n correct_bits (buf + 256) (drop 1 ecc_code)
  end.
Definition ECC_BYTES (correct_bits : Z) : nat := if correct_bits =? 4 then 28 else 52.
Definition correct_page (correct_bits : Z) (ecc_code : list Z) : M page unit :=
  read_page_loop (ECC_BYTES correct_bits) correct_bits 0 ecc_code.
End code.

(** ** Switching the engine on: the writes to the registers, and whether the mode is reported *)
Definition enable_writes (size_conf conf : Z) : list (Z * Z) :=
  [(GPMC_ECC_CONTROL, 0x1); (GPMC_ECC_SIZE_CONFIG, size_conf); (GPMC_ECC_CONFIG, conf); (GPMC_ECC_CONTROL, 0x101)].
Definition ecc_size_conf (eccsize1 eccsize0 : Z) : Z := Z.lor (Z.shiftl eccsize1 22) (Z.shiftl eccsize0 12).
Definition ecc_conf (bch_mod wrap dev_width : Z) : Z :=
  Z.lor (Z.lor (Z.lor (Z.lor (Z.lor (Z.lor (Z.shiftl 0x01 16) (Z.shiftl bch_mod 12)) (Z.shiftl wrap 8))
    (Z.shiftl dev_width 7)) (Z.shiftl 0x03 4)) (Z.shiftl 0 1)) 0x1.
Definition omap_enable_hwecc_bch4 (bus_width mode : Z) : list (Z * Z) * bool :=
  let dev_width := if bus_width =? 8 then 0 else 1 in
  if mode =? NAND_ECC_READ then (enable_writes (ecc_size_conf 0xD 0x48) (ecc_conf 0 0x09 dev_width), false)
  else if mode =? NAND_ECC_WRITE then (enable_writes (ecc_size_conf 0x20 0x00) (ecc_conf 0 0x06 dev_width), false)
  else (enable_writes 0 0, true).
Definition omap_enable_hwecc_bch8 (bus_width mode : Z) : list (Z * Z) * bool :=
  let dev_width := if bus_width =? 8 then 0 else 1 in
  if mode =? NAND_ECC_READ then (enable_writes (ecc_size_conf 0x1A 0x18) (ecc_conf 1 0x04 dev_width), false)
  else if mode =? NAND_ECC_WRITE then (enable_writes (ecc_size_conf 0x20 0x00) (ecc_conf 1 0x06 dev_width), false)
  else (enable_writes 0 0, true).

(** ** Errors in a page *)

(** The page with the bits of [l] inverted. *)
Definition flips (l : list Z) (d : list Z) : list Z := foldr (fun a d => flip d a) d l.
(** The coefficient that bit [a] of a sector has in the code word. *)
Definition coefficient (sel a : Z) : Z := 2 * ecc_bits sel + 8 * (511 - a / 8) + a mod 8.
Definition position (sel : nat) (a : Z) : nat := Z.to_nat (coefficient (Z.of_nat sel) a).
(** The errors of sector [i] among those of the page. *)
Definition sector_errors (E : list Z) (i : Z) : list Z := (fun a => a - 4096 * i) <$> filter (fun a => a / 4096 = i) E.
Definition sector_code (sel : nat) (es : list Z) : Z := remainder sel (position sel <$> es).
(** The engine's results after reading a page with the errors [E]. *)
Definition engine (sel : nat) (E : list Z) (regs : Z -> Z) : Prop := forall i w, 0 <= i < 4 -> 0 <= w < 4 ->
  regs (GPMC_BASE + GPMC_ECC_BCH_RESULT_0 + 0x10 * i + 4 * w) = Z.land (Z.shiftr (sector_code sel (sector_errors E i)) (32 * w)) (Z.ones 32).
(** The error patterns of a sector that the decoder finds. *)
Definition decodable (sel : nat) (es : list Z) : Prop :=
  (length es <= errors_max sel)%nat /\
  ((length es <= 3)%nat \/ (length es = 4%nat /\ power_sum (position sel <$> es) 1 <> 0) \/
   regular sel (ecc_bytes sel (sector_code sel es)) = true).

(** *** Inverting bits *)
Lemma flip_comm d a b : flip (flip d a) b = flip (flip d b) a.
Proof.
  unfold flip, flip_bit. destruct (decide (Z.to_nat (a / 8) = Z.to_nat (b / 8))) as [E|E].
  - rewrite E, !list_alter_alter_eq. apply list_alter_ext; [|done]. intros x _. cbn. unfold u8, wrapu.
    apply Z.bits_inj'. intros i Hi. destruct (Z_lt_le_dec i 8).
    + rewrite !Z.mod_pow2_bits_low, !Z.lxor_spec, !Z.mod_pow2_bits_low, !Z.lxor_spec by lia.
      by destruct (Z.testbit x i), (Z.testbit (Z.shiftl 1 (a mod 8)) i), (Z.testbit (Z.shiftl 1 (b mod 8)) i).
    + by rewrite !Z.mod_pow2_bits_high by lia.
  - apply list_alter_alter_ne. congruence.
Qed.
Lemma flips_perm l l' d : l ≡ₚ l' -> flips l d = flips l' d.
Proof.
  induction 1 as [|x l l' _ IH|x y l|l l' l'' _ IH1 _ IH2]; cbn [flips foldr]; [done| | |by rewrite IH1].
  - fold (flips l d) (flips l' d). by rewrite IH.
  - apply flip_comm.
Qed.
Lemma flips_app l l' d : flips (l ++ l') d = flips l (flips l' d).
Proof. apply foldr_app. Qed.
Lemma length_flips l d : length (flips l d) = length d.
Proof. induction l as [|a l IH]; [done|]. cbn. by rewrite length_flip. Qed.
Lemma flips_bytes l d : Forall is_byte d -> Forall is_byte (flips l d).
Proof.
  intros Hd. induction l as [|a l IH]; [done|]. cbn [flips foldr]. fold (flips l d).
  unfold flip, flip_bit. apply Forall_alter; [done|]. intros x _ _. unfold is_byte. apply wrapu_range. lia.
Qed.
Lemma flips_twice l d : Forall is_byte d -> Forall (fun a => 0 <= a) l -> flips l (flips l d) = d.
Proof.
  intros Hd. induction 1 as [|a l Ha Hl IH]; [done|].
  rewrite <- flips_app, (flips_perm _ (a :: a :: l ++ l)) by (cbn; by rewrite <- Permutation_middle).
  cbn [flips foldr]. fold (flips (l ++ l) d). rewrite flips_app, IH. by apply flip_flip.
Qed.

(** *** The coefficients of a sector's bits *)
Lemma positions_ok : forallb (fun sel => forallb (fun a =>
  (location_of sel (coefficient sel a + 1) =? a) && (2 * ecc_bits sel <=? coefficient sel a + 1) && (coefficient sel a <? 8191))
    (zfrom (Z.to_nat 4096) 0)) [0; 1] = true.
Proof. vm_compute. reflexivity. Qed.
Lemma position_ok sel a : (sel <= 1)%nat -> 0 <= a < 4096 ->
  location sel (position sel a) = a /\ in_data sel (position sel a) = true /\ (position sel a < nn)%nat.
Proof.
  intros Hsel Ha. pose proof (forallb_In _ _ (Z.of_nat sel) positions_ok) as H.
  assert (In (Z.of_nat sel) [0; 1]) as Hin by (destruct sel as [|[|?]]; [by left | right; by left | lia]).
  assert (In a (zfrom (Z.to_nat 4096) 0)) as Ha' by (apply zfrom_In; rewrite Z2Nat.id; lia).
  pose proof (forallb_In _ _ a (H Hin) Ha') as Hr. cbn beta in Hr. rewrite !andb_true_iff, Z.eqb_eq, Z.ltb_lt in Hr.
  assert (0 <= coefficient (Z.of_nat sel) a) as H0.
  { unfold coefficient, ecc_bits. pose proof (Z.mod_pos_bound a 8 ltac:(lia)). pose proof (Z.div_lt_upper_bound a 8 512 ltac:(lia) ltac:(lia)).
    destruct (_ =? 0); lia. }
  unfold location, in_data, position. rewrite Z2Nat.id by exact H0.
  pose proof nn_Z. split_and!; [tauto | tauto | lia].
Qed.

(** *** The errors in the order of their coefficients *)
Definition ascending (ps : list nat) : list nat := List.filter (member ps) (seq 0 nn).

Lemma seq_sorted m n : StronglySorted lt (seq m n).
Proof.
  revert m. induction n as [|n IH]; intros m; cbn [seq]; constructor; [apply IH|].
  apply List.Forall_forall. intros x Hx. apply in_seq in Hx. lia.
Qed.
Lemma filter_sorted (f : nat -> bool) l : StronglySorted lt l -> StronglySorted lt (List.filter f l).
Proof.
  induction 1 as [|x l _ IH Hall]; cbn [List.filter]; [constructor|]. destruct (f x); [|exact IH].
  constructor; [exact IH|]. rewrite List.Forall_forall in Hall |- *. intros y Hy. apply filter_In in Hy as [Hy _]. by apply Hall.
Qed.
Lemma ascending_perm ps : NoDup ps -> Forall (fun p => (p < nn)%nat) ps -> ascending ps ≡ₚ ps.
Proof.
  intros Hnd Hp. apply NoDup_Permutation; [|done|].
  - apply NoDup_ListNoDup, List.NoDup_filter, seq_NoDup.
  - intros p. rewrite !list_elem_of_In. unfold ascending. rewrite filter_In, member_In, in_seq.
    rewrite List.Forall_forall in Hp. split; [tauto|]. intros Hin. specialize (Hp p Hin). split; [lia | done].
Qed.

Lemma remainder_perm sel ps ps' : ps ≡ₚ ps' -> remainder sel ps = remainder sel ps'.
Proof.
  induction 1 as [|x l l' _ IH|x y l|l l' l'' _ IH1 _ IH2]; cbn [remainder fold_right]; [done| | |by rewrite IH1].
  - fold (remainder sel l) (remainder sel l'). by rewrite IH.
  - rewrite <- !Z.lxor_assoc. f_equal. apply Z.lxor_comm.
Qed.
Lemma power_sum_perm ps ps' j : ps ≡ₚ ps' -> power_sum ps j = power_sum ps' j.
Proof.
  unfold power_sum. induction 1 as [|x l l' _ IH|x y l|l l' l'' _ IH1 _ IH2]; cbn [map]; rewrite ?zsum_cons; [done| | |by rewrite IH1].
  - by rewrite IH.
  - rewrite <- !Z.lxor_assoc. f_equal. apply Z.lxor_comm.
Qed.

Lemma location_position sel es : (sel <= 1)%nat -> Forall (fun a => 0 <= a < 4096) es -> location sel <$> (position sel <$> es) = es.
Proof.
  intros Hsel. induction 1 as [|a es Ha _ IH]; [done|]. cbn [fmap list_fmap]. f_equal; [by apply position_ok | exact IH].
Qed.
Lemma filter_all {A} (f : A -> bool) l : forallb f l = true -> List.filter f l = l.
Proof. induction l as [|x l IH]; [done|]. cbn. intros [-> H]%andb_true_iff. by rewrite IH. Qed.

(** What the decoder makes of a sector. *)
Lemma decode_sector sel es locs : (sel <= 1)%nat -> NoDup es -> Forall (fun a => 0 <= a < 4096) es -> decodable sel es -> length locs = 8%nat ->
  exists ls, ls ≡ₚ es /\
    decode_bch sel (ecc_bytes sel (sector_code sel es)) locs = Some (Z.of_nat (length es), ls ++ drop (length es) locs).
Proof.
  intros Hsel Hnd Hr [Hlen Hdec] Hlocs. set (ps := ascending (position sel <$> es)).
  assert (Forall (fun p => (p < nn)%nat) (position sel <$> es)) as Hps.
  { apply Forall_fmap. eapply Forall_impl; [exact Hr|]. intros a Ha. cbn. by apply position_ok. }
  assert (NoDup (position sel <$> es)) as Hnd'.
  { apply (NoDup_fmap_1 (location sel)). by rewrite (location_position sel es Hsel Hr). }
  pose proof (ascending_perm _ Hnd' Hps) as Hperm. fold ps in Hperm.
  assert (length ps = length es) as Hl by (by rewrite Hperm, length_fmap).
  assert (forall p, In p ps -> (p < nn)%nat) as Hin by (intros p Hp; apply filter_In, proj1, in_seq in Hp; lia).
  assert (forallb (in_data sel) ps = true) as Hdata.
  { apply forallb_forall. intros p Hp. apply list_elem_of_In in Hp. rewrite Hperm in Hp.
    apply list_elem_of_fmap in Hp as (a & -> & Ha). rewrite Forall_forall in Hr. by apply position_ok, Hr. }
  exists (location sel <$> ps). split; [by rewrite Hperm, location_position|].
  unfold sector_code in *. rewrite <- (remainder_perm sel _ _ Hperm) in *.
  rewrite (decode_ok sel _ ps locs Hsel); [| |done| |done|lia| |].
  - rewrite Hdata, (filter_all _ _ Hdata), Hl. unfold fill. cbn [firstn app Nat.add].
    change (map (location sel) ps) with (location sel <$> ps). by rewrite length_fmap, Hl.
  - unfold ecc_bytes. by rewrite List.length_map, List.length_seq.
  - apply filter_sorted, seq_sorted.
  - intros k Hk. by apply remainder_value.
  - rewrite Hl, (power_sum_perm _ _ 1 Hperm). exact Hdec.
Qed.

(** *** The codes from the registers *)
Lemma byte_of_word r w s : 0 <= w -> 0 <= s <= 24 ->
  Z.land (Z.shiftr (Z.land (Z.shiftr r (32 * w)) (Z.ones 32)) s) 0xFF = Z.land (Z.shiftr r (32 * w + s)) 0xFF.
Proof.
  intros Hw Hs. change 0xFF with (Z.ones 8). apply Z.bits_inj'. intros i Hi. rewrite !Z.land_spec, !Z.testbit_ones_nonneg by lia.
  destruct (Z.ltb_spec i 8); [|by rewrite !andb_false_r]. rewrite !andb_true_r, !Z.shiftr_spec by lia.
  rewrite Z.land_spec, Z.testbit_ones_nonneg, Z.shiftr_spec by lia.
  rewrite (proj2 (Z.ltb_lt (i + s) 32)), andb_true_r by lia. f_equal. lia.
Qed.

Definition eccsize (sel : nat) : nat := match sel with O => 7 | _ => 13 end.

(** The bytes of the word at [4 * w] of sector [i]. *)
Section registers.
Context (regs : Z -> Z) (sel : nat) (E : list Z) (Heng : engine sel E regs) (i : Z) (Hi : 0 <= i < 4).
Let reg := GPMC_BASE + GPMC_ECC_BCH_RESULT_0 + 0x10 * i.
Let code := sector_code sel (sector_errors E i).

Lemma register w a s : 0 <= w < 4 -> 0 <= s <= 24 -> a = reg + 4 * w ->
  Z.land (Z.shiftr (regs a) s) 0xFF = Z.land (Z.shiftr code (32 * w + s)) 0xFF.
Proof. intros Hw Hs ->. unfold reg. rewrite (Heng i w Hi Hw). apply byte_of_word; lia. Qed.
Lemma register_low w a : 0 <= w < 4 -> a = reg + 4 * w ->
  Z.land (regs a) 0xFF = Z.land (Z.shiftr code (32 * w)) 0xFF.
Proof. intros Hw Ha. generalize (register w a 0 Hw ltac:(lia) Ha). by rewrite Z.shiftr_0_r, Z.add_0_r. Qed.
End registers.

Lemma bch8_code_ok regs E i : engine 1 E regs -> 0 <= i < 4 -> bch8_code regs i = ecc_bytes 1 (sector_code 1 (sector_errors E i)).
Proof.
  intros He Hi. unfold bch8_code. set (reg := GPMC_BASE + GPMC_ECC_BCH_RESULT_0 + 0x10 * i).
  pose proof (fun w a s Hw Hs => register regs 1 E He i Hi w a s Hw Hs) as R.
  pose proof (fun w a Hw => register_low regs 1 E He i Hi w a Hw) as R0. fold reg in R, R0.
  rewrite !(R 0 reg), !(R 1 (reg + 4)), !(R 2 (reg + 8)), (R0 0 reg), (R0 1 (reg + 4)), (R0 2 (reg + 8)), (R0 3 (reg + 12)) by lia.
  reflexivity.
Qed.
Lemma bch4_code_ok regs E i : engine 0 E regs -> 0 <= i < 4 -> bch4_code regs i = ecc_bytes 0 (sector_code 0 (sector_errors E i)).
Proof.
  intros He Hi. unfold bch4_code. set (reg := GPMC_BASE + GPMC_ECC_BCH_RESULT_0 + 0x10 * i).
  pose proof (fun w a s Hw Hs => register regs 0 E He i Hi w a s Hw Hs) as R.
  pose proof (fun w a Hw => register_low regs 0 E He i Hi w a Hw) as R0. fold reg in R, R0.
  rewrite !(R 0 reg), !(R 1 (reg + 4)), (R0 0 reg), (R0 1 (reg + 4)) by lia. reflexivity.
Qed.

(** *** The loops *)
Lemma flip_loop_ok ls before rest base s :
  err_loc s = before ++ ls ++ rest -> Forall (fun e => 0 <= e < 4096) ls -> 0 <= base -> base + 512 <= zlen (dat s) ->
  flip_loop (length ls) (length before) base s =
  Ok (tt, Page (flips (Z.add (8 * base) <$> ls) (dat s)) (calc_ecc s) (err_loc s) (printed s ++ ls)).
Proof.
  intros Hl Hr Hb. revert before s Hl. induction Hr as [|e ls He Hr IH]; intros before s Hl Hz.
  - destruct s. cbn. by rewrite app_nil_r.
  - cbn [length flip_loop]. unfold mbind, mget. cbn beta iota. rewrite Hl. cbn [app]. rewrite list_lookup_middle by done.
    rewrite (proj2 (Z.ltb_lt e 4096)) by lia.
    assert (0 <= Z.shiftr e 3 < 512) as H3.
    { rewrite Z.shiftr_div_pow2 by lia. change (2 ^ 3) with 8. pose proof (Z.div_pos e 8). pose proof (Z.div_lt_upper_bound e 8 512). lia. }
    rewrite (proj2 (Z.ltb_lt _ (zlen (dat s)))) by lia. unfold mput. cbn beta iota.
    set (s' := Page _ _ _ _). replace (S (length before)) with (length (before ++ [e])) by (rewrite length_app; cbn; lia).
    assert (dat s' = flip (dat s) (8 * base + e)) as Ed.
    { cbn [s' dat]. unfold flip. rewrite Z.shiftr_div_pow2 by lia. change (2 ^ 3) with 8. change 7 with (2 ^ 3 - 1).
      rewrite land_ones_mod by lia. change (2 ^ 3) with 8. replace (8 * base + e) with (e + base * 8) by lia.
      rewrite Z.div_add, Z.mod_add by lia. f_equal. lia. }
    rewrite IH; [|cbn [s' err_loc]; by rewrite <- app_assoc|unfold zlen in *; rewrite Ed, length_flip; lia].
    rewrite Ed. cbn [s' calc_ecc err_loc printed fmap list_fmap]. do 2 f_equal.
    + change (flip (dat s) (8 * base + e)) with (flips [8 * base + e] (dat s)). rewrite <- flips_app.
      apply f_equal4; [|done|done|by rewrite <- app_assoc]. apply flips_perm. by rewrite Permutation_app_comm.
Qed.

Lemma differs_ok n l v : (n <= length l)%nat -> differs n l v = Ok (existsb (fun x => negb (x =? v)) (take n l)).
Proof.
  revert l. induction n as [|n IH]; intros l Hn; [done|]. destruct l as [|x l]; cbn [length] in Hn; [lia|].
  cbn [differs take existsb]. destruct (x =? v); [apply IH; lia | done].
Qed.

(** A sector without errors has a zero code, and no other that the decoder finds has. *)
Lemma sector_code_nil sel : ecc_bytes sel (sector_code sel []) = replicate (eccsize sel) 0.
Proof. by destruct sel. Qed.
Lemma length_ecc_bytes sel r : length (ecc_bytes sel r) = eccsize sel.
Proof. unfold ecc_bytes. rewrite List.length_map, List.length_seq. by destruct sel. Qed.
Lemma existsb_replicate (l : list Z) : existsb (fun x => negb (x =? 0)) l = false -> l = replicate (length l) 0.
Proof.
  induction l as [|x l IH]; [done|]. cbn [existsb length replicate]. intros [Hx Hl]%orb_false_iff.
  apply negb_false_iff, Z.eqb_eq in Hx. by rewrite Hx, <- (IH Hl).
Qed.
Lemma existsb_replicate_0 n : existsb (fun x => negb (x =? 0)) (replicate n 0) = false.
Proof. by induction n. Qed.

Lemma code_flag sel es : (sel <= 1)%nat -> NoDup es -> Forall (fun a => 0 <= a < 4096) es -> decodable sel es ->
  existsb (fun x => negb (x =? 0)) (ecc_bytes sel (sector_code sel es)) = negb (length es =? 0)%nat.
Proof.
  intros Hsel Hnd Hr Hd. destruct es as [|e es]; [rewrite sector_code_nil; apply existsb_replicate_0|].
  cbn [length Nat.eqb negb]. apply not_false_is_true. intros H%existsb_replicate.
  rewrite length_ecc_bytes, <- sector_code_nil in H.
  destruct (decode_sector sel (e :: es) (replicate 8 0) Hsel Hnd Hr Hd eq_refl) as (ls & _ & E1).
  destruct (decode_sector sel [] (replicate 8 0) Hsel) as (ls' & _ & E2); [constructor | constructor| |done|].
  - split; [cbn; lia | left; cbn; lia].
  - rewrite H, E2 in E1. cbn [length] in E1. assert (Z.of_nat 0 = Z.of_nat (S (length es))) as E3 by congruence. lia.
Qed.

(** One sector. *)
(** A stored code that is there and not that of an erased sector. *)
Definition coded (sel : nat) (l : list Z) : Prop :=
  (eccsize sel <= length l)%nat /\ existsb (fun x => negb (x =? 0xFF)) (take (eccsize sel) l) = true.
Lemma sector_step sel es n base off read_ecc corrected s :
  (sel <= 1)%nat -> NoDup es -> Forall (fun a => 0 <= a < 4096) es -> decodable sel es -> length (err_loc s) = 8%nat ->
  take (eccsize sel) (drop off (calc_ecc s)) = ecc_bytes sel (sector_code sel es) ->
  (es <> [] -> coded sel (drop off read_ecc)) ->
  0 <= base -> base + 512 <= zlen (dat s) ->
  exists s', sector_loop (S n) sel (eccsize sel) base off read_ecc corrected s =
      sector_loop n sel (eccsize sel) (base + 512) (off + eccsize sel) read_ecc (corrected + Z.of_nat (length es)) s' /\
    dat s' = flips (Z.add (8 * base) <$> es) (dat s) /\ calc_ecc s' = calc_ecc s /\ length (err_loc s') = 8%nat.
Proof.
  intros Hsel Hnd Hr Hd Hloc Hcode Hff Hb Hz. cbn [sector_loop]. unfold mbind at 1, mgets. cbn beta iota.
  assert (eccsize sel <= length (drop off (calc_ecc s)))%nat as Hlen.
  { pose proof (length_ecc_bytes sel (sector_code sel es)) as Hl. rewrite <- Hcode, length_take in Hl. lia. }
  unfold mbind at 1, lift at 1. rewrite differs_ok, Hcode, code_flag by done. destruct es as [|e es].
  - exists s. cbn [length Nat.eqb negb]. unfold mbind at 1 2, mret at 1 2. cbn [fmap list_fmap flips foldr].
    by rewrite Z.add_0_r.
  - cbn [length Nat.eqb negb]. destruct (Hff ltac:(done)) as [Hf1 Hf2]. unfold mbind at 1, lift at 1. rewrite differs_ok, Hf2 by done.
    destruct (decode_sector sel (e :: es) (err_loc s) Hsel Hnd Hr Hd Hloc) as (ls & Hp & Edec).
    unfold mbind at 1 2, decode. rewrite Hcode, Edec. cbn beta iota. rewrite Nat2Z.id.
    unfold mbind at 1. change (S (length es)) with (length (e :: es)). rewrite <- (Permutation_length Hp).
    rewrite (flip_loop_ok ls [] (drop (length ls) (err_loc s))); [|done|by rewrite Hp|done|done].
    unfold mret. eexists. split; [reflexivity|]. cbn [dat calc_ecc err_loc]. split_and!; [|done|].
    + apply flips_perm. by rewrite Hp.
    + destruct Hd as [Hmax _]. pose proof (Permutation_length Hp). rewrite length_app, length_drop, Hloc. assert (errors_max sel <= 8)%nat by (destruct sel; cbn; lia). lia.
Qed.

(** *** The page *)
Definition later (E : list Z) (k : Z) : list Z := filter (fun a => k <= a / 4096) E.

Lemma sector_bits E k : Z.add (4096 * k) <$> sector_errors E k = filter (fun a => a / 4096 = k) E.
Proof.
  unfold sector_errors. rewrite <- list_fmap_compose.
  rewrite <- (list_fmap_id (filter _ E)) at 2. apply list_fmap_ext. intros i x _. unfold compose, id. lia.
Qed.
Lemma later_split E k : later E k ≡ₚ filter (fun a => a / 4096 = k) E ++ later E (k + 1).
Proof.
  unfold later. induction E as [|a E IH]; [done|]. rewrite !filter_cons. repeat case_decide; try lia; cbn [app].
  - by rewrite IH.
  - by rewrite IH, Permutation_middle.
  - exact IH.
Qed.
Lemma length_sector E k : length (sector_errors E k) = length (filter (fun a => a / 4096 = k) E).
Proof. apply length_fmap. Qed.
Lemma sector_range E k : NoDup E -> NoDup (sector_errors E k) /\ Forall (fun a => 0 <= a < 4096) (sector_errors E k).
Proof.
  intros Hnd. split.
  - apply NoDup_fmap_2; [intros x y ?; lia | by apply NoDup_filter].
  - unfold sector_errors. apply Forall_fmap, Forall_forall. intros a [Ha _]%list_elem_of_filter. cbn.
    pose proof (Z.div_mod a 4096 ltac:(lia)). pose proof (Z.mod_pos_bound a 4096 ltac:(lia)). lia.
Qed.

Lemma later_all E : Forall (fun a => 0 <= a < 16384) E -> later E 0 = E.
Proof.
  unfold later. induction 1 as [|a l Ha _ IH]; [done|]. rewrite filter_cons, decide_True by (apply Z.div_pos; lia). by rewrite IH.
Qed.

Lemma concat_at n (ls : list (list Z)) k x tail : Forall (fun l => length l = n) ls -> ls !! k = Some x ->
  take n (drop (k * n) (concat ls ++ tail)) = x.
Proof.
  intros Hl. revert k. induction Hl as [|l ls Hl _ IH]; intros k Hk; [done|]. cbn [concat]. rewrite <- app_assoc.
  destruct k as [|k]; cbn [lookup list_lookup] in Hk.
  - injection Hk as ->. cbn [Nat.mul]. rewrite drop_0. by apply take_app_length'.
  - cbn [Nat.mul]. rewrite drop_app_add' by done. by apply IH.
Qed.

Section page.
Context (regs : Z -> Z) (sel : nat) (E read_ecc : list Z).
Hypotheses (Hsel : (sel <= 1)%nat) (Heng : engine sel E regs) (Hnd : NoDup E) (Hpos : Forall (fun a => 0 <= a < 16384) E).
Hypothesis Hdec : forall i, 0 <= i < 4 -> decodable sel (sector_errors E i).
Hypothesis Hcoded : forall i : nat, (i < 4)%nat -> sector_errors E (Z.of_nat i) <> [] -> coded sel (drop (i * eccsize sel) read_ecc).
Let codes := concat ((fun i => ecc_bytes sel (sector_code sel (sector_errors E i))) <$> [0; 1; 2; 3]).

Lemma codes_at (k : nat) tail : (k < 4)%nat ->
  take (eccsize sel) (drop (k * eccsize sel) (codes ++ tail)) = ecc_bytes sel (sector_code sel (sector_errors E (Z.of_nat k))).
Proof.
  intros Hk. apply concat_at.
  - apply Forall_fmap, Forall_forall. intros i _. apply length_ecc_bytes.
  - do 4 (destruct k as [|k]; [done|]). lia.
Qed.

(** The sectors from [k] on of the page at [buf]. *)
Lemma sectors_ok n k tail buf corrected s : (n + k = 4)%nat -> length (err_loc s) = 8%nat -> calc_ecc s = codes ++ tail ->
  0 <= buf -> buf + 2048 <= zlen (dat s) ->
  exists s', sector_loop n sel (eccsize sel) (buf + 512 * Z.of_nat k) (k * eccsize sel) read_ecc corrected s =
      Ok (corrected + Z.of_nat (length (later E (Z.of_nat k))), s') /\
    dat s' = flips (Z.add (8 * buf) <$> later E (Z.of_nat k)) (dat s) /\ calc_ecc s' = calc_ecc s /\ length (err_loc s') = 8%nat.
Proof.
  revert k corrected s. induction n as [|n IH]; intros k corrected s Hk Hloc Hcalc Hb Hz.
  - assert (later E (Z.of_nat k) = []) as El.
    { apply elem_of_nil_inv. intros a [Ha Hin]%list_elem_of_filter. rewrite Forall_forall in Hpos. specialize (Hpos a Hin).
      pose proof (Z.div_lt_upper_bound a 4096 4 ltac:(lia) ltac:(lia)). lia. }
    exists s. rewrite El. cbn. by rewrite Z.add_0_r.
  - destruct (sector_range E (Z.of_nat k) Hnd) as [Hn Hr].
    destruct (sector_step sel (sector_errors E (Z.of_nat k)) n (buf + 512 * Z.of_nat k) (k * eccsize sel) read_ecc corrected s)
      as (s' & -> & Hd' & Hc' & Hl'); try done; try lia.
    + apply Hdec. lia.
    + rewrite Hcalc. apply codes_at. lia.
    + apply Hcoded. lia.
    + destruct (IH (S k) (corrected + Z.of_nat (length (sector_errors E (Z.of_nat k)))) s') as (s2 & E2 & Hd2 & Hc2 & Hl2); try lia; try done.
      { by rewrite Hc'. } { unfold zlen in *. by rewrite Hd', length_flips. }
      exists s2. replace (buf + 512 * Z.of_nat k + 512) with (buf + 512 * Z.of_nat (S k)) by lia.
      replace (k * eccsize sel + eccsize sel)%nat with (S k * eccsize sel)%nat by lia. rewrite E2.
      replace (Z.of_nat (S k)) with (Z.of_nat k + 1) in * by lia. split_and!; [| |by rewrite Hc2|done].
      * do 2 f_equal. rewrite (Permutation_length (later_split E (Z.of_nat k))), length_app, <- length_sector. lia.
      * rewrite Hd2, Hd', <- flips_app. apply flips_perm. rewrite (later_split E (Z.of_nat k)), fmap_app, <- sector_bits, <- list_fmap_compose.
        rewrite Permutation_app_comm. apply Permutation_app; [|done].
        apply Permutation_refl', list_fmap_ext. intros i x _. unfold compose. lia.
Qed.

Lemma calculated buf : (4 * eccsize sel <= length buf)%nat ->
  match sel with O => omap_calculate_ecc_bch4 regs buf | _ => omap_calculate_ecc_bch8 regs buf end = Ok (codes ++ drop (length codes) buf).
Proof.
  intros Hl. transitivity (store_codes codes buf).
  - unfold codes. destruct sel as [|[|?]]; [| |lia]; cbn [fmap list_fmap].
    + by rewrite <- !(bch4_code_ok regs E) by (done || lia).
    + by rewrite <- !(bch8_code_ok regs E) by (done || lia).
  - unfold store_codes. rewrite (proj2 (Nat.leb_le _ _)); [done|]. unfold codes. cbn [fmap list_fmap concat].
    rewrite !length_app, !length_ecc_bytes. cbn. lia.
Qed.

(** A call of the correction for the page at [buf] inverts the bits [E] from there. *)
Lemma correct_ok buf s : length (err_loc s) = 8%nat -> (4 * eccsize sel <= length (calc_ecc s))%nat -> 0 <= buf -> buf + 2048 <= zlen (dat s) ->
  exists s', omap_correct_data_bch regs (4 * (Z.of_nat sel + 1)) buf read_ecc s = Ok (Z.of_nat (length E), s') /\
    dat s' = flips (Z.add (8 * buf) <$> E) (dat s) /\ (4 * eccsize sel <= length (calc_ecc s'))%nat /\ length (err_loc s') = 8%nat.
Proof.
  intros Hloc Hcalc Hb Hz.
  destruct (sectors_ok 4 0 (drop (length codes) (calc_ecc s)) buf 0 (Page (dat s) (codes ++ drop (length codes) (calc_ecc s)) (err_loc s) (printed s)))
    as (s' & Es & Hd & Hc & Hl); try done.
  cbn [Nat.mul Z.of_nat] in Es. rewrite Z.mul_0_r, Z.add_0_r in Es. change (Z.of_nat 0) with 0 in *. rewrite (later_all E Hpos), Z.add_0_l in *.
  exists s'. split_and!; [|exact Hd| |exact Hl].
  - rewrite <- Es. unfold omap_correct_data_bch. pose proof (calculated (calc_ecc s) Hcalc) as Hst.
    clear - Hsel Hst. clearbody codes. destruct sel as [|[|?]]; [change (4 * (Z.of_nat 0 + 1)) with 4 | change (4 * (Z.of_nat 1 + 1)) with 8 | lia];
      cbn [Z.eqb Pos.eqb]; unfold mbind, mget, mput, lift; by rewrite Hst.
  - rewrite Hc. cbn [calc_ecc]. rewrite length_app, length_drop. lia.
Qed.
End page.

Lemma shift_0 (E : list Z) : Z.add (8 * 0) <$> E = E.
Proof. rewrite <- (list_fmap_id E) at 2. by apply list_fmap_ext. Qed.

(** ** The page is corrected *)

(** C9. [omap_correct_data_bch] restores a page: when the engine has left the remainders of
the errors [E] of the page, at most four (eight) per sector and of a pattern the decoder
finds (always up to three, four unless their locators add up to zero), and the sectors
with errors have a stored code, it returns their number and the page is what was written. *)
Theorem bch_corrects_page regs sel E pg read_ecc s :
  (sel <= 1)%nat -> engine sel E regs -> NoDup E -> Forall (fun a => 0 <= a < 16384) E ->
  (forall i, 0 <= i < 4 -> decodable sel (sector_errors E i)) ->
  (forall i : nat, (i < 4)%nat -> sector_errors E (Z.of_nat i) <> [] -> coded sel (drop (i * eccsize sel) read_ecc)) ->
  Forall is_byte pg -> 2048 <= zlen pg ->
  dat s = flips E pg -> (4 * eccsize sel <= length (calc_ecc s))%nat -> length (err_loc s) = 8%nat ->
  exists s', omap_correct_data_bch regs (4 * (Z.of_nat sel + 1)) 0 read_ecc s = Ok (Z.of_nat (length E), s') /\ dat s' = pg.
Proof.
  intros Hsel Heng Hnd Hpos Hdec Hcoded Hb Hl Hd Hcalc Hloc.
  destruct (correct_ok regs sel E read_ecc Hsel Heng Hnd Hpos Hdec Hcoded 0 s Hloc Hcalc) as (s' & Es & Hd' & _); [done| |].
  - rewrite Hd. unfold zlen in *. by rewrite length_flips.
  - exists s'. split; [exact Es|]. rewrite Hd', Hd, shift_0.
    apply flips_twice; [done|]. eapply Forall_impl; [exact Hpos|]. intros a Ha. cbn in Ha. lia.
Qed.

(** ** The loop of [nand_read_page] *)

(** The errors [E], [c] times 256 bytes further. *)
Definition further (E : list Z) (c : nat) : list Z := Z.add (2048 * Z.of_nat c) <$> E.

Lemma sector_0 E : Forall (fun a => 0 <= a < 4096) E -> sector_errors E 0 = E /\ forall i, 0 < i -> sector_errors E i = [].
Proof.
  unfold sector_errors. induction 1 as [|a l Ha _ [IH1 IH2]]; [done|]. rewrite filter_cons. split.
  - rewrite decide_True by (by apply Z.div_small). cbn [fmap list_fmap]. f_equal; [lia | exact IH1].
  - intros i Hi. rewrite filter_cons, decide_False by (rewrite Z.div_small by lia; lia). by apply IH2.
Qed.

Lemma select_bch regs sel buf ecc_code : (sel <= 1)%nat ->
  (if 4 * (Z.of_nat sel + 1) =? 4 then omap_correct_data_bch4 regs buf ecc_code else omap_correct_data_bch8 regs buf ecc_code) =
  omap_correct_data_bch regs (4 * (Z.of_nat sel + 1)) buf ecc_code.
Proof.
  intros Hsel. destruct sel as [|[|?]]; [change (4 * (Z.of_nat 0 + 1)) with 4 | change (4 * (Z.of_nat 1 + 1)) with 8 | lia]; reflexivity.
Qed.

Section read_page.
Context (regs : Z -> Z) (sel : nat) (E ecc_code : list Z).
Hypotheses (Hsel : (sel <= 1)%nat) (Heng : engine sel E regs) (Hnd : NoDup E) (Hpos : Forall (fun a => 0 <= a < 4096) E).
Hypothesis Hdec : decodable sel E.
Let total := ECC_BYTES (4 * (Z.of_nat sel + 1)).
Hypothesis Hcode : length ecc_code = 64%nat.
Hypothesis Hset : Forall (fun x => x <> 0xFF) (take total ecc_code).

Lemma coded_from c : (c < total)%nat -> coded sel (drop c ecc_code).
Proof.
  intros Hc. assert (total + eccsize sel <= 65 /\ 1 <= eccsize sel)%nat as Ht by (unfold total; clear - Hsel; destruct sel as [|[|?]]; [split; by apply Nat.leb_le .. | lia]).
  split; [rewrite length_drop; lia|]. destruct (lookup_lt_is_Some_2 ecc_code c ltac:(lia)) as [x Hx].
  rewrite (drop_S _ _ _ Hx). replace (eccsize sel) with (S (pred (eccsize sel))) by (by destruct sel). cbn [take existsb].
  rewrite (proj2 (Z.eqb_neq x 0xFF)); [done|]. apply (Forall_lookup_1 _ _ c x Hset). rewrite lookup_take, decide_True by done. exact Hx.
Qed.

Lemma read_page_loop_ok n c s : (n + c = total)%nat -> length (err_loc s) = 8%nat -> (4 * eccsize sel <= length (calc_ecc s))%nat ->
  (length E <> 0)%nat -> 256 * Z.of_nat total + 2048 <= zlen (dat s) ->
  exists s', read_page_loop regs n (4 * (Z.of_nat sel + 1)) (256 * Z.of_nat c) (drop c ecc_code) s = Ok (tt, s') /\
    dat s' = flips (concat (further E <$> reverse (seq c n))) (dat s).
Proof.
  revert c s. induction n as [|n IH]; intros c s Hc Hloc Hcalc HE Hz; [by exists s|]. cbn [read_page_loop]. unfold mbind at 1.
  destruct (sector_0 E Hpos) as [S0 S1].
  destruct (correct_ok regs sel E (drop c ecc_code) Hsel Heng Hnd) with (buf := 256 * Z.of_nat c) (s := s)
    as (s' & Es & Hd & Hc' & Hl'); try done; try lia.
  - eapply Forall_impl; [exact Hpos|]. intros a Ha. cbn in *. lia.
  - intros i Hi. destruct (decide (i = 0)) as [->|Hne]; [by rewrite S0|]. rewrite S1 by lia.
    split; [cbn; lia | left; cbn; lia].
  - intros i Hi Hs. destruct i as [|i]; [|by rewrite S1 in Hs by lia]. cbn [Nat.mul]. rewrite drop_0. apply coded_from. lia.
  - rewrite select_bch by exact Hsel.
    rewrite Es, (proj2 (Z.eqb_neq _ (-1))) by lia. rewrite drop_drop, Nat.add_1_r.
    replace (256 * Z.of_nat c + 256) with (256 * Z.of_nat (S c)) by lia.
    destruct (IH (S c) s') as (s2 & -> & Hd2); try lia; try done.
    { rewrite Hd. unfold zlen in *. by rewrite length_flips. }
    exists s2. split; [done|]. rewrite Hd2, Hd, <- flips_app. cbn [seq]. rewrite reverse_cons, fmap_app, concat_app.
    cbn [fmap list_fmap concat]. rewrite app_nil_r.
    by replace (8 * (256 * Z.of_nat c)) with (2048 * Z.of_nat c) by lia.
Qed.
End read_page.

(** The loop of [nand_read_page] for BCH corrects a page and then spoils it: it runs
[ECC_BYTES] times, 256 bytes further each time, with the same results of the engine.  When
the first sector has errors, the bits at the same distance after each of the later starts
are inverted, the last ones long past the page. *)
Theorem bch_read_page_spoils regs sel E pg ecc_code s :
  (sel <= 1)%nat -> engine sel E regs -> NoDup E -> Forall (fun a => 0 <= a < 4096) E -> E <> [] -> decodable sel E ->
  length ecc_code = 64%nat -> Forall (fun x => x <> 0xFF) (take (ECC_BYTES (4 * (Z.of_nat sel + 1))) ecc_code) ->
  Forall is_byte pg -> 256 * Z.of_nat (ECC_BYTES (4 * (Z.of_nat sel + 1))) + 2048 <= zlen pg ->
  dat s = flips E pg -> (4 * eccsize sel <= length (calc_ecc s))%nat -> length (err_loc s) = 8%nat ->
  exists s', correct_page regs (4 * (Z.of_nat sel + 1)) ecc_code s = Ok (tt, s') /\
    dat s' = flips (concat (further E <$> reverse (seq 1 (ECC_BYTES (4 * (Z.of_nat sel + 1)) - 1)))) pg.
Proof.
  intros Hsel Heng Hnd Hpos HE Hdec Hcode Hset Hb Hz Hd Hcalc Hloc. unfold correct_page.
  destruct (read_page_loop_ok regs sel E ecc_code Hsel Heng Hnd Hpos Hdec Hcode Hset (ECC_BYTES (4 * (Z.of_nat sel + 1))) 0 s)
    as (s' & Es & Hd'); try done; [lia | by destruct E | unfold zlen in *; by rewrite Hd, length_flips|].
  exists s'. split; [exact Es|]. rewrite Hd', Hd.
  destruct (ECC_BYTES (4 * (Z.of_nat sel + 1))) as [|n] eqn:En; [by destruct sel as [|[|?]]; [| |lia]|].
  cbn [seq Nat.sub]. rewrite Nat.sub_0_r, reverse_cons, fmap_app, concat_app, flips_app. f_equal.
  cbn [fmap list_fmap concat]. rewrite app_nil_r. unfold further. change (2048 * Z.of_nat 0) with (8 * 0). rewrite shift_0.
  apply flips_twice; [done|]. eapply Forall_impl; [exact Hpos|]. intros a Ha. cbn in Ha. lia.
Qed.

(** ** The decoder *)

(** [decode_bch] on the remainder of up to four (eight) errors at the coefficients [ps]
gives the place of each in the data; when one of them is in the stored code it gives -1.
It holds for up to three errors, for four whose locators do not add up to zero, and
whenever no correction in [berlekamp] follows one that kept the length. *)
Theorem decode_bch_finds sel ps locs :
  (sel <= 1)%nat -> StronglySorted lt ps -> (forall p, In p ps -> (p < nn)%nat) -> (length ps <= errors_max sel)%nat -> length locs = 8%nat ->
  (length ps <= 3)%nat \/ (length ps = 4%nat /\ power_sum ps 1 <> 0) \/ regular sel (ecc_bytes sel (remainder sel ps)) = true ->
  decode_bch sel (ecc_bytes sel (remainder sel ps)) locs =
    Some (if forallb (in_data sel) ps then Z.of_nat (length ps) else -1, fill locs 0 (map (location sel) (List.filter (in_data sel) ps))).
Proof.
  intros Hsel Hs Hp Hn Hl Hgood. apply decode_ok; try done.
  - unfold ecc_bytes. by rewrite List.length_map, List.length_seq.
  - intros k Hk. by apply remainder_value.
Qed.

Definition zero_sum : list Z := [3631; 3121; 2467; 1133].

