(* ===== verification/ExamplesBch.v ===== *)
(** * Pages with errors, corrected with the BCH codes *)
From stdpp Require Import base list.
From S2P Require Import Prelude Bits HwEcc Bch BchGf BchSyn BchGen BchDecode BchPage.
From Stdlib Require Import ZArith Lia Sorted.

(** The registers after reading a page with the errors [E]. *)
Definition ex_regs (sel : nat) (E : list Z) (a : Z) : Z :=
  let off := a - (GPMC_BASE + GPMC_ECC_BCH_RESULT_0) in
  Z.land (Z.shiftr (sector_code sel (sector_errors E (off / 16))) (32 * (off mod 16 / 4))) (Z.ones 32).

Lemma ex_engine sel E : engine sel E (ex_regs sel E).
Proof.
  intros i w Hi Hw. unfold ex_regs.
  replace (GPMC_BASE + GPMC_ECC_BCH_RESULT_0 + 16 * i + 4 * w - (GPMC_BASE + GPMC_ECC_BCH_RESULT_0)) with (4 * w + i * 16) by lia.
  rewrite Z.div_add, Z.mod_add, (Z.div_small (4 * w)), (Z.mod_small (4 * w)) by lia.
  by replace (4 * w / 4) with w by (rewrite Z.mul_comm, Z.div_mul; lia).
Qed.

Lemma few_decodable sel es : (sel <= 1)%nat -> (length es <= 3)%nat -> decodable sel es.
Proof. intros Hsel Hl. split; [destruct sel; cbn; lia | by left]. Qed.

(** Two errors in the first sector, one in the last. *)
Definition ex_errors : list Z := [5; 1000; 12290].
Definition ex_blank : list Z := replicate 2048 0.
Definition ex_page : page := Page (flips ex_errors ex_blank) (replicate 64 0) (replicate 8 0xDEADBEEF) [].
Definition ex_stored : list Z := replicate 64 0.

Lemma ex_sector i : 0 <= i < 4 -> decodable 1 (sector_errors ex_errors i).
Proof.
  intros Hi. apply few_decodable; [lia|]. assert (i = 0 \/ i = 1 \/ i = 2 \/ i = 3) as H by lia.
  destruct H as [-> | [-> | [-> | ->]]]; vm_compute; lia.
Qed.
Lemma ex_coded i : (i < 4)%nat -> sector_errors ex_errors (Z.of_nat i) <> [] -> coded 1 (drop (i * eccsize 1) ex_stored).
Proof. intros Hi _. do 4 (destruct i as [|i]; [split; [cbn; lia | reflexivity]|]). lia. Qed.

Lemma bch_corrects_page_witness :
  exists s', omap_correct_data_bch (ex_regs 1 ex_errors) 8 0 ex_stored ex_page = Ok (3, s') /\ dat s' = ex_blank.
Proof.
  apply (bch_corrects_page (ex_regs 1 ex_errors) 1 ex_errors ex_blank ex_stored ex_page); [lia | apply ex_engine | | | exact ex_sector | exact ex_coded | | | done | cbn; lia | done].
  - apply (bool_decide_unpack _). vm_compute. exact I.
  - repeat constructor; lia.
  - apply Forall_replicate. split; lia.
  - vm_compute. discriminate.
Defined.

Definition ex_memory : list Z := replicate (Z.to_nat 16384) 0.
Definition ex_full : page := Page (flips [5] ex_memory) (replicate 64 0) (replicate 8 0xDEADBEEF) [].
Lemma bch_read_page_spoils_witness :
  exists s', correct_page (ex_regs 1 [5]) 8 ex_stored ex_full = Ok (tt, s') /\
    dat s' = flips (concat (further [5] <$> reverse (seq 1 51))) ex_memory.
Proof.
  apply (bch_read_page_spoils (ex_regs 1 [5]) 1 [5] ex_memory ex_stored ex_full); [lia | apply ex_engine | | | done | | done | | | | done | cbn; lia | done].
  - apply NoDup_singleton.
  - repeat constructor; lia.
  - apply few_decodable; cbn; lia.
  - apply Forall_take, Forall_replicate. lia.
  - apply Forall_replicate. split; lia.
  - vm_compute. discriminate.
Defined.

Lemma decode_bch_finds_witness :
  decode_bch 1 (ecc_bytes 1 (remainder 1 [300; 1000; 1500; 2222; 4000]%nat)) (replicate 8 7) =
  Some (5, [4004; 3296; 2804; 2086; 296; 7; 7; 7]).
Proof.
  rewrite (decode_bch_finds 1 [300; 1000; 1500; 2222; 4000]%nat (replicate 8 7)); [vm_compute; reflexivity | lia | | | cbn; lia | done | ].
  - do 5 (apply SSorted_cons; [|repeat (apply List.Forall_cons; [apply Nat.ltb_lt; reflexivity|]); apply List.Forall_nil]).
    apply SSorted_nil.
  - intros p Hp. pose proof nn_Z. cbn in Hp. lia.
  - right. right. vm_compute. reflexivity.
Defined.
