(* ===== verification/Fat.v ===== *)
(** * The FAT file system reader of the boot loader

[src/x-loader/fs/fat/fat.c] with [src/x-loader/include/fat.h], as configured for
the RHINO board (no partition code of its own: the offset comes from the first
entry of the partition table).  The block device underneath is the
[BlockDevice] class, which the MMC driver implements; [DiskLaws] says what a
device promises.  Strings are lists of character codes without the terminator. *)
From stdpp Require Import base list.
From S2P Require Import Prelude Bits.
From Stdlib Require Import ZArith Lia.

(** ** Constants *)
Definition SECTOR_SIZE : Z := 512.
Definition FS_BLOCK_SIZE : Z := 512.
Definition DIRENTSPERBLOCK : nat := 16.
Definition FATBUFBLOCKS : Z := 6.
Definition FATBUFSIZE : Z := FS_BLOCK_SIZE * FATBUFBLOCKS.
Definition FAT12BUFSIZE : Z := (FATBUFSIZE * 2) / 3.
Definition FAT16BUFSIZE : Z := FATBUFSIZE / 2.
Definition FAT32BUFSIZE : Z := FATBUFSIZE / 4.
Definition FAT12_SIGN : list Z := [70; 65; 84; 49; 50; 32; 32; 32].
Definition FAT16_SIGN : list Z := [70; 65; 84; 49; 54; 32; 32; 32].
Definition FAT32_SIGN : list Z := [70; 65; 84; 51; 50; 32; 32; 32].
Definition SIGNLEN : nat := 7.
Definition ATTR_VOLUME : Z := 8.
Definition ATTR_DIR : Z := 16.
Definition DELETED_FLAG : Z := 0xe5.
Definition aRING : Z := 0x05.
Definition LS_NO : Z := 0.
Definition LS_YES : Z := 1.
Definition LS_ROOT : Z := 2.
Definition DOS_PART_TBL_OFFSET : nat := 0x1be.
Definition DOS_PART_MAGIC_OFFSET : nat := 0x1fe.
Definition DOS_FS_TYPE_OFFSET : Z := 0x52.

(** ** The block device *)

(** Reading [count] blocks from [start]: the status and the bytes that have been
written to the buffer. *)
Class BlockDevice (D : Type) : Type := {
  block_read : Z -> Z -> M D (Z * list Z);
}.

Definition sectors (sector : Z -> list Z) (start : Z) (n : nat) : list Z := concat (sector <$> zseq start n).

(** A device of [nsect] sectors of 512 bytes in a state that satisfies [ok]
delivers them, reports 1, and stays in such a state. *)
Class DiskLaws {D} `{BlockDevice D} (ok : D -> Prop) (nsect : Z) (sector : Z -> list Z) : Prop := {
  sector_bytes i : 0 <= i < nsect -> zlen (sector i) = 512 /\ Forall is_byte (sector i);
  block_read_ok d start n :
    ok d -> 0 <= start -> start + Z.of_nat n <= nsect ->
    exists d', runs (block_read start (Z.of_nat n)) d (1, sectors sector start n) d' /\ ok d';
}.

(** ** Data *)
Record fsdata : Type := mk_fsdata {
  fatsize : Z;
  fatlength : Z;
  fat_sect : Z;
  rootdir_sect : Z;
  clust_size : Z;
  data_begin : Z;
  fatbuf : list Z;
  fatbufnum : Z;
}.

Record dir_entry : Type := mk_dir_entry {
  d_name : list Z;
  d_ext : list Z;
  d_attr : Z;
  d_starthi : Z;
  d_start : Z;
  d_size : Z;
}.

(** The entry at [off] of a buffer. *)
Definition dir_entry_at (off : Z) (l : list Z) : dir_entry :=
  mk_dir_entry (slice off 8 l) (slice (off + 8) 3 l) (field (off + 11) 1 l)
    (field (off + 20) 2 l) (field (off + 26) 2 l) (field (off + 28) 4 l).

Record boot_sector : Type := mk_boot_sector {
  b_cluster_size : Z;
  b_reserved : Z;
  b_fats : Z;
  b_dir_entries : list Z;
  b_fat_length : Z;
  b_fat32_length : Z;
  b_root_cluster : Z;
}.

Definition boot_sector_of (block : list Z) : boot_sector :=
  mk_boot_sector (field 13 1 block) (field 14 2 block) (field 16 1 block) (slice 17 2 block)
    (field 22 2 block) (field 36 4 block) (field 44 4 block).

(** What is printed. *)
Inductive fat_line : Type :=
| FatError
| LsFile (size : Z) (name : list Z)
| LsDir (name : list Z)
| LsTotal (files dirs : Z).

(** The reader: the device, [cur_dev] (a device with a [block_read]), the
partition, [datablock], [do_fat_read_block], the memory the caller passes as
[buffer], and the console. *)
Record fatfs (D : Type) : Type := mk_fatfs {
  f_dev : D;
  cur_dev : bool;
  part_offset : Z;
  datablock : fsdata;
  do_fat_read_block : list Z;
  f_mem : list Z;
  f_out : list fat_line;
}.
Arguments mk_fatfs {D} _ _ _ _ _ _ _.
Arguments f_dev {D} _.
Arguments cur_dev {D} _.
Arguments part_offset {D} _.
Arguments datablock {D} _.
Arguments do_fat_read_block {D} _.
Arguments f_mem {D} _.
Arguments f_out {D} _.

(** ** Strings *)
Definition TOLOWER (c : Z) : Z := if (65 <=? c) && (c <=? 90) then c + (97 - 65) else c.

Definition downcase (str : list Z) : list Z := TOLOWER <$> str.

Definition ISDIRDELIM (c : Z) : bool := (c =? 47) || (c =? 92).

Fixpoint dirdelim_loop (str : list Z) (n : Z) : Z :=
  match str with
  | [] => -1
  | c :: str => if ISDIRDELIM c then n else dirdelim_loop str (n + 1)
  end.

Definition dirdelim (str : list Z) : Z := dirdelim_loop str 0.

Fixpoint skip_delims (str : list Z) : list Z :=
  match str with
  | c :: rest => if ISDIRDELIM c then skip_delims rest else str
  | [] => []
  end.

(** [__res] is a signed char. *)
Fixpoint strcmp (cs ct : list Z) : Z :=
  match cs, ct with
  | [], [] => 0
  | [], c :: _ => s8 (0 - c)
  | c :: _, [] => s8 c
  | c :: cs, d :: ct => if truthy (s8 (c - d)) then s8 (c - d) else strcmp cs ct
  end.

(** On buffers, at most [count] characters and no further than a terminator. *)
Fixpoint strncmp (cs ct : list Z) (count : nat) : Z :=
  match count with
  | O => 0
  | S count =>
    let c := hd 0 cs in let d := hd 0 ct in
    if truthy (s8 (c - d)) then s8 (c - d)
    else if c =? 0 then 0 else strncmp (tl cs) (tl ct) count
  end.

Fixpoint compare_sign_loop (n : nat) (str1 str2 : list Z) : Z :=
  match n with
  | O => 0
  | S n => if hd 0 str1 =? hd 0 str2 then compare_sign_loop n (tl str1) (tl str2) else -1
  end.

Definition compare_sign (str1 str2 : list Z) : Z := compare_sign_loop SIGNLEN str1 str2.

(** The characters up to a terminator or a blank. *)
Fixpoint until_blank (l : list Z) : list Z :=
  match l with
  | c :: l => if (c =? 0) || (c =? 32) then [] else c :: until_blank l
  | [] => []
  end.

Definition get_name (dirent : dir_entry) : list Z :=
  let base := until_blank (d_name dirent) in
  let ext0 := hd 0 (d_ext dirent) in
  let s_name := if negb (ext0 =? 0) && negb (ext0 =? 32) then base ++ 46 :: until_blank (d_ext dirent) else base in
  let s_name :=
    match s_name with
    | c :: rest => if c =? DELETED_FLAG then [] else if c =? aRING then 0xe5 :: rest else s_name
    | [] => []
    end in
  downcase s_name.

Fixpoint mkcksum_loop (str : list Z) (ret : Z) : Z :=
  match str with
  | [] => ret
  | c :: str => mkcksum_loop str (u8 (Z.lor (Z.shiftl (Z.land ret 1) 7) (Z.shiftr (Z.land ret 0xfe) 1) + c))
  end.

Definition mkcksum (dirent : dir_entry) : Z := mkcksum_loop (d_name dirent ++ d_ext dirent) 0.

Section reader.
Context {D : Type} `{BlockDevice D}.
Abbreviation FM := (M (fatfs D)).

Definition set_dev (d : D) (s : fatfs D) : fatfs D :=
  mk_fatfs d (cur_dev s) (part_offset s) (datablock s) (do_fat_read_block s) (f_mem s) (f_out s).
Definition set_fsdata (m : fsdata) (s : fatfs D) : fatfs D :=
  mk_fatfs (f_dev s) (cur_dev s) (part_offset s) m (do_fat_read_block s) (f_mem s) (f_out s).
Definition set_block (b : list Z) (s : fatfs D) : fatfs D :=
  mk_fatfs (f_dev s) (cur_dev s) (part_offset s) (datablock s) b (f_mem s) (f_out s).
Definition set_mem (m : list Z) (s : fatfs D) : fatfs D :=
  mk_fatfs (f_dev s) (cur_dev s) (part_offset s) (datablock s) (do_fat_read_block s) m (f_out s).
Definition set_part (c : bool) (o : Z) (s : fatfs D) : fatfs D :=
  mk_fatfs (f_dev s) c o (datablock s) (do_fat_read_block s) (f_mem s) (f_out s).

Definition fat_print (l : fat_line) : FM unit :=
  mmodify (fun s => mk_fatfs (f_dev s) (cur_dev s) (part_offset s) (datablock s) (do_fat_read_block s)
                      (f_mem s) (f_out s ++ [l])).

(** Calling the device. *)
Definition on_dev {A} (m : M D A) : FM A := fun s =>
  match m (f_dev s) with
  | Ok (a, d) => Ok (a, set_dev d s)
  | Fault f => Fault f
  end.

(** [memcpy] into the caller's buffer. *)
Definition store (off : Z) (data : list Z) : FM unit :=
  let! m := mgets f_mem in
  if off + zlen data <=? zlen m then
    mmodify (set_mem (take (Z.to_nat off) m ++ data ++ drop (Z.to_nat (off + zlen data)) m))
  else mfault OutOfBounds.

(** ** Blocks *)

(** The status and what has been read. *)
Definition disk_read (startblock getsize : Z) : FM (Z * list Z) :=
  let! s := mget in
  if cur_dev s then
    let! (r, data) := on_dev (block_read (u32 (startblock + part_offset s)) getsize) in
    mret (s32 r, data)
  else mret (-1, []).

(** The boot record goes to a local buffer. *)
Definition fat_register_device (has_block_read : bool) (part_no : Z) : FM Z :=
  if negb has_block_read then mret (-1) else
  let! o := mgets part_offset in
  do! mmodify (set_part true o) in
  let! (r, buffer) := on_dev (block_read 0 1) in
  if negb (r =? 1) then do! fat_print FatError in mret (-1) else
  if negb (nth DOS_PART_MAGIC_OFFSET buffer 0 =? 0x55)
     || negb (nth (DOS_PART_MAGIC_OFFSET + 1) buffer 0 =? 0xaa) then mret (-1) else
  if negb (truthy (strncmp (drop (Z.to_nat DOS_FS_TYPE_OFFSET) buffer) [70; 65; 84] 3)) then
    do! mmodify (set_part true 0) in mret 0
  else
    let b i := nth (DOS_PART_TBL_OFFSET + i) buffer 0 in
    do! mmodify (set_part true
      (u32 (Z.lor (Z.lor (Z.lor (b 8%nat) (Z.shiftl (b 9%nat) 8)) (Z.shiftl (b 10%nat) 16)) (Z.shiftl (b 11%nat) 24)))) in
    mret 0.

(** ** The table *)

(** The halfword and the word at an index of the table buffer. *)
Definition fat16_at (buf : list Z) (i : Z) : Z := field (2 * i) 2 buf.
Definition fat32_at (buf : list Z) (i : Z) : Z := field (4 * i) 4 buf.

Definition fat12_entry (buf : list Z) (offset : Z) : Z :=
  let off16 := (offset * 3) / 4 in
  let r := Z.land offset 0x3 in
  if r =? 0 then Z.land (fat16_at buf off16) 0xfff
  else if r =? 1 then
    let val1 := Z.land (fat16_at buf off16) 0xf000 in
    let val2 := Z.land (fat16_at buf (off16 + 1)) 0x00ff in
    Z.lor (Z.shiftl val2 4) (Z.shiftr val1 12)
  else if r =? 2 then
    let val1 := Z.land (fat16_at buf off16) 0xff00 in
    let val2 := Z.land (fat16_at buf (off16 + 1)) 0x000f in
    Z.lor (Z.shiftl val2 8) (Z.shiftr val1 8)
  else Z.shiftr (Z.land (fat16_at buf off16) 0xfff0) 4.

Definition buf_entries (size : Z) : Z :=
  if size =? 32 then FAT32BUFSIZE else if size =? 16 then FAT16BUFSIZE else FAT12BUFSIZE.

(** Reads the part of the table that [bufnum] names; a negative status is an error. *)
Definition load_fatbuf (bufnum : Z) : FM bool :=
  let! m := mgets datablock in
  let length := u32 (fatlength m * SECTOR_SIZE) in
  let startblock := u32 (u32 (bufnum * FATBUFBLOCKS) + fat_sect m) in
  let getsize := if length <? FATBUFSIZE / FS_BLOCK_SIZE then length else FATBUFSIZE / FS_BLOCK_SIZE in
  let! (r, data) := disk_read startblock getsize in
  do! mmodify (fun s => set_fsdata (mk_fsdata (fatsize m) (fatlength m) (fat_sect m) (rootdir_sect m)
        (clust_size m) (data_begin m) (overlay data (fatbuf m))
        (if r <? 0 then fatbufnum m else bufnum)) s) in
  mret (0 <=? r).

Definition get_fatent (entry : Z) : FM Z :=
  let! m := mgets datablock in
  if (fatsize m =? 32) || (fatsize m =? 16) || (fatsize m =? 12) then
    let bufnum := entry / buf_entries (fatsize m) in
    let offset := entry - bufnum * buf_entries (fatsize m) in
    let! ok := if bufnum =? u32 (fatbufnum m) then mret true else load_fatbuf bufnum in
    if negb ok then mret 0 else
    let! buf := mgets (fun s => fatbuf (datablock s)) in
    mret (if fatsize m =? 32 then fat32_at buf offset
          else if fatsize m =? 16 then fat16_at buf offset
          else fat12_entry buf offset)
  else mret 0.

(** ** Contents *)
Definition get_cluster (clustnum buffer size : Z) : FM Z :=
  let! m := mgets datablock in
  let startsect := if 0 <? clustnum then u32 (data_begin m + clustnum * clust_size m) else rootdir_sect m in
  let! (r, data) := disk_read startsect (size / FS_BLOCK_SIZE) in
  do! store buffer data in
  if r <? 0 then mret (-1) else
  if truthy (size mod FS_BLOCK_SIZE) then
    let idx := size / FS_BLOCK_SIZE in
    let! (r, tmpbuf) := disk_read (u32 (startsect + idx)) 1 in
    if r <? 0 then mret (-1) else
    do! store (buffer + idx * FS_BLOCK_SIZE) (take (Z.to_nat (size mod FS_BLOCK_SIZE)) tmpbuf) in
    mret 0
  else mret 0.

Definition bad_cluster (c : Z) : bool := (c <=? 1) || (0xfffff0 <=? c).

(** Both loops of [get_contents]: [actsize] bytes in consecutive clusters from
[curclust] to [endclust] are found but not yet read. *)
Fixpoint contents_loop (fuel : nat) (bytesperclust curclust endclust actsize filesize gotsize buffer : Z) : FM Z :=
  match fuel with
  | O => mfault OutOfFuel
  | S fuel =>
    if actsize <? filesize then
      let! newclust := get_fatent endclust in
      if negb (u32 (newclust - 1) =? endclust) then
        let! r := get_cluster curclust buffer actsize in
        if truthy r then do! fat_print FatError in mret (-1) else
        let gotsize := u32 (gotsize + actsize) in
        let filesize := u32 (filesize - actsize) in
        let buffer := buffer + actsize in
        let! curclust := get_fatent endclust in
        if bad_cluster curclust then do! fat_print FatError in mret (s32 gotsize)
        else contents_loop fuel bytesperclust curclust curclust bytesperclust filesize gotsize buffer
      else if bad_cluster newclust then mret (s32 gotsize)
      else contents_loop fuel bytesperclust curclust newclust (u32 (actsize + bytesperclust)) filesize gotsize buffer
    else
      let actsize := u32 (actsize - bytesperclust) in
      let! r := get_cluster curclust buffer actsize in
      if truthy r then do! fat_print FatError in mret (-1) else
      let gotsize := u32 (gotsize + actsize) in
      let filesize := u32 (filesize - actsize) in
      let buffer := buffer + actsize in
      let! r := get_cluster endclust buffer filesize in
      if truthy r then do! fat_print FatError in mret (-1) else
      mret (s32 (u32 (gotsize + filesize)))
  end.

Definition START (m : fsdata) (dent : dir_entry) : Z :=
  d_start dent + (if negb (fatsize m =? 32) then 0 else Z.shiftl (d_starthi dent) 16).

Definition get_contents (fuel : nat) (dentptr : dir_entry) (buffer maxsize : Z) : FM Z :=
  let! m := mgets datablock in
  let bytesperclust := clust_size m * SECTOR_SIZE in
  let curclust := START m dentptr in
  let filesize := if (0 <? maxsize) && (maxsize <? d_size dentptr) then maxsize else d_size dentptr in
  contents_loop fuel bytesperclust curclust curclust bytesperclust filesize 0 buffer.
(** ** The root directory *)
Inductive scan : Type :=
| Found (e : dir_entry)
| Stop (ret : Z)
| More (files dirs : Z).

(** [n] entries of the block, from entry [i] on. *)
Fixpoint scan_loop (n : nat) (i : Z) (block fname : list Z) (isdir : bool) (dols files dirs : Z) : FM scan :=
  match n with
  | O => mret (More files dirs)
  | S n =>
    let dent := dir_entry_at (32 * i) block in
    let next := scan_loop n (i + 1) block fname isdir dols in
    if truthy (Z.land (d_attr dent) ATTR_VOLUME) then next files dirs
    else if hd 0 (d_name dent) =? 0 then
      if dols =? LS_ROOT then do! fat_print (LsTotal files dirs) in mret (Stop 0) else mret (Stop (-1))
    else if (dols =? LS_ROOT) && (mkcksum dent =? 0xffff) then next files dirs
    else
      let s_name := get_name dent in
      if dols =? LS_ROOT then
        if truthy (Z.land (d_attr dent) ATTR_DIR) then
          if negb (hd 0 s_name =? 0) then do! fat_print (LsDir s_name) in next files (dirs + 1)
          else next files dirs
        else if negb (hd 0 s_name =? 0) then do! fat_print (LsFile (d_size dent) s_name) in next (files + 1) dirs
        else next files dirs
      else if truthy (strcmp fname s_name) && truthy (strcmp fname []) then next files dirs
      else if isdir && negb (truthy (Z.land (d_attr dent) ATTR_DIR)) then mret (Stop (-1))
      else mret (Found dent)
  end.

Fixpoint root_loop (fuel : nat) (cursect curclus : Z) (fname : list Z) (isdir : bool) (dols files dirs : Z) : FM scan :=
  match fuel with
  | O => mfault OutOfFuel
  | S fuel =>
    let! m := mgets datablock in
    let! (r, data) := disk_read (u32 cursect) (clust_size m) in
    do! mmodify (fun s => set_block (overlay data (do_fat_read_block s)) s) in
    if r <? 0 then do! fat_print FatError in mret (Stop (-1)) else
    let! block := mgets do_fat_read_block in
    let! found := scan_loop DIRENTSPERBLOCK 0 block fname isdir dols files dirs in
    match found with
    | More files dirs =>
      if negb (fatsize m =? 32) then root_loop fuel (cursect + 1) curclus fname isdir dols files dirs
      else
        let! curclus := get_fatent (u32 curclus) in
        root_loop fuel (s32 (curclus * clust_size m + data_begin m)) (s32 curclus) fname isdir dols files dirs
    | _ => mret found
    end
  end.

(** The only version of this function that is compiled. *)
Definition get_dentfromdir (startsect : Z) (filename : list Z) (retdent : dir_entry) (dols : Z) : option dir_entry := None.

(** The way down the directories: the value to return, or the entry of the file. *)
Fixpoint dir_loop (fuel : nat) (m : fsdata) (dent : dir_entry) (subname : list Z) (firsttime isdir : bool) (dols : Z)
  : FM (Z + dir_entry) :=
  if negb isdir then mret (inr dent) else
  match fuel with
  | O => mfault OutOfFuel
  | S fuel =>
    let startsect := data_begin m + START m dent * clust_size m in
    let idx := dirdelim subname in
    let name := if 0 <=? idx then take (Z.to_nat idx) subname else subname in
    let nextname := if 0 <=? idx then skip_delims (drop (Z.to_nat (idx + 1)) subname) else [] in
    let '(firsttime, isdir) :=
      if 0 <=? idx then
        ((if truthy dols && (hd 0 nextname =? 0) then false else firsttime), isdir)
      else if truthy dols && firsttime then (false, isdir) else (firsttime, false) in
    match get_dentfromdir startsect name dent (if isdir then 0 else dols) with
    | None => mret (inl (if truthy dols && negb isdir then 0 else -1))
    | Some dent =>
      if 0 <=? idx then
        if negb (truthy (Z.land (d_attr dent) ATTR_DIR)) then mret (inl (-1))
        else dir_loop fuel m dent nextname firsttime isdir dols
      else dir_loop fuel m dent name firsttime isdir dols
    end
  end.

(** ** The boot sector *)

(** The boot sector and the width of the table, or an error. *)
Definition read_bootsectandvi : FM (option (boot_sector * Z)) :=
  let! (r, block) := disk_read 0 1 in
  if r <? 0 then mret None else
  let bs := boot_sector_of block in
  if b_fat_length bs =? 0 then
    let fs_type := drop (64 + 18) block in
    if compare_sign FAT32_SIGN fs_type =? 0 then mret (Some (bs, 32)) else mret None
  else
    let fs_type := drop (36 + 18) block in
    if compare_sign FAT12_SIGN fs_type =? 0 then mret (Some (bs, 12))
    else if compare_sign FAT16_SIGN fs_type =? 0 then mret (Some (bs, 16))
    else mret None.

(** The layout of the volume; the widths are those of [fsdata]. *)
Definition layout_of (bs : boot_sector) (size : Z) (buf : list Z) : fsdata :=
  let fatlength := u16 (if size =? 32 then b_fat32_length bs else b_fat_length bs) in
  let fat_sect := b_reserved bs in
  let rootdir_sect := u16 (fat_sect + fatlength * b_fats bs) in
  let clust_size := b_cluster_size bs in
  let rootdir_size :=
    if size =? 32 then clust_size
    else ((nth 1 (b_dir_entries bs) 0 * 256 + nth 0 (b_dir_entries bs) 0) * 32) / SECTOR_SIZE in
  let data_begin :=
    if size =? 32 then s16 (rootdir_sect - clust_size * 2)
    else s16 (rootdir_sect + rootdir_size - clust_size * 2) in
  mk_fsdata size fatlength fat_sect rootdir_sect clust_size data_begin buf (-1).

Definition do_fat_read (fuel : nat) (filename : list Z) (buffer maxsize dols : Z) : FM Z :=
  let! vi := read_bootsectandvi in
  match vi with
  | None => do! fat_print FatError in mret (-1)
  | Some (bs, size) =>
    do! mmodify (fun s => set_fsdata (layout_of bs size (fatbuf (datablock s))) s) in
    let! m := mgets datablock in
    let fnamecopy := downcase (skip_delims filename) in
    let idx := dirdelim fnamecopy in
    let run fname isdir subname dols :=
      let! found := root_loop fuel (rootdir_sect m) (s32 (b_root_cluster bs)) fname isdir dols 0 0 in
      match found with
      | Found dent =>
        let! r := dir_loop fuel m dent subname true isdir dols in
        match r with
        | inl ret => mret ret
        | inr dent => get_contents fuel dent buffer maxsize
        end
      | Stop ret => mret ret
      | More _ _ => mfault OutOfFuel
      end in
    match fnamecopy with
    | [] => if negb (truthy dols) then do! fat_print FatError in mret (-1) else run [] false [] LS_ROOT
    | _ =>
      if 0 <=? idx then
        run (take (Z.to_nat idx) fnamecopy) true (skip_delims (drop (Z.to_nat (idx + 1)) fnamecopy)) dols
      else run fnamecopy (truthy dols) [] dols
    end
  end.

Definition file_fat_ls (fuel : nat) (dir : list Z) : FM Z := do_fat_read fuel dir 0 0 LS_YES.

Definition file_fat_read (fuel : nat) (filename : list Z) (buffer maxsize : Z) : FM Z :=
  do_fat_read fuel filename buffer maxsize LS_NO.
End reader.

(** * Properties *)

(** ** Table entries *)

(** Entry [e] of a file allocation table, as the format defines it. *)
Definition fat_entry (size : Z) (table : list Z) (e : Z) : Z :=
  if size =? 32 then field (4 * e) 4 table
  else if size =? 16 then field (2 * e) 2 table
  else let w := field (3 * e / 2) 2 table in if Z.even e then w mod 4096 else w / 16.

Lemma field2 off l :
  0 <= off -> field off 2 l = nth (Z.to_nat off) l 0 + 256 * nth (S (Z.to_nat off)) l 0.
Proof.
  intros Ho. unfold field, slice. change (Z.to_nat 2) with 2%nat. generalize (Z.to_nat off). intros n.
  revert l. induction n as [|n IH]; intros l.
  - rewrite drop_0. destruct l as [|a [|b l]]; simpl; rewrite ?firstn_O; simpl; lia.
  - destruct l as [|a l]; [done|]. cbn [drop nth]. rewrite IH. done.
Qed.

Ltac divmod := Z.to_euclidean_division_equations; lia.

Lemma shiftr_mask x m k n :
  0 <= k -> 0 <= n -> m = Z.shiftl (2 ^ n - 1) k -> Z.shiftr (Z.land x m) k = x / 2 ^ k mod 2 ^ n.
Proof.
  intros Hk Hn ->. rewrite Z.shiftr_land, Z.shiftr_shiftl_l, Z.sub_diag, Z.shiftl_0_r, land_ones_mod by done.
  by rewrite Z.shiftr_div_pow2.
Qed.

(** The four ways a 12-bit entry lies in the halfwords of a group of four. *)
Lemma fat12_group (b0 b1 b2 b3 b4 b5 : Z) :
  is_byte b0 -> is_byte b1 -> is_byte b2 -> is_byte b3 -> is_byte b4 -> is_byte b5 ->
  Z.land (b0 + 256 * b1) 0xfff = (b0 + 256 * b1) mod 4096 /\
  Z.lor (Z.shiftl (Z.land (b2 + 256 * b3) 0xff) 4) (Z.shiftr (Z.land (b0 + 256 * b1) 0xf000) 12) = (b1 + 256 * b2) / 16 /\
  Z.lor (Z.shiftl (Z.land (b4 + 256 * b5) 0xf) 8) (Z.shiftr (Z.land (b2 + 256 * b3) 0xff00) 8) = (b3 + 256 * b4) mod 4096 /\
  Z.shiftr (Z.land (b4 + 256 * b5) 0xfff0) 4 = (b4 + 256 * b5) / 16.
Proof.
  unfold is_byte. intros H0 H1 H2 H3 H4 H5.
  rewrite (shiftr_mask _ 0xf000 12 4), (shiftr_mask _ 0xff00 8 8), (shiftr_mask _ 0xfff0 4 12) by done.
  change 0xfff with (2 ^ 12 - 1). change 0xff with (2 ^ 8 - 1). change 0xf with (2 ^ 4 - 1).
  rewrite !land_ones_mod, !lor_shiftl_add by (try apply Z.mod_pos_bound; done).
  split; [done|]. change (2 ^ 12) with 4096. change (2 ^ 8) with 256. change (2 ^ 4) with 16.
  split; [divmod|]. split; divmod.
Qed.

Lemma nth_byte k l : Forall is_byte l -> is_byte (nth k l 0).
Proof.
  intros Hl. destruct (Nat.lt_ge_cases k (length l)); [by apply Forall_nth|]. by rewrite nth_overflow.
Qed.

Lemma fat12_entry_spec buf o :
  0 <= o -> Forall is_byte buf -> fat12_entry buf o = fat_entry 12 buf o.
Proof.
  intros Ho Hb. assert (forall n, is_byte (nth n buf 0)) as Hn by (intros n; by apply nth_byte).
  change (fat_entry 12 buf o) with (let w := field (3 * o / 2) 2 buf in if Z.even o then w mod 4096 else w / 16).
  unfold fat12_entry, fat16_at. cbv zeta. change (Z.land o 0x3) with (Z.land o (2 ^ 2 - 1)). rewrite land_ones_mod by done.
  change (2 ^ 2) with 4. pose proof (Z.div_mod o 4 ltac:(lia)) as Ed. pose proof (Z.mod_pos_bound o 4 ltac:(lia)) as Hm.
  pose proof (Z.div_pos o 4 ltac:(lia) ltac:(lia)) as Hq. set (r := o mod 4) in *. set (q := o / 4) in *. clearbody r q.
  set (n := Z.to_nat (6 * q)).
  destruct (fat12_group (nth n buf 0) (nth (S n) buf 0) (nth (S (S n)) buf 0) (nth (S (S (S n))) buf 0)
    (nth (S (S (S (S n)))) buf 0) (nth (S (S (S (S (S n))))) buf 0)) as (G0 & G1 & G2 & G3); [done..|].
  assert (r = 0 \/ r = 1 \/ r = 2 \/ r = 3) as Hr4 by lia; subst o; destruct Hr4 as [Hr4|[Hr4|[Hr4|Hr4]]]; subst r; cbn [Z.eqb Pos.eqb];
    rewrite Z.even_add, Z.even_mul; cbn [Z.even orb Bool.eqb].
  - replace (3 * (4 * q + 0) / 2) with (6 * q) by divmod. replace (2 * ((4 * q + 0) * 3 / 4)) with (6 * q) by divmod.
    rewrite field2 by lia. exact G0.
  - replace (3 * (4 * q + 1) / 2) with (6 * q + 1) by divmod. replace ((4 * q + 1) * 3 / 4) with (3 * q) by divmod.
    rewrite !field2 by lia. replace (Z.to_nat (6 * q + 1)) with (S n) by lia.
    replace (Z.to_nat (2 * (3 * q))) with n by lia. replace (Z.to_nat (2 * (3 * q + 1))) with (S (S n)) by lia. exact G1.
  - replace (3 * (4 * q + 2) / 2) with (6 * q + 3) by divmod. replace ((4 * q + 2) * 3 / 4) with (3 * q + 1) by divmod.
    rewrite !field2 by lia. replace (Z.to_nat (6 * q + 3)) with (S (S (S n))) by lia.
    replace (Z.to_nat (2 * (3 * q + 1))) with (S (S n)) by lia.
    replace (Z.to_nat (2 * (3 * q + 1 + 1))) with (S (S (S (S n)))) by lia. exact G2.
  - replace (3 * (4 * q + 3) / 2) with (6 * q + 4) by divmod. replace ((4 * q + 3) * 3 / 4) with (3 * q + 2) by divmod.
    replace (2 * (3 * q + 2)) with (6 * q + 4) by lia. rewrite !field2 by lia.
    replace (Z.to_nat (6 * q + 4)) with (S (S (S (S n)))) by lia. exact G3.
Qed.

(** ** Comparing names *)
Definition name_chars (l : list Z) : Prop := Forall (fun c => 0 < c < 256) l.

Lemma s8_zero x : -256 < x < 256 -> truthy (s8 x) = negb (x =? 0).
Proof.
  intros Hx. unfold truthy, wraps. f_equal. change (2 ^ 8) with 256. change (2 ^ (8 - 1)) with 128.
  destruct (Z.ltb_spec (x mod 256) 128); apply eq_true_iff_eq; rewrite !Z.eqb_eq; divmod.
Qed.

Lemma strcmp_eq a b : name_chars a -> name_chars b -> truthy (strcmp a b) = negb (bool_decide (a = b)).
Proof.
  intros Ha. revert b. induction Ha as [|c cs Hc Ha IH]; intros b Hb; destruct Hb as [|d ds Hd Hb]; cbn [strcmp].
  - done.
  - rewrite s8_zero by lia. rewrite bool_decide_eq_false_2 by done. cbn [negb]. lia.
  - rewrite s8_zero by lia. rewrite bool_decide_eq_false_2 by done. cbn [negb]. lia.
  - rewrite s8_zero by lia. destruct (Z.eqb_spec (c - d) 0) as [E|E]; cbn [negb].
    + rewrite IH by done. f_equal. apply bool_decide_ext. split; [intros ->; f_equal; lia|by intros [= _ ->]].
    + rewrite s8_zero, (proj2 (Z.eqb_neq (c - d) 0)) by lia. rewrite bool_decide_eq_false_2; [done|].
      intros [= -> _]. lia.
Qed.

Lemma until_blank_chars l : Forall is_byte l -> name_chars (until_blank l).
Proof.
  induction 1 as [|c l Hc H IH]; cbn [until_blank]; [by apply Forall_nil|].
  destruct (Z.eqb_spec c 0); cbn [orb]; [by apply Forall_nil|]. destruct (c =? 32); [by apply Forall_nil|].
  apply Forall_cons. unfold is_byte in Hc. split; [lia|done].
Qed.

Lemma downcase_chars l : name_chars l -> name_chars (downcase l).
Proof.
  intros Hl. apply Forall_fmap. eapply Forall_impl; [exact Hl|]. intros c Hc. unfold compose, TOLOWER. cbv beta.
  cbv beta in Hc. destruct (Z.leb_spec 65 c), (Z.leb_spec c 90); cbn [andb]; lia.
Qed.

Lemma get_name_chars e : Forall is_byte (d_name e) -> Forall is_byte (d_ext e) -> name_chars (get_name e).
Proof.
  intros Hn He. unfold get_name. apply downcase_chars. pose proof (until_blank_chars _ Hn) as Hu.
  pose proof (until_blank_chars _ He) as Hx.
  assert (name_chars (if negb (hd 0 (d_ext e) =? 0) && negb (hd 0 (d_ext e) =? 32)
    then until_blank (d_name e) ++ 46 :: until_blank (d_ext e) else until_blank (d_name e))) as Hs.
  { destruct (_ && _); [|done]. apply Forall_app. split; [done|]. apply Forall_cons. split; [lia|done]. }
  cbv zeta. match type of Hs with name_chars ?l => destruct l as [|c rest] end; [by apply Forall_nil|].
  destruct (c =? DELETED_FLAG); [by apply Forall_nil|]. destruct (c =? aRING); [|done].
  apply Forall_cons in Hs as [_ Hs]. apply Forall_cons. split; [lia|done].
Qed.

(** ** Names without directories *)
Definition plain_name (l : list Z) : Prop := l <> [] /\ Forall (fun c => 0 < c < 256 /\ ISDIRDELIM c = false) l.

Lemma plain_skip l : plain_name l -> skip_delims l = l.
Proof.
  intros [Hne Hl]. destruct l as [|c l]; [done|]. apply Forall_cons in Hl as [[_ Hc] _].
  cbn [skip_delims]. by rewrite Hc.
Qed.

Lemma plain_downcase l : plain_name l -> plain_name (downcase l).
Proof.
  intros [Hne Hl]. split; [by destruct l|]. apply Forall_fmap. eapply Forall_impl; [exact Hl|].
  unfold compose, TOLOWER, ISDIRDELIM. intros c [Hc Hd]. cbv beta.
  destruct (Z.leb_spec 65 c), (Z.leb_spec c 90); cbn [andb]; try done. split; lia.
Qed.

Lemma plain_dirdelim l n : Forall (fun c => 0 < c < 256 /\ ISDIRDELIM c = false) l -> dirdelim_loop l n = -1.
Proof.
  intros Hl. revert n. induction Hl as [|c l [_ Hc] H IH]; intros n; cbn [dirdelim_loop]; [done|]. by rewrite Hc.
Qed.

Lemma plain_chars l : plain_name l -> name_chars l.
Proof. intros [_ Hl]. eapply Forall_impl; [exact Hl|]. by intros c [Hc _]. Qed.

Lemma compare_sign_take n a b : compare_sign_loop n a b = compare_sign_loop n a (take n b).
Proof.
  revert a b. induction n as [|n IH]; intros a b; cbn [compare_sign_loop]; [done|].
  destruct b as [|c b]; [done|]. cbn [take hd tl]. by rewrite IH.
Qed.

(** ** A volume on a device *)
Section volume.
Context {D : Type} `{BlockDevice D} (ok : D -> Prop) (nsect : Z) (sector : Z -> list Z)
  `{!DiskLaws ok nsect sector}.

(** The partition starts at [po]; sector numbers fit an [int]. *)
Context (po : Z) (po_range : 0 <= po) (nsect_range : nsect < 2 ^ 31).

(** A reader whose device is ready. *)
Record live (s : fatfs D) : Prop := {
  live_cur : cur_dev s = true;
  live_part : part_offset s = po;
  live_dev : ok (f_dev s);
}.

(** The sectors of the partition. *)
Definition vsec (start n : Z) : list Z := sectors sector (po + start) (Z.to_nat n).

Lemma live_set_dev s d : live s -> ok d -> live (set_dev d s).
Proof. intros [Hc Hp Hd] Ho. by split. Qed.

Lemma disk_read_ok s start n :
  live s -> 0 <= start -> 0 <= n -> po + start + n <= nsect ->
  exists d, runs (disk_read start n) s (1, vsec start n) (set_dev d s) /\ ok d.
Proof.
  intros [Hc Hp Hd] Hs Hn Hl.
  destruct (block_read_ok (f_dev s) (po + start) (Z.to_nat n) Hd) as (d & Hr & Hok); [lia|lia|].
  exists d. split; [|done]. unfold disk_read. eapply runs_bind; [done|]. cbv beta. rewrite Hc, Hp.
  rewrite (Z.add_comm start po), (wrapu_small 32) by lia.
  apply (runs_bind _ _ _ (1, vsec start n) (set_dev d s)); [|reflexivity].
  unfold runs, on_dev. rewrite Z2Nat.id in Hr by lia. by rewrite Hr.
Qed.

Lemma zlen_sectors start n :
  0 <= start -> start + Z.of_nat n <= nsect ->
  zlen (sectors sector start n) = 512 * Z.of_nat n /\ Forall is_byte (sectors sector start n).
Proof.
  unfold sectors. revert start. induction n as [|n IH]; intros start Hs Hn.
  { split; [done|by apply Forall_nil]. }
  cbn [zseq fmap list_fmap concat]. destruct (sector_bytes (ok := ok) start) as [Hl Hb]; [lia|].
  destruct (IH (start + 1)) as [Hl' Hb']; [lia|lia|]. rewrite zlen_app. split; [lia|]. by apply Forall_app.
Qed.

Lemma zseq_app j n m : zseq j (n + m) = zseq j n ++ zseq (j + Z.of_nat n) m.
Proof.
  revert j. induction n as [|n IH]; intros j; cbn [zseq Nat.add app]; [by rewrite Z.add_0_r|].
  rewrite IH. do 3 f_equal. lia.
Qed.

Lemma vsec_app start n m : 0 <= n -> 0 <= m -> vsec start (n + m) = vsec start n ++ vsec (start + n) m.
Proof.
  intros Hn Hm. unfold vsec, sectors. rewrite Z2Nat.inj_add, zseq_app, fmap_app, concat_app by done.
  do 4 f_equal. lia.
Qed.

Lemma zlen_vsec start n : 0 <= start -> 0 <= n -> po + start + n <= nsect -> zlen (vsec start n) = 512 * n.
Proof. intros Hs Hn Hl. unfold vsec. destruct (zlen_sectors (po + start) (Z.to_nat n)); lia. Qed.

Lemma vsec_bytes start n : 0 <= start -> 0 <= n -> po + start + n <= nsect -> Forall is_byte (vsec start n).
Proof. intros Hs Hn Hl. unfold vsec. apply zlen_sectors; lia. Qed.

(** Part of a run of sectors. *)
Lemma slice_vsec start n i k :
  0 <= start -> 0 <= i -> 0 <= k -> i + k <= n -> po + start + n <= nsect ->
  slice (512 * i) (512 * k) (vsec start n) = vsec (start + i) k.
Proof.
  intros Hs Hi Hk Hn Hl. replace n with (i + (k + (n - i - k))) by lia.
  rewrite (vsec_app start i), (vsec_app (start + i) k) by lia.
  apply slice_exact; rewrite zlen_vsec; lia.
Qed.

(** ** The cached table *)
Section table.
Context (size fat_start nbuf : Z) (Hsize : size = 32 \/ size = 16 \/ size = 12) (Hfs : 0 <= fat_start)
  (Hnb : 0 <= nbuf) (Hnb_small : nbuf < 2 ^ 24) (Hfat : po + fat_start + 6 * nbuf <= nsect).

(** The table, in whole buffers. *)
Definition table : list Z := vsec fat_start (6 * nbuf).

Record caches (m : fsdata) : Prop := {
  ca_size : fatsize m = size;
  ca_sect : fat_sect m = fat_start;
  ca_length : 1 <= fatlength m < 65536;
  ca_buf : FATBUFSIZE <= zlen (fatbuf m);
  ca_num : fatbufnum m = -1 \/ 0 <= fatbufnum m < nbuf /\
             slice 0 FATBUFSIZE (fatbuf m) = slice (FATBUFSIZE * fatbufnum m) FATBUFSIZE table;
}.

(** The part of the table data that reading an entry never changes. *)
Definition layout (m : fsdata) : Z * Z * Z * Z * Z * Z :=
  (fatsize m, fatlength m, fat_sect m, rootdir_sect m, clust_size m, data_begin m).
(** From [s] to [s'] only the device and the cached table have moved. *)
Record quiet (s s' : fatfs D) : Prop := {
  q_live : live s';
  q_caches : caches (datablock s');
  q_layout : layout (datablock s') = layout (datablock s);
  q_mem : f_mem s' = f_mem s;
  q_block : do_fat_read_block s' = do_fat_read_block s;
  q_out : f_out s' = f_out s;
}.

Lemma quiet_refl s : live s -> caches (datablock s) -> quiet s s.
Proof. by split. Qed.

Lemma quiet_trans s1 s2 s3 : quiet s1 s2 -> quiet s2 s3 -> quiet s1 s3.
Proof. intros [] []. split; try done; congruence. Qed.

Lemma zlen_table : zlen table = FATBUFSIZE * nbuf.
Proof. unfold table. rewrite zlen_vsec by lia. unfold FATBUFSIZE, FS_BLOCK_SIZE, FATBUFBLOCKS. lia. Qed.

Lemma table_bytes : Forall is_byte table.
Proof. apply vsec_bytes; lia. Qed.

Lemma slice_overlay new old : slice 0 (zlen new) (overlay new old) = new.
Proof.
  unfold overlay. apply (slice_exact []); [done|done].
Qed.

Lemma load_fatbuf_ok s b :
  live s -> caches (datablock s) -> 0 <= b < nbuf ->
  exists s', runs (load_fatbuf b) s true s' /\ quiet s s' /\ fatbufnum (datablock s') = b.
Proof.
  intros Hl Hc Hb. pose proof Hc as [Cz Cs Cl Cb Cn].
  destruct (disk_read_ok s (fat_start + 6 * b) 6 Hl) as (d & Hr & Hd); [lia|lia|lia|].
  set (m := datablock s) in *.
  exists (set_fsdata (mk_fsdata (fatsize m) (fatlength m) (fat_sect m) (rootdir_sect m) (clust_size m) (data_begin m)
    (overlay (vsec (fat_start + 6 * b) 6) (fatbuf m)) b) (set_dev d s)).
  split; [|split; [|reflexivity]].
  - unfold load_fatbuf. eapply runs_bind; [apply runs_gets|]. fold m. cbv beta zeta.
    rewrite (wrapu_small 32 (fatlength m * SECTOR_SIZE)) by (unfold SECTOR_SIZE; lia).
    change (FATBUFSIZE / FS_BLOCK_SIZE) with 6.
    rewrite (proj2 (Z.ltb_ge _ _)) by (unfold SECTOR_SIZE; lia).
    rewrite (wrapu_small 32 (b * FATBUFBLOCKS)) by (unfold FATBUFBLOCKS; lia). rewrite Cs.
    replace (b * FATBUFBLOCKS + fat_start) with (fat_start + 6 * b) by (unfold FATBUFBLOCKS; lia).
    rewrite wrapu_small by lia. eapply runs_bind; [exact Hr|]. cbv beta match.
    eapply runs_bind; [apply runs_modify|]. apply runs_ret.
  - split; try done; [destruct Hl; by split|]. cbn [datablock set_fsdata set_dev fatsize fat_sect fatlength fatbuf fatbufnum].
    assert (zlen (vsec (fat_start + 6 * b) 6) = FATBUFSIZE) as Hv by (rewrite zlen_vsec by lia; done).
    split; cbn [fatsize fat_sect fatlength fatbuf fatbufnum]; try done.
    + rewrite zlen_overlay by lia. done.
    + right. split; [done|]. rewrite <- Hv at 1. rewrite slice_overlay. symmetry.
      replace (FATBUFSIZE * b) with (512 * (6 * b)) by (unfold FATBUFSIZE, FS_BLOCK_SIZE, FATBUFBLOCKS; lia).
      change FATBUFSIZE with (512 * 6). apply slice_vsec; lia.
Qed.
(** What the buffer holds of the table. *)
Lemma cached_field buf b off n :
  slice 0 FATBUFSIZE buf = slice (FATBUFSIZE * b) FATBUFSIZE table -> 0 <= b -> 0 <= off -> 0 <= n ->
  off + n <= FATBUFSIZE -> field off n buf = field (FATBUFSIZE * b + off) n table.
Proof.
  intros Hs Hb Ho Hn Hl. unfold field. unfold FATBUFSIZE, FS_BLOCK_SIZE, FATBUFBLOCKS in *. f_equal.
  rewrite <- (slice_slice (512 * 6 * b) (512 * 6) off n table) by lia. rewrite <- Hs, slice_slice by lia. done.
Qed.

Lemma cached_fat12 buf b o :
  slice 0 FATBUFSIZE buf = slice (FATBUFSIZE * b) FATBUFSIZE table -> 0 <= b -> 0 <= o < 2048 ->
  fat12_entry buf o = fat12_entry table (2048 * b + o).
Proof.
  intros Hs Hb Ho. unfold fat12_entry. cbv zeta.
  assert (Z.land (2048 * b + o) 3 = Z.land o 3) as ->.
  { change 3 with (2 ^ 2 - 1). rewrite !land_ones_mod by done. change (2 ^ 2) with 4.
    replace (2048 * b + o) with (o + (512 * b) * 4) by lia. by rewrite Z_mod_plus_full. }
  replace ((2048 * b + o) * 3 / 4) with (1536 * b + o * 3 / 4) by divmod.
  assert (forall i, 0 <= i < 1536 -> fat16_at buf i = fat16_at table (1536 * b + i)) as E.
  { intros i Hi. unfold fat16_at. rewrite (cached_field buf b) by (done || unfold FATBUFSIZE, FS_BLOCK_SIZE, FATBUFBLOCKS; lia).
    f_equal. unfold FATBUFSIZE, FS_BLOCK_SIZE, FATBUFBLOCKS. lia. }
  assert (Z.land o 3 = o mod 4) as Er by (change 3 with (2 ^ 2 - 1); by rewrite land_ones_mod). rewrite Er.
  rewrite (E (o * 3 / 4)) by divmod. rewrite <- Z.add_assoc.
  destruct (Z.eqb_spec (o mod 4) 0); [done|]. destruct (Z.eqb_spec (o mod 4) 1); [rewrite E by divmod; done|].
  destruct (Z.eqb_spec (o mod 4) 2); [rewrite E by divmod; done|done].
Qed.

Lemma cached_entry buf b e :
  0 <= b -> slice 0 FATBUFSIZE buf = slice (FATBUFSIZE * b) FATBUFSIZE table ->
  0 <= e -> e / buf_entries size = b ->
  let o := e - b * buf_entries size in
  (if size =? 32 then fat32_at buf o else if size =? 16 then fat16_at buf o else fat12_entry buf o)
  = fat_entry size table e.
Proof.
  intros Hb Hs He Hd o.
  assert (0 < buf_entries size) as Hbe by (destruct Hsize as [Hz|[Hz|Hz]]; subst size; done).
  assert (e = buf_entries size * b + o /\ 0 <= o < buf_entries size) as [Ee Ho].
  { unfold o. pose proof (Z.div_mod e (buf_entries size) ltac:(lia)). pose proof (Z.mod_pos_bound e (buf_entries size) Hbe). lia. }
  clearbody o. destruct Hsize as [Hz|[Hz|Hz]]; clear Hsize; subst size; cbn [Z.eqb Pos.eqb].
  - change (buf_entries 32) with 768 in *. unfold fat32_at. change (fat_entry 32 table e) with (field (4 * e) 4 table).
    rewrite (cached_field buf b) by (done || unfold FATBUFSIZE, FS_BLOCK_SIZE, FATBUFBLOCKS; lia).
    f_equal. unfold FATBUFSIZE, FS_BLOCK_SIZE, FATBUFBLOCKS. lia.
  - change (buf_entries 16) with 1536 in *. unfold fat16_at. change (fat_entry 16 table e) with (field (2 * e) 2 table).
    rewrite (cached_field buf b) by (done || unfold FATBUFSIZE, FS_BLOCK_SIZE, FATBUFBLOCKS; lia).
    f_equal. unfold FATBUFSIZE, FS_BLOCK_SIZE, FATBUFBLOCKS. lia.
  - change (buf_entries 12) with 2048 in *. rewrite (cached_fat12 buf b), <- Ee by done.
    apply fat12_entry_spec; [done|apply table_bytes].
Qed.

Lemma get_fatent_ok s e :
  live s -> caches (datablock s) -> 0 <= e -> e / buf_entries size < nbuf ->
  exists s', runs (get_fatent e) s (fat_entry size table e) s' /\ quiet s s'.
Proof.
  intros Hl Hc He Hn. pose proof Hc as [Cz Cs Cl Cb Cn].
  assert (0 <= e / buf_entries size) as Hq.
  { apply Z.div_pos; [done|]. destruct Hsize as [Hz|[Hz|Hz]]; by rewrite Hz. }
  assert ((fatsize (datablock s) =? 32) || (fatsize (datablock s) =? 16) || (fatsize (datablock s) =? 12) = true) as Hz
    by (rewrite Cz; destruct Hsize as [Hz|[Hz|Hz]]; by rewrite Hz).
  assert (exists s', runs (if e / buf_entries size =? u32 (fatbufnum (datablock s)) then mret true
      else load_fatbuf (e / buf_entries size)) s true s' /\ quiet s s' /\ fatbufnum (datablock s') = e / buf_entries size)
    as (s' & Hr & Hs' & Hf).
  { destruct (Z.eqb_spec (e / buf_entries size) (u32 (fatbufnum (datablock s)))) as [E|].
    - exists s. split; [apply runs_ret|]. split; [by apply quiet_refl|].
      destruct Cn as [Cn|[Cn _]]; [rewrite Cn in E; change (u32 (-1)) with (2 ^ 32 - 1) in E; lia|].
      by rewrite wrapu_small in E by lia.
    - by apply load_fatbuf_ok. }
  exists s'. split; [|done]. destruct (q_caches _ _ Hs') as [Cz' Cs' Cl' Cb' Cn'].
  unfold get_fatent. eapply runs_bind; [apply runs_gets|]. cbv beta. rewrite Hz, Cz. cbv zeta.
  eapply runs_bind; [exact Hr|]. cbv beta. cbn [negb]. eapply runs_bind; [apply runs_gets|]. cbv beta.
  destruct Cn' as [Cn'|[_ Cn']]; [lia|]. rewrite Hf in Cn'. rewrite (cached_entry _ _ e Hq Cn' He eq_refl). apply runs_ret.
Qed.

(** ** The table as an array *)

(** Reading a list of entries, one call after the other. *)
Fixpoint get_fatents (es : list Z) : M (fatfs D) (list Z) :=
  match es with
  | [] => mret []
  | e :: es => let! v := get_fatent e in let! vs := get_fatents es in mret (v :: vs)
  end.

(** C25. The cached table refines the table on the disk.  Whatever part of the table
the cache holds, any sequence of [get_fatent] calls returns exactly the entries
that the format defines on the sectors of the table (12, 16 or 32 bits wide,
12-bit entries across sector and word borders included), and leaves the reader
where the next sequence finds the same. *)
Theorem get_fatent_refines_table es s :
  live s -> caches (datablock s) -> Forall (fun e => 0 <= e /\ e / buf_entries size < nbuf) es ->
  exists s', runs (get_fatents es) s (fat_entry size table <$> es) s' /\ quiet s s'.
Proof.
  intros Hl Hc He. revert s Hl Hc. induction He as [|e es [He Hn] _ IH]; intros s Hl Hc.
  { exists s. split; [apply runs_ret|by apply quiet_refl]. }
  destruct (get_fatent_ok s e Hl Hc He Hn) as (s1 & Hr1 & Hq1).
  destruct (IH s1 (q_live _ _ Hq1) (q_caches _ _ Hq1)) as (s2 & Hr2 & Hq2).
  exists s2. split; [|by eapply quiet_trans]. cbn [get_fatents fmap list_fmap].
  eapply runs_bind; [exact Hr1|]. cbv beta. eapply runs_bind; [exact Hr2|]. apply runs_ret.
Qed.

(** ** Clusters *)
Lemma store_ok (s : fatfs D) off data pre old post :
  f_mem s = pre ++ old ++ post -> zlen pre = off -> zlen data = zlen old ->
  runs (store off data) s tt (set_mem (pre ++ data ++ post) s).
Proof.
  intros Hm Hp Hd. unfold store. eapply runs_bind; [apply runs_gets|]. cbv beta. rewrite Hm.
  pose proof (zlen_nonneg post). pose proof (zlen_nonneg pre).
  rewrite (proj2 (Z.leb_le _ _)) by (rewrite !zlen_app; lia).
  replace (Z.to_nat off) with (length pre) by (unfold zlen in Hp; lia).
  replace (Z.to_nat (off + zlen data)) with (length pre + length old)%nat by (unfold zlen in *; lia).
  rewrite take_app_length, <- drop_drop, !drop_app_length. apply runs_modify.
Qed.

(** The sectors a read of [n] bytes touches. *)
Definition covering (n : Z) : Z := (n + 511) / 512.

Lemma covering_split n : 0 <= n -> covering n = n / 512 + if truthy (n mod 512) then 1 else 0.
Proof. intros Hn. unfold covering, truthy. destruct (Z.eqb_spec (n mod 512) 0); cbn [negb]; divmod. Qed.

Lemma get_cluster_ok (s : fatfs D) c st buffer n pre old post :
  live s -> 0 < c -> st = data_begin (datablock s) + c * clust_size (datablock s) -> 0 <= st -> 0 <= n ->
  po + st + covering n <= nsect ->
  f_mem s = pre ++ old ++ post -> zlen pre = buffer -> zlen old = n ->
  exists d, ok d /\ runs (get_cluster c buffer n) s 0
    (set_mem (pre ++ slice 0 n (vsec st (covering n)) ++ post) (set_dev d s)).
Proof.
  intros Hl Hc Est Hst Hsz Hn Hm Hpre Hold. rewrite covering_split in * by done.
  pose proof (Z.div_mod n 512 ltac:(lia)) as Ed. pose proof (Z.mod_pos_bound n 512 ltac:(lia)) as Hr.
  pose proof (Z.div_pos n 512 ltac:(lia) ltac:(lia)) as Hq.
  assert (po + st + n / 512 <= nsect) as Hn1 by (destruct (truthy _); lia).
  destruct (disk_read_ok s st (n / 512) Hl Hst Hq) as (d & Hrd & Hd); [lia|].
  destruct (split_at old (512 * (n / 512))) as (o1 & o2 & -> & Ho1); [lia|].
  rewrite zlen_app in Hold. rewrite <- app_assoc in Hm.
  pose proof (store_ok (set_dev d s) buffer (vsec st (n / 512)) pre o1 (o2 ++ post) Hm Hpre) as Hs1.
  rewrite zlen_vsec in Hs1 by lia. specialize (Hs1 (eq_sym Ho1)).
  unfold get_cluster. change FS_BLOCK_SIZE with 512. unfold truthy in *.
  destruct (Z.eqb_spec (n mod 512) 0) as [E|E]; cbn [negb] in *.
  - exists d. split; [done|]. eapply runs_bind; [apply runs_gets|]. cbv beta zeta. rewrite (proj2 (Z.ltb_lt 0 c)) by done.
    rewrite <- Est, wrapu_small by lia. eapply runs_bind; [exact Hrd|]. cbv beta match.
    eapply runs_bind; [exact Hs1|]. cbn [Z.ltb Z.compare]. eapply runs_eq; [apply runs_ret|].
    assert (o2 = []) as -> by (apply zlen_0_inv; lia). rewrite Z.add_0_r, slice_all by (rewrite zlen_vsec; lia). done.
  - destruct (disk_read_ok (set_mem (pre ++ vsec st (n / 512) ++ o2 ++ post) (set_dev d s)) (st + n / 512) 1)
      as (d2 & Hrd2 & Hd2); [destruct Hl; by split|lia|lia|lia|].
    exists d2. split; [done|]. eapply runs_bind; [apply runs_gets|]. cbv beta zeta. rewrite (proj2 (Z.ltb_lt 0 c)) by done.
    rewrite <- Est, wrapu_small by lia. eapply runs_bind; [exact Hrd|]. cbv beta match.
    eapply runs_bind; [exact Hs1|]. cbn [Z.ltb Z.compare]. rewrite wrapu_small by lia.
    eapply runs_bind; [exact Hrd2|]. cbv beta match. cbn [Z.ltb Z.compare].
    eapply runs_bind; [apply (store_ok _ _ _ (pre ++ vsec st (n / 512)) o2 post)|].
    + cbn [f_mem set_mem set_dev]. by rewrite <- app_assoc.
    + rewrite zlen_app, zlen_vsec by lia. lia.
    + change (take (Z.to_nat (n mod 512)) (vsec (st + n / 512) 1)) with (slice 0 (n mod 512) (vsec (st + n / 512) 1)).
      rewrite zlen_slice; [lia|lia|lia|]. rewrite zlen_vsec; lia.
    + eapply runs_eq; [apply runs_ret|]. rewrite vsec_app, slice_0_app by (rewrite ?zlen_vsec; lia).
      rewrite zlen_vsec by lia. replace (n - 512 * (n / 512)) with (n mod 512) by lia.
      unfold set_mem, set_dev. cbn. by rewrite <- !app_assoc.
Qed.
(** ** Files *)
Section files.
Context (cs db : Z) (Hcs : 1 <= cs < 256).

(** The data of a cluster, and the clusters that can hold some. *)
Definition cdata (c : Z) : list Z := vsec (db + c * cs) cs.

Record valid_cluster (c : Z) : Prop := {
  vc_range : 2 <= c < 0xfffff0;
  vc_first : 0 <= db + c * cs;
  vc_last : po + (db + c * cs) + cs <= nsect;
  vc_table : c / buf_entries size < nbuf;
}.

(** The clusters [rest] follow [c] in the table. *)
Fixpoint linked (c : Z) (rest : list Z) : Prop :=
  match rest with
  | [] => True
  | n :: rest => fat_entry size table c = n /\ linked n rest
  end.

Record laid (s : fatfs D) : Prop := {
  la_live : live s;
  la_caches : caches (datablock s);
  la_cs : clust_size (datablock s) = cs;
  la_db : data_begin (datablock s) = db;
}.

Lemma laid_quiet s s' : laid s -> quiet s s' -> laid s'.
Proof.
  intros [Hl Hc Hs Hd] [Hl' Hc' Hla _ _ _]. injection Hla as _ _ _ _ E1 E2. split; congruence || done.
Qed.

Lemma laid_mem s d mem : laid s -> ok d -> laid (set_mem mem (set_dev d s)).
Proof. intros [[] Hc Hs Hd] Ho. by split. Qed.

(** Consecutive clusters are consecutive sectors. *)
Lemma run_data c k : 0 <= k -> concat (cdata <$> zseq c (Z.to_nat k)) = vsec (db + c * cs) (k * cs).
Proof.
  intros Hk. rewrite <- (Z2Nat.id k) at 2 by done. generalize (Z.to_nat k). clear k Hk. intros k. revert c.
  induction k as [|k IH]; intros c; [done|]. cbn [zseq fmap list_fmap concat]. rewrite IH.
  replace (Z.of_nat (S k) * cs) with (cs + Z.of_nat k * cs) by lia. rewrite vsec_app by lia.
  unfold cdata. f_equal. f_equal. lia.
Qed.

Lemma slice_covering st n N :
  0 <= st -> 0 <= n -> covering n <= N -> po + st + N <= nsect ->
  slice 0 n (vsec st (covering n)) = slice 0 n (vsec st N).
Proof.
  intros Hs Hn Hc Hl. assert (0 <= covering n) by (unfold covering; divmod).
  replace N with (covering n + (N - covering n)) by lia. rewrite vsec_app by lia.
  rewrite slice_app_l; [done|lia|lia|]. rewrite zlen_vsec by lia. unfold covering. divmod.
Qed.

Lemma covering_sectors n : covering (n * 512) = n.
Proof. unfold covering. divmod. Qed.

Lemma covering_le n N : 0 <= n -> n <= N * 512 -> covering n <= N.
Proof. intros Hn Hl. unfold covering. divmod. Qed.

(** Reading the first [n] bytes of a run of clusters. *)
Lemma read_run s c k n pre old post :
  laid s -> valid_cluster c -> valid_cluster (c + k) -> 0 <= k -> 0 <= n <= (k + 1) * (cs * 512) ->
  f_mem s = pre ++ old ++ post -> zlen old = n ->
  exists d, ok d /\ runs (get_cluster c (zlen pre) n) s 0
    (set_mem (pre ++ slice 0 n (vsec (db + c * cs) ((k + 1) * cs)) ++ post) (set_dev d s)).
Proof.
  intros [Hl Hc Hs Hd] [Vc V1 V2 V3] [Wc W1 W2 W3] Hk Hn Hm Ho.
  assert (covering n <= (k + 1) * cs) as Hcov by (apply covering_le; lia).
  assert (po + (db + c * cs) + (k + 1) * cs <= nsect) as Hend by lia.
  rewrite <- (slice_covering (db + c * cs) n ((k + 1) * cs)) by lia.
  apply (get_cluster_ok s c (db + c * cs) (zlen pre) n pre old post); try done; try lia.
Qed.
(** The end of [get_contents]: all but the last cluster of the run, then the rest. *)
Lemma contents_end fuel s c k f got pre old post :
  laid s -> valid_cluster c -> valid_cluster (c + k) -> 0 <= k ->
  k * (cs * 512) < f <= (k + 1) * (cs * 512) -> 0 <= got -> got + f < 2 ^ 31 ->
  f_mem s = pre ++ old ++ post -> zlen old = f ->
  exists d, ok d /\
    runs (contents_loop (S fuel) (cs * 512) c (c + k) ((k + 1) * (cs * 512)) f got (zlen pre)) s (got + f)
      (set_mem (pre ++ slice 0 f (concat (cdata <$> zseq c (Z.to_nat (k + 1)))) ++ post) (set_dev d s)).
Proof.
  intros Hla Hv Hv' Hk Hf Hg Hgf Hm Ho. set (n := k * (cs * 512)) in *. assert (0 <= n) by nia.
  destruct (split_at old n) as (o1 & o2 & -> & Ho1); [lia|]. rewrite zlen_app in Ho. rewrite <- app_assoc in Hm.
  destruct (read_run s c k n pre o1 (o2 ++ post)) as (d1 & Hd1 & H1); try done; [lia|].
  rewrite <- (slice_covering (db + c * cs) n) in H1; [|destruct Hv; lia|lia|apply covering_le; lia|destruct Hv, Hv'; lia].
  assert (covering n = k * cs) as Ec by (unfold n; replace (k * (cs * 512)) with (k * cs * 512) by lia; apply covering_sectors).
  assert (po + (db + c * cs) + k * cs <= nsect) as Hend by (destruct Hv, Hv'; lia).
  assert (zlen (vsec (db + c * cs) (k * cs)) = n) as Hz by (rewrite zlen_vsec; destruct Hv; lia).
  rewrite Ec, slice_all in H1 by lia. 
  destruct (read_run (set_mem (pre ++ vsec (db + c * cs) (k * cs) ++ o2 ++ post) (set_dev d1 s)) (c + k) 0 (f - n)
    (pre ++ vsec (db + c * cs) (k * cs)) o2 post) as (d2 & Hd2 & H2).
  { by apply laid_mem. }
  { done. }
  { by rewrite Z.add_0_r. }
  { done. }
  { lia. }
  { cbn [f_mem set_mem]. by rewrite <- app_assoc. }
  { lia. }
  exists d2. split; [done|]. cbn [contents_loop]. rewrite (proj2 (Z.ltb_ge _ _)) by lia.
  replace (u32 ((k + 1) * (cs * 512) - cs * 512)) with n by (unfold n in *; rewrite wrapu_small; lia).
  eapply runs_bind; [exact H1|]. cbv beta. change (truthy 0) with false. cbv match zeta.
  rewrite !(wrapu_small 32) by lia. rewrite zlen_app, Hz in H2.
  eapply runs_bind; [exact H2|]. cbv beta. change (truthy 0) with false. cbv match.
  rewrite (wrapu_small 32 (got + n)) by lia. replace (got + n + (f - n)) with (got + f) by lia. rewrite (wrapu_small 32) by lia.
  rewrite wraps_small by (done || change (2 ^ (32 - 1)) with (2 ^ 31); lia).
  eapply runs_eq; [apply runs_ret|]. unfold set_mem, set_dev. cbn [f_dev cur_dev part_offset datablock do_fat_read_block f_mem f_out].
  f_equal. rewrite run_data by lia. replace ((k + 1) * cs) with (k * cs + cs) by lia.
  rewrite (vsec_app _ (k * cs)), slice_0_app, Hz by lia. replace (db + c * cs + k * cs) with (db + (c + k) * cs) by lia.
  rewrite Z.add_0_l, Z.mul_1_l. by rewrite <- !app_assoc.
Qed.
Lemma fatent_of s c :
  laid s -> valid_cluster c -> exists s', runs (get_fatent c) s (fat_entry size table c) s' /\ quiet s s'.
Proof. intros [Hl Hc _ _] [Vr _ _ Vt]. apply get_fatent_ok; try done; lia. Qed.

(** A run that the chain does not continue is read in one piece. *)
Lemma flush_run s c k pre old post n :
  laid s -> valid_cluster c -> valid_cluster (c + k) -> 0 <= k -> fat_entry size table (c + k) = n ->
  f_mem s = pre ++ old ++ post -> zlen old = (k + 1) * (cs * 512) ->
  exists s', (exists s2, runs (get_cluster c (zlen pre) ((k + 1) * (cs * 512))) s 0 s2 /\ runs (get_fatent (c + k)) s2 n s') /\
    laid s' /\ f_out s' = f_out s /\ f_mem s' = pre ++ vsec (db + c * cs) ((k + 1) * cs) ++ post.
Proof.
  intros Hla Hv Hv' Hk Hn Hm Ho.
  destruct (read_run s c k ((k + 1) * (cs * 512)) pre old post) as (d & Hd & Hr); try done; [lia|].
  rewrite slice_all in Hr by (rewrite zlen_vsec; destruct Hv, Hv'; lia).
  destruct (fatent_of _ (c + k) (laid_mem s d (pre ++ vsec (db + c * cs) ((k + 1) * cs) ++ post) Hla Hd) Hv') as (s' & Hr' & Hq).
  rewrite Hn in Hr'. exists s'. split; [by eexists|]. split; [|by destruct Hq].
  eapply laid_quiet; [|exact Hq]. by apply laid_mem.
Qed.

Lemma contents_loop_ok rest : forall fuel s c k f got pre old post,
  (length rest < fuel)%nat -> laid s -> valid_cluster c -> valid_cluster (c + k) -> 0 <= k ->
  Forall valid_cluster rest -> linked (c + k) rest ->
  (k + zlen rest) * (cs * 512) < f <= (k + 1 + zlen rest) * (cs * 512) -> 0 <= got -> got + f < 2 ^ 31 ->
  f_mem s = pre ++ old ++ post -> zlen old = f ->
  exists s', runs (contents_loop fuel (cs * 512) c (c + k) ((k + 1) * (cs * 512)) f got (zlen pre)) s (got + f) s' /\
    laid s' /\ f_out s' = f_out s /\
    f_mem s' = pre ++ slice 0 f (concat (cdata <$> (zseq c (Z.to_nat (k + 1)) ++ rest))) ++ post.
Proof.
  induction rest as [|n rest IH]; intros [|fuel] s c k f got pre old post Hfu Hla Hv Hv' Hk Hvr Hli Hf Hg Hgf Hm Ho;
    try (cbn in Hfu; lia).
  { rewrite zlen_nil in Hf. destruct (contents_end fuel s c k f got pre old post) as (d & Hd & Hr); try done; try lia.
    eexists. split; [exact Hr|]. rewrite app_nil_r. split; [by apply laid_mem|done]. }
  rewrite zlen_cons in Hf. pose proof (zlen_nonneg rest) as Hzr. destruct Hli as [Hn Hli].
  apply Forall_cons in Hvr as [Hvn Hvr]. pose proof (vc_range _ Hvn) as Hnr. pose proof (vc_range _ Hv') as Her.
  assert (0 <= (k + 1) * (cs * 512) < f) as [Hact0 Hact] by nia.
  destruct (fatent_of s (c + k) Hla Hv') as (s1 & Hr1 & Hq1). rewrite Hn in Hr1.
  pose proof (laid_quiet _ _ Hla Hq1) as Hla1. pose proof (q_mem _ _ Hq1) as Hm1. rewrite Hm in Hm1.
  cbn [contents_loop]. rewrite (proj2 (Z.ltb_lt _ _)) by done.
  assert (bad_cluster n = false) as Hbad by (unfold bad_cluster; lia).
  destruct (decide (n = c + k + 1)) as [En|En].
  - (* the next cluster continues the run *)
    destruct (IH fuel s1 c (k + 1) f got pre old post) as (s' & Hr & Hl' & Ho' & Hm'); try done; try lia.
    { cbn in Hfu. lia. }
    { by rewrite Z.add_assoc, <- En. }
    { by rewrite Z.add_assoc, <- En. }
    exists s'. split; [|split; [done|split; [by rewrite Ho', (q_out _ _ Hq1)|]]].
    + eapply runs_bind; [exact Hr1|]. cbv beta. rewrite (wrapu_small 32 (n - 1)) by lia.
      rewrite (proj2 (Z.eqb_eq (n - 1) (c + k))) by lia. cbn [negb]. rewrite Hbad.
      rewrite (wrapu_small 32 (_ + _)) by lia. rewrite Z.add_assoc, <- En in Hr.
      by replace ((k + 1) * (cs * 512) + cs * 512) with ((k + 1 + 1) * (cs * 512)) by lia.
    + rewrite Hm'. do 5 f_equal. replace (Z.to_nat (k + 1 + 1)) with (Z.to_nat (k + 1) + 1)%nat by lia.
      rewrite zseq_app, <- app_assoc. do 2 f_equal. cbn [zseq app]. f_equal. lia.
  - (* a new run starts *)
    destruct (split_at old ((k + 1) * (cs * 512))) as (o1 & o2 & -> & Ho1); [lia|].
    rewrite zlen_app in Ho. rewrite <- app_assoc in Hm1.
    destruct (flush_run s1 c k pre o1 (o2 ++ post) n) as (s3 & H2 & Hla3 & Hout3 & Hm3); try done.
    destruct (IH fuel s3 n 0 (f - (k + 1) * (cs * 512)) (got + (k + 1) * (cs * 512))
      (pre ++ vsec (db + c * cs) ((k + 1) * cs)) o2 post) as (s' & Hr & Hl' & Ho' & Hm'); try done; try lia.
    { cbn in Hfu. lia. }
    { by rewrite Z.add_0_r. }
    { by rewrite Z.add_0_r. }
    { by rewrite Hm3, <- app_assoc. }
    assert (zlen (vsec (db + c * cs) ((k + 1) * cs)) = (k + 1) * (cs * 512)) as Hz
      by (rewrite zlen_vsec; destruct Hv, Hv'; lia).
    exists s'. split; [|split; [done|split; [by rewrite Ho', Hout3, (q_out _ _ Hq1)|]]].
    + eapply runs_bind; [exact Hr1|]. cbv beta. rewrite (wrapu_small 32 (n - 1)) by lia.
      rewrite (proj2 (Z.eqb_neq (n - 1) (c + k))) by lia. cbn [negb].
      destruct H2 as [s2 [H2 H2']]. eapply runs_bind; [exact H2|]. cbv beta. change (truthy 0) with false. cbv match zeta.
      eapply runs_bind; [exact H2'|]. cbv beta. rewrite Hbad, !(wrapu_small 32) by lia.
      rewrite Z.add_0_r, zlen_app, Hz in Hr. rewrite Z.add_0_l, Z.mul_1_l in Hr.
      replace (got + f) with (got + (k + 1) * (cs * 512) + (f - (k + 1) * (cs * 512))) by lia. exact Hr.
    + rewrite (fmap_app _ _ (n :: rest)), concat_app, run_data, slice_0_app, Hz by lia. rewrite Hm', <- !app_assoc. done.
Qed.
(** A directory entry and the chain of clusters that holds its file. *)
Record file_at (e : dir_entry) (c : Z) (rest : list Z) : Prop := {
  fa_start : d_start e + (if size =? 32 then Z.shiftl (d_starthi e) 16 else 0) = c;
  fa_valid : Forall valid_cluster (c :: rest);
  fa_linked : linked c rest;
  fa_size : zlen rest * (cs * 512) < d_size e <= (1 + zlen rest) * (cs * 512);
  fa_long : d_size e < 2 ^ 31;
}.

Definition file_content (e : dir_entry) (chain : list Z) : list Z := slice 0 (d_size e) (concat (cdata <$> chain)).

Lemma get_contents_ok fuel s e c rest pre old post :
  (length rest < fuel)%nat -> laid s -> file_at e c rest -> f_mem s = pre ++ old ++ post -> zlen old = d_size e ->
  exists s', runs (get_contents fuel e (zlen pre) 0) s (d_size e) s' /\
    laid s' /\ f_out s' = f_out s /\ f_mem s' = pre ++ file_content e (c :: rest) ++ post.
Proof.
  intros Hfu Hla [Es Hv Hli Hsz Hlo] Hm Ho. apply Forall_cons in Hv as [Hvc Hvr].
  destruct (contents_loop_ok rest fuel s c 0 (d_size e) 0 pre old post) as (s' & Hr & Hl & Hou & Hm'); try done; try lia.
  { by rewrite Z.add_0_r. }
  { by rewrite Z.add_0_r. }
  exists s'. split; [|done]. unfold get_contents. eapply runs_bind; [apply runs_gets|]. cbv beta zeta.
  change (0 <? 0) with false. cbn [andb]. unfold START. rewrite (ca_size _ (la_caches _ Hla)).
  replace (d_start e + _) with c by (rewrite <- Es; by destruct (size =? 32)).
  rewrite (la_cs _ Hla). change SECTOR_SIZE with 512. rewrite Z.add_0_r, Z.add_0_l, Z.mul_1_l in Hr. exact Hr.
Qed.

(** ** The root directory *)
Definition entries_of (block : list Z) (i : Z) (n : nat) : list dir_entry :=
  (fun j => dir_entry_at (32 * j) block) <$> zseq i n.

(** Looking for a name: the first entry that is no volume label and has it, before
the end mark. *)
Fixpoint dir_search (fname : list Z) (es : list dir_entry) : scan :=
  match es with
  | [] => More 0 0
  | e :: es =>
    if truthy (Z.land (d_attr e) ATTR_VOLUME) then dir_search fname es
    else if hd 0 (d_name e) =? 0 then Stop (-1)
    else if decide (get_name e = fname) then Found e
    else dir_search fname es
  end.

Lemma dir_search_app fname es1 es2 :
  dir_search fname (es1 ++ es2)
  = match dir_search fname es1 with More _ _ => dir_search fname es2 | r => r end.
Proof.
  induction es1 as [|e es IH]; cbn [app dir_search]; [done|].
  destruct (truthy _); [done|]. destruct (_ =? _); [done|]. by destruct (decide _).
Qed.
Definition good_entry (e : dir_entry) : Prop := Forall is_byte (d_name e) /\ Forall is_byte (d_ext e).

Lemma scan_loop_search n i block fname (s : fatfs D) :
  Forall good_entry (entries_of block i n) -> name_chars fname -> fname <> [] ->
  runs (scan_loop n i block fname false LS_NO 0 0) s (dir_search fname (entries_of block i n)) s.
Proof.
  intros Hg Hf Hne. revert i Hg. induction n as [|n IH]; intros i Hg; [apply runs_ret|].
  unfold entries_of in *. cbn [zseq fmap list_fmap] in *. apply Forall_cons in Hg as [[Hn He] Hg].
  cbn [scan_loop dir_search]. cbv zeta. destruct (truthy _); [by apply IH|].
  change (LS_NO =? LS_ROOT) with false. cbn [andb]. destruct (_ =? 0); [apply runs_ret|].
  rewrite !strcmp_eq by (done || by apply Forall_nil || by apply get_name_chars).
  rewrite (bool_decide_eq_false_2 (fname = [])) by done. cbn [negb]. rewrite andb_true_r.
  destruct (decide (get_name _ = fname)) as [E|E].
  - rewrite bool_decide_eq_true_2 by done. cbn [negb]. apply runs_ret.
  - rewrite bool_decide_eq_false_2 by congruence. by apply IH.
Qed.

Lemma entries_prefix b1 b2 : zlen b1 = 512 -> entries_of (b1 ++ b2) 0 16 = entries_of b1 0 16.
Proof.
  intros Hl. apply list_fmap_ext. intros k j Hj.
  apply list_elem_of_lookup_2 in Hj. apply elem_of_zseq in Hj.
  unfold dir_entry_at, field. by rewrite !slice_app_l by lia.
Qed.

Lemma slice_bytes off n l : Forall is_byte l -> Forall is_byte (slice off n l).
Proof. intros Hl. unfold slice. by apply Forall_take, Forall_drop. Qed.

Lemma entries_good b i n : Forall is_byte b -> Forall good_entry (entries_of b i n).
Proof.
  intros Hb. apply Forall_fmap. apply Forall_forall. intros j _. unfold compose, good_entry, dir_entry_at.
  cbn [d_name d_ext]. split; by apply slice_bytes.
Qed.

(** The sectors the search visits: one after the other, or along the chain of the
root directory, of each cluster the first. *)
Inductive walk : Z -> Z -> list Z -> Prop :=
| walk_last sec clus : 0 <= sec -> po + sec + cs <= nsect -> walk sec clus [sec]
| walk_next sec clus l :
    0 <= sec -> po + sec + cs <= nsect -> size <> 32 -> walk (sec + 1) clus l -> walk sec clus (sec :: l)
| walk_chain sec clus n l :
    0 <= sec -> po + sec + cs <= nsect -> size = 32 -> valid_cluster clus -> fat_entry size table clus = n ->
    valid_cluster n -> walk (db + n * cs) n l -> walk sec clus (sec :: l).

Definition root_entries (sects : list Z) : list dir_entry :=
  concat ((fun sec => entries_of (vsec sec 1) 0 DIRENTSPERBLOCK) <$> sects).

Lemma walk_first sec clus l : walk sec clus l -> 0 <= sec /\ po + sec + cs <= nsect.
Proof. by destruct 1. Qed.

(** Reading one block of the directory. *)
Lemma root_block s sec fname :
  laid s -> 0 <= sec -> po + sec + cs <= nsect -> name_chars fname -> fname <> [] ->
  exists d b, ok d /\ runs (disk_read (u32 sec) (clust_size (datablock s))) s (1, vsec sec cs) (set_dev d s) /\
    b = overlay (vsec sec cs) (do_fat_read_block s) /\
    runs (scan_loop DIRENTSPERBLOCK 0 b fname false LS_NO 0 0) (set_block b (set_dev d s))
      (dir_search fname (entries_of (vsec sec 1) 0 DIRENTSPERBLOCK)) (set_block b (set_dev d s)).
Proof.
  intros Hla Hs Hl Hf Hne. destruct Hla as [Hli Hc Hcs' Hdb].
  destruct (disk_read_ok s sec cs Hli) as (d & Hr & Hd); [lia|lia|lia|].
  exists d, (overlay (vsec sec cs) (do_fat_read_block s)). split; [done|].
  rewrite Hcs', wrapu_small by lia. split; [done|]. split; [done|].
  assert (entries_of (overlay (vsec sec cs) (do_fat_read_block s)) 0 DIRENTSPERBLOCK
    = entries_of (vsec sec 1) 0 DIRENTSPERBLOCK) as E.
  { unfold overlay. replace cs with (1 + (cs - 1)) at 1 by lia. rewrite vsec_app, <- app_assoc by lia.
    apply entries_prefix. rewrite zlen_vsec; lia. }
  rewrite <- E. apply scan_loop_search; [|done|done]. rewrite E. apply entries_good, vsec_bytes; lia.
Qed.
Lemma s32_small x : 0 <= x < 2 ^ 31 -> s32 x = x.
Proof. intros Hx. apply wraps_small; [done|]. change (2 ^ (32 - 1)) with (2 ^ 31). lia. Qed.

Lemma laid_block s d b : laid s -> ok d -> laid (set_block b (set_dev d s)).
Proof. intros [[] Hc Hs Hd] Ho. by split. Qed.

(** One block of the directory: found, at the end, or on to the next block. *)
Lemma root_step fuel s sec clus fname :
  laid s -> 0 <= sec -> po + sec + cs <= nsect -> name_chars fname -> fname <> [] ->
  exists s1, laid s1 /\ f_mem s1 = f_mem s /\ f_out s1 = f_out s /\
    root_loop (S fuel) sec clus fname false LS_NO 0 0 s
    = match dir_search fname (entries_of (vsec sec 1) 0 DIRENTSPERBLOCK) with
      | More files dirs =>
        (if negb (size =? 32) then root_loop fuel (sec + 1) clus fname false LS_NO files dirs
         else let! curclus := get_fatent (u32 clus) in
              root_loop fuel (s32 (curclus * cs + db)) (s32 curclus) fname false LS_NO files dirs) s1
      | found => Ok (found, s1)
      end.
Proof.
  intros Hla H1 H2 Hf Hne. destruct (root_block s sec fname Hla H1 H2 Hf Hne) as (d & b & Hd & Hr & Eb & Hsc).
  exists (set_block b (set_dev d s)). split; [by apply laid_block|]. split; [done|]. split; [done|].
  cbn [root_loop]. erewrite mbind_run by apply runs_gets. cbv beta. erewrite mbind_run by exact Hr. cbv beta match.
  erewrite mbind_run by apply runs_modify. cbn [Z.ltb Z.compare]. erewrite mbind_run by apply runs_gets. cbv beta.
  cbn [do_fat_read_block set_dev set_block] in *. rewrite <- Eb. erewrite mbind_run by exact Hsc. cbv beta.
  destruct Hla as [_ Hc Hcs' Hdb]. rewrite (ca_size _ Hc), Hcs', Hdb. by destruct (dir_search _ _).
Qed.

Lemma dir_search_more fname es f g : dir_search fname es = More f g -> f = 0 /\ g = 0.
Proof.
  induction es as [|e es IH]; cbn [dir_search]; [by intros [= <- <-]|].
  destruct (truthy _); [done|]. destruct (_ =? _); [done|]. by destruct (decide _).
Qed.

Lemma root_loop_ends fname r sec clus sects :
  name_chars fname -> fname <> [] -> (forall f g, r <> More f g) -> walk sec clus sects -> forall fuel s,
  (length sects <= fuel)%nat -> laid s -> dir_search fname (root_entries sects) = r ->
  exists s', runs (root_loop fuel sec clus fname false LS_NO 0 0) s r s' /\
    laid s' /\ f_mem s' = f_mem s /\ f_out s' = f_out s.
Proof.
  intros Hf Hne Hmo Hw. induction Hw as [sec clus H1 H2|sec clus l H1 H2 Hz Hw IH|sec clus n l H1 H2 Hz Hvc Hn Hvn Hw IH];
    intros [|fuel] s Hfu Hla Hs; try (cbn in Hfu; lia);
    destruct (root_step fuel s sec clus fname Hla H1 H2 Hf Hne) as (s1 & Hla1 & Hm1 & Ho1 & E);
    unfold root_entries in Hs; cbn [fmap list_fmap concat] in Hs; rewrite dir_search_app in Hs; unfold runs; rewrite E;
    destruct (dir_search fname (entries_of (vsec sec 1) 0 DIRENTSPERBLOCK)) as [e'|r'|f g] eqn:Es;
    try (rewrite <- Hs; by exists s1);
    apply dir_search_more in Es as [-> ->].
  - by destruct (Hmo 0 0).
  - rewrite (proj2 (Z.eqb_neq size 32)) by done. cbn [negb].
    destruct (IH fuel s1) as (s' & Hr & Hl' & Hm' & Ho'); [cbn in Hfu; lia|done|done|].
    exists s'. rewrite Hm', Ho'. by split.
  - rewrite Hz. cbn [negb Z.eqb Pos.eqb]. pose proof (vc_range _ Hvc). pose proof (vc_range _ Hvn).
    destruct (fatent_of s1 clus Hla1 Hvc) as (s2 & Hr2 & Hq2).
    destruct (IH fuel s2) as (s' & Hr & Hl' & Hm' & Ho'); [cbn in Hfu; lia|by eapply laid_quiet|done|].
    exists s'. rewrite Hm', Ho', (q_mem _ _ Hq2), (q_out _ _ Hq2). split; [|done].
    rewrite wrapu_small by lia. erewrite mbind_run by exact Hr2. cbv beta. rewrite Hn.
    destruct (walk_first _ _ _ Hw) as [W1 W2]. rewrite !s32_small by lia.
    by replace (n * cs + db) with (db + n * cs) by lia.
Qed.
(** ** The volume *)
Let block : list Z := vsec 0 1.
Let bs : boot_sector := boot_sector_of block.
Let fatlen : Z := if size =? 32 then b_fat32_length bs else b_fat_length bs.
Let root : Z := fat_start + fatlen * b_fats bs.
Let root_sectors : Z :=
  if size =? 32 then 0 else (nth 1 (b_dir_entries bs) 0 * 256 + nth 0 (b_dir_entries bs) 0) * 32 / SECTOR_SIZE.

(** The boot sector says what kind of volume it is and where its parts are.  The
bounds are those of the fields of [fsdata]. *)
Record volume_ok : Prop := {
  vo_one : po + 1 <= nsect;
  vo_kind : if size =? 32 then b_fat_length bs = 0 else b_fat_length bs <> 0;
  vo_sign : take 7 (drop (if size =? 32 then 82 else 54) block)
    = take 7 (if size =? 32 then FAT32_SIGN else if size =? 16 then FAT16_SIGN else FAT12_SIGN);
  vo_fatlen : 1 <= fatlen < 65536;
  vo_reserved : b_reserved bs = fat_start;
  vo_cs : b_cluster_size bs = cs;
  vo_root : 0 <= root < 65536;
  vo_data : root + root_sectors - cs * 2 = db;
  vo_short : - 2 ^ 15 <= db < 2 ^ 15;
}.

Lemma read_bootsectandvi_ok s :
  live s -> volume_ok -> exists d, ok d /\ runs read_bootsectandvi s (Some (bs, size)) (set_dev d s).
Proof.
  intros Hl [V1 Vk Vs _ _ _ _ _ _]. destruct (disk_read_ok s 0 1 Hl) as (d & Hr & Hd); [lia|lia|lia|].
  exists d. split; [done|]. unfold read_bootsectandvi. eapply runs_bind; [exact Hr|]. cbv beta match. cbn [Z.ltb Z.compare].
  cbv zeta. fold block. fold bs. unfold compare_sign. change SIGNLEN with 7%nat.
  destruct Hsize as [Hz|[Hz|Hz]]; rewrite Hz in Vk, Vs |- *; cbn [Z.eqb Pos.eqb] in Vk, Vs.
  - rewrite Vk. cbn [Z.eqb]. change (64 + 18)%nat with 82%nat.
    rewrite (compare_sign_take _ _ (drop 82 block)), Vs. apply runs_ret.
  - rewrite (proj2 (Z.eqb_neq _ 0)) by done. change (36 + 18)%nat with 54%nat.
    rewrite (compare_sign_take _ FAT12_SIGN (drop 54 block)), (compare_sign_take _ FAT16_SIGN (drop 54 block)), Vs. apply runs_ret.
  - rewrite (proj2 (Z.eqb_neq _ 0)) by done. change (36 + 18)%nat with 54%nat.
    rewrite (compare_sign_take _ FAT12_SIGN (drop 54 block)), (compare_sign_take _ FAT16_SIGN (drop 54 block)), Vs. apply runs_ret.
Qed.

Lemma layout_of_ok buf :
  volume_ok -> layout_of bs size buf = mk_fsdata size fatlen fat_start root cs db buf (-1).
Proof.
  intros [_ _ _ Vl Vr Vc Vo Vd Vh]. unfold layout_of. cbv zeta. fold fatlen.
  rewrite (wrapu_small 16 fatlen) by lia. rewrite Vr, Vc. fold root. rewrite (wrapu_small 16 root) by lia.
  f_equal. unfold root_sectors in Vd. destruct (size =? 32).
  - rewrite Z.add_0_r in Vd. rewrite Vd. by apply wraps_small.
  - rewrite Vd. by apply wraps_small.
Qed.
(** Mounting, up to the search of the root directory. *)
Lemma do_fat_read_mounted fuel s name buffer maxsize :
  live s -> FATBUFSIZE <= zlen (fatbuf (datablock s)) -> volume_ok -> plain_name name ->
  exists s1, laid s1 /\ f_mem s1 = f_mem s /\ f_out s1 = f_out s /\
    file_fat_read fuel name buffer maxsize s
    = (let! found := root_loop fuel root (s32 (b_root_cluster bs)) (downcase name) false LS_NO 0 0 in
       match found with
       | Found dent => get_contents fuel dent buffer maxsize
       | Stop ret => mret ret
       | More _ _ => mfault OutOfFuel
       end) s1.
Proof.
  intros Hl Hb Hv Hn. destruct (read_bootsectandvi_ok s Hl Hv) as (d & Hd & Hr).
  exists (set_fsdata (layout_of bs size (fatbuf (datablock s))) (set_dev d s)).
  split.
  { rewrite layout_of_ok by done. split; [destruct Hl; by split| |done|done].
    split; cbn [datablock set_fsdata fatsize fat_sect fatlength fatbuf fatbufnum]; try done; [by destruct Hv|by left]. }
  split; [done|]. split; [done|]. unfold file_fat_read, do_fat_read. erewrite mbind_run by exact Hr. cbv beta match.
  erewrite mbind_run by apply runs_modify. cbv beta. erewrite mbind_run by apply runs_gets. cbv beta zeta.
  rewrite (plain_skip name Hn). pose proof (plain_downcase name Hn) as Hp. unfold dirdelim.
  rewrite (plain_dirdelim (downcase name) 0) by apply Hp. cbn [Z.leb Z.compare].
  cbn [datablock set_fsdata set_dev fatbuf]. rewrite layout_of_ok by done. cbn [rootdir_sect].
  destruct (downcase name) as [|ch rest] eqn:En; [by destruct Hp|].
  unfold mbind at 1. unfold mbind at 2. destruct (root_loop _ _ _ _ _ _ _ _ _) as [[[dent|ret|f g] s2]|flt]; try done.
  by destruct fuel.
Qed.

Lemma file_fat_read_run fuel s name e c rest sects pre old post :
  live s -> FATBUFSIZE <= zlen (fatbuf (datablock s)) -> volume_ok -> plain_name name ->
  walk root (s32 (b_root_cluster bs)) sects -> dir_search (downcase name) (root_entries sects) = Found e ->
  file_at e c rest -> (length sects <= fuel)%nat -> (length rest < fuel)%nat ->
  f_mem s = pre ++ old ++ post -> zlen old = d_size e ->
  exists s', runs (file_fat_read fuel name (zlen pre) 0) s (d_size e) s' /\
    (live s' /\ FATBUFSIZE <= zlen (fatbuf (datablock s'))) /\ f_out s' = f_out s /\
    f_mem s' = pre ++ file_content e (c :: rest) ++ post.
Proof.
  intros Hl Hb Hv Hn Hw Hs Hf Hfu1 Hfu2 Hm Ho. pose proof (plain_downcase name Hn) as Hp.
  destruct (do_fat_read_mounted fuel s name (zlen pre) 0 Hl Hb Hv Hn) as (s1 & Hl1 & Hm1 & Ho1 & E).
  destruct (root_loop_ends (downcase name) (Found e) root _ sects (plain_chars _ Hp) (proj1 Hp) ltac:(done) Hw fuel s1 Hfu1 Hl1 Hs)
    as (s2 & Hr2 & Hl2 & Hm2 & Ho2).
  destruct (get_contents_ok fuel s2 e c rest pre old post) as (s3 & Hr3 & Hl3 & Ho3 & Hm3); try done; [congruence|].
  exists s3. split; [|split; [split; [apply Hl3|apply (ca_buf _ (la_caches _ Hl3))]|split; [congruence|done]]].
  unfold runs. rewrite E. erewrite mbind_run by exact Hr2. exact Hr3.
Qed.

Lemma file_fat_read_stop fuel s name buffer maxsize sects :
  live s -> FATBUFSIZE <= zlen (fatbuf (datablock s)) -> volume_ok -> plain_name name ->
  walk root (s32 (b_root_cluster bs)) sects -> dir_search (downcase name) (root_entries sects) = Stop (-1) ->
  (length sects <= fuel)%nat ->
  exists s', runs (file_fat_read fuel name buffer maxsize) s (-1) s' /\
    (live s' /\ FATBUFSIZE <= zlen (fatbuf (datablock s'))) /\ f_out s' = f_out s /\ f_mem s' = f_mem s.
Proof.
  intros Hl Hb Hv Hn Hw Hs Hfu. pose proof (plain_downcase name Hn) as Hp.
  destruct (do_fat_read_mounted fuel s name buffer maxsize Hl Hb Hv Hn) as (s1 & Hl1 & Hm1 & Ho1 & E).
  destruct (root_loop_ends (downcase name) (Stop (-1)) root _ sects (plain_chars _ Hp) (proj1 Hp) ltac:(done) Hw fuel s1 Hfu Hl1 Hs)
    as (s2 & Hr2 & Hl2 & Hm2 & Ho2).
  exists s2. split; [|split; [split; [apply Hl2|apply (ca_buf _ (la_caches _ Hl2))]|split; congruence]].
  unfold runs. rewrite E. erewrite mbind_run by exact Hr2. reflexivity.
Qed.
End files.
End table.
End volume.

(** * Finding the partition *)
Lemma strncmp_eq n a b :
  Forall is_byte a -> Forall (fun c => 0 < c < 256) b -> length a = n -> length b = n ->
  truthy (strncmp a b n) = negb (bool_decide (a = b)).
Proof.
  revert n b. induction a as [|x a IH]; intros [|n] [|y b] Ha Hb La Lb; try done.
  apply Forall_cons in Ha as [Hx Ha]. apply Forall_cons in Hb as [Hy Hb]. cbn [strncmp hd tl]. unfold is_byte in Hx.
  rewrite (s8_zero (x - y)) by lia. destruct (Z.eqb_spec (x - y) 0) as [E|E]; cbn [negb].
  - assert (x = y) as -> by lia. rewrite (proj2 (Z.eqb_neq y 0)) by lia. cbn [length] in La, Lb. rewrite IH by (done || lia).
    f_equal. apply bool_decide_ext. split; [by intros ->|by injection 1].
  - rewrite (s8_zero (x - y)), (proj2 (Z.eqb_neq _ _)) by lia. rewrite bool_decide_eq_false_2; [done|]. intros [=]. lia.
Qed.

Lemma strncmp_prefix n a b : strncmp a b n = strncmp (take n a) b n.
Proof. revert a b. induction n as [|n IH]; intros [|x a] b; cbn [strncmp take hd tl]; [done|done|done|]. by rewrite <- IH. Qed.

(** Where the volume starts: a boot sector is the first sector of its volume, a
partition table names it. *)
Definition boot_signed (mbr : list Z) : Prop := nth 510 mbr 0 = 0x55 /\ nth 511 mbr 0 = 0xaa.
Definition part_start (mbr : list Z) : Z :=
  if decide (slice 82 3 mbr = [70; 65; 84]) then 0 else field 454 4 mbr.

Lemma lor_four b0 b1 b2 b3 :
  is_byte b0 -> is_byte b1 -> is_byte b2 -> is_byte b3 ->
  u32 (Z.lor (Z.lor (Z.lor b0 (Z.shiftl b1 8)) (Z.shiftl b2 16)) (Z.shiftl b3 24)) = le_val [b0; b1; b2; b3].
Proof.
  unfold is_byte. intros H0 H1 H2 H3.
  rewrite (Z.lor_comm b0), (lor_shiftl_add b1 b0 8), (Z.lor_comm _ (Z.shiftl b2 16)) by (done || lia).
  rewrite (lor_shiftl_add b2 _ 16), (Z.lor_comm _ (Z.shiftl b3 24)) by lia. rewrite (lor_shiftl_add b3 _ 24) by lia.
  cbn [le_val]. rewrite wrapu_small; lia.
Qed.

Lemma slice_nth off l n :
  0 <= off -> off + Z.of_nat n <= zlen l -> slice off (Z.of_nat n) l = (fun k => nth (Z.to_nat off + k) l 0) <$> seq 0 n.
Proof.
  intros Ho Hl. apply list_eq. intros k. unfold slice. rewrite Nat2Z.id, list_lookup_fmap.
  destruct (decide (k < n)%nat) as [Hk|Hk].
  - rewrite lookup_take_lt, lookup_drop, lookup_seq_lt by done. cbn [fmap option_fmap option_map Nat.add].
    destruct (nth_lookup_or_length l (Z.to_nat off + k) 0) as [E|E]; [done|unfold zlen in Hl; lia].
  - rewrite lookup_take_ge, lookup_seq_ge by lia. done.
Qed.

Section partition.
Context {D : Type} `{BlockDevice D} (ok : D -> Prop) (nsect : Z) (sector : Z -> list Z)
  `{!DiskLaws ok nsect sector}.

Lemma fat_register_device_ok (s : fatfs D) part_no :
  ok (f_dev s) -> 1 <= nsect -> boot_signed (sector 0) ->
  exists d, ok d /\ runs (fat_register_device true part_no) s 0 (set_part true (part_start (sector 0)) (set_dev d s)).
Proof.
  intros Hd Hn [Hm1 Hm2]. destruct (block_read_ok (f_dev s) 0 1 Hd) as (d & Hr & Hok); [lia|lia|].
  destruct (sector_bytes (ok := ok) 0) as [Hl Hb]; [lia|].
  exists d. split; [done|]. unfold fat_register_device. cbn [negb]. eapply runs_bind; [apply runs_gets|]. cbv beta.
  eapply runs_bind; [apply runs_modify|]. cbv beta.
  apply (runs_bind _ _ _ (1, sector 0) (set_dev d (set_part true (part_offset s) s))).
  { unfold runs, on_dev. cbn [f_dev set_part]. unfold runs in Hr. change (Z.of_nat 1) with 1 in Hr. rewrite Hr.
    unfold sectors. cbn [zseq fmap list_fmap concat]. by rewrite app_nil_r. }
  cbv beta match. change (negb (1 =? 1)) with false. cbv match.
  change (nth DOS_PART_MAGIC_OFFSET (sector 0) 0) with (nth 510 (sector 0) 0).
  change (nth (DOS_PART_MAGIC_OFFSET + 1) (sector 0) 0) with (nth 511 (sector 0) 0).
  rewrite Hm1, Hm2. change (negb (0x55 =? 0x55) || negb (0xaa =? 0xaa)) with false. cbv match.
  change (Z.to_nat DOS_FS_TYPE_OFFSET) with 82%nat. rewrite strncmp_prefix.
  change (take 3 (drop 82 (sector 0))) with (slice 82 3 (sector 0)).
  rewrite strncmp_eq; [|by apply slice_bytes|by repeat constructor| |done].
  2: { unfold slice. rewrite length_take, length_drop. unfold zlen in Hl. lia. }
  rewrite negb_involutive. unfold part_start. destruct (decide (slice 82 3 (sector 0) = [70; 65; 84])) as [E|E].
  { rewrite bool_decide_eq_true_2 by done. eapply runs_bind; [apply runs_modify|]. apply runs_ret. }
  rewrite bool_decide_eq_false_2 by done. cbv zeta. eapply runs_bind; [apply runs_modify|]. cbv beta.
  unfold field. change (slice 454 4 (sector 0)) with (slice 454 (Z.of_nat 4) (sector 0)). rewrite slice_nth by lia. cbn [seq fmap list_fmap].
  rewrite lor_four by (apply nth_byte; done). apply runs_ret.
Qed.
End partition.

(** * Volumes *)

(** Where the parts of a volume are: the width of the table, its first sector and its
length in buffers of six sectors, the sectors of a cluster, and the sector at which
cluster 0 would be. *)
Record geometry : Type := mk_geometry {
  g_size : Z;
  g_fat : Z;
  g_nbuf : Z;
  g_cs : Z;
  g_db : Z;
}.

Record fat_volume (nsect : Z) (sector : Z -> list Z) (po : Z) (g : geometry) : Prop := {
  fv_part : 0 <= po;
  fv_size : g_size g = 32 \/ g_size g = 16 \/ g_size g = 12;
  fv_fat : 0 <= g_fat g;
  fv_nbuf : 0 <= g_nbuf g;
  fv_table : po + g_fat g + 6 * g_nbuf g <= nsect;
  fv_cs : 1 <= g_cs g < 256;
  fv_boot : volume_ok nsect sector po (g_size g) (g_fat g) (g_cs g) (g_db g);
}.

(** The first sector of the root directory. *)
Definition root_start (sector : Z -> list Z) (po : Z) (g : geometry) : Z :=
  let bs := boot_sector_of (vsec sector po 0 1) in
  g_fat g + (if g_size g =? 32 then b_fat32_length bs else b_fat_length bs) * b_fats bs.

(** The sectors of the root directory, as far as a search gets. *)
Definition root_dir (nsect : Z) (sector : Z -> list Z) (po : Z) (g : geometry) (sects : list Z) : Prop :=
  walk nsect sector po (g_size g) (g_fat g) (g_nbuf g) (g_cs g) (g_db g)
    (root_start sector po g) (s32 (b_root_cluster (boot_sector_of (vsec sector po 0 1)))) sects.

(** A file: its entry and its chain of clusters. *)
Definition volume_file (nsect : Z) (sector : Z -> list Z) (po : Z) (g : geometry) (e : dir_entry) (c : Z) (rest : list Z) : Prop :=
  file_at nsect sector po (g_size g) (g_fat g) (g_nbuf g) (g_cs g) (g_db g) e c rest.

Definition volume_content (sector : Z -> list Z) (po : Z) (g : geometry) (e : dir_entry) (chain : list Z) : list Z :=
  file_content sector po (g_cs g) (g_db g) e chain.

Section mounted.
Context {D : Type} `{BlockDevice D} (ok : D -> Prop) (nsect : Z) (sector : Z -> list Z)
  `{!DiskLaws ok nsect sector} (po : Z) (g : geometry) (Hsect : nsect < 2 ^ 31) (Hv : fat_volume nsect sector po g).

(** A reader on the volume, between two calls. *)
Definition mounted (s : fatfs D) : Prop := live ok po s /\ FATBUFSIZE <= zlen (fatbuf (datablock s)).

Lemma file_fat_read_found fuel s name e c rest sects pre old post :
  mounted s -> plain_name name ->
  root_dir nsect sector po g sects -> dir_search (downcase name) (root_entries sector po sects) = Found e ->
  volume_file nsect sector po g e c rest -> (length sects <= fuel)%nat -> (length rest < fuel)%nat ->
  f_mem s = pre ++ old ++ post -> zlen old = d_size e ->
  exists s', runs (file_fat_read fuel name (zlen pre) 0) s (d_size e) s' /\ mounted s' /\ f_out s' = f_out s /\
    f_mem s' = pre ++ volume_content sector po g e (c :: rest) ++ post.
Proof.
  destruct Hv as [V1 V2 V3 V4 V5 V6 V7]. intros [Hl Hb] Hn Hr Hs Hfi Hf1 Hf2 Hm Ho.
  by apply (file_fat_read_run ok nsect sector po V1 Hsect _ _ (g_nbuf g) V2 V3 V4 V5 _ (g_db g) V6) with (sects := sects) (old := old).
Qed.

Lemma file_fat_read_none fuel s name buffer maxsize sects :
  mounted s -> plain_name name ->
  root_dir nsect sector po g sects -> dir_search (downcase name) (root_entries sector po sects) = Stop (-1) ->
  (length sects <= fuel)%nat ->
  exists s', runs (file_fat_read fuel name buffer maxsize) s (-1) s' /\ mounted s' /\
    f_out s' = f_out s /\ f_mem s' = f_mem s.
Proof.
  destruct Hv as [V1 V2 V3 V4 V5 V6 V7]. intros [Hl Hb] Hn Hr Hs Hf.
  by apply (file_fat_read_stop ok nsect sector po V1 Hsect _ _ (g_nbuf g) V2 V3 V4 V5 _ (g_db g) V6) with (sects := sects).
Qed.

Lemma zlen_volume_content e c rest :
  volume_file nsect sector po g e c rest -> 0 < zlen (volume_content sector po g e (c :: rest)) /\
    zlen (volume_content sector po g e (c :: rest)) = d_size e.
Proof.
  intros [_ Hvc _ Hsz _]. destruct Hv as [V1 V2 V3 V4 V5 V6 _]. pose proof (zlen_nonneg rest).
  assert (zlen (concat (cdata sector po (g_cs g) (g_db g) <$> c :: rest)) = zlen (c :: rest) * (g_cs g * 512)) as E.
  { clear Hsz. induction Hvc as [|x l [_ Hx1 Hx2 _] _ IH]; [done|]. cbn [fmap list_fmap concat].
    rewrite zlen_app, zlen_cons, IH. unfold cdata. rewrite (zlen_vsec ok nsect sector po); lia. }
  unfold volume_content, file_content. rewrite zlen_slice; rewrite ?E, ?zlen_cons; nia.
Qed.

(** What a name stands for: nothing, or the contents of a file. *)
Inductive names (fuel : nat) (sects : list Z) (name : list Z) : option (list Z) -> Prop :=
| names_nothing :
    dir_search (downcase name) (root_entries sector po sects) = Stop (-1) -> names fuel sects name None
| names_file e c rest :
    dir_search (downcase name) (root_entries sector po sects) = Found e ->
    volume_file nsect sector po g e c rest -> (length rest < fuel)%nat ->
    names fuel sects name (Some (volume_content sector po g e (c :: rest))).

(** The abstract reader: a map from names to contents and a memory. *)
Fixpoint abstract_reads (mem : list Z) (calls : list (Z * option (list Z))) : list Z * list Z :=
  match calls with
  | [] => ([], mem)
  | (off, None) :: calls => let '(rs, mem) := abstract_reads mem calls in (-1 :: rs, mem)
  | (off, Some data) :: calls =>
    let mem := take (Z.to_nat off) mem ++ data ++ drop (Z.to_nat (off + zlen data)) mem in
    let '(rs, mem) := abstract_reads mem calls in (zlen data :: rs, mem)
  end.

Fixpoint read_calls (fuel : nat) (calls : list (list Z * Z)) : M (fatfs D) (list Z) :=
  match calls with
  | [] => mret []
  | (name, off) :: calls =>
    let! r := file_fat_read fuel name off 0 in let! rs := read_calls fuel calls in mret (r :: rs)
  end.

(** A call and what it should find; the buffer is large enough. *)
Definition matching (fuel : nat) (sects : list Z) (size : Z) (call : list Z * Z) (want : Z * option (list Z)) : Prop :=
  plain_name call.1 /\ want.1 = call.2 /\ names fuel sects call.1 want.2 /\
  0 <= call.2 /\ call.2 + zlen (default [] want.2) <= size.

Lemma file_fat_read_one fuel sects s name off want :
  mounted s -> root_dir nsect sector po g sects -> (length sects <= fuel)%nat ->
  matching fuel sects (zlen (f_mem s)) (name, off) (off, want) ->
  exists s', runs (file_fat_read fuel name off 0) s (match want with Some d => zlen d | None => -1 end) s' /\ mounted s' /\
    f_out s' = f_out s /\
    f_mem s' = match want with
               | Some d => take (Z.to_nat off) (f_mem s) ++ d ++ drop (Z.to_nat (off + zlen d)) (f_mem s)
               | None => f_mem s
               end.
Proof.
  intros Hm Hr Hf (Hp & _ & Hn & Ho & Hs). cbn [fst snd] in *.
  destruct Hn as [Hd|e c rest Hd Hfile Hrest]; [by eapply file_fat_read_none|].
  destruct (zlen_volume_content e c rest Hfile) as [Hpos E]. cbn [default] in Hs. unfold id in Hs.
  set (data := volume_content sector po g e (c :: rest)) in *.
  destruct (split_at (f_mem s) off) as (pre & l & Em & Hpre); [lia|].
  destruct (split_at l (zlen data)) as (old & post & -> & Hold); [rewrite Em, zlen_app in Hs; lia|].
  destruct (file_fat_read_found fuel s name e c rest sects pre old post) as (s' & Hrun & Hm' & Hou & Hmem); try done; [congruence|].
  exists s'. rewrite Hpre, <- E in Hrun. split; [exact Hrun|]. split; [done|]. split; [done|]. rewrite Hmem, Em.
  replace (Z.to_nat off) with (length pre) by (unfold zlen in Hpre; lia).
  replace (Z.to_nat (off + zlen data)) with (length (pre ++ old)) by (rewrite length_app; unfold zlen in *; lia).
  rewrite take_app_length, (app_assoc pre old post), drop_app_length. done.
Qed.

End mounted.

(** * Types *)

(** A device that writes bytes, and no more than it was asked for. *)
Class ByteDevice (D : Type) `{BlockDevice D} : Prop := {
  block_read_bytes d start n r l d' :
    0 <= n -> runs (block_read start n) d (r, l) d' -> Forall is_byte l /\ zlen l <= 512 * n;
}.

(** The fields are at their widths. *)
Record fsdata_typed (m : fsdata) : Prop := {
  ty_length : 0 <= fatlength m < 2 ^ 16;
  ty_sect : 0 <= fat_sect m < 2 ^ 16;
  ty_root : 0 <= rootdir_sect m < 2 ^ 16;
  ty_clust : 0 <= clust_size m < 2 ^ 8;
  ty_data : - 2 ^ 15 <= data_begin m < 2 ^ 15;
  ty_buf : Forall is_byte (fatbuf m);
  ty_buf_size : zlen (fatbuf m) = 4 * FATBUFSIZE;
}.

Section types.
Context {D : Type} `{BlockDevice D} `{!ByteDevice D} (n : Z).

(** The caller's memory has [n] bytes. *)
Record typed (s : fatfs D) : Prop := {
  ty_fsdata : fsdata_typed (datablock s);
  ty_block : Forall is_byte (do_fat_read_block s);
  ty_mem : Forall is_byte (f_mem s);
  ty_size : zlen (f_mem s) = n;
}.

Lemma ens_print l : ensures typed (fat_print (D := D) l) (fun _ => typed).
Proof. apply ens_modify. by intros s [H1 H2 H3 H4]. Qed.

Lemma disk_read_typed start k : 0 <= k -> ensures typed (disk_read start k)
  (fun r s => Forall is_byte r.2 /\ zlen r.2 <= 512 * k /\ typed s).
Proof.
  intros Hk s [r l] s' Hs Hr. unfold disk_read in Hr. apply runs_bind_inv in Hr as (s0 & s1 & [= <- <-] & Hr).
  destruct (cur_dev s); [|injection Hr as <- <- <-; split; [by apply Forall_nil|split; [cbn [snd]; rewrite zlen_nil; lia|done]]].
  apply runs_bind_inv in Hr as ([r0 l0] & s1 & H1 & [= <- <- <-]). unfold runs, on_dev in H1.
  destruct (block_read _ k (f_dev s)) as [[[r1 l1] d1]|] eqn:E; [|done]. injection H1 as <- <- <-.
  destruct (block_read_bytes _ _ _ _ _ _ Hk E) as [Hb Hl]. split; [done|]. split; [done|]. by destruct Hs.
Qed.

Lemma store_typed off data : 0 <= off -> Forall is_byte data -> ensures typed (store (D := D) off data) (fun _ => typed).
Proof.
  intros Ho Hd. unfold store. eapply ens_bind; [apply (ens_gets _ _ (fun m => Forall is_byte m /\ zlen m = n)); by intros s []|].
  intros m. apply ens_pure. intros [Hm Hn]. case_match eqn:Hc; [|apply ens_fault]. apply Z.leb_le in Hc.
  apply ens_modify. intros s [H1 H2 H3 H4]. split; try done; cbn [f_mem set_mem].
  - rewrite !Forall_app. split; [by apply Forall_take|]. split; [done|by apply Forall_drop].
  - pose proof (zlen_nonneg data). unfold zlen in *. rewrite !length_app, length_take, length_drop. lia.
Qed.

Lemma load_fatbuf_typed b : ensures typed (load_fatbuf (D := D) b) (fun _ => typed).
Proof.
  unfold load_fatbuf. eapply ens_bind; [apply (ens_gets _ _ fsdata_typed); by intros s []|]. intros m. apply ens_pure. intros Hm.
  cbv zeta. set (k := if _ <? _ then _ else _).
  assert (0 <= k <= 6) as Hk.
  { pose proof (wrapu_range 32 (fatlength m * SECTOR_SIZE) ltac:(done)). unfold k.
    change (FATBUFSIZE / FS_BLOCK_SIZE) with 6. destruct (Z.ltb_spec (u32 (fatlength m * SECTOR_SIZE)) 6); lia. }
  eapply ens_bind; [apply (disk_read_typed _ k); lia|]. intros [r data]. cbn [fst snd].
  apply ens_pure. intros Hb. apply ens_pure. intros Hl.
  eapply ens_bind; [apply ens_modify|]; [|intros ?; by apply ens_ret]. intros s [H1 H2 H3 H4]. destruct Hm. split; try done.
  cbn [datablock set_fsdata]. split; try done; cbn [fatbuf].
  - unfold overlay. apply Forall_app. split; [done|by apply Forall_drop].
  - rewrite zlen_overlay; [done|]. rewrite ty_buf_size0. unfold FATBUFSIZE, FS_BLOCK_SIZE, FATBUFBLOCKS. lia.
Qed.

Lemma get_fatent_typed e : ensures typed (get_fatent (D := D) e) (fun r s => typed s).
Proof.
  unfold get_fatent. eapply ens_bind; [apply (ens_gets _ _ fsdata_typed); by intros s []|]. intros m. apply ens_pure. intros Hm.
  case_match; [|by apply ens_ret]. cbv zeta. eapply (ens_bind _ _ (fun _ => typed)).
  { case_match; [by apply ens_ret|apply load_fatbuf_typed]. }
  cbv beta. intros ok. destruct ok; cbn [negb]; [|by apply ens_ret].
  eapply ens_bind; [apply (ens_gets _ _ (fun _ => True)); done|]. intros buf. apply ens_pure. intros _. by apply ens_ret.
Qed.

Lemma get_cluster_typed c buffer sz :
  0 <= buffer -> 0 <= sz -> ensures typed (get_cluster (D := D) c buffer sz) (fun _ => typed).
Proof.
  intros Hb Hs. unfold get_cluster. assert (0 <= sz / FS_BLOCK_SIZE) as Hq by (apply Z.div_pos; done || lia).
  eapply ens_bind; [apply (ens_gets _ _ (fun _ => True)); done|]. intros m. apply ens_pure. intros _. cbv zeta.
  eapply ens_bind; [by apply disk_read_typed|]. intros [r data]. cbn [fst snd]. apply ens_pure. intros Hd. apply ens_pure. intros _.
  eapply ens_bind; [by apply store_typed|]. cbv beta. intros _. case_match; [by apply ens_ret|].
  case_match; [|by apply ens_ret]. eapply ens_bind; [by apply disk_read_typed|]. intros [r2 tmp]. cbn [fst snd].
  apply ens_pure. intros Ht. apply ens_pure. intros _. case_match; [by apply ens_ret|].
  eapply ens_bind; [apply store_typed; [unfold FS_BLOCK_SIZE in *; lia|by apply Forall_take]|]. cbv beta. intros _. by apply ens_ret.
Qed.

(** A result that fits the return type. *)
Definition is_int (r : Z) : Prop := - 2 ^ 31 <= r < 2 ^ 31.

Lemma fail_typed r : is_int r -> ensures typed (do! fat_print (D := D) FatError in mret r) (fun r s => is_int r /\ typed s).
Proof. intros Hr. eapply ens_bind; [apply ens_print|]. cbv beta. intros _. by apply ens_ret. Qed.

Lemma s32_int x : is_int (s32 x).
Proof.
  unfold is_int, wraps. pose proof (Z.mod_pos_bound x (2 ^ 32) ltac:(done)). change (2 ^ (32 - 1)) with (2 ^ 31).
  destruct (Z.ltb_spec (x mod 2 ^ 32) (2 ^ 31)); lia.
Qed.

Lemma u32_nonneg x : 0 <= u32 x.
Proof. apply (wrapu_range 32). lia. Qed.

Lemma contents_loop_typed fuel bpc cur en act fs got buffer :
  0 <= bpc -> 0 <= act -> 0 <= fs -> 0 <= buffer ->
  ensures typed (contents_loop (D := D) fuel bpc cur en act fs got buffer) (fun r s => is_int r /\ typed s).
Proof.
  intros Hb. revert cur en act fs got buffer. induction fuel as [|fuel IH]; intros cur en act fs got buffer Ha Hf Hbu; [apply ens_fault|].
  assert (is_int (-1)) as Hm by by unfold is_int. pose proof (u32_nonneg (act - bpc)). cbn [contents_loop]. case_match.
  - eapply ens_bind; [apply get_fatent_typed|]. cbv beta. intros new. case_match.
    + eapply ens_bind; [by apply get_cluster_typed|]. cbv beta. intros r. case_match; [by apply fail_typed|]. cbv zeta.
      eapply ens_bind; [apply get_fatent_typed|]. cbv beta. intros nc. case_match; [apply fail_typed, s32_int|].
      apply IH; [done|apply u32_nonneg|lia].
    + case_match; [apply ens_ret; intros s Hs; split; [apply s32_int|done]|]. apply IH; [apply u32_nonneg|done|done].
  - cbv zeta. eapply ens_bind; [by apply get_cluster_typed|]. cbv beta. intros r. case_match; [by apply fail_typed|].
    eapply ens_bind; [apply get_cluster_typed; [lia|apply u32_nonneg]|]. cbv beta. intros r2. case_match; [by apply fail_typed|].
    apply ens_ret. intros s Hs. split; [apply s32_int|done].
Qed.

Lemma get_contents_typed fuel e buffer maxsize :
  0 <= buffer -> 0 <= d_size e ->
  ensures typed (get_contents (D := D) fuel e buffer maxsize) (fun r s => is_int r /\ typed s).
Proof.
  intros Hb He. unfold get_contents. eapply ens_bind; [apply (ens_gets _ _ fsdata_typed); by intros s []|].
  intros m. apply ens_pure. intros Hm. cbv zeta. pose proof (ty_clust _ Hm).
  apply contents_loop_typed; [unfold SECTOR_SIZE; lia|unfold SECTOR_SIZE; lia| |done]. case_match; [lia|done].
Qed.

(** What a search may answer. *)
Definition scan_typed (r : scan) : Prop :=
  match r with Found e => 0 <= d_size e | Stop v => is_int v | More _ _ => True end.

Lemma field_bytes off k l : 0 <= k -> Forall is_byte l -> 0 <= field off k l < 2 ^ (8 * k).
Proof.
  intros Hk Hl. unfold field. pose proof (le_val_range (slice off k l) (slice_bytes off k l Hl)) as Hr.
  split; [lia|]. eapply Z.lt_le_trans; [apply Hr|]. apply Z.pow_le_mono_r; [done|].
  pose proof (zlen_slice_le off k l Hk). unfold zlen in *. lia.
Qed.

Lemma scan_loop_typed k i block fname isdir dols files dirs :
  Forall is_byte block ->
  ensures typed (scan_loop (D := D) k i block fname isdir dols files dirs) (fun r s => scan_typed r /\ typed s).
Proof.
  intros Hb. assert (is_int (-1) /\ is_int 0) as [Hm H0] by by unfold is_int.
  revert i files dirs. induction k as [|k IH]; intros i files dirs; [by apply ens_ret|]. cbn [scan_loop]. cbv zeta.
  repeat (case_match; try apply IH; try (by apply ens_ret));
    try (eapply ens_bind; [apply ens_print|]; cbv beta; intros _; (apply IH || by apply ens_ret)).
  apply ens_ret. intros s Hs. split; [|done]. apply (field_bytes (32 * i + 28) 4 block); done.
Qed.

Lemma root_loop_typed fuel sec clus fname isdir dols files dirs :
  ensures typed (root_loop (D := D) fuel sec clus fname isdir dols files dirs) (fun r s => scan_typed r /\ typed s).
Proof.
  revert sec clus files dirs. induction fuel as [|fuel IH]; intros sec clus files dirs; [apply ens_fault|]. cbn [root_loop].
  eapply ens_bind; [apply (ens_gets _ _ fsdata_typed); by intros s []|]. intros m. apply ens_pure. intros Hm.
  eapply ens_bind; [apply disk_read_typed; apply Hm|]. intros [r data]. cbn [fst snd]. apply ens_pure. intros Hd. apply ens_pure. intros _.
  eapply ens_bind; [apply (ens_modify _ _ typed)|].
  { intros s [H1 H2 H3 H4]. split; try done. cbn [do_fat_read_block set_block]. unfold overlay. apply Forall_app.
    split; [done|by apply Forall_drop]. }
  cbv beta. intros _. case_match.
  { eapply ens_bind; [apply ens_print|]. cbv beta. intros _. by apply ens_ret. }
  eapply ens_bind; [apply (ens_gets _ _ (Forall is_byte)); by intros s []|]. intros block. apply ens_pure. intros Hb.
  eapply ens_bind; [by apply scan_loop_typed|]. cbv beta. intros found. apply ens_pure. intros Hf.
  destruct found; try (by apply ens_ret). case_match; [apply IH|].
  eapply ens_bind; [apply get_fatent_typed|]. cbv beta. intros nc. apply IH.
Qed.

Lemma read_bootsectandvi_typed :
  ensures typed (read_bootsectandvi (D := D))
    (fun r s => (forall bs sz, r = Some (bs, sz) -> 0 <= b_reserved bs < 2 ^ 16 /\ 0 <= b_cluster_size bs < 2 ^ 8) /\ typed s).
Proof.
  unfold read_bootsectandvi. eapply ens_bind; [by apply disk_read_typed|]. intros [r block]. cbn [fst snd].
  apply ens_pure. intros Hb. apply ens_pure. intros _. cbv zeta.
  assert (0 <= b_reserved (boot_sector_of block) < 2 ^ 16 /\ 0 <= b_cluster_size (boot_sector_of block) < 2 ^ 8) as Hr.
  { split; [apply (field_bytes 14 2)|apply (field_bytes 13 1)]; done. }
  repeat case_match; apply ens_ret; intros s Hs; (split; [|done]); intros bs sz E; by inversion E.
Qed.

Lemma s16_range x : - 2 ^ 15 <= s16 x < 2 ^ 15.
Proof.
  unfold wraps. pose proof (Z.mod_pos_bound x (2 ^ 16) ltac:(done)). change (2 ^ (16 - 1)) with (2 ^ 15).
  destruct (Z.ltb_spec (x mod 2 ^ 16) (2 ^ 15)); lia.
Qed.

Lemma layout_of_typed bs sz buf :
  0 <= b_reserved bs < 2 ^ 16 -> 0 <= b_cluster_size bs < 2 ^ 8 -> Forall is_byte buf -> zlen buf = 4 * FATBUFSIZE ->
  fsdata_typed (layout_of bs sz buf).
Proof.
  intros Hr Hc Hb Hl. unfold layout_of. cbv zeta. split; cbn; try done; try (by apply (wrapu_range 16)).
  destruct (sz =? 32); apply s16_range.
Qed.

(** The way down ends at once: below the root directory nothing is found. *)
Lemma dir_loop_typed fuel m e subname first isdir dols :
  ensures typed (dir_loop (D := D) fuel m e subname first isdir dols)
    (fun r s => match r with inl v => is_int v | inr e' => e' = e end /\ typed s).
Proof.
  destruct fuel, isdir; cbn [dir_loop negb]; try apply ens_fault; try (by apply ens_ret). cbv zeta.
  case_match. unfold get_dentfromdir. apply ens_ret. intros s Hs. split; [|done]. 
  unfold is_int. match goal with |- context [if ?c then 0 else -1] => destruct c end; lia.
Qed.

End types.
