(* ===== verification/Mmc.v ===== *)
(** * The MMC/SD driver of the boot loader

[src/x-loader/cpu/omap3/mmc.c] with its headers [mmc_host_def.h] and
[mmc_protocol.h], as configured for the RHINO board (the second controller).  The
controller with the card in its slot is the [MmcHost] class: reading and writing a
register may change it.  Every loop that polls a register takes [fuel]; the laws of
[SdSlot] bound how long the hardware takes. *)
From stdpp Require Import base list.
From S2P Require Import Prelude Bits Fat.
From Stdlib Require Import ZArith Lia.

(** ** Constants *)
Definition OMAP_HSMMC_SYSCONFIG : Z := 0x480B4010.
Definition OMAP_HSMMC_SYSSTATUS : Z := 0x480B4014.
Definition OMAP_HSMMC_CON : Z := 0x480B402C.
Definition OMAP_HSMMC_BLK : Z := 0x480B4104.
Definition OMAP_HSMMC_ARG : Z := 0x480B4108.
Definition OMAP_HSMMC_CMD : Z := 0x480B410C.
Definition OMAP_HSMMC_RSP10 : Z := 0x480B4110.
Definition OMAP_HSMMC_RSP32 : Z := 0x480B4114.
Definition OMAP_HSMMC_RSP54 : Z := 0x480B4118.
Definition OMAP_HSMMC_RSP76 : Z := 0x480B411C.
Definition OMAP_HSMMC_DATA : Z := 0x480B4120.
Definition OMAP_HSMMC_PSTATE : Z := 0x480B4124.
Definition OMAP_HSMMC_HCTL : Z := 0x480B4128.
Definition OMAP_HSMMC_SYSCTL : Z := 0x480B412C.
Definition OMAP_HSMMC_STAT : Z := 0x480B4130.
Definition OMAP_HSMMC_IE : Z := 0x480B4134.
Definition OMAP_HSMMC_CAPA : Z := 0x480B4140.
Definition CONTROL_DEV_CONF1 : Z := 0x480022D8.

Definition MMC_SOFTRESET : Z := Z.shiftl 0x1 1.
Definition RESETDONE : Z := Z.shiftl 0x1 0.
Definition NOOPENDRAIN : Z := Z.shiftl 0x0 0.
Definition OPENDRAIN : Z := Z.shiftl 0x1 0.
Definition OD : Z := Z.shiftl 0x1 0.
Definition INIT_INITSTREAM : Z := Z.shiftl 0x1 1.
Definition RESERVED_MASK : Z := Z.shiftl 0x3 9.
Definition BLEN_512BYTESLEN : Z := Z.shiftl 0x200 0.
Definition NBLK_STPCNT : Z := Z.shiftl 0x0 16.
Definition DDIR_WRITE : Z := Z.shiftl 0x0 4.
Definition DDIR_READ : Z := Z.shiftl 0x1 4.
Definition RSP_TYPE_MASK : Z := Z.shiftl 0x3 16.
Definition RSP_TYPE_NORSP : Z := Z.shiftl 0x0 16.
Definition RSP_TYPE_LGHT136 : Z := Z.shiftl 0x1 16.
Definition RSP_TYPE_LGHT48 : Z := Z.shiftl 0x2 16.
Definition RSP_TYPE_LGHT48B : Z := Z.shiftl 0x3 16.
Definition CCCE_CHECK : Z := Z.shiftl 0x1 19.
Definition CICE_CHECK : Z := Z.shiftl 0x1 20.
Definition DP_NO_DATA : Z := Z.shiftl 0x0 21.
Definition DP_DATA : Z := Z.shiftl 0x1 21.
Definition INDEX (i : Z) : Z := Z.shiftl i 24.
Definition DATI_MASK : Z := Z.shiftl 0x1 1.
Definition DATI_CMDDIS : Z := Z.shiftl 0x1 1.
Definition DTW_1_BITMODE : Z := Z.shiftl 0x0 1.
Definition SDBP_PWROFF : Z := Z.shiftl 0x0 8.
Definition SDBP_PWRON : Z := Z.shiftl 0x1 8.
Definition SDVS_1V8 : Z := Z.shiftl 0x5 9.
Definition ICE_MASK : Z := Z.shiftl 0x1 0.
Definition ICE_STOP : Z := Z.shiftl 0x0 0.
Definition ICS_MASK : Z := Z.shiftl 0x1 1.
Definition ICS_NOTREADY : Z := Z.shiftl 0x0 1.
Definition ICE_OSCILLATE : Z := Z.shiftl 0x1 0.
Definition CEN_MASK : Z := Z.shiftl 0x1 2.
Definition CEN_DISABLE : Z := Z.shiftl 0x0 2.
Definition CEN_ENABLE : Z := Z.shiftl 0x1 2.
Definition CLKD_OFFSET : Z := 6.
Definition CLKD_MASK : Z := Z.shiftl 0x3FF 6.
Definition DTO_MASK : Z := Z.shiftl 0xF 16.
Definition DTO_15THDTO : Z := Z.shiftl 0xE 16.
Definition SOFTRESETALL : Z := Z.shiftl 0x1 24.
Definition CC_MASK : Z := Z.shiftl 0x1 0.
Definition TC_MASK : Z := Z.shiftl 0x1 1.
Definition BWR_MASK : Z := Z.shiftl 0x1 4.
Definition BRR_MASK : Z := Z.shiftl 0x1 5.
Definition ERRI_MASK : Z := Z.shiftl 0x1 15.
Definition VS18_1V8SUP : Z := Z.shiftl 1 26.
Definition MMCSD_SECTOR_SIZE : Z := 512.
Definition MMC_CARD : Z := 0.
Definition SD_CARD : Z := 1.
Definition BYTE_MODE : Z := 0.
Definition SECTOR_MODE : Z := 1.
Definition CLK_INITSEQ : Z := 0.
Definition CLK_400KHZ : Z := 1.
Definition CLK_MISC : Z := 2.

Definition RSP_TYPE_NONE : Z := RSP_TYPE_NORSP.
Definition RSP_TYPE_R1 : Z := Z.lor (Z.lor RSP_TYPE_LGHT48 CCCE_CHECK) CICE_CHECK.
Definition RSP_TYPE_R1B : Z := Z.lor (Z.lor RSP_TYPE_LGHT48B CCCE_CHECK) CICE_CHECK.
Definition RSP_TYPE_R2 : Z := Z.lor RSP_TYPE_LGHT136 CCCE_CHECK.
Definition RSP_TYPE_R3 : Z := RSP_TYPE_LGHT48.
Definition RSP_TYPE_R6 : Z := Z.lor (Z.lor RSP_TYPE_LGHT48 CCCE_CHECK) CICE_CHECK.
Definition RSP_TYPE_R7 : Z := Z.lor (Z.lor RSP_TYPE_LGHT48 CCCE_CHECK) CICE_CHECK.

Definition command (i rsp dp ddir : Z) : Z := Z.lor (Z.lor (Z.lor (INDEX i) rsp) dp) ddir.
Definition MMC_CMD0 : Z := command 0 RSP_TYPE_NONE DP_NO_DATA DDIR_WRITE.
Definition MMC_CMD1 : Z := command 1 RSP_TYPE_R3 DP_NO_DATA DDIR_WRITE.
Definition MMC_CMD2 : Z := command 2 RSP_TYPE_R2 DP_NO_DATA DDIR_WRITE.
Definition MMC_CMD3 : Z := command 3 RSP_TYPE_R1 DP_NO_DATA DDIR_WRITE.
Definition MMC_SDCMD3 : Z := command 3 RSP_TYPE_R6 DP_NO_DATA DDIR_WRITE.
Definition MMC_CMD4 : Z := command 4 RSP_TYPE_NONE DP_NO_DATA DDIR_WRITE.
Definition MMC_CMD7_SELECT : Z := command 7 RSP_TYPE_R1B DP_NO_DATA DDIR_WRITE.
Definition MMC_CMD8 : Z := command 8 RSP_TYPE_R1 DP_DATA DDIR_READ.
Definition MMC_SDCMD8 : Z := command 8 RSP_TYPE_R7 DP_NO_DATA DDIR_WRITE.
Definition MMC_CMD9 : Z := command 9 RSP_TYPE_R2 DP_NO_DATA DDIR_WRITE.
Definition MMC_CMD16 : Z := command 16 RSP_TYPE_R1 DP_NO_DATA DDIR_WRITE.
Definition MMC_CMD17 : Z := command 17 RSP_TYPE_R1 DP_DATA DDIR_READ.
Definition MMC_ACMD41 : Z := command 41 RSP_TYPE_R3 DP_NO_DATA DDIR_WRITE.
Definition MMC_CMD55 : Z := command 55 RSP_TYPE_R1 DP_NO_DATA DDIR_WRITE.

Definition MMC_DSR_DEFAULT : Z := 0x0404.
Definition SD_CMD8_CHECK_PATTERN : Z := 0xAA.
Definition SD_CMD8_2_7_3_6_V_RANGE : Z := Z.shiftl 0x01 8.
Definition MMC_CLOCK_REFERENCE : Z := 96.
Definition MMC_RELATIVE_CARD_ADDRESS : Z := 0x1234.
Definition MMC_INIT_SEQ_CLK : Z := MMC_CLOCK_REFERENCE * 1000 / 80.
Definition MMC_400kHz_CLK : Z := MMC_CLOCK_REFERENCE * 1000 / 400.
Definition MMC_OCR_REG_ACCESS_MODE_MASK : Z := Z.shiftl 0x3 29.
Definition MMC_OCR_REG_ACCESS_MODE_SECTOR : Z := Z.shiftl 0x2 29.
Definition MMC_OCR_REG_HOST_CAPACITY_SUPPORT_MASK : Z := Z.shiftl 0x1 30.
Definition MMC_OCR_REG_HOST_CAPACITY_SUPPORT_BYTE : Z := Z.shiftl 0x0 30.
Definition MMC_OCR_REG_HOST_CAPACITY_SUPPORT_SECTOR : Z := Z.shiftl 0x1 30.
Definition MMC_SD2_CSD_C_SIZE_LSB_MASK : Z := 0xFFFF.
Definition MMC_SD2_CSD_C_SIZE_MSB_MASK : Z := 0x003F.
Definition MMC_SD2_CSD_C_SIZE_MSB_OFFSET : Z := 16.
Definition MMC_CSD_C_SIZE_LSB_MASK : Z := 0x0003.
Definition MMC_CSD_C_SIZE_MSB_MASK : Z := 0x03FF.
Definition MMC_CSD_C_SIZE_MSB_OFFSET : Z := 2.
Definition MMC_CSD_TRAN_SPEED_UNIT_MASK : Z := Z.shiftl 0x07 0.
Definition MMC_CSD_TRAN_SPEED_FACTOR_MASK : Z := Z.shiftl 0x0F 3.
Definition MMC_CSD_TRAN_SPEED_UNIT_100MHZ : Z := Z.shiftl 0x3 0.
Definition MMC_CSD_TRAN_SPEED_FACTOR_1_0 : Z := Z.shiftl 0x01 3.
Definition MMC_CSD_TRAN_SPEED_FACTOR_8_0 : Z := Z.shiftl 0x0F 3.
Definition tran_exp : list Z := [10000; 100000; 1000000; 10000000; 0; 0; 0; 0].
Definition tran_mant : list Z := [0; 10; 12; 13; 15; 20; 25; 30; 35; 40; 45; 50; 55; 60; 70; 80].
Definition OMAP_MMC_MASTER_CLOCK : Z := 96000000.
Definition IF_TYPE_MMC : Z := 6.
Definition PART_TYPE_DOS : Z := 2.

(** ** State *)

(** The controller and the card. *)
Class MmcHost (H : Type) : Type := {
  mmc_in : Z -> M H Z;
  mmc_out : Z -> Z -> M H unit;
}.

Record mmc_card_data : Type := mk_card {
  card_type : Z;
  version : Z;
  mode : Z;
  size : Z;
  RCA : Z;
}.

(** The block device descriptor; of [block_read] only whether it is set. *)
Record block_dev_desc : Type := mk_block_dev {
  if_type : Z;
  part_type : Z;
  dev : Z;
  lun : Z;
  dev_type : Z;
  blksz : Z;
  lba : Z;
  removable : Z;
  has_block_read : bool;
}.

Record mmc_state (H : Type) : Type := mk_mmc {
  m_host : H;
  cur_card_data : mmc_card_data;
  mmc_blk_dev : block_dev_desc;
}.
Arguments mk_mmc {H}.
Arguments m_host {H}.
Arguments cur_card_data {H}.
Arguments mmc_blk_dev {H}.

(** A word of the card specific data register, from a bit on. *)
Definition csd_field (csd : list Z) (lo n : Z) : Z :=
  Z.land (Z.shiftr (nth (Z.to_nat (lo / 32)) csd 0) (lo mod 32)) (2 ^ n - 1).
Definition csd_c_size_mult (csd : list Z) : Z := csd_field csd 47 3.
Definition csd_c_size_lsb (csd : list Z) : Z := csd_field csd 62 2.
Definition csd_c_size_msb (csd : list Z) : Z := csd_field csd 64 10.
Definition csd_read_bl_len (csd : list Z) : Z := csd_field csd 80 4.
Definition csd_tran_speed (csd : list Z) : Z := csd_field csd 96 8.
Definition csd_spec_vers (csd : list Z) : Z := csd_field csd 122 4.
Definition sd2_c_size_lsb (csd : list Z) : Z := csd_field csd 48 16.
Definition sd2_c_size_msb (csd : list Z) : Z := csd_field csd 64 6.

Section driver.
Context {H : Type} `{MmcHost H}.
Abbreviation MM := (M (mmc_state H)).

Definition set_host (h : H) (s : mmc_state H) : mmc_state H := mk_mmc h (cur_card_data s) (mmc_blk_dev s).
Definition set_card (c : mmc_card_data) (s : mmc_state H) : mmc_state H := mk_mmc (m_host s) c (mmc_blk_dev s).
Definition set_blk_dev (b : block_dev_desc) (s : mmc_state H) : mmc_state H := mk_mmc (m_host s) (cur_card_data s) b.

Definition on_host {A} (m : M H A) : MM A := fun s =>
  match m (m_host s) with
  | Ok (a, h) => Ok (a, set_host h s)
  | Fault f => Fault f
  end.

(** A register read and written as an lvalue. *)
Definition rd (r : Z) : MM Z := let! v := on_host (mmc_in r) in mret (u32 v).
Definition wr (r v : Z) : MM unit := on_host (mmc_out r (u32 v)).
Definition set_bits (r bits : Z) : MM unit := let! v := rd r in wr r (Z.lor v bits).
Definition clear_bits (r bits : Z) : MM unit := let! v := rd r in wr r (Z.land v (Z.lnot bits)).

Definition mmc_reg_out (addr mask val : Z) : MM unit :=
  let! v := rd addr in wr addr (Z.lor (Z.land v (Z.lnot mask)) (Z.land val mask)).

(** [while (waiting (r));] *)
Fixpoint wait_reg (fuel : nat) (r : Z) (waiting : Z -> bool) : MM unit :=
  match fuel with
  | O => mfault OutOfFuel
  | S fuel => let! v := rd r in if waiting v then wait_reg fuel r waiting else mret tt
  end.

Definition card_type_is (t : Z) : MM bool := mgets (fun s => card_type (cur_card_data s) =? t).
Definition modify_card (f : mmc_card_data -> mmc_card_data) : MM unit :=
  mmodify (fun s => set_card (f (cur_card_data s)) s).
Definition set_type (t : Z) (c : mmc_card_data) : mmc_card_data := mk_card t (version c) (mode c) (size c) (RCA c).
Definition set_version (v : Z) (c : mmc_card_data) : mmc_card_data := mk_card (card_type c) v (mode c) (size c) (RCA c).
Definition set_mode (m : Z) (c : mmc_card_data) : mmc_card_data := mk_card (card_type c) (version c) m (size c) (RCA c).
Definition set_size (n : Z) (c : mmc_card_data) : mmc_card_data := mk_card (card_type c) (version c) (mode c) n (RCA c).
Definition set_RCA (r : Z) (c : mmc_card_data) : mmc_card_data := mk_card (card_type c) (version c) (mode c) (size c) r.

(** ** The controller *)
Definition mmc_board_init : MM Z := mret 1.

Definition stat_no (mask : Z) (v : Z) : bool := negb (truthy (Z.land v mask)).

Definition mmc_init_stream (fuel : nat) : MM unit :=
  do! set_bits OMAP_HSMMC_CON INIT_INITSTREAM in
  do! wr OMAP_HSMMC_CMD MMC_CMD0 in
  do! wait_reg fuel OMAP_HSMMC_STAT (stat_no CC_MASK) in
  do! wr OMAP_HSMMC_STAT CC_MASK in
  do! wr OMAP_HSMMC_CMD MMC_CMD0 in
  do! wait_reg fuel OMAP_HSMMC_STAT (stat_no CC_MASK) in
  let! v := rd OMAP_HSMMC_STAT in
  do! wr OMAP_HSMMC_STAT v in
  clear_bits OMAP_HSMMC_CON INIT_INITSTREAM.

Definition mmc_clock_config (fuel : nat) (iclk clk_div : Z) : MM Z :=
  do! mmc_reg_out OMAP_HSMMC_SYSCTL (Z.lor (Z.lor ICE_MASK DTO_MASK) CEN_MASK)
        (Z.lor (Z.lor ICE_STOP DTO_15THDTO) CEN_DISABLE) in
  let val := if iclk =? CLK_INITSEQ then Some (MMC_INIT_SEQ_CLK / 2)
             else if iclk =? CLK_400KHZ then Some MMC_400kHz_CLK
             else if iclk =? CLK_MISC then Some clk_div
             else None in
  match val with
  | None => mret 0
  | Some val =>
    do! mmc_reg_out OMAP_HSMMC_SYSCTL (Z.lor ICE_MASK CLKD_MASK) (Z.lor (u32 (Z.shiftl val CLKD_OFFSET)) ICE_OSCILLATE) in
    do! wait_reg fuel OMAP_HSMMC_SYSCTL (fun v => Z.land v ICS_MASK =? ICS_NOTREADY) in
    do! set_bits OMAP_HSMMC_SYSCTL CEN_ENABLE in
    mret 1
  end.

(** The flags of [OMAP_HSMMC_CON] that the source names are all zero. *)
Definition mmc_init_setup (fuel : nat) : MM Z :=
  do! mmc_board_init in
  let! reg_val := rd CONTROL_DEV_CONF1 in
  do! wr CONTROL_DEV_CONF1 (Z.lor reg_val (Z.shiftl 1 6)) in
  do! set_bits OMAP_HSMMC_SYSCONFIG MMC_SOFTRESET in
  do! wait_reg fuel OMAP_HSMMC_SYSSTATUS (fun v => Z.land v RESETDONE =? 0) in
  do! set_bits OMAP_HSMMC_SYSCTL SOFTRESETALL in
  do! wait_reg fuel OMAP_HSMMC_SYSCTL (fun v => negb (Z.land v SOFTRESETALL =? 0)) in
  do! wr OMAP_HSMMC_HCTL (Z.lor (Z.lor DTW_1_BITMODE SDBP_PWROFF) SDVS_1V8) in
  do! set_bits OMAP_HSMMC_CAPA VS18_1V8SUP in
  let! reg_val := rd OMAP_HSMMC_CON in
  do! wr OMAP_HSMMC_CON (Z.land reg_val RESERVED_MASK) in
  do! mmc_clock_config fuel CLK_INITSEQ 0 in
  do! set_bits OMAP_HSMMC_HCTL SDBP_PWRON in
  do! wr OMAP_HSMMC_IE 0x307f0033 in
  do! mmc_init_stream fuel in
  mret 1.

(** ** Commands and data *)

(** Waiting for the end of a command, and its response; a status that has neither
the error nor the completion flag is read again. *)
Fixpoint cmd_loop (fuel : nat) (cmd : Z) (response : list Z) : MM (Z * list Z) :=
  match fuel with
  | O => mfault OutOfFuel
  | S fuel =>
    let! mmc_stat := rd OMAP_HSMMC_STAT in
    if mmc_stat =? 0 then cmd_loop fuel cmd response
    else if truthy (Z.land mmc_stat ERRI_MASK) then mret (u8 mmc_stat, response)
    else if truthy (Z.land mmc_stat CC_MASK) then
      do! wr OMAP_HSMMC_STAT CC_MASK in
      let! r0 := rd OMAP_HSMMC_RSP10 in
      if Z.land cmd RSP_TYPE_MASK =? RSP_TYPE_LGHT136 then
        let! r1 := rd OMAP_HSMMC_RSP32 in
        let! r2 := rd OMAP_HSMMC_RSP54 in
        let! r3 := rd OMAP_HSMMC_RSP76 in
        mret (1, [r0; r1; r2; r3])
      else mret (1, r0 :: drop 1 response)
    else cmd_loop fuel cmd response
  end.

(** Up to the write that starts the command; the flags added to [cmd] are all zero. *)
Definition issue_cmd (fuel : nat) (cmd arg : Z) : MM unit :=
  do! wait_reg fuel OMAP_HSMMC_PSTATE (fun v => Z.land v DATI_MASK =? DATI_CMDDIS) in
  do! wr OMAP_HSMMC_BLK (Z.lor BLEN_512BYTESLEN NBLK_STPCNT) in
  do! wr OMAP_HSMMC_STAT 0xFFFFFFFF in
  do! wr OMAP_HSMMC_ARG arg in
  wr OMAP_HSMMC_CMD cmd.

(** The status and the response words. *)
Definition mmc_send_cmd (fuel : nat) (cmd arg : Z) (response : list Z) : MM (Z * list Z) :=
  do! issue_cmd fuel cmd arg in
  cmd_loop fuel cmd response.

Fixpoint read_words (k : nat) : MM (list Z) :=
  match k with
  | O => mret []
  | S k => let! w := rd OMAP_HSMMC_DATA in let! ws := read_words k in mret (w :: ws)
  end.

(** The status and the words that have been written to the buffer. *)
Fixpoint data_loop (fuel : nat) (output_buf : list Z) : MM (Z * list Z) :=
  match fuel with
  | O => mfault OutOfFuel
  | S fuel =>
    let! mmc_stat := rd OMAP_HSMMC_STAT in
    if mmc_stat =? 0 then data_loop fuel output_buf
    else if truthy (Z.land mmc_stat ERRI_MASK) then mret (u8 mmc_stat, output_buf)
    else
      let! output_buf :=
        if truthy (Z.land mmc_stat BRR_MASK) then
          do! set_bits OMAP_HSMMC_STAT BRR_MASK in
          let! ws := read_words (Z.to_nat (MMCSD_SECTOR_SIZE / 4)) in
          mret (output_buf ++ ws)
        else mret output_buf in
      do! (if truthy (Z.land mmc_stat BWR_MASK) then set_bits OMAP_HSMMC_STAT BWR_MASK else mret tt) in
      if truthy (Z.land mmc_stat TC_MASK) then
        do! set_bits OMAP_HSMMC_STAT TC_MASK in
        mret (1, output_buf)
      else data_loop fuel output_buf
  end.

Definition mmc_read_data (fuel : nat) : MM (Z * list Z) := data_loop fuel [].

(** ** Identification *)

(** Asking for the operating conditions until the card is ready: an error, or the
last answer. *)
Fixpoint ocr_loop (fuel : nat) (retry_cnt : nat) (ret_cmd41 ocr_value ocr_recvd : Z) (resp : list Z) : MM (Z + Z) :=
  if truthy (Z.land ocr_recvd (Z.shiftl 1 31)) then mret (inr ocr_recvd) else
  match retry_cnt with
  | O => mret (inr ocr_recvd)
  | S retry_cnt =>
    let! sd := card_type_is SD_CARD in
    let! (_, resp) := if sd then mmc_send_cmd fuel MMC_CMD55 0 resp else mret (1, resp) in
    let! (err, resp) := mmc_send_cmd fuel ret_cmd41 ocr_value resp in
    if negb (err =? 1) then mret (inl err)
    else ocr_loop fuel retry_cnt ret_cmd41 ocr_value (nth 0 resp 0) resp
  end.

(** Publishing the address; [argument] still holds the operating conditions. *)
Definition mmc_identify (fuel : nat) (argument : Z) (resp : list Z) : MM Z :=
  let! (err, resp) := mmc_send_cmd fuel MMC_CMD2 argument resp in
  if negb (err =? 1) then mret err else
  let! mmc := card_type_is MMC_CARD in
  let! err :=
    if mmc then
      let! rca := mgets (fun s => RCA (cur_card_data s)) in
      let! (err, _) := mmc_send_cmd fuel MMC_CMD3 (u32 (Z.shiftl rca 16)) resp in
      mret err
    else
      let! (err, resp) := mmc_send_cmd fuel MMC_SDCMD3 0 resp in
      if negb (err =? 1) then mret err else
      do! modify_card (set_RCA (Z.shiftr (nth 0 resp 0) 16)) in
      mret err in
  if negb (err =? 1) then mret err else
  do! clear_bits OMAP_HSMMC_CON OD in
  do! set_bits OMAP_HSMMC_CON NOOPENDRAIN in
  mret 1.

(** The addressing mode, from the answer of the card, and the answer without it. *)
Definition card_mode (mmc : bool) (ocr_recvd : Z) : Z * Z :=
  if mmc then
    (if Z.land ocr_recvd MMC_OCR_REG_ACCESS_MODE_MASK =? MMC_OCR_REG_ACCESS_MODE_SECTOR then SECTOR_MODE else BYTE_MODE,
     Z.land ocr_recvd (Z.lnot MMC_OCR_REG_ACCESS_MODE_MASK))
  else
    (if Z.land ocr_recvd MMC_OCR_REG_HOST_CAPACITY_SUPPORT_MASK =? MMC_OCR_REG_HOST_CAPACITY_SUPPORT_SECTOR
     then SECTOR_MODE else BYTE_MODE,
     Z.land ocr_recvd (Z.lnot MMC_OCR_REG_HOST_CAPACITY_SUPPORT_MASK)).

(** The response array starts out with indeterminate words; none is read before a
command has stored it. *)
Definition mmc_detect_card (fuel : nat) : MM Z :=
  let! err := mmc_clock_config fuel CLK_400KHZ 0 in
  if negb (err =? 1) then mret err else
  do! modify_card (set_RCA MMC_RELATIVE_CARD_ADDRESS) in
  let ocr_value := Z.shiftl 0x1FF 15 in
  let! (err, resp) := mmc_send_cmd fuel MMC_CMD0 0 [0; 0; 0; 0] in
  if negb (err =? 1) then mret err else
  let! (err, resp) := mmc_send_cmd fuel MMC_SDCMD8 (Z.lor SD_CMD8_CHECK_PATTERN SD_CMD8_2_7_3_6_V_RANGE) resp in
  let hcs_val := if err =? 1 then MMC_OCR_REG_HOST_CAPACITY_SUPPORT_SECTOR
                 else MMC_OCR_REG_HOST_CAPACITY_SUPPORT_BYTE in
  let! (err, resp) := mmc_send_cmd fuel MMC_CMD55 0 resp in
  let sd := err =? 1 in
  let ocr_value := Z.lor ocr_value (if sd then hcs_val else MMC_OCR_REG_ACCESS_MODE_SECTOR) in
  let ret_cmd41 := if sd then MMC_ACMD41 else MMC_CMD1 in
  do! (if sd then modify_card (set_type SD_CARD)
       else do! modify_card (set_type MMC_CARD) in
            do! clear_bits OMAP_HSMMC_CON OD in
            set_bits OMAP_HSMMC_CON OPENDRAIN) in
  let! (err, resp) := mmc_send_cmd fuel ret_cmd41 ocr_value resp in
  if negb (err =? 1) then mret err else
  let! answer := ocr_loop fuel 2000 ret_cmd41 ocr_value (nth 0 resp 0) resp in
  match answer with
  | inl err => mret err
  | inr ocr_recvd =>
    if negb (truthy (Z.land ocr_recvd (Z.shiftl 1 31))) then mret 0 else
    let! mmc := card_type_is MMC_CARD in
    let '(m, ocr_recvd) := card_mode mmc ocr_recvd in
    do! modify_card (set_mode m) in
    let ocr_recvd := Z.land ocr_recvd (Z.lnot (Z.shiftl 1 31)) in
    if negb (truthy (Z.land ocr_recvd ocr_value)) then mret 0 else
    mmc_identify fuel ocr_value resp
  end.

(** ** Size and sectors *)
Definition mmc_read_cardsize (fuel : nat) (csd : list Z) : MM Z :=
  let! c := mgets cur_card_data in
  if mode c =? SECTOR_MODE then
    if card_type c =? SD_CARD then
      let card_size := Z.lor (Z.land (sd2_c_size_lsb csd) MMC_SD2_CSD_C_SIZE_LSB_MASK)
        (Z.shiftl (Z.land (sd2_c_size_msb csd) MMC_SD2_CSD_C_SIZE_MSB_MASK) MMC_SD2_CSD_C_SIZE_MSB_OFFSET) in
      do! modify_card (set_size (u32 (card_size * 1024))) in
      mret (if u32 (card_size * 1024) =? 0 then 0 else 1)
    else
      let! (err, _) := mmc_send_cmd fuel MMC_CMD8 0 [0; 0; 0; 0] in
      if negb (err =? 1) then mret err else
      let! (err, ext_csd) := mmc_read_data fuel in
      if 128 <? zlen ext_csd then mfault OutOfBounds else
      if negb (err =? 1) then mret err else
      match ext_csd !! 53%nat with
      | None => mfault OutOfBounds
      | Some sectorcount => do! modify_card (set_size (if sectorcount =? 0 then 8388608 else sectorcount)) in mret 1
      end
  else
    if 8 <=? csd_c_size_mult csd then mret 0 else
    if 12 <=? csd_read_bl_len csd then mret 0 else
    let count := Z.shiftl 1 (csd_c_size_mult csd + 2) in
    let card_size := Z.lor (Z.land (csd_c_size_lsb csd) MMC_CSD_C_SIZE_LSB_MASK)
      (Z.shiftl (Z.land (csd_c_size_msb csd) MMC_CSD_C_SIZE_MSB_MASK) MMC_CSD_C_SIZE_MSB_OFFSET) in
    let blk_no := u32 ((card_size + 1) * count) in
    let blk_len := Z.shiftl 1 (csd_read_bl_len csd) in
    let sz := u32 (blk_no * blk_len) in
    do! modify_card (set_size (sz / MMCSD_SECTOR_SIZE)) in
    mret (if sz / MMCSD_SECTOR_SIZE =? 0 then 0 else 1).

(** Words stored from index [pos] of a buffer on.  A sector for which the controller
delivered too few words leaves a gap of old contents in the buffer; a word behind
such a gap is not modelled. *)
Definition store_words (pos : nat) (ws output_buf : list Z) : MM (list Z) :=
  if (length output_buf <? pos)%nat then mfault OutOfBounds
  else mret (take pos output_buf ++ ws ++ drop (pos + length ws) output_buf).

(** The loop over the sectors, with the words it has stored. *)
Fixpoint sect_loop (fuel : nat) (num_sec_val : nat) (argument sec_inc_val : Z) (resp : list Z)
    (pos : nat) (output_buf : list Z) : MM (Z * list Z) :=
  match num_sec_val with
  | O => mret (1, output_buf)
  | S num_sec_val =>
    let! (err, resp) := mmc_send_cmd fuel MMC_CMD17 argument resp in
    if negb (err =? 1) then mret (err, output_buf) else
    let! (err, ws) := mmc_read_data fuel in
    let! output_buf := store_words pos ws output_buf in
    if negb (err =? 1) then mret (err, output_buf)
    else sect_loop fuel num_sec_val (u32 (argument + sec_inc_val)) sec_inc_val resp
           (pos + Z.to_nat (MMCSD_SECTOR_SIZE / 4)) output_buf
  end.

Definition omap_mmc_read_sect (fuel : nat) (start_sec num_bytes : Z) : MM (Z * list Z) :=
  let num_sec_val := u32 (num_bytes + (MMCSD_SECTOR_SIZE - 1)) / MMCSD_SECTOR_SIZE in
  if num_sec_val =? 0 then mret (1, []) else
  let! c := mgets cur_card_data in
  let '(argument, sec_inc_val) :=
    if mode c =? SECTOR_MODE then (start_sec, 1)
    else (u32 (start_sec * MMCSD_SECTOR_SIZE), MMCSD_SECTOR_SIZE) in
  sect_loop fuel (Z.to_nat num_sec_val) argument sec_inc_val [0; 0; 0; 0] 0 [].

(** ** Setting up the card *)

(** The divisor of the clock for a [trans_speed] field; [None] if it is invalid. *)
Definition speed_dsor (trans_speed : Z) : MM (option Z) :=
  let trans_unit := Z.land trans_speed MMC_CSD_TRAN_SPEED_UNIT_MASK in
  let trans_fact := Z.land trans_speed MMC_CSD_TRAN_SPEED_FACTOR_MASK in
  if MMC_CSD_TRAN_SPEED_UNIT_100MHZ <? trans_unit then mret None else
  if (trans_fact <? MMC_CSD_TRAN_SPEED_FACTOR_1_0) || (MMC_CSD_TRAN_SPEED_FACTOR_8_0 <? trans_fact) then mret None else
  let max_dtr := u32 (nth (Z.to_nat (Z.shiftr trans_unit 0)) tran_exp 0 * nth (Z.to_nat (Z.shiftr trans_fact 3)) tran_mant 0) in
  if max_dtr =? 0 then mfault DivByZero else
  let dsor := OMAP_MMC_MASTER_CLOCK / max_dtr in
  let dsor := if dsor =? 4 then 5 else dsor in
  let dsor := if dsor =? 3 then 4 else dsor in
  mret (Some dsor).

(** From the selection of the card on. *)
Definition select_card (fuel : nat) (csd resp : list Z) : MM Z :=
  let! c := mgets cur_card_data in
  let! (ret_val, resp) := mmc_send_cmd fuel MMC_CMD7_SELECT (u32 (Z.shiftl (RCA c) 16)) resp in
  if negb (ret_val =? 1) then mret ret_val else
  let! (ret_val, _) := mmc_send_cmd fuel MMC_CMD16 MMCSD_SECTOR_SIZE resp in
  if negb (ret_val =? 1) then mret ret_val else
  let! ret_val := mmc_read_cardsize fuel csd in
  if negb (ret_val =? 1) then mret ret_val else
  mret 1.

Definition configure_mmc (fuel : nat) : MM Z :=
  do! mmc_init_setup fuel in
  let! ret_val := mmc_detect_card fuel in
  do! (if negb (ret_val =? 1) then mmc_detect_card fuel else mret ret_val) in
  let! c := mgets cur_card_data in
  let! (ret_val, csd) := mmc_send_cmd fuel MMC_CMD9 (u32 (Z.shiftl (RCA c) 16)) [0; 0; 0; 0] in
  if negb (ret_val =? 1) then mret ret_val else
  do! (if card_type c =? MMC_CARD then modify_card (set_version (csd_spec_vers csd)) else mret tt) in
  let! (ret_val, resp) := mmc_send_cmd fuel MMC_CMD4 (Z.shiftl MMC_DSR_DEFAULT 16) csd in
  if negb (ret_val =? 1) then mret ret_val else
  let! dsor := speed_dsor (csd_tran_speed csd) in
  match dsor with
  | None => mret 0
  | Some dsor =>
    let! ret_val := mmc_clock_config fuel CLK_MISC (u16 dsor) in
    if negb (ret_val =? 1) then mret ret_val else
    select_card fuel csd resp
  end.

(** The status and the bytes that have been written to the buffer. *)
Definition mmc_bread (fuel : nat) (blknr blkcnt : Z) : MM (Z * list Z) :=
  let! (ret, ws) := omap_mmc_read_sect fuel blknr (u32 (blkcnt * MMCSD_SECTOR_SIZE)) in
  mret (ret, concat (le_bytes 4 <$> ws)).

(** Reads of the device, one after the other. *)
Fixpoint read_all (fuel : nat) (reqs : list (Z * nat)) : MM (list (Z * list Z)) :=
  match reqs with
  | [] => mret []
  | (i, n) :: reqs => let! r := mmc_bread fuel i (Z.of_nat n) in let! rs := read_all fuel reqs in mret (r :: rs)
  end.

#[export] Instance mmc_block_device (fuel : nat) : BlockDevice (mmc_state H) := {| block_read := mmc_bread fuel |}.

(** The descriptor is filled in and the file system looks for its partition. *)
Definition mmc_init (fuel : nat) (verbose : Z) : M (fatfs (mmc_state H)) Z :=
  let! ret := on_dev (configure_mmc fuel) in
  if ret =? 0 then mret 0 else
  do! on_dev (mmodify (set_blk_dev
        (mk_block_dev IF_TYPE_MMC PART_TYPE_DOS 0 0 0 MMCSD_SECTOR_SIZE 0x10000 0 true))) in
  do! (fat_register_device (H := mmc_block_device fuel) true 1) in
  mret 1.
End driver.

(** * The controller and an SD card *)

(** ** The card *)

(** An SD card: addressed by sectors or by bytes, its address, the voltages it
takes, its card specific data, and how often it answers that it is not ready. *)
Record sd_card : Type := mk_sd {
  sd_ccs : bool;
  sd_rca : Z;
  sd_window : Z;
  sd_csd : list Z;
  sd_busy : nat;
}.

(** The states of the card (SD Physical Layer specification), and those of a read:
the data is on its way, [k] words have been taken from the buffer, all is over. *)
Inductive sd_phase : Type :=
| SdOff
| SdIdle (busy : nat)
| SdApp (busy : nat)
| SdReady
| SdIdent
| SdStby
| SdTran
| SdData (i : Z)
| SdFifo (i : Z) (k : nat)
| SdDone.

(** No transfer is under way. *)
Definition quiescent (p : sd_phase) : bool :=
  match p with SdData _ | SdFifo _ _ | SdDone => false | _ => true end.

(** What a command does to the card. *)
Definition sd_next (c : sd_card) (nsect : Z) (p : sd_phase) (cmd arg : Z) : option sd_phase :=
  if (cmd =? MMC_CMD0) && quiescent p then Some (SdIdle (sd_busy c)) else
  match p with
  | SdIdle n =>
    if (cmd =? MMC_SDCMD8) && (arg =? 0x1AA) then Some (SdIdle n)
    else if (cmd =? MMC_CMD55) && (arg =? 0) then Some (SdApp n)
    else None
  | SdApp n =>
    if (cmd =? MMC_ACMD41) && truthy (Z.land arg (sd_window c)) && implb (sd_ccs c) (Z.testbit arg 30) then
      Some (match n with O => SdReady | S n => SdIdle n end)
    else None
  | SdReady => if cmd =? MMC_CMD2 then Some SdIdent else None
  | SdIdent => if cmd =? MMC_SDCMD3 then Some SdStby else None
  | SdStby =>
    if cmd =? MMC_CMD4 then Some SdStby
    else if (cmd =? MMC_CMD9) && (arg =? Z.shiftl (sd_rca c) 16) then Some SdStby
    else if (cmd =? MMC_CMD7_SELECT) && (arg =? Z.shiftl (sd_rca c) 16) then Some SdTran
    else None
  | SdTran =>
    let i := if sd_ccs c then arg else arg / 512 in
    if (cmd =? MMC_CMD16) && (arg =? 512) then Some SdTran
    else if (cmd =? MMC_CMD17) && (sd_ccs c || (arg mod 512 =? 0)) && (0 <=? i) && (i <? nsect) then Some (SdData i)
    else None
  | _ => None
  end.

(** What it answers. *)
Definition sd_resp (c : sd_card) (p : sd_phase) (cmd : Z) (rs : list Z) : Prop :=
  length rs = 4%nat /\ Forall (fun w => 0 <= w < 2 ^ 32) rs /\
  match p with
  | SdApp 0 => nth 0 rs 0 = Z.lor (sd_window c) (Z.lor (Z.shiftl (b2z (sd_ccs c)) 30) (Z.shiftl 1 31))
  | SdApp (S _) => Z.testbit (nth 0 rs 0) 31 = false
  | SdIdent => Z.shiftr (nth 0 rs 0) 16 = sd_rca c
  | SdStby => cmd = MMC_CMD9 -> rs = sd_csd c
  | _ => True
  end.

(** ** The controller *)
Section host.
Context {H : Type} `{MmcHost H}.

(** Reading [r] again and again ends, after at most [n] values that say to wait. *)
Inductive soon (r : Z) (waiting : Z -> bool) (P : Z -> H -> Prop) : nat -> H -> Prop :=
| soon_now n h v h' :
    runs (mmc_in r) h v h' -> 0 <= v < 2 ^ 32 -> waiting v = false -> P v h' -> soon r waiting P n h
| soon_later n h v h' :
    runs (mmc_in r) h v h' -> 0 <= v < 2 ^ 32 -> waiting v = true -> soon r waiting P n h' -> soon r waiting P (S n) h.

(** The registers that only configure the controller. *)
Definition conf_regs : list Z :=
  [OMAP_HSMMC_SYSCONFIG; OMAP_HSMMC_CON; OMAP_HSMMC_BLK; OMAP_HSMMC_HCTL; OMAP_HSMMC_SYSCTL;
   OMAP_HSMMC_STAT; OMAP_HSMMC_IE; OMAP_HSMMC_CAPA; CONTROL_DEV_CONF1].

Definition cmd_waiting (v : Z) : bool := stat_no ERRI_MASK v && stat_no CC_MASK v.
Definition data_waiting (v : Z) : bool :=
  stat_no ERRI_MASK v && stat_no BRR_MASK v && stat_no BWR_MASK v && stat_no TC_MASK v.

(** Word [k] of a sector. *)
Definition sector_word (sector : list Z) (k : nat) : Z := field (4 * Z.of_nat k) 4 sector.

(** A controller with a card in its slot, from the reference manual of the
controller and the specification of the card: [st p] are the states in which the
card is in phase [p], [armed p a] those in which also the argument [a] of a command
has been written, [ended rs q] those in which the command has ended, the card has
answered [rs] and gone to [q], and [replied rs q] those in which the end has been
acknowledged.  [polls] bounds the reads of a status register before an event. *)
Class SdSlot (c : sd_card) (nsect : Z) (sector : Z -> list Z) (polls : nat)
    (st : sd_phase -> H -> Prop) (armed : sd_phase -> Z -> H -> Prop)
    (ended replied : list Z -> sd_phase -> H -> Prop) : Prop := {
  slot_sector i : 0 <= i < nsect -> zlen (sector i) = 512 /\ Forall is_byte (sector i);
  conf_in p r h : quiescent p = true -> r ∈ conf_regs -> st p h ->
    exists v h', runs (mmc_in r) h v h' /\ 0 <= v < 2 ^ 32 /\ st p h';
  conf_out p r v h : quiescent p = true -> r ∈ conf_regs -> st p h -> exists h', runs (mmc_out r v) h tt h' /\ st p h';
  reset_done p h : quiescent p = true -> st p h ->
    soon OMAP_HSMMC_SYSSTATUS (fun v => Z.land v RESETDONE =? 0) (fun _ => st p) polls h;
  reset_all p h : quiescent p = true -> st p h ->
    soon OMAP_HSMMC_SYSCTL (fun v => negb (Z.land v SOFTRESETALL =? 0)) (fun _ => st p) polls h;
  clock_stable p h : quiescent p = true -> st p h ->
    soon OMAP_HSMMC_SYSCTL (fun v => Z.land v ICS_MASK =? ICS_NOTREADY) (fun _ => st p) polls h;
  lines_free p h : quiescent p = true -> st p h ->
    soon OMAP_HSMMC_PSTATE (fun v => Z.land v DATI_MASK =? DATI_CMDDIS) (fun _ => st p) polls h;
  init_stream h : st SdOff h ->
    exists h', runs (mmc_out OMAP_HSMMC_CMD MMC_CMD0) h tt h' /\ soon OMAP_HSMMC_STAT (stat_no CC_MASK) (fun _ => st SdOff) polls h';
  arg_out p a h : quiescent p = true -> st p h -> exists h', runs (mmc_out OMAP_HSMMC_ARG a) h tt h' /\ armed p a h';
  cmd_out p q a cmd h : armed p a h -> sd_next c nsect p cmd a = Some q ->
    exists h' rs, runs (mmc_out OMAP_HSMMC_CMD cmd) h tt h' /\ sd_resp c p cmd rs /\
      soon OMAP_HSMMC_STAT cmd_waiting (fun v h2 => stat_no ERRI_MASK v = true /\ ended rs q h2) polls h';
  reply_ack rs q h : ended rs q h -> exists h', runs (mmc_out OMAP_HSMMC_STAT CC_MASK) h tt h' /\ replied rs q h';
  reply_in rs q k h : replied rs q h -> (k < 4)%nat ->
    exists h', runs (mmc_in (OMAP_HSMMC_RSP10 + 4 * Z.of_nat k)) h (nth k rs 0) h' /\ replied rs q h';
  reply_done rs q h : replied rs q h -> st q h;
  data_ready i h : st (SdData i) h ->
    soon OMAP_HSMMC_STAT data_waiting (fun v h' => stat_no ERRI_MASK v = true /\ stat_no BRR_MASK v = false /\
      stat_no BWR_MASK v = true /\ stat_no TC_MASK v = true /\ st (SdFifo i 0) h') polls h;
  fifo_stat i h : st (SdFifo i 0) h ->
    exists v h', runs (mmc_in OMAP_HSMMC_STAT) h v h' /\ 0 <= v < 2 ^ 32 /\ stat_no TC_MASK v = true /\ st (SdFifo i 0) h';
  fifo_ack i v h : st (SdFifo i 0) h -> stat_no TC_MASK v = true ->
    exists h', runs (mmc_out OMAP_HSMMC_STAT v) h tt h' /\ st (SdFifo i 0) h';
  fifo_data i k h : st (SdFifo i k) h -> (k < 128)%nat ->
    exists h', runs (mmc_in OMAP_HSMMC_DATA) h (sector_word (sector i) k) h' /\ st (SdFifo i (S k)) h';
  fifo_done i h : st (SdFifo i 128) h ->
    soon OMAP_HSMMC_STAT data_waiting (fun v h' => stat_no ERRI_MASK v = true /\ stat_no BRR_MASK v = true /\
      stat_no BWR_MASK v = true /\ st SdDone h') polls h;
  done_stat h : st SdDone h -> exists v h', runs (mmc_in OMAP_HSMMC_STAT) h v h' /\ 0 <= v < 2 ^ 32 /\ st SdDone h';
  done_ack v h : st SdDone h -> stat_no TC_MASK v = false ->
    exists h', runs (mmc_out OMAP_HSMMC_STAT v) h tt h' /\ st SdTran h';
}.
End host.

(** * Correctness *)
Lemma stat_no_false mask v : stat_no mask v = false -> truthy (Z.land v mask) = true.
Proof. unfold stat_no. by destruct (truthy _). Qed.
Lemma stat_no_true mask v : stat_no mask v = true -> truthy (Z.land v mask) = false.
Proof. unfold stat_no. by destruct (truthy _). Qed.

(** What is left of the operating conditions without the flags. *)
Lemma ocr_window w b :
  0 <= w < 2 ^ 24 ->
  Z.land (Z.land (Z.lor w (Z.lor (Z.shiftl (b2z b) 30) (Z.shiftl 1 31))) (Z.lnot (Z.shiftl 1 30))) (Z.lnot (Z.shiftl 1 31)) = w.
Proof.
  intros Hw. apply Z.bits_inj'. intros i Hi.
  rewrite !Z.land_spec, !Z.lor_spec, !Z.lnot_spec, !Z.shiftl_spec by done.
  change 1 with (2 ^ 0). rewrite !Z.pow2_bits_eqb by done.
  assert (Z.testbit (b2z b) (i - 30) = b && (0 =? i - 30)) as ->.
  { destruct b; [apply (Z.pow2_bits_eqb 0); lia|apply Z.testbit_0_l]. }
  destruct (Z_lt_dec i 24) as [Hl|Hl].
  - rewrite (proj2 (Z.eqb_neq 0 (i - 30))), (proj2 (Z.eqb_neq 0 (i - 31))) by lia. by rewrite andb_false_r, !orb_false_r, !andb_true_r.
  - rewrite (testbit_high w 24 i) by lia. cbn [orb]. by destruct b, (0 =? i - 30), (0 =? i - 31).
Qed.

Lemma ocr_ccs w b :
  0 <= w < 2 ^ 24 -> Z.land (Z.lor w (Z.lor (Z.shiftl (b2z b) 30) (Z.shiftl 1 31))) (Z.shiftl 1 30) = Z.shiftl (b2z b) 30.
Proof.
  intros Hw. apply Z.bits_inj'. intros i Hi. rewrite Z.land_spec, !Z.lor_spec, !Z.shiftl_spec by done.
  change 1 with (2 ^ 0). rewrite !Z.pow2_bits_eqb by done. destruct (Z.eqb_spec 0 (i - 30)) as [E|E].
  - rewrite andb_true_r, (testbit_high w 24 i), (proj2 (Z.eqb_neq 0 (i - 31))) by lia. by rewrite orb_false_r.
  - rewrite andb_false_r. destruct b; [|by rewrite Z.testbit_0_l]. change (b2z true) with (2 ^ 0).
    by rewrite Z.pow2_bits_eqb, (proj2 (Z.eqb_neq 0 (i - 30))) by lia.
Qed.

Lemma ocr_ready w b : truthy (Z.land (Z.lor w (Z.lor (Z.shiftl (b2z b) 30) (Z.shiftl 1 31))) (Z.shiftl 1 31)) = true.
Proof.
  change (Z.shiftl 1 31) with (2 ^ 31). rewrite truthy_land_pow2, !Z.lor_spec by done.
  rewrite (Z.pow2_bits_eqb 31 31) by done. by rewrite !orb_true_r.
Qed.

(** ** The size of a card *)
Lemma csd_field_range csd lo n : 0 <= n -> 0 <= csd_field csd lo n < 2 ^ n.
Proof. intros Hn. unfold csd_field. rewrite land_ones_mod by done. apply Z.mod_pos_bound. lia. Qed.

(** A field in two parts. *)
Lemma two_parts lo hi n m :
  0 <= n -> 0 <= m -> 0 <= lo < 2 ^ n -> 0 <= hi < 2 ^ m ->
  Z.lor (Z.land lo (2 ^ n - 1)) (Z.shiftl (Z.land hi (2 ^ m - 1)) n) = lo + 2 ^ n * hi.
Proof.
  intros Hn Hm Hl Hh. rewrite !land_ones_mod, !Z.mod_small by done. rewrite Z.lor_comm, lor_shiftl_add by done. lia.
Qed.

(** The bytes of a standard capacity card, and the blocks of 512 KiB of a high
capacity card less one, from their specific data. *)
Definition csd_bytes (csd : list Z) : Z :=
  (csd_c_size_lsb csd + 4 * csd_c_size_msb csd + 1) * 2 ^ (csd_c_size_mult csd + 2) * 2 ^ csd_read_bl_len csd.
Definition sd2_c_size (csd : list Z) : Z := sd2_c_size_lsb csd + 65536 * sd2_c_size_msb csd.

Lemma csd_bytes_bound csd : csd_read_bl_len csd < 12 -> 0 < csd_bytes csd <= 2 ^ 32.
Proof.
  intros Hb. unfold csd_bytes, csd_c_size_lsb, csd_c_size_msb, csd_c_size_mult, csd_read_bl_len in *.
  pose proof (csd_field_range csd 62 2 ltac:(done)). pose proof (csd_field_range csd 64 10 ltac:(done)). pose proof (csd_field_range csd 47 3 ltac:(done)).
  pose proof (csd_field_range csd 80 4 ltac:(done)). set (a := csd_field csd 62 2 + 4 * csd_field csd 64 10 + 1).
  assert (0 < a <= 2 ^ 12) as Ha by (unfold a; lia).
  assert (0 < 2 ^ (csd_field csd 47 3 + 2) <= 2 ^ 9) as Hm.
  { split; [apply Z.pow_pos_nonneg; lia|apply Z.pow_le_mono_r; lia]. }
  assert (0 < 2 ^ csd_field csd 80 4 <= 2 ^ 11) as Hl.
  { split; [apply Z.pow_pos_nonneg; lia|apply Z.pow_le_mono_r; lia]. }
  change (2 ^ 32) with (2 ^ 12 * 2 ^ 9 * 2 ^ 11).
  split; [repeat apply Z.mul_pos_pos; lia|]. repeat apply Z.mul_le_mono_nonneg; lia.
Qed.

Lemma cardsize_high {H} `{MmcHost H} fuel csd (s : mmc_state H) :
  mode (cur_card_data s) = SECTOR_MODE -> card_type (cur_card_data s) = SD_CARD ->
  runs (mmc_read_cardsize fuel csd) s (if sd2_c_size csd =? 0 then 0 else 1)
    (set_card (set_size (sd2_c_size csd * 1024) (cur_card_data s)) s).
Proof.
  intros Hm Ht. unfold mmc_read_cardsize. eapply runs_bind; [apply runs_gets|]. cbv beta. rewrite Hm, Ht.
  change (SECTOR_MODE =? SECTOR_MODE) with true. change (SD_CARD =? SD_CARD) with true. cbv match zeta.
  pose proof (csd_field_range csd 48 16 ltac:(done)) as H1. pose proof (csd_field_range csd 64 6 ltac:(done)) as H2.
  pose proof (two_parts (sd2_c_size_lsb csd) (sd2_c_size_msb csd) 16 6 ltac:(done) ltac:(done) H1 H2) as E.
  change (2 ^ 16 - 1) with MMC_SD2_CSD_C_SIZE_LSB_MASK in E. change (2 ^ 6 - 1) with MMC_SD2_CSD_C_SIZE_MSB_MASK in E.
  change MMC_SD2_CSD_C_SIZE_MSB_OFFSET with 16. rewrite E. change (2 ^ 16) with 65536. fold (sd2_c_size csd).
  assert (0 <= sd2_c_size csd < 2 ^ 22) as Hs by (unfold sd2_c_size, sd2_c_size_lsb, sd2_c_size_msb; lia).
  rewrite wrapu_small by lia. eapply runs_bind; [apply runs_modify|].
  replace (sd2_c_size csd * 1024 =? 0) with (sd2_c_size csd =? 0) by lia. apply runs_ret.
Qed.

Lemma cardsize_standard {H} `{MmcHost H} fuel csd (s : mmc_state H) :
  mode (cur_card_data s) <> SECTOR_MODE ->
  runs (mmc_read_cardsize fuel csd) s
    (if 12 <=? csd_read_bl_len csd then 0 else if u32 (csd_bytes csd) / 512 =? 0 then 0 else 1)
    (if 12 <=? csd_read_bl_len csd then s else set_card (set_size (u32 (csd_bytes csd) / 512) (cur_card_data s)) s).
Proof.
  intros Hm. unfold mmc_read_cardsize. eapply runs_bind; [apply runs_gets|]. cbv beta.
  rewrite (proj2 (Z.eqb_neq _ _)) by done.
  pose proof (csd_field_range csd 47 3 ltac:(done)) as Hc. unfold csd_c_size_mult at 1. rewrite (proj2 (Z.leb_gt 8 _)) by lia.
  destruct (Z.leb_spec 12 (csd_read_bl_len csd)) as [Hl|Hl]; [apply runs_ret|]. cbv zeta.
  pose proof (csd_bytes_bound csd Hl) as Hb. pose proof (csd_field_range csd 80 4 ltac:(done)) as Hr.
  pose proof (two_parts (csd_c_size_lsb csd) (csd_c_size_msb csd) 2 10 ltac:(done) ltac:(done)
    (csd_field_range csd 62 2 ltac:(done)) (csd_field_range csd 64 10 ltac:(done))) as E.
  change (2 ^ 2 - 1) with MMC_CSD_C_SIZE_LSB_MASK in E. change (2 ^ 10 - 1) with MMC_CSD_C_SIZE_MSB_MASK in E.
  change MMC_CSD_C_SIZE_MSB_OFFSET with 2. rewrite E.
  rewrite !Z.shiftl_1_l. unfold MMCSD_SECTOR_SIZE.
  replace (u32 (u32 _ * _)) with (u32 (csd_bytes csd)).
  - eapply runs_bind; [apply runs_modify|]. apply runs_ret.
  - unfold csd_bytes, wrapu. by rewrite Zmult_mod_idemp_l.
Qed.

(** The size of a standard capacity card.  For every content of the card
specific data register with a block length the driver accepts, [mmc_read_cardsize]
computes the number of sectors the specification defines, although all of its
arithmetic is on 32 bits; the one exception is a card of exactly 4 GiB, whose size
wraps to 0 and which is refused, as is one smaller than a sector. *)
Theorem mmc_read_cardsize_exact {H} `{MmcHost H} fuel csd (s : mmc_state H) :
  mode (cur_card_data s) = BYTE_MODE -> csd_read_bl_len csd < 12 ->
  (512 <= csd_bytes csd < 2 ^ 32 ->
    runs (mmc_read_cardsize fuel csd) s 1 (set_card (set_size (csd_bytes csd / 512) (cur_card_data s)) s)) /\
  (csd_bytes csd < 512 \/ csd_bytes csd = 2 ^ 32 ->
    runs (mmc_read_cardsize fuel csd) s 0 (set_card (set_size 0 (cur_card_data s)) s)).
Proof.
  intros Hm Hl. pose proof (cardsize_standard fuel csd s ltac:(rewrite Hm; done)) as Hr.
  rewrite (proj2 (Z.leb_gt 12 _)) in Hr by done. split.
  - intros Hb. rewrite wrapu_small in Hr by lia.
    rewrite (proj2 (Z.eqb_neq (csd_bytes csd / 512) 0)) in Hr by divmod. exact Hr.
  - pose proof (csd_bytes_bound csd Hl). intros Hb.
    assert (u32 (csd_bytes csd) / 512 = 0) as E.
    { destruct Hb as [Hb|Hb]; [rewrite wrapu_small by lia; divmod|by rewrite Hb]. }
    rewrite E in Hr. exact Hr.
Qed.

(** ** The clock *)

(** The rate in Hz that a [trans_speed] field stands for, if it is valid. *)
Definition rate_of (t : Z) : option Z :=
  if (Z.land t 7 <=? 3) && (1 <=? Z.land (Z.shiftr t 3) 15) then
    Some (10 ^ (Z.land t 7 + 4) * nth (Z.to_nat (Z.land (Z.shiftr t 3) 15)) tran_mant 0)
  else None.

(** A divisor for every valid field and only for those, with a divided clock that the
field of the register can express; at the rates of 20 and 25 MHz that the
specifications give for cards out of reset, a clock that is no faster. *)
Definition dsor_good (t : Z) : bool :=
  match speed_dsor (H := unit) t (mk_mmc tt (mk_card 0 0 0 0 0) (mk_block_dev 0 0 0 0 0 0 0 0 false)), rate_of t with
  | Ok (Some d, _), Some r =>
    (0 <=? d) && (d <? 1024) && Bool.eqb (d =? 0) (OMAP_MMC_MASTER_CLOCK <? r) && implb ((r =? 20000000) || (r =? 25000000)) (OMAP_MMC_MASTER_CLOCK <=? d * r)
  | Ok (None, _), None => true
  | _, _ => false
  end.

Lemma dsor_good_all : forallb dsor_good (zrange 256) = true.
Proof. by vm_compute. Qed.

Lemma speed_dsor_state {H} t (s : mmc_state H) (s0 : mmc_state unit) :
  speed_dsor t s = match speed_dsor t s0 with Ok (o, _) => Ok (o, s) | Fault f => Fault f end.
Proof.
  unfold speed_dsor. cbv zeta. destruct (_ <? _); [done|]. destruct (_ || _); [done|]. by destruct (_ =? 0).
Qed.

Lemma speed_dsor_valid {H} t r (s : mmc_state H) :
  0 <= t < 256 -> rate_of t = Some r -> exists d, runs (speed_dsor t) s (Some d) s.
Proof.
  intros Ht Er. pose proof (forallb_zrange 256 dsor_good t dsor_good_all ltac:(lia)) as Hg. unfold dsor_good in Hg.
  unfold runs. rewrite (speed_dsor_state t s (mk_mmc tt (mk_card 0 0 0 0 0) (mk_block_dev 0 0 0 0 0 0 0 0 false))).
  rewrite Er in Hg. destruct (speed_dsor t _) as [[[d|] s0]|]; [by exists d|done|done].
Qed.

(** The clock divisor.  For every value of the transfer speed field, the
division by the speed is defined and the computed divisor fits the ten bits of the
register; it is 0, which bypasses the divider, only for speeds above that of the
undivided clock; exactly the reserved units and factors are refused; and at the rates of 20 and 25 MHz of cards out of reset the card is not
clocked faster than it allows. *)
Lemma speed_dsor_in_range {H} t (s : mmc_state H) :
  0 <= t < 256 ->
  match rate_of t with
  | None => runs (speed_dsor t) s None s
  | Some r => exists d, runs (speed_dsor t) s (Some d) s /\ 0 <= d < 1024 /\ (d = 0 <-> OMAP_MMC_MASTER_CLOCK < r) /\
      (r = 20000000 \/ r = 25000000 -> OMAP_MMC_MASTER_CLOCK <= d * r)
  end.
Proof.
  intros Ht. pose proof (forallb_zrange 256 dsor_good t dsor_good_all ltac:(lia)) as Hg. unfold dsor_good in Hg.
  unfold runs. rewrite (speed_dsor_state t s (mk_mmc tt (mk_card 0 0 0 0 0) (mk_block_dev 0 0 0 0 0 0 0 0 false))).
  destruct (speed_dsor t _) as [[[d|] s0]|]; destruct (rate_of t) as [r|]; try done.
  apply andb_prop in Hg as [Hg Hr]. apply andb_prop in Hg as [Hg H3]. apply andb_prop in Hg as [H1 H2].
  apply Bool.eqb_prop in H3. exists d. split; [done|]. split; [lia|]. split; [lia|]. intros Hrate. assert ((r =? 20000000) || (r =? 25000000) = true) as E by lia.
  rewrite E in Hr. cbn [implb] in Hr. lia.
Qed.

(** The words of a sector are its bytes. *)
Lemma words_bytes n m pre l :
  length pre = (4 * m)%nat -> length l = (4 * n)%nat -> Forall is_byte l ->
  concat (le_bytes 4 <$> (sector_word (pre ++ l) <$> seq m n)) = l.
Proof.
  revert m pre l. induction n as [|n IH]; intros m pre l Hp Hl Hb; [by destruct l|].
  destruct l as [|b0 [|b1 [|b2 [|b3 l]]]]; cbn [length] in Hl; try lia.
  cbn [seq fmap list_fmap concat]. change (b0 :: b1 :: b2 :: b3 :: l) with ([b0; b1; b2; b3] ++ l) in *.
  apply Forall_app in Hb as [Hb0 Hb]. f_equal.
  - unfold sector_word, field. rewrite (slice_exact pre [b0; b1; b2; b3] l) by (done || unfold zlen; lia).
    by apply (le_bytes_val [b0; b1; b2; b3]).
  - rewrite app_assoc. apply IH; [rewrite length_app; cbn [length]; lia|lia|done].
Qed.

Section correctness.
Context {H : Type} `{MmcHost H} (c : sd_card) (nsect : Z) (sector : Z -> list Z) (polls : nat)
  (st : sd_phase -> H -> Prop) (armed : sd_phase -> Z -> H -> Prop) (ended replied : list Z -> sd_phase -> H -> Prop)
  `{!SdSlot c nsect sector polls st armed ended replied}.
Context (fuel : nat) (Hfuel : (2 * polls + 2 <= fuel)%nat).

(** The driver's state with the hardware in [X] and the data of the card. *)
Definition on (X : H -> Prop) (d : mmc_card_data) (b : block_dev_desc) (s : mmc_state H) : Prop :=
  X (m_host s) /\ cur_card_data s = d /\ mmc_blk_dev s = b.

Lemma on_set_host (X Y : H -> Prop) d b s h : on X d b s -> Y h -> on Y d b (set_host h s).
Proof. by intros (_ & Hd & Hb). Qed.

Lemma on_impl (X Y : H -> Prop) d b s : on X d b s -> (forall h, X h -> Y h) -> on Y d b s.
Proof. intros (Hx & Hd) Hi. split; [by apply Hi|done]. Qed.

(** ** Registers *)
Lemma rd_run r s v h : runs (mmc_in r) (m_host s) v h -> 0 <= v < 2 ^ 32 -> runs (rd r) s v (set_host h s).
Proof.
  intros Hr Hv. unfold rd. apply (runs_bind _ _ _ v (set_host h s)); [|rewrite wrapu_small by done; apply runs_ret].
  unfold runs, on_host. by rewrite Hr.
Qed.

Lemma wr_run r s v h : runs (mmc_out r (u32 v)) (m_host s) tt h -> runs (wr r v) s tt (set_host h s).
Proof. intros Hr. unfold wr, runs, on_host. by rewrite Hr. Qed.

Lemma rd_tot (X : H -> Prop) (Y : Z -> H -> Prop) r d b :
  (forall h, X h -> exists v h', runs (mmc_in r) h v h' /\ 0 <= v < 2 ^ 32 /\ Y v h') ->
  tot (on X d b) (rd r) (fun v => on (Y v) d b).
Proof.
  intros Hx s Hs. destruct (Hx _ (proj1 Hs)) as (v & h' & Hr & Hv & Hy).
  exists v, (set_host h' s). split; [by apply rd_run|by eapply on_set_host].
Qed.

Lemma wr_tot (X Y : H -> Prop) r v d b :
  (forall h, X h -> exists h', runs (mmc_out r (u32 v)) h tt h' /\ Y h') ->
  tot (on X d b) (wr r v) (fun _ => on Y d b).
Proof.
  intros Hx s Hs. destruct (Hx _ (proj1 Hs)) as (h' & Hr & Hy).
  exists tt, (set_host h' s). split; [by apply wr_run|by eapply on_set_host].
Qed.

Lemma wait_reg_tot (X Y : H -> Prop) r waiting d b :
  (forall h, X h -> soon r waiting (fun _ => Y) polls h) ->
  tot (on X d b) (wait_reg fuel r waiting) (fun _ => on Y d b).
Proof.
  intros Hx s Hs. specialize (Hx _ (proj1 Hs)). destruct Hs as (_ & Hs). revert s Hs Hx.
  clear SdSlot0. assert (polls < fuel)%nat as Hf by lia. clear Hfuel. revert fuel Hf. induction polls as [|n IH]; intros [|f] Hf s Hs Hx; try lia;
    inversion Hx as [? ? v h' Hr Hv Hw Hy|? ? v h' Hr Hv Hw Hy]; subst.
  1, 2: exists tt, (set_host h' s); split; [|done]; cbn [wait_reg];
    eapply runs_bind; [by apply rd_run|]; cbv beta; rewrite Hw; apply runs_ret.
  destruct (IH f ltac:(lia) (set_host h' s) Hs Hy) as (a & s' & Hr' & Hs'). exists a, s'. split; [|done].
  cbn [wait_reg]. eapply runs_bind; [by apply rd_run|]. cbv beta. by rewrite Hw.
Qed.

(** Configuration registers in phase [p]. *)
Lemma conf_rd p r d b : quiescent p = true -> r ∈ conf_regs -> tot (on (st p) d b) (rd r) (fun _ => on (st p) d b).
Proof. intros Hq Hr. apply (rd_tot _ (fun _ => st p)). intros h Hh. by apply conf_in. Qed.

Lemma conf_wr p r v d b : quiescent p = true -> r ∈ conf_regs -> tot (on (st p) d b) (wr r v) (fun _ => on (st p) d b).
Proof. intros Hq Hr. apply wr_tot. intros h Hh. by apply conf_out. Qed.

Lemma set_bits_tot p r v d b :
  quiescent p = true -> r ∈ conf_regs -> tot (on (st p) d b) (set_bits r v) (fun _ => on (st p) d b).
Proof. intros Hq Hr. eapply tot_bind; [by apply conf_rd|]. intros w. by apply conf_wr. Qed.

Lemma clear_bits_tot p r v d b :
  quiescent p = true -> r ∈ conf_regs -> tot (on (st p) d b) (clear_bits r v) (fun _ => on (st p) d b).
Proof. intros Hq Hr. eapply tot_bind; [by apply conf_rd|]. intros w. by apply conf_wr. Qed.

Lemma reg_out_tot p r m v d b :
  quiescent p = true -> r ∈ conf_regs -> tot (on (st p) d b) (mmc_reg_out r m v) (fun _ => on (st p) d b).
Proof. intros Hq Hr. eapply tot_bind; [by apply conf_rd|]. intros w. by apply conf_wr. Qed.

Ltac conf_reg := by (apply (bool_decide_unpack _); vm_compute).

(** One access to a configuration register, or more. *)
Ltac conf_step :=
  eapply tot_bind;
    [first [apply conf_rd | apply conf_wr | apply set_bits_tot | apply clear_bits_tot | apply reg_out_tot]; [done|conf_reg]
    |cbv beta; intros ?].

(** A loop that waits in phase [p], for the event that [law] promises. *)
Ltac wait_step p law :=
  eapply tot_bind; [apply (wait_reg_tot _ (st p)); intros ? ?; by apply law|cbv beta; intros ?].

(** ** Starting the controller *)
Lemma mmc_clock_config_tot p iclk div d b :
  quiescent p = true -> iclk = CLK_INITSEQ \/ iclk = CLK_400KHZ \/ iclk = CLK_MISC ->
  tot (on (st p) d b) (mmc_clock_config fuel iclk div) (fun r s => r = 1 /\ on (st p) d b s).
Proof.
  intros Hq Hi. unfold mmc_clock_config. conf_step. cbv zeta.
  destruct Hi as [E|[E|E]]; rewrite E; cbn [Z.eqb CLK_INITSEQ CLK_400KHZ CLK_MISC Pos.eqb];
    conf_step; wait_step p clock_stable; conf_step; by apply tot_ret.
Qed.

Lemma stream_cmd_tot {A} d b (k : M (mmc_state H) A) R :
  tot (on (st SdOff) d b) k R ->
  tot (on (st SdOff) d b) (do! wr OMAP_HSMMC_CMD MMC_CMD0 in do! wait_reg fuel OMAP_HSMMC_STAT (stat_no CC_MASK) in k) R.
Proof.
  intros Hk.
  eapply tot_bind; [apply (wr_tot _ (soon OMAP_HSMMC_STAT (stat_no CC_MASK) (fun _ => st SdOff) polls))|cbv beta; intros ?].
  { intros h Hh. by apply init_stream. }
  eapply tot_bind; [by apply (wait_reg_tot _ (st SdOff))|by cbv beta].
Qed.

Lemma mmc_init_stream_tot d b : tot (on (st SdOff) d b) (mmc_init_stream fuel) (fun _ => on (st SdOff) d b).
Proof.
  unfold mmc_init_stream. conf_step. apply stream_cmd_tot. conf_step. apply stream_cmd_tot. do 2 conf_step.
  apply clear_bits_tot; [done|conf_reg].
Qed.

Lemma mmc_init_setup_tot d b : tot (on (st SdOff) d b) (mmc_init_setup fuel) (fun _ => on (st SdOff) d b).
Proof.
  unfold mmc_init_setup. eapply (tot_bind _ _ (fun _ => on (st SdOff) d b)); [by apply tot_ret|cbv beta; intros ?].
  do 3 conf_step. wait_step SdOff reset_done. conf_step. wait_step SdOff reset_all. do 4 conf_step.
  eapply tot_bind_eq; [apply mmc_clock_config_tot; [done|by left]|]. do 2 conf_step.
  eapply tot_bind; [apply mmc_init_stream_tot|cbv beta; intros ?]. by apply tot_ret.
Qed.

(** ** Commands *)
Definition answer (cmd : Z) (rs resp : list Z) : list Z :=
  if Z.land cmd RSP_TYPE_MASK =? RSP_TYPE_LGHT136 then rs else nth 0 rs 0 :: drop 1 resp.

Lemma reply_tot rs q k d b :
  (k < 4)%nat -> length rs = 4%nat -> Forall (fun w => 0 <= w < 2 ^ 32) rs ->
  tot (on (replied rs q) d b) (rd (OMAP_HSMMC_RSP10 + 4 * Z.of_nat k)) (fun v s => v = nth k rs 0 /\ on (replied rs q) d b s).
Proof.
  intros Hk Hl Hf. eapply tot_conseq; [apply (rd_tot (replied rs q) (fun v h => v = nth k rs 0 /\ replied rs q h))|done|].
  - intros h Hh. destruct (reply_in rs q k h Hh Hk) as (h' & Hr & Hh'). exists (nth k rs 0), h'. split; [done|].
    split; [|done]. rewrite Forall_forall in Hf. apply Hf. destruct (nth_lookup_or_length rs k 0) as [E|E]; [|lia].
    by eapply list_elem_of_lookup_2.
  - intros v s ((-> & Hr) & Hs). split; [done|by split].
Qed.

(** The response of a command that has ended. *)
Lemma response_tot cmd rs q resp d b :
  length rs = 4%nat -> Forall (fun w => 0 <= w < 2 ^ 32) rs ->
  tot (on (ended rs q) d b)
    (do! wr OMAP_HSMMC_STAT CC_MASK in
     let! r0 := rd OMAP_HSMMC_RSP10 in
     if Z.land cmd RSP_TYPE_MASK =? RSP_TYPE_LGHT136 then
       let! r1 := rd OMAP_HSMMC_RSP32 in
       let! r2 := rd OMAP_HSMMC_RSP54 in
       let! r3 := rd OMAP_HSMMC_RSP76 in
       mret (1, [r0; r1; r2; r3])
     else mret (1, r0 :: drop 1 resp))
    (fun er s => er = (1, answer cmd rs resp) /\ on (st q) d b s).
Proof.
  intros Hl Hf. unfold answer.
  eapply tot_bind; [apply (wr_tot _ (replied rs q)); intros h Hh; by apply reply_ack|cbv beta; intros ?].
  eapply tot_bind_eq; [apply (reply_tot rs q 0); [lia|done|done]|].
  assert (forall s, on (replied rs q) d b s -> on (st q) d b s) as Hd.
  { intros s Hs. eapply on_impl; [exact Hs|]. intros h. apply reply_done. }
  destruct (_ =? _); [|apply tot_ret; auto].
  eapply tot_bind_eq; [apply (reply_tot rs q 1); [lia|done|done]|].
  eapply tot_bind_eq; [apply (reply_tot rs q 2); [lia|done|done]|].
  eapply tot_bind_eq; [apply (reply_tot rs q 3); [lia|done|done]|].
  destruct rs as [|r0 [|r1 [|r2 [|r3 [|]]]]]; try done. apply tot_ret; auto.
Qed.

Lemma cmd_loop_tot cmd rs q resp d b n f :
  (n < f)%nat -> length rs = 4%nat -> Forall (fun w => 0 <= w < 2 ^ 32) rs ->
  tot (on (soon OMAP_HSMMC_STAT cmd_waiting (fun v h => stat_no ERRI_MASK v = true /\ ended rs q h) n) d b)
    (cmd_loop f cmd resp) (fun er s => er = (1, answer cmd rs resp) /\ on (st q) d b s).
Proof.
  intros Hf Hl Hrs. revert f Hf. induction n as [|n IH]; intros [|f] Hf s (Hx & Hs); try lia;
    inversion Hx as [? ? v h' Hr Hv Hw Hy|? ? v h' Hr Hv Hw Hy]; subst.
  1, 2: destruct Hy as [He Hrep]; unfold cmd_waiting in Hw; rewrite He in Hw; apply stat_no_false in Hw; apply stat_no_true in He;
    destruct (response_tot cmd rs q resp d b Hl Hrs (set_host h' s)) as (er & s' & Hr' & Hs'); [by split|];
    exists er, s'; split; [|done]; cbn [cmd_loop]; eapply runs_bind; [by apply rd_run|]; cbv beta;
    rewrite He, Hw; destruct (Z.eqb_spec v 0) as [->|]; [by rewrite Z.land_0_l in Hw|exact Hr'].
  destruct (IH f ltac:(lia) (set_host h' s)) as (er & s' & Hr' & Hs'); [by split|].
  exists er, s'. split; [|done]. cbn [cmd_loop]. eapply runs_bind; [by apply rd_run|]. cbv beta.
  apply andb_prop in Hw as [H1 H2]. apply stat_no_true in H1, H2. rewrite H1, H2. by destruct (v =? 0).
Qed.

Lemma issue_cmd_tot p q cmd arg d b :
  quiescent p = true -> 0 <= cmd < 2 ^ 32 -> 0 <= arg < 2 ^ 32 -> sd_next c nsect p cmd arg = Some q ->
  tot (on (st p) d b) (issue_cmd fuel cmd arg)
    (fun _ => on (fun h => exists rs, sd_resp c p cmd rs /\
      soon OMAP_HSMMC_STAT cmd_waiting (fun v h => stat_no ERRI_MASK v = true /\ ended rs q h) polls h) d b).
Proof.
  intros Hq Hc Ha Hn. unfold issue_cmd. wait_step p lines_free. do 2 conf_step.
  eapply tot_bind; [apply (wr_tot _ (armed p arg)); intros h Hh; rewrite wrapu_small by done; by apply arg_out|cbv beta; intros ?].
  apply wr_tot. intros h Hh. rewrite wrapu_small by done.
  destruct (cmd_out p q arg cmd h Hh Hn) as (h' & rs & Hr & Hrs & Hso). eauto.
Qed.

(** A command that the card takes in its phase. *)
Lemma mmc_send_cmd_tot p q cmd arg resp d b :
  quiescent p = true -> 0 <= cmd < 2 ^ 32 -> 0 <= arg < 2 ^ 32 -> sd_next c nsect p cmd arg = Some q ->
  tot (on (st p) d b) (mmc_send_cmd fuel cmd arg resp)
    (fun er s => exists rs, sd_resp c p cmd rs /\ er = (1, answer cmd rs resp) /\ on (st q) d b s).
Proof.
  intros Hq Hc Ha Hn. eapply tot_bind; [by apply (issue_cmd_tot p q)|cbv beta; intros ?].
  intros s ((rs & Hrs & Hso) & Hs). pose proof Hrs as (Hl & Hf & _).
  destruct (cmd_loop_tot cmd rs q resp d b polls fuel ltac:(lia) Hl Hf s) as (er & s' & Hr & E & Hs'); [by split|].
  exists er, s'. split; [done|]. by exists rs.
Qed.

Lemma cmd_step {A} p q cmd arg resp d b (k : Z * list Z -> M (mmc_state H) A) R :
  quiescent p = true -> 0 <= cmd < 2 ^ 32 -> 0 <= arg < 2 ^ 32 -> sd_next c nsect p cmd arg = Some q ->
  (forall rs, sd_resp c p cmd rs -> tot (on (st q) d b) (k (1, answer cmd rs resp)) R) ->
  tot (on (st p) d b) (mbind (mmc_send_cmd fuel cmd arg resp) k) R.
Proof.
  intros Hq Hc Ha Hn Hk. eapply tot_bind; [by apply (mmc_send_cmd_tot p q)|].
  intros er s (rs & Hrs & -> & Hs). by apply (Hk rs Hrs).
Qed.

(** ** Data *)
Lemma read_words_tot i n k d b :
  (k + n <= 128)%nat -> 0 <= i < nsect ->
  tot (on (st (SdFifo i k)) d b) (read_words n)
    (fun ws s => ws = sector_word (sector i) <$> seq k n /\ on (st (SdFifo i (k + n))) d b s).
Proof.
  intros Hk Hi. revert k Hk. induction n as [|n IH]; intros k Hk.
  { apply tot_ret. intros s Hs. by rewrite Nat.add_0_r. }
  cbn [read_words seq fmap list_fmap].
  eapply (tot_bind_eq _ (on (st (SdFifo i (S k))) d b) _ (sector_word (sector i) k)).
  - eapply tot_conseq; [apply (rd_tot (st (SdFifo i k)) (fun v h => v = sector_word (sector i) k /\ st (SdFifo i (S k)) h) _ d b)|done|].
    + intros h Hh. destruct (fifo_data i k h Hh ltac:(lia)) as (h' & Hr & Hh'). exists (sector_word (sector i) k), h'.
      split; [done|]. split; [|done]. unfold sector_word, field. destruct (slot_sector i Hi) as [Hl Hb].
      replace (2 ^ 32) with (2 ^ (8 * zlen (slice (4 * Z.of_nat k) 4 (sector i)))) by (rewrite zlen_slice; [done|lia|lia|lia]).
      apply le_val_range. by apply slice_bytes.
    + intros v s ((-> & Hr) & Hs). split; [done|by split].
  - eapply tot_bind_eq; [apply IH; lia|]. apply tot_ret. intros s Hs. by rewrite Nat.add_succ_r.
Qed.

Lemma stat_set mask v : 0 <= v < 2 ^ 32 -> 0 < mask < 2 ^ 32 -> stat_no mask (u32 (Z.lor v mask)) = false.
Proof.
  intros Hv Hm. rewrite wrapu_small by (apply lor_range; lia). unfold stat_no, truthy.
  rewrite Z.land_lor_distr_l, Z.land_diag. destruct (Z.eqb_spec (Z.lor (Z.land v mask) mask) 0) as [E|]; [|done].
  apply Z.lor_eq_0_iff in E. lia.
Qed.

Lemma stat_other mask bit v :
  0 <= v < 2 ^ 32 -> 0 <= bit < 2 ^ 32 -> Z.land bit mask = 0 -> stat_no mask v = true -> stat_no mask (u32 (Z.lor v bit)) = true.
Proof.
  intros Hv Hb Hm Hs. rewrite wrapu_small by (apply lor_range; lia). unfold stat_no in *.
  by rewrite Z.land_lor_distr_l, Hm, Z.lor_0_r.
Qed.

(** The end of a transfer. *)
Lemma data_end_tot acc d b n f :
  (n < f)%nat ->
  tot (on (soon OMAP_HSMMC_STAT data_waiting (fun v h => stat_no ERRI_MASK v = true /\ stat_no BRR_MASK v = true /\
      stat_no BWR_MASK v = true /\ st SdDone h) n) d b)
    (data_loop f acc) (fun r s => r = (1, acc) /\ on (st SdTran) d b s).
Proof.
  intros Hf. revert f Hf. induction n as [|n IH]; intros [|f] Hf s (Hx & Hs); try lia;
    inversion Hx as [? ? v h' Hr Hv Hw Hy|? ? v h' Hr Hv Hw Hy]; subst.
  1, 2: destruct Hy as (He & Hb & Hbw & Hd); unfold data_waiting in Hw; rewrite He, Hb, Hbw in Hw; cbn [andb] in Hw;
    apply stat_no_false in Hw; apply stat_no_true in He, Hb, Hbw;
    destruct (done_stat h' Hd) as (w & h2 & Hr2 & Hw2 & Hd2);
    destruct (done_ack (u32 (Z.lor w TC_MASK)) h2 Hd2) as (h3 & Hr3 & Hd3); [by apply stat_set|];
    exists (1, acc), (set_host h3 s); split; [|done]; cbn [data_loop]; eapply runs_bind; [by apply rd_run|]; cbv beta;
    rewrite He, Hw, Hb, Hbw; destruct (Z.eqb_spec v 0) as [->|]; [by rewrite Z.land_0_l in Hw|];
    eapply runs_bind; [apply runs_ret|]; cbv beta; eapply runs_bind; [apply runs_ret|]; cbv beta;
    eapply runs_bind; [|apply runs_ret]; unfold set_bits; eapply runs_bind; [by apply rd_run|];
    exact (wr_run OMAP_HSMMC_STAT (set_host h2 (set_host h' s)) _ h3 Hr3).
  destruct (IH f ltac:(lia) (set_host h' s)) as (er & s' & Hr' & Hs'); [by split|].
  exists er, s'. split; [|done]. cbn [data_loop]. eapply runs_bind; [by apply rd_run|]. cbv beta.
  unfold data_waiting in Hw. apply andb_prop in Hw as [Hw H4]. apply andb_prop in Hw as [Hw H3]. apply andb_prop in Hw as [H1 H2].
  apply stat_no_true in H1, H2, H3, H4. rewrite H1, H2, H3, H4. by destruct (v =? 0).
Qed.

Definition sector_words (i : Z) : list Z := sector_word (sector i) <$> seq 0 128.

(** Acknowledging that the buffer is full, and emptying it. *)
Lemma drain_tot i acc d b :
  0 <= i < nsect ->
  tot (on (st (SdFifo i 0)) d b)
    (do! set_bits OMAP_HSMMC_STAT BRR_MASK in let! ws := read_words (Z.to_nat (MMCSD_SECTOR_SIZE / 4)) in mret (acc ++ ws))
    (fun r s => r = acc ++ sector_words i /\ on (st (SdFifo i 128)) d b s).
Proof.
  intros Hi. eapply (tot_bind _ _ (fun _ => on (st (SdFifo i 0)) d b)).
  - eapply (tot_bind _ _ (fun v => on (fun h => 0 <= v < 2 ^ 32 /\ stat_no TC_MASK v = true /\ st (SdFifo i 0) h) d b)).
    + apply (rd_tot _ (fun v h => 0 <= v < 2 ^ 32 /\ stat_no TC_MASK v = true /\ st (SdFifo i 0) h)). intros h Hh.
      destruct (fifo_stat i h Hh) as (v & h' & Hr & Hv & Ht & Hh'). by exists v, h'.
    + intros v. apply (wr_tot _ (st (SdFifo i 0))). intros h (Hv & Ht & Hh). apply fifo_ack; [done|]. by apply stat_other.
  - cbv beta. intros ?. eapply tot_bind_eq; [apply (read_words_tot i 128 0); [lia|done]|]. by apply tot_ret.
Qed.

Lemma data_loop_tot i acc d b n f :
  (n + polls + 2 <= f)%nat -> 0 <= i < nsect ->
  tot (on (soon OMAP_HSMMC_STAT data_waiting (fun v h => stat_no ERRI_MASK v = true /\ stat_no BRR_MASK v = false /\
      stat_no BWR_MASK v = true /\ stat_no TC_MASK v = true /\ st (SdFifo i 0) h) n) d b)
    (data_loop f acc) (fun r s => r = (1, acc ++ sector_words i) /\ on (st SdTran) d b s).
Proof.
  intros Hf Hi. revert f Hf. induction n as [|n IH]; intros [|f] Hf s (Hx & Hs); try lia;
    inversion Hx as [? ? v h' Hr Hv Hw Hy|? ? v h' Hr Hv Hw Hy]; subst.
  1, 2: destruct Hy as (He & Hb & Hbw & Ht & Hd);
    destruct (drain_tot i acc d b Hi (set_host h' s)) as (r & s1 & Hr1 & -> & Hs1); [by split|];
    destruct (data_end_tot (acc ++ sector_words i) d b polls f ltac:(lia) s1) as (r2 & s2 & Hr2 & Hs2);
    [eapply on_impl; [exact Hs1|]; intros h; apply fifo_done|];
    exists r2, s2; split; [|done]; cbn [data_loop]; eapply runs_bind; [by apply rd_run|]; cbv beta;
    apply stat_no_false in Hb; apply stat_no_true in He, Hbw, Ht;
    rewrite He, Hb, Hbw, Ht; destruct (Z.eqb_spec v 0) as [->|]; [by rewrite Z.land_0_l in Hb|];
    eapply runs_bind; [exact Hr1|]; cbv beta; eapply runs_bind; [apply runs_ret|exact Hr2].
  destruct (IH f ltac:(lia) (set_host h' s)) as (er & s' & Hr' & Hs'); [by split|].
  exists er, s'. split; [|done]. cbn [data_loop]. eapply runs_bind; [by apply rd_run|]. cbv beta.
  unfold data_waiting in Hw. apply andb_prop in Hw as [Hw H4]. apply andb_prop in Hw as [Hw H3]. apply andb_prop in Hw as [H1 H2].
  apply stat_no_true in H1, H2, H3, H4. rewrite H1, H2, H3, H4. by destruct (v =? 0).
Qed.

Lemma mmc_read_data_tot i d b :
  0 <= i < nsect ->
  tot (on (st (SdData i)) d b) (mmc_read_data fuel) (fun r s => r = (1, sector_words i) /\ on (st SdTran) d b s).
Proof.
  intros Hi. eapply tot_conseq; [apply (data_loop_tot i [] d b polls fuel); [lia|done]| |done].
  intros s Hs. eapply on_impl; [exact Hs|]. intros h. apply data_ready.
Qed.

(** ** Sectors *)
Definition sd_mode : Z := if sd_ccs c then SECTOR_MODE else BYTE_MODE.
Definition sd_address (i : Z) : Z := if sd_ccs c then i else i * 512.

Lemma read_next i : 0 <= i < nsect -> sd_next c nsect SdTran MMC_CMD17 (sd_address i) = Some (SdData i).
Proof.
  intros Hi. unfold sd_next, sd_address. change (MMC_CMD17 =? MMC_CMD0) with false. change (MMC_CMD17 =? MMC_CMD16) with false.
  change (MMC_CMD17 =? MMC_CMD17) with true. cbn [andb]. cbv zeta.
  destruct (sd_ccs c); cbn [orb]; [|rewrite Z.mod_mul, Z.div_mul by done; cbn [Z.eqb andb]];
    by rewrite (proj2 (Z.leb_le 0 i)), (proj2 (Z.ltb_lt i nsect)) by lia.
Qed.

Lemma sect_loop_tot n i resp pos out d b :
  nsect < 2 ^ 23 -> 0 <= i -> i + Z.of_nat n <= nsect -> length out = pos ->
  tot (on (st SdTran) d b)
    (sect_loop fuel n (sd_address i) (if sd_ccs c then 1 else MMCSD_SECTOR_SIZE) resp pos out)
    (fun r s => r = (1, out ++ concat (sector_words <$> zseq i n)) /\ on (st SdTran) d b s).
Proof.
  intros Hn. revert i resp pos out. induction n as [|n IH]; intros i resp pos out Hi Hin Hp.
  { apply tot_ret. intros s Hs. by rewrite app_nil_r. }
  assert (0 <= sd_address i < 2 ^ 32) as Ha by (unfold sd_address; destruct (sd_ccs c); lia).
  cbn [sect_loop zseq fmap list_fmap concat].
  apply (cmd_step SdTran (SdData i)); [done|done|done|apply read_next; lia|]. intros rs _. cbn [negb Z.eqb Pos.eqb].
  eapply tot_bind_eq; [apply (mmc_read_data_tot i); lia|]. cbv beta match.
  unfold store_words. rewrite Hp, Nat.ltb_irrefl.
  eapply (tot_bind_eq _ (on (st SdTran) d b) _ (out ++ sector_words i)).
  { apply tot_ret. intros s0 Hs0. rewrite <- Hp, take_ge, drop_ge by lia. by rewrite app_nil_r. }
  cbn [negb Z.eqb Pos.eqb].
  replace (u32 _) with (sd_address (i + 1)).
  - rewrite app_assoc. apply IH; [lia|lia|]. rewrite length_app. unfold sector_words.
    rewrite length_fmap, length_seq, Hp. done.
  - unfold sd_address. destruct (sd_ccs c); rewrite wrapu_small; unfold MMCSD_SECTOR_SIZE; lia.
Qed.

Lemma bytes_of_words i : 0 <= i < nsect -> concat (le_bytes 4 <$> sector_words i) = sector i.
Proof.
  intros Hi. destruct (slot_sector i Hi) as [Hl Hb]. apply (words_bytes 128 0 [] (sector i)); [done| |done].
  unfold zlen in Hl. lia.
Qed.

Lemma bytes_of_sectors n i :
  0 <= i -> i + Z.of_nat n <= nsect -> concat (le_bytes 4 <$> concat (sector_words <$> zseq i n)) = sectors sector i n.
Proof.
  revert i. induction n as [|n IH]; intros i Hi Hn; [done|]. unfold sectors in *. cbn [zseq fmap list_fmap concat].
  rewrite fmap_app, concat_app, bytes_of_words, IH by lia. done.
Qed.

Lemma mmc_bread_tot d b i n :
  nsect < 2 ^ 23 -> mode d = sd_mode -> 0 <= i -> i + Z.of_nat n <= nsect ->
  tot (on (st SdTran) d b) (mmc_bread fuel i (Z.of_nat n))
    (fun r s => r = (1, sectors sector i n) /\ on (st SdTran) d b s).
Proof.
  intros Hs Hm Hi Hn. unfold mmc_bread, omap_mmc_read_sect. cbv zeta. unfold MMCSD_SECTOR_SIZE.
  rewrite (wrapu_small 32 (Z.of_nat n * 512)) by lia. rewrite wrapu_small by lia.
  replace ((Z.of_nat n * 512 + (512 - 1)) / 512) with (Z.of_nat n) by divmod.
  destruct (Z.eqb_spec (Z.of_nat n) 0) as [E|_].
  { eapply (tot_bind_eq _ (on (st SdTran) d b) _ (1, [])); [by apply tot_ret|]. apply tot_ret.
    intros s Hs'. by replace n with 0%nat by lia. }
  eapply (tot_bind_eq _ (on (st SdTran) d b) _ (1, concat (sector_words <$> zseq i n))).
  - eapply tot_bind_eq; [apply (tot_gets _ _ d); by intros s (_ & Hd & _)|]. cbv beta.
    replace (if mode d =? SECTOR_MODE then _ else _) with (sd_address i, if sd_ccs c then 1 else 512).
    + rewrite Nat2Z.id. by apply (sect_loop_tot n i [0; 0; 0; 0] 0 []).
    + rewrite Hm. unfold sd_mode, sd_address. destruct (sd_ccs c); [done|].
      change (BYTE_MODE =? SECTOR_MODE) with false. cbv match. by rewrite wrapu_small by lia.
  - apply tot_ret. intros s Hs'. by rewrite bytes_of_sectors by lia.
Qed.

(** The driver is the block device that the file system expects. *)
Lemma mmc_disk_laws d b :
  nsect < 2 ^ 23 -> mode d = sd_mode -> DiskLaws (H := mmc_block_device fuel) (on (st SdTran) d b) nsect sector.
Proof.
  intros Hs Hm. split; [apply slot_sector|]. intros s i n Hst Hi Hn.
  destruct (mmc_bread_tot d b i n Hs Hm Hi Hn s Hst) as (r & s' & Hr & -> & Hst'). by exists s'.
Qed.

(** ** Identification *)
Record sd_card_ok : Prop := {
  ok_rca : 0 <= sd_rca c < 2 ^ 16;
  ok_window : 0 <= sd_window c < 2 ^ 24;
  ok_voltage : Z.land (sd_window c) (Z.shiftl 0x1FF 15) <> 0;
  ok_busy : (sd_busy c <= 2000)%nat;
  ok_rate : rate_of (csd_tran_speed (sd_csd c)) <> None;
  ok_size : if sd_ccs c then 0 < sd2_c_size (sd_csd c)
            else csd_read_bl_len (sd_csd c) < 12 /\ 512 <= csd_bytes (sd_csd c) < 2 ^ 32;
}.
Context (Hcard : sd_card_ok).

Definition ocr_sent : Z := Z.lor (Z.shiftl 0x1FF 15) MMC_OCR_REG_HOST_CAPACITY_SUPPORT_SECTOR.
Definition ocr_final : Z := Z.lor (sd_window c) (Z.lor (Z.shiftl (b2z (sd_ccs c)) 30) (Z.shiftl 1 31)).

Lemma voltage_common : truthy (Z.land (sd_window c) ocr_sent) = true.
Proof.
  unfold truthy, ocr_sent. rewrite Z.land_lor_distr_r. match goal with |- negb (?x =? 0) = true => destruct (Z.eqb_spec x 0) as [E|]; [|done] end.
  apply Z.lor_eq_0_iff in E as [E _]. by destruct (ok_voltage Hcard).
Qed.

Lemma next_acmd41 n :
  sd_next c nsect (SdApp n) MMC_ACMD41 ocr_sent = Some (match n with O => SdReady | S n => SdIdle n end).
Proof.
  unfold sd_next. change ((MMC_ACMD41 =? MMC_CMD0) && _) with false. change (MMC_ACMD41 =? MMC_ACMD41) with true. cbn [andb].
  rewrite Z.land_comm, voltage_common. by destruct (sd_ccs c).
Qed.

Lemma modify_card_tot (X : H -> Prop) f d b : tot (on X d b) (modify_card f) (fun _ => on X (f d) b).
Proof. intros s (Hx & <- & <-). eexists _, _. split; [apply runs_modify|done]. Qed.

Lemma card_type_tot (X : H -> Prop) t d b :
  tot (on X d b) (card_type_is t) (fun x s => x = (card_type d =? t) /\ on X d b s).
Proof. apply tot_gets. by intros s (_ & -> & _). Qed.

Lemma ocr_loop_tot n retry r0 resp d b :
  card_type d = SD_CARD -> (n < retry)%nat -> Z.testbit r0 31 = false ->
  tot (on (st (SdIdle n)) d b) (ocr_loop fuel retry MMC_ACMD41 ocr_sent r0 resp)
    (fun r s => r = inr ocr_final /\ on (st SdReady) d b s).
Proof.
  intros Ht. revert n r0 resp. induction retry as [|retry IH]; intros n r0 resp Hn Hr0; [lia|].
  cbn [ocr_loop]. change (Z.shiftl 1 31) with (2 ^ 31). rewrite truthy_land_pow2, Hr0 by done.
  eapply tot_bind_eq; [apply card_type_tot|]. rewrite Ht. cbn [Z.eqb SD_CARD Pos.eqb].
  apply (cmd_step (SdIdle n) (SdApp n)); [done|done|done|done|]. intros rs _.
  apply (cmd_step (SdApp n) (match n with O => SdReady | S n => SdIdle n end)); [done|done|done|apply next_acmd41|].
  intros rs' (_ & _ & Hrs). cbn [negb Z.eqb Pos.eqb nth answer].
  change (nth 0 (answer MMC_ACMD41 rs' (answer MMC_CMD55 rs resp)) 0) with (nth 0 rs' 0). destruct n as [|n].
  - assert (truthy (Z.land (nth 0 rs' 0) (Z.shiftl 1 31)) = true) as E by (rewrite Hrs; apply ocr_ready).
    destruct retry; cbn [ocr_loop]; rewrite E; apply tot_ret; intros s Hs; by rewrite Hrs.
  - apply IH; [lia|done].
Qed.

Lemma mmc_identify_tot d b resp :
  card_type d = SD_CARD ->
  tot (on (st SdReady) d b) (mmc_identify fuel ocr_sent resp) (fun r s => r = 1 /\ on (st SdStby) (set_RCA (sd_rca c) d) b s).
Proof.
  intros Ht. unfold mmc_identify. apply (cmd_step SdReady SdIdent); [done|done|done|done|]. intros rs _.
  cbn [negb Z.eqb Pos.eqb]. eapply tot_bind_eq; [apply card_type_tot|]. rewrite Ht. change (SD_CARD =? MMC_CARD) with false.
  eapply (tot_bind_eq _ (on (st SdStby) (set_RCA (sd_rca c) d) b) _ 1).
  - apply (cmd_step SdIdent SdStby); [done|done|done|done|]. intros rs' (_ & _ & Hr). cbn [negb Z.eqb Pos.eqb].
    change (nth 0 (answer MMC_SDCMD3 rs' _) 0) with (nth 0 rs' 0). rewrite Hr.
    eapply tot_bind; [apply modify_card_tot|cbv beta; intros ?]. by apply tot_ret.
  - cbn [negb Z.eqb Pos.eqb]. do 2 conf_step. by apply tot_ret.
Qed.

(** The data of the card after identification. *)
Definition found_card (d : mmc_card_data) : mmc_card_data :=
  mk_card SD_CARD (version d) sd_mode (size d) (sd_rca c).

Lemma card_mode_final : card_mode false ocr_final = (sd_mode, Z.land ocr_final (Z.lnot (Z.shiftl 1 30))).
Proof.
  unfold card_mode, MMC_OCR_REG_HOST_CAPACITY_SUPPORT_MASK, MMC_OCR_REG_HOST_CAPACITY_SUPPORT_SECTOR. f_equal.
  unfold ocr_final. rewrite ocr_ccs by apply (ok_window Hcard). unfold sd_mode. by destruct (sd_ccs c).
Qed.

Lemma mmc_detect_card_tot d b :
  tot (on (st SdOff) d b) (mmc_detect_card fuel) (fun r s => r = 1 /\ on (st SdStby) (found_card d) b s).
Proof.
  unfold mmc_detect_card. eapply tot_bind_eq; [apply mmc_clock_config_tot; [done|by right; left]|]. cbn [negb Z.eqb Pos.eqb].
  eapply tot_bind; [apply modify_card_tot|cbv beta zeta; intros ?].
  apply (cmd_step SdOff (SdIdle (sd_busy c))); [done|done|done|done|]. intros rs0 _. cbn [negb Z.eqb Pos.eqb].
  apply (cmd_step (SdIdle (sd_busy c)) (SdIdle (sd_busy c))); [done|done|done|done|]. intros rs1 _. cbv zeta.
  apply (cmd_step (SdIdle (sd_busy c)) (SdApp (sd_busy c))); [done|done|done|done|]. intros rs2 _.
  change (1 =? 1) with true. cbv match. fold ocr_sent.
  eapply tot_bind; [apply modify_card_tot|cbv beta; intros ?].
  apply (cmd_step (SdApp (sd_busy c)) (match sd_busy c with O => SdReady | S n => SdIdle n end));
    [done|done|done|apply next_acmd41|]. intros rs3 (_ & _ & Hrs). change (negb (1 =? 1)) with false. cbv match.
  change (nth 0 (answer MMC_ACMD41 rs3 _) 0) with (nth 0 rs3 0).
  set (resp := answer MMC_ACMD41 rs3 _). set (d1 := set_type SD_CARD (set_RCA MMC_RELATIVE_CARD_ADDRESS d)).
  eapply (tot_bind_eq _ (on (st SdReady) d1 b) _ (inr ocr_final)).
  { pose proof (ok_busy Hcard) as Hn. destruct (sd_busy c) as [|n]; [|by apply ocr_loop_tot].
    cbn [ocr_loop]. rewrite Hrs, ocr_ready. by apply tot_ret. }
  cbv match. unfold ocr_final at 1. rewrite ocr_ready. cbn [negb].
  eapply tot_bind_eq; [apply card_type_tot|]. change (card_type d1 =? MMC_CARD) with false. rewrite card_mode_final. cbv match.
  eapply tot_bind; [apply modify_card_tot|cbv beta zeta; intros ?].
  unfold ocr_final. rewrite ocr_window, voltage_common by apply (ok_window Hcard). cbn [negb].
  by apply (mmc_identify_tot (set_mode sd_mode d1)).
Qed.

(** ** Setting up *)
Definition sd_sectors : Z :=
  if sd_ccs c then sd2_c_size (sd_csd c) * 1024 else csd_bytes (sd_csd c) / 512.

Lemma mmc_read_cardsize_tot (X : H -> Prop) d b :
  card_type d = SD_CARD -> mode d = sd_mode ->
  tot (on X d b) (mmc_read_cardsize fuel (sd_csd c)) (fun r s => r = 1 /\ on X (set_size sd_sectors d) b s).
Proof.
  intros Ht Hm s (Hx & Hd & Hb). pose proof (ok_size Hcard) as Hs. unfold sd_mode, sd_sectors in *. destruct (sd_ccs c).
  - pose proof (cardsize_high fuel (sd_csd c) s) as Hr. rewrite Hd in Hr. rewrite (proj2 (Z.eqb_neq _ 0)) in Hr by lia.
    eexists _, _. split; [by apply Hr|done].
  - pose proof (cardsize_standard fuel (sd_csd c) s) as Hr. rewrite Hd, Hm in Hr.
    rewrite (proj2 (Z.leb_gt 12 _)) in Hr by lia. rewrite wrapu_small in Hr by lia.
    rewrite (proj2 (Z.eqb_neq (csd_bytes (sd_csd c) / 512) 0)) in Hr by divmod.
    eexists _, _. split; [by apply Hr|done].
Qed.

(** The data of the card after it has been set up. *)
Definition ready_card (d : mmc_card_data) : mmc_card_data :=
  mk_card SD_CARD (version d) sd_mode sd_sectors (sd_rca c).

Lemma select_card_tot d b resp :
  tot (on (st SdStby) (found_card d) b) (select_card fuel (sd_csd c) resp)
    (fun r s => r = 1 /\ on (st SdTran) (ready_card d) b s).
Proof.
  unfold select_card. eapply tot_bind_eq; [apply (tot_gets _ _ (found_card d)); by intros s (_ & Hd & _)|].
  cbn [RCA found_card]. pose proof (ok_rca Hcard) as Hr.
  assert (0 <= Z.shiftl (sd_rca c) 16 < 2 ^ 32) as Ha by (rewrite Z.shiftl_mul_pow2; lia).
  rewrite wrapu_small by done. apply (cmd_step SdStby SdTran); [done|done|done| |].
  { unfold sd_next. by rewrite (Z.eqb_refl (Z.shiftl (sd_rca c) 16)). }
  intros rs _. cbn [negb Z.eqb Pos.eqb]. apply (cmd_step SdTran SdTran); [done|done|done|done|]. intros rs' _.
  cbn [negb Z.eqb Pos.eqb]. eapply tot_bind_eq; [by apply mmc_read_cardsize_tot|]. by apply tot_ret.
Qed.

Lemma configure_mmc_tot d b :
  tot (on (st SdOff) d b) (configure_mmc fuel) (fun r s => r = 1 /\ on (st SdTran) (ready_card d) b s).
Proof.
  unfold configure_mmc. eapply tot_bind; [apply mmc_init_setup_tot|cbv beta; intros ?].
  eapply tot_bind_eq; [apply mmc_detect_card_tot|]. cbn [negb Z.eqb Pos.eqb].
  eapply (tot_bind _ _ (fun _ => on (st SdStby) (found_card d) b)); [by apply tot_ret|cbv beta; intros ?].
  eapply tot_bind_eq; [apply (tot_gets _ _ (found_card d)); by intros s (_ & Hd & _)|].
  cbn [RCA card_type found_card]. pose proof (ok_rca Hcard) as Hr.
  assert (0 <= Z.shiftl (sd_rca c) 16 < 2 ^ 32) as Ha by (rewrite Z.shiftl_mul_pow2; lia).
  rewrite wrapu_small by done. apply (cmd_step SdStby SdStby); [done|done|done| |].
  { unfold sd_next. by rewrite (Z.eqb_refl (Z.shiftl (sd_rca c) 16)). }
  intros rs (_ & _ & Hrs). specialize (Hrs eq_refl). change (answer MMC_CMD9 rs _) with rs. rewrite Hrs.
  cbn [negb Z.eqb Pos.eqb SD_CARD MMC_CARD].
  eapply (tot_bind _ _ (fun _ => on (st SdStby) (found_card d) b)); [by apply tot_ret|cbv beta; intros ?].
  apply (cmd_step SdStby SdStby); [done|done|done|done|]. intros rs' _. cbn [negb Z.eqb Pos.eqb].
  destruct (rate_of (csd_tran_speed (sd_csd c))) as [r|] eqn:Er; [|by destruct (ok_rate Hcard)].
  pose proof (csd_field_range (sd_csd c) 96 8 ltac:(done)) as Ht.
  eapply (tot_bind _ _ (fun o s => is_Some o /\ on (st SdStby) (found_card d) b s)).
  { intros s Hs. destruct (speed_dsor_valid _ _ s Ht Er) as (dsor & Hd). by exists (Some dsor), s. }
  intros o. apply tot_pure. intros [dsor ->].
  eapply tot_bind_eq; [apply mmc_clock_config_tot; [done|by right; right]|]. cbn [negb Z.eqb Pos.eqb].
  apply select_card_tot.
Qed.

(** ** The device of the file system *)
Lemma on_dev_tot {A} (m : M (mmc_state H) A) P Q (s : fatfs (mmc_state H)) :
  tot P m Q -> P (f_dev s) -> exists a d, runs (on_dev m) s a (set_dev d s) /\ Q a d.
Proof.
  intros Hm Hs. destruct (Hm _ Hs) as (a & d & Hr & Hq). exists a, d. split; [|done].
  unfold runs, on_dev. by rewrite Hr.
Qed.

Definition blk_dev_ready : block_dev_desc := mk_block_dev IF_TYPE_MMC PART_TYPE_DOS 0 0 0 MMCSD_SECTOR_SIZE 0x10000 0 true.

Lemma mmc_init_run (s : fatfs (mmc_state H)) :
  st SdOff (m_host (f_dev s)) -> 1 <= nsect < 2 ^ 23 -> boot_signed (sector 0) ->
  exists d, runs (mmc_init fuel 1) s 1 (set_part true (part_start (sector 0)) (set_dev d s)) /\
    on (st SdTran) (ready_card (cur_card_data (f_dev s))) blk_dev_ready d.
Proof.
  intros Hst Hn Hb. set (c0 := cur_card_data (f_dev s)).
  destruct (on_dev_tot (configure_mmc fuel) _ _ s (configure_mmc_tot c0 (mmc_blk_dev (f_dev s)))) as (r & d1 & Hr1 & -> & (S1 & C1 & _));
    [done|].
  set (d2 := set_blk_dev blk_dev_ready d1).
  destruct (fat_register_device_ok (H := mmc_block_device fuel) (on (st SdTran) (ready_card c0) blk_dev_ready) nsect sector
    (DiskLaws0 := mmc_disk_laws (ready_card c0) blk_dev_ready ltac:(lia) eq_refl) (set_dev d2 (set_dev d1 s)) 1)
    as (d3 & Hd3 & Hr3); [done|lia|done|].
  exists d3. split; [|done]. unfold mmc_init. eapply runs_bind; [exact Hr1|]. cbn [Z.eqb].
  apply (runs_bind _ _ _ tt (set_dev d2 (set_dev d1 s))); [done|]. cbv beta. eapply runs_bind; [exact Hr3|]. apply runs_ret.
Qed.

End correctness.

(** Errors that read as success.  When the first status after a command has the
error flag, [mmc_send_cmd] returns the low byte of the status and leaves the
response words as they were.  An error status with only the command-complete flag
in its low byte therefore comes back as 1, which every caller takes for success. *)
Lemma mmc_send_cmd_error_as_success {H} `{MmcHost H} fuel cmd arg resp (s s1 : mmc_state H) v h :
  runs (issue_cmd (S fuel) cmd arg) s tt s1 -> runs (mmc_in OMAP_HSMMC_STAT) (m_host s1) v h ->
  0 <= v < 2 ^ 32 -> Z.testbit v 15 = true -> v mod 256 = 1 ->
  runs (mmc_send_cmd (S fuel) cmd arg resp) s (1, resp) (set_host h s1).
Proof.
  intros Hi Hr Hv He Hm. unfold mmc_send_cmd. eapply runs_bind; [exact Hi|]. cbn [cmd_loop].
  eapply runs_bind; [by apply rd_run|]. cbv beta. destruct (Z.eqb_spec v 0) as [->|_]; [done|].
  change ERRI_MASK with (2 ^ 15). rewrite truthy_land_pow2, He by done. cbv match.
  unfold wrapu. change (2 ^ 8) with 256. rewrite Hm. apply runs_ret.
Qed.
