(* ===== verification/XBoot.v ===== *)
(** * The boot of the board

The boot loader's way from the start of C code to the jump into U-Boot:
[nand_init], [get_mem_type] and [mmc_boot] of [src/x-loader/board/rhino/rhino.c]
and [start_armboot] of [src/x-loader/lib/board.c].  It composes the NAND driver
([Xnand]), the FAT reader ([Fat]) and the MMC driver ([Mmc]) over one memory. *)
From stdpp Require Import base list.
From S2P Require Import Prelude Bits HwEcc Xnand Fat Mmc.
From Stdlib Require Import ZArith Lia.

(** ** Constants *)
Definition GPMC_NAND : Z := 1.
Definition MMC_NAND : Z := 4.
Definition MMC_ONENAND : Z := 5.
Definition SYSBOOT_MASK : Z := 0x1f.
Definition GPMC_SYSCONFIG : Z := OMAP34XX_GPMC_BASE + 0x10.
Definition GPMC_IRQENABLE : Z := OMAP34XX_GPMC_BASE + 0x1C.
Definition GPMC_TIMEOUT_CONTROL : Z := OMAP34XX_GPMC_BASE + 0x40.
Definition GPMC_CONFIG_CS0 : Z := OMAP34XX_GPMC_BASE + 0x60.
Definition M_NAND_GPMC_CONFIG1 : Z := 0x00001800.
Definition M_NAND_GPMC_CONFIG2 : Z := 0x00080800.
Definition M_NAND_GPMC_CONFIG3 : Z := 0x00080800.
Definition M_NAND_GPMC_CONFIG4 : Z := 0x06000600.
Definition M_NAND_GPMC_CONFIG5 : Z := 0x00070808.
Definition M_NAND_GPMC_CONFIG6 : Z := 0x000003cf.
Definition NAND_BASE_ADR : Z := 0x30000000.
Definition OMAP34XX_GPMC_CS0_SIZE : Z := 0x8.
Definition TEST_SIZE : Z := 16777216.
(** ["u-boot.bin"] *)
Definition uboot_bin : list Z := [117; 45; 98; 111; 111; 116; 46; 98; 105; 110].

Inductive boot_line : Type :=
| Testing
| TestFailed
| TestPassed
| UnsupportedChip
| StartingMmc
| MmcInitFailed
| MmcRead (size : Z)
| MmcStarting
| BootingNand
| StartingUBoot.

(** ** The board: memory from [CFG_LOADADDR] on, the MMC slot with the file system
reader, the bus of the flash, the value of the boot pins and the console *)
Record board (H : Type) : Type := mk_board {
  bd_mem : list Z;
  bd_mmc : fatfs (mmc_state H);
  bd_bus : list bus_event;
  bd_ddr : Z;
  bd_status : Z;
  bd_out : list boot_line;
}.
Arguments mk_board {H}.
Arguments bd_mem {H}.
Arguments bd_mmc {H}.
Arguments bd_bus {H}.
Arguments bd_ddr {H}.
Arguments bd_status {H}.
Arguments bd_out {H}.

Section boot.
Context {H : Type} `{MmcHost H} `{Flash}.
Abbreviation BM := (M (board H)).

Definition set_bd_mem (m : list Z) (b : board H) : board H :=
  mk_board m (bd_mmc b) (bd_bus b) (bd_ddr b) (bd_status b) (bd_out b).

Definition say (l : boot_line) : BM unit :=
  mmodify (fun b => mk_board (bd_mem b) (bd_mmc b) (bd_bus b) (bd_ddr b) (bd_status b) (bd_out b ++ [l])).

(** The drivers share the memory. *)
Definition on_mmc {A} (m : M (fatfs (mmc_state H)) A) : BM A := fun b =>
  match m (set_mem (bd_mem b) (bd_mmc b)) with
  | Ok (a, s) => Ok (a, mk_board (f_mem s) s (bd_bus b) (bd_ddr b) (bd_status b) (bd_out b))
  | Fault f => Fault f
  end.

Definition on_nand {A} (m : M xstate A) : BM A := fun b =>
  match m (mk_xstate (bd_bus b) (bd_mem b) (bd_ddr b)) with
  | Ok (a, x) => Ok (a, mk_board (dram x) (bd_mmc b) (bus x) (is_ddr_166M x) (bd_status b) (bd_out b))
  | Fault f => Fault f
  end.

(** ** The boot pins *)
Definition get_sysboot_value : BM Z := mgets (fun b => Z.land (bd_status b) SYSBOOT_MASK).

Definition get_mem_type : BM Z :=
  let! mem_type := get_sysboot_value in
  mret (if mem_type =? 1 then GPMC_NAND else if mem_type =? 9 then MMC_NAND else GPMC_NAND).

(** ** The flash interface *)

(** The part for OneNAND is left out: [get_mem_type] never returns its types. *)
Definition nand_init (fuel : nat) : BM Z :=
  do! on_nand (raw_writel 0x10 GPMC_SYSCONFIG) in
  do! on_nand (raw_writel 0x0 GPMC_IRQENABLE) in
  do! on_nand (raw_writel 0 GPMC_TIMEOUT_CONTROL) in
  do! on_nand (raw_writel 0 (0x18 + GPMC_CONFIG_CS0)) in
  let! t := get_mem_type in
  do! (if t =? GPMC_NAND then
         do! on_nand (raw_writel (Z.lor ECCCLEAR ECCRESULTREG1) GPMC_ECC_CONTROL) in
         on_nand (raw_writel (Z.lor (Z.lor ECCSIZE1 ECCSIZE0) ECCSIZE0SEL) GPMC_ECC_SIZE_CONFIG)
       else mret tt) in
  if (t =? GPMC_NAND) || (t =? MMC_NAND) then
    do! on_nand (raw_writel M_NAND_GPMC_CONFIG1 (0x00 + GPMC_CONFIG_CS0)) in
    do! on_nand (raw_writel M_NAND_GPMC_CONFIG2 (0x04 + GPMC_CONFIG_CS0)) in
    do! on_nand (raw_writel M_NAND_GPMC_CONFIG3 (0x08 + GPMC_CONFIG_CS0)) in
    do! on_nand (raw_writel M_NAND_GPMC_CONFIG4 (0x0C + GPMC_CONFIG_CS0)) in
    do! on_nand (raw_writel M_NAND_GPMC_CONFIG5 (0x10 + GPMC_CONFIG_CS0)) in
    do! on_nand (raw_writel M_NAND_GPMC_CONFIG6 (0x14 + GPMC_CONFIG_CS0)) in
    do! on_nand (raw_writel (Z.lor (Z.lor (Z.shiftl (Z.land OMAP34XX_GPMC_CS0_SIZE 0xF) 8)
          (Z.land (Z.shiftr NAND_BASE_ADR 24) 0x3F)) (Z.shiftl 1 6)) (0x18 + GPMC_CONFIG_CS0)) in
    let! r := on_nand (nand_chip fuel) in
    if truthy r then do! say UnsupportedChip in mret 1 else mret 0
  else mret 0.

(** ** The memory test *)

(** The word at an index, as an [int]. *)
Definition store_int (i v : Z) : BM unit :=
  let! m := mgets bd_mem in
  if 4 * i + 4 <=? zlen m then
    mmodify (set_bd_mem (take (Z.to_nat (4 * i)) m ++ le_bytes 4 v ++ drop (Z.to_nat (4 * i + 4)) m))
  else mfault OutOfBounds.

Definition load_int (i : Z) : BM Z :=
  let! m := mgets bd_mem in
  if 4 * i + 4 <=? zlen m then mret (s32 (field (4 * i) 4 m)) else mfault OutOfBounds.

Fixpoint test_write (n : nat) (i : Z) : BM unit :=
  match n with
  | O => mret tt
  | S n => do! store_int i i in test_write n (i + 1)
  end.

(** [hang] does not return. *)
Fixpoint test_read (n : nat) (i : Z) : BM unit :=
  match n with
  | O => mret tt
  | S n =>
    let! v := load_int i in
    if negb (v =? i) then do! say TestFailed in mfault Hang
    else test_read n (i + 1)
  end.

Definition test_words (n : nat) : BM unit :=
  do! say Testing in
  do! test_write n 0 in
  do! test_read n 0 in
  say TestPassed.

Definition test_dram : BM unit := test_words (Z.to_nat TEST_SIZE).

(** ** Booting from the card *)

(** [buf] is an address; the reader's memory starts at [CFG_LOADADDR]. *)
Definition mmc_boot (fuel ffuel : nat) (buf : Z) : BM Z :=
  do! say StartingMmc in
  let! ret := on_mmc (mmc_init fuel 1) in
  if ret =? 0 then do! say MmcInitFailed in mret 0 else
  let! dev_desc := mgets (fun b => mmc_blk_dev (f_dev (bd_mmc b))) in
  do! on_mmc (fat_register_device (H := mmc_block_device fuel) (has_block_read dev_desc) 1) in
  let! sz := on_mmc (file_fat_read (H := mmc_block_device fuel) ffuel uboot_bin (buf - CFG_LOADADDR) 0) in
  if sz =? -1 then mret 0 else
  do! say (MmcRead sz) in
  do! say MmcStarting in
  mret sz.

(** ** [start_armboot] *)

(** From the choice of the medium to the jump; the result is its address.
[get_mem_type] never returns [GPMC_ONENAND]. *)
Definition boot_medium (fuel ffuel : nat) : BM Z :=
  let! t := get_mem_type in
  let! n := if (t =? MMC_ONENAND) || (t =? MMC_NAND) then mmc_boot fuel ffuel CFG_LOADADDR else mret 0 in
  let buf := u32 (CFG_LOADADDR + n) in
  let! buf :=
    if buf =? CFG_LOADADDR then
      let! t := get_mem_type in
      if t =? GPMC_NAND then do! say BootingNand in on_nand (nand_boot_loop 15 buf NAND_UBOOT_START)
      else mret buf
    else mret buf in
  if buf =? CFG_LOADADDR then mfault Hang else
  do! say StartingUBoot in
  mret CFG_LOADADDR.

(** The other entries of [init_sequence] and [misc_init_r] set up the console or do
nothing, and return 0. *)
Definition start_armboot (fuel ffuel : nat) : BM Z :=
  let! r := nand_init fuel in
  if negb (r =? 0) then mfault Hang else
  do! test_dram in
  boot_medium fuel ffuel.
End boot.

(** * Properties *)

(** ** The memory test *)
Definition pattern (i : Z) (n : nat) : list Z := concat (le_bytes 4 <$> zseq i n).

Lemma zlen_pattern i n : zlen (pattern i n) = 4 * Z.of_nat n.
Proof.
  revert i. induction n as [|n IH]; intros i; [done|]. unfold pattern in *. cbn [zseq fmap list_fmap concat].
  rewrite zlen_app, zlen_le_bytes, IH. lia.
Qed.

Section test.
Context {H : Type}.

Lemma store_int_runs (b : board H) i v pre old post :
  bd_mem b = pre ++ old ++ post -> zlen pre = 4 * i -> zlen old = 4 ->
  runs (store_int i v) b tt (set_bd_mem (pre ++ le_bytes 4 v ++ post) b).
Proof.
  intros Hm Hp Ho. unfold store_int. eapply runs_bind; [apply runs_gets|]. cbv beta. rewrite Hm.
  pose proof (zlen_nonneg post). pose proof (zlen_nonneg pre). rewrite !zlen_app, Hp, Ho, (proj2 (Z.leb_le _ _)) by lia.
  replace (Z.to_nat (4 * i)) with (length pre) by (unfold zlen in Hp; lia).
  replace (Z.to_nat (4 * i + 4)) with (length (pre ++ old)) by (rewrite length_app; unfold zlen in *; lia).
  rewrite take_app_length, (app_assoc pre old post), drop_app_length. apply runs_modify.
Qed.

Lemma test_write_runs n i (b : board H) pre old post :
  bd_mem b = pre ++ old ++ post -> zlen pre = 4 * i -> zlen old = 4 * Z.of_nat n ->
  runs (test_write n i) b tt (set_bd_mem (pre ++ pattern i n ++ post) b).
Proof.
  revert i b pre old. induction n as [|n IH]; intros i b pre old Hm Hp Ho.
  { apply zlen_0_inv in Ho as ->. cbn [test_write]. eapply runs_eq; [apply runs_ret|]. destruct b. cbn in *. by rewrite Hm. }
  destruct (split_at old 4) as (o1 & o2 & -> & Ho1); [lia|]. rewrite zlen_app in Ho. rewrite <- app_assoc in Hm.
  cbn [test_write]. eapply runs_bind; [by apply (store_int_runs b i i pre o1 (o2 ++ post))|]. cbv beta.
  eapply runs_eq; [apply (IH (i + 1) _ (pre ++ le_bytes 4 i) o2)|].
  - cbn [bd_mem set_bd_mem]. by rewrite <- app_assoc.
  - rewrite zlen_app, zlen_le_bytes. lia.
  - lia.
  - unfold set_bd_mem. cbn. f_equal. unfold pattern. cbn [zseq fmap list_fmap concat]. by rewrite <- !app_assoc.
Qed.

Lemma test_read_runs n i (b : board H) pre post :
  bd_mem b = pre ++ pattern i n ++ post -> zlen pre = 4 * i -> 0 <= i -> i + Z.of_nat n <= 2 ^ 31 ->
  runs (test_read n i) b tt b.
Proof.
  revert i pre. induction n as [|n IH]; intros i pre Hm Hp Hi Hn; [apply runs_ret|].
  unfold pattern in Hm. cbn [zseq fmap list_fmap concat] in Hm. fold (pattern (i + 1) n) in Hm. rewrite <- app_assoc in Hm.
  cbn [test_read]. apply (runs_bind _ _ _ i b).
  - unfold load_int. eapply runs_bind; [apply runs_gets|]. cbv beta. rewrite Hm.
    pose proof (zlen_nonneg post). rewrite !zlen_app, Hp, zlen_le_bytes, zlen_pattern, (proj2 (Z.leb_le _ _)) by lia.
    unfold field. rewrite (slice_exact pre (le_bytes 4 i)) by (rewrite ?zlen_le_bytes; lia).
    rewrite le_val_bytes_id by (change (8 * Z.of_nat 4) with 32; lia). rewrite s32_small by lia. apply runs_ret.
  - cbv beta. rewrite Z.eqb_refl. cbn [negb]. apply (IH (i + 1) (pre ++ le_bytes 4 i)); [by rewrite <- app_assoc| |lia|lia].
    rewrite zlen_app, zlen_le_bytes. lia.
Qed.

(** The test passes on memory that keeps what is written, and leaves its pattern. *)
Lemma test_words_runs n (b : board H) :
  4 * Z.of_nat n <= zlen (bd_mem b) -> Z.of_nat n <= 2 ^ 31 ->
  exists mem', zlen mem' = zlen (bd_mem b) /\
    runs (test_words n) b tt (mk_board mem' (bd_mmc b) (bd_bus b) (bd_ddr b) (bd_status b) (bd_out b ++ [Testing; TestPassed])).
Proof.
  intros Hl Hn. destruct (split_at (bd_mem b) (4 * Z.of_nat n)) as (old & post & E & Ho); [lia|].
  exists (pattern 0 n ++ post). split.
  { rewrite E, !zlen_app, zlen_pattern, Ho. done. }
  unfold test_words. eapply runs_bind; [reflexivity|]. cbv beta.
  eapply runs_bind; [apply (test_write_runs n 0 _ [] old post); [done|done|lia]|]. cbv beta.
  eapply runs_bind; [apply (test_read_runs n 0 _ [] post); [done|done|lia|lia]|].
  unfold runs, say, mmodify. cbn. by rewrite <- app_assoc.
Qed.

Lemma test_dram_runs (b : board H) :
  4 * TEST_SIZE <= zlen (bd_mem b) ->
  exists mem', zlen mem' = zlen (bd_mem b) /\
    runs test_dram b tt (mk_board mem' (bd_mmc b) (bd_bus b) (bd_ddr b) (bd_status b) (bd_out b ++ [Testing; TestPassed])).
Proof. intros Hl. apply test_words_runs; rewrite Z2Nat.id by done; [done|]. unfold TEST_SIZE. lia. Qed.
End test.

(** ** The start of the board *)

(** A chip that gets ready after a reset within [polls] reads of its status, and
identifies itself as one of the supported chips of Micron. *)
Class FlashId `{Flash} (polls : nat) : Prop := {
  reset_ready h : exists k, (k <= polls)%nat /\
    Z.land (u8 (u16 (nand_data (h ++ [WrCommand NAND_CMD_RESET; WrCommand NAND_CMD_STATUS] ++ replicate k RdData)))) 0x40 = 0x40;
  read_mfr h : nand_data (h ++ [WrCommand NAND_CMD_READID; WrAddress 0; WrAddress 0]) = MT29F1G_MFR;
  read_id h : nand_data (h ++ [WrCommand NAND_CMD_READID; WrAddress 0; WrAddress 0; RdData])
    ∈ [MT29F1G_ID; MT29F2G16AA_ID; MT29F2G_ID; MT29F4G_ID];
}.

Section start.
Context {H : Type} `{MmcHost H} `{Flash} (fpolls : nat) `{!FlashId fpolls}.

(** All of the board but the flash. *)
Definition rest (m : list Z) (s : fatfs (mmc_state H)) (st : Z) (o : list boot_line) (b : board H) : Prop :=
  bd_mem b = m /\ bd_mmc b = s /\ bd_status b = st /\ bd_out b = o.

Lemma on_nand_run {A} (x : M xstate A) (b : board H) a es ddr :
  runs x (mk_xstate (bd_bus b) (bd_mem b) (bd_ddr b)) a (mk_xstate es (bd_mem b) ddr) ->
  runs (on_nand x) b a (mk_board (bd_mem b) (bd_mmc b) es ddr (bd_status b) (bd_out b)).
Proof. intros Hr. unfold runs, on_nand. by rewrite Hr. Qed.

Lemma writel_tot m s st o v a : tot (rest m s st o) (on_nand (raw_writel v a)) (fun _ => rest m s st o).
Proof. intros b Hb. eexists tt, _. split; [by apply on_nand_run|done]. Qed.

Lemma get_mem_type_tot m s st o :
  tot (rest m s st o) get_mem_type
    (fun t b => t = (if Z.land st SYSBOOT_MASK =? 9 then MMC_NAND else GPMC_NAND) /\ rest m s st o b).
Proof.
  intros b Hb. eexists _, b. split; [reflexivity|]. split; [|done]. destruct Hb as (_ & _ & -> & _).
  destruct (Z.eqb_spec (Z.land st SYSBOOT_MASK) 1) as [->|]; [done|]. by destruct (_ =? 9).
Qed.

Lemma read_nand_runs h m ddr : runs READ_NAND (mk_xstate h m ddr) (u16 (nand_data h)) (mk_xstate (h ++ [RdData]) m ddr).
Proof. reflexivity. Qed.

Lemma wait_ready_runs k fuel h m ddr :
  (k < fuel)%nat -> Z.land (u8 (u16 (nand_data (h ++ replicate k RdData)))) 0x40 = 0x40 ->
  exists es, runs (wait_ready fuel) (mk_xstate h m ddr) tt (mk_xstate es m ddr).
Proof.
  revert fuel h. induction k as [|k IH]; intros [|fuel] h Hk Hr; try lia; cbn [wait_ready];
    destruct (Z.eqb_spec (Z.land (u8 (u16 (nand_data h))) 0x40) 0x40) as [E|E].
  1, 3: exists (h ++ [RdData]); eapply runs_bind; [apply read_nand_runs|]; cbv beta; by rewrite (proj2 (Z.eqb_eq _ _) E).
  - cbn [replicate] in Hr. by rewrite app_nil_r in Hr.
  - destruct (IH fuel (h ++ [RdData])) as (es & He); [lia|by rewrite <- app_assoc|].
    exists es. eapply runs_bind; [apply read_nand_runs|]. cbv beta. by rewrite (proj2 (Z.eqb_neq _ _) E).
Qed.

Lemma reset_runs fuel h m ddr :
  (fpolls < fuel)%nat -> exists es, runs (NanD_Command fuel NAND_CMD_RESET) (mk_xstate h m ddr) 0 (mk_xstate es m ddr).
Proof.
  intros Hf. destruct (reset_ready h) as (k & Hk & Hr). rewrite app_assoc in Hr.
  destruct (wait_ready_runs k fuel _ m ddr ltac:(lia) Hr) as (es & Hw). exists es.
  unfold NanD_Command. eapply runs_bind; [reflexivity|]. cbv beta. change (NAND_CMD_RESET =? NAND_CMD_RESET) with true. cbv match.
  eapply runs_bind; [reflexivity|]. cbv beta. eapply runs_bind; [|apply runs_ret]. cbn [bus dram is_ddr_166M].
  rewrite <- app_assoc. exact Hw.
Qed.

Lemma nand_chip_runs fuel h m ddr :
  (fpolls < fuel)%nat -> exists es, runs (nand_chip fuel) (mk_xstate h m ddr) 0 (mk_xstate es m 1).
Proof.
  intros Hf. destruct (reset_runs fuel h m ddr Hf) as (es & Hr).
  set (e1 := es ++ [WrCommand NAND_CMD_READID; WrAddress 0; WrAddress 0]).
  assert (exists id, id ∈ [MT29F1G_ID; MT29F2G16AA_ID; MT29F2G_ID; MT29F4G_ID] /\ u16 (nand_data (e1 ++ [RdData])) = id) as (id & Hid & Eid).
  { unfold e1. rewrite <- app_assoc. cbn [app]. eexists. split; [apply read_id|]. apply wrapu_small.
    pose proof (read_id es) as Hi. rewrite !elem_of_cons, elem_of_nil in Hi. destruct Hi as [E|[E|[E|[E|[]]]]]; by rewrite E. }
  exists ((e1 ++ [RdData]) ++ [RdData]). unfold nand_chip. eapply runs_bind; [exact Hr|]. cbv beta.
  change (truthy 0) with false. cbv match.
  apply (runs_bind _ _ _ 0 (mk_xstate (es ++ [WrCommand NAND_CMD_READID]) m ddr)); [reflexivity|]. cbv beta.
  change (truthy 0) with false. cbv match.
  apply (runs_bind _ _ _ 0 (mk_xstate e1 m ddr)).
  { unfold e1. unfold runs. cbn. by rewrite <- !app_assoc. }
  cbv beta. eapply runs_bind; [apply read_nand_runs|]. cbv beta. eapply runs_bind; [apply read_nand_runs|]. cbv beta.
  rewrite Eid. assert (nand_data e1 = MT29F1G_MFR) as Em by apply read_mfr. rewrite Em. change (u16 MT29F1G_MFR =? HYNIX4GiB_MFR) with false.
  change (u16 MT29F1G_MFR =? MT29F1G_MFR) with true. cbv match. eapply runs_bind; [apply runs_modify|]. cbv beta.
  rewrite !elem_of_cons, elem_of_nil in Hid. destruct Hid as [E|[E|[E|[E|[]]]]]; by rewrite E.
Qed.

Lemma nand_chip_tot fuel m s st o :
  (fpolls < fuel)%nat -> tot (rest m s st o) (on_nand (nand_chip fuel)) (fun r b => r = 0 /\ rest m s st o b).
Proof.
  intros Hf b Hb. destruct (nand_chip_runs fuel (bd_bus b) (bd_mem b) (bd_ddr b) Hf) as (es & Hr).
  eexists 0, _. split; [by apply on_nand_run|by split].
Qed.

Lemma nand_init_tot fuel m s st o :
  (fpolls < fuel)%nat -> tot (rest m s st o) (nand_init fuel) (fun r b => r = 0 /\ rest m s st o b).
Proof.
  intros Hf. unfold nand_init. do 4 (eapply tot_bind; [apply writel_tot|cbv beta; intros ?]).
  eapply tot_bind_eq; [apply get_mem_type_tot|]. set (t := if _ =? 9 then _ else _).
  eapply (tot_bind _ _ (fun _ => rest m s st o)).
  { destruct (t =? GPMC_NAND); [|by apply tot_ret]. eapply tot_bind; [apply writel_tot|cbv beta; intros ?]. apply writel_tot. }
  cbv beta. intros ?. replace ((t =? GPMC_NAND) || (t =? MMC_NAND)) with true by (unfold t; by destruct (_ =? 9)).
  do 7 (eapply tot_bind; [apply writel_tot|cbv beta; intros ?]).
  eapply tot_bind_eq; [by apply nand_chip_tot|]. by apply tot_ret.
Qed.

Lemma start_armboot_from fuel ffuel b :
  (fpolls < fuel)%nat -> 4 * TEST_SIZE <= zlen (bd_mem b) ->
  exists b1, zlen (bd_mem b1) = zlen (bd_mem b) /\
    rest (bd_mem b1) (bd_mmc b) (bd_status b) (bd_out b ++ [Testing; TestPassed]) b1 /\
    start_armboot fuel ffuel b = boot_medium fuel ffuel b1.
Proof.
  intros Hf Hm. destruct (nand_init_tot fuel (bd_mem b) (bd_mmc b) (bd_status b) (bd_out b) Hf b) as (r & b0 & Hr0 & -> & Hb0); [done|].
  destruct Hb0 as (Em & Es & Est & Eo). destruct (test_dram_runs b0) as (m' & Hl & Hr); [by rewrite Em|].
  exists (mk_board m' (bd_mmc b0) (bd_bus b0) (bd_ddr b0) (bd_status b0) (bd_out b0 ++ [Testing; TestPassed])).
  rewrite <- Em, <- Es, <- Est, <- Eo. split; [done|]. split; [done|].
  unfold start_armboot. erewrite mbind_run by exact Hr0. cbv beta. cbn [negb Z.eqb]. by erewrite mbind_run by exact Hr.
Qed.

Lemma get_mem_type_run (b : board H) :
  runs get_mem_type b (if Z.land (bd_status b) SYSBOOT_MASK =? 9 then MMC_NAND else GPMC_NAND) b.
Proof.
  unfold get_mem_type. eapply runs_bind; [apply runs_gets|]. cbv beta. unfold runs, mret.
  destruct (Z.eqb_spec (Z.land (bd_status b) SYSBOOT_MASK) 1) as [->|]; [done|]. by destruct (_ =? 9).
Qed.
End start.

(** ** Booting from flash *)
Section flash.
Context {H : Type} `{MmcHost H} `{Flash} (flash : Z -> list Z) `{!FlashLaws flash} (fpolls : nat) `{!FlashId fpolls}.

End flash.

(** ** Booting from a card *)
Section card.
Context {H : Type} `{MmcHost H} (c : sd_card) (nsect : Z) (sector : Z -> list Z) (polls : nat)
  (st : sd_phase -> H -> Prop) (armed : sd_phase -> Z -> H -> Prop) (ended replied : list Z -> sd_phase -> H -> Prop)
  `{!SdSlot c nsect sector polls st armed ended replied} (Hcard : sd_card_ok c).
Context (fuel : nat) (Hfuel : (2 * polls + 2 <= fuel)%nat) (Hnsect : 1 <= nsect < 2 ^ 23) (Hsign : boot_signed (sector 0)).
Context (g : geometry) (Hvol : fat_volume nsect sector (part_start (sector 0)) g)
  (sects : list Z) (Hroot : root_dir nsect sector (part_start (sector 0)) g sects).

(** The device after [mmc_init]. *)
Definition selected (d : mmc_card_data) : mmc_state H -> Prop := on (st SdTran) (ready_card c d) blk_dev_ready.

Lemma selected_laws d : DiskLaws (H := mmc_block_device fuel) (selected d) nsect sector.
Proof. apply (mmc_disk_laws c nsect sector polls st armed ended replied fuel Hfuel); [lia|done]. Qed.

Lemma on_mmc_run {A} (m : M (fatfs (mmc_state H)) A) (b : board H) a s :
  runs m (set_mem (bd_mem b) (bd_mmc b)) a s ->
  runs (on_mmc m) b a (mk_board (f_mem s) s (bd_bus b) (bd_ddr b) (bd_status b) (bd_out b)).
Proof. intros Hr. unfold runs, on_mmc. by rewrite Hr. Qed.

(** Up to the search for the file. *)
Lemma mmc_boot_to ffuel (b : board H) buf :
  st SdOff (m_host (f_dev (bd_mmc b))) -> FATBUFSIZE <= zlen (fatbuf (datablock (bd_mmc b))) ->
  exists s, mounted (selected (cur_card_data (f_dev (bd_mmc b)))) (part_start (sector 0)) s /\ f_mem s = bd_mem b /\
    mmc_boot fuel ffuel buf b
    = (let! sz := on_mmc (file_fat_read (H := mmc_block_device fuel) ffuel uboot_bin (buf - CFG_LOADADDR) 0) in
       if sz =? -1 then mret 0 else do! say (MmcRead sz) in do! say MmcStarting in mret sz)
      (mk_board (bd_mem b) s (bd_bus b) (bd_ddr b) (bd_status b) (bd_out b ++ [StartingMmc])).
Proof.
  intros Hst Hbuf. set (c0 := cur_card_data (f_dev (bd_mmc b))).
  destruct (mmc_init_run c nsect sector polls st armed ended replied fuel Hfuel Hcard (set_mem (bd_mem b) (bd_mmc b)) Hst Hnsect Hsign)
    as (d & Hr & Hd).
  set (s1 := set_part _ _ _) in Hr.
  destruct (fat_register_device_ok (H := mmc_block_device fuel) (selected c0) nsect sector (DiskLaws0 := selected_laws c0) s1 1)
    as (d2 & Hd2 & Hr2); [done|lia|done|].
  set (s2 := set_part true (part_start (sector 0)) (set_dev d2 s1)) in Hr2.
  exists s2. split; [split; [by split|done]|]. split; [done|].
  unfold mmc_boot. erewrite mbind_run by apply runs_modify. cbv beta.
  erewrite mbind_run by (apply on_mmc_run; exact Hr). cbv beta. cbn [Z.eqb].
  erewrite mbind_run by apply runs_gets. cbv beta. cbn [bd_mmc].
  replace (has_block_read (mmc_blk_dev (f_dev s1))) with true by (cbn; by destruct Hd as (_ & _ & ->)).
  erewrite mbind_run by (apply on_mmc_run; exact Hr2). reflexivity.
Qed.

Lemma uboot_plain : plain_name uboot_bin.
Proof. split; [done|]. unfold uboot_bin. repeat (constructor; [split; [lia|done]|]). constructor. Qed.

(** Reading the file, or finding none. *)
Lemma mmc_boot_runs ffuel (b : board H) want :
  st SdOff (m_host (f_dev (bd_mmc b))) -> FATBUFSIZE <= zlen (fatbuf (datablock (bd_mmc b))) ->
  names nsect sector (part_start (sector 0)) g ffuel sects uboot_bin want -> (length sects <= ffuel)%nat ->
  zlen (default [] want) <= zlen (bd_mem b) ->
  exists s, runs (mmc_boot fuel ffuel CFG_LOADADDR) b (match want with Some data => zlen data | None => 0 end)
    (mk_board (match want with Some data => data ++ drop (length data) (bd_mem b) | None => bd_mem b end) s
       (bd_bus b) (bd_ddr b) (bd_status b)
       (bd_out b ++ StartingMmc :: match want with Some data => [MmcRead (zlen data); MmcStarting] | None => [] end)).
Proof.
  intros Hst Hbuf Hn Hf Hm. destruct (mmc_boot_to ffuel b CFG_LOADADDR Hst Hbuf) as (s & Hs & Hmem & E).
  destruct (file_fat_read_one (H := mmc_block_device fuel) (selected (cur_card_data (f_dev (bd_mmc b)))) nsect sector
    (DiskLaws0 := selected_laws _) (part_start (sector 0)) g ltac:(lia) Hvol ffuel sects s uboot_bin 0 want Hs Hroot Hf)
    as (s' & Hr & _ & _ & Hm').
  { split; [apply uboot_plain|]. split; [done|]. split; [done|]. split; [done|]. by rewrite Hmem. }
  exists s'. unfold runs. rewrite E. change (CFG_LOADADDR - CFG_LOADADDR) with 0.
  erewrite mbind_run by (apply on_mmc_run; cbn [bd_mem bd_mmc]; rewrite <- Hmem; destruct s; exact Hr).
  cbv beta. rewrite Hm', Hmem. cbn [bd_bus bd_ddr bd_status bd_out]. destruct want as [data|]; [|done].
  rewrite (proj2 (Z.eqb_neq (zlen data) (-1))) by (pose proof (zlen_nonneg data); lia).
  change (take (Z.to_nat 0) (bd_mem b)) with (@nil Z). cbn [app].
  replace (Z.to_nat (0 + zlen data)) with (length data) by (unfold zlen; lia).
  unfold say. do 2 (erewrite mbind_run by apply runs_modify). cbn. by rewrite <- !app_assoc.
Qed.

Context `{Flash} (fpolls : nat) `{!FlashId fpolls} (Hfl : (fpolls < fuel)%nat).


(** Without the file there is no second try.  On a board whose pins ask for MMC, a
card whose root directory has no [u-boot.bin] ends in the endless loop of [hang]:
whatever the flash holds, the boot loader does not turn to it. *)
Lemma start_armboot_mmc_missing ffuel (b : board H) :
  4 * TEST_SIZE <= zlen (bd_mem b) -> Z.land (bd_status b) SYSBOOT_MASK = 9 ->
  st SdOff (m_host (f_dev (bd_mmc b))) -> FATBUFSIZE <= zlen (fatbuf (datablock (bd_mmc b))) ->
  names nsect sector (part_start (sector 0)) g ffuel sects uboot_bin None -> (length sects <= ffuel)%nat ->
  start_armboot fuel ffuel b = Fault Hang.
Proof.
  intros Hm H9 Hst Hbuf Hn Hf. destruct (start_armboot_from fpolls fuel ffuel b Hfl Hm) as (b1 & Hm1 & (_ & E1 & E2 & E3) & E).
  destruct (mmc_boot_runs ffuel b1 None) as (s & Hr); rewrite ?E1; try done; [apply zlen_nonneg|].
  rewrite E. unfold boot_medium. rewrite <- E2 in H9.
  erewrite mbind_run by apply get_mem_type_run. cbv beta. rewrite H9.
  change ((_ =? MMC_ONENAND) || (_ =? MMC_NAND)) with true. cbv match. erewrite mbind_run by exact Hr. cbv beta zeta.
  change (u32 (CFG_LOADADDR + 0)) with CFG_LOADADDR. rewrite Z.eqb_refl.
  erewrite mbind_run; [|eapply runs_bind; [apply get_mem_type_run|]; cbn [bd_status]; rewrite H9; apply runs_ret].
  cbv beta. by rewrite Z.eqb_refl.
Qed.
End card.
