(* ===== verification/ExamplesMmc.v ===== *)
(** * Examples: a card in the slot

A controller with an SD card as an executable state machine, proved to obey
[SdSlot]; a card with a FAT volume on it; and the theorems on the MMC driver and the
FAT reader applied to them. *)
From stdpp Require Import base list.
From S2P Require Import Prelude Bits Fat Mmc.
From Stdlib Require Import ZArith Lia.

(** ** The slot *)
Record slot : Type := mk_slot {
  s_phase : sd_phase;
  s_arg : Z;
  s_resp : list Z;
  s_cc : bool;           (* the command-complete flag *)
}.

Section slot.
Context (c : sd_card) (nsect : Z) (sector : Z -> list Z).

Definition respond (p : sd_phase) : list Z :=
  match p with
  | SdApp O => [Z.lor (sd_window c) (Z.lor (Z.shiftl (b2z (sd_ccs c)) 30) (Z.shiftl 1 31)); 0; 0; 0]
  | SdIdent => [Z.shiftl (sd_rca c) 16; 0; 0; 0]
  | SdStby => sd_csd c
  | _ => [0; 0; 0; 0]
  end.

Definition set_phase (p : sd_phase) (h : slot) : slot := mk_slot p (s_arg h) (s_resp h) (s_cc h).

Definition slot_stat (h : slot) : Z * slot :=
  match s_phase h with
  | SdData i => if s_cc h then (CC_MASK, h) else (BRR_MASK, set_phase (SdFifo i 0) h)
  | SdFifo i k => if (k =? 128)%nat then (TC_MASK, set_phase SdDone h) else (0, h)
  | SdDone => (TC_MASK, h)
  | _ => (b2z (s_cc h), h)
  end.

Definition slot_data (h : slot) : Z * slot :=
  match s_phase h with
  | SdFifo i k => (sector_word (sector i) k, set_phase (SdFifo i (S k)) h)
  | _ => (0, h)
  end.

Definition slot_in (r : Z) : M slot Z := fun h =>
  if r =? OMAP_HSMMC_STAT then Ok (slot_stat h)
  else if r =? OMAP_HSMMC_DATA then Ok (slot_data h)
  else if r =? OMAP_HSMMC_RSP10 then Ok (nth 0 (s_resp h) 0, h)
  else if r =? OMAP_HSMMC_RSP32 then Ok (nth 1 (s_resp h) 0, h)
  else if r =? OMAP_HSMMC_RSP54 then Ok (nth 2 (s_resp h) 0, h)
  else if r =? OMAP_HSMMC_RSP76 then Ok (nth 3 (s_resp h) 0, h)
  else if r =? OMAP_HSMMC_SYSSTATUS then Ok (RESETDONE, h)
  else if r =? OMAP_HSMMC_SYSCTL then Ok (ICS_MASK, h)
  else Ok (0, h).

Definition slot_out (r v : Z) : M slot unit := fun h =>
  if r =? OMAP_HSMMC_ARG then Ok (tt, mk_slot (s_phase h) v (s_resp h) (s_cc h))
  else if r =? OMAP_HSMMC_CMD then
    match sd_next c nsect (s_phase h) v (s_arg h) with
    | Some q => Ok (tt, mk_slot q (s_arg h) (respond (s_phase h)) true)
    | None => Ok (tt, h)
    end
  else if r =? OMAP_HSMMC_STAT then
    Ok (tt, mk_slot (match s_phase h with SdDone => if stat_no TC_MASK v then SdDone else SdTran | p => p end)
              (s_arg h) (s_resp h) (s_cc h && stat_no CC_MASK v))
  else Ok (tt, h).

#[local] Instance slot_host : MmcHost slot := {| mmc_in := slot_in; mmc_out := slot_out |}.

Definition s_st (p : sd_phase) (h : slot) : Prop :=
  match p with
  | SdOff => quiescent (s_phase h) = true
  | SdData i => s_phase h = SdData i /\ s_cc h = false
  | _ => s_phase h = p
  end.
Definition s_armed (p : sd_phase) (a : Z) (h : slot) : Prop := quiescent p = true /\ s_st p h /\ s_arg h = a.
Definition s_ended (rs : list Z) (q : sd_phase) (h : slot) : Prop := s_phase h = q /\ s_resp h = rs /\ q <> SdDone.
Definition s_replied (rs : list Z) (q : sd_phase) (h : slot) : Prop := s_phase h = q /\ s_resp h = rs /\ s_cc h = false.

Context (Hsector : forall i, 0 <= i < nsect -> zlen (sector i) = 512 /\ Forall is_byte (sector i)).
Context (Hrca : 0 <= sd_rca c < 2 ^ 16) (Hwindow : 0 <= sd_window c < 2 ^ 24)
  (Hcsd : length (sd_csd c) = 4%nat) (Hwords : Forall (fun w => 0 <= w < 2 ^ 32) (sd_csd c)).

Lemma st_quiescent p h : quiescent p = true -> s_st p h -> quiescent (s_phase h) = true.
Proof. destruct p; cbn; intros Hq Hs; try done; by rewrite Hs. Qed.

Lemma respond_words p : length (respond p) = 4%nat /\ Forall (fun w => 0 <= w < 2 ^ 32) (respond p).
Proof.
  assert (Forall (fun w => 0 <= w < 2 ^ 32) [0; 0; 0; 0]) as H0 by by repeat constructor.
  destruct p as [| |[|n]| | | | | | |]; cbn [respond]; split; try done.
  - constructor; [|by repeat constructor]. apply lor_range; [done|lia|]. by destruct (sd_ccs c).
  - constructor; [|by repeat constructor]. rewrite Z.shiftl_mul_pow2; lia.
Qed.

Lemma respond_ok p cmd h : s_st p h -> sd_resp c p cmd (respond (s_phase h)).
Proof.
  intros Hs. destruct (respond_words (s_phase h)) as [Hl Hf]. split; [done|]. split; [done|].
  destruct p as [| |[|n]| | | | | | |]; cbn [s_st] in Hs; try done; rewrite Hs; try done.
  cbn [respond nth]. rewrite Z.shiftr_shiftl_l by done. apply Z.shiftl_0_r.
Qed.

Lemma next_of_phase p q cmd a h :
  quiescent p = true -> s_st p h -> sd_next c nsect p cmd a = Some q -> sd_next c nsect (s_phase h) cmd a = Some q.
Proof.
  intros Hq Hs Hn. pose proof (st_quiescent p h Hq Hs) as Hq'.
  destruct p; cbn [s_st] in Hs; try (by rewrite Hs); try done.
  unfold sd_next in *. rewrite Hq', Hq in *. destruct (cmd =? MMC_CMD0); [done|]. cbn [andb] in Hn. done.
Qed.

(** Reads that change nothing. *)
Lemma quiet_in p r h :
  quiescent p = true -> r ∈ conf_regs -> s_st p h -> exists v, slot_in r h = Ok (v, h) /\ 0 <= v < 2 ^ 32.
Proof.
  intros Hq Hr Hs. pose proof (st_quiescent p h Hq Hs) as Hq'.
  unfold conf_regs in Hr. rewrite !elem_of_cons, elem_of_nil in Hr.
  destruct Hr as [E|[E|[E|[E|[E|[E|[E|[E|[E|[]]]]]]]]]]; subst r; try (by exists 0); [by exists ICS_MASK|].
  exists (b2z (s_cc h)). split; [|by destruct (s_cc h)]. unfold slot_in. cbn [Z.eqb]. unfold slot_stat.
  by destruct (s_phase h).
Qed.

Lemma quiet_out p r v h :
  quiescent p = true -> r ∈ conf_regs -> s_st p h -> exists h', slot_out r v h = Ok (tt, h') /\ s_st p h'.
Proof.
  intros Hq Hr Hs. pose proof (st_quiescent p h Hq Hs) as Hq'.
  unfold conf_regs in Hr. rewrite !elem_of_cons, elem_of_nil in Hr.
  destruct Hr as [E|[E|[E|[E|[E|[E|[E|[E|[E|[]]]]]]]]]]; subst r; try (by exists h).
  eexists. split; [reflexivity|]. destruct p; cbn [s_st s_phase] in *; try done; try (by rewrite Hs). by destruct (s_phase h).
Qed.

Lemma command_out p q a cmd h :
  s_armed p a h -> sd_next c nsect p cmd a = Some q ->
  exists h', slot_out OMAP_HSMMC_CMD cmd h = Ok (tt, h') /\ s_phase h' = q /\ s_resp h' = respond (s_phase h) /\ s_cc h' = true.
Proof.
  intros (Hq & Hs & <-) Hn. exists (mk_slot q (s_arg h) (respond (s_phase h)) true). split; [|done]. unfold slot_out.
  change (OMAP_HSMMC_CMD =? OMAP_HSMMC_ARG) with false. change (OMAP_HSMMC_CMD =? OMAP_HSMMC_CMD) with true. cbv match.
  by rewrite (next_of_phase p q cmd (s_arg h) h Hq Hs Hn).
Qed.

Lemma stat_cc h : s_cc h = true -> (forall i k, s_phase h <> SdFifo i k) -> s_phase h <> SdDone -> slot_stat h = (CC_MASK, h).
Proof. intros Hc Hf Hd. unfold slot_stat. destruct (s_phase h); rewrite ?Hc; try done. by destruct (Hf i k). Qed.

Lemma next_no_fifo p q cmd a : sd_next c nsect p cmd a = Some q -> (forall i k, q <> SdFifo i k) /\ q <> SdDone.
Proof.
  unfold sd_next. destruct ((cmd =? MMC_CMD0) && quiescent p); [by intros [= <-]|].
  destruct p as [|n|n| | | | | | |]; cbv zeta; repeat (case_match; try done); by intros [= <-].
Qed.

Lemma stat_run h v h' : slot_stat h = (v, h') -> runs (mmc_in OMAP_HSMMC_STAT) h v h'.
Proof. intros E. unfold runs. by rewrite <- E. Qed.

#[local] Instance slot_laws : SdSlot c nsect sector 0 s_st s_armed s_ended s_replied.
Proof.
  split.
  - exact Hsector.
  - intros p r h Hq Hr Hs. destruct (quiet_in p r h Hq Hr Hs) as (v & E & Hv). by exists v, h.
  - intros p r v h Hq Hr Hs. by apply quiet_out.
  - intros p h Hq Hs. by apply (soon_now _ _ _ _ _ RESETDONE h).
  - intros p h Hq Hs. by apply (soon_now _ _ _ _ _ ICS_MASK h).
  - intros p h Hq Hs. by apply (soon_now _ _ _ _ _ ICS_MASK h).
  - intros p h Hq Hs. by apply (soon_now _ _ _ _ _ 0 h).
  - intros h Hs. destruct (command_out SdOff (SdIdle (sd_busy c)) (s_arg h) MMC_CMD0 h) as (h' & E & Hp & _ & Hc); [done|done|].
    exists h'. split; [exact E|]. apply (soon_now _ _ _ _ _ CC_MASK h'); [|done|done|cbn; by rewrite Hp].
    apply stat_run. by rewrite stat_cc by (rewrite ?Hp; done).
  - intros p a h Hq Hs. eexists. split; [reflexivity|]. split; [done|]. split; [|done]. by destruct p.
  - intros p q a cmd h Ha Hn. destruct (command_out p q a cmd h Ha Hn) as (h' & E & Hp & Hr & Hc).
    destruct (next_no_fifo p q cmd a Hn) as [Hf Hd]. exists h', (respond (s_phase h)). split; [exact E|].
    split; [apply respond_ok, Ha|]. apply (soon_now _ _ _ _ _ CC_MASK h'); [|done|done|done].
    apply stat_run. by rewrite stat_cc by (rewrite ?Hp; done).
  - intros rs q h (Hp & Hr & Hd). eexists. split; [reflexivity|]. cbn [s_phase s_resp s_cc].
    split; [|split; [done|by rewrite andb_comm]]. rewrite Hp. by destruct q.
  - intros rs q k h (Hp & Hr & Hc) Hk. exists h. split; [|done]. rewrite <- Hr. by destruct k as [|[|[|[|k]]]]; try lia.
  - intros rs q h (Hp & Hr & Hc). destruct q; cbn [s_st]; try done. by rewrite Hp.
  - intros i h [Hp Hc]. apply (soon_now _ _ _ _ _ BRR_MASK (set_phase (SdFifo i 0) h)); [|done|done|done].
    apply stat_run. unfold slot_stat. by rewrite Hp, Hc.
  - intros i h Hp. cbn [s_st] in Hp. exists 0, h. split; [|done].
    apply stat_run. unfold slot_stat. by rewrite Hp.
  - intros i v h Hp Hv. cbn [s_st] in Hp. eexists. split; [reflexivity|]. cbn [s_st s_phase]. by rewrite Hp.
  - intros i k h Hp Hk. cbn [s_st] in Hp. exists (set_phase (SdFifo i (S k)) h). split; [|done].
    unfold runs. cbn [mmc_in slot_host]. change (slot_in OMAP_HSMMC_DATA h) with (@Ok (Z * slot) (slot_data h)).
    unfold slot_data. by rewrite Hp.
  - intros i h Hp. cbn [s_st] in Hp. apply (soon_now _ _ _ _ _ TC_MASK (set_phase SdDone h)); [|done|done|done].
    apply stat_run. unfold slot_stat. by rewrite Hp.
  - intros h Hp. cbn [s_st] in Hp. exists TC_MASK, h. split; [|done].
    apply stat_run. unfold slot_stat. by rewrite Hp.
  - intros v h Hp Hv. cbn [s_st] in Hp. eexists. split; [reflexivity|]. cbn [s_st s_phase]. by rewrite Hp, Hv.
Qed.
End slot.

(** ** A high capacity card with a partition that holds a FAT16 volume *)
Definition ex_card : sd_card := mk_sd true 0xAAAA 0xFF8000 [0; 15 * 65536; 0; 0x32] 3.

Definition zeros (n : nat) : list Z := replicate n 0.

(** The partition starts at sector 1. *)
Definition ex_mbr : list Z := zeros 454 ++ [1; 0; 0; 0] ++ zeros 52 ++ [0x55; 0xaa].

(** One sector per cluster, one reserved sector, one table of six sectors, 16 entries
in the root directory. *)
Definition ex_boot : list Z :=
  zeros 13 ++ [1; 1; 0; 1; 16; 0] ++ zeros 3 ++ [6; 0] ++ zeros 30 ++ FAT16_SIGN ++ zeros 450.

(** Cluster 2 is followed by cluster 4, the last one of the file. *)
Definition ex_fat : list Z := [0xf8; 0xff; 0xff; 0xff; 4; 0; 0; 0; 0xff; 0xff] ++ zeros 502.

Definition ex_entry (name ext : list Z) (attr start sz : Z) : list Z :=
  name ++ ext ++ [attr] ++ zeros 14 ++ le_bytes 2 start ++ le_bytes 4 sz.
(** A volume label, [README], and [U-BOOT.BIN] of 700 bytes from cluster 2 on. *)
Definition ex_root : list Z :=
  ex_entry [82; 72; 73; 78; 79; 32; 32; 32] [32; 32; 32] 8 0 0 ++
  ex_entry [82; 69; 65; 68; 77; 69; 32; 32] [32; 32; 32] 0 0 0 ++
  ex_entry [85; 45; 66; 79; 79; 84; 32; 32] [66; 73; 78] 0 2 700 ++ zeros 416.

Definition sector_with (root : list Z) (i : Z) : list Z :=
  if i =? 0 then ex_mbr
  else if i =? 1 then ex_boot
  else if i =? 2 then ex_fat
  else if i =? 8 then root
  else if i =? 9 then replicate 512 0xAB
  else if i =? 11 then replicate 512 0xCD
  else zeros 512.

(** With these files, and with none. *)
Definition ex_sector : Z -> list Z := sector_with ex_root.
Definition ex_bare : Z -> list Z := sector_with (zeros 512).

Definition ex_nsect : Z := 14.
Definition ex_geometry : geometry := mk_geometry 16 1 1 1 6.
Definition ex_image : list Z := replicate 512 0xAB ++ replicate 188 0xCD.
Definition ex_uboot : list Z := [117; 45; 98; 111; 111; 116; 46; 98; 105; 110].

#[global] Instance ex_host : MmcHost slot := slot_host ex_card ex_nsect ex_sector.

Definition sectors_good (sector : Z -> list Z) : bool :=
  forallb (fun i => bool_decide (zlen (sector i) = 512) && forallb (fun b => (0 <=? b) && (b <? 256)) (sector i)) (zrange 14).

Lemma sectors_good_ok sector :
  sectors_good sector = true -> forall i, 0 <= i < ex_nsect -> zlen (sector i) = 512 /\ Forall is_byte (sector i).
Proof.
  intros Hg i Hi. pose proof (forallb_zrange 14 _ i Hg Hi) as Hs. apply andb_prop in Hs as [H1 H2].
  apply bool_decide_eq_true in H1. split; [done|]. apply Forall_forall. intros x Hx. rewrite forallb_forall in H2.
  apply list_elem_of_In in Hx. specialize (H2 x Hx). unfold is_byte. lia.
Qed.

Lemma ex_slot_laws sector :
  sectors_good sector = true ->
  SdSlot (H0 := slot_host ex_card ex_nsect sector) ex_card ex_nsect sector 0 s_st s_armed s_ended s_replied.
Proof. intros Hg. apply slot_laws; [by apply sectors_good_ok|done|done|done|]. by repeat constructor. Qed.

#[global] Instance ex_laws : SdSlot ex_card ex_nsect ex_sector 0 s_st s_armed s_ended s_replied.
Proof. apply ex_slot_laws. by vm_compute. Qed.

Lemma ex_card_ok : sd_card_ok ex_card.
Proof. split; try done. cbn. lia. Qed.

Lemma ex_part : part_start (ex_sector 0) = 1.
Proof. by vm_compute. Qed.

Lemma ex_signed : boot_signed (ex_sector 0).
Proof. by split. Qed.

Lemma ex_volume : fat_volume ex_nsect ex_sector 1 ex_geometry.
Proof.
  split; cbn [g_size g_fat g_nbuf g_cs g_db ex_geometry]; try (unfold ex_nsect; lia).
  split; try (by vm_compute); unfold ex_nsect; vm_compute; split; (done || by intros).
Qed.

Lemma ex_root_dir : root_dir ex_nsect ex_sector 1 ex_geometry [7].
Proof.
  unfold root_dir. replace (root_start ex_sector 1 ex_geometry) with 7 by by vm_compute.
  apply walk_last; cbn; unfold ex_nsect; lia.
Qed.

Definition ex_dirent : dir_entry := dir_entry_at 64 ex_root.

Lemma ex_valid c : 2 <= c <= 4 -> valid_cluster ex_nsect 1 16 1 1 6 c.
Proof.
  intros Hc. split; unfold ex_nsect; try lia. apply Z.div_lt_upper_bound; [done|]. change (buf_entries 16) with 1536. lia.
Qed.

Lemma ex_file : volume_file ex_nsect ex_sector 1 ex_geometry ex_dirent 2 [4].
Proof.
  split; cbn [g_size g_fat g_nbuf g_cs g_db ex_geometry].
  - by vm_compute.
  - repeat constructor; apply ex_valid; lia.
  - split; [by vm_compute|done].
  - change (d_size ex_dirent) with 700. change (zlen [4]) with 1. lia.
  - change (d_size ex_dirent) with 700. lia.
Qed.

Lemma ex_content : volume_content ex_sector 1 ex_geometry ex_dirent [2; 4] = ex_image.
Proof. by vm_compute. Qed.

Lemma ex_found : names ex_nsect ex_sector 1 ex_geometry 10 [7] ex_uboot (Some ex_image).
Proof.
  rewrite <- ex_content. apply names_file; [by vm_compute|exact ex_file|cbn; lia].
Qed.

Lemma ex_not_found : names ex_nsect ex_sector 1 ex_geometry 10 [7] [120; 46; 98; 105; 110] None.
Proof. apply names_nothing. by vm_compute. Qed.

(** ** The driver and the reader on this card *)
Definition ex_off : slot := mk_slot SdOff 0 [0; 0; 0; 0] false.
Definition ex_ready_card : mmc_card_data := ready_card ex_card (mk_card 0 0 0 0 0).
Definition ex_mmc (h : slot) (d : mmc_card_data) : mmc_state slot := mk_mmc h d blk_dev_ready.
Definition ex_fsdata : fsdata := mk_fsdata 16 6 1 7 1 6 (zeros 12288) (-1).
Definition ex_reader (dev : mmc_state slot) : fatfs (mmc_state slot) :=
  mk_fatfs dev true 1 ex_fsdata (zeros 512) (zeros 1000) [].

#[local] Instance ex_disk_laws :
  DiskLaws (H := mmc_block_device 2) (on (s_st SdTran) ex_ready_card blk_dev_ready) ex_nsect ex_sector.
Proof. apply (mmc_disk_laws ex_card ex_nsect ex_sector 0 s_st s_armed s_ended s_replied 2); [lia|unfold ex_nsect; lia|done]. Qed.

Lemma ex_live dev :
  on (s_st SdTran) ex_ready_card blk_dev_ready dev -> live (on (s_st SdTran) ex_ready_card blk_dev_ready) 1 (ex_reader dev).
Proof. by split. Qed.

Definition ex_selected : mmc_state slot := ex_mmc (mk_slot SdTran 0 [0; 0; 0; 0] false) ex_ready_card.


Lemma get_fatent_refines_table_witness :
  exists s', runs (get_fatents (H := mmc_block_device 2) [2; 4; 0; 2]) (ex_reader ex_selected)
    (fat_entry 16 (table ex_sector 1 1 1) <$> [2; 4; 0; 2]) s' /\
    quiet (on (s_st SdTran) ex_ready_card blk_dev_ready) ex_sector 1 16 1 1 (ex_reader ex_selected) s'.
Proof.
  apply (get_fatent_refines_table (H := mmc_block_device 2) (on (s_st SdTran) ex_ready_card blk_dev_ready) ex_nsect ex_sector).
  - lia.
  - unfold ex_nsect. lia.
  - lia.
  - lia.
  - lia.
  - unfold ex_nsect. lia.
  - by apply ex_live.
  - split; try done. by left.
  - by apply (bool_decide_unpack _).
Defined.


(** ** Sizes, clocks and errors *)

(** A card of 2 GiB: 4096 * 512 blocks of 1024 bytes. *)
Definition ex_csd_2g : list Z := [0; Z.lor (Z.shiftl 7 15) (Z.shiftl 3 30); Z.lor 0x3FF (Z.shiftl 10 16); 0x32].

Lemma mmc_read_cardsize_exact_witness :
  (512 <= csd_bytes ex_csd_2g < 2 ^ 32 ->
    runs (mmc_read_cardsize 0 ex_csd_2g) (ex_mmc ex_off (mk_card 1 0 0 0 0)) 1
      (set_card (set_size (csd_bytes ex_csd_2g / 512) (mk_card 1 0 0 0 0)) (ex_mmc ex_off (mk_card 1 0 0 0 0)))) /\
  (csd_bytes ex_csd_2g < 512 \/ csd_bytes ex_csd_2g = 2 ^ 32 ->
    runs (mmc_read_cardsize 0 ex_csd_2g) (ex_mmc ex_off (mk_card 1 0 0 0 0)) 0
      (set_card (set_size 0 (mk_card 1 0 0 0 0)) (ex_mmc ex_off (mk_card 1 0 0 0 0)))).
Proof.
  apply (mmc_read_cardsize_exact 0 ex_csd_2g (ex_mmc ex_off (mk_card 1 0 0 0 0))); by vm_compute.
Defined.

Lemma speed_dsor_in_range_witness :
  exists d, runs (speed_dsor 0x32) ex_selected (Some d) ex_selected /\ 0 <= d < 1024 /\
    (d = 0 <-> OMAP_MMC_MASTER_CLOCK < 25000000) /\
    (25000000 = 20000000 \/ 25000000 = 25000000 -> OMAP_MMC_MASTER_CLOCK <= d * 25000000).
Proof. apply (speed_dsor_in_range 0x32 ex_selected). lia. Defined.

(** A controller that answers every command with a checksum error. *)
#[local] Instance crc_host : MmcHost unit := {|
  mmc_in r := mret (if r =? OMAP_HSMMC_STAT then 0x28001 else 0);
  mmc_out _ _ := mret tt;
|}.

Definition crc_state : mmc_state unit := mk_mmc tt (mk_card 0 0 0 0 0) blk_dev_ready.

Lemma mmc_send_cmd_error_as_success_witness :
  runs (mmc_send_cmd (H0 := crc_host) 1 MMC_CMD9 0 [7; 7; 7; 7]) crc_state (1, [7; 7; 7; 7]) crc_state.
Proof.
  apply (mmc_send_cmd_error_as_success (H0 := crc_host) 0 MMC_CMD9 0 [7; 7; 7; 7] crc_state crc_state 0x28001 tt);
    by vm_compute.
Defined.

(** ** The card without files *)
Lemma bare_laws : SdSlot (H0 := slot_host ex_card ex_nsect ex_bare) ex_card ex_nsect ex_bare 0 s_st s_armed s_ended s_replied.
Proof. apply ex_slot_laws. by vm_compute. Qed.

Lemma bare_volume : fat_volume ex_nsect ex_bare 1 ex_geometry.
Proof.
  split; cbn [g_size g_fat g_nbuf g_cs g_db ex_geometry]; try (unfold ex_nsect; lia).
  split; try (by vm_compute); unfold ex_nsect; vm_compute; split; (done || by intros).
Qed.

Lemma bare_root_dir : root_dir ex_nsect ex_bare 1 ex_geometry [7].
Proof.
  unfold root_dir. replace (root_start ex_bare 1 ex_geometry) with 7 by by vm_compute.
  apply walk_last; cbn; unfold ex_nsect; lia.
Qed.

Lemma bare_not_found : names ex_nsect ex_bare 1 ex_geometry 10 [7] ex_uboot None.
Proof. apply names_nothing. by vm_compute. Qed.

(** ** A device without a driver *)
#[local] Instance plain_device : BlockDevice unit :=
  {| block_read i k := mret (1, take (Z.to_nat (512 * k)) (sectors ex_sector i (Z.to_nat k))) |}.

Lemma ex_sector_bytes i : Forall is_byte (ex_sector i).
Proof.
  destruct (Z_lt_dec i 0) as [Hn|Hn].
  { assert (ex_sector i = zeros 512) as ->; [|by apply Forall_replicate].
    unfold ex_sector, sector_with. by rewrite !(proj2 (Z.eqb_neq i _)) by lia. }
  destruct (Z_lt_dec i 14) as [Hi|Hi]; [apply sectors_good_ok; [by vm_compute|unfold ex_nsect; lia]|].
  assert (ex_sector i = zeros 512) as ->; [|by apply Forall_replicate].
  unfold ex_sector, sector_with. by rewrite !(proj2 (Z.eqb_neq i _)) by lia.
Qed.

#[local] Instance plain_bytes : ByteDevice unit.
Proof.
  split. intros d i k r l d' Hk [= <- <- <-]. split.
  - apply Forall_take. unfold sectors. apply Forall_concat, Forall_fmap, Forall_forall. intros j _. apply ex_sector_bytes.
  - unfold zlen. rewrite length_take. lia.
Qed.

Definition plain_reader : fatfs unit := mk_fatfs tt true 1 ex_fsdata (zeros 512) (zeros 1000) [].

