(* ===== verification/ExamplesBoot.v ===== *)
(** * Examples: booting from flash

A flash chip and an ECC engine as executable functions of the bus history, proved
to obey [FlashLaws], and the boot theorems applied to a partition on it. *)
From stdpp Require Import base list.
From S2P Require Import Prelude Bits HwEcc NandEcc Xnand Fat Mmc XBoot ExamplesMmc.
From Stdlib Require Import ZArith Lia.

(** ** A chip *)
Record chip : Type := mk_chip {
  c_cmd : Z;             (* the last command *)
  c_addr : list Z;       (* address cycles since the last read command *)
  c_row : Z;
  c_col : Z;
  c_ecc : list Z;        (* bytes read since the results were cleared *)
}.

Section chip.
Context (flash : Z -> list Z).

Definition chip_word (c : chip) : Z :=
  if c_cmd c =? NAND_CMD_STATUS then 0x40
  else if c_cmd c =? NAND_CMD_READID then (if c_col c =? 0 then MT29F1G_MFR else MT29F2G16AA_ID)
  else field (2 * c_col c) 2 (flash (c_row c)).

Definition chip_step (c : chip) (e : bus_event) : chip :=
  match e with
  | WrCommand d =>
    if d =? NAND_CMD_READSTART then
      mk_chip d (c_addr c)
        (nth 2 (c_addr c) 0 + 256 * nth 3 (c_addr c) 0 + 65536 * nth 4 (c_addr c) 0)
        (nth 0 (c_addr c) 0 + 256 * nth 1 (c_addr c) 0) (c_ecc c)
    else mk_chip d [] (c_row c) 0 (c_ecc c)
  | WrAddress d => mk_chip (c_cmd c) (c_addr c ++ [d]) (c_row c) (c_col c) (c_ecc c)
  | RdData => mk_chip (c_cmd c) (c_addr c) (c_row c) (c_col c + 1) (c_ecc c ++ le_bytes 2 (chip_word c))
  | WrReg a v => if a =? GPMC_ECC_CONTROL then mk_chip (c_cmd c) (c_addr c) (c_row c) (c_col c) [] else c
  end.

Definition chip_after (h : list bus_event) : chip := foldl chip_step (mk_chip 0 [] 0 0 []) h.

#[local] Instance chip_flash : Flash := {|
  nand_data h := chip_word (chip_after h);
  gpmc_read h a := block_ecc (slice (512 * ((a - GPMC_ECC1_RESULT) / 4)) 512 (c_ecc (chip_after h)));
|}.

Lemma chip_reads k c :
  foldl chip_step c (replicate k RdData)
  = mk_chip (c_cmd c) (c_addr c) (c_row c) (c_col c + Z.of_nat k) (c_ecc (foldl chip_step c (replicate k RdData))).
Proof.
  revert c. induction k as [|k IH]; intros c; cbn [replicate foldl].
  { rewrite Z.add_0_r. by destruct c. }
  rewrite IH. cbn [chip_step c_cmd c_addr c_row c_col c_ecc]. f_equal. lia.
Qed.

Lemma chip_read_cycles c col row :
  foldl chip_step c (read_cycles col row)
  = mk_chip NAND_CMD_READSTART [col mod 256; col / 256; row mod 256; row / 256 mod 256; row / 65536] row col (c_ecc c).
Proof.
  transitivity (mk_chip NAND_CMD_READSTART [col mod 256; col / 256; row mod 256; row / 256 mod 256; row / 65536]
    (row mod 256 + 256 * (row / 256 mod 256) + 65536 * (row / 65536)) (col mod 256 + 256 * (col / 256)) (c_ecc c));
    [reflexivity|].
  f_equal.
  - change 65536 with (256 * 256). rewrite <- Z.div_div by lia.
    pose proof (Z.div_mod row 256 ltac:(lia)). pose proof (Z.div_mod (row / 256) 256 ltac:(lia)). lia.
  - pose proof (Z.div_mod col 256 ltac:(lia)). lia.
Qed.

(** The engine has seen what has been read. *)
Lemma chip_ecc_data h es :
  forallb (fun e => negb (is_reg_write e)) es = true ->
  c_ecc (chip_after (h ++ es)) = c_ecc (chip_after h) ++ data_read h es.
Proof.
  revert h. induction es as [|e es IH]; intros h He; [by rewrite !app_nil_r|].
  cbn [forallb] in He. apply andb_prop in He as [He0 He].
  replace (h ++ e :: es) with ((h ++ [e]) ++ es) by by rewrite <- app_assoc.
  rewrite IH by done. unfold chip_after. rewrite foldl_app. fold (chip_after h). cbn [foldl].
  destruct e; cbn [data_read chip_step]; try done; [by destruct (_ =? _)|].
  cbn [c_ecc]. by rewrite <- app_assoc.
Qed.

#[local] Instance chip_laws : FlashLaws flash.
Proof.
  split.
  - intros h row col k Hr Hc Hk. cbn [nand_data chip_flash]. unfold chip_after.
    rewrite !foldl_app, chip_read_cycles. unfold chip_word. rewrite chip_reads. done.
  - intros h es i He Hi Hl. cbn [gpmc_read chip_flash].
    replace (GPMC_ECC1_RESULT + 4 * i - GPMC_ECC1_RESULT) with (i * 4) by lia. rewrite Z.div_mul by done.
    rewrite app_assoc, chip_ecc_data by done. unfold chip_after at 1. rewrite foldl_app. done.
Qed.

(** Ready at once after a reset, and a chip of Micron. *)
#[local] Instance chip_id : FlashId 0.
Proof.
  split.
  - intros h. exists 0%nat. split; [lia|]. cbn [nand_data chip_flash replicate]. unfold chip_after. rewrite foldl_app. reflexivity.
  - intros h. cbn [nand_data chip_flash]. unfold chip_after. rewrite foldl_app. reflexivity.
  - intros h. cbn [nand_data chip_flash]. unfold chip_after. rewrite foldl_app. right. left.
Qed.
End chip.

(** ** A partition: one good block with a damaged bit in every page, the rest bad *)
Definition zero_block : list Z := replicate 512 0.
Definition zero_page : list (list Z) := replicate 4 zero_block.

Definition ex_oob (mark : Z) : list Z := mark :: 0xff :: replicate 62 0.

Definition ex_flash (row : Z) : list Z :=
  if row <? 320 then concat (flip zero_block 9 :: replicate 3 zero_block) ++ ex_oob 0xff
  else concat zero_page ++ ex_oob 0.

Definition ex_partition : list block_state := GoodBlock (replicate 64 zero_page) :: replicate 13 BadBlock.

#[local] Instance ex_chip : Flash := chip_flash ex_flash.
#[local] Instance ex_chip_laws : FlashLaws ex_flash := chip_laws ex_flash.

Lemma is_block_zero : is_block zero_block.
Proof. split; [done|]. by apply Forall_replicate. Qed.

Lemma block_ecc_zero : block_ecc zero_block = 0.
Proof.
  apply xor_sum_none. intros i _. unfold block_bit, zero_block.
  assert (forall n k, nth k (replicate n 0) 0 = 0) as -> by (induction n; intros [|k]; cbn; auto).
  apply Z.testbit_0_l.
Qed.

Lemma zero_code : stored_code zero_block = [0; 0; 0].
Proof. unfold stored_code. by rewrite block_ecc_zero. Qed.

Lemma ex_oob_codes mark : (fun pos => nth pos (ex_oob mark) 0) <$> ecc_pos = concat (replicate 4 (stored_code zero_block)).
Proof. by rewrite zero_code. Qed.

Lemma ex_flash_bytes row : Forall is_byte (ex_flash row) /\ zlen (ex_flash row) = 2112.
Proof. unfold ex_flash. destruct (row <? 320); split; try done; apply (bool_decide_unpack _); by vm_compute. Qed.

Lemma ex_page row : row < 320 -> page_holds ex_flash row zero_page.
Proof.
  intros Hr. split; [done|]. split; [apply Forall_replicate, is_block_zero|].
  split; [apply ex_flash_bytes|].
  exists (flip zero_block 9 :: replicate 3 zero_block), (ex_oob 0xff), (replicate 4 (stored_code zero_block)).
  split; [unfold ex_flash; by rewrite (proj2 (Z.ltb_lt row 320))|]. split; [done|].
  split; [apply ex_oob_codes|]. constructor; [by constructor|].
  repeat (constructor; [by constructor|]). constructor.
Qed.

Lemma ex_blocks i b : ex_partition !! i = Some b -> block_holds ex_flash (256 + 64 * Z.of_nat i) b.
Proof.
  intros Hi. split; [apply ex_flash_bytes|]. split; [apply ex_flash_bytes|].
  destruct i as [|i].
  - assert (b = GoodBlock (replicate 64 zero_page)) as -> by (by injection Hi). split; [done|]. split; [done|]. intros j p Hj.
    apply lookup_replicate in Hj as [-> Hj]. apply ex_page. lia.
  - change (replicate 13 BadBlock !! i = Some b) in Hi. apply lookup_replicate in Hi as [-> Hi].
    unfold ex_flash. by rewrite (proj2 (Z.ltb_ge _ 320)) by lia.
Qed.

Lemma zlen_ex_image : zlen (image ex_partition) = NAND_BLOCK_SIZE.
Proof.
  assert (image ex_partition = block_image (GoodBlock (replicate 64 zero_page))) as ->.
  { unfold image, ex_partition. cbn [fmap list_fmap concat].
    change (concat (block_image <$> replicate 13 BadBlock)) with (@nil Z). apply app_nil_r. }
  by rewrite (zlen_block_image _ 256) by (apply (ex_blocks 0); done).
Qed.

(** ** Boards with this flash and a card in the slot *)
#[local] Instance ex_chip_id : FlashId 0 := chip_id ex_flash.

Definition ex_memory : list Z := replicate (Z.to_nat (4 * TEST_SIZE)) 0.

Definition ex_board (pins : Z) : board slot :=
  mk_board ex_memory (ex_reader (ex_mmc ex_off (mk_card 0 0 0 0 0))) [] 0 pins [].

Lemma ex_memory_size : 4 * TEST_SIZE <= zlen ex_memory.
Proof. unfold zlen, ex_memory. rewrite length_replicate, Z2Nat.id by done. done. Qed.



Lemma start_armboot_mmc_missing_witness :
  start_armboot (H0 := slot_host ex_card ex_nsect ex_bare) 2 10 (ex_board 9) = Fault Hang.
Proof.
  apply (start_armboot_mmc_missing (H0 := slot_host ex_card ex_nsect ex_bare) (SdSlot0 := bare_laws) ex_card ex_nsect ex_bare 0 s_st s_armed s_ended s_replied
    ex_card_ok 2 ltac:(lia) ltac:(unfold ex_nsect; lia) (conj eq_refl eq_refl) ex_geometry bare_volume [7] bare_root_dir
    0 ltac:(lia) 10 (ex_board 9)).
  - exact ex_memory_size.
  - reflexivity.
  - reflexivity.
  - by vm_compute.
  - exact bare_not_found.
  - cbn. lia.
Defined.

(** Two inverted bits in the first block of every page. *)
Definition ex_bad_flash (row : Z) : list Z :=
  concat (flip (flip zero_block 9) 4095 :: replicate 3 zero_block) ++ ex_oob 0xff.

Lemma nand_read_page_hangs_witness :
  nand_read_page (H := chip_flash ex_bad_flash) CFG_LOADADDR (2048 * 7) (mk_xstate [] (replicate 4096 0) 0) = Fault Hang.
Proof.
  apply (@nand_read_page_hangs (chip_flash ex_bad_flash) ex_bad_flash (chip_laws ex_bad_flash) 7 [] [] [] zero_block 9 4095 (replicate 3 zero_block)
    (replicate 3 (stored_code zero_block)) (ex_oob 0xff) _ _ [] (replicate 2048 0) (replicate 2048 0)).
  - lia.
  - reflexivity.
  - apply (bool_decide_unpack _). by vm_compute.
  - reflexivity.
  - reflexivity.
  - apply Forall_replicate. reflexivity.
  - exact (ex_oob_codes 0xff).
  - constructor.
  - by apply Forall_nil.
  - exact is_block_zero.
  - lia.
  - lia.
  - lia.
  - change (popcount 12 (Z.lxor 9 4095)) with 10. lia.
  - rewrite block_ecc_zero. lia.
  - reflexivity.
  - reflexivity.
  - reflexivity.
Defined.

Lemma hw_ecc_miscorrects_two_bits_witness :
  omap_correct_data_hw_ecc (flip (flip zero_block 0) 63) (stored_code zero_block)
    (stored_code (flip (flip zero_block 0) 63))
  = (0, flip (flip (flip zero_block 0) 63) (Z.lxor 0 63)).
Proof.
  apply (hw_ecc_miscorrects_two_bits zero_block 0 63); [exact is_block_zero|lia|lia|reflexivity].
Defined.

Lemma nand_ecc_one_and_two_bits_witness :
  let dat := replicate 256 0xEA in
  let code := nand_calculate_ecc dat in
  nand_correct_data (flip dat 3) code (nand_calculate_ecc (flip dat 3)) = Ok (1, dat, code) /\
  nand_correct_data (flip (flip dat 3) 100) code (nand_calculate_ecc (flip (flip dat 3) 100))
  = Ok (-1, flip (flip dat 3) 100, code).
Proof.
  apply (nand_ecc_one_and_two_bits (replicate 256 0xEA) 3 100); [|lia|lia|lia].
  split; [reflexivity|]. by apply Forall_replicate.
Defined.
