(* ===== verification/I2cTools.v ===== *)
(** * The I2C utilities: bus access, chips and the fan tool

[src/utils/util/]: [i2c.c], the chip drivers [ina219.c] (power monitor), [max1668.c]
(thermometer) and [tc654.c] (fan controller), and [rhino_fan.c], the command that
programs the fan controller.  The Linux I2C device file is the [I2cBus] class;
[RegisterBus] says what it does when chips with registers answer.  [char] is
unsigned and [long] has 32 bits, as on the board's ARM processor. *)
From stdpp Require Import base list strings.
From S2P Require Import Prelude Bits Mkbof.
From Stdlib Require Import ZArith Lia.

(** * The code *)

(** The system calls on the device file: [open], [close], [ioctl] with [I2C_SLAVE],
[write], and [read], which returns its result and the bytes it has stored. *)
Class I2cBus (B : Type) : Type := {
  bus_open : string -> M B Z;
  bus_close : Z -> M B Z;
  bus_slave : Z -> Z -> M B Z;
  bus_write : Z -> list Z -> M B Z;
  bus_read : Z -> Z -> M B (Z * list Z);
}.

(** What is printed. *)
Inductive i2c_line : Type :=
| OpenFailed (file : string)
| SlaveFailed
| FanUsage | BadFan | BadMode | BadDuty | BadPulses | BadThreshold | UnknownOption (c : Z)
| ModeSet (digital : bool) | ModeFailed
| DutySet (dutycycle : Z) | DutyFailed
| PprSet (fan pulses : Z) | PprFailed (fan : Z)
| FaultSet (fan threshold : Z) | FaultFailed (fan : Z)
| FaultCleared | ClearFailed
| Rpm (fan rpm : Z) (fault : bool) | RpmFailed (fan : Z) | StatusFailed.

(** ** [i2c.c] *)
Definition I2C_MAX_BUFLEN : Z := 4.

(** The two static variables, with the bus and the output.  The static buffer of
[i2c_write] is filled before every use. *)
Record i2c_state (B : Type) : Type := mk_i2c {
  i_bus : B;
  i2c_dev : Z;
  slave_address : Z;
  i_out : list i2c_line;
}.
Arguments mk_i2c {B}.
Arguments i_bus {B}.
Arguments i2c_dev {B}.
Arguments slave_address {B}.
Arguments i_out {B}.

(** ** Registers of the chips *)
Inductive ina219_reg : Type := INA219_VOLT_REG | INA219_CURR_REG | INA219_CAL_REG.
Definition ina219_code (r : ina219_reg) : Z :=
  match r with INA219_VOLT_REG => 0x02 | INA219_CURR_REG => 0x04 | INA219_CAL_REG => 0x05 end.
Definition INA219_CAL_VALUE : Z := 0x2000.

Inductive tc654_reg : Type :=
| TC654_RPM1 | TC654_RPM2 | TC654_FAN_FAULT1 | TC654_FAN_FAULT2 | TC654_CONFIG | TC654_STATUS
| TC654_DUTY_CYCLE | TC654_MFR_ID | TC654_VER_ID.
Definition tc654_code (r : tc654_reg) : Z :=
  match r with
  | TC654_RPM1 => 0x00 | TC654_RPM2 => 0x01 | TC654_FAN_FAULT1 => 0x02 | TC654_FAN_FAULT2 => 0x03
  | TC654_CONFIG => 0x04 | TC654_STATUS => 0x05 | TC654_DUTY_CYCLE => 0x06 | TC654_MFR_ID => 0x07
  | TC654_VER_ID => 0x08
  end.

Inductive max1668_reg : Type :=
| MAX1668_RIT_REG | MAX1668_RET1_REG | MAX1668_RET2_REG | MAX1668_RET3_REG | MAX1668_RET4_REG.
Definition max1668_code (r : max1668_reg) : Z :=
  match r with
  | MAX1668_RIT_REG => 0x00 | MAX1668_RET1_REG => 0x01 | MAX1668_RET2_REG => 0x02
  | MAX1668_RET3_REG => 0x03 | MAX1668_RET4_REG => 0x04
  end.

(** [strtol] with base 10 and a 32-bit [long]: the value, and whether there was a
digit, that is whether [endptr] has moved. *)
Definition strtol (s : list Z) : Z * bool :=
  let '(neg, l) := match skip_ws s with
                   | c :: l => if c =? 45 then (true, l) else if c =? 43 then (false, l) else (false, c :: l)
                   | [] => (false, [])
                   end in
  let v := scan_decimal l 0 in
  (Z.max (- 2 ^ 31) (Z.min (if neg then - v else v) (2 ^ 31 - 1)),
   match l with c :: _ => (48 <=? c) && (c <=? 57) | [] => false end).

Definition FAN_CONTRLR_ADDR : Z := 0x1B.

Section tools.
Context {B : Type} `{I2cBus B}.
Abbreviation IM := (M (i2c_state B)).

Definition set_bus (b : B) (s : i2c_state B) : i2c_state B := mk_i2c b (i2c_dev s) (slave_address s) (i_out s).
Definition set_i2c_dev (fd : Z) (s : i2c_state B) : i2c_state B := mk_i2c (i_bus s) fd (slave_address s) (i_out s).
Definition set_slave_address (a : Z) (s : i2c_state B) : i2c_state B := mk_i2c (i_bus s) (i2c_dev s) a (i_out s).
Definition i2c_print (l : i2c_line) : IM unit :=
  mmodify (fun s => mk_i2c (i_bus s) (i2c_dev s) (slave_address s) (i_out s ++ [l])).

Definition on_bus {A} (m : Z -> M B A) : IM A := fun s =>
  match m (i2c_dev s) (i_bus s) with
  | Ok (a, b) => Ok (a, set_bus b s)
  | Fault f => Fault f
  end.

Definition i2c_open (file : string) : IM Z :=
  let! fd := on_bus (fun _ => bus_open file) in
  do! mmodify (set_i2c_dev fd) in
  if fd =? -1 then do! i2c_print (OpenFailed file) in mret 1 else mret 0.

Definition i2c_close : IM Z :=
  let! fd := mgets i2c_dev in
  if truthy fd then
    let! rv := on_bus bus_close in
    do! mmodify (set_i2c_dev 0) in
    mret rv
  else mret 0.

(** The selection of the slave at the start of a transfer; false when it fails. *)
Definition select_slave (adr : Z) : IM bool :=
  let! cur := mgets slave_address in
  if negb (adr =? cur) then
    let! r := on_bus (fun fd => bus_slave fd adr) in
    if r <? 0 then do! i2c_print SlaveFailed in mret false
    else do! mmodify (set_slave_address adr) in mret true
  else mret true.

(** The result and the bytes stored in [buf]. *)
Definition i2c_read (adr reg buf_len : Z) : IM (Z * list Z) :=
  let! ok := select_slave adr in
  if negb ok then mret (-1, []) else
  let! w := on_bus (fun fd => bus_write fd [reg]) in
  if negb (w =? 1) then mret (-1, []) else
  on_bus (fun fd => bus_read fd buf_len).

Definition i2c_write (adr reg : Z) (buf : list Z) : IM Z :=
  if I2C_MAX_BUFLEN <? zlen buf then mret (-1) else
  let! ok := select_slave adr in
  if negb ok then mret (-1) else
  let! w := on_bus (fun fd => bus_write fd (reg :: buf)) in
  mret (if w =? zlen buf + 1 then zlen buf else -1).

(** ** [ina219.c] *)
Definition INA219calibrate (i2c_addr : Z) : IM Z :=
  let! r := i2c_write i2c_addr (ina219_code INA219_CAL_REG)
              [Z.land (Z.shiftr INA219_CAL_VALUE 8) 0xFF; Z.land INA219_CAL_VALUE 0xFF] in
  mret (if r =? 2 then 0 else 1).

(** The status and [*millivolts]. *)
Definition INA219readVoltage (i2c_addr : Z) : IM (Z * Z) :=
  let! (r, reg) := i2c_read i2c_addr (ina219_code INA219_VOLT_REG) 2 in
  if negb (r =? 2) then mret (1, 0) else
  mret (0, u16 ((Z.shiftl (nth 0 reg 0) 5 + Z.shiftr (nth 1 reg 0) 3) * 4)).

Definition INA219readCurrent (i2c_addr : Z) : IM (Z * Z) :=
  let! (r, reg) := i2c_read i2c_addr (ina219_code INA219_CURR_REG) 2 in
  if negb (r =? 2) then mret (1, 0) else
  mret (0, s16 (Z.shiftl (nth 0 reg 0) 8 + nth 1 reg 0)).

Definition INA219readPower (i2c_addr : Z) : IM (Z * Z) :=
  let! (_, millivolts) := INA219readVoltage i2c_addr in
  let! (_, milliamps) := INA219readCurrent i2c_addr in
  mret (0, Z.quot (s32 (millivolts * milliamps)) 1000).

(** A read of one byte, 0 when it fails: the body of the plain reads below. *)
Definition read_byte (i2c_addr reg : Z) : IM (Z * Z) :=
  let! (r, buf) := i2c_read i2c_addr reg 1 in
  if negb (r =? 1) then mret (1, 0) else mret (0, nth 0 buf 0).

(** A write of one byte. *)
Definition write_byte (i2c_addr reg v : Z) : IM Z :=
  let! r := i2c_write i2c_addr reg [v] in
  mret (if negb (r =? 1) then 1 else 0).

(** ** [max1668.c]: [MAX1668readLocalTemp] and [MAX1668readDX1Temp] to [DX4Temp] *)
Definition MAX1668readTemp (reg : max1668_reg) (i2c_addr : Z) : IM (Z * Z) :=
  read_byte i2c_addr (max1668_code reg).

(** ** [tc654.c] *)
Definition TC654readConfig (i2c_addr : Z) : IM (Z * Z) := read_byte i2c_addr (tc654_code TC654_CONFIG).
Definition TC654writeConfig (i2c_addr config : Z) : IM Z := write_byte i2c_addr (tc654_code TC654_CONFIG) config.
Definition TC654readStatus (i2c_addr : Z) : IM (Z * Z) := read_byte i2c_addr (tc654_code TC654_STATUS).
Definition TC654readDutyCycle (i2c_addr : Z) : IM (Z * Z) := read_byte i2c_addr (tc654_code TC654_DUTY_CYCLE).
Definition TC654writeDutyCycle (i2c_addr ds : Z) : IM Z := write_byte i2c_addr (tc654_code TC654_DUTY_CYCLE) ds.
Definition TC654readManufacturerID (i2c_addr : Z) : IM (Z * Z) := read_byte i2c_addr (tc654_code TC654_MFR_ID).
Definition TC654readVersionID (i2c_addr : Z) : IM (Z * Z) := read_byte i2c_addr (tc654_code TC654_VER_ID).

(** [TC654readRPM1] and [TC654readRPM2]; the fan is 1 or 2. *)
Definition TC654readRPM (fan i2c_addr : Z) : IM (Z * Z) :=
  let! (r, buf) := i2c_read i2c_addr (tc654_code (if fan =? 1 then TC654_RPM1 else TC654_RPM2)) 1 in
  if negb (r =? 1) then mret (1, 0) else
  let trpm := nth 0 buf 0 in
  let! (c, config) := TC654readConfig i2c_addr in
  let mult := if truthy c then if truthy (Z.land config 0x40) then 25 else 50 else 50 in
  mret (0, u16 (trpm * mult)).

(** [TC654readFault1] and [2], [TC654writeFault1] and [2]. *)
Definition fault_reg (fan : Z) : Z := tc654_code (if fan =? 1 then TC654_FAN_FAULT1 else TC654_FAN_FAULT2).
Definition TC654readFault (fan i2c_addr : Z) : IM (Z * Z) :=
  let! (r, buf) := i2c_read i2c_addr (fault_reg fan) 1 in
  if negb (r =? 1) then mret (1, 0) else mret (0, u16 (nth 0 buf 0 * 50)).
Definition TC654writeFault (fan i2c_addr threshold : Z) : IM Z :=
  write_byte i2c_addr (fault_reg fan) (u8 (threshold / 50)).

(** ** [rhino_fan.c] *)

(** The local variables of [main] that the options set. *)
Record fan_opts : Type := mk_fan {
  fan : Z;
  clear_flag : bool; mode_flag : bool; speed_flag : bool; pulse_flag : bool; fault_flag : bool;
  mode : Z; dutycycle : Z; pulses : Z; threshold : Z;
}.

Definition default_fan (n : Z) : fan_opts := mk_fan n false false false false false 97 2 2 500.

(** One option of the [switch]; [None] when the program returns 1. *)
Definition fan_option (o : fan_opts) (opt : Z) (optarg : list Z) : IM (option fan_opts) :=
  let '(v, digits) := strtol optarg in
  if opt =? 109 then                                                  (* 'm' *)
    let c := u8 (hd 0 optarg) in
    if negb (c =? 97) && negb (c =? 100) then do! i2c_print BadMode in mret None else
    mret (Some (mk_fan (fan o) (clear_flag o) true (speed_flag o) (pulse_flag o) (fault_flag o)
      c (dutycycle o) (pulses o) (threshold o)))
  else if opt =? 115 then                                             (* 's' *)
    if negb digits || (15 <? u8 v) then do! i2c_print BadDuty in mret None else
    mret (Some (mk_fan (fan o) (clear_flag o) (mode_flag o) true (pulse_flag o) (fault_flag o)
      (mode o) (u8 v) (pulses o) (threshold o)))
  else if opt =? 99 then                                              (* 'c' *)
    mret (Some (mk_fan (fan o) true (mode_flag o) (speed_flag o) (pulse_flag o) (fault_flag o)
      (mode o) (dutycycle o) (pulses o) (threshold o)))
  else if opt =? 112 then                                             (* 'p' *)
    if negb digits || negb ((u8 v =? 1) || (u8 v =? 2) || (u8 v =? 4) || (u8 v =? 8))
    then do! i2c_print BadPulses in mret None else
    mret (Some (mk_fan (fan o) (clear_flag o) (mode_flag o) (speed_flag o) true (fault_flag o)
      (mode o) (dutycycle o) (u8 v) (threshold o)))
  else if opt =? 102 then                                             (* 'f' *)
    if negb digits then do! i2c_print BadThreshold in mret None else
    mret (Some (mk_fan (fan o) (clear_flag o) (mode_flag o) (speed_flag o) (pulse_flag o) true
      (mode o) (dutycycle o) (pulses o) (u16 v)))
  else do! i2c_print (UnknownOption opt) in mret (Some o).

(** The loop over what [getopt_long] returns. *)
Fixpoint fan_options (o : fan_opts) (opts : list (Z * list Z)) : IM (option fan_opts) :=
  match opts with
  | [] => mret (Some o)
  | (c, optarg) :: opts =>
    let! r := fan_option o c optarg in
    match r with None => mret None | Some o => fan_options o opts end
  end.

(** The steps below return false when the program returns 1. *)
Definition fan_mode (o : fan_opts) : IM bool :=
  if negb (mode_flag o) then mret true else
  let! (r, config) := TC654readConfig FAN_CONTRLR_ADDR in
  if negb (r =? 0) then mret true else
  let config := if mode o =? 100 then Z.lor config 0x20 else Z.land config 0xDF in
  let! w := TC654writeConfig FAN_CONTRLR_ADDR config in
  if w =? 0 then do! i2c_print (ModeSet (mode o =? 100)) in mret true
  else do! i2c_print ModeFailed in mret false.

Definition fan_speed (o : fan_opts) : IM bool :=
  if negb (speed_flag o) then mret true else
  let! w := TC654writeDutyCycle FAN_CONTRLR_ADDR (dutycycle o) in
  if w =? 0 then do! i2c_print (DutySet (dutycycle o)) in mret true
  else do! i2c_print DutyFailed in mret false.

Definition pulse_bits (n : Z) : Z := if n =? 1 then 0 else if n =? 4 then 2 else if n =? 8 then 3 else 1.

Definition fan_pulse (o : fan_opts) : IM bool :=
  if negb (pulse_flag o) then mret true else
  let! (r, config) := TC654readConfig FAN_CONTRLR_ADDR in
  if negb (r =? 0) then mret true else
  let bits := pulse_bits (pulses o) in
  let config := if fan o =? 1 then Z.lor (Z.land config 0xF9) (Z.shiftl bits 1)
                else Z.lor (Z.land config 0xE7) (Z.shiftl bits 3) in
  let! w := TC654writeConfig FAN_CONTRLR_ADDR config in
  if w =? 0 then do! i2c_print (PprSet (fan o) (pulses o)) in mret true
  else do! i2c_print (PprFailed (fan o)) in mret false.

Definition fan_fault (o : fan_opts) : IM bool :=
  if negb (fault_flag o) then mret true else
  let! w := TC654writeFault (fan o) FAN_CONTRLR_ADDR (threshold o) in
  if w =? 0 then do! i2c_print (FaultSet (fan o) (threshold o)) in mret true
  else do! i2c_print (FaultFailed (fan o)) in mret false.

Definition fan_clear (o : fan_opts) : IM bool :=
  if negb (clear_flag o) then mret true else
  let! (r, config) := TC654readConfig FAN_CONTRLR_ADDR in
  if negb (r =? 0) then do! i2c_print ClearFailed in mret false else
  let config := Z.lor config 0x80 in
  let! w := TC654writeConfig FAN_CONTRLR_ADDR config in
  if negb (w =? 0) then do! i2c_print ClearFailed in mret false else
  let config := Z.land config 0x7F in
  let! w := TC654writeConfig FAN_CONTRLR_ADDR config in
  if negb (w =? 0) then do! i2c_print ClearFailed in mret false else
  do! i2c_print FaultCleared in mret true.

Definition fan_report (o : fan_opts) : IM unit :=
  let! (r, status) := TC654readStatus FAN_CONTRLR_ADDR in
  if negb (r =? 0) then i2c_print StatusFailed else
  let fault := truthy (Z.land status (if fan o =? 1 then 0x01 else 0x02)) in
  let! (r, rpm) := TC654readRPM (fan o) FAN_CONTRLR_ADDR in
  if r =? 0 then i2c_print (Rpm (fan o) rpm fault) else i2c_print (RpmFailed (fan o)).

(** A step, then the rest unless the program returns 1. *)
Definition unless_failed (m : IM bool) (k : IM Z) : IM Z := let! ok := m in if ok then k else mret 1.

(** From the opened bus on. *)
Definition fan_steps (o : fan_opts) : IM Z :=
  unless_failed (fan_mode o) (
  unless_failed (fan_speed o) (
  unless_failed (fan_pulse o) (
  unless_failed (fan_fault o) (
  unless_failed (fan_clear o) (
  do! fan_report o in
  do! i2c_close in
  mret 0))))).

(** [args] is [argv] from 1 on, [opts] what [getopt_long] returns for it. *)
Definition rhino_fan (args : list (list Z)) (opts : list (Z * list Z)) : IM Z :=
  match args with
  | [] => do! i2c_print FanUsage in mret 1
  | arg :: _ =>
    let '(n, digits) := strtol arg in
    if negb digits then do! i2c_print FanUsage in mret 1 else
    if negb ((n =? 1) || (n =? 2)) then do! i2c_print BadFan in mret 1 else
    let! r := fan_options (default_fan n) opts in
    match r with
    | None => mret 1
    | Some o =>
      let! r := i2c_open "/dev/i2c-1" in
      if truthy r then mret 1 else fan_steps o
    end
  end.
End tools.

(** * Chips with registers on the bus *)

Definition regfile : Type := Z -> Z -> list Z.
Definition upd (f : regfile) (a r : Z) (data : list Z) : regfile :=
  fun a' r' => if (a' =? a) && (r' =? r) then data else f a' r'.

(** The stored registers hold [f]. *)
Definition holds (stored : Z -> Z -> bool) (regs f : regfile) : Prop :=
  forall a r, stored a r = true -> regs a r = f a r.

(** Linux's [i2c-dev] on a bus with chips.  A device file is closed, open, or open with
a slave selected ([conn]).  A chip that is [present] has registers; a write sends the
number of a register, which stays selected for reads ([pointer]), and then bytes for
it.  A [stored] register keeps what is written to it and is changed by nothing else;
the others (measurements, status) may give anything.  Address 0 is the general call,
which no chip takes: with no slave selected, a write is not acknowledged. *)
Class RegisterBus (B : Type) `{I2cBus B} (path : string) : Type := {
  bus_fd : Z;
  conn : B -> option (option Z);
  pointer : B -> Z;
  regs : B -> regfile;
  present : Z -> bool;
  stored : Z -> Z -> bool;
  bus_fd_pos : 0 < bus_fd;
  present_nonzero a : present a = true -> a <> 0;
  open_law b : conn b = None ->
    exists b', runs (bus_open path) b bus_fd b' /\ conn b' = Some None /\ holds stored (regs b') (regs b);
  close_law b c : conn b = Some c ->
    exists b', runs (bus_close bus_fd) b 0 b' /\ conn b' = None /\ holds stored (regs b') (regs b);
  slave_law b c a : conn b = Some c -> present a = true ->
    exists b', runs (bus_slave bus_fd a) b 0 b' /\ conn b' = Some (Some a) /\ holds stored (regs b') (regs b);
  point_law b a r : conn b = Some (Some a) -> present a = true ->
    exists b', runs (bus_write bus_fd [r]) b 1 b' /\ conn b' = Some (Some a) /\ pointer b' = r /\
      holds stored (regs b') (regs b);
  write_law b a r data : conn b = Some (Some a) -> present a = true -> stored a r = true ->
    data <> [] -> zlen data = zlen (regs b a r) -> Forall is_byte data ->
    exists b', runs (bus_write bus_fd (r :: data)) b (zlen data + 1) b' /\ conn b' = Some (Some a) /\
      holds stored (regs b') (upd (regs b) a r data);
  read_law b a n : conn b = Some (Some a) -> present a = true -> 0 < n ->
    exists b' d, runs (bus_read bus_fd n) b (n, d) b' /\ conn b' = Some (Some a) /\
      zlen d = n /\ Forall is_byte d /\ holds stored (regs b') (regs b) /\
      (stored a (pointer b) = true -> n <= zlen (regs b a (pointer b)) -> d = slice 0 n (regs b a (pointer b)));
  no_slave_law b data : conn b = Some None ->
    exists b', runs (bus_write bus_fd data) b (-1) b' /\ conn b' = Some None /\ holds stored (regs b') (regs b);
}.

Section chips.
Context {B : Type} `{I2cBus B} {path : string} `{!RegisterBus B path}.
Implicit Types (s : i2c_state B) (f : regfile) (out : list i2c_line).

Lemma holds_trans g1 g2 g3 : holds stored g1 g2 -> holds stored g2 g3 -> holds stored g1 g3.
Proof. intros H1 H2 a r Hs. by rewrite (H1 a r Hs), (H2 a r Hs). Qed.

Lemma holds_upd g f a r data : holds stored g f -> holds stored (upd g a r data) (upd f a r data).
Proof. intros Hg a' r' Hs. unfold upd. destruct (_ && _); [done|by apply Hg]. Qed.

(** The device file is open, the cached address is the selected slave, the stored
registers hold [f]. *)
Definition online f out s : Prop :=
  i2c_dev s = bus_fd /\ i_out s = out /\ holds stored (regs (i_bus s)) f /\
  exists c, conn (i_bus s) = Some c /\ (slave_address s <> 0 -> c = Some (slave_address s)).

(** The same, with slave [a] selected. *)
Definition at_slave a f out s : Prop :=
  i2c_dev s = bus_fd /\ i_out s = out /\ holds stored (regs (i_bus s)) f /\
  conn (i_bus s) = Some (Some a) /\ slave_address s = a.

Lemma at_online a f out s : at_slave a f out s -> online f out s.
Proof. intros (Hd & Ho & Hf & Hc & Ha). split; [done|]. split; [done|]. split; [done|]. exists (Some a). by rewrite Ha. Qed.

Lemma online_ext f g out s : holds stored f g -> online f out s -> online g out s.
Proof. intros Hg (Hd & Ho & Hf & Hc). split; [done|]. split; [done|]. split; [by eapply holds_trans|done]. Qed.

Lemma print_online f out l : tot (online f out) (i2c_print l) (fun _ => online f (out ++ [l])).
Proof. apply tot_modify. intros s (Hd & Ho & Hf & Hc). unfold online. cbn. by rewrite Ho. Qed.

Lemma on_bus_runs {A} (m : Z -> M B A) s a b :
  runs (m (i2c_dev s)) (i_bus s) a b -> runs (on_bus m) s a (set_bus b s).
Proof. unfold runs, on_bus. by intros ->. Qed.

Lemma select_slave_tot a f out :
  present a = true -> tot (online f out) (select_slave a) (fun ok s => ok = true /\ at_slave a f out s).
Proof.
  intros Ha s (Hd & Ho & Hf & c & Hc & Hs). pose proof (present_nonzero a Ha) as H0. unfold select_slave.
  destruct (Z.eqb_spec a (slave_address s)) as [E|E].
  - exists true, s. split; [|split; [done|]].
    + unfold runs. erewrite mbind_run by apply runs_gets. by rewrite (proj2 (Z.eqb_eq _ _) E).
    + rewrite (Hs ltac:(congruence)) in Hc. unfold at_slave. by rewrite <- E in *.
  - destruct (slave_law (i_bus s) c a Hc Ha) as (b' & Hr & Hc' & Hg). rewrite <- Hd in Hr.
    eexists true, _. split; [|split; [done|]].
    + unfold runs. erewrite mbind_run by apply runs_gets. rewrite (proj2 (Z.eqb_neq _ _) E). cbn [negb].
      erewrite mbind_run by (apply on_bus_runs; exact Hr). reflexivity.
    + unfold at_slave. cbn. split; [done|]. split; [done|]. split; [by eapply holds_trans|done].
Qed.

(** What a read of [n] bytes of register [r] gives. *)
Definition reads_as f a r n (x : Z * list Z) : Prop :=
  x.1 = n /\ zlen x.2 = n /\ Forall is_byte x.2 /\
  (stored a r = true -> n <= zlen (f a r) -> x.2 = slice 0 n (f a r)).

Lemma i2c_read_tot a r n f out :
  present a = true -> 0 < n ->
  tot (online f out) (i2c_read a r n) (fun x s => reads_as f a r n x /\ online f out s).
Proof.
  intros Ha Hn. eapply tot_bind_eq; [by apply select_slave_tot|]. cbn [negb]. intros s (Hd & Ho & Hf & Hc & Hs).
  destruct (point_law (i_bus s) a r Hc Ha) as (b1 & Hr1 & Hc1 & Hp & Hg1). rewrite <- Hd in Hr1.
  destruct (read_law b1 a n Hc1 Ha Hn) as (b2 & d & Hr2 & Hc2 & Hl & Hb & Hg2 & He). rewrite <- Hd in Hr2.
  exists (n, d), (set_bus b2 (set_bus b1 s)). split; [|split].
  - unfold runs. erewrite mbind_run by (apply on_bus_runs; exact Hr1). cbn [Z.eqb Pos.eqb negb].
    apply (on_bus_runs (fun fd => bus_read fd n) (set_bus b1 s)). exact Hr2.
  - split; [done|]. split; [done|]. split; [done|]. cbn [snd]. rewrite Hp in He. intros Hst Hle.
    rewrite <- (Hf a r Hst), <- (Hg1 a r Hst). apply He; [done|]. by rewrite (Hg1 a r Hst), (Hf a r Hst).
  - apply (at_online a). split; [done|]. split; [done|]. split; [|done].
    eapply holds_trans; [exact Hg2|]. by eapply holds_trans.
Qed.

Lemma i2c_write_tot a r data f out :
  present a = true -> stored a r = true -> 0 < zlen data <= I2C_MAX_BUFLEN -> zlen data = zlen (f a r) ->
  Forall is_byte data ->
  tot (online f out) (i2c_write a r data) (fun k s => k = zlen data /\ online (upd f a r data) out s).
Proof.
  intros Ha Hst Hl He Hb. unfold i2c_write. rewrite (proj2 (Z.ltb_ge _ _)) by lia.
  eapply tot_bind_eq; [by apply select_slave_tot|]. cbn [negb]. intros s (Hd & Ho & Hf & Hc & Hs).
  destruct (write_law (i_bus s) a r data Hc Ha Hst) as (b' & Hr & Hc' & Hg); [intros ->; unfold zlen in Hl; cbn in Hl; lia|by rewrite (Hf a r Hst)|done|].
  rewrite <- Hd in Hr. exists (zlen data), (set_bus b' s). split; [|split; [done|]].
  - unfold runs. erewrite mbind_run by (apply on_bus_runs; exact Hr). by rewrite Z.eqb_refl.
  - apply (at_online a). split; [done|]. split; [done|]. split; [|done].
    eapply holds_trans; [exact Hg|]. by apply holds_upd.
Qed.

(** ** Sequences of transfers *)
Inductive exchange : Type := TRead (a r n : Z) | TWrite (a r : Z) (data : list Z).

Definition run_transfer (t : exchange) : M (i2c_state B) (Z * list Z) :=
  match t with
  | TRead a r n => i2c_read a r n
  | TWrite a r data => let! k := i2c_write a r data in mret (k, [])
  end.

Fixpoint run_transfers (ts : list exchange) : M (i2c_state B) (list (Z * list Z)) :=
  match ts with
  | [] => mret []
  | t :: ts => let! x := run_transfer t in let! xs := run_transfers ts in mret (x :: xs)
  end.

(** The same on a map from addresses and registers to contents. *)
Definition abstract_transfer (f : regfile) (t : exchange) : (Z * list Z) * regfile :=
  match t with
  | TRead a r n => ((n, slice 0 n (f a r)), f)
  | TWrite a r data => ((zlen data, []), upd f a r data)
  end.

Fixpoint abstract_transfers (f : regfile) (ts : list exchange) : list (Z * list Z) * regfile :=
  match ts with
  | [] => ([], f)
  | t :: ts =>
    let '(x, f) := abstract_transfer f t in
    let '(xs, f) := abstract_transfers f ts in (x :: xs, f)
  end.

(** Transfers with chips that are there, of registers at their size. *)
Definition transfer_ok (width : Z -> Z -> Z) (t : exchange) : Prop :=
  match t with
  | TRead a r n => present a = true /\ stored a r = true /\ 0 < n <= width a r
  | TWrite a r data => present a = true /\ stored a r = true /\ zlen data = width a r /\
      0 < width a r <= I2C_MAX_BUFLEN /\ Forall is_byte data
  end.

Lemma run_transfer_tot width t f out :
  transfer_ok width t -> (forall a r, zlen (f a r) = width a r) ->
  tot (online f out) (run_transfer t)
    (fun x s => x = (abstract_transfer f t).1 /\ online (abstract_transfer f t).2 out s).
Proof.
  destruct t as [a r n|a r data]; cbn [transfer_ok run_transfer abstract_transfer fst snd]; intros Ht Hw.
  - destruct Ht as (Ha & Hst & Hn). eapply tot_conseq; [apply i2c_read_tot; [done|lia]|done|].
    intros [k d] s [(E & _ & _ & Hd) Hs]. cbn in E, Hd. split; [|done]. rewrite E, Hd; [done|done|]. rewrite Hw. lia.
  - destruct Ht as (Ha & Hst & Hl & Hn & Hb). eapply tot_bind_eq; [apply i2c_write_tot; try done; rewrite ?Hw; lia|].
    by apply tot_ret.
Qed.

Lemma abstract_transfer_width width t f :
  transfer_ok width t -> (forall a r, zlen (f a r) = width a r) ->
  forall a r, zlen ((abstract_transfer f t).2 a r) = width a r.
Proof.
  destruct t as [|a' r' data]; [by auto|]. intros (_ & _ & Hl & _) Hw a r. cbn. unfold upd.
  destruct (Z.eqb_spec a a'), (Z.eqb_spec r r'); subst; cbn; auto.
Qed.

(** C27. The transfer functions refine a map from chip addresses and registers to their
contents.  On an open device file, run any list of reads and writes of chips that
are on the bus, in any order of addresses: each transfer reaches the chip it names,
although the slave is only selected when it differs from the cached one; each
returns the number of bytes; reads return what was last written; and nothing else
changes. *)
Theorem i2c_transfers_refine width ts f out s :
  Forall (transfer_ok width) ts -> (forall a r, zlen (f a r) = width a r) -> online f out s ->
  exists s', runs (run_transfers ts) s (abstract_transfers f ts).1 s' /\ online (abstract_transfers f ts).2 out s'.
Proof.
  intros Hts. revert f s. induction Hts as [|t ts Ht Hts IH]; intros f s Hw Hs; [by exists s|].
  destruct (run_transfer_tot width t f out Ht Hw s Hs) as (x & s1 & Hr & -> & Hs1).
  destruct (IH _ s1 (abstract_transfer_width width t f Ht Hw) Hs1) as (s2 & Hr2 & Hs2).
  exists s2. cbn [run_transfers abstract_transfers].
  destruct (abstract_transfer f t) as [x f1], (abstract_transfers f1 ts) as [xs f2] eqn:E. cbn [fst snd] in *.
  rewrite E in Hr2, Hs2. split; [|done]. eapply runs_bind; [exact Hr|]. eapply runs_bind; [exact Hr2|]. apply runs_ret.
Qed.

(** ** Measurements *)

Lemma stored_read_tot a r n f out v :
  present a = true -> stored a r = true -> 0 < n -> f a r = v -> zlen v = n ->
  tot (online f out) (i2c_read a r n) (fun x s => x = (n, v) /\ online f out s).
Proof.
  intros Ha Hst Hn Hv Hl. eapply tot_conseq; [by apply i2c_read_tot|done|]. intros [k d] s [(E & _ & _ & Hd) Hs]. cbn in E, Hd.
  split; [|done]. rewrite E, Hd; [|done|by rewrite Hv, Hl]. rewrite Hv. by rewrite slice_all by lia.
Qed.

(** The voltage is the upper 13 bits of its register in units of 4 mV, and fits 16
bits. *)
Lemma INA219readVoltage_exact a v0 v1 f out :
  present a = true -> stored a (ina219_code INA219_VOLT_REG) = true ->
  f a (ina219_code INA219_VOLT_REG) = [v0; v1] -> is_byte v0 -> is_byte v1 ->
  tot (online f out) (INA219readVoltage a) (fun x s => x = (0, 4 * ((256 * v0 + v1) / 8)) /\ online f out s).
Proof.
  intros Ha Hs Hv B0 B1. unfold is_byte in *. eapply tot_bind_eq; [by apply stored_read_tot|]. apply tot_ret.
  intros s Ho. split; [|done]. cbn [nth]. rewrite !Z.shiftl_mul_pow2, Z.shiftr_div_pow2 by done.
  change (2 ^ 5) with 32. change (2 ^ 3) with 8.
  assert ((v0 * 32 + v1 / 8) * 4 = 4 * ((256 * v0 + v1) / 8)) as Ev.
  { replace (256 * v0 + v1) with (v0 * 32 * 8 + v1) by lia. rewrite Z.div_add_l by done. lia. }
  pose proof (Z.div_pos v1 8). assert (v1 / 8 < 32) by (apply Z.div_lt_upper_bound; lia).
  by rewrite (wrapu_small 16), Ev by lia.
Qed.

Lemma INA219readCurrent_exact a i0 i1 f out :
  present a = true -> stored a (ina219_code INA219_CURR_REG) = true ->
  f a (ina219_code INA219_CURR_REG) = [i0; i1] ->
  tot (online f out) (INA219readCurrent a) (fun x s => x = (0, s16 (256 * i0 + i1)) /\ online f out s).
Proof.
  intros Ha Hs Hv. eapply tot_bind_eq; [by apply stored_read_tot|]. apply tot_ret.
  intros s Ho. split; [|done]. cbn [nth]. rewrite !Z.shiftl_mul_pow2 by done. change (2 ^ 8) with 256. do 3 f_equal. lia.
Qed.

(** The power is the product of the voltage and the signed current, rounded towards zero;
32 bits hold the product. *)
Lemma INA219readPower_exact a v0 v1 i0 i1 f out :
  present a = true -> stored a (ina219_code INA219_VOLT_REG) = true -> stored a (ina219_code INA219_CURR_REG) = true ->
  f a (ina219_code INA219_VOLT_REG) = [v0; v1] -> f a (ina219_code INA219_CURR_REG) = [i0; i1] ->
  is_byte v0 -> is_byte v1 -> is_byte i0 -> is_byte i1 ->
  tot (online f out) (INA219readPower a) (fun x s =>
    x = (0, Z.quot (4 * ((256 * v0 + v1) / 8) * s16 (256 * i0 + i1)) 1000) /\ online f out s).
Proof.
  intros Ha Hs1 Hs2 Hv Hi B0 B1 B2 B3.
  eapply tot_bind_eq; [by apply INA219readVoltage_exact|]. eapply tot_bind_eq; [by apply INA219readCurrent_exact|].
  apply tot_ret. intros s Hs. split; [|done]. unfold is_byte in *.
  assert (0 <= 4 * ((256 * v0 + v1) / 8) <= 32764) as Hr.
  { pose proof (Z.div_pos (256 * v0 + v1) 8). assert ((256 * v0 + v1) / 8 < 8192) by (apply Z.div_lt_upper_bound; lia). lia. }
  assert (- 2 ^ 15 <= s16 (256 * i0 + i1) < 2 ^ 15) as Hc.
  { unfold wraps. pose proof (Z.mod_pos_bound (256 * i0 + i1) (2 ^ 16)). cbv zeta. destruct (Z.ltb_spec ((256 * i0 + i1) mod 2 ^ 16) (2 ^ (16 - 1))); lia. }
  do 2 f_equal. apply wraps_small; [done|nia].
Qed.

(** The unit of the speed register is 25 turns when bit 6 of the configuration is set.
The test of the result of [TC654readConfig] is inverted, so that the unit is 50 for
every configuration: such a fan is shown at twice its speed. *)
Lemma TC654readRPM_unit n a t c f out :
  present a = true -> stored a (tc654_code (if n =? 1 then TC654_RPM1 else TC654_RPM2)) = true ->
  stored a (tc654_code TC654_CONFIG) = true -> is_byte t ->
  f a (tc654_code (if n =? 1 then TC654_RPM1 else TC654_RPM2)) = [t] -> f a (tc654_code TC654_CONFIG) = [c] ->
  tot (online f out) (TC654readRPM n a) (fun x s => x = (0, 50 * t) /\ online f out s).
Proof.
  intros Ha Hs1 Hs2 Ht Hr Hc. eapply tot_bind_eq; [by apply stored_read_tot|]. cbn [Z.eqb Pos.eqb negb].
  eapply tot_bind_eq; [eapply tot_bind_eq; [by apply stored_read_tot|]; by apply tot_ret|].
  apply tot_ret. intros s Hs. split; [|done]. unfold is_byte in Ht. cbn. rewrite wrapu_small by lia. f_equal. lia.
Qed.

(** ** The device file closed and opened *)

(** Closed, or open with no slave selected, with [a] the cached address. *)
Definition unselected (c : option (option Z)) a f out s : Prop :=
  conn (i_bus s) = c /\ slave_address s = a /\ i_out s = out /\ holds stored (regs (i_bus s)) f.

Lemma i2c_close_tot a f out :
  tot (fun s => online f out s /\ slave_address s = a) i2c_close (fun r s => r = 0 /\ unselected None a f out s).
Proof.
  intros s [(Hd & Ho & Hf & c & Hc & _) Ha]. pose proof bus_fd_pos as Hp.
  destruct (close_law (i_bus s) c Hc) as (b1 & Hr1 & Hc1 & Hg). rewrite <- Hd in Hr1.
  exists 0, (set_i2c_dev 0 (set_bus b1 s)). split.
  - unfold runs, i2c_close. erewrite mbind_run by apply runs_gets. unfold truthy. rewrite (proj2 (Z.eqb_neq _ _)) by lia.
    cbn [negb]. erewrite mbind_run by (apply on_bus_runs; exact Hr1). reflexivity.
  - split; [done|]. split; [done|]. split; [done|]. split; [done|]. by eapply holds_trans.
Qed.

Lemma i2c_open_tot a f out :
  tot (unselected None a f out) (i2c_open path)
    (fun r s => r = 0 /\ (unselected (Some None) a f out s /\ i2c_dev s = bus_fd)).
Proof.
  intros s (Hc & Ha & Ho & Hf). pose proof bus_fd_pos as Hp. destruct (open_law (i_bus s) Hc) as (b & Hr & Hc' & Hg).
  exists 0, (set_i2c_dev bus_fd (set_bus b s)). split.
  - unfold runs, i2c_open. erewrite mbind_run by (apply on_bus_runs; exact Hr).
    erewrite mbind_run by apply runs_modify. rewrite (proj2 (Z.eqb_neq _ _)) by lia. reflexivity.
  - split; [done|]. split; [|done]. split; [done|]. split; [done|]. split; [done|]. by eapply holds_trans.
Qed.

Lemma opened_online f out s : unselected (Some None) 0 f out s -> i2c_dev s = bus_fd -> online f out s.
Proof. intros (Hc & Ha & Ho & Hf) Hd. split; [done|]. split; [done|]. split; [done|]. exists None. by rewrite Ha. Qed.

(** [i2c_close] keeps the cached address and the new device file has no slave: after
a transfer with chip [a], closing and opening makes every transfer with the same
chip fail. *)
Lemma i2c_reopen_stale f out a r n :
  tot (fun s => online f out s /\ slave_address s = a)
    (do! i2c_close in do! i2c_open path in i2c_read a r n) (fun x _ => x = (-1, [])).
Proof.
  eapply tot_bind_eq; [apply i2c_close_tot|]. eapply tot_bind_eq; [apply i2c_open_tot|]. intros s [(Hc & Ha & _) Hd].
  destruct (no_slave_law (i_bus s) [r] Hc) as (b & Hr & _). rewrite <- Hd in Hr. exists (-1, []), (set_bus b s). split; [|done].
  assert (runs (select_slave a) s true s) as Hs.
  { unfold runs, select_slave. erewrite mbind_run by apply runs_gets. by rewrite Ha, Z.eqb_refl. }
  unfold runs, i2c_read. erewrite mbind_run by exact Hs. cbn [negb].
  by erewrite mbind_run by (apply on_bus_runs; exact Hr).
Qed.
End chips.

(** * The fan controller *)

(** [fan_option] only accepts what the chip can take. *)
Definition fan_ok (o : fan_opts) : Prop :=
  (fan o = 1 \/ fan o = 2) /\ (mode o = 97 \/ mode o = 100) /\ 0 <= dutycycle o <= 15 /\
  (pulses o = 1 \/ pulses o = 2 \/ pulses o = 4 \/ pulses o = 8) /\ is_uint 16 (threshold o).

(** The bits of the configuration register that the options ask for: bit 5 selects
digital control, bits 1-2 and 3-4 are the logarithms of the pulses of a turn of the
fans 1 and 2, bit 7 clears a fault and goes back to 0. *)
Definition config_bit (o : fan_opts) (c i : Z) : bool :=
  let lo := if fan o =? 1 then 1 else 3 in
  if mode_flag o && (i =? 5) then mode o =? 100
  else if pulse_flag o && ((lo <=? i) && (i <? lo + 2)) then Z.testbit (Z.log2 (pulses o)) (i - lo)
  else if clear_flag o && (i =? 7) then false
  else Z.testbit c i.

(** The values the tool writes. *)
Definition mode_config (o : fan_opts) (c : Z) : Z :=
  if mode_flag o then if mode o =? 100 then Z.lor c 0x20 else Z.land c 0xDF else c.
Definition pulse_config (o : fan_opts) (c : Z) : Z :=
  if pulse_flag o then
    if fan o =? 1 then Z.lor (Z.land c 0xF9) (Z.shiftl (pulse_bits (pulses o)) 1)
    else Z.lor (Z.land c 0xE7) (Z.shiftl (pulse_bits (pulses o)) 3)
  else c.
Definition clear_config (o : fan_opts) (c : Z) : Z :=
  if clear_flag o then Z.land (Z.lor c 0x80) 0x7F else c.

(** What is printed on the way. *)
Definition fan_lines (o : fan_opts) : list i2c_line :=
  (if mode_flag o then [ModeSet (mode o =? 100)] else []) ++
  (if speed_flag o then [DutySet (dutycycle o)] else []) ++
  (if pulse_flag o then [PprSet (fan o) (pulses o)] else []) ++
  (if fault_flag o then [FaultSet (fan o) (threshold o)] else []) ++
  (if clear_flag o then [FaultCleared] else []).

Abbreviation CONFIG := (tc654_code TC654_CONFIG).
Abbreviation DUTY := (tc654_code TC654_DUTY_CYCLE).

(** The registers of the controller after a run that leaves [c] in the configuration. *)
Definition fan_file (o : fan_opts) (c : Z) (f : regfile) : regfile :=
  fun a r =>
    if (a =? FAN_CONTRLR_ADDR) && (r =? CONFIG) then [c]
    else if speed_flag o && ((a =? FAN_CONTRLR_ADDR) && (r =? DUTY)) then [dutycycle o]
    else if fault_flag o && ((a =? FAN_CONTRLR_ADDR) && (r =? fault_reg (fan o))) then [u8 (threshold o / 50)]
    else f a r.

Lemma pulse_bits_range n : 0 <= pulse_bits n <= 3.
Proof. unfold pulse_bits. repeat destruct (_ =? _); lia. Qed.

Lemma mode_config_byte o c : is_byte c -> is_byte (mode_config o c).
Proof.
  unfold is_byte, mode_config. change 256 with (2 ^ 8). intros Hc.
  destruct (mode_flag o), (mode o =? 100); try done; [apply lor_range|apply land_range]; done.
Qed.

Lemma pulse_config_byte o c : is_byte c -> is_byte (pulse_config o c).
Proof.
  unfold is_byte, pulse_config. change 256 with (2 ^ 8). intros Hc. pose proof (pulse_bits_range (pulses o)) as Hb.
  destruct (pulse_flag o), (fan o =? 1); try done;
    (apply lor_range; [done|by apply land_range|rewrite Z.shiftl_mul_pow2 by done; lia]).
Qed.

Lemma clear_config_byte o c : is_byte c -> is_byte (Z.lor c 0x80) /\ is_byte (clear_config o c).
Proof.
  unfold is_byte, clear_config. change 256 with (2 ^ 8). intros Hc.
  assert (0 <= Z.lor c 0x80 < 2 ^ 8) by (by apply lor_range).
  split; [done|]. destruct (clear_flag o); [by apply land_range|done].
Qed.

Lemma config_bits o c i :
  fan_ok o -> is_byte c -> 0 <= i < 8 ->
  Z.testbit (clear_config o (pulse_config o (mode_config o c))) i = config_bit o c i.
Proof.
  intros (Hf & Hm & _ & Hp & _) _ Hi. unfold clear_config, pulse_config, mode_config, config_bit.
  assert (i = 0 \/ i = 1 \/ i = 2 \/ i = 3 \/ i = 4 \/ i = 5 \/ i = 6 \/ i = 7) as Hc by lia.
  destruct Hf as [Ef|Ef], Hm as [Em|Em]; rewrite Ef, Em; destruct Hp as [Ep|[Ep|[Ep|Ep]]]; rewrite Ep;
    destruct (clear_flag o), (pulse_flag o), (mode_flag o);
    repeat (destruct Hc as [->|Hc] || subst i); cbn -[Z.testbit Z.lor Z.land];
    rewrite ?Z.land_spec, ?Z.lor_spec, ?Z.land_spec, ?Z.lor_spec, ?Z.land_spec, ?Z.lor_spec;
    cbn -[Z.testbit]; try reflexivity; by destruct (Z.testbit c _).
Qed.

Section fan.
Context {B : Type} `{I2cBus B} `{!RegisterBus B "/dev/i2c-1"}.
Implicit Types (s : i2c_state B) (f : regfile) (out : list i2c_line).

Lemma read_byte_any a r f out :
  present a = true ->
  tot (online f out) (read_byte a r) (fun x s => (x.1 = 0 /\ is_byte x.2) /\ online f out s).
Proof.
  intros Ha. eapply tot_bind; [by apply i2c_read_tot|]. intros [k d]. apply tot_pure. intros (E & Hl & Hb & _).
  cbn in E, Hl, Hb. rewrite E. apply tot_ret. intros s Hs. split; [|done]. split; [done|]. cbn [snd].
  destruct d as [|x d]; [done|]. by inversion Hb.
Qed.

Lemma read_byte_tot a r v f out :
  present a = true -> stored a r = true -> f a r = [v] ->
  tot (online f out) (read_byte a r) (fun x s => x = (0, v) /\ online f out s).
Proof. intros Ha Hst Hv. eapply tot_bind_eq; [by apply stored_read_tot|]. by apply tot_ret. Qed.

Lemma write_byte_tot a r v f out :
  present a = true -> stored a r = true -> zlen (f a r) = 1 -> is_byte v ->
  tot (online f out) (write_byte a r v) (fun k s => k = 0 /\ online (upd f a r [v]) out s).
Proof.
  intros Ha Hst Hl Hv. eapply tot_bind_eq; [apply i2c_write_tot; try done; by constructor|]. by apply tot_ret.
Qed.

(** A threshold below 12800 is read back rounded down to a multiple of 50. *)
Lemma fault_threshold_roundtrip n a th f out :
  present a = true -> stored a (fault_reg n) = true -> zlen (f a (fault_reg n)) = 1 -> 0 <= th < 12800 ->
  tot (online f out) (do! TC654writeFault n a th in TC654readFault n a)
    (fun x s => x = (0, 50 * (th / 50)) /\ online (upd f a (fault_reg n) [u8 (th / 50)]) out s).
Proof.
  intros Ha Hst Hl Hth. pose proof (Z.div_pos th 50). assert (th / 50 < 256) by (apply Z.div_lt_upper_bound; lia).
  eapply tot_bind_eq; [apply write_byte_tot; [done..|by apply (wrapu_range 8)]|].
  eapply tot_bind_eq; [apply (stored_read_tot _ _ _ _ _ [u8 (th / 50)]); try done; unfold upd; by rewrite !Z.eqb_refl|].
  apply tot_ret. intros s Hs. split; [|done]. cbn [Z.eqb Pos.eqb negb nth]. rewrite (wrapu_small 8), wrapu_small by lia. f_equal. lia.
Qed.

(** The fan controller is on the bus, and the registers that the tool sets are stored. *)
Definition settable (r : tc654_reg) : bool :=
  match r with TC654_CONFIG | TC654_DUTY_CYCLE | TC654_FAN_FAULT1 | TC654_FAN_FAULT2 => true | _ => false end.
Definition fan_chip : Prop :=
  present FAN_CONTRLR_ADDR = true /\
  forall r, settable r = true -> stored FAN_CONTRLR_ADDR (tc654_code r) = true.

Definition bytewide f : Prop := forall r, zlen (f FAN_CONTRLR_ADDR (tc654_code r)) = 1.

Hypothesis chip : fan_chip.

Lemma fan_present : present FAN_CONTRLR_ADDR = true.
Proof. apply chip. Qed.
Lemma fan_stored r : settable r = true -> stored FAN_CONTRLR_ADDR (tc654_code r) = true.
Proof. apply chip. Qed.

Lemma bytewide_upd f r v : bytewide f -> bytewide (upd f FAN_CONTRLR_ADDR r [v]).
Proof. intros Hf r'. unfold upd. destruct (_ && _); [done|apply Hf]. Qed.

Lemma upd_same f a r v : f a r = v -> holds stored f (upd f a r v).
Proof. intros E a' r' _. unfold upd. destruct (Z.eqb_spec a' a), (Z.eqb_spec r' r); subst; done. Qed.

Lemma print_done f out l : tot (online f out) (do! i2c_print l in mret true) (fun ok s => ok = true /\ online f (out ++ [l]) s).
Proof. eapply tot_bind; [apply print_online|]. intros []. by apply tot_ret. Qed.

Lemma skipped f g out : holds stored f g -> tot (online f out) (mret true) (fun ok s => ok = true /\ online g (out ++ []) s).
Proof. intros Hg. apply tot_ret. intros s Hs. rewrite app_nil_r. split; [done|by eapply online_ext]. Qed.

Lemma fan_mode_tot o c f out :
  f FAN_CONTRLR_ADDR CONFIG = [c] -> is_byte c ->
  tot (online f out) (fan_mode o) (fun ok s => ok = true /\
    online (upd f FAN_CONTRLR_ADDR CONFIG [mode_config o c]) (out ++ if mode_flag o then [ModeSet (mode o =? 100)] else []) s).
Proof.
  intros Hc Hb. pose proof (mode_config_byte o c Hb) as Hm. unfold fan_mode, mode_config in *.
  destruct (mode_flag o); cbn [negb]; [|by apply skipped, upd_same].
  eapply tot_bind_eq; [apply read_byte_tot; [apply fan_present|by apply fan_stored|exact Hc]|]. cbn [Z.eqb negb].
  eapply tot_bind_eq; [apply write_byte_tot; [apply fan_present|by apply fan_stored|by rewrite Hc|exact Hm]|].
  apply print_done.
Qed.

Lemma fan_speed_tot o f out :
  bytewide f -> 0 <= dutycycle o <= 15 ->
  tot (online f out) (fan_speed o) (fun ok s => ok = true /\
    online (if speed_flag o then upd f FAN_CONTRLR_ADDR DUTY [dutycycle o] else f)
      (out ++ if speed_flag o then [DutySet (dutycycle o)] else []) s).
Proof.
  intros Hw Hd. unfold fan_speed. destruct (speed_flag o); cbn [negb]; [|by apply skipped].
  eapply tot_bind_eq; [apply write_byte_tot; [apply fan_present|by apply fan_stored|apply Hw|unfold is_byte; lia]|].
  apply print_done.
Qed.

Lemma fan_pulse_tot o c f out :
  f FAN_CONTRLR_ADDR CONFIG = [c] -> is_byte c ->
  tot (online f out) (fan_pulse o) (fun ok s => ok = true /\
    online (upd f FAN_CONTRLR_ADDR CONFIG [pulse_config o c]) (out ++ if pulse_flag o then [PprSet (fan o) (pulses o)] else []) s).
Proof.
  intros Hc Hb. pose proof (pulse_config_byte o c Hb) as Hm. unfold fan_pulse, pulse_config in *.
  destruct (pulse_flag o); cbn [negb]; [|by apply skipped, upd_same].
  eapply tot_bind_eq; [apply read_byte_tot; [apply fan_present|by apply fan_stored|exact Hc]|]. cbn [Z.eqb negb].
  eapply tot_bind_eq; [apply write_byte_tot; [apply fan_present|by apply fan_stored|by rewrite Hc|exact Hm]|].
  apply print_done.
Qed.

Lemma fan_fault_tot o f out :
  bytewide f ->
  tot (online f out) (fan_fault o) (fun ok s => ok = true /\
    online (if fault_flag o then upd f FAN_CONTRLR_ADDR (fault_reg (fan o)) [u8 (threshold o / 50)] else f)
      (out ++ if fault_flag o then [FaultSet (fan o) (threshold o)] else []) s).
Proof.
  intros Hw. unfold fan_fault, TC654writeFault, fault_reg. destruct (fault_flag o); cbn [negb]; [|by apply skipped].
  eapply tot_bind_eq; [apply write_byte_tot; [apply fan_present|apply fan_stored; by destruct (_ =? _)|apply Hw|by apply (wrapu_range 8)]|].
  apply print_done.
Qed.

Lemma fan_clear_tot o c f out :
  f FAN_CONTRLR_ADDR CONFIG = [c] -> is_byte c ->
  tot (online f out) (fan_clear o) (fun ok s => ok = true /\
    online (upd f FAN_CONTRLR_ADDR CONFIG [clear_config o c]) (out ++ if clear_flag o then [FaultCleared] else []) s).
Proof.
  intros Hc Hb. destruct (clear_config_byte o c Hb) as [Hm Hm']. unfold fan_clear, clear_config in *.
  destruct (clear_flag o); cbn [negb]; [|by apply skipped, upd_same].
  eapply tot_bind_eq; [apply read_byte_tot; [apply fan_present|by apply fan_stored|exact Hc]|]. cbn [Z.eqb negb].
  eapply tot_bind_eq; [apply write_byte_tot; [apply fan_present|by apply fan_stored|by rewrite Hc|exact Hm]|].
  cbn [Z.eqb negb].
  eapply tot_bind_eq; [apply write_byte_tot; [apply fan_present|by apply fan_stored|done|exact Hm']|].
  cbn [Z.eqb negb]. eapply tot_conseq; [apply print_done|done|]. intros ok s [-> Hs]. split; [done|].
  eapply online_ext; [|exact Hs]. intros a r _. unfold upd. by destruct (_ && _).
Qed.

Lemma TC654readRPM_tot n f out :
  tot (online f out) (TC654readRPM n FAN_CONTRLR_ADDR) (fun x s => (x.1 = 0 /\ exists t, is_byte t /\ x.2 = 50 * t) /\ online f out s).
Proof.
  eapply tot_bind; [apply i2c_read_tot; [apply fan_present|done]|]. intros [k d]. apply tot_pure. intros (E & Hl & Hb & _).
  cbn in E, Hl, Hb. rewrite E. cbn [Z.eqb Pos.eqb negb]. destruct d as [|t d]; [done|]. inversion Hb as [|?? Ht _]; subst.
  eapply tot_bind; [apply read_byte_any, fan_present|]. intros [c config]. apply tot_pure. intros [Ec _]. cbn in Ec. rewrite Ec.
  cbn [truthy Z.eqb negb nth]. apply tot_ret. intros s Hs. split; [|done]. split; [done|]. exists t. split; [done|].
  unfold is_byte in Ht. cbn [snd]. rewrite wrapu_small by lia. lia.
Qed.

Lemma fan_report_tot o f out :
  tot (online f out) (fan_report o) (fun _ s => exists t fault, is_byte t /\ online f (out ++ [Rpm (fan o) (50 * t) fault]) s).
Proof.
  eapply tot_bind; [apply read_byte_any, fan_present|]. intros [k status]. apply tot_pure. intros [E _]. cbn in E. rewrite E.
  cbn [Z.eqb negb]. eapply tot_bind; [apply TC654readRPM_tot|]. intros [k' rpm]. apply tot_pure. intros [E' (t & Ht & Er)].
  cbn in E', Er. rewrite E', Er. cbn [Z.eqb]. eapply tot_conseq; [apply print_online|done|]. intros u s Hs. eexists t, _. split; [exact Ht|exact Hs].
Qed.

(** ** The options *)
Lemma fan_option_ok o opt optarg o' s s' :
  fan_ok o -> runs (fan_option o opt optarg) s (Some o') s' -> fan_ok o'.
Proof.
  unfold fan_option. intros (Hf & Hm & Hd & Hp & Ht). destruct (strtol optarg) as [v digits].
  pose proof (wrapu_range 8 v ltac:(done)) as H8. pose proof (wrapu_range 16 v ltac:(done)) as H16.
  destruct (opt =? 109); [|destruct (opt =? 115); [|destruct (opt =? 99); [|destruct (opt =? 112); [|destruct (opt =? 102)]]]].
  - destruct (Z.eqb_spec (u8 (hd 0 optarg)) 97) as [E|E], (Z.eqb_spec (u8 (hd 0 optarg)) 100) as [E'|E']; cbn [negb andb];
      intros [= <- _]; unfold fan_ok; cbn; tauto.
  - destruct digits, (Z.ltb_spec 15 (u8 v)); cbn [negb orb]; intros [= <- _]. unfold fan_ok. cbn. intuition lia.
  - intros [= <- _]. unfold fan_ok. cbn. tauto.
  - destruct digits, (Z.eqb_spec (u8 v) 1), (Z.eqb_spec (u8 v) 2), (Z.eqb_spec (u8 v) 4), (Z.eqb_spec (u8 v) 8);
      cbn [negb orb]; intros [= <- _]; unfold fan_ok; cbn; tauto.
  - destruct digits; cbn [negb]; intros [= <- _]. unfold fan_ok, is_uint in *. cbn. tauto.
  - intros [= <- _]. unfold fan_ok. tauto.
Qed.

Lemma fan_options_ok opts o o' s s' : fan_ok o -> runs (fan_options o opts) s (Some o') s' -> fan_ok o'.
Proof.
  revert o s. induction opts as [|[c optarg] opts IH]; intros o s Ho; cbn [fan_options]; [by intros [= <- _]|].
  intros Hr. apply runs_bind_inv in Hr as ([o1|] & s1 & H1 & H2); [|discriminate H2].
  eapply IH; [|exact H2]. by eapply fan_option_ok.
Qed.

Lemma default_fan_ok n : n = 1 \/ n = 2 -> fan_ok (default_fan n).
Proof. intros Hn. unfold fan_ok, default_fan. cbn. unfold is_uint. repeat split; try lia; auto. Qed.

(** ** The run *)
Lemma unless_failed_tot (P Q : i2c_state B -> Prop) m k R :
  tot P m (fun ok s => ok = true /\ Q s) -> tot Q k R -> tot P (unless_failed m k) R.
Proof. intros Hm Hk. by eapply tot_bind_eq. Qed.

Lemma upd_eq f a r v : upd f a r v a r = v.
Proof. unfold upd. by rewrite !Z.eqb_refl. Qed.

Lemma upd_config f r v : r <> TC654_CONFIG ->
  upd f FAN_CONTRLR_ADDR (tc654_code r) v FAN_CONTRLR_ADDR CONFIG = f FAN_CONTRLR_ADDR CONFIG.
Proof. by destruct r. Qed.

(** The order of the five steps does not matter for what the registers hold. *)
Lemma fan_file_steps o c f :
  holds stored
    (upd (let g := upd (let g := upd f FAN_CONTRLR_ADDR CONFIG [mode_config o c] in
            if speed_flag o then upd g FAN_CONTRLR_ADDR DUTY [dutycycle o] else g) FAN_CONTRLR_ADDR CONFIG
            [pulse_config o (mode_config o c)] in
          if fault_flag o then upd g FAN_CONTRLR_ADDR (fault_reg (fan o)) [u8 (threshold o / 50)] else g)
       FAN_CONTRLR_ADDR CONFIG [clear_config o (pulse_config o (mode_config o c))])
    (fan_file o (clear_config o (pulse_config o (mode_config o c))) f).
Proof.
  intros a r _. cbv zeta. unfold fan_file, fault_reg. destruct (fan o =? 1), (speed_flag o), (fault_flag o); unfold upd; cbn [andb];
    destruct (Z.eqb_spec a FAN_CONTRLR_ADDR); cbn [andb]; try done;
    destruct (Z.eqb_spec r CONFIG); try done; destruct (Z.eqb_spec r DUTY) as [->|]; done.
Qed.

Lemma fan_steps_tot o c f out :
  let c' := clear_config o (pulse_config o (mode_config o c)) in
  fan_ok o -> bytewide f -> f FAN_CONTRLR_ADDR CONFIG = [c] -> is_byte c ->
  tot (online f out) (fan_steps o) (fun r s => r = 0 /\ conn (i_bus s) = None /\
    holds stored (regs (i_bus s)) (fan_file o c' f) /\
    exists t fault, is_byte t /\ i_out s = out ++ fan_lines o ++ [Rpm (fan o) (50 * t) fault]).
Proof.
  intros c' (_ & _ & Hd & _) Hw Hc Hb. pose proof (mode_config_byte o c Hb) as Hb1.
  pose proof (pulse_config_byte o _ Hb1) as Hb2. unfold fan_steps.
  eapply unless_failed_tot; [by apply fan_mode_tot|].
  eapply unless_failed_tot; [apply fan_speed_tot; [by apply bytewide_upd|done]|].
  eapply unless_failed_tot; [apply fan_pulse_tot; [|exact Hb1]|].
  { destruct (speed_flag o); [rewrite upd_config by done|]; apply upd_eq. }
  eapply unless_failed_tot; [apply fan_fault_tot; apply bytewide_upd; destruct (speed_flag o); by repeat apply bytewide_upd|].
  eapply unless_failed_tot; [apply fan_clear_tot; [|exact Hb2]|].
  { unfold fault_reg. destruct (fault_flag o); [rewrite upd_config by (by destruct (_ =? _))|]; apply upd_eq. }
  eapply tot_bind; [apply fan_report_tot|]. intros u s (t & fault & Ht & Hs).
  destruct (i2c_close_tot _ _ _ s (conj Hs eq_refl)) as (r & s' & Hr & -> & Hc' & _ & Ho & Hf).
  exists 0, s'. split; [eapply runs_bind; [exact Hr|apply runs_ret]|]. split; [done|]. split; [done|]. split.
  - eapply holds_trans; [exact Hf|]. apply fan_file_steps.
  - exists t, fault. split; [done|]. rewrite Ho. unfold fan_lines. by rewrite <- !app_assoc.
Qed.

End fan.
