(* ===== verification/ExamplesI2c.v ===== *)
(** * Examples: chips on an I2C bus

An executable bus with a fan controller and a power monitor, proved to obey
[RegisterBus], and the theorems on the I2C utilities applied to it. *)
From stdpp Require Import base list strings.
From S2P Require Import Prelude Bits Mkbof I2cTools.
From Stdlib Require Import ZArith Lia.

(** ** The bus *)
Record toy : Type := mk_toy {
  t_conn : option (option Z);   (* the device file and its slave *)
  t_pointer : Z;                (* the register last named *)
  t_regs : regfile;
}.

Definition toy_chip (a : Z) : bool := (a =? 0x1B) || (a =? 0x40).
Definition toy_read (t : toy) (a r n : Z) : list Z :=
  u8 <$> (take (Z.to_nat n) (t_regs t a r) ++ replicate (Z.to_nat n - length (t_regs t a r)) 255).

#[export] Instance toy_bus : I2cBus toy := {
  bus_open := fun _ t => Ok (3, mk_toy (Some None) (t_pointer t) (t_regs t));
  bus_close := fun _ t => Ok (0, mk_toy None (t_pointer t) (t_regs t));
  bus_slave := fun _ a t =>
    if toy_chip a then Ok (0, mk_toy (Some (Some a)) (t_pointer t) (t_regs t)) else Ok (-1, t);
  bus_write := fun _ data t =>
    match t_conn t, data with
    | Some (Some a), [r] => Ok (1, mk_toy (t_conn t) r (t_regs t))
    | Some (Some a), r :: data => Ok (zlen data + 1, mk_toy (t_conn t) r (upd (t_regs t) a r data))
    | _, _ => Ok (-1, t)
    end;
  bus_read := fun _ n t =>
    match t_conn t with
    | Some (Some a) => Ok ((n, toy_read t a (t_pointer t) n), t)
    | _ => Ok ((-1, []), t)
    end;
}.

Lemma bytes_wrapped l : Forall is_byte (u8 <$> l).
Proof. apply Forall_fmap, Forall_true. intros x. by apply (wrapu_range 8). Qed.

Lemma wrapped_bytes l : Forall is_byte l -> u8 <$> l = l.
Proof. induction 1 as [|x l Hx Hl IH]; [done|]. cbn. unfold is_byte in Hx. rewrite (wrapu_small 8) by lia. by f_equal. Qed.

#[export] Instance toy_laws : RegisterBus toy "/dev/i2c-1".
Proof.
  refine {| bus_fd := 3; conn := t_conn; pointer := t_pointer; regs t a r := u8 <$> t_regs t a r;
    present := toy_chip; stored _ _ := true |}; try done.
  - intros a. unfold toy_chip. intros E ->. discriminate E.
  - intros t E. by eexists.
  - intros t c E. by eexists.
  - intros t c a E Ha. eexists. cbn. split; [unfold runs; by rewrite Ha|done].
  - intros t a r E Ha. eexists. cbn. split; [unfold runs; by rewrite E|]. done.
  - intros t a r data E Ha _ Hn _ Hb. destruct data as [|x data]; [done|]. eexists. cbn -[zlen].
    split; [unfold runs; by rewrite E|]. split; [done|]. intros a' r' _. cbn. unfold upd.
    destruct (_ && _); [by apply wrapped_bytes|done].
  - intros t a n E Ha Hn. eexists _, _. cbn. split; [unfold runs; by rewrite E|]. split; [done|].
    split; [|split; [apply bytes_wrapped|split; [done|]]].
    + unfold toy_read, zlen. rewrite length_fmap, length_app, length_take, length_replicate. lia.
    + intros _ Hl. unfold zlen in Hl. rewrite length_fmap in Hl. unfold toy_read, slice. cbn [Z.to_nat drop].
      replace (Z.to_nat n - _)%nat with 0%nat by lia. cbn [replicate]. by rewrite app_nil_r, fmap_take.
  - intros t data E. eexists. cbn. split; [unfold runs; by rewrite E|done].
Defined.

(** A controller with a fault and analog control, and a power monitor. *)
Definition toy_file : regfile := fun a r =>
  if a =? 0x1B then [nth (Z.to_nat r) [40; 0; 10; 10; 0x0A; 1; 2; 0x84; 0] 0] else [0x5D; 0xC0].
Definition toy_off : i2c_state toy := mk_i2c (mk_toy None 0 toy_file) 0 0 [].
Definition toy_on : i2c_state toy := mk_i2c (mk_toy (Some None) 0 toy_file) 3 0 [].

Definition ex_transfers : list exchange :=
  [TRead 0x1B 4 1; TWrite 0x1B 4 [0x20]; TRead 0x40 2 2; TRead 0x1B 4 1].

Lemma i2c_transfers_refine_witness : exists s', runs (run_transfers ex_transfers) toy_on
  [(1, [0x0A]); (1, []); (2, [0x5D; 0xC0]); (1, [0x20])] s'.
Proof.
  destruct (i2c_transfers_refine (fun a _ => if a =? 0x1B then 1 else 2) ex_transfers (fun a r => u8 <$> toy_file a r) [] toy_on)
    as (s' & Hr & _).
  - repeat constructor; vm_compute; repeat split; congruence.
  - intros a r. unfold toy_file. by destruct (a =? 0x1B).
  - split; [done|]. split; [done|]. split; [by intros a r|]. by exists None.
  - exists s'. vm_compute in Hr. exact Hr.
Defined.

(** [rhino_fan 1 -m d -s 7 -p 4 -f 600 -c] *)
Definition ex_options : list (Z * list Z) :=
  [(109, [100]); (115, [55]); (112, [52]); (102, [54; 48; 48]); (99, [])].
Definition ex_fan : fan_opts := mk_fan 1 true true true true true 100 7 4 600.

Lemma toy_fan_chip : fan_chip (B := toy).
Proof. split; [reflexivity|]. intros r _. reflexivity. Qed.

