(* ===== verification/Printf.v ===== *)
(** * Formatted printing of the boot loader

[vsprintf] of [src/x-loader/lib/printf.c] and its helpers.  Text is a list of character
codes; [int], [long] and pointers have 32 bits and [char] is unsigned. *)
From stdpp Require Import base list strings.
From S2P Require Import Prelude Bits Mkbof I2cTools.
From Stdlib Require Import ZArith Lia.

(** The codes of a text. *)
Definition chars (s : string) : list Z :=
  (fun a => Z.of_nat (Ascii.nat_of_ascii a)) <$> String.list_ascii_of_string s.

(** * The code *)

(** ** [printf.c] *)
Definition is_digit (c : Z) : bool := (48 <=? c) && (c <=? 57).

Definition ZEROPAD : Z := 1.
Definition SIGN : Z := 2.
Definition PLUS : Z := 4.
Definition SPACE : Z := 8.
Definition LEFT : Z := 16.
Definition SPECIAL : Z := 32.
Definition LARGE : Z := 64.

(** [type & flag] as a condition. *)
Definition has (type flag : Z) : bool := truthy (Z.land type flag).

(** [s] ends at its end or at a NUL. *)
Fixpoint strnlen (s : list Z) (count : Z) : Z :=
  match s with
  | c :: s => if (count =? 0) || (c =? 0) then 0 else 1 + strnlen s (u32 (count - 1))
  | [] => 0
  end.

(** The value and the rest of the text; [i] is the value so far. *)
Fixpoint skip_atoi (i : Z) (s : list Z) : Z * list Z :=
  match s with
  | c :: s' => if is_digit c then skip_atoi (s32 (i * 10 + c - 48)) s' else (i, s)
  | [] => (i, [])
  end.

Definition lower_digits : list Z := Eval cbv in chars "0123456789abcdefghijklmnopqrstuvwxyz".
Definition upper_digits : list Z := Eval cbv in chars "0123456789ABCDEFGHIJKLMNOPQRSTUVWXYZ".

(** [while (num != 0) tmp[i++] = digits[do_div(num, base)]]; [room] is what is left
of [tmp]. *)
Fixpoint put_digits (room : nat) (digits : list Z) (base num : Z) (tmp : list Z) : res (list Z) :=
  if num =? 0 then Ok tmp else
  match room with
  | O => Fault OutOfBounds
  | S room =>
    put_digits room digits base (s32 (u32 num / base)) (tmp ++ [nth (Z.to_nat (u32 num mod base)) digits 0])
  end.

(** [while (size-- > 0) *str++ = c]: what is stored, and [size] behind it. *)
Definition pad_loop (c size : Z) : list Z * Z :=
  (replicate (Z.to_nat size) c, if 0 <? size then -1 else s32 (size - 1)).

(** The sign and the size without it. *)
Definition number_sign (num size type : Z) : list Z * Z * Z :=
  if has type SIGN then
    if num <? 0 then ([45], s32 (- num), s32 (size - 1))
    else if has type PLUS then ([43], num, s32 (size - 1))
    else if has type SPACE then ([32], num, s32 (size - 1))
    else ([], num, size)
  else ([], num, size).

(** What is stored from [str] on; [None] when NULL is returned. *)
Definition number (num base size precision type : Z) : res (option (list Z)) :=
  let digits := if has type LARGE then upper_digits else lower_digits in
  let type := if has type LEFT then Z.land type (Z.lnot ZEROPAD) else type in
  if (base <? 2) || (36 <? base) then Ok None else
  let c := if has type ZEROPAD then 48 else 32 in
  let '(sign, num, size) := number_sign num size type in
  let size := if has type SPECIAL then
                if base =? 16 then s32 (size - 2) else if base =? 8 then s32 (size - 1) else size
              else size in
  match (if num =? 0 then Ok [48] else put_digits 66 digits base num []) with
  | Fault f => Fault f
  | Ok tmp =>
    let i := zlen tmp in
    let precision := if precision <? i then i else precision in
    let size := s32 (size - precision) in
    let '(before, size) := if negb (has type (ZEROPAD + LEFT)) then pad_loop 32 size else ([], size) in
    let prefix := if has type SPECIAL then
                    if base =? 8 then [48] else if base =? 16 then [48; nth 33 digits 0] else []
                  else [] in
    let '(fill, size) := if negb (has type LEFT) then pad_loop c size else ([], size) in
    let zeros := replicate (Z.to_nat (precision - i)) 48 in
    let '(behind, _) := pad_loop 32 size in
    Ok (Some (before ++ sign ++ prefix ++ fill ++ zeros ++ rev tmp ++ behind))
  end.

(** An argument: an integer or a pointer as a word, a string or NULL, and the target
of a [%n]. *)
Inductive arg : Type := ANum (w : Z) | AStr (s : option (list Z)) | ARef (k : nat).

(** The local variables of [vsprintf]: the arguments left, the buffer up to [str], and
what [%n] has stored. *)
Record vstate : Type := mk_v {
  v_args : list arg;
  v_str : list Z;
  v_stored : list (nat * Z);
}.

Abbreviation VM := (M vstate).

Definition emit (l : list Z) : VM unit := mmodify (fun s => mk_v (v_args s) (v_str s ++ l) (v_stored s)).

(** [va_arg]; an argument that is not there or of another kind is outside the
program. *)
Definition va_next {A} (f : arg -> option A) : VM A :=
  fun s => match v_args s with
           | a :: args => match f a with Some x => Ok (x, mk_v args (v_str s) (v_stored s)) | None => Fault OutOfBounds end
           | [] => Fault OutOfBounds
           end.
Definition va_word : VM Z := va_next (fun a => match a with ANum w => Some (u32 w) | _ => None end).
Definition va_int : VM Z := let! w := va_word in mret (s32 w).
Definition va_string : VM (option (list Z)) := va_next (fun a => match a with AStr s => Some s | _ => None end).
Definition va_ref : VM nat := va_next (fun a => match a with ARef k => Some k | _ => None end).

(** The flags behind a [%]. *)
Fixpoint parse_flags (flags : Z) (fmt : list Z) : Z * list Z :=
  match fmt with
  | c :: fmt' =>
    if c =? 45 then parse_flags (Z.lor flags LEFT) fmt'
    else if c =? 43 then parse_flags (Z.lor flags PLUS) fmt'
    else if c =? 32 then parse_flags (Z.lor flags SPACE) fmt'
    else if c =? 35 then parse_flags (Z.lor flags SPECIAL) fmt'
    else if c =? 48 then parse_flags (Z.lor flags ZEROPAD) fmt'
    else (flags, fmt)
  | [] => (flags, [])
  end.

(** The field width, the flags and the rest of the format. *)
Definition parse_width (flags : Z) (fmt : list Z) : VM (Z * Z * list Z) :=
  if is_digit (hd 0 fmt) then let '(w, fmt) := skip_atoi 0 fmt in mret (w, flags, fmt)
  else if hd 0 fmt =? 42 then
    let! w := va_int in
    mret (if w <? 0 then (s32 (- w), Z.lor flags LEFT, tl fmt) else (w, flags, tl fmt))
  else mret (-1, flags, fmt).

Definition parse_precision (fmt : list Z) : VM (Z * list Z) :=
  if hd 0 fmt =? 46 then
    let fmt := tl fmt in
    let! (p, fmt) :=
      if is_digit (hd 0 fmt) then mret (skip_atoi 0 fmt)
      else if hd 0 fmt =? 42 then let! p := va_int in mret (p, tl fmt)
      else mret (-1, fmt) in
    mret (if p <? 0 then 0 else p, fmt)
  else mret (-1, fmt).

(** 0 stands for -1, no qualifier. *)
Definition parse_qualifier (fmt : list Z) : Z * list Z :=
  let c := hd 0 fmt in
  if (c =? 104) || (c =? 108) || (c =? 76) then (c, tl fmt) else (0, fmt).

(** [while (--field_width > 0) *str++ = ' '] *)
Definition pad_char (field_width : Z) : list Z * Z :=
  let w := s32 (field_width - 1) in
  (replicate (Z.to_nat w) 32, if 0 <? w then 0 else w).

(** [while (len < field_width--) *str++ = ' '] *)
Definition pad_string (len field_width : Z) : list Z * Z :=
  (replicate (Z.to_nat (field_width - len)) 32, s32 (Z.min len field_width - 1)).

(** The last part of the loop, for the integer conversions. *)
Definition convert_number (base flags field_width precision qualifier : Z) : VM unit :=
  let! num :=
    if qualifier =? 108 then va_word
    else if qualifier =? 104 then
      let! i := va_int in
      mret (if has flags SIGN then u32 (s16 (u16 i)) else u16 i)
    else if has flags SIGN then let! i := va_int in mret (u32 i)
    else va_word in
  match number (s32 num) base field_width precision flags with
  | Ok (Some text) => emit text
  | Ok None => mfault NullDeref
  | Fault f => mfault f
  end.

Definition convert_char (flags field_width : Z) : VM unit :=
  let '(before, field_width) := if negb (has flags LEFT) then pad_char field_width else ([], field_width) in
  let! c := va_int in
  let '(behind, _) := pad_char field_width in
  emit (before ++ [u8 c] ++ behind).

Definition convert_string (flags field_width precision : Z) : VM unit :=
  let! s := va_string in
  let s := default (chars "<NULL>") s in
  let len := strnlen s (u32 precision) in
  let '(before, field_width) :=
    if negb (has flags LEFT) then pad_string len field_width else ([], field_width) in
  let '(behind, _) := pad_string len field_width in
  emit (before ++ take (Z.to_nat len) s ++ behind).

Definition convert_pointer (flags field_width precision : Z) : VM unit :=
  let '(field_width, flags) := if field_width =? -1 then (8, Z.lor flags ZEROPAD) else (field_width, flags) in
  let! p := va_word in
  match number (s32 p) 16 field_width precision flags with
  | Ok (Some text) => emit text
  | Ok None => mfault NullDeref
  | Fault f => mfault f
  end.

Definition convert_count : VM unit :=
  let! k := va_ref in
  mmodify (fun s => mk_v (v_args s) (v_str s) (v_stored s ++ [(k, zlen (v_str s))])).

(** The [switch] on the conversion [c]. *)
Definition convert (c flags field_width precision qualifier : Z) : VM unit :=
  if c =? 99 then convert_char flags field_width                                              (* c *)
  else if c =? 115 then convert_string flags field_width precision                            (* s *)
  else if c =? 112 then convert_pointer flags field_width precision                           (* p *)
  else if c =? 110 then convert_count                                                         (* n *)
  else if c =? 37 then emit [37]                                                              (* % *)
  else if c =? 111 then convert_number 8 flags field_width precision qualifier                (* o *)
  else if c =? 88 then convert_number 16 (Z.lor flags LARGE) field_width precision qualifier  (* X *)
  else if c =? 120 then convert_number 16 flags field_width precision qualifier               (* x *)
  else if (c =? 100) || (c =? 105) then
    convert_number 10 (Z.lor flags SIGN) field_width precision qualifier                      (* d, i *)
  else if c =? 117 then convert_number 10 flags field_width precision qualifier               (* u *)
  else emit (if c =? 0 then [37] else [37; c]).

(** What follows a [%], and the rest of the format. *)
Definition directive (fmt : list Z) : VM (list Z) :=
  let '(flags, fmt) := parse_flags 0 fmt in
  let! (field_width, flags, fmt) := parse_width flags fmt in
  let! (precision, fmt) := parse_precision fmt in
  let '(qualifier, fmt) := parse_qualifier fmt in
  do! convert (hd 0 fmt) flags field_width precision qualifier in
  mret (tl fmt).

Fixpoint vs_loop (fuel : nat) (fmt : list Z) : VM unit :=
  match fuel with
  | O => mfault OutOfFuel
  | S fuel =>
    match fmt with
    | [] => mret tt
    | c :: fmt =>
      if negb (c =? 37) then do! emit [c] in vs_loop fuel fmt
      else let! fmt := directive fmt in vs_loop fuel fmt
    end
  end.

(** The text in [buf] without its NUL. *)
Definition vsprintf (fmt : list Z) (args : list arg) : res (list Z) :=
  match vs_loop (S (length fmt)) fmt (mk_v args [] []) with
  | Ok (_, s) => Ok (v_str s)
  | Fault f => Fault f
  end.

(** * What the conversions print *)

(** ** Digits *)

(** The value of digits, the most significant first. *)
Definition value (base : Z) (ds : list Z) : Z := foldl (fun v d => v * base + d) 0 ds.

(** [ds] is [n] written in [base], without leading zeros. *)
Definition positional (base n : Z) (ds : list Z) : Prop :=
  value base ds = n /\ Forall (fun d => 0 <= d < base) ds /\ (ds = [0] \/ hd 0 ds <> 0).

Definition digit_char (large : bool) (d : Z) : Z := nth (Z.to_nat d) (if large then upper_digits else lower_digits) 0.

Lemma value_snoc base ds d : value base (ds ++ [d]) = value base ds * base + d.
Proof. unfold value. by rewrite foldl_app. Qed.

Lemma value_foldl base ds v : foldl (fun v d => v * base + d) v ds = v * base ^ zlen ds + value base ds.
Proof.
  revert v. induction ds as [|d ds IH] using rev_ind; intros v; [unfold value, zlen; cbn; lia|].
  rewrite foldl_app, value_snoc, zlen_app. cbn [foldl]. rewrite IH.
  rewrite Z.pow_add_r by (apply zlen_nonneg || done). change (base ^ zlen [d]) with (base ^ 1). rewrite Z.pow_1_r. lia.
Qed.

Lemma value_app base ds es : value base (ds ++ es) = value base ds * base ^ zlen es + value base es.
Proof. unfold value at 1. by rewrite foldl_app, value_foldl. Qed.

(** The digits of [u], the least significant first, as [put_digits] finds them. *)
Lemma put_digits_spec base digits : 2 <= base -> forall room u tmp,
  0 <= u < 2 ^ 32 -> u < 2 ^ Z.of_nat room ->
  exists ds, value base ds = u /\ Forall (fun d => 0 <= d < base) ds /\ (ds = [] \/ hd 0 ds <> 0) /\
    (length ds <= room)%nat /\
    put_digits room digits base (s32 u) tmp = Ok (tmp ++ rev ((fun d => nth (Z.to_nat d) digits 0) <$> ds)).
Proof.
  intros Hb. assert (forall x, 0 <= x < 2 ^ 32 -> u32 (s32 x) = x) as Hus.
  { intros x Hx. unfold wraps, wrapu. rewrite (Z.mod_small x) by done. cbv zeta. destruct (x <? 2 ^ (32 - 1)); [by rewrite Z.mod_small|].
    rewrite <- (Z_mod_plus_full (x - 2 ^ 32) 1), Z.mod_small; lia. }
  induction room as [|room IH]; intros u tmp Hu Hr.
  { assert (u = 0) as -> by (cbn in Hr; lia). exists []. cbn. rewrite app_nil_r. auto 6. }
  destruct (decide (u = 0)) as [->|Hne]; [exists []; cbn; rewrite app_nil_r; auto with lia|].
  assert ((s32 u =? 0) = false) as E0.
  { apply Z.eqb_neq. intros E. pose proof (Hus u Hu) as E'. rewrite E in E'. by cbn in E'. }
  assert (0 <= u / base < 2 ^ 31) as Hq by (split; [apply Z.div_pos; lia|apply Z.div_lt_upper_bound; lia]).
  cbn [put_digits]. rewrite E0, Hus by done.
  destruct (IH (u / base) (tmp ++ [nth (Z.to_nat (u mod base)) digits 0])) as (ds & Hv & Hd & Hh & Hl & E); [lia| |].
  { rewrite Nat2Z.inj_succ, Z.pow_succ_r in Hr by lia. apply Z.div_lt_upper_bound; [lia|]. nia. }
  pose proof (Z.mod_pos_bound u base). exists (ds ++ [u mod base]). split; [|split; [|split; [|split]]].
  - rewrite value_snoc, Hv. pose proof (Z.div_mod u base). lia.
  - apply Forall_app. split; [done|]. repeat constructor; lia.
  - right. destruct Hh as [-> | Hh]; [|by destruct ds]. cbn [app hd]. intros E'. cbn in Hv.
    pose proof (Z.div_mod u base). lia.
  - rewrite length_app. cbn. lia.
  - rewrite E, fmap_app, rev_app_distr, <- app_assoc. done.
Qed.

(** ** Layout of a number *)

(** A number in a field: at least [prec] digits, filled up to [width] behind ([left]),
with zeros between sign and digits ([zero]), or in front. *)
Definition layout (left zero : bool) (width prec : Z) (sign prefix digs : list Z) : list Z :=
  let body := replicate (Z.to_nat (prec - zlen digs)) 48 ++ digs in
  let fill := Z.to_nat (width - zlen (sign ++ prefix ++ body)) in
  if left then sign ++ prefix ++ body ++ replicate fill 32
  else if zero then sign ++ prefix ++ replicate fill 48 ++ body
  else replicate fill 32 ++ sign ++ prefix ++ body.

Definition sign_text (num type : Z) : list Z :=
  if has type SIGN then if num <? 0 then [45] else if has type PLUS then [43] else if has type SPACE then [32] else []
  else [].
Definition prefix_text (base type : Z) : list Z :=
  if has type SPECIAL then
    if base =? 8 then [48] else if base =? 16 then [48; if has type LARGE then 88 else 120] else []
  else [].
Definition magnitude (num type : Z) : Z := if has type SIGN then Z.abs num else u32 num.

(** Removing the flag for zeros keeps the others. *)
Lemma has_without type flag :
  Z.land ZEROPAD flag = 0 -> has (Z.land type (Z.lnot ZEROPAD)) flag = has type flag.
Proof.
  intros Hz. unfold has. f_equal. apply Z.bits_inj'. intros i Hi. rewrite !Z.land_spec, Z.lnot_spec by done.
  assert (Z.testbit ZEROPAD i && Z.testbit flag i = false) as Hd by (by rewrite <- Z.land_spec, Hz, Z.bits_0).
  destruct (Z.testbit type i), (Z.testbit ZEROPAD i), (Z.testbit flag i); done.
Qed.

Lemma has_left_or_zero type : has type (ZEROPAD + LEFT) = has type ZEROPAD || has type LEFT.
Proof.
  unfold has. change (ZEROPAD + LEFT) with (Z.lor ZEROPAD LEFT). rewrite Z.land_lor_distr_r. unfold truthy.
  rewrite <- negb_andb. f_equal. apply eq_true_iff_eq. rewrite andb_true_iff, !Z.eqb_eq. apply Z.lor_eq_0_iff.
Qed.

Lemma number_sign_spec num size type :
  - 2 ^ 31 <= num < 2 ^ 31 -> - 2 ^ 30 <= size < 2 ^ 30 ->
  number_sign num size type = (sign_text num type, s32 (magnitude num type), size - zlen (sign_text num type)).
Proof.
  intros Hn Hs. unfold number_sign, sign_text, magnitude.
  assert (s32 num = num) as Es by (apply wraps_small; [done|exact Hn]).
  assert (s32 (size - 1) = size - 1) as Ez by (apply wraps_small; [done|lia]).
  destruct (has type SIGN).
  - destruct (Z.ltb_spec num 0); [rewrite Ez, Z.abs_neq by lia; done|]. rewrite Z.abs_eq, Es by lia.
    destruct (has type PLUS); [by rewrite Ez|]. destruct (has type SPACE); [by rewrite Ez|].
    by rewrite zlen_nil, Z.sub_0_r.
  - assert (s32 (u32 num) = num) as ->; [|by rewrite zlen_nil, Z.sub_0_r].
    unfold wraps, wrapu. rewrite Z.mod_mod by done. change (wraps 32 num = num). exact Es.
Qed.

Lemma magnitude_range num type : - 2 ^ 31 <= num < 2 ^ 31 -> 0 <= magnitude num type < 2 ^ 32.
Proof. intros Hn. unfold magnitude. destruct (has type SIGN); [lia|]. by apply (wrapu_range 32). Qed.

(** The digits of [number]. *)
Lemma number_digits_spec base large n :
  2 <= base <= 36 -> 0 <= n < 2 ^ 32 ->
  exists ds, positional base n ds /\ zlen ds <= 66 /\
    (if s32 n =? 0 then Ok [48] else put_digits 66 (if large : bool then upper_digits else lower_digits) base (s32 n) [])
    = Ok (rev (digit_char large <$> ds)).
Proof.
  intros Hb Hn. destruct (put_digits_spec base (if large then upper_digits else lower_digits) ltac:(lia) 66 n [] Hn)
    as (ds & Hv & Hd & Hh & Hl & E); [cbn; lia|].
  destruct (Z.eqb_spec (s32 n) 0) as [E0|E0].
  - assert (n = 0) as ->.
    { unfold wraps in E0. rewrite Z.mod_small in E0 by done. cbv zeta in E0. destruct (Z.ltb_spec n (2 ^ (32 - 1))); lia. }
    exists [0]. split; [|split; [done|by destruct large]]. split; [done|]. split; [|by left]. repeat constructor; lia.
  - exists ds. split; [|split; [|exact E]].
    + split; [done|]. split; [done|]. right. destruct Hh as [-> | Hh]; [|done]. cbn in Hv. by subst n.
    + unfold zlen. lia.
Qed.

Lemma sign_text_short num type : 0 <= zlen (sign_text num type) <= 1.
Proof. unfold sign_text. by repeat destruct (_ : bool). Qed.

Lemma prefix_text_short base type : 0 <= zlen (prefix_text base type) <= 2.
Proof. unfold prefix_text. by repeat destruct (_ : bool). Qed.
Lemma number_size base size type :
  - 2 ^ 30 - 1 <= size < 2 ^ 30 ->
  (if has type SPECIAL then if base =? 16 then s32 (size - 2) else if base =? 8 then s32 (size - 1) else size else size)
  = size - zlen (prefix_text base type).
Proof.
  intros Hs. unfold prefix_text. destruct (has type SPECIAL); [|by rewrite zlen_nil, Z.sub_0_r].
  destruct (Z.eqb_spec base 16) as [->|]; [by rewrite wraps_small by lia|].
  destruct (base =? 8); [by rewrite wraps_small by lia|by rewrite zlen_nil, Z.sub_0_r].
Qed.

Lemma number_prefix base type :
  (if has type SPECIAL then
     if base =? 8 then [48]
     else if base =? 16 then [48; nth 33 (if has type LARGE then upper_digits else lower_digits) 0] else []
   else []) = prefix_text base type.
Proof. unfold prefix_text. by destruct (has type LARGE). Qed.

(** Of the loops that fill a field, only the first finds something to do. *)
Lemma pad_loop_once c k :
  - 2 ^ 31 < k < 2 ^ 31 -> exists k', pad_loop c k = (replicate (Z.to_nat k) c, k') /\ Z.min (-1) (k - 1) <= k' < 0.
Proof.
  intros Hk. unfold pad_loop. eexists. split; [reflexivity|]. destruct (Z.ltb_spec 0 k); [lia|].
  rewrite wraps_small by lia. lia.
Qed.

Lemma fill_once (l z : bool) k sign prefix zeros digs :
  - 2 ^ 31 + 1 < k < 2 ^ 31 ->
  (let '(before, size) := if negb (z && negb l || l) then pad_loop 32 k else ([], k) in
   let '(fill, size) := if negb l then pad_loop (if z && negb l then 48 else 32) size else ([], size) in
   let '(behind, _) := pad_loop 32 size in
   Ok (Some (before ++ sign ++ prefix ++ fill ++ zeros ++ digs ++ behind))) =
  Ok (Some (if l then sign ++ prefix ++ (zeros ++ digs) ++ replicate (Z.to_nat k) 32
            else if z then sign ++ prefix ++ replicate (Z.to_nat k) 48 ++ zeros ++ digs
            else replicate (Z.to_nat k) 32 ++ sign ++ prefix ++ zeros ++ digs)).
Proof.
  intros Hk. destruct l, z; cbn [negb andb orb].
  1, 2: by rewrite <- app_assoc.
  - destruct (pad_loop_once 48 k ltac:(lia)) as (k' & -> & Hk'). cbn -[replicate].
    replace (Z.to_nat k') with 0%nat by lia. by rewrite app_nil_r.
  - destruct (pad_loop_once 32 k ltac:(lia)) as (k' & -> & Hk'). destruct (pad_loop_once 32 k') as (k2 & -> & Hk2); [lia|].
    cbn -[replicate]. replace (Z.to_nat k') with 0%nat by lia. replace (Z.to_nat k2) with 0%nat by lia. by rewrite app_nil_r.
Qed.

(** What [number] writes. *)
Lemma number_text num base size prec type :
  - 2 ^ 31 <= num < 2 ^ 31 -> 2 <= base <= 36 -> - 2 ^ 29 <= size < 2 ^ 30 -> prec < 2 ^ 30 ->
  exists ds, positional base (magnitude num type) ds /\
    number num base size prec type =
    Ok (Some (layout (has type LEFT) (has type ZEROPAD) size prec (sign_text num type) (prefix_text base type)
      (digit_char (has type LARGE) <$> ds))).
Proof.
  intros Hn Hb Hs Hp. destruct (number_digits_spec base (has type LARGE) (magnitude num type) Hb) as (ds & Hds & Hl & E);
    [by apply magnitude_range|].
  exists ds. split; [done|]. unfold number. cbv zeta.
  set (T := if has type LEFT then Z.land type (Z.lnot ZEROPAD) else type).
  assert (forall flag, Z.land ZEROPAD flag = 0 -> has T flag = has type flag) as HT.
  { intros flag H2. unfold T. destruct (has type LEFT); [by apply has_without|done]. }
  assert (has T ZEROPAD = has type ZEROPAD && negb (has type LEFT)) as HZ.
  { unfold T. destruct (has type LEFT); [|by rewrite andb_true_r]. rewrite andb_false_r. unfold has.
    by rewrite <- Z.land_assoc, (Z.land_comm (Z.lnot _)), Z.land_lnot_diag, Z.land_0_r. }
  assert (sign_text num T = sign_text num type) as Es by (unfold sign_text; by rewrite !HT by done).
  assert (magnitude num T = magnitude num type) as Em by (unfold magnitude; by rewrite !HT by done).
  replace ((base <? 2) || (36 <? base)) with false by (symmetry; apply orb_false_iff; lia).
  rewrite number_sign_spec, Es, Em by lia. rewrite has_left_or_zero, HZ, !HT by done. rewrite E.
  assert (zlen (rev (digit_char (has type LARGE) <$> ds)) = zlen ds) as Ei by (unfold zlen; by rewrite length_rev, length_fmap).
  rewrite Ei, number_size, number_prefix by (pose proof (sign_text_short num type); lia).
  replace (if prec <? zlen ds then zlen ds else prec) with (Z.max prec (zlen ds)) by (destruct (Z.ltb_spec prec (zlen ds)); lia).
  pose proof (sign_text_short num type) as H1. pose proof (prefix_text_short base type) as H2. pose proof (zlen_nonneg ds) as H3.
  unfold layout. rewrite !zlen_app, zlen_replicate, zlen_fmap, rev_involutive.
  replace (Z.to_nat (Z.max prec (zlen ds) - zlen ds)) with (Z.to_nat (prec - zlen ds)) by lia.
  set (k := size - zlen (sign_text num type) - zlen (prefix_text base type) - Z.max prec (zlen ds)).
  replace (size - (_ + _)) with k by (unfold k; lia). assert (- 2 ^ 31 + 1 < k < 2 ^ 31) as Hk by (unfold k; lia).
  rewrite (wraps_small 32 k) by lia. by apply fill_once.
Qed.

(** ** Reading numbers back *)

Lemma digit_char_code large d : 0 <= d < 10 -> digit_char large d = 48 + d.
Proof.
  intros Hd. assert (d = 0 \/ d = 1 \/ d = 2 \/ d = 3 \/ d = 4 \/ d = 5 \/ d = 6 \/ d = 7 \/ d = 8 \/ d = 9) as H by lia.
  destruct large; by repeat destruct H as [->|H]; subst.
Qed.

Lemma scan_decimal_digits large ds rest v :
  Forall (fun d => 0 <= d < 10) ds -> is_digit (hd 0 rest) = false ->
  scan_decimal ((digit_char large <$> ds) ++ rest) v = foldl (fun v d => v * 10 + d) v ds.
Proof.
  intros Hd Hr. revert v. induction Hd as [|d ds Hd _ IH]; intros v; cbn [fmap list_fmap app foldl].
  - destruct rest as [|c rest]; [done|]. cbn in Hr |- *. unfold is_digit in Hr. by rewrite Hr.
  - cbn [scan_decimal]. rewrite digit_char_code by done. replace ((48 <=? 48 + d) && (48 + d <=? 57)) with true by lia.
    rewrite IH. f_equal. lia.
Qed.

Lemma scan_decimal_zeros n l : scan_decimal (replicate n 48 ++ l) 0 = scan_decimal l 0.
Proof. by induction n. Qed.

Lemma skip_spaces n l : skip_ws (replicate n 32 ++ l) = skip_ws l.
Proof. by induction n. Qed.

(** A number between blanks, with an optional sign or blank in front and leading
zeros. *)
Lemma strtol_number large a n b sign ds v :
  (sign = [] \/ sign = [43] \/ sign = [32]) /\ v = value 10 ds \/ sign = [45] /\ v = - value 10 ds ->
  ds <> [] -> Forall (fun d => 0 <= d < 10) ds -> - 2 ^ 31 <= v < 2 ^ 31 ->
  strtol (replicate a 32 ++ sign ++ replicate n 48 ++ (digit_char large <$> ds) ++ replicate b 32) = (v, true).
Proof.
  intros Hs Hne Hd Hv. unfold strtol. rewrite skip_spaces.
  set (body := replicate n 48 ++ (digit_char large <$> ds) ++ replicate b 32).
  assert (scan_decimal body 0 = value 10 ds) as Ev.
  { unfold body. rewrite scan_decimal_zeros. apply scan_decimal_digits; [done|by destruct b]. }
  assert (exists d l, body = (48 + d) :: l /\ 0 <= d < 10) as (d & l & Eb & Hd0).
  { unfold body. destruct n as [|n]; [|by eexists 0, _]. destruct ds as [|d ds]; [done|]. inversion_clear Hd.
    cbn. rewrite digit_char_code by done. by eexists d, _. }
  assert (skip_ws body = body) as Ews.
  { rewrite Eb. cbn. unfold is_space. replace ((48 + d =? 32) || ((9 <=? 48 + d) && (48 + d <=? 13))) with false by lia. done. }
  assert (match body with [] => false | c :: _ => (48 <=? c) && (c <=? 57) end = true) as Et by (rewrite Eb; lia).
  assert ((48 + d =? 45) = false /\ (48 + d =? 43) = false) as [E45 E43] by (split; lia).
  assert (Z.max (- 2 ^ 31) (Z.min v (2 ^ 31 - 1)) = v) as Ec by lia.
  destruct Hs as [[Hs ->]|[-> ->]]; [destruct Hs as [->|[->| ->]]|]; cbn [app].
  - rewrite Ews, Eb, E45, E43, <- Eb, Ev, Ec. rewrite Eb in Et. by rewrite Et.
  - rewrite skip_ws_stop by done. cbn [Z.eqb Pos.eqb]. by rewrite Ev, Ec, Et.
  - change (skip_ws (32 :: body)) with (skip_ws body). rewrite Ews, Eb, E45, E43, <- Eb, Ev, Ec. rewrite Eb in Et. by rewrite Et.
  - rewrite skip_ws_stop by done. cbn [Z.eqb Pos.eqb]. by rewrite Ev, Ec, Et.
Qed.

Lemma layout_reads_back num left zero size prec type ds :
  - 2 ^ 31 <= num < 2 ^ 31 -> has type SIGN = true -> positional 10 (magnitude num type) ds ->
  strtol (layout left zero size prec (sign_text num type) (prefix_text 10 type) (digit_char (has type LARGE) <$> ds))
  = (num, true).
Proof.
  intros Hn HS (Hv & Hd & Hh). assert (prefix_text 10 type = []) as Hpre by (unfold prefix_text; by destruct (has type SPECIAL)).
  assert (ds <> []) as Hne by (by destruct Hh as [->|Hh]; [|intros ->]).
  unfold magnitude in Hv. rewrite HS in Hv.
  assert (forall a n b, strtol (replicate a 32 ++ sign_text num type ++ replicate n 48 ++
    (digit_char (has type LARGE) <$> ds) ++ replicate b 32) = (num, true)) as Hr.
  { intros a n b. apply strtol_number; [|done..]. unfold sign_text. rewrite HS.
    destruct (Z.ltb_spec num 0); [right; split; [done|lia]|left]. split; [|lia].
    destruct (has type PLUS); [tauto|]. destruct (has type SPACE); tauto. }
  unfold layout. rewrite Hpre. cbn [app]. set (n := Z.to_nat (prec - _)). set (k := Z.to_nat (size - _)).
  destruct left; [|destruct zero].
  - rewrite <- app_assoc. exact (Hr 0%nat n k).
  - specialize (Hr 0%nat (k + n)%nat 0%nat). rewrite replicate_add, app_nil_r, <- app_assoc in Hr. exact Hr.
  - specialize (Hr k n 0%nat). rewrite app_nil_r in Hr. exact Hr.
Qed.

(** C31. How numbers look.  For every number, base, field width, precision and set of
flags, [number] writes the sign, the prefix and the digits of the number in its base
without leading zeros, filled up with zeros to the precision and then to the width:
behind with [LEFT], with zeros behind the sign with [ZEROPAD], in front otherwise.
The temporary buffer is long enough, the most negative number comes out right, and
what is printed in decimal with a sign reads back as the number it was. *)
Theorem number_layout num base size prec type :
  - 2 ^ 31 <= num < 2 ^ 31 -> 2 <= base <= 36 -> - 2 ^ 29 <= size < 2 ^ 30 -> prec < 2 ^ 30 ->
  exists ds text, positional base (magnitude num type) ds /\
    text = layout (has type LEFT) (has type ZEROPAD) size prec (sign_text num type) (prefix_text base type)
      (digit_char (has type LARGE) <$> ds) /\
    number num base size prec type = Ok (Some text) /\
    (has type SIGN = true -> base = 10 -> strtol text = (num, true)).
Proof.
  intros Hn Hb Hs Hp. destruct (number_text num base size prec type Hn Hb Hs Hp) as (ds & Hds & E).
  eexists ds, _. split; [done|]. split; [done|]. split; [exact E|]. intros HS ->. by apply layout_reads_back.
Qed.

(** ** Formats *)

(** A field width and a precision: absent, in digits, or [*] with its argument. *)
Inductive field : Type := Absent | Digits (ds : list Z) | Star (w : Z).

(** A conversion with its argument. *)
Inductive conversion : Type :=
| CInt (c v : Z)
| CChar (v : Z)
| CStr (s : option (list Z))
| CPtr (v : Z)
| CCount (k : nat)
| CPercent.

(** A directive of a format, or a character that is not a [%]. *)
Record spec : Type := mk_spec {
  sp_flags : list Z;
  sp_width : field;
  sp_prec : option field;  (* [Some Absent]: a [.] alone *)
  sp_qual : Z;             (* 0: none *)
  sp_conv : conversion;
}.
Inductive item : Type := Lit (c : Z) | Dir (s : spec).

(** *** Their text and their arguments *)
Definition field_text (f : field) : list Z :=
  match f with Absent => [] | Digits ds => (fun d => 48 + d) <$> ds | Star _ => [42] end.
Definition field_args (f : field) : list arg := match f with Star w => [ANum w] | _ => [] end.

Definition conv_char (c : conversion) : Z :=
  match c with CInt c _ => c | CChar _ => 99 | CStr _ => 115 | CPtr _ => 112 | CCount _ => 110 | CPercent => 37 end.
Definition conv_args (c : conversion) : list arg :=
  match c with
  | CInt _ v | CChar v | CPtr v => [ANum v]
  | CStr s => [AStr s]
  | CCount k => [ARef k]
  | CPercent => []
  end.

Definition item_text (i : item) : list Z :=
  match i with
  | Lit c => [c]
  | Dir s => [37] ++ sp_flags s ++ field_text (sp_width s) ++
             match sp_prec s with Some f => [46] ++ field_text f | None => [] end ++
             (if sp_qual s =? 0 then [] else [sp_qual s]) ++ [conv_char (sp_conv s)]
  end.
Definition item_args (i : item) : list arg :=
  match i with
  | Lit _ => []
  | Dir s => field_args (sp_width s) ++ match sp_prec s with Some f => field_args f | None => [] end ++ conv_args (sp_conv s)
  end.

(** *** What they mean *)
Definition flag_bit (c : Z) : Z :=
  if c =? 45 then LEFT else if c =? 43 then PLUS else if c =? 32 then SPACE else if c =? 35 then SPECIAL else ZEROPAD.
Definition width_of (f : field) : Z := match f with Absent => -1 | Digits ds => value 10 ds | Star w => Z.abs w end.
Definition prec_of (f : option field) : Z :=
  match f with None => -1 | Some Absent => 0 | Some (Digits ds) => value 10 ds | Some (Star p) => Z.max 0 p end.
Definition flags_of (s : spec) : Z :=
  let flags := foldl (fun f c => Z.lor f (flag_bit c)) 0 (sp_flags s) in
  match sp_width s with Star w => if w <? 0 then Z.lor flags LEFT else flags | _ => flags end.

(** A text in a field of [width] characters. *)
Definition in_field (left : bool) (width : Z) (t : list Z) : list Z :=
  let fill := replicate (Z.to_nat (width - zlen t)) 32 in if left then t ++ fill else fill ++ t.

(** [out] is the number [num] in [base] in the field of [s]. *)
Definition shows_number (num base width prec flags : Z) (out : list Z) : Prop :=
  exists ds, positional base (magnitude num flags) ds /\
    out = layout (has flags LEFT) (has flags ZEROPAD) width prec (sign_text num flags) (prefix_text base flags)
            (digit_char (has flags LARGE) <$> ds).

(** The number an integer conversion prints: the argument as the qualifier and the
conversion read it. *)
Definition int_value (signed : bool) (qual v : Z) : Z :=
  if qual =? 104 then if signed then s16 v else u16 v else s32 v.

Definition shows_conv (s : spec) (out : list Z) : Prop :=
  let flags := flags_of s in
  let width := width_of (sp_width s) in
  let prec := prec_of (sp_prec s) in
  match sp_conv s with
  | CInt c v =>
    let signed := (c =? 100) || (c =? 105) in
    let flags := if signed then Z.lor flags SIGN else if c =? 88 then Z.lor flags LARGE else flags in
    let base := if c =? 111 then 8 else if (c =? 88) || (c =? 120) then 16 else 10 in
    shows_number (int_value signed (sp_qual s) v) base width prec flags out
  | CChar v => out = in_field (has flags LEFT) width [u8 v]
  | CStr t => let t := default (chars "<NULL>") t in
              out = in_field (has flags LEFT) width (if prec =? -1 then t else take (Z.to_nat prec) t)
  | CPtr v => if width =? -1 then shows_number (s32 v) 16 8 prec (Z.lor flags ZEROPAD) out
              else shows_number (s32 v) 16 width prec flags out
  | CCount _ => out = []
  | CPercent => out = [37]
  end.
Definition shows (i : item) (out : list Z) : Prop := match i with Lit c => out = [c] | Dir s => shows_conv s out end.

(** *** Well-formed items *)
Definition field_ok (f : field) : Prop :=
  match f with
  | Absent => True
  | Digits ds => ds <> [] /\ Forall (fun d => 0 <= d < 10) ds /\ value 10 ds < 2 ^ 29
  | Star w => - 2 ^ 29 < w < 2 ^ 29
  end.
Definition conv_ok (c : conversion) : Prop :=
  match c with
  | CInt c v => In c (chars "dioxXu") /\ - 2 ^ 31 <= v < 2 ^ 32
  | CStr (Some t) => Forall (fun c => c <> 0) t /\ zlen t < 2 ^ 29
  | CPtr v => 0 <= v < 2 ^ 32
  | _ => True
  end.
Definition item_ok (i : item) : Prop :=
  match i with
  | Lit c => c <> 37 /\ c <> 0
  | Dir s => Forall (fun c => In c (chars "-+ #0")) (sp_flags s) /\
             field_ok (sp_width s) /\ (forall ds, sp_width s = Digits ds -> hd 0 ds <> 0) /\
             (forall f, sp_prec s = Some f -> field_ok f) /\ In (sp_qual s) (0 :: chars "hlL") /\ conv_ok (sp_conv s)
  end.

(** *** Reading a format *)

(** The characters a qualifier or a conversion starts with. *)
Definition opener (c : Z) : Prop := In c (chars "hlLdioxXucspn%").

Ltac each_char H := repeat (destruct H as [<-|H]; [|]); [..|destruct H].

Lemma parse_flags_text fl flags rest :
  Forall (fun c => In c (chars "-+ #0")) fl -> ~ In (hd 0 rest) (chars "-+ #0") ->
  parse_flags flags (fl ++ rest) = (foldl (fun f c => Z.lor f (flag_bit c)) flags fl, rest).
Proof.
  intros Hf Hr. revert flags. induction Hf as [|c fl Hc _ IH]; intros flags; cbn [app foldl].
  - destruct rest as [|c rest]; [done|]. cbn [hd] in Hr. cbn [parse_flags].
    destruct (Z.eqb_spec c 45) as [->|_]; [cbn in Hr; tauto|]. destruct (Z.eqb_spec c 43) as [->|_]; [cbn in Hr; tauto|].
    destruct (Z.eqb_spec c 32) as [->|_]; [cbn in Hr; tauto|]. destruct (Z.eqb_spec c 35) as [->|_]; [cbn in Hr; tauto|].
    destruct (Z.eqb_spec c 48) as [->|_]; [cbn in Hr; tauto|]. done.
  - rewrite <- IH. each_char Hc; done.
Qed.

Lemma value_nonneg base ds : 0 <= base -> Forall (fun d => 0 <= d < base) ds -> 0 <= value base ds.
Proof.
  intros Hb. induction ds as [|d ds IH] using rev_ind; [done|]. rewrite Forall_app, Forall_singleton, value_snoc. intros [Hd Hl].
  specialize (IH Hd). nia.
Qed.

Lemma skip_atoi_digits ds i rest :
  0 <= i -> Forall (fun d => 0 <= d < 10) ds -> i * 10 ^ zlen ds + value 10 ds < 2 ^ 31 -> is_digit (hd 0 rest) = false ->
  skip_atoi i (((fun d => 48 + d) <$> ds) ++ rest) = (i * 10 ^ zlen ds + value 10 ds, rest).
Proof.
  intros Hi Hd Hv Hr. rewrite <- value_foldl in *. revert i Hi Hv.
  induction Hd as [|d ds Hd Hds IH]; intros i Hi Hv; cbn [fmap list_fmap app foldl skip_atoi] in *.
  - destruct rest as [|c rest]; [done|]. cbn [hd] in Hr. cbn [skip_atoi]. by rewrite Hr.
  - unfold is_digit at 1. replace ((48 <=? 48 + d) && (48 + d <=? 57)) with true by lia.
    replace (i * 10 + (48 + d) - 48) with (i * 10 + d) by lia.
    assert (i * 10 + d <= foldl (fun v d => v * 10 + d) (i * 10 + d) ds) as Hm.
    { rewrite value_foldl. assert (0 <= value 10 ds) by (by apply value_nonneg).
      assert (1 <= 10 ^ zlen ds) by (pose proof (Z.pow_pos_nonneg 10 (zlen ds) ltac:(done) (zlen_nonneg ds)); lia). nia. }
    rewrite wraps_small by lia. apply IH; lia.
Qed.

Lemma digits_text ds : ds <> [] -> Forall (fun d => 0 <= d < 10) ds ->
  forall rest, exists c l, ((fun d => 48 + d) <$> ds) ++ rest = c :: l /\ is_digit c = true.
Proof.
  intros Hne Hd rest. destruct Hd as [|d ds Hd _]; [done|]. eexists (48 + d), _. split; [done|]. unfold is_digit. lia.
Qed.

Lemma field_digits ds rest :
  field_ok (Digits ds) -> is_digit (hd 0 rest) = false ->
  is_digit (hd 0 (field_text (Digits ds) ++ rest)) = true /\
  skip_atoi 0 (field_text (Digits ds) ++ rest) = (value 10 ds, rest).
Proof.
  intros (Hne & Hd & Hv) Hr. split.
  - destruct (digits_text ds Hne Hd rest) as (c & l & E & Hc). cbn [field_text]. by rewrite E.
  - cbn [field_text]. rewrite skip_atoi_digits by (lia || done). by rewrite Z.mul_0_l.
Qed.

Definition width_flags (f : field) (flags : Z) : Z :=
  match f with Star w => if w <? 0 then Z.lor flags LEFT else flags | _ => flags end.

Lemma parse_width_text f flags rest args str st :
  field_ok f -> is_digit (hd 0 rest) = false -> hd 0 rest <> 42 ->
  parse_width flags (field_text f ++ rest) (mk_v (field_args f ++ args) str st)
  = Ok ((width_of f, width_flags f flags, rest), mk_v args str st).
Proof.
  intros Hf Hd Hs. unfold parse_width. destruct f as [|ds|w].
  - cbn [field_text app]. rewrite Hd, (proj2 (Z.eqb_neq _ _) Hs). done.
  - destruct (field_digits ds rest Hf Hd) as [-> ->]. done.
  - cbn in Hf |- *. unfold va_int, va_word. rewrite wraps_wrapu, wraps_small by lia.
    destruct (Z.ltb_spec w 0); cbn; [|by rewrite Z.abs_eq by lia]. rewrite wraps_small, Z.abs_neq by lia. done.
Qed.

Lemma parse_precision_text f rest args str st :
  (forall g, f = Some g -> field_ok g) -> is_digit (hd 0 rest) = false -> hd 0 rest <> 42 -> hd 0 rest <> 46 ->
  parse_precision (match f with Some g => [46] ++ field_text g | None => [] end ++ rest)
    (mk_v (match f with Some g => field_args g | None => [] end ++ args) str st)
  = Ok ((prec_of f, rest), mk_v args str st).
Proof.
  intros Hf Hd Hs Hp. unfold parse_precision. destruct f as [g|]; [specialize (Hf g eq_refl)|].
  - cbn [app hd tl]. rewrite Z.eqb_refl. destruct g as [|ds|w].
    + cbn [field_text app]. rewrite Hd, (proj2 (Z.eqb_neq _ _) Hs). done.
    + destruct (field_digits ds rest Hf Hd) as [-> ->]. cbn. destruct Hf as (_ & Hf & _).
      pose proof (value_nonneg 10 ds ltac:(done) Hf). by rewrite (proj2 (Z.ltb_ge _ _)) by lia.
    + cbn in Hf |- *. rewrite wraps_wrapu, wraps_small by lia. cbn. destruct (Z.ltb_spec w 0); [by rewrite Z.max_l by lia|by rewrite Z.max_r by lia].
  - cbn [app]. by rewrite (proj2 (Z.eqb_neq _ _) Hp).
Qed.

Lemma has_lor a b flag : has (Z.lor a b) flag = has a flag || has b flag.
Proof.
  unfold has. rewrite Z.land_lor_distr_l. unfold truthy. apply eq_true_iff_eq.
  rewrite orb_true_iff, !negb_true_iff, !Z.eqb_neq, Z.lor_eq_0_iff. destruct (Z.eq_dec (Z.land a flag) 0); tauto.
Qed.

(** The flag characters set neither [SIGN] nor [LARGE]. *)
Lemma flags_of_sign s : has (flags_of s) SIGN = false.
Proof.
  assert (forall l f, has f SIGN = false -> has (foldl (fun f c => Z.lor f (flag_bit c)) f l) SIGN = false) as Hl.
  { induction l as [|c l IH]; intros f Hf; [done|]. cbn [foldl]. apply IH. rewrite has_lor, Hf. unfold flag_bit.
    by repeat case_match. }
  unfold flags_of. destruct (sp_width s); [by apply Hl..|]. case_match; [|by apply Hl]. rewrite has_lor, Hl by done. done.
Qed.

Lemma convert_number_runs base flags width prec qual v args str st :
  2 <= base <= 36 -> - 2 ^ 29 <= width < 2 ^ 30 -> prec < 2 ^ 30 ->
  exists out, shows_number (int_value (has flags SIGN) qual v) base width prec flags out /\
    convert_number base flags width prec qual (mk_v (ANum v :: args) str st) = Ok (tt, mk_v args (str ++ out) st).
Proof.
  intros Hb Hw Hp. set (num := int_value (has flags SIGN) qual v).
  assert (- 2 ^ 31 <= num < 2 ^ 31) as Hn.
  { unfold num, int_value. pose proof (wraps_range 16 v ltac:(done)). pose proof (wrapu_range 16 v ltac:(done)). pose proof (wraps_range 32 v ltac:(done)).
    destruct (qual =? 104); [destruct (has flags SIGN)|]; lia. }
  destruct (number_text num base width prec flags Hn Hb Hw Hp) as (ds & Hds & E).
  eexists. split; [by exists ds|]. unfold convert_number, va_int, va_word, va_next, mbind, mret, emit, mmodify. cbn [v_args v_str v_stored].
  assert (forall x, s32 (u32 (s16 x)) = s16 x) as Es.
  { intros x. rewrite wraps_wrapu. pose proof (wraps_range 16 x ltac:(done)). apply wraps_small; [done|lia]. }
  assert (u16 (s32 (u32 v)) = u16 v) as Eu by (rewrite wraps_wrapu, wrapu_wraps by lia; done).
  clear Hds Hn. subst num. revert E. unfold int_value. destruct (Z.eqb_spec qual 104) as [->|_]; cbn [Z.eqb Pos.eqb v_args v_str v_stored]; intros E.
  - rewrite Eu. destruct (has flags SIGN).
    + rewrite Es, wraps_wrapu, E. done.
    + pose proof (wrapu_range 16 v ltac:(done)). rewrite wraps_small, E by lia. done.
  - destruct (qual =? 108); cbn [v_args v_str v_stored]; [by rewrite wraps_wrapu, E|].
    destruct (has flags SIGN); cbn [v_args v_str v_stored]; [|by rewrite wraps_wrapu, E].
    rewrite !wraps_wrapu. rewrite (wraps_small 32 (s32 v)) by (done || apply wraps_range; done). by rewrite E.
Qed.

Lemma convert_char_runs flags width v args str st :
  - 2 ^ 29 <= width < 2 ^ 30 ->
  convert_char flags width (mk_v (ANum v :: args) str st)
  = Ok (tt, mk_v args (str ++ in_field (has flags LEFT) width [u8 v]) st).
Proof.
  intros Hw. unfold convert_char, pad_char, in_field, va_int, va_word, va_next, mbind, mret, emit, mmodify. rewrite !(wraps_small 32 (width - 1)) by lia.
  change (zlen [u8 v]) with 1. assert (u8 (s32 (u32 v)) = u8 v) as Eu by (rewrite wraps_wrapu, wrapu_wraps by lia; done).
  destruct (has flags LEFT); cbn [negb v_args v_str v_stored]; rewrite Eu; [by rewrite wraps_small by lia|].
  destruct (Z.ltb_spec 0 (width - 1)); [by rewrite app_nil_r|]. rewrite wraps_small by lia.
  replace (Z.to_nat (width - 1 - 1)) with 0%nat by lia. by rewrite app_nil_r.
Qed.

Lemma strnlen_spec s count :
  Forall (fun c => c <> 0) s -> 0 <= count < 2 ^ 32 -> strnlen s count = Z.min (zlen s) count.
Proof.
  intros Hs. revert count. induction Hs as [|c s Hc _ IH]; intros count Hn; cbn [strnlen]; [unfold zlen; cbn; lia|].
  rewrite (proj2 (Z.eqb_neq c 0) Hc), orb_false_r, zlen_cons. pose proof (zlen_nonneg s).
  destruct (Z.eqb_spec count 0); [lia|]. rewrite wrapu_small, IH by lia. lia.
Qed.

Lemma convert_string_runs flags width prec t args str st :
  conv_ok (CStr t) -> - 2 ^ 29 <= width < 2 ^ 30 -> -1 <= prec < 2 ^ 30 ->
  convert_string flags width prec (mk_v (AStr t :: args) str st)
  = Ok (tt, mk_v args (str ++ in_field (has flags LEFT) width
      (if prec =? -1 then default (chars "<NULL>") t else take (Z.to_nat prec) (default (chars "<NULL>") t))) st).
Proof.
  intros Ht Hw Hp. unfold convert_string, va_string, va_next, mbind, mret, emit, mmodify. cbn [v_args v_str v_stored].
  assert (Forall (fun c => c <> 0) (default (chars "<NULL>") t) /\ zlen (default (chars "<NULL>") t) < 2 ^ 29) as [Hz Hl].
  { destruct t as [t|]; [exact Ht|]. split; [by repeat constructor|done]. }
  set (u := default _ t) in *. pose proof (zlen_nonneg u).
  assert (take (Z.to_nat (strnlen u (u32 prec))) u = (if prec =? -1 then u else take (Z.to_nat prec) u) /\
          strnlen u (u32 prec) = zlen (if prec =? -1 then u else take (Z.to_nat prec) u)) as [-> ->].
  { destruct (Z.eqb_spec prec (-1)) as [->|].
    - change (u32 (-1)) with (2 ^ 32 - 1). rewrite strnlen_spec, Z.min_l by (lia || done). unfold zlen.
      rewrite Nat2Z.id, take_ge by lia. done.
    - rewrite (wrapu_small 32 prec), strnlen_spec by (lia || done). unfold zlen. rewrite length_take. split; [|lia].
      destruct (Z.le_gt_cases (Z.of_nat (length u)) prec).
      + rewrite Z.min_l by lia. rewrite Nat2Z.id, !take_ge by lia. done.
      + by rewrite Z.min_r by lia. }
  set (w := if prec =? -1 then u else take (Z.to_nat prec) u). assert (0 <= zlen w < 2 ^ 29) as Hlw.
  { unfold w. destruct (prec =? -1); [lia|]. unfold zlen in *. rewrite length_take. lia. }
  unfold in_field, pad_string. destruct (has flags LEFT); cbn [negb app]; [done|].
  rewrite wraps_small by lia. replace (Z.to_nat (Z.min (zlen w) width - 1 - zlen w)) with 0%nat by lia. by rewrite app_nil_r.
Qed.

Lemma convert_pointer_runs flags width prec v args str st :
  - 2 ^ 29 <= width < 2 ^ 30 -> prec < 2 ^ 30 ->
  exists out, (if width =? -1 then shows_number (s32 v) 16 8 prec (Z.lor flags ZEROPAD) out
               else shows_number (s32 v) 16 width prec flags out) /\
    convert_pointer flags width prec (mk_v (ANum v :: args) str st) = Ok (tt, mk_v args (str ++ out) st).
Proof.
  intros Hw Hp. unfold convert_pointer, va_word, va_next, mbind, mret, emit, mmodify. rewrite ?wraps_wrapu.
  pose proof (wraps_range 32 v ltac:(done)) as Hv.
  destruct (width =? -1); cbn [v_args v_str v_stored]; rewrite wraps_wrapu;
    [destruct (number_text (s32 v) 16 8 prec (Z.lor flags ZEROPAD)) as (ds & Hds & E)
    |destruct (number_text (s32 v) 16 width prec flags) as (ds & Hds & E)];
    try done; eexists; (split; [by exists ds|]); by rewrite E.
Qed.

(** One conversion on the arguments it takes. *)
Lemma convert_runs s args str st :
  conv_ok (sp_conv s) -> - 2 ^ 29 <= width_of (sp_width s) < 2 ^ 30 -> -1 <= prec_of (sp_prec s) < 2 ^ 30 ->
  exists out st', shows_conv s out /\
    convert (conv_char (sp_conv s)) (flags_of s) (width_of (sp_width s)) (prec_of (sp_prec s)) (sp_qual s)
      (mk_v (conv_args (sp_conv s) ++ args) str st) = Ok (tt, mk_v args (str ++ out) st').
Proof.
  intros Hc Hw Hp. unfold shows_conv. pose proof (flags_of_sign s) as HS.
  destruct (sp_conv s) as [c v|v|t|v|k|]; cbn [conv_char conv_args app].
  - destruct Hc as [Hc _].
    assert (forall base flags, 2 <= base <= 36 -> exists out st',
      shows_number (int_value (has flags SIGN) (sp_qual s) v) base (width_of (sp_width s)) (prec_of (sp_prec s)) flags out /\
      convert_number base flags (width_of (sp_width s)) (prec_of (sp_prec s)) (sp_qual s) (mk_v (ANum v :: args) str st)
      = Ok (tt, mk_v args (str ++ out) st')) as Hn.
    { intros base flags Hb. destruct (convert_number_runs base flags _ (prec_of (sp_prec s)) (sp_qual s) v args str st Hb Hw) as (out & ? & ?); [lia|].
      by exists out, st. }
    pose proof (has_lor (flags_of s) SIGN SIGN) as Hd. pose proof (has_lor (flags_of s) LARGE SIGN) as HX. rewrite HS in Hd, HX.
    change (has SIGN SIGN) with true in Hd. change (has LARGE SIGN) with false in HX. cbn [orb] in Hd, HX.
    each_char Hc; unfold convert; cbn [Z.eqb Pos.eqb orb].
    + specialize (Hn 10 (Z.lor (flags_of s) SIGN) ltac:(lia)). rewrite Hd in Hn. exact Hn.
    + specialize (Hn 10 (Z.lor (flags_of s) SIGN) ltac:(lia)). rewrite Hd in Hn. exact Hn.
    + specialize (Hn 8 (flags_of s) ltac:(lia)). rewrite HS in Hn. exact Hn.
    + specialize (Hn 16 (flags_of s) ltac:(lia)). rewrite HS in Hn. exact Hn.
    + specialize (Hn 16 (Z.lor (flags_of s) LARGE) ltac:(lia)). rewrite HX in Hn. exact Hn.
    + specialize (Hn 10 (flags_of s) ltac:(lia)). rewrite HS in Hn. exact Hn.
  - eexists _, st. split; [done|]. by apply convert_char_runs.
  - eexists _, st. split; [done|]. by apply convert_string_runs.
  - destruct (convert_pointer_runs (flags_of s) (width_of (sp_width s)) (prec_of (sp_prec s)) v args str st Hw) as (out & ? & ?); [lia|].
    by exists out, st.
  - eexists [], _. split; [done|]. rewrite app_nil_r. done.
  - eexists [37], st. done.
Qed.

Lemma opener_facts c : opener c ->
  ~ In c (chars "-+ #0") /\ is_digit c = false /\ c <> 42 /\ c <> 46 /\ c <> 0.
Proof. intros H. each_char H; (split; [intros Hi; by repeat destruct Hi as [Hi|Hi]|done]). Qed.

Lemma conv_char_opener c : conv_ok c -> opener (conv_char c).
Proof. destruct c as [c v|v|t|v|k|]; intros H; [destruct H as [H _]; each_char H|..]; unfold opener; cbn; tauto. Qed.
Lemma conv_char_no_qualifier c : conv_ok c -> ~ In (conv_char c) (chars "hlL").
Proof.
  destruct c as [c v|v|t|v|k|]; intros H; [destruct H as [H _]; each_char H|..]; intros Hi; by repeat destruct Hi as [Hi|Hi].
Qed.

(** The qualifier and the conversion. *)
Lemma parse_qualifier_text q c rest :
  In q (0 :: chars "hlL") -> ~ In c (chars "hlL") ->
  parse_qualifier ((if q =? 0 then [] else [q]) ++ c :: rest) = (q, c :: rest).
Proof.
  intros Hq Hc. change (chars "hlL") with [104; 108; 76] in Hc. cbn [In] in Hc. each_char Hq; [|done..]. cbn. unfold parse_qualifier. cbn [hd].
  rewrite (proj2 (Z.eqb_neq c 104)), (proj2 (Z.eqb_neq c 108)), (proj2 (Z.eqb_neq c 76)) by lia. done.
Qed.

Lemma field_bounds f : field_ok f -> -1 <= width_of f < 2 ^ 29.
Proof.
  destruct f as [|ds|w]; cbn; [done| |lia]. intros (_ & Hd & Hv). pose proof (value_nonneg 10 ds ltac:(done) Hd). lia.
Qed.
Lemma prec_bounds f : (forall g, f = Some g -> field_ok g) -> -1 <= prec_of f < 2 ^ 29.
Proof.
  destruct f as [[|ds|w]|]; intros H; [done|..|done]; specialize (H _ eq_refl); cbn in H |- *; [|lia].
  destruct H as (_ & Hd & Hv). pose proof (value_nonneg 10 ds ltac:(done) Hd). lia.
Qed.

(** What follows the width, and what follows the flags. *)
Lemma prec_text_head f R :
  opener (hd 0 R) ->
  let R := match f with Some f => 46 :: field_text f | None => [] end ++ R in
  ~ In (hd 0 R) (chars "-+ #0") /\ is_digit (hd 0 R) = false /\ hd 0 R <> 42.
Proof.
  intros HR. destruct f as [f|]; cbn [app hd]; [|destruct (opener_facts _ HR) as (? & ? & ? & _); done].
  split; [|done]. intros Hi. by repeat destruct Hi as [Hi|Hi].
Qed.

Lemma width_text_head f R :
  field_ok f -> (forall ds, f = Digits ds -> hd 0 ds <> 0) -> ~ In (hd 0 R) (chars "-+ #0") ->
  ~ In (hd 0 (field_text f ++ R)) (chars "-+ #0").
Proof.
  intros Hf H0 HR. destruct f as [|ds|w]; [done|..|intros Hi; by repeat destruct Hi as [Hi|Hi]].
  destruct Hf as (Hne & Hd & _). specialize (H0 _ eq_refl). destruct Hd as [|d ds Hd _]; [done|]. cbn [hd] in H0.
  cbn [field_text fmap list_fmap app hd]. change (chars "-+ #0") with [45; 43; 32; 35; 48]. cbn [In]. lia.
Qed.

(** One directive. *)
Lemma directive_runs s rest args str st :
  item_ok (Dir s) ->
  exists out st', shows_conv s out /\
    directive (tl (item_text (Dir s)) ++ rest) (mk_v (item_args (Dir s) ++ args) str st) = Ok (rest, mk_v args (str ++ out) st').
Proof.
  intros (Hfl & Hw & Hw0 & Hp & Hq & Hc). cbn [item_text item_args app tl].
  destruct (convert_runs s args str st Hc) as (out & st' & Hout & E); [pose proof (field_bounds _ Hw); lia|pose proof (prec_bounds _ Hp); lia|].
  exists out, st'. split; [done|]. unfold directive. rewrite <- !app_assoc. cbn [app].
  set (R3 := (if sp_qual s =? 0 then [] else [sp_qual s]) ++ conv_char (sp_conv s) :: rest).
  assert (opener (hd 0 R3)) as H3.
  { unfold R3. each_char Hq; [apply conv_char_opener, Hc|..]; unfold opener; cbn; tauto. }
  destruct (opener_facts _ H3) as (_ & Hd3 & Hs3 & Hp3 & _). destruct (prec_text_head (sp_prec s) R3 H3) as (Hf2 & Hd2 & Hs2).
  rewrite parse_flags_text by (done || by apply width_text_head).
  erewrite mbind_run by by apply parse_width_text. cbv beta iota.
  erewrite mbind_run by by apply parse_precision_text. cbv beta iota.
  unfold R3. rewrite parse_qualifier_text by (done || by apply conv_char_no_qualifier). cbn [hd tl].
  erewrite mbind_run by exact E. done.
Qed.

Lemma vs_loop_items items : Forall item_ok items -> forall fuel rest args str st, (length items <= fuel)%nat ->
  exists outs st', Forall2 shows items outs /\
    vs_loop fuel (concat (item_text <$> items) ++ rest) (mk_v (concat (item_args <$> items) ++ args) str st)
    = vs_loop (fuel - length items) rest (mk_v args (str ++ concat outs) st').
Proof.
  induction 1 as [|i items Hi _ IH]; intros fuel rest args str st Hf; cbn [fmap list_fmap concat app length].
  - exists [], st. split; [constructor|]. by rewrite Nat.sub_0_r, app_nil_r.
  - destruct fuel as [|fuel]; [cbn in Hf; lia|]. cbn [length] in Hf. rewrite <- !app_assoc. cbn [Nat.sub].
    destruct i as [c|s].
    + destruct Hi as [Hc _]. cbn [item_text item_args app vs_loop]. rewrite (proj2 (Z.eqb_neq c 37) Hc). cbn [negb].
      erewrite mbind_run by reflexivity. cbv beta iota. cbn [v_args v_str v_stored].
      destruct (IH fuel rest args (str ++ [c]) st ltac:(lia)) as (outs & st' & Ho & ->).
      exists ([c] :: outs), st'. split; [by constructor|]. cbn [concat]. by rewrite app_assoc.
    + destruct (directive_runs s (concat (item_text <$> items) ++ rest) (concat (item_args <$> items) ++ args) str st Hi)
        as (out & st1 & Hout & E).
      assert (item_text (Dir s) = 37 :: tl (item_text (Dir s))) as -> by done. cbn [app vs_loop]. rewrite Z.eqb_refl. cbn [negb].
      erewrite mbind_run by exact E. cbv beta iota.
      destruct (IH fuel rest args (str ++ out) st1 ltac:(lia)) as (outs & st' & Ho & ->).
      exists (out :: outs), st'. split; [by constructor|]. cbn [concat]. by rewrite app_assoc.
Qed.

Lemma item_text_length i : (1 <= length (item_text i))%nat.
Proof. destruct i; cbn; lia. Qed.

Lemma items_length items : (length items <= length (concat (item_text <$> items)))%nat.
Proof.
  induction items as [|i items IH]; cbn [fmap list_fmap concat length]; [lia|]. rewrite length_app.
  pose proof (item_text_length i). cbn in IH. lia.
Qed.

(** Formats.  [vsprintf] on the text of any sequence of characters and directives,
with any flags, widths, precisions and qualifiers and the arguments the directives
take, [*] included, ends and produces what each directive asks for, one behind the
other: numbers as [layout] says of the argument in the width of the qualifier,
strings cut to the precision and characters in their field, NULL as [<NULL>]. *)
Lemma vsprintf_items items :
  Forall item_ok items ->
  exists outs, Forall2 shows items outs /\
    vsprintf (concat (item_text <$> items)) (concat (item_args <$> items)) = Ok (concat outs).
Proof.
  intros His. destruct (vs_loop_items items His (S (length (concat (item_text <$> items)))) [] [] [] []) as (outs & st' & Ho & E).
  { pose proof (items_length items). lia. }
  exists outs. split; [done|]. unfold vsprintf. rewrite !app_nil_r in E. rewrite E.
  rewrite Nat.sub_succ_l by apply items_length. done.
Qed.
