(* ===== verification/Serial.v ===== *)
(** * The serial port of the boot loader

[src/x-loader/drivers/serial.c] over the chip driver
[src/x-loader/drivers/ns16550.c], and [serial_printf] of
[src/x-loader/lib/printf.c].  The chip is the class [Ns16550] of register accesses;
[Ns16550Laws] states what its data sheet promises of them. *)
From stdpp Require Import base list strings.
From S2P Require Import Prelude Bits Mkbof I2cTools Printf.
From Stdlib Require Import ZArith Lia.

(** ** [ns16550.h], for registers at a distance of four bytes *)
Definition RBR : Z := 0x00.
Definition IER : Z := 0x04.
Definition FCR : Z := 0x08.
Definition LCR : Z := 0x0C.
Definition MCR : Z := 0x10.
Definition LSR : Z := 0x14.
Definition MDR1 : Z := 0x20.
Definition FCR_FIFO_EN : Z := 0x01.
Definition FCR_RXSR : Z := 0x02.
Definition FCR_TXSR : Z := 0x04.
Definition MCR_DTR : Z := 0x01.
Definition MCR_RTS : Z := 0x02.
Definition LCR_BKSE : Z := 0x80.
Definition LCR_8N1 : Z := 0x03.
Definition LSR_DR : Z := 0x01.
Definition LSR_THRE : Z := 0x20.

(** ** [configs/rhino.h] *)
Definition CFG_NS16550_CLK : Z := 48000000.
Definition CONFIG_BAUDRATE : Z := 115200.
Definition CFG_PBSIZE : Z := 256.

(** The registers of a port: an access takes the chip to its next state. *)
Class Ns16550 (D : Type) : Type := {
  reg_in : D -> Z -> Z * D;
  reg_out : D -> Z -> Z -> D;
}.

Section serial.
Context {D : Type} `{Ns16550 D}.

Definition inb (r : Z) : M D Z := fun d => let '(v, d') := reg_in d r in Ok (u8 v, d').
Definition outb (r v : Z) : M D unit := fun d => Ok (tt, reg_out d r (u8 v)).

(** ** [ns16550.c] *)
Definition LCRVAL : Z := LCR_8N1.
Definition MCRVAL : Z := Z.lor MCR_DTR MCR_RTS.
Definition FCRVAL : Z := Z.lor (Z.lor FCR_FIFO_EN FCR_RXSR) FCR_TXSR.

Definition NS16550_init (baud_divisor : Z) : M D unit :=
  do! outb IER 0x00 in
  do! outb MDR1 0x7 in
  do! outb LCR (Z.lor LCR_BKSE LCRVAL) in
  do! outb RBR (Z.land baud_divisor 0xff) in
  do! outb IER (Z.land (Z.shiftr baud_divisor 8) 0xff) in
  do! outb LCR LCRVAL in
  do! outb MCR MCRVAL in
  do! outb FCR FCRVAL in
  outb MDR1 0.

Definition NS16550_reinit (baud_divisor : Z) : M D unit :=
  do! outb IER 0x00 in
  do! outb LCR LCR_BKSE in
  do! outb RBR (Z.land baud_divisor 0xff) in
  do! outb IER (Z.land (Z.shiftr baud_divisor 8) 0xff) in
  do! outb LCR LCRVAL in
  do! outb MCR MCRVAL in
  outb FCR FCRVAL.

(** [while ((com_port->lsr & flag) == 0);] *)
Fixpoint wait_lsr (fuel : nat) (flag : Z) : M D unit :=
  match fuel with
  | O => mfault OutOfFuel
  | S fuel => let! v := inb LSR in if has v flag then mret tt else wait_lsr fuel flag
  end.

Definition NS16550_putc (fuel : nat) (c : Z) : M D unit :=
  do! wait_lsr fuel LSR_THRE in
  outb RBR c.

Definition NS16550_getc (fuel : nat) : M D Z :=
  do! wait_lsr fuel LSR_DR in
  inb RBR.

Definition NS16550_tstc : M D Z := let! v := inb LSR in mret (if has v LSR_DR then 1 else 0).

(** ** [serial.c] *)
Definition calc_divisor : Z := CFG_NS16550_CLK / 16 / CONFIG_BAUDRATE.

Definition serial_init : M D Z := do! NS16550_init calc_divisor in mret 0.

Definition serial_putc (fuel : nat) (c : Z) : M D unit :=
  do! (if c =? 10 then NS16550_putc fuel 13 else mret tt) in
  NS16550_putc fuel c.

(** A text ends at its end or at a NUL. *)
Fixpoint serial_puts (fuel : nat) (s : list Z) : M D unit :=
  match s with
  | c :: s => if c =? 0 then mret tt else do! serial_putc fuel c in serial_puts fuel s
  | [] => mret tt
  end.

Definition serial_getc (fuel : nat) : M D Z := NS16550_getc fuel.
Definition serial_tstc : M D Z := NS16550_tstc.
Definition serial_setbrg : M D unit := NS16550_reinit calc_divisor.

(** ** [serial_printf] *)
Definition serial_printf (fuel : nat) (fmt : list Z) (args : list arg) : M D unit :=
  match vsprintf fmt args with
  | Ok text => if CFG_PBSIZE <? zlen text + 1 then mfault OutOfBounds else serial_puts fuel text
  | Fault f => mfault f
  end.
End serial.

(** * What the chip promises *)

(** The programmed state of a port, the characters it has sent since it was set up and
the characters that arrive. *)
Record uart : Type := mk_uart {
  u_ier : Z;
  u_fcr : Z;
  u_lcr : Z;
  u_mcr : Z;
  u_mdr1 : Z;
  u_dll : Z;
  u_dlm : Z;
  u_sent : list Z;
  u_coming : list Z;
}.

(** The divisor latch is selected, and the port works as a UART. *)
Definition banked (u : uart) : bool := has (u_lcr u) LCR_BKSE.
Definition enabled (u : uart) : bool := negb (banked u) && (u_mdr1 u =? 0).

(** A write to a register.  Resetting the transmitter's queue loses what has not left
it yet; a character is taken when the queue has room. *)
Definition written (room : Prop) (u : uart) (r v : Z) (u' : uart) : Prop :=
  if r =? RBR then
    if banked u then
      u' = mk_uart (u_ier u) (u_fcr u) (u_lcr u) (u_mcr u) (u_mdr1 u) v (u_dlm u) (u_sent u) (u_coming u)
    else enabled u = true -> room ->
      u' = mk_uart (u_ier u) (u_fcr u) (u_lcr u) (u_mcr u) (u_mdr1 u) (u_dll u) (u_dlm u) (u_sent u ++ [v]) (u_coming u)
  else if r =? IER then
    u' = if banked u then mk_uart (u_ier u) (u_fcr u) (u_lcr u) (u_mcr u) (u_mdr1 u) (u_dll u) v (u_sent u) (u_coming u)
         else mk_uart v (u_fcr u) (u_lcr u) (u_mcr u) (u_mdr1 u) (u_dll u) (u_dlm u) (u_sent u) (u_coming u)
  else if r =? FCR then
    exists sent coming, sent `prefix_of` u_sent u /\ coming `suffix_of` u_coming u /\
      u' = mk_uart (u_ier u) v (u_lcr u) (u_mcr u) (u_mdr1 u) (u_dll u) (u_dlm u) sent coming
  else if r =? LCR then
    u' = mk_uart (u_ier u) (u_fcr u) v (u_mcr u) (u_mdr1 u) (u_dll u) (u_dlm u) (u_sent u) (u_coming u)
  else if r =? MCR then
    u' = mk_uart (u_ier u) (u_fcr u) (u_lcr u) v (u_mdr1 u) (u_dll u) (u_dlm u) (u_sent u) (u_coming u)
  else if r =? MDR1 then
    u' = mk_uart (u_ier u) (u_fcr u) (u_lcr u) (u_mcr u) v (u_dll u) (u_dlm u) (u_sent u) (u_coming u)
  else True.

(** The chip sends a character within [polls] reads of its status, and the next
character arrives within that number too. *)
Class Ns16550Laws {D} `{Ns16550 D} (polls : nat) : Type := {
  view : D -> uart;
  tx_wait : D -> nat;
  rx_wait : D -> nat;
  tx_wait_bound d : (tx_wait d <= polls)%nat;
  rx_wait_bound d : (rx_wait d <= polls)%nat;
  write_law d r v : written (tx_wait d = 0%nat) (view d) r v (view (reg_out d r v));
  status_law d v d' : reg_in d LSR = (v, d') ->
    view d' = view d /\ tx_wait d' = pred (tx_wait d) /\ rx_wait d' = pred (rx_wait d) /\
    has (u8 v) LSR_THRE = (tx_wait d =? 0)%nat /\
    has (u8 v) LSR_DR = (rx_wait d =? 0)%nat && negb (bool_decide (u_coming (view d) = []));
  read_law d c cs v d' : reg_in d RBR = (v, d') -> enabled (view d) = true -> rx_wait d = 0%nat ->
    u_coming (view d) = c :: cs ->
    u8 v = c /\
    view d' = mk_uart (u_ier (view d)) (u_fcr (view d)) (u_lcr (view d)) (u_mcr (view d)) (u_mdr1 (view d))
                (u_dll (view d)) (u_dlm (view d)) (u_sent (view d)) cs;
}.

(** * Properties *)

Definition add_sent (l : list Z) (u : uart) : uart :=
  mk_uart (u_ier u) (u_fcr u) (u_lcr u) (u_mcr u) (u_mdr1 u) (u_dll u) (u_dlm u) (u_sent u ++ l) (u_coming u).
Definition set_coming (l : list Z) (u : uart) : uart :=
  mk_uart (u_ier u) (u_fcr u) (u_lcr u) (u_mcr u) (u_mdr1 u) (u_dll u) (u_dlm u) (u_sent u) l.

(** A text on the wire. *)
Definition crlf (l : list Z) : list Z := concat ((fun c => if c =? 10 then [13; 10] else [c]) <$> l).

(** Bytes that are not NUL. *)
Definition is_text (l : list Z) : Prop := Forall (fun c => 0 < c < 256) l.

Lemma add_sent_nil u : add_sent [] u = u.
Proof. unfold add_sent. rewrite app_nil_r. by destruct u. Qed.
Lemma add_sent_app l k u : add_sent k (add_sent l u) = add_sent (l ++ k) u.
Proof. unfold add_sent. cbn. by rewrite app_assoc. Qed.
Lemma enabled_add_sent l u : enabled (add_sent l u) = enabled u.
Proof. done. Qed.

(** Items that print no NUL. *)
Definition item_clean (i : item) : Prop :=
  match i with
  | Lit c => 0 < c < 256
  | Dir s => match sp_conv s with
             | CChar v => u8 v <> 0
             | CStr (Some t) => is_text t
             | _ => True
             end
  end.

Lemma is_text_replicate n c : 0 < c < 256 -> is_text (replicate n c).
Proof. intros Hc. by apply Forall_replicate. Qed.

Lemma is_text_digits base large ds :
  2 <= base <= 36 -> Forall (fun d => 0 <= d < base) ds -> is_text (digit_char large <$> ds).
Proof.
  intros Hb Hd. apply Forall_fmap. eapply Forall_impl; [exact Hd|]. intros d Hdr. cbn in Hdr |- *. unfold digit_char.
  assert (Forall (fun c => 0 < c < 256) (if large then upper_digits else lower_digits)) as Ht by (by destruct large; repeat constructor).
  assert (length (if large then upper_digits else lower_digits) = 36%nat) as Hl by by destruct large.
  rewrite Forall_nth in Ht. apply Ht. rewrite Hl. lia.
Qed.

Lemma shows_number_text num base width prec flags out :
  2 <= base <= 36 -> shows_number num base width prec flags out -> is_text out.
Proof.
  intros Hb (ds & (_ & Hd & _) & ->). pose proof (is_text_digits base (has flags LARGE) ds Hb Hd) as Hds.
  assert (is_text (sign_text num flags)) as Hs by (unfold sign_text; repeat case_match; by repeat constructor).
  assert (is_text (prefix_text base flags)) as Hp by (unfold prefix_text; repeat case_match; by repeat constructor).
  unfold layout, is_text in *. repeat case_match; rewrite !Forall_app; repeat split; by try apply is_text_replicate.
Qed.

Lemma in_field_text left width t : is_text t -> is_text (in_field left width t).
Proof. intros Ht. unfold in_field, is_text. destruct left; rewrite Forall_app; split; by try apply is_text_replicate. Qed.

Lemma item_shows_text i out : item_clean i -> shows i out -> is_text out.
Proof.
  destruct i as [c|s]; cbn; [intros Hc ->; by constructor|]. unfold shows_conv. destruct (sp_conv s) as [c v|v|t|v|k|]; intros Hc Hs.
  - eapply shows_number_text; [|exact Hs]. repeat case_match; lia.
  - subst. apply in_field_text. constructor; [|done]. pose proof (wrapu_range 8 v ltac:(done)). lia.
  - subst. apply in_field_text. assert (is_text (default (chars "<NULL>") t)) as Ht by (destruct t; [exact Hc|by repeat constructor]).
    destruct (_ =? -1); [done|by apply Forall_take].
  - case_match; eapply shows_number_text; by try exact Hs.
  - subst. constructor.
  - subst. by repeat constructor.
Qed.

Lemma shows_text items outs : Forall item_clean items -> Forall2 shows items outs -> is_text (concat outs).
Proof.
  intros Hc Hs. revert Hc. induction Hs as [|i out items outs Hi _ IH]; intros Hc; [constructor|]. inversion_clear Hc.
  cbn [concat]. apply Forall_app. split; [by eapply item_shows_text|by apply IH].
Qed.

Section laws.
Context {D : Type} {HD : Ns16550 D} (polls : nat) {HL : Ns16550Laws polls}.

Lemma outb_runs r v d : 0 <= v < 256 -> runs (outb r v) d tt (reg_out d r v).
Proof. intros Hv. unfold runs, outb. by rewrite wrapu_small. Qed.

Lemma wait_tx_runs fuel d :
  (tx_wait d < fuel)%nat -> exists d', runs (wait_lsr fuel LSR_THRE) d tt d' /\ view d' = view d /\ tx_wait d' = 0%nat.
Proof.
  revert d. induction fuel as [|fuel IH]; intros d Hf; [lia|]. cbn [wait_lsr].
  destruct (reg_in d LSR) as [v d1] eqn:E. destruct (status_law d v d1 E) as (Hv & Ht & _ & Hs & _).
  assert (runs (inb LSR) d (u8 v) d1) as Hr by (unfold runs, inb; by rewrite E).
  destruct (tx_wait d) as [|n] eqn:En.
  - exists d1. split; [|done]. eapply runs_bind; [exact Hr|]. cbv beta. by rewrite Hs.
  - destruct (IH d1) as (d' & Hr' & Hv' & Ht'); [rewrite Ht; cbn; lia|]. exists d'. split; [|by rewrite Hv', Hv].
    eapply runs_bind; [exact Hr|]. cbv beta. by rewrite Hs.
Qed.

Lemma wait_rx_runs fuel d :
  (rx_wait d < fuel)%nat -> u_coming (view d) <> [] ->
  exists d', runs (wait_lsr fuel LSR_DR) d tt d' /\ view d' = view d /\ rx_wait d' = 0%nat.
Proof.
  revert d. induction fuel as [|fuel IH]; intros d Hf Hc; [lia|]. cbn [wait_lsr].
  destruct (reg_in d LSR) as [v d1] eqn:E. destruct (status_law d v d1 E) as (Hv & _ & Ht & _ & Hs).
  assert (runs (inb LSR) d (u8 v) d1) as Hr by (unfold runs, inb; by rewrite E).
  rewrite bool_decide_eq_false_2 in Hs by done. destruct (rx_wait d) as [|n] eqn:En.
  - exists d1. split; [|done]. eapply runs_bind; [exact Hr|]. cbv beta. by rewrite Hs.
  - destruct (IH d1) as (d' & Hr' & Hv' & Ht'); [rewrite Ht; cbn; lia|by rewrite Hv|]. exists d'. split; [|by rewrite Hv', Hv].
    eapply runs_bind; [exact Hr|]. cbv beta. by rewrite Hs.
Qed.

Lemma putc_runs fuel c d :
  (polls < fuel)%nat -> enabled (view d) = true -> 0 <= c < 256 ->
  exists d', runs (NS16550_putc fuel c) d tt d' /\ view d' = add_sent [c] (view d).
Proof.
  intros Hf He Hc. pose proof (tx_wait_bound d). destruct (wait_tx_runs fuel d ltac:(lia)) as (d1 & Hr & Hv & Ht).
  exists (reg_out d1 RBR c). split; [eapply runs_bind; [exact Hr|by apply outb_runs]|].
  pose proof (write_law d1 RBR c) as Hw. unfold written in Hw. rewrite Z.eqb_refl, Hv in Hw.
  assert (banked (view d) = false) as Hb by (unfold enabled in He; by destruct (banked (view d))).
  rewrite Hb in Hw. by apply Hw.
Qed.

Lemma serial_putc_runs fuel c d :
  (polls < fuel)%nat -> enabled (view d) = true -> 0 <= c < 256 ->
  exists d', runs (serial_putc fuel c) d tt d' /\ view d' = add_sent (crlf [c]) (view d).
Proof.
  intros Hf He Hc. unfold serial_putc, crlf. cbn [fmap list_fmap concat]. rewrite app_nil_r.
  destruct (Z.eqb_spec c 10) as [->|Hn].
  - destruct (putc_runs fuel 13 d Hf He ltac:(lia)) as (d1 & Hr1 & Hv1).
    destruct (putc_runs fuel 10 d1 Hf) as (d2 & Hr2 & Hv2); [by rewrite Hv1|lia|].
    exists d2. split; [by eapply runs_bind|]. by rewrite Hv2, Hv1, add_sent_app.
  - destruct (putc_runs fuel c d Hf He Hc) as (d1 & Hr1 & Hv1). exists d1. split; [|done]. eapply runs_bind; [apply runs_ret|done].
Qed.

Lemma serial_puts_runs fuel s d :
  (polls < fuel)%nat -> enabled (view d) = true -> is_text s ->
  exists d', runs (serial_puts fuel s) d tt d' /\ view d' = add_sent (crlf s) (view d).
Proof.
  intros Hf He Hs. revert d He. induction Hs as [|c s Hc _ IH]; intros d He; cbn [serial_puts].
  - exists d. split; [apply runs_ret|by rewrite add_sent_nil].
  - rewrite (proj2 (Z.eqb_neq c 0)) by lia.
    destruct (serial_putc_runs fuel c d Hf He ltac:(lia)) as (d1 & Hr1 & Hv1).
    destruct (IH d1) as (d2 & Hr2 & Hv2); [by rewrite Hv1|]. exists d2. split; [by eapply runs_bind|].
    rewrite Hv2, Hv1, add_sent_app. f_equal. unfold crlf. cbn [fmap list_fmap concat]. by rewrite app_nil_r.
Qed.

(** [serial_printf] on any text that [vsprintf] produces. *)
Lemma serial_printf_runs fuel fmt args text d :
  (polls < fuel)%nat -> enabled (view d) = true -> vsprintf fmt args = Ok text -> is_text text -> zlen text < CFG_PBSIZE ->
  exists d', runs (serial_printf fuel fmt args) d tt d' /\ view d' = add_sent (crlf text) (view d).
Proof.
  intros Hf He Ev Ht Hl. destruct (serial_puts_runs fuel text d Hf He Ht) as (d' & Hr & Hv). exists d'. split; [|done].
  unfold serial_printf. rewrite Ev, (proj2 (Z.ltb_ge _ _)) by lia. exact Hr.
Qed.

(** C29. The console.  [serial_printf] with any format sends exactly what the format
asks for, line feeds as a carriage return and a line feed, and leaves the rest of the
port as it was, however long the chip takes for a character up to its bound; it is a
text that does not fit [printbuffer] with its NUL, and no other, that overruns it. *)
Theorem serial_printf_sends fuel items d :
  (polls < fuel)%nat -> enabled (view d) = true -> Forall item_ok items -> Forall item_clean items ->
  exists outs, Forall2 shows items outs /\
    if zlen (concat outs) <? CFG_PBSIZE then
      exists d', runs (serial_printf fuel (concat (item_text <$> items)) (concat (item_args <$> items))) d tt d' /\
        view d' = add_sent (crlf (concat outs)) (view d)
    else serial_printf fuel (concat (item_text <$> items)) (concat (item_args <$> items)) d = Fault OutOfBounds.
Proof.
  intros Hf He Hok Hcl. destruct (vsprintf_items items Hok) as (outs & Ho & E). exists outs. split; [done|].
  destruct (Z.ltb_spec (zlen (concat outs)) CFG_PBSIZE) as [Hl|Hl].
  - by apply serial_printf_runs; [..|apply (shows_text items)|].
  - unfold serial_printf. by rewrite E, (proj2 (Z.ltb_lt _ _)) by lia.
Qed.

Lemma outb_step r v d :
  0 <= v < 256 -> exists d', runs (outb r v) d tt d' /\ written (tx_wait d = 0%nat) (view d) r v (view d').
Proof. intros Hv. exists (reg_out d r v). split; [by apply outb_runs|apply write_law]. Qed.

Lemma serial_init_view d :
  exists d', runs serial_init d 0 d' /\
    exists sent coming, sent `prefix_of` u_sent (view d) /\
    view d' = mk_uart (if banked (view d) then u_ier (view d) else 0) FCRVAL LCRVAL MCRVAL 0 26 0 sent coming.
Proof.
  unfold serial_init, NS16550_init. change calc_divisor with 26.
  destruct (outb_step IER 0 d) as (d1 & R1 & W1); [lia|].
  destruct (outb_step MDR1 7 d1) as (d2 & R2 & W2); [lia|].
  destruct (outb_step LCR 0x83 d2) as (d3 & R3 & W3); [lia|].
  destruct (outb_step RBR 26 d3) as (d4 & R4 & W4); [lia|].
  destruct (outb_step IER 0 d4) as (d5 & R5 & W5); [lia|].
  destruct (outb_step LCR LCRVAL d5) as (d6 & R6 & W6); [done|].
  destruct (outb_step MCR MCRVAL d6) as (d7 & R7 & W7); [done|].
  destruct (outb_step FCR FCRVAL d7) as (d8 & R8 & W8); [done|].
  destruct (outb_step MDR1 0 d8) as (d9 & R9 & W9); [lia|].
  exists d9. split.
  { eapply runs_bind; [|apply runs_ret]. do 8 (eapply runs_bind; [eassumption|]; cbv beta). exact R9. }
  cbn in W1, W2, W3. rewrite W3 in W4. cbn in W4. rewrite W4 in W5. cbn in W5. cbn in W6, W7, W8, W9.
  destruct W8 as (sent & coming & Hsent & _ & W8). exists sent, coming. rewrite W9, W8, W7, W6, W5. cbn.
  rewrite W7, W6, W5 in Hsent. cbn in Hsent. rewrite W2, W1 in *. destruct (banked (view d)); done.
Qed.

Lemma serial_init_runs d :
  exists d', runs serial_init d 0 d' /\ enabled (view d') = true /\ u_sent (view d') `prefix_of` u_sent (view d).
Proof.
  destruct (serial_init_view d) as (d' & Hr & sent & coming & Hs & Hv). exists d'. split; [done|]. by rewrite Hv.
Qed.

(** Setting up the port.  Whatever state it is in, [serial_init] leaves it working
as a UART with 8 data bits, no parity and one stop bit, the divisor for 115200 baud,
both queues reset and enabled and no interrupts, ready for [serial_printf]; what was
sent before can only lose its end. *)
Lemma serial_init_configures d :
  exists d', runs serial_init d 0 d' /\
    let u := view d' in
    enabled u = true /\ u_lcr u = LCR_8N1 /\ u_dlm u * 256 + u_dll u = 26 /\
    u_mcr u = Z.lor MCR_DTR MCR_RTS /\ u_fcr u = FCRVAL /\ (banked (view d) = false -> u_ier u = 0) /\
    u_sent u `prefix_of` u_sent (view d).
Proof.
  destruct (serial_init_view d) as (d' & Hr & sent & coming & Hs & Hv). exists d'. split; [done|]. rewrite Hv. cbn.
  repeat (split; [done|]). split; [by intros ->|done].
Qed.

(** Characters that arrive.  [serial_getc] waits for the next character and takes it
off the line. *)
Lemma serial_getc_next fuel c cs d :
  (polls < fuel)%nat -> enabled (view d) = true -> u_coming (view d) = c :: cs ->
  exists d', runs (serial_getc fuel) d c d' /\ view d' = set_coming cs (view d).
Proof.
  intros Hf He Hc. pose proof (rx_wait_bound d).
  destruct (wait_rx_runs fuel d ltac:(lia)) as (d1 & Hr & Hv & Hw); [by rewrite Hc|]. rewrite <- Hv in He, Hc.
  destruct (reg_in d1 RBR) as [v d2] eqn:E. destruct (read_law d1 c cs v d2 E He Hw Hc) as [<- Hv2].
  exists d2. split; [|by rewrite Hv2, Hv]. unfold serial_getc, NS16550_getc. eapply runs_bind; [exact Hr|].
  unfold runs, inb. by rewrite E.
Qed.
End laws.
