(* ===== verification/Console.v ===== *)
(** * What the boot loader says

The messages of [src/x-loader/lib/board.c] and [src/x-loader/board/rhino/rhino.c]
with their formats and arguments, on the console of [Serial]: the log of [XBoot] as
text on the wire. *)
From stdpp Require Import base list strings.
From S2P Require Import Prelude Bits Mkbof I2cTools Printf Serial XBoot.
From Stdlib Require Import ZArith Lia.

(** The format and the arguments of a line. *)
Definition line_format (l : boot_line) : list Z * list arg :=
  match l with
  | Testing => (chars "Testing DRAM...", [])
  | TestFailed => (chars "failed." ++ [10], [])
  | TestPassed => (chars "passed." ++ [10], [])
  | UnsupportedChip => (chars "Unsupported Chip!" ++ [10], [])
  | StartingMmc => (chars "Starting X-loader on MMC " ++ [10], [])
  | MmcInitFailed => ([10] ++ chars " MMC init failed " ++ [10], [])
  | MmcRead size => ([10] ++ chars "%ld Bytes Read from MMC " ++ [10], [ANum size])
  | MmcStarting => (chars "Starting OS Bootloader from MMC..." ++ [10], [])
  | BootingNand => (chars "Booting from nand . . ." ++ [10], [])
  | StartingUBoot => (chars "Starting OS Bootloader..." ++ [10], [])
  end.

Section console.
Context {D : Type} `{Ns16550 D}.

(** [date] and [time] stand for [__DATE__] and [__TIME__]. *)
Definition print_info (fuel : nat) (date time : list Z) : M D Z :=
  do! serial_printf fuel
        ([10; 10] ++ chars "Texas Instruments X-Loader 1.51 (" ++ date ++ chars " - " ++ time ++ chars ")" ++ [10]) [] in
  mret 0.

(** The log of a boot, printed as it grows. *)
Fixpoint print_log (fuel : nat) (log : list boot_line) : M D unit :=
  match log with
  | [] => mret tt
  | l :: log => do! serial_printf fuel (fst (line_format l)) (snd (line_format l)) in print_log fuel log
  end.

(** The part of [init_sequence] that sets up the console. *)
Definition console_init (fuel : nat) (date time : list Z) : M D unit :=
  let! r := serial_init in
  if negb (r =? 0) then mfault Hang else
  let! r := print_info fuel date time in
  if negb (r =? 0) then mfault Hang else mret tt.
End console.

(** * Properties *)

(** The text of a line. *)
Definition line_shows (l : boot_line) (t : list Z) : Prop :=
  match l with
  | MmcRead size => exists ds, positional 10 size ds /\
      t = [10] ++ (digit_char false <$> ds) ++ chars " Bytes Read from MMC " ++ [10]
  | _ => t = fst (line_format l)
  end.

Definition line_ok (l : boot_line) : Prop := match l with MmcRead size => 0 <= size < 2 ^ 31 | _ => True end.

Lemma value_cons base d ds : value base (d :: ds) = d * base ^ zlen ds + value base ds.
Proof. change (d :: ds) with ([d] ++ ds). rewrite value_app. unfold value at 1. cbn. done. Qed.

(** A number has no more digits than its size allows. *)
Lemma positional_length base n ds k :
  2 <= base -> positional base n ds -> 1 <= k -> n < base ^ k -> zlen ds <= k.
Proof.
  intros Hb (Hv & Hd & Hh) Hk Hn. destruct Hh as [->|Hh]; [unfold zlen; cbn; lia|].
  destruct ds as [|d ds]; [done|]. cbn [hd] in Hh. inversion_clear Hd as [|? ? Hd0 Hds]. rewrite value_cons in Hv.
  pose proof (value_nonneg base ds ltac:(lia) Hds). rewrite zlen_cons. destruct (Z.le_gt_cases (1 + zlen ds) k); [done|].
  pose proof (Z.pow_le_mono_r base k (zlen ds) ltac:(lia) ltac:(lia)). nia.
Qed.

Definition lits (s : list Z) : list item := Lit <$> s.
Lemma lits_text s : concat (item_text <$> lits s) = s.
Proof. induction s as [|c s IH]; [done|]. cbn in *. by f_equal. Qed.
Lemma lits_args s : concat (item_args <$> lits s) = [].
Proof. induction s as [|c s IH]; [done|]. exact IH. Qed.
Lemma lits_shows s outs : Forall2 shows (lits s) outs -> concat outs = s.
Proof.
  revert outs. induction s as [|c s IH]; intros outs Ho; inversion_clear Ho as [|? out ? outs' Hc Hs]; [done|].
  cbn in Hc. subst. cbn. by rewrite (IH outs').
Qed.
Lemma lits_ok s : Forall (fun c => 0 < c < 256 /\ c <> 37) s -> Forall item_ok (lits s) /\ Forall item_clean (lits s).
Proof.
  intros Hs. split; apply Forall_fmap; (eapply Forall_impl; [exact Hs|]); intros c [? ?]; cbn; lia.
Qed.

(** [%ld] of a number that is not negative. *)
Definition ld (v : Z) : item := Dir (mk_spec [] Absent None 108 (CInt 100 v)).

Lemma ld_ok v : 0 <= v < 2 ^ 31 -> item_ok (ld v) /\ item_clean (ld v).
Proof.
  intros Hv. split; [|done]. split; [constructor|]. split; [done|]. split; [done|]. split; [done|].
  split; [right; right; by left|]. split; [by left|lia].
Qed.

Lemma ld_shows v out : 0 <= v < 2 ^ 31 -> shows (ld v) out -> exists ds, positional 10 v ds /\ out = digit_char false <$> ds.
Proof.
  intros Hv (ds & Hds & ->). exists ds. change (int_value _ _ _) with (s32 v) in *. rewrite wraps_small in * by lia.
  unfold magnitude in Hds. cbn in Hds. rewrite Z.abs_eq in Hds by lia. split; [done|].
  unfold layout, sign_text, prefix_text. cbn. rewrite (proj2 (Z.ltb_ge v 0)) by lia.
  change (has (Z.lor 0 SIGN) LEFT) with false. change (has (Z.lor 0 SIGN) ZEROPAD) with false.
  change (has (Z.lor 0 SIGN) SIGN) with true. change (has (Z.lor 0 SIGN) PLUS) with false.
  change (has (Z.lor 0 SIGN) SPACE) with false. change (has (Z.lor 0 SIGN) SPECIAL) with false.
  change (has (Z.lor 0 SIGN) LARGE) with false. cbn [app].
  set (l := digit_char false <$> ds). pose proof (zlen_nonneg l).
  replace (Z.to_nat (-1 - zlen l)) with 0%nat by lia. cbn [replicate app]. by replace (Z.to_nat (-1 - zlen l)) with 0%nat by lia.
Qed.

Section laws.
Context {D : Type} {HD : Ns16550 D} (polls : nat) {HL : Ns16550Laws polls}.

(** Text without directives prints as it is. *)
Lemma print_text fuel s d :
  (polls < fuel)%nat -> enabled (view d) = true -> Forall (fun c => 0 < c < 256 /\ c <> 37) s -> zlen s < CFG_PBSIZE ->
  exists d', runs (serial_printf fuel s []) d tt d' /\ view d' = add_sent (crlf s) (view d).
Proof.
  intros Hf He Hs Hl. destruct (lits_ok s Hs) as [Hok Hcl]. destruct (vsprintf_items (lits s) Hok) as (outs & Ho & E).
  rewrite lits_text, lits_args, (lits_shows s outs Ho) in E.
  apply (serial_printf_runs polls fuel s [] s d Hf He E); [|done]. eapply Forall_impl; [exact Hs|]. cbn. tauto.
Qed.

Lemma print_line fuel l d :
  (polls < fuel)%nat -> enabled (view d) = true -> line_ok l ->
  exists t d', line_shows l t /\ runs (serial_printf fuel (fst (line_format l)) (snd (line_format l))) d tt d' /\
    view d' = add_sent (crlf t) (view d).
Proof.
  intros Hf He Hl.
  assert (forall s, line_format l = (s, []) -> line_shows l s -> Forall (fun c => 0 < c < 256 /\ c <> 37) s -> zlen s < CFG_PBSIZE ->
    exists t d', line_shows l t /\ runs (serial_printf fuel (fst (line_format l)) (snd (line_format l))) d tt d' /\
    view d' = add_sent (crlf t) (view d)) as Hplain.
  { intros s E Hs Hc Hz. rewrite E. destruct (print_text fuel s d Hf He Hc Hz) as (d' & ? & ?). by exists s, d'. }
  destruct l as [| | | | | |size| | |]; try (eapply Hplain; [reflexivity|reflexivity|by repeat constructor|done]).
  clear Hplain. cbn [line_ok] in Hl. set (rest := chars " Bytes Read from MMC " ++ [10]). destruct (ld_ok size Hl) as [Hok Hcl].
  destruct (lits_ok [10]) as [Hok1 Hcl1]; [by repeat constructor|].
  destruct (lits_ok rest) as [Hok2 Hcl2]; [by repeat constructor|].
  assert (Forall item_ok (lits [10] ++ [ld size] ++ lits rest)) as Hoks by (rewrite !Forall_app, Forall_singleton; tauto).
  assert (Forall item_clean (lits [10] ++ [ld size] ++ lits rest)) as Hcls by (rewrite !Forall_app, Forall_singleton; tauto).
  destruct (vsprintf_items _ Hoks) as (outs & Ho & E). pose proof (shows_text _ outs Hcls Ho) as Ht.
  apply Forall2_app_inv_l in Ho as (o1 & o2 & Ho1 & Ho2 & ->). apply Forall2_cons_inv_l in Ho2 as (out & o3 & Ho2 & Ho3 & ->).
  destruct (ld_shows size out Hl Ho2) as (ds & Hds & ->). pose proof (positional_length 10 size ds 10 ltac:(lia) Hds ltac:(lia) ltac:(lia)) as Hlen.
  rewrite concat_app in *. cbn [concat] in *. rewrite (lits_shows _ _ Ho1), (lits_shows _ _ Ho3) in *.
  exists ([10] ++ (digit_char false <$> ds) ++ rest).
  destruct (serial_printf_runs polls fuel (fst (line_format (MmcRead size))) (snd (line_format (MmcRead size)))
    ([10] ++ (digit_char false <$> ds) ++ rest) d Hf He E Ht) as (d' & Hr & Hv).
  { rewrite !zlen_app, zlen_fmap. change (zlen [10]) with 1. change (zlen rest) with 22. unfold CFG_PBSIZE. lia. }
  exists d'. split; [by exists ds|]. done.
Qed.

Lemma print_log_runs fuel log d :
  (polls < fuel)%nat -> enabled (view d) = true -> Forall line_ok log ->
  exists ts d', Forall2 line_shows log ts /\ runs (print_log fuel log) d tt d' /\ view d' = add_sent (crlf (concat ts)) (view d).
Proof.
  intros Hf He Hl. revert d He. induction Hl as [|l log Hl _ IH]; intros d He; cbn [print_log].
  - exists [], d. split; [constructor|]. split; [apply runs_ret|by rewrite add_sent_nil].
  - destruct (print_line fuel l d Hf He Hl) as (t & d1 & Ht & Hr1 & Hv1).
    destruct (IH d1) as (ts & d2 & Hts & Hr2 & Hv2); [by rewrite Hv1|].
    exists (t :: ts), d2. split; [by constructor|]. split; [by eapply runs_bind|].
    rewrite Hv2, Hv1, add_sent_app. f_equal. unfold crlf. cbn [concat]. by rewrite fmap_app, concat_app.
Qed.

(** C17. The console of a boot.  Whatever state the port is in, setting it up and
printing the banner and any log of the boot sends the banner and the text of every
line in its order, the size of the file in decimal, and nothing else; no line overruns
the buffer. *)
Theorem boot_console fuel date time log d :
  (polls < fuel)%nat -> Forall line_ok log ->
  Forall (fun c => 0 < c < 256 /\ c <> 37) (date ++ time) -> zlen (date ++ time) <= 200 ->
  exists old ts d',
    runs (do! console_init fuel date time in print_log fuel log) d tt d' /\
    old `prefix_of` u_sent (view d) /\ Forall2 line_shows log ts /\
    u_sent (view d') = old ++ crlf ([10; 10] ++ chars "Texas Instruments X-Loader 1.51 (" ++ date ++ chars " - " ++ time ++
      chars ")" ++ [10] ++ concat ts).
Proof.
  intros Hf Hl Hdt Hz. destruct (serial_init_runs polls d) as (d1 & Hr1 & He1 & Hp1).
  apply Forall_app in Hdt as [Hd Ht]. rewrite zlen_app in Hz.
  set (banner := [10; 10] ++ chars "Texas Instruments X-Loader 1.51 (" ++ date ++ chars " - " ++ time ++ chars ")" ++ [10]).
  destruct (print_text fuel banner d1 Hf He1) as (d2 & Hr2 & Hv2).
  { unfold banner. rewrite !Forall_app. repeat split; by try (repeat constructor). }
  { unfold banner. rewrite !zlen_app. unfold CFG_PBSIZE. change (zlen [10; 10]) with 2. change (zlen [10]) with 1.
    change (zlen (chars " - ")) with 3. change (zlen (chars ")")) with 1. change (zlen (chars _)) with 33. lia. }
  destruct (print_log_runs fuel log d2 Hf) as (ts & d3 & Hts & Hr3 & Hv3); [by rewrite Hv2|done|].
  exists (u_sent (view d1)), ts, d3. split; [|split; [done|split; [done|]]].
  - eapply runs_bind; [|exact Hr3]. unfold console_init. eapply runs_bind; [exact Hr1|]. cbv beta. cbn [negb Z.eqb].
    eapply (runs_bind _ _ _ 0); [|apply runs_ret]. unfold print_info. eapply runs_bind; [exact Hr2|apply runs_ret].
  - rewrite Hv3, Hv2, add_sent_app. cbn [add_sent u_sent]. f_equal. unfold crlf. rewrite <- concat_app, <- fmap_app. f_equal. f_equal.
    unfold banner. by rewrite <- !app_assoc.
Qed.
End laws.
