(* ===== verification/ExamplesConsole.v ===== *)
(** * A console at work

A port that is busy for one read of its status after every character, as an instance of
[Ns16550Laws], and the properties of [Printf], [Serial] and [Console] on it. *)
From stdpp Require Import base list strings.
From S2P Require Import Prelude Bits Mkbof I2cTools Printf Serial XBoot Console.
From Stdlib Require Import ZArith Lia.

(** The port, and whether it is busy with sending and with receiving. *)
Definition port : Type := uart * bool * bool.

Definition port_in (d : port) (r : Z) : Z * port :=
  let '(u, tx, rx) := d in
  if r =? LSR then
    (Z.lor (if tx then 0 else LSR_THRE) (if rx || bool_decide (u_coming u = []) then 0 else LSR_DR), (u, false, false))
  else if r =? RBR then (hd 0 (u_coming u), (set_coming (tl (u_coming u)) u, tx, true))
  else (0, d).

Definition port_write (u : uart) (r v : Z) : uart :=
  if r =? RBR then
    if banked u then mk_uart (u_ier u) (u_fcr u) (u_lcr u) (u_mcr u) (u_mdr1 u) v (u_dlm u) (u_sent u) (u_coming u)
    else add_sent [v] u
  else if r =? IER then
    if banked u then mk_uart (u_ier u) (u_fcr u) (u_lcr u) (u_mcr u) (u_mdr1 u) (u_dll u) v (u_sent u) (u_coming u)
    else mk_uart v (u_fcr u) (u_lcr u) (u_mcr u) (u_mdr1 u) (u_dll u) (u_dlm u) (u_sent u) (u_coming u)
  else if r =? FCR then mk_uart (u_ier u) v (u_lcr u) (u_mcr u) (u_mdr1 u) (u_dll u) (u_dlm u) (u_sent u) (u_coming u)
  else if r =? LCR then mk_uart (u_ier u) (u_fcr u) v (u_mcr u) (u_mdr1 u) (u_dll u) (u_dlm u) (u_sent u) (u_coming u)
  else if r =? MCR then mk_uart (u_ier u) (u_fcr u) (u_lcr u) v (u_mdr1 u) (u_dll u) (u_dlm u) (u_sent u) (u_coming u)
  else if r =? MDR1 then mk_uart (u_ier u) (u_fcr u) (u_lcr u) (u_mcr u) v (u_dll u) (u_dlm u) (u_sent u) (u_coming u)
  else u.

#[global] Instance port_regs : Ns16550 port := {
  reg_in := port_in;
  reg_out d r v := let '(u, tx, rx) := d in (port_write u r v, if r =? RBR then true else tx, rx);
}.

(** What arrives are bytes. *)
Definition port_view (d : port) : uart := set_coming (u8 <$> u_coming (fst (fst d))) (fst (fst d)).

Lemma port_write_law (d : port) r v room : written room (port_view d) r v (port_view (reg_out d r v)).
Proof.
  destruct d as [[u tx] rx]. unfold written, port_view. cbn [fst reg_out port_regs]. unfold port_write, banked. cbn.
  repeat case_match; try done. exists (u_sent u), (u8 <$> u_coming u). by repeat split.
Qed.

#[global] Program Instance port_laws : Ns16550Laws (D := port) 1 := {
  view := port_view;
  tx_wait d := if snd (fst d) then 1%nat else 0%nat;
  rx_wait d := if snd d then 1%nat else 0%nat;
}.
Next Obligation. intros [[u []] rx]; cbn; lia. Qed.
Next Obligation. intros [[u tx] []]; cbn; lia. Qed.
Next Obligation. intros. apply port_write_law. Qed.
Next Obligation.
  intros [[u tx] rx] v d' E. cbn in E. injection E as <- <-. cbn. do 3 (split; [by destruct tx, rx|]).
  destruct tx, rx, (u_coming u); done.
Qed.
Next Obligation.
  intros [[u tx] rx] c cs v d' E _ Hrx Hc. cbn in *. injection E as <- <-. unfold port_view. cbn.
  destruct (u_coming u) as [|x xs]; [done|]. cbn in Hc. by injection Hc as <- <-.
Qed.

(** ** [Printf] *)

(** The smallest number, to the left in a field of 14. *)
Lemma number_layout_witness :
  number (- 2 ^ 31) 10 14 (-1) (Z.lor SIGN LEFT) = Ok (Some (chars "-2147483648   ")) /\
  strtol (chars "-2147483648   ") = (- 2 ^ 31, true).
Proof.
  destruct (number_layout (- 2 ^ 31) 10 14 (-1) (Z.lor SIGN LEFT)) as (ds & text & _ & _ & E & Hr);
    [lia|lia|lia|lia|].
  assert (number (- 2 ^ 31) 10 14 (-1) (Z.lor SIGN LEFT) = Ok (Some (chars "-2147483648   "))) as E' by (vm_compute; reflexivity).
  split; [exact E'|]. rewrite E' in E. injection E as E. subst text. apply Hr; reflexivity.
Defined.

(** Formats of the program and others. *)
Example vsprintf_examples :
  vsprintf (chars "%ld Bytes") [ANum 1234] = Ok (chars "1234 Bytes") /\
  vsprintf (chars "[%-6.3s|%c|%#06x|%+d]") [AStr (Some (chars "rhino")); ANum 88; ANum 255; ANum 7]
  = Ok (chars "[rhi   |X|0x00ff|+7]") /\
  vsprintf (chars "%p %s %*d%%") [ANum 48879; AStr None; ANum (-5); ANum 42] = Ok (chars "0000beef <NULL> 42   %").
Proof. vm_compute. by repeat split. Qed.

(** ** [Serial] *)
Definition port0 : port := (mk_uart 5 0 0x83 0 7 0 0 [] (chars "q"), true, true).
Definition port1 : port := (mk_uart 0 7 3 3 0 26 0 (chars "> ") (chars "q"), true, true).

Definition ex_items : list item :=
  lits (chars "fpga ") ++ [Dir (mk_spec [48] (Digits [4]) None 0 (CInt 120 0x1f2)); Lit 10].

Lemma ex_items_ok : Forall item_ok ex_items /\ Forall item_clean ex_items.
Proof.
  destruct (lits_ok (chars "fpga ")) as [H1 H2]; [by repeat constructor|]. unfold ex_items. rewrite !Forall_app, !Forall_cons.
  split; [|split; [done|]; split; [done|]; split; [cbn; lia|constructor]]. split; [done|]. split; [|split; [done|constructor]].
  split; [constructor; [right; right; right; right; by left|constructor]|]. split.
  - split; [done|]. split; [|done]. constructor; [lia|constructor].
  - split; [by intros ds [= <-]|]. split; [done|]. split; [by left|]. split; [do 3 right; by left|lia].
Qed.

Lemma serial_printf_sends_witness :
  exists outs, Forall2 shows ex_items outs /\
    if zlen (concat outs) <? CFG_PBSIZE then
      exists d', runs (serial_printf 2 (concat (item_text <$> ex_items)) (concat (item_args <$> ex_items))) port1 tt d' /\
        view d' = add_sent (crlf (concat outs)) (view port1)
    else serial_printf 2 (concat (item_text <$> ex_items)) (concat (item_args <$> ex_items)) port1 = Fault OutOfBounds.
Proof. apply (serial_printf_sends 1 2 ex_items port1); [lia|reflexivity|apply ex_items_ok|apply ex_items_ok]. Defined.

(** The same, run. *)
Example serial_printf_run :
  match serial_printf 2 (chars "fpga %04x" ++ [10]) [ANum 0x1f2] port1 with
  | Ok (_, d) => u_sent (view d) = chars "> fpga 01f2" ++ [13; 10]
  | Fault _ => False
  end /\ concat (item_text <$> ex_items) = chars "fpga %04x" ++ [10].
Proof. vm_compute. by repeat split. Qed.

Lemma serial_getc_next_witness :
  exists d', runs (serial_getc 2) port1 113 d' /\ view d' = set_coming [] (view port1).
Proof. apply (serial_getc_next 1 2 113 [] port1); [lia|reflexivity|reflexivity]. Defined.

Lemma serial_init_configures_witness :
  exists d', runs serial_init port0 0 d' /\
    let u := view d' in
    enabled u = true /\ u_lcr u = LCR_8N1 /\ u_dlm u * 256 + u_dll u = 26 /\
    u_mcr u = Z.lor MCR_DTR MCR_RTS /\ u_fcr u = FCRVAL /\ (banked (view port0) = false -> u_ier u = 0) /\
    u_sent u `prefix_of` u_sent (view port0).
Proof. apply (serial_init_configures 1 port0). Defined.

(** ** [Console] *)
Definition ex_log : list boot_line := [Testing; TestPassed; StartingMmc; MmcRead 262144; MmcStarting; StartingUBoot].

Lemma boot_console_witness :
  exists old ts d',
    runs (do! console_init 2 (chars "Nov  3 2011") (chars "12:00:00") in print_log 2 ex_log) port0 tt d' /\
    old `prefix_of` u_sent (view port0) /\ Forall2 line_shows ex_log ts /\
    u_sent (view d') = old ++ crlf ([10; 10] ++ chars "Texas Instruments X-Loader 1.51 (" ++ chars "Nov  3 2011" ++ chars " - " ++
      chars "12:00:00" ++ chars ")" ++ [10] ++ concat ts).
Proof.
  apply (boot_console 1 2 (chars "Nov  3 2011") (chars "12:00:00") ex_log port0);
    [lia|repeat constructor; cbn; lia|by repeat constructor|vm_compute; congruence].
Defined.

Example boot_console_run :
  match (do! console_init 2 (chars "Nov  3 2011") (chars "12:00:00") in print_log 2 [MmcRead 262144]) port0 with
  | Ok (_, d) => u_sent (view d) = [13; 10; 13; 10] ++ chars "Texas Instruments X-Loader 1.51 (Nov  3 2011 - 12:00:00)" ++
      [13; 10; 13; 10] ++ chars "262144 Bytes Read from MMC " ++ [13; 10]
  | Fault _ => False
  end.
Proof. vm_compute. reflexivity. Qed.
