(* ===== verification/Clocks.v ===== *)
(** * Clocks, pins and memory controller

The first C code the board runs: [s_init] of [src/x-loader/board/rhino/rhino.c] and
what it calls, with the tables of [src/x-loader/board/rhino/platform.S] and the
register addresses of [src/x-loader/include/asm/arch-omap3].  The registers of the
processor are the class [Mmio]; [delay] only spends time and is left out. *)
From stdpp Require Import base list.
From S2P Require Import Prelude Bits Serial.
From Stdlib Require Import ZArith Lia.

(** ** Registers *)
Definition CM_CLKEN_PLL_MPU : Z := 0x48004904.
Definition CM_IDLEST_PLL_MPU : Z := 0x48004924.
Definition CM_CLKSEL1_PLL_MPU : Z := 0x48004940.
Definition CM_CLKSEL2_PLL_MPU : Z := 0x48004944.
Definition CM_FCLKEN1_CORE : Z := 0x48004a00.
Definition CM_ICLKEN1_CORE : Z := 0x48004a10.
Definition CM_CLKSEL_CORE : Z := 0x48004a40.
Definition CM_FCLKEN_WKUP : Z := 0x48004c00.
Definition CM_ICLKEN_WKUP : Z := 0x48004c10.
Definition CM_CLKSEL_WKUP : Z := 0x48004c40.
Definition CM_IDLEST_WKUP : Z := 0x48004c20.
Definition CM_CLKEN_PLL : Z := 0x48004d00.
Definition CM_IDLEST_CKGEN : Z := 0x48004d20.
Definition CM_CLKSEL1_PLL : Z := 0x48004d40.
Definition CM_CLKSEL2_PLL : Z := 0x48004d44.
Definition CM_CLKSEL3_PLL : Z := 0x48004d48.
Definition CM_CLKSEL_DSS : Z := 0x48004e40.
Definition CM_CLKSEL_CAM : Z := 0x48004F40.
Definition CM_FCLKEN_PER : Z := 0x48005000.
Definition CM_ICLKEN_PER : Z := 0x48005010.
Definition CM_CLKSEL_PER : Z := 0x48005040.
Definition CM_CLKSEL1_EMU : Z := 0x48005140.
Definition PRM_CLKSEL : Z := 0x48306d40.
Definition PRM_CLKSRC_CTRL : Z := 0x48307270.
Definition OMAP34XX_CTRL_BASE : Z := 0x48002000.
Definition CONTROL_STATUS : Z := OMAP34XX_CTRL_BASE + 0x2F0.
Definition OMAP34XX_GPT1 : Z := 0x48318000.
Definition TCLR : Z := 0x24.
Definition TCRR : Z := 0x28.
Definition TLDR : Z := 0x2C.
Definition GPT_EN : Z := Z.lor 2 1.
Definition S32K_CR : Z := 0x48320010.
Definition WD2_BASE : Z := 0x48314000.
Definition WWPS : Z := 0x34.
Definition WSPR : Z := 0x48.
Definition WD_UNLOCK1 : Z := 0xAAAA.
Definition WD_UNLOCK2 : Z := 0x5555.
Definition SMX_APE_BASE : Z := 0x68000000.
Definition PM_RT_APE_BASE_ADDR_ARM : Z := SMX_APE_BASE + 0x10000.
Definition PM_GPMC_BASE_ADDR_ARM : Z := SMX_APE_BASE + 0x12400.
Definition PM_OCM_RAM_BASE_ADDR_ARM : Z := SMX_APE_BASE + 0x12800.
Definition SMS_RG_ATT0 : Z := 0x6C000048.
Definition EMIF4_BASE : Z := 0x6D000000.
Definition EMIF4_SDRAM_STS : Z := EMIF4_BASE + 0x04.
Definition EMIF4_SDRAM_CFG : Z := EMIF4_BASE + 0x08.
Definition EMIF4_SDRAM_RFCR : Z := EMIF4_BASE + 0x10.
Definition EMIF4_SDRAM_RFCR_SHDW : Z := EMIF4_BASE + 0x14.
Definition EMIF4_SDRAM_TIM1 : Z := EMIF4_BASE + 0x18.
Definition EMIF4_SDRAM_TIM1_SHDW : Z := EMIF4_BASE + 0x1C.
Definition EMIF4_SDRAM_TIM2 : Z := EMIF4_BASE + 0x20.
Definition EMIF4_SDRAM_TIM2_SHDW : Z := EMIF4_BASE + 0x24.
Definition EMIF4_SDRAM_TIM3 : Z := EMIF4_BASE + 0x28.
Definition EMIF4_SDRAM_TIM3_SHDW : Z := EMIF4_BASE + 0x2c.
Definition EMIF4_PWR_MGT_CTRL : Z := EMIF4_BASE + 0x38.
Definition EMIF4_PWR_MGT_CTRL_SHDW : Z := EMIF4_BASE + 0x3C.
Definition EMIF4_IODFT_TLGC : Z := EMIF4_BASE + 0x60.
Definition EMIF4_DDR_PHYCTL1 : Z := EMIF4_BASE + 0xE4.
Definition EMIF4_DDR_PHYCTL1_SHDW : Z := EMIF4_BASE + 0xE8.
Definition EMIF4_DDR_PHYCTL2 : Z := EMIF4_BASE + 0xEC.

(** ** Constants *)
Definition LDELAY : Z := 12000000.
Definition S12M : Z := 12000000.
Definition S13M : Z := 13000000.
Definition S19_2M : Z := 19200000.
Definition S24M : Z := 24000000.
Definition S26M : Z := 26000000.
Definition S38_4M : Z := 38400000.
Definition PLL_STOP : Z := 1.
Definition PLL_LOW_POWER_BYPASS : Z := 5.
Definition PLL_FAST_RELOCK_BYPASS : Z := 6.
Definition PLL_LOCK : Z := 7.
Definition CORE_M3X2 : Z := 2.
Definition CORE_L4_DIV : Z := 2.
Definition CORE_L3_DIV : Z := 2.
Definition WKUP_RSM : Z := 2.
Definition PER_M6X2 : Z := 3.
Definition PER_M5X2 : Z := 4.
Definition PER_M4X2 : Z := 9.
Definition PER_M3X2 : Z := 16.
Definition GP_DEVICE : Z := 0x3.
Definition CPU_3430_ES1 : Z := 1.
Definition CPU_3430_ES2 : Z := 2.
Definition BIT (n : Z) : Z := Z.shiftl 1 n.

(** ** The tables of [platform.S] *)
Record dpll_param : Type := mk_dpll { dp_m : Z; dp_n : Z; dp_fsel : Z; dp_m2 : Z }.

Definition mpu_dpll_param : list dpll_param := [
  mk_dpll 0x0FE 0x07 0x05 0x01;
  mk_dpll 0x12C 0x05 0x07 0x01;
  mk_dpll 0x17D 0x0C 0x03 0x01;
  mk_dpll 0x258 0x0C 0x03 0x01;
  mk_dpll 0x179 0x12 0x04 0x01;
  mk_dpll 0x271 0x13 0x03 0x01;
  mk_dpll 0x17D 0x19 0x03 0x01;
  mk_dpll 0x12C 0x0C 0x07 0x01;
  mk_dpll 0x1FA 0x32 0x03 0x01;
  mk_dpll 0x271 0x27 0x03 0x01
].
Definition core_dpll_param : list dpll_param := [
  mk_dpll 0x19F 0x0E 0x03 0x01;
  mk_dpll 0x0A6 0x05 0x07 0x01;
  mk_dpll 0x1B2 0x10 0x03 0x01;
  mk_dpll 0x14C 0x0C 0x03 0x01;
  mk_dpll 0x19F 0x17 0x03 0x01;
  mk_dpll 0x19F 0x17 0x03 0x01;
  mk_dpll 0x1B2 0x21 0x03 0x01;
  mk_dpll 0x0A6 0x0C 0x07 0x01;
  mk_dpll 0x19F 0x2F 0x03 0x01;
  mk_dpll 0x19F 0x2F 0x03 0x01
].
Definition per_dpll_param : list dpll_param := [
  mk_dpll 0xD8 0x05 0x07 0x09;
  mk_dpll 0x1B0 0x0C 0x03 0x09;
  mk_dpll 0xE1 0x09 0x07 0x09;
  mk_dpll 0xD8 0x0C 0x07 0x09;
  mk_dpll 0xE1 0x13 0x07 0x09
].
(** ** The pins *)
Definition IEN : Z := Z.shiftl 1 8.
Definition IDIS : Z := Z.shiftl 0 8.
Definition PTU : Z := Z.shiftl 1 4.
Definition PTD : Z := Z.shiftl 0 4.
Definition EN : Z := Z.shiftl 1 3.
Definition DIS : Z := Z.shiftl 0 3.
Definition M0 : Z := 0.
Definition M1 : Z := 1.
Definition M4 : Z := 4.
Definition pad (i p e m : Z) : Z := Z.lor (Z.lor (Z.lor i p) e) m.

(** The offsets of the pins and their configuration. *)
Definition MUX_DEFAULT : list (Z * Z) := [
  (0x0030, pad IEN PTD DIS M0); (* SDRC_D0 *)
  (0x0032, pad IEN PTD DIS M0); (* SDRC_D1 *)
  (0x0034, pad IEN PTD DIS M0); (* SDRC_D2 *)
  (0x0036, pad IEN PTD DIS M0); (* SDRC_D3 *)
  (0x0038, pad IEN PTD DIS M0); (* SDRC_D4 *)
  (0x003A, pad IEN PTD DIS M0); (* SDRC_D5 *)
  (0x003C, pad IEN PTD DIS M0); (* SDRC_D6 *)
  (0x003E, pad IEN PTD DIS M0); (* SDRC_D7 *)
  (0x0040, pad IEN PTD DIS M0); (* SDRC_D8 *)
  (0x0042, pad IEN PTD DIS M0); (* SDRC_D9 *)
  (0x0044, pad IEN PTD DIS M0); (* SDRC_D10 *)
  (0x0046, pad IEN PTD DIS M0); (* SDRC_D11 *)
  (0x0048, pad IEN PTD DIS M0); (* SDRC_D12 *)
  (0x004A, pad IEN PTD DIS M0); (* SDRC_D13 *)
  (0x004C, pad IEN PTD DIS M0); (* SDRC_D14 *)
  (0x004E, pad IEN PTD DIS M0); (* SDRC_D15 *)
  (0x0050, pad IEN PTD DIS M0); (* SDRC_D16 *)
  (0x0052, pad IEN PTD DIS M0); (* SDRC_D17 *)
  (0x0054, pad IEN PTD DIS M0); (* SDRC_D18 *)
  (0x0056, pad IEN PTD DIS M0); (* SDRC_D19 *)
  (0x0058, pad IEN PTD DIS M0); (* SDRC_D20 *)
  (0x005A, pad IEN PTD DIS M0); (* SDRC_D21 *)
  (0x005C, pad IEN PTD DIS M0); (* SDRC_D22 *)
  (0x005E, pad IEN PTD DIS M0); (* SDRC_D23 *)
  (0x0060, pad IEN PTD DIS M0); (* SDRC_D24 *)
  (0x0062, pad IEN PTD DIS M0); (* SDRC_D25 *)
  (0x0064, pad IEN PTD DIS M0); (* SDRC_D26 *)
  (0x0066, pad IEN PTD DIS M0); (* SDRC_D27 *)
  (0x0068, pad IEN PTD DIS M0); (* SDRC_D28 *)
  (0x006A, pad IEN PTD DIS M0); (* SDRC_D29 *)
  (0x006C, pad IEN PTD DIS M0); (* SDRC_D30 *)
  (0x006E, pad IEN PTD DIS M0); (* SDRC_D31 *)
  (0x0070, pad IEN PTD DIS M0); (* SDRC_CLK *)
  (0x0072, pad IEN PTD DIS M0); (* SDRC_DQS0 *)
  (0x0074, pad IEN PTD DIS M0); (* SDRC_DQS1 *)
  (0x0076, pad IEN PTD DIS M0); (* SDRC_DQS2 *)
  (0x0078, pad IEN PTD DIS M0); (* SDRC_DQS3 *)
  (0x0262, M0); (* sdrc_cke0 *)
  (0x0264, M0); (* sdrc_cke1 *)
  (0x007A, pad IDIS PTD DIS M0); (* GPMC_A1 *)
  (0x007C, pad IDIS PTD DIS M0); (* GPMC_A2 *)
  (0x007E, pad IDIS PTD DIS M0); (* GPMC_A3 *)
  (0x0080, pad IDIS PTD DIS M0); (* GPMC_A4 *)
  (0x0082, pad IDIS PTD DIS M0); (* GPMC_A5 *)
  (0x0084, pad IDIS PTD DIS M0); (* GPMC_A6 *)
  (0x0086, pad IDIS PTD DIS M0); (* GPMC_A7 *)
  (0x0088, pad IDIS PTD DIS M0); (* GPMC_A8 *)
  (0x008A, pad IDIS PTD DIS M0); (* GPMC_A9 *)
  (0x008C, pad IDIS PTD DIS M0); (* GPMC_A10 *)
  (0x008E, pad IEN PTD DIS M0); (* GPMC_D0 *)
  (0x0090, pad IEN PTD DIS M0); (* GPMC_D1 *)
  (0x0092, pad IEN PTD DIS M0); (* GPMC_D2 *)
  (0x0094, pad IEN PTD DIS M0); (* GPMC_D3 *)
  (0x0096, pad IEN PTD DIS M0); (* GPMC_D4 *)
  (0x0098, pad IEN PTD DIS M0); (* GPMC_D5 *)
  (0x009A, pad IEN PTD DIS M0); (* GPMC_D6 *)
  (0x009C, pad IEN PTD DIS M0); (* GPMC_D7 *)
  (0x009E, pad IEN PTD DIS M0); (* GPMC_D8 *)
  (0x00A0, pad IEN PTD DIS M0); (* GPMC_D9 *)
  (0x00A2, pad IEN PTD DIS M0); (* GPMC_D10 *)
  (0x00A4, pad IEN PTD DIS M0); (* GPMC_D11 *)
  (0x00A6, pad IEN PTD DIS M0); (* GPMC_D12 *)
  (0x00A8, pad IEN PTD DIS M0); (* GPMC_D13 *)
  (0x00AA, pad IEN PTD DIS M0); (* GPMC_D14 *)
  (0x00AC, pad IEN PTD DIS M0); (* GPMC_D15 *)
  (0x00AE, pad IDIS PTU EN M0); (* GPMC_nCS0 *)
  (0x00B0, pad IDIS PTU EN M0); (* GPMC_nCS1 *)
  (0x00B2, pad IDIS PTU EN M0); (* GPMC_nCS2 *)
  (0x00B4, pad IDIS PTU EN M0); (* GPMC_nCS3 *)
  (0x00B6, pad IDIS PTU EN M0); (* GPMC_nCS4 *)
  (0x00B8, pad IDIS PTU EN M0); (* GPMC_nCS5 *)
  (0x00BA, pad IDIS PTU EN M0); (* GPMC_nCS6 *)
  (0x00BC, pad IDIS PTU EN M0); (* GPMC_nCS7 *)
  (0x00BE, pad IDIS PTD DIS M0); (* GPMC_CLK *)
  (0x00C0, pad IDIS PTD DIS M0); (* GPMC_nADV_ALE *)
  (0x00C2, pad IDIS PTD DIS M0); (* GPMC_nOE *)
  (0x00C4, pad IDIS PTD DIS M0); (* GPMC_nWE *)
  (0x00C6, pad IDIS PTD DIS M0); (* GPMC_nBE0_CLE *)
  (0x00C8, pad IDIS PTD DIS M4); (* GPMC_nBE1 *)
  (0x00CA, pad IEN PTD DIS M0); (* GPMC_nWP *)
  (0x00CC, pad IEN PTU EN M0); (* GPMC_WAIT0 *)
  (0x00CE, pad IEN PTU EN M0); (* GPMC_WAIT1 *)
  (0x00D0, pad IEN PTU EN M0); (* GPMC_WAIT2 *)
  (0x00D2, pad IDIS PTU DIS M4); (* GPMC_WAIT3 *)
  (0x017C, pad IDIS PTD DIS M0); (* UART1_TX *)
  (0x017E, pad IDIS PTD DIS M0); (* UART1_RTS *)
  (0x0180, pad IEN PTU DIS M0); (* UART1_CTS *)
  (0x0182, pad IEN PTD DIS M0); (* UART1_RX *)
  (0x0178, pad IDIS PTD DIS M0); (* UART2_TX *)
  (0x0176, pad IDIS PTD DIS M0); (* UART2_RTS *)
  (0x0174, pad IEN PTU DIS M0); (* UART2_CTS *)
  (0x017A, pad IEN PTD DIS M0); (* UART2_RX *)
  (0x0158, pad IEN PTU EN M0); (* MMC2_CLK *)
  (0x015A, pad IEN PTU DIS M0); (* MMC2_CMD *)
  (0x015C, pad IEN PTU DIS M0); (* MMC2_DAT0 *)
  (0x015E, pad IEN PTU DIS M0); (* MMC2_DAT1 *)
  (0x0160, pad IEN PTU DIS M0); (* MMC2_DAT2 *)
  (0x0162, pad IEN PTU DIS M0); (* MMC2_DAT3 *)
  (0x0164, pad IEN PTU DIS M4); (* MMC2_DAT4 *)
  (0x0166, pad IEN PTU DIS M4); (* MMC2_DAT5 *)
  (0x0168, pad IEN PTD EN M4); (* MMC2_DAT6 *)
  (0x016A, pad IEN PTU DIS M4); (* MMC2_DAT7 *)
  (0x0A0A, pad IEN PTD DIS M4); (* SYS_BOOT0 *)
  (0x0A0C, pad IEN PTD DIS M4); (* SYS_BOOT1 *)
  (0x0A0E, pad IEN PTD DIS M4); (* SYS_BOOT2 *)
  (0x0A12, pad IEN PTD DIS M4); (* SYS_BOOT4 *)
  (0x0A16, pad IEN PTD DIS M4); (* SYS_BOOT6 *)
  (0x01C6, pad IEN PTD DIS M1); (* HDQ_SIO *)
  (0x0A06, pad IEN PTD DIS M0); (* SYS_CLKREQ *)
  (0x0A04, pad IEN PTD DIS M0); (* SYS_32K *)
  (0x01E0, pad IEN PTD DIS M0); (* SYS_nIRQ *)
  (0x01FC, pad IEN PTU EN M4); (* CCDC_DATA7 *)
  (0x01E2, pad IEN PTD DIS M4); (* SYS_CLKOUT2 *)
  (0x0A1C, pad IEN PTD DIS M0); (* JTAG_nTRST *)
  (0x0A1E, pad IEN PTD DIS M0); (* JTAG_TCK *)
  (0x0A20, pad IEN PTD DIS M0); (* JTAG_TMS *)
  (0x0A22, pad IEN PTD EN M0); (* JTAG_TDI *)
  (0x0A24, pad IEN PTD DIS M0); (* JTAG_EMU0 *)
  (0x0A26, pad IEN PTD DIS M0) (* JTAG_EMU1 *)
].
(** The registers as the program sees them: an access takes the board to its next
state.  [cpuid] is the processor's identification. *)
Class Mmio (D : Type) : Type := {
  mm_read : D -> Z -> Z * D;
  mm_write : D -> Z -> Z -> D;
  mm_write16 : D -> Z -> Z -> D;
  cpuid : Z;
}.

Section clocks.
Context {D : Type} `{Mmio D}.
Abbreviation DM := (M D).

Definition readl (a : Z) : DM Z := fun d => let '(v, d') := mm_read d a in Ok (u32 v, d').
Definition writel (v a : Z) : DM unit := fun d => Ok (tt, mm_write d a (u32 v)).
Definition writew (v a : Z) : DM unit := fun d => Ok (tt, mm_write16 d a (u16 v)).

Definition get_device_type : DM Z :=
  let! v := readl CONTROL_STATUS in
  mret (Z.shiftr (Z.land v (Z.lor (Z.lor (BIT 8) (BIT 9)) (BIT 10))) 8).

Definition get_cpu_rev : Z := if Z.land cpuid 0xf =? 0x0 then CPU_3430_ES1 else CPU_3430_ES2.

(** The register after [sr32]. *)
Definition sr_value (old start_bit num_bits value : Z) : Z :=
  let msk := u32 (Z.shiftl 1 num_bits - 1) in
  Z.lor (Z.land old (u32 (Z.lnot (u32 (Z.shiftl msk start_bit))))) (u32 (Z.shiftl value start_bit)).

Definition sr32 (addr start_bit num_bits value : Z) : DM unit :=
  let! v := readl addr in
  writel (sr_value v start_bit num_bits value) addr.

(** [i] is the number of reads so far. *)
Fixpoint wait_loop (fuel : nat) (i read_bit_mask match_value read_addr bound : Z) : DM Z :=
  match fuel with
  | O => mfault OutOfFuel
  | S fuel =>
    let i := u32 (i + 1) in
    let! v := readl read_addr in
    if Z.land v read_bit_mask =? match_value then mret 1
    else if i =? bound then mret 0
    else wait_loop fuel i read_bit_mask match_value read_addr bound
  end.
Definition wait_on_value (fuel : nat) (read_bit_mask match_value read_addr bound : Z) : DM Z :=
  wait_loop fuel 0 read_bit_mask match_value read_addr bound.

(** [while (cond(readl(addr)));] *)
Fixpoint spin (fuel : nat) (addr : Z) (cond : Z -> bool) : DM unit :=
  match fuel with
  | O => mfault OutOfFuel
  | S fuel => let! v := readl addr in if cond v then spin fuel addr cond else mret tt
  end.

(** ** The memory controller *)

(** Values and the positions they are shifted to, combined with [|]. *)
Definition fields (l : list (Z * Z)) : Z := foldr (fun '(v, s) r => Z.lor (Z.shiftl v s) r) 0 l.

Definition emif_phyctl1 : list (Z * Z) := [(0x6, 0); (0x0, 6); (0x0, 7); (0x0, 12); (0x0, 15); (0x0, 23)].
Definition emif_phyctl2 : list (Z * Z) := [(0x0, 0); (0x0, 1)].
(** T_WTR, T_RRD, T_RC, T_RAS, T_WR, T_RCD and T_RP. *)
Definition emif_tim1 : list (Z * Z) := [(0x2, 0); (0x2, 3); (0xA, 6); (0x8, 12); (0x3, 17); (0x3, 21); (0x3, 25)].
(** T_CKE, T_RTP, T_XSRD, T_XSNR, T_ODT and T_XP. *)
Definition emif_tim2 : list (Z * Z) := [(0x2, 0); (0x1, 3); (0xC8, 6); (0x1C, 16); (0x1, 25); (0x2, 28)].
(** T_RAS_MAX, T_RFC and T_TDQSCKMAX. *)
Definition emif_tim3 : list (Z * Z) := [(0x7, 0); (0x25, 4); (0x0, 13)].
Definition emif_pwr : list (Z * Z) := [(0x0, 0); (0x0, 8); (0x0, 10); (0x2, 30)].
(** The refresh rate, the partial refresh and the switch for the initial refresh. *)
Definition emif_rfcr : list (Z * Z) := [(0x50F, 0); (0x0, 24); (0x0, 31)].
(** Page size, chip selects, banks, row size, latency, width, write latency, drive,
DLL, termination, strobes, bank position and type. *)
Definition emif_cfg : list (Z * Z) :=
  [(0x2, 0); (0x0, 3); (0x3, 4); (0x4, 7); (0x5, 10); (0x0, 14); (0x0, 16); (0x0, 18); (0x0, 20); (0x0, 21); (0x1, 23);
   (0x0, 24); (0x0, 27); (0x2, 29)].

Definition config_emif4_ddr (fuel : nat) : DM unit :=
  do! writel (fields emif_phyctl1) EMIF4_DDR_PHYCTL1 in
  do! writel (fields emif_phyctl1) EMIF4_DDR_PHYCTL1_SHDW in
  do! writel (fields emif_phyctl2) EMIF4_DDR_PHYCTL2 in
  do! sr32 EMIF4_IODFT_TLGC 10 1 1 in
  do! spin fuel EMIF4_IODFT_TLGC (fun v => Z.land v (BIT 10) =? 0x1) in
  do! spin fuel EMIF4_SDRAM_STS (fun v => Z.land v (BIT 2) =? 0x0) in
  do! sr32 EMIF4_IODFT_TLGC 0 1 1 in
  do! writel (fields emif_tim1) EMIF4_SDRAM_TIM1 in
  do! writel (fields emif_tim1) EMIF4_SDRAM_TIM1_SHDW in
  do! writel (fields emif_tim2) EMIF4_SDRAM_TIM2 in
  do! writel (fields emif_tim2) EMIF4_SDRAM_TIM2_SHDW in
  do! writel (fields emif_tim3) EMIF4_SDRAM_TIM3 in
  do! writel (fields emif_tim3) EMIF4_SDRAM_TIM3_SHDW in
  do! writel (fields emif_pwr) EMIF4_PWR_MGT_CTRL in
  do! writel (fields emif_pwr) EMIF4_PWR_MGT_CTRL_SHDW in
  do! writel (fields emif_rfcr) EMIF4_SDRAM_RFCR in
  do! writel (fields emif_rfcr) EMIF4_SDRAM_RFCR_SHDW in
  writel (fields emif_cfg) EMIF4_SDRAM_CFG.

(** ** The input clock *)
Definition classify (cdiff : Z) : Z :=
  if 19000 <? cdiff then S38_4M
  else if 15200 <? cdiff then S26M
  else if 13000 <? cdiff then S24M
  else if 9000 <? cdiff then S19_2M
  else if 7600 <? cdiff then S13M
  else S12M.

Definition get_osc_clk_speed (fuel : nat) : DM Z :=
  let! val := readl PRM_CLKSRC_CTRL in
  do! writel (Z.lor (Z.land val (Z.lnot (BIT 7))) (BIT 6)) PRM_CLKSRC_CTRL in
  let! val := readl CM_CLKSEL_WKUP in
  do! writel (Z.lor val (BIT 0)) CM_CLKSEL_WKUP in
  let! val := readl CM_ICLKEN_WKUP in
  do! writel (Z.lor (Z.lor val (BIT 0)) (BIT 2)) CM_ICLKEN_WKUP in
  let! val := readl CM_FCLKEN_WKUP in
  do! writel (Z.lor val (BIT 0)) CM_FCLKEN_WKUP in
  do! writel 0 (OMAP34XX_GPT1 + TLDR) in
  do! writel GPT_EN (OMAP34XX_GPT1 + TCLR) in
  let! v := readl S32K_CR in
  let start := u32 (20 + v) in
  do! spin fuel S32K_CR (fun v => v <? start) in
  let! cstart := readl (OMAP34XX_GPT1 + TCRR) in
  do! spin fuel S32K_CR (fun v => v <? u32 (start + 20)) in
  let! cend := readl (OMAP34XX_GPT1 + TCRR) in
  mret (classify (u32 (cend - cstart))).

(** [sel] is what [*sys_clkin_sel] holds before. *)
Definition get_sys_clkin_sel (osc_clk sel : Z) : Z :=
  if osc_clk =? S38_4M then 4
  else if osc_clk =? S26M then 3
  else if osc_clk =? S19_2M then 2
  else if osc_clk =? S13M then 1
  else if osc_clk =? S12M then 0
  else sel.

(** ** [prcm_init] *)

(** The entry of a table. *)
Definition table_at (t : list dpll_param) (i : Z) : DM dpll_param :=
  if i <? 0 then mfault OutOfBounds
  else match t !! Z.to_nat i with Some p => mret p | None => mfault OutOfBounds end.

(** [dpll_param_p] points to the entry for the clock and the silicon. *)
Definition core_dpll (fuel : nat) (p : dpll_param) : DM unit :=
  do! sr32 CM_CLKEN_PLL 0 3 PLL_FAST_RELOCK_BYPASS in
  let! _ := wait_on_value fuel (BIT 0) 0 CM_IDLEST_CKGEN LDELAY in
  do! sr32 CM_CLKSEL1_EMU 16 5 CORE_M3X2 in
  do! sr32 CM_CLKSEL1_PLL 27 2 (dp_m2 p) in
  do! sr32 CM_CLKSEL1_PLL 16 11 (dp_m p) in
  do! sr32 CM_CLKSEL1_PLL 8 7 (dp_n p) in
  do! sr32 CM_CLKSEL1_PLL 6 1 0 in
  do! sr32 CM_CLKSEL_CORE 2 2 CORE_L4_DIV in
  do! sr32 CM_CLKSEL_CORE 0 2 CORE_L3_DIV in
  do! sr32 CM_CLKSEL_WKUP 1 2 WKUP_RSM in
  do! sr32 CM_CLKEN_PLL 4 4 (dp_fsel p) in
  do! sr32 CM_CLKEN_PLL 0 3 PLL_LOCK in
  let! _ := wait_on_value fuel (BIT 0) 1 CM_IDLEST_CKGEN LDELAY in
  mret tt.

Definition per_dpll (fuel : nat) (p : dpll_param) : DM unit :=
  do! sr32 CM_CLKEN_PLL 16 3 PLL_STOP in
  let! _ := wait_on_value fuel (BIT 1) 0 CM_IDLEST_CKGEN LDELAY in
  do! sr32 CM_CLKSEL1_EMU 24 5 PER_M6X2 in
  do! sr32 CM_CLKSEL_CAM 0 5 PER_M5X2 in
  do! sr32 CM_CLKSEL_DSS 0 5 PER_M4X2 in
  do! sr32 CM_CLKSEL_DSS 8 5 PER_M3X2 in
  do! sr32 CM_CLKSEL3_PLL 0 5 (dp_m2 p) in
  do! sr32 CM_CLKSEL2_PLL 8 11 (dp_m p) in
  do! sr32 CM_CLKSEL2_PLL 0 7 (dp_n p) in
  do! sr32 CM_CLKEN_PLL 20 4 (dp_fsel p) in
  do! sr32 CM_CLKEN_PLL 16 3 PLL_LOCK in
  let! _ := wait_on_value fuel (BIT 1) 2 CM_IDLEST_CKGEN LDELAY in
  mret tt.

Definition mpu_dpll (fuel : nat) (p : dpll_param) : DM unit :=
  do! sr32 CM_CLKSEL2_PLL_MPU 0 5 (dp_m2 p) in
  do! sr32 CM_CLKSEL1_PLL_MPU 8 11 (dp_m p) in
  do! sr32 CM_CLKSEL1_PLL_MPU 0 7 (dp_n p) in
  do! sr32 CM_CLKEN_PLL_MPU 4 4 (dp_fsel p) in
  do! sr32 CM_CLKEN_PLL_MPU 0 3 PLL_LOCK in
  let! _ := wait_on_value fuel (BIT 0) 1 CM_IDLEST_PLL_MPU LDELAY in
  mret tt.

(** Everything behind the choice of [sys_clkin_sel]. *)
Definition prcm_program (fuel : nat) (sys_clkin_sel : Z) : DM unit :=
  do! sr32 PRM_CLKSEL 0 3 sys_clkin_sel in
  let! clk_index :=
    if 2 <? sys_clkin_sel then do! sr32 PRM_CLKSRC_CTRL 6 2 2 in mret (sys_clkin_sel / 2)
    else do! sr32 PRM_CLKSRC_CTRL 6 2 1 in mret sys_clkin_sel in
  let sil_index := get_cpu_rev - 1 in
  do! sr32 CM_CLKEN_PLL_MPU 0 3 PLL_LOW_POWER_BYPASS in
  let! _ := wait_on_value fuel (BIT 0) 0 CM_IDLEST_PLL_MPU LDELAY in
  let! p := table_at core_dpll_param (2 * clk_index + sil_index) in
  do! core_dpll fuel p in
  let! p := table_at per_dpll_param clk_index in
  do! per_dpll fuel p in
  let! p := table_at mpu_dpll_param (2 * clk_index + sil_index) in
  do! mpu_dpll fuel p in
  do! sr32 CM_CLKSEL_PER 0 8 0xff in
  sr32 CM_CLKSEL_WKUP 0 1 1.

(** [junk] is what the variable [sys_clkin_sel] holds before it is set. *)
Definition prcm_init (fuel : nat) (junk : Z) : DM unit :=
  let! osc_clk := get_osc_clk_speed fuel in
  prcm_program fuel (get_sys_clkin_sel osc_clk junk).

(** ** Protection, watchdog, peripherals and pins *)
Definition UNLOCK_1 : Z := 0xFFFFFFFF.
Definition UNLOCK_2 : Z := 0x00000000.
Definition UNLOCK_3 : Z := 0x0000FFFF.

Definition secure_unlock : DM unit :=
  do! writel UNLOCK_1 (PM_RT_APE_BASE_ADDR_ARM + 0x68) in
  do! writel UNLOCK_1 (PM_RT_APE_BASE_ADDR_ARM + 0x50) in
  do! writel UNLOCK_1 (PM_RT_APE_BASE_ADDR_ARM + 0x58) in
  do! writel UNLOCK_2 (PM_RT_APE_BASE_ADDR_ARM + 0x60) in
  do! writel UNLOCK_3 (PM_GPMC_BASE_ADDR_ARM + 0x48) in
  do! writel UNLOCK_3 (PM_GPMC_BASE_ADDR_ARM + 0x50) in
  do! writel UNLOCK_3 (PM_GPMC_BASE_ADDR_ARM + 0x58) in
  do! writel UNLOCK_3 (PM_OCM_RAM_BASE_ADDR_ARM + 0x48) in
  do! writel UNLOCK_3 (PM_OCM_RAM_BASE_ADDR_ARM + 0x50) in
  do! writel UNLOCK_3 (PM_OCM_RAM_BASE_ADDR_ARM + 0x58) in
  do! writel UNLOCK_2 (PM_OCM_RAM_BASE_ADDR_ARM + 0x80) in
  writel UNLOCK_1 SMS_RG_ATT0.

Definition try_unlock_memory : DM unit :=
  let! mode := get_device_type in
  if mode =? GP_DEVICE then secure_unlock else mret tt.

Definition wait_for_command_complete (fuel : nat) (wd_base : Z) : DM unit := spin fuel (wd_base + WWPS) truthy.

Definition watchdog_init (fuel : nat) : DM unit :=
  do! sr32 CM_FCLKEN_WKUP 5 1 1 in
  do! sr32 CM_ICLKEN_WKUP 5 1 1 in
  let! _ := wait_on_value fuel (BIT 5) 0x20 CM_IDLEST_WKUP 5 in
  do! writel WD_UNLOCK1 (WD2_BASE + WSPR) in
  do! wait_for_command_complete fuel WD2_BASE in
  writel WD_UNLOCK2 (WD2_BASE + WSPR).

Definition per_clocks_enable : DM unit :=
  do! sr32 CM_CLKSEL_PER 0 1 0x1 in
  do! sr32 CM_ICLKEN_PER 3 1 0x1 in
  do! sr32 CM_FCLKEN_PER 3 1 0x1 in
  do! sr32 CM_FCLKEN1_CORE 13 1 0x1 in
  do! sr32 CM_ICLKEN1_CORE 13 1 0x1 in
  do! sr32 CM_FCLKEN1_CORE 14 1 0x1 in
  do! sr32 CM_ICLKEN1_CORE 14 1 0x1 in
  do! sr32 CM_FCLKEN_PER 11 1 0x1 in
  do! sr32 CM_ICLKEN_PER 11 1 0x1 in
  do! sr32 CM_FCLKEN1_CORE 24 1 0x1 in
  do! sr32 CM_ICLKEN1_CORE 24 1 0x1 in
  do! sr32 CM_FCLKEN1_CORE 25 1 0x1 in
  sr32 CM_ICLKEN1_CORE 25 1 0x1.

Fixpoint mux_all (l : list (Z * Z)) : DM unit :=
  match l with
  | [] => mret tt
  | (offset, value) :: l => do! writew value (OMAP34XX_CTRL_BASE + offset) in mux_all l
  end.
Definition set_muxconf_regs : DM unit := mux_all MUX_DEFAULT.

(** ** [s_init] *)
Definition s_init (fuel : nat) (junk : Z) : DM unit :=
  do! watchdog_init fuel in
  do! try_unlock_memory in
  do! set_muxconf_regs in
  do! prcm_init fuel junk in
  do! per_clocks_enable in
  do! sr32 (OMAP34XX_CTRL_BASE + 0x588) 15 15 0x1 in
  do! sr32 (OMAP34XX_CTRL_BASE + 0x588) 14 14 0x1 in
  do! sr32 (OMAP34XX_CTRL_BASE + 0x59C) 0 4 0xF in
  do! sr32 (OMAP34XX_CTRL_BASE + 0x59C) 8 10 0x7 in
  do! sr32 (OMAP34XX_CTRL_BASE + 0x598) 1 1 0x1 in
  config_emif4_ddr fuel.
End clocks.

(** * What the registers promise *)

(** Registers that change by themselves. *)
Definition status_regs : list Z :=
  [CM_IDLEST_PLL_MPU; CM_IDLEST_CKGEN; CM_IDLEST_WKUP; S32K_CR; OMAP34XX_GPT1 + TCRR; EMIF4_SDRAM_STS; EMIF4_IODFT_TLGC;
   WD2_BASE + WWPS; WD2_BASE + WSPR].
Definition pad_area (a : Z) : bool :=
  ((OMAP34XX_CTRL_BASE + 0x30 <=? a) && (a <? OMAP34XX_CTRL_BASE + 0x268)) ||
  ((OMAP34XX_CTRL_BASE + 0x5D8 <=? a) && (a <? OMAP34XX_CTRL_BASE + 0x5FC)) ||
  ((OMAP34XX_CTRL_BASE + 0xA00 <=? a) && (a <? OMAP34XX_CTRL_BASE + 0xA28)).
Definition plain (a : Z) : bool := negb (existsb (Z.eqb a) status_regs) && negb (pad_area a).

(** A field of [n] bits from bit [s] on. *)
Definition bitfield (v s n : Z) : Z := Z.land (Z.shiftr v s) (Z.ones n).

(** The timer that gauges the input clock runs from it, undivided. *)
Definition timer_runs (r : Z -> Z) : Prop :=
  r (OMAP34XX_GPT1 + TCLR) = GPT_EN /\ bitfield (r CM_FCLKEN_WKUP) 0 1 = 1 /\ bitfield (r CM_ICLKEN_WKUP) 0 1 = 1 /\
  bitfield (r CM_CLKSEL_WKUP) 0 1 = 1 /\ bitfield (r PRM_CLKSRC_CTRL) 6 2 = 1.

(** The state after [k] reads of a register. *)
Fixpoint reads {D} `{Mmio D} (k : nat) (a : Z) (d : D) : D :=
  match k with O => d | S k => reads k a (snd (mm_read d a)) end.

(** A plain register holds what was written to it.  Time is in nanoseconds and an
access takes up to [delta] of them; the 32 kHz counter and, while it runs from the
input clock of frequency [osc], the timer count it.  The watchdog takes a command and
the memory gets ready within [polls] reads. *)
Class MmioLaws {D} `{Mmio D} (osc delta : Z) (polls : nat) : Type := {
  regs : D -> Z -> Z;
  pads : D -> Z -> Z;
  now : D -> Z;
  count32 : Z;
  phase : D -> Z;
  regs_range d a : 0 <= regs d a < 2 ^ 32;
  read_plain d a : plain a = true -> u32 (fst (mm_read d a)) = regs d a;
  read_regs d a b : plain b = true -> regs (snd (mm_read d a)) b = regs d b;
  read_pads d a b : pads (snd (mm_read d a)) b = pads d b;
  write_regs d a v b : 0 <= v < 2 ^ 32 -> plain b = true -> regs (mm_write d a v) b = if b =? a then v else regs d b;
  write_pads d a v b : pads (mm_write d a v) b = pads d b;
  write16_regs d a v b : pad_area a = true -> plain b = true -> regs (mm_write16 d a v) b = regs d b;
  write16_pads d a v b : pads (mm_write16 d a v) b = if b =? a then v else pads d b;
  now_nonneg d : 0 <= now d;
  read_time d a : now d < now (snd (mm_read d a)) <= now d + delta;
  write_time d a v : now d <= now (mm_write d a v) <= now d + delta;
  write16_time d a v : now d <= now (mm_write16 d a v) <= now d + delta;
  read_32k d : u32 (fst (mm_read d S32K_CR)) = u32 (count32 + now d * 32768 / 10 ^ 9);
  read_timer d : timer_runs (regs d) ->
    u32 (fst (mm_read d (OMAP34XX_GPT1 + TCRR))) = u32 (phase d + now d * osc / 10 ^ 9);
  read_phase d a : timer_runs (regs d) -> phase (snd (mm_read d a)) = phase d;
  watchdog_law d : exists k, (k <= polls)%nat /\ u32 (fst (mm_read (reads k (WD2_BASE + WWPS) d) (WD2_BASE + WWPS))) = 0;
  memory_law d : exists k, (k <= polls)%nat /\
    Z.testbit (u32 (fst (mm_read (reads k EMIF4_SDRAM_STS d) EMIF4_SDRAM_STS))) 2 = true;
}.

(** * Properties *)

(** ** Bit fields *)
Lemma wrapu_testbit w x i : 0 <= w -> 0 <= i -> Z.testbit (wrapu w x) i = (i <? w) && Z.testbit x i.
Proof.
  intros Hw Hi. unfold wrapu. destruct (Z.ltb_spec i w); [by rewrite Z.mod_pow2_bits_low by lia|by rewrite Z.mod_pow2_bits_high by lia].
Qed.

Lemma sr_value_testbit old s n v i :
  0 <= old < 2 ^ 32 -> 0 <= s -> 0 <= n -> s + n <= 32 -> 0 <= v < 2 ^ n -> 0 <= i ->
  Z.testbit (sr_value old s n v) i = if (s <=? i) && (i <? s + n) then Z.testbit v (i - s) else Z.testbit old i.
Proof.
  intros Ho Hs Hn Hsn Hv Hi. unfold sr_value. rewrite Z.lor_spec, Z.land_spec, !wrapu_testbit, Z.lnot_spec, wrapu_testbit by lia.
  rewrite !Z.shiftl_spec by lia. destruct (Z.leb_spec s i); cbn [andb].
  - rewrite wrapu_testbit by lia. replace (Z.shiftl 1 n - 1) with (Z.ones n) by (rewrite Z.shiftl_1_l, Z.ones_equiv; lia).
    rewrite Z.testbit_ones_nonneg by lia. destruct (Z.ltb_spec i (s + n)).
    + rewrite (proj2 (Z.ltb_lt (i - s) n)), (proj2 (Z.ltb_lt (i - s) 32)), (proj2 (Z.ltb_lt i 32)) by lia. cbn.
      by rewrite andb_false_r.
    + rewrite (testbit_high v n (i - s)) by lia. rewrite (proj2 (Z.ltb_ge (i - s) n)) by lia. rewrite !andb_false_r. cbn [negb].
      rewrite andb_true_r, orb_false_r. destruct (Z.ltb_spec i 32); [by rewrite andb_true_r|]. rewrite andb_false_r.
      by rewrite (testbit_high old 32 i) by lia.
  - rewrite !(Z.testbit_neg_r _ (i - s)) by lia. rewrite !andb_false_r. cbn [negb]. rewrite andb_true_r, orb_false_r.
    by rewrite (proj2 (Z.ltb_lt i 32)), andb_true_r by lia.
Qed.

Lemma sr_value_range old s n v :
  0 <= old < 2 ^ 32 -> 0 <= s -> 0 <= n -> s + n <= 32 -> 0 <= v < 2 ^ n -> 0 <= sr_value old s n v < 2 ^ 32.
Proof.
  intros Ho Hs Hn Hsn Hv. apply range_of_bits; [lia|]. intros i Hi. rewrite sr_value_testbit by lia.
  rewrite (proj2 (Z.ltb_ge i (s + n))), andb_false_r by lia. by rewrite (testbit_high old 32) by lia.
Qed.

Lemma bitfield_testbit v s n i : 0 <= s -> 0 <= n -> 0 <= i -> Z.testbit (bitfield v s n) i = (i <? n) && Z.testbit v (i + s).
Proof.
  intros Hs Hn Hi. unfold bitfield. rewrite Z.land_spec, Z.shiftr_spec, Z.testbit_ones_nonneg by lia. apply andb_comm.
Qed.

(** [sr32] sets its field, and no other bit. *)
Lemma sr_value_inside old s n v s' n' :
  0 <= old < 2 ^ 32 -> 0 <= s -> 0 <= n -> s + n <= 32 -> 0 <= v < 2 ^ n -> s <= s' -> 0 <= n' -> s' + n' <= s + n ->
  bitfield (sr_value old s n v) s' n' = bitfield v (s' - s) n'.
Proof.
  intros. apply Z.bits_inj'. intros i Hi. rewrite !bitfield_testbit, sr_value_testbit by lia.
  destruct (Z.ltb_spec i n'); cbn [andb]; [|done]. rewrite (proj2 (Z.leb_le _ _)), (proj2 (Z.ltb_lt _ _)) by lia. cbn [andb].
  f_equal. lia.
Qed.
Lemma sr_value_outside old s n v s' n' :
  0 <= old < 2 ^ 32 -> 0 <= s -> 0 <= n -> s + n <= 32 -> 0 <= v < 2 ^ n -> 0 <= s' -> 0 <= n' ->
  s' + n' <= s \/ s + n <= s' ->
  bitfield (sr_value old s n v) s' n' = bitfield old s' n'.
Proof.
  intros ? ? ? ? ? ? ? Hd. apply Z.bits_inj'. intros i Hi. rewrite !bitfield_testbit, sr_value_testbit by lia.
  destruct (Z.ltb_spec i n'); cbn [andb]; [|done].
  destruct Hd; [rewrite (proj2 (Z.leb_gt s _)) by lia; done|rewrite (proj2 (Z.ltb_ge _ (s + n))), andb_false_r by lia; done].
Qed.

(** ** Sequences of register operations *)
Inductive reg_op : Type := Put (a v : Z) | Sr (a s n v : Z).

Definition upd (a v : Z) (r : Z -> Z) : Z -> Z := fun b => if b =? a then v else r b.
Definition run_op (r : Z -> Z) (o : reg_op) : Z -> Z :=
  match o with Put a v => upd a v r | Sr a s n v => upd a (sr_value (r a) s n v) r end.
Definition run_ops (l : list reg_op) (r : Z -> Z) : Z -> Z := foldl run_op r l.

Definition op_ok (o : reg_op) : bool :=
  match o with
  | Put a v => (0 <=? v) && (v <? 2 ^ 32)
  | Sr a s n v => plain a && (0 <=? s) && (0 <=? n) && (s + n <=? 32) && (0 <=? v) && (v <? 2 ^ n)
  end.

(** What is known of a field after operations, the last one first. *)
Fixpoint known (l : list reg_op) (a s n : Z) : option Z :=
  match l with
  | [] => None
  | Put b v :: l => if a =? b then Some (bitfield v s n) else known l a s n
  | Sr b t m v :: l =>
    if a =? b then
      if (t <=? s) && (s + n <=? t + m) then Some (bitfield v (s - t) n)
      else if (s + n <=? t) || (t + m <=? s) then known l a s n
      else None
    else known l a s n
  end.

Lemma run_ops_range l r : Forall (fun o => op_ok o = true) l -> (forall a, 0 <= r a < 2 ^ 32) -> forall a, 0 <= run_ops l r a < 2 ^ 32.
Proof.
  intros Hl. revert r. induction Hl as [|o l Ho _ IH]; intros r Hr; [done|]. cbn. apply IH. intros a.
  destruct o as [b v|b s n v]; cbn in *; unfold upd; rewrite !andb_true_iff, ?Z.leb_le, ?Z.ltb_lt in Ho; (destruct (a =? b); [|done]).
  - lia.
  - apply sr_value_range; try apply Hr; lia.
Qed.

Lemma known_sound l r a s n x :
  Forall (fun o => op_ok o = true) l -> (forall a, 0 <= r a < 2 ^ 32) -> 0 <= s -> 0 <= n ->
  known (rev l) a s n = Some x -> bitfield (run_ops l r a) s n = x.
Proof.
  intros Hl Hr Hs Hn. induction l as [|o l IH] using rev_ind; [done|]. rewrite rev_app_distr. cbn [rev app].
  apply Forall_app in Hl as [Hl Ho]. rewrite Forall_singleton in Ho. unfold run_ops. rewrite foldl_app. cbn [foldl].
  fold (run_ops l r). specialize (IH Hl). pose proof (run_ops_range l r Hl Hr) as Hrg.
  destruct o as [b v|b t m v]; cbn [known run_op op_ok] in *; unfold upd; rewrite ?andb_true_iff, ?Z.leb_le, ?Z.ltb_lt in Ho.
  - destruct (a =? b); [by intros [= ->]|done].
  - destruct (Z.eqb_spec a b) as [->|]; [|done].
    destruct ((t <=? s) && (s + n <=? t + m)) eqn:E1; [|destruct ((s + n <=? t) || (t + m <=? s)) eqn:E2; [|done]].
    + intros [= <-]. rewrite sr_value_inside by (apply Hrg || lia). done.
    + intros E. rewrite sr_value_outside by (apply Hrg || lia). by apply IH.
Qed.

Section laws.
Context {D : Type} {HD : Mmio D} (osc delta : Z) (polls : nat) {HL : MmioLaws osc delta polls}.

(** The plain registers and the pads of a state that is not later than [t]. *)
Definition at_regs (r p : Z -> Z) (t : Z) (d : D) : Prop :=
  (forall a, plain a = true -> regs d a = r a) /\ (forall a, pads d a = p a) /\ now d <= t.

(** [m] performs operations on the registers with at most [n] accesses. *)
Definition does {A} (m : M D A) (l : list reg_op) (n : Z) : Prop :=
  forall r p t, tot (at_regs r p t) m (fun _ => at_regs (run_ops l r) p (t + n * delta)).

Lemma delta_nonneg : 0 <= delta \/ (D -> False).
Proof. destruct (Z.le_gt_cases 0 delta); [by left|right]. intros d. pose proof (read_time d 0). lia. Qed.

Lemma at_regs_ext r r' p t d : (forall a, plain a = true -> r a = r' a) -> at_regs r p t d -> at_regs r' p t d.
Proof. intros Hr (H1 & H2 & H3). repeat split; [|done|done]. intros a Ha. by rewrite H1, Hr. Qed.

Lemma at_regs_read r p t d a : at_regs r p t d -> at_regs r p (t + delta) (snd (mm_read d a)).
Proof.
  intros (H1 & H2 & H3). pose proof (read_time d a). repeat split; [..|lia].
  - intros b Hb. by rewrite read_regs, H1.
  - intros b. by rewrite read_pads.
Qed.

Lemma does_ret {A} (x : A) : does (mret x) [] 0.
Proof. intros r p t d Hd. exists x, d. split; [done|]. by rewrite Z.mul_0_l, Z.add_0_r. Qed.

Lemma does_bind {A B} (m : M D A) (k : A -> M D B) l1 l2 n1 n2 :
  does m l1 n1 -> (forall a, does (k a) l2 n2) -> does (mbind m k) (l1 ++ l2) (n1 + n2).
Proof.
  intros Hm Hk r p t. eapply tot_bind; [apply Hm|]. intros a. eapply tot_conseq; [apply Hk|done|]. intros b d Hd. cbv beta in Hd.
  unfold run_ops in *. rewrite foldl_app. by replace (t + (n1 + n2) * delta) with (t + n1 * delta + n2 * delta) by lia.
Qed.

Lemma does_readl a : does (readl a) [] 1.
Proof.
  intros r p t d Hd. unfold readl. exists (u32 (fst (mm_read d a))), (snd (mm_read d a)). split; [unfold runs; by destruct (mm_read d a)|].
  rewrite Z.mul_1_l. by apply at_regs_read.
Qed.

Lemma readl_plain r p t a :
  plain a = true -> tot (at_regs r p t) (readl a) (fun v d => (v = r a /\ 0 <= r a < 2 ^ 32) /\ at_regs r p (t + delta) d).
Proof.
  intros Ha d Hd. unfold readl. exists (u32 (fst (mm_read d a))), (snd (mm_read d a)). split; [unfold runs; by destruct (mm_read d a)|].
  split; [|by apply at_regs_read]. pose proof (read_plain d a Ha) as Hr. destruct (mm_read d a) as [v d'] eqn:E. cbn in *.
  destruct Hd as (H1 & _). rewrite Hr, <- H1 by done. split; [done|apply regs_range].
Qed.

Lemma does_writel v a : does (writel v a) [Put a (u32 v)] 1.
Proof.
  intros r p t d (H1 & H2 & H3). eexists tt, _. split; [done|]. pose proof (write_time d a (u32 v)). repeat split; [..|lia].
  - intros b Hb. cbn. unfold upd. rewrite write_regs by (done || by apply (wrapu_range 32)). destruct (b =? a); [done|by apply H1].
  - intros b. by rewrite write_pads.
Qed.

(** Read, change and write back. *)
Lemma does_modify a (f : Z -> Z) o :
  plain a = true -> (forall r b, 0 <= r a < 2 ^ 32 -> run_op r o b = upd a (u32 (f (r a))) r b) ->
  does (let! v := readl a in writel (f v) a) [o] 2.
Proof.
  intros Ha Ho r p t. eapply tot_bind; [by apply readl_plain|]. intros v. apply tot_pure. intros [-> Hr].
  eapply tot_conseq; [apply does_writel|done|]. intros x d Hd. cbv beta in Hd.
  replace (t + 2 * delta) with (t + delta + 1 * delta) by lia. eapply at_regs_ext; [|exact Hd]. intros b _. cbn. by rewrite Ho.
Qed.

Lemma sr_value_u32 old s n v : 0 <= old < 2 ^ 32 -> 0 <= s -> u32 (sr_value old s n v) = sr_value old s n v.
Proof.
  intros Ho Hs. apply wrapu_small. unfold sr_value. apply lor_range; [lia| |by apply (wrapu_range 32)]. by apply land_range.
Qed.

Lemma does_sr32 a s n v : plain a = true -> 0 <= s -> does (sr32 a s n v) [Sr a s n v] 2.
Proof.
  intros Ha Hs. unfold sr32. apply (does_modify a (fun x => sr_value x s n v)); [done|]. intros r b Hr. cbn.
  by rewrite sr_value_u32.
Qed.

(** [sr32] on a register that changes by itself. *)
Lemma does_sr32_status a s n v : plain a = false -> does (sr32 a s n v) [] 2.
Proof.
  intros Ha. unfold sr32. change (@nil reg_op) with (@nil reg_op ++ []). change 2 with (1 + 1).
  apply does_bind; [apply does_readl|]. intros x r p t. eapply tot_conseq; [apply does_writel|done|].
  intros y d Hd. eapply at_regs_ext; [|exact Hd]. intros b Hb. cbn. unfold upd. destruct (Z.eqb_spec b a); [congruence|done].
Qed.

Lemma does_weaken {A} (m : M D A) l n n' : does m l n -> n <= n' -> does m l n'.
Proof.
  intros Hm Hn r p t d Hd. destruct (Hm r p t d Hd) as (x & d' & Hr & H1 & H2 & H3). exists x, d'. split; [done|].
  repeat split; [done|done|]. destruct delta_nonneg as [|Hno]; [nia|by destruct (Hno d)].
Qed.

Lemma does_wait_loop fuel i mask v a bound :
  0 <= i < bound -> bound < 2 ^ 32 -> bound - i <= Z.of_nat fuel -> does (wait_loop fuel i mask v a bound) [] (bound - i).
Proof.
  revert i. induction fuel as [|fuel IH]; intros i Hi Hb Hf; [lia|]. cbn [wait_loop]. rewrite (wrapu_small 32 (i + 1)) by lia.
  change (@nil reg_op) with (@nil reg_op ++ []). replace (bound - i) with (1 + (bound - (i + 1))) by lia.
  apply does_bind; [apply does_readl|]. intros x. destruct (_ =? v); [eapply does_weaken; [apply does_ret|lia]|].
  destruct (Z.eqb_spec (i + 1) bound); [eapply does_weaken; [apply does_ret|lia]|]. apply IH; lia.
Qed.
Lemma does_wait fuel mask v a bound :
  0 < bound < 2 ^ 32 -> bound <= Z.of_nat fuel -> does (wait_on_value fuel mask v a bound) [] bound.
Proof. intros Hb Hf. unfold wait_on_value. rewrite <- (Z.sub_0_r bound) at 2. apply does_wait_loop; lia. Qed.

Lemma spin_runs k a cond fuel r p t d :
  (k < fuel)%nat -> cond (u32 (fst (mm_read (reads k a d) a))) = false -> at_regs r p t d ->
  exists d', runs (spin fuel a cond) d tt d' /\ at_regs r p (t + (Z.of_nat k + 1) * delta) d'.
Proof.
  revert fuel t d. induction k as [|k IH]; intros [|fuel] t d Hk Hc Hd; try lia; cbn [spin reads] in *.
  - exists (snd (mm_read d a)). split; [|rewrite Z.add_0_l, Z.mul_1_l; by apply at_regs_read].
    unfold runs, mbind, readl. destruct (mm_read d a) as [v d']. cbn in *. by rewrite Hc.
  - apply (at_regs_read _ _ _ _ a) in Hd as Hd1. destruct (cond (u32 (fst (mm_read d a)))) eqn:E.
    + destruct (IH fuel (t + delta) _ ltac:(lia) Hc Hd1) as (d' & Hr & Hd'). exists d'.
      split; [|by replace (t + (Z.of_nat (S k) + 1) * delta) with (t + delta + (Z.of_nat k + 1) * delta) by lia].
      unfold runs, mbind, readl in *. destruct (mm_read d a) as [v d1]. cbn in *. by rewrite E.
    + exists (snd (mm_read d a)). split.
      * unfold runs, mbind, readl in *. destruct (mm_read d a) as [v d1]. cbn in *. by rewrite E.
      * destruct Hd1 as (H1 & H2 & H3). repeat split; [done|done|]. destruct delta_nonneg as [|Hno]; [nia|by destruct (Hno d)].
Qed.

Lemma does_spin fuel a cond :
  (polls < fuel)%nat -> (forall d, exists k, (k <= polls)%nat /\ cond (u32 (fst (mm_read (reads k a d) a))) = false) ->
  does (spin fuel a cond) [] (Z.of_nat polls + 1).
Proof.
  intros Hf Hc r p t d Hd. destruct (Hc d) as (k & Hk & Hk2).
  destruct (spin_runs k a cond fuel r p t d ltac:(lia) Hk2 Hd) as (d' & Hr & H1 & H2 & H3). exists tt, d'. split; [done|].
  repeat split; [done|done|]. destruct delta_nonneg as [|Hno]; [nia|by destruct (Hno d)].
Qed.

(** The loop that waits for the reset bit to clear has the wrong constant: it never
waits. *)
Lemma reset_not_awaited v : (Z.land v (BIT 10) =? 0x1) = false.
Proof.
  apply Z.eqb_neq. intros E. assert (Z.testbit (Z.land v (BIT 10)) 0 = Z.testbit 1 0) as Hb by by rewrite E.
  rewrite Z.land_spec in Hb. change (Z.testbit (BIT 10) 0) with false in Hb. by rewrite andb_false_r in Hb.
Qed.

Lemma does_eq {A} (m : M D A) l n l' n' : does m l n -> l = l' -> n <= n' -> does m l' n'.
Proof. intros Hm <- Hn. by eapply does_weaken. Qed.
End laws.

(** One access or wait after another. *)
Ltac does_atom :=
  first
    [ apply does_ret | apply does_writel | (apply does_sr32; [reflexivity|lia]) | (apply does_sr32_status; reflexivity)
    | (apply does_wait; [unfold LDELAY; lia|assumption || lia]) | eassumption | apply does_readl ].
Ltac does_seq := first [does_atom | (eapply does_bind; [does_atom|intros ?]); does_seq].
Ltac does_list := eapply does_eq; [does_seq|reflexivity|unfold LDELAY; lia].

Definition core_ops (p : dpll_param) : list reg_op :=
  [Sr CM_CLKEN_PLL 0 3 PLL_FAST_RELOCK_BYPASS; Sr CM_CLKSEL1_EMU 16 5 CORE_M3X2; Sr CM_CLKSEL1_PLL 27 2 (dp_m2 p);
   Sr CM_CLKSEL1_PLL 16 11 (dp_m p); Sr CM_CLKSEL1_PLL 8 7 (dp_n p); Sr CM_CLKSEL1_PLL 6 1 0; Sr CM_CLKSEL_CORE 2 2 CORE_L4_DIV;
   Sr CM_CLKSEL_CORE 0 2 CORE_L3_DIV; Sr CM_CLKSEL_WKUP 1 2 WKUP_RSM; Sr CM_CLKEN_PLL 4 4 (dp_fsel p); Sr CM_CLKEN_PLL 0 3 PLL_LOCK].
Definition per_ops (p : dpll_param) : list reg_op :=
  [Sr CM_CLKEN_PLL 16 3 PLL_STOP; Sr CM_CLKSEL1_EMU 24 5 PER_M6X2; Sr CM_CLKSEL_CAM 0 5 PER_M5X2; Sr CM_CLKSEL_DSS 0 5 PER_M4X2;
   Sr CM_CLKSEL_DSS 8 5 PER_M3X2; Sr CM_CLKSEL3_PLL 0 5 (dp_m2 p); Sr CM_CLKSEL2_PLL 8 11 (dp_m p); Sr CM_CLKSEL2_PLL 0 7 (dp_n p);
   Sr CM_CLKEN_PLL 20 4 (dp_fsel p); Sr CM_CLKEN_PLL 16 3 PLL_LOCK].
Definition mpu_ops (p : dpll_param) : list reg_op :=
  [Sr CM_CLKSEL2_PLL_MPU 0 5 (dp_m2 p); Sr CM_CLKSEL1_PLL_MPU 8 11 (dp_m p); Sr CM_CLKSEL1_PLL_MPU 0 7 (dp_n p);
   Sr CM_CLKEN_PLL_MPU 4 4 (dp_fsel p); Sr CM_CLKEN_PLL_MPU 0 3 PLL_LOCK].
Definition emif_ops : list reg_op :=
  [Put EMIF4_DDR_PHYCTL1 (u32 (fields emif_phyctl1)); Put EMIF4_DDR_PHYCTL1_SHDW (u32 (fields emif_phyctl1));
   Put EMIF4_DDR_PHYCTL2 (u32 (fields emif_phyctl2)); Put EMIF4_SDRAM_TIM1 (u32 (fields emif_tim1));
   Put EMIF4_SDRAM_TIM1_SHDW (u32 (fields emif_tim1)); Put EMIF4_SDRAM_TIM2 (u32 (fields emif_tim2));
   Put EMIF4_SDRAM_TIM2_SHDW (u32 (fields emif_tim2)); Put EMIF4_SDRAM_TIM3 (u32 (fields emif_tim3));
   Put EMIF4_SDRAM_TIM3_SHDW (u32 (fields emif_tim3)); Put EMIF4_PWR_MGT_CTRL (u32 (fields emif_pwr));
   Put EMIF4_PWR_MGT_CTRL_SHDW (u32 (fields emif_pwr)); Put EMIF4_SDRAM_RFCR (u32 (fields emif_rfcr));
   Put EMIF4_SDRAM_RFCR_SHDW (u32 (fields emif_rfcr)); Put EMIF4_SDRAM_CFG (u32 (fields emif_cfg))].

Section parts.
Context {D : Type} {HD : Mmio D} (osc delta : Z) (polls : nat) {HL : MmioLaws osc delta polls}.
Abbreviation dd := (does osc delta polls).
Context (fuel : nat) (Hwait : LDELAY <= Z.of_nat fuel) (Hpolls : (polls < fuel)%nat).

Lemma does_core p : dd (core_dpll fuel p) (core_ops p) (2 * LDELAY + 30).
Proof. unfold core_dpll. does_list. Qed.
Lemma does_per p : dd (per_dpll fuel p) (per_ops p) (2 * LDELAY + 30).
Proof. unfold per_dpll. does_list. Qed.
Lemma does_mpu p : dd (mpu_dpll fuel p) (mpu_ops p) (LDELAY + 30).
Proof. unfold mpu_dpll. does_list. Qed.

Lemma does_emif : dd (config_emif4_ddr fuel) emif_ops (2 * Z.of_nat polls + 40).
Proof.
  assert (dd (spin fuel EMIF4_IODFT_TLGC (fun v => Z.land v (BIT 10) =? 0x1)) [] (Z.of_nat polls + 1)).
  { apply does_spin; [done|]. intros d. exists 0%nat. split; [lia|]. apply reset_not_awaited. }
  assert (dd (spin fuel EMIF4_SDRAM_STS (fun v => Z.land v (BIT 2) =? 0x0)) [] (Z.of_nat polls + 1)).
  { apply does_spin; [done|]. intros d. destruct (memory_law d) as (k & Hk & Hb). exists k. split; [done|].
    pose proof (truthy_land_pow2 (u32 (fst (mm_read (reads k EMIF4_SDRAM_STS d) EMIF4_SDRAM_STS))) 2 ltac:(lia)) as Ht.
    rewrite Hb in Ht. unfold truthy in Ht. by apply negb_true_iff in Ht. }
  unfold config_emif4_ddr. does_list.
Qed.
End parts.

(** ** Gauging the input clock *)

(** 20 periods of the 32 kHz clock, give or take two accesses, tell the clocks apart. *)
Lemma gauge_arith osc delta c1 c2 :
  In osc [S12M; S13M; S19_2M; S24M; S26M; S38_4M] -> 0 <= delta <= 5000 -> 0 <= c1 ->
  20 * 10 ^ 9 - 2 * delta * 32768 <= (c2 - c1) * 32768 <= 20 * 10 ^ 9 + 2 * delta * 32768 ->
  0 <= c2 * osc / 10 ^ 9 - c1 * osc / 10 ^ 9 < 2 ^ 32 /\ classify (c2 * osc / 10 ^ 9 - c1 * osc / 10 ^ 9) = osc.
Proof.
  intros Ho Hd Hc Hb.
  pose proof (Z.div_mod (c2 * osc) (10 ^ 9) ltac:(lia)) as E2. pose proof (Z.mod_pos_bound (c2 * osc) (10 ^ 9) ltac:(lia)) as B2.
  pose proof (Z.div_mod (c1 * osc) (10 ^ 9) ltac:(lia)) as E1. pose proof (Z.mod_pos_bound (c1 * osc) (10 ^ 9) ltac:(lia)) as B1.
  unfold classify, S12M, S13M, S19_2M, S24M, S26M, S38_4M in *. cbn [In] in Ho.
  set (x := c2 * osc / 10 ^ 9 - c1 * osc / 10 ^ 9).
  assert (x * 10 ^ 9 = (c2 - c1) * osc - (c2 * osc) mod 10 ^ 9 + (c1 * osc) mod 10 ^ 9) as Ex by (unfold x; lia).
  clearbody x. destruct Ho as [<-|[<-|[<-|[<-|[<-|[<-|[]]]]]]]; (split; [lia|]);
    repeat match goal with |- context[?a <? ?b] => destruct (Z.ltb_spec a b); try lia end.
Qed.

Section gauge.
Context {D : Type} {HD : Mmio D} (osc delta : Z) (polls : nat) {HL : MmioLaws osc delta polls}.

Definition ticks (t : Z) : Z := count32 + t * 32768 / 10 ^ 9.

Lemma ticks_mono t u : t <= u -> ticks t <= ticks u.
Proof. intros Ht. unfold ticks. pose proof (Z.div_le_mono (t * 32768) (u * 32768) (10 ^ 9) ltac:(lia) ltac:(lia)). lia. Qed.

Lemma read_32k_small d hi :
  0 <= count32 -> ticks hi < 2 ^ 32 -> now d <= hi -> u32 (fst (mm_read d S32K_CR)) = ticks (now d).
Proof.
  intros Hc Hw Hn. rewrite read_32k. pose proof (ticks_mono _ _ Hn). pose proof (now_nonneg d). apply wrapu_small. fold (ticks (now d)).
  assert (0 <= now d * 32768 / 10 ^ 9) by (apply Z.div_pos; lia). unfold ticks in *. lia.
Qed.

(** Waiting for the 32 kHz counter: [s] is the time of the read that ends the loop, and
[p'] a time not long before it when the counter was still too small. *)
Lemma spin_32k target L hi fuel d p :
  0 <= count32 -> ticks hi < 2 ^ 32 -> L + delta <= hi -> target <= ticks L ->
  p <= now d <= p + delta -> ticks p < target -> L - now d < Z.of_nat fuel -> 0 < Z.of_nat fuel ->
  exists s p' d', runs (spin fuel S32K_CR (fun v => v <? target)) d tt d' /\
    now d <= s /\ s < now d' <= s + delta /\ target <= ticks s /\ ticks p' < target /\ s <= p' + delta /\ s <= L + delta /\
    (forall a, plain a = true -> regs d' a = regs d a) /\ (forall a, pads d' a = pads d a) /\
    (timer_runs (regs d) -> phase d' = phase d).
Proof.
  intros Hc Hw HL' Ht. revert d p. induction fuel as [|fuel IH]; intros d p Hp Htp Hf Hf0; [lia|]. cbn [spin].
  assert (p < L) as HpL by (destruct (Z.lt_ge_cases p L); [done|]; pose proof (ticks_mono L p); lia).
  pose proof (read_32k_small d hi Hc Hw ltac:(lia)) as Hv. pose proof (read_time d S32K_CR) as Hrt.
  destruct (mm_read d S32K_CR) as [v d1] eqn:E. cbn in Hv, Hrt.
  assert (runs (readl S32K_CR) d (ticks (now d)) d1) as Hr by (unfold runs, readl; rewrite E; by rewrite Hv).
  assert ((forall a, plain a = true -> regs d1 a = regs d a) /\ (forall a, pads d1 a = pads d a) /\
          (timer_runs (regs d) -> phase d1 = phase d)) as (K1 & K2 & K3).
  { pose proof (read_regs d S32K_CR) as K1. pose proof (read_pads d S32K_CR) as K2. pose proof (read_phase d S32K_CR) as K3.
    rewrite E in K1, K2, K3. done. }
  destruct (Z.ltb_spec (ticks (now d)) target) as [Hlt|Hge].
  - assert (now d < L) as HnL by (destruct (Z.lt_ge_cases (now d) L); [done|]; pose proof (ticks_mono L (now d)); lia).
    destruct (IH d1 (now d)) as (s & p' & d' & Hr' & H1 & H2 & H3 & H4 & H5 & H6 & H7 & H8 & H9); [lia|lia|lia|lia|].
    exists s, p', d'. split; [|repeat split; try done; try lia].
    + eapply runs_bind; [exact Hr|]. cbv beta. by rewrite (proj2 (Z.ltb_lt _ _) Hlt).
    + intros a Ha. by rewrite H7, K1.
    + intros a. by rewrite H8, K2.
    + intros Htr. rewrite H9, K3; [done|done|]. destruct Htr as (R1 & R2 & R3 & R4 & R5). unfold timer_runs. by rewrite !K1 by done.
  - exists (now d), p, d1. split; [|repeat split; try done; lia]. eapply runs_bind; [exact Hr|]. cbv beta.
    by rewrite (proj2 (Z.ltb_ge _ _) Hge).
Qed.
End gauge.

(** Setting a bit, and the two bits of the divider. *)
Lemma set_bit v k : 0 <= v < 2 ^ 32 -> 0 <= k < 32 -> u32 (Z.lor v (BIT k)) = sr_value v k 1 1.
Proof.
  intros Hv Hk. apply Z.bits_inj'. intros i Hi. rewrite wrapu_testbit, sr_value_testbit, Z.lor_spec by lia.
  unfold BIT. rewrite Z.shiftl_1_l, Z.pow2_bits_eqb by lia. destruct (Z.leb_spec k i), (Z.ltb_spec i (k + 1)); cbn [andb].
  - replace i with k by lia. rewrite Z.eqb_refl, orb_true_r, Z.sub_diag, (proj2 (Z.ltb_lt k 32)) by lia. done.
  - rewrite (proj2 (Z.eqb_neq k i)), orb_false_r by lia. destruct (Z.ltb_spec i 32); [done|]. by rewrite (testbit_high v 32 i) by lia.
  - rewrite (proj2 (Z.eqb_neq k i)), orb_false_r, (proj2 (Z.ltb_lt i 32)) by lia. done.
  - lia.
Qed.

Lemma set_divider v : 0 <= v < 2 ^ 32 -> u32 (Z.lor (Z.land v (Z.lnot (BIT 7))) (BIT 6)) = sr_value v 6 2 1.
Proof.
  intros Hv. apply Z.bits_inj'. intros i Hi. rewrite wrapu_testbit, sr_value_testbit, Z.lor_spec, Z.land_spec, Z.lnot_spec by lia.
  unfold BIT. rewrite !Z.shiftl_1_l, !Z.pow2_bits_eqb by lia. destruct (Z.leb_spec 6 i), (Z.ltb_spec i (6 + 2)); cbn [andb].
  - assert (i = 6 \/ i = 7) as [->| ->] by lia; cbn; [by rewrite orb_true_r|by rewrite andb_false_r].
  - rewrite (proj2 (Z.eqb_neq 6 i)), (proj2 (Z.eqb_neq 7 i)), orb_false_r, andb_true_r by lia.
    destruct (Z.ltb_spec i 32); [done|]. by rewrite (testbit_high v 32 i) by lia.
  - rewrite (proj2 (Z.eqb_neq 6 i)), (proj2 (Z.eqb_neq 7 i)), orb_false_r, andb_true_r, (proj2 (Z.ltb_lt i 32)) by lia. done.
  - lia.
Qed.

Lemma set_two_bits v :
  0 <= v < 2 ^ 32 -> u32 (Z.lor (Z.lor v (BIT 0)) (BIT 2)) = sr_value (sr_value v 0 1 1) 2 1 1.
Proof.
  intros Hv. assert (0 <= Z.lor v (BIT 0) < 2 ^ 32) as Hl by (apply lor_range; [lia|done|by cbv]).
  rewrite set_bit, <- (set_bit v 0) by lia. by rewrite wrapu_small.
Qed.

Definition osc_ops : list reg_op :=
  [Sr PRM_CLKSRC_CTRL 6 2 1; Sr CM_CLKSEL_WKUP 0 1 1; Sr CM_ICLKEN_WKUP 0 1 1; Sr CM_ICLKEN_WKUP 2 1 1; Sr CM_FCLKEN_WKUP 0 1 1;
   Put (OMAP34XX_GPT1 + TLDR) 0; Put (OMAP34XX_GPT1 + TCLR) GPT_EN].

Section osc.
Context {D : Type} {HD : Mmio D} (osc delta : Z) (polls : nat) {HL : MmioLaws osc delta polls}.
Context (fuel : nat) (Hwait : LDELAY <= Z.of_nat fuel).
Context (Hosc : In osc [S12M; S13M; S19_2M; S24M; S26M; S38_4M]) (Hdelta : 0 <= delta <= 5000) (Hcount : 0 <= count32).
Abbreviation st := (at_regs osc delta polls).

Lemma modify_then {A} a (f : Z -> Z) l (k : M D A) r p t Q :
  plain a = true -> (0 <= r a < 2 ^ 32 -> forall b, run_ops l r b = upd a (u32 (f (r a))) r b) ->
  tot (st (run_ops l r) p (t + 2 * delta)) k Q ->
  tot (st r p t) (let! v := readl a in do! writel (f v) a in k) Q.
Proof.
  intros Ha Hl Hk. eapply tot_bind; [by apply readl_plain|]. intros v. apply tot_pure. intros [-> Hr].
  eapply tot_bind; [apply does_writel|]. intros x. eapply tot_conseq; [exact Hk| |done]. intros d Hd.
  replace (t + 2 * delta) with (t + delta + 1 * delta) by lia. eapply at_regs_ext; [|exact Hd]. intros b _. cbn. by rewrite Hl.
Qed.

(** The measurement. *)
Definition measure : M D Z :=
  let! v := readl S32K_CR in
  let start := u32 (20 + v) in
  do! spin fuel S32K_CR (fun v => v <? start) in
  let! cstart := readl (OMAP34XX_GPT1 + TCRR) in
  do! spin fuel S32K_CR (fun v => v <? u32 (start + 20)) in
  let! cend := readl (OMAP34XX_GPT1 + TCRR) in
  mret (classify (u32 (cend - cstart))).

Lemma ticks_later t n : 0 <= n -> ticks osc delta polls (t + n * 610352) >= ticks osc delta polls t + n * 20.
Proof.
  intros Hn. unfold ticks. pose proof (Z.div_le_mono (t * 32768 + (n * 20) * 10 ^ 9) ((t + n * 610352) * 32768) (10 ^ 9) ltac:(lia) ltac:(lia)) as Hm.
  rewrite Z.div_add in Hm by lia. lia.
Qed.

Lemma readl_at d a : runs (readl a) d (u32 (fst (mm_read d a))) (snd (mm_read d a)).
Proof. unfold runs, readl. by destruct (mm_read d a). Qed.

Lemma timer_runs_ext (d d' : D) : (forall a, plain a = true -> regs d' a = regs d a) -> timer_runs (regs d) -> timer_runs (regs d').
Proof. intros K (R1 & R2 & R3 & R4 & R5). unfold timer_runs. by rewrite !K by done. Qed.

Lemma ticks_bounds x t : (ticks osc delta polls t < x -> t * 32768 < (x - count32) * 10 ^ 9) /\
  (x <= ticks osc delta polls t -> (x - count32) * 10 ^ 9 <= t * 32768).
Proof.
  unfold ticks. pose proof (Z.div_mod (t * 32768) (10 ^ 9) ltac:(lia)). pose proof (Z.mod_pos_bound (t * 32768) (10 ^ 9) ltac:(lia)). lia.
Qed.

Lemma ticks_soon t : ticks osc delta polls (t + 620352) <= ticks osc delta polls t + 21.
Proof.
  unfold ticks. pose proof (Z.div_mod (t * 32768) (10 ^ 9) ltac:(lia)). pose proof (Z.mod_pos_bound (t * 32768) (10 ^ 9) ltac:(lia)).
  pose proof (Z.div_mod ((t + 620352) * 32768) (10 ^ 9) ltac:(lia)). pose proof (Z.mod_pos_bound ((t + 620352) * 32768) (10 ^ 9) ltac:(lia)).
  lia.
Qed.

Lemma timer_difference phi x y : 0 <= y - x < 2 ^ 32 -> u32 (u32 (phi + y) - u32 (phi + x)) = y - x.
Proof.
  intros Hr. unfold wrapu. rewrite <- Zminus_mod. replace (phi + y - (phi + x)) with (y - x) by lia. by apply Z.mod_small.
Qed.

Lemma measure_runs d :
  timer_runs (regs d) -> ticks osc delta polls (now d + 1300000) < 2 ^ 32 ->
  exists d', runs measure d osc d' /\ now d' <= now d + 1300000 /\
    (forall a, plain a = true -> regs d' a = regs d a) /\ (forall a, pads d' a = pads d a).
Proof.
  intros Htr Hw. set (t := now d) in *. pose proof (now_nonneg d) as Ht0. fold t in Ht0.
  assert (0 <= ticks osc delta polls t) as Hk0 by (unfold ticks; assert (0 <= t * 32768 / 10 ^ 9) by (apply Z.div_pos; lia); lia).
  pose proof (ticks_later t 1 ltac:(lia)) as Hl1. rewrite Z.mul_1_l in Hl1. pose proof (ticks_later t 2 ltac:(lia)) as Hl2.
  pose proof (ticks_mono osc delta polls (t + 2 * 610352) (t + 1300000) ltac:(lia)) as Hl3.
  pose proof (read_32k_small osc delta polls d (t + 1300000) Hcount Hw ltac:(lia)) as Hv. fold t in Hv.
  pose proof (read_time d S32K_CR) as T1. fold t in T1. set (d1 := snd (mm_read d S32K_CR)) in *.
  destruct (spin_32k osc delta polls (20 + ticks osc delta polls t) (t + 610352) (t + 1300000) fuel d1 t Hcount Hw)
    as (s1 & p1 & d2 & R2 & A1 & A2 & A3 & A4 & A5 & A6 & K1 & P1 & F1); [unfold LDELAY in Hwait; lia..|].
  assert (forall a, plain a = true -> regs d2 a = regs d a) as G2 by (intros a Ha; rewrite K1 by done; by apply read_regs).
  pose proof (timer_runs_ext d d2 G2 Htr) as Htr2.
  pose proof (read_time d2 (OMAP34XX_GPT1 + TCRR)) as T2. set (d3 := snd (mm_read d2 (OMAP34XX_GPT1 + TCRR))) in *.
  assert (forall a, plain a = true -> regs d3 a = regs d a) as G3 by (intros a Ha; unfold d3; rewrite read_regs by done; by apply G2).
  pose proof (ticks_soon t) as Hs. assert (now d2 <= t + 620352) as Hd2 by (clear - Hdelta A2 A6; lia).
  pose proof (ticks_mono osc delta polls (now d2) (t + 620352) Hd2) as Hs2.
  destruct (spin_32k osc delta polls (40 + ticks osc delta polls t) (t + 2 * 610352) (t + 1300000) fuel d3 (now d2) Hcount Hw)
    as (s2 & p2 & d4 & R4 & B1 & B2 & B3 & B4 & B5 & B6 & K4 & P4 & F4); [unfold LDELAY in Hwait; lia..|].
  assert (forall a, plain a = true -> regs d4 a = regs d a) as G4 by (intros a Ha; rewrite K4 by done; by apply G3).
  pose proof (timer_runs_ext d d4 G4 Htr) as Htr4.
  pose proof (read_time d4 (OMAP34XX_GPT1 + TCRR)) as T5. exists (snd (mm_read d4 (OMAP34XX_GPT1 + TCRR))).
  destruct (gauge_arith osc delta (now d2) (now d4) Hosc Hdelta (now_nonneg d2)) as [Hrange Hclass].
  { pose proof (proj1 (ticks_bounds (20 + ticks osc delta polls t) p1) A4). pose proof (proj2 (ticks_bounds (20 + ticks osc delta polls t) s1) A3).
    pose proof (proj1 (ticks_bounds (40 + ticks osc delta polls t) p2) B4). pose proof (proj2 (ticks_bounds (40 + ticks osc delta polls t) s2) B3). lia. }
  split; [|split; [lia|split]].
  - unfold measure. eapply runs_bind; [apply readl_at|]. cbv beta zeta. rewrite Hv, (wrapu_small 32 (20 + _)) by lia.
    eapply runs_bind; [exact R2|]. cbv beta. eapply runs_bind; [apply readl_at|]. cbv beta.
    replace (u32 (20 + ticks osc delta polls t + 20)) with (40 + ticks osc delta polls t) by (rewrite wrapu_small by lia; lia).
    eapply runs_bind; [exact R4|]. cbv beta. eapply runs_bind; [apply readl_at|]. cbv beta.
    rewrite (read_timer d4 Htr4), (read_timer d2 Htr2), F4 by by apply (timer_runs_ext d).
    unfold d3. rewrite (read_phase d2 _ Htr2), timer_difference, Hclass by done. apply runs_ret.
  - intros a Ha. rewrite read_regs by done. by apply G4.
  - intros a. rewrite read_pads, P4. unfold d3. rewrite read_pads, P1. apply read_pads.
Qed.

(** The clock is recognised. *)
Lemma get_osc_tot r p t :
  (forall a, 0 <= r a < 2 ^ 32) -> ticks osc delta polls (t + 10 * delta + 1300000) < 2 ^ 32 ->
  tot (st r p t) (get_osc_clk_speed fuel)
    (fun v d => v = osc /\ st (run_ops osc_ops r) p (t + 10 * delta + 1300000) d).
Proof.
  intros Hr Hw. unfold get_osc_clk_speed.
  apply (modify_then PRM_CLKSRC_CTRL (fun v => Z.lor (Z.land v (Z.lnot (BIT 7))) (BIT 6)) [Sr PRM_CLKSRC_CTRL 6 2 1]); [done| |].
  { intros H b. cbn. by rewrite set_divider. }
  apply (modify_then CM_CLKSEL_WKUP (fun v => Z.lor v (BIT 0)) [Sr CM_CLKSEL_WKUP 0 1 1]); [done| |].
  { intros H b. cbn [run_ops foldl run_op]. by rewrite (set_bit _ 0). }
  apply (modify_then CM_ICLKEN_WKUP (fun v => Z.lor (Z.lor v (BIT 0)) (BIT 2)) [Sr CM_ICLKEN_WKUP 0 1 1; Sr CM_ICLKEN_WKUP 2 1 1]); [done| |].
  { intros H b. set (q := run_ops _ _) in *. cbn [run_ops foldl run_op]. rewrite set_two_bits by done. unfold upd.
    rewrite Z.eqb_refl. by destruct (b =? CM_ICLKEN_WKUP). }
  apply (modify_then CM_FCLKEN_WKUP (fun v => Z.lor v (BIT 0)) [Sr CM_FCLKEN_WKUP 0 1 1]); [done| |].
  { intros H b. cbn [run_ops foldl run_op]. by rewrite (set_bit _ 0). }
  eapply tot_bind; [apply does_writel|]. intros ?. eapply tot_bind; [apply does_writel|]. intros ? d Hd.
  change (run_ops _ _) with (run_ops osc_ops r) in Hd.
  assert (now d <= t + 10 * delta) as Hn by (destruct Hd as (_ & _ & Hn); lia).
  assert (now d + 1300000 <= t + 10 * delta + 1300000) as Hn2 by lia. apply (ticks_mono osc delta polls) in Hn2.
  destruct (measure_runs d) as (d' & Hm & Hn' & K1 & K2); [|lia|].
  - destruct Hd as (H1 & _). unfold timer_runs. rewrite !H1 by done. split; [done|].
    assert (Forall (fun o => op_ok o = true) osc_ops) as Hok by by repeat constructor.
    repeat split; by apply known_sound.
  - exists osc, d'. split; [exact Hm|]. split; [done|]. destruct Hd as (H1 & H2 & _). repeat split; [..|lia].
    + intros b Hb. by rewrite K1, H1.
    + intros b. by rewrite K2, H2.
Qed.
End osc.

(** ** [prcm_init] *)

(** The entry of the tables that a setting selects. *)
Definition clk_index (sel : Z) : Z := if 2 <? sel then sel / 2 else sel.
Definition entry (t : list dpll_param) (i : Z) : dpll_param := nth (Z.to_nat i) t (mk_dpll 0 0 0 0).

Definition program_ops (sel sil : Z) : list reg_op :=
  [Sr PRM_CLKSEL 0 3 sel; Sr PRM_CLKSRC_CTRL 6 2 (if 2 <? sel then 2 else 1); Sr CM_CLKEN_PLL_MPU 0 3 PLL_LOW_POWER_BYPASS] ++
  core_ops (entry core_dpll_param (2 * clk_index sel + sil)) ++ per_ops (entry per_dpll_param (clk_index sel)) ++
  mpu_ops (entry mpu_dpll_param (2 * clk_index sel + sil)) ++ [Sr CM_CLKSEL_PER 0 8 0xff; Sr CM_CLKSEL_WKUP 0 1 1].
Definition prcm_ops (osc sil : Z) : list reg_op := osc_ops ++ program_ops (get_sys_clkin_sel osc 0) sil.

Section prcm.
Context {D : Type} {HD : Mmio D} (osc delta : Z) (polls : nat) {HL : MmioLaws osc delta polls}.
Context (fuel : nat) (Hwait : LDELAY <= Z.of_nat fuel) (Hpolls : (polls < fuel)%nat).
Context (Hosc : In osc [S12M; S13M; S19_2M; S26M; S38_4M]) (Hdelta : 0 <= delta <= 5000) (Hcount : 0 <= count32).
Abbreviation st := (at_regs osc delta polls).
Abbreviation dd := (does osc delta polls).

Lemma does_table {A} t i (k : dpll_param -> M D A) l n :
  0 <= i < zlen t -> dd (k (entry t i)) l n -> dd (let! p := table_at t i in k p) l n.
Proof.
  intros Hi Hk r p u. unfold table_at. rewrite (proj2 (Z.ltb_ge i 0)) by lia.
  destruct (t !! Z.to_nat i) as [q|] eqn:E; [|apply lookup_ge_None in E; unfold zlen in Hi; lia].
  assert (entry t i = q) as Hq by (by apply nth_lookup_Some). rewrite Hq in Hk. apply Hk.
Qed.

Lemma does_value {A B} (m : M D unit) (v : A) (k : A -> M D B) l1 l2 n1 n2 :
  dd m l1 n1 -> dd (k v) l2 n2 -> dd (let! x := (do! m in mret v) in k x) (l1 ++ l2) (n1 + n2).
Proof.
  intros Hm Hk r p t d Hd. destruct (does_bind osc delta polls m (fun _ => k v) l1 l2 n1 n2 Hm (fun _ => Hk) r p t d Hd) as (x & d' & Hr & Hd').
  exists x, d'. split; [|done]. unfold runs, mbind in *. destruct (m d) as [[u d1]|]; [|done]. exact Hr.
Qed.

Lemma does_program sel :
  0 <= sel <= 4 -> dd (prcm_program fuel sel) (program_ops sel (get_cpu_rev - 1)) (6 * LDELAY + 200).
Proof.
  intros Hs. unfold prcm_program.
  assert (0 <= clk_index sel <= 2) as Hi.
  { unfold clk_index. destruct (Z.ltb_spec 2 sel); [|lia]. assert (sel = 3 \/ sel = 4) as [->| ->] by lia; by cbv. }
  assert (0 <= get_cpu_rev - 1 <= 1) as Hsil by (unfold get_cpu_rev; by destruct (_ =? _)).
  pose proof (does_core osc delta polls fuel Hwait). pose proof (does_per osc delta polls fuel Hwait).
  pose proof (does_mpu osc delta polls fuel Hwait). unfold program_ops.
  assert (zlen core_dpll_param = 10 /\ zlen per_dpll_param = 5 /\ zlen mpu_dpll_param = 10) as (E1 & E2 & E3) by done.
  unfold clk_index in *. destruct (2 <? sel); eapply does_eq.
  1, 4: eapply does_bind; [does_atom|intros ?]; (eapply does_value; [does_atom|]); cbv zeta;
    (eapply does_bind; [does_atom|intros ?]); (eapply does_bind; [does_atom|intros ?]);
    do 3 (apply does_table; [lia|]; eapply does_bind; [solve [eauto]|intros ?]); does_seq.
  1, 3: reflexivity.
  all: unfold LDELAY; lia.
Qed.

Lemma prcm_tot junk r p t :
  (forall a, 0 <= r a < 2 ^ 32) -> ticks osc delta polls (t + 10 * delta + 1300000) < 2 ^ 32 ->
  tot (st r p t) (prcm_init fuel junk) (fun _ d => exists t', st (run_ops (prcm_ops osc (get_cpu_rev - 1)) r) p t' d).
Proof.
  intros Hr Hw. unfold prcm_init. eapply tot_bind.
  { apply (get_osc_tot osc delta polls fuel Hwait); [cbn in *; tauto|done..]. }
  intros v. apply tot_pure. intros ->.
  assert (get_sys_clkin_sel osc junk = get_sys_clkin_sel osc 0 /\ 0 <= get_sys_clkin_sel osc 0 <= 4) as [-> Hs].
  { cbn in Hosc. by destruct Hosc as [<-|[<-|[<-|[<-|[<-|[]]]]]]. }
  eapply tot_conseq; [by apply does_program|done|]. intros x d Hd. eexists. unfold prcm_ops, run_ops in *. rewrite foldl_app. exact Hd.
Qed.
End prcm.

(** ** [s_init] *)
Definition watchdog_ops : list reg_op :=
  [Sr CM_FCLKEN_WKUP 5 1 1; Sr CM_ICLKEN_WKUP 5 1 1; Put (WD2_BASE + WSPR) WD_UNLOCK1; Put (WD2_BASE + WSPR) WD_UNLOCK2].
Definition secure_ops : list reg_op :=
  [Put (PM_RT_APE_BASE_ADDR_ARM + 0x68) UNLOCK_1; Put (PM_RT_APE_BASE_ADDR_ARM + 0x50) UNLOCK_1;
   Put (PM_RT_APE_BASE_ADDR_ARM + 0x58) UNLOCK_1; Put (PM_RT_APE_BASE_ADDR_ARM + 0x60) UNLOCK_2;
   Put (PM_GPMC_BASE_ADDR_ARM + 0x48) UNLOCK_3; Put (PM_GPMC_BASE_ADDR_ARM + 0x50) UNLOCK_3;
   Put (PM_GPMC_BASE_ADDR_ARM + 0x58) UNLOCK_3; Put (PM_OCM_RAM_BASE_ADDR_ARM + 0x48) UNLOCK_3;
   Put (PM_OCM_RAM_BASE_ADDR_ARM + 0x50) UNLOCK_3; Put (PM_OCM_RAM_BASE_ADDR_ARM + 0x58) UNLOCK_3;
   Put (PM_OCM_RAM_BASE_ADDR_ARM + 0x80) UNLOCK_2; Put SMS_RG_ATT0 UNLOCK_1].
(** For a value of [CONTROL_STATUS]. *)
Definition unlock_ops (status : Z) : list reg_op :=
  if Z.shiftr (Z.land status (Z.lor (Z.lor (BIT 8) (BIT 9)) (BIT 10))) 8 =? GP_DEVICE then secure_ops else [].
Definition peripheral_ops : list reg_op :=
  [Sr CM_CLKSEL_PER 0 1 1; Sr CM_ICLKEN_PER 3 1 1; Sr CM_FCLKEN_PER 3 1 1; Sr CM_FCLKEN1_CORE 13 1 1; Sr CM_ICLKEN1_CORE 13 1 1;
   Sr CM_FCLKEN1_CORE 14 1 1; Sr CM_ICLKEN1_CORE 14 1 1; Sr CM_FCLKEN_PER 11 1 1; Sr CM_ICLKEN_PER 11 1 1;
   Sr CM_FCLKEN1_CORE 24 1 1; Sr CM_ICLKEN1_CORE 24 1 1; Sr CM_FCLKEN1_CORE 25 1 1; Sr CM_ICLKEN1_CORE 25 1 1].
Definition control_ops : list reg_op :=
  [Sr (OMAP34XX_CTRL_BASE + 0x588) 15 15 1; Sr (OMAP34XX_CTRL_BASE + 0x588) 14 14 1; Sr (OMAP34XX_CTRL_BASE + 0x59C) 0 4 0xF;
   Sr (OMAP34XX_CTRL_BASE + 0x59C) 8 10 7; Sr (OMAP34XX_CTRL_BASE + 0x598) 1 1 1].
Definition late_ops : list reg_op := peripheral_ops ++ control_ops ++ emif_ops.
Definition s_init_ops (osc sil status : Z) : list reg_op :=
  watchdog_ops ++ unlock_ops status ++ prcm_ops osc sil ++ late_ops.

Definition run_pads (l : list (Z * Z)) (p : Z -> Z) : Z -> Z := foldl (fun p '(o, v) => upd (OMAP34XX_CTRL_BASE + o) (u16 v) p) p l.

Section init.
Context {D : Type} {HD : Mmio D} (osc delta : Z) (polls : nat) {HL : MmioLaws osc delta polls}.
Context (fuel : nat) (Hwait : LDELAY <= Z.of_nat fuel) (Hpolls : (polls < fuel)%nat).
Abbreviation st := (at_regs osc delta polls).
Abbreviation dd := (does osc delta polls).

Lemma does_watchdog : dd (watchdog_init fuel) watchdog_ops (Z.of_nat polls + 20).
Proof.
  assert (dd (wait_for_command_complete fuel WD2_BASE) [] (Z.of_nat polls + 1)).
  { apply does_spin; [done|]. intros d. destruct (watchdog_law d) as (k & Hk & E). exists k. by rewrite E. }
  assert (5 <= Z.of_nat fuel) by (unfold LDELAY in Hwait; lia). unfold watchdog_init. does_list.
Qed.

Lemma does_secure : dd secure_unlock secure_ops 12.
Proof. unfold secure_unlock. does_list. Qed.

Lemma unlock_tot r p t :
  0 <= delta -> tot (st r p t) try_unlock_memory (fun _ => st (run_ops (unlock_ops (r CONTROL_STATUS)) r) p (t + 13 * delta)).
Proof.
  intros Hd. unfold try_unlock_memory, get_device_type. intros d Hst. pose proof Hst as (H1 & _).
  set (d1 := snd (mm_read d CONTROL_STATUS)). assert (st r p (t + delta) d1) as Hst1 by by apply at_regs_read.
  assert (u32 (fst (mm_read d CONTROL_STATUS)) = r CONTROL_STATUS) as Ev by (rewrite read_plain, H1; done).
  assert (runs (readl CONTROL_STATUS) d (r CONTROL_STATUS) d1) as Hr by (rewrite <- Ev; apply readl_at).
  unfold unlock_ops. destruct (_ =? GP_DEVICE) eqn:E.
  - destruct (does_secure r p (t + delta) d1 Hst1) as ([] & d' & Hs & Hst'). exists tt, d'.
    replace (t + 13 * delta) with (t + delta + 12 * delta) by lia. split; [|done].
    eapply runs_bind; [eapply runs_bind; [exact Hr|apply runs_ret]|]. cbv beta. by rewrite E.
  - exists tt, d1. split; [|destruct Hst1 as (? & ? & ?); repeat split; [done|done|lia]].
    eapply runs_bind; [eapply runs_bind; [exact Hr|apply runs_ret]|]. cbv beta. by rewrite E.
Qed.

Lemma mux_tot l r p t :
  forallb (fun '(o, _) => pad_area (OMAP34XX_CTRL_BASE + o)) l = true ->
  tot (st r p t) (mux_all l) (fun _ => st r (run_pads l p) (t + zlen l * delta)).
Proof using HL.
  clear fuel Hwait Hpolls.
  revert p t. induction l as [|[o v] l IH]; intros p t Hl; cbn [mux_all].
  - apply tot_ret. intros d Hd. cbn. by rewrite Z.mul_0_l, Z.add_0_r.
  - cbn in Hl. apply andb_true_iff in Hl as [Ho Hl]. intros d (H1 & H2 & H3).
    destruct (IH (upd (OMAP34XX_CTRL_BASE + o) (u16 v) p) (t + delta) Hl (mm_write16 d (OMAP34XX_CTRL_BASE + o) (u16 v)))
      as (x & d' & Hr & Hd').
    + pose proof (write16_time d (OMAP34XX_CTRL_BASE + o) (u16 v)). repeat split; [..|lia].
      * intros a Ha. by rewrite write16_regs, H1.
      * intros a. rewrite write16_pads. unfold upd. by destruct (_ =? _).
    + exists x, d'. split; [by eapply runs_bind|]. cbn [run_pads foldl]. rewrite zlen_cons.
      by replace (t + (1 + zlen l) * delta) with (t + delta + zlen l * delta) by lia.
Qed.

Lemma does_late :
  dd (do! per_clocks_enable in
      do! sr32 (OMAP34XX_CTRL_BASE + 0x588) 15 15 0x1 in
      do! sr32 (OMAP34XX_CTRL_BASE + 0x588) 14 14 0x1 in
      do! sr32 (OMAP34XX_CTRL_BASE + 0x59C) 0 4 0xF in
      do! sr32 (OMAP34XX_CTRL_BASE + 0x59C) 8 10 0x7 in
      do! sr32 (OMAP34XX_CTRL_BASE + 0x598) 1 1 0x1 in
      config_emif4_ddr fuel) late_ops (2 * Z.of_nat polls + 100).
Proof.
  assert (dd per_clocks_enable peripheral_ops 26) by (unfold per_clocks_enable; does_list).
  pose proof (does_emif osc delta polls fuel Hpolls). unfold late_ops, control_ops. does_list.
Qed.

Context (Hosc : In osc [S12M; S13M; S19_2M; S26M; S38_4M]) (Hdelta : 0 <= delta <= 5000) (Hcount : 0 <= count32).

Lemma s_init_tot junk r p t :
  (forall a, 0 <= r a < 2 ^ 32) -> ticks osc delta polls (t + (Z.of_nat polls + 200) * delta + 1300000) < 2 ^ 32 ->
  tot (st r p t) (s_init fuel junk)
    (fun _ d => exists t', st (run_ops (s_init_ops osc (get_cpu_rev - 1) (r CONTROL_STATUS)) r) (run_pads MUX_DEFAULT p) t' d).
Proof.
  intros Hr Hw. unfold s_init. eapply tot_bind; [apply does_watchdog|]. intros ?.
  eapply tot_bind; [apply unlock_tot; lia|]. intros ?. set (r1 := run_ops watchdog_ops r).
  change (r1 CONTROL_STATUS) with (r CONTROL_STATUS). set (r2 := run_ops (unlock_ops (r CONTROL_STATUS)) r1).
  eapply tot_bind; [by apply mux_tot|]. intros ?. change (zlen MUX_DEFAULT) with 119.
  assert (forall a, 0 <= r2 a < 2 ^ 32) as Hr2.
  { apply run_ops_range; [unfold unlock_ops; destruct (_ =? _); by repeat constructor|].
    apply run_ops_range; [by repeat constructor|done]. }
  eapply tot_bind.
  { apply (prcm_tot osc delta polls fuel Hwait Hpolls Hosc Hdelta Hcount junk); [done|].
    eapply Z.le_lt_trans; [|exact Hw]. apply ticks_mono. nia. }
  intros ? d (t' & Hd). destruct (does_late _ _ _ d Hd) as (x & d' & Hrun & Hd').
  exists x, d'. split; [exact Hrun|]. eexists. unfold s_init_ops, run_ops in *. rewrite !foldl_app. exact Hd'.
Qed.
End init.

(** ** What is set up *)

(** The fields of a value, up to the next one: register, position, width, content. *)
Fixpoint settings_of (a : Z) (l : list (Z * Z)) : list (Z * Z * Z * Z) :=
  match l with
  | [] => []
  | (v, s) :: l => (a, s, match l with (_, s') :: _ => s' - s | [] => 32 - s end, v) :: settings_of a l
  end.

(** The memory controller, and the shadow registers of its timing. *)
Definition memory_settings : list (Z * Z * Z * Z) :=
  settings_of EMIF4_DDR_PHYCTL1 emif_phyctl1 ++ settings_of EMIF4_DDR_PHYCTL1_SHDW emif_phyctl1 ++
  settings_of EMIF4_DDR_PHYCTL2 emif_phyctl2 ++ settings_of EMIF4_SDRAM_TIM1 emif_tim1 ++
  settings_of EMIF4_SDRAM_TIM1_SHDW emif_tim1 ++ settings_of EMIF4_SDRAM_TIM2 emif_tim2 ++
  settings_of EMIF4_SDRAM_TIM2_SHDW emif_tim2 ++ settings_of EMIF4_SDRAM_TIM3 emif_tim3 ++
  settings_of EMIF4_SDRAM_TIM3_SHDW emif_tim3 ++ settings_of EMIF4_PWR_MGT_CTRL emif_pwr ++
  settings_of EMIF4_PWR_MGT_CTRL_SHDW emif_pwr ++ settings_of EMIF4_SDRAM_RFCR emif_rfcr ++
  settings_of EMIF4_SDRAM_RFCR_SHDW emif_rfcr ++ settings_of EMIF4_SDRAM_CFG emif_cfg.

(** The clocks of the timer, the three ports, the two card slots and the Ethernet
controller, and its reset. *)
Definition peripheral_settings : list (Z * Z * Z * Z) :=
  [(CM_CLKSEL_PER, 0, 1, 1); (CM_ICLKEN_PER, 3, 1, 1); (CM_FCLKEN_PER, 3, 1, 1);
   (CM_FCLKEN1_CORE, 13, 1, 1); (CM_FCLKEN1_CORE, 14, 1, 1); (CM_ICLKEN1_CORE, 13, 1, 1); (CM_ICLKEN1_CORE, 14, 1, 1);
   (CM_FCLKEN_PER, 11, 1, 1); (CM_ICLKEN_PER, 11, 1, 1);
   (CM_FCLKEN1_CORE, 24, 1, 1); (CM_FCLKEN1_CORE, 25, 1, 1); (CM_ICLKEN1_CORE, 24, 1, 1); (CM_ICLKEN1_CORE, 25, 1, 1);
   (CM_FCLKEN_WKUP, 5, 1, 1); (CM_ICLKEN_WKUP, 5, 1, 1); (OMAP34XX_CTRL_BASE + 0x59C, 0, 4, 0xF);
   (OMAP34XX_CTRL_BASE + 0x59C, 8, 3, 7); (OMAP34XX_CTRL_BASE + 0x598, 1, 1, 1); (OMAP34XX_CTRL_BASE + 0x588, 14, 1, 1)].

Definition holds (r : Z -> Z) (x : Z * Z * Z * Z) : Prop := let '(a, s, n, v) := x in bitfield (r a) s n = v.

Definition known_is (ops : list reg_op) (x : Z * Z * Z * Z) : bool :=
  let '(a, s, n, v) := x in
  plain a && (0 <=? s) && (0 <=? n) && match known ops a s n with Some w => w =? v | None => false end.

Lemma settings_hold ops r l :
  Forall (fun o => op_ok o = true) ops -> (forall a, 0 <= r a < 2 ^ 32) -> forallb (known_is (rev ops)) l = true ->
  Forall (fun x => plain (fst (fst (fst x))) = true /\ holds (run_ops ops r) x) l.
Proof.
  intros Hok Hr Hl. rewrite forallb_forall in Hl. apply List.Forall_forall. intros [[[a s] n] v] Hin. specialize (Hl _ Hin). cbn in *.
  rewrite !andb_true_iff, !Z.leb_le in Hl. destruct Hl as (((Ha & Hs) & Hn) & Hk). split; [done|].
  destruct (known (rev ops) a s n) as [w|] eqn:E; [|done]. apply Z.eqb_eq in Hk as ->. by apply known_sound.
Qed.

(** The frequencies behind the dividers: 600 MHz for the processor, 332 MHz and its
half for memory and interconnect, and 96 MHz for the peripherals, half of which feeds
the serial port; all three loops locked. *)
Definition clock_tree (osc : Z) (r : Z -> Z) : Prop :=
  let sys := if bitfield (r PRM_CLKSRC_CTRL) 6 2 =? 2 then osc / 2 else osc in
  sys * bitfield (r CM_CLKSEL1_PLL_MPU) 8 11 = 600000000 * (bitfield (r CM_CLKSEL1_PLL_MPU) 0 7 + 1) /\
  bitfield (r CM_CLKSEL2_PLL_MPU) 0 5 = 1 /\ bitfield (r CM_CLKEN_PLL_MPU) 0 3 = PLL_LOCK /\
  sys * bitfield (r CM_CLKSEL1_PLL) 16 11 = 332000000 * (bitfield (r CM_CLKSEL1_PLL) 8 7 + 1) /\
  bitfield (r CM_CLKSEL1_PLL) 27 2 = 1 /\ bitfield (r CM_CLKSEL_CORE) 0 2 = 2 /\ bitfield (r CM_CLKEN_PLL) 0 3 = PLL_LOCK /\
  2 * (sys * bitfield (r CM_CLKSEL2_PLL) 8 11) =
    2 * CFG_NS16550_CLK * bitfield (r CM_CLKSEL3_PLL) 0 5 * (bitfield (r CM_CLKSEL2_PLL) 0 7 + 1) /\
  bitfield (r CM_CLKEN_PLL) 16 3 = PLL_LOCK.

Lemma run_pads_in l p o v :
  NoDup (fst <$> l) -> In (o, v) l -> run_pads l p (OMAP34XX_CTRL_BASE + o) = u16 v.
Proof.
  assert (forall l q, ~ In o (fst <$> l) -> run_pads l q (OMAP34XX_CTRL_BASE + o) = q (OMAP34XX_CTRL_BASE + o)) as Hout.
  { clear l p. induction l as [|[o' v'] l IH]; intros q Hn; [done|]. cbn in Hn. unfold run_pads in *. cbn [foldl]. rewrite IH by tauto. unfold upd.
    by rewrite (proj2 (Z.eqb_neq _ _)) by lia. }
  revert p. induction l as [|[o' v'] l IH]; intros p Hnd Hin; [done|]. cbn [fmap list_fmap In fst] in *. apply NoDup_cons in Hnd as [Hn Hnd].
  unfold run_pads in *. cbn [foldl].
  destruct Hin as [[= -> ->]|Hin]; [|by apply IH]. rewrite Hout by (rewrite <- list_elem_of_In; done). unfold upd. by rewrite Z.eqb_refl.
Qed.

(** Every input clock, on general purpose devices and on others. *)
Ltac each_board Ho :=
  unfold s_init_ops, unlock_ops; destruct (_ =? GP_DEVICE); cbn in Ho; destruct Ho as [<-|[<-|[<-|[<-|[<-|[]]]]]].

Section theorems.
Context {D : Type} {HD : Mmio D} (osc delta : Z) (polls : nat) {HL : MmioLaws osc delta polls}.

(** From any state. *)
Lemma s_init_runs fuel junk d :
  LDELAY <= Z.of_nat fuel -> (polls < fuel)%nat -> In osc [S12M; S13M; S19_2M; S26M; S38_4M] -> 0 <= delta <= 5000 ->
  0 <= count32 -> ticks osc delta polls (now d + (Z.of_nat polls + 200) * delta + 1300000) < 2 ^ 32 ->
  exists d', runs (s_init fuel junk) d tt d' /\
    (forall a, plain a = true -> regs d' a = run_ops (s_init_ops osc (get_cpu_rev - 1) (regs d CONTROL_STATUS)) (regs d) a) /\
    (forall a, pads d' a = run_pads MUX_DEFAULT (pads d) a).
Proof.
  intros Hf Hp Ho Hd Hc Hw.
  destruct (s_init_tot osc delta polls fuel Hf Hp Ho Hd Hc junk (regs d) (pads d) (now d) (regs_range d) Hw d) as ([] & d' & Hr & t' & H1 & H2 & _);
    [by repeat split|]. by exists d'.
Qed.

Lemma s_init_ops_ok sil status : In osc [S12M; S13M; S19_2M; S26M; S38_4M] -> 0 <= sil <= 1 ->
  Forall (fun o => op_ok o = true) (s_init_ops osc sil status).
Proof.
  intros Ho Hs. apply List.Forall_forall, forallb_forall.
  assert (sil = 0 \/ sil = 1) as [->| ->] by lia; each_board Ho; by vm_compute.
Qed.

(** C15. The start of the board.  With any of five input clocks, whatever the registers
held before and whatever the variable [sys_clkin_sel] did, [s_init] ends; every pin of
the table has its configuration, every timing and geometry field of the memory
controller and of its shadow registers its value, and the clocks of the peripherals
the boot uses are on. *)
Theorem s_init_sets_up fuel junk d :
  LDELAY <= Z.of_nat fuel -> (polls < fuel)%nat -> In osc [S12M; S13M; S19_2M; S26M; S38_4M] -> 0 <= delta <= 5000 ->
  0 <= count32 -> ticks osc delta polls (now d + (Z.of_nat polls + 200) * delta + 1300000) < 2 ^ 32 ->
  exists d', runs (s_init fuel junk) d tt d' /\
    (forall o v, In (o, v) MUX_DEFAULT -> pads d' (OMAP34XX_CTRL_BASE + o) = v) /\
    Forall (holds (regs d')) (memory_settings ++ peripheral_settings).
Proof.
  intros Hf Hp Ho Hd Hc Hw. destruct (s_init_runs fuel junk d Hf Hp Ho Hd Hc Hw) as (d' & Hr & H1 & H2).
  exists d'. split; [done|]. split.
  - intros o v Hin. rewrite H2, (run_pads_in MUX_DEFAULT (pads d) o v); [|by apply (bool_decide_unpack (NoDup _))|done].
    assert (forallb (fun '(_, v) => u16 v =? v) MUX_DEFAULT = true) as Hv by by vm_compute. rewrite forallb_forall in Hv.
    by apply Z.eqb_eq, (Hv (o, v)).
  - assert (0 <= get_cpu_rev - 1 <= 1) as Hsil by (unfold get_cpu_rev; by destruct (_ =? _)).
    pose proof (settings_hold _ (regs d) (memory_settings ++ peripheral_settings)
      (s_init_ops_ok (get_cpu_rev - 1) (regs d CONTROL_STATUS) Ho Hsil) (regs_range d)) as Hs.
    eapply Forall_impl; [apply Hs|].
    + assert (get_cpu_rev - 1 = 0 \/ get_cpu_rev - 1 = 1) as [->| ->] by lia; each_board Ho; by vm_compute.
    + intros [[[a s] n] v] [Ha Hh]. cbn in *. by rewrite H1.
Qed.

(** C30. The clocks.  With any of the five input clocks, which [s_init] finds out by
counting it against the 32 kHz clock, the current silicon ends up with the processor
at 600 MHz, the core at 332 MHz and the peripherals at 96 MHz, so that the serial port
is fed the 48 MHz its driver divides. *)
Theorem s_init_clocks fuel junk d :
  LDELAY <= Z.of_nat fuel -> (polls < fuel)%nat -> In osc [S12M; S13M; S19_2M; S26M; S38_4M] -> 0 <= delta <= 5000 ->
  0 <= count32 -> ticks osc delta polls (now d + (Z.of_nat polls + 200) * delta + 1300000) < 2 ^ 32 ->
  get_cpu_rev = CPU_3430_ES2 ->
  exists d', runs (s_init fuel junk) d tt d' /\ clock_tree osc (regs d').
Proof.
  intros Hf Hp Ho Hd Hc Hw Hrev. destruct (s_init_runs fuel junk d Hf Hp Ho Hd Hc Hw) as (d' & Hr & H1 & _).
  exists d'. split; [done|]. rewrite Hrev in H1. change (CPU_3430_ES2 - 1) with 1 in H1.
  pose proof (fun a s n x => known_sound (s_init_ops osc 1 (regs d CONTROL_STATUS)) (regs d) a s n x
    (s_init_ops_ok 1 _ Ho ltac:(lia)) (regs_range d)) as Hk.
  unfold clock_tree. rewrite !H1 by done. revert Hk. generalize (regs d) as r. intros r.
  clear - Ho. each_board Ho; intros Hk;
    repeat (erewrite Hk; [|lia|lia|vm_compute; reflexivity]); by vm_compute.
Qed.

(** The memory clock.  [s_init] sets bit 15 of the control register at 0x588 for the
clock of the memory's physical interface and clears it again with the next call, whose
third argument is a number of bits and not a last bit: when it is done, the bit is
off. *)
Lemma ddrphy_clock_off fuel junk d :
  LDELAY <= Z.of_nat fuel -> (polls < fuel)%nat -> In osc [S12M; S13M; S19_2M; S26M; S38_4M] -> 0 <= delta <= 5000 ->
  0 <= count32 -> ticks osc delta polls (now d + (Z.of_nat polls + 200) * delta + 1300000) < 2 ^ 32 ->
  exists d', runs (s_init fuel junk) d tt d' /\ Z.testbit (regs d' (OMAP34XX_CTRL_BASE + 0x588)) 15 = false.
Proof.
  intros Hf Hp Ho Hd Hc Hw. destruct (s_init_runs fuel junk d Hf Hp Ho Hd Hc Hw) as (d' & Hr & H1 & _). exists d'. split; [done|].
  assert (0 <= get_cpu_rev - 1 <= 1) as Hsil by (unfold get_cpu_rev; by destruct (_ =? _)).
  pose proof (known_sound _ (regs d) (OMAP34XX_CTRL_BASE + 0x588) 15 1 0 (s_init_ops_ok _ (regs d CONTROL_STATUS) Ho Hsil)
    (regs_range d) ltac:(lia) ltac:(lia)) as Hk.
  rewrite H1 by done. assert (bitfield (run_ops (s_init_ops osc (get_cpu_rev - 1) (regs d CONTROL_STATUS)) (regs d)
    (OMAP34XX_CTRL_BASE + 0x588)) 15 1 = 0) as E.
  { apply Hk. assert (get_cpu_rev - 1 = 0 \/ get_cpu_rev - 1 = 1) as [->| ->] by lia; each_board Ho; by vm_compute. }
  set (v := run_ops _ _ _) in *. assert (Z.testbit (bitfield v 15 1) 0 = false) as Hb by by rewrite E.
  rewrite bitfield_testbit in Hb by lia. exact Hb.
Qed.
End theorems.
