(* ===== verification/ExamplesClocks.v ===== *)
(** * A board at its start

Registers that hold what is written to them, with a clock of 26 MHz and accesses that
take a microsecond, as an instance of [MmioLaws], and the properties of [Clocks] on
it. *)
From stdpp Require Import base list.
From S2P Require Import Prelude Bits Serial Clocks.
From Stdlib Require Import ZArith Lia.

(** The registers, the pads and the time. *)
Record chip : Type := mk_chip { c_regs : Z -> Z; c_pads : Z -> Z; c_time : Z }.

Definition chip_value (d : chip) (a : Z) : Z :=
  if a =? S32K_CR then Z.abs (c_time d) * 32768 / 10 ^ 9
  else if a =? OMAP34XX_GPT1 + TCRR then Z.abs (c_time d) * S26M / 10 ^ 9
  else if a =? WD2_BASE + WWPS then 0
  else if a =? EMIF4_SDRAM_STS then 4
  else u32 (c_regs d a).

#[global] Instance chip_mmio : Mmio chip := {
  mm_read d a := (chip_value d a, mk_chip (c_regs d) (c_pads d) (Z.abs (c_time d) + 1000));
  mm_write d a v := mk_chip (upd a v (c_regs d)) (c_pads d) (c_time d);
  mm_write16 d a v := mk_chip (c_regs d) (upd a v (c_pads d)) (c_time d);
  cpuid := 0x411FC087;
}.

Lemma chip_value_plain d a : plain a = true -> chip_value d a = u32 (c_regs d a).
Proof.
  unfold plain, chip_value. intros H. apply andb_true_iff in H as [H _]. cbn [existsb status_regs] in H.
  destruct (a =? CM_IDLEST_PLL_MPU), (a =? CM_IDLEST_CKGEN), (a =? CM_IDLEST_WKUP), (a =? S32K_CR), (a =? OMAP34XX_GPT1 + TCRR),
    (a =? EMIF4_SDRAM_STS), (a =? EMIF4_IODFT_TLGC), (a =? WD2_BASE + WWPS); done.
Qed.

#[global] Program Instance chip_laws : MmioLaws (D := chip) S26M 1000 0 := {
  regs d a := u32 (c_regs d a);
  pads := c_pads;
  now d := Z.abs (c_time d);
  count32 := 0;
  phase _ := 0;
}.
Next Obligation. intros. by apply (wrapu_range 32). Qed.
Next Obligation. intros d a Ha. cbn. rewrite chip_value_plain by done. apply wrapu_small, (wrapu_range 32). done. Qed.
Next Obligation. done. Qed.
Next Obligation. done. Qed.
Next Obligation. intros d a v b Hv _. cbn. unfold upd. destruct (b =? a); [by apply wrapu_small|done]. Qed.
Next Obligation. done. Qed.
Next Obligation. done. Qed.
Next Obligation. intros. cbn. unfold upd. by destruct (b =? a). Qed.
Next Obligation. intros. lia. Qed.
Next Obligation. intros. cbn. lia. Qed.
Next Obligation. intros. cbn. lia. Qed.
Next Obligation. intros. cbn. lia. Qed.
Next Obligation. done. Qed.
Next Obligation. done. Qed.
Next Obligation. done. Qed.
Next Obligation. intros d. by exists 0%nat. Qed.
Next Obligation. intros d. by exists 0%nat. Qed.

(** At power on, with the boot pins of a general purpose device. *)
Definition chip0 : chip := mk_chip (fun a => if a =? CONTROL_STATUS then 0x309 else 0xffffffff) (fun _ => 7) 0.

Definition chip_fuel : nat := Z.to_nat 12000000.
Lemma chip_fuel_enough : LDELAY <= Z.of_nat chip_fuel /\ (0 < chip_fuel)%nat.
Proof. unfold chip_fuel. rewrite Z2Nat.id by lia. split; [done|]. lia. Qed.

Lemma s_init_sets_up_witness :
  exists d', runs (s_init chip_fuel 99) chip0 tt d' /\
    (forall o v, In (o, v) MUX_DEFAULT -> pads d' (OMAP34XX_CTRL_BASE + o) = v) /\
    Forall (holds (regs d')) (memory_settings ++ peripheral_settings).
Proof.
  apply (s_init_sets_up S26M 1000 0 chip_fuel 99 chip0);
    [apply chip_fuel_enough|apply chip_fuel_enough|cbn; tauto|lia|reflexivity|vm_compute; reflexivity].
Defined.

Lemma s_init_clocks_witness : exists d', runs (s_init chip_fuel 99) chip0 tt d' /\ clock_tree S26M (regs d').
Proof.
  apply (s_init_clocks S26M 1000 0 chip_fuel 99 chip0);
    [apply chip_fuel_enough|apply chip_fuel_enough|cbn; tauto|lia|cbn; lia|vm_compute; reflexivity|reflexivity].
Defined.

Lemma ddrphy_clock_off_witness :
  exists d', runs (s_init chip_fuel 99) chip0 tt d' /\ Z.testbit (regs d' (OMAP34XX_CTRL_BASE + 0x588)) 15 = false.
Proof.
  apply (ddrphy_clock_off S26M 1000 0 chip_fuel 99 chip0);
    [apply chip_fuel_enough|apply chip_fuel_enough|cbn; tauto|lia|cbn; lia|vm_compute; reflexivity].
Defined.

(** The measurement, run. *)
Example gauge_run :
  match get_osc_clk_speed 1000 chip0 with Ok (v, _) => v = S26M | Fault _ => False end.
Proof. vm_compute. reflexivity. Qed.

(** A clock of 24 MHz is recognised, but leaves the variable as it was. *)
Example clkin_sel_24 : classify (20 * S24M / 32768) = S24M /\ get_sys_clkin_sel S24M 0xdead = 0xdead.
Proof. vm_compute. done. Qed.
