(* ===== verification/Gpio.v ===== *)
(** * Pins

The driver of the general purpose pins, [src/u-boot/arch/arm/cpu/arm_cortexa8/omap3/gpio.c]
(the boot loader has the same file as [src/x-loader/cpu/omap3/gpio.c]), and the code of
U-Boot that only moves pins: [misc_init_r] of [src/u-boot/board/rhino/rhino.c] and the
programs [rhino_leds.c] and [rhino_psu_enable.c] of [src/u-boot/examples/standalone].
The registers are those of [Mmio]; messages are left out. *)
From stdpp Require Import base list.
From S2P Require Import Prelude Bits Serial Clocks.
From Stdlib Require Import ZArith Lia.

(** ** Constants *)
Definition OMAP24XX_GPIO_OE : Z := 0x0034.
Definition OMAP24XX_GPIO_DATAIN : Z := 0x0038.
Definition OMAP24XX_GPIO_CLEARDATAOUT : Z := 0x0090.
Definition OMAP24XX_GPIO_SETDATAOUT : Z := 0x0094.
Definition EINVAL : Z := 22.
Definition CONFIG_RHINO_REV : Z := 11.
Definition AM3517_IP_SW_RESET : Z := 0x48002598.
Definition CPGMACSS_SW_RST : Z := Z.shiftl 1 1.

(** The base addresses; all banks have the method [METHOD_GPIO_24XX]. *)
Definition gpio_bank_34xx : list Z := [0x48310000; 0x49050000; 0x49052000; 0x49054000; 0x49056000; 0x49058000].

Section gpio.
Context {D : Type} `{Mmio D}.
Abbreviation DM := (M D).

Definition get_gpio_bank (gpio : Z) : DM Z :=
  match gpio_bank_34xx !! Z.to_nat (Z.shiftr gpio 5) with
  | Some base => if gpio <? 0 then mfault OutOfBounds else mret base
  | None => mfault OutOfBounds
  end.
Definition get_gpio_index (gpio : Z) : Z := Z.land gpio 0x1f.

Definition gpio_valid (gpio : Z) : Z := if gpio <? 0 then -1 else if gpio <? 192 then 0 else -1.
Definition check_gpio (gpio : Z) : Z := if gpio_valid gpio <? 0 then -1 else 0.

Definition _set_gpio_direction (bank gpio is_input : Z) : DM unit :=
  let reg := bank + OMAP24XX_GPIO_OE in
  let! l := readl reg in
  writel (if truthy is_input then Z.lor l (Z.shiftl 1 gpio) else Z.land l (Z.lnot (Z.shiftl 1 gpio))) reg.

Definition omap_set_gpio_direction (gpio is_input : Z) : DM unit :=
  if check_gpio gpio <? 0 then mret tt else
  let! bank := get_gpio_bank gpio in
  _set_gpio_direction bank (get_gpio_index gpio) is_input.

Definition _set_gpio_dataout (bank gpio enable : Z) : DM unit :=
  let reg := if truthy enable then bank + OMAP24XX_GPIO_SETDATAOUT else bank + OMAP24XX_GPIO_CLEARDATAOUT in
  writel (Z.shiftl 1 gpio) reg.

Definition omap_set_gpio_dataout (gpio enable : Z) : DM unit :=
  if check_gpio gpio <? 0 then mret tt else
  let! bank := get_gpio_bank gpio in
  _set_gpio_dataout bank (get_gpio_index gpio) enable.

Definition omap_get_gpio_datain (gpio : Z) : DM Z :=
  if check_gpio gpio <? 0 then mret (- EINVAL) else
  let! bank := get_gpio_bank gpio in
  let! v := readl (bank + OMAP24XX_GPIO_DATAIN) in
  mret (if truthy (Z.land v (Z.shiftl 1 (get_gpio_index gpio))) then 1 else 0).

Definition _reset_gpio (bank gpio : Z) : DM unit := _set_gpio_direction bank (get_gpio_index gpio) 1.

Definition omap_request_gpio (gpio : Z) : DM Z := mret (if check_gpio gpio <? 0 then - EINVAL else 0).

Definition omap_free_gpio (gpio : Z) : DM unit :=
  if check_gpio gpio <? 0 then mret tt else
  let! bank := get_gpio_bank gpio in
  _reset_gpio bank gpio.

(** ** The programs *)

(** [omap_request_gpio], [omap_set_gpio_direction] and [omap_set_gpio_dataout] in a
row. *)
Definition drive (gpio value : Z) : DM unit :=
  let! _ := omap_request_gpio gpio in
  do! omap_set_gpio_direction gpio 0 in
  omap_set_gpio_dataout gpio value.

(** The first character of each argument; arguments are texts. *)
Fixpoint drive_args (gpio : Z) (args : list (list Z)) : DM unit :=
  match args with
  | [] => mret tt
  | arg :: args =>
    let! _ := omap_request_gpio gpio in
    do! omap_set_gpio_direction gpio 0 in
    do! (if hd 0 arg =? 49 then omap_set_gpio_dataout gpio 1
         else if hd 0 arg =? 48 then omap_set_gpio_dataout gpio 0 else mret tt) in
    drive_args (gpio + 1) args
  end.

(** [argv] includes the name of the program. *)
Definition rhino_leds (argv : list (list Z)) : DM Z :=
  if zlen argv <? 3 then mret (-1) else do! drive_args 130 (take 2 (tl argv)) in mret 0.

Definition rhino_psu_enable (argv : list (list Z)) : DM Z :=
  if zlen argv <? 4 then mret (-1) else do! drive_args 99 (take 3 (tl argv)) in mret 0.

(** The part of [misc_init_r] that moves pins, for a revision of the board; the delays
are left out. *)
Definition misc_init_pins (rev : Z) : DM unit :=
  do! drive 106 1 in
  do! drive 126 1 in
  do! (if 10 <? rev then drive 61 0 else mret tt) in
  do! (if rev =? 10 then drive 61 1 else drive 30 1) in
  do! drive 65 0 in
  do! omap_set_gpio_dataout 65 1 in
  do! (if 10 <? rev then drive 11 0 else mret tt) in
  let! reset := readl AM3517_IP_SW_RESET in
  writel (Z.land reset (Z.lnot CPGMACSS_SW_RST)) AM3517_IP_SW_RESET.
End gpio.

(** * What the pins promise *)

(** A change of a pin: its direction or its output level. *)
Inductive pin_op : Type := PDir (pin : Z) (input : bool) | POut (pin : Z) (level : bool).

Definition run_pin (f : Z -> bool) (o : pin_op) : Z -> bool :=
  match o with PDir p i => fun q => if q =? p then i else f q | POut _ _ => f end.
Definition outs (l : list pin_op) : list (Z * bool) :=
  omap (fun o => match o with POut p v => Some (p, v) | PDir _ _ => None end) l.

(** The addresses of bank [b]. *)
Definition bank_base (b : Z) : Z := nth (Z.to_nat b) gpio_bank_34xx 0.

(** [g_dir] tells which pins are inputs, [g_hist] the levels set so far, in order, and
[g_level] the level of a pin when it is read next. *)
Class GpioLaws {D} `{Mmio D} : Type := {
  g_dir : D -> Z -> bool;
  g_hist : D -> list (Z * bool);
  g_level : D -> Z -> bool;
  oe_law d b i : 0 <= b < 6 -> 0 <= i < 32 ->
    Z.testbit (u32 (fst (mm_read d (bank_base b + OMAP24XX_GPIO_OE)))) i = g_dir d (32 * b + i);
  in_law d b i : 0 <= b < 6 -> 0 <= i < 32 ->
    Z.testbit (u32 (fst (mm_read d (bank_base b + OMAP24XX_GPIO_DATAIN)))) i = g_level d (32 * b + i);
  pin_read d a : (forall p, g_dir (snd (mm_read d a)) p = g_dir d p) /\ g_hist (snd (mm_read d a)) = g_hist d;
  oe_write d b v : 0 <= b < 6 -> 0 <= v < 2 ^ 32 ->
    let d' := mm_write d (bank_base b + OMAP24XX_GPIO_OE) v in
    (forall p, g_dir d' p = if p / 32 =? b then Z.testbit v (p mod 32) else g_dir d p) /\ g_hist d' = g_hist d;
  out_write d b i (v : bool) : 0 <= b < 6 -> 0 <= i < 32 ->
    let d' := mm_write d (bank_base b + if v then OMAP24XX_GPIO_SETDATAOUT else OMAP24XX_GPIO_CLEARDATAOUT) (2 ^ i) in
    (forall p, g_dir d' p = g_dir d p) /\ g_hist d' = g_hist d ++ [(32 * b + i, v)];
  reset_write d v :
    let d' := mm_write d AM3517_IP_SW_RESET v in (forall p, g_dir d' p = g_dir d p) /\ g_hist d' = g_hist d;
}.

(** * Properties *)

Definition run_pins (l : list pin_op) (f : Z -> bool) : Z -> bool := foldl run_pin f l.

Lemma run_pins_ext l f g : (forall p, f p = g p) -> forall p, run_pins l f p = run_pins l g p.
Proof.
  revert f g. induction l as [|o l IH]; intros f g Hfg p; [by apply Hfg|]. cbn. apply IH. intros q.
  destruct o; cbn; [by destruct (q =? pin)|by apply Hfg].
Qed.

Lemma gpio_split g : 0 <= g < 192 ->
  0 <= g / 32 < 6 /\ 0 <= g mod 32 < 32 /\ g = 32 * (g / 32) + g mod 32 /\ Z.shiftr g 5 = g / 32 /\ get_gpio_index g = g mod 32.
Proof.
  intros Hg. pose proof (Z.div_mod g 32 ltac:(lia)). pose proof (Z.mod_pos_bound g 32 ltac:(lia)).
  repeat split; try lia; [by rewrite Z.shiftr_div_pow2 by lia|]. exact (Z.land_ones g 5 ltac:(lia)).
Qed.

Section laws.
Context {D : Type} {HD : Mmio D} {HL : GpioLaws}.

(** [m] makes changes to pins. *)
Definition pdoes {A} (m : M D A) (l : list pin_op) : Prop :=
  forall d, exists x d', runs m d x d' /\ (forall p, g_dir d' p = run_pins l (g_dir d) p) /\ g_hist d' = g_hist d ++ outs l.

Lemma pdoes_ret {A} (x : A) : pdoes (mret x) [].
Proof. intros d. exists x, d. split; [done|]. split; [done|]. by rewrite app_nil_r. Qed.

Lemma pdoes_bind {A B} (m : M D A) (k : A -> M D B) l1 l2 :
  pdoes m l1 -> (forall a, pdoes (k a) l2) -> pdoes (mbind m k) (l1 ++ l2).
Proof.
  intros Hm Hk d. destruct (Hm d) as (x & d1 & Hr1 & Hd1 & Hh1). destruct (Hk x d1) as (y & d2 & Hr2 & Hd2 & Hh2).
  exists y, d2. split; [by eapply runs_bind|]. split.
  - intros p. rewrite Hd2. unfold run_pins. rewrite foldl_app. by apply run_pins_ext.
  - unfold outs in *. by rewrite Hh2, Hh1, omap_app, app_assoc.
Qed.

Lemma get_gpio_bank_valid g (k : Z -> M D unit) :
  0 <= g < 192 -> (let! bank := get_gpio_bank g in k bank) = k (bank_base (g / 32)).
Proof.
  intros Hg. destruct (gpio_split g Hg) as (Hb & _ & _ & Es & _). unfold get_gpio_bank. rewrite Es, (proj2 (Z.ltb_ge g 0)) by lia.
  destruct (gpio_bank_34xx !! Z.to_nat (g / 32)) as [base|] eqn:E.
  - assert (bank_base (g / 32) = base) as Hbase by (by apply nth_lookup_Some). by rewrite Hbase.
  - apply lookup_ge_None in E. cbn in E. lia.
Qed.

Lemma check_gpio_valid g : 0 <= g < 192 -> (check_gpio g <? 0) = false.
Proof. intros Hg. unfold check_gpio, gpio_valid. by rewrite (proj2 (Z.ltb_ge g 0)), (proj2 (Z.ltb_lt g 192)) by lia. Qed.

(** The bits of the direction register after a change. *)
Lemma direction_bits l i (input : bool) j :
  0 <= l < 2 ^ 32 -> 0 <= i < 32 -> 0 <= j < 32 ->
  Z.testbit (u32 (if input then Z.lor l (Z.shiftl 1 i) else Z.land l (Z.lnot (Z.shiftl 1 i)))) j
  = if j =? i then input else Z.testbit l j.
Proof.
  intros Hl Hi Hj. rewrite wrapu_testbit, (proj2 (Z.ltb_lt j 32)) by lia. cbn [andb]. rewrite Z.shiftl_1_l.
  destruct input; [rewrite Z.lor_spec|rewrite Z.land_spec, Z.lnot_spec by lia]; rewrite Z.pow2_bits_eqb, (Z.eqb_sym i) by lia;
    destruct (j =? i); cbn; [apply orb_true_r|apply orb_false_r|apply andb_false_r|apply andb_true_r].
Qed.

Lemma pdoes_direction g is_input :
  0 <= g < 192 -> pdoes (omap_set_gpio_direction g is_input) [PDir g (truthy is_input)].
Proof.
  intros Hg d. destruct (gpio_split g Hg) as (Hb & Hi & Eg & _ & Ei).
  unfold omap_set_gpio_direction. rewrite check_gpio_valid, get_gpio_bank_valid, Ei by done.
  set (b := g / 32) in *. set (i := g mod 32) in *. set (reg := bank_base b + OMAP24XX_GPIO_OE).
  set (l := u32 (fst (mm_read d reg))). set (d1 := snd (mm_read d reg)).
  set (v := u32 (if truthy is_input then Z.lor l (Z.shiftl 1 i) else Z.land l (Z.lnot (Z.shiftl 1 i)))).
  exists tt, (mm_write d1 reg v). split; [|].
  - unfold _set_gpio_direction. fold reg. eapply runs_bind; [apply readl_at|]. done.
  - destruct (pin_read d reg) as [Hr1 Hr2]. fold d1 in Hr1, Hr2.
    destruct (oe_write d1 b v Hb ltac:(by apply (wrapu_range 32))) as [Hw1 Hw2]. fold reg in Hw1, Hw2.
    split; [|by rewrite Hw2, Hr2, app_nil_r]. intros p. rewrite Hw1. cbn [run_pins foldl run_pin].
    pose proof (Z.div_mod p 32 ltac:(lia)) as Ep. pose proof (Z.mod_pos_bound p 32 ltac:(lia)) as Hp.
    destruct (Z.eqb_spec (p / 32) b) as [Eb|Nb]; [|by rewrite Hr1, (proj2 (Z.eqb_neq p g)) by lia].
    unfold v. rewrite direction_bits by (lia || by apply (wrapu_range 32)).
    destruct (Z.eqb_spec (p mod 32) i), (Z.eqb_spec p g); try lia; [done|].
    unfold l, reg. rewrite oe_law by lia. f_equal. lia.
Qed.

Lemma pdoes_dataout g enable : 0 <= g < 192 -> pdoes (omap_set_gpio_dataout g enable) [POut g (truthy enable)].
Proof.
  intros Hg d. destruct (gpio_split g Hg) as (Hb & Hi & Eg & _ & Ei).
  unfold omap_set_gpio_dataout. rewrite check_gpio_valid, get_gpio_bank_valid, Ei by done. unfold _set_gpio_dataout.
  destruct (out_write d (g / 32) (g mod 32) (truthy enable) Hb Hi) as [H1 H2]. eexists tt, _. split; [done|].
  assert (u32 (Z.shiftl 1 (g mod 32)) = 2 ^ (g mod 32)) as ->.
  { rewrite Z.shiftl_1_l. apply wrapu_small. split; [lia|]. apply Z.pow_lt_mono_r; lia. }
  replace (if truthy enable then bank_base (g / 32) + OMAP24XX_GPIO_SETDATAOUT else bank_base (g / 32) + OMAP24XX_GPIO_CLEARDATAOUT)
    with (bank_base (g / 32) + if truthy enable then OMAP24XX_GPIO_SETDATAOUT else OMAP24XX_GPIO_CLEARDATAOUT) by by destruct (truthy enable).
  split; [exact H1|]. rewrite H2, <- Eg. done.
Qed.

Lemma datain_runs g d :
  0 <= g < 192 ->
  exists d', runs (omap_get_gpio_datain g) d (if g_level d g then 1 else 0) d' /\
    (forall p, g_dir d' p = g_dir d p) /\ g_hist d' = g_hist d.
Proof.
  intros Hg. destruct (gpio_split g Hg) as (Hb & Hi & Eg & Es & Ei).
  set (a := bank_base (g / 32) + OMAP24XX_GPIO_DATAIN). destruct (pin_read d a) as [H1 H2]. exists (snd (mm_read d a)). split; [|done].
  unfold omap_get_gpio_datain. rewrite check_gpio_valid by done. eapply runs_bind.
  { unfold get_gpio_bank. rewrite Es, (proj2 (Z.ltb_ge g 0)) by lia.
    destruct (gpio_bank_34xx !! Z.to_nat (g / 32)) as [base|] eqn:E; [|apply lookup_ge_None in E; cbn in E; lia].
    rewrite <- (nth_lookup_Some gpio_bank_34xx _ 0 base E). apply runs_ret. }
  cbv beta. eapply runs_bind; [apply readl_at|]. cbv beta. fold (bank_base (g / 32)). fold a.
  rewrite Ei, Z.shiftl_1_l, truthy_land_pow2 by lia. unfold a. rewrite in_law, <- Eg by done. apply runs_ret.
Qed.

(** C35. The pins.  For the 192 pins there are, setting a direction or a level changes
that pin and no other, reading returns its level, and freeing it makes it an input;
for any other number nothing changes and the caller gets [-EINVAL]. *)
Theorem gpio_driver g v d :
  if (0 <=? g) && (g <? 192) then
    pdoes (omap_set_gpio_direction g v) [PDir g (truthy v)] /\ pdoes (omap_set_gpio_dataout g v) [POut g (truthy v)] /\
    pdoes (omap_free_gpio g) [PDir g true] /\
    exists d', runs (omap_get_gpio_datain g) d (if g_level d g then 1 else 0) d' /\
      (forall p, g_dir d' p = g_dir d p) /\ g_hist d' = g_hist d
  else
    runs (omap_set_gpio_direction g v) d tt d /\ runs (omap_set_gpio_dataout g v) d tt d /\ runs (omap_free_gpio g) d tt d /\
    runs (omap_get_gpio_datain g) d (- EINVAL) d /\ runs (omap_request_gpio g) d (- EINVAL) d.
Proof.
  destruct ((0 <=? g) && (g <? 192)) eqn:E.
  - assert (0 <= g < 192) as Hg by lia. split; [by apply pdoes_direction|]. split; [by apply pdoes_dataout|].
    split; [|by apply datain_runs]. pose proof (pdoes_direction g 1 Hg) as Hf. unfold omap_free_gpio, _reset_gpio.
    unfold omap_set_gpio_direction in Hf. rewrite check_gpio_valid, get_gpio_bank_valid in * by done. exact Hf.
  - assert ((check_gpio g <? 0) = true) as Ec.
    { unfold check_gpio, gpio_valid. destruct (Z.ltb_spec g 0); [done|]. destruct (Z.ltb_spec g 192); [lia|done]. }
    unfold omap_set_gpio_direction, omap_set_gpio_dataout, omap_free_gpio, omap_get_gpio_datain, omap_request_gpio. by rewrite Ec.
Qed.

Lemma pdoes_request g : pdoes (omap_request_gpio g) [].
Proof. apply pdoes_ret. Qed.

Lemma pdoes_drive g v : 0 <= g < 192 -> pdoes (drive g v) [PDir g false; POut g (truthy v)].
Proof.
  intros Hg. change [PDir g false; POut g (truthy v)] with ([] ++ [PDir g false] ++ [POut g (truthy v)]).
  apply pdoes_bind; [apply pdoes_request|intros _]. apply pdoes_bind; [by apply pdoes_direction|intros _]. by apply pdoes_dataout.
Qed.

(** The changes that arguments ask for. *)
Fixpoint arg_ops (gpio : Z) (args : list (list Z)) : list pin_op :=
  match args with
  | [] => []
  | arg :: args =>
    [PDir gpio false] ++ (if hd 0 arg =? 49 then [POut gpio true] else if hd 0 arg =? 48 then [POut gpio false] else []) ++
    arg_ops (gpio + 1) args
  end.

Lemma pdoes_args g args : 0 <= g -> g + zlen args <= 192 -> pdoes (drive_args g args) (arg_ops g args).
Proof.
  revert g. induction args as [|arg args IH]; intros g Hg Hl; cbn [drive_args arg_ops]; [apply pdoes_ret|].
  rewrite zlen_cons in Hl. pose proof (zlen_nonneg args). change ([PDir g false] ++ ?l) with ([] ++ [PDir g false] ++ l).
  apply pdoes_bind; [apply pdoes_request|intros _]. apply pdoes_bind; [apply pdoes_direction; lia|intros _].
  apply pdoes_bind; [|intros _; apply IH; lia].
  destruct (_ =? 49); [apply (pdoes_dataout g 1); lia|]. destruct (_ =? 48); [apply (pdoes_dataout g 0); lia|apply pdoes_ret].
Qed.

(** The programs for the lamps and the power supplies.  With enough arguments they
make their two or three pins outputs and set each to its argument, in order, and touch
no other pin; with fewer they do nothing and return -1. *)
Lemma pin_programs argv d :
  (if zlen argv <? 3 then runs (rhino_leds argv) d (-1) d
   else pdoes (rhino_leds argv) (arg_ops 130 (take 2 (tl argv)))) /\
  (if zlen argv <? 4 then runs (rhino_psu_enable argv) d (-1) d
   else pdoes (rhino_psu_enable argv) (arg_ops 99 (take 3 (tl argv)))).
Proof.
  unfold rhino_leds, rhino_psu_enable.
  assert (forall g n, 0 <= g -> g + Z.of_nat n <= 192 ->
    pdoes (do! drive_args g (take n (tl argv)) in mret 0) (arg_ops g (take n (tl argv)))) as Hp.
  { intros g n Hg Hn. rewrite <- (app_nil_r (arg_ops _ _)). apply pdoes_bind; [|intros _; apply pdoes_ret].
    apply pdoes_args; [done|]. unfold zlen. rewrite length_take. lia. }
  split; [destruct (zlen argv <? 3)|destruct (zlen argv <? 4)]; try done; apply Hp; lia.
Qed.

(** The reset of the Ethernet controller is not a pin. *)
Lemma pdoes_release :
  pdoes (let! reset := readl AM3517_IP_SW_RESET in writel (Z.land reset (Z.lnot CPGMACSS_SW_RST)) AM3517_IP_SW_RESET) [].
Proof.
  intros d. destruct (pin_read d AM3517_IP_SW_RESET) as [R1 R2].
  eexists tt, _. split; [eapply runs_bind; [apply readl_at|reflexivity]|]. cbn [run_pins foldl outs omap]. rewrite app_nil_r.
  destruct (reset_write (snd (mm_read d AM3517_IP_SW_RESET)) (u32 (Z.land (u32 (fst (mm_read d AM3517_IP_SW_RESET))) (Z.lnot CPGMACSS_SW_RST))))
    as [W1 W2]. split; [intros p; by rewrite W1, R1|by rewrite W2, R2].
Qed.

Lemma pdoes_eq {A} (m : M D A) l l' : pdoes m l -> l = l' -> pdoes m l'.
Proof. by intros Hm <-. Qed.

(** The pins [misc_init_r] moves on a board of revision 1.1. *)
Definition misc_ops : list pin_op :=
  [PDir 106 false; POut 106 true; PDir 126 false; POut 126 true; PDir 61 false; POut 61 false; PDir 30 false; POut 30 true;
   PDir 65 false; POut 65 false; POut 65 true; PDir 11 false; POut 11 false].

(** U-Boot's pins.  On the current boards [misc_init_r] keeps the power supply on,
takes the FPGA out of its reset and suspension, powers the Ethernet chip and pulses its
reset low and high, in that order, and switches the boot buffer; these six pins are
outputs in the end and all others as they were. *)
Lemma misc_init_pulses d :
  exists d', runs (misc_init_pins CONFIG_RHINO_REV) d tt d' /\
    g_hist d' = g_hist d ++ [(106, true); (126, true); (61, false); (30, true); (65, false); (65, true); (11, false)] /\
    (forall p, g_dir d' p = if existsb (Z.eqb p) [106; 126; 61; 30; 65; 11] then false else g_dir d p).
Proof.
  assert (pdoes (misc_init_pins CONFIG_RHINO_REV) misc_ops) as Hm.
  { unfold misc_init_pins. cbn [CONFIG_RHINO_REV Z.ltb Z.eqb Z.compare Pos.compare Pos.compare_cont Pos.eqb].
    eapply pdoes_eq.
    - do 5 (apply pdoes_bind; [apply pdoes_drive; lia|intros _]). apply pdoes_bind; [apply (pdoes_dataout 65 1); lia|intros _].
      apply pdoes_bind; [apply pdoes_drive; lia|intros _]. apply pdoes_release.
    - reflexivity. }
  destruct (Hm d) as ([] & d' & Hr & Hd & Hh). exists d'. split; [done|]. split; [exact Hh|]. intros p. rewrite Hd. cbn.
  destruct (p =? 106), (p =? 126), (p =? 61), (p =? 30), (p =? 65), (p =? 11); done.
Qed.
End laws.

(** ** Pins and the rest of the chip *)
Section frame.
Context {D : Type} {HD : Mmio D} (P : D -> Prop).

Lemma ens_readl a : (forall d, P d -> P (snd (mm_read d a))) -> ensures P (readl a) (fun _ => P).
Proof. intros Ha d v d' Hd. unfold runs, readl. specialize (Ha d Hd). destruct (mm_read d a). by intros [= <- <-]. Qed.

Lemma ens_writel a v : (forall d, P d -> P (mm_write d a (u32 v))) -> ensures P (writel v a) (fun _ => P).
Proof. intros Ha d [] d' Hd [= <-]. by apply Ha. Qed.

Context (Hr : forall d a, 0x48310000 <= a -> P d -> P (snd (mm_read d a))).
Context (Hw : forall d a v, 0x48310000 <= a -> P d -> P (mm_write d a v)).

(** A bank, or a fault. *)
Lemma ens_bank {A} g (k : Z -> M D A) (Q : A -> D -> Prop) :
  (forall bank, 0x48310000 <= bank -> ensures P (k bank) Q) -> ensures P (let! bank := get_gpio_bank g in k bank) Q.
Proof.
  intros Hk. apply (ens_bind P _ (fun bank d => 0x48310000 <= bank /\ P d)); [|intros bank; apply ens_pure, Hk].
  unfold get_gpio_bank. destruct (gpio_bank_34xx !! _) as [base|] eqn:E; [|apply ens_fault].
  destruct (g <? 0); [apply ens_fault|]. apply ens_ret. intros d Hd. split; [|done].
  apply list_elem_of_lookup_2 in E. unfold gpio_bank_34xx in E. rewrite !elem_of_cons in E.
  destruct E as [->|[->|[->|[->|[->|[->|E]]]]]]; try lia. by apply not_elem_of_nil in E.
Qed.

Lemma ens_direction g v : ensures P (omap_set_gpio_direction g v) (fun _ => P).
Proof.
  unfold omap_set_gpio_direction. destruct (_ <? 0); [by apply ens_ret|]. apply ens_bank. intros bank Hb.
  apply (ens_bind P _ (fun _ => P)); [apply ens_readl|intros l; apply ens_writel]; intros d; [apply Hr|apply Hw]; unfold OMAP24XX_GPIO_OE; lia.
Qed.

Lemma ens_dataout g v : ensures P (omap_set_gpio_dataout g v) (fun _ => P).
Proof.
  unfold omap_set_gpio_dataout. destruct (_ <? 0); [by apply ens_ret|]. apply ens_bank. intros bank Hb.
  apply ens_writel. intros d. apply Hw. unfold OMAP24XX_GPIO_SETDATAOUT, OMAP24XX_GPIO_CLEARDATAOUT. destruct (truthy v); lia.
Qed.

Lemma ens_datain g : ensures P (omap_get_gpio_datain g) (fun _ => P).
Proof.
  unfold omap_get_gpio_datain. destruct (_ <? 0); [by apply ens_ret|]. apply ens_bank. intros bank Hb.
  apply (ens_bind P _ (fun _ => P)); [|intros v; by apply ens_ret]. apply ens_readl. intros d. apply Hr. unfold OMAP24XX_GPIO_DATAIN. lia.
Qed.

Lemma ens_request g : ensures P (omap_request_gpio g) (fun _ => P).
Proof. by apply ens_ret. Qed.
End frame.
