(* ===== verification/Spi.v ===== *)
(** * The serial bus of the FPGA

The SPI driver [src/u-boot/drivers/spi/omap3_spi.c] and the programs of
[src/u-boot/examples/standalone] that use it: [rhino_fpga_prog.c], which configures the
FPGA, and [rhino_rtc_test.c].  The registers are those of [Mmio]; messages are left
out, and [malloc] is a parameter. *)
From stdpp Require Import base list.
From S2P Require Import Prelude Bits Serial Clocks Gpio.
From Stdlib Require Import ZArith Lia.

(** ** [omap3_spi.h] and [spi.h] *)
Definition OMAP3_MCSPI1_BASE : Z := 0x48098000.
Definition OMAP3_MCSPI2_BASE : Z := 0x4809A000.
Definition OMAP3_MCSPI3_BASE : Z := 0x480B8000.
Definition OMAP3_MCSPI4_BASE : Z := 0x480BA000.
Definition OMAP3_MCSPI_MAX_FREQ : Z := 48000000.
Definition SYSCONFIG : Z := 0x10.
Definition SYSSTATUS : Z := 0x14.
Definition WAKEUPENABLE : Z := 0x20.
Definition MODULCTRL : Z := 0x28.
Definition CHCONF (cs : Z) : Z := 0x2C + 0x14 * cs.
Definition CHSTAT (cs : Z) : Z := 0x30 + 0x14 * cs.
Definition CHCTRL (cs : Z) : Z := 0x34 + 0x14 * cs.
Definition TX (cs : Z) : Z := 0x38 + 0x14 * cs.
Definition RX (cs : Z) : Z := 0x3C + 0x14 * cs.
Definition SYSCONFIG_SOFTRESET : Z := Z.shiftl 1 1.
Definition SPI_CPHA : Z := 0x01.
Definition SPI_CPOL : Z := 0x02.
Definition SPI_CS_HIGH : Z := 0x04.
Definition SPI_MODE_1 : Z := SPI_CPHA.
Definition SPI_MODE_3 : Z := Z.lor SPI_CPOL SPI_CPHA.
Definition SPI_XFER_BEGIN : Z := 0x01.
Definition SPI_XFER_END : Z := 0x02.
Definition WORD_LEN : Z := 8.

(** [struct omap3_spi_slave] *)
Record spi_slave : Type := mk_slave { sl_bus : Z; sl_cs : Z; sl_regs : Z; sl_freq : Z; sl_mode : Z }.

(** [*p & flag] *)
Definition flag (v f : Z) : bool := truthy (Z.land v f).

Section spi.
Context {D : Type} `{Mmio D}.
Abbreviation DM := (M D).

Definition spi_reset (fuel : nat) (ds : spi_slave) : DM unit :=
  do! writel SYSCONFIG_SOFTRESET (sl_regs ds + SYSCONFIG) in
  do! spin fuel (sl_regs ds + SYSSTATUS) (fun tmp => negb (flag tmp (Z.shiftl 1 0))) in
  do! writel (Z.lor (Z.lor (Z.shiftl 1 0) (Z.shiftl 1 2)) (Z.shiftl 2 3)) (sl_regs ds + SYSCONFIG) in
  writel (Z.shiftl 1 0) (sl_regs ds + WAKEUPENABLE).

(** [alloc]: whether [malloc] succeeds.  [None] is NULL. *)
Definition spi_setup_slave (alloc : bool) (bus cs max_hz mode : Z) : option spi_slave :=
  if negb alloc then None else
  let regs := if bus =? 0 then Some OMAP3_MCSPI1_BASE else if bus =? 1 then Some OMAP3_MCSPI2_BASE
              else if bus =? 2 then Some OMAP3_MCSPI3_BASE else if bus =? 3 then Some OMAP3_MCSPI4_BASE else None in
  match regs with
  | None => None
  | Some regs =>
    if ((bus =? 0) && (3 <? cs)) || ((bus =? 1) && (1 <? cs)) || ((bus =? 2) && (1 <? cs)) || ((bus =? 3) && (0 <? cs)) then None
    else if OMAP3_MCSPI_MAX_FREQ <? max_hz then None
    else if SPI_MODE_3 <? mode then None
    else Some (mk_slave bus cs regs max_hz mode)
  end.

(** [while (div <= 0xC && (OMAP3_MCSPI_MAX_FREQ / (1 << div)) > ds->freq) div++;], from
[div] on, with [n] = 13 - [div]. *)
Fixpoint clock_div (n : nat) (div freq : Z) : Z :=
  match n with
  | O => div
  | S n => if (div <=? 0xC) && (freq <? OMAP3_MCSPI_MAX_FREQ / Z.shiftl 1 div) then clock_div n (div + 1) freq else div
  end.

(** The channel's configuration that [spi_claim_bus] makes of [conf]. *)
Definition claim_conf (ds : spi_slave) (conf : Z) : Z :=
  let div := if truthy (sl_freq ds) then clock_div 13 0 (sl_freq ds) else 0xC in
  let conf := Z.lor conf (Z.lor (Z.lor (Z.shiftl 1 25) (Z.shiftl 1 27)) (Z.shiftl 1 28)) in
  let conf := Z.land conf (Z.lnot (Z.lor (Z.shiftl 1 18) (Z.shiftl 1 17))) in
  let conf := Z.lor conf (Z.shiftl 1 16) in
  let conf := Z.land conf (Z.lnot (Z.shiftl 0x1f 7)) in
  let conf := Z.lor conf (Z.shiftl (WORD_LEN - 1) 7) in
  let conf := if negb (flag (sl_mode ds) SPI_CS_HIGH) then Z.lor conf (Z.shiftl 1 6) else Z.land conf (Z.lnot (Z.shiftl 1 6)) in
  let conf := Z.land conf (Z.lnot (Z.shiftl 0x0f 2)) in
  let conf := Z.lor conf (Z.shiftl div 2) in
  let conf := if flag (sl_mode ds) SPI_CPOL then Z.lor conf (Z.shiftl 1 1) else Z.land conf (Z.lnot (Z.shiftl 1 1)) in
  let conf := if flag (sl_mode ds) SPI_CPHA then Z.lor conf (Z.shiftl 1 0) else Z.land conf (Z.lnot (Z.shiftl 1 0)) in
  Z.land conf (Z.lnot (Z.shiftl 0x03 12)).

Definition spi_claim_bus (fuel : nat) (ds : spi_slave) : DM Z :=
  do! spi_reset fuel ds in
  let! conf := readl (sl_regs ds + MODULCTRL) in
  do! writel (Z.lor (Z.land conf (Z.lnot (Z.lor (Z.shiftl 1 3) (Z.shiftl 1 2)))) (Z.shiftl 1 0)) (sl_regs ds + MODULCTRL) in
  let! conf := readl (sl_regs ds + CHCONF (sl_cs ds)) in
  do! writel (claim_conf ds conf) (sl_regs ds + CHCONF (sl_cs ds)) in
  mret 0.

Definition spi_release_bus (fuel : nat) (ds : spi_slave) : DM unit := spi_reset fuel ds.

(** One byte out and one in. *)
Definition xfer_byte (fuel : nat) (ds : spi_slave) (out : Z) : DM Z :=
  do! spin fuel (sl_regs ds + CHSTAT (sl_cs ds)) (fun v => Z.land v (Z.shiftl 1 1) =? 0) in
  do! writel out (sl_regs ds + TX (sl_cs ds)) in
  do! spin fuel (sl_regs ds + CHSTAT (sl_cs ds)) (fun v => Z.land v (Z.shiftl 1 0) =? 0) in
  let! v := readl (sl_regs ds + RX (sl_cs ds)) in
  mret (u8 v).

Fixpoint xfer_loop (fuel : nat) (ds : spi_slave) (out : list Z) : DM (list Z) :=
  match out with
  | [] => mret []
  | b :: out => let! x := xfer_byte fuel ds (u8 b) in let! xs := xfer_loop fuel ds out in mret (x :: xs)
  end.

(** [dout] is [None] for NULL; the bytes received are the result.  Always returns
0. *)
Definition spi_xfer (fuel : nat) (ds : spi_slave) (bitlen : Z) (dout : option (list Z)) (flags : Z) : DM (list Z) :=
  let finish (flags : Z) (r : list Z) : DM (list Z) :=
    if flag flags SPI_XFER_END then
      let! conf := readl (sl_regs ds + CHCONF (sl_cs ds)) in
      do! writel (Z.land conf (Z.lnot 0x00100000)) (sl_regs ds + CHCONF (sl_cs ds)) in
      do! writel 0 (sl_regs ds + CHCTRL (sl_cs ds)) in
      mret r
    else mret r in
  if bitlen =? 0 then finish flags []
  else if truthy (bitlen mod 8) then finish (Z.lor flags SPI_XFER_END) []
  else
    let len := bitlen / 8 in
    do! (if flag flags SPI_XFER_BEGIN then
           do! writel (Z.shiftl 1 0) (sl_regs ds + CHCTRL (sl_cs ds)) in
           let! conf := readl (sl_regs ds + CHCONF (sl_cs ds)) in
           writel (Z.lor conf 0x00100000) (sl_regs ds + CHCONF (sl_cs ds))
         else mret tt) in
    let! out := match dout with
                | Some l => if zlen l <? len then mfault OutOfBounds else mret (take (Z.to_nat len) l)
                | None => mret (replicate (Z.to_nat len) 0)
                end in
    let! r := xfer_loop fuel ds out in
    finish flags r.

(** ** [rhino_fpga_prog] *)
Definition PROG_B : Z := 126.
Definition INIT_B : Z := 127.
Definition INIT_B_DIR : Z := 129.
Definition DONE : Z := 128.

(** The decimal number a text is taken for, characters that are no digits included. *)
Definition str_to_int (s : list Z) : Z := foldl (fun v c => u32 (u32 (v * 10) + (c - 48))) 0 s.

(** [for (i = 0; i < 4000000; i++) ...], which stops when [INIT_B] is low. *)
Fixpoint pulse_wait (fuel : nat) (i : Z) : DM unit :=
  if 4000000 <=? i then mret tt else
  match fuel with
  | O => mfault OutOfFuel
  | S fuel =>
    let! _ := omap_request_gpio INIT_B in
    do! omap_set_gpio_direction INIT_B 1 in
    let! v := omap_get_gpio_datain INIT_B in
    pulse_wait fuel (if negb (truthy v) then 4000001 else i + 1)
  end.

(** [while (!(omap_get_gpio_datain(INIT_B)))] *)
Fixpoint init_wait (fuel : nat) : DM unit :=
  match fuel with
  | O => mfault OutOfFuel
  | S fuel => let! v := omap_get_gpio_datain INIT_B in if negb (truthy v) then init_wait fuel else mret tt
  end.

(** [for (i = 0; i < len; i = i + 2) ...]; [memb] is the memory. *)
Fixpoint send_loop (turns fuel : nat) (ds : spi_slave) (memb : Z -> Z) (start len i : Z) : DM unit :=
  if len <=? i then mret tt else
  match turns with
  | O => mfault OutOfFuel
  | S turns =>
    let mem := u32 (start + i) in
    let! _ := spi_xfer fuel ds 16 (Some [memb mem; memb (u32 (mem + 1))]) 0 in
    send_loop turns fuel ds memb start len (u32 (i + 2))
  end.

(** [argv] includes the name of the program.  A [spi] that is NULL is used all the
same. *)
Definition rhino_fpga_prog (fuel : nat) (alloc : bool) (memb : Z -> Z) (argv : list (list Z)) : DM Z :=
  match argv with
  | _ :: arg1 :: arg2 :: _ =>
    let start := str_to_int arg1 in
    let len := str_to_int arg2 in
    do! drive INIT_B_DIR 0 in
    do! drive PROG_B 1 in
    do! omap_set_gpio_direction PROG_B 0 in
    do! omap_set_gpio_dataout PROG_B 0 in
    do! pulse_wait fuel 0 in
    let! _ := omap_request_gpio PROG_B in
    do! omap_set_gpio_dataout PROG_B 1 in
    match spi_setup_slave alloc 1 0 48000000 0 with
    | None => mfault NullDeref
    | Some spi =>
      let! _ := spi_claim_bus fuel spi in
      let! _ := spi_xfer fuel spi 0 None SPI_XFER_BEGIN in
      let! _ := omap_request_gpio INIT_B in
      do! omap_set_gpio_direction INIT_B 1 in
      do! init_wait fuel in
      do! send_loop fuel fuel spi memb start len 0 in
      let! v := omap_get_gpio_datain INIT_B in
      if negb (truthy v) then mret 0 else
      let! _ := omap_request_gpio DONE in
      do! omap_set_gpio_direction DONE 1 in
      let! _ := omap_get_gpio_datain DONE in
      let! _ := spi_xfer fuel spi 0 None SPI_XFER_END in
      do! spi_release_bus fuel spi in
      mret 0
    end
  | _ => mret (-1)
  end.

(** ** [rhino_rtc_test] *)

(** The seconds that are printed. *)
Definition rhino_rtc_test (fuel : nat) (alloc : bool) (argv : list (list Z)) : DM (Z * option Z) :=
  if zlen argv <? 1 then mret (-1, None) else
  match spi_setup_slave alloc 0 0 40000 SPI_MODE_1 with
  | None => mfault NullDeref
  | Some rtc =>
    let! r := spi_claim_bus fuel rtc in
    if negb (r =? 0) then mret (-1, None) else
    let! _ := spi_xfer fuel rtc 16 (Some [0x81; 0x01]) (Z.lor SPI_XFER_BEGIN SPI_XFER_END) in
    let! _ := spi_xfer fuel rtc 0 None SPI_XFER_BEGIN in
    let! _ := spi_xfer fuel rtc 16 (Some [0x01; 0x00]) 0 in
    let! din := spi_xfer fuel rtc 16 None 0 in
    let! _ := spi_xfer fuel rtc 0 None SPI_XFER_END in
    do! spi_release_bus fuel rtc in
    mret (0, din !! 1%nat)
  end.
End spi.

(** * What the controller promises *)

(** Words of eight bits, both ways. *)
Definition conf_bytes (conf : Z) : Prop := bitfield conf 7 5 = 7 /\ bitfield conf 12 2 = 0.

(** One channel of a controller: its configuration, whether it is enabled, the bytes it
has sent, and the byte that has come in for the last one until it is read. *)
Record channel : Type := mk_ch { ch_conf : Z; ch_on : bool; ch_sent : list Z; ch_in : option Z }.

(** The controller at [base] with the device on channel [cs], which answers to all it
has been sent with [answer]; a transfer, and a reset, is done within [polls] reads of the
status.  A channel that is off does not move a bit. *)
Class SpiLaws {D} `{Mmio D} (base cs : Z) (answer : list Z -> Z) (polls : nat) : Type := {
  chan : D -> channel;
  tx_busy : D -> nat;
  rx_busy : D -> nat;
  tx_busy_bound d : (tx_busy d <= polls)%nat;
  rx_busy_bound d : (rx_busy d <= polls)%nat;
  answer_byte l : 0 <= answer l < 256;
  conf_range d : 0 <= ch_conf (chan d) < 2 ^ 32;
  spi_stat d v d' : mm_read d (base + CHSTAT cs) = (v, d') ->
    chan d' = chan d /\ tx_busy d' = pred (tx_busy d) /\ rx_busy d' = pred (rx_busy d) /\
    Z.testbit (u32 v) 1 = (tx_busy d =? 0)%nat /\
    Z.testbit (u32 v) 0 = ch_on (chan d) && (rx_busy d =? 0)%nat && bool_decide (is_Some (ch_in (chan d)));
  spi_tx_on d v : let c := chan d in
    ch_on c = true -> tx_busy d = 0%nat -> ch_in c = None -> conf_bytes (ch_conf c) ->
    chan (mm_write d (base + TX cs) v) = mk_ch (ch_conf c) true (ch_sent c ++ [u8 v]) (Some (answer (ch_sent c ++ [u8 v])));
  spi_tx_off d v : ch_on (chan d) = false -> chan (mm_write d (base + TX cs) v) = chan d;
  spi_rx d v d' x : mm_read d (base + RX cs) = (v, d') -> rx_busy d = 0%nat -> ch_in (chan d) = Some x ->
    u32 v = x /\ chan d' = mk_ch (ch_conf (chan d)) (ch_on (chan d)) (ch_sent (chan d)) None;
  spi_ctrl d v : let c := chan d in
    chan (mm_write d (base + CHCTRL cs) v) = mk_ch (ch_conf c) (Z.testbit v 0) (ch_sent c) (ch_in c);
  spi_conf_read d v d' : mm_read d (base + CHCONF cs) = (v, d') -> u32 v = ch_conf (chan d) /\ chan d' = chan d;
  spi_conf_write d v : 0 <= v < 2 ^ 32 -> let c := chan d in
    chan (mm_write d (base + CHCONF cs) v) = mk_ch v (ch_on c) (ch_sent c) (ch_in c);
  spi_sysconfig d v : let c := chan d in
    chan (mm_write d (base + SYSCONFIG) v) = if Z.testbit v 1 then mk_ch 0 false (ch_sent c) None else c;
  spi_reset_done d : exists k, (k <= polls)%nat /\ Z.testbit (u32 (fst (mm_read (reads k (base + SYSSTATUS) d) (base + SYSSTATUS)))) 0 = true;
  spi_other_read d a : ~ (0 <= a - (base + CHCONF cs) < 0x14) -> chan (snd (mm_read d a)) = chan d;
  spi_other_write d a v : ~ (0 <= a - (base + CHCONF cs) < 0x14) -> a <> base + SYSCONFIG -> chan (mm_write d a v) = chan d;
}.

(** * Properties *)

(** What a device answers to bytes, one by one. *)
Fixpoint answers (answer : list Z -> Z) (sent out : list Z) : list Z :=
  match out with [] => [] | b :: out => answer (sent ++ [b]) :: answers answer (sent ++ [b]) out end.

Lemma bit_clear v n : 0 <= n -> (Z.land v (Z.shiftl 1 n) =? 0) = negb (Z.testbit v n).
Proof. intros Hn. rewrite Z.shiftl_1_l, <- truthy_land_pow2 by done. unfold truthy. by rewrite negb_involutive. Qed.

Section laws.
Context {D : Type} {HD : Mmio D} (base cs : Z) (answer : list Z -> Z) (polls : nat) {HL : SpiLaws base cs answer polls}.
Context (ds : spi_slave) (Hbase : sl_regs ds = base) (Hcs : sl_cs ds = cs).

Lemma spin_tx fuel d :
  (tx_busy d < fuel)%nat ->
  exists d', runs (spin fuel (base + CHSTAT cs) (fun v => Z.land v (Z.shiftl 1 1) =? 0)) d tt d' /\ chan d' = chan d /\ tx_busy d' = 0%nat.
Proof.
  revert d. induction fuel as [|fuel IH]; intros d Hf; [lia|]. cbn [spin].
  destruct (mm_read d (base + CHSTAT cs)) as [v d1] eqn:E. destruct (spi_stat d v d1 E) as (H1 & H2 & _ & H4 & _).
  assert (runs (readl (base + CHSTAT cs)) d (u32 v) d1) as Hr by (unfold runs, readl; by rewrite E).
  destruct (tx_busy d) as [|n] eqn:En.
  - exists d1. split; [|done]. eapply runs_bind; [exact Hr|]. cbv beta. by rewrite bit_clear, H4 by lia.
  - destruct (IH d1) as (d' & Hr' & H1' & H2'); [rewrite H2; cbn; lia|]. exists d'. split; [|by rewrite H1', H1].
    eapply runs_bind; [exact Hr|]. cbv beta. by rewrite bit_clear, H4 by lia.
Qed.

Lemma spin_rx fuel d x :
  (rx_busy d < fuel)%nat -> ch_on (chan d) = true -> ch_in (chan d) = Some x ->
  exists d', runs (spin fuel (base + CHSTAT cs) (fun v => Z.land v (Z.shiftl 1 0) =? 0)) d tt d' /\ chan d' = chan d /\ rx_busy d' = 0%nat.
Proof.
  intros Hf Ho Hx. revert d Hf Ho Hx. induction fuel as [|fuel IH]; intros d Hf Ho Hx; [lia|]. cbn [spin].
  destruct (mm_read d (base + CHSTAT cs)) as [v d1] eqn:E. destruct (spi_stat d v d1 E) as (H1 & _ & H3 & _ & H5).
  rewrite Ho, Hx, bool_decide_eq_true_2, andb_true_r in H5 by done.
  assert (runs (readl (base + CHSTAT cs)) d (u32 v) d1) as Hr by (unfold runs, readl; by rewrite E).
  destruct (rx_busy d) as [|n] eqn:En.
  - exists d1. split; [|done]. eapply runs_bind; [exact Hr|]. cbv beta. by rewrite bit_clear, H5 by lia.
  - destruct (IH d1) as (d' & Hr' & H1' & H2'); [rewrite H3; cbn; lia|by rewrite H1|by rewrite H1|].
    exists d'. split; [|by rewrite H1', H1]. eapply runs_bind; [exact Hr|]. cbv beta. by rewrite bit_clear, H5 by lia.
Qed.

Lemma xfer_byte_runs fuel b d :
  (polls < fuel)%nat -> 0 <= b < 256 -> ch_on (chan d) = true -> ch_in (chan d) = None -> conf_bytes (ch_conf (chan d)) ->
  let c := chan d in
  exists d', runs (xfer_byte fuel ds b) d (answer (ch_sent c ++ [b])) d' /\
    chan d' = mk_ch (ch_conf c) true (ch_sent c ++ [b]) None.
Proof.
  intros Hf Hb Ho Hi Hc. cbn zeta. pose proof (tx_busy_bound d).
  destruct (spin_tx fuel d ltac:(lia)) as (d1 & R1 & C1 & T1).
  assert (u32 b = b /\ u8 b = b) as [Eb Eb8] by (split; apply wrapu_small; lia).
  pose proof (spi_tx_on d1 b) as Htx. rewrite C1, Eb8 in Htx. cbv zeta in Htx. specialize (Htx Ho T1 Hi Hc).
  set (d2 := mm_write d1 (base + TX cs) b) in *. pose proof (rx_busy_bound d2).
  destruct (spin_rx fuel d2 (answer (ch_sent (chan d) ++ [b]))) as (d3 & R3 & C3 & T3); [lia|by rewrite Htx|by rewrite Htx|].
  destruct (mm_read d3 (base + RX cs)) as [v d4] eqn:E.
  destruct (spi_rx d3 v d4 (answer (ch_sent (chan d) ++ [b])) E T3) as [Hv C4]; [by rewrite C3, Htx|].
  exists d4. split; [|by rewrite C4, C3, Htx]. unfold xfer_byte. rewrite Hbase, Hcs.
  eapply runs_bind; [exact R1|]. cbv beta. eapply (runs_bind _ _ _ tt d2); [unfold runs, writel; by rewrite Eb|]. cbv beta.
  eapply runs_bind; [exact R3|]. cbv beta. eapply (runs_bind _ _ _ (u32 v) d4); [unfold runs, readl; by rewrite E|]. cbv beta.
  rewrite Hv, wrapu_small by apply answer_byte. apply runs_ret.
Qed.

Lemma xfer_loop_runs fuel out d :
  (polls < fuel)%nat -> Forall (fun b => 0 <= b < 256) out ->
  ch_on (chan d) = true -> ch_in (chan d) = None -> conf_bytes (ch_conf (chan d)) ->
  let c := chan d in
  exists d', runs (xfer_loop fuel ds out) d (answers answer (ch_sent c) out) d' /\
    chan d' = mk_ch (ch_conf c) true (ch_sent c ++ out) None.
Proof.
  intros Hf Hout. revert d. induction Hout as [|b out Hb _ IH]; intros d Ho Hi Hc; cbn zeta; cbn [xfer_loop answers].
  - exists d. split; [apply runs_ret|]. destruct (chan d); cbn in *; subst. by rewrite app_nil_r.
  - destruct (xfer_byte_runs fuel b d Hf Hb Ho Hi Hc) as (d1 & R1 & C1).
    destruct (IH d1) as (d2 & R2 & C2); [by rewrite C1|by rewrite C1|by rewrite C1|]. rewrite C1 in R2, C2. cbn in R2, C2.
    exists d2. split; [|by rewrite C2, <- app_assoc].
    eapply runs_bind; [rewrite wrapu_small by lia; exact R1|]. cbv beta. eapply runs_bind; [exact R2|apply runs_ret].
Qed.

(** The chip select bit leaves the rest of the configuration alone. *)
Lemma conf_select conf (on : bool) :
  0 <= conf < 2 ^ 32 -> conf_bytes conf ->
  conf_bytes (u32 (if on then Z.lor conf 0x00100000 else Z.land conf (Z.lnot 0x00100000))).
Proof.
  intros Hr [H1 H2].
  assert (u32 (if on then Z.lor conf 0x00100000 else Z.land conf (Z.lnot 0x00100000)) = sr_value conf 20 1 (if on then 1 else 0)) as ->.
  { apply Z.bits_inj'. intros i Hi. rewrite wrapu_testbit, sr_value_testbit by (try destruct on; lia).
    change 0x00100000 with (2 ^ 20). destruct on; rewrite ?Z.lor_spec, ?Z.land_spec, ?Z.lnot_spec, Z.pow2_bits_eqb by lia.
    all: destruct (Z.leb_spec 20 i), (Z.ltb_spec i (20 + 1)), (Z.eqb_spec 20 i); try lia; cbn [andb orb negb].
    all: try (subst; cbn; rewrite ?orb_true_r, ?andb_false_r; done).
    all: rewrite ?orb_false_r, ?andb_true_r; destruct (Z.ltb_spec i 32); [done|by rewrite (testbit_high conf 32 i) by lia..]. }
  split; rewrite sr_value_outside; try done; try (destruct on; lia); lia.
Qed.

Lemma conf_access (on : bool) d :
  exists d', runs (let! conf := readl (base + CHCONF cs) in
                   writel (if on then Z.lor conf 0x00100000 else Z.land conf (Z.lnot 0x00100000)) (base + CHCONF cs)) d tt d' /\
    let c := chan d in
    chan d' = mk_ch (u32 (if on then Z.lor (ch_conf c) 0x00100000 else Z.land (ch_conf c) (Z.lnot 0x00100000)))
                (ch_on c) (ch_sent c) (ch_in c).
Proof.
  destruct (mm_read d (base + CHCONF cs)) as [v d1] eqn:E. destruct (spi_conf_read d v d1 E) as [Hv C1].
  eexists. split; [eapply (runs_bind _ _ _ (u32 v) d1); [unfold runs, readl; by rewrite E|reflexivity]|]. cbv zeta.
  rewrite spi_conf_write by by apply (wrapu_range 32). by rewrite C1, Hv.
Qed.

(** A channel that is ready for bytes. *)
Definition ready (on : bool) (sent : list Z) (d : D) : Prop :=
  conf_bytes (ch_conf (chan d)) /\ ch_on (chan d) = on /\ ch_sent (chan d) = sent /\ ch_in (chan d) = None.

Lemma ctrl_ready v on sent d :
  ready on sent d -> exists d', runs (writel v (base + CHCTRL cs)) d tt d' /\ ready (Z.testbit v 0) sent d'.
Proof.
  intros (H1 & H2 & H3 & H4). eexists. split; [reflexivity|]. unfold ready. rewrite spi_ctrl.
  cbn [ch_conf ch_on ch_sent ch_in]. by rewrite wrapu_testbit by lia.
Qed.

Lemma select_ready (sel on : bool) sent d :
  ready on sent d ->
  exists d', runs (let! conf := readl (base + CHCONF cs) in
                   writel (if sel then Z.lor conf 0x00100000 else Z.land conf (Z.lnot 0x00100000)) (base + CHCONF cs)) d tt d' /\
    ready on sent d'.
Proof.
  intros (H1 & H2 & H3 & H4). destruct (conf_access sel d) as (d' & R & C). exists d'. split; [exact R|].
  unfold ready. rewrite C. cbn [ch_conf ch_on ch_sent ch_in]. split_and!; try done. apply conf_select; [apply conf_range|done].
Qed.

Lemma xfer_begin flags (on : bool) sent d :
  flag flags SPI_XFER_BEGIN || on = true -> ready on sent d ->
  exists d', runs (if flag flags SPI_XFER_BEGIN then
           do! writel (Z.shiftl 1 0) (base + CHCTRL cs) in
           let! conf := readl (base + CHCONF cs) in
           writel (Z.lor conf 0x00100000) (base + CHCONF cs)
         else mret tt) d tt d' /\ ready true sent d'.
Proof.
  intros Hon Hd. destruct (flag flags SPI_XFER_BEGIN); [|cbn in Hon; subst; exists d; by split; [apply runs_ret|]].
  destruct (ctrl_ready (Z.shiftl 1 0) on sent d Hd) as (d1 & R1 & H1).
  destruct (select_ready true true sent d1 H1) as (d2 & R2 & H2). exists d2. by split; [eapply runs_bind; [exact R1|exact R2]|].
Qed.

Lemma xfer_finish flags (on : bool) sent d (r : list Z) :
  ready on sent d ->
  exists d', runs (if flag flags SPI_XFER_END then
      let! conf := readl (base + CHCONF cs) in
      do! writel (Z.land conf (Z.lnot 0x00100000)) (base + CHCONF cs) in
      do! writel 0 (base + CHCTRL cs) in
      mret r
    else mret r) d r d' /\ ready (if flag flags SPI_XFER_END then false else on) sent d'.
Proof.
  intros Hd. destruct (flag flags SPI_XFER_END); [|exists d; by split; [apply runs_ret|]].
  destruct (select_ready false on sent d Hd) as (d1 & R1 & H1). apply runs_bind_inv in R1 as (conf & d0 & R0 & R1).
  destruct (ctrl_ready 0 on sent d1 H1) as (d2 & R2 & H2). exists d2. split; [|exact H2].
  eapply runs_bind; [exact R0|]. cbv beta. eapply runs_bind; [exact R1|]. cbv beta. eapply runs_bind; [exact R2|apply runs_ret].
Qed.

(** [spi_xfer] of bytes. *)
Lemma xfer_runs fuel out flags (on : bool) sent d :
  (polls < fuel)%nat -> out <> [] -> Forall (fun b => 0 <= b < 256) out -> flag flags SPI_XFER_BEGIN || on = true -> ready on sent d ->
  exists d', runs (spi_xfer fuel ds (8 * zlen out) (Some out) flags) d (answers answer sent out) d' /\
    ready (negb (flag flags SPI_XFER_END)) (sent ++ out) d'.
Proof.
  intros Hf Hne Hout Hon Hd. unfold spi_xfer. rewrite Hbase, Hcs.
  assert (0 < zlen out) as Hl by (destruct out; [done|]; rewrite zlen_cons; pose proof (zlen_nonneg out); lia).
  rewrite (proj2 (Z.eqb_neq (8 * zlen out) 0)) by lia. rewrite (Z.mul_comm 8), Z.mod_mul, Z.div_mul by lia. cbn [truthy Z.eqb negb].
  destruct (xfer_begin flags on sent d Hon Hd) as (d1 & R1 & C1 & O1 & S1 & I1).
  destruct (xfer_loop_runs fuel out d1 Hf Hout O1 I1 C1) as (d2 & R2 & C2). rewrite S1 in R2, C2.
  destruct (xfer_finish flags true (sent ++ out) d2 (answers answer sent out)) as (d3 & R3 & H3).
  { unfold ready. by rewrite C2. }
  exists d3. split; [|by destruct (flag flags SPI_XFER_END)].
  eapply runs_bind; [exact R1|]. cbv beta. rewrite Z.ltb_irrefl. unfold zlen at 1. rewrite Nat2Z.id, firstn_all.
  eapply runs_bind; [apply runs_ret|]. cbv beta. eapply runs_bind; [exact R2|exact R3].
Qed.

(** ** Without the channel *)
Definition off (d : D) : Prop := ch_on (chan d) = false.

Lemma off_readl a : a = base + CHSTAT cs \/ a = base + CHCONF cs \/ ~ (0 <= a - (base + CHCONF cs) < 0x14) -> ensures off (readl a) (fun _ => off).
Proof.
  intros Ha. apply ens_readl. intros d Hd. unfold off in *. destruct (mm_read d a) as [v d'] eqn:E. cbn. destruct Ha as [->|[->|Ha]].
  - destruct (spi_stat d v d' E) as [-> _]. done.
  - destruct (spi_conf_read d v d' E) as [_ ->]. done.
  - pose proof (spi_other_read d a Ha) as H. rewrite E in H. cbn in H. by rewrite H.
Qed.

Lemma off_spin fuel cond : ensures off (spin fuel (base + CHSTAT cs) cond) (fun _ => off).
Proof.
  induction fuel as [|fuel IH]; [apply ens_fault|]. cbn [spin]. apply (ens_bind off _ (fun _ => off)); [apply off_readl; by left|].
  intros v. destruct (cond v); [exact IH|by apply ens_ret].
Qed.

(** The wait for a byte that will not come. *)
Lemma off_stuck fuel : ensures off (spin fuel (base + CHSTAT cs) (fun v => Z.land v (Z.shiftl 1 0) =? 0)) (fun _ _ => False).
Proof.
  induction fuel as [|fuel IH]; [apply ens_fault|]. cbn [spin]. apply (ens_bind off _ (fun v d => Z.testbit v 0 = false /\ off d)).
  - intros d v d' Hd Hr. split; [|exact (off_readl _ (or_introl eq_refl) d v d' Hd Hr)]. unfold runs, readl in Hr.
    destruct (mm_read d (base + CHSTAT cs)) as [w d1] eqn:E. injection Hr as <- <-. destruct (spi_stat d w d1 E) as (_ & _ & _ & _ & ->).
    by rewrite Hd.
  - intros v. apply ens_pure. intros Hv. rewrite bit_clear, Hv by lia. exact IH.
Qed.

Lemma off_xfer_loop fuel out : out <> [] -> ensures off (xfer_loop fuel ds out) (fun _ _ => False).
Proof.
  destruct out as [|b out]; [done|]. intros _. cbn [xfer_loop]. apply (ens_bind off _ (fun _ _ => False)); [|by intros a d].
  unfold xfer_byte. rewrite Hbase, Hcs. apply (ens_bind off _ (fun _ => off)); [apply off_spin|intros _].
  apply (ens_bind off _ (fun _ => off)); [apply ens_writel; intros d Hd; unfold off in *; by rewrite spi_tx_off|intros _].
  apply (ens_bind off _ (fun _ _ => False)); [apply off_stuck|by intros a d].
Qed.

(** A transfer that does not begin, on a channel that is off, never returns. *)
Lemma off_xfer fuel out flags n :
  flag flags SPI_XFER_BEGIN = false -> 0 < n -> ensures off (spi_xfer fuel ds (8 * n) out flags) (fun _ _ => False).
Proof.
  intros Hfl Hn. unfold spi_xfer. rewrite (proj2 (Z.eqb_neq (8 * n) 0)), Hfl by lia.
  rewrite (Z.mul_comm 8), Z.mod_mul, Z.div_mul by lia. cbn [truthy Z.eqb negb].
  apply (ens_bind off _ (fun _ => off)); [by apply ens_ret|intros _].
  apply (ens_bind off _ (fun l d => l <> [] /\ off d)).
  - destruct out as [l|]; [destruct (Z.ltb_spec (zlen l) n); [apply ens_fault|]|]; apply ens_ret; intros d Hd; (split; [|done]).
    + destruct l; [unfold zlen in *; cbn [length] in *; lia|]. destruct (Z.to_nat n) eqn:E; [lia|done].
    + destruct (Z.to_nat n) eqn:E; [lia|done].
  - intros l. apply ens_pure. intros Hl. apply (ens_bind off _ (fun _ _ => False)); [by apply off_xfer_loop|by intros a d].
Qed.

(** A transfer that ends leaves the channel off. *)
Lemma end_off fuel n out flags :
  flag flags SPI_XFER_END = true -> 0 < n -> ensures (fun _ => True) (spi_xfer fuel ds (8 * n) out flags) (fun _ => off).
Proof.
  intros Hfl Hn. unfold spi_xfer. rewrite (proj2 (Z.eqb_neq (8 * n) 0)), Hfl by lia.
  rewrite (Z.mul_comm 8), Z.mod_mul, Z.div_mul by lia. cbn [truthy Z.eqb negb]. rewrite Hbase, Hcs.
  do 5 (apply (ens_bind _ _ (fun _ _ => True)); [by intros ? ? ? ? ?|intros ?]).
  apply (ens_bind _ _ (fun _ => off)); [|intros _; by apply ens_ret]. intros d [] d' _ [= <-]. unfold off. by rewrite spi_ctrl.
Qed.

(** Telling the driver to begin, without a byte to send, does nothing. *)
Lemma empty_begin fuel out d : runs (spi_xfer fuel ds 0 out SPI_XFER_BEGIN) d [] d.
Proof. done. Qed.

(** ** Claiming the bus *)

(** The bits of a word that the configuration of [spi_claim_bus] decides. *)
Lemma clock_div_range n div freq : 0 <= div -> 0 <= clock_div n div freq <= div + Z.of_nat n.
Proof.
  revert div. induction n as [|n IH]; intros div Hd; cbn [clock_div]; [lia|].
  destruct (_ && _); [specialize (IH (div + 1) ltac:(lia)); lia|lia].
Qed.

Lemma claim_conf_bit conf i :
  7 <= i < 14 -> Z.testbit (u32 (claim_conf ds conf)) i = (i <? 10).
Proof.
  intros Hi. rewrite wrapu_testbit by lia. unfold claim_conf.
  set (div := if truthy (sl_freq ds) then clock_div 13 0 (sl_freq ds) else 0xC).
  assert (0 <= Z.shiftl div 2 < 2 ^ 7) as Hdiv.
  { pose proof (clock_div_range 13 0 (sl_freq ds) ltac:(lia)). rewrite Z.shiftl_mul_pow2 by lia. unfold div. destruct (truthy _); lia. }
  pose proof (testbit_high (Z.shiftl div 2) 7 i Hdiv ltac:(lia)) as Hb.
  assert (i = 7 \/ i = 8 \/ i = 9 \/ i = 10 \/ i = 11 \/ i = 12 \/ i = 13) as Hc by lia.
  destruct (flag (sl_mode ds) SPI_CS_HIGH), (flag (sl_mode ds) SPI_CPOL), (flag (sl_mode ds) SPI_CPHA); cbn [negb];
    repeat (rewrite Z.land_spec || rewrite Z.lor_spec); rewrite !Z.lnot_spec by lia; rewrite Hb;
    destruct Hc as [->|[->|[->|[->|[->|[->| ->]]]]]]; cbn;
    rewrite ?orb_true_r, ?orb_false_r, ?andb_true_r, ?andb_false_r; cbn; done.
Qed.

Lemma claim_conf_bytes conf : conf_bytes (u32 (claim_conf ds conf)).
Proof.
  split; apply Z.bits_inj'; intros i Hi; rewrite bitfield_testbit by lia.
  - destruct (Z.ltb_spec i 5).
    + rewrite claim_conf_bit by lia. assert (i = 0 \/ i = 1 \/ i = 2 \/ i = 3 \/ i = 4) as Hc by lia.
      by destruct Hc as [->|[->|[->|[->| ->]]]].
    + by rewrite (testbit_high 7 3 i) by lia.
  - rewrite Z.bits_0. destruct (Z.ltb_spec i 2); [|done]. rewrite claim_conf_bit by lia. destruct (Z.ltb_spec (i + 12) 10); [lia|done].
Qed.

Context (Hcs0 : 0 <= cs).

Lemma claim_off fuel : ensures (fun _ => True) (spi_claim_bus fuel ds) (fun r d => r = 0 /\ off d).
Proof.
  unfold spi_claim_bus, spi_reset. rewrite Hbase, Hcs. unfold SYSSTATUS, WAKEUPENABLE, MODULCTRL, SYSCONFIG_SOFTRESET.
  apply (ens_bind _ _ (fun _ => off)).
  - apply (ens_bind _ _ (fun _ => off)).
    { intros d [] d' _ [= <-]. unfold off. by rewrite spi_sysconfig. }
    intros _. apply (ens_bind _ _ (fun _ => off)).
    { induction fuel as [|fuel IH]; [apply ens_fault|]. cbn [spin]. apply (ens_bind off _ (fun _ => off)).
      - apply off_readl. unfold CHCONF. lia.
      - intros v. destruct (negb _); [exact IH|by apply ens_ret]. }
    intros _. apply (ens_bind _ _ (fun _ => off)); [|intros _]; apply ens_writel; intros d Hd; unfold off in *.
    + by rewrite spi_sysconfig.
    + rewrite spi_other_write by (unfold CHCONF, SYSCONFIG; lia). done.
  - intros _. apply (ens_bind _ _ (fun _ => off)); [apply off_readl; unfold CHCONF; lia|intros v].
    apply (ens_bind _ _ (fun _ => off)); [|intros _; apply (ens_bind _ _ (fun _ => off)); [apply off_readl; auto|intros w]].
    + apply ens_writel. intros d Hd. unfold off in *. rewrite spi_other_write by (unfold CHCONF, SYSCONFIG; lia). done.
    + apply (ens_bind _ _ (fun _ => off)); [|intros _; by apply ens_ret]. apply ens_writel. intros d Hd. unfold off in *.
      by rewrite spi_conf_write by by apply (wrapu_range 32).
Qed.

(** The wait for the end of a reset. *)
Lemma reset_waits fuel d :
  (polls < fuel)%nat ->
  exists d', runs (spin fuel (base + SYSSTATUS) (fun tmp => negb (flag tmp (Z.shiftl 1 0)))) d tt d' /\ chan d' = chan d.
Proof.
  intros Hf. destruct (spi_reset_done d) as (k & Hk & Hd). assert (k < fuel)%nat as Hkf by lia. clear Hf Hk.
  revert fuel d Hkf Hd. induction k as [|k IH]; intros [|fuel] d Hk Hd; try lia; cbn [spin reads] in *;
    set (d1 := snd (mm_read d (base + SYSSTATUS))) in *;
    assert (chan d1 = chan d) as C1 by (apply spi_other_read; unfold CHCONF, SYSSTATUS; lia).
  - exists d1. split; [|done]. eapply runs_bind; [apply readl_at|]. cbv beta. unfold flag. rewrite Z.shiftl_1_l, truthy_land_pow2, Hd by lia.
    apply runs_ret.
  - destruct (flag (u32 (fst (mm_read d (base + SYSSTATUS)))) (Z.shiftl 1 0)) eqn:E.
    + exists d1. split; [|done]. eapply runs_bind; [apply readl_at|]. cbv beta. rewrite E. apply runs_ret.
    + destruct (IH fuel d1 ltac:(lia) Hd) as (d' & R & C). exists d'. split; [|by rewrite C].
      eapply runs_bind; [apply readl_at|]. cbv beta. by rewrite E.
Qed.

Lemma other_writel v a d :
  ~ (0 <= a - (base + CHCONF cs) < 0x14) -> a <> base + SYSCONFIG -> exists d', runs (writel v a) d tt d' /\ chan d' = chan d.
Proof. intros H1 H2. eexists. split; [reflexivity|]. by apply spi_other_write. Qed.

Lemma spi_reset_runs fuel d :
  (polls < fuel)%nat -> exists d', runs (spi_reset fuel ds) d tt d' /\ chan d' = mk_ch 0 false (ch_sent (chan d)) None.
Proof.
  intros Hf. unfold spi_reset. rewrite Hbase. pose proof (spi_sysconfig d (u32 SYSCONFIG_SOFTRESET)) as C0. cbn in C0.
  set (d0 := mm_write d (base + SYSCONFIG) (u32 SYSCONFIG_SOFTRESET)) in *. destruct (reset_waits fuel d0 Hf) as (d1 & R1 & C1).
  set (v := Z.lor (Z.lor (Z.shiftl 1 0) (Z.shiftl 1 2)) (Z.shiftl 2 3)). pose proof (spi_sysconfig d1 (u32 v)) as C2. cbn in C2.
  destruct (other_writel (Z.shiftl 1 0) (base + WAKEUPENABLE) (mm_write d1 (base + SYSCONFIG) (u32 v))) as (d3 & R3 & C3);
    [unfold CHCONF, WAKEUPENABLE; lia|unfold WAKEUPENABLE, SYSCONFIG; lia|].
  exists d3. split; [|by rewrite C3, C2, C1]. eapply (runs_bind _ _ _ tt d0); [done|]. cbv beta.
  eapply runs_bind; [exact R1|]. cbv beta. eapply (runs_bind _ _ _ tt); [reflexivity|exact R3].
Qed.

Lemma claim_runs fuel d :
  (polls < fuel)%nat -> exists d', runs (spi_claim_bus fuel ds) d 0 d' /\ ready false (ch_sent (chan d)) d'.
Proof.
  intros Hf. destruct (spi_reset_runs fuel d Hf) as (d1 & R1 & C1). unfold spi_claim_bus. rewrite Hbase, Hcs.
  set (m := base + MODULCTRL). set (d2 := snd (mm_read d1 m)).
  assert (chan d2 = chan d1) as C2 by (apply spi_other_read; unfold m, CHCONF, MODULCTRL; lia).
  destruct (other_writel (Z.lor (Z.land (u32 (fst (mm_read d1 m))) (Z.lnot (Z.lor (Z.shiftl 1 3) (Z.shiftl 1 2)))) (Z.shiftl 1 0)) m d2)
    as (d3 & R3 & C3); [unfold m, CHCONF, MODULCTRL; lia|unfold m, SYSCONFIG, MODULCTRL; lia|].
  destruct (mm_read d3 (base + CHCONF cs)) as [v d4] eqn:E. destruct (spi_conf_read d3 v d4 E) as [_ C4].
  eexists. split.
  - eapply runs_bind; [exact R1|]. cbv beta. eapply runs_bind; [apply readl_at|]. cbv beta. eapply runs_bind; [exact R3|]. cbv beta.
    eapply (runs_bind _ _ _ (u32 v) d4); [unfold runs, readl; by rewrite E|]. cbv beta. eapply runs_bind; [reflexivity|apply runs_ret].
  - unfold ready. rewrite spi_conf_write by by apply (wrapu_range 32). rewrite C4, C3, C2, C1.
    cbn [ch_conf ch_on ch_sent ch_in]. split_and!; try done. apply claim_conf_bytes.
Qed.

(** C20. The serial bus.  From any state [spi_claim_bus] returns 0 with a channel that is
set up for bytes and off.  On a channel set up for bytes that is on, or that it is told
to switch on, [spi_xfer] of bytes sends exactly these bytes in order and returns the
device's answer to each, however slow the controller is up to its bound; behind it the
channel is off exactly if it was told so, and set up for the next transfer. *)
Theorem spi_transfers fuel d :
  (polls < fuel)%nat ->
  (exists d', runs (spi_claim_bus fuel ds) d 0 d' /\ ready false (ch_sent (chan d)) d') /\
  forall out flags (on : bool) sent, out <> [] -> Forall (fun b => 0 <= b < 256) out ->
    flag flags SPI_XFER_BEGIN || on = true -> ready on sent d ->
    exists d', runs (spi_xfer fuel ds (8 * zlen out) (Some out) flags) d (answers answer sent out) d' /\
      ready (negb (flag flags SPI_XFER_END)) (sent ++ out) d'.
Proof. intros Hf. split; [by apply claim_runs|]. intros out flags on sent Hne Hout Hon Hd. by apply (xfer_runs fuel out flags on). Qed.

(** ** The FPGA's bytes *)

(** The bytes the loop sends: two at a time. *)
Fixpoint pairs (n : nat) (memb : Z -> Z) (a : Z) : list Z :=
  match n with O => [] | S n => memb (u32 a) :: memb (u32 (a + 1)) :: pairs n memb (a + 2) end.

(** On a channel that is on, the loop sends the memory from [start] on; with an odd
length one byte more. *)
Lemma send_loop_sends n turns fuel memb start len i sent d :
  (polls < fuel)%nat -> (n <= turns)%nat -> (forall a, 0 <= memb a < 256) -> 0 <= i -> len < 2 ^ 32 - 1 ->
  len <= i + 2 * Z.of_nat n < len + 2 -> ready true sent d ->
  exists d', runs (send_loop turns fuel ds memb start len i) d tt d' /\ ready true (sent ++ pairs n memb (start + i)) d'.
Proof.
  intros Hf. revert turns i sent d. induction n as [|n IH]; intros turns i sent d Ht Hm Hi Hlen Hn Hd; cbn [pairs].
  - exists d. rewrite app_nil_r. split; [|done]. destruct turns; cbn [send_loop]; by rewrite (proj2 (Z.leb_le len i)) by lia.
  - destruct turns as [|turns]; [lia|]. cbn [send_loop]. rewrite (proj2 (Z.leb_gt len i)) by lia.
    set (out := [memb (u32 (start + i)); memb (u32 (u32 (start + i) + 1))]).
    destruct (xfer_runs fuel out 0 true sent d) as (d1 & R1 & H1); try done; [by (apply Forall_cons_2; [apply Hm|]; apply Forall_cons_2; [apply Hm|]; apply Forall_nil_2)|].
    destruct (IH turns (i + 2) (sent ++ out) d1) as (d2 & R2 & H2); try done; try lia.
    exists d2. split; [|].
    + eapply runs_bind; [exact R1|]. cbv beta. by rewrite wrapu_small by lia.
    + unfold out in H2. rewrite <- app_assoc in H2. cbn [app] in H2.
      replace (u32 (u32 (start + i) + 1)) with (u32 (start + i + 1)) in H2 by (unfold wrapu; by rewrite Zplus_mod_idemp_l).
      by rewrite Z.add_assoc in H2.
Qed.
End laws.

(** ** The programs *)
Section programs.
Context {D : Type} {HD : Mmio D} (answer : list Z -> Z) (polls : nat).

Lemma off_ge base {HL : SpiLaws base 0 answer polls} :
  base + 0x40 <= 0x48310000 ->
  (forall d a, 0x48310000 <= a -> off base 0 answer polls d -> off base 0 answer polls (snd (mm_read d a))) /\
  (forall d a v, 0x48310000 <= a -> off base 0 answer polls d -> off base 0 answer polls (mm_write d a v)).
Proof.
  intros Hb. unfold off. split; intros d a; [intros Ha Hd; rewrite spi_other_read by (unfold CHCONF; lia); done|].
  intros v Ha Hd. rewrite spi_other_write by (unfold CHCONF, SYSCONFIG; lia). done.
Qed.

(** C40. U-Boot's program for the FPGA never finishes.  It asks the driver to begin
without sending anything, which leaves the channel off, and then sends without asking;
so with a bitstream of at least one byte it waits for ever for the answer to the first
byte, whatever the pins and the memory are. *)
Theorem fpga_prog_never_returns {HL : SpiLaws OMAP3_MCSPI2_BASE 0 answer polls} fuel alloc memb name a1 a2 rest d r d' :
  0 < str_to_int a2 -> ~ runs (rhino_fpga_prog fuel alloc memb (name :: a1 :: a2 :: rest)) d r d'.
Proof.
  intros Hlen Hrun. set (off := off OMAP3_MCSPI2_BASE 0 answer polls).
  destruct (off_ge OMAP3_MCSPI2_BASE ltac:(unfold OMAP3_MCSPI2_BASE; lia)) as [Hr Hw]. fold off in Hr, Hw.
  cut (ensures (fun _ => True) (rhino_fpga_prog fuel alloc memb (name :: a1 :: a2 :: rest)) (fun _ _ => False)); [intros He; by apply (He d r d')|].
  clear Hrun. unfold rhino_fpga_prog.
  do 7 (apply (ens_bind _ _ (fun _ _ => True)); [by intros ? ? ? ? ?|intros _]).
  destruct (spi_setup_slave alloc 1 0 48000000 0) as [spi|] eqn:Es; [|apply ens_fault].
  destruct alloc; [|done]. injection Es as <-.
  apply (ens_bind _ _ _ _ _ (claim_off OMAP3_MCSPI2_BASE 0 answer polls (mk_slave _ 0 OMAP3_MCSPI2_BASE _ _) eq_refl eq_refl (Z.le_refl 0) fuel)). intros v. apply ens_pure. intros _.
  apply (ens_bind _ _ (fun _ => off)); [by intros s x s' Hs [= <- <-]|intros _].
  apply (ens_bind _ _ (fun _ => off)); [by apply ens_request|intros _].
  apply (ens_bind _ _ (fun _ => off)); [by apply ens_direction|intros _].
  apply (ens_bind _ _ (fun _ => off)).
  { generalize fuel as n. induction n as [|n IH]; [apply ens_fault|]. cbn [init_wait].
    apply (ens_bind _ _ (fun _ => off)); [by apply ens_datain|intros w]. destruct (negb _); [exact IH|by apply ens_ret]. }
  intros _. apply (ens_bind _ _ (fun _ _ => False)); [|by intros ? ?].
  generalize fuel at 1 as turns. intros [|turns]; cbn [send_loop]; (destruct (Z.leb_spec (str_to_int a2) 0); [lia|]); [apply ens_fault|].
  apply (ens_bind _ _ (fun _ _ => False)); [|by intros ? ?]. by apply (off_xfer OMAP3_MCSPI2_BASE 0 answer polls (mk_slave 1 0 OMAP3_MCSPI2_BASE 48000000 0) eq_refl eq_refl _ _ 0 2).
Qed.

(** The test of the clock chip stops in the same way, at its second transfer: the first
one has switched the channel off. *)
Lemma rtc_test_never_returns {HL : SpiLaws OMAP3_MCSPI1_BASE 0 answer polls} fuel alloc argv d r d' :
  1 <= zlen argv -> ~ runs (rhino_rtc_test fuel alloc argv) d r d'.
Proof.
  intros Hargv Hrun. set (off := off OMAP3_MCSPI1_BASE 0 answer polls).
  cut (ensures (fun _ => True) (rhino_rtc_test fuel alloc argv) (fun _ _ => False)); [intros He; by apply (He d r d')|].
  clear Hrun. unfold rhino_rtc_test. rewrite (proj2 (Z.ltb_ge (zlen argv) 1)) by lia.
  destruct (spi_setup_slave alloc 0 0 40000 SPI_MODE_1) as [rtc|] eqn:Es; [|apply ens_fault].
  destruct alloc; [|done]. injection Es as <-.
  apply (ens_bind _ _ _ _ _ (claim_off OMAP3_MCSPI1_BASE 0 answer polls (mk_slave _ 0 OMAP3_MCSPI1_BASE _ _) eq_refl eq_refl (Z.le_refl 0) fuel)). intros v.
  apply ens_pure. intros ->. cbn [Z.eqb negb]. set (rtc := mk_slave _ _ _ _ _).
  apply (ens_bind _ _ (fun _ => off)).
  { apply (ens_conseq (fun _ => True) _ _ (fun _ => off)); [|done|done]. by apply (end_off OMAP3_MCSPI1_BASE 0 answer polls rtc eq_refl eq_refl fuel 2). }
  intros _. apply (ens_bind _ _ (fun _ => off)); [by intros s x s' Hs [= <- <-]|intros _].
  apply (ens_bind _ _ (fun _ _ => False)); [|by intros ? ?]. by apply (off_xfer OMAP3_MCSPI1_BASE 0 answer polls rtc eq_refl eq_refl _ _ 0 2).
Qed.
End programs.
