(* ===== verification/UBoot.v ===== *)
(** * U-Boot on RHINO

What U-Boot does for the board: the pins of [src/u-boot/board/rhino/rhino.h] and
[set_muxconf_regs], the windows of the external memory bus from [board_init] of
[src/u-boot/board/rhino/rhino.c] and [src/u-boot/arch/arm/cpu/arm_cortexa8/omap3/mem.c],
and the programs [rhino_gpmc_test.c], [rhino_fmc_control.c] and [rhino_system_monitor.c]
of [src/u-boot/examples/standalone].  The registers are those of [Mmio]; delays are left
out, and U-Boot's I2C driver is a parameter. *)
From stdpp Require Import base list.
From S2P Require Import Prelude Bits Hwr Driver HwrRhino Serial Clocks Gpio.
From Stdlib Require Import ZArith Lia.

(** ** The pins *)
Definition M3 : Z := 3.

Definition mux_sdrc (rev : Z) : list (Z * Z) := [
  (0x0030, pad IEN PTD DIS M0); (* SDRC_D0 *)
  (0x0032, pad IEN PTD DIS M0); (* SDRC_D1 *)
  (0x0034, pad IEN PTD DIS M0); (* SDRC_D2 *)
  (0x0036, pad IEN PTD DIS M0); (* SDRC_D3 *)
  (0x0038, pad IEN PTD DIS M0); (* SDRC_D4 *)
  (0x003A, pad IEN PTD DIS M0); (* SDRC_D5 *)
  (0x003C, pad IEN PTD DIS M0); (* SDRC_D6 *)
  (0x003E, pad IEN PTD DIS M0); (* SDRC_D7 *)
  (0x0040, pad IEN PTD DIS M0); (* SDRC_D8 *)
  (0x0042, pad IEN PTD DIS M0); (* SDRC_D9 *)
  (0x0044, pad IEN PTD DIS M0); (* SDRC_D10 *)
  (0x0046, pad IEN PTD DIS M0); (* SDRC_D11 *)
  (0x0048, pad IEN PTD DIS M0); (* SDRC_D12 *)
  (0x004A, pad IEN PTD DIS M0); (* SDRC_D13 *)
  (0x004C, pad IEN PTD DIS M0); (* SDRC_D14 *)
  (0x004E, pad IEN PTD DIS M0); (* SDRC_D15 *)
  (0x0050, pad IEN PTD DIS M0); (* SDRC_D16 *)
  (0x0052, pad IEN PTD DIS M0); (* SDRC_D17 *)
  (0x0054, pad IEN PTD DIS M0); (* SDRC_D18 *)
  (0x0056, pad IEN PTD DIS M0); (* SDRC_D19 *)
  (0x0058, pad IEN PTD DIS M0); (* SDRC_D20 *)
  (0x005A, pad IEN PTD DIS M0); (* SDRC_D21 *)
  (0x005C, pad IEN PTD DIS M0); (* SDRC_D22 *)
  (0x005E, pad IEN PTD DIS M0); (* SDRC_D23 *)
  (0x0060, pad IEN PTD DIS M0); (* SDRC_D24 *)
  (0x0062, pad IEN PTD DIS M0); (* SDRC_D25 *)
  (0x0064, pad IEN PTD DIS M0); (* SDRC_D26 *)
  (0x0066, pad IEN PTD DIS M0); (* SDRC_D27 *)
  (0x0068, pad IEN PTD DIS M0); (* SDRC_D28 *)
  (0x006A, pad IEN PTD DIS M0); (* SDRC_D29 *)
  (0x006C, pad IEN PTD DIS M0); (* SDRC_D30 *)
  (0x006E, pad IEN PTD DIS M0); (* SDRC_D31 *)
  (0x0070, pad IEN PTD DIS M0); (* SDRC_CLK *)
  (0x0072, pad IEN PTD DIS M0); (* SDRC_DQS0 *)
  (0x0074, pad IEN PTD DIS M0); (* SDRC_DQS1 *)
  (0x0076, pad IEN PTD DIS M0); (* SDRC_DQS2 *)
  (0x0078, pad IEN PTD DIS M0); (* SDRC_DQS3 *)
  (0x021A, pad IEN PTD EN M0); (* SDRC_DQS0N *)
  (0x021C, pad IEN PTD EN M0); (* SDRC_DQS1N *)
  (0x021E, pad IEN PTD EN M0); (* SDRC_DQS2N *)
  (0x0220, pad IEN PTD EN M0); (* SDRC_DQS3N *)
  (0x0262, M0); (* SDRC_CKE0 *)
  (0x0222, pad IEN PTD EN M0); (* STRBEN_DLY0: sdrc_strben_dly0 *)
  (0x0224, pad IEN PTD EN M0) (* STRBEN_DLY1: sdrc_strben_dly1 *)
].

Definition mux_gpmc (rev : Z) : list (Z * Z) := [
  (0x007A, pad IDIS PTU EN M0); (* GPMC_A1 *)
  (0x007C, pad IDIS PTU EN M0); (* GPMC_A2 *)
  (0x007E, pad IDIS PTU EN M0); (* GPMC_A3 *)
  (0x0080, pad IDIS PTU EN M0); (* GPMC_A4 *)
  (0x0082, pad IDIS PTU EN M0); (* GPMC_A5 *)
  (0x0084, pad IDIS PTU EN M0); (* GPMC_A6 *)
  (0x0086, pad IDIS PTU EN M0); (* GPMC_A7 *)
  (0x0088, pad IDIS PTU EN M0); (* GPMC_A8 *)
  (0x008A, pad IDIS PTU EN M0); (* GPMC_A9 *)
  (0x008C, pad IDIS PTU EN M0); (* GPMC_A10 *)
  (0x008E, pad IEN PTU EN M0); (* GPMC_D0 *)
  (0x0090, pad IEN PTU EN M0); (* GPMC_D1 *)
  (0x0092, pad IEN PTU EN M0); (* GPMC_D2 *)
  (0x0094, pad IEN PTU EN M0); (* GPMC_D3 *)
  (0x0096, pad IEN PTU EN M0); (* GPMC_D4 *)
  (0x0098, pad IEN PTU EN M0); (* GPMC_D5 *)
  (0x009A, pad IEN PTU EN M0); (* GPMC_D6 *)
  (0x009C, pad IEN PTU EN M0); (* GPMC_D7 *)
  (0x009E, pad IEN PTU EN M0); (* GPMC_D8 *)
  (0x00A0, pad IEN PTU EN M0); (* GPMC_D9 *)
  (0x00A2, pad IEN PTU EN M0); (* GPMC_D10 *)
  (0x00A4, pad IEN PTU EN M0); (* GPMC_D11 *)
  (0x00A6, pad IEN PTU EN M0); (* GPMC_D12 *)
  (0x00A8, pad IEN PTU EN M0); (* GPMC_D13 *)
  (0x00AA, pad IEN PTU EN M0); (* GPMC_D14 *)
  (0x00AC, pad IEN PTU EN M0); (* GPMC_D15 *)
  (0x00AE, pad IDIS PTU EN M0); (* GPMC_NCS0 *)
  (0x00B0, pad IDIS PTU EN M0); (* GPMC_NCS1 *)
  (0x00B2, pad IDIS PTU EN M0); (* GPMC_NCS2 *)
  (0x00B4, pad IEN PTU EN M1); (* GPMC_NCS3: sys_ndmareq0 *)
  (0x00B6, pad IEN PTU EN M1); (* GPMC_NCS4: sys_ndmareq0 *)
  (0x00B8, pad IEN PTU EN M1); (* GPMC_NCS5: sys_ndmareq0 *)
  (0x00BA, pad IEN PTU EN M1); (* GPMC_NCS6: sys_ndmareq0 *)
  (0x00BC, pad IDIS PTU EN M0); (* GPMC_NCS7: gpmc_ncs7 *)
  (0x00BE, pad IEN PTD EN M0); (* GPMC_CLK *)
  (0x00C0, pad IDIS PTD DIS M0); (* GPMC_NADV_ALE *)
  (0x00C2, pad IDIS PTD DIS M0); (* GPMC_NOE *)
  (0x00C4, pad IDIS PTD DIS M0); (* GPMC_NWE *)
  (0x00C6, pad IDIS PTU DIS M0); (* GPMC_NBE0_CLE *)
  (0x00C8, pad IDIS PTU DIS M4); (* GPMC_NBE1: GPIO_61 *)
  (0x00CA, pad IEN PTD DIS M0); (* GPMC_NWP *)
  (0x00CC, pad IEN PTU EN M0); (* GPMC_WAIT0 *)
  (0x00CE, if rev =? 10 then pad IEN PTD EN M0 else pad IEN PTU EN M0); (* GPMC_WAIT1 *)
  (0x00D0, pad IEN PTU EN M0); (* GPMC_WAIT2 *)
  (0x00D2, pad IDIS PTU DIS M4) (* GPMC_WAIT3: GPIO_65 *)
].

Definition mux_dss (rev : Z) : list (Z * Z) := [
  (0x00D4, pad IDIS PTD DIS M0); (* DSS_PCLK *)
  (0x00D6, pad IDIS PTD DIS M0); (* DSS_HSYNC *)
  (0x00D8, pad IDIS PTD DIS M0); (* DSS_VSYNC *)
  (0x00DA, pad IDIS PTD DIS M0); (* DSS_ACBIAS *)
  (0x00DC, pad IDIS PTD DIS M0); (* DSS_DATA0 *)
  (0x00DE, pad IDIS PTD DIS M0); (* DSS_DATA1 *)
  (0x00E0, pad IDIS PTD DIS M0); (* DSS_DATA2 *)
  (0x00E2, pad IDIS PTD DIS M0); (* DSS_DATA3 *)
  (0x00E4, pad IDIS PTD DIS M0); (* DSS_DATA4 *)
  (0x00E6, pad IDIS PTD DIS M0); (* DSS_DATA5 *)
  (0x00E8, pad IDIS PTD DIS M0); (* DSS_DATA6 *)
  (0x00EA, pad IDIS PTD DIS M0); (* DSS_DATA7 *)
  (0x00EC, pad IDIS PTD DIS M0); (* DSS_DATA8 *)
  (0x00EE, pad IDIS PTD DIS M0); (* DSS_DATA9 *)
  (0x00F0, pad IDIS PTD DIS M0); (* DSS_DATA10 *)
  (0x00F2, pad IDIS PTD DIS M0); (* DSS_DATA11 *)
  (0x00F4, pad IDIS PTD DIS M0); (* DSS_DATA12 *)
  (0x00F6, pad IDIS PTD DIS M0); (* DSS_DATA13 *)
  (0x00F8, pad IDIS PTD DIS M0); (* DSS_DATA14 *)
  (0x00FA, pad IDIS PTD DIS M0); (* DSS_DATA15 *)
  (0x00FC, pad IDIS PTD DIS M0); (* DSS_DATA16 *)
  (0x00FE, pad IDIS PTD DIS M0); (* DSS_DATA17 *)
  (0x0100, pad IDIS PTD DIS M0); (* DSS_DATA18 *)
  (0x0102, pad IDIS PTD DIS M0); (* DSS_DATA19 *)
  (0x0104, pad IDIS PTD DIS M0); (* DSS_DATA20 *)
  (0x0106, pad IDIS PTD DIS M0); (* DSS_DATA21 *)
  (0x0108, pad IDIS PTD DIS M0); (* DSS_DATA22 *)
  (0x010A, pad IDIS PTD DIS M0) (* DSS_DATA23 *)
].

Definition mux_mmc (rev : Z) : list (Z * Z) := [
  (0x0144, pad IEN PTU DIS M4); (* MMC1_CLK: GPIO_120 *)
  (0x0146, pad IEN PTU DIS M4); (* MMC1_CMD: GPIO_121 *)
  (0x0148, pad IDIS PTU DIS M1); (* MMC1_DAT0: MCSPI2_CLK *)
  (0x014A, pad IDIS PTU DIS M1); (* MMC1_DAT1: MCSPI2_SIMO *)
  (0x014C, pad IEN PTU DIS M1); (* MMC1_DAT2: MCSPI2_SOMI *)
  (0x014E, pad IDIS PTU DIS M1); (* MMC1_DAT3: MCSPI2_CS0 *)
  (0x0150, pad IDIS PTU DIS M4); (* MMC1_DAT4: GPIO_126 *)
  (0x0152, pad IEN PTU DIS M4); (* MMC1_DAT5: GPIO_127 *)
  (0x0154, pad IEN PTU DIS M4); (* MMC1_DAT6: GPIO_128 *)
  (0x0156, pad IDIS PTU DIS M4); (* MMC1_DAT7: GPIO_129 *)
  (0x0158, if rev =? 10 then pad IEN PTU EN M0 else pad IDIS PTD DIS M0); (* MMC2_CLK *)
  (0x015A, pad IEN PTD DIS M0); (* MMC2_CMD *)
  (0x015C, pad IEN PTD DIS M0); (* MMC2_DAT0 *)
  (0x015E, pad IEN PTD DIS M0); (* MMC2_DAT1 *)
  (0x0160, pad IEN PTD DIS M0); (* MMC2_DAT2 *)
  (0x0162, pad IEN PTD DIS M0); (* MMC2_DAT3 *)
  (0x0164, pad IEN PTD DIS M4); (* MMC2_DAT4: GPIO_136 *)
  (0x0166, pad IEN PTD DIS M4); (* MMC2_DAT5: GPIO_137 *)
  (0x0168, pad IEN PTD DIS M4); (* MMC2_DAT6: GPIO_138 *)
  (0x016A, pad IEN PTD DIS M1) (* MMC2_DAT7: MMC2_CLKIN *)
].

Definition mux_mcbsp (rev : Z) : list (Z * Z) := [
  (0x0194, pad IEN PTU DIS M4); (* MCBSP_CLKS: GPIO_160 *)
  (0x018C, pad IDIS PTU DIS M4); (* MCBSP1_CLKR: GPIO_156 *)
  (0x018E, pad IDIS PTU DIS M4); (* MCBSP1_FSR: GPIO_157 *)
  (0x0190, pad IDIS PTD DIS M4); (* MCBSP1_DX: GPIO_158 *)
  (0x0192, pad IEN PTD DIS M4); (* MCBSP1_DR: GPIO_159 *)
  (0x0196, pad IEN PTD DIS M4); (* MCBSP1_FSX: GPIO_161 *)
  (0x0198, pad IEN PTD DIS M4); (* MCBSP1_CLKX: GPIO_162 *)
  (0x013C, pad IEN PTD DIS M0); (* MCBSP2_FSX *)
  (0x013E, pad IEN PTD DIS M0); (* MCBSP2_CLKX *)
  (0x0140, pad IEN PTD DIS M0); (* MCBSP2_DR *)
  (0x0142, pad IDIS PTD DIS M0); (* MCBSP2_DX *)
  (0x016C, pad IEN PTD DIS M4); (* MCBSP3_DX: GPIO_140 *)
  (0x016E, pad IEN PTD DIS M4); (* MCBSP3_DR: GPIO_141 *)
  (0x0170, pad IEN PTD DIS M4); (* MCBSP3_CLKX: GPIO_142 *)
  (0x0172, pad IDIS PTD DIS M4); (* MCBSP3_FSX: GPIO_143 *)
  (0x0184, pad IEN PTD DIS M4); (* MCBSP4_CLKX: GPIO_152 *)
  (0x0186, pad IEN PTD DIS M4); (* MCBSP4_DR: GPIO_153 *)
  (0x0188, pad IEN PTD DIS M4); (* MCBSP4_DX: GPIO_154 *)
  (0x018A, pad IEN PTD DIS M4) (* MCBSP4_FSX: GPIO_155 *)
].

Definition mux_serial (rev : Z) : list (Z * Z) := [
  (0x017C, pad IDIS PTD DIS M0); (* UART1_TX *)
  (0x017E, pad IDIS PTD DIS M0); (* UART1_RTS *)
  (0x0180, pad IEN PTU DIS M0); (* UART1_CTS *)
  (0x0182, pad IEN PTD DIS M0); (* UART1_RX *)
  (0x0174, pad IEN PTU EN M0); (* UART2_CTS *)
  (0x0176, pad IDIS PTD DIS M0); (* UART2_RTS *)
  (0x0178, pad IDIS PTD DIS M0); (* UART2_TX *)
  (0x017A, pad IEN PTD DIS M0); (* UART2_RX *)
  (0x019A, pad IEN PTU DIS M0); (* UART3_CTS_RCTX *)
  (0x019C, pad IDIS PTD DIS M0); (* UART3_RTS_SD *)
  (0x019E, pad IEN PTD DIS M0); (* UART3_RX_IRRX *)
  (0x01A0, pad IDIS PTD DIS M0); (* UART3_TX_IRTX *)
  (0x01BA, pad IEN PTU DIS M0); (* I2C1_SCL *)
  (0x01BC, pad IEN PTU DIS M0); (* I2C1_SDA *)
  (0x01BE, pad IEN PTU DIS M0); (* I2C2_SCL *)
  (0x01C0, pad IEN PTU DIS M0); (* I2C2_SDA *)
  (0x01C2, pad IEN PTU DIS M0); (* I2C3_SCL *)
  (0x01C4, pad IEN PTU DIS M0); (* I2C3_SDA *)
  (0x01C8, pad IEN PTD DIS M0); (* MCSPI1_CLK *)
  (0x01CA, pad IEN PTD DIS M0); (* MCSPI1_SIMO *)
  (0x01CC, pad IEN PTD DIS M0); (* MCSPI1_SOMI *)
  (0x01CE, pad IEN PTD EN M0); (* MCSPI1_CS0 *)
  (0x01D0, pad IEN PTD EN M0); (* MCSPI1_CS1 *)
  (0x01D2, pad IEN PTU DIS M0); (* MCSPI1_CS2 *)
  (0x01D4, pad IEN PTD DIS M3); (* MCSPI1_CS3: HSUSB2_DATA2 *)
  (0x01D6, pad IEN PTD DIS M3); (* MCSPI2_CLK: HSUSB2_DATA7 *)
  (0x01D8, pad IEN PTD DIS M3); (* MCSPI2_SIMO: HSUSB2_DATA4 *)
  (0x01DA, pad IEN PTD DIS M3); (* MCSPI2_SOMI: HSUSB2_DATA5 *)
  (0x01DC, pad IEN PTD DIS M3); (* MCSPI2_CS0: HSUSB2_DATA6 *)
  (0x01DE, pad IEN PTD DIS M3) (* MCSPI2_CS1: HSUSB2_DATA3 *)
].

Definition mux_ccdc (rev : Z) : list (Z * Z) := [
  (0x01E4, pad IEN PTU DIS M4); (* CCDC_PCLK: GPIO_94 *)
  (0x01E6, pad IDIS PTD DIS M4); (* CCDC_FIELD: GPIO_95 *)
  (0x01E8, pad IEN PTU DIS M4); (* CCDC_HD: GPIO_96 *)
  (0x01EA, pad IEN PTU DIS M4); (* CCDC_VD: GPIO_97 *)
  (0x01EC, pad IEN PTD DIS M4); (* CCDC_WEN: GPIO_98 *)
  (0x01EE, pad IDIS PTD DIS M4); (* CCDC_DATA0: GPIO_99 *)
  (0x01F0, pad IDIS PTD DIS M4); (* CCDC_DATA1: GPIO_100 *)
  (0x01F2, pad IDIS PTD DIS M4); (* CCDC_DATA2: GPIO_101 *)
  (0x01F4, pad IDIS PTD DIS M4); (* CCDC_DATA3: GPIO_102 *)
  (0x01F6, pad IDIS PTD DIS M4); (* CCDC_DATA4: GPIO_103 *)
  (0x01F8, pad IDIS PTD DIS M4); (* CCDC_DATA5: GPIO_104 *)
  (0x01FA, pad IDIS PTD DIS M4); (* CCDC_DATA6: GPIO_105 *)
  (0x01FC, pad IDIS PTD DIS M4) (* CCDC_DATA7: GPIO_106 *)
].

Definition mux_rmii (rev : Z) : list (Z * Z) := [
  (0x01FE, pad IEN PTD DIS M0); (* RMII_MDIO_DATA *)
  (0x0200, pad IDIS PTD DIS M0); (* RMII_MDIO_CLK *)
  (0x0202, pad IEN PTD DIS M0); (* RMII_RXD0 *)
  (0x0204, pad IEN PTD DIS M0); (* RMII_RXD1 *)
  (0x0206, pad IEN PTD DIS M0); (* RMII_CRS_DV *)
  (0x0208, pad IEN PTD DIS M0); (* RMII_RXER *)
  (0x020A, pad IDIS PTD DIS M0); (* RMII_TXD0 *)
  (0x020C, pad IDIS PTD DIS M0); (* RMII_TXD1 *)
  (0x020E, pad IDIS PTD DIS M0); (* RMII_TXEN *)
  (0x0210, pad IEN PTD EN M0); (* RMII_50MHZ_CLK *)
  (0x0214, pad IDIS PTD DIS M4); (* HECC1_TXD *)
  (0x0216, pad IDIS PTD DIS M4); (* HECC1_RXD *)
  (0x0212, pad IDIS PTD DIS M0); (* USB0_DRVBUS *)
  (0x01C6, pad IEN PTU DIS M1) (* HDQ_SIO *)
].

Definition mux_boot (rev : Z) : list (Z * Z) := [
  (0x0A04, pad IEN PTD DIS M0); (* SYS_32K *)
  (0x0A06, pad IEN PTD DIS M0); (* SYS_CLKREQ *)
  (0x01E0, pad IEN PTU EN M0); (* SYS_NIRQ *)
  (0x0A08, if rev =? 10 then pad IEN PTU DIS M4 else pad IDIS PTU DIS M4); (* SYS_NRESWARM: GPIO_30 *)
  (0x0A0A, pad IEN PTD DIS M4); (* SYS_BOOT0: GPIO_2 *)
  (0x0A0C, pad IEN PTD DIS M4); (* SYS_BOOT1: GPIO_3 *)
  (0x0A0E, pad IEN PTD DIS M4); (* SYS_BOOT2: GPIO_4 *)
  (0x0A10, pad IEN PTD DIS M0); (* SYS_BOOT3 *)
  (0x0A12, pad IEN PTD DIS M4); (* SYS_BOOT4: GPIO_6 *)
  (0x0A14, pad IEN PTD DIS M0); (* SYS_BOOT5 *)
  (0x0A16, pad IEN PTD DIS M4); (* SYS_BOOT6: GPIO_8 *)
  (0x0218, if rev =? 10 then pad IEN PTD DIS M4 else pad IEN PTD DIS M0); (* SYS_BOOT7 *)
  (0x0226, pad IEN PTD DIS M0); (* SYS_BOOT8 *)
  (0x0A1A, pad IEN PTU DIS M4); (* SYS_CLKOUT1: GPIO_10 *)
  (0x01E2, pad IEN PTU DIS M4) (* SYS_CLKOUT2: GPIO_186 *)
].

Definition mux_jtag_etk (rev : Z) : list (Z * Z) := [
  (0x0A1C, pad IEN PTD DIS M0); (* JTAG_nTRST *)
  (0x0A1E, pad IEN PTD DIS M0); (* JTAG_TCK *)
  (0x0A20, pad IEN PTD DIS M0); (* JTAG_TMS *)
  (0x0A22, pad IEN PTD DIS M0); (* JTAG_TDI *)
  (0x0A24, pad IDIS PTD DIS M4); (* JTAG_EMU0: GPIO_11 *)
  (0x0A26, pad IEN PTD DIS M4); (* JTAG_EMU1: GPIO_31 *)
  (0x05D8, pad IDIS PTU EN M3); (* ETK_CLK_ES2: HSUSB1_STP *)
  (0x05DA, pad IDIS PTD DIS M3); (* ETK_CTL_ES2: HSUSB1_CLK *)
  (0x05DC, pad IEN PTD DIS M3); (* ETK_D0_ES2: HSUSB1_DATA0 *)
  (0x05DE, pad IEN PTD DIS M3); (* ETK_D1_ES2: HSUSB1_DATA1 *)
  (0x05E0, pad IEN PTD DIS M3); (* ETK_D2_ES2: HSUSB1_DATA2 *)
  (0x05E2, pad IEN PTD DIS M3); (* ETK_D3_ES2: HSUSB1_DATA7 *)
  (0x05E4, pad IEN PTD DIS M3); (* ETK_D4_ES2: HSUSB1_DATA4 *)
  (0x05E6, pad IEN PTD DIS M3); (* ETK_D5_ES2: HSUSB1_DATA5 *)
  (0x05E8, pad IEN PTD DIS M3); (* ETK_D6_ES2: HSUSB1_DATA6 *)
  (0x05EA, pad IEN PTD DIS M3); (* ETK_D7_ES2: HSUSB1_DATA3 *)
  (0x05EC, pad IEN PTD DIS M3); (* ETK_D8_ES2: HSUSB1_DIR *)
  (0x05EE, pad IEN PTD DIS M3); (* ETK_D9_ES2: HSUSB1_NXT *)
  (0x05F0, pad IDIS PTD DIS M3); (* ETK_D10_ES2: HSUSB2_CLK *)
  (0x05F2, pad IDIS PTU EN M3); (* ETK_D11_ES2: HSUSB2_STP *)
  (0x05F4, pad IEN PTD DIS M3); (* ETK_D12_ES2: HSUSB2_DIR *)
  (0x05F6, pad IEN PTD DIS M3); (* ETK_D13_ES2: HSUSB2_NXT *)
  (0x05F8, pad IEN PTD DIS M3); (* ETK_D14_ES2: HSUSB2_DATA0 *)
  (0x05FA, pad IEN PTD DIS M3) (* ETK_D15_ES2: HSUSB2_DATA1 *)
].

(** [rev] is [CONFIG_RHINO_REV]. *)
Definition MUX_RHINO (rev : Z) : list (Z * Z) :=
  mux_sdrc rev ++ mux_gpmc rev ++ mux_dss rev ++ mux_mmc rev ++ mux_mcbsp rev ++ mux_serial rev ++ mux_ccdc rev ++ mux_rmii rev ++
  mux_boot rev ++ mux_jtag_etk rev.

(** ** The external memory bus *)
Definition SYSBOOT_MASK : Z := 0x3F.
Definition GPMC_BASE : Z := 0x6E000000.
Definition GPMC_IRQENABLE : Z := GPMC_BASE + 0x1C.
Definition GPMC_TIMEOUT_CONTROL : Z := GPMC_BASE + 0x40.
Definition GPMC_CONFIG : Z := GPMC_BASE + 0x50.
(** [&gpmc_cfg->cs[k]] *)
Definition GPMC_CS (k : Z) : Z := GPMC_BASE + 0x60 + 0x30 * k.
Definition GPMC_SIZE_128M : Z := 0x8.
Definition NAND_BASE : Z := 0x30000000.
Definition SMNAND_ENV_OFFSET : Z := 0x260000.
Definition MACH_TYPE_RHINO : Z := 3360.
Definition OMAP34XX_SDRC_CS0 : Z := 0x80000000.

(** U-Boot numbers the chip selects of the FPGA from 1 on. *)
Module UBootCs.
Definition FPGA_CS1_BASE : Z := 0x08000000.
Definition FPGA_CS2_BASE : Z := 0x10000000.
Definition FPGA_CS3_BASE : Z := 0x18000000.
Definition FPGA_CS4_BASE : Z := 0x20000000.
Definition FPGA_CS5_BASE : Z := 0x28000000.
Definition FPGA_CS6_BASE : Z := 0x38000000.
End UBootCs.

Definition gpmc_m_nand : list Z := [0x00001800; 0x00141400; 0x00141400; 0x0F010F01; 0x010C1414; 0x1f0f0A80; 0].
Definition gpmc_fpga_config : list Z := [0x2C651201; 0x00071900; 0x00030300; 0x07031903; 0x0016081A; 0x06030000; 0].

(** The global variables that the two functions set. *)
Record board : Type := mk_board {
  boot_flash_base : Z; boot_flash_off : Z; boot_flash_sec : Z; boot_flash_env_addr : Z;
  bi_arch_number : Z; bi_boot_params : Z
}.

Section uboot.
Context {D : Type} `{Mmio D}.
Abbreviation DM := (M D).

(** [set_muxconf_regs] of U-Boot. *)
Definition set_muxconf_rhino (rev : Z) : DM unit := mux_all (MUX_RHINO rev).

Definition get_boot_type : DM Z := let! v := readl CONTROL_STATUS in mret (Z.land v SYSBOOT_MASK).

Definition enable_gpmc_cs_config (gpmc_config : list Z) (cs base size : Z) : DM unit :=
  let config i := nth i gpmc_config 0 in
  do! writel 0 (cs + 0x18) in
  do! writel (config 0%nat) (cs + 0x00) in
  do! writel (config 1%nat) (cs + 0x04) in
  do! writel (config 2%nat) (cs + 0x08) in
  do! writel (config 3%nat) (cs + 0x0C) in
  do! writel (config 4%nat) (cs + 0x10) in
  do! writel (config 5%nat) (cs + 0x14) in
  writel (Z.lor (Z.lor (Z.shiftl (Z.land size 0xF) 8) (Z.land (Z.shiftr base 24) 0x3F)) (Z.shiftl 1 6)) (cs + 0x18).

(** Returns [boot_flash_base], [boot_flash_off], [boot_flash_sec] and
[boot_flash_env_addr]. *)
Definition gpmc_init : DM (Z * Z * Z * Z) :=
  let! mem_type := get_boot_type in
  let order := Z.land mem_type (Z.shiftl 1 5) in
  do! writel 0 GPMC_IRQENABLE in
  do! writel 0 GPMC_TIMEOUT_CONTROL in
  do! (let! config := readl GPMC_CONFIG in writel (Z.land config (Z.lnot 0xf00)) GPMC_CONFIG) in
  do! (let! t := if truthy order then mret 0 else get_boot_type in
       if truthy order || negb (t =? 0xD) then writel 0 (GPMC_CS 0 + 0x18) else mret tt) in
  let base := NAND_BASE in
  let size := GPMC_SIZE_128M in
  do! (let! t := if truthy order then mret 0 else get_boot_type in
       if truthy order || negb (t =? 0xD) then enable_gpmc_cs_config gpmc_m_nand (GPMC_CS 0) base size
       else enable_gpmc_cs_config gpmc_m_nand (GPMC_CS 2) base size) in
  mret (base, SMNAND_ENV_OFFSET, Z.shiftl 128 10, SMNAND_ENV_OFFSET).

(** The bus and the globals; returns 0 in the code. *)
Definition board_init : DM board :=
  let! flash := gpmc_init in
  let '(fbase, foff, fsec, fenv) := flash in
  do! (let! config := readl GPMC_CONFIG in writel (Z.lor config 0x00000200) GPMC_CONFIG) in
  do! enable_gpmc_cs_config gpmc_fpga_config (GPMC_CS 1) UBootCs.FPGA_CS1_BASE GPMC_SIZE_128M in
  do! enable_gpmc_cs_config gpmc_fpga_config (GPMC_CS 2) UBootCs.FPGA_CS2_BASE GPMC_SIZE_128M in
  do! enable_gpmc_cs_config gpmc_fpga_config (GPMC_CS 3) UBootCs.FPGA_CS3_BASE GPMC_SIZE_128M in
  do! enable_gpmc_cs_config gpmc_fpga_config (GPMC_CS 4) UBootCs.FPGA_CS4_BASE GPMC_SIZE_128M in
  do! enable_gpmc_cs_config gpmc_fpga_config (GPMC_CS 5) UBootCs.FPGA_CS5_BASE GPMC_SIZE_128M in
  do! enable_gpmc_cs_config gpmc_fpga_config (GPMC_CS 6) UBootCs.FPGA_CS6_BASE GPMC_SIZE_128M in
  mret (mk_board fbase foff fsec fenv MACH_TYPE_RHINO (OMAP34XX_SDRC_CS0 + 0x100)).
End uboot.

(** * What the bus promises *)

(** Whether a chip select with [config7] answers to address [a], of 30 bits: its window
is valid, and the address has its base under its mask. *)
Definition gpmc_selects (config7 a : Z) : bool :=
  let mask := Z.lor 0x30 (bitfield config7 8 4) in
  Z.testbit config7 6 && (Z.land (Z.shiftr a 24) mask =? Z.land (bitfield config7 0 6) mask).

(** The chip selects that answer. *)
Definition gpmc_answer (r : Z -> Z) (a : Z) : list Z := filter (fun k => gpmc_selects (r (GPMC_CS k + 0x18)) a = true) [0; 1; 2; 3; 4; 5; 6; 7].

(** * Properties *)

(** ** The windows *)
Definition cs_ops (gpmc_config : list Z) (cs base size : Z) : list reg_op :=
  let config i := u32 (nth i gpmc_config 0) in
  [Put (cs + 0x18) 0; Put (cs + 0x00) (config 0%nat); Put (cs + 0x04) (config 1%nat); Put (cs + 0x08) (config 2%nat);
   Put (cs + 0x0C) (config 3%nat); Put (cs + 0x10) (config 4%nat); Put (cs + 0x14) (config 5%nat);
   Put (cs + 0x18) (u32 (Z.lor (Z.lor (Z.shiftl (Z.land size 0xF) 8) (Z.land (Z.shiftr base 24) 0x3F)) (Z.shiftl 1 6)))].

Definition gpmc_ops : list reg_op :=
  [Put GPMC_IRQENABLE 0] ++ [Put GPMC_TIMEOUT_CONTROL 0] ++ [Sr GPMC_CONFIG 8 4 0] ++ [Put (GPMC_CS 0 + 0x18) 0] ++
  cs_ops gpmc_m_nand (GPMC_CS 0) NAND_BASE GPMC_SIZE_128M.
Definition board_ops : list reg_op :=
  gpmc_ops ++ [Sr GPMC_CONFIG 9 1 1] ++
  cs_ops gpmc_fpga_config (GPMC_CS 1) UBootCs.FPGA_CS1_BASE GPMC_SIZE_128M ++
  cs_ops gpmc_fpga_config (GPMC_CS 2) UBootCs.FPGA_CS2_BASE GPMC_SIZE_128M ++
  cs_ops gpmc_fpga_config (GPMC_CS 3) UBootCs.FPGA_CS3_BASE GPMC_SIZE_128M ++
  cs_ops gpmc_fpga_config (GPMC_CS 4) UBootCs.FPGA_CS4_BASE GPMC_SIZE_128M ++
  cs_ops gpmc_fpga_config (GPMC_CS 5) UBootCs.FPGA_CS5_BASE GPMC_SIZE_128M ++
  cs_ops gpmc_fpga_config (GPMC_CS 6) UBootCs.FPGA_CS6_BASE GPMC_SIZE_128M.

Section laws.
Context {D : Type} {HD : Mmio D} (osc delta : Z) (polls : nat) {HL : MmioLaws osc delta polls}.

Abbreviation dd := (does osc delta polls).

Lemma does_enable gpmc_config cs base size : dd (enable_gpmc_cs_config gpmc_config cs base size) (cs_ops gpmc_config cs base size) 8.
Proof. unfold enable_gpmc_cs_config. does_list. Qed.

Lemma does_config_clear : dd (let! config := readl GPMC_CONFIG in writel (Z.land config (Z.lnot 0xf00)) GPMC_CONFIG) [Sr GPMC_CONFIG 8 4 0] 2.
Proof.
  apply (does_modify osc delta polls GPMC_CONFIG (fun v => Z.land v (Z.lnot 0xf00))); [done|]. intros r b Hr. cbn [run_op]. f_equal.
  unfold sr_value, wrapu. rewrite <- !Z.land_ones, <- Z.land_assoc, Z.lor_0_r by lia. done.
Qed.

Lemma does_config_wait : dd (let! config := readl GPMC_CONFIG in writel (Z.lor config 0x00000200) GPMC_CONFIG) [Sr GPMC_CONFIG 9 1 1] 2.
Proof.
  apply (does_modify osc delta polls GPMC_CONFIG (fun v => Z.lor v 0x200)); [done|]. intros r b Hr. cbn [run_op]. f_equal.
  symmetry. by apply (set_bit (r GPMC_CONFIG) 9).
Qed.

Lemma boot_type_tot r p t :
  tot (at_regs osc delta polls r p t) get_boot_type
    (fun v d => v = Z.land (r CONTROL_STATUS) SYSBOOT_MASK /\ at_regs osc delta polls r p (t + delta) d).
Proof.
  unfold get_boot_type. eapply tot_bind; [by apply readl_plain|]. intros v. apply tot_pure. intros [-> _]. by apply tot_ret.
Qed.

(** The choice [gpmc_init] makes, on a board that did not start from NOR flash. *)
Lemma not_nor order (m1 m2 : M D unit) l n r p t :
  Z.land (r CONTROL_STATUS) SYSBOOT_MASK <> 0xD -> dd m1 l n -> 0 <= n ->
  tot (at_regs osc delta polls r p t)
    (let! ty := if truthy order then mret 0 else get_boot_type in if truthy order || negb (ty =? 0xD) then m1 else m2)
    (fun _ d => at_regs osc delta polls (run_ops l r) p (t + (n + 1) * delta) d).
Proof.
  intros Hb Hm Hn. destruct (truthy order).
  - eapply tot_bind_eq; [apply tot_ret; done|]. apply (does_weaken osc delta polls m1 l n (n + 1) Hm ltac:(lia)).
  - eapply tot_bind; [apply boot_type_tot|]. intros ty. apply tot_pure. intros ->. rewrite (proj2 (Z.eqb_neq _ _) Hb). cbn [orb negb].
    eapply tot_conseq; [apply Hm|done|]. intros x d Hd. cbv beta in Hd. by replace (t + (n + 1) * delta) with (t + delta + n * delta) by lia.
Qed.

Abbreviation st := (at_regs osc delta polls).

Lemma gpmc_init_tot r p t :
  Z.land (r CONTROL_STATUS) SYSBOOT_MASK <> 0xD ->
  tot (st r p t) gpmc_init
    (fun f d => f = (NAND_BASE, SMNAND_ENV_OFFSET, 0x20000, SMNAND_ENV_OFFSET) /\ st (run_ops gpmc_ops r) p (t + 16 * delta) d).
Proof.
  intros Hb. unfold gpmc_init. eapply tot_bind; [apply boot_type_tot|]. intros ty. apply tot_pure. intros Ety.
  eapply tot_bind; [apply does_writel|]. intros ?. eapply tot_bind; [apply does_writel|]. intros ?.
  eapply tot_bind; [apply does_config_clear|]. intros ?.
  eapply tot_bind; [apply (not_nor _ _ _ [Put (GPMC_CS 0 + 0x18) 0] 1); [exact Hb|apply does_writel|lia]|]. intros ?.
  eapply tot_bind; [apply (not_nor _ _ _ (cs_ops gpmc_m_nand (GPMC_CS 0) NAND_BASE GPMC_SIZE_128M) 8); [exact Hb|apply does_enable|lia]|]. intros ?.
  apply tot_ret. intros d Hd. split; [done|]. unfold gpmc_ops, run_ops in *. rewrite !foldl_app.
  replace (t + 16 * delta) with (t + delta + 1 * delta + 1 * delta + 2 * delta + (1 + 1) * delta + (8 + 1) * delta) by lia. exact Hd.
Qed.

Lemma board_init_tot r p t :
  Z.land (r CONTROL_STATUS) SYSBOOT_MASK <> 0xD ->
  tot (st r p t) board_init
    (fun b d => b = mk_board NAND_BASE SMNAND_ENV_OFFSET 0x20000 SMNAND_ENV_OFFSET MACH_TYPE_RHINO 0x80000100 /\
                exists t', st (run_ops board_ops r) p t' d).
Proof.
  intros Hb. unfold board_init. eapply tot_bind; [by apply gpmc_init_tot|]. intros f. apply tot_pure. intros ->. cbv beta iota.
  eapply tot_bind; [apply does_config_wait|]. intros ?. do 6 (eapply tot_bind; [apply does_enable|]; intros ?).
  apply tot_ret. intros d Hd. split; [done|]. eexists. unfold board_ops. unfold run_ops in *. rewrite !foldl_app in *. exact Hd.
Qed.
End laws.

(** A window of 128 MB at a multiple of its size. *)
Lemma window_selects k a :
  0 <= k < 8 -> 0 <= a < 2 ^ 30 -> gpmc_selects (0x840 + 8 * k) a = (a / 2 ^ 27 =? k).
Proof.
  intros Hk Ha. assert (a / 2 ^ 27 = Z.shiftr a 24 / 8) as -> by (rewrite Z.shiftr_div_pow2, Z.div_div by lia; done).
  assert (0 <= Z.shiftr a 24 < 64) as Hh.
  { rewrite Z.shiftr_div_pow2 by lia. split; [apply Z.div_pos; lia|apply Z.div_lt_upper_bound; lia]. }
  unfold gpmc_selects. generalize dependent (Z.shiftr a 24). intros h Hh.
  assert (forallb (fun h => forallb (fun k =>
    eqb (Z.testbit (0x840 + 8 * k) 6 && (Z.land h (Z.lor 0x30 (bitfield (0x840 + 8 * k) 8 4)) =? Z.land (bitfield (0x840 + 8 * k) 0 6) (Z.lor 0x30 (bitfield (0x840 + 8 * k) 8 4))))
        (h / 8 =? k)) (seqZ 0 8)) (seqZ 0 64) = true) as Hall by by vm_compute.
  rewrite forallb_forall in Hall. specialize (Hall h). rewrite forallb_forall in Hall.
  apply eqb_prop, Hall; apply list_elem_of_In, elem_of_seqZ; lia.
Qed.

(** The window of the driver in Linux by the top bits of the address. *)
Lemma cs_index_top a :
  0 <= a < 2 ^ 30 ->
  cs_index a = if a / 2 ^ 27 =? 7 then Some 5%nat else if (1 <=? a / 2 ^ 27) && (a / 2 ^ 27 <=? 5) then Some (Z.to_nat (a / 2 ^ 27 - 1)) else None.
Proof.
  intros Ha. assert (0 <= a / 2 ^ 27 < 8) as Hq by (split; [apply Z.div_pos; lia|apply Z.div_lt_upper_bound; lia]).
  pose proof (Z.div_mod a (2 ^ 27) ltac:(lia)) as Hdm. pose proof (Z.mod_pos_bound a (2 ^ 27) ltac:(lia)) as Hm.
  set (q := a / 2 ^ 27) in *. unfold cs_index, FPGA_CS0_BASE, FPGA_CS1_BASE, FPGA_CS2_BASE, FPGA_CS3_BASE, FPGA_CS4_BASE, FPGA_CS5_BASE, SZ_128M.
  assert (q = 0 \/ q = 1 \/ q = 2 \/ q = 3 \/ q = 4 \/ q = 5 \/ q = 6 \/ q = 7) as Hc by lia. clearbody q.
  assert (forall b, (b * 2 ^ 27 <=? a) && (a <? b * 2 ^ 27 + 0x08000000) = (b =? q)) as Hin.
  { intros b. destruct (Z.leb_spec (b * 2 ^ 27) a), (Z.ltb_spec a (b * 2 ^ 27 + 0x08000000)), (Z.eqb_spec b q); nia || done. }
  cbv zeta.
  rewrite (Hin 1 : (0x08000000 <=? a) && (a <? 0x08000000 + 0x08000000) = (1 =? q)),
    (Hin 2 : (0x10000000 <=? a) && (a <? 0x10000000 + 0x08000000) = (2 =? q)),
    (Hin 3 : (0x18000000 <=? a) && (a <? 0x18000000 + 0x08000000) = (3 =? q)),
    (Hin 4 : (0x20000000 <=? a) && (a <? 0x20000000 + 0x08000000) = (4 =? q)),
    (Hin 5 : (0x28000000 <=? a) && (a <? 0x28000000 + 0x08000000) = (5 =? q)),
    (Hin 7 : (0x38000000 <=? a) && (a <? 0x38000000 + 0x08000000) = (7 =? q)).
  by destruct Hc as [->|[->|[->|[->|[->|[->|[->| ->]]]]]]].
Qed.

(** The pads of the pins that U-Boot and its programs move or read. *)
Definition gpio_pads : list (Z * Z) :=
  [(11, 0x0A24); (30, 0x0A08); (61, 0x00C8); (65, 0x00D2); (99, 0x01EE); (100, 0x01F0); (101, 0x01F2); (102, 0x01F4); (103, 0x01F6);
   (104, 0x01F8); (105, 0x01FA); (106, 0x01FC); (126, 0x0150); (127, 0x0152); (128, 0x0154); (129, 0x0156); (130, 0x0214); (131, 0x0216);
   (140, 0x016C); (141, 0x016E); (142, 0x0170); (143, 0x0172); (152, 0x0184); (153, 0x0186); (155, 0x018A)].
Definition pins_read : list Z := [127; 128; 142; 153].

(** For the tables of both revisions. *)
Ltac mux_cases rev :=
  unfold MUX_RHINO, mux_sdrc, mux_gpmc, mux_dss, mux_mmc, mux_mcbsp, mux_serial, mux_ccdc, mux_rmii, mux_boot, mux_jtag_etk;
  destruct (rev =? 10); vm_compute.

Section windows.
Context {D : Type} {HD : Mmio D} (osc delta : Z) (polls : nat) {HL : MmioLaws osc delta polls}.

(** C16. The windows of the FPGA.  On a board that did not start from NOR flash and whose
last chip select is not in use, [board_init] returns with the boot parameters set, the
polarity of WAIT1 set and that of the other waits clear, and a bus on which every
address has at most one chip select: the FPGA's [i + 1] exactly where the driver in
Linux takes an address for window [i], and the NAND flash in the gap between. *)
Theorem board_init_windows d :
  Z.land (regs d CONTROL_STATUS) SYSBOOT_MASK <> 0xD -> Z.testbit (regs d (GPMC_CS 7 + 0x18)) 6 = false ->
  exists d', runs board_init d (mk_board NAND_BASE SMNAND_ENV_OFFSET 0x20000 SMNAND_ENV_OFFSET MACH_TYPE_RHINO 0x80000100) d' /\
    bitfield (regs d' GPMC_CONFIG) 9 1 = 1 /\ bitfield (regs d' GPMC_CONFIG) 8 1 = 0 /\ bitfield (regs d' GPMC_CONFIG) 10 2 = 0 /\
    forall a, 0 <= a < 2 ^ 30 ->
      gpmc_answer (regs d') a = match cs_index a with Some i => [Z.of_nat i + 1] | None => if NAND_BASE <=? a then [0] else [] end.
Proof.
  intros Hb H7. destruct (board_init_tot osc delta polls (regs d) (pads d) (now d) Hb d) as (b & d' & Hr & -> & t' & H1 & _); [by repeat split|].
  exists d'. split; [exact Hr|].
  assert (Forall (fun o => op_ok o = true) board_ops) as Hok by (apply List.Forall_forall, forallb_forall; by vm_compute).
  assert (forall s n x, 0 <= s -> 0 <= n -> known (rev board_ops) GPMC_CONFIG s n = Some x -> bitfield (regs d' GPMC_CONFIG) s n = x) as Hf.
  { intros s n x Hs Hn Hk. rewrite H1 by done. apply known_sound; try done. apply regs_range. }
  split; [by apply Hf; [lia..|vm_compute]|]. split; [by apply Hf; [lia..|vm_compute]|]. split; [by apply Hf; [lia..|vm_compute]|].
  assert (forall k w, plain (GPMC_CS k + 0x18) = true -> run_ops board_ops (regs d) (GPMC_CS k + 0x18) = 0x840 + 8 * w ->
    0 <= w < 8 -> forall a, 0 <= a < 2 ^ 30 -> gpmc_selects (regs d' (GPMC_CS k + 0x18)) a = (a / 2 ^ 27 =? w)) as Hw.
  { intros k w Hp He Hwr a Ha. rewrite H1, He by done. by apply window_selects. }
  intros a Ha. rewrite cs_index_top by done. unfold gpmc_answer. cbn [filter list_filter].
  rewrite (Hw 0 6), (Hw 1 1), (Hw 2 2), (Hw 3 3), (Hw 4 4), (Hw 5 5), (Hw 6 7) by (done || lia).
  assert (gpmc_selects (regs d' (GPMC_CS 7 + 0x18)) a = false) as ->.
  { unfold gpmc_selects. rewrite H1 by done. change (run_ops board_ops (regs d) (GPMC_CS 7 + 0x18)) with (regs d (GPMC_CS 7 + 0x18)). by rewrite H7. }
  assert (0 <= a / 2 ^ 27 < 8) as Hq by (split; [apply Z.div_pos; lia|apply Z.div_lt_upper_bound; lia]).
  assert ((NAND_BASE <=? a) = (6 <=? a / 2 ^ 27)) as ->.
  { pose proof (Z.div_mod a (2 ^ 27) ltac:(lia)). pose proof (Z.mod_pos_bound a (2 ^ 27) ltac:(lia)). unfold NAND_BASE.
    destruct (Z.leb_spec 0x30000000 a), (Z.leb_spec 6 (a / 2 ^ 27)); done || lia. }
  generalize dependent (a / 2 ^ 27). intros q Hq.
  assert (q = 0 \/ q = 1 \/ q = 2 \/ q = 3 \/ q = 4 \/ q = 5 \/ q = 6 \/ q = 7) as Hc by lia.
  by destruct Hc as [->|[->|[->|[->|[->|[->|[->| ->]]]]]]].
Qed.

(** The pins behind the programs.  After U-Boot's [set_muxconf_regs], on boards of
either revision, every pin that U-Boot and its programs move is a general purpose pin,
and those they read are enabled as inputs; the registers are as before.  But of the six
chip selects that [board_init] gives to the FPGA only the first two leave the chip: the
pads of the other four are set to their second function, requests for DMA. *)
Lemma uboot_pads rev d :
  exists d', runs (set_muxconf_rhino rev) d tt d' /\ (forall a, plain a = true -> regs d' a = regs d a) /\
    (forall g o, In (g, o) gpio_pads -> bitfield (pads d' (OMAP34XX_CTRL_BASE + o)) 0 3 = M4) /\
    (forall g o, In (g, o) gpio_pads -> In g pins_read -> bitfield (pads d' (OMAP34XX_CTRL_BASE + o)) 8 1 = 1) /\
    (forall k, 0 <= k < 8 -> bitfield (pads d' (OMAP34XX_CTRL_BASE + (0x00AE + 2 * k))) 0 3 = if (3 <=? k) && (k <=? 6) then M1 else M0).
Proof.
  destruct (mux_tot osc delta polls (MUX_RHINO rev) (regs d) (pads d) (now d)) with (s := d) as ([] & d' & Hr & H1 & H2 & _);
    [by mux_cases rev|by repeat split|].
  exists d'. split; [exact Hr|]. split; [exact H1|].
  assert (forallb (fun '(g, o) => let v := run_pads (MUX_RHINO rev) (pads d) (OMAP34XX_CTRL_BASE + o) in
    (bitfield v 0 3 =? M4) && (negb (existsb (Z.eqb g) pins_read) || (bitfield v 8 1 =? 1))) gpio_pads = true) as Hg by by mux_cases rev.
  assert (forallb (fun k => bitfield (run_pads (MUX_RHINO rev) (pads d) (OMAP34XX_CTRL_BASE + (0x00AE + 2 * k))) 0 3
    =? if (3 <=? k) && (k <=? 6) then M1 else M0) (seqZ 0 8) = true) as Hk by by mux_cases rev.
  rewrite forallb_forall in Hg, Hk. split_and!.
  - intros g o Hin. rewrite H2. specialize (Hg _ Hin). cbv beta iota zeta in Hg. by apply andb_true_iff in Hg as [Hg%Z.eqb_eq _].
  - intros g o Hin Hp. rewrite H2. specialize (Hg _ Hin). cbv beta iota zeta in Hg. apply andb_true_iff in Hg as [_ Hg].
    assert (existsb (Z.eqb g) pins_read = true) as E by (apply existsb_exists; exists g; by rewrite Z.eqb_refl).
    rewrite E in Hg. by apply Z.eqb_eq in Hg.
  - intros k Hkr. rewrite H2. apply Z.eqb_eq, Hk, list_elem_of_In, elem_of_seqZ. lia.
Qed.
End windows.
