(* ===== verification/I2cUBoot.v ===== *)
(** * The I2C driver of U-Boot

[src/u-boot/drivers/i2c/omap24xx_i2c.c] with the constants of
[src/u-boot/arch/arm/include/asm/arch-omap3/i2c.h].  The registers of the controller are
a parameter; messages and delays are left out. *)
From stdpp Require Import base list.
From S2P Require Import Prelude Bits.
From Stdlib Require Import ZArith Lia.

(** ** [i2c.h] *)
Definition I2C_BASE1 : Z := 0x48070000.
Definition I2C_BASE2 : Z := 0x48072000.
Definition I2C_BASE3 : Z := 0x48060000.
Definition I2C_DEFAULT_BASE : Z := I2C_BASE1.
Definition I2C_BUS_MAX : Z := 3.
Definition I2C_IE : Z := I2C_DEFAULT_BASE + 0x04.
Definition I2C_STAT : Z := I2C_DEFAULT_BASE + 0x08.
Definition I2C_CNT : Z := I2C_DEFAULT_BASE + 0x18.
Definition I2C_DATA : Z := I2C_DEFAULT_BASE + 0x1c.
Definition I2C_CON : Z := I2C_DEFAULT_BASE + 0x24.
Definition I2C_OA : Z := I2C_DEFAULT_BASE + 0x28.
Definition I2C_SA : Z := I2C_DEFAULT_BASE + 0x2c.
Definition I2C_PSC : Z := I2C_DEFAULT_BASE + 0x30.
Definition I2C_SCLL : Z := I2C_DEFAULT_BASE + 0x34.
Definition I2C_SCLH : Z := I2C_DEFAULT_BASE + 0x38.
Definition I2C_IE_ALL : Z := 0x1F.
Definition I2C_STAT_BB : Z := Z.shiftl 1 12.
Definition I2C_STAT_ROVR : Z := Z.shiftl 1 11.
Definition I2C_STAT_XUDF : Z := Z.shiftl 1 10.
Definition I2C_STAT_XRDY : Z := Z.shiftl 1 4.
Definition I2C_STAT_RRDY : Z := Z.shiftl 1 3.
Definition I2C_STAT_ARDY : Z := Z.shiftl 1 2.
Definition I2C_STAT_NACK : Z := Z.shiftl 1 1.
Definition I2C_STAT_AL : Z := Z.shiftl 1 0.
Definition I2C_CON_EN : Z := Z.shiftl 1 15.
Definition I2C_CON_MST : Z := Z.shiftl 1 10.
Definition I2C_CON_TRX : Z := Z.shiftl 1 9.
Definition I2C_CON_STP : Z := Z.shiftl 1 1.
Definition I2C_CON_STT : Z := Z.shiftl 1 0.
Definition OMAP_I2C_STANDARD : Z := 100000.
Definition OMAP_I2C_FAST_MODE : Z := 400000.
Definition OMAP_I2C_HIGH_SPEED : Z := 3400000.
Definition I2C_IP_CLK : Z := 96000000.
Definition I2C_INTERNAL_SAMPLING_CLK : Z := 19200000.
Definition I2C_TRIM : Z := 6.
Definition I2C_PSC_MIN : Z := 0.
Definition CONFIG_SYS_I2C_SPEED : Z := 100000.
Definition CONFIG_SYS_I2C_SLAVE : Z := 0x10.
Definition CONFIG_SYS_MAX_I2C_BUS : Z := 3.

(** The registers of the chip, by address. *)
Class I2cPort (D : Type) : Type := {
  i2c_in : D -> Z -> Z * D;
  i2c_out : D -> Z -> Z -> D;
}.

(** The driver's variables and the chip. *)
Record i2c_drv (D : Type) : Type := mk_i2c {
  i2c_base : Z;
  bus_initialized : list Z;
  current_bus : Z;
  i2c_dev : D;
}.
Arguments mk_i2c {D}.
Arguments i2c_base {D}.
Arguments bus_initialized {D}.
Arguments current_bus {D}.
Arguments i2c_dev {D}.

(** [v & f] as a condition *)
Definition any (v f : Z) : bool := truthy (Z.land v f).

Section driver.
Context {D : Type} `{I2cPort D}.
Abbreviation DM := (M D).
Abbreviation IM := (M (i2c_drv D)).

Definition readw (a : Z) : DM Z := fun d => let '(v, d') := i2c_in d a in Ok (u16 v, d').
Definition readb (a : Z) : DM Z := fun d => let '(v, d') := i2c_in d a in Ok (u8 v, d').
Definition writew (v a : Z) : DM unit := fun d => Ok (tt, i2c_out d a (u16 v)).
Definition writeb (v a : Z) : DM unit := fun d => Ok (tt, i2c_out d a (u8 v)).

Fixpoint flush_fifo (fuel : nat) : DM unit :=
  match fuel with
  | O => mfault OutOfFuel
  | S fuel =>
    let! stat := readw I2C_STAT in
    if stat =? I2C_STAT_RRDY then
      let! _ := readb I2C_DATA in
      do! writew I2C_STAT_RRDY I2C_STAT in
      flush_fifo fuel
    else mret tt
  end.

(** [while ((stat = readw (I2C_STAT) & I2C_STAT_BB) && timeout--)]; returns
[timeout]. *)
Fixpoint bb_loop (timeout : nat) : DM Z :=
  let! v := readw I2C_STAT in
  let stat := Z.land v I2C_STAT_BB in
  if truthy stat then
    match timeout with
    | O => mret (-1)
    | S timeout => do! writew stat I2C_STAT in bb_loop timeout
    end
  else mret (Z.of_nat timeout).

Definition wait_for_bb : DM unit :=
  do! writew 0xFFFF I2C_STAT in
  let! timeout := bb_loop 10 in
  do! (if timeout <=? 0 then let! _ := readw I2C_STAT in mret tt else mret tt) in
  writew 0xFFFF I2C_STAT.

Definition pin_events : Z :=
  Z.lor (Z.lor (Z.lor (Z.lor (Z.lor (Z.lor I2C_STAT_ROVR I2C_STAT_XUDF) I2C_STAT_XRDY) I2C_STAT_RRDY) I2C_STAT_ARDY) I2C_STAT_NACK) I2C_STAT_AL.

(** [do ... while (!(status & ...) && timeout--)]; returns [status] and [timeout]. *)
Fixpoint pin_loop (timeout : nat) : DM (Z * Z) :=
  let! status := readw I2C_STAT in
  if any status pin_events then mret (status, Z.of_nat timeout)
  else match timeout with O => mret (status, -1) | S timeout => pin_loop timeout end.

Definition wait_for_pin : DM Z :=
  let! r := pin_loop 10 in
  let '(status, timeout) := r in
  do! (if timeout <=? 0 then let! _ := readw I2C_STAT in writew 0xFFFF I2C_STAT else mret tt) in
  mret status.

(** [while (readw (I2C_STAT) & (I2C_STAT_RRDY | I2C_STAT_ARDY))] *)
Fixpoint free_loop (fuel : nat) : DM unit :=
  match fuel with
  | O => mfault OutOfFuel
  | S fuel =>
    let! v := readw I2C_STAT in
    if any v (Z.lor I2C_STAT_RRDY I2C_STAT_ARDY) then do! writew 0xFFFF I2C_STAT in free_loop fuel else mret tt
  end.

(** [while (readw (I2C_STAT) || (readw (I2C_CON) & I2C_CON_MST))] *)
Fixpoint idle_loop (fuel : nat) : DM unit :=
  match fuel with
  | O => mfault OutOfFuel
  | S fuel =>
    let! v := readw I2C_STAT in
    let! c := if truthy v then mret 0 else readw I2C_CON in
    if truthy v || any c I2C_CON_MST then do! writew 0xFFFF I2C_STAT in idle_loop fuel else mret tt
  end.

(** The same with [--eout == 0] as a way out. *)
Fixpoint eout_loop (eout : nat) : DM unit :=
  let! v := readw I2C_STAT in
  let! c := if truthy v then mret 0 else readw I2C_CON in
  if truthy v || any c I2C_CON_MST then
    do! writew 0xFFFF I2C_STAT in
    match eout with O => mret tt | S eout => eout_loop eout end
  else mret tt.

Definition finish_byte (fuel : nat) : DM unit :=
  do! flush_fifo fuel in
  do! writew 0xFFFF I2C_STAT in
  writew 0 I2C_CNT.

(** The result is [i2c_error] and, if it is 0, the [value]. *)
Definition i2c_read_byte (fuel : nat) (devaddr regoffset : Z) : DM (Z * option Z) :=
  do! wait_for_bb in
  do! writew 1 I2C_CNT in
  do! writew devaddr I2C_SA in
  do! writew (Z.lor (Z.lor (Z.lor I2C_CON_EN I2C_CON_MST) I2C_CON_TRX) I2C_CON_STT) I2C_CON in
  let! status := wait_for_pin in
  let! i2c_error :=
    if any status I2C_STAT_XRDY then
      do! writew regoffset I2C_DATA in
      let! v := readw I2C_STAT in
      mret (if any v I2C_STAT_NACK then 1 else 0)
    else mret 1 in
  let! r :=
    if negb (truthy i2c_error) then
      do! writew I2C_CON_EN I2C_CON in
      do! free_loop fuel in
      do! writew devaddr I2C_SA in
      do! writew 1 I2C_CNT in
      do! writew (Z.lor (Z.lor (Z.lor I2C_CON_EN I2C_CON_MST) I2C_CON_STT) I2C_CON_STP) I2C_CON in
      let! status := wait_for_pin in
      if any status I2C_STAT_RRDY then
        let! value := readb I2C_DATA in
        do! writew I2C_CON_EN I2C_CON in
        do! idle_loop fuel in
        mret (0, Some value)
      else mret (1, None)
    else mret (i2c_error, None) in
  do! finish_byte fuel in
  mret r.

Definition i2c_write_byte (fuel : nat) (devaddr regoffset value : Z) : DM Z :=
  do! wait_for_bb in
  do! writew 2 I2C_CNT in
  do! writew devaddr I2C_SA in
  do! writew (Z.lor (Z.lor (Z.lor (Z.lor I2C_CON_EN I2C_CON_MST) I2C_CON_STT) I2C_CON_TRX) I2C_CON_STP) I2C_CON in
  let! status := wait_for_pin in
  let! i2c_error :=
    if any status I2C_STAT_XRDY then
      do! writeb regoffset I2C_DATA in
      do! writew I2C_STAT_XRDY I2C_STAT in
      let! status := wait_for_pin in
      let! e :=
        if any status I2C_STAT_XRDY then
          do! writeb value I2C_DATA in
          do! writew I2C_STAT_XRDY I2C_STAT in
          mret 0
        else mret 1 in
      let! v := readw I2C_STAT in
      mret (if any v I2C_STAT_NACK then 1 else e)
    else mret 1 in
  do! (if negb (truthy i2c_error) then do! writew I2C_CON_EN I2C_CON in eout_loop 199 else mret tt) in
  do! finish_byte fuel in
  mret i2c_error.

(** 0 when a chip answers at the address. *)
Definition i2c_probe (fuel : nat) (chip : Z) : DM Z :=
  let! oa := readw I2C_OA in
  if chip =? oa then mret 1 else
  do! wait_for_bb in
  do! writew 1 I2C_CNT in
  do! writew chip I2C_SA in
  do! writew (Z.lor (Z.lor (Z.lor I2C_CON_EN I2C_CON_MST) I2C_CON_STT) I2C_CON_STP) I2C_CON in
  let! v := readw I2C_STAT in
  let! res :=
    if negb (any v I2C_STAT_NACK) then
      do! flush_fifo fuel in
      do! writew 0xFFFF I2C_STAT in
      mret 0
    else
      do! writew 0xFFFF I2C_STAT in
      let! con := readw I2C_CON in
      do! writew (Z.lor con I2C_CON_STP) I2C_CON in
      do! wait_for_bb in
      mret 1 in
  do! flush_fifo fuel in
  do! writew 0 I2C_CNT in
  do! writew 0xFFFF I2C_STAT in
  mret res.

(** The clock periods [i2c_init] chooses, if it does not refuse. *)
Definition i2c_clocks (speed : Z) : option (Z * Z * Z) :=
  if negb ((speed =? OMAP_I2C_STANDARD) || (speed =? OMAP_I2C_FAST_MODE) || (speed =? OMAP_I2C_HIGH_SPEED)) then None else
  let psc := I2C_IP_CLK / I2C_INTERNAL_SAMPLING_CLK - 1 in
  if psc <? I2C_PSC_MIN then None else
  let bad x := (x <? 0) || (255 <? x) in
  if speed =? OMAP_I2C_HIGH_SPEED then
    let fss := I2C_INTERNAL_SAMPLING_CLK / (2 * OMAP_I2C_FAST_MODE) - I2C_TRIM in
    let hss := I2C_INTERNAL_SAMPLING_CLK / (2 * speed) - I2C_TRIM in
    if bad fss then None else Some (psc, Z.lor (u32 (Z.shiftl (u32 hss) 8)) fss, Z.lor (u32 (Z.shiftl (u32 hss) 8)) fss)
  else
    let fss := I2C_INTERNAL_SAMPLING_CLK / (2 * speed) - I2C_TRIM in
    if bad fss then None else Some (psc, fss, fss).

(** The part of [i2c_init] that programs the controller. *)
Definition i2c_program (fuel : nat) (psc scll sclh slaveadd : Z) : DM unit :=
  let! con := readw I2C_CON in
  do! (if any con I2C_CON_EN then writew 0 I2C_CON else mret tt) in
  do! writew psc I2C_PSC in
  do! writew scll I2C_SCLL in
  do! writew sclh I2C_SCLH in
  do! writew slaveadd I2C_OA in
  do! writew I2C_CON_EN I2C_CON in
  do! writew I2C_IE_ALL I2C_IE in
  finish_byte fuel.

(** ** With the driver's variables *)
Definition i2c_lift {A} (m : DM A) : IM A := mzoom i2c_dev (fun d s => mk_i2c (i2c_base s) (bus_initialized s) (current_bus s) d) m.

Definition i2c_init (fuel : nat) (speed slaveadd : Z) : IM unit :=
  match i2c_clocks speed with
  | None => mret tt
  | Some (psc, scll, sclh) =>
    let! cur := mgets current_bus in
    let! l := mgets bus_initialized in
    if (0 <=? cur) && (cur <? zlen l) then
      do! mmodify (fun s => mk_i2c (i2c_base s) (<[Z.to_nat cur := 1]> l) cur (i2c_dev s)) in
      i2c_lift (i2c_program fuel psc scll sclh slaveadd)
    else mfault OutOfBounds
  end.

Fixpoint read_loop (fuel n : nat) (chip addr i : Z) : IM (Z * list Z) :=
  match n with
  | O => mret (0, [])
  | S n =>
    let! r := i2c_lift (i2c_read_byte fuel (u8 chip) (u8 (addr + i))) in
    match r with
    | (0, Some v) => let! rest := read_loop fuel n chip addr (i + 1) in mret (fst rest, v :: snd rest)
    | _ => do! i2c_init fuel CONFIG_SYS_I2C_SPEED CONFIG_SYS_I2C_SLAVE in mret (1, [])
    end
  end.

(** Returns the result and the bytes that were put into the buffer. *)
Definition i2c_read (fuel : nat) (chip addr alen len : Z) : IM (Z * list Z) :=
  if 1 <? alen then mret (1, [])
  else if 256 <? u32 (addr + len) then mret (1, [])
  else read_loop fuel (Z.to_nat len) chip addr 0.

Fixpoint write_loop (fuel : nat) (buffer : list Z) (chip addr i : Z) : IM Z :=
  match buffer with
  | [] => mret 0
  | b :: buffer =>
    let! e := i2c_lift (i2c_write_byte fuel (u8 chip) (u8 (addr + i)) b) in
    if truthy e then do! i2c_init fuel CONFIG_SYS_I2C_SPEED CONFIG_SYS_I2C_SLAVE in mret 1
    else write_loop fuel buffer chip addr (i + 1)
  end.

(** [len] is the length of [buffer]. *)
Definition i2c_write (fuel : nat) (chip addr alen : Z) (buffer : list Z) : IM Z :=
  if 1 <? alen then mret 1
  else if 256 <? u32 (addr + zlen buffer) then mret 1
  else write_loop fuel buffer chip addr 0.

(** [bus] is unsigned. *)
Definition i2c_set_bus_num (fuel : nat) (bus : Z) : IM Z :=
  if (bus <? 0) || (I2C_BUS_MAX <=? bus) then mret (-1) else
  do! mmodify (fun s => mk_i2c (if bus =? 2 then I2C_BASE3 else if bus =? 1 then I2C_BASE2 else I2C_BASE1)
                         (bus_initialized s) bus (i2c_dev s)) in
  let! l := mgets bus_initialized in
  do! match l !! Z.to_nat bus with
      | None => mfault OutOfBounds
      | Some b => if truthy b then mret tt else i2c_init fuel CONFIG_SYS_I2C_SPEED CONFIG_SYS_I2C_SLAVE
      end in
  mret 0.

Definition i2c_get_bus_num : IM Z := mgets current_bus.

(** The part of [misc_init_r] that sets up the buses: [for (i = CONFIG_SYS_MAX_I2C_BUS - 1; i >= 0; i--)]. *)
Fixpoint init_buses (fuel n : nat) : IM unit :=
  match n with
  | O => mret tt
  | S n =>
    let! _ := i2c_set_bus_num fuel (Z.of_nat n) in
    do! i2c_init fuel CONFIG_SYS_I2C_SPEED CONFIG_SYS_I2C_SLAVE in
    init_buses fuel n
  end.
Definition misc_init_i2c (fuel : nat) : IM unit := init_buses fuel (Z.to_nat CONFIG_SYS_MAX_I2C_BUS).
End driver.

(** * What the controller promises *)

(** A chip on the bus: what a message of bytes does to it, and the first byte it sends
when it is read. *)
Class I2cTarget (T : Type) : Type := {
  t_write : T -> list Z -> T;
  t_first : T -> Z;
  t_first_byte t : 0 <= t_first t < 256;
}.

(** Where a transfer of the controller is. *)
Inductive iphase : Type := Free | Sending (sent : list Z) | Receiving | Ended.

(** The registers of the controller that matter, and the chips by their address. *)
Record ibus (T : Type) : Type := mk_ibus { ib_con : Z; ib_sa : Z; ib_cnt : Z; ib_ph : iphase; ib_to : Z -> option T }.
Arguments mk_ibus {T}.
Arguments ib_con {T}.
Arguments ib_sa {T}.
Arguments ib_cnt {T}.
Arguments ib_ph {T}.
Arguments ib_to {T}.

Definition put_chip {T} (a : Z) (t : T) (to : Z -> option T) : Z -> option T := fun x => if x =? a then Some t else to x.

Section reference.
Context {T : Type} `{I2cTarget T}.

(** A write to a register; [ready] when the controller waits for a byte. *)
Definition bus_out (ready : bool) (a v : Z) (b : ibus T) : ibus T :=
  let '(mk_ibus con sa cnt ph to) := b in
  if a =? I2C_SA then mk_ibus con v cnt ph to
  else if a =? I2C_CNT then mk_ibus con sa v ph to
  else if a =? I2C_STAT then
    mk_ibus con sa cnt (match ph with Ended => if (v =? 0xFFFF) && negb (any con I2C_CON_MST) then Free else Ended | p => p end) to
  else if a =? I2C_CON then
    mk_ibus v sa cnt
      (if negb (any v I2C_CON_EN) then Free
       else if any v I2C_CON_MST && any v I2C_CON_STT then if any v I2C_CON_TRX then Sending [] else Receiving else ph) to
  else if a =? I2C_DATA then
    match ph, to sa with
    | Sending sent, Some t =>
      if ready then
        let sent := sent ++ [u8 v] in
        if zlen sent =? cnt then mk_ibus con sa cnt Ended (put_chip sa (t_write t sent) to) else mk_ibus con sa cnt (Sending sent) to
      else b
    | _, _ => b
    end
  else b.

(** What the status shows of the events that [wait_for_pin] waits for. *)
Definition bus_event (b : ibus T) : Z :=
  match ib_to b (ib_sa b) with
  | None => I2C_STAT_NACK
  | Some _ => match ib_ph b with Receiving => I2C_STAT_RRDY | _ => I2C_STAT_XRDY end
  end.
Definition stat_shows (b : ibus T) (wait : nat) (v : Z) : Prop :=
  match ib_ph b with
  | Free => v = 0
  | Ended => Z.land v (Z.lor (Z.lor I2C_STAT_XRDY I2C_STAT_RRDY) I2C_STAT_NACK) = 0
  | _ => Z.land v pin_events = if (wait =? 0)%nat then bus_event b else 0
  end.
End reference.

(** A transfer's next event shows within [polls] reads of the status. *)
Class I2cLaws {D} `{I2cPort D} (T : Type) `{I2cTarget T} (polls : nat) : Type := {
  ib : D -> ibus T;
  iwait : D -> nat;
  iwait_bound d : (iwait d <= polls)%nat;
  in_stat d v d' : i2c_in d I2C_STAT = (v, d') -> ib d' = ib d /\ iwait d' = pred (iwait d) /\ stat_shows (ib d) (iwait d) (u16 v);
  in_con d v d' : i2c_in d I2C_CON = (v, d') ->
    ib d' = ib d /\ any (u16 v) I2C_CON_EN = any (ib_con (ib d)) I2C_CON_EN /\ any (u16 v) I2C_CON_MST = any (ib_con (ib d)) I2C_CON_MST;
  in_data d v d' t : i2c_in d I2C_DATA = (v, d') -> iwait d = 0%nat -> ib_ph (ib d) = Receiving -> ib_to (ib d) (ib_sa (ib d)) = Some t ->
    u8 v = t_first t /\ ib d' = mk_ibus (ib_con (ib d)) (ib_sa (ib d)) (ib_cnt (ib d)) Ended (ib_to (ib d));
  bus_write_law d a v : ib (i2c_out d a v) = bus_out (iwait d =? 0)%nat a v (ib d);
  stat_write_wait d v : iwait (i2c_out d I2C_STAT v) = iwait d;
}.

(** * Properties *)

(** Writes, register by register. *)
Section registers.
Context {T : Type} `{I2cTarget T} (r : bool) (con sa cnt : Z) (ph : iphase) (to : Z -> option T) (v : Z).
Lemma out_sa : bus_out r I2C_SA v (mk_ibus con sa cnt ph to) = mk_ibus con v cnt ph to.
Proof. reflexivity. Qed.
Lemma out_cnt : bus_out r I2C_CNT v (mk_ibus con sa cnt ph to) = mk_ibus con sa v ph to.
Proof. reflexivity. Qed.
Lemma out_con :
  bus_out r I2C_CON v (mk_ibus con sa cnt ph to) =
  mk_ibus v sa cnt (if negb (any v I2C_CON_EN) then Free
                    else if any v I2C_CON_MST && any v I2C_CON_STT then if any v I2C_CON_TRX then Sending [] else Receiving else ph) to.
Proof. reflexivity. Qed.
Lemma out_data sent t :
  ph = Sending sent -> to sa = Some t ->
  bus_out true I2C_DATA v (mk_ibus con sa cnt ph to) =
  let sent := sent ++ [u8 v] in
  if zlen sent =? cnt then mk_ibus con sa cnt Ended (put_chip sa (t_write t sent) to) else mk_ibus con sa cnt (Sending sent) to.
Proof. intros -> Ht. cbn -[wrapu zlen]. by rewrite Ht. Qed.
End registers.

(** Flags of a status by its events. *)
Lemma any_event v e f : Z.land v pin_events = e -> Z.land pin_events f = f -> any v f = any e f.
Proof. intros <- Hf. unfold any. by rewrite <- Z.land_assoc, Hf. Qed.

Lemma not_rrdy v e : Z.land v pin_events = e -> e <> I2C_STAT_RRDY -> (v =? I2C_STAT_RRDY) = false.
Proof. intros <- He. apply Z.eqb_neq. intros ->. by apply He. Qed.

Section laws.
Context {D : Type} {HD : I2cPort D} {T : Type} {HT : I2cTarget T} (polls : nat) {HL : I2cLaws T polls} (Hpolls : (polls <= 10)%nat).

Definition at_bus (b : ibus T) (d : D) : Prop := ib d = b.
Definition at_ready (b : ibus T) (d : D) : Prop := ib d = b /\ iwait d = 0%nat.

Lemma tot_ex {X A} (P : X -> D -> Prop) (m : M D A) Q : (forall x, tot (P x) m Q) -> tot (fun d => exists x, P x d) m Q.
Proof. intros Hm d (x & Hd). by apply (Hm x). Qed.

Lemma w_reg v a b : a <> I2C_DATA -> tot (at_bus b) (writew v a) (fun _ => at_bus (bus_out true a (u16 v) b)).
Proof.
  intros Ha d <-. eexists tt, _. split; [reflexivity|]. unfold at_bus. rewrite bus_write_law. unfold bus_out. destruct (ib d).
  by rewrite (proj2 (Z.eqb_neq a I2C_DATA)) by done.
Qed.

Lemma w_data (w8 : bool) v b :
  0 <= v < 256 -> tot (at_ready b) (if w8 then writeb v I2C_DATA else writew v I2C_DATA) (fun _ => at_bus (bus_out true I2C_DATA v b)).
Proof.
  intros Hv d [<- Hw]. exists tt, (i2c_out d I2C_DATA v). split; [|unfold at_bus; by rewrite bus_write_law, Hw].
  destruct w8; unfold runs, writeb, writew; by rewrite wrapu_small by lia.
Qed.

Lemma r_stat b : tot (at_bus b) (readw I2C_STAT) (fun v d => (exists w, stat_shows b w v) /\ at_bus b d).
Proof.
  intros d <-. destruct (i2c_in d I2C_STAT) as [v d'] eqn:E. destruct (in_stat d v d' E) as (H1 & _ & H3).
  exists (u16 v), d'. split; [unfold runs, readw; by rewrite E|]. split; [by eexists|done].
Qed.

Lemma r_pin d :
  match ib_ph (ib d) with Sending _ | Receiving => True | _ => False end ->
  exists v d', runs (readw I2C_STAT) d v d' /\ ib d' = ib d /\ iwait d' = pred (iwait d) /\
    Z.land v pin_events = if (iwait d =? 0)%nat then bus_event (ib d) else 0.
Proof.
  intros Hp. destruct (i2c_in d I2C_STAT) as [v d'] eqn:E. destruct (in_stat d v d' E) as (H1 & H2 & H3).
  exists (u16 v), d'. split; [unfold runs, readw; by rewrite E|]. split_and!; [done|done|]. unfold stat_shows in H3. by destruct (ib_ph (ib d)).
Qed.

Lemma bus_event_some (b : ibus T) : truthy (bus_event b) = true.
Proof. unfold bus_event. destruct (ib_to b (ib_sa b)); [|done]. by destruct (ib_ph b). Qed.

(** The loop that waits for an event. *)
Lemma pin_loop_runs n d :
  match ib_ph (ib d) with Sending _ | Receiving => True | _ => False end -> (iwait d <= n)%nat ->
  exists v k d', runs (pin_loop n) d (v, k) d' /\ ib d' = ib d /\ iwait d' = 0%nat /\ Z.land v pin_events = bus_event (ib d).
Proof.
  revert d. induction n as [|n IH]; intros d Hp Hw; destruct (r_pin d Hp) as (v & d' & Hr & H1 & H2 & H3); cbn [pin_loop].
  - replace (iwait d) with 0%nat in * by lia. cbn in H2, H3. exists v, (Z.of_nat 0), d'. split_and!; [|done..].
    eapply runs_bind; [exact Hr|]. cbv beta. unfold any. rewrite H3, bus_event_some. apply runs_ret.
  - destruct (iwait d) as [|w] eqn:Ew; cbn in H2, H3.
    + exists v, (Z.of_nat (S n)), d'. split_and!; [|done..].
      eapply runs_bind; [exact Hr|]. cbv beta. unfold any. rewrite H3, bus_event_some. apply runs_ret.
    + destruct (IH d') as (v' & k & d2 & Hr' & G1 & G2 & G3); [by rewrite H1|lia|]. rewrite H1 in G1, G3.
      exists v', k, d2. split_and!; [|done..]. eapply runs_bind; [exact Hr|]. cbv beta. unfold any. by rewrite H3.
Qed.

Lemma wait_for_pin_tot (b : ibus T) :
  match ib_ph b with Sending _ | Receiving => True | _ => False end ->
  tot (at_bus b) wait_for_pin (fun v d => Z.land v pin_events = bus_event b /\ at_ready b d).
Proof.
  intros Hp d Hd. unfold at_bus in Hd. subst b. pose proof (iwait_bound d). destruct (pin_loop_runs 10 d Hp ltac:(lia)) as (v & k & d1 & R1 & H1 & H2 & H3).
  unfold wait_for_pin. destruct (k <=? 0) eqn:Ek.
  - destruct (r_pin d1) as (v2 & d2 & R2 & G1 & G2 & _); [rewrite H1; exact Hp|]. rewrite H1 in G1. rewrite H2 in G2.
    exists v, (i2c_out d2 I2C_STAT (u16 0xFFFF)). split.
    + eapply runs_bind; [exact R1|]. cbv beta iota. rewrite Ek. eapply runs_bind; [eapply runs_bind; [exact R2|reflexivity]|apply runs_ret].
    + split; [done|]. split; [|by rewrite stat_write_wait]. rewrite bus_write_law, G1. unfold bus_out. destruct (ib d) as [con sa cnt ph to].
      cbn in Hp. by destruct ph.
  - exists v, d1. split; [|done]. eapply runs_bind; [exact R1|]. cbv beta iota. rewrite Ek. eapply runs_bind; apply runs_ret.
Qed.

(** The bus is free before a transfer. *)
Lemma wait_for_bb_tot con sa cnt to :
  let b := mk_ibus con sa cnt Free to in tot (at_bus b) wait_for_bb (fun _ => at_bus b).
Proof.
  intros b. unfold wait_for_bb. eapply tot_bind; [by apply w_reg|]. intros ?. cbn [bus_out b]. fold b.
  apply (tot_bind _ _ (fun k d => k = 10 /\ at_bus b d)).
  - cbn [bb_loop]. eapply tot_bind; [apply r_stat|]. intros v. apply tot_pure. intros (w & ->). by apply tot_ret.
  - intros k. apply tot_pure. intros ->. apply (tot_bind _ _ (fun _ => at_bus b)); [by apply tot_ret|]. intros ?. by apply w_reg.
Qed.

(** After a transfer, with or without an event that is not cleared yet. *)
Definition settled (con sa cnt : Z) (to : Z -> option T) (d : D) : Prop :=
  exists p, (p = Free \/ p = Ended) /\ at_bus (mk_ibus con sa cnt p to) d.

Lemma r_stat_settled con sa cnt to :
  tot (settled con sa cnt to) (readw I2C_STAT)
    (fun v d => Z.land v (Z.lor (Z.lor I2C_STAT_XRDY I2C_STAT_RRDY) I2C_STAT_NACK) = 0 /\ settled con sa cnt to d).
Proof.
  apply tot_ex. intros ph. apply tot_pure. intros Hp. eapply tot_conseq; [apply r_stat|done|]. intros v d [(w & Hs) Hd].
  split; [|by exists ph]. unfold stat_shows in Hs. cbn in Hs. by destruct Hp; subst.
Qed.

(** Clearing the events frees the bus. *)
Lemma clear_settled con sa cnt to :
  any con I2C_CON_MST = false ->
  tot (settled con sa cnt to) (writew 0xFFFF I2C_STAT) (fun _ => at_bus (mk_ibus con sa cnt Free to)).
Proof.
  intros Hm. apply tot_ex. intros ph. apply tot_pure. intros Hp. eapply tot_conseq; [by apply w_reg|done|].
  intros ? d Hd. cbn in Hd. rewrite Hm in Hd. by destruct Hp; subst.
Qed.

Lemma free_settled con sa cnt to d : at_bus (mk_ibus con sa cnt Free to) d -> settled con sa cnt to d.
Proof. intros Hd. exists Free. by split; [left|]. Qed.

Lemma free_loop_tot fuel con sa cnt to :
  (2 <= fuel)%nat -> any con I2C_CON_MST = false -> tot (settled con sa cnt to) (free_loop fuel) (fun _ => settled con sa cnt to).
Proof.
  intros Hf Hm. destruct fuel as [|[|fuel]]; [lia..|]. cbn [free_loop].
  eapply tot_bind; [apply r_stat_settled|]. intros v. apply tot_pure. intros _. destruct (any v _).
  - eapply tot_bind; [by apply clear_settled|]. intros ?. eapply tot_bind; [apply r_stat|]. intros w. apply tot_pure. intros (? & ->).
    apply tot_ret. intros d. apply free_settled.
  - by apply tot_ret.
Qed.

Lemma r_con_settled con sa cnt to :
  any con I2C_CON_MST = false ->
  tot (settled con sa cnt to) (readw I2C_CON) (fun v d => any v I2C_CON_MST = false /\ settled con sa cnt to d).
Proof.
  intros Hm d (p & Hp & Hd). unfold at_bus in Hd. destruct (i2c_in d I2C_CON) as [v d'] eqn:E. destruct (in_con d v d' E) as (H1 & _ & H3).
  exists (u16 v), d'. split; [unfold runs, readw; by rewrite E|]. rewrite Hd in H1, H3. split; [by rewrite H3|]. by exists p.
Qed.

(** One more look at a bus that is free ends either loop. *)
Lemma idle_turn con sa cnt to (again : M D unit) :
  any con I2C_CON_MST = false ->
  tot (fun d => at_bus (mk_ibus con sa cnt Free to) d) again (fun _ => settled con sa cnt to) ->
  tot (settled con sa cnt to)
    (let! v := readw I2C_STAT in let! c := if truthy v then mret 0 else readw I2C_CON in
     if truthy v || any c I2C_CON_MST then do! writew 0xFFFF I2C_STAT in again else mret tt) (fun _ => settled con sa cnt to).
Proof.
  intros Hm Ha. eapply tot_bind; [apply r_stat_settled|]. intros v. apply tot_pure. intros _. destruct (truthy v).
  - eapply tot_bind_eq; [by apply tot_ret|]. cbn [orb]. eapply tot_bind; [by apply clear_settled|]. intros ?. exact Ha.
  - eapply tot_bind; [by apply r_con_settled|]. intros c. apply tot_pure. intros ->. by apply tot_ret.
Qed.

Lemma idle_free con sa cnt to (again : M D unit) :
  any con I2C_CON_MST = false ->
  tot (fun d => at_bus (mk_ibus con sa cnt Free to) d)
    (let! v := readw I2C_STAT in let! c := if truthy v then mret 0 else readw I2C_CON in
     if truthy v || any c I2C_CON_MST then do! writew 0xFFFF I2C_STAT in again else mret tt) (fun _ => settled con sa cnt to).
Proof.
  intros Hm. eapply tot_bind; [apply r_stat|]. intros v. apply tot_pure. intros (w & Hv). unfold stat_shows in Hv. cbn in Hv. subst v. cbn [truthy Z.eqb negb orb].
  apply (tot_bind _ _ (fun c d => any c I2C_CON_MST = false /\ settled con sa cnt to d)).
  - eapply tot_conseq; [by apply r_con_settled|intros d; apply free_settled|done].
  - intros c. apply tot_pure. intros ->. by apply tot_ret.
Qed.

Lemma idle_loop_tot fuel con sa cnt to :
  (2 <= fuel)%nat -> any con I2C_CON_MST = false -> tot (settled con sa cnt to) (idle_loop fuel) (fun _ => settled con sa cnt to).
Proof. intros Hf Hm. destruct fuel as [|[|fuel]]; [lia..|]. cbn [idle_loop]. apply idle_turn; [done|]. by apply idle_free. Qed.

Lemma eout_loop_tot con sa cnt to :
  any con I2C_CON_MST = false -> tot (settled con sa cnt to) (eout_loop 199) (fun _ => settled con sa cnt to).
Proof.
  intros Hm. change 199%nat with (S 198). cbn [eout_loop]. apply idle_turn; [done|]. change 198%nat with (S 197). cbn [eout_loop]. by apply idle_free.
Qed.

Lemma finish_settled fuel con sa cnt to :
  (1 <= fuel)%nat -> any con I2C_CON_MST = false ->
  tot (settled con sa cnt to) (finish_byte fuel) (fun _ => at_bus (mk_ibus con sa 0 Free to)).
Proof.
  intros Hf Hm. destruct fuel as [|fuel]; [lia|]. unfold finish_byte. cbn [flush_fifo].
  apply (tot_bind _ _ (fun _ => settled con sa cnt to)).
  - eapply tot_bind; [apply r_stat_settled|]. intros v. apply tot_pure. intros Hv.
    destruct (Z.eqb_spec v I2C_STAT_RRDY) as [->|]; [done|]. by apply tot_ret.
  - intros ?. eapply tot_bind; [by apply clear_settled|]. intros ?. by apply (w_reg 0 I2C_CNT).
Qed.

(** After a refusal the transfer stays open. *)
Lemma finish_refused fuel con sa cnt sent to :
  (1 <= fuel)%nat -> to sa = None ->
  tot (at_bus (mk_ibus con sa cnt (Sending sent) to)) (finish_byte fuel) (fun _ => at_bus (mk_ibus con sa 0 (Sending sent) to)).
Proof.
  intros Hf Hto. destruct fuel as [|fuel]; [lia|]. unfold finish_byte. cbn [flush_fifo]. set (b := mk_ibus con sa cnt (Sending sent) to).
  apply (tot_bind _ _ (fun _ => at_bus b)).
  - eapply tot_bind; [apply r_stat|]. intros v. apply tot_pure. intros (w & Hv). unfold stat_shows, bus_event in Hv. cbn in Hv. rewrite Hto in Hv.
    rewrite (not_rrdy _ _ Hv); [by apply tot_ret|]. by destruct w.
  - intros ?. eapply tot_bind; [by apply w_reg|]. intros ?. by apply (w_reg 0 I2C_CNT).
Qed.

(** The start of a message of [n] bytes, up to the first event. *)
Lemma start_tot {A} n chip v con0 sa0 cnt0 (to : Z -> option T) (k : Z -> M D A) Q :
  0 <= n < 2 ^ 16 -> 0 <= chip < 256 -> 0 <= v < 2 ^ 16 ->
  any v I2C_CON_EN = true -> any v I2C_CON_MST && any v I2C_CON_STT = true -> any v I2C_CON_TRX = true ->
  (forall st, Z.land st pin_events = match to chip with Some _ => I2C_STAT_XRDY | None => I2C_STAT_NACK end ->
    tot (at_ready (mk_ibus v chip n (Sending []) to)) (k st) Q) ->
  tot (at_bus (mk_ibus con0 sa0 cnt0 Free to))
    (do! wait_for_bb in do! writew n I2C_CNT in do! writew chip I2C_SA in do! writew v I2C_CON in let! st := wait_for_pin in k st) Q.
Proof.
  intros Hn Hc Hv H1 H2 H3 Hk. eapply tot_bind; [apply wait_for_bb_tot|]. intros ?.
  eapply tot_bind; [by apply w_reg|]. intros ?. eapply tot_bind; [by apply w_reg|]. intros ?. eapply tot_bind; [by apply w_reg|]. intros ?.
  rewrite !wrapu_small by lia. rewrite out_cnt, out_sa, out_con, H1, H2, H3. cbn [negb].
  eapply tot_bind; [by apply wait_for_pin_tot|]. intros st. apply tot_pure. intros Hst. apply Hk.
  unfold bus_event in Hst. cbn in Hst. by destruct (to chip).
Qed.

(** Going back to slave mode. *)
Lemma release_settled con sa cnt to :
  tot (settled con sa cnt to) (writew I2C_CON_EN I2C_CON) (fun _ => settled I2C_CON_EN sa cnt to).
Proof.
  apply tot_ex. intros ph. apply tot_pure. intros Hp. eapply tot_conseq; [by apply w_reg|done|]. intros ? d Hd. by exists ph.
Qed.

Lemma no_nack v : Z.land v (Z.lor (Z.lor I2C_STAT_XRDY I2C_STAT_RRDY) I2C_STAT_NACK) = 0 -> any v I2C_STAT_NACK = false.
Proof.
  intros Hv. unfold any. change I2C_STAT_NACK with (Z.land (Z.lor (Z.lor I2C_STAT_XRDY I2C_STAT_RRDY) I2C_STAT_NACK) I2C_STAT_NACK).
  by rewrite Z.land_assoc, Hv.
Qed.

(** The byte that is read back, and the chip behind it. *)
Lemma read_part fuel chip cnt to t :
  (2 <= fuel)%nat -> 0 <= chip < 256 -> to chip = Some t ->
  tot (settled I2C_CON_EN chip cnt to)
    (do! free_loop fuel in
      do! writew chip I2C_SA in
      do! writew 1 I2C_CNT in
      do! writew (Z.lor (Z.lor (Z.lor I2C_CON_EN I2C_CON_MST) I2C_CON_STT) I2C_CON_STP) I2C_CON in
      let! status := wait_for_pin in
      if any status I2C_STAT_RRDY then
        let! value := readb I2C_DATA in
        do! writew I2C_CON_EN I2C_CON in
        do! idle_loop fuel in
        mret (0, Some value)
      else mret (1, None))
    (fun r d => r = (0, Some (t_first t)) /\ settled I2C_CON_EN chip 1 to d).
Proof.
  intros Hf Hc Ht. eapply tot_bind; [by apply (free_loop_tot fuel I2C_CON_EN chip cnt to)|].
  intros ?. apply tot_ex. intros ph. apply tot_pure. intros _.
  eapply tot_bind; [by apply w_reg|]. intros ?. eapply tot_bind; [by apply w_reg|]. intros ?. eapply tot_bind; [by apply w_reg|]. intros ?.
  rewrite (wrapu_small 16 chip) by lia. rewrite out_sa, out_cnt, out_con.
  change (wrapu 16 (Z.lor (Z.lor (Z.lor I2C_CON_EN I2C_CON_MST) I2C_CON_STT) I2C_CON_STP)) with 0x8403. cbn [any truthy Z.land negb].
  change (if negb (any 33795 I2C_CON_EN) then Free else if any 33795 I2C_CON_MST && any 33795 I2C_CON_STT
    then if any 33795 I2C_CON_TRX then Sending [] else Receiving else ph) with Receiving.
  set (b := mk_ibus 33795 chip (wrapu 16 1) Receiving to). eapply tot_bind; [by apply (wait_for_pin_tot b)|]. intros st. apply tot_pure. intros Hst.
  unfold bus_event in Hst. cbn in Hst. rewrite Ht in Hst. rewrite (any_event _ _ _ Hst) by done. cbn [any].
  change (any I2C_STAT_RRDY I2C_STAT_RRDY) with true. cbv iota.
  apply (tot_bind _ _ (fun v d => v = t_first t /\ at_bus (mk_ibus 33795 chip 1 Ended to) d)).
  - intros d [Hd Hw]. destruct (i2c_in d I2C_DATA) as [v d'] eqn:E. destruct (in_data d v d' t E Hw) as [Hv Hd']; [by rewrite Hd|by rewrite Hd|].
    exists (u8 v), d'. split; [unfold runs, readb; by rewrite E|]. split; [done|]. unfold at_bus. by rewrite Hd', Hd.
  - intros v. apply tot_pure. intros ->. eapply tot_bind; [by apply w_reg|]. intros ?. rewrite out_con.
    eapply tot_bind; [eapply tot_conseq; [by apply (idle_loop_tot fuel I2C_CON_EN chip 1 to)| |done]|].
    + intros d Hd. exists Ended. by split; [right|].
    + intros ?. by apply tot_ret.
Qed.

(** A bus that is free. *)
Definition idle (to : Z -> option T) (d : D) : Prop := exists con sa cnt, at_bus (mk_ibus con sa cnt Free to) d.
(** A bus with a transfer that was refused. *)
Definition refused (to : Z -> option T) (d : D) : Prop :=
  exists con sa cnt sent, any con I2C_CON_EN = true /\ at_bus (mk_ibus con sa cnt (Sending sent) to) d.

Lemma tot_idle {A} to (m : M D A) Q : (forall con sa cnt, tot (at_bus (mk_ibus con sa cnt Free to)) m Q) -> tot (idle to) m Q.
Proof. intros Hm. apply tot_ex. intros con. apply tot_ex. intros sa. apply tot_ex. apply Hm. Qed.

Lemma byte_read_tot fuel chip reg to t :
  (2 <= fuel)%nat -> 0 <= chip < 256 -> 0 <= reg < 256 -> to chip = Some t ->
  tot (idle to) (i2c_read_byte fuel chip reg)
    (fun r d => r = (0, Some (t_first (t_write t [reg]))) /\ idle (put_chip chip (t_write t [reg]) to) d).
Proof.
  intros Hf Hc Hr Ht. apply tot_idle. intros con sa cnt. unfold i2c_read_byte.
  change (Z.lor (Z.lor (Z.lor I2C_CON_EN I2C_CON_MST) I2C_CON_TRX) I2C_CON_STT) with 0x8601.
  apply start_tot; try (lia || done). intros st Hst. rewrite Ht in Hst. rewrite (any_event _ _ _ Hst) by done.
  change (any I2C_STAT_XRDY I2C_STAT_XRDY) with true. cbv iota.
  set (to' := put_chip chip (t_write t [reg]) to). assert (to' chip = Some (t_write t [reg])) as Ht' by (unfold to', put_chip; by rewrite Z.eqb_refl).
  apply (tot_bind _ _ (fun e d => e = 0 /\ settled 0x8601 chip 1 to' d)).
  - eapply tot_bind; [by apply (w_data false)|]. intros ?. rewrite (out_data _ _ _ _ _ _ [] t) by done. cbv zeta. cbn [app].
    rewrite wrapu_small by lia. eapply tot_bind.
    { eapply tot_conseq; [apply (r_stat_settled 0x8601 chip 1 to')| |done]. intros d Hd. exists Ended. by split; [right|]. }
    intros v. apply tot_pure. intros Hv. rewrite no_nack by done. by apply tot_ret.
  - intros e. apply tot_pure. intros ->. cbn [truthy Z.eqb negb].
    apply (tot_bind _ _ (fun r d => r = (0, Some (t_first (t_write t [reg]))) /\ settled I2C_CON_EN chip 1 to' d)).
    + eapply tot_bind; [apply release_settled|]. intros ?. by apply read_part.
    + intros r. apply tot_pure. intros ->. eapply tot_bind; [by apply finish_settled; [lia|]|]. intros ?. apply tot_ret.
      intros d Hd. split; [done|]. by exists I2C_CON_EN, chip, 0.
Qed.

Lemma read_byte_refused fuel chip reg to :
  (1 <= fuel)%nat -> 0 <= chip < 256 -> to chip = None ->
  tot (idle to) (i2c_read_byte fuel chip reg) (fun r d => r = (1, None) /\ refused to d).
Proof.
  intros Hf Hc Ht. apply tot_idle. intros con sa cnt. unfold i2c_read_byte.
  change (Z.lor (Z.lor (Z.lor I2C_CON_EN I2C_CON_MST) I2C_CON_TRX) I2C_CON_STT) with 0x8601.
  apply start_tot; try (lia || done). intros st Hst. rewrite Ht in Hst. rewrite (any_event _ _ _ Hst) by done.
  change (any I2C_STAT_NACK I2C_STAT_XRDY) with false. cbv iota. set (b := mk_ibus 0x8601 chip 1 (Sending []) to).
  eapply tot_bind_eq; [by apply tot_ret|]. eapply tot_bind_eq; [by apply tot_ret|].
  apply (tot_bind _ _ (fun _ => at_bus (mk_ibus 0x8601 chip 0 (Sending []) to))).
  - eapply tot_conseq; [by apply (finish_refused fuel 0x8601 chip 1 [] to)| |done]. by intros d [Hd _].
  - intros ?. apply tot_ret. intros d Hd. split; [done|]. by exists 0x8601, chip, 0, [].
Qed.

Lemma byte_written_tot fuel chip reg v to t :
  (1 <= fuel)%nat -> 0 <= chip < 256 -> 0 <= reg < 256 -> 0 <= v < 256 -> to chip = Some t ->
  tot (idle to) (i2c_write_byte fuel chip reg v) (fun r d => r = 0 /\ idle (put_chip chip (t_write t [reg; v]) to) d).
Proof.
  intros Hf Hc Hr Hv Ht. apply tot_idle. intros con sa cnt. unfold i2c_write_byte.
  change (Z.lor (Z.lor (Z.lor (Z.lor I2C_CON_EN I2C_CON_MST) I2C_CON_STT) I2C_CON_TRX) I2C_CON_STP) with 0x8603.
  apply start_tot; try (lia || done). intros st Hst. rewrite Ht in Hst. rewrite (any_event _ _ _ Hst) by done.
  change (any I2C_STAT_XRDY I2C_STAT_XRDY) with true. cbv iota. set (to' := put_chip chip (t_write t [reg; v]) to).
  apply (tot_bind _ _ (fun e d => e = 0 /\ settled 0x8603 chip 2 to' d)).
  - eapply tot_bind; [by apply (w_data true)|]. intros ?. rewrite (out_data _ _ _ _ _ _ [] t) by done. cbv zeta. cbn [app].
    rewrite (wrapu_small 8 reg) by lia. cbn [zlen length Z.of_nat Z.eqb]. eapply tot_bind; [by apply w_reg|]. intros ?.
    change (bus_out true I2C_STAT ?x ?b) with b. set (b := mk_ibus 0x8603 chip 2 (Sending [reg]) to).
    eapply tot_bind; [by apply (wait_for_pin_tot b)|]. intros st'. apply tot_pure. intros Hst'. unfold bus_event in Hst'. cbn in Hst'. rewrite Ht in Hst'.
    rewrite (any_event _ _ _ Hst') by done. change (any I2C_STAT_XRDY I2C_STAT_XRDY) with true. cbv iota.
    apply (tot_bind _ _ (fun e d => e = 0 /\ settled 0x8603 chip 2 to' d)).
    + eapply tot_bind; [by apply (w_data true)|]. intros ?. unfold b. rewrite (out_data _ _ _ _ _ _ [reg] t) by done. cbv zeta. cbn [app].
      rewrite (wrapu_small 8 v) by lia. cbn [zlen length Z.of_nat Z.eqb]. eapply tot_bind; [by apply w_reg|]. intros ?.
      apply tot_ret. intros d Hd. split; [done|]. exists Ended. by split; [right|].
    + intros e. apply tot_pure. intros ->. eapply tot_bind; [apply r_stat_settled|]. intros w. apply tot_pure. intros Hw.
      rewrite no_nack by done. by apply tot_ret.
  - intros e. apply tot_pure. intros ->. cbn [truthy Z.eqb negb]. apply (tot_bind _ _ (fun _ => settled I2C_CON_EN chip 2 to')).
    + eapply tot_bind; [apply release_settled|]. intros ?. by apply eout_loop_tot.
    + intros ?. eapply tot_bind; [by apply finish_settled|]. intros ?. apply tot_ret. intros d Hd. split; [done|]. by exists I2C_CON_EN, chip, 0.
Qed.

Lemma write_byte_refused fuel chip reg v to :
  (1 <= fuel)%nat -> 0 <= chip < 256 -> to chip = None ->
  tot (idle to) (i2c_write_byte fuel chip reg v) (fun r d => r = 1 /\ refused to d).
Proof.
  intros Hf Hc Ht. apply tot_idle. intros con sa cnt. unfold i2c_write_byte.
  change (Z.lor (Z.lor (Z.lor (Z.lor I2C_CON_EN I2C_CON_MST) I2C_CON_STT) I2C_CON_TRX) I2C_CON_STP) with 0x8603.
  apply start_tot; try (lia || done). intros st Hst. rewrite Ht in Hst. rewrite (any_event _ _ _ Hst) by done.
  change (any I2C_STAT_NACK I2C_STAT_XRDY) with false. cbv iota.
  eapply tot_bind_eq; [by apply tot_ret|]. eapply tot_bind_eq; [by apply tot_ret|].
  apply (tot_bind _ _ (fun _ => at_bus (mk_ibus 0x8603 chip 0 (Sending []) to))).
  - eapply tot_conseq; [by apply (finish_refused fuel 0x8603 chip 2 [] to)| |done]. by intros d [Hd _].
  - intros ?. apply tot_ret. intros d Hd. split; [done|]. by exists 0x8603, chip, 0, [].
Qed.

(** [i2c_init] frees the bus, also after a refusal. *)
Lemma program_tot fuel psc scll sclh oa to :
  (1 <= fuel)%nat -> tot (fun d => idle to d \/ refused to d) (i2c_program fuel psc scll sclh oa) (fun _ => idle to).
Proof.
  intros Hf. unfold i2c_program.
  assert (tot (fun d => idle to d \/ refused to d)
    (let! con := readw I2C_CON in if any con I2C_CON_EN then writew 0 I2C_CON else mret tt) (fun _ => idle to)) as Hreset.
  { intros d Hd. destruct (i2c_in d I2C_CON) as [v d'] eqn:E. destruct (in_con d v d' E) as (H1 & H2 & _).
    assert (runs (readw I2C_CON) d (u16 v) d') as Hr by (unfold runs, readw; by rewrite E).
    destruct (any (u16 v) I2C_CON_EN) eqn:Ev.
    - exists tt, (i2c_out d' I2C_CON (u16 0)). split; [eapply runs_bind; [exact Hr|]; cbv beta; by rewrite Ev|].
      destruct (ib d') as [con sa cnt ph to'] eqn:Eb. exists 0, sa, cnt. unfold at_bus. rewrite bus_write_law, Eb. rewrite out_con.
      replace to' with to; [done|]. destruct Hd as [(? & ? & ? & Hd)|(? & ? & ? & ? & _ & Hd)]; unfold at_bus in Hd; congruence.
    - exists tt, d'. split; [eapply runs_bind; [exact Hr|]; cbv beta; rewrite Ev; apply runs_ret|].
      destruct Hd as [(con & sa & cnt & Hd)|(con & sa & cnt & sent & He & Hd)]; unfold at_bus in Hd.
      + exists con, sa, cnt. unfold at_bus. by rewrite H1.
      + rewrite Hd in H2. cbn in H2. congruence. }
  assert (forall (m1 : M D Z) (f : Z -> M D unit) (m2 : M D unit) P Q,
    tot P (let! x := m1 in f x) (fun _ => idle to) -> tot (idle to) m2 Q -> tot P (let! x := m1 in do! f x in m2) Q) as Hassoc.
  { intros m1 f m2 P Q H1 H2 d Hd. destruct (H1 d Hd) as (x & d1 & Hr1 & Hd1). destruct (H2 d1 Hd1) as (y & d2 & Hr2 & Hd2).
    exists y, d2. split; [|done]. apply runs_bind_inv in Hr1 as (z & d0 & Hz & Hf'). eapply runs_bind; [exact Hz|]. by eapply runs_bind. }
  apply Hassoc; [exact Hreset|]. apply tot_idle. intros con sa cnt.
  do 4 (eapply tot_bind; [by apply w_reg|]; intros ?; change (bus_out true ?a ?v ?b) with b).
  eapply tot_bind; [by apply w_reg|]. intros ?. rewrite out_con. eapply tot_bind; [by apply w_reg|]. intros ?.
  change (bus_out true ?a ?v ?b) with b. eapply tot_conseq; [by apply (finish_settled fuel I2C_CON_EN sa cnt to)| |].
  - intros d. apply free_settled.
  - intros ? d Hd. by exists I2C_CON_EN, sa, 0.
Qed.

(** ** Transfers *)

(** The driver between two calls: its variables are in order and the bus is free, with
these chips on it. *)
Definition drv_ok (s : i2c_drv D) : Prop := zlen (bus_initialized s) = I2C_BUS_MAX /\ 0 <= current_bus s < I2C_BUS_MAX.
Definition on_bus (to : Z -> option T) (s : i2c_drv D) : Prop := drv_ok s /\ exists to', idle to' (i2c_dev s) /\ forall x, to' x = to x.

(** Registers read, and written, one message each. *)
Fixpoint reg_bytes (n : nat) (t : T) (a : Z) : list Z * T :=
  match n with
  | O => ([], t)
  | S n => let t1 := t_write t [a] in let '(l, t2) := reg_bytes n t1 (a + 1) in (t_first t1 :: l, t2)
  end.
Fixpoint reg_writes (t : T) (a : Z) (buffer : list Z) : T :=
  match buffer with [] => t | b :: buffer => reg_writes (t_write t [a; b]) (a + 1) buffer end.

Lemma lift_tot {A} to (m : M D A) r to' s :
  tot (idle to) m (fun x d => x = r /\ idle to' d) -> drv_ok s -> idle to (i2c_dev s) ->
  exists s', runs (i2c_lift m) s r s' /\ drv_ok s' /\ idle to' (i2c_dev s').
Proof.
  intros Hm Ho Hi. destruct (Hm _ Hi) as (x & d' & Hr & -> & Hd). eexists. split; [by apply runs_zoom|]. by split.
Qed.

Lemma init_runs fuel s to :
  (1 <= fuel)%nat -> drv_ok s -> idle to (i2c_dev s) \/ refused to (i2c_dev s) ->
  exists s', runs (i2c_init fuel CONFIG_SYS_I2C_SPEED CONFIG_SYS_I2C_SLAVE) s tt s' /\ drv_ok s' /\ idle to (i2c_dev s').
Proof.
  intros Hf Ho Hd. unfold i2c_init. change (i2c_clocks CONFIG_SYS_I2C_SPEED) with (Some (4, 90, 90)). cbv iota beta.
  destruct (program_tot fuel 4 90 90 CONFIG_SYS_I2C_SLAVE to Hf _ Hd) as ([] & d' & Hr & Hi). unfold drv_ok in Ho.
  eexists. split.
  - eapply runs_bind; [apply runs_gets|]. cbv beta. eapply runs_bind; [apply runs_gets|]. cbv beta.
    rewrite (proj2 (Z.leb_le _ _)), (proj2 (Z.ltb_lt _ _)) by lia. cbn [andb]. eapply runs_bind; [apply runs_modify|]. cbv beta. by apply runs_zoom.
  - split; [|exact Hi]. unfold drv_ok, zlen in *. cbn. by rewrite length_insert.
Qed.

(** Selecting a bus. *)
Lemma set_bus_on_bus fuel b to s :
  (1 <= fuel)%nat -> 0 <= b < I2C_BUS_MAX -> on_bus to s -> exists s', runs (i2c_set_bus_num fuel b) s 0 s' /\ on_bus to s'.
Proof.
  intros Hf Hb ((Hl & Hc) & to1 & Hi & Hto). unfold i2c_set_bus_num.
  rewrite (proj2 (Z.ltb_ge b 0)), (proj2 (Z.leb_gt I2C_BUS_MAX b)) by lia. cbn [orb].
  set (s1 := mk_i2c (if b =? 2 then I2C_BASE3 else if b =? 1 then I2C_BASE2 else I2C_BASE1) (bus_initialized s) b (i2c_dev s)).
  destruct (bus_initialized s !! Z.to_nat b) as [x|] eqn:Ex; [|apply lookup_ge_None in Ex; unfold zlen in Hl; lia].
  assert (exists s', runs (if truthy x then mret tt else i2c_init fuel CONFIG_SYS_I2C_SPEED CONFIG_SYS_I2C_SLAVE) s1 tt s' /\ on_bus to s') as (s' & R & O).
  { destruct (truthy x); [exists s1; split; [apply runs_ret|]; split; [by split|by exists to1]|].
    destruct (init_runs fuel s1 to1 Hf) as (s' & R & O & I); [by split|by left|]. exists s'. split; [done|]. split; [done|by exists to1]. }
  exists s'. split; [|done]. eapply runs_bind; [apply runs_modify|]. cbv beta. eapply runs_bind; [apply runs_gets|]. cbv beta.
  cbn [bus_initialized]. rewrite Ex. eapply runs_bind; [exact R|apply runs_ret].
Qed.

Lemma put_chip_put a t t' (to : Z -> option T) x : put_chip a t' (put_chip a t to) x = put_chip a t' to x.
Proof. unfold put_chip. by destruct (x =? a). Qed.

Lemma read_loop_runs fuel n chip addr i to t s :
  (2 <= fuel)%nat -> 0 <= chip < 256 -> 0 <= addr + i -> addr + i + Z.of_nat n <= 256 -> to chip = Some t -> drv_ok s -> idle to (i2c_dev s) ->
  let '(l, t') := reg_bytes n t (addr + i) in
  exists s', runs (read_loop fuel n chip addr i) s (0, l) s' /\ on_bus (put_chip chip t' to) s'.
Proof.
  intros Hf Hc. revert i to t s. induction n as [|n IH]; intros i to t s Ha Hn Ht Ho Hi; cbn [reg_bytes read_loop].
  - exists s. split; [apply runs_ret|]. split; [done|]. exists to. split; [done|]. intros x. unfold put_chip.
    by destruct (Z.eqb_spec x chip) as [->|].
  - assert (u8 chip = chip /\ u8 (addr + i) = addr + i) as [E1 E2] by (split; apply wrapu_small; lia).
    destruct (lift_tot to (i2c_read_byte fuel chip (addr + i)) _ _ s (byte_read_tot fuel chip (addr + i) to t Hf Hc ltac:(lia) Ht) Ho Hi)
      as (s1 & R1 & O1 & I1).
    specialize (IH (i + 1) (put_chip chip (t_write t [addr + i]) to) (t_write t [addr + i]) s1 ltac:(lia) ltac:(lia)).
    rewrite Z.add_assoc in IH. destruct (reg_bytes n (t_write t [addr + i]) (addr + i + 1)) as [l t'].
    destruct IH as (s2 & R2 & O2 & to2 & I2 & Hto2); [unfold put_chip; by rewrite Z.eqb_refl|done|done|].
    exists s2. split.
    + rewrite E1, E2. eapply runs_bind; [exact R1|]. cbv beta iota. eapply runs_bind; [exact R2|apply runs_ret].
    + split; [done|]. exists to2. split; [done|]. intros x. by rewrite Hto2, put_chip_put.
Qed.

Lemma write_loop_runs fuel buffer chip addr i to t s :
  (1 <= fuel)%nat -> 0 <= chip < 256 -> Forall (fun b => 0 <= b < 256) buffer -> 0 <= addr + i -> addr + i + zlen buffer <= 256 ->
  to chip = Some t -> drv_ok s -> idle to (i2c_dev s) ->
  exists s', runs (write_loop fuel buffer chip addr i) s 0 s' /\ on_bus (put_chip chip (reg_writes t (addr + i) buffer) to) s'.
Proof.
  intros Hf Hc Hb. revert i to t s. induction Hb as [|b buffer Hb _ IH]; intros i to t s Ha Hn Ht Ho Hi; cbn [reg_writes write_loop].
  - exists s. split; [apply runs_ret|]. split; [done|]. exists to. split; [done|]. intros x. unfold put_chip.
    by destruct (Z.eqb_spec x chip) as [->|].
  - rewrite zlen_cons in Hn. pose proof (zlen_nonneg buffer).
    assert (u8 chip = chip /\ u8 (addr + i) = addr + i) as [E1 E2] by (split; apply wrapu_small; lia).
    destruct (lift_tot to (i2c_write_byte fuel chip (addr + i) b) _ _ s (byte_written_tot fuel chip (addr + i) b to t Hf Hc ltac:(lia) Hb Ht) Ho Hi)
      as (s1 & R1 & O1 & I1).
    destruct (IH (i + 1) (put_chip chip (t_write t [addr + i; b]) to) (t_write t [addr + i; b]) s1) as (s2 & R2 & O2 & to2 & I2 & Hto2);
      [lia|lia|unfold put_chip; by rewrite Z.eqb_refl|done|done|]. rewrite Z.add_assoc in Hto2.
    exists s2. split.
    + rewrite E1, E2. eapply runs_bind; [exact R1|]. exact R2.
    + split; [done|]. exists to2. split; [done|]. intros x. by rewrite Hto2, put_chip_put.
Qed.

(** A refusal, and the restart after it. *)
Lemma refused_runs {A B} fuel (m : M D A) (r : A) (x : B) to s :
  (1 <= fuel)%nat -> tot (idle to) m (fun y d => y = r /\ refused to d) -> drv_ok s -> idle to (i2c_dev s) ->
  exists s1 s', runs (i2c_lift m) s r s1 /\ runs (do! i2c_init fuel CONFIG_SYS_I2C_SPEED CONFIG_SYS_I2C_SLAVE in mret x) s1 x s' /\
    drv_ok s' /\ idle to (i2c_dev s').
Proof.
  intros Hf Hm Ho Hi. destruct (Hm _ Hi) as (y & d1 & R1 & -> & Hd).
  destruct (init_runs fuel (mk_i2c (i2c_base s) (bus_initialized s) (current_bus s) d1) to Hf Ho (or_intror Hd)) as (s' & R2 & O2 & I2).
  eexists _, s'. split; [by apply runs_zoom|]. split; [|done]. eapply runs_bind; [exact R2|apply runs_ret].
Qed.

Lemma on_bus_ext to to1 chip t s :
  (forall x, to1 x = to x) -> on_bus (put_chip chip t to1) s -> on_bus (put_chip chip t to) s.
Proof. intros Hto (O & to2 & I & H2). split; [done|]. exists to2. split; [done|]. intros x. rewrite H2. unfold put_chip. by rewrite Hto. Qed.

Lemma i2c_read_present fuel chip addr alen len to t s :
  (2 <= fuel)%nat -> 0 <= chip < 256 -> 0 <= addr -> alen <= 1 -> 0 <= len -> addr + len <= 256 -> on_bus to s -> to chip = Some t ->
  let '(l, t') := reg_bytes (Z.to_nat len) t addr in
  exists s', runs (i2c_read fuel chip addr alen len) s (0, l) s' /\ on_bus (put_chip chip t' to) s'.
Proof.
  intros Hf Hc Ha Hal Hlen Hr (Ho & to1 & Hi & Hto) Ht. rewrite <- Hto in Ht.
  unfold i2c_read. rewrite (proj2 (Z.ltb_ge 1 alen)), (wrapu_small 32), (proj2 (Z.ltb_ge 256 _)) by lia.
  pose proof (read_loop_runs fuel (Z.to_nat len) chip addr 0 to1 t s Hf Hc ltac:(lia) ltac:(lia) Ht Ho Hi) as HR.
  rewrite Z.add_0_r in HR. destruct (reg_bytes _ t addr) as [l t']. destruct HR as (s' & R & O'). exists s'. split; [done|]. by apply (on_bus_ext to to1).
Qed.

Lemma i2c_read_absent fuel chip addr alen len to s :
  (1 <= fuel)%nat -> 0 <= chip < 256 -> 0 <= addr -> alen <= 1 -> 0 < len -> addr + len <= 256 -> on_bus to s -> to chip = None ->
  exists s', runs (i2c_read fuel chip addr alen len) s (1, []) s' /\ on_bus to s'.
Proof.
  intros Hf Hc Ha Hal Hlen Hr (Ho & to1 & Hi & Hto) Ht. rewrite <- Hto in Ht.
  unfold i2c_read. rewrite (proj2 (Z.ltb_ge 1 alen)), (wrapu_small 32), (proj2 (Z.ltb_ge 256 _)) by lia.
  destruct (Z.to_nat len) as [|n] eqn:En; [lia|]. cbn [read_loop]. rewrite (wrapu_small 8 chip) by lia.
  destruct (refused_runs fuel _ _ (1, @nil Z) to1 s ltac:(lia) (read_byte_refused fuel chip (u8 (addr + 0)) to1 ltac:(lia) Hc Ht) Ho Hi)
    as (s1 & s' & R1 & R2 & O' & I'). exists s'. split; [eapply runs_bind; [exact R1|exact R2]|]. split; [done|by exists to1].
Qed.

Lemma i2c_write_present fuel chip addr alen buffer to t s :
  (1 <= fuel)%nat -> 0 <= chip < 256 -> 0 <= addr -> alen <= 1 -> Forall (fun b => 0 <= b < 256) buffer -> addr + zlen buffer <= 256 ->
  on_bus to s -> to chip = Some t ->
  exists s', runs (i2c_write fuel chip addr alen buffer) s 0 s' /\ on_bus (put_chip chip (reg_writes t addr buffer) to) s'.
Proof.
  intros Hf Hc Ha Hal Hb Hr (Ho & to1 & Hi & Hto) Ht. rewrite <- Hto in Ht. pose proof (zlen_nonneg buffer).
  unfold i2c_write. rewrite (proj2 (Z.ltb_ge 1 alen)), (wrapu_small 32), (proj2 (Z.ltb_ge 256 _)) by lia.
  destruct (write_loop_runs fuel buffer chip addr 0 to1 t s ltac:(lia) Hc Hb ltac:(lia) ltac:(lia) Ht Ho Hi) as (s' & R & O').
  rewrite Z.add_0_r in O'. exists s'. split; [done|]. by apply (on_bus_ext to to1).
Qed.

Lemma i2c_write_absent fuel chip addr alen buffer to s :
  (1 <= fuel)%nat -> 0 <= chip < 256 -> 0 <= addr -> alen <= 1 -> buffer <> [] -> addr + zlen buffer <= 256 -> on_bus to s -> to chip = None ->
  exists s', runs (i2c_write fuel chip addr alen buffer) s 1 s' /\ on_bus to s'.
Proof.
  intros Hf Hc Ha Hal Hne Hr (Ho & to1 & Hi & Hto) Ht. rewrite <- Hto in Ht. pose proof (zlen_nonneg buffer).
  unfold i2c_write. rewrite (proj2 (Z.ltb_ge 1 alen)), (wrapu_small 32), (proj2 (Z.ltb_ge 256 _)) by lia.
  destruct buffer as [|b buffer]; [done|]. cbn [write_loop]. rewrite (wrapu_small 8 chip) by lia.
  destruct (refused_runs fuel _ _ 1 to1 s ltac:(lia) (write_byte_refused fuel chip (u8 (addr + 0)) b to1 ltac:(lia) Hc Ht) Ho Hi)
    as (s1 & s' & R1 & R2 & O' & I'). exists s'. split; [eapply runs_bind; [exact R1|exact R2]|]. split; [done|by exists to1].
Qed.

(** C18. U-Boot's I2C driver.  On a free bus, [i2c_read] of [len] bytes from register
[addr] of a chip returns 0 and the first byte that each of the registers [addr],
[addr + 1], ... answers with, one message and one read per byte; [i2c_write] sends each
byte of the buffer with the number of its own register.  With no chip at the address
they return 1.  In each case the bus is free again, however long the controller takes
for an event within eleven looks at its status. *)
Theorem i2c_transfers fuel chip addr alen to s :
  (2 <= fuel)%nat -> 0 <= chip < 256 -> 0 <= addr -> alen <= 1 -> on_bus to s ->
  (forall len, 0 < len -> addr + len <= 256 ->
    match to chip with
    | Some t => let '(l, t') := reg_bytes (Z.to_nat len) t addr in
                exists s', runs (i2c_read fuel chip addr alen len) s (0, l) s' /\ on_bus (put_chip chip t' to) s'
    | None => exists s', runs (i2c_read fuel chip addr alen len) s (1, []) s' /\ on_bus to s'
    end) /\
  (forall buffer, buffer <> [] -> Forall (fun b => 0 <= b < 256) buffer -> addr + zlen buffer <= 256 ->
    match to chip with
    | Some t => exists s', runs (i2c_write fuel chip addr alen buffer) s 0 s' /\ on_bus (put_chip chip (reg_writes t addr buffer) to) s'
    | None => exists s', runs (i2c_write fuel chip addr alen buffer) s 1 s' /\ on_bus to s'
    end).
Proof.
  intros Hf Hc Ha Hal Hs. split.
  - intros len Hlen Hr. destruct (to chip) as [t|] eqn:Et; [by apply i2c_read_present; try lia|by apply i2c_read_absent; try lia].
  - intros buffer Hne Hb Hr. destruct (to chip) as [t|] eqn:Et; [by apply i2c_write_present; try lia|by apply i2c_write_absent; try lia].
Qed.
End laws.

(** ** The number of the bus *)
Section bus_number.
Context {D : Type} {HD : I2cPort D}.

(** States with the same chip. *)
Definition same_chip (s1 s2 : i2c_drv D) : Prop := i2c_dev s1 = i2c_dev s2 /\ drv_ok s1 /\ drv_ok s2.

Definition agree {A} (m : M (i2c_drv D) A) : Prop :=
  forall s1 s2 r s1', same_chip s1 s2 -> runs m s1 r s1' -> exists s2', runs m s2 r s2' /\ same_chip s1' s2'.

Lemma agree_ret {A} (x : A) : agree (mret x).
Proof. intros s1 s2 r s1' Hs [= <- <-]. by exists s2. Qed.

Lemma agree_bind {A B} (m : M (i2c_drv D) A) (k : A -> M (i2c_drv D) B) : agree m -> (forall a, agree (k a)) -> agree (mbind m k).
Proof.
  intros Hm Hk s1 s2 r s1' Hs Hr. apply runs_bind_inv in Hr as (a & t1 & R1 & R2). destruct (Hm _ _ _ _ Hs R1) as (t2 & G1 & Ht).
  destruct (Hk a _ _ _ _ Ht R2) as (s2' & G2 & Hs'). exists s2'. split; [by eapply runs_bind|done].
Qed.

Lemma agree_lift {A} (m : M D A) : agree (i2c_lift m).
Proof.
  intros s1 s2 r s1' (Hd & O1 & O2) Hr. apply runs_zoom_inv in Hr as (d & Hr & ->). eexists. split; [apply runs_zoom; by rewrite <- Hd|]. by split.
Qed.

Lemma agree_init fuel speed oa : agree (i2c_init fuel speed oa).
Proof.
  unfold i2c_init. destruct (i2c_clocks speed) as [[[psc scll] sclh]|]; [|apply agree_ret].
  intros s1 s2 r s1' (Hd & O1 & O2) Hr. unfold drv_ok in O1, O2.
  apply runs_bind_inv in Hr as (c & t & [= <- <-] & Hr). apply runs_bind_inv in Hr as (l & t & [= <- <-] & Hr).
  rewrite (proj2 (Z.leb_le _ _)), (proj2 (Z.ltb_lt _ _)) in Hr by lia. cbn [andb] in Hr.
  apply runs_bind_inv in Hr as (u & t & [= <- <-] & Hr). apply runs_zoom_inv in Hr as (d & Hr & ->). cbn in Hr.
  eexists. split.
  - eapply runs_bind; [apply runs_gets|]. cbv beta. eapply runs_bind; [apply runs_gets|]. cbv beta.
    rewrite (proj2 (Z.leb_le _ _)), (proj2 (Z.ltb_lt _ _)) by lia. cbn [andb]. eapply runs_bind; [apply runs_modify|]. cbv beta.
    apply runs_zoom. cbn. rewrite <- Hd. exact Hr.
  - unfold same_chip, drv_ok, zlen in *. cbn. by rewrite !length_insert.
Qed.

Lemma agree_read_loop fuel n chip addr i : agree (read_loop fuel n chip addr i).
Proof.
  revert i. induction n as [|n IH]; intros i; cbn [read_loop]; [apply agree_ret|]. apply agree_bind; [apply agree_lift|]. intros [e v].
  assert (agree (do! i2c_init fuel CONFIG_SYS_I2C_SPEED CONFIG_SYS_I2C_SLAVE in mret (1, @nil Z))) as Hi
    by (apply agree_bind; [apply agree_init|intros ?; apply agree_ret]).
  destruct e, v; try exact Hi. apply agree_bind; [apply IH|]. intros rest. apply agree_ret.
Qed.

Lemma agree_write_loop fuel buffer chip addr i : agree (write_loop fuel buffer chip addr i).
Proof.
  revert i. induction buffer as [|b buffer IH]; intros i; cbn [write_loop]; [apply agree_ret|]. apply agree_bind; [apply agree_lift|]. intros e.
  destruct (truthy e); [apply agree_bind; [apply agree_init|intros ?; apply agree_ret]|apply IH].
Qed.

(** Setting the number of a bus that is set up changes variables only. *)
Lemma set_bus_runs fuel b s :
  0 <= b < 3 -> bus_initialized s = [1; 1; 1] ->
  exists s', runs (i2c_set_bus_num fuel b) s 0 s' /\ i2c_dev s' = i2c_dev s /\ drv_ok s' /\ current_bus s' = b.
Proof.
  intros Hb Hl. unfold i2c_set_bus_num, I2C_BUS_MAX. rewrite (proj2 (Z.ltb_ge b 0)), (proj2 (Z.leb_gt 3 b)) by lia. cbn [orb].
  set (s' := mk_i2c (if b =? 2 then I2C_BASE3 else if b =? 1 then I2C_BASE2 else I2C_BASE1) (bus_initialized s) b (i2c_dev s)).
  exists s'. split; [|split; [done|split; [|done]]].
  - eapply runs_bind; [apply runs_modify|]. cbv beta. eapply runs_bind; [apply runs_gets|]. cbv beta. cbn [bus_initialized s']. rewrite Hl.
    assert (([1; 1; 1] : list Z) !! Z.to_nat b = Some 1) as -> by (by assert (b = 0 \/ b = 1 \/ b = 2) as [->|[->| ->]] by lia). unfold s'. by rewrite Hl.
  - unfold drv_ok, I2C_BUS_MAX. cbn [bus_initialized current_bus s']. by rewrite Hl.
Qed.

(** The number of the bus is ignored.  Once the three buses are set up, a program
that selects a bus and reads or writes does the same to the chip, with the same results,
whichever bus it selects: [i2c_set_bus_num] sets [i2c_base], and every access of the
driver goes to the registers of the first controller. *)
Theorem bus_number_ignored fuel chip addr alen len buffer b1 b2 s :
  0 <= b1 < 3 -> 0 <= b2 < 3 -> bus_initialized s = [1; 1; 1] ->
  (forall r s1, runs (let! _ := i2c_set_bus_num fuel b1 in i2c_read fuel chip addr alen len) s r s1 ->
    exists s2, runs (let! _ := i2c_set_bus_num fuel b2 in i2c_read fuel chip addr alen len) s r s2 /\ i2c_dev s2 = i2c_dev s1) /\
  (forall r s1, runs (let! _ := i2c_set_bus_num fuel b1 in i2c_write fuel chip addr alen buffer) s r s1 ->
    exists s2, runs (let! _ := i2c_set_bus_num fuel b2 in i2c_write fuel chip addr alen buffer) s r s2 /\ i2c_dev s2 = i2c_dev s1).
Proof.
  intros H1 H2 Hl. destruct (set_bus_runs fuel b1 s H1 Hl) as (t1 & R1 & D1 & O1 & _). destruct (set_bus_runs fuel b2 s H2 Hl) as (t2 & R2 & D2 & O2 & _).
  assert (forall A (m : M (i2c_drv D) A) r s1, agree m -> runs (let! _ := i2c_set_bus_num fuel b1 in m) s r s1 ->
    exists s2, runs (let! _ := i2c_set_bus_num fuel b2 in m) s r s2 /\ i2c_dev s2 = i2c_dev s1) as Hm.
  { intros A m r s1 Hm Hr. apply runs_bind_inv in Hr as (x & t & Rx & Hr). unfold runs in Rx, R1. rewrite R1 in Rx. injection Rx as <- <-.
    destruct (Hm t1 t2 r s1) as (s2 & G & Hd & _); [split_and!; [by rewrite D1, D2|done..]|done|].
    exists s2. split; [eapply runs_bind; [exact R2|exact G]|done]. }
  split; intros r s1; apply Hm; unfold i2c_read, i2c_write.
  - destruct (1 <? alen); [apply agree_ret|]. destruct (256 <? _); [apply agree_ret|apply agree_read_loop].
  - destruct (1 <? alen); [apply agree_ret|]. destruct (256 <? _); [apply agree_ret|apply agree_write_loop].
Qed.

(** High speed mode passes its check and gets a clock that does not fit: the check of the
second phase looks at the first phase again. *)
Lemma high_speed_clock : i2c_clocks OMAP_I2C_HIGH_SPEED = Some (4, 2 ^ 32 - 1006, 2 ^ 32 - 1006).
Proof. reflexivity. Qed.
End bus_number.

(** ** The driver and the rest of the chip *)
Section keeps.
Context {D : Type} {HD : I2cPort D} (P : D -> Prop).
Context (Hin : forall d a, a < 0x48310000 -> P d -> P (snd (i2c_in d a))) (Hout : forall d a v, a < 0x48310000 -> P d -> P (i2c_out d a v)).
Abbreviation keeps m := (ensures P m (fun _ => P)).

Lemma port_keeps_ret {A} (x : A) : keeps (mret x).
Proof. by apply ens_ret. Qed.
Lemma port_keeps_bind {A B} (m : M D A) (k : A -> M D B) : keeps m -> (forall a, keeps (k a)) -> keeps (mbind m k).
Proof. intros Hm Hk. by apply (ens_bind _ _ (fun _ => P)). Qed.
Lemma keeps_readw a : a < 0x48310000 -> keeps (readw a).
Proof. intros Ha d v d' Hd Hr. unfold runs, readw in Hr. pose proof (Hin d a Ha Hd). destruct (i2c_in d a). by injection Hr as <- <-. Qed.
Lemma keeps_readb a : a < 0x48310000 -> keeps (readb a).
Proof. intros Ha d v d' Hd Hr. unfold runs, readb in Hr. pose proof (Hin d a Ha Hd). destruct (i2c_in d a). by injection Hr as <- <-. Qed.
Lemma keeps_writew v a : a < 0x48310000 -> keeps (writew v a).
Proof. intros Ha d [] d' Hd [= <-]. by apply Hout. Qed.
Lemma keeps_writeb v a : a < 0x48310000 -> keeps (writeb v a).
Proof. intros Ha d [] d' Hd [= <-]. by apply Hout. Qed.

Ltac keep :=
  repeat first
    [ assumption | apply port_keeps_ret | (apply keeps_readw; reflexivity) | (apply keeps_readb; reflexivity) | (apply keeps_writew; reflexivity)
    | (apply keeps_writeb; reflexivity) | apply ens_fault | (apply port_keeps_bind; [|intros ?])
    | match goal with |- ensures _ (if ?b then _ else _) _ => destruct b | |- ensures _ (let '(_, _) := ?r in _) _ => destruct r end ].

Lemma keeps_flush fuel : keeps (flush_fifo fuel).
Proof. induction fuel as [|fuel IH]; cbn [flush_fifo]; keep. Qed.
Lemma keeps_bb n : keeps (bb_loop n).
Proof. induction n as [|n IH]; cbn [bb_loop]; keep. Qed.
Lemma keeps_pin n : keeps (pin_loop n).
Proof. induction n as [|n IH]; cbn [pin_loop]; keep. Qed.
Lemma keeps_free fuel : keeps (free_loop fuel).
Proof. induction fuel as [|fuel IH]; cbn [free_loop]; keep. Qed.
Lemma keeps_idle fuel : keeps (idle_loop fuel).
Proof. induction fuel as [|fuel IH]; cbn [idle_loop]; keep. Qed.
Lemma keeps_eout n : keeps (eout_loop n).
Proof. induction n as [|n IH]; cbn [eout_loop]; keep. Qed.
Lemma keeps_wait_bb : keeps wait_for_bb.
Proof. pose proof (keeps_bb 10). unfold wait_for_bb. keep. Qed.
Lemma keeps_wait_pin : keeps wait_for_pin.
Proof. pose proof (keeps_pin 10). unfold wait_for_pin. keep. Qed.
Lemma keeps_finish fuel : keeps (finish_byte fuel).
Proof. pose proof (keeps_flush fuel). unfold finish_byte. keep. Qed.
Lemma keeps_read_byte fuel chip r : keeps (i2c_read_byte fuel chip r).
Proof.
  pose proof keeps_wait_bb. pose proof keeps_wait_pin. pose proof (keeps_finish fuel). pose proof (keeps_free fuel). pose proof (keeps_idle fuel).
  unfold i2c_read_byte. keep.
Qed.
Lemma keeps_write_byte fuel chip r v : keeps (i2c_write_byte fuel chip r v).
Proof.
  pose proof keeps_wait_bb. pose proof keeps_wait_pin. pose proof (keeps_finish fuel). pose proof (keeps_eout 199).
  unfold i2c_write_byte. keep.
Qed.
Lemma keeps_probe fuel chip : keeps (i2c_probe fuel chip).
Proof. pose proof keeps_wait_bb. pose proof (keeps_flush fuel). unfold i2c_probe. keep. Qed.
Lemma keeps_program fuel psc scll sclh oa : keeps (i2c_program fuel psc scll sclh oa).
Proof. pose proof (keeps_finish fuel). unfold i2c_program. keep. Qed.

(** With the driver's variables. *)
Definition on_dev (s : i2c_drv D) : Prop := P (i2c_dev s).
Abbreviation ikeeps m := (ensures on_dev m (fun _ => on_dev)).

Lemma ikeeps_lift {A} (m : M D A) : keeps m -> ikeeps (i2c_lift m).
Proof. intros Hm s a s' Hs Hr. apply runs_zoom_inv in Hr as (d & Hr & ->). exact (Hm _ _ _ Hs Hr). Qed.
Lemma ikeeps_bind {A B} (m : M (i2c_drv D) A) (k : A -> M (i2c_drv D) B) : ikeeps m -> (forall a, ikeeps (k a)) -> ikeeps (mbind m k).
Proof. intros Hm Hk. by apply (ens_bind _ _ (fun _ => on_dev)). Qed.
Lemma ikeeps_ret {A} (x : A) : ikeeps (mret x).
Proof. by apply ens_ret. Qed.
Lemma ikeeps_gets {A} (f : i2c_drv D -> A) : ikeeps (mgets f).
Proof. by intros s a s' Hs [= <- <-]. Qed.

Lemma ikeeps_init fuel speed oa : ikeeps (i2c_init fuel speed oa).
Proof.
  unfold i2c_init. destruct (i2c_clocks speed) as [[[psc scll] sclh]|]; [|apply ikeeps_ret].
  apply ikeeps_bind; [apply ikeeps_gets|intros c]. apply ikeeps_bind; [apply ikeeps_gets|intros l]. destruct (_ && _); [|apply ens_fault].
  apply ikeeps_bind; [by intros s [] s' Hs [= <-]|intros ?]. apply ikeeps_lift, keeps_program.
Qed.

Lemma ikeeps_read fuel chip addr alen len : ikeeps (i2c_read fuel chip addr alen len).
Proof.
  unfold i2c_read. destruct (1 <? alen); [apply ikeeps_ret|]. destruct (256 <? _); [apply ikeeps_ret|]. generalize 0 as i. generalize (Z.to_nat len) as n.
  induction n as [|n IH]; intros i; cbn [read_loop]; [apply ikeeps_ret|]. apply ikeeps_bind; [apply ikeeps_lift, keeps_read_byte|]. intros [e v].
  assert (ikeeps (do! i2c_init fuel CONFIG_SYS_I2C_SPEED CONFIG_SYS_I2C_SLAVE in mret (1, @nil Z))) as Hi
    by (apply ikeeps_bind; [apply ikeeps_init|intros ?; apply ikeeps_ret]).
  destruct e, v; try exact Hi. apply ikeeps_bind; [apply IH|]. intros rest. apply ikeeps_ret.
Qed.

Lemma ikeeps_write fuel chip addr alen buffer : ikeeps (i2c_write fuel chip addr alen buffer).
Proof.
  unfold i2c_write. destruct (1 <? alen); [apply ikeeps_ret|]. destruct (256 <? _); [apply ikeeps_ret|]. generalize 0 as i.
  induction buffer as [|b buffer IH]; intros i; cbn [write_loop]; [apply ikeeps_ret|]. apply ikeeps_bind; [apply ikeeps_lift, keeps_write_byte|].
  intros e. destruct (truthy e); [apply ikeeps_bind; [apply ikeeps_init|intros ?; apply ikeeps_ret]|apply IH].
Qed.

Lemma ikeeps_set_bus fuel b : ikeeps (i2c_set_bus_num fuel b).
Proof.
  unfold i2c_set_bus_num. destruct (_ || _); [apply ikeeps_ret|]. apply ikeeps_bind; [by intros s [] s' Hs [= <-]|intros ?].
  apply ikeeps_bind; [apply ikeeps_gets|intros l]. apply ikeeps_bind; [|intros ?; apply ikeeps_ret].
  destruct (l !! Z.to_nat b) as [x|]; [|apply ens_fault]. destruct (truthy x); [apply ikeeps_ret|apply ikeeps_init].
Qed.
End keeps.
