(* ===== verification/UBootApps.v ===== *)
(** * U-Boot's programs for the board

[rhino_gpmc_test.c], [rhino_fmc_control.c] and [rhino_system_monitor.c] of
[src/u-boot/examples/standalone], on top of the pins ([Gpio]) and the I2C driver
([I2cUBoot]).  What is printed is kept as the format and its numbers; delays are left
out. *)
From stdpp Require Import base list.
From S2P Require Import Prelude Bits Serial Clocks Gpio I2cUBoot.
From Stdlib Require Import ZArith Lia String.

(** ** [rhino_gpmc_test] *)

(** [fpga] is what the FPGA answers to a read of a halfword. *)
Section gpmc_test.
Context (fpga : Z -> Z).

(** [if(data_recvd != ((address + 1) & 0xFFFF)) num_errors++;] *)
Definition check_word (address num_errors : Z) : Z :=
  if negb (u16 (fpga address) =? Z.land (u32 (address + 1)) 0xFFFF) then s32 (num_errors + 1) else num_errors.

(** Both loops return [num_errors]; [None] when they run out of fuel. *)
Fixpoint read_test1 (fuel : nat) (address num_errors : Z) : option Z :=
  if address <? 0x38000000 + 128 * 1024 * 1024 then
    match fuel with
    | O => None
    | S fuel =>
      let address := if address =? 0x30000000 then 0x38000000 else address in
      read_test1 fuel (u32 (address + 2)) (check_word address num_errors)
    end
  else Some num_errors.

Fixpoint read_test2 (fuel : nat) (i address num_errors : Z) : option Z :=
  if i <? 64 * 1024 * 1024 then
    match fuel with
    | O => None
    | S fuel => read_test2 fuel (u32 (i + 1)) (Z.lxor address 0x00FFFFFE) (check_word address num_errors)
    end
  else Some num_errors.

(** The number of errors that is printed, and the halfwords written to the FPGA. *)
Definition rhino_gpmc_test (fuel : nat) : option (Z * list (Z * Z)) :=
  match read_test1 fuel 0x08000000 0 with
  | None => None
  | Some n =>
    match read_test2 fuel 0 0x10AAAAAA n with
    | None => None
    | Some n => Some (n, [(0x10000000, 0x01); (0x10000000, 0x02); (0x10000000, 0x04); (0x10000000, 0x08)])
    end
  end.
End gpmc_test.

(** ** Programs with pins, I2C and a console *)
Record ub (D : Type) : Type := mk_ub { u_i2c : i2c_drv D; u_out : list (string * list Z) }.
Arguments mk_ub {D}.
Arguments u_i2c {D}.
Arguments u_out {D}.

Definition FMC0_SUPPLY_EN : Z := 102.
Definition FMC0_GA0 : Z := 140.
Definition FMC0_GA1 : Z := 141.
Definition FMC0_nPRSNT_M2C : Z := 142.
Definition FMC1_GA0 : Z := 155.
Definition FMC1_GA1 : Z := 152.
Definition FMC1_nPRSNT_M2C : Z := 153.
Definition FMC_PG_C2M : Z := 143.
Definition SI_CLK_ADDR : Z := 0x5D.
Definition FPGA_VCCINT_EN : Z := 99.
Definition TEMP_MON_ADDR : Z := 0x18.
Definition FAN_CONTRLR_ADDR : Z := 0x1B.
Definition pwr_mon_addresses : list Z := [0x40; 0x41; 0x42; 0x43; 0x44; 0x45; 0x46; 0x47; 0x49].
Definition INA219_VOLT_REG : Z := 0x02.
Definition INA219_CURR_REG : Z := 0x04.
Definition INA219_CALIB_REG : Z := 0x05.
Definition MAX1668_DX1_TEMP_REG : Z := 0x01.
Definition MAX1668_DX2_TEMP_REG : Z := 0x02.
Definition MAX1668_DX3_TEMP_REG : Z := 0x03.
Definition TC654_RPM1_REG : Z := 0x00.
Definition TC654_RPM2_REG : Z := 0x01.
Definition TC654_CONFIG_REG : Z := 0x04.

Section apps.
Context {D : Type} `{Mmio D} `{I2cPort D}.
Abbreviation UM := (M (ub D)).
Open Scope string_scope.
Open Scope Z_scope.

Definition printf (format : string) (args : list Z) : UM unit := mmodify (fun s => mk_ub (u_i2c s) (u_out s ++ [(format, args)])%list).
Definition on_i2c {A} (m : M (i2c_drv D) A) : UM A := mzoom u_i2c (fun i s => mk_ub i (u_out s)) m.
Definition on_pins {A} (m : M D A) : UM A := on_i2c (i2c_lift m).

(** [for (i=0; i<n; i++) WRITE_GPIO(gpio + i, 1);] *)
Fixpoint drive_up (n : nat) (gpio : Z) : M D unit :=
  match n with O => mret tt | S n => do! drive gpio 1 in drive_up n (gpio + 1) end.

Definition READ_GPIO (gpio : Z) : M D Z :=
  let! _ := omap_request_gpio gpio in
  do! omap_set_gpio_direction gpio 1 in
  omap_get_gpio_datain gpio.

(** [if (e != 0) printf(...)] *)
Definition complain (e : Z) (format : string) (args : list Z) : UM unit := if negb (e =? 0) then printf format args else mret tt.

(** [si_clk_reg7] holds [junk] unless it is read. *)
Definition rhino_fmc_control (fuel : nat) (junk : Z) : UM Z :=
  do! printf "\n== Rhino FMC Control Program ==\n\n" [] in
  do! printf "Switching on FMC supplies.\n" [] in
  do! on_pins (drive_up 4 FMC0_SUPPLY_EN) in
  do! printf "Setting FMC_PG_C2M = 1, FMC0_GA[1:0] = 00, FMC1_GA[1:0] = 01.\n" [] in
  do! on_pins (drive FMC_PG_C2M 1) in
  do! on_pins (drive FMC0_GA0 0) in
  do! on_pins (drive FMC0_GA1 0) in
  do! on_pins (drive FMC1_GA0 1) in
  do! on_pins (drive FMC1_GA1 0) in
  do! printf "Done setting signals.\n" [] in
  let! fmc0 := on_pins (READ_GPIO FMC0_nPRSNT_M2C) in
  let! fmc1 := on_pins (READ_GPIO FMC1_nPRSNT_M2C) in
  do! printf "FMC0_nPRST_M2C> %d\n" [u8 fmc0] in
  do! printf "FMC1_nPRST_M2C> %d\n" [u8 fmc1] in
  let! e := on_i2c (i2c_set_bus_num fuel 2) in
  do! complain e "Error setting I2C bus number\n" [] in
  let! r := on_i2c (i2c_read fuel SI_CLK_ADDR 7 1 1) in
  do! complain (fst r) "Error reading I2C register 7.\n" [] in
  do! printf "Register 7 of SiLab chip was %d. Setting to 0x00\n" [hd junk (snd r)] in
  let! e := on_i2c (i2c_write fuel SI_CLK_ADDR 7 1 [0]) in
  do! complain e "Error writing I2c register 7.\n" [] in
  do! printf "Finished.\n" [] in
  mret 0.

(** ** [rhino_system_monitor] *)

(** [reg_val] with bytes put at its start. *)
Definition fill (bytes reg_val : list Z) : list Z := (bytes ++ drop (List.length bytes) reg_val)%list.
Definition byte_at (reg_val : list Z) (i : nat) : Z := nth i reg_val 0.

(** A read of [len] bytes, and what is made of them; the result is [reg_val]. *)
Definition show (fuel : nat) (chip reg len : Z) (error : string) (args : list Z) (format : string) (value : list Z -> Z) (reg_val : list Z) : UM (list Z) :=
  let! r := on_i2c (i2c_read fuel chip reg 1 len) in
  let reg_val := fill (snd r) reg_val in
  do! complain (fst r) error args in
  do! printf format [value reg_val] in
  mret reg_val.

Definition volts (reg_val : list Z) : Z := (Z.shiftl (byte_at reg_val 0) 5 + Z.shiftr (byte_at reg_val 1) 3) * 4.
Definition amps (reg_val : list Z) : Z := s16 (Z.shiftl (byte_at reg_val 0) 8 + byte_at reg_val 1).

(** [for(i = 0; i < 9; i++)] over the monitors, from number [i] on. *)
Fixpoint show_all (fuel : nat) (chips : list Z) (reg i : Z) (error : string) (value : list Z -> Z) (reg_val : list Z) : UM (list Z) :=
  match chips with
  | [] => mret reg_val
  | chip :: chips =>
    let! reg_val := show fuel chip reg 2 error [i + 1] "%d," value reg_val in
    show_all fuel chips reg (i + 1) error value reg_val
  end.

Fixpoint calibrate (fuel : nat) (chips : list Z) (i : Z) (reg_val : list Z) : UM unit :=
  match chips with
  | [] => mret tt
  | chip :: chips =>
    let! e := on_i2c (i2c_write fuel chip INA219_CALIB_REG 1 (take 2 reg_val)) in
    do! complain e "Error calibrating current sensor %d.\n" [i + 1] in
    calibrate fuel chips (i + 1) reg_val
  end.

(** The readings of one turn of the main loop. *)
Definition monitor_row (fuel : nat) (seconds : Z) (reg_val : list Z) : UM (list Z) :=
  do! printf "%d," [seconds] in
  let! reg_val := show_all fuel pwr_mon_addresses INA219_VOLT_REG 0 "Error reading I2C voltage register for monitor %d.\n" volts reg_val in
  let! reg_val := show_all fuel pwr_mon_addresses INA219_CURR_REG 0 "Error reading I2C current register for monitor %d.\n" amps reg_val in
  let! reg_val := show fuel TEMP_MON_ADDR MAX1668_DX1_TEMP_REG 1 "Error reading proc temperature.\n" [] "%d," (fun v => byte_at v 0) reg_val in
  let! reg_val := show fuel TEMP_MON_ADDR MAX1668_DX2_TEMP_REG 1 "Error reading FPGA temperature.\n" [] "%d," (fun v => byte_at v 0) reg_val in
  let! reg_val := show fuel TEMP_MON_ADDR MAX1668_DX3_TEMP_REG 1 "Error reading AMB temperature.\n" [] "%d," (fun v => byte_at v 0) reg_val in
  let! reg_val := show fuel FAN_CONTRLR_ADDR TC654_RPM1_REG 1 "Error reading fan1 speed.\n" [] "%d," (fun v => byte_at v 0 * 50) reg_val in
  show fuel FAN_CONTRLR_ADDR TC654_RPM1_REG 1 "Error reading fan2 speed.\n" [] "%d\n" (fun v => byte_at v 0 * 50) reg_val.

(** What the program does besides at certain times. *)
Definition monitor_events (fuel : nat) (seconds : Z) (reg_val : list Z) : UM (list Z) :=
  do! (if seconds =? 30 then do! printf "Switching on FPGA\n" [] in on_pins (drive_up 3 FPGA_VCCINT_EN) else mret tt) in
  do! (if seconds =? 60 then printf "FPGA programming now beginning\n" [] else mret tt) in
  do! (if seconds =? 150 then printf "FPGA now programmed\n" [] else mret tt) in
  do! (if seconds =? 3 * 60 then do! printf "Switching on FMC cards\n" [] in on_pins (drive_up 4 FMC0_SUPPLY_EN) else mret tt) in
  if seconds =? 4 * 60 then
    do! printf "Switching on fans\n" [] in
    let reg_val := 0x14 :: drop 1 reg_val in
    let! e := on_i2c (i2c_write fuel FAN_CONTRLR_ADDR TC654_CONFIG_REG 1 (take 1 reg_val)) in
    do! complain e "Error switching on fans.\n" [] in
    mret reg_val
  else mret reg_val.

(** [for(seconds = 0; seconds < 6*60; seconds += 2)], with [n] turns to go. *)
Fixpoint monitor_loop (fuel n : nat) (seconds : Z) (reg_val : list Z) : UM unit :=
  match n with
  | O => mret tt
  | S n =>
    let! reg_val := monitor_row fuel seconds reg_val in
    let! reg_val := monitor_events fuel seconds reg_val in
    monitor_loop fuel n (seconds + 2) reg_val
  end.

Definition rhino_system_monitor (fuel : nat) : UM Z :=
  do! printf "\n== Rhino System Monitor ==\n\n" [] in
  let! e := on_i2c (i2c_set_bus_num fuel 0) in
  do! complain e "Error setting I2C bus number\n" [] in
  let! e := on_i2c (i2c_write fuel FAN_CONTRLR_ADDR TC654_CONFIG_REG 1 [0x15]) in
  do! complain e "Error switching off fans.\n" [] in
  let reg_val := [0x20; 0x00] in
  do! calibrate fuel pwr_mon_addresses 0 reg_val in
  do! printf "%s %s %s %s\n" [] in
  do! monitor_loop fuel 180 0 reg_val in
  do! printf "Finished.\n" [] in
  mret 0.
End apps.

(** * Properties *)

(** ** The test of the bus *)
Section gpmc_test_laws.
Context (fpga : Z -> Z).

(** Whether the FPGA answers with the address plus one. *)
Definition good_word (a : Z) : bool := u16 (fpga a) =? (a + 1) mod 2 ^ 16.

(** The wrong answers among [k] halfwords from [a] on. *)
Fixpoint errs (a : Z) (k : nat) : Z :=
  match k with O => 0 | S k => (if good_word a then 0 else 1) + errs (a + 2) k end.

Lemma errs_range a k : 0 <= errs a k <= Z.of_nat k.
Proof. revert a. induction k as [|k IH]; intros a; cbn [errs]; [lia|]. specialize (IH (a + 2)). destruct (good_word a); lia. Qed.

Lemma errs_zero a k : errs a k = 0 <-> forall j, 0 <= j < Z.of_nat k -> good_word (a + 2 * j) = true.
Proof.
  revert a. induction k as [|k IH]; intros a; cbn [errs]; [split; [lia|done]|]. pose proof (errs_range (a + 2) k). specialize (IH (a + 2)). split.
  - intros He j Hj. destruct (good_word a) eqn:E; [|lia]. destruct (decide (j = 0)) as [->|]; [by rewrite Z.add_0_r|].
    replace (a + 2 * j) with (a + 2 + 2 * (j - 1)) by lia. apply IH; lia.
  - intros Hg. assert (good_word a = true) as -> by (rewrite <- (Hg 0) by lia; f_equal; lia). cbn. apply IH. intros j Hj.
    rewrite <- (Hg (j + 1)) by lia. f_equal. lia.
Qed.

Lemma check_word_adds a n : 0 <= a < 2 ^ 31 -> 0 <= n < 2 ^ 31 - 1 -> check_word fpga a n = n + if good_word a then 0 else 1.
Proof.
  intros Ha Hn. unfold check_word, good_word. rewrite (wrapu_small 32) by lia.
  assert (Z.land (a + 1) 0xFFFF = (a + 1) mod 2 ^ 16) as -> by exact (Z.land_ones (a + 1) 16 ltac:(lia)).
  destruct (u16 (fpga a) =? _); cbn [negb]; [lia|]. apply wraps_small; lia.
Qed.

(** A stretch without the gap. *)
Lemma read_test1_run k fuel a n :
  0 <= a -> a + 2 * Z.of_nat k <= 0x40000000 -> a + 2 * Z.of_nat k <= 0x30000000 \/ 0x30000000 < a -> 0 <= n -> n + Z.of_nat k < 2 ^ 31 ->
  read_test1 fpga (k + fuel) a n = read_test1 fpga fuel (a + 2 * Z.of_nat k) (n + errs a k).
Proof.
  revert a n. induction k as [|k IH]; intros a n Ha Hk Hg Hn Hb.
  - cbn [Nat.add errs]. by rewrite Z.add_0_r, Z.add_0_r.
  - cbn [Nat.add read_test1 errs]. rewrite (proj2 (Z.ltb_lt a _)), (proj2 (Z.eqb_neq a _)) by lia. cbv zeta.
    rewrite check_word_adds, (wrapu_small 32) by lia. rewrite IH by (destruct (good_word a); lia). f_equal; lia.
Qed.

Lemma read_test1_end fuel n : read_test1 fpga fuel 0x40000000 n = Some n.
Proof. by destruct fuel. Qed.

Lemma read_test1_total k1 k2 fuel :
  Z.of_nat k1 = 0x14000000 -> Z.of_nat k2 = 0x03FFFFFF -> (k1 + S k2 <= fuel)%nat ->
  read_test1 fpga fuel 0x08000000 0 = Some (errs 0x08000000 k1 + errs 0x38000000 (S k2)).
Proof.
  intros Z1 Z2 Hf. pose proof (errs_range 0x08000000 k1). pose proof (errs_range 0x38000002 k2).
  replace fuel with (k1 + S (k2 + (fuel - k1 - 1 - k2)))%nat by lia.
  rewrite read_test1_run by lia. rewrite Z1. cbn [read_test1 errs]. change (0x08000000 + 2 * 0x14000000) with 0x30000000.
  change (0x30000000 <? 0x38000000 + 128 * 1024 * 1024) with true. change (0x30000000 =? 0x30000000) with true. cbv iota zeta.
  rewrite check_word_adds, (wrapu_small 32) by lia. rewrite read_test1_run by (destruct (good_word 0x38000000); lia). rewrite Z2.
  change (0x38000000 + 2 + 2 * 0x03FFFFFF) with 0x40000000. rewrite read_test1_end. change (0x38000000 + 2) with 0x38000002. f_equal. lia.
Qed.

(** The second test goes back and forth between two addresses. *)
Lemma read_test2_run k fuel i n :
  0 <= i -> i + 2 * Z.of_nat k <= 0x04000000 -> 0 <= n -> n + 2 * Z.of_nat k < 2 ^ 31 ->
  read_test2 fpga (2 * k + fuel) i 0x10AAAAAA n =
  read_test2 fpga fuel (i + 2 * Z.of_nat k) 0x10AAAAAA
    (n + Z.of_nat k * ((if good_word 0x10AAAAAA then 0 else 1) + (if good_word 0x10555554 then 0 else 1))).
Proof.
  revert i n. induction k as [|k IH]; intros i n Hi Hk Hn Hb.
  - cbn [Nat.add Nat.mul]. f_equal; lia.
  - replace (2 * S k + fuel)%nat with (S (S (2 * k + fuel))) by lia. cbn [read_test2].
    rewrite (wrapu_small 32 (i + 1)), !(wrapu_small 32) by lia. rewrite (proj2 (Z.ltb_lt i _)), (proj2 (Z.ltb_lt (i + 1) _)) by lia.
    change (Z.lxor (Z.lxor 0x10AAAAAA 0x00FFFFFE) 0x00FFFFFE) with 0x10AAAAAA. change (Z.lxor 0x10AAAAAA 0x00FFFFFE) with 0x10555554.
    rewrite (check_word_adds 0x10AAAAAA), check_word_adds by (destruct (good_word 0x10AAAAAA); lia).
    rewrite IH by (destruct (good_word 0x10AAAAAA), (good_word 0x10555554); lia).
    f_equal; destruct (good_word 0x10AAAAAA), (good_word 0x10555554); lia.
Qed.

Lemma read_test2_total k fuel n :
  Z.of_nat k = 0x02000000 -> (2 * k <= fuel)%nat -> 0 <= n -> n + 0x04000000 < 2 ^ 31 ->
  read_test2 fpga fuel 0 0x10AAAAAA n =
  Some (n + 0x02000000 * ((if good_word 0x10AAAAAA then 0 else 1) + (if good_word 0x10555554 then 0 else 1))).
Proof.
  intros Zk Hf Hn Hb. replace fuel with (2 * k + (fuel - 2 * k))%nat by lia. rewrite read_test2_run by lia. rewrite Zk.
  by destruct (fuel - 2 * k)%nat.
Qed.

Lemma nat_of x : 0 <= x -> exists k, Z.of_nat k = x.
Proof. intros Hx. exists (Z.to_nat x). by apply Z2Nat.id. Qed.

(** The windows of the FPGA. *)
Definition fpga_window (a : Z) : Prop := 0x08000000 <= a < 0x30000000 \/ 0x38000000 <= a < 0x40000000.

(** The bus test.  It ends after 0x18000000 and 0x04000000 reads, its count of errors
does not overflow, and is 0 exactly if the FPGA answers to every even address of its six
windows with the address plus one; then it lights the four lamps in turn. *)
Theorem gpmc_test_finds fuel :
  0x18000000 <= Z.of_nat fuel ->
  exists n, rhino_gpmc_test fpga fuel = Some (n, [(0x10000000, 1); (0x10000000, 2); (0x10000000, 4); (0x10000000, 8)]) /\
    0 <= n <= 0x18000000 + 0x04000000 /\
    (n = 0 <-> forall a, fpga_window a -> Z.even a = true -> good_word a = true).
Proof.
  intros Hf. destruct (nat_of 0x14000000 ltac:(lia)) as [k1 E1]. destruct (nat_of 0x03FFFFFF ltac:(lia)) as [k2 E2].
  destruct (nat_of 0x02000000 ltac:(lia)) as [k3 E3]. unfold rhino_gpmc_test. rewrite (read_test1_total k1 k2) by lia.
  pose proof (errs_range 0x08000000 k1). pose proof (errs_range 0x38000000 (S k2)).
  pose proof (errs_zero 0x08000000 k1) as Z1. pose proof (errs_zero 0x38000000 (S k2)) as Z2.
  set (e1 := errs 0x08000000 k1) in *. set (e2 := errs 0x38000000 (S k2)) in *.
  rewrite (read_test2_total k3) by lia. eexists. split; [reflexivity|].
  split; [destruct (good_word 0x10AAAAAA), (good_word 0x10555554); lia|]. split.
  - intros He a Hw Hev. assert (e1 = 0 /\ e2 = 0) as [He1 He2] by (destruct (good_word 0x10AAAAAA), (good_word 0x10555554); lia).
    apply Z.even_spec in Hev as [h ->]. destruct Hw as [Hw|Hw].
    + replace (2 * h) with (0x08000000 + 2 * (h - 0x04000000)) by lia. apply Z1; [done|lia].
    + replace (2 * h) with (0x38000000 + 2 * (h - 0x1C000000)) by lia. apply Z2; [done|lia].
  - intros Hg. assert (forall j, Z.even (2 * j) = true) as Hev by (intros j; by rewrite Z.even_mul).
    assert (e1 = 0) as -> by (apply Z1; intros j Hj; apply Hg; [left; lia|]; replace (0x08000000 + 2 * j) with (2 * (0x04000000 + j)) by lia; apply Hev).
    assert (e2 = 0) as -> by (apply Z2; intros j Hj; apply Hg; [right; lia|]; replace (0x38000000 + 2 * j) with (2 * (0x1C000000 + j)) by lia; apply Hev).
    by rewrite !Hg by (done || (left; lia)).
Qed.
End gpmc_test_laws.

(** ** The system monitor *)

(** A chip with registers: a message with the number of one selects it for reading, and
changes none. *)
Class RegTarget (T : Type) `{I2cTarget T} : Type := {
  reg : T -> Z -> Z;
  reg_first t r : t_first (t_write t [r]) = reg t r;
  reg_keep t r x : reg (t_write t [r]) x = reg t x;
}.

Section monitor.
Context {D : Type} {HM : Mmio D} {HD : I2cPort D} {T : Type} {HT : I2cTarget T} {HR : RegTarget T} (polls : nat) {HL : I2cLaws T polls}.
Context (Hpolls : (polls <= 10)%nat) (fuel : nat) (Hfuel : (2 <= fuel)%nat).
Open Scope string_scope.
Open Scope Z_scope.

(** The bus is free, and the chips in [F] have these registers. *)
Definition on_regs (F : Z -> option (Z -> Z)) (s : ub D) : Prop :=
  exists to, on_bus polls to (u_i2c s) /\ forall c f, F c = Some f -> exists t, to c = Some t /\ forall x, reg t x = f x.

(** [m] prints [out] and disturbs no register. *)
Definition prints {A} (F : Z -> option (Z -> Z)) (m : M (ub D) A) (r : A) (out : list (string * list Z)) : Prop :=
  forall s, on_regs F s -> exists s', runs m s r s' /\ on_regs F s' /\ u_out s' = (u_out s ++ out)%list.

Lemma prints_ret {A} F (x : A) : prints F (mret x) x [].
Proof. intros s Hs. exists s. by rewrite app_nil_r. Qed.

Lemma prints_bind {A B} F (m : M (ub D) A) (k : A -> M (ub D) B) a b o1 o2 :
  prints F m a o1 -> prints F (k a) b o2 -> prints F (mbind m k) b (o1 ++ o2)%list.
Proof.
  intros Hm Hk s Hs. destruct (Hm s Hs) as (s1 & R1 & F1 & O1). destruct (Hk s1 F1) as (s2 & R2 & F2 & O2).
  exists s2. split; [by eapply runs_bind|]. split; [done|]. by rewrite O2, O1, app_assoc.
Qed.

Lemma prints_printf F format args : prints F (printf format args) tt [(format, args)].
Proof. intros s Hs. eexists. split; [apply runs_modify|]. done. Qed.

Lemma regs_bytes n t a : fst (reg_bytes n t a) = map (reg t) (seqZ a (Z.of_nat n)) /\ forall x, reg (snd (reg_bytes n t a)) x = reg t x.
Proof.
  revert t a. induction n as [|n IH]; intros t a; [done|]. cbn [reg_bytes]. specialize (IH (t_write t [a]) (a + 1)).
  destruct (reg_bytes n (t_write t [a]) (a + 1)) as [l t'] eqn:E. cbn [fst snd] in *. destruct IH as [-> Ht'].
  rewrite (seqZ_cons a (Z.of_nat (S n))) by lia. cbn [map]. replace (Z.pred (Z.of_nat (S n))) with (Z.of_nat n) by lia. rewrite reg_first. split.
  - f_equal. apply List.map_ext. intros x. apply reg_keep.
  - intros x. by rewrite Ht', reg_keep.
Qed.

(** A read of registers. *)
Lemma prints_read F chip f a len :
  F chip = Some f -> 0 <= chip < 256 -> 0 <= a -> 0 <= len -> a + len <= 256 ->
  prints F (on_i2c (i2c_read fuel chip a 1 len)) (0, map f (seqZ a len)) [].
Proof.
  intros Hf Hc Ha Hlen Hr s (to & Hb & HF). destruct (HF chip f Hf) as (t & Ht & Hreg).
  pose proof (i2c_read_present polls Hpolls fuel chip a 1 len to t (u_i2c s) Hfuel Hc Ha (Z.le_refl 1) Hlen Hr Hb Ht) as HR'.
  destruct (regs_bytes (Z.to_nat len) t a) as [Hl Hk]. destruct (reg_bytes (Z.to_nat len) t a) as [l t']. cbn [fst snd] in *.
  destruct HR' as (i' & R & B'). rewrite Z2Nat.id in Hl by done.
  assert (l = map f (seqZ a len)) as -> by (rewrite Hl; apply List.map_ext; exact Hreg).
  eexists. split; [by apply runs_zoom|]. split; [|by rewrite app_nil_r]. exists (put_chip chip t' to). split; [exact B'|].
  intros c g Hg. unfold put_chip. destruct (Z.eqb_spec c chip) as [->|]; [|by apply HF]. exists t'. split; [done|]. intros x.
  rewrite Hk, Hreg. by rewrite Hf in Hg; injection Hg as <-.
Qed.

Lemma prints_show F chip f a len error args format value rv :
  F chip = Some f -> 0 <= chip < 256 -> 0 <= a -> 0 <= len -> a + len <= 256 ->
  let rv' := fill (map f (seqZ a len)) rv in
  prints F (show fuel chip a len error args format value rv) rv' [(format, [value rv'])].
Proof.
  intros Hf Hc Ha Hlen Hr rv'. unfold show. change [(format, [value rv'])] with ([] ++ [] ++ [(format, [value rv'])] ++ [])%list.
  eapply prints_bind; [by apply (prints_read F chip f)|]. cbv zeta. cbn [fst snd]. fold rv'.
  eapply prints_bind; [apply prints_ret|]. eapply prints_bind; [apply prints_printf|apply prints_ret].
Qed.

(** The registers of a chip in [F]. *)
Definition regs_of (F : Z -> option (Z -> Z)) (c : Z) : Z -> Z := default (fun _ => 0) (F c).

Lemma prints_show_all F chips a i error value rv :
  Forall (fun c => is_Some (F c) /\ 0 <= c < 256) chips -> 0 <= a <= 254 -> List.length rv = 2%nat ->
  exists rv', List.length rv' = 2%nat /\
    prints F (show_all fuel chips a i error value rv) rv' (map (fun c => ("%d,", [value [regs_of F c a; regs_of F c (a + 1)]])) chips).
Proof.
  intros Hch Ha. revert i rv. induction Hch as [|c chips [[f Hf] Hc] _ IH]; intros i rv Hl; cbn [show_all map].
  - exists rv. split; [done|apply prints_ret].
  - pose proof (prints_show F c f a 2 error [i + 1] "%d," value rv Hf Hc ltac:(lia) ltac:(lia) ltac:(lia)) as Hs. cbv zeta in Hs.
    assert (fill (map f (seqZ a 2)) rv = [f a; f (a + 1)]) as Efill.
    { assert (seqZ a 2 = [a; a + 1]) as -> by (rewrite seqZ_cons, seqZ_cons by lia; reflexivity). by destruct rv as [|x [|y [|]]]. }
    rewrite Efill in Hs. destruct (IH (i + 1) [f a; f (a + 1)]) as (rv' & Hl' & Hrest); [done|].
    exists rv'. split; [done|]. assert (regs_of F c = f) as -> by (unfold regs_of; by rewrite Hf).
    exact (prints_bind F _ _ _ rv' [("%d,", [value [f a; f (a + 1)]])] _ Hs Hrest).
Qed.

(** One byte, into the first place. *)
Lemma prints_byte F chip f a error args format value rv :
  F chip = Some f -> 0 <= chip < 256 -> 0 <= a <= 255 -> List.length rv = 2%nat ->
  exists rv', List.length rv' = 2%nat /\
    prints F (show fuel chip a 1 error args format (fun v => value (byte_at v 0)) rv) rv' [(format, [value (f a)])].
Proof.
  intros Hf Hc Ha Hl. pose proof (prints_show F chip f a 1 error args format (fun v => value (byte_at v 0)) rv Hf Hc ltac:(lia) ltac:(lia) ltac:(lia)) as Hs.
  cbv zeta in Hs. assert (seqZ a 1 = [a]) as Es by (rewrite seqZ_cons by lia; reflexivity). rewrite Es in Hs.
  destruct rv as [|x [|y [|]]]; try done. exists [f a; y]. by split.
Qed.

(** What a row of the monitor shows. *)
Definition row_text (F : Z -> option (Z -> Z)) (seconds : Z) : list (string * list Z) :=
  ([("%d,", [seconds])] ++
   map (fun c => ("%d,", [volts [regs_of F c 2; regs_of F c 3]])) pwr_mon_addresses ++
   map (fun c => ("%d,", [amps [regs_of F c 4; regs_of F c 5]])) pwr_mon_addresses ++
   [("%d,", [regs_of F TEMP_MON_ADDR 1])] ++ [("%d,", [regs_of F TEMP_MON_ADDR 2])] ++ [("%d,", [regs_of F TEMP_MON_ADDR 3])] ++
   [("%d,", [regs_of F FAN_CONTRLR_ADDR 0 * 50])] ++ [("%d\n", [regs_of F FAN_CONTRLR_ADDR 0 * 50])])%list.

(** The system monitor's readings.  With every chip on the bus, a turn of the monitor
returns and prints one line.  But a monitor's voltage and current, which are registers of
16 bits, are put together from the first bytes of two registers in a row, and both fan
speeds are the first fan's. *)
Theorem monitor_row_prints F seconds rv :
  Forall (fun c => is_Some (F c)) (TEMP_MON_ADDR :: FAN_CONTRLR_ADDR :: pwr_mon_addresses) -> List.length rv = 2%nat ->
  exists rv', List.length rv' = 2%nat /\ prints F (monitor_row fuel seconds rv) rv' (row_text F seconds).
Proof.
  intros HF Hl. apply Forall_cons in HF as [[ft Ht] HF]. apply Forall_cons in HF as [[ff Hff] HF].
  assert (Forall (fun c => is_Some (F c) /\ 0 <= c < 256) pwr_mon_addresses) as HF'.
  { apply Forall_and. split; [done|]. by repeat constructor. }
  assert (regs_of F TEMP_MON_ADDR = ft /\ regs_of F FAN_CONTRLR_ADDR = ff) as [Et Ef] by (unfold regs_of; by rewrite Ht, Hff).
  destruct (prints_show_all F pwr_mon_addresses 2 0 "Error reading I2C voltage register for monitor %d.\n" volts rv HF' ltac:(lia) Hl) as (v1 & L1 & P1).
  destruct (prints_show_all F pwr_mon_addresses 4 0 "Error reading I2C current register for monitor %d.\n" amps v1 HF' ltac:(lia) L1) as (v2 & L2 & P2).
  destruct (prints_byte F TEMP_MON_ADDR ft 1 "Error reading proc temperature.\n" [] "%d," (fun x => x) v2 Ht ltac:(done) ltac:(lia) L2) as (v3 & L3 & P3).
  destruct (prints_byte F TEMP_MON_ADDR ft 2 "Error reading FPGA temperature.\n" [] "%d," (fun x => x) v3 Ht ltac:(done) ltac:(lia) L3) as (v4 & L4 & P4).
  destruct (prints_byte F TEMP_MON_ADDR ft 3 "Error reading AMB temperature.\n" [] "%d," (fun x => x) v4 Ht ltac:(done) ltac:(lia) L4) as (v5 & L5 & P5).
  destruct (prints_byte F FAN_CONTRLR_ADDR ff 0 "Error reading fan1 speed.\n" [] "%d," (fun x => x * 50) v5 Hff ltac:(done) ltac:(lia) L5) as (v6 & L6 & P6).
  destruct (prints_byte F FAN_CONTRLR_ADDR ff 0 "Error reading fan2 speed.\n" [] "%d\n" (fun x => x * 50) v6 Hff ltac:(done) ltac:(lia) L6) as (v7 & L7 & P7).
  exists v7. split; [done|]. unfold monitor_row, row_text. rewrite Et, Ef.
  eapply prints_bind; [apply prints_printf|]. eapply prints_bind; [exact P1|]. eapply prints_bind; [exact P2|]. eapply prints_bind; [exact P3|].
  eapply prints_bind; [exact P4|]. eapply prints_bind; [exact P5|]. eapply prints_bind; [exact P6|]. exact P7.
Qed.
End monitor.

(** ** Whole programs *)

(** The pins and the I2C controller are apart. *)
Class Apart {D} `{Mmio D} `{I2cPort D} {HG : GpioLaws} (T : Type) `{I2cTarget T} (polls : nat) {HL : I2cLaws T polls} : Type := {
  apart_read d a : 0x48310000 <= a -> ib (snd (mm_read d a)) = ib d;
  apart_write d a v : 0x48310000 <= a -> ib (mm_write d a v) = ib d;
  apart_in d a : a < 0x48310000 -> (forall p, g_dir (snd (i2c_in d a)) p = g_dir d p) /\ g_hist (snd (i2c_in d a)) = g_hist d;
  apart_out d a v : a < 0x48310000 -> (forall p, g_dir (i2c_out d a v) p = g_dir d p) /\ g_hist (i2c_out d a v) = g_hist d;
}.

Section programs.
Context {D : Type} {HM : Mmio D} {HD : I2cPort D} {HG : GpioLaws} {T : Type} {HT : I2cTarget T} (polls : nat) {HL : I2cLaws T polls} {HA : Apart T polls}.
Context (Hpolls : (polls <= 10)%nat) (fuel : nat) (Hfuel : (2 <= fuel)%nat).

(** Whichever chips answer, [m] returns from a free bus to a free bus and makes these
changes to pins. *)
Definition moves {A} (m : M (ub D) A) (l : list pin_op) : Prop :=
  forall s to, on_bus polls to (u_i2c s) -> exists r s' to', runs m s r s' /\ on_bus polls to' (u_i2c s') /\
    let d := i2c_dev (u_i2c s) in let d' := i2c_dev (u_i2c s') in
    (forall p, g_dir d' p = run_pins l (g_dir d) p) /\ g_hist d' = (g_hist d ++ outs l)%list.

Lemma moves_ret {A} (x : A) : moves (mret x) [].
Proof. intros s to Hs. exists x, s, to. split; [done|]. split; [done|]. split; [done|]. by rewrite app_nil_r. Qed.

Lemma moves_bind {A B} (m : M (ub D) A) (k : A -> M (ub D) B) l1 l2 : moves m l1 -> (forall a, moves (k a) l2) -> moves (mbind m k) (l1 ++ l2)%list.
Proof.
  intros Hm Hk s to Hs. destruct (Hm s to Hs) as (a & s1 & to1 & R1 & B1 & D1 & G1). destruct (Hk a s1 to1 B1) as (b & s2 & to2 & R2 & B2 & D2 & G2).
  exists b, s2, to2. split; [by eapply runs_bind|]. split; [done|]. split.
  - intros p. rewrite D2. unfold run_pins. rewrite foldl_app. by apply run_pins_ext.
  - unfold outs in *. by rewrite G2, G1, omap_app, app_assoc.
Qed.

Lemma moves_printf format args : moves (printf format args) [].
Proof. intros s to Hs. eexists tt, _, to. split; [apply runs_modify|]. split; [done|]. split; [done|]. by rewrite app_nil_r. Qed.

Lemma moves_complain e format args : moves (complain e format args) [].
Proof. unfold complain. destruct (negb _); [apply moves_printf|apply moves_ret]. Qed.

(** Pins leave the bus alone. *)
Lemma moves_pins {A} (m : M D A) l : pdoes m l -> (forall b, ensures (fun d => ib d = b) m (fun _ d => ib d = b)) -> moves (on_pins m) l.
Proof.
  intros Hm Hk s to (Ho & to1 & (con & sa & cnt & Hb) & Hto). destruct (Hm (i2c_dev (u_i2c s))) as (x & d' & Hr & Hd & Hh).
  eexists x, _, to. split; [apply runs_zoom, runs_zoom, Hr|]. split; [|by split].
  split; [exact Ho|]. exists to1. split; [|done]. exists con, sa, cnt. exact (Hk _ _ _ _ Hb Hr).
Qed.

(** I2C leaves the pins alone. *)
Lemma moves_i2c {A} (m : M (i2c_drv D) A) :
  (forall i to, on_bus polls to i -> exists r i' to', runs m i r i' /\ on_bus polls to' i') ->
  (forall P, (forall d a, a < 0x48310000 -> P d -> P (snd (i2c_in d a))) -> (forall d a v, a < 0x48310000 -> P d -> P (i2c_out d a v)) ->
    ensures (on_dev P) m (fun _ => on_dev P)) ->
  moves (on_i2c m) [].
Proof.
  intros Hm Hk s to Hs. destruct (Hm _ _ Hs) as (r & i' & to' & Hr & Hb).
  eexists r, _, to'. split; [by apply runs_zoom|]. split; [exact Hb|]. cbv zeta. cbn [u_i2c run_pins foldl outs omap]. rewrite app_nil_r.
  set (d0 := i2c_dev (u_i2c s)).
  refine (Hk (fun d => (forall p, g_dir d p = g_dir d0 p) /\ g_hist d = g_hist d0) _ _ _ _ _ _ Hr); [| |done].
  - intros d a Ha [H1 H2]. destruct (apart_in d a Ha) as [G1 G2]. split; [intros p; by rewrite G1|by rewrite G2].
  - intros d a v Ha [H1 H2]. destruct (apart_out d a v Ha) as [G1 G2]. split; [intros p; by rewrite G1|by rewrite G2].
Qed.

Lemma moves_read chip addr len : 0 <= chip < 256 -> 0 <= addr -> 0 < len -> addr + len <= 256 -> moves (on_i2c (i2c_read fuel chip addr 1 len)) [].
Proof.
  intros Hc Ha Hlen Hr. apply moves_i2c; [|intros P H1 H2; by apply ikeeps_read]. intros i to Hi. destruct (to chip) as [t|] eqn:Et.
  - pose proof (i2c_read_present polls Hpolls fuel chip addr 1 len to t i Hfuel Hc Ha (Z.le_refl 1) ltac:(lia) Hr Hi Et) as HR.
    destruct (reg_bytes _ t addr) as [l t']. destruct HR as (i' & R & B). by exists (0, l), i', (put_chip chip t' to).
  - destruct (i2c_read_absent polls Hpolls fuel chip addr 1 len to i) as (i' & R & B); try (done || lia). by exists (1, []), i', to.
Qed.

Lemma moves_write chip addr buffer :
  0 <= chip < 256 -> 0 <= addr -> buffer <> [] -> Forall (fun b => 0 <= b < 256) buffer -> addr + zlen buffer <= 256 ->
  moves (on_i2c (i2c_write fuel chip addr 1 buffer)) [].
Proof.
  intros Hc Ha Hne Hb Hr. apply moves_i2c; [|intros P H1 H2; by apply ikeeps_write]. intros i to Hi. destruct (to chip) as [t|] eqn:Et.
  - destruct (i2c_write_present polls Hpolls fuel chip addr 1 buffer to t i) as (i' & R & B); try (done || lia).
    by exists 0, i', (put_chip chip (reg_writes t addr buffer) to).
  - destruct (i2c_write_absent polls Hpolls fuel chip addr 1 buffer to i) as (i' & R & B); try (done || lia). by exists 1, i', to.
Qed.

Lemma moves_set_bus b : 0 <= b < I2C_BUS_MAX -> moves (on_i2c (i2c_set_bus_num fuel b)) [].
Proof.
  intros Hb. apply moves_i2c; [|intros P H1 H2; by apply ikeeps_set_bus]. intros i to Hi.
  destruct (set_bus_on_bus polls Hpolls fuel b to i ltac:(lia) Hb Hi) as (i' & R & B). by exists 0, i', to.
Qed.

(** The bus stays as it is while pins move. *)
Abbreviation bus_kept m := (forall b, ensures (fun d => ib d = b) m (fun _ d => ib d = b)).

Lemma apart_frame b :
  (forall d a, 0x48310000 <= a -> ib d = b -> ib (snd (mm_read d a)) = b) /\
  (forall d a v, 0x48310000 <= a -> ib d = b -> ib (mm_write d a v) = b).
Proof. split; [intros d a Ha <-; by apply apart_read|intros d a w Ha <-; by apply apart_write]. Qed.

Lemma kept_drive g v : bus_kept (drive g v).
Proof.
  intros b. destruct (apart_frame b) as [Hr Hw]. unfold drive. apply (ens_bind _ _ (fun _ d => ib d = b)); [by apply ens_ret|intros _].
  apply (ens_bind _ _ (fun _ d => ib d = b)); [by apply ens_direction|intros _; by apply ens_dataout].
Qed.

Lemma moves_drive g v : 0 <= g < 192 -> moves (on_pins (drive g v)) [PDir g false; POut g (truthy v)].
Proof. intros Hg. apply moves_pins; [by apply pdoes_drive|apply kept_drive]. Qed.

Lemma moves_look g : 0 <= g < 192 -> moves (on_pins (READ_GPIO g)) [PDir g true].
Proof.
  intros Hg. apply moves_pins.
  - unfold READ_GPIO. change [PDir g true] with ([] ++ [PDir g true] ++ [])%list. apply pdoes_bind; [apply pdoes_request|intros _].
    apply pdoes_bind; [by apply (pdoes_direction g 1)|intros _]. intros d. destruct (datain_runs g d Hg) as (d' & Hr & Hd & Hh).
    eexists _, d'. split; [exact Hr|]. split; [done|]. by rewrite Hh, app_nil_r.
  - intros b. destruct (apart_frame b) as [Hr Hw]. unfold READ_GPIO. apply (ens_bind _ _ (fun _ d => ib d = b)); [by apply ens_ret|intros _].
    apply (ens_bind _ _ (fun _ d => ib d = b)); [by apply ens_direction|intros _; by apply ens_datain].
Qed.

(** Pins set high one after another. *)
Fixpoint up_ops (n : nat) (g : Z) : list pin_op :=
  match n with O => [] | S n => PDir g false :: POut g true :: up_ops n (g + 1) end.

Lemma moves_up n g : 0 <= g -> g + Z.of_nat n <= 192 -> moves (on_pins (drive_up n g)) (up_ops n g).
Proof.
  intros Hg Hn. apply moves_pins.
  - revert g Hg Hn. induction n as [|n IH]; intros g Hg Hn; cbn [drive_up up_ops]; [apply pdoes_ret|].
    change (PDir g false :: POut g true :: ?l) with ([PDir g false; POut g true] ++ l)%list.
    apply pdoes_bind; [apply (pdoes_drive g 1); lia|intros _; apply IH; lia].
  - clear Hg Hn. revert g. induction n as [|n IH]; intros g b; cbn [drive_up]; [by apply ens_ret|].
    apply (ens_bind _ _ (fun _ d => ib d = b)); [apply kept_drive|intros _; apply IH].
Qed.

Lemma moves_eq {A} (m : M (ub D) A) l l' : moves m l -> l = l' -> moves m l'.
Proof. by intros Hm <-. Qed.

Ltac moves_step :=
  first
    [ apply moves_ret | apply moves_printf | apply moves_complain | (apply moves_up; lia) | (apply moves_drive; unfold FMC_PG_C2M, FMC0_GA0, FMC0_GA1, FMC1_GA0, FMC1_GA1; lia)
    | (apply moves_look; unfold FMC0_nPRSNT_M2C, FMC1_nPRSNT_M2C; lia) | (apply moves_set_bus; unfold I2C_BUS_MAX; lia) | eassumption
    | (apply moves_read; (done || lia)) | (apply moves_write; (done || lia || by repeat constructor)) ].
Ltac moves_seq := first [moves_step | (eapply moves_bind; [moves_seq|intros ?; cbv zeta]; moves_seq)].

(** The program for the mezzanine cards returns, whichever chips are on the bus: it
sets the four supplies, the power good signal and the geographic addresses 00 and 01, in
this order, and makes the two presence signals inputs; no other pin changes. *)
Lemma fmc_control_moves junk :
  moves (rhino_fmc_control fuel junk)
    (up_ops 4 102 ++ [PDir 143 false; POut 143 true; PDir 140 false; POut 140 false; PDir 141 false; POut 141 false; PDir 155 false;
                      POut 155 true; PDir 152 false; POut 152 false; PDir 142 true; PDir 153 true])%list.
Proof. eapply moves_eq; [unfold rhino_fmc_control, FMC0_SUPPLY_EN, SI_CLK_ADDR; moves_seq|reflexivity]. Qed.

Lemma moves_show chip a len error args format value rv :
  0 <= chip < 256 -> 0 <= a -> 0 < len -> a + len <= 256 -> moves (show fuel chip a len error args format value rv) [].
Proof. intros Hc Ha Hl Hr. eapply moves_eq; [unfold show; moves_seq|reflexivity]. Qed.

Lemma moves_show_all chips a i error value rv :
  Forall (fun c => 0 <= c < 256) chips -> 0 <= a <= 254 -> moves (show_all fuel chips a i error value rv) [].
Proof.
  intros Hch Ha. revert i rv. induction Hch as [|c chips Hc _ IH]; intros i rv; cbn [show_all]; [apply moves_ret|].
  change (@nil pin_op) with (@nil pin_op ++ [])%list. apply moves_bind; [apply moves_show; lia|intros ?; apply IH].
Qed.

Lemma moves_calibrate chips i : Forall (fun c => 0 <= c < 256) chips -> moves (calibrate fuel chips i [0x20; 0x00]) [].
Proof.
  intros Hch. revert i. induction Hch as [|c chips Hc _ IH]; intros i; cbn [calibrate take]; [apply moves_ret|].
  specialize (IH (i + 1)). eapply moves_eq; [moves_seq|reflexivity].
Qed.

Lemma moves_row seconds rv : moves (monitor_row fuel seconds rv) [].
Proof.
  assert (Forall (fun c => 0 <= c < 256) pwr_mon_addresses) as Hch by by repeat constructor.
  assert (forall a i e v rv, 0 <= a <= 254 -> moves (show_all fuel pwr_mon_addresses a i e v rv) []) as Hall by (intros; by apply moves_show_all).
  assert (forall c a e f v rv, 0 <= c < 256 -> 0 <= a <= 255 -> moves (show fuel c a 1 e [] f v rv) []) as Hone by (intros; apply moves_show; lia).
  eapply moves_eq.
  - unfold monitor_row. eapply moves_bind; [moves_step|intros ?].
    eapply moves_bind; [by apply Hall|intros ?]. eapply moves_bind; [by apply Hall|intros ?]. do 4 (eapply moves_bind; [by apply Hone|intros ?]). by apply Hone.
  - reflexivity.
Qed.

Definition event_ops (seconds : Z) : list pin_op :=
  ((if seconds =? 30 then up_ops 3 99 else []) ++ (if seconds =? 180 then up_ops 4 102 else []))%list.

Lemma moves_events seconds rv : moves (monitor_events fuel seconds rv) (event_ops seconds).
Proof.
  unfold monitor_events, event_ops, FPGA_VCCINT_EN, FMC0_SUPPLY_EN. change (3 * 60) with 180. change (4 * 60) with 240. eapply moves_eq.
  - eapply moves_bind; [|intros ?; eapply moves_bind; [|intros ?; eapply moves_bind; [|intros ?; eapply moves_bind; [|intros ?]]]].
    + instantiate (1 := if seconds =? 30 then up_ops 3 99 else []). destruct (seconds =? 30); [eapply moves_eq; [moves_seq|reflexivity]|apply moves_ret].
    + instantiate (1 := []). destruct (seconds =? 60); moves_step.
    + instantiate (1 := []). destruct (seconds =? 150); moves_step.
    + instantiate (1 := if seconds =? 180 then up_ops 4 102 else []). destruct (seconds =? 180); [eapply moves_eq; [moves_seq|reflexivity]|apply moves_ret].
    + instantiate (1 := []). destruct (seconds =? 240); [cbn [take drop]; eapply moves_eq; [moves_seq|reflexivity]|apply moves_ret].
  - cbn [app]. by rewrite app_nil_r.
Qed.

Fixpoint loop_ops (n : nat) (seconds : Z) : list pin_op :=
  match n with O => [] | S n => (event_ops seconds ++ loop_ops n (seconds + 2))%list end.

Lemma moves_loop n seconds rv : moves (monitor_loop fuel n seconds rv) (loop_ops n seconds).
Proof.
  revert seconds rv. induction n as [|n IH]; intros seconds rv; cbn [monitor_loop loop_ops]; [apply moves_ret|].
  change (event_ops seconds ++ ?l)%list with ([] ++ event_ops seconds ++ l)%list.
  apply moves_bind; [apply moves_row|intros ?]. apply moves_bind; [apply moves_events|intros ?]. apply IH.
Qed.

(** The system monitor returns after its 180 turns, whichever chips are on the bus,
and besides reading switches on the three supplies of the FPGA, in the turn of second
30, and the four of the mezzanine cards, in that of second 180; no other pin changes. *)
Lemma system_monitor_moves : moves (rhino_system_monitor fuel) (up_ops 3 99 ++ up_ops 4 102)%list.
Proof.
  pose proof (moves_calibrate pwr_mon_addresses 0 ltac:(by repeat constructor)) as Hc. pose proof (moves_loop 180 0 [0x20; 0x00]) as Hl.
  eapply moves_eq; [unfold rhino_system_monitor; cbv zeta; moves_seq|vm_compute; reflexivity].
Qed.
End programs.
