(* ===== verification/ExamplesUBoot.v ===== *)
(** * A board under U-Boot

Pins, an I2C bus with register chips and an SPI channel that do as documented, as
instances of [GpioLaws], [I2cLaws], [Apart] and [SpiLaws], and the properties of
[Spi], [UBoot], [I2cUBoot] and [UBootApps] on them. *)
From stdpp Require Import base list.
From S2P Require Import Prelude Bits Hwr Driver HwrRhino Serial Clocks ExamplesClocks Gpio Spi UBoot I2cUBoot UBootApps.
From Stdlib Require Import ZArith Lia.

(** ** Pins *)

(** The word with these bits. *)
Definition word_of (f : Z -> bool) : Z := foldr (fun i w => Z.lor (if f i then 2 ^ i else 0) w) 0 (seqZ 0 32).

Lemma word_of_testbit f i : 0 <= i < 32 -> Z.testbit (word_of f) i = f i.
Proof.
  intros Hi. unfold word_of.
  assert (forall l, Forall (fun j => 0 <= j) l ->
    Z.testbit (foldr (fun j w => Z.lor (if f j then 2 ^ j else 0) w) 0 l) i = existsb (fun j => (i =? j) && f j) l) as Hl.
  { intros l Hl. induction Hl as [|j l Hj _ IH]; cbn [foldr existsb]; [apply Z.bits_0|]. rewrite Z.lor_spec, IH. f_equal.
    destruct (f j); [|by rewrite Z.bits_0, andb_false_r]. rewrite andb_true_r, Z.pow2_bits_eqb by done. apply Z.eqb_sym. }
  rewrite Hl by (apply Forall_forall; intros j Hj; apply elem_of_seqZ in Hj; lia).
  destruct (f i) eqn:E.
  - apply existsb_exists. exists i. split; [apply list_elem_of_In, elem_of_seqZ; lia|]. by rewrite Z.eqb_refl.
  - apply not_true_iff_false. rewrite existsb_exists. intros (j & _ & Hj). apply andb_true_iff in Hj as [->%Z.eqb_eq Hj]. congruence.
Qed.

Lemma word_of_range f : 0 <= word_of f < 2 ^ 32.
Proof.
  apply range_of_bits; [lia|]. intros i Hi. unfold word_of.
  assert (forall l, Forall (fun j => 0 <= j < 32) l -> Z.testbit (foldr (fun j w => Z.lor (if f j then 2 ^ j else 0) w) 0 l) i = false) as Hl.
  { intros l Hl. induction Hl as [|j l Hj _ IH]; cbn [foldr]; [apply Z.bits_0|]. rewrite Z.lor_spec, IH, orb_false_r.
    destruct (f j); [|apply Z.bits_0]. rewrite Z.pow2_bits_eqb by lia. apply Z.eqb_neq. lia. }
  apply Hl, Forall_forall. intros j Hj. apply elem_of_seqZ in Hj. lia.
Qed.

(** A chip: one byte per register, and the register that is selected. *)
Record rchip : Type := mk_rchip { rc_ptr : Z; rc_regs : Z -> Z }.
Definition rchip_write (t : rchip) (l : list Z) : rchip :=
  match l with
  | [] => t
  | [r] => mk_rchip r (rc_regs t)
  | r :: v :: _ => mk_rchip r (upd r v (rc_regs t))
  end.
#[global] Program Instance rchip_target : I2cTarget rchip := {
  t_write := rchip_write;
  t_first t := u8 (rc_regs t (rc_ptr t));
}.
Next Obligation. intros t. by apply (wrapu_range 8). Qed.
#[global] Program Instance rchip_regs : RegTarget rchip := { reg t x := u8 (rc_regs t x) }.
Next Obligation. done. Qed.
Next Obligation. done. Qed.

(** The board: directions, history and levels of the pins, and the bus. *)
Record board_dev : Type := mk_dev { bd_dir : Z -> bool; bd_hist : list (Z * bool); bd_level : Z -> bool; bd_bus : ibus rchip }.

(** The bank whose register [off] is at [a]. *)
Definition bank_at (off a : Z) : option Z := list_find (fun b => bank_base b + off = a) [0; 1; 2; 3; 4; 5] ≫= fun r => Some (snd r).

Definition set_pins (b v : Z) (level : bool) : list (Z * bool) :=
  omap (fun i => if Z.testbit v i then Some (32 * b + i, level) else None) (seqZ 0 32).

#[global] Instance board_mmio : Mmio board_dev := {
  mm_read d a :=
    (match bank_at OMAP24XX_GPIO_OE a, bank_at OMAP24XX_GPIO_DATAIN a with
     | Some b, _ => word_of (fun i => bd_dir d (32 * b + i))
     | _, Some b => word_of (fun i => bd_level d (32 * b + i))
     | _, _ => 0
     end, d);
  mm_write d a v :=
    match bank_at OMAP24XX_GPIO_OE a, bank_at OMAP24XX_GPIO_SETDATAOUT a, bank_at OMAP24XX_GPIO_CLEARDATAOUT a with
    | Some b, _, _ => mk_dev (fun p => if p / 32 =? b then Z.testbit v (p mod 32) else bd_dir d p) (bd_hist d) (bd_level d) (bd_bus d)
    | _, Some b, _ => mk_dev (bd_dir d) (bd_hist d ++ set_pins b v true) (bd_level d) (bd_bus d)
    | _, _, Some b => mk_dev (bd_dir d) (bd_hist d ++ set_pins b v false) (bd_level d) (bd_bus d)
    | _, _, _ => d
    end;
  mm_write16 d a v := d;
  cpuid := 0x411FC087;
}.

Ltac bank_cases b := assert (b = 0 \/ b = 1 \/ b = 2 \/ b = 3 \/ b = 4 \/ b = 5) as [->|[->|[->|[->|[->| ->]]]]] by lia.

Lemma set_pins_one b i level : 0 <= i < 32 -> set_pins b (2 ^ i) level = [(32 * b + i, level)].
Proof.
  intros Hi. unfold set_pins.
  assert (forall n k, 0 <= k -> omap (fun j => if Z.testbit (2 ^ i) j then Some (32 * b + j, level) else None) (seqZ k (Z.of_nat n)) =
    if (k <=? i) && (i <? k + Z.of_nat n) then [(32 * b + i, level)] else []) as Hn.
  { induction n as [|n IH]; intros k Hk.
    - destruct (Z.leb_spec k i), (Z.ltb_spec i (k + Z.of_nat 0)); try lia; done.
    - rewrite seqZ_cons by lia. replace (Z.pred (Z.of_nat (S n))) with (Z.of_nat n) by lia. cbn [omap list_omap]. rewrite IH by lia.
      rewrite Z.pow2_bits_eqb by lia.
      destruct (Z.eqb_spec i k); destruct (Z.leb_spec k i), (Z.ltb_spec i (k + Z.of_nat (S n))), (Z.leb_spec (Z.succ k) i),
        (Z.ltb_spec i (Z.succ k + Z.of_nat n)); try lia; try done; by subst. }
  change 32 with (Z.of_nat 32) at 2. rewrite Hn by lia. destruct (Z.leb_spec 0 i), (Z.ltb_spec i (0 + Z.of_nat 32)); try lia; done.
Qed.

Lemma board_reads d b :
  0 <= b < 6 ->
  fst (mm_read d (bank_base b + OMAP24XX_GPIO_OE)) = word_of (fun i => bd_dir d (32 * b + i)) /\
  fst (mm_read d (bank_base b + OMAP24XX_GPIO_DATAIN)) = word_of (fun i => bd_level d (32 * b + i)).
Proof. intros Hb. by bank_cases b. Qed.

Lemma board_sets d b v (level : bool) :
  0 <= b < 6 -> mm_write d (bank_base b + if level then OMAP24XX_GPIO_SETDATAOUT else OMAP24XX_GPIO_CLEARDATAOUT) v
  = mk_dev (bd_dir d) (bd_hist d ++ set_pins b v level) (bd_level d) (bd_bus d).
Proof. intros Hb. destruct level; by bank_cases b. Qed.

#[global] Program Instance board_gpio : GpioLaws (D := board_dev) := {
  g_dir := bd_dir;
  g_hist := bd_hist;
  g_level := bd_level;
}.
Next Obligation.
  intros d b i Hb Hi. destruct (board_reads d b Hb) as [E _]. rewrite E, wrapu_small by apply word_of_range.
  exact (word_of_testbit (fun i => bd_dir d (32 * b + i)) i Hi).
Qed.
Next Obligation.
  intros d b i Hb Hi. destruct (board_reads d b Hb) as [_ E]. rewrite E, wrapu_small by apply word_of_range.
  exact (word_of_testbit (fun i => bd_level d (32 * b + i)) i Hi).
Qed.
Next Obligation. done. Qed.
Next Obligation. intros d b v Hb Hv. by bank_cases b. Qed.
Next Obligation. intros d b i v Hb Hi. cbv zeta. rewrite board_sets, set_pins_one by done. by split. Qed.
Next Obligation. done. Qed.

(** ** I2C *)
Definition bus_value (b : ibus rchip) : Z := match ib_ph b with Free => 0 | Ended => I2C_STAT_ARDY | _ => bus_event b end.

#[global] Instance board_i2c : I2cPort board_dev := {
  i2c_in d a :=
    if a =? I2C_STAT then (bus_value (bd_bus d), d)
    else if a =? I2C_CON then (ib_con (bd_bus d), d)
    else if a =? I2C_DATA then
      match ib_ph (bd_bus d), ib_to (bd_bus d) (ib_sa (bd_bus d)) with
      | Receiving, Some t =>
        (t_first t, mk_dev (bd_dir d) (bd_hist d) (bd_level d)
                      (mk_ibus (ib_con (bd_bus d)) (ib_sa (bd_bus d)) (ib_cnt (bd_bus d)) Ended (ib_to (bd_bus d))))
      | _, _ => (0, d)
      end
    else (0, d);
  i2c_out d a v := mk_dev (bd_dir d) (bd_hist d) (bd_level d) (bus_out true a v (bd_bus d));
}.

Lemma any_u16 v f : 0 <= f < 2 ^ 16 -> any (u16 v) f = any v f.
Proof.
  intros Hf. unfold any, wrapu. rewrite <- Z.land_ones, <- Z.land_assoc, (Z.land_comm (Z.ones 16)), Z.land_ones by lia.
  by rewrite (Z.mod_small f) by lia.
Qed.

#[global] Program Instance board_i2c_laws : I2cLaws (D := board_dev) rchip 0 := {
  ib := bd_bus;
  iwait _ := 0%nat;
}.
Next Obligation. done. Qed.
Next Obligation.
  intros d v d' [= <- <-]. split; [done|]. split; [done|]. unfold stat_shows, bus_value, bus_event.
  destruct (ib_ph (bd_bus d)), (ib_to (bd_bus d) (ib_sa (bd_bus d))); reflexivity.
Qed.
Next Obligation. intros d v d' [= <- <-]. split; [done|]. split; by apply any_u16. Qed.
Next Obligation.
  intros d v d' t He _ Hp Ht. change (i2c_in d I2C_DATA) with
    (match ib_ph (bd_bus d), ib_to (bd_bus d) (ib_sa (bd_bus d)) with
      | Receiving, Some t =>
        (t_first t, mk_dev (bd_dir d) (bd_hist d) (bd_level d)
                      (mk_ibus (ib_con (bd_bus d)) (ib_sa (bd_bus d)) (ib_cnt (bd_bus d)) Ended (ib_to (bd_bus d))))
      | _, _ => (0, d)
      end) in He. rewrite Hp, Ht in He. injection He as <- <-. split; [|done]. apply wrapu_small, t_first_byte.
Qed.
Next Obligation. done. Qed.
Next Obligation. done. Qed.

#[global] Program Instance board_apart : Apart (D := board_dev) rchip 0.
Next Obligation. done. Qed.
Next Obligation.
  intros d a v _. change (bd_bus (mm_write d a v) = bd_bus d). unfold mm_write, board_mmio. destruct (bank_at OMAP24XX_GPIO_OE a); [done|]. destruct (bank_at OMAP24XX_GPIO_SETDATAOUT a); [done|].
  by destruct (bank_at OMAP24XX_GPIO_CLEARDATAOUT a).
Qed.
Next Obligation.
  intros d a _. cbn. destruct (a =? I2C_STAT); [done|]. destruct (a =? I2C_CON); [done|]. destruct (a =? I2C_DATA); [|done].
  destruct (ib_ph (bd_bus d)); try done. by destruct (ib_to (bd_bus d) (ib_sa (bd_bus d))).
Qed.
Next Obligation. done. Qed.

(** ** SPI *)

(** The channel, and what the FPGA answers: the complement of the last byte. *)
Record spi_dev : Type := mk_spi { sd_conf : Z; sd_on : bool; sd_sent : list Z; sd_in : option Z }.
Definition spi_answer (l : list Z) : Z := u8 (255 - List.last l 0).

Abbreviation MCSPI2 := OMAP3_MCSPI2_BASE.

#[global] Instance spi_mmio : Mmio spi_dev := {
  mm_read d a :=
    if a =? MCSPI2 + CHSTAT 0 then ((if sd_on d && bool_decide (is_Some (sd_in d)) then 3 else 2), d)
    else if a =? MCSPI2 + RX 0 then (u32 (default 0 (sd_in d)), mk_spi (sd_conf d) (sd_on d) (sd_sent d) None)
    else if a =? MCSPI2 + CHCONF 0 then (sd_conf d, d)
    else (1, d);
  mm_write d a v :=
    if a =? MCSPI2 + TX 0 then
      if sd_on d then mk_spi (sd_conf d) true (sd_sent d ++ [u8 v]) (Some (spi_answer (sd_sent d ++ [u8 v]))) else d
    else if a =? MCSPI2 + CHCTRL 0 then mk_spi (sd_conf d) (Z.testbit v 0) (sd_sent d) (sd_in d)
    else if a =? MCSPI2 + CHCONF 0 then mk_spi v (sd_on d) (sd_sent d) (sd_in d)
    else if a =? MCSPI2 + SYSCONFIG then if Z.testbit v 1 then mk_spi 0 false (sd_sent d) None else d
    else d;
  mm_write16 d a v := d;
  cpuid := 0x411FC087;
}.

#[global] Program Instance spi_laws : SpiLaws (D := spi_dev) MCSPI2 0 spi_answer 0 := {
  chan d := mk_ch (u32 (sd_conf d)) (sd_on d) (sd_sent d) (u32 <$> sd_in d);
  tx_busy _ := 0%nat;
  rx_busy _ := 0%nat;
}.
Next Obligation. done. Qed.
Next Obligation. done. Qed.
Next Obligation. intros l. by apply (wrapu_range 8). Qed.
Next Obligation. intros d. by apply (wrapu_range 32). Qed.
Next Obligation. intros d v d' [= <- <-]. split_and!; try done; by destruct d as [c [] s [x|]]. Qed.
Next Obligation.
  intros [c o s i] v ch Ho _ _ _. cbn in Ho. subst o.
  change (mk_ch (u32 c) true (s ++ [u8 v]) (Some (u32 (spi_answer (s ++ [u8 v])))) =
          mk_ch (u32 c) true (s ++ [u8 v]) (Some (spi_answer (s ++ [u8 v])))). do 2 f_equal. unfold spi_answer.
  pose proof (wrapu_range 8 (255 - List.last (s ++ [u8 v]) 0) ltac:(lia)). apply wrapu_small. lia.
Qed.
Next Obligation. intros [c o s i] v Ho. cbn in Ho. by subst o. Qed.
Next Obligation.
  intros [c o s [y|]] v d' x He _ Hi; [|done]. injection He as <- <-. injection Hi as <-. split; [|done].
  cbn [default]. apply wrapu_small. by apply (wrapu_range 32).
Qed.
Next Obligation. done. Qed.
Next Obligation. by intros d v d' [= <- <-]. Qed.
Next Obligation.
  intros d v Hv. cbv zeta. change (mk_ch (u32 v) (sd_on d) (sd_sent d) (u32 <$> sd_in d) = mk_ch v (sd_on d) (sd_sent d) (u32 <$> sd_in d)).
  by rewrite (wrapu_small 32 v).
Qed.
Next Obligation.
  intros [c o s i] v. cbv zeta. unfold mm_write, spi_mmio. change (MCSPI2 + SYSCONFIG =? MCSPI2 + TX 0) with false.
  change (MCSPI2 + SYSCONFIG =? MCSPI2 + CHCTRL 0) with false. change (MCSPI2 + SYSCONFIG =? MCSPI2 + CHCONF 0) with false. rewrite Z.eqb_refl.
  by destruct (Z.testbit v 1).
Qed.
Next Obligation. intros d. by exists 0%nat. Qed.
Next Obligation.
  intros d a Ha. unfold mm_read, spi_mmio.
  destruct (Z.eqb_spec a (MCSPI2 + CHSTAT 0)) as [->|]; [by destruct Ha|]. destruct (Z.eqb_spec a (MCSPI2 + RX 0)) as [->|]; [by destruct Ha|].
  by destruct (Z.eqb_spec a (MCSPI2 + CHCONF 0)).
Qed.
Next Obligation.
  intros d a v Ha Hs. unfold mm_write, spi_mmio.
  destruct (Z.eqb_spec a (MCSPI2 + TX 0)) as [->|]; [by destruct Ha|]. destruct (Z.eqb_spec a (MCSPI2 + CHCTRL 0)) as [->|]; [by destruct Ha|].
  destruct (Z.eqb_spec a (MCSPI2 + CHCONF 0)) as [->|]; [by destruct Ha|]. by destruct (Z.eqb_spec a (MCSPI2 + SYSCONFIG)).
Qed.

(** ** The properties *)
Definition spi0 : spi_dev := mk_spi 0 false [] None.
Definition fpga_slave : spi_slave := mk_slave 1 0 MCSPI2 48000000 0.

Lemma spi_transfers_witness :
  exists d', runs (spi_claim_bus 1 fpga_slave) spi0 0 d' /\ ready MCSPI2 0 spi_answer 0 false [] d'.
Proof. exact (proj1 (spi_transfers MCSPI2 0 spi_answer 0 fpga_slave eq_refl eq_refl (Z.le_refl 0) 1 spi0 (le_n 1))). Defined.

(** A session: two bytes out, two answers. *)
Lemma spi_session :
  exists d', runs (let! _ := spi_claim_bus 1 fpga_slave in spi_xfer 1 fpga_slave 16 (Some [0xAA; 0x99]) 3) spi0 [0x55; 0x66] d' /\
    sd_sent d' = [0xAA; 0x99].
Proof. vm_compute. by eexists. Qed.

Lemma fpga_prog_never_returns_witness : ~ runs (rhino_fpga_prog 9 true (fun _ => 0xAA) [[]; [48]; [50]]) spi0 0 spi0.
Proof. exact (fpga_prog_never_returns spi_answer 0 9 true (fun _ => 0xAA) [] [48] [50] [] spi0 0 spi0 ltac:(by vm_compute)). Defined.

Definition chip1 : chip := mk_chip (fun a => if a =? CONTROL_STATUS then 0x309 else 0) (fun _ => 7) 0.

Lemma board_init_windows_witness :
  exists d', runs board_init chip1 (mk_board NAND_BASE SMNAND_ENV_OFFSET 0x20000 SMNAND_ENV_OFFSET MACH_TYPE_RHINO 0x80000100) d' /\
    gpmc_answer (regs d') 0x10000000 = [2].
Proof.
  destruct (board_init_windows S26M 1000 0 chip1) as (d' & Hr & _ & _ & _ & Ha); [by vm_compute|by vm_compute|].
  exists d'. split; [exact Hr|]. rewrite Ha by lia. by vm_compute.
Defined.

(** ** I2C *)
Definition chips (a : Z) : option rchip :=
  if existsb (Z.eqb a) (TEMP_MON_ADDR :: FAN_CONTRLR_ADDR :: pwr_mon_addresses) then Some (mk_rchip 0 (fun r => r + a)) else None.
Definition dev0 : board_dev := mk_dev (fun _ => true) [] (fun _ => false) (mk_ibus 0 0 0 Free chips).
Definition drv0 : i2c_drv board_dev := mk_i2c I2C_BASE1 [1; 1; 1] 0 dev0.

Lemma drv0_on_bus : on_bus 0 chips drv0.
Proof. split; [by vm_compute|]. exists chips. split; [|done]. by exists 0, 0, 0. Qed.

Lemma i2c_transfers_witness :
  exists s', runs (i2c_read 2 0x41 2 1 2) drv0 (0, [0x43; 0x44]) s' /\
    on_bus 0 (put_chip 0x41 (mk_rchip 3 (fun r => r + 0x41)) chips) s'.
Proof.
  exact (proj1 (i2c_transfers 0 (le_S_n 0 10 (le_n_S 0 10 (Nat.le_0_l 10))) 2 0x41 2 1 chips drv0 (le_n 2) ltac:(by split) ltac:(lia) ltac:(lia) drv0_on_bus)
    2 eq_refl ltac:(lia)).
Defined.

Lemma bus_number_ignored_witness :
  exists s2, runs (let! _ := i2c_set_bus_num 2 2 in i2c_read 2 0x41 2 1 1) drv0 (0, [0x43]) s2 /\ bd_hist (i2c_dev s2) = [].
Proof.
  destruct (proj1 (bus_number_ignored 2 0x41 2 1 1 [] 0 2 drv0 ltac:(lia) ltac:(lia) eq_refl) (0, [0x43])
    (mk_i2c I2C_BASE1 [1; 1; 1] 0 (i2c_dev (mk_i2c I2C_BASE1 [1; 1; 1] 0
      (mk_dev (fun _ => true) [] (fun _ => false) (mk_ibus 0x8000 0x41 0 Free (put_chip 0x41 (mk_rchip 2 (fun r => r + 0x41)) chips)))))))
    as (s2 & R & E); [by vm_compute|]. exists s2. split; [exact R|]. by rewrite E.
Defined.

(** ** The programs *)
Lemma gpmc_test_finds_witness :
  exists n, rhino_gpmc_test (fun a => a + 1) (Z.to_nat 0x18000000) = Some (n, [(0x10000000, 1); (0x10000000, 2); (0x10000000, 4); (0x10000000, 8)]) /\ n = 0.
Proof.
  destruct (gpmc_test_finds (fun a => a + 1) (Z.to_nat 0x18000000)) as (n & Hn & _ & Hz).
  - rewrite Z2Nat.id; lia.
  - exists n. split; [exact Hn|]. apply Hz. intros a _ _. unfold good_word, wrapu. apply Z.eqb_refl.
Defined.

Definition regs0 (a : Z) : option (Z -> Z) := match chips a with Some _ => Some (fun r => u8 (r + a)) | None => None end.

Lemma monitor_row_prints_witness :
  exists rv', List.length rv' = 2%nat /\ prints (D := board_dev) 0 regs0 (monitor_row 2 10 [0; 0]) rv' (row_text regs0 10).
Proof.
  exact (monitor_row_prints 0 (Nat.le_0_l 10) 2 (le_n 2) regs0 10 [0; 0] ltac:(repeat (apply Forall_cons_2; [by eexists|]); apply Forall_nil_2) eq_refl).
Defined.

Lemma fmc_control_moves_witness :
  exists r s' to', runs (rhino_fmc_control 2 0) (mk_ub drv0 []) r s' /\ on_bus 0 to' (u_i2c s') /\
    g_hist (i2c_dev (u_i2c s')) = [(102, true); (103, true); (104, true); (105, true); (143, true); (140, false); (141, false); (155, true); (152, false)].
Proof.
  destruct (fmc_control_moves 0 (Nat.le_0_l 10) 2 (le_n 2) 0 (mk_ub drv0 []) chips drv0_on_bus) as (r & s' & to' & R & B & _ & G).
  exists r, s', to'. exact (conj R (conj B G)).
Defined.

Lemma system_monitor_moves_witness :
  exists r s' to', runs (rhino_system_monitor 2) (mk_ub drv0 []) r s' /\ on_bus 0 to' (u_i2c s') /\
    g_hist (i2c_dev (u_i2c s')) = [(99, true); (100, true); (101, true); (102, true); (103, true); (104, true); (105, true)].
Proof.
  destruct (system_monitor_moves 0 (Nat.le_0_l 10) 2 (le_n 2) (mk_ub drv0 []) chips drv0_on_bus) as (r & s' & to' & R & B & _ & G).
  exists r, s', to'. exact (conj R (conj B G)).
Defined.
