(* ===== verification/PowerTools.v ===== *)
(** * The power, lamp and mezzanine card tools

[rhino_led.c], [rhino_pwr.c] and [rhino_fmc.c] of [src/utils/util]: they move pins
through the files of [/sys/class/gpio], and [rhino_fmc] talks to a card with [i2c.c]
([I2cTools]).  The files are the class [SysFiles]; what [getopt_long] returns is an
argument, as are the arguments behind the options.  What is printed is kept as the
format and its arguments. *)
From stdpp Require Import base list gmap strings pretty.
From S2P Require Import Prelude Bits Mkbof I2cTools Printf.
From Stdlib Require Import ZArith Lia.

Inductive omode : Type := O_RDONLY | O_WRONLY | O_RDWR.

(** The system calls on files: [stat], [open], [write], [read] of one byte, and
[close]. *)
Class SysFiles (B : Type) : Type := {
  sys_stat : string -> M B Z;
  sys_open : string -> omode -> M B Z;
  sys_write : Z -> list Z -> M B Z;
  sys_read : Z -> M B (Z * Z);
  sys_close : Z -> M B Z;
}.

(** What is printed: numbers, thousandths printed as a fraction, and texts. *)
Inductive datum : Type := DNum (n : Z) | DMilli (n : Z) | DText (s : string).
Definition line : Type := string * list datum.

Record tool (B C : Type) : Type := mk_tool { t_sys : B; t_i2c : i2c_state C; t_out : list line }.
Arguments mk_tool {B C}.
Arguments t_sys {B C}.
Arguments t_i2c {B C}.
Arguments t_out {B C}.

(** [strtol] with base 0: decimal, octal after 0 and hexadecimal after 0x. *)
Definition digit_value (c : Z) : Z :=
  if (48 <=? c) && (c <=? 57) then c - 48
  else if (97 <=? c) && (c <=? 122) then c - 87
  else if (65 <=? c) && (c <=? 90) then c - 55 else 99.
Fixpoint scan_base (base : Z) (l : list Z) (v : Z) : Z :=
  match l with
  | c :: l => if digit_value c <? base then scan_base base l (v * base + digit_value c) else v
  | [] => v
  end.
Definition strtol0 (s : list Z) : Z * bool :=
  let '(neg, l) := match skip_ws s with
                   | c :: l => if c =? 45 then (true, l) else if c =? 43 then (false, l) else (false, c :: l)
                   | [] => (false, [])
                   end in
  let '(base, digits) :=
    match l with
    | 48 :: x :: c :: l' => if ((x =? 120) || (x =? 88)) && (digit_value c <? 16) then (16, c :: l') else (8, l)
    | 48 :: _ => (8, l)
    | _ => (10, l)
    end in
  let v := scan_base base digits 0 in
  (Z.max (- 2 ^ 31) (Z.min (if neg then - v else v) (2 ^ 31 - 1)),
   match digits with c :: _ => digit_value c <? base | [] => false end).

Section tools.
Context {B C : Type} `{SysFiles B} `{I2cBus C}.
Abbreviation TM := (M (tool B C)).
Open Scope string_scope.
Open Scope Z_scope.

Definition sys {A} (m : M B A) : TM A := mzoom t_sys (fun b s => mk_tool b (t_i2c s) (t_out s)) m.
Definition tool_i2c {A} (m : M (i2c_state C) A) : TM A := mzoom t_i2c (fun i s => mk_tool (t_sys s) i (t_out s)) m.
Definition say (format : string) (args : list datum) : TM unit :=
  mmodify (fun s => mk_tool (t_sys s) (t_i2c s) (t_out s ++ [(format, args)])).

(** ** [rhino_led.c] *)
Definition GPIOEX : string := "/sys/class/gpio/export".
Definition U_LED_0 : string := "/sys/class/gpio/gpio131/direction".
Definition U_LED_1 : string := "/sys/class/gpio/gpio130/direction".

(** A text with its terminating 0, to a file that is open. *)
Definition put_close (fid : Z) (text : string) : TM unit :=
  let! _ := sys (sys_write fid (chars text ++ [0])) in
  let! _ := sys (sys_close fid) in
  mret tt.

Definition export_led (path gpio : string) : TM unit :=
  let! r := sys (sys_stat path) in
  if r =? -1 then
    let! fex := sys (sys_open GPIOEX O_WRONLY) in
    if negb (fex =? -1) then put_close fex gpio else mret tt
  else mret tt.

(** [argv] without the name of the program. *)
Definition rhino_led (argv : list string) : TM Z :=
  match argv with
  | [number; onoff] =>
    do! export_led U_LED_0 "131" in
    do! export_led U_LED_1 "130" in
    let led_id := fst (strtol (chars number)) in
    let write_led (path state : string) : TM Z :=
      let! fled := sys (sys_open path O_RDWR) in
      if fled =? -1 then mret 1 else do! put_close fled state in mret 0 in
    let set_led (state : string) : TM Z :=
      if led_id =? 0 then write_led U_LED_0 state
      else if led_id =? 1 then write_led U_LED_1 state
      else do! say "Error: LED number must be 0 or 1\n" [] in mret 1 in
    if String.eqb onoff "on" then set_led "high"
    else if String.eqb onoff "off" then set_led "low"
    else do! say "Error: LED state must be 'on' or 'off'\n" [] in mret 1
  | _ => do! say "Usage: rhino_led NUMBER [on|off]\n" [] in mret 1
  end.

(** ** [rhino_pwr.c] *)
Definition FPGA_VCCINT_EN : string := "/sys/class/gpio/gpio99/direction".
Definition FPGA_VCCO_AUX_EN : string := "/sys/class/gpio/gpio100/direction".
Definition FPGA_VCCMGT_EN : string := "/sys/class/gpio/gpio101/direction".
Definition FPGA_VCCINT_RD : string := "/sys/class/gpio/gpio99/value".
Definition FPGA_VCCO_AUX_RD : string := "/sys/class/gpio/gpio100/value".
Definition FPGA_VCCMGT_RD : string := "/sys/class/gpio/gpio101/value".

(** [flag && (stat(path) == -1)] *)
Definition unsupported (flag : bool) (path : string) : TM bool :=
  if flag then let! r := sys (sys_stat path) in mret (r =? -1) else mret false.

Definition switch (flag : bool) (path state : string) : TM unit :=
  if flag then
    let! f := sys (sys_open path O_WRONLY) in
    if negb (f =? -1) then put_close f state else mret tt
  else mret tt.

(** [state] is [state[0]] before, the result what it is after. *)
Definition report (state : Z) (flag : bool) (path format : string) : TM Z :=
  if flag then
    let! f := sys (sys_open path O_RDONLY) in
    if negb (f =? -1) then
      let! (r, c) := sys (sys_read f) in
      let text := if (if r =? 1 then c else state) =? 48 then "off" else "on" in
      let! _ := sys (sys_close f) in
      do! say format [DText text] in
      mret 111
    else mret state
  else mret state.

(** [junk] is in [state] at first.  The four flags are as the options leave them,
[first] says that there was none ([optind == 1]), and [rest] are the arguments behind
them. *)
Definition rhino_pwr (junk : Z) (all_flag int_flag aux_flag mgt_flag first : bool) (rest : list string) : TM Z :=
  let all := all_flag || first in
  let int_flag := int_flag || all in
  let aux_flag := aux_flag || all in
  let mgt_flag := mgt_flag || all in
  let error := "Error: kernel does not support power management GPIO access\n" in
  let! u := unsupported int_flag FPGA_VCCINT_EN in
  if u then do! say error [] in mret 1 else
  let! u := unsupported aux_flag FPGA_VCCO_AUX_EN in
  if u then do! say error [] in mret 1 else
  let! u := unsupported mgt_flag FPGA_VCCMGT_EN in
  if u then do! say error [] in mret 1 else
  let reports (c : Z) : TM Z :=
    let! c := report c int_flag FPGA_VCCINT_RD "FPGA_VCCINT   : %s\n" in
    let! c := report c aux_flag FPGA_VCCO_AUX_RD "FPGA_VCCO_AUX : %s\n" in
    let! _ := report c mgt_flag FPGA_VCCMGT_RD "FPGA_VCCMGT   : %s\n" in
    mret 0 in
  let switches (state : string) : TM Z :=
    do! switch int_flag FPGA_VCCINT_EN state in
    do! switch aux_flag FPGA_VCCO_AUX_EN state in
    do! switch mgt_flag FPGA_VCCMGT_EN state in
    reports (hd 0 (chars state)) in
  match rest with
  | [] => reports junk
  | s :: _ =>
    if String.eqb s "on" then switches "high"
    else if String.eqb s "off" then switches "low"
    else do! say "Error: power state must be 'on' or 'off'\n" [] in mret 1
  end.

(** ** [rhino_fmc.c] *)
Definition FMC0_SUPPLY_EN : string := "/sys/class/gpio/gpio102/direction".
Definition FMC0_SUPPLY_RD : string := "/sys/class/gpio/gpio102/value".
Definition FMC0_AUX_EN : string := "/sys/class/gpio/gpio103/direction".
Definition FMC0_AUX_RD : string := "/sys/class/gpio/gpio103/value".
Definition FMC1_SUPPLY_EN : string := "/sys/class/gpio/gpio104/direction".
Definition FMC1_SUPPLY_RD : string := "/sys/class/gpio/gpio104/value".
Definition FMC1_AUX_EN : string := "/sys/class/gpio/gpio105/direction".
Definition FMC1_AUX_RD : string := "/sys/class/gpio/gpio105/value".
Definition FMC0_GA0 : string := "/sys/class/gpio/gpio140/direction".
Definition FMC0_GA1 : string := "/sys/class/gpio/gpio141/direction".
Definition FMC0_nPRSNT_M2C : string := "/sys/class/gpio/gpio142/value".
Definition FMC1_GA0 : string := "/sys/class/gpio/gpio155/direction".
Definition FMC1_GA1 : string := "/sys/class/gpio/gpio152/direction".
Definition FMC1_nPRSNT_M2C : string := "/sys/class/gpio/gpio153/value".
Definition FMC_PG_C2M : string := "/sys/class/gpio/gpio143/direction".

Definition export_gpio (path : string) : TM Z :=
  let! r := sys (sys_stat path) in
  if r =? -1 then
    let! fex := sys (sys_open GPIOEX O_WRONLY) in
    if negb (fex =? -1) then do! put_close fex (String.substring 20 3 path) in mret 0 else mret 1
  else mret 0.

(** The level of one pin, with the export before; false when the caller returns 1. *)
Definition set_pin (path level : string) : TM bool :=
  let! e := export_gpio path in
  if truthy e then mret false else
  let! fid := sys (sys_open path O_RDWR) in
  if fid =? -1 then mret false else do! put_close fid level in mret true.

Definition fmc_power_on (fmc : Z) : TM Z :=
  let aux := if fmc =? 0 then FMC0_AUX_EN else FMC1_AUX_EN in
  let supply := if fmc =? 0 then FMC0_SUPPLY_EN else FMC1_SUPPLY_EN in
  let! fid := sys (sys_open FPGA_VCCO_AUX_EN O_RDWR) in
  if fid =? -1 then mret 1 else
  do! put_close fid "high" in
  let! ok := set_pin FMC_PG_C2M "high" in
  if negb ok then mret 1 else
  let! ok := set_pin aux "high" in
  if negb ok then mret 1 else
  let! ok := set_pin supply "high" in
  mret (if ok then 0 else 1).

Definition fmc_power_off (fmc : Z) : TM Z :=
  let aux := if fmc =? 0 then FMC0_AUX_EN else FMC1_AUX_EN in
  let supply := if fmc =? 0 then FMC0_SUPPLY_EN else FMC1_SUPPLY_EN in
  let! ok := set_pin supply "low" in
  if negb ok then mret 1 else
  let! ok := set_pin FMC_PG_C2M "low" in
  if negb ok then mret 1 else
  let! ok := set_pin aux "low" in
  mret (if ok then 0 else 1).

Definition fmc_usage : TM Z := do! say "Usage: rhino_fmc FMCID [OPTIONS]\n" [] in mret 1.
Definition command_usage : TM Z := do! say "Usage: rhino_fmc FMCID -c [r|w] I2C_DEVICE REGISTER [VALUE]\n" [] in mret 1.

Record fmc_opts : Type := mk_fmc {
  enable_flag : bool; disable_flag : bool; address_flag : bool; command_flag : bool; write_flag : bool; GA : Z
}.

(** The loop over what [getopt_long] returns; [None] when the program returns 1. *)
Fixpoint fmc_options (o : fmc_opts) (opts : list (Z * string)) : TM (option fmc_opts) :=
  match opts with
  | [] => mret (Some o)
  | (c, optarg) :: opts =>
    if c =? 101 then fmc_options (mk_fmc true (disable_flag o) (address_flag o) (command_flag o) (write_flag o) (GA o)) opts
    else if c =? 100 then fmc_options (mk_fmc (enable_flag o) true (address_flag o) (command_flag o) (write_flag o) (GA o)) opts
    else if c =? 97 then
      let '(v, moved) := strtol0 (chars optarg) in
      if negb moved || (3 <? v) || (v <? 0) then do! say "Error: invalid value for GA\n" [] in mret None
      else fmc_options (mk_fmc (enable_flag o) (disable_flag o) true (command_flag o) (write_flag o) v) opts
    else if c =? 99 then
      if hd 0 (chars optarg) =? 114 then fmc_options (mk_fmc (enable_flag o) (disable_flag o) (address_flag o) true false (GA o)) opts
      else if hd 0 (chars optarg) =? 119 then fmc_options (mk_fmc (enable_flag o) (disable_flag o) (address_flag o) true true (GA o)) opts
      else do! say "Error: -c option requires 'r' or 'w' as an argument\n" [] in mret None
    else if c =? 63 then mret None
    else do! say "Unknown option: %c\n" [DNum c] in fmc_options o opts
  end.

Definition fmc_address (fmc GA : Z) : TM Z :=
  let level (bit : Z) := if truthy (Z.land GA bit) then "high" else "low" in
  let! ok := set_pin (if fmc =? 0 then FMC0_GA0 else FMC1_GA0) (level 0x02) in
  if negb ok then mret 1 else
  let! ok := set_pin (if fmc =? 0 then FMC0_GA1 else FMC1_GA1) (level 0x01) in
  if negb ok then mret 1 else
  do! say "GA[0:1] set to 0x%02X\n" [DNum GA] in
  mret 0.

(** [args] are the arguments that are no options, without the number of the card. *)
Definition fmc_command (write_flag : bool) (args : list string) : TM Z :=
  let! e := tool_i2c (i2c_open "/dev/i2c-3") in
  if truthy e then do! say "Error: failed to open I2C\n" [] in mret 1 else
  match args with
  | [] => command_usage
  | a1 :: args =>
    let '(dev, moved) := strtol0 (chars a1) in
    if negb moved then do! say "Error: invalid I2C device: %s\n" [DText a1] in mret 1 else
    match args with
    | [] => command_usage
    | a2 :: args =>
      let '(reg, moved) := strtol0 (chars a2) in
      if negb moved then do! say "Error: invalid I2C register: %s\n" [DText a2] in mret 1 else
      let dev := u8 dev in
      let reg := u8 reg in
      if write_flag then
        match args with
        | [] => command_usage
        | a3 :: _ =>
          let '(val, moved) := strtol0 (chars a3) in
          if negb moved then do! say "Error: invalid value: %s\n" [DText a3] in mret 1 else
          let val := u8 val in
          let! w := tool_i2c (i2c_write dev reg [val]) in
          if w =? 1 then
            do! say "Wrote 0x%02X to register 0x%02X on device 0x%02X\n" [DNum val; DNum reg; DNum dev] in
            let! _ := tool_i2c i2c_close in mret 0
          else do! say "Error: failed to write to register\n" [] in mret 1
        end
      else
        let! (r, buf) := tool_i2c (i2c_read dev reg 1) in
        if r =? 1 then
          do! say "Register 0x%02X on device 0x%02X = 0x%02X\n" [DNum reg; DNum dev; DNum (nth 0 buf 0)] in
          let! _ := tool_i2c i2c_close in mret 0
        else do! say "Error: failed to read register\n" [] in mret 1
    end
  end.

(** A pin is opened, read, and one of two lines printed; false when the caller returns
1. *)
Definition show_pin (path zero one : string) (args : list datum) : TM bool :=
  let! fid := sys (sys_open path O_RDWR) in
  if fid =? -1 then do! say "Error: failed to open GPIO\n" [] in mret false else
  let! (r, value) := sys (sys_read fid) in
  do! (if r =? 1 then
         if value =? 48 then say zero args else if value =? 49 then say one args else mret tt
       else say "Error: failed to read GPIO\n" []) in
  let! _ := sys (sys_close fid) in
  mret true.

(** [junk] is in [state] when nothing is read. *)
Definition fmc_status (junk fmc : Z) : TM Z :=
  let! faux := sys (sys_open FPGA_VCCO_AUX_RD O_RDONLY) in
  let! state :=
    if negb (faux =? -1) then
      let! (r, c) := sys (sys_read faux) in
      let! _ := sys (sys_close faux) in
      mret (Some (if r =? 1 then c else junk))
    else mret None in
  if match state with Some c => c =? 48 | None => false end then do! say "FMC supply power is off\n" [] in mret 0 else
  let gpio := if fmc =? 0 then FMC0_nPRSNT_M2C else FMC1_nPRSNT_M2C in
  let fmcaux := if fmc =? 0 then FMC0_AUX_RD else FMC1_AUX_RD in
  let fmcsupply := if fmc =? 0 then FMC0_SUPPLY_RD else FMC1_SUPPLY_RD in
  let! e := export_gpio gpio in
  let! e := if truthy e then mret e else export_gpio fmcaux in
  let! e := if truthy e then mret e else export_gpio fmcsupply in
  if truthy e then do! say "Error: failed to export GPIO\n" [] in mret 1 else
  let! ok := show_pin gpio "Card present in FMC slot %d\n" "No card present in FMC slot %d\n" [DNum fmc] in
  if negb ok then mret 1 else
  let! ok := show_pin fmcaux "Auxillary power: off\n" "Auxillary power: on\n" [] in
  if negb ok then mret 1 else
  let! ok := show_pin fmcsupply "Supply power: off\n" "Supply power: on\n" [] in
  mret (if ok then 0 else 1).

(** [args] is [argv] without the name of the program, [opts] what [getopt_long] returns
for it, and [rest] the arguments that are no options. *)
Definition rhino_fmc (junk : Z) (args : list string) (opts : list (Z * string)) (rest : list string) : TM Z :=
  match args with
  | [] => fmc_usage
  | arg :: _ =>
    let '(fmc, moved) := strtol (chars arg) in
    if negb moved then fmc_usage else
    if negb ((fmc =? 0) || (fmc =? 1)) then do! say "Error: FMCID must be 0 or 1\n" [] in mret 1 else
    let! o := fmc_options (mk_fmc false false false false false 0) opts in
    match o with
    | None => mret 1
    | Some o =>
      let! r := sys (sys_stat FPGA_VCCO_AUX_EN) in
      if r =? -1 then do! say "Error: kernel does not support power management GPIO access\n" [] in mret 1
      else if enable_flag o then
        if disable_flag o || address_flag o || command_flag o then do! say "The -e option is mutually exlusive\n" [] in mret 1 else
        let! r := fmc_power_on fmc in
        do! say (if r =? 0 then "FMC %d powered on\n" else "Failed to power on FMC %d\n") [DNum fmc] in mret 0
      else if disable_flag o then
        if address_flag o || command_flag o then do! say "The -d option is mutually exlusive\n" [] in mret 1 else
        let! r := fmc_power_off fmc in
        do! say (if r =? 0 then "FMC %d powered off\n" else "Failed to power off FMC %d\n") [DNum fmc] in mret 0
      else if address_flag o then
        if command_flag o then do! say "The -a option is mutually exlusive\n" [] in mret 1 else fmc_address fmc (GA o)
      else if command_flag o then fmc_command (write_flag o) (tl rest)
      else fmc_status junk fmc
    end
  end.
End tools.

(** * The GPIO files of Linux *)

Definition pin_file (n : Z) (leaf : string) : string :=
  String.append "/sys/class/gpio/gpio" (String.append (pretty n) (String.append "/" leaf)).

(** The pins in [/sys/class/gpio], the pins that no driver has claimed, the levels
driven through [direction] in their order, and the open files. *)
Record pins : Type := mk_pins {
  exported : gset Z;
  claimable : gset Z;
  drove : list (Z * bool);
  fds : gmap Z string;
}.

Definition set_fds (f : gmap Z string) (v : pins) : pins := mk_pins (exported v) (claimable v) (drove v) f.
Definition export_pin (n : Z) (v : pins) : pins :=
  mk_pins (if decide (n ∈ claimable v) then {[n]} ∪ exported v else exported v) (claimable v) (drove v) (fds v).
Definition drive (n : Z) (level : bool) (v : pins) : pins :=
  mk_pins (exported v) (claimable v) (drove v ++ [(n, level)]) (fds v).
Definition level_text (level : bool) : string := if level then "high"%string else "low"%string.

(** The level last driven. *)
Fixpoint last_level (n : Z) (l : list (Z * bool)) : option bool :=
  match l with
  | [] => None
  | (m, b) :: l => match last_level n l with Some b' => Some b' | None => if m =? n then Some b else None end
  end.

Definition is_pin (n : Z) : Prop := 0 <= n < 192.

(** Linux's GPIO files ([Documentation/gpio.txt]).  The files of a pin are there once it
is exported; a number written to [export] exports a pin that no driver has claimed;
[high] and [low] written to [direction] make the pin an output of that level; [value]
reads as one of the characters 0 and 1, which is the level driven when there is one. *)
Class SysGpio (B : Type) `{SysFiles B} : Type := {
  view : B -> pins;
  pin_stat b n leaf : is_pin n -> leaf = "direction"%string \/ leaf = "value"%string ->
    exists b', runs (sys_stat (pin_file n leaf)) b (if decide (n ∈ exported (view b)) then 0 else -1) b' /\ view b' = view b;
  pin_open_export b : exists fd b', runs (sys_open GPIOEX O_WRONLY) b fd b' /\ 0 <= fd /\
    fds (view b) !! fd = None /\ view b' = set_fds (<[fd := GPIOEX]> (fds (view b))) (view b);
  pin_open b n leaf mode : is_pin n -> leaf = "direction"%string \/ leaf = "value"%string ->
    n ∈ exported (view b) ->
    exists fd b', runs (sys_open (pin_file n leaf) mode) b fd b' /\ 0 <= fd /\
      fds (view b) !! fd = None /\ view b' = set_fds (<[fd := pin_file n leaf]> (fds (view b))) (view b);
  pin_open_absent b n leaf mode : is_pin n -> leaf = "direction"%string \/ leaf = "value"%string ->
    n ∉ exported (view b) ->
    exists b', runs (sys_open (pin_file n leaf) mode) b (-1) b' /\ view b' = view b;
  pin_export b fd n : is_pin n -> fds (view b) !! fd = Some GPIOEX ->
    exists r b', runs (sys_write fd (chars (pretty n) ++ [0])) b r b' /\ view b' = export_pin n (view b);
  pin_drive b fd n level : is_pin n -> fds (view b) !! fd = Some (pin_file n "direction"%string) ->
    exists r b', runs (sys_write fd (chars (level_text level) ++ [0])) b r b' /\ view b' = drive n level (view b);
  pin_value b fd n : is_pin n -> fds (view b) !! fd = Some (pin_file n "value"%string) ->
    exists level b', runs (sys_read fd) b (1, if level : bool then 49 else 48) b' /\ view b' = view b /\
      from_option (eq level) True (last_level n (drove (view b)));
  pin_close b fd : is_Some (fds (view b) !! fd) ->
    exists r b', runs (sys_close fd) b r b' /\ view b' = set_fds (delete fd (fds (view b))) (view b);
}.

(** ** What the tools do to the pins *)

(** One pin is exported if need be and driven; false when that cannot be done. *)
Definition want (p : Z * bool) (v : pins) : pins * bool :=
  let v := if decide (p.1 ∈ exported v) then v else export_pin p.1 v in
  if decide (p.1 ∈ exported v) then (drive p.1 p.2 v, true) else (v, false).

(** A list of pins up to the first that cannot be driven. *)
Fixpoint wants (l : list (Z * bool)) (v : pins) : pins * bool :=
  match l with
  | [] => (v, true)
  | p :: l => let '(v, ok) := want p v in if ok then wants l v else (v, false)
  end.

(** The pins of a card: supply, auxiliary supply, and the two address pins. *)
Definition supply_pin (fmc : Z) : Z := if fmc =? 0 then 102 else 104.
Definition aux_pin (fmc : Z) : Z := if fmc =? 0 then 103 else 105.
Definition ga0_pin (fmc : Z) : Z := if fmc =? 0 then 140 else 155.
Definition ga1_pin (fmc : Z) : Z := if fmc =? 0 then 141 else 152.

Section pins.
Context {B C : Type} `{SysFiles B} `{I2cBus C} `{!SysGpio B}.
Implicit Types (v : pins) (s : tool B C) (out : list line).

(** From the pins [v] the program returns [a], leaves the pins [v'] and prints [out]. *)
Definition acts {A} (m : M (tool B C) A) v (a : A) v' out : Prop :=
  forall s, view (t_sys s) = v ->
  exists s', runs m s a s' /\ view (t_sys s') = v' /\ t_i2c s' = t_i2c s /\ t_out s' = t_out s ++ out.

Lemma acts_ret {A} (a : A) v : acts (mret a) v a v [].
Proof. intros s Hv. exists s. by rewrite app_nil_r. Qed.

Lemma acts_bind {A A'} (m : M (tool B C) A) (k : A -> M (tool B C) A') v a v1 o1 a' v2 o2 :
  acts m v a v1 o1 -> acts (k a) v1 a' v2 o2 -> acts (mbind m k) v a' v2 (o1 ++ o2).
Proof.
  intros Hm Hk s Hv. destruct (Hm s Hv) as (s1 & Hr1 & Hv1 & Hi1 & Ho1).
  destruct (Hk s1 Hv1) as (s2 & Hr2 & Hv2 & Hi2 & Ho2). exists s2.
  split; [by eapply runs_bind|]. split; [done|]. split; [congruence|]. by rewrite Ho2, Ho1, <- app_assoc.
Qed.

Lemma acts_silent {A A'} (m : M (tool B C) A) (k : A -> M (tool B C) A') v a v1 a' v2 out :
  acts m v a v1 [] -> acts (k a) v1 a' v2 out -> acts (mbind m k) v a' v2 out.
Proof. intros Hm Hk. exact (acts_bind m k v a v1 [] a' v2 out Hm Hk). Qed.

Lemma acts_say format args v : acts (say format args) v tt v [(format, args)].
Proof. intros s Hv. eexists. split; [apply runs_modify|]. done. Qed.

Lemma acts_tell {A} format args (k : M (tool B C) A) v a v' out :
  acts k v a v' out -> acts (do! say format args in k) v a v' ((format, args) :: out).
Proof. intros Hk. exact (acts_bind (say format args) (fun _ => k) v tt v [_] a v' out (acts_say _ _ _) Hk). Qed.

Lemma acts_sys {A} (m : M B A) v a v' :
  (forall b, view b = v -> exists b', runs m b a b' /\ view b' = v') -> acts (sys m) v a v' [].
Proof.
  intros Hm s Hv. destruct (Hm _ Hv) as (b' & Hr & Hv'). eexists. split; [apply runs_zoom; exact Hr|].
  cbn. by rewrite app_nil_r.
Qed.

(** A call whose result is not known before. *)
Lemma acts_some {A A'} (m : M B A) (k : A -> M (tool B C) A') v (Q : A -> pins -> Prop) a' v2 out :
  (forall b, view b = v -> exists a b', runs m b a b' /\ Q a (view b')) ->
  (forall a v1, Q a v1 -> acts (k a) v1 a' v2 out) -> acts (mbind (sys m) k) v a' v2 out.
Proof.
  intros Hm Hk s Hv. destruct (Hm _ Hv) as (a & b' & Hr & HQ).
  destruct (Hk a _ HQ (mk_tool b' (t_i2c s) (t_out s)) eq_refl) as (s2 & Hr2 & H2).
  exists s2. split; [|done]. eapply runs_bind; [|exact Hr2].
  exact (runs_zoom t_sys (fun b s => mk_tool b (t_i2c s) (t_out s)) m s a b' Hr).
Qed.

(** ** Files *)
Lemma file_done fd p v : fds v !! fd = None -> set_fds (delete fd (<[fd := p]> (fds v))) v = v.
Proof. intros Hf. destruct v. unfold set_fds. cbn in *. by rewrite delete_insert_id. Qed.

Lemma acts_close {A'} (k : Z -> M (tool B C) A') fd p v w a' v2 out :
  fds v !! fd = None -> w = set_fds (<[fd := p]> (fds v)) v -> (forall r, acts (k r) v a' v2 out) ->
  acts (mbind (sys (sys_close fd)) k) w a' v2 out.
Proof.
  intros Hf -> Hk. eapply acts_some with (Q := fun _ v1 => v1 = v).
  - intros b Hb. destruct (pin_close b fd) as (r & b' & Hr & Hb'); [rewrite Hb; cbn; rewrite lookup_insert_eq; by eexists|].
    exists r, b'. split; [done|]. rewrite Hb', Hb. cbn. by apply (file_done fd p v).
  - intros r v1 ->. apply Hk.
Qed.

(** A write to a file just opened, whose effect is [F], and the close. *)
Lemma acts_put fd p text v (F : pins -> pins) :
  fds v !! fd = None -> (forall v f, fds (F v) = fds v /\ F (set_fds f v) = set_fds f (F v)) ->
  (forall b, fds (view b) !! fd = Some p ->
     exists r b', runs (sys_write fd (chars text ++ [0])) b r b' /\ view b' = F (view b)) ->
  acts (put_close fd text) (set_fds (<[fd := p]> (fds v)) v) tt (F v) [].
Proof.
  intros Hf HF Hw. eapply acts_some with (Q := fun _ v1 => v1 = F (set_fds (<[fd := p]> (fds v)) v)).
  - intros b Hb. destruct (Hw b) as (r & b' & Hr & Hb'); [rewrite Hb; cbn; apply lookup_insert_eq|].
    exists r, b'. split; [done|]. by rewrite Hb', Hb.
  - intros r v1 ->. eapply (acts_close _ fd p (F v)); [by rewrite (proj1 (HF v (fds v)))| |].
    + by rewrite (proj2 (HF v _)), (proj1 (HF v (fds v))).
    + intros r1. apply acts_ret.
Qed.

Lemma export_frame n v f : fds (export_pin n v) = fds v /\ export_pin n (set_fds f v) = set_fds f (export_pin n v).
Proof. done. Qed.
Lemma drive_frame n level v f : fds (drive n level v) = fds v /\ drive n level (set_fds f v) = set_fds f (drive n level v).
Proof. done. Qed.

Lemma acts_put_export n fd v :
  is_pin n -> fds v !! fd = None ->
  acts (put_close fd (pretty n)) (set_fds (<[fd := GPIOEX]> (fds v)) v) tt (export_pin n v) [].
Proof. intros Hn Hf. apply acts_put; [done|apply export_frame|]. intros b. by apply pin_export. Qed.

Lemma acts_put_level n level fd v :
  is_pin n -> fds v !! fd = None ->
  acts (put_close fd (level_text level)) (set_fds (<[fd := pin_file n "direction"]> (fds v)) v) tt (drive n level v) [].
Proof. intros Hn Hf. apply acts_put; [done|apply drive_frame|]. intros b. by apply pin_drive. Qed.

Lemma acts_open_export {A'} (k : Z -> M (tool B C) A') v a' v2 out :
  (forall fd, 0 <= fd -> fds v !! fd = None -> acts (k fd) (set_fds (<[fd := GPIOEX]> (fds v)) v) a' v2 out) ->
  acts (mbind (sys (sys_open GPIOEX O_WRONLY)) k) v a' v2 out.
Proof.
  intros Hk. eapply acts_some with (Q := fun fd v1 => 0 <= fd /\ fds v !! fd = None /\ v1 = set_fds (<[fd := GPIOEX]> (fds v)) v).
  - intros b <-. destruct (pin_open_export b) as (fd & b' & Hr & Hfd & Hf & Hv). by exists fd, b'.
  - intros fd v1 (Hfd & Hf & ->). by apply Hk.
Qed.

Definition pin_leaf (leaf : string) : Prop := leaf = "direction"%string \/ leaf = "value"%string.

Lemma acts_open {A'} (k : Z -> M (tool B C) A') n leaf mode v a' v2 out :
  is_pin n -> pin_leaf leaf -> n ∈ exported v ->
  (forall fd, 0 <= fd -> fds v !! fd = None -> acts (k fd) (set_fds (<[fd := pin_file n leaf]> (fds v)) v) a' v2 out) ->
  acts (mbind (sys (sys_open (pin_file n leaf) mode)) k) v a' v2 out.
Proof.
  intros Hn Hl He Hk.
  eapply acts_some with (Q := fun fd v1 => 0 <= fd /\ fds v !! fd = None /\ v1 = set_fds (<[fd := pin_file n leaf]> (fds v)) v).
  - intros b <-. destruct (pin_open b n leaf mode Hn Hl He) as (fd & b' & Hr & Hfd & Hf & Hv). by exists fd, b'.
  - intros fd v1 (Hfd & Hf & ->). by apply Hk.
Qed.

Lemma acts_open_absent n leaf mode v :
  is_pin n -> pin_leaf leaf -> n ∉ exported v -> acts (sys (sys_open (pin_file n leaf) mode)) v (-1) v [].
Proof. intros Hn Hl He. apply acts_sys. intros b <-. by apply pin_open_absent. Qed.

Lemma acts_stat n leaf v :
  is_pin n -> pin_leaf leaf ->
  acts (sys (sys_stat (pin_file n leaf))) v (if decide (n ∈ exported v) then 0 else -1) v [].
Proof. intros Hn Hl. apply acts_sys. intros b <-. by apply pin_stat. Qed.

(** ** The helpers of the tools *)
Definition ensure_pin n v : pins := if decide (n ∈ exported v) then v else export_pin n v.

Lemma acts_export_gpio n leaf v :
  is_pin n -> pin_leaf leaf -> String.substring 20 3 (pin_file n leaf) = pretty n ->
  acts (export_gpio (pin_file n leaf)) v 0 (ensure_pin n v) [].
Proof.
  intros Hn Hl Hp. eapply acts_silent; [by apply acts_stat|]. unfold ensure_pin.
  destruct (decide _) as [He|He]; [apply acts_ret|]. cbn [Z.eqb]. change (-1 =? -1) with true. cbn iota.
  apply acts_open_export. intros fd Hfd Hf. rewrite (proj2 (Z.eqb_neq fd (-1))) by lia. cbn [negb]. rewrite Hp.
  eapply acts_silent; [by apply acts_put_export|]. apply acts_ret.
Qed.

Lemma acts_export_led n v :
  is_pin n -> acts (export_led (pin_file n "direction") (pretty n)) v tt (ensure_pin n v) [].
Proof.
  intros Hn. eapply acts_silent; [by apply acts_stat; [|left]|]. unfold ensure_pin.
  destruct (decide _) as [He|He]; [apply acts_ret|]. change (-1 =? -1) with true. cbn iota.
  apply acts_open_export. intros fd Hfd Hf. rewrite (proj2 (Z.eqb_neq fd (-1))) by lia. by apply acts_put_export.
Qed.

Lemma acts_set_pin n level v :
  is_pin n -> String.substring 20 3 (pin_file n "direction") = pretty n ->
  acts (set_pin (pin_file n "direction") (level_text level)) v (want (n, level) v).2 (want (n, level) v).1 [].
Proof.
  intros Hn Hp. eapply acts_silent; [by apply acts_export_gpio; [|left|]|]. cbn [truthy Z.eqb negb]. unfold want. cbn [fst snd].
  fold (ensure_pin n v). destruct (decide (n ∈ exported (ensure_pin n v))) as [He|He]; cbn [fst snd].
  - apply acts_open; [done|by left|done|]. intros fd Hfd Hf. rewrite (proj2 (Z.eqb_neq fd (-1))) by lia.
    eapply acts_silent; [by apply acts_put_level|]. apply acts_ret.
  - eapply acts_silent; [by apply acts_open_absent; [|left|]|]. apply acts_ret.
Qed.

Definition exit_code (ok : bool) : Z := if ok then 0 else 1.

(** The files of the pins above 99 have three digits at position 20. *)
Definition three_digits (n : Z) : Prop := is_pin n /\ String.substring 20 3 (pin_file n "direction") = pretty n.

Lemma acts_wants_cons n level l (k : M (tool B C) Z) v :
  three_digits n ->
  (forall v, acts k v (exit_code (wants l v).2) (wants l v).1 []) ->
  acts (let! ok := set_pin (pin_file n "direction") (level_text level) in if negb ok then mret 1 else k) v
    (exit_code (wants ((n, level) :: l) v).2) (wants ((n, level) :: l) v).1 [].
Proof.
  intros [Hn Hp] Hk. eapply acts_silent; [by apply acts_set_pin|]. cbn [wants].
  destruct (want (n, level) v) as [v1 []]; cbn [fst snd negb]; [apply Hk|apply acts_ret].
Qed.

Lemma acts_wants_last n level v :
  three_digits n ->
  acts (let! ok := set_pin (pin_file n "direction") (level_text level) in mret (if ok then 0 else 1)) v
    (exit_code (wants [(n, level)] v).2) (wants [(n, level)] v).1 [].
Proof.
  intros [Hn Hp]. eapply acts_silent; [by apply acts_set_pin|]. cbn [wants].
  destruct (want (n, level) v) as [v1 []]; apply acts_ret.
Qed.

Lemma card_pins fmc :
  fmc = 0 \/ fmc = 1 ->
  Forall three_digits [supply_pin fmc; aux_pin fmc; ga0_pin fmc; ga1_pin fmc; 143].
Proof.
  assert (three_digits 102 /\ three_digits 103 /\ three_digits 104 /\ three_digits 105 /\ three_digits 140 /\
    three_digits 141 /\ three_digits 143 /\ three_digits 152 /\ three_digits 155) as (? & ? & ? & ? & ? & ? & ? & ? & ?)
    by (repeat split; try (unfold is_pin; lia); by vm_compute).
  intros [->| ->]; by repeat constructor.
Qed.

Definition on_list (fmc : Z) : list (Z * bool) := [(100, true); (143, true); (aux_pin fmc, true); (supply_pin fmc, true)].
Definition off_list (fmc : Z) : list (Z * bool) := [(supply_pin fmc, false); (143, false); (aux_pin fmc, false)].
Definition address_list (fmc ga : Z) : list (Z * bool) := [(ga0_pin fmc, Z.testbit ga 1); (ga1_pin fmc, Z.testbit ga 0)].

Lemma want_exported n level v : n ∈ exported v -> want (n, level) v = (drive n level v, true).
Proof. intros Hv. unfold want. cbn [fst snd]. destruct (decide (n ∈ exported v)) as [Hd|]; [|done]. by destruct (decide _). Qed.

(** The paths as files of pins. *)
Lemma card_paths fmc :
  (if fmc =? 0 then FMC0_SUPPLY_EN else FMC1_SUPPLY_EN) = pin_file (supply_pin fmc) "direction" /\
  (if fmc =? 0 then FMC0_AUX_EN else FMC1_AUX_EN) = pin_file (aux_pin fmc) "direction" /\
  (if fmc =? 0 then FMC0_GA0 else FMC1_GA0) = pin_file (ga0_pin fmc) "direction" /\
  (if fmc =? 0 then FMC0_GA1 else FMC1_GA1) = pin_file (ga1_pin fmc) "direction" /\
  FMC_PG_C2M = pin_file 143 "direction" /\ FPGA_VCCO_AUX_EN = pin_file 100 "direction".
Proof. unfold supply_pin, aux_pin, ga0_pin, ga1_pin. destruct (fmc =? 0); vm_compute; repeat split. Qed.

Ltac card_facts fmc Hf :=
  pose proof (card_pins fmc Hf) as Hcard; rewrite !Forall_cons in Hcard; destruct Hcard as (Hsup & Haux & Hga0 & Hga1 & Hpg & _);
  destruct (card_paths fmc) as (Psup & Paux & Pga0 & Pga1 & Ppg & Pvcc).

Lemma power_on_acts fmc v :
  fmc = 0 \/ fmc = 1 -> 100 ∈ exported v ->
  acts (fmc_power_on fmc) v (exit_code (wants (on_list fmc) v).2) (wants (on_list fmc) v).1 [].
Proof.
  intros Hf Hv. card_facts fmc Hf. unfold fmc_power_on. rewrite Psup, Paux, Ppg, Pvcc.
  apply acts_open; [unfold is_pin; lia|by left|done|]. intros fd Hfd Hfr. rewrite (proj2 (Z.eqb_neq fd (-1))) by lia.
  eapply acts_silent; [apply (acts_put_level 100 true); [unfold is_pin; lia|done]|].
  unfold on_list. cbn [wants]. rewrite want_exported by done. cbn iota beta.
  apply (acts_wants_cons 143 true [_; _]); [done|]. intros v1.
  apply (acts_wants_cons _ true [_]); [done|]. intros v2. by apply (acts_wants_last _ true).
Qed.

Lemma power_off_acts fmc v :
  fmc = 0 \/ fmc = 1 -> acts (fmc_power_off fmc) v (exit_code (wants (off_list fmc) v).2) (wants (off_list fmc) v).1 [].
Proof.
  intros Hf. card_facts fmc Hf. unfold fmc_power_off. rewrite Psup, Paux, Ppg.
  apply (acts_wants_cons _ false [_; _]); [done|]. intros v1.
  apply (acts_wants_cons _ false [_]); [done|]. intros v2. by apply (acts_wants_last _ false).
Qed.

Lemma address_acts fmc ga v :
  fmc = 0 \/ fmc = 1 -> 0 <= ga <= 3 ->
  acts (fmc_address fmc ga) v (exit_code (wants (address_list fmc ga) v).2) (wants (address_list fmc ga) v).1
    (if (wants (address_list fmc ga) v).2 then [("GA[0:1] set to 0x%02X\n"%string, [DNum ga])] else []).
Proof.
  intros Hf Hga. card_facts fmc Hf. unfold fmc_address. rewrite Pga0, Pga1.
  assert ((if truthy (Z.land ga 2) then "high"%string else "low"%string) = level_text (Z.testbit ga 1) /\
          (if truthy (Z.land ga 1) then "high"%string else "low"%string) = level_text (Z.testbit ga 0)) as [-> ->].
  { assert (ga = 0 \/ ga = 1 \/ ga = 2 \/ ga = 3) as [->|[->|[->| ->]]] by lia; done. }
  destruct Hga0 as [Hn0 Hp0], Hga1 as [Hn1 Hp1]. unfold address_list. cbn [wants].
  eapply acts_silent; [by apply acts_set_pin|].
  destruct (want (ga0_pin fmc, _) v) as [v1 []]; cbn [fst snd negb]; [|apply acts_ret].
  eapply acts_silent; [by apply acts_set_pin|].
  destruct (want (ga1_pin fmc, _) v1) as [v2 []]; cbn [fst snd negb]; [|apply acts_ret].
  apply acts_tell, acts_ret.
Qed.

(** C19. [rhino_fmc.c] with one of its options [-e], [-d] and [-a], for either card, on a
kernel that has exported the pin of [FPGA_VCCO_AUX]: it drives exactly the listed pins
in the listed order, each exported first where it was not, up to the first that cannot
be had, and leaves no file open.  Switching on raises the auxiliary rail, power good,
then the supplies of that card; switching off lowers the supply, power good and the
auxiliary supply; [-a] puts bit 1 of the address on GA0 and bit 0 on GA1.  The message
says whether all were driven, which the exit status does for [-a] alone.  Without that
pin the tool fails and drives nothing. *)
Theorem fmc_switches (junk fmc ga : Z) (arg optarg : string) args rest v :
  strtol (chars arg) = (fmc, true) -> fmc = 0 \/ fmc = 1 -> strtol0 (chars optarg) = (ga, true) -> 0 <= ga <= 3 ->
  (100 ∈ exported v ->
   acts (rhino_fmc junk (arg :: args) [(101, optarg)] rest) v 0 (wants (on_list fmc) v).1
     [(if (wants (on_list fmc) v).2 then "FMC %d powered on\n" else "Failed to power on FMC %d\n", [DNum fmc])] /\
   acts (rhino_fmc junk (arg :: args) [(100, optarg)] rest) v 0 (wants (off_list fmc) v).1
     [(if (wants (off_list fmc) v).2 then "FMC %d powered off\n" else "Failed to power off FMC %d\n", [DNum fmc])] /\
   acts (rhino_fmc junk (arg :: args) [(97, optarg)] rest) v
     (exit_code (wants (address_list fmc ga) v).2) (wants (address_list fmc ga) v).1
     (if (wants (address_list fmc ga) v).2 then [("GA[0:1] set to 0x%02X\n", [DNum ga])] else [])) /\
  (100 ∉ exported v -> forall opt : Z, opt ∈ [100; 101; 97] ->
   acts (rhino_fmc junk (arg :: args) [(opt, optarg)] rest) v 1 v
     [("Error: kernel does not support power management GPIO access\n", [])]).
Proof.
  intros Harg Hf Hopt Hga. destruct (card_paths fmc) as (_ & _ & _ & _ & _ & Pvcc).
  assert ((fmc =? 0) || (fmc =? 1) = true) as Hid by (destruct Hf as [->| ->]; done).
  assert (negb true || (3 <? ga) || (ga <? 0) = false) as Hgab.
  { cbn [negb orb]. apply orb_false_intro; apply Z.ltb_ge; lia. }
  unfold rhino_fmc. rewrite Harg. cbn [negb]. rewrite Hid. cbn [negb].
  split; [intros Hv; split; [|split]|intros Hv opt Ho].
  - eapply acts_silent; [apply acts_ret|]. cbn [enable_flag].
    eapply acts_silent; [rewrite Pvcc; apply acts_stat; [unfold is_pin; lia|by left]|]. rewrite decide_True by done.
    eapply acts_silent; [by apply power_on_acts|]. destruct (wants _ v) as [v' []]; apply acts_tell, acts_ret.
  - eapply acts_silent; [apply acts_ret|]. cbn [enable_flag disable_flag].
    eapply acts_silent; [rewrite Pvcc; apply acts_stat; [unfold is_pin; lia|by left]|]. rewrite decide_True by done.
    eapply acts_silent; [by apply power_off_acts|]. destruct (wants _ v) as [v' []]; apply acts_tell, acts_ret.
  - cbn [fmc_options Z.eqb Pos.eqb]. rewrite Hopt, Hgab. eapply acts_silent; [apply acts_ret|]. cbn [enable_flag disable_flag address_flag].
    eapply acts_silent; [rewrite Pvcc; apply acts_stat; [unfold is_pin; lia|by left]|]. rewrite decide_True by done.
    by apply address_acts.
  - assert (exists o, acts (fmc_options (mk_fmc false false false false false 0) [(opt, optarg)]) v (Some o) v []) as [o Hop].
    { rewrite !elem_of_cons, elem_of_nil in Ho. destruct Ho as [->|[->|[->|[]]]]; cbn [fmc_options Z.eqb Pos.eqb];
      [..|rewrite Hopt, Hgab]; eexists; apply acts_ret. }
    eapply acts_silent; [exact Hop|]. eapply acts_silent; [rewrite Pvcc; apply acts_stat; [unfold is_pin; lia|by left]|].
    rewrite decide_False by done. apply acts_tell, acts_ret.
Qed.

Lemma last_level_app n l l' :
  last_level n (l ++ l') = match last_level n l' with Some b => Some b | None => last_level n l end.
Proof.
  induction l as [|[m b] l IH]; cbn [app last_level]; [by destruct (last_level n l')|]. rewrite IH.
  by destruct (last_level n l'), (last_level n l).
Qed.

Lemma wants_exported l v :
  Forall (fun p => p.1 ∈ exported v) l -> wants l v = (mk_pins (exported v) (claimable v) (drove v ++ l) (fds v), true).
Proof.
  revert v. induction l as [|[n b] l IH]; intros v Hl; cbn [wants].
  - rewrite app_nil_r. by destruct v.
  - inversion_clear Hl. rewrite want_exported by done. rewrite IH by done. unfold drive. cbn. by rewrite <- app_assoc.
Qed.

(** The power good pin is one for both cards: with both on, switching card 0 off takes
it from card 1, whose supplies stay on. *)
Lemma power_good_shared v :
  Forall (fun n => n ∈ exported v) [100; 102; 103; 104; 105; 143] ->
  exists v', acts (do! fmc_power_on 0 in do! fmc_power_on 1 in fmc_power_off 0) v 0 v' [] /\
    last_level 104 (drove v') = Some true /\ last_level 105 (drove v') = Some true /\
    last_level 143 (drove v') = Some false.
Proof.
  rewrite !Forall_cons. intros (H1 & H2 & H3 & H4 & H5 & H6 & _). eexists. split.
  - eapply acts_silent; [apply power_on_acts; [by left|done]|].
    rewrite wants_exported by (by repeat constructor). cbn [fst snd].
    eapply acts_silent; [apply power_on_acts; [by right|done]|].
    rewrite wants_exported by (by repeat constructor). cbn [fst snd].
    pose proof (power_off_acts 0 (mk_pins (exported v) (claimable v) ((drove v ++ on_list 0) ++ on_list 1) (fds v)) ltac:(by left)) as Hoff.
    rewrite wants_exported in Hoff by (by repeat constructor). exact Hoff.
  - cbn [drove fst]. by rewrite !last_level_app.
Qed.

(** ** The rails *)

(** The selected rails, with the format of their line. *)
Definition rails (int_flag aux_flag mgt_flag : bool) : list (Z * string) :=
  (if int_flag then [(99, "FPGA_VCCINT   : %s\n"%string)] else []) ++
  (if aux_flag then [(100, "FPGA_VCCO_AUX : %s\n"%string)] else []) ++
  (if mgt_flag then [(101, "FPGA_VCCMGT   : %s\n"%string)] else []).

Definition driven (level : bool) (l : list (Z * string)) v : pins :=
  mk_pins (exported v) (claimable v) (drove v ++ map (fun p => (p.1, level)) l) (fds v).
Definition onoff (level : bool) : string := if level then "on"%string else "off"%string.

Lemma driven_nil level v : driven level [] v = v.
Proof. unfold driven. cbn. rewrite app_nil_r. by destruct v. Qed.
Lemma driven_app level l l' v : driven level (l ++ l') v = driven level l' (driven level l v).
Proof. unfold driven. cbn. by rewrite map_app, app_assoc. Qed.

Lemma acts_unsupported flag n v :
  is_pin n -> acts (unsupported flag (pin_file n "direction")) v (flag && negb (bool_decide (n ∈ exported v))) v [].
Proof.
  intros Hn. destruct flag; [|apply acts_ret]. eapply acts_silent; [apply acts_stat; [done|by left]|].
  rewrite decide_bool_decide. destruct (bool_decide _); apply acts_ret.
Qed.

Lemma acts_switch (flag : bool) n fmt level v :
  is_pin n -> (flag = true -> n ∈ exported v) ->
  acts (switch flag (pin_file n "direction") (level_text level)) v tt (driven level (if flag then [(n, fmt)] else []) v) [].
Proof.
  intros Hn He. destruct flag; [|rewrite driven_nil; apply acts_ret].
  apply acts_open; [done|by left|by apply He|]. intros fd Hfd Hf. rewrite (proj2 (Z.eqb_neq fd (-1))) by lia.
  by apply acts_put_level.
Qed.

Lemma acts_report state (flag : bool) n fmt level v :
  is_pin n -> (flag = true -> n ∈ exported v /\ last_level n (drove v) = Some level) ->
  exists c, acts (report state flag (pin_file n "value") fmt) v c v (if flag then [(fmt, [DText (onoff level)])] else []).
Proof.
  intros Hn He. destruct flag; [|eexists; apply acts_ret]. destruct (He eq_refl) as [Hv Hl]. exists 111.
  apply acts_open; [done|by right|done|]. intros fd Hfd Hf. rewrite (proj2 (Z.eqb_neq fd (-1))) by lia. cbn [negb].
  eapply acts_some with (Q := fun x v1 => x = (1, if level then 49 else 48) /\ v1 = set_fds (<[fd := pin_file n "value"]> (fds v)) v).
  - intros b Hb. destruct (pin_value b fd n Hn) as (lv & b' & Hr & Hb' & Hlv); [rewrite Hb; apply lookup_insert_eq|].
    rewrite Hb in Hlv. cbn in Hlv. rewrite Hl in Hlv. cbn in Hlv. subst lv. eexists _, b'. split; [exact Hr|]. by rewrite Hb', Hb.
  - intros x v1 [-> ->]. cbn [Z.eqb Pos.eqb]. eapply acts_close; [done|done|]. intros r.
    assert ((if (if level then 49 else 48) =? 48 then "off"%string else "on"%string) = onoff level) as -> by (by destruct level).
    apply acts_tell, acts_ret.
Qed.

Definition rail_lines (level : bool) (l : list (Z * string)) : list line := map (fun p => (p.2, [DText (onoff level)])) l.

Lemma rail_paths :
  FPGA_VCCINT_EN = pin_file 99 "direction" /\ FPGA_VCCO_AUX_EN = pin_file 100 "direction" /\
  FPGA_VCCMGT_EN = pin_file 101 "direction" /\ FPGA_VCCINT_RD = pin_file 99 "value" /\
  FPGA_VCCO_AUX_RD = pin_file 100 "value" /\ FPGA_VCCMGT_RD = pin_file 101 "value".
Proof. vm_compute. repeat split. Qed.

Lemma rail_pins : is_pin 99 /\ is_pin 100 /\ is_pin 101.
Proof. unfold is_pin. lia. Qed.

(** The three reports one after another. *)
Lemma acts_reports state (i a m : bool) level v :
  Forall (fun p => p.1 ∈ exported v /\ last_level p.1 (drove v) = Some level) (rails i a m) ->
  acts (let! c := report state i FPGA_VCCINT_RD "FPGA_VCCINT   : %s\n" in
        let! c := report c a FPGA_VCCO_AUX_RD "FPGA_VCCO_AUX : %s\n" in
        let! _ := report c m FPGA_VCCMGT_RD "FPGA_VCCMGT   : %s\n" in mret 0) v 0 v (rail_lines level (rails i a m)).
Proof.
  unfold rails. rewrite !Forall_app. intros (Hi & Ha & Hm). destruct rail_paths as (_ & _ & _ & -> & -> & ->).
  destruct rail_pins as (Pi & Pa & Pm). unfold rail_lines. rewrite !map_app.
  destruct (acts_report state i 99 "FPGA_VCCINT   : %s\n" level v Pi) as [c1 H1]; [intros ->; by inversion_clear Hi|].
  destruct (acts_report c1 a 100 "FPGA_VCCO_AUX : %s\n" level v Pa) as [c2 H2]; [intros ->; by inversion_clear Ha|].
  destruct (acts_report c2 m 101 "FPGA_VCCMGT   : %s\n" level v Pm) as [c3 H3]; [intros ->; by inversion_clear Hm|].
  eapply acts_bind; [destruct i; exact H1|]. eapply acts_bind; [destruct a; exact H2|].
  rewrite <- (app_nil_r (map _ (if m then _ else _))). eapply acts_bind; [destruct m; exact H3|]. apply acts_ret.
Qed.

Lemma driven_levels i a m level v :
  Forall (fun p => p.1 ∈ exported v) (rails i a m) ->
  Forall (fun p => p.1 ∈ exported (driven level (rails i a m) v) /\
                   last_level p.1 (drove (driven level (rails i a m) v)) = Some level) (rails i a m).
Proof.
  intros Hv. apply Forall_forall. intros p Hp. split; [by eapply (proj1 (Forall_forall _ _) Hv)|].
  unfold driven. cbn [drove]. rewrite last_level_app.
  destruct i, a, m; cbn in Hp |- *; rewrite ?elem_of_cons, ?elem_of_nil in Hp; naive_solver.
Qed.

Definition missing (flag : bool) (n : Z) v : bool := flag && negb (bool_decide (n ∈ exported v)).

Lemma acts_check flag n path (e k : M (tool B C) Z) v a v' out :
  is_pin n -> path = pin_file n "direction" -> acts (if missing flag n v then e else k) v a v' out ->
  acts (let! u := unsupported flag path in if u then e else k) v a v' out.
Proof. intros Hn -> Hk. eapply acts_silent; [by apply acts_unsupported|]. exact Hk. Qed.

Lemma none_missing i a m v :
  Forall (fun p => p.1 ∈ exported v) (rails i a m) <->
  missing i 99 v = false /\ missing a 100 v = false /\ missing m 101 v = false.
Proof.
  unfold rails, missing. rewrite !Forall_app. destruct i, a, m; cbn; rewrite ?Forall_singleton, ?negb_false_iff, ?bool_decide_eq_true; naive_solver.
Qed.

Lemma missing_exported (flag : bool) n v : missing flag n v = false -> flag = true -> n ∈ exported v.
Proof. intros Hm ->. unfold missing in Hm. cbn in Hm. by rewrite negb_false_iff, bool_decide_eq_true in Hm. Qed.

(** The rails that the options select. *)
Definition selected (all int_flag aux_flag mgt_flag first : bool) : list (Z * string) :=
  rails (int_flag || (all || first)) (aux_flag || (all || first)) (mgt_flag || (all || first)).

Lemma acts_switches (i a m : bool) level (k : M (tool B C) Z) v r v' out :
  Forall (fun p => p.1 ∈ exported v) (rails i a m) -> acts k (driven level (rails i a m) v) r v' out ->
  acts (do! switch i FPGA_VCCINT_EN (level_text level) in
        do! switch a FPGA_VCCO_AUX_EN (level_text level) in
        do! switch m FPGA_VCCMGT_EN (level_text level) in k) v r v' out.
Proof.
  intros Hv Hk. apply none_missing in Hv as (Mi & Ma & Mm). destruct rail_pins as (Pi & Pa & Pm).
  destruct rail_paths as (-> & -> & -> & _). unfold rails in Hk. rewrite !driven_app in Hk.
  eapply acts_silent; [by apply (acts_switch i 99 "FPGA_VCCINT   : %s\n"); [|apply missing_exported]|].
  eapply acts_silent; [apply (acts_switch a 100 "FPGA_VCCO_AUX : %s\n"); [done|exact (missing_exported _ _ _ Ma)]|].
  eapply acts_silent; [apply (acts_switch m 101 "FPGA_VCCMGT   : %s\n"); [done|exact (missing_exported _ _ _ Mm)]|].
  exact Hk.
Qed.

(** [rhino_pwr.c] with [on] or [off]: when the pins of all selected rails are
exported (all three rails when none or [--all] is given), it drives these in the order
VCCINT, VCCO_AUX, VCCMGT to that level, drives no other pin, leaves no file open, and
the report it prints reads each of them back in that state.  When the pin of one
selected rail is missing, it fails before it has driven any. *)
Theorem rails_switched (junk : Z) (all int_flag aux_flag mgt_flag first level : bool) rest v :
  (Forall (fun p => p.1 ∈ exported v) (selected all int_flag aux_flag mgt_flag first) ->
   acts (rhino_pwr junk all int_flag aux_flag mgt_flag first (onoff level :: rest)) v 0
     (driven level (selected all int_flag aux_flag mgt_flag first) v)
     (rail_lines level (selected all int_flag aux_flag mgt_flag first))) /\
  (~ Forall (fun p => p.1 ∈ exported v) (selected all int_flag aux_flag mgt_flag first) ->
   acts (rhino_pwr junk all int_flag aux_flag mgt_flag first (onoff level :: rest)) v 1 v
     [("Error: kernel does not support power management GPIO access\n", [])]).
Proof.
  unfold rhino_pwr, selected. set (i := int_flag || _). set (a := aux_flag || _). set (m := mgt_flag || _).
  destruct rail_pins as (Pi & Pa & Pm). destruct rail_paths as (Ei & Ea & Em & _). split; intros Hv.
  - pose proof Hv as Hm. apply none_missing in Hm as (Mi & Ma & Mm).
    apply (acts_check i 99); [done..|]. rewrite Mi. apply (acts_check a 100); [done..|]. rewrite Ma.
    apply (acts_check m 101); [done..|]. rewrite Mm.
    destruct level; [change (onoff true =? "on")%string with true|
                     change (onoff false =? "on")%string with false; change (onoff false =? "off")%string with true]; cbn iota.
    + apply (acts_switches i a m true); [done|]. apply acts_reports. by apply driven_levels.
    + apply (acts_switches i a m false); [done|]. apply acts_reports. by apply driven_levels.
  - rewrite none_missing in Hv. apply (acts_check i 99); [done..|]. destruct (missing i 99 v); [apply acts_tell, acts_ret|].
    apply (acts_check a 100); [done..|]. destruct (missing a 100 v); [apply acts_tell, acts_ret|].
    apply (acts_check m 101); [done..|]. destruct (missing m 101 v); [apply acts_tell, acts_ret|naive_solver].
Qed.

(** ** The lamps *)
Definition lamp_pin (number : string) : option Z :=
  let n := (strtol (chars number)).1 in if n =? 0 then Some 131 else if n =? 1 then Some 130 else None.

Lemma acts_lamp path n level v :
  is_pin n -> path = pin_file n "direction" ->
  acts (let! fled := sys (sys_open path O_RDWR) in
        if fled =? -1 then mret 1 else do! put_close fled (level_text level) in mret 0) v
    (if decide (n ∈ exported v) then 0 else 1) (if decide (n ∈ exported v) then drive n level v else v) [].
Proof.
  intros Hn ->. destruct (decide (n ∈ exported v)) as [He|He].
  - apply acts_open; [done|by left|done|]. intros fd Hfd Hf. rewrite (proj2 (Z.eqb_neq fd (-1))) by lia.
    eapply acts_silent; [by apply acts_put_level|]. apply acts_ret.
  - eapply acts_silent; [apply acts_open_absent; [done|by left|done]|]. apply acts_ret.
Qed.

Lemma lamp_paths : U_LED_0 = pin_file 131 "direction" /\ U_LED_1 = pin_file 130 "direction".
Proof. by vm_compute. Qed.

(** [rhino_led.c] with a number and [on] or [off] exports the pins of both lamps
where they are not, and then drives the pin of that lamp alone, 131 for lamp 0 and 130
for lamp 1, or fails when that could not be exported; for any other number it prints an
error and drives nothing.  A text without digits counts as lamp 0. *)
Lemma lamps_follow (number : string) (level : bool) v :
  let v1 := ensure_pin 130 (ensure_pin 131 v) in
  match lamp_pin number with
  | Some p => acts (rhino_led [number; onoff level]) v
                (if decide (p ∈ exported v1) then 0 else 1) (if decide (p ∈ exported v1) then drive p level v1 else v1) []
  | None => acts (rhino_led [number; onoff level]) v 1 v1 [("Error: LED number must be 0 or 1\n", [])]
  end.
Proof.
  intros v1. destruct lamp_paths as [E0 E1]. assert (is_pin 131 /\ is_pin 130) as [P1 P0] by (unfold is_pin; lia).
  assert (forall r v' out, acts
    (let n := (strtol (chars number)).1 in
     if n =? 0 then let! f := sys (sys_open U_LED_0 O_RDWR) in if f =? -1 then mret 1 else do! put_close f (level_text level) in mret 0
     else if n =? 1 then let! f := sys (sys_open U_LED_1 O_RDWR) in if f =? -1 then mret 1 else do! put_close f (level_text level) in mret 0
     else do! say "Error: LED number must be 0 or 1\n" [] in mret 1) v1 r v' out ->
    acts (rhino_led [number; onoff level]) v r v' out) as Hled.
  { intros r v' out Hk. unfold rhino_led. rewrite E0, E1 in *. eapply acts_silent; [by apply (acts_export_led 131)|].
    eapply acts_silent; [by apply (acts_export_led 130)|]. by destruct level. }
  unfold lamp_pin. destruct (_ =? 0) eqn:N0; [|destruct (_ =? 1) eqn:N1]; apply Hled; cbv zeta; rewrite N0, ?N1.
  - by apply acts_lamp.
  - by apply acts_lamp.
  - apply acts_tell, acts_ret.
Qed.
End pins.
