(* ===== verification/Monitor.v ===== *)
(** * The monitor tool

[src/utils/util/rhino_mon.c]: the choice of the channels, the calibration of the power
monitors, and the table that is printed for ever, on the I2C bus of [I2cTools].  The
calls on the process itself are the class [Process]; what [getopt_long] returns is an
argument, as are the arguments behind the options. *)
From stdpp Require Import base list strings.
From S2P Require Import Prelude Bits Mkbof I2cTools Printf PowerTools.
From Stdlib Require Import ZArith Lia.

Class Process (B : Type) : Type := {
  p_fork : M B Z;
  p_umask : Z -> M B Z;
  p_setsid : M B Z;
  p_chdir : string -> M B Z;
  p_close : Z -> M B Z;
  p_fopen : list Z -> string -> M B bool;
  p_sleep : Z -> M B Z;
}.

Open Scope string_scope.
Open Scope list_scope.
Open Scope Z_scope.

Definition NCHANNELS : nat := 12.
Definition TEMP_MON_ADDR : Z := 0x18.
Definition channel_name : list string :=
  ["PROCT"; "FPGAT"; "AMBT"; "12V"; "PROC5V"; "FPGA1V2"; "FPGA1V5"; "FPGA2V5"; "FPGA3V3"; "FMC2V5"; "FMC3V3"; "FMC12V"].
Definition channel_label : list string :=
  ["PROC"; "FPGA"; "AMB"; "12V"; "PROC_5V"; "FPGA_1.2V"; "FPGA_1.5V"; "FPGA_2.5V"; "FPGA_3.3V"; "FMC_2.5V"; "FMC_3.3V"; "FMC_12V"].
Definition channel_reg : list Z := [0; 0; 0; 0x40; 0x49; 0x41; 0x42; 0x43; 0x44; 0x45; 0x46; 0x47].

(** One argument against all names: the channels and their number. *)
Definition match_channels (arg : string) (x : list bool * Z) : list bool * Z :=
  fold_left (fun '(channel, nchannels) i =>
    if String.eqb arg (nth i channel_name EmptyString) then (<[i := true]> channel, nchannels + 1) else (channel, nchannels))
    (seq 0 NCHANNELS) x.
Definition choose_channels (args : list string) : list bool * Z :=
  let '(channel, nchannels) := fold_left (fun x arg => match_channels arg x) args (replicate NCHANNELS false, 0) in
  if nchannels =? 0 then (replicate NCHANNELS true, Z.of_nat NCHANNELS) else (channel, nchannels).

Record mon_opts : Type := mk_mon {
  voltage_flag : bool; current_flag : bool; power_flag : bool; daemon : bool; delay : Z; logfile : list Z
}.
Definition default_mon : mon_opts := mk_mon false false false false 1 (chars "/var/log/rhino_mon.log").

Section monitor.
Context {B C : Type} `{Process B} `{I2cBus C}.
Abbreviation TM := (M (tool B C)).

Fixpoint mon_options (o : mon_opts) (opts : list (Z * string)) : TM mon_opts :=
  match opts with
  | [] => mret o
  | (c, optarg) :: opts =>
    let '(mk_mon v i p d t l) := o in
    if c =? 118 then mon_options (mk_mon true i p d t l) opts
    else if c =? 99 then mon_options (mk_mon v true p d t l) opts
    else if c =? 112 then mon_options (mk_mon v i true d t l) opts
    else if c =? 100 then mon_options (mk_mon v i p true t l) opts
    else if c =? 116 then
      let '(delay, moved) := strtol (chars optarg) in
      mon_options (mk_mon v i p d (if negb moved || (delay =? 0) then 1 else delay) l) opts
    else if c =? 108 then mon_options (mk_mon v i p d t (firstn 100 (chars optarg))) opts
    else do! say "Unknown option: %c\n" [DNum c] in mon_options o opts
  end.

(** [for(i ...) if(channel[i]) ...] over the listed channels. *)
Fixpoint each (l : list nat) (channel : list bool) (body : nat -> TM unit) : TM unit :=
  match l with
  | [] => mret tt
  | i :: l => do! (if nth i channel false then body i else mret tt) in each l channel body
  end.
Definition supplies : list nat := seq 3 (NCHANNELS - 3).

Fixpoint say_times (n : nat) (format : string) : TM unit :=
  match n with O => mret tt | S n => do! say format [] in say_times n format end.

(** The child of the daemon goes on ([None]); everything else returns. *)
Definition daemonize (o : mon_opts) : TM (option Z) :=
  let! pid := sys p_fork in
  if pid <? 0 then mret (Some 1) else
  if 0 <? pid then mret (Some 0) else
  let! _ := sys (p_umask 0) in
  let! sid := sys p_setsid in
  if sid <? 0 then mret (Some 1) else
  let! r := sys (p_chdir "/") in
  if r <? 0 then mret (Some 1) else
  let! _ := sys (p_close 0) in
  let! _ := sys (p_close 1) in
  let! _ := sys (p_close 2) in
  let! opened := sys (p_fopen (logfile o) "w") in
  mret (if opened then None else Some 1).

Definition table_head (channel : list bool) (nchannels : Z) : TM unit :=
  do! say "|" [] in
  do! each (seq 0 NCHANNELS) channel (fun i => say "%10s |" [DText (nth i channel_label EmptyString)]) in
  do! say "\n+" [] in
  do! say_times (Z.to_nat nchannels) "-----------+" in
  say "\n" [].

Definition blank : string := "           |".
Definition leader_val (channel : list bool) : string :=
  let add (i : nat) (s : string) := if nth i channel false then String.append s blank else s in
  add 2%nat (add 1%nat (add 0%nat "|")).

Definition show_temp (reg : max1668_reg) : TM unit :=
  let! (_, temp) := tool_i2c (MAX1668readTemp reg TEMP_MON_ADDR) in say "%9dC |" [DNum temp].

(** One round of the loop. *)
Definition mon_pass (o : mon_opts) (channel : list bool) (nchannels : Z) : TM unit :=
  do! say "|" [] in
  do! each [0%nat] channel (fun _ => show_temp MAX1668_RET1_REG) in
  do! each [1%nat] channel (fun _ => show_temp MAX1668_RET2_REG) in
  do! each [2%nat] channel (fun _ => show_temp MAX1668_RET3_REG) in
  let! leader :=
    (if voltage_flag o then
       do! each supplies channel (fun i =>
         let! (_, millivolts) := tool_i2c (INA219readVoltage (nth i channel_reg 0)) in
         say "%4d.%03d V |" [DNum (Z.quot millivolts 1000); DNum (Z.rem millivolts 1000)]) in
       do! say "\n" [] in
       mret (leader_val channel)
     else mret EmptyString) in
  let! leader :=
    (if current_flag o then
       do! say "%s" [DText leader] in
       do! each supplies channel (fun i =>
         let! (_, milliamps) := tool_i2c (INA219readCurrent (nth i channel_reg 0)) in
         say "%8.3lf A |" [DMilli milliamps]) in
       do! say "\n" [] in
       mret (leader_val channel)
     else mret leader) in
  do! (if power_flag o then
         do! say "%s" [DText leader] in
         do! each supplies channel (fun i =>
           let! (_, milliwatts) := tool_i2c (INA219readPower (nth i channel_reg 0)) in
           say "%8.3lf W |" [DMilli milliwatts]) in
         say "\n" []
       else mret tt) in
  do! say "+" [] in
  do! say_times (Z.to_nat nchannels) "-----------+" in
  do! say "\n" [] in
  let! _ := sys (p_sleep (u32 (delay o))) in
  mret tt.

Fixpoint mon_passes (n : nat) (o : mon_opts) (channel : list bool) (nchannels : Z) : TM unit :=
  match n with O => mret tt | S n => do! mon_pass o channel nchannels in mon_passes n o channel nchannels end.

(** [Some r] when [main] returns [r], [None] when it is still in its loop after [passes]
rounds. *)
Definition rhino_mon (passes : nat) (opts : list (Z * string)) (args : list string) : TM (option Z) :=
  let! o := mon_options default_mon opts in
  let o := if negb (voltage_flag o) && negb (current_flag o) && negb (power_flag o)
           then mk_mon true (current_flag o) (power_flag o) (daemon o) (delay o) (logfile o) else o in
  let '(channel, nchannels) := choose_channels args in
  let! r := if daemon o then daemonize o else mret None in
  match r with
  | Some r => mret (Some r)
  | None =>
    let! e := tool_i2c (i2c_open "/dev/i2c-1") in
    if truthy e then mret (Some 1) else
    do! each supplies channel (fun i => let! _ := tool_i2c (INA219calibrate (nth i channel_reg 0)) in mret tt) in
    do! table_head channel nchannels in
    do! mon_passes passes o channel nchannels in
    mret None
  end.
End monitor.

(** * The choice of the channels *)

Lemma match_channels_spec arg channel n :
  List.length channel = NCHANNELS ->
  match_channels arg (channel, n) =
    (zip_with orb channel (map (String.eqb arg) channel_name), n + (if existsb (String.eqb arg) channel_name then 1 else 0)).
Proof.
  intros Hl. do 12 (destruct channel as [|? channel]; [done|]). destruct channel; [|done]. clear Hl.
  unfold match_channels, channel_name. cbn [fold_left seq NCHANNELS nth map existsb zip_with].
  do 12 (match goal with |- context [String.eqb arg ?name] => destruct (String.eqb_spec arg name) as [->|] end;
         [cbn; rewrite ?orb_true_r, ?orb_false_r; reflexivity|]).
  cbn. rewrite ?orb_false_r, Z.add_0_r. reflexivity.
Qed.

(** The arguments that name a channel. *)
Definition hits (args : list string) : list string := List.filter (fun arg => existsb (String.eqb arg) channel_name) args.
Definition named (args : list string) : list bool := map (fun name => existsb (fun arg => String.eqb arg name) args) channel_name.

Lemma match_all_spec args channel n :
  List.length channel = NCHANNELS ->
  fold_left (fun x arg => match_channels arg x) args (channel, n) = (zip_with orb channel (named args), n + zlen (hits args)).
Proof.
  revert channel n. induction args as [|arg args IH]; intros channel n Hl; cbn [fold_left].
  - do 12 (destruct channel as [|? channel]; [done|]). destruct channel; [|done]. cbn. by rewrite !orb_false_r, Z.add_0_r.
  - rewrite match_channels_spec by done. rewrite IH by (rewrite length_zip_with, length_map, Hl; done). f_equal.
    + do 12 (destruct channel as [|? channel]; [done|]). destruct channel; [|done]. cbn. by rewrite <- !orb_assoc.
    + unfold hits. cbn [List.filter]. destruct (existsb _ channel_name); unfold zlen; cbn [List.length]; lia.
Qed.

(** The channels [rhino_mon.c] shows are those named by its arguments, and all
twelve when no argument is the name of one.  The number of columns it rules off counts
an argument as often as it is given, so that it is the number of channels only when
none is named twice. *)
Lemma channels_chosen (args : list string) :
  choose_channels args =
    if zlen (hits args) =? 0 then (replicate NCHANNELS true, 12) else (named args, zlen (hits args)).
Proof.
  unfold choose_channels. rewrite match_all_spec by done. rewrite Z.add_0_l. by destruct (zlen (hits args) =? 0).
Qed.

(** * The table *)

Definition word (f : regfile) (a r : Z) : Z := 256 * nth 0 (f a r) 0 + nth 1 (f a r) 0.
Definition millivolts (f : regfile) (a : Z) : Z := 4 * (word f a (ina219_code INA219_VOLT_REG) / 8).
Definition milliamps (f : regfile) (a : Z) : Z := s16 (word f a (ina219_code INA219_CURR_REG)).
Definition milliwatts (f : regfile) (a : Z) : Z := Z.quot (millivolts f a * milliamps f a) 1000.

Definition columns (l : list nat) (channel : list bool) (g : nat -> list line) : list line :=
  flat_map (fun i => if nth i channel false then g i else []) l.
Definition rule (n : Z) : list line := replicate (Z.to_nat n) ("-----------+", []).

Definition head_lines (channel : list bool) (n : Z) : list line :=
  ("|", []) :: columns (seq 0 NCHANNELS) channel (fun i => [("%10s |", [DText (nth i channel_label EmptyString)])]) ++
  ("\n+", []) :: rule n ++ [("\n", [])].

Definition temp_lines (f : regfile) (reg : max1668_reg) : list line :=
  [("%9dC |", [DNum (nth 0 (f TEMP_MON_ADDR (max1668_code reg)) 0)])].
Definition volt_lines (f : regfile) (i : nat) : list line :=
  let mv := millivolts f (nth i channel_reg 0) in [("%4d.%03d V |", [DNum (Z.quot mv 1000); DNum (Z.rem mv 1000)])].
Definition amp_lines (f : regfile) (i : nat) : list line := [("%8.3lf A |", [DMilli (milliamps f (nth i channel_reg 0))])].
Definition watt_lines (f : regfile) (i : nat) : list line := [("%8.3lf W |", [DMilli (milliwatts f (nth i channel_reg 0))])].

(** The rows of one round: voltages, currents and powers as asked for, the later rows
indented below the temperatures. *)
Definition pass_lines (v c p : bool) (channel : list bool) (n : Z) (f : regfile) : list line :=
  ("|", []) ::
  columns [0%nat] channel (fun _ => temp_lines f MAX1668_RET1_REG) ++
  columns [1%nat] channel (fun _ => temp_lines f MAX1668_RET2_REG) ++
  columns [2%nat] channel (fun _ => temp_lines f MAX1668_RET3_REG) ++
  (if v then columns supplies channel (volt_lines f) ++ [("\n", [])] else []) ++
  (if c then ("%s", [DText (if v then leader_val channel else EmptyString)]) ::
             columns supplies channel (amp_lines f) ++ [("\n", [])] else []) ++
  (if p then ("%s", [DText (if v || c then leader_val channel else EmptyString)]) ::
             columns supplies channel (watt_lines f) ++ [("\n", [])] else []) ++
  ("+", []) :: rule n ++ [("\n", [])].

(** The registers after the calibration of the listed channels. *)
Definition CAL : Z := ina219_code INA219_CAL_REG.
Definition calibrated (channel : list bool) (l : list nat) (f : regfile) : regfile :=
  fold_left (fun f i => if nth i channel false then upd f (nth i channel_reg 0) CAL [0x20; 0] else f) l f.

Lemma calibrated_other channel l f a r : r <> CAL -> calibrated channel l f a r = f a r.
Proof.
  intros Hr. unfold calibrated. revert f. induction l as [|i l IH]; intros f; [done|]. cbn [fold_left]. rewrite IH.
  destruct (nth i channel false); [|done]. unfold upd. by rewrite (proj2 (Z.eqb_neq r CAL) Hr), andb_false_r.
Qed.

Lemma columns_ext l channel g g' : (forall i, g i = g' i) -> columns l channel g = columns l channel g'.
Proof. intros Hg. apply flat_map_ext. intros i. by rewrite Hg. Qed.

(** The rows do not depend on the calibration registers. *)
Lemma pass_lines_ext v c p channel n f f' :
  (forall a r, r <> CAL -> f a r = f' a r) -> pass_lines v c p channel n f = pass_lines v c p channel n f'.
Proof.
  intros Hf. assert (forall a, millivolts f a = millivolts f' a /\ milliamps f a = milliamps f' a) as Hm.
  { intros a. unfold millivolts, milliamps, word. by rewrite !Hf. }
  assert (forall reg, temp_lines f reg = temp_lines f' reg) as Ht by (intros []; unfold temp_lines; by rewrite Hf).
  assert (forall i, volt_lines f i = volt_lines f' i /\ amp_lines f i = amp_lines f' i /\ watt_lines f i = watt_lines f' i) as Hr.
  { intros i. unfold volt_lines, amp_lines, watt_lines, milliwatts. by destruct (Hm (nth i channel_reg 0)) as [-> ->]. }
  unfold pass_lines. rewrite !Ht, (columns_ext _ _ (volt_lines f) (volt_lines f')), (columns_ext _ _ (amp_lines f) (amp_lines f')),
    (columns_ext _ _ (watt_lines f) (watt_lines f')) by (intros i; apply (Hr i)). done.
Qed.

Section table.
Context {B C : Type} `{Process B} `{I2cBus C} `{!RegisterBus C "/dev/i2c-1"}.
Implicit Types (f : regfile) (s : tool B C).

(** The bus is open, its registers hold [f], and [out] has been printed. *)
Definition at_table f io (out : list line) s : Prop := online f io (t_i2c s) /\ t_out s = out.
Definition rows {A} f io (m : M (tool B C) A) (a : A) (lines : list line) : Prop :=
  forall out, tot (at_table f io out) m (fun x s => x = a /\ at_table f io (out ++ lines) s).

Lemma rows_ret {A} f io (a : A) : rows f io (mret a) a [].
Proof. intros out. apply tot_ret. intros s. by rewrite app_nil_r. Qed.

Lemma rows_say f io format args : rows f io (say format args) tt [(format, args)].
Proof. intros out s [Hs Ho]. eexists _, _. split; [apply runs_modify|]. split; [done|]. split; [done|]. cbn. by rewrite Ho. Qed.

Lemma rows_bind {A A'} f io (m : M (tool B C) A) (k : A -> M (tool B C) A') a b l l' :
  rows f io m a l -> rows f io (k a) b l' -> rows f io (mbind m k) b (l ++ l').
Proof. intros Hm Hk out. eapply tot_bind_eq; [apply Hm|]. rewrite app_assoc. apply Hk. Qed.

Lemma rows_tell {A} f io format args (k : M (tool B C) A) a l :
  rows f io k a l -> rows f io (do! say format args in k) a ((format, args) :: l).
Proof. intros Hk. exact (rows_bind f io _ (fun _ => k) tt a [_] l (rows_say f io format args) Hk). Qed.

Lemma rows_each f io l channel body g :
  (forall i, In i l -> nth i channel false = true -> rows f io (body i) tt (g i)) ->
  rows f io (each l channel body) tt (columns l channel g).
Proof.
  induction l as [|i l IH]; intros Hb; [apply rows_ret|]. cbn. eapply rows_bind; [|by apply IH; auto using in_cons].
  destruct (nth i channel false) eqn:E; [by apply Hb; [left|]|apply rows_ret].
Qed.

Lemma rows_times f io n format : rows f io (say_times n format) tt (replicate n (format, [])).
Proof. induction n as [|n IH]; [apply rows_ret|]. cbn. by apply rows_tell. Qed.

(** A measurement, and the line printed for it. *)
Lemma rows_measured f io (m : M (i2c_state C) (Z * Z)) x format (args : Z -> list datum) :
  tot (online f io) m (fun y (st : i2c_state C) => y = (0, x) /\ online f io st) ->
  rows f io (let! (_, v) := tool_i2c m in say format (args v)) tt [(format, args x)].
Proof.
  intros Hm. eapply (rows_bind f io _ _ (0, x) tt []); [|apply rows_say].
  intros out s [Hs Ho]. destruct (Hm _ Hs) as (y & i & Hr & -> & Hi). eexists _, _.
  split; [exact (runs_zoom t_i2c (fun i s => mk_tool (t_sys s) i (t_out s)) m s _ i Hr)|].
  split; [done|]. split; [done|]. cbn. by rewrite app_nil_r.
Qed.

(** A chip whose registers hold still. *)
Definition supply_chip f (a : Z) : Prop :=
  present a = true /\ Forall (fun r => stored a (ina219_code r) = true /\ zlen (f a (ina219_code r)) = 2 /\
    Forall is_byte (f a (ina219_code r))) [INA219_VOLT_REG; INA219_CURR_REG; INA219_CAL_REG].
Definition temp_chip f (reg : max1668_reg) : Prop :=
  present TEMP_MON_ADDR = true /\ stored TEMP_MON_ADDR (max1668_code reg) = true /\ zlen (f TEMP_MON_ADDR (max1668_code reg)) = 1.

(** The chips of the selected channels. *)
Definition chips_ok f (channel : list bool) : Prop :=
  Forall (fun i => nth i channel false = true -> supply_chip f (nth i channel_reg 0)) supplies /\
  Forall (fun p => nth p.1 channel false = true -> temp_chip f p.2)
    [(0%nat, MAX1668_RET1_REG); (1%nat, MAX1668_RET2_REG); (2%nat, MAX1668_RET3_REG)].

Lemma word_bytes (l : list Z) : zlen l = 2 -> Forall is_byte l -> l = [nth 0 l 0; nth 1 l 0] /\ is_byte (nth 0 l 0) /\ is_byte (nth 1 l 0).
Proof.
  intros Hl Hb. destruct l as [|x [|y [|z l]]]; try (unfold zlen in Hl; cbn in Hl; lia).
  rewrite !Forall_cons in Hb. by destruct Hb as (? & ? & _).
Qed.

Lemma supply_chip_spec f a io :
  supply_chip f a ->
  tot (online f io) (INA219readVoltage a) (fun y st => y = (0, millivolts f a) /\ online f io st) /\
  tot (online f io) (INA219readCurrent a) (fun y st => y = (0, milliamps f a) /\ online f io st) /\
  tot (online f io) (INA219readPower a) (fun y st => y = (0, milliwatts f a) /\ online f io st).
Proof.
  intros [Ha Hr]. rewrite !Forall_cons in Hr. destruct Hr as ((Sv & Lv & Bv) & (Sc & Lc & Bc) & _).
  destruct (word_bytes _ Lv Bv) as (Ev & V0 & V1), (word_bytes _ Lc Bc) as (Ec & C0 & C1).
  split; [by apply INA219readVoltage_exact|]. split; [by apply INA219readCurrent_exact|]. by apply INA219readPower_exact.
Qed.

Lemma rows_temp f io channel i reg :
  (nth i channel false = true -> temp_chip f reg) ->
  rows f io (each [i] channel (fun _ => show_temp reg)) tt (columns [i] channel (fun _ => temp_lines f reg)).
Proof.
  intros Hc. apply rows_each. intros j [<-|[]] Hj. destruct (Hc Hj) as (Hp & Hs & Hl).
  apply (rows_measured f io _ _ "%9dC |" (fun v => [DNum v])).
  eapply tot_bind_eq; [by apply stored_read_tot|]. apply tot_ret. intros st Hst. done.
Qed.

Lemma rows_supplies f io channel (m : Z -> M (i2c_state C) (Z * Z)) (x : Z -> Z) format args :
  chips_ok f channel ->
  (forall a, supply_chip f a -> tot (online f io) (m a) (fun y st => y = (0, x a) /\ online f io st)) ->
  rows f io (each supplies channel (fun i => let! (_, v) := tool_i2c (m (nth i channel_reg 0)) in say format (args v))) tt
    (columns supplies channel (fun i => [(format, args (x (nth i channel_reg 0)))])).
Proof.
  intros [Hs _] Hm. apply rows_each. intros i Hi Hn. apply rows_measured, Hm.
  exact (proj1 (List.Forall_forall _ _) Hs i Hi Hn).
Qed.


Lemma rows_pass f io o channel n :
  chips_ok f channel -> (forall d b, exists r b', runs (p_sleep d) b r b') ->
  rows f io (mon_pass o channel n) tt (pass_lines (voltage_flag o) (current_flag o) (power_flag o) channel n f).
Proof.
  intros Hc Hsleep. destruct (Hc) as [_ Ht]. rewrite !Forall_cons in Ht. destruct Ht as (T0 & T1 & T2 & _).
  apply rows_tell. eapply rows_bind; [by apply rows_temp|]. eapply rows_bind; [by apply rows_temp|].
  eapply rows_bind; [by apply rows_temp|].
  eapply (rows_bind _ _ _ _ (if voltage_flag o then leader_val channel else EmptyString)).
  { destruct (voltage_flag o); [|apply rows_ret]. eapply rows_bind; [|apply rows_tell, rows_ret].
    apply (rows_supplies f io channel INA219readVoltage (millivolts f)); [done|]. intros a Ha. by apply supply_chip_spec. }
  eapply (rows_bind _ _ _ _ (if voltage_flag o || current_flag o then leader_val channel else EmptyString)).
  { destruct (current_flag o); [rewrite orb_true_r|rewrite orb_false_r; apply rows_ret].
    apply rows_tell. eapply rows_bind; [|apply rows_tell, rows_ret].
    apply (rows_supplies f io channel INA219readCurrent (milliamps f) "%8.3lf A |" (fun v => [DMilli v])); [done|].
    intros a Ha. by apply supply_chip_spec. }
  eapply rows_bind.
  { destruct (power_flag o); [|apply rows_ret]. apply rows_tell. eapply rows_bind; [|apply rows_say].
    apply (rows_supplies f io channel INA219readPower (milliwatts f) "%8.3lf W |" (fun v => [DMilli v])); [done|].
    intros a Ha. by apply supply_chip_spec. }
  apply rows_tell. eapply rows_bind; [apply rows_times|]. apply rows_tell.
  intros out s [Hs Ho]. destruct (Hsleep (u32 (delay o)) (t_sys s)) as (r & b' & Hr). eexists _, _.
  split; [eapply runs_bind; [exact (runs_zoom t_sys (fun b s => mk_tool b (t_i2c s) (t_out s)) _ s _ b' Hr)|apply runs_ret]|].
  split; [done|]. split; [done|]. cbn. by rewrite app_nil_r.
Qed.

Lemma supply_chip_upd f a b : supply_chip f a -> supply_chip (upd f b CAL [0x20; 0]) a.
Proof.
  intros [Ha Hr]. split; [done|]. eapply Forall_impl; [exact Hr|]. intros r (Hs & Hl & Hb). split; [done|].
  unfold upd. destruct (_ && _); [|done]. split; [done|]. repeat constructor; unfold is_byte; lia.
Qed.

Lemma calibrate_tot f io out channel l :
  Forall (fun i => nth i channel false = true -> supply_chip f (nth i channel_reg 0)) l ->
  tot (at_table f io out) (each l channel (fun i => let! _ := tool_i2c (INA219calibrate (nth i channel_reg 0)) in mret tt))
    (fun _ => at_table (calibrated channel l f) io out).
Proof.
  revert f. induction l as [|i l IH]; intros f Hl; [by apply tot_ret|]. apply Forall_cons in Hl as [Hi Hl].
  unfold calibrated. cbn [each fold_left]. destruct (nth i channel false); [|eapply tot_bind_eq; [by apply tot_ret|by apply IH]].
  eapply tot_bind with (Q := fun _ => at_table (upd f (nth i channel_reg 0) CAL [0x20; 0]) io out).
  - intros s [Hs Ho]. destruct (Hi eq_refl) as [Hp Hr]. rewrite !Forall_cons in Hr. destruct Hr as (_ & _ & (Sc & Lc & _) & _).
    destruct (i2c_write_tot (nth i channel_reg 0) CAL [0x20; 0] f io Hp Sc) with (s := t_i2c s) as (k & st & Hr & -> & Hst);
      [by vm_compute|exact (eq_sym Lc)|repeat constructor; unfold is_byte; lia|done|].
    eexists tt, (mk_tool (t_sys s) st (t_out s)). split; [|done]. eapply runs_bind; [|apply runs_ret].
    apply (runs_zoom t_i2c (fun i s => mk_tool (t_sys s) i (t_out s))). eapply runs_bind; [exact Hr|apply runs_ret].
  - intros u. apply IH. eapply Forall_impl; [exact Hl|]. intros j Hj Hn. by apply supply_chip_upd, Hj.
Qed.

Lemma chips_calibrated f channel : chips_ok f channel -> chips_ok (calibrated channel supplies f) channel.
Proof.
  intros [Hs Ht]. split.
  - assert (forall l g, Forall (fun i => nth i channel false = true -> supply_chip g (nth i channel_reg 0)) supplies ->
      Forall (fun i => nth i channel false = true -> supply_chip (calibrated channel l g) (nth i channel_reg 0)) supplies) as Hl; [|by apply Hl].
    induction l as [|i l IH]; intros g Hg; [done|]. unfold calibrated. cbn [fold_left]. apply IH.
    destruct (nth i channel false); [|done]. eapply Forall_impl; [exact Hg|]. intros j Hj Hn. by apply supply_chip_upd, Hj.
  - eapply Forall_impl; [exact Ht|]. intros [i reg] Hi Hn. destruct (Hi Hn) as (Hp & Hst & Hl). cbn [fst snd] in *.
    split; [done|]. split; [done|]. rewrite calibrated_other; [done|]. by destruct reg.
Qed.

Lemma rows_passes f io k o channel n :
  chips_ok f channel -> (forall d b, exists r b', runs (p_sleep d) b r b') ->
  rows f io (mon_passes k o channel n) tt
    (mjoin (replicate k (pass_lines (voltage_flag o) (current_flag o) (power_flag o) channel n f))).
Proof.
  intros Hc Hs. induction k as [|k IH]; [apply rows_ret|].
  apply (rows_bind f io (mon_pass o channel n) (fun _ => mon_passes k o channel n) tt tt); [by apply rows_pass|exact IH].
Qed.

Lemma rows_head f io channel n : rows f io (table_head channel n) tt (head_lines channel n).
Proof.
  apply rows_tell. eapply rows_bind; [apply rows_each; intros i _ _; apply rows_say|].
  apply rows_tell. eapply rows_bind; [apply rows_times|apply rows_say].
Qed.

(** Without an option for what to show, the voltages are shown. *)
Definition shown (o : mon_opts) : bool * bool * bool :=
  (voltage_flag o || negb (current_flag o) && negb (power_flag o), current_flag o, power_flag o).

End table.
