(* ===== verification/ExamplesPower.v ===== *)
(** * The power tools on a board

A kernel whose GPIO files are the pins themselves ([SysGpio] holds for it), and the
theorems of [PowerTools] at it. *)
From stdpp Require Import base list gmap strings pretty.
From S2P Require Import Prelude Bits Mkbof I2cTools ExamplesI2c Printf PowerTools Monitor.
From Stdlib Require Import ZArith Lia.
Open Scope Z_scope.

Definition all_pins : list Z := map Z.of_nat (seq 0 192).

Inductive file : Type := FExport | FDirection (n : Z) | FValue (n : Z).
Definition pin_of (leaf path : string) : option Z := List.find (fun n => String.eqb path (pin_file n leaf)) all_pins.
Definition classify (path : string) : option file :=
  if String.eqb path GPIOEX then Some FExport else
  match pin_of "direction" path with
  | Some n => Some (FDirection n)
  | None => FValue <$> pin_of "value" path
  end.
Definition present_file (path : string) (v : pins) : bool :=
  match classify path with
  | Some FExport => true
  | Some (FDirection n) | Some (FValue n) => bool_decide (n ∈ exported v)
  | None => false
  end.
Definition fresh_fd (f : gmap Z string) : Z := Z.of_nat (fresh (set_map Z.to_nat (dom f) : gset nat)).
Definition number_of (data : list Z) : option Z := List.find (fun n => bool_decide (data = chars (pretty n) ++ [0])) all_pins.

Definition file_of (fd : Z) (v : pins) : option file := match fds v !! fd with Some p => classify p | None => None end.

#[local] Instance kernel_files : SysFiles pins := {
  sys_stat path := fun v => Ok (if present_file path v then 0 else -1, v);
  sys_open path _ := fun v =>
    if present_file path v then let fd := fresh_fd (fds v) in Ok (fd, set_fds (<[fd := path]> (fds v)) v) else Ok (-1, v);
  sys_write fd data := fun v =>
    Ok (zlen data,
        match file_of fd v with
        | Some FExport => match number_of data with Some n => export_pin n v | None => v end
        | Some (FDirection n) =>
          if bool_decide (data = chars "high" ++ [0]) then drive n true v
          else if bool_decide (data = chars "low" ++ [0]) then drive n false v else v
        | _ => v
        end);
  sys_read fd := fun v =>
    Ok (match file_of fd v with
        | Some (FValue n) => (1, if from_option id false (last_level n (drove v)) then 49 else 48)
        | _ => (-1, 0)
        end, v);
  sys_close fd := fun v => Ok (0, set_fds (delete fd (fds v)) v);
}.

Lemma file_of_path fd p v : fds v !! fd = Some p -> file_of fd v = classify p.
Proof. unfold file_of. by intros ->. Qed.

Lemma fresh_fd_fresh f : f !! fresh_fd f = None.
Proof.
  apply not_elem_of_dom. unfold fresh_fd. intros Hf.
  apply (is_fresh (set_map Z.to_nat (dom f) : gset nat)). apply elem_of_map.
  eexists. split; [|exact Hf]. by rewrite Nat2Z.id.
Qed.

Lemma pin_in n : is_pin n -> In n all_pins.
Proof. intros Hn. apply in_map_iff. exists (Z.to_nat n). rewrite in_seq. unfold is_pin in Hn. lia. Qed.

Definition known (n : Z) : bool :=
  match classify (pin_file n "direction"), classify (pin_file n "value"), number_of (chars (pretty n) ++ [0]) with
  | Some (FDirection a), Some (FValue b), Some c => (a =? n) && (b =? n) && (c =? n)
  | _, _, _ => false
  end.

Lemma all_known : forallb known all_pins = true.
Proof. by vm_compute. Qed.

Lemma pin_known n : is_pin n ->
  classify (pin_file n "direction") = Some (FDirection n) /\ classify (pin_file n "value") = Some (FValue n) /\
  number_of (chars (pretty n) ++ [0]) = Some n.
Proof.
  intros Hn. pose proof (proj1 (forallb_forall _ _) all_known n (pin_in n Hn)) as Hk. unfold known in Hk.
  destruct (classify (pin_file n "direction")) as [[|a|]|], (classify (pin_file n "value")) as [[| |b]|],
    (number_of (chars (pretty n) ++ [0])) as [c|]; try done.
  apply andb_prop in Hk as [[Ha Hb]%andb_prop Hc]. by apply Z.eqb_eq in Ha as ->, Hb as ->, Hc as ->.
Qed.

Lemma present_pin n leaf v : is_pin n -> leaf = "direction"%string \/ leaf = "value"%string ->
  present_file (pin_file n leaf) v = bool_decide (n ∈ exported v).
Proof. intros Hn Hl. destruct (pin_known n Hn) as (Hd & Hv & _). unfold present_file. destruct Hl as [->| ->]; by rewrite ?Hd, ?Hv. Qed.

#[local] Instance kernel_gpio : SysGpio pins.
Proof.
  refine {| view v := v |}.
  - intros v n leaf Hn Hl. exists v. split; [|done]. unfold runs. cbn [sys_stat kernel_files].
    rewrite present_pin by done. by rewrite decide_bool_decide.
  - intros v. eexists _, _. split; [done|]. split; [apply Nat2Z.is_nonneg|]. split; [apply fresh_fd_fresh|done].
  - intros v n leaf mode Hn Hl He. eexists _, _. split; [|split; [|split]].
    + unfold runs. cbn [sys_open kernel_files]. rewrite present_pin, bool_decide_eq_true_2 by done. done.
    + apply Nat2Z.is_nonneg.
    + apply fresh_fd_fresh.
    + done.
  - intros v n leaf mode Hn Hl He. exists v. split; [|done]. unfold runs. cbn [sys_open kernel_files].
    by rewrite present_pin, bool_decide_eq_false_2.
  - intros v fd n Hn Hf. eexists _, _. split; [done|]. rewrite (file_of_path _ _ _ Hf). destruct (pin_known n Hn) as (_ & _ & Hk).
    change (classify GPIOEX) with (Some FExport). cbn iota. by rewrite Hk.
  - intros v fd n level Hn Hf. eexists _, _. split; [done|]. rewrite (file_of_path _ _ _ Hf). destruct (pin_known n Hn) as (Hk & _).
    rewrite Hk. by destruct level.
  - intros v fd n Hn Hf. exists (from_option id false (last_level n (drove v))), v. split; [|split; [done|]].
    + unfold runs. cbn [sys_read kernel_files]. rewrite (file_of_path _ _ _ Hf). destruct (pin_known n Hn) as (_ & Hk & _).
      by rewrite Hk.
    + by destruct (last_level n (drove v)).
  - intros v fd Hf. by eexists _, _.
Defined.

(** The rails and the pins of the cards are there, the lamps not yet, and another driver
has pin 155. *)
Definition booted : pins := mk_pins (list_to_set [99; 100; 101]) (list_to_set (List.remove Z.eq_dec 155 all_pins)) [] ∅.

Definition board_tool : tool pins toy := mk_tool booted (mk_i2c (mk_toy None 0 (fun _ _ => [])) 0 0 []) [].

Lemma fmc_switches_witness :
  exists s, runs (rhino_fmc 0 ["0"%string] [(101, "3"%string)] []) board_tool 0 s /\
    drove (t_sys s) = [(100, true); (143, true); (103, true); (102, true)] /\ fds (t_sys s) = ∅ /\
    t_out s = [("FMC %d powered on\n"%string, [DNum 0])].
Proof.
  destruct (fmc_switches (C := toy) 0 0 3 "0" "3" [] [] booted) as [Hv _]; [by vm_compute|by left|by vm_compute|lia|].
  destruct Hv as (Hon & _ & _); [by apply (bool_decide_unpack _); vm_compute|].
  destruct (Hon board_tool eq_refl) as (s & Hr & Hs & _ & Ho). cbn [view kernel_gpio] in Hs. exists s.
  split; [exact Hr|]. rewrite Hs, Ho. split_and!; vm_compute; reflexivity.
Defined.

(** One address pin of card 1 belongs to another driver: the tool fails. *)
Example address_fails :
  match rhino_fmc 0 ["1"%string] [(97, "2"%string)] [] board_tool with
  | Ok (r, s) => r = 1 /\ drove (t_sys s) = [] /\ t_out s = []
  | Fault _ => False
  end.
Proof. by vm_compute. Qed.

Lemma rails_switched_witness :
  exists s, runs (rhino_pwr 0 false false false false true ["on"%string]) board_tool 0 s /\
    drove (t_sys s) = [(99, true); (100, true); (101, true)] /\ fds (t_sys s) = ∅ /\
    t_out s = [("FPGA_VCCINT   : %s\n"%string, [DText "on"]); ("FPGA_VCCO_AUX : %s\n"%string, [DText "on"]);
               ("FPGA_VCCMGT   : %s\n"%string, [DText "on"])].
Proof.
  destruct (rails_switched (C := toy) 0 false false false false true true [] booted) as [Hv _].
  destruct (Hv ltac:(by apply (bool_decide_unpack _); vm_compute) board_tool eq_refl) as (s & Hr & Hs & _ & Ho). cbn [view kernel_gpio] in Hs.
  exists s. split; [exact Hr|]. rewrite Hs, Ho. split_and!; vm_compute; reflexivity.
Defined.

Lemma lamps_follow_witness :
  exists s, runs (rhino_led ["1"%string; "off"%string]) board_tool 0 s /\
    drove (t_sys s) = [(130, false)] /\ fds (t_sys s) = ∅ /\ 131 ∈ exported (t_sys s).
Proof.
  pose proof (lamps_follow (C := toy) "1" false booted) as Hl. change (lamp_pin "1") with (Some 130) in Hl. cbv zeta iota in Hl.
  rewrite decide_True in Hl by (apply (bool_decide_unpack _); vm_compute; exact I).
  rewrite decide_True in Hl by (apply (bool_decide_unpack _); vm_compute; exact I).
  destruct (Hl board_tool eq_refl) as (s & Hr & Hs & _). cbn [view kernel_gpio] in Hs.
  exists s. split; [exact Hr|]. rewrite Hs. split; [vm_compute; reflexivity|]. split; [vm_compute; reflexivity|].
  apply (bool_decide_unpack _). vm_compute. exact I.
Defined.

(** ** The monitor *)
#[local] Instance kernel_process : Process pins := {
  p_fork := mret 0; p_umask _ := mret 0; p_setsid := mret 0; p_chdir _ := mret 0; p_close _ := mret 0;
  p_fopen _ _ := mret true; p_sleep _ := mret 0;
}.

Definition monitored : tool pins toy := mk_tool booted toy_off [].

