(* ===== verification/Mtd.v ===== *)
(** * The flash partitions of Linux

[src/borph/drivers/mtd/mtdpart.c]: the table of partitions that a board gives
becomes slave devices of the flash ([allocate_partition], [add_mtd_partitions]),
partitions are added and removed one by one ([mtd_add_partition],
[mtd_del_partition], [del_mtd_partitions]), and the methods of a slave translate
its addresses ([part_read] to [part_block_markbad]).  [add_mtd_device] and
[del_mtd_device] are those of [src/borph/drivers/mtd/mtdcore.c], the choice
between the table of the command line and the table of the board is the end of
[omap_nand_probe] in [src/borph/drivers/mtd/nand/omap2.c].

The flash chip is the class [Flash]; [FlashOk] adds what its operations do to the
bytes of the chip.  Messages on the kernel log are values of [mtd_line]. *)
From stdpp Require Import base list strings.
From S2P Require Import Prelude.
From Stdlib Require Import ZArith Lia.

(** ** Constants *)
Definition EINVAL : Z := 22.
Definition EROFS : Z := 30.
Definition ENOMEM : Z := 12.
Definition EBUSY : Z := 16.
Definition ENODEV : Z := 19.
Definition EUCLEAN : Z := 117.
Definition EBADMSG : Z := 74.
Definition MTD_WRITEABLE : Z := 0x400.
Definition MTD_POWERUP_LOCK : Z := 0x2000.
Definition MTDPART_OFS_NXTBLK : Z := 2 ^ 64 - 2.
Definition MTDPART_OFS_APPEND : Z := 2 ^ 64 - 1.
Definition MTDPART_SIZ_FULL : Z := 0.
Definition MTD_FAIL_ADDR_UNKNOWN : Z := 2 ^ 64 - 1.

(** ** Data *)

(** The optional methods of a device: which of the pointers are set. *)
Record methods : Type := mk_methods {
  h_panic_write : bool; h_point : bool; h_unpoint : bool; h_get_unmapped_area : bool;
  h_read_oob : bool; h_write_oob : bool; h_read_user_prot_reg : bool;
  h_read_fact_prot_reg : bool; h_write_user_prot_reg : bool; h_lock_user_prot_reg : bool;
  h_get_user_prot_info : bool; h_get_fact_prot_info : bool; h_sync : bool;
  h_suspend : bool; h_resume : bool; h_writev : bool; h_lock : bool; h_unlock : bool;
  h_is_locked : bool; h_block_isbad : bool; h_block_markbad : bool;
}.

Record mtd_info : Type := mk_mtd {
  type : Z; flags : Z; mtd_size : Z; erasesize : Z; writesize : Z; oobsize : Z; oobavail : Z;
  erasesize_shift : Z; erasesize_mask : Z; subpage_sft : Z; mtd_name : string; index : Z;
  (** offset and erase size of each region, as many as [numeraseregions] *)
  eraseregions : list (Z * Z);
  has : methods; dev_class : bool;
  corrected : Z; failed : Z; badblocks : Z; usecount : Z;
}.

(** A device with its address, which identifies it. *)
Record mtd_dev : Type := mk_dev { ptr : Z; info : mtd_info }.

Record mtd_partition : Type := mk_partition {
  pt_name : string; pt_size : Z; pt_offset : Z; pt_mask_flags : Z;
}.

(** The slave: its device, the address of its master and where it starts. *)
Record mtd_part : Type := mk_part { mtd : mtd_dev; master : Z; offset : Z }.

Record erase_info : Type := mk_erase { addr : Z; elen : Z; fail_addr : Z; called : Z }.

Record oob_ops : Type := mk_oob {
  o_len : Z; o_ooblen : Z; o_ooboffs : Z; datbuf : option (list Z); oobbuf : option (list Z);
}.

Inductive mtd_line : Type :=
| Creating (n : Z) (name : string)
| AllocationError (name : string)
| Moving (partno from to : Z)
| Range (from to : Z) (name : string)
| OutOfReach (name : string)
| Truncated (name : string) (size : Z)
| NotStartAligned (name : string)
| NotEndAligned (name : string)
| UnlockFailed (name : string)
| BusyRemoved (idx : Z).

Definition set_index (i : Z) (m : mtd_info) : mtd_info :=
  mk_mtd (type m) (flags m) (mtd_size m) (erasesize m) (writesize m) (oobsize m) (oobavail m)
    (erasesize_shift m) (erasesize_mask m) (subpage_sft m) (mtd_name m) i (eraseregions m)
    (has m) (dev_class m) (corrected m) (failed m) (badblocks m) 0.
Definition set_shift (sh mk : Z) (m : mtd_info) : mtd_info :=
  mk_mtd (type m) (flags m) (mtd_size m) (erasesize m) (writesize m) (oobsize m) (oobavail m)
    sh mk (subpage_sft m) (mtd_name m) (index m) (eraseregions m)
    (has m) (dev_class m) (corrected m) (failed m) (badblocks m) (usecount m).
Definition set_class (m : mtd_info) : mtd_info :=
  mk_mtd (type m) (flags m) (mtd_size m) (erasesize m) (writesize m) (oobsize m) (oobavail m)
    (erasesize_shift m) (erasesize_mask m) (subpage_sft m) (mtd_name m) (index m) (eraseregions m)
    (has m) true (corrected m) (failed m) (badblocks m) (usecount m).
Definition set_stats (c f b : Z) (m : mtd_info) : mtd_info :=
  mk_mtd (type m) (flags m) (mtd_size m) (erasesize m) (writesize m) (oobsize m) (oobavail m)
    (erasesize_shift m) (erasesize_mask m) (subpage_sft m) (mtd_name m) (index m) (eraseregions m)
    (has m) (dev_class m) c f b (usecount m).
Definition part_stats (c f b : Z) (p : mtd_part) : mtd_part :=
  mk_part (mk_dev (ptr (mtd p)) (set_stats c f b (info (mtd p)))) (master p) (offset p).

Abbreviation minfo p := (info (mtd p)).

(** ** The flash *)
Class Flash (S : Type) : Type := {
  (** [from], [len], [*retlen]; result, [*retlen], the bytes stored in the buffer *)
  fl_read : Z -> Z -> Z -> S -> Z * Z * list Z * S;
  fl_write : Z -> list Z -> Z -> S -> Z * Z * S;
  fl_panic_write : Z -> list Z -> Z -> S -> Z * Z * S;
  fl_writev : Z -> list (list Z) -> Z -> S -> Z * Z * S;
  fl_read_oob : Z -> oob_ops -> S -> Z * oob_ops * S;
  fl_write_oob : Z -> oob_ops -> S -> Z * oob_ops * S;
  (** the erase itself, before the caller is called back *)
  fl_erase : erase_info -> S -> Z * erase_info * S;
  fl_lock : Z -> Z -> S -> Z * S;
  fl_unlock : Z -> Z -> S -> Z * S;
  fl_is_locked : Z -> Z -> S -> Z * S;
  fl_isbad : Z -> S -> Z;
  fl_markbad : Z -> S -> Z * S;
  (** the error counters of the master *)
  fl_corrected : S -> Z;
  fl_failed : S -> Z;
}.

(** ** The methods of a slave *)

(** [sz >> shift] or [do_div] *)
Definition mtd_div_by_eb (sz : Z) (m : mtd_info) : res Z :=
  if truthy (erasesize_shift m) then Ok (u32 (Z.shiftr sz (erasesize_shift m)))
  else if erasesize m =? 0 then Fault DivByZero else Ok (u32 (sz / erasesize m)).

Definition mtd_mod_by_eb (sz : Z) (m : mtd_info) : res Z :=
  if truthy (erasesize_shift m) then Ok (u32 (Z.land sz (erasesize_mask m)))
  else if erasesize m =? 0 then Fault DivByZero else Ok (sz mod erasesize m).

(** The length that is left of [len] at [from] in a device of [size] bytes. *)
Definition clip (size from len : Z) : Z :=
  if size <=? u64 from then 0
  else if size <? u64 (from + len) then u32 (size - from)
  else len.

Definition writeable (m : mtd_info) : bool := truthy (Z.land (flags m) MTD_WRITEABLE).

Section Slave.
  Context {S : Type} {F : Flash S}.

Definition part_read (p : mtd_part) (from len retlen : Z) (s : S)
  : Z * Z * list Z * mtd_part * S :=
  let '(r, n, bs, s') := fl_read (s64 (from + offset p)) (clip (mtd_size (minfo p)) from len) retlen s in
  let m := minfo p in
  let c := if r =? - EUCLEAN then u32 (corrected m + (fl_corrected s' - fl_corrected s)) else corrected m in
  let f := if r =? - EBADMSG then u32 (failed m + (fl_failed s' - fl_failed s)) else failed m in
  (r, n, bs, if truthy r then part_stats c f (badblocks m) p else p, s').

Definition part_read_oob (p : mtd_part) (from : Z) (ops : oob_ops) (s : S)
  : Z * oob_ops * mtd_part * S :=
  let m := minfo p in
  if mtd_size m <=? u64 from then (- EINVAL, ops, p, s)
  else if bool_decide (is_Some (datbuf ops)) && (mtd_size m <? u64 (from + o_len ops))
  then (- EINVAL, ops, p, s)
  else
    let '(r, ops', s') := fl_read_oob (s64 (from + offset p)) ops s in
    let c := if r =? - EUCLEAN then u32 (corrected m + 1) else corrected m in
    let f := if r =? - EBADMSG then u32 (failed m + 1) else failed m in
    (r, ops', if truthy r then part_stats c f (badblocks m) p else p, s').

Definition part_write (p : mtd_part) (to : Z) (buf : list Z) (retlen : Z) (s : S) : Z * Z * S :=
  let m := minfo p in
  if negb (writeable m) then (- EROFS, retlen, s)
  else
    let len := clip (mtd_size m) to (zlen buf) in
    fl_write (s64 (to + offset p)) (slice 0 len buf) retlen s.

Definition part_panic_write (p : mtd_part) (to : Z) (buf : list Z) (retlen : Z) (s : S) : Z * Z * S :=
  let m := minfo p in
  if negb (writeable m) then (- EROFS, retlen, s)
  else
    let len := clip (mtd_size m) to (zlen buf) in
    fl_panic_write (s64 (to + offset p)) (slice 0 len buf) retlen s.

Definition part_write_oob (p : mtd_part) (to : Z) (ops : oob_ops) (s : S) : Z * oob_ops * S :=
  let m := minfo p in
  if negb (writeable m) then (- EROFS, ops, s)
  else if mtd_size m <=? u64 to then (- EINVAL, ops, s)
  else if bool_decide (is_Some (datbuf ops)) && (mtd_size m <? u64 (to + o_len ops))
  then (- EINVAL, ops, s)
  else fl_write_oob (s64 (to + offset p)) ops s.

Definition part_writev (p : mtd_part) (vecs : list (list Z)) (to retlen : Z) (s : S) : Z * Z * S :=
  if negb (writeable (minfo p)) then (- EROFS, retlen, s)
  else fl_writev (s64 (to + offset p)) vecs retlen s.

(** Addresses of the master become addresses of the partition again. *)
Definition relative (p : mtd_part) (e : erase_info) : erase_info :=
  mk_erase (u64 (addr e - offset p)) (elen e)
    (if fail_addr e =? MTD_FAIL_ADDR_UNKNOWN then fail_addr e else u64 (fail_addr e - offset p)) (called e).

Definition mtd_erase_callback (p : mtd_part) (e : erase_info) : erase_info :=
  let e := relative p e in
  mk_erase (addr e) (elen e) (fail_addr e) (called e + 1).

(** The erase method of a NAND flash calls back when it succeeds. *)
Definition nand_erase (p : mtd_part) (e : erase_info) (s : S) : Z * erase_info * S :=
  let '(ret, e', s') := fl_erase e s in
  (ret, if ret =? 0 then mtd_erase_callback p e' else e', s').

Definition part_erase (p : mtd_part) (e : erase_info) (s : S) : Z * erase_info * S :=
  let m := minfo p in
  if negb (writeable m) then (- EROFS, e, s)
  else if mtd_size m <=? addr e then (- EINVAL, e, s)
  else
    let '(ret, e', s') := nand_erase p (mk_erase (u64 (addr e + offset p)) (elen e) (fail_addr e) (called e)) s in
    (ret, if truthy ret then relative p e' else e', s').

Definition part_lock (p : mtd_part) (ofs len : Z) (s : S) : Z * S :=
  if mtd_size (minfo p) <? u64 (len + ofs) then (- EINVAL, s) else fl_lock (s64 (ofs + offset p)) len s.

Definition part_unlock (p : mtd_part) (ofs len : Z) (s : S) : Z * S :=
  if mtd_size (minfo p) <? u64 (len + ofs) then (- EINVAL, s) else fl_unlock (s64 (ofs + offset p)) len s.

Definition part_is_locked (p : mtd_part) (ofs len : Z) (s : S) : Z * S :=
  if mtd_size (minfo p) <? u64 (len + ofs) then (- EINVAL, s) else fl_is_locked (s64 (ofs + offset p)) len s.

Definition part_block_isbad (p : mtd_part) (ofs : Z) (s : S) : Z :=
  if mtd_size (minfo p) <=? u64 ofs then - EINVAL else fl_isbad (s64 (ofs + offset p)) s.

Definition part_block_markbad (p : mtd_part) (ofs : Z) (s : S) : Z * mtd_part * S :=
  let m := minfo p in
  if negb (writeable m) then (- EROFS, p, s)
  else if mtd_size m <=? u64 ofs then (- EINVAL, p, s)
  else
    let '(r, s') := fl_markbad (s64 (ofs + offset p)) s in
    (r, if truthy r then p else part_stats (corrected m) (failed m) (u32 (badblocks m + 1)) p, s').

End Slave.

(** ** The partitions *)

(** The list of partitions, newest first, the devices registered under an index,
the next address of an allocation, the objects that are allocated and the log. *)
Record layer (S : Type) : Type := mk_layer {
  flash : S; parts : list mtd_part; idr : list (Z * Z); next : Z; live : Z; log : list mtd_line;
}.
Arguments mk_layer {S}.
Arguments flash {S}.
Arguments parts {S}.
Arguments idr {S}.
Arguments next {S}.
Arguments live {S}.
Arguments log {S}.

Definition lift {S A} (r : res A) : M S A := fun s =>
  match r with Ok a => Ok (a, s) | Fault f => Fault f end.

(** The methods that the slave gets. *)
Definition slave_methods (m : mtd_info) (partno : Z) : methods :=
  let h := has m in
  let pt := h_point h && h_unpoint h in
  let pm := (partno =? 0) && negb (dev_class m) && h_suspend h && h_resume h in
  mk_methods (h_panic_write h) pt pt (h_get_unmapped_area h) (h_read_oob h) (h_write_oob h)
    (h_read_user_prot_reg h) (h_read_fact_prot_reg h) (h_write_user_prot_reg h)
    (h_lock_user_prot_reg h) (h_get_user_prot_info h) (h_get_fact_prot_info h) (h_sync h)
    pm pm (h_writev h) (h_lock h) (h_unlock h) (h_is_locked h) (h_block_isbad h) (h_block_markbad h).

(** The regions from the one that holds [ofs] on. *)
Fixpoint regions_upto (ofs : Z) (rs : list (Z * Z)) : nat :=
  match rs with
  | (o, _) :: rs => if o <=? ofs then Datatypes.S (regions_upto ofs rs) else 0
  | [] => 0
  end.

Fixpoint biggest (stop : Z) (rs : list (Z * Z)) (es : Z) : Z :=
  match rs with
  | (o, e) :: rs => if o <? stop then biggest stop rs (if es <? e then e else es) else es
  | [] => es
  end.

Definition slave_erasesize (m : mtd_info) (ofs size : Z) : res Z :=
  if 1 <? zlen (eraseregions m) then
    let es := biggest (u64 (ofs + size)) (drop (pred (regions_upto ofs (eraseregions m))) (eraseregions m)) 0 in
    if es =? 0 then Fault Bug else Ok es
  else Ok (erasesize m).

Section Table.
  Context {S : Type} {F : Flash S}.
  (** do [kzalloc] and [kstrdup] succeed for this partition number *)
  Variable kalloc : Z -> bool * bool.
  (** the index that [idr_get_new] finds *)
  Variable idr_new : list (Z * Z) -> option Z.
  (** does [device_register] succeed *)
  Variable device_ok : Z -> bool.

Definition say (l : mtd_line) : M (layer S) unit := mmodify (fun s =>
  mk_layer (flash s) (parts s) (idr s) (next s) (live s) (log s ++ [l])).

Definition say_if (b : bool) (l : mtd_line) : M (layer S) unit := if b then say l else mret tt.

Definition set_parts (ps : list mtd_part) : M (layer S) unit := mmodify (fun s =>
  mk_layer (flash s) ps (idr s) (next s) (live s) (log s)).

Definition set_idr (i : list (Z * Z)) : M (layer S) unit := mmodify (fun s =>
  mk_layer (flash s) (parts s) i (next s) (live s) (log s)).

(** A new object has the next address. *)
Definition kmalloc (n : Z) : M (layer S) Z := fun s =>
  Ok (next s, mk_layer (flash s) (parts s) (idr s) (next s + 1) (live s + n) (log s)).

Definition free_partition : M (layer S) unit := mmodify (fun s =>
  mk_layer (flash s) (parts s) (idr s) (next s) (live s - 2) (log s)).

(** Where the slave starts. *)
Definition slave_offset (m : mtd_info) (part : mtd_partition) (partno cur : Z) : M (layer S) Z :=
  let ofs := if pt_offset part =? MTDPART_OFS_APPEND then cur else pt_offset part in
  if ofs =? MTDPART_OFS_NXTBLK then
    let! r := lift (mtd_mod_by_eb cur m) in
    if truthy r then
      let! d := lift (mtd_div_by_eb cur m) in
      let to := u32 (u32 (d + 1) * erasesize m) in
      do! say (Moving partno cur to) in mret to
    else mret cur
  else mret ofs.

(** Counts the bad blocks of the slave. *)
Fixpoint bad_loop (fuel : nat) (size es base offs n : Z) : M (layer S) Z :=
  if offs <? size then
    match fuel with
    | O => mfault OutOfFuel
    | Datatypes.S fuel =>
        let! bad := mgets (fun s => fl_isbad (s64 (offs + base)) (flash s)) in
        bad_loop fuel size es base (u64 (offs + es)) (if truthy bad then u32 (n + 1) else n)
    end
  else mret n.

Definition count_bad (m : mtd_info) (size es base : Z) : M (layer S) Z :=
  if h_block_isbad (has m) then
    if (es =? 0) && (0 <? size) then mfault Hang
    else bad_loop (Z.to_nat (size / es + 1)) size es base 0 0
  else mret 0.

Definition unwriteable (fl : Z) : Z := Z.land fl (lnotu 32 MTD_WRITEABLE).

(** Is the slave still writable after the test of its boundary [at]. *)
Definition aligned (es fl at_ : Z) (l : mtd_line) : M (layer S) Z :=
  if truthy (Z.land fl MTD_WRITEABLE) then
    if es =? 0 then mfault DivByZero
    else if truthy (at_ mod es) then do! say l in mret (unwriteable fl) else mret fl
  else mret fl.

Definition new_slave (id : Z) (m : mtd_dev) (part : mtd_partition) (partno ofs size es fl bad : Z) : mtd_part :=
  let i := info m in
  mk_part (mk_dev id
    (mk_mtd (type i) fl size es (writesize i) (oobsize i) (oobavail i) 0 0 (subpage_sft i)
       (pt_name part) 0 [] (slave_methods i partno) false 0 0 bad 0)) (ptr m) ofs.

(** Sets up the device of the new slave at the address [id]. *)
Definition set_up_slave (id : Z) (m : mtd_dev) (part : mtd_partition) (partno cur : Z) : M (layer S) mtd_part :=
  let i := info m in
  let fl := Z.land (flags i) (lnotu 32 (pt_mask_flags part)) in
  let! ofs := slave_offset i part partno cur in
  let size := if pt_size part =? MTDPART_SIZ_FULL then u64 (mtd_size i - ofs) else pt_size part in
  do! say (Range ofs (u64 (ofs + size)) (pt_name part)) in
  if mtd_size i <=? ofs then
    do! say (OutOfReach (pt_name part)) in
    mret (new_slave id m part partno 0 0 0 fl 0)
  else
  let over := mtd_size i <? u64 (ofs + size) in
  let size := if over then u64 (mtd_size i - ofs) else size in
  do! say_if over (Truncated (pt_name part) size) in
  let! es := lift (slave_erasesize i ofs size) in
  let! fl := aligned es fl ofs (NotStartAligned (pt_name part)) in
  let! fl := aligned es fl size (NotEndAligned (pt_name part)) in
  let! bad := count_bad i size es ofs in
  mret (new_slave id m part partno ofs size es fl bad).

Definition allocate_partition (m : mtd_dev) (part : mtd_partition) (partno cur : Z)
  : M (layer S) (option mtd_part) :=
  let '(slave_ok, name_ok) := kalloc partno in
  if negb (name_ok && slave_ok) then
    do! say (AllocationError (mtd_name (info m))) in mret None
  else
    let! id := kmalloc 2 in
    let! p := set_up_slave id m part partno cur in
    mret (Some p).

Definition is_power_of_2 (n : Z) : bool := truthy n && (Z.land n (n - 1) =? 0).

(** Registers a slave: its index, the shift of its erase size, its lock. *)
Definition add_mtd_device (p : mtd_part) : M (layer S) mtd_part :=
  let m := minfo p in
  if writesize m =? 0 then mfault Bug
  else
  let! used := mgets idr in
  match idr_new used with
  | None => mret p
  | Some i =>
      do! set_idr ((i, ptr (mtd p)) :: used) in
      let sh := if is_power_of_2 (erasesize m) then Z.log2 (erasesize m) else 0 in
      let m := set_shift sh (Z.shiftl 1 sh - 1) (set_index i m) in
      let p := mk_part (mk_dev (ptr (mtd p)) m) (master p) (offset p) in
      do! (if writeable m && truthy (Z.land (flags m) MTD_POWERUP_LOCK) && h_unlock (has m) then
             let! r := (fun s : layer S =>
               let '(r, f) := part_unlock p 0 (mtd_size m) (flash s) in
               Ok (r, mk_layer f (parts s) (idr s) (next s) (live s) (log s))) in
             say_if (truthy r) (UnlockFailed (mtd_name m))
           else mret tt) in
      let p := mk_part (mk_dev (ptr (mtd p)) (set_class m)) (master p) (offset p) in
      do! (if device_ok i then mret tt else set_idr used) in
      mret p
  end.

(** Links a slave and registers it. *)
Definition link_slave (p : mtd_part) : M (layer S) unit :=
  let! p := add_mtd_device p in
  let! ps := mgets parts in
  set_parts (p :: ps).

Fixpoint add_loop (m : mtd_dev) (table : list mtd_partition) (i cur : Z) : M (layer S) Z :=
  match table with
  | [] => mret 0
  | part :: table =>
      let! r := allocate_partition m part i cur in
      match r with
      | None => mret (- ENOMEM)
      | Some p =>
          do! link_slave p in
          add_loop m table (i + 1) (u64 (offset p + mtd_size (minfo p)))
      end
  end.

Definition add_mtd_partitions (m : mtd_dev) (table : list mtd_partition) : M (layer S) Z :=
  do! say (Creating (zlen table) (mtd_name (info m))) in
  add_loop m table 0 0.

Definition overlaps (start stop : Z) (p : mtd_part) : bool :=
  let b := u64 (offset p + mtd_size (minfo p)) in
  ((offset p <=? start) && (start <? b)) || ((offset p <=? stop) && (stop <? b)).

Definition mtd_add_partition (m : mtd_dev) (name : string) (ofs length : Z) : M (layer S) Z :=
  if (ofs =? -1) || (ofs =? -2) then mret (- EINVAL)
  else
  let length := if length =? MTDPART_SIZ_FULL then s64 (mtd_size (info m) - ofs) else length in
  if length <=? 0 then mret (- EINVAL)
  else
  let! r := allocate_partition m (mk_partition name (u64 length) (u64 ofs) 0) (-1) (u64 ofs) in
  match r with
  | None => mret (- ENOMEM)
  | Some p =>
      let! ps := mgets parts in
      if existsb (fun q => (master q =? ptr m) && overlaps (u64 ofs) (u64 (ofs + length)) q) ps then
        do! free_partition in mret (- EINVAL)
      else do! link_slave p in mret 0
  end.

(** Unregisters a slave unless somebody uses it. *)
Definition del_mtd_device (d : mtd_dev) : M (layer S) Z :=
  let! used := mgets idr in
  if bool_decide ((index (info d), ptr d) ∈ used) then
    if truthy (usecount (info d)) then
      do! say (BusyRemoved (index (info d))) in mret (- EBUSY)
    else
      do! set_idr (filter (fun x => x <> (index (info d), ptr d)) used) in mret 0
  else mret (- ENODEV).

Definition unlink (p : mtd_part) : M (layer S) unit :=
  let! ps := mgets parts in
  do! set_parts (filter (fun q => ptr (mtd q) <> ptr (mtd p)) ps) in
  free_partition.

Fixpoint del_loop (m : Z) (ps : list mtd_part) (err : Z) : M (layer S) Z :=
  match ps with
  | [] => mret err
  | p :: ps =>
      if master p =? m then
        let! ret := del_mtd_device (mtd p) in
        if ret <? 0 then del_loop m ps ret
        else do! unlink p in del_loop m ps err
      else del_loop m ps err
  end.

Definition del_mtd_partitions (m : mtd_dev) : M (layer S) Z :=
  let! ps := mgets parts in del_loop (ptr m) ps 0.

Fixpoint del_one (m partno : Z) (ps : list mtd_part) : M (layer S) Z :=
  match ps with
  | [] => mret (- EINVAL)
  | p :: ps =>
      if (master p =? m) && (index (minfo p) =? partno) then
        let! ret := del_mtd_device (mtd p) in
        if ret <? 0 then mret ret else do! unlink p in mret ret
      else del_one m partno ps
  end.

Definition mtd_del_partition (m : mtd_dev) (partno : Z) : M (layer S) Z :=
  let! ps := mgets parts in del_one (ptr m) partno ps.

(** The end of [omap_nand_probe]: what the command line gives, or else the table of
the board, or else the flash as one device; the device of the flash is returned. *)
Definition register_partitions (m : mtd_dev) (cmdline : Z * list mtd_partition)
    (board : option (list mtd_partition)) : M (layer S) mtd_dev :=
  let '(err, table) := cmdline in
  if 0 <? err then let! _ := add_mtd_partitions m (take (Z.to_nat err) table) in mret m
  else match board with
       | Some table => let! _ := add_mtd_partitions m table in mret m
       | None => let! p := add_mtd_device (mk_part m 0 0) in mret (mtd p)
       end.

End Table.

(** ** Where the slaves lie *)

(** What a slave promises to its users. *)
Record shape : Type := mk_shape {
  sh_name : string; sh_offset : Z; sh_size : Z; sh_flags : Z; sh_erasesize : Z; sh_master : Z;
}.

Definition shape_of (p : mtd_part) : shape :=
  mk_shape (mtd_name (minfo p)) (offset p) (mtd_size (minfo p)) (flags (minfo p))
    (erasesize (minfo p)) (master p).

Definition size_at (size cur : Z) (part : mtd_partition) : Z :=
  if pt_size part =? MTDPART_SIZ_FULL then size - cur else pt_size part.

(** Every entry is appended, or says where the one before ends, and has room. *)
Fixpoint fits (size cur : Z) (table : list mtd_partition) : Prop :=
  match table with
  | [] => True
  | part :: table =>
      (pt_offset part = MTDPART_OFS_APPEND \/ pt_offset part = cur) /\ 0 <= pt_size part /\ cur < size /\
      cur + size_at size cur part <= size /\ fits size (cur + size_at size cur part) table
  end.

(** The flags of a slave: those of the flash without the masked ones, and not
writable off the boundaries of the erase blocks. *)
Definition flags_at (m : mtd_info) (cur n : Z) (part : mtd_partition) : Z :=
  let fl := Z.land (flags m) (lnotu 32 (pt_mask_flags part)) in
  if truthy (Z.land fl MTD_WRITEABLE) &&
     (truthy (cur mod erasesize m) || truthy (n mod erasesize m))
  then unwriteable fl else fl.

Definition shape_at (m : mtd_dev) (cur : Z) (part : mtd_partition) : shape :=
  let n := size_at (mtd_size (info m)) cur part in
  mk_shape (pt_name part) cur n (flags_at (info m) cur n part) (erasesize (info m)) (ptr m).

Fixpoint layout (m : mtd_dev) (cur : Z) (table : list mtd_partition) : list shape :=
  match table with
  | [] => []
  | part :: table => shape_at m cur part :: layout m (cur + size_at (mtd_size (info m)) cur part) table
  end.

(** Neighbours without a gap from [cur] to [stop]. *)
Fixpoint tiles (cur stop : Z) (l : list shape) : Prop :=
  match l with
  | [] => cur = stop
  | h :: l => sh_offset h = cur /\ 0 < sh_size h /\ tiles (cur + sh_size h) stop l
  end.

(** A flash whose slaves get one erase size, and that nothing unlocks. *)
Record plain (m : mtd_dev) : Prop := {
  plain_size : 0 < mtd_size (info m) < 2 ^ 63;
  plain_erasesize : 0 < erasesize (info m) < 2 ^ 32;
  plain_regions : eraseregions (info m) = [];
  plain_writesize : 0 < writesize (info m);
  plain_unlock : h_unlock (has (info m)) = false;
}.

Lemma tiles_le cur stop l : tiles cur stop l -> cur <= stop.
Proof.
  revert cur; induction l as [|h l IH]; intros cur; cbn [tiles]; [lia|].
  intros (_ & Hn & Ht). specialize (IH _ Ht). lia.
Qed.

Lemma tiles_in cur stop l h : tiles cur stop l -> h ∈ l ->
  cur <= sh_offset h /\ 0 < sh_size h /\ sh_offset h + sh_size h <= stop.
Proof.
  revert cur; induction l as [|g l IH]; intros cur; cbn [tiles]; [by intros _ ?%elem_of_nil|].
  intros (Ho & Hn & Ht) [-> | Hin]%elem_of_cons.
  - pose proof (tiles_le _ _ _ Ht). lia.
  - destruct (IH _ Ht Hin). lia.
Qed.

Definition apart (g h : shape) : Prop :=
  sh_offset g + sh_size g <= sh_offset h \/ sh_offset h + sh_size h <= sh_offset g.

Lemma tiles_apart cur stop l i j g h :
  tiles cur stop l -> l !! i = Some g -> l !! j = Some h -> i <> j -> apart g h.
Proof.
  revert cur i j; induction l as [|x l IH]; intros cur i j; cbn [tiles]; [done|].
  intros (Ho & Hn & Ht) Hi Hj Hij. destruct i as [|i], j as [|j]; cbn in Hi, Hj; [done|..].
  - injection Hi as <-. pose proof (tiles_in _ _ _ _ Ht (list_elem_of_lookup_2 _ _ _ Hj)). unfold apart. lia.
  - injection Hj as <-. pose proof (tiles_in _ _ _ _ Ht (list_elem_of_lookup_2 _ _ _ Hi)). unfold apart. lia.
  - eapply IH; eauto.
Qed.

Lemma tiles_covers cur stop l a : tiles cur stop l -> cur <= a < stop ->
  exists h, h ∈ l /\ sh_offset h <= a < sh_offset h + sh_size h.
Proof.
  revert cur; induction l as [|x l IH]; intros cur; cbn [tiles]; [lia|].
  intros (Ho & Hn & Ht) Ha. destruct (decide (a < cur + sh_size x)).
  - exists x. split; [left|lia].
  - destruct (IH _ Ht ltac:(lia)) as (h & Hh & ?). exists h. split; [by right|done].
Qed.

Lemma size_at_pos size cur part : 0 <= pt_size part -> cur < size -> 0 < size_at size cur part.
Proof. unfold size_at, MTDPART_SIZ_FULL. zcase; lia. Qed.

Lemma layout_tiles m cur table : fits (mtd_size (info m)) cur table -> cur <= mtd_size (info m) ->
  exists stop, tiles cur stop (layout m cur table) /\ stop <= mtd_size (info m).
Proof.
  revert cur; induction table as [|part table IH]; intros cur; cbn [fits layout tiles]; [eauto|].
  intros (_ & Hp & Hc & Hle & Hf) _. destruct (IH _ Hf Hle) as (stop & Ht & Hs).
  exists stop. cbn. repeat split; [by apply size_at_pos|done|done].
Qed.

(** ** The table becomes slaves *)
Section TableFacts.
  Context {S : Type} {F : Flash S}.
  Variable kalloc : Z -> bool * bool.
  Variable idr_new : list (Z * Z) -> option Z.
  Variable device_ok : Z -> bool.

(** Two states that differ in the log and in the objects allocated. *)
Definition same_but (n k : Z) (s s' : layer S) : Prop :=
  flash s' = flash s /\ parts s' = parts s /\ idr s' = idr s /\ next s' = next s + n /\ live s' = live s + k.

Lemma same_but_refl s : same_but 0 0 s s.
Proof. unfold same_but. repeat split; lia. Qed.

Lemma same_but_trans n k n' k' s1 s2 s3 : same_but n k s1 s2 -> same_but n' k' s2 s3 -> same_but (n + n') (k + k') s1 s3.
Proof. intros (H1 & H2 & H3 & H4 & H5) (G1 & G2 & G3 & G4 & G5). unfold same_but. repeat split; first [congruence|lia]. Qed.

(** [m] returns a value with [Q] and only writes to the log. *)
Definition logs {A} (m : M (layer S) A) (s : layer S) (Q : A -> Prop) : Prop :=
  exists a s', runs m s a s' /\ same_but 0 0 s s' /\ Q a.

Lemma logs_ret {A} (a : A) s (Q : A -> Prop) : Q a -> logs (mret a) s Q.
Proof. exists a, s. split; [apply runs_ret|]. split; [apply same_but_refl|done]. Qed.

Lemma logs_say l s : logs (say l) s (fun _ => True).
Proof. eexists _, _. split; [apply runs_modify|]. unfold same_but. cbn. repeat split; lia. Qed.

Lemma logs_say_if b l s : logs (say_if b l) s (fun _ => True).
Proof. destruct b; [apply logs_say|by apply logs_ret]. Qed.

Lemma logs_bind {A B} (m : M (layer S) A) (k : A -> M (layer S) B) s (Q : A -> Prop) (R : B -> Prop) :
  logs m s Q -> (forall a s', Q a -> logs (k a) s' R) -> logs (mbind m k) s R.
Proof.
  intros (a & s1 & H1 & E1 & Ha) H. destruct (H a s1 Ha) as (b & s2 & H2 & E2 & Hb).
  exists b, s2. split; [by eapply runs_bind|]. split; [apply (same_but_trans 0 0 0 0 _ _ _ E1 E2)|done].
Qed.

Lemma logs_aligned es fl at_ l s : 0 < es -> logs (aligned es fl at_ l) s (fun x => x =
  if truthy (Z.land fl MTD_WRITEABLE) && truthy (at_ mod es) then unwriteable fl else fl).
Proof.
  intros He. unfold aligned. rewrite (proj2 (Z.eqb_neq es 0)) by lia.
  destruct (truthy (Z.land fl _)); cbn [andb]; [|by apply logs_ret].
  destruct (truthy (at_ mod es)); [|by apply logs_ret].
  eapply logs_bind; [apply logs_say|]. intros. by apply logs_ret.
Qed.

Lemma logs_bad_loop fuel size es base offs n s :
  0 < es -> 0 <= offs -> 0 <= size < 2 ^ 63 -> es < 2 ^ 32 -> size - offs <= Z.of_nat fuel * es ->
  logs (bad_loop fuel size es base offs n) s (fun _ => True).
Proof.
  intros He Ho Hs He2. revert offs n Ho. induction fuel as [|fuel IH]; intros offs n Ho Hf.
  - unfold bad_loop. rewrite (proj2 (Z.ltb_ge _ _)) by lia. by apply logs_ret.
  - cbn [bad_loop]. destruct (Z.ltb_spec offs size); [|by apply logs_ret].
    rewrite (wrapu_small 64 (offs + es)) by lia.
    destruct (IH (offs + es) (if truthy (fl_isbad (s64 (offs + base)) (flash s)) then u32 (n + 1) else n)
      ltac:(lia) ltac:(lia)) as (k & s' & Hr & E).
    exists k, s'. split; [|done]. eapply runs_bind; [apply runs_gets|exact Hr].
Qed.

Lemma logs_count_bad m size es base s : 0 < es < 2 ^ 32 -> 0 <= size < 2 ^ 63 ->
  logs (count_bad m size es base) s (fun _ => True).
Proof.
  intros He Hs. unfold count_bad. destruct (h_block_isbad _); [|by apply logs_ret].
  rewrite (proj2 (Z.eqb_neq es 0)) by lia. cbn [andb]. apply logs_bad_loop; try lia.
  rewrite Z2Nat.id by (pose proof (Z.div_pos size es); lia).
  pose proof (Z.div_mod size es). pose proof (Z.mod_pos_bound size es). nia.
Qed.

Lemma flags_unwriteable fl : Z.land (unwriteable fl) MTD_WRITEABLE = 0.
Proof.
  unfold unwriteable. rewrite <- Z.land_assoc.
  replace (Z.land (lnotu 32 MTD_WRITEABLE) MTD_WRITEABLE) with 0 by reflexivity. apply Z.land_0_r.
Qed.

Lemma unwriteable_twice fl (a b : bool) :
  let fl1 := if truthy (Z.land fl MTD_WRITEABLE) && a then unwriteable fl else fl in
  (if truthy (Z.land fl1 MTD_WRITEABLE) && b then unwriteable fl1 else fl1) =
  if truthy (Z.land fl MTD_WRITEABLE) && (a || b) then unwriteable fl else fl.
Proof.
  cbn. destruct (truthy (Z.land fl MTD_WRITEABLE)) eqn:E, a, b; cbn [andb orb]; rewrite ?flags_unwriteable, ?E; reflexivity.
Qed.

(** A slave as its creation leaves it. *)
Definition fresh_slave (m : mtd_dev) (cur : Z) (part : mtd_partition) (id : Z) (p : mtd_part) : Prop :=
  shape_of p = shape_at m cur part /\ ptr (mtd p) = id /\
  writesize (minfo p) = writesize (info m) /\ h_unlock (has (minfo p)) = false /\
  (usecount (minfo p) = 0 /\ h_writev (has (minfo p)) = h_writev (has (info m))).

Lemma set_up_ok id m part i cur s :
  plain m -> 0 <= cur -> fits (mtd_size (info m)) cur [part] ->
  logs (set_up_slave id m part i cur) s (fresh_slave m cur part id).
Proof.
  intros [Hsz Hes Hreg Hws Hun] Hc (Hap & Hp & Hlt & Hle & _).
  pose proof (size_at_pos _ _ _ Hp Hlt) as Hn.
  assert (Hsize : (if pt_size part =? MTDPART_SIZ_FULL then u64 (mtd_size (info m) - cur) else pt_size part)
    = size_at (mtd_size (info m)) cur part).
  { unfold size_at. zcase; [apply wrapu_small; lia|done]. }
  unfold set_up_slave. eapply logs_bind with (Q := fun o => o = cur).
  { unfold slave_offset.
    assert ((if pt_offset part =? MTDPART_OFS_APPEND then cur else pt_offset part) = cur) as ->.
    { destruct Hap as [E | E]; rewrite E; [by rewrite Z.eqb_refl|]. by destruct (cur =? MTDPART_OFS_APPEND). }
    unfold MTDPART_OFS_NXTBLK. rewrite (proj2 (Z.eqb_neq _ _)) by lia. by apply logs_ret. }
  intros ? s1 ->. cbv zeta. rewrite Hsize. eapply logs_bind; [apply logs_say|]. intros _ s2 _.
  rewrite (proj2 (Z.leb_gt _ _)) by lia. rewrite wrapu_small by lia. rewrite (proj2 (Z.ltb_ge _ _)) by lia.
  eapply logs_bind; [apply logs_say_if|]. intros _ s3 _.
  eapply logs_bind with (Q := fun es => es = erasesize (info m)).
  { unfold slave_erasesize. rewrite Hreg. by apply logs_ret. }
  intros ? s4 ->. eapply logs_bind; [apply logs_aligned; lia|]. intros ? s5 ->.
  eapply logs_bind; [apply logs_aligned; lia|]. intros ? s6 ->.
  eapply logs_bind; [apply logs_count_bad; lia|]. intros bad s7 _. apply logs_ret.
  unfold fresh_slave, shape_of, shape_at, new_slave. cbn [mtd info ptr mtd_name offset mtd_size flags erasesize master
    writesize has usecount h_unlock h_writev slave_methods]. rewrite unwriteable_twice. done.
Qed.

(** The allocation of an appended entry with room. *)
Lemma allocate_ok m part i cur s :
  plain m -> kalloc i = (true, true) -> 0 <= cur -> fits (mtd_size (info m)) cur [part] ->
  exists p s', runs (allocate_partition kalloc m part i cur) s (Some p) s' /\ same_but 1 2 s s' /\
    fresh_slave m cur part (next s) p.
Proof.
  intros Hm Hk Hc Hf.
  destruct (set_up_ok (next s) m part i cur
    (mk_layer (flash s) (parts s) (idr s) (next s + 1) (live s + 2) (log s)) Hm Hc Hf) as (p & s' & Hr & E & Hp).
  exists p, s'. split; [|split; [|exact Hp]].
  - unfold allocate_partition. rewrite Hk. cbn [andb negb]. eapply runs_bind; [reflexivity|].
    eapply runs_bind; [exact Hr|]. apply runs_ret.
  - destruct E as (E1 & E2 & E3 & E4 & E5). cbn in *. unfold same_but. repeat split; first [done|lia].
Qed.

(** The slave is at the head of the list, registered when there is an index for it. *)
Lemma link_ok p s : 0 < writesize (minfo p) -> h_unlock (has (minfo p)) = false -> usecount (minfo p) = 0 ->
  exists p' s', runs (link_slave idr_new device_ok p) s tt s' /\
    flash s' = flash s /\ parts s' = p' :: parts s /\ next s' = next s /\ live s' = live s /\
    shape_of p' = shape_of p /\ ptr (mtd p') = ptr (mtd p) /\ usecount (minfo p') = 0 /\
    has (minfo p') = has (minfo p) /\
    (forall i, idr_new (idr s) = Some i -> device_ok i = true ->
       idr s' = (i, ptr (mtd p)) :: idr s /\ index (minfo p') = i).
Proof.
  intros Hw Hu Huse. unfold runs, link_slave, add_mtd_device, mbind, mgets, set_parts, set_idr, mmodify.
  rewrite (proj2 (Z.eqb_neq _ _)) by lia. destruct (idr_new (idr s)) as [i|].
  - cbn [has set_index set_shift writeable flags]. rewrite Hu, andb_false_r. cbn [mret].
    destruct (device_ok i) eqn:Hd; cbn [mret parts idr flash]; eexists _, _; (split; [reflexivity|]);
      cbn [flash parts next live idr]; repeat (split; [done|]); intros j [= <-] Hj; [done|congruence].
  - cbn [mret]. eexists _, _. split; [reflexivity|]. cbn. by repeat split.
Qed.

Lemma fits_cons size cur part table : fits size cur (part :: table) ->
  fits size cur [part] /\ fits size (cur + size_at size cur part) table /\ cur + size_at size cur part <= size.
Proof. cbn [fits]. intuition. Qed.

(** The indices and addresses of the slaves are those that the registry holds. *)
Definition registered (s : layer S) (ps : list mtd_part) (used : list (Z * Z)) : Prop :=
  idr s = ((fun p => (index (minfo p), ptr (mtd p))) <$> ps) ++ used.

Lemma add_loop_ok m table i cur s :
  plain m -> (forall j, kalloc j = (true, true)) -> 0 <= cur <= mtd_size (info m) ->
  fits (mtd_size (info m)) cur table ->
  exists ps s', runs (add_loop kalloc idr_new device_ok m table i cur) s 0 s' /\
    flash s' = flash s /\ parts s' = ps ++ parts s /\
    next s' = next s + zlen table /\ live s' = live s + 2 * zlen table /\
    shape_of <$> rev ps = layout m cur table /\
    ptr ∘ mtd <$> rev ps = seqZ (next s) (zlen table) /\
    Forall (fun p => usecount (minfo p) = 0 /\ h_writev (has (minfo p)) = h_writev (has (info m))) ps /\
    ((forall used, exists i, idr_new used = Some i) -> (forall i, device_ok i = true) ->
       registered s' ps (idr s)).
Proof.
  intros Hm Hk. revert i cur s. induction table as [|part table IH]; intros i cur s Hc Hf.
  { exists [], s. unfold registered. cbn. change (zlen (@nil mtd_partition)) with 0. cbn.
    repeat split; try done; try lia. }
  destruct (fits_cons _ _ _ _ Hf) as (Hf1 & Hf2 & Hle).
  destruct (allocate_ok m part i cur s Hm (Hk i) ltac:(lia) Hf1) as (p & s1 & Hr1 & (E1 & E2 & E3 & E4 & E5) & Hp).
  destruct Hp as (Hsh & Hid & Hw & Hu & Huse & Hwv).
  destruct (link_ok p s1) as (p' & s2 & Hr2 & G1 & G2 & G3 & G4 & Gsh & Gid & Guse & Ghas & Greg).
  { rewrite Hw. exact (plain_writesize _ Hm). }
  { done. }
  { done. }
  pose proof (size_at_pos (mtd_size (info m)) cur part ltac:(cbn in Hf1; tauto) ltac:(cbn in Hf1; tauto)) as Hn.
  assert (Hnext : u64 (offset p + mtd_size (minfo p)) = cur + size_at (mtd_size (info m)) cur part).
  { injection Hsh as _ -> -> _ _. apply wrapu_small. pose proof (plain_size _ Hm). lia. }
  destruct (IH (i + 1) (cur + size_at (mtd_size (info m)) cur part) s2 ltac:(lia) Hf2)
    as (ps & s3 & Hr3 & K1 & K2 & K3 & K4 & K5 & K6 & K7 & K8).
  exists (ps ++ [p']), s3. split.
  { cbn [add_loop]. eapply runs_bind; [exact Hr1|]. cbn match. eapply runs_bind; [exact Hr2|].
    rewrite Hnext. exact Hr3. }
  rewrite zlen_cons. pose proof (zlen_nonneg table) as Hz.
  repeat split; try congruence; try lia.
  - rewrite K2, G2, E2, <- app_assoc. done.
  - rewrite rev_unit. cbn [fmap list_fmap layout]. rewrite Gsh, Hsh. f_equal. exact K5.
  - rewrite rev_unit, (seqZ_cons (next s)) by lia. cbn [fmap list_fmap]. f_equal.
    + cbn. congruence.
    + replace (Z.pred (1 + zlen table)) with (zlen table) by lia.
      replace (Z.succ (next s)) with (next s2) by lia. exact K6.
  - apply Forall_app. split; [done|]. constructor; [|done]. by rewrite Ghas.
  - intros Hi Hd. unfold registered in *. rewrite (K8 Hi Hd), fmap_app, <- app_assoc. f_equal.
    destruct (Hi (idr s1)) as (j & Hj). destruct (Greg j Hj (Hd j)) as (-> & <-). cbn. by rewrite E3, Gid.
Qed.

End TableFacts.

(** ** Removal *)
Lemma filter_kept {A} (P : A -> Prop) `{!forall x, Decision (P x)} (l : list A) : Forall P l -> filter P l = l.
Proof. induction 1 as [|x l Hx Hl IH]; [done|]. rewrite filter_cons_True by done. by f_equal. Qed.

Lemma elem_of_rev {A} (l : list A) x : x ∈ rev l <-> x ∈ l.
Proof. rewrite !list_elem_of_In. symmetry. apply in_rev. Qed.

(** Addresses that the allocator has given out. *)
Definition wf {S} (s : layer S) : Prop :=
  Forall (fun p => ptr (mtd p) < next s) (parts s) /\ Forall (fun x => x.2 < next s) (idr s).

Section Removal.
  Context {S : Type} {F : Flash S}.

Lemma del_device_ok (d : mtd_dev) (s : layer S) used :
  idr s = (index (info d), ptr d) :: used -> usecount (info d) = 0 -> Forall (fun x => x.2 <> ptr d) used ->
  runs (del_mtd_device d) s 0 (mk_layer (flash s) (parts s) used (next s) (live s) (log s)).
Proof.
  intros Hi Hu Hf. unfold runs, del_mtd_device, mbind, mgets, set_idr, mmodify.
  rewrite bool_decide_true by (rewrite Hi; left). rewrite Hu. cbn [truthy Z.eqb negb mret].
  rewrite Hi, filter_cons_False by (intros H; by apply H). rewrite filter_kept; [done|].
  eapply Forall_impl; [exact Hf|]. intros x Hx ->. by apply Hx.
Qed.

Lemma unlink_ok (p : mtd_part) (s : layer S) ps :
  parts s = p :: ps -> Forall (fun q => ptr (mtd q) <> ptr (mtd p)) ps ->
  runs (unlink p) s tt (mk_layer (flash s) ps (idr s) (next s) (live s - 2) (log s)).
Proof.
  intros Hp Hf. unfold runs, unlink, mbind, mgets, set_parts, free_partition, mmodify. cbn.
  rewrite Hp, filter_cons_False by (intros H; by apply H). by rewrite filter_kept.
Qed.

Lemma del_loop_rest m ps err (s : layer S) : Forall (fun p => master p <> m) ps -> runs (del_loop m ps err) s err s.
Proof.
  induction 1 as [|p ps Hp Hps IH]; [apply runs_ret|]. cbn [del_loop].
  by rewrite (proj2 (Z.eqb_neq _ _)).
Qed.

(** The slaves of [m] at the head of the list and of the registry are removed. *)
Lemma del_loop_ok m ps rest used (s : layer S) :
  parts s = ps ++ rest -> registered s ps used ->
  Forall (fun p => master p = m /\ usecount (minfo p) = 0) ps -> Forall (fun p => master p <> m) rest ->
  NoDup (ptr ∘ mtd <$> (ps ++ rest)) -> (forall p x, p ∈ ps -> x ∈ used -> x.2 <> ptr (mtd p)) ->
  exists s', runs (del_loop m (ps ++ rest) 0) s 0 s' /\ flash s' = flash s /\ parts s' = rest /\
    idr s' = used /\ next s' = next s /\ live s' = live s - 2 * zlen ps.
Proof.
  unfold registered. revert s. induction ps as [|p ps IH]; intros s Hp Hi Hm Hr Hn Hu.
  { exists s. split; [by apply del_loop_rest|]. change (zlen (@nil mtd_part)) with 0. repeat split; [done|done|lia]. }
  apply Forall_cons in Hm as ((Hm1 & Hu1) & Hm). cbn in Hn. apply NoDup_cons in Hn as (Hn1 & Hn).
  assert (Hfp : Forall (fun q => ptr (mtd q) <> ptr (mtd p)) (ps ++ rest)).
  { apply Forall_forall. intros q Hq E. apply Hn1. apply list_elem_of_fmap. by exists q. }
  set (s1 := mk_layer (flash s) (parts s) (((fun p => (index (minfo p), ptr (mtd p))) <$> ps) ++ used)
    (next s) (live s) (log s)).
  set (s2 := mk_layer (flash s1) (ps ++ rest) (idr s1) (next s1) (live s1 - 2) (log s1)).
  assert (H1 : runs (del_mtd_device (mtd p)) s 0 s1).
  { apply del_device_ok; [exact Hi|done|]. apply Forall_app. split.
    - apply Forall_fmap. apply Forall_app in Hfp as [Hfp _]. exact Hfp.
    - apply Forall_forall. intros x Hx. apply Hu; [left|done]. }
  assert (H2 : runs (unlink p) s1 tt s2) by (by apply unlink_ok).
  destruct (IH s2) as (s3 & H3 & E1 & E2 & E3 & E4 & E5); try done.
  { intros q x Hq. apply Hu. by right. }
  exists s3. split.
  - cbn [app del_loop]. rewrite (proj2 (Z.eqb_eq _ _)) by done.
    eapply runs_bind; [exact H1|]. cbn. eapply runs_bind; [exact H2|exact H3].
  - rewrite zlen_cons. cbn in E4, E5. repeat split; first [done|lia].
Qed.
End Removal.

Lemma layout_master m cur table : Forall (fun h => sh_master h = ptr m) (layout m cur table).
Proof. revert cur; induction table as [|part table IH]; intros cur; cbn [layout]; [done|]. by constructor. Qed.

Lemma length_layout m cur table : length (layout m cur table) = length table.
Proof. revert cur; induction table as [|part table IH]; intros cur; cbn [layout]; [done|]. cbn. by f_equal. Qed.

(** ** The table of a board *)
Section Claims.
  Context {S : Type} {F : Flash S}.
  Variable kalloc : Z -> bool * bool.
  Variable idr_new : list (Z * Z) -> option Z.
  Variable device_ok : Z -> bool.

Lemma add_partitions_ok m table (s : layer S) :
  plain m -> (forall j, kalloc j = (true, true)) -> fits (mtd_size (info m)) 0 table ->
  exists ps s', runs (add_mtd_partitions kalloc idr_new device_ok m table) s 0 s' /\
    flash s' = flash s /\ parts s' = ps ++ parts s /\
    next s' = next s + zlen table /\ live s' = live s + 2 * zlen table /\
    shape_of <$> rev ps = layout m 0 table /\
    ptr ∘ mtd <$> rev ps = seqZ (next s) (zlen table) /\
    Forall (fun p => usecount (minfo p) = 0 /\ h_writev (has (minfo p)) = h_writev (has (info m))) ps /\
    ((forall used, exists i, idr_new used = Some i) -> (forall i, device_ok i = true) ->
       registered s' ps (idr s)).
Proof.
  intros Hm Hk Hf. pose proof (plain_size _ Hm).
  destruct (logs_say (Creating (zlen table) (mtd_name (info m))) s) as ([] & s1 & Hr & (E1 & E2 & E3 & E4 & E5) & _).
  destruct (add_loop_ok kalloc idr_new device_ok m table 0 0 s1 Hm Hk ltac:(lia) Hf)
    as (ps & s2 & Hr2 & G1 & G2 & G3 & G4 & G5 & G6 & G7 & G8).
  exists ps, s2. split; [eapply runs_bind; [exact Hr|exact Hr2]|].
  rewrite <- E3. replace (next s) with (next s1) by lia. repeat split; try done; try congruence; lia.
Qed.

(** C23. A table of partitions that follow each other and fit into the flash is laid out without
gap or overlap: [add_mtd_partitions] returns 0 and leaves the flash as it is, and the
slaves it links are those of the table in order, each with its name, its size (the
rest of the flash for [MTDPART_SIZ_FULL]), the flags of the flash without the masked
ones and without the write permission off the erase blocks, the first one at 0 and
each at the end of the one before; so two of them share no byte. *)
Theorem add_mtd_partitions_layout m table (s : layer S) :
  plain m -> (forall j, kalloc j = (true, true)) -> fits (mtd_size (info m)) 0 table ->
  exists ps stop s', runs (add_mtd_partitions kalloc idr_new device_ok m table) s 0 s' /\
    flash s' = flash s /\ parts s' = rev ps ++ parts s /\
    shape_of <$> ps = layout m 0 table /\ tiles 0 stop (shape_of <$> ps) /\ stop <= mtd_size (info m) /\
    (forall i j p q, ps !! i = Some p -> ps !! j = Some q -> i <> j -> apart (shape_of p) (shape_of q)).
Proof.
  intros Hm Hk Hf. destruct (add_partitions_ok m table s Hm Hk Hf) as (ps & s' & Hr & E1 & E2 & _ & _ & E3 & _).
  destruct (layout_tiles m 0 table Hf) as (stop & Ht & Hs); [pose proof (plain_size _ Hm); lia|].
  exists (rev ps), stop, s'. rewrite rev_involutive, E3. repeat (split; [done|]).
  intros i j p q Hp Hq. eapply (tiles_apart 0 stop (shape_of <$> rev ps)); [by rewrite E3|..];
    rewrite list_lookup_fmap; [by rewrite Hp|by rewrite Hq].
Qed.

(** C32. Taking the partitions of a flash away undoes the table: when every slave is
registered and none is in use, [del_mtd_partitions] after [add_mtd_partitions]
returns 0 and leaves the list of partitions, the registry, the allocated objects and
the flash as they were before. *)
Theorem add_del_mtd_partitions m table (s : layer S) :
  plain m -> (forall j, kalloc j = (true, true)) -> fits (mtd_size (info m)) 0 table ->
  (forall used, exists i, idr_new used = Some i) -> (forall i, device_ok i = true) ->
  wf s -> NoDup (ptr ∘ mtd <$> parts s) -> Forall (fun p => master p <> ptr m) (parts s) ->
  exists s1 s2, runs (add_mtd_partitions kalloc idr_new device_ok m table) s 0 s1 /\
    length (parts s1) = (length table + length (parts s))%nat /\
    runs (del_mtd_partitions m) s1 0 s2 /\
    flash s2 = flash s /\ parts s2 = parts s /\ idr s2 = idr s /\ live s2 = live s.
Proof.
  intros Hm Hk Hf Hi Hd (Hw1 & Hw2) Hn Hx.
  destruct (add_partitions_ok m table s Hm Hk Hf) as (ps & s1 & Hr & E1 & E2 & E3 & E4 & E5 & E6 & E7 & E8).
  assert (Hlen : length ps = length table).
  { rewrite <- (length_layout m 0 table), <- E5, length_fmap. by rewrite length_rev. }
  assert (Hms : Forall (fun p => master p = ptr m /\ usecount (minfo p) = 0) ps).
  { apply Forall_and. split; [|eapply Forall_impl; [exact E7|]; by intros ? [? _]].
    pose proof (layout_master m 0 table) as H. rewrite <- E5, Forall_fmap in H.
    apply Forall_rev in H. by rewrite rev_involutive in H. }
  assert (Hps : ptr ∘ mtd <$> ps = rev (seqZ (next s) (zlen table))).
  { rewrite <- E6. symmetry. etransitivity; [symmetry; apply (List.map_rev (ptr ∘ mtd))|]. by rewrite rev_involutive. }
  assert (Hge : forall p, p ∈ ps -> next s <= ptr (mtd p)).
  { intros p Hp. assert (Hin : ptr (mtd p) ∈ ptr ∘ mtd <$> ps) by (apply list_elem_of_fmap; by exists p).
    rewrite Hps, elem_of_rev, elem_of_seqZ in Hin. lia. }
  destruct (del_loop_ok (ptr m) ps (parts s) (idr s) s1 E2 (E8 Hi Hd) Hms Hx) as (s2 & Hr2 & G1 & G2 & G3 & G4 & G5).
  { rewrite fmap_app, Hps. apply NoDup_app. split; [|split; [|done]].
    - apply NoDup_ListNoDup, List.NoDup_rev, NoDup_ListNoDup, NoDup_seqZ.
    - intros x Hin Hin2. apply list_elem_of_fmap in Hin2 as (q & -> & Hq).
      rewrite elem_of_rev, elem_of_seqZ in Hin.
      rewrite Forall_forall in Hw1. specialize (Hw1 q Hq). cbn in Hin. lia. }
  { intros p x Hp Hxi. rewrite Forall_forall in Hw2. specialize (Hw2 x Hxi). specialize (Hge p Hp). lia. }
  exists s1, s2. split; [done|]. split; [by rewrite E2, length_app, Hlen|].
  split; [unfold del_mtd_partitions; eapply runs_bind; [apply runs_gets|by rewrite E2]|].
  repeat split; try congruence. unfold zlen in *. lia.
Qed.
End Claims.
