(* ===== verification/MtdOps.v ===== *)
(** * What the partitions do to the flash

[FlashOk] says what the operations of a NAND flash do to its bytes.  Against it the
methods of a slave ([part_read] to [part_block_markbad] of
[src/borph/drivers/mtd/mtdpart.c], modelled in [Mtd]) are shown to stay inside the
partition, to leave the other partitions alone and to read back what was written;
an erase stays above the start of the partition only. *)
From stdpp Require Import base list strings.
From S2P Require Import Prelude Mtd.
From Stdlib Require Import ZArith Lia.

(** ** The bytes of the flash *)
Class FlashOk (S : Type) {F : Flash S} : Type := {
  cell : S -> Z -> Z;
  ok_size : Z;
  ok_read from len n s r n' bs s' : fl_read from len n s = (r, n', bs, s') ->
    (forall a, cell s' a = cell s a) /\
    (r = 0 \/ r = - EUCLEAN -> 0 <= from -> from + len <= ok_size -> bs = cell s <$> seqZ from len);
  (** programming changes the bytes written only, and an erased byte takes its value *)
  ok_write to buf n s r n' s' : fl_write to buf n s = (r, n', s') ->
    (forall a, ~ to <= a < to + zlen buf -> cell s' a = cell s a) /\
    (r = 0 -> (forall a, to <= a < to + zlen buf -> cell s a = 255) ->
       forall i x, buf !! i = Some x -> cell s' (to + Z.of_nat i) = x);
  ok_panic_write to buf n s r n' s' : fl_panic_write to buf n s = (r, n', s') ->
    forall a, ~ to <= a < to + zlen buf -> cell s' a = cell s a;
  ok_read_oob from ops s r ops' s' : fl_read_oob from ops s = (r, ops', s') -> forall a, cell s' a = cell s a;
  (** the spare area is apart from the bytes *)
  ok_write_oob to ops s r ops' s' : fl_write_oob to ops s = (r, ops', s') ->
    forall a, ~ (is_Some (datbuf ops) /\ to <= a < to + o_len ops) -> cell s' a = cell s a;
  ok_erase e s r e' s' : fl_erase e s = (r, e', s') ->
    addr e' = addr e /\ elen e' = elen e /\ called e' = called e /\
    (forall a, ~ addr e <= a < addr e + elen e -> cell s' a = cell s a) /\
    (r = 0 -> forall a, addr e <= a < addr e + elen e -> cell s' a = 255);
  ok_lock ofs len s r s' : fl_lock ofs len s = (r, s') -> forall a, cell s' a = cell s a;
  ok_unlock ofs len s r s' : fl_unlock ofs len s = (r, s') -> forall a, cell s' a = cell s a;
  ok_is_locked ofs len s r s' : fl_is_locked ofs len s = (r, s') -> forall a, cell s' a = cell s a;
  (** the mark is in the spare area *)
  ok_markbad ofs s r s' : fl_markbad ofs s = (r, s') -> forall a, cell s' a = cell s a;
}.

(** ** The requests of the users of a slave *)
Inductive op : Type :=
| Read (from len : Z)
| ReadOob (from : Z) (ops : oob_ops)
| Write (to : Z) (buf : list Z)
| PanicWrite (to : Z) (buf : list Z)
| WriteOob (to : Z) (ops : oob_ops)
| Writev (vecs : list (list Z)) (to : Z)
| Erase (e : erase_info)
| Lock (ofs len : Z)
| Unlock (ofs len : Z)
| IsLocked (ofs len : Z)
| IsBad (ofs : Z)
| MarkBad (ofs : Z).

(** The arguments have the widths of their types. *)
Definition op_ok (o : op) : Prop :=
  match o with
  | Read ofs len => - 2 ^ 63 <= ofs < 2 ^ 63 /\ 0 <= len < 2 ^ 32
  | Write ofs buf | PanicWrite ofs buf => - 2 ^ 63 <= ofs < 2 ^ 63 /\ zlen buf < 2 ^ 32
  | ReadOob ofs ops | WriteOob ofs ops => - 2 ^ 63 <= ofs < 2 ^ 63 /\ 0 <= o_len ops < 2 ^ 32
  | Erase e => 0 <= addr e < 2 ^ 64
  | _ => True
  end.

Section Ops.
  Context {S : Type} {F : Flash S}.

(** The method of the slave, if it has one; the slave and the flash afterwards. *)
Definition run_op (p : mtd_part) (o : op) (s : S) : mtd_part * S :=
  let h := has (minfo p) in
  match o with
  | Read from len => let '(_, _, _, p', s') := part_read p from len 0 s in (p', s')
  | ReadOob from ops =>
      if h_read_oob h then let '(_, _, p', s') := part_read_oob p from ops s in (p', s') else (p, s)
  | Write to buf => let '(_, _, s') := part_write p to buf 0 s in (p, s')
  | PanicWrite to buf =>
      if h_panic_write h then let '(_, _, s') := part_panic_write p to buf 0 s in (p, s') else (p, s)
  | WriteOob to ops =>
      if h_write_oob h then let '(_, _, s') := part_write_oob p to ops s in (p, s') else (p, s)
  | Writev vecs to =>
      if h_writev h then let '(_, _, s') := part_writev p vecs to 0 s in (p, s') else (p, s)
  | Erase e => let '(_, _, s') := part_erase p e s in (p, s')
  | Lock ofs len => if h_lock h then let '(_, s') := part_lock p ofs len s in (p, s') else (p, s)
  | Unlock ofs len => if h_unlock h then let '(_, s') := part_unlock p ofs len s in (p, s') else (p, s)
  | IsLocked ofs len => if h_is_locked h then let '(_, s') := part_is_locked p ofs len s in (p, s') else (p, s)
  | IsBad _ => (p, s)
  | MarkBad ofs =>
      if h_block_markbad h then let '(_, p', s') := part_block_markbad p ofs s in (p', s') else (p, s)
  end.

(** Requests to the slaves of a list, by their place in it. *)
Fixpoint run_ops (reqs : list (nat * op)) (ps : list mtd_part) (s : S) : list mtd_part * S :=
  match reqs with
  | [] => (ps, s)
  | (i, o) :: reqs =>
      match ps !! i with
      | Some p => let '(p', s') := run_op p o s in run_ops reqs (<[i := p']> ps) s'
      | None => run_ops reqs ps s
      end
  end.
End Ops.

(** ** The length that is left *)
Lemma clip_ok size from len : 0 <= size < 2 ^ 63 -> - 2 ^ 63 <= from < 2 ^ 63 -> 0 <= len < 2 ^ 32 ->
  0 <= clip size from len <= len /\ (0 < clip size from len -> 0 <= from /\ from + clip size from len <= size).
Proof.
  intros Hs Hf Hl. unfold clip. destruct (Z.leb_spec size (u64 from)) as [H|H]; [lia|].
  assert (0 <= from).
  { destruct (Z_lt_ge_dec from 0) as [Hn|]; [|lia]. unfold wrapu in H.
    rewrite <- (Z_mod_plus_full from 1), Z.mod_small in H by lia. lia. }
  rewrite (wrapu_small 64 (from + len)) by lia. rewrite wrapu_small in H by lia.
  destruct (Z.ltb_spec size (from + len)); [|lia]. rewrite wrapu_small by lia. lia.
Qed.

Lemma clip_fits size from len : 0 <= from -> 0 <= len -> from + len <= size -> size < 2 ^ 63 -> 0 < len -> clip size from len = len.
Proof.
  intros. unfold clip. rewrite !wrapu_small by lia. rewrite (proj2 (Z.leb_gt _ _)), (proj2 (Z.ltb_ge _ _)) by lia. done.
Qed.

Lemma offset_inside size ofs : 0 <= size < 2 ^ 63 -> - 2 ^ 63 <= ofs < 2 ^ 63 -> u64 ofs < size -> 0 <= ofs < size.
Proof.
  intros Hs Ho H. destruct (Z_lt_ge_dec ofs 0) as [Hn|]; [|rewrite wrapu_small in H; lia].
  unfold wrapu in H. rewrite <- (Z_mod_plus_full ofs 1), Z.mod_small in H by lia. lia.
Qed.

(** ** A slave stays inside *)

(** Where the slave lies: inside the device. *)
Definition inside (size : Z) (p : mtd_part) : Prop :=
  0 <= offset p /\ 0 <= mtd_size (minfo p) /\ offset p + mtd_size (minfo p) <= size.

Section Inside.
  Context {S : Type} {F : Flash S} {OK : FlashOk S}.

(** The bytes that change are in the range from [lo] to [hi]. *)
Definition changes (lo hi : Z) (s s' : S) : Prop := forall a, ~ lo <= a < hi -> cell s' a = cell s a.

Lemma changes_same lo hi s s' : (forall a, cell s' a = cell s a) -> changes lo hi s s'.
Proof. intros H a _. apply H. Qed.

Lemma changes_refl lo hi s : changes lo hi s s.
Proof. intros a _. done. Qed.

Lemma changes_weaken lo hi lo' hi' s s' : changes lo hi s s' -> lo' <= lo -> hi <= hi' -> changes lo' hi' s s'.
Proof. intros H Hl Hh a Ha. apply H. lia. Qed.

Lemma zlen_clip n (buf : list Z) : 0 <= n <= zlen buf -> zlen (slice 0 n buf) = n.
Proof. intros H. rewrite zlen_slice; lia. Qed.

Lemma write_inside p to (buf : list Z) size : inside size p -> size < 2 ^ 63 -> - 2 ^ 63 <= to < 2 ^ 63 -> zlen buf < 2 ^ 32 ->
  let b := slice 0 (clip (mtd_size (minfo p)) to (zlen buf)) buf in
  b = [] \/ s64 (to + offset p) = to + offset p /\ 0 <= to /\ to + zlen b <= mtd_size (minfo p).
Proof.
  intros (Ho & Hn & Hi) Hs Ht Hb. cbv zeta. pose proof (zlen_nonneg buf).
  destruct (clip_ok (mtd_size (minfo p)) to (zlen buf)) as (Hc & Hp); [lia..|].
  destruct (Z.eq_dec (clip (mtd_size (minfo p)) to (zlen buf)) 0) as [E|E].
  { left. apply zlen_0_inv. rewrite zlen_clip; lia. }
  right. rewrite zlen_clip by lia. specialize (Hp ltac:(lia)). split; [|lia]. apply wraps_small; lia.
Qed.

Lemma part_write_inside p to buf n s r n' s' size : inside size p -> size < 2 ^ 63 ->
  op_ok (Write to buf) -> part_write p to buf n s = (r, n', s') ->
  (writeable (minfo p) = false -> s' = s) /\ changes (offset p) (offset p + mtd_size (minfo p)) s s'.
Proof.
  intros Hi Hs (Ht & Hb) E. unfold part_write in E. destruct (writeable (minfo p)); cbn [negb] in E.
  - split; [done|]. apply ok_write in E as (E & _). intros a Ha. apply E.
    destruct (write_inside p to buf size Hi Hs Ht Hb) as [-> | (-> & ? & ?)]; [change (zlen (@nil Z)) with 0; lia|lia].
  - injection E as _ _ <-. split; [done|apply changes_refl].
Qed.

Lemma part_panic_write_inside p to buf n s r n' s' size : inside size p -> size < 2 ^ 63 ->
  op_ok (PanicWrite to buf) -> part_panic_write p to buf n s = (r, n', s') ->
  (writeable (minfo p) = false -> s' = s) /\ changes (offset p) (offset p + mtd_size (minfo p)) s s'.
Proof.
  intros Hi Hs (Ht & Hb) E. unfold part_panic_write in E. destruct (writeable (minfo p)); cbn [negb] in E.
  - split; [done|]. pose proof (ok_panic_write _ _ _ _ _ _ _ E) as E'. intros a Ha. apply E'.
    destruct (write_inside p to buf size Hi Hs Ht Hb) as [-> | (-> & ? & ?)]; [change (zlen (@nil Z)) with 0; lia|lia].
  - injection E as _ _ <-. split; [done|apply changes_refl].
Qed.

Lemma part_write_oob_inside p to ops s r ops' s' size : inside size p -> size < 2 ^ 63 ->
  op_ok (WriteOob to ops) -> part_write_oob p to ops s = (r, ops', s') ->
  (writeable (minfo p) = false -> s' = s) /\ changes (offset p) (offset p + mtd_size (minfo p)) s s'.
Proof.
  intros (Ho & Hn & Hi) Hs (Ht & Hb) E. unfold part_write_oob in E. destruct (writeable (minfo p)); cbn [negb] in E.
  - split; [done|]. destruct (Z.leb_spec (mtd_size (minfo p)) (u64 to)) as [|Hlt]; [injection E as _ _ <-; apply changes_refl|].
    apply offset_inside in Hlt; [|lia..].
    destruct (bool_decide (is_Some (datbuf ops)) && (mtd_size (minfo p) <? u64 (to + o_len ops))) eqn:G;
      [injection E as _ _ <-; apply changes_refl|].
    pose proof (ok_write_oob _ _ _ _ _ _ E) as E'. intros a Ha. apply E'. intros (Hd & Hr).
    rewrite bool_decide_true in G by done. cbn [andb] in G. zb. rewrite wrapu_small in G by lia.
    rewrite wraps_small in Hr by lia. lia.
  - injection E as _ _ <-. split; [done|apply changes_refl].
Qed.

(** An erase begins inside the partition, and its addresses are those of the caller
again. *)
Lemma part_erase_ok p e s r e' s' size : inside size p -> size < 2 ^ 63 -> op_ok (Erase e) ->
  part_erase p e s = (r, e', s') ->
  (writeable (minfo p) = false -> s' = s /\ r = - EROFS) /\
  changes (addr e + offset p) (addr e + offset p + elen e) s s' /\
  addr e' = addr e /\ elen e' = elen e /\ called e' = called e + (if r =? 0 then 1 else 0) /\
  (r = 0 -> addr e < mtd_size (minfo p) /\
     forall a, addr e + offset p <= a < addr e + offset p + elen e -> cell s' a = 255).
Proof.
  intros (Ho & Hn & Hi) Hs Ha E. cbn in Ha. unfold part_erase in E.
  destruct (writeable (minfo p)); cbn [negb] in E;
    [|injection E as <- <- <-; repeat split; try done; try apply changes_refl; symmetry; apply Z.add_0_r].
  destruct (Z.leb_spec (mtd_size (minfo p)) (addr e)) as [|Hlt];
    [injection E as <- <- <-; repeat split; try done; try apply changes_refl; symmetry; apply Z.add_0_r|].
  unfold nand_erase in E. rewrite wrapu_small in E by lia.
  destruct (fl_erase _ s) as ((r1 & e1) & s1) eqn:G. injection E as <- <- <-.
  destruct (ok_erase _ _ _ _ _ G) as (G1 & G2 & G3 & G4 & G5). cbn in G1, G2, G3, G4, G5.
  split; [done|]. split; [exact G4|]. unfold truthy.
  destruct (Z.eqb_spec r1 0) as [->|Hr]; cbn; rewrite G1, ?G2, ?G3, wrapu_small by lia;
    repeat split; try lia. by apply G5.
Qed.

(** A slave that only its counters may differ from. *)
Definition alike (p p' : mtd_part) : Prop :=
  shape_of p' = shape_of p /\ has (minfo p') = has (minfo p) /\ ptr (mtd p') = ptr (mtd p).

Lemma alike_refl p : alike p p.
Proof. by repeat split. Qed.

Lemma alike_stats c f b p : alike p (part_stats c f b p).
Proof. by repeat split. Qed.

(** The request did nothing. *)
Ltac nothing E := injection E as <- <-; split; [apply alike_refl|done].

(** What no request to a slave changes: a bound below the slave, or anything if the
slave is read-only. *)
Lemma run_op_below B p o s p' s' size : inside size p -> size < 2 ^ 63 -> op_ok o ->
  h_writev (has (minfo p)) = false -> (writeable (minfo p) = true -> B <= offset p) ->
  run_op p o s = (p', s') -> alike p p' /\ forall a, a < B -> cell s' a = cell s a.
Proof.
  intros Hi Hs Ho Hv Hw E.
  assert (Hb : forall x lo hi, (writeable (minfo p) = false -> x = s) -> changes lo hi s x -> offset p <= lo ->
    forall a, a < B -> cell x a = cell s a).
  { intros x lo hi H1 H2 Hlo a Ha. destruct (writeable (minfo p)); [|by rewrite H1]. specialize (Hw eq_refl). apply H2. lia. }
  unfold run_op in E. destruct o as [from len|from ops|to buf|to buf|to ops|vecs to|e|ofs len|ofs len|ofs len|ofs|ofs].
  - unfold part_read in E. destruct (fl_read _ _ _ s) as (((r & n) & bs) & s1) eqn:G. injection E as <- <-.
    apply ok_read in G as (G & _). split; [|auto]. destruct (truthy r); [apply alike_stats|apply alike_refl].
  - destruct (h_read_oob _); [|nothing E].
    unfold part_read_oob in E. destruct (_ <=? _); [nothing E|].
    destruct (_ && _); [nothing E|].
    destruct (fl_read_oob _ _ s) as ((r & ops') & s1) eqn:G. injection E as <- <-. pose proof (ok_read_oob _ _ _ _ _ _ G).
    split; [|auto]. destruct (truthy r); [apply alike_stats|apply alike_refl].
  - destruct (part_write p to buf 0 s) as ((r & n) & s1) eqn:G. injection E as <- <-. split; [apply alike_refl|].
    destruct (part_write_inside _ _ _ _ _ _ _ _ _ Hi Hs Ho G). by eapply Hb.
  - destruct (h_panic_write _); [|nothing E].
    destruct (part_panic_write p to buf 0 s) as ((r & n) & s1) eqn:G. injection E as <- <-. split; [apply alike_refl|].
    destruct (part_panic_write_inside _ _ _ _ _ _ _ _ _ Hi Hs Ho G). by eapply Hb.
  - destruct (h_write_oob _); [|nothing E].
    destruct (part_write_oob p to ops s) as ((r & n) & s1) eqn:G. injection E as <- <-. split; [apply alike_refl|].
    destruct (part_write_oob_inside _ _ _ _ _ _ _ _ Hi Hs Ho G). by eapply Hb.
  - rewrite Hv in E. injection E as <- <-. split; [apply alike_refl|done].
  - destruct (part_erase p e s) as ((r & e') & s1) eqn:G. injection E as <- <-. split; [apply alike_refl|].
    destruct (part_erase_ok _ _ _ _ _ _ _ Hi Hs Ho G) as (G1 & G2 & _). eapply Hb; [intros Hx; by destruct (G1 Hx)|exact G2|cbn in Ho; lia].
  - destruct (h_lock _); [|nothing E].
    unfold part_lock in E. destruct (_ <? _); [nothing E|].
    destruct (fl_lock _ _ s) as (r & s1) eqn:G. injection E as <- <-. split; [apply alike_refl|]. intros. by eapply ok_lock.
  - destruct (h_unlock _); [|nothing E].
    unfold part_unlock in E. destruct (_ <? _); [nothing E|].
    destruct (fl_unlock _ _ s) as (r & s1) eqn:G. injection E as <- <-. split; [apply alike_refl|]. intros. by eapply ok_unlock.
  - destruct (h_is_locked _); [|nothing E].
    unfold part_is_locked in E. destruct (_ <? _); [nothing E|].
    destruct (fl_is_locked _ _ s) as (r & s1) eqn:G. injection E as <- <-. split; [apply alike_refl|]. intros. by eapply ok_is_locked.
  - injection E as <- <-. split; [apply alike_refl|done].
  - destruct (h_block_markbad _); [|nothing E].
    unfold part_block_markbad in E. destruct (negb _); [nothing E|].
    destruct (_ <=? _); [nothing E|].
    destruct (fl_markbad _ s) as (r & s1) eqn:G. injection E as <- <-. pose proof (ok_markbad _ _ _ _ G).
    split; [|auto]. destruct (truthy r); [apply alike_refl|apply alike_stats].
Qed.

(** The slaves of a list that no request can use to reach below [B]. *)
Definition guarded (B size : Z) (p : mtd_part) : Prop :=
  inside size p /\ h_writev (has (minfo p)) = false /\ (writeable (minfo p) = true -> B <= offset p).

Lemma guarded_alike B size p p' : alike p p' -> guarded B size p -> guarded B size p'.
Proof.
  intros (Hs & Hh & _). unfold guarded, inside, writeable. rewrite Hh.
  injection Hs as _ -> -> -> _ _. done.
Qed.

Lemma run_ops_below B size reqs ps s ps' s' : size < 2 ^ 63 -> Forall (guarded B size) ps ->
  Forall (fun r => op_ok r.2) reqs -> run_ops reqs ps s = (ps', s') ->
  Forall2 alike ps ps' /\ forall a, a < B -> cell s' a = cell s a.
Proof.
  intros Hs. revert ps s. induction reqs as [|(i, o) reqs IH]; intros ps s Hg Ho E; cbn [run_ops] in E.
  { injection E as <- <-. split; [|done]. apply Forall_Forall2_diag, Forall_true. apply alike_refl. }
  apply Forall_cons in Ho as (Ho & Hos). destruct (ps !! i) as [p|] eqn:Hi; [|eauto].
  destruct (run_op p o s) as (p1 & s1) eqn:G.
  pose proof (Forall_lookup_1 _ _ _ _ Hg Hi) as Hp. pose proof Hp as (H1 & H2 & H3).
  destruct (run_op_below B p o s p1 s1 size H1 Hs Ho H2 H3 G) as (Ha & Hc).
  destruct (IH (<[i := p1]> ps) s1) as (Hf & Hc'); [|done|exact E|].
  { apply Forall_insert; [done|]. by eapply guarded_alike. }
  split; [|intros a Hl; rewrite Hc' by done; auto].
  apply Forall2_same_length_lookup_2.
  { rewrite <- (Forall2_length _ _ _ Hf). by rewrite length_insert. }
  intros j x y Hx Hy. destruct (decide (i = j)) as [<-|Hne].
  - rewrite Hi in Hx. injection Hx as <-. assert (Hl : <[i:=p1]> ps !! i = Some p1).
    { apply list_lookup_insert_eq. by eapply lookup_lt_Some. }
    pose proof (Forall2_lookup_lr _ _ _ _ _ _ Hf Hl Hy) as (A1 & A2 & A3). destruct Ha as (B1 & B2 & B3).
    repeat split; congruence.
  - eapply Forall2_lookup_lr; [exact Hf| |exact Hy]. by rewrite list_lookup_insert_ne.
Qed.

Lemma slice_all_eq (buf : list Z) : slice 0 (zlen buf) buf = buf.
Proof. by apply slice_all. Qed.

Lemma cells_of (s : S) from (buf : list Z) :
  (forall i x, buf !! i = Some x -> cell s (from + Z.of_nat i) = x) -> cell s <$> seqZ from (zlen buf) = buf.
Proof.
  intros H. apply list_eq_same_length with (n := length buf); [done| |].
  { rewrite length_fmap, length_seqZ. unfold zlen. lia. }
  intros i x y Hi Hx Hy. rewrite list_lookup_fmap, lookup_seqZ_lt in Hx by (unfold zlen; lia).
  cbn in Hx. injection Hx as <-. by apply H.
Qed.

(** C24. What is written through a partition is read back from it, and the others do not
notice: when a slave erases a range inside itself, writes bytes into that range and
reads them back, and the three requests succeed (the read perhaps with corrected
bits), the bytes read are the bytes written, and every byte of the flash outside the
slave is what it was before; in particular every byte of a slave apart from it. *)
Theorem partition_roundtrip p q e to buf s r1 e1 s1 r2 n2 s2 r3 n3 bs p3 s3 :
  inside ok_size p -> ok_size < 2 ^ 63 -> apart (shape_of p) (shape_of q) ->
  op_ok (Erase e) -> op_ok (Write to buf) -> 0 < zlen buf ->
  addr e <= to -> to + zlen buf <= addr e + elen e -> addr e + elen e <= mtd_size (minfo p) ->
  part_erase p e s = (r1, e1, s1) -> r1 = 0 ->
  part_write p to buf 0 s1 = (r2, n2, s2) -> r2 = 0 ->
  part_read p to (zlen buf) 0 s2 = (r3, n3, bs, p3, s3) -> r3 = 0 \/ r3 = - EUCLEAN ->
  bs = buf /\ changes (offset p) (offset p + mtd_size (minfo p)) s s3 /\
  (forall a, offset q <= a < offset q + mtd_size (minfo q) -> cell s3 a = cell s a).
Proof.
  intros Hp Hs Hq He (Ht & Hb) Hn Ha Hl Hm E1 R1 E2 R2 E3 R3. pose proof Hp as (Ho & Hz & Hi). cbn in He.
  destruct (part_erase_ok p e s r1 e1 s1 _ Hp Hs He E1) as (_ & C1 & _ & _ & _ & F1). destruct (F1 R1) as (_ & Fe).
  destruct (part_write_inside p to buf 0 s1 r2 n2 s2 _ Hp Hs (conj Ht Hb) E2) as (W0 & C2).
  unfold part_write in E2. destruct (writeable (minfo p)) eqn:Hw; cbn [negb] in E2; [|injection E2 as <- _ _; done].
  rewrite clip_fits, slice_all_eq, wraps_small in E2 by lia. apply ok_write in E2 as (_ & W).
  unfold part_read in E3. rewrite clip_fits, wraps_small in E3 by lia.
  destruct (fl_read _ _ _ s2) as (((r & n) & bs') & s') eqn:G. injection E3 as -> _ <- _ <-.
  apply ok_read in G as (G1 & G2).
  assert (Hall : changes (offset p) (offset p + mtd_size (minfo p)) s s').
  { intros a Hx. rewrite G1, C2 by done. apply C1. lia. }
  repeat split; [|exact Hall|].
  - rewrite (G2 R3) by lia. apply cells_of. apply (W R2). intros a Hx. apply Fe. lia.
  - intros a Hx. apply Hall. unfold apart, shape_of in Hq. cbn in Hq. lia.
Qed.
End Inside.
