(* ===== verification/BoardFlash.v ===== *)
(** * The flash of the board under Linux

The NAND table of [src/borph/arch/arm/mach-omap2/board-rhino.c], laid out by the
partition layer ([Mtd]) and used through it ([MtdOps]), beside the places where the
boot loader ([Xnand]), U-Boot ([src/u-boot/include/configs/rhino.h]) and its
[nandboot] command look for the next stage. *)
From stdpp Require Import base list strings.
From S2P Require Import Prelude Xnand UBoot Mtd MtdOps.
From Stdlib Require Import ZArith Lia.

Definition SZ_128K : Z := 0x20000.
(** the flags of a NAND flash that can be written *)
Definition MTD_CAP_NANDFLASH : Z := MTD_WRITEABLE.

Definition rhino_nand_partitions : list mtd_partition := [
  mk_partition "xloader-nand" (4 * SZ_128K) 0 MTD_WRITEABLE;
  mk_partition "uboot-nand" (15 * SZ_128K) MTDPART_OFS_APPEND MTD_WRITEABLE;
  mk_partition "params-nand" SZ_128K MTDPART_OFS_APPEND 0;
  mk_partition "linux-nand" (40 * SZ_128K) MTDPART_OFS_APPEND 0;
  mk_partition "jffs2-nand" MTDPART_SIZ_FULL MTDPART_OFS_APPEND 0 ].

(** What [nandboot] reads: [nand read ${loadaddr} 280000 400000] *)
Definition nandboot_offset : Z := 0x280000.
Definition nandboot_size : Z := 0x400000.

(** A NAND flash as the driver describes it: one erase size of 128 KiB, writable,
more than sixty blocks. *)
Record rhino_nand (m : mtd_dev) : Prop := {
  nand_plain : plain m;
  nand_flags : flags (info m) = MTD_CAP_NANDFLASH;
  nand_erasesize : erasesize (info m) = SZ_128K;
  nand_writev : h_writev (has (info m)) = false;
  nand_big : 60 * SZ_128K < mtd_size (info m);
  nand_blocks : mtd_size (info m) mod SZ_128K = 0;
}.

Definition rhino_shapes (m : mtd_dev) : list shape := [
  mk_shape "xloader-nand" 0 0x80000 0 SZ_128K (ptr m);
  mk_shape "uboot-nand" 0x80000 0x1E0000 0 SZ_128K (ptr m);
  mk_shape "params-nand" 0x260000 0x20000 MTD_WRITEABLE SZ_128K (ptr m);
  mk_shape "linux-nand" 0x280000 0x500000 MTD_WRITEABLE SZ_128K (ptr m);
  mk_shape "jffs2-nand" 0x780000 (mtd_size (info m) - 0x780000) MTD_WRITEABLE SZ_128K (ptr m) ].

(** Decides the tests of the sizes of the table. *)
Ltac settle :=
  change (0 =? 0) with true; change (131072 =? 0) with false; change (4 * 131072 =? 0) with false;
  change (15 * 131072 =? 0) with false; change (40 * 131072 =? 0) with false; cbn match.

Lemma rhino_fits m : rhino_nand m -> fits (mtd_size (info m)) 0 rhino_nand_partitions.
Proof.
  intros [Hp _ _ _ Hb _]. pose proof (plain_size _ Hp). unfold SZ_128K in Hb. cbn [fits rhino_nand_partitions].
  unfold size_at, SZ_128K, MTDPART_SIZ_FULL. cbn [pt_size pt_offset]. settle. repeat split; try lia; auto.
Qed.

Lemma rhino_layout m : rhino_nand m -> layout m 0 rhino_nand_partitions = rhino_shapes m.
Proof.
  intros [Hp Hf He _ Hb Hm]. unfold rhino_nand_partitions. cbn [layout]. unfold shape_at, size_at, flags_at.
  rewrite Hf, He. unfold rhino_shapes. cbn [pt_name pt_size pt_offset pt_mask_flags].
  assert (Hj : (mtd_size (info m) - 0x780000) mod SZ_128K = 0).
  { rewrite Zminus_mod, Hm. reflexivity. }
  unfold SZ_128K, MTDPART_SIZ_FULL in *. settle.
  replace (mtd_size (info m) - (0 + 4 * 131072 + 15 * 131072 + 131072 + 40 * 131072)) with (mtd_size (info m) - 7864320) by lia.
  rewrite Hj. reflexivity.
Qed.

Lemma rhino_guarded m ps : rhino_nand m -> shape_of <$> ps = rhino_shapes m ->
  Forall (fun p => h_writev (has (minfo p)) = false) ps -> Forall (guarded 0x260000 (mtd_size (info m))) ps.
Proof.
  intros [Hp _ _ _ Hb _] Hs Hv. unfold SZ_128K in Hb. pose proof (plain_size _ Hp) as Hz.
  assert (Hf : Forall (fun h => 0 <= sh_offset h /\ 0 <= sh_size h /\ sh_offset h + sh_size h <= mtd_size (info m) /\
    (truthy (Z.land (sh_flags h) MTD_WRITEABLE) = true -> 0x260000 <= sh_offset h)) (shape_of <$> ps)).
  { rewrite Hs. unfold rhino_shapes. repeat constructor; cbn; try lia; done. }
  rewrite Forall_fmap in Hf. apply Forall_forall. intros p Hin.
  rewrite Forall_forall in Hf, Hv. destruct (Hf p Hin) as (H1 & H2 & H3 & H4). by split; [|split; [apply Hv|]].
Qed.

Section Board.
  Context {S : Type} {F : Flash S} {OK : FlashOk S}.
  Variable kalloc : Z -> bool * bool.
  Variable idr_new : list (Z * Z) -> option Z.
  Variable device_ok : Z -> bool.

(** C8. The table of the board protects the boot loader and agrees with the other
stages.  On a flash of more than sixty blocks, without partitions on the command
line, the five partitions have the shapes of [rhino_shapes], the first two
read-only; the part of the flash that the boot loader loads U-Boot from lies in the
second one, the environment of U-Boot is the third one, and what [nandboot] reads
lies in the fourth one; and no sequence of requests of their users, of any kind and
with any arguments of the right widths, changes a byte below the third partition. *)
Theorem rhino_flash_protected m err table (s : layer S) reqs :
  rhino_nand m -> (forall j, kalloc j = (true, true)) -> err <= 0 -> parts s = [] ->
  Forall (fun r => op_ok r.2) reqs ->
  exists ps s1, runs (register_partitions kalloc idr_new device_ok m (err, table) (Some rhino_nand_partitions)) s m s1 /\
    parts s1 = rev ps /\ shape_of <$> ps = rhino_shapes m /\
    (exists x u e k, shape_of <$> take 4 ps = [x; u; e; k] /\
       sh_offset u <= NAND_UBOOT_START /\ NAND_UBOOT_END <= sh_offset u + sh_size u /\
       sh_offset e = SMNAND_ENV_OFFSET /\
       sh_offset k <= nandboot_offset /\ nandboot_offset + nandboot_size <= sh_offset k + sh_size k) /\
    (forall ps2 f2, run_ops reqs (parts s1) (flash s1) = (ps2, f2) ->
       Forall2 alike (parts s1) ps2 /\ forall a, a < SMNAND_ENV_OFFSET -> cell f2 a = cell (flash s) a).
Proof.
  intros Hm Hk He Hps Hr. pose proof (nand_plain _ Hm) as Hp.
  destruct (add_partitions_ok kalloc idr_new device_ok m rhino_nand_partitions s Hp Hk (rhino_fits m Hm))
    as (qs & s1 & Hrun & E1 & E2 & _ & _ & E3 & _ & E4 & _).
  rewrite (rhino_layout m Hm) in E3. rewrite Hps, app_nil_r in E2.
  assert (Hv : Forall (fun p => h_writev (has (minfo p)) = false) (parts s1)).
  { rewrite E2. eapply Forall_impl; [exact E4|]. intros p [_ ->]. by apply nand_writev. }
  exists (rev qs), s1. split; [|split; [by rewrite rev_involutive|split; [done|split]]].
  - unfold register_partitions. rewrite (proj2 (Z.ltb_ge _ _)) by done.
    eapply runs_bind; [exact Hrun|apply runs_ret].
  - rewrite fmap_take, E3. do 4 eexists. split; [reflexivity|]. cbv. repeat split; congruence.
  - intros ps2 f2 Hops. rewrite <- E1. eapply run_ops_below in Hops; [|exact (proj2 (plain_size _ Hp))| |done].
    + destruct Hops as (Ha & Hc). split; [exact Ha|]. intros a Hx. apply Hc. unfold SMNAND_ENV_OFFSET in Hx.
      instantiate (1 := 0x260000). lia.
    + apply Forall_rev in Hv. rewrite E2 in Hv |- *. pose proof (rhino_guarded m (rev qs) Hm E3 Hv) as Hg.
      apply Forall_rev in Hg. by rewrite rev_involutive in Hg.
Qed.
End Board.
