(* ===== verification/ExamplesFlash.v ===== *)
(** * A flash, its partitions and where they go wrong

A flash as a function from addresses to bytes is an instance of [Flash] and
[FlashOk]; the theorems on partitions apply to it.  The examples at the end run the
layer on tables and requests for which the slaves overlap or an erase leaves its
partition. *)
From stdpp Require Import base list strings.
From S2P Require Import Prelude Xnand UBoot Mtd MtdOps BoardFlash.
From Stdlib Require Import ZArith Lia.

Definition bytes : Type := Z -> Z.

Definition put_bytes (to : Z) (buf : list Z) (s : bytes) : bytes := fun a =>
  if (to <=? a) && (a <? to + zlen buf) then nth (Z.to_nat (a - to)) buf 0 else s a.

#[export] Instance bytes_flash : Flash bytes := {
  fl_read from len n s := (0, len, s <$> seqZ from len, s);
  fl_write to buf n s := (0, zlen buf, put_bytes to buf s);
  fl_panic_write to buf n s := (0, zlen buf, put_bytes to buf s);
  fl_writev to vecs n s := (0, zlen (concat vecs), put_bytes to (concat vecs) s);
  fl_read_oob from ops s := (0, ops, s);
  fl_write_oob to ops s := (0, ops, s);
  fl_erase e s := (0, e, fun a => if (addr e <=? a) && (a <? addr e + elen e) then 255 else s a);
  fl_lock ofs len s := (0, s);
  fl_unlock ofs len s := (0, s);
  fl_is_locked ofs len s := (0, s);
  fl_isbad ofs s := 0;
  fl_markbad ofs s := (0, s);
  fl_corrected s := 0;
  fl_failed s := 0;
}.

Lemma put_bytes_out to buf s a : ~ to <= a < to + zlen buf -> put_bytes to buf s a = s a.
Proof. intros H. unfold put_bytes. destruct ((to <=? a) && (a <? to + zlen buf)) eqn:E; [zb; lia|done]. Qed.

Lemma put_bytes_in to buf s i x : buf !! i = Some x -> put_bytes to buf s (to + Z.of_nat i) = x.
Proof.
  intros H. unfold put_bytes. pose proof (lookup_lt_Some _ _ _ H). unfold zlen.
  rewrite (proj2 (Z.leb_le _ _)), (proj2 (Z.ltb_lt _ _)) by lia. cbn [andb].
  replace (to + Z.of_nat i - to) with (Z.of_nat i) by lia. rewrite Nat2Z.id.
  by erewrite nth_lookup_Some.
Qed.

#[export] Instance bytes_flash_ok : FlashOk bytes.
Proof.
  refine {| cell := fun s a => s a; ok_size := 0x8000000 |}; cbn; intros.
  - simplify_eq. done.
  - simplify_eq. split; [intros; by apply put_bytes_out|]. intros. by apply put_bytes_in.
  - simplify_eq. by apply put_bytes_out.
  - by simplify_eq.
  - by simplify_eq.
  - simplify_eq. repeat split.
    + intros a Ha. destruct ((addr e' <=? a) && (a <? addr e' + elen e')) eqn:E; [zb; lia|done].
    + intros _ a Ha. by rewrite (proj2 (Z.leb_le _ _)), (proj2 (Z.ltb_lt _ _)) by lia.
  - by simplify_eq.
  - by simplify_eq.
  - by simplify_eq.
  - by simplify_eq.
Defined.

(** ** The flash of the board: 128 MiB in blocks of 128 KiB *)
Definition nand_methods : methods :=
  mk_methods true false false false true true false false false false false false true
    true true false false false false true true.

Definition nand_of (size : Z) : mtd_dev := mk_dev 1
  (mk_mtd 4 MTD_CAP_NANDFLASH size SZ_128K 2048 64 32 0 0 2 "omap2-nand.0" 0 [] nand_methods false 0 0 0 0).
Definition nand0 : mtd_dev := nand_of 0x8000000.

Definition empty_layer : layer bytes := mk_layer (fun a => a mod 251) [] [] 100 0 [].
Definition kalloc_ok (_ : Z) : bool * bool := (true, true).
Definition idr_next (used : list (Z * Z)) : option Z := Some (zlen used).
Definition device_fine (_ : Z) : bool := true.

Lemma nand0_plain : plain nand0.
Proof. split; cbn; first [lia|done]. Qed.

Lemma nand0_rhino : rhino_nand nand0.
Proof. split; first [apply nand0_plain|reflexivity]. Qed.

Lemma add_mtd_partitions_layout_witness :
  exists ps stop s', runs (add_mtd_partitions kalloc_ok idr_next device_fine nand0 rhino_nand_partitions) empty_layer 0 s' /\
    flash s' = flash empty_layer /\ parts s' = rev ps ++ parts empty_layer /\
    shape_of <$> ps = layout nand0 0 rhino_nand_partitions /\ tiles 0 stop (shape_of <$> ps) /\ stop <= 0x8000000 /\
    (forall i j p q, ps !! i = Some p -> ps !! j = Some q -> i <> j -> apart (shape_of p) (shape_of q)).
Proof.
  apply (add_mtd_partitions_layout kalloc_ok idr_next device_fine nand0 rhino_nand_partitions empty_layer nand0_plain).
  - done.
  - apply (rhino_fits nand0 nand0_rhino).
Defined.

Lemma add_del_mtd_partitions_witness :
  exists s1 s2, runs (add_mtd_partitions kalloc_ok idr_next device_fine nand0 rhino_nand_partitions) empty_layer 0 s1 /\
    length (parts s1) = 5%nat /\ runs (del_mtd_partitions nand0) s1 0 s2 /\
    flash s2 = flash empty_layer /\ parts s2 = [] /\ idr s2 = [] /\ live s2 = 0.
Proof.
  apply (add_del_mtd_partitions kalloc_ok idr_next device_fine nand0 rhino_nand_partitions empty_layer nand0_plain).
  - done.
  - apply (rhino_fits nand0 nand0_rhino).
  - intros used. by exists (zlen used).
  - done.
  - split; constructor.
  - constructor.
  - constructor.
Defined.

(** ** Two slaves of it *)
Definition slave (ofs size fl : Z) : mtd_part :=
  new_slave 7 nand0 (mk_partition "part" size ofs 0) 1 ofs size SZ_128K fl 0.
Definition params_slave : mtd_part := slave 0x260000 0x20000 MTD_WRITEABLE.
Definition linux_slave : mtd_part := slave 0x280000 0x500000 MTD_WRITEABLE.
Definition two_blocks : erase_info := mk_erase 0 0x40000 0 0.
Definition one_block : erase_info := mk_erase 0 0x20000 0 0.
Definition bytes0 : bytes := fun a => a mod 251.
Definition erased0 : bytes := snd (part_erase params_slave one_block bytes0).
Definition written0 : bytes := snd (part_write params_slave 5 [1; 2; 3] 0 erased0).

Lemma partition_roundtrip_witness : exists bs s3,
  fst (part_read params_slave 5 3 0 written0) = (0, 3, bs, params_slave) /\ bs = [1; 2; 3] /\
  s3 = snd (part_read params_slave 5 3 0 written0) /\
  changes 0x260000 0x280000 bytes0 s3 /\
  (forall a, 0x280000 <= a < 0x780000 -> cell s3 a = cell bytes0 a).
Proof.
  destruct (partition_roundtrip params_slave linux_slave one_block 5 [1; 2; 3] bytes0
    0 (snd (fst (part_erase params_slave one_block bytes0))) erased0 0 3 written0 0 3 (written0 <$> seqZ (0x260000 + 5) 3) params_slave written0) as (H1 & H2 & H3);
    try reflexivity; try (cbn; lia); try (split; cbn; lia).
  - left. cbn. lia.
  - change (op_ok (Write 5 [1; 2; 3])) with (- 2 ^ 63 <= 5 < 2 ^ 63 /\ 3 < 2 ^ 32). lia.
  - change (5 + 3 <= 0 + 0x20000). lia.
  - exists (written0 <$> seqZ (0x260000 + 5) 3), written0. split; [reflexivity|]. split; [exact H1|].
    split; [reflexivity|]. split; [exact H2|exact H3].
Defined.

Lemma rhino_flash_protected_witness :
  exists ps s1, runs (register_partitions kalloc_ok idr_next device_fine nand0 (0, []) (Some rhino_nand_partitions))
      empty_layer nand0 s1 /\
    parts s1 = rev ps /\ shape_of <$> ps = rhino_shapes nand0 /\
    (exists x u e k, shape_of <$> take 4 ps = [x; u; e; k] /\
       sh_offset u <= NAND_UBOOT_START /\ NAND_UBOOT_END <= sh_offset u + sh_size u /\
       sh_offset e = SMNAND_ENV_OFFSET /\
       sh_offset k <= nandboot_offset /\ nandboot_offset + nandboot_size <= sh_offset k + sh_size k) /\
    (forall ps2 f2, MtdOps.run_ops [(0%nat, Write 0 [1; 2; 3]); (3%nat, Erase two_blocks)] (parts s1) (flash s1) = (ps2, f2) ->
       Forall2 alike (parts s1) ps2 /\ forall a, a < SMNAND_ENV_OFFSET -> cell f2 a = cell (flash empty_layer) a).
Proof.
  apply (rhino_flash_protected kalloc_ok idr_next device_fine nand0 0 [] empty_layer _ nand0_rhino).
  - done.
  - lia.
  - done.
  - repeat constructor; cbn; lia.
Defined.

(** ** Where the layer does not keep partitions apart *)

(** An erase tests its start only: two blocks erased through the partition of the
environment take the first block of the next partition with them. *)
Lemma erase_leaves_partition :
  fst (part_erase params_slave two_blocks bytes0) = (0, mk_erase 0 0x40000 (2 ^ 64 - 0x260000) 1) /\
  cell bytes0 0x280000 <> 255 /\ cell (snd (part_erase params_slave two_blocks bytes0)) 0x280000 = 255.
Proof. split; [reflexivity|]. split; [discriminate|reflexivity]. Qed.

Definition spans (r : res (Z * layer bytes)) : option (Z * list (Z * Z)) :=
  match r with
  | Ok (z, s) => Some (z, (fun p => (offset p, mtd_size (minfo p))) <$> parts s)
  | Fault _ => None
  end.

Definition entry (size : Z) : mtd_partition := mk_partition "p" size MTDPART_OFS_APPEND 0.

(** After an entry that is out of reach the next one starts at 0 again, over the
first one. *)
Lemma out_of_reach_restarts :
  spans (add_mtd_partitions kalloc_ok idr_next device_fine (nand_of (4 * SZ_128K))
    [entry (4 * SZ_128K); entry SZ_128K; entry SZ_128K] empty_layer) =
  Some (0, [(0, SZ_128K); (0, 0); (0, 4 * SZ_128K)]).
Proof. vm_compute. reflexivity. Qed.

(** Only the ends of a new partition are compared with the old ones: one that covers
an old one is added, and one that ends where an old one starts is refused. *)
Lemma add_partition_covers :
  let old := mk_layer (fun a => a) [slave (2 * SZ_128K) SZ_128K MTD_WRITEABLE] [] 100 2 [] : layer bytes in
  spans (mtd_add_partition kalloc_ok idr_next device_fine nand0 "new" 0 (8 * SZ_128K) old) =
    Some (0, [(0, 8 * SZ_128K); (2 * SZ_128K, SZ_128K)]) /\
  spans (mtd_add_partition kalloc_ok idr_next device_fine nand0 "new" 0 (2 * SZ_128K) old) =
    Some (- EINVAL, [(2 * SZ_128K, SZ_128K)]).
Proof. vm_compute. split; reflexivity. Qed.

(** The start of a partition on the next block is computed in 32 bits: behind 4 GiB
it is at the start of the flash. *)
Lemma next_block_wraps :
  let big := mk_dev 1 (mk_mtd 4 MTD_CAP_NANDFLASH (2 ^ 34) SZ_128K 2048 64 32 0 0 2 "nand" 0 []
    (mk_methods false false false false false false false false false false false false false
      false false false false false false false false) false 0 0 0 0) in
  spans (add_mtd_partitions kalloc_ok idr_next device_fine big
    [entry (2 ^ 32 + 2048); mk_partition "q" SZ_128K MTDPART_OFS_NXTBLK 0] empty_layer) =
  Some (0, [(SZ_128K, SZ_128K); (0, 2 ^ 32 + 2048)]).
Proof. vm_compute. reflexivity. Qed.
